(* ===== verification/_CoqProject ===== *)
-Q . S2P
Prelude.v
Value.v
Ids.v
Float32.v
Tags.v
Constructed.v
Writer.v
Apdu.v
Codec.v
Access.v
AccessMultiple.v
Address.v
Npdu.v
Endpoint.v
Bvlc.v
Link.v
Segment.v
SegmentSend.v
ServicePolicy.v
Transaction.v
Bbmd.v
ServerKey.v
Responder.v
ServerPacket.v
Requester.v
Discovery.v
DeviceControl.v
Object.v
Commandable.v
Events.v
Point.v
PointSafety.v
EventDetection.v
PointWitnesses.v
Device.v
DeviceSafety.v
DataHandlers.v
DataService.v
ServerWitnesses.v
PropertyValues.v
CovCodecs.v
CovMultiple.v
AlarmServices.v
EventInformation.v
EnrollmentSummary.v
NotificationParams.v
EventNotification.v
ObjectServices.v
ServiceCodecs.v
ObjectHandlers.v
CovEngine.v
CovSafety.v
CovService.v
CovPoints.v
CovWitnesses.v
ObjectCreation.v
ObjectService.v
NotificationClass.v
RecipientList.v
NotificationWitnesses.v
ServerObjects.v
EventEngine.v
EventLoop.v
EventNotes.v
EventDelivery.v
Hosted.v
EventService.v
EventSummaries.v
EventPages.v
ObjectWitnesses.v
EventWitnesses.v
