(* ===== verification/Prelude.v ===== *)
(** * go-bacnet: a verification development

    go-bacnet is a BACnet/IP client and server library in Go. A frame that
    arrives on the UDP socket is a BVLC message ([bvlc/]) with an NPDU
    ([npdu/]) with an APDU ([apdu/]), whose payload is a sequence of tagged
    values ([tags.go], [constructed.go]) that the service codecs ([service/])
    read and write. The client ([client/]) matches responses to its pending
    transactions; the server ([server/]) answers requests from its object
    model ([server/object/]); the BBMD ([bbmd/]) redistributes broadcasts.
    Paths are those under src/.

    ** How the code is modelled

    The embedding is shallow. Integers are [Z] inside the range of their Go
    type, wrapped with [uwrap]/[swrap] where the code can overflow; octets and
    Go strings are [list Z] ([bytes]); maps are stdpp's [gmap]; [(T, error)] is
    [result T], with the sentinel errors as constructors; a run-time panic is
    [Err Panic]. State is passed explicitly. Goroutines, locks, timers and
    channels are events: a component's state machine takes the time, the
    events or the outcome of what another goroutine does as arguments, and its
    theorems quantify over all of them. Pointers that the code shares are keys
    into an explicit heap ([Transaction.v], [Responder.v]) or into the object
    table ([Device.v]). Loops are structural or have fuel that a theorem shows
    to be enough ([ParseSequence_robust], [client_send_loop],
    [server_send_loop], [create_object]).

    ** The files, in dependency order

    - [Prelude.v]: errors, octets, machine integers, slices, tactics.
    - [Value.v], [Ids.v], [Float32.v]: limits, object identifiers and values
      ([limits.go], [object.go], [value.go]), the numbers of the standard
      ([property.go], [error_names.go]), float32 comparison and addition on bit
      patterns (from the Standard Library's [SpecFloat]).
    - [Tags.v], [Constructed.v], [Writer.v]: tags both ways, nested sequences
      with their limits ([tags.go], [constructed.go]); [Writer.v] is the
      calculus of encoders ("writes these elements") the codecs are proved in.
    - [Apdu.v]: the eight PDU types and error payloads ([apdu/],
      [error_value.go]).
    - [Codec.v], [Access.v], [AccessMultiple.v], [Discovery.v],
      [DeviceControl.v], [PropertyValues.v], [CovCodecs.v], [CovMultiple.v],
      [AlarmServices.v], [EventInformation.v], [EnrollmentSummary.v],
      [NotificationParams.v], [EventNotification.v], [ObjectServices.v],
      [ServiceCodecs.v]: the service codecs; the class
      [Codec] is the contract (round trip and typed decoding) each instance
      discharges.
    - [Address.v], [Npdu.v], [Endpoint.v], [Bvlc.v], [Link.v]: addresses, the
      network and link layers, and the client's inbound path ([address.go],
      [mac.go], [npdu/], [bip/endpoint.go], [bvlc/], [internal/link/],
      [client/client.go]).
    - [Segment.v], [SegmentSend.v]: segmentation and reassembly, and the
      sending loops of client and server ([internal/segment/],
      [client/segment_send.go], [server/responder.go]).
    - [ServicePolicy.v], [Transaction.v]: retransmission policies and the
      client's transaction manager ([client/service_policy.go],
      [client/transaction.go], [client/path.go]).
    - [Bbmd.v]: tables, registration and distribution ([bbmd/bbmd.go]).
    - [ServerKey.v], [Responder.v], [ServerPacket.v]: the server's transaction
      table and replies, its inbound path and service tables
      ([server/packet.go], [server/responder.go], [server/dispatch.go],
      [server/routes.go], the communication control of
      [server/handlers_device.go]). [ServerPacket.v] uses the BBMD through the
      class [BBMDOps] with [BBMDLaws], which [Bbmd.v]'s theorems discharge.
    - [Object.v], [Commandable.v], [Events.v], [Point.v]: the object model
      ([server/object/object.go], [base.go], [commandable.go],
      [intrinsic.go], [point.go]). The closures of a Go [Property] are
      functions on the object's state; [ObjectOps]/[ObjectLaws] is Go's
      interface [Object] with what the Device relies on. [LocalTime] stands
      for the time zone of package time.
    - [PointSafety.v], [EventDetection.v], [PointWitnesses.v]: what points
      guarantee.
    - [Device.v], [DeviceSafety.v]: the Device object and the object table
      ([server/object/device.go]), over any type with [ObjectOps].
    - [DataHandlers.v], [DataService.v], [ServerWitnesses.v]: the data handlers
      ([server/handlers_data.go]) and what a client sees of them.
    - [ObjectHandlers.v], [ObjectCreation.v], [ObjectService.v],
      [ObjectWitnesses.v]: the object handlers ([server/handlers_object.go]),
      what a creation is asked for and what accepts or refuses it, apart from
      the handler, and what a client sees of the services;
      an object with lists is one with [ListOps]/[ListLaws] (Go's
      [ListModifier]).
    - [NotificationClass.v], [RecipientList.v], [NotificationWitnesses.v]: the
      Notification Class ([server/object/notification.go]).
    - [CovEngine.v], [CovSafety.v], [CovService.v], [CovPoints.v],
      [CovWitnesses.v]: COV subscriptions ([server/cov.go]). The engine's
      subscriptions are a heap, every critical section one operation;
      [CovSafety.v] puts them into a step relation with the device, the
      requests and the goroutines, with its invariants. Evaluation reads the
      device in one state: a change that comes meanwhile marks the
      subscription again.
    - [ServerObjects.v], [EventEngine.v]: a device that hosts points and
      Notification Classes side by side, with what intrinsic reporting asks of
      an object ([EventOps]/[EventLaws], Go's [EventReporter]), and the event
      engine with the alarm and event services ([server/events.go]). What is
      sent is a list of [sending]s; a confirmed notification is handed to the
      requester.
    - [Requester.v]: the server's own confirmed requests ([server/requester.go]):
      a shared heap of pending requests, the goroutine of [invoke] and the
      receive loop as steps, with a trace of what was sent and received.
    - [EventLoop.v], [EventNotes.v], [EventDelivery.v], [Hosted.v],
      [EventService.v], [EventSummaries.v], [EventPages.v],
      [EventWitnesses.v]: the loop of the engine as a step relation, the
      notifications of reports, who is sent what, apart from the engine, the
      invariant of the device, and what operators and clients get.

    ** What the theorems show

    - Codecs: parsers accept exactly the encodings of well-formed values, never
      panic on any octets and invert the encoders ([apdu_Parse_exact],
      [npdu_Parse_exact], [bvlc_Parse_exact], [sequence_roundtrip],
      [application_value_roundtrip], [property_services_roundtrip],
      [alarm_services_roundtrip], [service_decoders_typed],
      [stack_roundtrip]).
    - Segmentation: what is cut and sent reassembles under loss, repetition
      and reordering, and the send loops end ([client_segments_reassemble],
      [client_send_loop], [segmented_request_served], ...).
    - Transactions: invoke IDs, timers, results ([transactions_safe],
      [completion_once], [retransmission_bounded], [responder_safe],
      [requester_safe], ...).
    - Network: distribution, registration and guards of the BBMD, the server's
      and the client's inbound paths ([distribution_exact], [bbmd_safe],
      [server_inbound_total], [reply_reaches_requester], ...).
    - Objects: a commandable point refines an abstract command prioritisation
      ([commandable_point_refines]); values and event states stay in their
      families; event detection honours the time delay and reports standing
      conditions; reports can be acknowledged; the object table keeps
      identifiers and names unique ([device_table], [create_object]);
      recipients are added, removed and routed as the standard says
      ([recipient_list_changes], [notification_class_safe]).
    - Composition: commands written by a client through the codecs, the
      handlers and the table ([network_commands]); multiple reads and writes
      against single ones; discovery; creation is atomic and names the initial
      value that failed, deletion and list changes are exact
      ([create_object_atomic], [delete_object_exact], [list_change_served]).
    - COV: no change that is reported to the observers is lost and the engine
      comes to rest
      ([cov_no_lost_change], [cov_drains]); requests act on their own
      subscription only ([subscribe_cov_exact], [cov_requests_are_steps]);
      notifications decode to the values of the device
      ([cov_notification_exact]); points report what they change
      ([point_writes_reported]).
    - Events: no change is lost between marking and evaluation
      ([event_engine_safe]); a report is sent to exactly the destinations its
      Notification Class has active for it, which decode what happened, or
      are looked for when their address is not known
      ([event_notification_delivered]); an operator can acknowledge it over
      the wire ([alarm_acknowledged]); summaries are exact
      ([event_summaries_exact]) and event information is complete over several
      answers ([event_information_collected]).

    ** Granularity

    A critical section is one step. Where the code goes on after it has
    released the mutex, the model often takes that in: [complete] and
    [abortAll] stop timers and publish results after [Unlock], [mark] sends on
    the channel after it ([Transaction.v], [EventEngine.v]). The states in
    between, in which only the goroutine that left the critical section goes
    on, are left out; they delay what follows. Evaluations of the COV engine read
    the device in one state. The optional bodies of Go's
    [NotificationParameters] are one option, the first that the encoder would
    take; the error of a property result is its class and code, so that an
    error that is not an [ErrorResponse], which the encoder refuses, is not
    representable.

    ** Bounds and fuel

    [ParseSequence] takes the length of its input plus one as fuel: every
    element consumes an octet. [itoa] has ten digits, enough for a uint32. The
    searches of [Create] take one more step than the table has keys, which is
    enough by the pigeonhole principle. The fill loop of the client's sender
    has one step per segment of the message, the invoke ID
    search one per identifier, and the table decoders of [Bvlc.v] one per
    entry; the other recursions are structural.

    ** Not modelled

    Sockets and interface enumeration (pure I/O), logging, the worker pool and
    the scheduling of goroutines (nondeterminism of the step relations), text
    conversion of character sets and display names other than those of object
    types, test support and examples. The codecs of the file, range, log,
    audit, messaging, life safety and virtual terminal services; the calendar,
    schedule, trend log, file and value objects; the client's registry, segment receiver, streams
    and typed wrappers: they stand beside what is modelled, over the same
    codecs and packet paths, and nothing here depends on them. *)

From Stdlib Require Import ZArith Lia.
From stdpp Require Import base list gmap.

#[global] Open Scope Z_scope.

(** ** Errors and results

    A Go function that returns [(T, error)] becomes a function to [result T].
    The error is the sentinel the code wraps with [%w]; the text is dropped,
    and [ErrOther] is an error without a sentinel. [ErrUndefinedEnumeration]
    itself wraps [ErrMalformed]. [ErrResponse] is a [*bacnet.ErrorResponse] of
    the object model, with its class and code.
    [Panic] is a Go run-time panic (an index or a slice out of range), and
    [OutOfFuel] is no behaviour of the code: it marks a fuel-bounded
    definition whose fuel ran out. *)
Inductive error :=
| ErrMalformed
| ErrUnsupported
| ErrTrailingData
| ErrLimitExceeded
| ErrAPDUTooLarge
| ErrProtocolViolation
| ErrInvalidConfig
| ErrDeviceManagementDisabled
| ErrUndefinedEnumeration
| ErrResponse (class code : Z)
| ErrOther
| Panic
| OutOfFuel.

Inductive result (A : Type) :=
| Ok (a : A)
| Err (e : error).
Arguments Ok {A} _.
Arguments Err {A} _.

Definition bind {A B} (m : result A) (f : A -> result B) : result B :=
  match m with
  | Ok a => f a
  | Err e => Err e
  end.

Definition isOk {A} (r : result A) : bool := match r with Ok _ => true | Err _ => false end.

Declare Scope go_scope.
Delimit Scope go_scope with go.
#[global] Open Scope go_scope.

Notation "'let*' x ':=' m 'in' k" := (bind m (fun x => k))
  (at level 10, x pattern, m at level 100, k at level 200,
   format "'[v' 'let*'  x  ':='  m  'in' '//' k ']'") : go_scope.

#[global] Instance error_eq_dec : EqDecision error.
Proof. solve_decision. Defined.

(** [if b { return err }] in the source. *)
Definition guard_err (b : bool) (e : error) : result unit :=
  if b then Err e else Ok tt.

(** ** Machine integers

    An integer of width [w] is a [Z]; conversions and shifts that can drop
    bits are written with [uwrap]/[swrap]. *)
Definition uwrap (w z : Z) : Z := z mod 2 ^ w.
Definition swrap (w z : Z) : Z := (z + 2 ^ (w - 1)) mod 2 ^ w - 2 ^ (w - 1).
Abbreviation u8 := (uwrap 8).
Abbreviation u16 := (uwrap 16).
Abbreviation u32 := (uwrap 32).
Abbreviation u64 := (uwrap 64).
Abbreviation s64 := (swrap 64).

Definition is_u (w z : Z) : Prop := 0 <= z < 2 ^ w.
Definition is_s (w z : Z) : Prop := - 2 ^ (w - 1) <= z < 2 ^ (w - 1).
Abbreviation is_byte := (is_u 8).

(** [x & mask != 0] *)
Definition bit (x mask : Z) : bool := negb (Z.land x mask =? 0).

(** ** Octet strings

    A [[]byte] or [string] is the list of its octets. *)
Abbreviation bytes := (list Z).
Abbreviation bytes_ok := (Forall (is_u 8)).

(** Go's [len], an [int]. *)
Definition len {A} (l : list A) : Z := Z.of_nat (length l).

(** Go's [l[i]]: a run-time panic out of range. *)
Definition index {A} (l : list A) (i : Z) : result A :=
  if i <? 0 then Err Panic
  else match l !! Z.to_nat i with
       | Some b => Ok b
       | None => Err Panic
       end.

(** Go's [l[lo:]] and [l[lo:hi]]. *)
Definition slice_from {A} (l : list A) (lo : Z) : result (list A) :=
  if (0 <=? lo) && (lo <=? len l) then Ok (drop (Z.to_nat lo) l) else Err Panic.
Definition slice {A} (l : list A) (lo hi : Z) : result (list A) :=
  if (0 <=? lo) && (lo <=? hi) && (hi <=? len l)
  then Ok (take (Z.to_nat (hi - lo)) (drop (Z.to_nat lo) l))
  else Err Panic.

(** encoding/binary.BigEndian: [be_get] reads a big-endian number,
    [be_put n v] writes the low [n] octets of [v]. *)
Definition be_step (acc b : Z) : Z := acc * 256 + b.
Definition be_get (l : bytes) : Z := fold_left be_step l 0.
Fixpoint be_put (n : nat) (v : Z) : bytes :=
  match n with
  | O => []
  | S n => (v / 256 ^ Z.of_nat n) mod 256 :: be_put n v
  end.

(** ** Automation *)
Create Rewrite HintDb len.
Create HintDb go discriminated.

(** Turns boolean tests of the code into arithmetic facts. *)
Ltac bool_to_prop :=
  repeat match goal with
  | H : (_ && _)%bool = true |- _ => apply andb_true_iff in H; destruct H
  | H : (_ || _)%bool = false |- _ => apply orb_false_iff in H; destruct H
  | H : (_ && _)%bool = false |- _ => apply andb_false_iff in H
  | H : (_ || _)%bool = true |- _ => apply orb_true_iff in H
  | H : negb _ = true |- _ => apply negb_true_iff in H
  | H : negb _ = false |- _ => apply negb_false_iff in H
  | H : (_ <? _) = true |- _ => apply Z.ltb_lt in H
  | H : (_ <? _) = false |- _ => apply Z.ltb_ge in H
  | H : (_ >? _) = _ |- _ => rewrite Z.gtb_ltb in H
  | H : (_ >=? _) = _ |- _ => rewrite Z.geb_leb in H
  | H : (_ <=? _) = true |- _ => apply Z.leb_le in H
  | H : (_ <=? _) = false |- _ => apply Z.leb_gt in H
  | H : (_ =? _) = true |- _ => apply Z.eqb_eq in H
  | H : (_ =? _) = false |- _ => apply Z.eqb_neq in H
  | H : _ \/ _ |- _ => destruct H
  end.

(** Case split on the outermost test of a hypothesis about the code. *)
Ltac step_if H :=
  lazymatch type of H with
  | (if ?b then _ else _) = _ => let E := fresh "E" in destruct b eqn:E
  end.

(** ** Result lemmas *)
Lemma bind_Ok_inv {A B} (m : result A) (f : A -> result B) b :
  bind m f = Ok b -> exists a, m = Ok a /\ f a = Ok b.
Proof. destruct m; simpl; [eauto | discriminate]. Qed.

Lemma bind_Err_inv {A B} (m : result A) (f : A -> result B) e :
  bind m f = Err e -> m = Err e \/ exists a, m = Ok a /\ f a = Err e.
Proof. destruct m; simpl; intros H; [right; eauto | left; congruence]. Qed.

Lemma bind_assoc {A B C} (m : result A) (f : A -> result B) (g : B -> result C) :
  bind (bind m f) g = bind m (fun a => bind (f a) g).
Proof. by destruct m. Qed.

Lemma bind_Ok_l {A B} (a : A) (f : A -> result B) : bind (Ok a) f = f a.
Proof. done. Qed.

(** Inverts a successful computation one step at a time. *)
Ltac inv_ok H :=
  lazymatch type of H with
  | bind _ _ = Ok _ =>
      let a := fresh "r" in let E := fresh "E" in
      apply bind_Ok_inv in H; destruct H as (a & E & H);
      try (match type of a with (_ * _)%type => destruct a as [? ?] end); cbn beta iota in H
  | Ok _ = Ok _ => injection H as H
  | Err _ = Ok _ => discriminate H
  end.

(** Inverts a successful computation, tests and binds, to the end. *)
Ltac inv_all H := cbv zeta in H; repeat (step_if H || inv_ok H; cbv zeta in H); bool_to_prop.

(** ** Integer lemmas *)
Lemma uwrap_small w z : is_u w z -> uwrap w z = z.
Proof. intros. by apply Z.mod_small. Qed.

Lemma uwrap_range w z : 0 <= w -> is_u w (uwrap w z).
Proof. intros. apply Z.mod_pos_bound. lia. Qed.

Lemma swrap_small w z : 0 < w -> is_s w z -> swrap w z = z.
Proof.
  unfold is_s, swrap. intros Hw Hz.
  replace (2 ^ w) with (2 * 2 ^ (w - 1)) by (rewrite <- Z.pow_succ_r by lia; f_equal; lia).
  rewrite Z.mod_small; lia.
Qed.

Lemma is_u_mono w w' z : w <= w' -> is_u w z -> is_u w' z.
Proof.
  unfold is_u. intros Hw [Hl Hu].
  destruct (Z.le_gt_cases 0 w) as [Hw0|Hw0].
  - pose proof (Z.pow_le_mono_r 2 w w'). lia.
  - rewrite Z.pow_neg_r in Hu by lia. lia.
Qed.

(** [a << n | b] is addition when [b] fits below bit [n]. *)
Lemma lor_shiftl_add n a b :
  0 <= n -> 0 <= b < 2 ^ n -> Z.lor (Z.shiftl a n) b = a * 2 ^ n + b.
Proof.
  intros Hn Hb.
  assert (Z.land (Z.shiftl a n) b = 0) as Hd.
  { apply Z.bits_inj'. intros i Hi. rewrite Z.land_spec, Z.bits_0.
    destruct (Z.lt_ge_cases i n) as [Hin|Hin].
    - by rewrite Z.shiftl_spec_low.
    - rewrite <- (Z.mod_small b (2 ^ n)) by done.
      rewrite Z.mod_pow2_bits_high by lia. apply andb_false_r. }
  pose proof (Z.add_lor_land (Z.shiftl a n) b) as Hs.
  rewrite Hd, Z.shiftl_mul_pow2 in Hs by done.
  rewrite Z.shiftl_mul_pow2 by done. lia.
Qed.

Lemma land_ones_mod a n m : 0 <= n -> m = 2 ^ n - 1 -> Z.land a m = a mod 2 ^ n.
Proof. intros Hn ->. rewrite <- Z.land_ones by done. by rewrite Z.ones_equiv. Qed.

Lemma byte_of_shift v n : 0 <= n -> u8 (Z.land (Z.shiftr v n) 0xFF) = (v / 2 ^ n) mod 256.
Proof.
  intros Hn. rewrite (land_ones_mod _ 8), Z.shiftr_div_pow2 by done.
  unfold uwrap. by rewrite Zmod_mod.
Qed.

(** A property of a small range is settled by computation. *)
Lemma forall_range (P : Z -> bool) n z :
  forallb P (seqZ 0 n) = true -> 0 <= z < n -> P z = true.
Proof.
  intros H Hz. rewrite forallb_forall in H. apply H.
  apply list_elem_of_In, elem_of_seqZ. lia.
Qed.

(** ** Lists and octet strings *)
Lemma len_nonneg {A} (l : list A) : 0 <= len l.
Proof. unfold len. lia. Qed.

Lemma len_nil {A} : len (@nil A) = 0.
Proof. done. Qed.

Lemma len_cons {A} (x : A) l : len (x :: l) = 1 + len l.
Proof. unfold len. simpl. lia. Qed.

Lemma len_app {A} (l k : list A) : len (l ++ k) = len l + len k.
Proof. unfold len. rewrite length_app. lia. Qed.

Lemma length_be_put n v : length (be_put n v) = n.
Proof. induction n; simpl; congruence. Qed.

Lemma len_be_put n v : len (be_put n v) = Z.of_nat n.
Proof. unfold len. by rewrite length_be_put. Qed.

Lemma len_zero_nil {A} (l : list A) : len l = 0 -> l = [].
Proof. unfold len. intros. apply nil_length_inv. lia. Qed.

Lemma Z_to_nat_len {A} (l : list A) : Z.to_nat (len l) = length l.
Proof. unfold len. lia. Qed.

#[export] Hint Rewrite @len_nil @len_cons @len_app len_be_put : len.

Ltac len_simpl := autorewrite with len in *.
(** Arithmetic about lengths, with every [len] non-negative. *)
Ltac len_lia :=
  autorewrite with len in *;
  repeat match goal with
  | |- context [len ?l] => lazymatch goal with H : 0 <= len l |- _ => fail | _ => pose proof (len_nonneg l) end
  | _ : context [len ?l] |- _ => lazymatch goal with H : 0 <= len l |- _ => fail | _ => pose proof (len_nonneg l) end
  end; lia.

(** Decides a closed-form boolean test of the goal from the context. *)
Ltac decide_test :=
  match goal with
  | |- context [?a <? ?b] =>
      first [ rewrite (proj2 (Z.ltb_lt a b)) by len_lia | rewrite (proj2 (Z.ltb_ge a b)) by len_lia ]
  | |- context [?a <=? ?b] =>
      first [ rewrite (proj2 (Z.leb_le a b)) by len_lia | rewrite (proj2 (Z.leb_gt a b)) by len_lia ]
  | |- context [?a =? ?b] =>
      first [ rewrite (proj2 (Z.eqb_eq a b)) by len_lia | rewrite (proj2 (Z.eqb_neq a b)) by len_lia ]
  | |- context [?a >? ?b] => rewrite (Z.gtb_ltb a b)
  | |- context [?a >=? ?b] => rewrite (Z.geb_leb a b)
  end.
Ltac decide_tests := repeat (decide_test; cbn [andb orb negb]).

Lemma slice_from_app {A} (l k : list A) n : n = len l -> slice_from (l ++ k) n = Ok k.
Proof.
  intros ->. unfold slice_from. decide_tests.
  by rewrite Z_to_nat_len, drop_app_length.
Qed.

Lemma slice_app {A} (l k m : list A) lo hi :
  lo = len l -> hi = len l + len k -> slice (l ++ k ++ m) lo hi = Ok k.
Proof.
  intros -> ->. unfold slice. decide_tests.
  rewrite Z_to_nat_len, drop_app_length.
  replace (Z.to_nat (len l + len k - len l)) with (length k) by (unfold len; lia).
  by rewrite take_app_length.
Qed.

Lemma index_app {A} (l : list A) x k i : i = len l -> index (l ++ x :: k) i = Ok x.
Proof.
  intros ->. unfold index. decide_tests.
  by rewrite Z_to_nat_len, list_lookup_middle.
Qed.

Lemma index_0 {A} (x : A) l : index (x :: l) 0 = Ok x.
Proof. done. Qed.

Lemma index_1 {A} (x y : A) l : index (x :: y :: l) 1 = Ok y.
Proof. done. Qed.

Lemma index_2 {A} (a b x : A) l : index (a :: b :: x :: l) 2 = Ok x.
Proof. done. Qed.

Lemma index_3 {A} (a b c x : A) l : index (a :: b :: c :: x :: l) 3 = Ok x.
Proof. done. Qed.

Lemma index_4 {A} (a b c d x : A) l : index (a :: b :: c :: d :: x :: l) 4 = Ok x.
Proof. done. Qed.

Lemma index_5 {A} (a b c d e x : A) l : index (a :: b :: c :: d :: e :: x :: l) 5 = Ok x.
Proof. done. Qed.

(** Reads of an explicit prefix. *)
Create Rewrite HintDb read.
#[export] Hint Rewrite @index_0 @index_1 @index_2 @index_3 @index_4 @index_5 @bind_Ok_l : read.
Ltac read_simpl := autorewrite with read.

Lemma slice_from_1 {A} (x : A) l : slice_from (x :: l) 1 = Ok l.
Proof. apply (slice_from_app [x]). done. Qed.

Lemma index_total {A} (l : list A) i : 0 <= i < len l -> exists x, index l i = Ok x /\ l !! Z.to_nat i = Some x.
Proof.
  intros Hi. unfold index. decide_tests. unfold len in Hi.
  destruct (lookup_lt_is_Some_2 l (Z.to_nat i)) as [x Hx]; [lia|].
  exists x. by rewrite Hx.
Qed.

Lemma slice_from_total {A} (l : list A) lo : 0 <= lo <= len l -> slice_from l lo = Ok (drop (Z.to_nat lo) l).
Proof. intros. unfold slice_from. by decide_tests. Qed.

(** The tail of an explicit prefix. *)
Lemma slice_from_tail {A} (l r : list A) lo :
  drop (Z.to_nat lo) l = r -> 0 <= lo -> lo + len r = len l -> slice_from l lo = Ok r.
Proof. intros <- H0 H1. apply slice_from_total. len_lia. Qed.

Lemma slice_total {A} (l : list A) lo hi :
  0 <= lo <= hi -> hi <= len l -> slice l lo hi = Ok (take (Z.to_nat (hi - lo)) (drop (Z.to_nat lo) l)).
Proof. intros. unfold slice. by decide_tests. Qed.

Lemma slice_from_Ok {A} (l r : list A) lo :
  slice_from l lo = Ok r -> 0 <= lo <= len l /\ r = drop (Z.to_nat lo) l /\ len r = len l - lo.
Proof.
  unfold slice_from. destruct (_ && _) eqn:E; [|done]. bool_to_prop.
  intros [= <-]. split_and!; try done. unfold len in *. rewrite length_drop. lia.
Qed.

Lemma slice_Ok {A} (l r : list A) lo hi :
  slice l lo hi = Ok r ->
  0 <= lo <= hi /\ hi <= len l /\ r = take (Z.to_nat (hi - lo)) (drop (Z.to_nat lo) l) /\ len r = hi - lo.
Proof.
  unfold slice. destruct (_ && _) eqn:E; [|done]. bool_to_prop.
  intros [= <-]. split_and!; try done. unfold len in *. rewrite length_take, length_drop. lia.
Qed.

Lemma index_Ok {A} (l : list A) i x : index l i = Ok x -> 0 <= i < len l /\ x ∈ l.
Proof.
  unfold index, len. destruct (i <? 0) eqn:E; [done|].
  destruct (l !! _) eqn:El; [|done]. intros [= ->]. bool_to_prop.
  apply lookup_lt_Some in El as Hl. split; [lia|]. by eapply list_elem_of_lookup_2.
Qed.

Lemma slice_from_bytes_ok (l r : bytes) lo : slice_from l lo = Ok r -> bytes_ok l -> bytes_ok r.
Proof. intros (_ & -> & _)%slice_from_Ok. apply Forall_drop. Qed.

Lemma slice_bytes_ok (l r : bytes) lo hi : slice l lo hi = Ok r -> bytes_ok l -> bytes_ok r.
Proof. intros (_ & _ & -> & _)%slice_Ok Hl. by apply Forall_take, Forall_drop. Qed.

Lemma index_bytes_ok (l : bytes) i x : index l i = Ok x -> bytes_ok l -> is_byte x.
Proof. intros (_ & Hx)%index_Ok Hl. by eapply Forall_forall in Hl. Qed.

#[export] Hint Resolve slice_from_bytes_ok slice_bytes_ok index_bytes_ok : go.

Lemma be_put_bytes_ok n v : bytes_ok (be_put n v).
Proof. induction n; simpl; constructor; auto. apply (Z.mod_pos_bound _ 256). lia. Qed.
#[export] Hint Resolve be_put_bytes_ok : go.

Lemma fold_be_step l acc : fold_left be_step l acc = acc * 256 ^ len l + be_get l.
Proof.
  revert acc. induction l as [|b l IH]; intros acc; cbn [fold_left].
  - unfold be_get. simpl. rewrite len_nil. lia.
  - unfold be_get. cbn [fold_left]. rewrite !IH. unfold be_step. rewrite len_cons, Z.pow_add_r by len_lia. lia.
Qed.

Lemma be_get_cons b l : be_get (b :: l) = b * 256 ^ len l + be_get l.
Proof. unfold be_get at 1. cbn [fold_left]. rewrite fold_be_step. unfold be_step. lia. Qed.

Lemma be_get_snoc l b : be_get (l ++ [b]) = be_get l * 256 + b.
Proof. unfold be_get. rewrite fold_left_app. done. Qed.

Lemma be_get_bound l : bytes_ok l -> 0 <= be_get l < 256 ^ len l.
Proof.
  induction 1 as [|b l Hb Hl IH]; [done|].
  rewrite be_get_cons, len_cons, Z.pow_add_r by len_lia. unfold is_u in Hb. nia.
Qed.

Lemma be_get_be_put n v : be_get (be_put n v) = v mod 256 ^ Z.of_nat n.
Proof.
  induction n as [|n IH]; cbn [be_put].
  - by rewrite Z.mod_1_r.
  - rewrite be_get_cons, len_be_put, IH, Nat2Z.inj_succ, Z.pow_succ_r by lia.
    rewrite (Z.mul_comm 256 (256 ^ _)), Z.rem_mul_r by lia. lia.
Qed.

Lemma be_put_mod n v k : (n <= k)%nat -> be_put n (v mod 256 ^ Z.of_nat k) = be_put n v.
Proof.
  intros Hk. induction n as [|n IH]; cbn [be_put]; [done|]. rewrite IH by lia. f_equal.
  replace (Z.of_nat k) with (Z.of_nat n + (1 + (Z.of_nat k - Z.of_nat n - 1))) by lia.
  rewrite !Z.pow_add_r by lia. change (256 ^ 1) with 256.
  set (p := 256 ^ Z.of_nat n). set (q := 256 ^ _). assert (0 < p /\ 0 < q) as [Hp Hq] by (subst p q; lia).
  rewrite (Z.rem_mul_r v p) by lia. rewrite (Z.mul_comm p (_ mod _)), Z.div_add by lia.
  rewrite (Z.div_small (v mod p)) by (apply Z.mod_pos_bound; lia).
  rewrite Z.add_0_l, Z.rem_mul_r by lia. by rewrite (Z.mul_comm 256), Z_mod_plus_full, Zmod_mod.
Qed.

Lemma be_put_be_get l : bytes_ok l -> be_put (length l) (be_get l) = l.
Proof.
  induction 1 as [|b l Hb Hl IH]; [done|]. cbn [length be_put].
  pose proof (be_get_bound l Hl) as Hg. unfold len in *. f_equal.
  - rewrite be_get_cons. rewrite Z.div_add_l by lia.
    rewrite Z.div_small, Z.add_0_r by (unfold len; lia). by apply Z.mod_small.
  - etransitivity; [|exact IH]. rewrite be_get_cons.
    rewrite <- (be_put_mod _ (b * _ + _) (length l)) by lia.
    f_equal. unfold len. rewrite (Z.add_comm (b * _)), Z_mod_plus_full. by apply Z.mod_small.
Qed.

Lemma be_put_len n l : bytes_ok l -> len l = Z.of_nat n -> be_put n (be_get l) = l.
Proof. intros Hok Hl. replace n with (length l) by (unfold len in Hl; lia). by apply be_put_be_get. Qed.

Lemma be_get_len_bound l : bytes_ok l -> len l = 2 -> is_u 16 (be_get l).
Proof. intros Hok Hl. pose proof (be_get_bound l Hok) as H. by rewrite Hl in H. Qed.

Lemma be_get_put16 v : is_u 16 v -> be_get (be_put 2 v) = v.
Proof. intros Hv. rewrite be_get_be_put. by apply Z.mod_small. Qed.

(** Proves that an explicit octet string is one. *)
Ltac solve_bytes :=
  repeat match goal with
  | |- Forall _ [] => apply List.Forall_nil
  | |- Forall _ (_ :: _) => apply List.Forall_cons
  | |- Forall _ (_ ++ _) => apply Forall_app; split
  end; auto with go; try (unfold is_u in *; lia).

(** ** Absence of run-time panics

    [safe r]: the computation neither panicked nor ran out of fuel. *)
Definition safe {A} (r : result A) : Prop :=
  match r with
  | Err Panic | Err OutOfFuel => False
  | _ => True
  end.

Lemma safe_bind {A B} (m : result A) (f : A -> result B) :
  safe m -> (forall a, m = Ok a -> safe (f a)) -> safe (bind m f).
Proof. destruct m as [a|[]]; simpl; auto. Qed.

Lemma safe_index {A} (l : list A) i : 0 <= i < len l -> safe (index l i).
Proof. intros Hi. by destruct (index_total l i Hi) as (x & -> & _). Qed.

Lemma safe_slice_from {A} (l : list A) lo : 0 <= lo <= len l -> safe (slice_from l lo).
Proof. intros. by rewrite slice_from_total. Qed.

Lemma safe_slice {A} (l : list A) lo hi : 0 <= lo <= hi -> hi <= len l -> safe (slice l lo hi).
Proof. intros. by rewrite slice_total. Qed.

#[export] Hint Resolve safe_index safe_slice_from safe_slice : go.

(** Walks through a handler, leaving the obligations the code must have
    established with its guards. *)
Ltac safe_step :=
  match goal with
  | |- safe (Ok _) => exact I
  | |- safe (Err _) => exact I
  | |- safe (bind _ _) => apply safe_bind; [|intros ? ?]
  | |- safe (if ?b then _ else _) => let E := fresh "E" in destruct b eqn:E; bool_to_prop
  | |- safe (match ?p with (_, _) => _ end) => destruct p
  | |- safe (index _ _) => apply safe_index; len_lia
  | |- safe (slice_from _ _) => apply safe_slice_from; len_lia
  | |- safe (slice _ _ _) => apply safe_slice; len_lia
  end.
Ltac safe_steps := cbv zeta; repeat (safe_step; cbn beta iota zeta); auto with go.
(** ** Reading at a cursor

    A parser at offset [len pre] of [pre ++ suf] sees only [suf]. *)
Lemma index_cursor {A} (pre suf : list A) off k :
  off = len pre + k -> 0 <= k -> index (pre ++ suf) off = index suf k.
Proof.
  intros -> Hk. unfold index. decide_test. decide_test.
  rewrite lookup_app_r by (unfold len; lia).
  by replace (Z.to_nat (len pre + k) - length pre)%nat with (Z.to_nat k) by (unfold len; lia).
Qed.

Lemma slice_from_cursor {A} (pre suf : list A) off k :
  off = len pre + k -> 0 <= k -> slice_from (pre ++ suf) off = slice_from suf k.
Proof.
  intros -> Hk. unfold slice_from. rewrite len_app, drop_app_ge by (unfold len; lia).
  replace (Z.to_nat (len pre + k) - length pre)%nat with (Z.to_nat k) by (unfold len; lia).
  replace (0 <=? len pre + k) with (0 <=? k) by (pose proof (len_nonneg pre); lia).
  by replace (len pre + k <=? len pre + len suf) with (k <=? len suf) by lia.
Qed.

Lemma slice_cursor {A} (pre suf : list A) lo hi a b :
  lo = len pre + a -> hi = len pre + b -> 0 <= a -> slice (pre ++ suf) lo hi = slice suf a b.
Proof.
  intros -> -> Ha. unfold slice. rewrite len_app, drop_app_ge by (unfold len; lia).
  replace (Z.to_nat (len pre + a) - length pre)%nat with (Z.to_nat a) by (unfold len; lia).
  replace (len pre + b - (len pre + a)) with (b - a) by lia.
  replace (0 <=? len pre + a) with (0 <=? a) by (pose proof (len_nonneg pre); lia).
  replace (len pre + a <=? len pre + b) with (a <=? b) by lia.
  by replace (len pre + b <=? len pre + len suf) with (b <=? len suf) by lia.
Qed.

Lemma slice_prefix {A} (l k : list A) n : n = len l -> slice (l ++ k) 0 n = Ok l.
Proof. intros ->. apply (slice_app [] l k); len_lia. Qed.
