(* ===== verification/Value.v ===== *)
(** * Values, object identifiers and decode limits

    The data model of the root package: [limits.go], [object.go] and
    [value.go]. A [float32]/[float64] is represented by its IEEE 754 bit
    pattern ([math.Float32bits] and its inverse are the identity on it); a
    [string] is the list of its octets; a nil slice and an empty slice are
    both []. Integer fields are [Z] with the width in [*_ok]. *)

From Stdlib Require Import ZArith Lia.
From stdpp Require Import base list.
From S2P Require Import Prelude.

(** ** limits.go *)
Record DecodeLimits := mkLimits {
  MaxDatagramSize : Z;
  MaxAPDUSize : Z;
  MaxConstructedDepth : Z;
  MaxElements : Z;
  MaxOctetStringLength : Z;
  MaxCharacterLength : Z;
  MaxBitStringBits : Z;
  MaxSegments : Z;
  MaxReassembledAPDU : Z
}.

Definition DefaultDecodeLimits : DecodeLimits := {|
  MaxDatagramSize := 65535;
  MaxAPDUSize := 1476;
  MaxConstructedDepth := 32;
  MaxElements := 4096;
  MaxOctetStringLength := 65535;
  MaxCharacterLength := 65535;
  MaxBitStringBits := 65535;
  MaxSegments := 64;
  MaxReassembledAPDU := 65535
|}.

Definition withDefaults (l : DecodeLimits) : DecodeLimits :=
  let d := DefaultDecodeLimits in
  let pick (f : DecodeLimits -> Z) := if f l <=? 0 then f d else f l in
  {| MaxDatagramSize := pick MaxDatagramSize;
     MaxAPDUSize := pick MaxAPDUSize;
     MaxConstructedDepth := pick MaxConstructedDepth;
     MaxElements := pick MaxElements;
     MaxOctetStringLength := pick MaxOctetStringLength;
     MaxCharacterLength := pick MaxCharacterLength;
     MaxBitStringBits := pick MaxBitStringBits;
     MaxSegments := pick MaxSegments;
     MaxReassembledAPDU := pick MaxReassembledAPDU |}.

Definition Normalize (l : DecodeLimits) : DecodeLimits := withDefaults l.

(** ** object.go *)
Definition MaxObjectInstance : Z := 0x3FFFFF.
Definition WildcardInstance : Z := MaxObjectInstance.
Definition ObjectTypeDevice : Z := 8.

Record ObjectIdentifier := mkObjectID { oid_Type : Z; oid_Instance : Z }.

#[global] Instance ObjectIdentifier_eq_dec : EqDecision ObjectIdentifier.
Proof. solve_decision. Defined.

Definition AnyDevice : ObjectIdentifier := mkObjectID ObjectTypeDevice WildcardInstance.

Definition Matches (id got : ObjectIdentifier) : bool :=
  bool_decide (id = got) ||
  ((oid_Type id =? ObjectTypeDevice) && (oid_Instance id =? WildcardInstance)
   && (oid_Type got =? ObjectTypeDevice)).

Definition EncodeObjectIdentifier (id : ObjectIdentifier) : result Z :=
  if oid_Type id >? 0x3FF then Err ErrMalformed
  else if oid_Instance id >? MaxObjectInstance then Err ErrMalformed
  else Ok (Z.lor (u32 (Z.shiftl (oid_Type id) 22)) (oid_Instance id)).

Definition DecodeObjectIdentifier (v : Z) : ObjectIdentifier :=
  {| oid_Type := u16 (Z.shiftr v 22); oid_Instance := Z.land v MaxObjectInstance |}.

Definition AppendObjectIdentifier (dst : bytes) (id : ObjectIdentifier) : result bytes :=
  let* v := EncodeObjectIdentifier id in Ok (dst ++ be_put 4 v).

(** ** value.go: application tags *)
Definition TagNull : Z := 0.
Definition TagBoolean : Z := 1.
Definition TagUnsigned : Z := 2.
Definition TagSigned : Z := 3.
Definition TagReal : Z := 4.
Definition TagDouble : Z := 5.
Definition TagOctetString : Z := 6.
Definition TagCharacterString : Z := 7.
Definition TagBitString : Z := 8.
Definition TagEnumerated : Z := 9.
Definition TagDate : Z := 10.
Definition TagTime : Z := 11.
Definition TagObjectIdentifier : Z := 12.

(** ** value.go: values *)
Record CharacterString := mkCharacterString { cs_Encoding : Z; cs_Value : bytes }.
Record BitString := mkBitString { bs_UnusedBits : Z; bs_Bytes : bytes }.
Record Date := mkDate { d_Year : Z; d_Month : Z; d_Day : Z; d_Weekday : Z }.
Record Time := mkTime { t_Hour : Z; t_Minute : Z; t_Second : Z; t_Hundredths : Z }.

Inductive ValueKind :=
| ValueNull
| ValueBoolean
| ValueUnsigned
| ValueSigned
| ValueReal
| ValueDouble
| ValueOctetString
| ValueCharacterString
| ValueBitString
| ValueEnumerated
| ValueDate
| ValueTime
| ValueObjectID
| ValueConstructed
| ValueContext.

#[global] Instance ValueKind_eq_dec : EqDecision ValueKind.
Proof. solve_decision. Defined.

(** The struct has every field; [Kind] says which one counts. *)
Inductive ApplicationValue := mkAV {
  av_Kind : ValueKind;
  av_Boolean : bool;
  av_Unsigned : Z;
  av_Signed : Z;
  av_Real : Z;
  av_Double : Z;
  av_OctetString : bytes;
  av_Character : CharacterString;
  av_BitString : BitString;
  av_Enumerated : Z;
  av_Date : Date;
  av_Time : Time;
  av_ObjectID : ObjectIdentifier;
  av_Elements : list Element
}
with Element := mkElement {
  el_Context : bool;
  el_TagNumber : Z;
  el_Opening : bool;
  el_Closing : bool;
  el_Value : ApplicationValue
}.

(** Go's zero values. *)
Definition zeroCharacter := mkCharacterString 0 [].
Definition zeroBitString := mkBitString 0 [].
Definition zeroDate := mkDate 0 0 0 0.
Definition zeroTime := mkTime 0 0 0 0.
Definition zeroObjectID := mkObjectID 0 0.
Definition zeroAV (k : ValueKind) : ApplicationValue :=
  mkAV k false 0 0 0 0 [] zeroCharacter zeroBitString 0 zeroDate zeroTime zeroObjectID [].
Definition zeroElement : Element := mkElement false 0 false false (zeroAV ValueNull).

Definition NullValue : ApplicationValue := zeroAV ValueNull.
Definition BoolValue (b : bool) : ApplicationValue :=
  mkAV ValueBoolean b 0 0 0 0 [] zeroCharacter zeroBitString 0 zeroDate zeroTime zeroObjectID [].
Definition UnsignedValue (u : Z) : ApplicationValue :=
  mkAV ValueUnsigned false u 0 0 0 [] zeroCharacter zeroBitString 0 zeroDate zeroTime zeroObjectID [].
Definition SignedValue (s : Z) : ApplicationValue :=
  mkAV ValueSigned false 0 s 0 0 [] zeroCharacter zeroBitString 0 zeroDate zeroTime zeroObjectID [].
Definition RealValue (f : Z) : ApplicationValue :=
  mkAV ValueReal false 0 0 f 0 [] zeroCharacter zeroBitString 0 zeroDate zeroTime zeroObjectID [].
Definition DoubleValue (f : Z) : ApplicationValue :=
  mkAV ValueDouble false 0 0 0 f [] zeroCharacter zeroBitString 0 zeroDate zeroTime zeroObjectID [].
Definition EnumValue (e : Z) : ApplicationValue :=
  mkAV ValueEnumerated false 0 0 0 0 [] zeroCharacter zeroBitString e zeroDate zeroTime zeroObjectID [].
Definition ObjectIDValue (id : ObjectIdentifier) : ApplicationValue :=
  mkAV ValueObjectID false 0 0 0 0 [] zeroCharacter zeroBitString 0 zeroDate zeroTime id [].

(** The struct literals [ApplicationValue{Kind: k, F: f}] of the decoders. *)
Definition octetsValue (k : ValueKind) (o : bytes) : ApplicationValue :=
  mkAV k false 0 0 0 0 o zeroCharacter zeroBitString 0 zeroDate zeroTime zeroObjectID [].
Definition characterValue (c : CharacterString) : ApplicationValue :=
  mkAV ValueCharacterString false 0 0 0 0 [] c zeroBitString 0 zeroDate zeroTime zeroObjectID [].
Definition bitStringValue (b : BitString) : ApplicationValue :=
  mkAV ValueBitString false 0 0 0 0 [] zeroCharacter b 0 zeroDate zeroTime zeroObjectID [].
Definition dateValue (d : Date) : ApplicationValue :=
  mkAV ValueDate false 0 0 0 0 [] zeroCharacter zeroBitString 0 d zeroTime zeroObjectID [].
Definition timeValue (t : Time) : ApplicationValue :=
  mkAV ValueTime false 0 0 0 0 [] zeroCharacter zeroBitString 0 zeroDate t zeroObjectID [].
Definition constructedValue (es : list Element) : ApplicationValue :=
  mkAV ValueConstructed false 0 0 0 0 [] zeroCharacter zeroBitString 0 zeroDate zeroTime zeroObjectID es.

(** [Value.TagNumber]: the application tag of a primitive kind. *)
Definition AVTagNumber (v : ApplicationValue) : Z :=
  match av_Kind v with
  | ValueNull => TagNull
  | ValueBoolean => TagBoolean
  | ValueUnsigned => TagUnsigned
  | ValueSigned => TagSigned
  | ValueReal => TagReal
  | ValueDouble => TagDouble
  | ValueOctetString => TagOctetString
  | ValueCharacterString => TagCharacterString
  | ValueBitString => TagBitString
  | ValueEnumerated => TagEnumerated
  | ValueDate => TagDate
  | ValueTime => TagTime
  | ValueObjectID => TagObjectIdentifier
  | _ => TagNull
  end.

Fixpoint Clone (v : ApplicationValue) : ApplicationValue :=
  match v with
  | mkAV k b u s r d o c bs e da t oid es =>
      mkAV k b u s r d o c bs e da t oid
        (map (fun x => match x with
                       | mkElement cx tn op cl w => mkElement cx tn op cl (Clone w)
                       end) es)
  end.

Definition AsUnsigned (v : ApplicationValue) : result Z :=
  match av_Kind v with
  | ValueUnsigned => Ok (av_Unsigned v)
  | ValueEnumerated => Ok (av_Enumerated v)
  | _ => Err ErrUnsupported
  end.
Definition AsEnumerated (v : ApplicationValue) : result Z :=
  if bool_decide (av_Kind v <> ValueEnumerated) then Err ErrUnsupported else Ok (av_Enumerated v).
Definition AsBool (v : ApplicationValue) : result bool :=
  if bool_decide (av_Kind v <> ValueBoolean) then Err ErrUnsupported else Ok (av_Boolean v).
Definition AsObjectID (v : ApplicationValue) : result ObjectIdentifier :=
  if bool_decide (av_Kind v <> ValueObjectID) then Err ErrUnsupported else Ok (av_ObjectID v).

(** ** Induction on values with nested elements *)
Section value_induction.
Context (P : ApplicationValue -> Prop) (Q : Element -> Prop).
Context (HP : forall v, Forall Q (av_Elements v) -> P v).
Context (HQ : forall e, P (el_Value e) -> Q e).

Fixpoint value_rect_nested (v : ApplicationValue) : P v :=
  HP v (match v as w return Forall Q (av_Elements w) with
        | mkAV _ _ _ _ _ _ _ _ _ _ _ _ _ es =>
            (fix go (l : list Element) : Forall Q l :=
               match l with
               | [] => List.Forall_nil Q
               | e :: l => List.Forall_cons Q e l
                   (HQ e (match e as e' return P (el_Value e') with
                          | mkElement _ _ _ _ w => value_rect_nested w
                          end)) (go l)
               end) es
        end).

Lemma element_nested_ind e : Q e.
Proof using HP HQ. apply HQ, value_rect_nested. Qed.
End value_induction.

(** ** Well-formed object identifiers and limits *)
Definition oid_ok (id : ObjectIdentifier) : Prop :=
  0 <= oid_Type id <= 0x3FF /\ 0 <= oid_Instance id <= MaxObjectInstance.

(** The uint16/uint32 ranges of the struct's fields. *)
Definition oid_typed (id : ObjectIdentifier) : Prop :=
  is_u 16 (oid_Type id) /\ is_u 32 (oid_Instance id).

Definition limits_positive (l : DecodeLimits) : Prop :=
  0 < MaxDatagramSize l /\ 0 < MaxAPDUSize l /\ 0 < MaxConstructedDepth l /\ 0 < MaxElements l /\
  0 < MaxOctetStringLength l /\ 0 < MaxCharacterLength l /\ 0 < MaxBitStringBits l /\
  0 < MaxSegments l /\ 0 < MaxReassembledAPDU l.

Lemma Normalize_positive l : limits_positive (Normalize l).
Proof.
  unfold limits_positive, Normalize, withDefaults. cbn.
  repeat case_match; bool_to_prop; lia.
Qed.

Lemma Normalize_id l : limits_positive l -> Normalize l = l.
Proof.
  destruct l. unfold limits_positive, Normalize, withDefaults. cbn. intros.
  destruct_and!. by decide_tests.
Qed.

Lemma Normalize_idemp l : Normalize (Normalize l) = Normalize l.
Proof. apply Normalize_id, Normalize_positive. Qed.

Lemma Clone_id v : Clone v = v.
Proof.
  revert v. apply (value_rect_nested _ (fun e => Clone (el_Value e) = el_Value e)); [|done].
  intros [k b u s r d o c bs e da t oid es] IH. cbn in *. f_equal.
  induction IH as [|[cx tn op cl w] l Hx Hl IHl]; [done|]. cbn in *. congruence.
Qed.

Lemma EncodeObjectIdentifier_ok id :
  oid_ok id ->
  EncodeObjectIdentifier id = Ok (oid_Type id * 2 ^ 22 + oid_Instance id).
Proof.
  unfold oid_ok, EncodeObjectIdentifier, MaxObjectInstance. intros [Ht Hi].
  decide_tests. rewrite uwrap_small.
  - rewrite lor_shiftl_add by lia. done.
  - unfold is_u. rewrite Z.shiftl_mul_pow2 by lia. lia.
Qed.

Lemma EncodeObjectIdentifier_Ok_inv id v :
  oid_typed id -> EncodeObjectIdentifier id = Ok v -> oid_ok id.
Proof.
  unfold oid_typed, is_u, oid_ok, EncodeObjectIdentifier. intros H E.
  repeat step_if E; try done. bool_to_prop. lia.
Qed.

Lemma DecodeObjectIdentifier_encoded t i :
  0 <= t <= 0x3FF -> 0 <= i <= MaxObjectInstance ->
  DecodeObjectIdentifier (t * 2 ^ 22 + i) = mkObjectID t i.
Proof.
  unfold DecodeObjectIdentifier, MaxObjectInstance. intros. f_equal.
  - rewrite Z.shiftr_div_pow2 by lia. rewrite Z.div_add_l by lia.
    rewrite Z.div_small, Z.add_0_r by lia. apply uwrap_small. unfold is_u. lia.
  - rewrite (land_ones_mod _ 22) by lia. rewrite Z.add_comm, Z_mod_plus_full. apply Z.mod_small. lia.
Qed.

Lemma DecodeObjectIdentifier_ok v : is_u 32 v -> oid_ok (DecodeObjectIdentifier v).
Proof.
  unfold DecodeObjectIdentifier, oid_ok, MaxObjectInstance, is_u. cbn [oid_Type oid_Instance]. intros Hv.
  rewrite (land_ones_mod v 22), Z.shiftr_div_pow2 by lia.
  assert (0 <= v / 2 ^ 22 < 1024) by (split; [apply Z.div_pos | apply Z.div_lt_upper_bound]; lia).
  rewrite uwrap_small by (unfold is_u; lia).
  pose proof (Z.mod_pos_bound v (2 ^ 22)). lia.
Qed.
