(* ===== verification/Ids.v ===== *)
(** * Identifiers of the standard

    The numbers of [property.go], [object.go] and [error_names.go] that the
    object model and the services use. *)

From Stdlib Require Import ZArith.
From S2P Require Import Prelude.

(** ** object.go: object types *)
Definition ObjectTypeAnalogInput : Z := 0.
Definition ObjectTypeAnalogOutput : Z := 1.
Definition ObjectTypeAnalogValue : Z := 2.
Definition ObjectTypeBinaryInput : Z := 3.
Definition ObjectTypeBinaryOutput : Z := 4.
Definition ObjectTypeBinaryValue : Z := 5.
Definition ObjectTypeCalendar : Z := 6.
Definition ObjectTypeCommand : Z := 7.
Definition ObjectTypeEventEnrollment : Z := 9.
Definition ObjectTypeFile : Z := 10.
Definition ObjectTypeGroup : Z := 11.
Definition ObjectTypeLifeSafetyPoint : Z := 21.
Definition ObjectTypeLifeSafetyZone : Z := 22.
Definition ObjectTypeMultiStateInput : Z := 13.
Definition ObjectTypeNotificationClass : Z := 15.
Definition ObjectTypeMultiStateValue : Z := 19.
Definition ObjectTypeTrendLog : Z := 20.
Definition ObjectTypeSchedule : Z := 17.
Definition ObjectTypeMultiStateOutput : Z := 14.
Definition ObjectTypeAccumulator : Z := 23.
Definition ObjectTypePulseConverter : Z := 24.
Definition ObjectTypeTrendLogMultiple : Z := 27.
Definition ObjectTypeNetworkPort : Z := 56.
Definition ObjectTypeAuditLog : Z := 61.
Definition ObjectTypeAccessDoor : Z := 30.
Definition ObjectTypeAccessPoint : Z := 33.
Definition ObjectTypeStructuredView : Z := 29.
Definition ObjectTypeCharacterStringValue : Z := 40.
Definition ObjectTypeIntegerValue : Z := 45.
Definition ObjectTypePositiveIntegerValue : Z := 48.

(** ** property.go: property identifiers *)
Definition PropertyAll : Z := 8.
Definition PropertyOptional : Z := 80.
Definition PropertyRequired : Z := 105.
Definition PropertyObjectIdentifier : Z := 75.
Definition PropertyObjectName : Z := 77.
Definition PropertyObjectType : Z := 79.
Definition PropertyPresentValue : Z := 85.
Definition PropertyPriorityArray : Z := 87.
Definition PropertyStatusFlags : Z := 111.
Definition PropertySystemStatus : Z := 112.
Definition PropertyVendorIdentifier : Z := 120.
Definition PropertyVendorName : Z := 121.
Definition PropertyModelName : Z := 70.
Definition PropertyProtocolVersion : Z := 98.
Definition PropertyProtocolRevision : Z := 139.
Definition PropertyMaxAPDULength : Z := 62.
Definition PropertySegmentation : Z := 107.
Definition PropertyDescription : Z := 28.
Definition PropertyUnits : Z := 117.
Definition PropertyRelinquishDefault : Z := 104.
Definition PropertyLogBuffer : Z := 131.
Definition PropertyObjectList : Z := 76.
Definition PropertyPropertyList : Z := 371.
Definition PropertyReliability : Z := 103.
Definition PropertyEventState : Z := 36.
Definition PropertyWeeklySchedule : Z := 123.
Definition PropertyExceptionSchedule : Z := 38.
Definition PropertyScheduleDefault : Z := 174.
Definition PropertyDateList : Z := 23.
Definition PropertyRecipientList : Z := 102.
Definition PropertyNetworkType : Z := 427.
Definition PropertyIPAddress : Z := 400.
Definition PropertyIPSubnetMask : Z := 411.
Definition PropertyBACnetIPUDPPort : Z := 412.
Definition PropertyAckedTransitions : Z := 0.
Definition PropertyAckRequired : Z := 1.
Definition PropertyActiveText : Z := 4.
Definition PropertyAlarmValue : Z := 6.
Definition PropertyAlarmValues : Z := 7.
Definition PropertyFaultValues : Z := 39.
Definition PropertyAPDUSegmentTimeout : Z := 10.
Definition PropertyAPDUTimeout : Z := 11.
Definition PropertyApplicationSoftwareVersion : Z := 12.
Definition PropertyArchive : Z := 13.
Definition PropertyNotificationClass : Z := 17.
Definition PropertyCOVIncrement : Z := 22.
Definition PropertyDaylightSavingsStatus : Z := 24.
Definition PropertyDeadband : Z := 25.
Definition PropertyDeviceAddressBinding : Z := 30.
Definition PropertyEventEnable : Z := 35.
Definition PropertyFileAccessMethod : Z := 41.
Definition PropertyFileSize : Z := 42.
Definition PropertyFileType : Z := 43.
Definition PropertyFirmwareRevision : Z := 44.
Definition PropertyHighLimit : Z := 45.
Definition PropertyInactiveText : Z := 46.
Definition PropertyLimitEnable : Z := 52.
Definition PropertyLocalDate : Z := 56.
Definition PropertyLocalTime : Z := 57.
Definition PropertyLocation : Z := 58.
Definition PropertyLowLimit : Z := 59.
Definition PropertyModificationDate : Z := 71.
Definition PropertyNotifyType : Z := 72.
Definition PropertyNumberOfAPDURetries : Z := 73.
Definition PropertyNumberOfStates : Z := 74.
Definition PropertyOutOfService : Z := 81.
Definition PropertyPolarity : Z := 84.
Definition PropertyPriority : Z := 86.
Definition PropertyProtocolObjectTypesSupported : Z := 96.
Definition PropertyProtocolServicesSupported : Z := 97.
Definition PropertyReadOnly : Z := 99.
Definition PropertyStateText : Z := 110.
Definition PropertyTimeDelay : Z := 113.
Definition PropertyUTCOffset : Z := 119.
Definition PropertyBufferSize : Z := 126.
Definition PropertyEventTimeStamps : Z := 130.
Definition PropertyEnable : Z := 133.
Definition PropertyLogInterval : Z := 134.
Definition PropertyRecordCount : Z := 141.
Definition PropertyStopWhenFull : Z := 144.
Definition PropertyTotalRecordCount : Z := 145.
Definition PropertyActiveCOVSubscriptions : Z := 152.
Definition PropertyDatabaseRevision : Z := 155.
Definition PropertyMaxSegmentsAccepted : Z := 167.
Definition PropertyLoggingType : Z := 197.
Definition PropertyEventDetectionEnable : Z := 353.
Definition PropertySerialNumber : Z := 372.
Definition PropertyCurrentCommandPriority : Z := 431.
Definition PropertyEffectivePeriod : Z := 32.
Definition PropertyListOfObjectPropertyReferences : Z := 54.
Definition PropertyMaxPresValue : Z := 65.
Definition PropertyMinPresValue : Z := 69.
Definition PropertyPriorityForWriting : Z := 88.
Definition PropertyNodeSubtype : Z := 207.
Definition PropertyNodeType : Z := 208.
Definition PropertySubordinateAnnotations : Z := 210.
Definition PropertySubordinateList : Z := 211.

(** ** error_names.go: error classes and codes, reject reasons *)
Definition ErrorClassDevice : Z := 0.
Definition ErrorClassObject : Z := 1.
Definition ErrorClassProperty : Z := 2.
Definition ErrorClassResources : Z := 3.
Definition ErrorClassSecurity : Z := 4.
Definition ErrorClassServices : Z := 5.
Definition ErrorClassVT : Z := 6.
Definition ErrorClassCommunication : Z := 7.
Definition ErrorCodeDynamicCreationNotSupported : Z := 4.
Definition ErrorCodeInvalidDataType : Z := 9.
Definition ErrorCodeInvalidTimeStamp : Z := 14.
Definition ErrorCodeNoSpaceForObject : Z := 18.
Definition ErrorCodeObjectDeletionNotPermitted : Z := 23.
Definition ErrorCodeObjectIdentifierAlreadyExists : Z := 24.
Definition ErrorCodeOperationalProblem : Z := 25.
Definition ErrorCodeReadAccessDenied : Z := 27.
Definition ErrorCodeUnknownObject : Z := 31.
Definition ErrorCodeUnknownProperty : Z := 32.
Definition ErrorCodeUnsupportedObjectType : Z := 36.
Definition ErrorCodeValueOutOfRange : Z := 37.
Definition ErrorCodeWriteAccessDenied : Z := 40.
Definition ErrorCodeInvalidArrayIndex : Z := 42.
Definition ErrorCodeOptionalFunctionalityNotSupported : Z := 45.
Definition ErrorCodeDuplicateName : Z := 48.
Definition ErrorCodePropertyIsNotAnArray : Z := 50.
Definition ErrorCodeNoSpaceToAddListElement : Z := 19.
Definition ErrorCodeNoSpaceToWriteProperty : Z := 20.
Definition ErrorCodePropertyIsNotAList : Z := 22.
Definition ErrorCodeParameterOutOfRange : Z := 80.
Definition ErrorCodeListElementNotFound : Z := 81.
Definition ErrorCodeInvalidEventState : Z := 73.
Definition ErrorCodeNoAlarmConfigured : Z := 74.
Definition RejectReasonBufferOverflow : Z := 1.
Definition RejectReasonMissingRequiredParameter : Z := 5.
Definition RejectReasonTooManyArguments : Z := 7.
Definition RejectReasonUndefinedEnumeration : Z := 8.
