(* ===== verification/Float32.v ===== *)
(** * Go's float32

    A [float32] is its IEEE 754 bit pattern, a [Z] of 32 bits. Comparisons and
    arithmetic go through the Standard Library's [spec_float], the binary32
    format being the one of precision 24 and maximal exponent 128. *)

From Stdlib Require Import ZArith Lia Floats.SpecFloat.
From stdpp Require Import base tactics.
From S2P Require Import Prelude.

Definition f32 (b : Z) : spec_float :=
  let sign := b >=? 2 ^ 31 in
  let e := (b / 2 ^ 23) mod 2 ^ 8 in
  let m := b mod 2 ^ 23 in
  if e =? 255 then (if m =? 0 then S754_infinity sign else S754_nan)
  else if e =? 0 then
    match m with
    | Zpos p => S754_finite sign p (-149)
    | _ => S754_zero sign
    end
  else
    match m + 2 ^ 23 with
    | Zpos p => S754_finite sign p (e - 150)
    | _ => S754_nan
    end.

(** [math.IsNaN] and [math.IsInf(_, 0)] *)
Definition isNaN (b : Z) : bool := match f32 b with S754_nan => true | _ => false end.
Definition isInf (b : Z) : bool := match f32 b with S754_infinity _ => true | _ => false end.

(** [a < b], [a == b], [a - b] and [a + b] *)
Definition f32_ltb (a b : spec_float) : bool := SFltb a b.
Definition f32_eqb (a b : spec_float) : bool := SFeqb a b.
Definition f32_sub (a b : spec_float) : spec_float := SFsub 24 128 a b.
Definition f32_add (a b : spec_float) : spec_float := SFadd 24 128 a b.

(** [a <= b] and [math.Abs] *)
Definition f32_leb (a b : spec_float) : bool := SFleb a b.
Definition f32_abs (a : spec_float) : spec_float := SFabs a.

(** Negative: [f < 0]. *)
Definition f32_neg (b : Z) : bool := f32_ltb (f32 b) (S754_zero false).

(** A number: neither a NaN nor an infinity. *)
Definition f32_finite (b : Z) : bool := negb (isNaN b) && negb (isInf b).

Lemma SFcompare_refl x : x <> S754_nan -> SFcompare x x = Some Eq.
Proof.
  destruct x as [[]|[]| |[] m e]; try done; intros _; cbn; rewrite Z.compare_refl.
  - change (PosDef.Pos.compare_cont Eq m m) with (m ?= m)%positive. by rewrite Pos.compare_refl.
  - change (PosDef.Pos.compare_cont Eq m m) with (m ?= m)%positive. by rewrite Pos.compare_refl.
Qed.

Lemma f32_eqb_refl b : isNaN b = false -> f32_eqb (f32 b) (f32 b) = true.
Proof. unfold isNaN, f32_eqb, SFeqb. intros H. rewrite SFcompare_refl; [done|]. by intros E; rewrite E in H. Qed.

(** 1.5, -0 and a NaN. *)
Lemma f32_examples :
  f32 0x3FC00000 = S754_finite false 12582912 (-23) /\ f32 0x80000000 = S754_zero true /\
  isNaN 0x7FC00000 = true /\ isInf 0xFF800000 = true /\
  f32_sub (f32 0x42C80000) (f32 0x40A00000) = f32 0x42BE0000.
Proof. by vm_compute. Qed.

(** ** float64: [uint32(math.Ceil(d.Seconds()))] of a duration *)
Definition f64_of (n : Z) : spec_float := binary_normalize 53 1024 n 0 false.

(** [Duration.Seconds]: [float64(d / Second) + float64(d % Second) / 1e9] *)
Definition Seconds (d : Z) : spec_float :=
  SFadd 53 1024 (f64_of (d / 10 ^ 9)) (SFdiv 53 1024 (f64_of (d mod 10 ^ 9)) (f64_of (10 ^ 9))).

(** [math.Ceil] of a number that is not negative, as an integer *)
Definition Ceil (f : spec_float) : Z :=
  match f with
  | S754_finite _ m e => if e >=? 0 then Z.pos m * 2 ^ e else (Z.pos m + 2 ^ (- e) - 1) / 2 ^ (- e)
  | _ => 0
  end.

Lemma Ceil_examples :
  Ceil (Seconds 1) = 1 /\ Ceil (Seconds (10 ^ 9)) = 1 /\ Ceil (Seconds (10 ^ 9 + 1)) = 2 /\ Ceil (Seconds (59999999999)) = 60 /\
  Ceil (Seconds ((2 ^ 32 - 1) * 10 ^ 9)) = 2 ^ 32 - 1.
Proof. by vm_compute. Qed.
