(* ===== verification/Tags.v ===== *)
(** * Tags: the BACnet tag codec of [tags.go]

    [ParseTag] reads one tag, [AppendTag] writes one. Go's [int] has 64 bits
    here ([maxSafe]). The append functions return the extended slice; the
    partial slice Go returns next to an error is dropped, as the callers do. *)

From Stdlib Require Import ZArith Lia.
From stdpp Require Import base list.
From S2P Require Import Prelude Value.

Definition tagNumberReserved : Z := 255.
Definition maxSafe : Z := 2 ^ 63 - 1.
Definition MaxUint16 : Z := 2 ^ 16 - 1.
Definition MaxUint32 : Z := 2 ^ 32 - 1.

(** [binary.BigEndian.Uint16] and friends on a slice of that length. *)
Definition Uint (n : nat) (data : bytes) : result Z :=
  let* d := slice data 0 (Z.of_nat n) in Ok (be_get d).

Definition parseLength (data : bytes) (lvt : Z) : result (Z * Z) :=
  if lvt <? 5 then Ok (lvt, 0)
  else if lvt =? 5 then
    if len data <? 1 then Err ErrMalformed else
    let* ext := index data 0 in
    if ext <? 254 then Ok (ext, 1)
    else if ext =? 254 then
      if len data <? 3 then Err ErrMalformed else
      let* d := slice data 1 3 in
      let* u := Uint 2 d in
      Ok (u, 3)
    else
      if len data <? 5 then Err ErrMalformed else
      let* d := slice data 1 5 in
      let* u := Uint 4 d in
      if u >? maxSafe then Err ErrLimitExceeded else Ok (u, 5)
  else Err ErrMalformed.

Definition validateBitString (unused octets : Z) : result unit :=
  if unused >? 7 then Err ErrMalformed
  else if (octets =? 0) && negb (unused =? 0) then Err ErrMalformed
  else Ok tt.

(** [u = (u << 8) | uint64(b)], one octet of the loop. *)
Definition unsignedStep (u b : Z) : Z := Z.lor (u64 (Z.shiftl u 8)) b.
Definition decodeUnsigned (data : bytes) : result Z :=
  if (len data =? 0) || (len data >? 8) then Err ErrMalformed
  else Ok (fold_left unsignedStep data 0).

(** [s = s<<8 | int64(b)]. *)
Definition signedStep (s b : Z) : Z := Z.lor (s64 (Z.shiftl s 8)) b.
Definition decodeSigned (data : bytes) : result Z :=
  if (len data =? 0) || (len data >? 8) then Err ErrMalformed
  else
    let* b := index data 0 in
    let s := if b >=? 0x80 then b - 0x100 else b in
    let* rest := slice_from data 1 in
    Ok (fold_left signedStep rest s).

Definition decodeApplicationValue (tag : Z) (data : bytes) (lvt : Z) (limits : DecodeLimits)
    : result ApplicationValue :=
  if tag =? TagNull then
    if negb (len data =? 0) then Err ErrMalformed else Ok NullValue
  else if tag =? TagBoolean then
    if negb (len data =? 0) || (lvt >? 1) then Err ErrMalformed else Ok (BoolValue (lvt =? 1))
  else if tag =? TagUnsigned then
    let* u := decodeUnsigned data in Ok (UnsignedValue u)
  else if tag =? TagSigned then
    let* s := decodeSigned data in Ok (SignedValue s)
  else if tag =? TagReal then
    if negb (len data =? 4) then Err ErrMalformed else
    let* bits := Uint 4 data in Ok (RealValue bits)
  else if tag =? TagDouble then
    if negb (len data =? 8) then Err ErrMalformed else
    let* bits := Uint 8 data in Ok (DoubleValue bits)
  else if tag =? TagOctetString then
    if len data >? MaxOctetStringLength limits then Err ErrLimitExceeded
    else Ok (octetsValue ValueOctetString data)
  else if tag =? TagCharacterString then
    if len data <? 1 then Err ErrMalformed
    else if len data - 1 >? MaxCharacterLength limits then Err ErrLimitExceeded
    else
      let* e := index data 0 in
      let* s := slice_from data 1 in
      Ok (characterValue (mkCharacterString e s))
  else if tag =? TagBitString then
    if len data <? 1 then Err ErrMalformed
    else
      let* unused := index data 0 in
      let* _ := validateBitString unused (len data - 1) in
      let bits := (len data - 1) * 8 in
      if bits >? MaxBitStringBits limits then Err ErrLimitExceeded
      else
        let* bs := slice_from data 1 in
        Ok (bitStringValue (mkBitString unused bs))
  else if tag =? TagEnumerated then
    let* u := decodeUnsigned data in
    if u >? MaxUint32 then Err ErrMalformed else Ok (EnumValue (u32 u))
  else if tag =? TagDate then
    if negb (len data =? 4) then Err ErrMalformed else
    let* a := index data 0 in let* b := index data 1 in
    let* c := index data 2 in let* d := index data 3 in
    Ok (dateValue (mkDate a b c d))
  else if tag =? TagTime then
    if negb (len data =? 4) then Err ErrMalformed else
    let* a := index data 0 in let* b := index data 1 in
    let* c := index data 2 in let* d := index data 3 in
    Ok (timeValue (mkTime a b c d))
  else if tag =? TagObjectIdentifier then
    if negb (len data =? 4) then Err ErrMalformed else
    let* v := Uint 4 data in Ok (ObjectIDValue (DecodeObjectIdentifier v))
  else
    if len data >? MaxOctetStringLength limits then Err ErrLimitExceeded
    else Ok (octetsValue ValueOctetString data).

Definition openingElement (tn : Z) : Element := mkElement true tn true false (zeroAV ValueNull).
Definition closingElement (tn : Z) : Element := mkElement true tn false true (zeroAV ValueNull).
Definition contextElement (tn : Z) (o : bytes) : Element :=
  mkElement true tn false false (octetsValue ValueContext o).
Definition appElement (tn : Z) (v : ApplicationValue) : Element :=
  mkElement false tn false false v.

Definition ParseTag (data : bytes) (limits : DecodeLimits) : result (Element * Z) :=
  let limits := Normalize limits in
  if len data <? 1 then Err ErrMalformed else
  let* b0 := index data 0 in
  let context := negb (Z.land b0 0x08 =? 0) in
  let tagNumber := Z.shiftr b0 4 in
  let* (tagNumber, off) :=
    if tagNumber =? 0x0F then
      if 1 >=? len data then Err ErrMalformed else
      let* t := index data 1 in
      if (t <? 0x0F) || (t =? tagNumberReserved) then Err ErrMalformed
      else Ok (t, 2)
    else Ok (tagNumber, 1) in
  let lvt := Z.land b0 0x07 in
  if context && (lvt =? 6) then Ok (openingElement tagNumber, off)
  else if context && (lvt =? 7) then Ok (closingElement tagNumber, off)
  else if negb context && (tagNumber =? TagBoolean) then
    if lvt >? 1 then Err ErrMalformed
    else Ok (appElement tagNumber (BoolValue (lvt =? 1)), off)
  else
    let* rest := slice_from data off in
    let* (length, n) := parseLength rest lvt in
    let off := off + n in
    if length >? len data - off then Err ErrMalformed else
    let* valueBytes := slice data off (off + length) in
    let off := off + length in
    if context then
      if length >? MaxOctetStringLength limits then Err ErrLimitExceeded
      else Ok (contextElement tagNumber valueBytes, off)
    else
      let* v := decodeApplicationValue tagNumber valueBytes lvt limits in
      Ok (appElement tagNumber v, off).

Definition ParseApplicationValue (data : bytes) (limits : DecodeLimits) : result (ApplicationValue * Z) :=
  let* (el, n) := ParseTag data limits in
  if el_Context el || el_Opening el || el_Closing el then Err ErrMalformed
  else Ok (el_Value el, n).

(** ** Encoding *)

(** The loop of [encodeUnsigned]: octet 7 first, leading zeros skipped. *)
Definition unsignedOctet (u : Z) (tmp : bytes) (i : Z) : bytes :=
  let b := u8 (Z.land (Z.shiftr u (i * 8)) 0xFF) in
  if (len tmp >? 0) || negb (b =? 0) then tmp ++ [b] else tmp.
Definition encodeUnsigned (u : Z) : bytes :=
  if u =? 0 then [0] else fold_left (unsignedOctet u) [7; 6; 5; 4; 3; 2; 1; 0] [].

(** [for width < 8 { ...; width++ }]; at most 7 rounds from width 1. *)
Fixpoint signedWidth (fuel : nat) (width v : Z) : Z :=
  match fuel with
  | O => width
  | S fuel =>
      if width <? 8 then
        let limit := Z.shiftl 1 (8 * width - 1) in
        if (v >=? - limit) && (v <? limit) then width
        else signedWidth fuel (width + 1) v
      else width
  end.
Definition encodeSigned (v : Z) : bytes :=
  let width := signedWidth 8 1 v in
  map (fun i => u8 (Z.land (Z.shiftr v ((width - 1 - i) * 8)) 0xFF)) (seqZ 0 width).

Definition encodeTagHeader (context : bool) (tagNumber length : Z) : result bytes :=
  if length >? MaxUint32 then Err ErrLimitExceeded
  else if length <? 0 then Err ErrMalformed
  else
    let extTag := negb (tagNumber <? 15) in
    let b0 := if extTag then 0xF0 else u8 (Z.shiftl tagNumber 4) in
    let b0 := if context then Z.lor b0 0x08 else b0 in
    let '(b0, lengthBytes) :=
      if length <? 5 then (Z.lor b0 (u8 length), [])
      else if length <? 254 then (Z.lor b0 5, [u8 length])
      else if length <=? MaxUint16 then (Z.lor b0 5, 254 :: be_put 2 (u16 length))
      else (Z.lor b0 5, 255 :: be_put 4 (u32 length)) in
    Ok ([b0] ++ (if extTag then [tagNumber] else []) ++ lengthBytes).

Definition appendAppPrimitive (dst : bytes) (tag : Z) (value : bytes) : result bytes :=
  let* hdr := encodeTagHeader false tag (len value) in Ok (dst ++ hdr ++ value).

Definition appendContextPrimitive (dst : bytes) (tagNumber : Z) (value : bytes) : result bytes :=
  if tagNumber =? tagNumberReserved then Err ErrMalformed else
  let* hdr := encodeTagHeader true tagNumber (len value) in Ok (dst ++ hdr ++ value).

Definition appendContextOpenClose (dst : bytes) (tagNumber : Z) (opening : bool) : bytes :=
  let lvt := if opening then 6 else 7 in
  if tagNumber <? 15 then dst ++ [Z.lor (Z.lor (u8 (Z.shiftl tagNumber 4)) 0x08) lvt]
  else dst ++ [Z.lor (Z.lor 0xF0 0x08) lvt] ++ [tagNumber].

Definition contextContentOctets (v : ApplicationValue) : result bytes :=
  match av_Kind v with
  | ValueContext =>
      if negb (len (av_Elements v) =? 0) then Err ErrUnsupported else Ok (av_OctetString v)
  | ValueNull => Ok (av_OctetString v)
  | ValueBoolean => Ok (if av_Boolean v then [1] else [0])
  | ValueUnsigned => Ok (encodeUnsigned (av_Unsigned v))
  | ValueSigned => Ok (encodeSigned (av_Signed v))
  | ValueReal => Ok (be_put 4 (av_Real v))
  | ValueDouble => Ok (be_put 8 (av_Double v))
  | ValueOctetString => Ok (av_OctetString v)
  | ValueCharacterString => Ok ([cs_Encoding (av_Character v)] ++ cs_Value (av_Character v))
  | ValueBitString =>
      let* _ := validateBitString (bs_UnusedBits (av_BitString v)) (len (bs_Bytes (av_BitString v))) in
      Ok ([bs_UnusedBits (av_BitString v)] ++ bs_Bytes (av_BitString v))
  | ValueEnumerated => Ok (encodeUnsigned (av_Enumerated v))
  | ValueDate => let d := av_Date v in Ok [d_Year d; d_Month d; d_Day d; d_Weekday d]
  | ValueTime => let t := av_Time v in Ok [t_Hour t; t_Minute t; t_Second t; t_Hundredths t]
  | ValueObjectID =>
      let* enc := EncodeObjectIdentifier (av_ObjectID v) in Ok (be_put 4 enc)
  | ValueConstructed => Err ErrUnsupported
  end.

(** [for _, e := range l { dst, err = AppendTag(dst, e) ... }] *)
Fixpoint foldAppend {A} (f : bytes -> A -> result bytes) (dst : bytes) (l : list A) : result bytes :=
  match l with
  | [] => Ok dst
  | e :: l => let* dst := f dst e in foldAppend f dst l
  end.

(** The arms of [AppendApplicationValue] that do not recurse. *)
Definition appendPrimitiveValue (dst : bytes) (v : ApplicationValue) : result bytes :=
  match av_Kind v with
  | ValueNull => Ok (dst ++ [u8 (Z.shiftl TagNull 4)])
  | ValueBoolean =>
      if av_Boolean v then Ok (dst ++ [Z.lor (u8 (Z.shiftl TagBoolean 4)) 1])
      else Ok (dst ++ [u8 (Z.shiftl TagBoolean 4)])
  | ValueUnsigned => appendAppPrimitive dst TagUnsigned (encodeUnsigned (av_Unsigned v))
  | ValueSigned => appendAppPrimitive dst TagSigned (encodeSigned (av_Signed v))
  | ValueReal => appendAppPrimitive dst TagReal (be_put 4 (av_Real v))
  | ValueDouble => appendAppPrimitive dst TagDouble (be_put 8 (av_Double v))
  | ValueOctetString => appendAppPrimitive dst TagOctetString (av_OctetString v)
  | ValueCharacterString =>
      appendAppPrimitive dst TagCharacterString
        ([cs_Encoding (av_Character v)] ++ cs_Value (av_Character v))
  | ValueBitString =>
      let* _ := validateBitString (bs_UnusedBits (av_BitString v)) (len (bs_Bytes (av_BitString v))) in
      appendAppPrimitive dst TagBitString
        ([bs_UnusedBits (av_BitString v)] ++ bs_Bytes (av_BitString v))
  | ValueEnumerated => appendAppPrimitive dst TagEnumerated (encodeUnsigned (av_Enumerated v))
  | ValueDate =>
      let d := av_Date v in appendAppPrimitive dst TagDate [d_Year d; d_Month d; d_Day d; d_Weekday d]
  | ValueTime =>
      let t := av_Time v in appendAppPrimitive dst TagTime [t_Hour t; t_Minute t; t_Second t; t_Hundredths t]
  | ValueObjectID =>
      let* enc := EncodeObjectIdentifier (av_ObjectID v) in
      appendAppPrimitive dst TagObjectIdentifier (be_put 4 enc)
  | ValueConstructed | ValueContext => Err ErrUnsupported
  end.

(** [AppendTag] recurses through [AppendApplicationValue] (an application
    element with a constructed value) and [AppendContextTagged] (a context
    element with a constructed value). *)
Fixpoint AppendTag (dst : bytes) (el : Element) {struct el} : result bytes :=
  match el with
  | mkElement cx tn op cl v =>
      if (op || cl || cx) && (tn =? tagNumberReserved) then Err ErrMalformed
      else if op then Ok (appendContextOpenClose dst tn true)
      else if cl then Ok (appendContextOpenClose dst tn false)
      else
        match v with
        | mkAV k _ _ _ _ _ _ _ _ _ _ _ _ es =>
            if cx && bool_decide (k = ValueConstructed) then
              let* dst := foldAppend AppendTag (appendContextOpenClose dst tn true) es in
              Ok (appendContextOpenClose dst tn false)
            else if cx then
              let* raw := contextContentOctets v in
              appendContextPrimitive dst tn raw
            else if bool_decide (k = ValueConstructed) then foldAppend AppendTag dst es
            else appendPrimitiveValue dst v
        end
  end.

Definition AppendApplicationValue (dst : bytes) (v : ApplicationValue) : result bytes :=
  match av_Kind v with
  | ValueConstructed => foldAppend AppendTag dst (av_Elements v)
  | _ => appendPrimitiveValue dst v
  end.

(** [AppendContextTagged] of constructed.go. *)
Definition AppendContextTagged (dst : bytes) (tagNumber : Z) (body : list Element) : result bytes :=
  if tagNumber =? tagNumberReserved then Err ErrMalformed else
  let* dst := foldAppend AppendTag (appendContextOpenClose dst tagNumber true) body in
  Ok (appendContextOpenClose dst tagNumber false).

Definition AppendContextBool (dst : bytes) (tagNumber : Z) (v : bool) : result bytes :=
  appendContextPrimitive dst tagNumber [if v then 1 else 0].

(** [ContextBool]: exactly one octet, 0 or 1. *)
Definition notContextPrimitive (el : Element) : bool :=
  negb (el_Context el) || el_Opening el || el_Closing el
  || bool_decide (av_Kind (el_Value el) = ValueConstructed).
Definition ContextBool (el : Element) : result bool :=
  if notContextPrimitive el then Err ErrMalformed
  else if negb (len (av_OctetString (el_Value el)) =? 1) then Err ErrMalformed
  else
    let* b := index (av_OctetString (el_Value el)) 0 in
    if b =? 0 then Ok false else if b =? 1 then Ok true else Err ErrMalformed.

Definition IsContextConstructed (el : Element) : bool :=
  el_Context el && negb (el_Opening el) && negb (el_Closing el)
  && bool_decide (av_Kind (el_Value el) = ValueConstructed).

(** The source dispatches [AppendTag]'s recursion through the two exported
    functions; the fixpoint inlines them. *)
Lemma AppendTag_eq dst el :
  AppendTag dst el =
  if (el_Opening el || el_Closing el || el_Context el) && (el_TagNumber el =? tagNumberReserved)
  then Err ErrMalformed
  else if el_Opening el then Ok (appendContextOpenClose dst (el_TagNumber el) true)
  else if el_Closing el then Ok (appendContextOpenClose dst (el_TagNumber el) false)
  else if el_Context el && bool_decide (av_Kind (el_Value el) = ValueConstructed)
  then AppendContextTagged dst (el_TagNumber el) (av_Elements (el_Value el))
  else if el_Context el then
    let* raw := contextContentOctets (el_Value el) in
    appendContextPrimitive dst (el_TagNumber el) raw
  else AppendApplicationValue dst (el_Value el).
Proof.
  destruct el as [cx tn op cl [k ? ? ? ? ? ? ? ? ? ? ? ? es]].
  unfold AppendContextTagged, AppendApplicationValue. cbn [AppendTag el_Context el_TagNumber el_Opening el_Closing el_Value av_Kind av_Elements].
  destruct op, cl, cx, (tn =? tagNumberReserved); cbn; try done; destruct k; done.
Qed.

(** ** Unsigned contents *)
Fixpoint strip_zeros (l : bytes) : bytes :=
  match l with
  | b :: l => if b =? 0 then strip_zeros l else b :: l
  | [] => []
  end.

Lemma strip_zeros_get l : be_get (strip_zeros l) = be_get l.
Proof.
  induction l as [|b l IH]; cbn [strip_zeros]; [done|].
  destruct (b =? 0) eqn:E; [|done]. bool_to_prop. subst. rewrite IH, be_get_cons. lia.
Qed.

Lemma strip_zeros_sub l : exists z, l = z ++ strip_zeros l.
Proof.
  induction l as [|b l [z IH]]; cbn [strip_zeros]; [by exists []|].
  destruct (b =? 0); [exists (b :: z); simpl; congruence | by exists []].
Qed.

Lemma strip_zeros_head l b k : strip_zeros l = b :: k -> b <> 0.
Proof.
  induction l as [|a l IH]; cbn [strip_zeros]; [done|].
  destruct (a =? 0) eqn:E; [auto|]. bool_to_prop. congruence.
Qed.

Lemma fold_unsignedOctet u idx tmp :
  Forall (fun i => 0 <= i) idx ->
  fold_left (unsignedOctet u) idx tmp =
  let os := map (fun i => (u / 256 ^ i) mod 256) idx in
  if len tmp >? 0 then tmp ++ os else tmp ++ strip_zeros os.
Proof.
  intros Hi. revert tmp. induction Hi as [|i idx Hi Hidx IH]; intros tmp; cbn [fold_left map].
  - by destruct (_ >? _); rewrite app_nil_r.
  - rewrite IH. unfold unsignedOctet. cbn zeta. rewrite byte_of_shift by lia.
    replace (2 ^ (i * 8)) with (256 ^ i) by (rewrite Z.mul_comm, Z.pow_mul_r by lia; done).
    set (b := (u / 256 ^ i) mod 256). rewrite !Z.gtb_ltb.
    destruct (0 <? len tmp) eqn:E; cbn [orb].
    + bool_to_prop. decide_tests. by rewrite <- app_assoc.
    + assert (tmp = []) as -> by (apply len_zero_nil; bool_to_prop; len_lia). cbn [strip_zeros app].
      destruct (b =? 0) eqn:Eb; cbn [negb]; done.
Qed.

Lemma encodeUnsigned_strip u : u <> 0 -> encodeUnsigned u = strip_zeros (be_put 8 u).
Proof.
  intros Hu. unfold encodeUnsigned. decide_tests.
  rewrite fold_unsignedOctet by (repeat constructor; lia). done.
Qed.

Lemma encodeUnsigned_bytes_ok u : bytes_ok (encodeUnsigned u).
Proof.
  destruct (Z.eq_dec u 0) as [->|Hu]; [by repeat constructor|].
  rewrite encodeUnsigned_strip by done. pose proof (be_put_bytes_ok 8 u) as H.
  destruct (strip_zeros_sub (be_put 8 u)) as [z Hz]. rewrite Hz in H. by apply Forall_app in H as [_ H].
Qed.

Lemma encodeUnsigned_get u : is_u 64 u -> be_get (encodeUnsigned u) = u.
Proof.
  intros Hu. destruct (Z.eq_dec u 0) as [->|Hn]; [done|].
  rewrite encodeUnsigned_strip, strip_zeros_get, be_get_be_put by done.
  apply Z.mod_small. apply Hu.
Qed.

Lemma encodeUnsigned_len u : is_u 64 u -> 1 <= len (encodeUnsigned u) <= 8.
Proof.
  intros Hu. destruct (Z.eq_dec u 0) as [->|Hn]; [done|].
  pose proof (encodeUnsigned_get u Hu) as Hg. rewrite encodeUnsigned_strip in * by done.
  destruct (strip_zeros_sub (be_put 8 u)) as [z Hz].
  apply (f_equal len) in Hz. len_simpl. split; [|len_lia].
  destruct (strip_zeros (be_put 8 u)); [|len_lia]. unfold be_get in Hg. simpl in Hg. lia.
Qed.

Lemma encodeUnsigned_head u b l : encodeUnsigned u = b :: l -> b = 0 -> u = 0.
Proof.
  destruct (Z.eq_dec u 0) as [->|Hn]; [done|].
  rewrite encodeUnsigned_strip by done. intros H%strip_zeros_head ?. done.
Qed.

Lemma fold_unsignedStep l acc :
  bytes_ok l -> 0 <= acc -> acc * 256 ^ len l + be_get l < 2 ^ 64 ->
  fold_left unsignedStep l acc = fold_left be_step l acc.
Proof.
  intros Hl. revert acc. induction Hl as [|b l Hb Hl IH]; intros acc Ha Hlt; [done|]. cbn [fold_left].
  rewrite be_get_cons, len_cons, Z.pow_add_r in Hlt by len_lia. unfold is_u in Hb.
  pose proof (be_get_bound l Hl) as Hg.
  assert (1 <= 256 ^ len l) by (pose proof (Z.pow_pos_nonneg 256 (len l)); len_lia).
  assert (unsignedStep acc b = be_step acc b) as ->.
  { unfold unsignedStep, be_step. rewrite uwrap_small.
    - by rewrite lor_shiftl_add.
    - rewrite Z.shiftl_mul_pow2 by lia. unfold is_u. nia. }
  apply IH; unfold be_step; lia.
Qed.

Lemma decodeUnsigned_get l : bytes_ok l -> 1 <= len l <= 8 -> decodeUnsigned l = Ok (be_get l).
Proof.
  intros Hl Hlen. unfold decodeUnsigned. decide_tests. f_equal.
  apply fold_unsignedStep; [done..|]. pose proof (be_get_bound l Hl).
  pose proof (Z.pow_le_mono_r 256 (len l) 8). lia.
Qed.

Lemma decodeUnsigned_Ok l u : bytes_ok l -> decodeUnsigned l = Ok u -> u = be_get l /\ 1 <= len l <= 8 /\ is_u 64 u.
Proof.
  intros Hl H. assert (1 <= len l <= 8) as Hlen.
  { unfold decodeUnsigned in H. step_if H; [done|]. bool_to_prop. len_lia. }
  rewrite decodeUnsigned_get in H by done. injection H as <-. split_and!; try lia.
  pose proof (be_get_bound l Hl). pose proof (Z.pow_le_mono_r 256 (len l) 8). unfold is_u. lia.
Qed.

Lemma decodeUnsigned_encode u : is_u 64 u -> decodeUnsigned (encodeUnsigned u) = Ok u.
Proof.
  intros Hu. rewrite decodeUnsigned_get, encodeUnsigned_get;
    auto using encodeUnsigned_bytes_ok, encodeUnsigned_len.
Qed.

(** ** Signed contents *)
(** [v] fits in [w] octets of two's complement. *)
Definition fits_signed (w v : Z) : Prop := - 2 ^ (8 * w - 1) <= v < 2 ^ (8 * w - 1).

Lemma fits_signed_mono w w' v : 1 <= w <= w' -> fits_signed w v -> fits_signed w' v.
Proof.
  unfold fits_signed. intros Hw Hv.
  pose proof (Z.pow_le_mono_r 2 (8 * w - 1) (8 * w' - 1)). lia.
Qed.

Lemma signedWidth_spec fuel w v :
  1 <= w <= 8 -> 8 - w <= Z.of_nat fuel -> is_s 64 v ->
  (forall w', 1 <= w' < w -> ~ fits_signed w' v) ->
  let r := signedWidth fuel w v in
  w <= r <= 8 /\ fits_signed r v /\ (forall w', 1 <= w' < r -> ~ fits_signed w' v).
Proof.
  intros Hw Hf Hv. revert w Hw Hf. induction fuel as [|fuel IH]; intros w Hw Hf Hmin; cbn [signedWidth].
  { assert (w = 8) as -> by lia. done. }
  destruct (w <? 8) eqn:E8; bool_to_prop.
  2:{ assert (w = 8) as -> by lia. done. }
  rewrite Z.shiftl_1_l. destruct (_ && _) eqn:E.
  - bool_to_prop. unfold fits_signed. split_and!; try lia. done.
  - destruct (IH (w + 1)) as (H1 & H2 & H3); try lia.
    { intros w' Hw'. destruct (decide (w' = w)) as [->|]; [|apply Hmin; lia].
      unfold fits_signed. bool_to_prop; lia. }
    split_and!; try lia; done.
Qed.

Lemma signedWidth_1_spec v :
  is_s 64 v ->
  1 <= signedWidth 8 1 v <= 8 /\ fits_signed (signedWidth 8 1 v) v /\
  (forall w, 1 <= w < signedWidth 8 1 v -> ~ fits_signed w v).
Proof. intros. apply (signedWidth_spec 8 1 v); try lia; done. Qed.

Lemma map_seqZ_be_put w v :
  0 <= w ->
  map (fun i => u8 (Z.land (Z.shiftr v ((w - 1 - i) * 8)) 0xFF)) (seqZ 0 w) = be_put (Z.to_nat w) v.
Proof.
  intros Hw. remember (Z.to_nat w) as n eqn:En.
  assert (w = Z.of_nat n) as -> by lia. clear.
  enough (forall m s, s + Z.of_nat m = Z.of_nat n ->
    map (fun i => u8 (Z.land (Z.shiftr v ((Z.of_nat n - 1 - i) * 8)) 0xFF)) (seqZ s (Z.of_nat m)) = be_put m v) as H.
  { apply H. lia. }
  induction m as [|m IH]; intros s Hs; [done|].
  rewrite seqZ_cons by lia. cbn [map be_put].
  replace (Z.pred (Z.of_nat (S m))) with (Z.of_nat m) by lia. rewrite IH by lia. f_equal.
  replace (Z.of_nat n - 1 - s) with (Z.of_nat m) by lia. rewrite byte_of_shift by lia.
  by rewrite (Z.mul_comm _ 8), Z.pow_mul_r by lia.
Qed.

Lemma encodeSigned_put v :
  is_s 64 v -> encodeSigned v = be_put (Z.to_nat (signedWidth 8 1 v)) v.
Proof. intros Hv. apply map_seqZ_be_put. pose proof (signedWidth_1_spec v Hv). lia. Qed.

Lemma encodeSigned_len v : is_s 64 v -> len (encodeSigned v) = signedWidth 8 1 v.
Proof. intros Hv. rewrite encodeSigned_put, len_be_put by done. pose proof (signedWidth_1_spec v Hv). lia. Qed.

Lemma encodeSigned_bytes_ok v : bytes_ok (encodeSigned v).
Proof.
  unfold encodeSigned. apply Forall_forall. intros b (i & <- & _)%list_elem_of_In%in_map_iff.
  by apply uwrap_range.
Qed.

Lemma fold_signedStep l s :
  bytes_ok l -> - 2 ^ 63 <= s * 256 ^ len l -> s * 256 ^ len l + be_get l < 2 ^ 63 ->
  fold_left signedStep l s = fold_left be_step l s.
Proof.
  intros Hl. revert s. induction Hl as [|b l Hb Hl IH]; intros s Ha Hlt; [done|]. cbn [fold_left].
  rewrite len_cons, Z.pow_add_r in * by len_lia. rewrite be_get_cons in Hlt. unfold is_u in Hb.
  pose proof (be_get_bound l Hl) as Hg.
  assert (1 <= 256 ^ len l) by (pose proof (Z.pow_pos_nonneg 256 (len l)); len_lia).
  assert (signedStep s b = be_step s b) as ->.
  { unfold signedStep, be_step. rewrite swrap_small; [by rewrite lor_shiftl_add|done|].
    rewrite Z.shiftl_mul_pow2 by lia. unfold is_s. nia. }
  apply IH; unfold be_step; nia.
Qed.

Lemma decodeSigned_be_put n v :
  (n < 8)%nat -> fits_signed (Z.of_nat (S n)) v -> decodeSigned (be_put (S n) v) = Ok v.
Proof.
  intros Hn Hv. unfold decodeSigned. decide_tests. cbn [be_put].
  rewrite index_0, slice_from_1. cbn [bind]. set (p := 256 ^ Z.of_nat n).
  assert (0 < p) as Hp by (subst p; lia).
  assert (2 ^ (8 * Z.of_nat (S n) - 1) = 128 * p) as Hpow.
  { subst p. replace (8 * Z.of_nat (S n) - 1) with (7 + 8 * Z.of_nat n) by lia.
    rewrite Z.pow_add_r, Z.pow_mul_r by lia. done. }
  unfold fits_signed in Hv. rewrite Hpow in Hv.
  assert (p <= 256 ^ 7) as Hp7 by (apply Z.pow_le_mono_r; lia).
  assert (-128 <= v / p < 128) as Hq.
  { split; [apply Z.div_le_lower_bound|apply Z.div_lt_upper_bound]; lia. }
  assert ((if (v / p) mod 256 >=? 128 then (v / p) mod 256 - 256 else (v / p) mod 256) = v / p) as Hs.
  { destruct (Z.lt_ge_cases (v / p) 0).
    - replace ((v / p) mod 256) with (v / p + 256); [decide_tests; lia|].
      apply (Z.mod_unique _ _ (-1)); lia.
    - rewrite Z.mod_small by lia. by decide_tests. }
  cbn zeta. rewrite Hs. f_equal.
  pose proof (Z.div_mod v p ltac:(lia)). pose proof (Z.mod_pos_bound v p Hp).
  rewrite fold_signedStep, fold_be_step; rewrite ?len_be_put, ?be_get_be_put; fold p;
    auto using be_put_bytes_ok; change (256 ^ 7) with (2 ^ 56) in Hp7; nia.
Qed.

Lemma decodeSigned_encode v : is_s 64 v -> decodeSigned (encodeSigned v) = Ok v.
Proof.
  intros Hv. destruct (signedWidth_1_spec v Hv) as (Hw & Hf & _).
  rewrite encodeSigned_put by done. set (w := signedWidth 8 1 v) in *.
  replace (Z.to_nat w) with (S (Z.to_nat (w - 1))) by lia.
  apply decodeSigned_be_put; [lia|]. by replace (Z.of_nat (S (Z.to_nat (w - 1)))) with w by lia.
Qed.

(** ** Tag headers *)
(** The initial octet: tag nibble, class bit, length/value/type. *)
Definition tagOctet (t : Z) (context : bool) (lvt : Z) : Z :=
  Z.lor (if context then Z.lor (u8 (Z.shiftl t 4)) 0x08 else u8 (Z.shiftl t 4)) lvt.

Lemma tagOctet_fields t context lvt :
  0 <= t < 16 -> 0 <= lvt < 8 ->
  Z.shiftr (tagOctet t context lvt) 4 = t /\
  negb (Z.land (tagOctet t context lvt) 0x08 =? 0) = context /\
  Z.land (tagOctet t context lvt) 0x07 = lvt /\
  is_byte (tagOctet t context lvt).
Proof.
  intros Ht Hl.
  pose (ok t l c := let b := tagOctet t c l in
    (Z.shiftr b 4 =? t) && eqb (negb (Z.land b 0x08 =? 0)) c && (Z.land b 0x07 =? l)
    && (0 <=? b) && (b <? 2 ^ 8)).
  assert (forall c, ok t lvt c = true) as H.
  { intros c. apply (forall_range (fun l => ok t l c) 8); [|done].
    apply (forall_range (fun t => forallb (fun l => ok t l c) (seqZ 0 8)) 16); [|done].
    by destruct c; vm_compute. }
  specialize (H context). unfold ok in H. bool_to_prop.
  apply eqb_prop in H3. done.
Qed.

Definition extTag (tn : Z) : bytes := if tn <? 15 then [] else [tn].
Definition tagNibble (tn : Z) : Z := if tn <? 15 then tn else 15.
(** The length/value/type field of a length. *)
Definition lvtOf (n : Z) : Z := if n <? 5 then n else 5.

Lemma Uint_be_put n v : Uint n (be_put n v) = Ok (v mod 256 ^ Z.of_nat n).
Proof.
  unfold Uint. rewrite <- (app_nil_r (be_put n v)), (slice_app [] (be_put n v) []) by len_lia.
  cbn [bind]. by rewrite be_get_be_put.
Qed.

Lemma headOctet_eq (context : bool) tn :
  (if context then Z.lor (if negb (tn <? 15) then 0xF0 else u8 (Z.shiftl tn 4)) 0x08
   else if negb (tn <? 15) then 0xF0 else u8 (Z.shiftl tn 4)) =
  (if context then Z.lor (u8 (Z.shiftl (tagNibble tn) 4)) 0x08 else u8 (Z.shiftl (tagNibble tn) 4)).
Proof. unfold tagNibble. by destruct context, (tn <? 15). Qed.

Lemma headExt_eq tn : (if negb (tn <? 15) then [tn] else []) = extTag tn.
Proof. unfold extTag. by destruct (tn <? 15). Qed.

(** The header [encodeTagHeader] writes is the one [parseLength] reads. *)
Lemma parseLength_spec n :
  0 <= n <= MaxUint32 ->
  exists lb, (forall context tn, encodeTagHeader context tn n =
                Ok (tagOctet (tagNibble tn) context (lvtOf n) :: extTag tn ++ lb)) /\
    bytes_ok lb /\ len lb <= 5 /\
    forall rest, parseLength (lb ++ rest) (lvtOf n) = Ok (n, len lb).
Proof.
  intros Hn. unfold encodeTagHeader, lvtOf, parseLength, tagOctet.
  destruct (Z.lt_ge_cases n 5); [|destruct (Z.lt_ge_cases n 254); [|destruct (Z.lt_ge_cases n (2 ^ 16))]];
    [exists [] | exists [n] | exists (254 :: be_put 2 n) | exists (255 :: be_put 4 n)];
    unfold MaxUint16, MaxUint32, maxSafe in *.
  all: (split_and!; [intros context tn; decide_tests; rewrite headOctet_eq, headExt_eq;
                     rewrite ?(uwrap_small 8 n), ?(uwrap_small 16 n), ?(uwrap_small 32 n) by (unfold is_u; lia);
                     by destruct context
                    |solve_bytes
                    |done|intros rest; decide_tests; rewrite <- ?app_comm_cons, ?index_0; cbn [bind]; decide_tests]).
  - done.
  - done.
  - rewrite (slice_app [254] (be_put 2 n) rest) by done. cbn [bind].
    rewrite Uint_be_put, Z.mod_small by lia. done.
  - rewrite (slice_app [255] (be_put 4 n) rest) by done. cbn [bind].
    rewrite Uint_be_put, Z.mod_small by lia. cbn [bind]. by decide_tests.
Qed.

Definition tagNumber_ok (tn : Z) : Prop := 0 <= tn < tagNumberReserved.

(** The tag number [ParseTag] reads back from the initial octet and its
    extension. *)
Lemma ParseTag_number o tn rest {A} (k : Z * Z -> result A) :
  tagNumber_ok tn -> Z.shiftr o 4 = tagNibble tn ->
  bind (if Z.shiftr o 4 =? 0x0F then
      if 1 >=? len (o :: extTag tn ++ rest) then Err ErrMalformed else
      let* t := index (o :: extTag tn ++ rest) 1 in
      if (t <? 0x0F) || (t =? tagNumberReserved) then Err ErrMalformed
      else Ok (t, 2)
    else Ok (Z.shiftr o 4, 1)) k
  = k (tn, 1 + len (extTag tn)).
Proof.
  unfold tagNumber_ok, tagNumberReserved. intros Htn ->.
  unfold tagNibble, extTag. destruct (tn <? 15) eqn:E; bool_to_prop.
  - by decide_tests.
  - decide_tests. cbn [app]. rewrite index_1. cbn [bind]. by decide_tests.
Qed.

(** One tag with contents, whatever follows it. *)
Lemma ParseTag_primitive limits (context : bool) tn value :
  tagNumber_ok tn -> len value <= MaxUint32 -> context = true \/ tn <> TagBoolean ->
  exists hdr, encodeTagHeader context tn (len value) = Ok hdr /\ bytes_ok hdr /\ 1 <= len hdr /\
  forall rest, ParseTag (hdr ++ value ++ rest) limits =
  (if context then
     if len value >? MaxOctetStringLength (Normalize limits) then Err ErrLimitExceeded
     else Ok (contextElement tn value, len hdr + len value)
   else
     let* v := decodeApplicationValue tn value (lvtOf (len value)) (Normalize limits) in
     Ok (appElement tn v, len hdr + len value)).
Proof.
  intros Htn Hv Hc.
  destruct (parseLength_spec (len value)) as (lb & Henc & Hlb & Hl5 & Hpl); [len_lia|].
  assert (0 <= lvtOf (len value) < 6) as Hlvt.
  { unfold lvtOf. destruct (_ <? 5) eqn:E; bool_to_prop; len_lia. }
  assert (0 <= tagNibble tn < 16) as Hnib.
  { unfold tagNibble, tagNumber_ok in *. destruct (_ <? 15) eqn:E; bool_to_prop; len_lia. }
  eexists. split; [apply Henc|].
  destruct (tagOctet_fields (tagNibble tn) context (lvtOf (len value))) as (Hn & Hctx & Hl & Hb); [lia..|].
  split.
  { unfold extTag, tagNumber_ok, tagNumberReserved in *. destruct (_ <? 15) eqn:E; bool_to_prop; solve_bytes. }
  split; [len_lia|]. intros rest.
  rewrite <- app_comm_cons, <- app_assoc. unfold ParseTag.
  set (o := tagOctet (tagNibble tn) context (lvtOf (len value))) in *.
  decide_test. rewrite index_0. cbn [bind]. cbv zeta.
  rewrite ParseTag_number by done. cbn beta iota. rewrite Hctx, Hl.
  rewrite (app_comm_cons (extTag tn)), (slice_from_app (o :: extTag tn)) by len_lia. cbn [bind].
  replace (context && (lvtOf (len value) =? 6)) with false by (symmetry; apply andb_false_iff; right; lia).
  replace (context && (lvtOf (len value) =? 7)) with false by (symmetry; apply andb_false_iff; right; lia).
  replace (negb context && (tn =? TagBoolean)) with false.
  2:{ symmetry. apply andb_false_iff. destruct Hc as [-> | Hc]; [by left|right; lia]. }
  rewrite Hpl. cbn [bind]. decide_tests.
  rewrite app_assoc, (slice_app ((o :: extTag tn) ++ lb) value rest) by len_lia. cbn [bind].
  replace (len (o :: extTag tn ++ lb) + len value) with (1 + len (extTag tn) + len lb + len value) by len_lia.
  done.
Qed.

Lemma ParseTag_open limits tn opening rest :
  tagNumber_ok tn ->
  ParseTag (appendContextOpenClose [] tn opening ++ rest) limits =
  Ok (if opening then openingElement tn else closingElement tn, len (appendContextOpenClose [] tn opening)).
Proof.
  intros Htn. set (lvt := if opening then 6 else 7).
  assert (0 <= tagNibble tn < 16) as Hnib.
  { unfold tagNibble, tagNumber_ok in *. destruct (_ <? 15) eqn:E; bool_to_prop; len_lia. }
  assert (appendContextOpenClose [] tn opening = tagOctet (tagNibble tn) true lvt :: extTag tn) as ->.
  { unfold appendContextOpenClose, tagOctet, tagNibble, extTag. subst lvt. by destruct (tn <? 15). }
  assert (0 <= lvt < 8) as Hlvt by (subst lvt; by destruct opening).
  destruct (tagOctet_fields (tagNibble tn) true lvt) as (Hn & Hctx & Hl & Hb); [lia..|].
  rewrite <- app_comm_cons. unfold ParseTag. decide_test. rewrite index_0. cbn [bind]. cbv zeta.
  rewrite ParseTag_number by done. cbn beta iota. rewrite Hctx, Hl, !len_cons.
  subst lvt. by destruct opening.
Qed.

(** ** Application values on the wire

    [app_prim lim v]: [v] is a primitive application value, in the form the
    decoder builds (the fields of other kinds are zero), inside its Go ranges
    and inside the decode limits [lim]. *)
Inductive app_prim (lim : DecodeLimits) : ApplicationValue -> Prop :=
| ap_null : app_prim lim NullValue
| ap_bool b : app_prim lim (BoolValue b)
| ap_unsigned u : is_u 64 u -> app_prim lim (UnsignedValue u)
| ap_signed s : is_s 64 s -> app_prim lim (SignedValue s)
| ap_real f : is_u 32 f -> app_prim lim (RealValue f)
| ap_double f : is_u 64 f -> app_prim lim (DoubleValue f)
| ap_octets o : bytes_ok o -> len o <= MaxUint32 -> len o <= MaxOctetStringLength lim ->
    app_prim lim (octetsValue ValueOctetString o)
| ap_character e s : is_byte e -> bytes_ok s -> len s < MaxUint32 -> len s <= MaxCharacterLength lim ->
    app_prim lim (characterValue (mkCharacterString e s))
| ap_bits n bs : 0 <= n <= 7 -> (bs = [] -> n = 0) -> bytes_ok bs -> len bs < MaxUint32 ->
    len bs * 8 <= MaxBitStringBits lim -> app_prim lim (bitStringValue (mkBitString n bs))
| ap_enum e : is_u 32 e -> app_prim lim (EnumValue e)
| ap_date a b c d : is_byte a -> is_byte b -> is_byte c -> is_byte d -> app_prim lim (dateValue (mkDate a b c d))
| ap_time a b c d : is_byte a -> is_byte b -> is_byte c -> is_byte d -> app_prim lim (timeValue (mkTime a b c d))
| ap_oid id : oid_ok id -> app_prim lim (ObjectIDValue id).

Lemma validateBitString_ok n (bs : bytes) : 0 <= n <= 7 -> (bs = [] -> n = 0) -> validateBitString n (len bs) = Ok tt.
Proof.
  intros Hn He. unfold validateBitString. decide_test. decide_test.
  destruct bs as [|b bs]; [by rewrite (He eq_refl)|]. by decide_tests.
Qed.

Lemma validateBitString_inv n k r : validateBitString n k = Ok r -> n <= 7 /\ (k = 0 -> n = 0).
Proof. unfold validateBitString. intros H. inv_all H; lia. Qed.

Lemma decode_content lim tn value lvt v :
  decodeApplicationValue tn value lvt (Normalize lim) = Ok v ->
  tagNumber_ok tn -> tn <> TagBoolean -> bytes_ok value -> len value <= MaxUint32 ->
  lvt = lvtOf (len value) ->
  exists bs,
    (forall dst, appendAppPrimitive dst tn value = Ok (dst ++ bs)) /\ bytes_ok bs /\ 1 <= len bs /\
    forall rest, ParseTag (bs ++ rest) lim = Ok (appElement tn v, len bs).
Proof.
  intros Hd Htn Hb Hv Hl ->.
  destruct (ParseTag_primitive lim false tn value) as (hdr & He & Hh & Hh1 & Hp); [done..|by right|].
  exists (hdr ++ value). unfold appendAppPrimitive. rewrite He. cbn [bind].
  split_and!; [done|by apply Forall_app|len_lia|]. intros rest.
  rewrite <- app_assoc, Hp, Hd. cbn [bind]. by rewrite len_app.
Qed.

(** Projections of the value constructors. *)
Ltac av_simpl :=
  cbn [av_Kind av_Boolean av_Unsigned av_Signed av_Real av_Double av_OctetString av_Character av_BitString
       av_Enumerated av_Date av_Time av_ObjectID av_Elements el_Context el_TagNumber el_Opening el_Closing el_Value
       NullValue zeroAV BoolValue UnsignedValue SignedValue RealValue DoubleValue octetsValue characterValue
       bitStringValue EnumValue dateValue timeValue ObjectIDValue constructedValue
       openingElement closingElement contextElement appElement
       cs_Encoding cs_Value bs_UnusedBits bs_Bytes d_Year d_Month d_Day d_Weekday
       t_Hour t_Minute t_Second t_Hundredths app].

Lemma AppendApplicationValue_ParseTag lim v :
  app_prim (Normalize lim) v ->
  exists bs, (forall dst, AppendApplicationValue dst v = Ok (dst ++ bs)) /\ bytes_ok bs /\ 1 <= len bs /\
    forall rest, ParseTag (bs ++ rest) lim = Ok (appElement (AVTagNumber v) v, len bs).
Proof.
  intros Hv. unfold AppendApplicationValue.
  destruct Hv as [|b|u Hu|s Hs|f Hf|f Hf|o Ho Ho1 Ho2|e s He Hs Hs1 Hs2|n bs Hn Hn0 Hbs Hbs1 Hbs2|e He
                 |a b c d Ha Hb Hc Hd|a b c d Ha Hb Hc Hd|id Hid];
    unfold appendPrimitiveValue, AVTagNumber; av_simpl.
  - destruct (ParseTag_primitive lim false 0 []) as (hdr & He & Hh & Hh1 & Hp); [done..|by right|].
    injection He as <-. exists [0]. done.
  - exists [if b then 0x11 else 0x10]. destruct b; (split_and!; [done|solve_bytes|done|]);
      intros rest; cbn [app]; unfold ParseTag; decide_test; reflexivity.
  - eapply decode_content; try done; [|apply encodeUnsigned_bytes_ok|pose proof (encodeUnsigned_len u Hu); unfold MaxUint32; lia].
    cbn. by rewrite decodeUnsigned_encode.
  - eapply decode_content; try done; [|apply encodeSigned_bytes_ok|].
    + cbn. by rewrite decodeSigned_encode.
    + rewrite encodeSigned_len by done. pose proof (signedWidth_1_spec s Hs). unfold MaxUint32; lia.
  - eapply decode_content; try done; [|apply be_put_bytes_ok].
    cbn -[be_put]. rewrite Uint_be_put, Z.mod_small by apply Hf. done.
  - eapply decode_content; try done; [|apply be_put_bytes_ok].
    cbn -[be_put]. rewrite Uint_be_put, Z.mod_small by apply Hf. done.
  - eapply decode_content; try done. cbn -[be_put Normalize]. by decide_tests.
  - eapply decode_content; try done; [|by constructor|len_lia].
    cbn -[be_put Normalize len slice_from index]. decide_tests. rewrite index_0, slice_from_1. done.
  - rewrite validateBitString_ok by done. cbn [bind].
    eapply decode_content; try done; [|constructor; [unfold is_u; lia|done]|len_lia].
    cbn -[be_put Normalize len slice_from index validateBitString]. decide_tests. rewrite index_0, slice_from_1. cbn [bind].
    replace (len (n :: bs) - 1) with (len bs) by len_lia. rewrite validateBitString_ok by done. cbn [bind].
    by decide_tests.
  - eapply decode_content; try done; [|apply encodeUnsigned_bytes_ok|].
    + cbn -[be_put]. apply (is_u_mono 32 64) in He as He'; [|done]. rewrite decodeUnsigned_encode by done. cbn [bind].
      unfold is_u, MaxUint32 in *. decide_tests. by rewrite uwrap_small.
    + apply (is_u_mono 32 64) in He as He'; [|done]. pose proof (encodeUnsigned_len e He'). unfold MaxUint32; lia.
  - eapply decode_content; try done. solve_bytes.
  - eapply decode_content; try done. solve_bytes.
  - rewrite EncodeObjectIdentifier_ok by done. cbn [bind].
    eapply decode_content; try done; [|apply be_put_bytes_ok].
    cbn -[be_put Z.mul Z.pow]. rewrite Uint_be_put. cbn [bind]. destruct id as [t i], Hid as [Ht Hi]. cbn [oid_Type oid_Instance] in *.
    unfold MaxObjectInstance in *.
    rewrite Z.mod_small by (change (256 ^ Z.of_nat 4) with (2 ^ 32); lia). by rewrite DecodeObjectIdentifier_encoded.
Qed.

(** ** What [ParseTag] returns *)
Lemma Uint_Ok n data v : Uint n data = Ok v -> bytes_ok data -> 0 <= v < 256 ^ Z.of_nat n.
Proof.
  unfold Uint. intros H Hd. inv_ok H. injection H as <-.
  pose proof (slice_Ok _ _ _ _ E) as (_ & _ & _ & Hlen).
  pose proof (be_get_bound r ltac:(eauto with go)) as Hb. by rewrite Hlen, Z.sub_0_r in Hb.
Qed.

Lemma safe_Uint n data : Z.of_nat n <= len data -> safe (Uint n data).
Proof. intros. unfold Uint. safe_steps. Qed.
#[export] Hint Resolve safe_Uint : go.

Lemma parseLength_Ok data lvt l n :
  bytes_ok data -> 0 <= lvt -> parseLength data lvt = Ok (l, n) ->
  0 <= l <= MaxUint32 /\ 0 <= n <= len data.
Proof.
  unfold parseLength, MaxUint32. intros Hd Hl H.
  inv_all H; simplify_eq; try len_lia.
  all: repeat match goal with
  | E : index _ _ = Ok _ |- _ => apply index_bytes_ok in E; [|done]
  | E : Uint _ _ = Ok _ |- _ => apply Uint_Ok in E; [|eauto with go]
  end; unfold is_u in *; len_lia.
Qed.

Lemma parseLength_safe data lvt : safe (parseLength data lvt).
Proof.
  unfold parseLength. safe_steps.
  - apply slice_Ok in H0. apply safe_Uint. lia.
  - apply slice_Ok in H0. apply safe_Uint. lia.
Qed.

Lemma decodeUnsigned_safe data : safe (decodeUnsigned data).
Proof. unfold decodeUnsigned. safe_steps. Qed.

Lemma decodeSigned_safe data : safe (decodeSigned data).
Proof. unfold decodeSigned. safe_steps. Qed.

Lemma validateBitString_safe a b : safe (validateBitString a b).
Proof. unfold validateBitString. safe_steps. Qed.
#[export] Hint Resolve parseLength_safe decodeUnsigned_safe decodeSigned_safe validateBitString_safe : go.

Lemma decodeApplicationValue_safe tag data lvt lim : safe (decodeApplicationValue tag data lvt lim).
Proof. unfold decodeApplicationValue. safe_steps; apply safe_Uint; len_lia. Qed.
#[export] Hint Resolve decodeApplicationValue_safe : go.

Lemma land_7_range b : 0 <= Z.land b 0x07 < 8.
Proof. rewrite (land_ones_mod b 3) by done. apply Z.mod_pos_bound. lia. Qed.

Lemma ParseTag_never_panics data lim : bytes_ok data -> safe (ParseTag data lim).
Proof.
  intros Hd. unfold ParseTag. cbv zeta. safe_step; [exact I|]. safe_step; [safe_step|]. apply safe_bind.
  { safe_steps. }
  intros [tn off] Hoff. cbn beta iota.
  assert (1 <= off <= len data) as Ho by (inv_all Hoff; simplify_eq; len_lia).
  pose proof (land_7_range a).
  assert (safe (let* rest := slice_from data off in
    let* (length, n) := parseLength rest (Z.land a 7) in
    if length >? len data - (off + n) then Err ErrMalformed else
    let* valueBytes := slice data (off + n) (off + n + length) in
    if negb (Z.land a 8 =? 0) then
      if length >? MaxOctetStringLength (Normalize lim) then Err ErrLimitExceeded
      else Ok (contextElement tn valueBytes, off + n + length)
    else
      let* v := decodeApplicationValue tn valueBytes (Z.land a 7) (Normalize lim) in
      Ok (appElement tn v, off + n + length))).
  { safe_step; [safe_step|]. safe_step; [apply parseLength_safe|]. destruct a1 as [l n].
    match goal with
    | Hs : slice_from _ _ = Ok _, Hp : parseLength _ _ = Ok _ |- _ =>
        apply parseLength_Ok in Hp; [|eauto with go|lia]; apply slice_from_Ok in Hs
    end. safe_steps. }
  by repeat first [assumption | safe_step].
Qed.

(** The elements the wire can carry, as [ParseTag] builds them. *)
Inductive tag_shape (lim : DecodeLimits) : Element -> Prop :=
| ts_open tn : tagNumber_ok tn -> tag_shape lim (openingElement tn)
| ts_close tn : tagNumber_ok tn -> tag_shape lim (closingElement tn)
| ts_context tn o : tagNumber_ok tn -> bytes_ok o -> len o <= MaxUint32 -> len o <= MaxOctetStringLength lim ->
    tag_shape lim (contextElement tn o)
| ts_app tn v : tagNumber_ok tn -> app_prim lim v -> (tn <= 12 -> AVTagNumber v = tn) ->
    tag_shape lim (appElement tn v).

Lemma decodeSigned_range l v : bytes_ok l -> decodeSigned l = Ok v -> is_s 64 v.
Proof.
  intros Hl H. assert (1 <= len l <= 8) as Hlen.
  { unfold decodeSigned in H. step_if H; [done|]. bool_to_prop. len_lia. }
  pose proof (be_get_bound l Hl) as Hg. pose proof (be_put_be_get l Hl) as Hp.
  destruct (length l) as [|n] eqn:En; [unfold len in Hlen; lia|].
  assert (len l = Z.of_nat (S n)) as Hn by (unfold len; lia). rewrite Hn in *.
  set (g := be_get l) in *.
  set (w := if g <? 2 ^ (8 * Z.of_nat (S n) - 1) then g else g - 256 ^ Z.of_nat (S n)).
  assert (256 ^ Z.of_nat (S n) = 2 * 2 ^ (8 * Z.of_nat (S n) - 1)) as Hpow.
  { change 256 with (2 ^ 8). rewrite <- Z.pow_mul_r, <- Z.pow_succ_r by lia. f_equal. lia. }
  assert (be_put (S n) w = l) as Hw.
  { rewrite <- Hp. subst w. destruct (_ <? _); [done|].
    rewrite <- (be_put_mod _ (g - _) (S n)), <- (be_put_mod _ g (S n)) by lia. f_equal.
    rewrite <- (Z_mod_plus_full (g - _) 1). f_equal. lia. }
  assert (fits_signed (Z.of_nat (S n)) w) as Hf.
  { unfold fits_signed. subst w. destruct (_ <? _) eqn:E; bool_to_prop; lia. }
  rewrite <- Hw, decodeSigned_be_put in H by (done || lia). injection H as <-.
  apply (fits_signed_mono _ 8) in Hf; [done|lia].
Qed.

Ltac use_tag :=
  unfold TagNull, TagBoolean, TagUnsigned, TagSigned, TagReal, TagDouble, TagOctetString,
    TagCharacterString, TagBitString, TagEnumerated, TagDate, TagTime, TagObjectIdentifier in *.

Lemma decodeApplicationValue_shape tag data lvt lim v :
  bytes_ok data -> len data <= MaxUint32 -> 0 <= tag ->
  decodeApplicationValue tag data lvt lim = Ok v ->
  app_prim lim v /\ (tag <= 12 -> AVTagNumber v = tag).
Proof.
  intros Hd Hl Ht H. unfold decodeApplicationValue in H.
  use_tag. inv_all H; simplify_eq.
  all: split; [|try done; try lia].
  all: repeat match goal with
  | E : decodeUnsigned _ = Ok _ |- _ => apply decodeUnsigned_Ok in E as (_ & _ & E); [|done]
  | E : decodeSigned _ = Ok _ |- _ => apply decodeSigned_range in E; [|done]
  | E : Uint _ _ = Ok _ |- _ => apply Uint_Ok in E; [|done]
  | E : index _ _ = Ok _ |- _ => apply index_bytes_ok in E; [|done]
  end.
  all: constructor; try done; eauto using DecodeObjectIdentifier_ok with go; try (by apply uwrap_range).
  all: repeat match goal with
  | E : slice_from _ _ = Ok _ |- _ => apply slice_from_Ok in E as (_ & _ & E)
  | E : validateBitString _ _ = Ok _ |- _ => apply validateBitString_inv in E as [E ?]
  end; unfold is_u in *; try len_lia.
  intros ->. len_simpl. lia.
Qed.

(** What [ParseTag] returns: a canonical element, and a number of octets
    between one and the length of the input. *)
Lemma ParseTag_shape data lim el n :
  bytes_ok data -> ParseTag data lim = Ok (el, n) -> tag_shape (Normalize lim) el /\ 1 <= n <= len data.
Proof.
  intros Hd H. unfold ParseTag in H. cbv zeta in H. step_if H; [done|]. bool_to_prop.
  inv_ok H. apply bind_Ok_inv in H as ([tn off] & Hoff & H). cbn beta iota in H.
  apply index_bytes_ok in E0 as Hr; [|done]. pose proof (land_7_range r).
  assert (tagNumber_ok tn /\ 1 <= off <= len data) as [Htn Ho].
  { assert (0 <= Z.shiftr r 4 < 16).
    { rewrite Z.shiftr_div_pow2 by lia. unfold is_u in Hr.
      split; [apply Z.div_pos|apply Z.div_lt_upper_bound]; lia. }
    unfold tagNumber_ok, tagNumberReserved in *.
    inv_all Hoff; simplify_eq; try len_lia.
    match goal with Ei : index data 1 = Ok _ |- _ => apply index_bytes_ok in Ei; [|done]; unfold is_u in Ei end. len_lia. }
  step_if H; [simplify_eq; split; [by constructor|lia]|].
  step_if H; [simplify_eq; split; [by constructor|lia]|].
  step_if H.
  { match goal with Eb : _ && (tn =? TagBoolean) = true |- _ => apply andb_true_iff in Eb as [_ ->%Z.eqb_eq] end.
    step_if H; [done|]. simplify_eq. split; [|lia]. constructor; [done|constructor|done]. }
  apply bind_Ok_inv in H as (rest & Hrest & H). apply bind_Ok_inv in H as ([l m] & Hpl & H). cbn beta iota in H.
  apply parseLength_Ok in Hpl as (Hl & Hm); [|eauto with go|lia]. apply slice_from_Ok in Hrest as (_ & _ & Hlr).
  step_if H; [done|]. apply bind_Ok_inv in H as (val & Hval & H). apply slice_bytes_ok in Hval as Hv; [|done].
  apply slice_Ok in Hval as (_ & Hle & _ & Hlv). step_if H.
  - step_if H; [done|]. simplify_eq. split; [constructor; try done; lia|lia].
  - apply bind_Ok_inv in H as (v & Hdec & H). simplify_eq. split; [|lia].
    apply decodeApplicationValue_shape in Hdec as [Hp Ht]; [by constructor|done|lia|apply Htn].
Qed.

(** ** Properties of the tag codec *)

(** Every primitive application value inside its Go ranges and the decode
    limits is encoded by [AppendApplicationValue], and [ParseApplicationValue]
    reads exactly that value back from the encoding, whatever octets follow,
    reporting the number of octets that were written. *)
Theorem application_value_roundtrip lim v rest
    (Hv : app_prim (Normalize lim) v) :
  exists bs, AppendApplicationValue [] v = Ok bs /\
    ParseApplicationValue (bs ++ rest) lim = Ok (v, len bs).
Proof.
  destruct (AppendApplicationValue_ParseTag lim v Hv) as (bs & Hbs & _ & _ & Hp).
  exists bs. split; [apply (Hbs [])|]. unfold ParseApplicationValue. by rewrite Hp.
Qed.

Lemma application_value_roundtrip_witness :
  exists bs, AppendApplicationValue [] (SignedValue (-129)) = Ok bs /\
    ParseApplicationValue (bs ++ [7]) DefaultDecodeLimits = Ok (SignedValue (-129), len bs).
Proof. apply (application_value_roundtrip DefaultDecodeLimits). apply ap_signed. unfold is_s. lia. Defined.

(** On every octet string [ParseTag] returns: no index or slice is out of
    range. A tag it accepts took between one octet and the whole input, and
    is in canonical form: an opening or closing tag, a context primitive
    inside the octet limit, or an application value with only the fields of
    its kind set, each inside its machine range and the decode limits. *)
Theorem ParseTag_robust data lim (Hd : bytes_ok data) :
  safe (ParseTag data lim) /\
  forall el n, ParseTag data lim = Ok (el, n) -> tag_shape (Normalize lim) el /\ 1 <= n <= len data.
Proof. split; [by apply ParseTag_never_panics|]. intros el n. by apply ParseTag_shape. Qed.

Lemma ParseTag_robust_witness :
  safe (ParseTag [0xF5; 0xFF; 1] DefaultDecodeLimits) /\
  forall el n, ParseTag [0xF5; 0xFF; 1] DefaultDecodeLimits = Ok (el, n) ->
    tag_shape (Normalize DefaultDecodeLimits) el /\ 1 <= n <= len [0xF5; 0xFF; 1].
Proof. apply ParseTag_robust. solve_bytes. Defined.

(** Integer contents are minimal and lossless: [encodeUnsigned] writes no
    leading zero octet except for 0 itself, [encodeSigned] writes the fewest
    octets of two's complement that hold the number, and the decoders invert
    them over the whole uint64 and int64 ranges. *)
Theorem integer_contents_minimal u s (Hu : is_u 64 u) (Hs : is_s 64 s) :
  decodeUnsigned (encodeUnsigned u) = Ok u /\
  (forall b l, encodeUnsigned u = b :: l -> b = 0 -> u = 0) /\
  decodeSigned (encodeSigned s) = Ok s /\
  fits_signed (len (encodeSigned s)) s /\
  (forall w, 1 <= w < len (encodeSigned s) -> ~ fits_signed w s).
Proof.
  rewrite encodeSigned_len by done. destruct (signedWidth_1_spec s Hs) as (_ & Hf & Hm).
  split_and!; [by apply decodeUnsigned_encode|apply encodeUnsigned_head|by apply decodeSigned_encode|done|done].
Qed.

Lemma integer_contents_minimal_witness :
  decodeUnsigned (encodeUnsigned (2 ^ 64 - 1)) = Ok (2 ^ 64 - 1) /\
  (forall b l, encodeUnsigned (2 ^ 64 - 1) = b :: l -> b = 0 -> 2 ^ 64 - 1 = 0) /\
  decodeSigned (encodeSigned (- 2 ^ 63)) = Ok (- 2 ^ 63) /\
  fits_signed (len (encodeSigned (- 2 ^ 63))) (- 2 ^ 63) /\
  (forall w, 1 <= w < len (encodeSigned (- 2 ^ 63)) -> ~ fits_signed w (- 2 ^ 63)).
Proof. apply integer_contents_minimal; [unfold is_u|unfold is_s]; lia. Defined.
