(* ===== verification/Constructed.v ===== *)
(** * Constructed data: [constructed.go] and [error_value.go]

    [ParseSequence] turns a run of tags into elements, matching opening and
    closing tags, under the depth and element limits. The loop recurses with
    fuel; [ParseSequence] gives it one more than the number of octets, and
    [ParseSequence_never_panics] shows that this is always enough. *)

From Stdlib Require Import ZArith Lia.
From stdpp Require Import base list.
From S2P Require Import Prelude Value Tags.

(** ** Definitions *)

(** The check at the head of [parseSequence]. *)
Definition enterSequence {A} (limits : DecodeLimits) (depth : Z) (k : result A) : result A :=
  if depth >? MaxConstructedDepth limits then Err ErrLimitExceeded else k.

(** The [for off < len(data)] loop, with the elements read so far, the
    offset and the element budget ([*budget]) as its state. *)
Fixpoint sequenceLoop (fuel : nat) (data : bytes) (limits : DecodeLimits) (closeTag depth budget : Z)
    (elements : list Element) (off : Z) : result (list Element * Z * Z) :=
  match fuel with
  | O => Err OutOfFuel
  | S fuel =>
      if off <? len data then
        if budget <=? 0 then Err ErrLimitExceeded else
        let* rest := slice_from data off in
        let* (el, n) := ParseTag rest limits in
        if el_Closing el then
          if (closeTag >=? 0) && (el_TagNumber el =? closeTag) then Ok (elements, off + n, budget)
          else Err ErrMalformed
        else if el_Opening el then
          let* body := slice_from data (off + n) in
          let* (inner, m, budget) :=
            enterSequence limits (depth + 1)
              (sequenceLoop fuel body limits (el_TagNumber el) (depth + 1) budget [] 0) in
          let e := mkElement true (el_TagNumber el) false false (constructedValue inner) in
          sequenceLoop fuel data limits closeTag depth (budget - 1) (elements ++ [e]) (off + (n + m))
        else
          sequenceLoop fuel data limits closeTag depth (budget - 1) (elements ++ [el]) (off + n)
      else if closeTag >=? 0 then Err ErrMalformed
      else Ok (elements, off, budget)
  end.

Definition parseSequence (fuel : nat) (data : bytes) (limits : DecodeLimits) (closeTag depth budget : Z)
    : result (list Element * Z * Z) :=
  enterSequence limits depth (sequenceLoop fuel data limits closeTag depth budget [] 0).

Definition ParseSequence (data : bytes) (limits : DecodeLimits) (closeTag : Z) : result (list Element * Z) :=
  let limits := Normalize limits in
  let budget := MaxElements limits in
  let* (els, n, _) := parseSequence (S (length data)) data limits closeTag 0 budget in
  Ok (els, n).

Definition AppendContextUnsigned (dst : bytes) (tagNumber v : Z) : result bytes :=
  appendContextPrimitive dst tagNumber (encodeUnsigned v).
Definition AppendContextObjectID (dst : bytes) (tagNumber : Z) (id : ObjectIdentifier) : result bytes :=
  let* enc := EncodeObjectIdentifier id in appendContextPrimitive dst tagNumber (be_put 4 enc).
Definition AppendContextNull (dst : bytes) (tagNumber : Z) : result bytes :=
  appendContextPrimitive dst tagNumber [].
Definition AppendContextSigned (dst : bytes) (tagNumber v : Z) : result bytes :=
  appendContextPrimitive dst tagNumber (encodeSigned v).
Definition AppendContextBitString (dst : bytes) (tagNumber : Z) (v : BitString) : result bytes :=
  let* _ := validateBitString (bs_UnusedBits v) (len (bs_Bytes v)) in
  appendContextPrimitive dst tagNumber ([bs_UnusedBits v] ++ bs_Bytes v).
Definition AppendContextCharacterString (dst : bytes) (tagNumber : Z) (v : CharacterString) : result bytes :=
  appendContextPrimitive dst tagNumber ([cs_Encoding v] ++ cs_Value v).
Definition AppendContextTime (dst : bytes) (tagNumber : Z) (t : Time) : result bytes :=
  appendContextPrimitive dst tagNumber [t_Hour t; t_Minute t; t_Second t; t_Hundredths t].
Definition AppendContextReal (dst : bytes) (tagNumber v : Z) : result bytes :=
  appendContextPrimitive dst tagNumber (be_put 4 v).

(** The [Context*] accessors of one element. *)
Definition ContextTime (el : Element) : result Time :=
  let b := av_OctetString (el_Value el) in
  if notContextPrimitive el then Err ErrMalformed
  else if negb (len b =? 4) then Err ErrMalformed
  else
    let* h := index b 0 in let* m := index b 1 in let* s := index b 2 in let* c := index b 3 in
    Ok (mkTime h m s c).
Definition ContextReal (el : Element) : result Z :=
  let b := av_OctetString (el_Value el) in
  if notContextPrimitive el then Err ErrMalformed
  else if negb (len b =? 4) then Err ErrMalformed
  else Uint 4 b.
Definition ContextDate (el : Element) : result Date :=
  let b := av_OctetString (el_Value el) in
  if notContextPrimitive el then Err ErrMalformed
  else if negb (len b =? 4) then Err ErrMalformed
  else
    let* y := index b 0 in let* m := index b 1 in let* d := index b 2 in let* w := index b 3 in
    Ok (mkDate y m d w).
Definition ContextUnsigned (el : Element) : result Z :=
  if notContextPrimitive el then Err ErrMalformed
  else decodeUnsigned (av_OctetString (el_Value el)).
Definition ContextUnsigned32 (el : Element) : result Z :=
  let* u := ContextUnsigned el in
  if u >? MaxUint32 then Err ErrMalformed else Ok (u32 u).
Definition ContextSigned (el : Element) : result Z :=
  if notContextPrimitive el then Err ErrMalformed
  else decodeSigned (av_OctetString (el_Value el)).
Definition ContextBitString (el : Element) : result BitString :=
  let b := av_OctetString (el_Value el) in
  if notContextPrimitive el then Err ErrMalformed
  else if len b <? 1 then Err ErrMalformed
  else
    let* u := index b 0 in
    let* _ := validateBitString u (len b - 1) in
    let* r := slice_from b 1 in
    Ok (mkBitString u r).
Definition ContextCharacterString (el : Element) : result CharacterString :=
  let b := av_OctetString (el_Value el) in
  if notContextPrimitive el then Err ErrMalformed
  else if len b <? 1 then Err ErrMalformed
  else
    let* e := index b 0 in
    let* r := slice_from b 1 in
    Ok (mkCharacterString e r).
Definition ContextObjectID (el : Element) : result ObjectIdentifier :=
  let b := av_OctetString (el_Value el) in
  if notContextPrimitive el then Err ErrMalformed
  else if negb (len b =? 4) then Err ErrMalformed
  else
    let* b0 := index b 0 in let* b1 := index b 1 in let* b2 := index b 2 in let* b3 := index b 3 in
    let v := Z.lor (Z.lor (Z.lor (u32 (Z.shiftl b0 24)) (u32 (Z.shiftl b1 16))) (u32 (Z.shiftl b2 8))) b3 in
    Ok (DecodeObjectIdentifier v).

(** ** error_value.go *)
Definition errorFieldUint (el : Element) : result Z :=
  match av_Kind (el_Value el) with
  | ValueEnumerated =>
      let e := av_Enumerated (el_Value el) in
      if e >? 0xFFFF then Err ErrMalformed else Ok (u16 e)
  | ValueUnsigned =>
      let u := av_Unsigned (el_Value el) in
      if u >? 0xFFFF then Err ErrMalformed else Ok (u16 u)
  | _ =>
      if el_Context el then
        let* u := ContextUnsigned el in
        if u >? 0xFFFF then Err ErrMalformed else Ok (u16 u)
      else Err ErrMalformed
  end.

(** The loop of [decodeBACnetErrorContext]; [None] is an unset [have] flag. *)
Fixpoint errorContextLoop (els : list Element) (class code : option Z) : result (option Z * option Z) :=
  match els with
  | [] => Ok (class, code)
  | el :: els =>
      let* u := errorFieldUint el in
      if el_TagNumber el =? 0 then
        match class with
        | Some _ => Err ErrMalformed
        | None => errorContextLoop els (Some u) code
        end
      else if el_TagNumber el =? 1 then
        match code with
        | Some _ => Err ErrMalformed
        | None => errorContextLoop els class (Some u)
        end
      else Err ErrMalformed
  end.
Definition decodeBACnetErrorContext (els : list Element) : result (Z * Z) :=
  let* (class, code) := errorContextLoop els None None in
  match class, code with
  | Some c, Some d => Ok (c, d)
  | _, _ => Err ErrMalformed
  end.

Definition decodeBACnetErrorApplication (els : list Element) : result (Z * Z) :=
  if negb (len els =? 2) then Err ErrMalformed
  else
    let* e0 := index els 0 in
    let* class := errorFieldUint e0 in
    let* e1 := index els 1 in
    let* code := errorFieldUint e1 in
    Ok (class, code).

Definition DecodeBACnetError (els : list Element) : result (Z * Z) :=
  if len els =? 0 then Err ErrMalformed
  else if existsb (fun el => el_Opening el || el_Closing el || IsContextConstructed el) els then Err ErrMalformed
  else if forallb el_Context els then decodeBACnetErrorContext els
  else if forallb (fun el => negb (el_Context el)) els then decodeBACnetErrorApplication els
  else Err ErrMalformed.

Definition EncodeBACnetError (dst : bytes) (class code : Z) : result bytes :=
  let* dst := AppendApplicationValue dst (EnumValue class) in
  AppendApplicationValue dst (EnumValue code).

(** ** Elements on the wire *)

(** An element as the parser builds it: at most [d] levels of constructed
    values, application tags at most [tmax], contents inside the limits. *)
Fixpoint wire_at (lim : DecodeLimits) (tmax : Z) (d : nat) (e : Element) : Prop :=
  (exists tn v, e = appElement tn v /\ tagNumber_ok tn /\ tn <= tmax /\ app_prim lim v /\ (tn <= 12 -> AVTagNumber v = tn)) \/
  (exists tn o, e = contextElement tn o /\ tagNumber_ok tn /\ bytes_ok o /\ len o <= MaxUint32 /\
     len o <= MaxOctetStringLength lim) \/
  match d with
  | O => False
  | S d => exists tn es, e = mkElement true tn false false (constructedValue es) /\ tagNumber_ok tn /\
      Forall (wire_at lim tmax d) es
  end.

(** The number of elements a value takes from the budget. *)
Fixpoint elcount (e : Element) : Z :=
  match e with
  | mkElement _ _ _ _ (mkAV _ _ _ _ _ _ _ _ _ _ _ _ _ es) => 1 + foldr Z.add 0 (map elcount es)
  end.
Definition elcounts (es : list Element) : Z := foldr Z.add 0 (map elcount es).

Lemma elcounts_cons e es : elcounts (e :: es) = elcount e + elcounts es.
Proof. done. Qed.

Lemma elcount_pos e : 1 <= elcount e.
Proof.
  revert e. apply (element_nested_ind (fun v => 0 <= elcounts (av_Elements v)) (fun e => 1 <= elcount e)).
  - intros v IH. unfold elcounts. induction IH; cbn [map foldr]; lia.
  - intros [? ? ? ? [? ? ? ? ? ? ? ? ? ? ? ? ? es]]. unfold elcounts. cbn. lia.
Qed.

Lemma elcounts_nonneg es : 0 <= elcounts es.
Proof. induction es as [|e es IH]; [done|]. rewrite elcounts_cons. pose proof (elcount_pos e). lia. Qed.

Lemma elcounts_app es fs : elcounts (es ++ fs) = elcounts es + elcounts fs.
Proof. induction es as [|e es IH]; cbn [app]; rewrite ?elcounts_cons; [done|lia]. Qed.

Lemma elcount_constructed c tn op cl es : elcount (mkElement c tn op cl (constructedValue es)) = 1 + elcounts es.
Proof. done. Qed.

Lemma wire_at_mono lim tmax d d' e : (d <= d')%nat -> wire_at lim tmax d e -> wire_at lim tmax d' e.
Proof.
  revert d' e. induction d as [|d IH]; intros d' e Hd He.
  - destruct d'; cbn in *; tauto.
  - destruct d' as [|d']; [lia|]. cbn in *. destruct He as [He|[He|(tn & es & -> & Htn & Hes)]]; [tauto..|].
    right. right. exists tn, es. split_and!; [done..|]. eapply Forall_impl; [done|]. intros; apply IH; [lia|done].
Qed.

Lemma tag_shape_wire lim el : tag_shape lim el -> el_Opening el = false -> el_Closing el = false ->
  wire_at lim 254 0 el /\ elcount el = 1.
Proof.
  intros H Ho Hc. destruct H as [| |tn o|tn v Htn Hv Ht]; try done.
  - split; [|done]. right. left. eauto 10.
  - unfold tagNumber_ok, tagNumberReserved in *. split; [left; exists tn, v; split_and!; (done || lia)|].
    by destruct Hv.
Qed.

(** ** The parser: progress, termination, limits *)
(** What a run of the loop may return: an error that is not a panic, or new
    elements that were paid from the budget, and an offset inside the input
    (at its end when no closing tag was asked for). *)
Definition loop_post (lim : DecodeLimits) (data : bytes) (closeTag depth budget : Z) (els : list Element) (off : Z)
    (r : result (list Element * Z * Z)) : Prop :=
  match r with
  | Ok (els', off', budget') =>
      off <= off' <= len data /\ (closeTag < 0 -> off' = len data) /\
      (0 <= budget -> 0 <= budget') /\ (0 <= closeTag -> 0 < budget') /\
      exists new, els' = els ++ new /\ elcounts new = budget - budget' /\
        Forall (wire_at lim 254 (Z.to_nat (MaxConstructedDepth lim - depth))) new
  | Err Panic | Err OutOfFuel => False
  | Err _ => True
  end.

Lemma loop_post_step lim data closeTag depth budget budget1 els e off off1 r :
  loop_post lim data closeTag depth budget1 (els ++ [e]) off1 r ->
  off <= off1 -> elcount e = budget - budget1 -> 0 < budget -> 0 <= budget1 ->
  wire_at lim 254 (Z.to_nat (MaxConstructedDepth lim - depth)) e ->
  loop_post lim data closeTag depth budget els off r.
Proof.
  destruct r as [[[els' off'] b']|[]]; try done.
  intros (Ho & Hc & Hb & Hk & new & -> & Hnew & Hw) Hoff He Hb1 Hb2 Hwe. cbn [loop_post].
  split_and!; [lia..|auto|auto|auto|]. exists (e :: new). rewrite <- app_assoc. split_and!; [done| |by constructor].
  rewrite elcounts_cons. lia.
Qed.

Lemma sequenceLoop_post lim fuel : limits_positive lim ->
  forall data closeTag depth budget els off,
  bytes_ok data -> 0 <= off <= len data -> len data - off < Z.of_nat fuel -> 0 <= depth <= MaxConstructedDepth lim ->
  loop_post lim data closeTag depth budget els off (sequenceLoop fuel data lim closeTag depth budget els off).
Proof.
  intros Hlim. induction fuel as [|fuel IH]; intros data closeTag depth budget els off Hd Hoff Hf Hdep; [lia|].
  cbn [sequenceLoop].
  assert (forall off', off <= off' <= len data -> (closeTag < 0 -> off' = len data) -> (0 <= closeTag -> 0 < budget) ->
    loop_post lim data closeTag depth budget els off (Ok (els, off', budget))) as Hend.
  { intros off' ???. cbn. split_and!; try done; try lia. exists []. rewrite app_nil_r. split_and!; [done|cbn;lia|done]. }
  destruct (off <? len data) eqn:Eoff; bool_to_prop.
  2:{ destruct (closeTag >=? 0) eqn:Ec; [done|]. apply Hend; lia. }
  destruct (budget <=? 0) eqn:Eb; bool_to_prop; [done|].
  rewrite slice_from_total by lia. cbn [bind]. set (rest := drop _ data).
  assert (bytes_ok rest) as Hr by by apply Forall_drop.
  assert (len rest = len data - off) as Hlr by (subst rest; unfold len in *; rewrite length_drop; lia).
  pose proof (ParseTag_never_panics rest lim Hr) as Hsafe.
  destruct (ParseTag rest lim) as [[el n]|[]] eqn:Ep; try done. cbn [bind].
  apply ParseTag_shape in Ep as [Hs Hn]; [|done]. rewrite Normalize_id in Hs by done.
  destruct (el_Closing el) eqn:Ecl.
  { destruct (_ && _) eqn:E; [|done]. bool_to_prop. apply Hend; lia. }
  destruct (el_Opening el) eqn:Eop.
  2:{ apply tag_shape_wire in Hs as [Hw Hc]; [|done..].
      eapply loop_post_step; [apply IH; (done || lia)|..]; try lia. eapply wire_at_mono; [|done]. lia. }
  rewrite slice_from_total by lia. cbn [bind]. set (body := drop _ data).
  assert (bytes_ok body) as Hbody by by apply Forall_drop.
  assert (len body = len data - (off + n)) as Hlb by (subst body; unfold len in *; rewrite length_drop; lia).
  unfold enterSequence. destruct (depth + 1 >? _) eqn:Edep; [done|]. bool_to_prop.
  pose proof (IH body (el_TagNumber el) (depth + 1) budget [] 0 Hbody ltac:(lia) ltac:(lia) ltac:(lia)) as Hin.
  destruct (sequenceLoop fuel body _ _ _ _ _ _) as [[[inner m] b']|[]]; try done. cbn [bind].
  destruct Hin as (Hm & _ & _ & Hb' & new & -> & Hcnt & Hw). cbn [app].
  assert (tagNumber_ok (el_TagNumber el)) as Htn by by destruct Hs.
  assert (0 < b') by (apply Hb'; unfold tagNumber_ok in Htn; lia).
  eapply loop_post_step; [apply IH; (done || lia)|..]; rewrite ?elcount_constructed; try lia.
  replace (Z.to_nat (MaxConstructedDepth lim - depth)) with (S (Z.to_nat (MaxConstructedDepth lim - (depth + 1)))) by lia.
  right. right. eauto 10.
Qed.

(** ** Encoding what the parser reads *)
Lemma appendContextPrimitive_ParseTag lim tn o :
  tagNumber_ok tn -> bytes_ok o -> len o <= MaxUint32 -> len o <= MaxOctetStringLength (Normalize lim) ->
  exists bs, (forall dst, appendContextPrimitive dst tn o = Ok (dst ++ bs)) /\ bytes_ok bs /\ 1 <= len bs /\
    forall rest, ParseTag (bs ++ rest) lim = Ok (contextElement tn o, len bs).
Proof.
  intros Htn Ho Hl Hm.
  destruct (ParseTag_primitive lim true tn o) as (hdr & He & Hh & Hh1 & Hp); [done..|by left|].
  exists (hdr ++ o). split_and!; [|by apply Forall_app|len_lia|].
  - intros dst. unfold appendContextPrimitive, tagNumber_ok in *. rewrite He. by decide_test.
  - intros rest. rewrite <- app_assoc, Hp. decide_test. decide_test. by rewrite len_app.
Qed.

Lemma appendContextOpenClose_app dst tn b : appendContextOpenClose dst tn b = dst ++ appendContextOpenClose [] tn b.
Proof. unfold appendContextOpenClose. by destruct (tn <? 15). Qed.

Lemma appendContextOpenClose_ok tn b : tagNumber_ok tn ->
  bytes_ok (appendContextOpenClose [] tn b) /\ 1 <= len (appendContextOpenClose [] tn b).
Proof.
  unfold tagNumber_ok, tagNumberReserved. intros Htn. unfold appendContextOpenClose.
  destruct (tn <? 15) eqn:E; bool_to_prop; (split; [|done]).
  - destruct (tagOctet_fields tn true (if b then 6 else 7)) as (_ & _ & _ & Hb); [lia|by destruct b|]. by apply Forall_singleton.
  - destruct b; solve_bytes; done.
Qed.

(** One element: its encoding, and that one round of the loop reads it back. *)
Definition reads_back (lim : DecodeLimits) (d : nat) (es : list Element) (bs : bytes) : Prop :=
  forall pre rest closeTag depth budget acc fuel,
    0 <= depth -> depth + Z.of_nat d <= MaxConstructedDepth lim -> elcounts es <= budget -> len bs < Z.of_nat fuel ->
    sequenceLoop fuel (pre ++ bs ++ rest) lim closeTag depth budget acc (len pre) =
    sequenceLoop (fuel - length es) (pre ++ bs ++ rest) lim closeTag depth (budget - elcounts es) (acc ++ es) (len pre + len bs).

Lemma reads_back_primitive lim d e bs :
  (forall rest, ParseTag (bs ++ rest) lim = Ok (e, len bs)) -> 1 <= len bs ->
  el_Opening e = false -> el_Closing e = false -> elcount e = 1 -> reads_back lim d [e] bs.
Proof.
  intros Hp Hl Ho Hc Hcnt pre rest closeTag depth budget acc [|fuel] Hdep1 Hdep2 Hb Hf; [lia|].
  unfold elcounts in Hb. cbn [map foldr] in Hb. cbn [sequenceLoop]. decide_test. decide_test.
  rewrite slice_from_app by done. cbn [bind]. rewrite Hp. cbn [bind]. rewrite Hc, Ho.
  unfold elcounts. cbn [map foldr length]. rewrite Hcnt. by rewrite Nat.sub_succ, Nat.sub_0_r.
Qed.

Lemma reads_back_cons lim d e es b bs :
  reads_back lim d [e] b -> reads_back lim d es bs -> 1 <= len b -> reads_back lim d (e :: es) (b ++ bs).
Proof.
  intros H1 H2 Hb pre rest closeTag depth budget acc fuel ???? .
  pose proof (elcount_pos e). pose proof (elcounts_nonneg es). rewrite elcounts_cons in *. len_simpl.
  assert (elcounts [e] = elcount e) as He by (unfold elcounts; cbn; lia).
  rewrite <- app_assoc, H1 by len_lia. rewrite He. cbn [length].
  replace (pre ++ b ++ bs ++ rest) with ((pre ++ b) ++ bs ++ rest) by by rewrite <- app_assoc.
  rewrite <- len_app, H2 by len_lia. f_equal; [lia|lia|by rewrite <- app_assoc|len_lia].
Qed.

Lemma reads_back_constructed lim d tn es bs :
  tagNumber_ok tn -> Z.of_nat (length es) <= len bs -> reads_back lim d es bs ->
  reads_back lim (S d) [mkElement true tn false false (constructedValue es)]
    (appendContextOpenClose [] tn true ++ bs ++ appendContextOpenClose [] tn false).
Proof.
  intros Htn Hle Hes pre rest closeTag depth budget acc [|fuel] Hd1 Hd2 Hb Hf; [len_lia|].
  set (op := appendContextOpenClose [] tn true) in *. set (cl := appendContextOpenClose [] tn false) in *.
  destruct (appendContextOpenClose_ok tn true Htn) as [_ Hop]. destruct (appendContextOpenClose_ok tn false Htn) as [_ Hcl].
  fold op in Hop. fold cl in Hcl. set (e := mkElement _ _ _ _ _) in *.
  assert (elcounts [e] = 1 + elcounts es) as He by (unfold elcounts; cbn; unfold elcounts; lia).
  pose proof (elcounts_nonneg es). rewrite He in *. len_simpl.
  cbn [sequenceLoop]. decide_test. decide_test. rewrite slice_from_app by done. cbn [bind].
  replace ((op ++ bs ++ cl) ++ rest) with (op ++ bs ++ cl ++ rest) by by rewrite <- !app_assoc.
  pose proof (ParseTag_open lim tn true (bs ++ cl ++ rest) Htn) as Hpo. fold op in Hpo. rewrite Hpo.
  cbn [bind el_Closing el_Opening openingElement el_TagNumber].
  rewrite (app_assoc pre op), slice_from_app by len_lia. cbn [bind]. unfold enterSequence. decide_test. decide_test.
  pose proof (Hes [] (cl ++ rest) tn (depth + 1) budget [] fuel ltac:(lia) ltac:(lia) ltac:(lia) ltac:(lia)) as Hin.
  cbn [app] in Hin. rewrite len_nil, Z.add_0_l in Hin. rewrite Hin.
  destruct (fuel - length es)%nat as [|fuel'] eqn:Ef; [lia|]. cbn [sequenceLoop]. decide_test. decide_test.
  rewrite slice_from_app by done. cbn [bind]. unfold cl at 1.
  rewrite (ParseTag_open lim tn false rest Htn). fold cl. cbn [bind el_Closing closingElement el_TagNumber].
  unfold tagNumber_ok in Htn. decide_tests. fold e. cbn [length]. rewrite Nat.sub_succ, Nat.sub_0_r.
  rewrite <- !app_assoc. cbn [bind]. f_equal; len_lia.
Qed.

Lemma AppendTag_app lim tn v :
  limits_positive lim -> tagNumber_ok tn -> tn <= 12 -> app_prim lim v -> AVTagNumber v = tn ->
  exists bs, (forall dst, AppendTag dst (appElement tn v) = Ok (dst ++ bs)) /\ bytes_ok bs /\ 1 <= len bs /\
    forall rest, ParseTag (bs ++ rest) lim = Ok (appElement tn v, len bs).
Proof.
  intros Hlim Htn Ht Hv <-. rewrite <- (Normalize_id lim Hlim) in Hv.
  destruct (AppendApplicationValue_ParseTag lim v Hv) as (bs & Hbs & Hok & Hl & Hp).
  exists bs. split_and!; [|done..]. intros dst. rewrite AppendTag_eq. apply Hbs.
Qed.

Lemma AppendTag_context lim tn o :
  limits_positive lim -> tagNumber_ok tn -> bytes_ok o -> len o <= MaxUint32 -> len o <= MaxOctetStringLength lim ->
  exists bs, (forall dst, AppendTag dst (contextElement tn o) = Ok (dst ++ bs)) /\ bytes_ok bs /\ 1 <= len bs /\
    forall rest, ParseTag (bs ++ rest) lim = Ok (contextElement tn o, len bs).
Proof.
  intros Hlim Htn Ho Hl Hm.
  destruct (appendContextPrimitive_ParseTag lim tn o) as (bs & Hbs & Hok & Hbl & Hp); [done..|by rewrite Normalize_id|].
  exists bs. split_and!; [|done..]. intros dst. rewrite AppendTag_eq. av_simpl.
  unfold tagNumber_ok in Htn. cbn [orb andb]. decide_test. rewrite bool_decide_false by done. apply Hbs.
Qed.

Lemma reads_back_nil lim d : reads_back lim d [] [].
Proof.
  intros pre rest closeTag depth budget acc fuel ????. unfold elcounts. cbn [map foldr length].
  by rewrite Nat.sub_0_r, Z.sub_0_r, app_nil_r, len_nil, Z.add_0_r.
Qed.

(** A list of elements, given each of its elements. *)
Lemma foldAppend_reads_back lim d es :
  Forall (fun e => exists bs, (forall dst, AppendTag dst e = Ok (dst ++ bs)) /\ bytes_ok bs /\ 1 <= len bs /\
    reads_back lim d [e] bs) es ->
  exists bs, (forall dst, foldAppend AppendTag dst es = Ok (dst ++ bs)) /\ bytes_ok bs /\
    Z.of_nat (length es) <= len bs /\ reads_back lim d es bs.
Proof.
  induction 1 as [|e es (b & Hb & Hok & Hl & Hr) _ (bs & Hbs & Hoks & Hls & Hrs)].
  - exists []. split_and!; [intros; by rewrite app_nil_r|done|done|apply reads_back_nil].
  - exists (b ++ bs). split_and!; [|by apply Forall_app|cbn [length]; len_lia|by apply reads_back_cons].
    intros dst. cbn [foldAppend]. rewrite Hb. cbn [bind]. by rewrite Hbs, <- app_assoc.
Qed.

Lemma AppendTag_reads_back lim d : limits_positive lim ->
  forall e, wire_at lim 12 d e ->
  exists bs, (forall dst, AppendTag dst e = Ok (dst ++ bs)) /\ bytes_ok bs /\ 1 <= len bs /\ reads_back lim d [e] bs.
Proof.
  intros Hlim. induction d as [|d IH]; intros e He.
  all: destruct He as [(tn & v & -> & Htn & Ht & Hv & Htag)|[(tn & o & -> & Htn & Ho & Hlo & Hmo)|He]].
  1,4: (destruct (AppendTag_app lim tn v) as (bs & Hbs & Hok & Hl & Hp); [auto..|];
        exists bs; split_and!; [done..|]; apply reads_back_primitive; try done; by destruct Hv).
  1,3: (destruct (AppendTag_context lim tn o) as (bs & Hbs & Hok & Hl & Hp); [auto..|];
        exists bs; split_and!; [done..|]; by apply reads_back_primitive).
  - done.
  - destruct He as (tn & es & -> & Htn & Hes).
    destruct (foldAppend_reads_back lim d es) as (bs & Hbs & Hok & Hl & Hr); [by eapply Forall_impl|].
    eexists. split_and!; [|..|by apply reads_back_constructed].
    + intros dst. rewrite AppendTag_eq. av_simpl. cbn [orb andb]. unfold tagNumber_ok in Htn. decide_test.
      rewrite bool_decide_true by done. unfold AppendContextTagged. decide_test.
      rewrite appendContextOpenClose_app, Hbs. cbn [bind]. rewrite appendContextOpenClose_app. by rewrite <- !app_assoc.
    + apply Forall_app; split; [|apply Forall_app; split; [done|]]; by apply appendContextOpenClose_ok.
    + pose proof (appendContextOpenClose_ok tn true Htn). len_lia.
Qed.

Lemma foldAppend_wire lim d es : limits_positive lim -> Forall (wire_at lim 12 d) es ->
  exists bs, (forall dst, foldAppend AppendTag dst es = Ok (dst ++ bs)) /\ bytes_ok bs /\
    Z.of_nat (length es) <= len bs /\ reads_back lim d es bs.
Proof.
  intros Hlim Hes. apply foldAppend_reads_back. eapply Forall_impl; [done|]. by apply AppendTag_reads_back.
Qed.

(** [ParseSequence] of a whole payload whose elements are known to read back. *)
Lemma ParseSequence_reads_back lim d es bs :
  reads_back (Normalize lim) d es bs -> Z.of_nat d <= MaxConstructedDepth (Normalize lim) ->
  elcounts es <= MaxElements (Normalize lim) -> Z.of_nat (length es) <= len bs ->
  ParseSequence bs lim (-1) = Ok (es, len bs).
Proof.
  intros Hr Hd Hc Hl. unfold ParseSequence, parseSequence, enterSequence. cbv zeta. decide_test. decide_test.
  pose proof (Hr [] [] (-1) 0 (MaxElements (Normalize lim)) [] (S (length bs))
    ltac:(lia) ltac:(lia) ltac:(lia) ltac:(unfold len; lia)) as H.
  rewrite !app_nil_l, app_nil_r in H. change (len []) with 0 in H. rewrite Z.add_0_l in H. rewrite H.
  destruct (S (length bs) - length es)%nat as [|f] eqn:Ef; [unfold len in *; lia|].
  cbn [sequenceLoop]. by decide_tests.
Qed.

(** A context primitive in a sequence. *)
Lemma reads_back_context lim d tn o :
  limits_positive lim -> tagNumber_ok tn -> bytes_ok o -> len o <= MaxUint32 -> len o <= MaxOctetStringLength lim ->
  exists bs, (forall dst, appendContextPrimitive dst tn o = Ok (dst ++ bs)) /\ bytes_ok bs /\ 1 <= len bs /\
    reads_back lim d [contextElement tn o] bs.
Proof.
  intros Hlim Htn Ho Hl Hm.
  destruct (appendContextPrimitive_ParseTag lim tn o) as (bs & Hbs & Hok & Hbl & Hp); [done..|by rewrite Normalize_id|].
  exists bs. split_and!; [done..|]. by apply reads_back_primitive.
Qed.

(** ** The context accessors invert the context encoders *)
Lemma notContextPrimitive_context tn o : notContextPrimitive (contextElement tn o) = false.
Proof. done. Qed.

Lemma ContextUnsigned_encode tn u : is_u 64 u -> ContextUnsigned (contextElement tn (encodeUnsigned u)) = Ok u.
Proof. intros. unfold ContextUnsigned. rewrite notContextPrimitive_context. by apply decodeUnsigned_encode. Qed.

Lemma ContextUnsigned32_encode tn u : is_u 32 u -> ContextUnsigned32 (contextElement tn (encodeUnsigned u)) = Ok u.
Proof.
  intros Hu. unfold ContextUnsigned32. rewrite ContextUnsigned_encode by by apply (is_u_mono 32 64).
  cbn [bind]. unfold MaxUint32, is_u in *. decide_test. decide_test. by rewrite uwrap_small.
Qed.

Lemma ContextSigned_encode tn v : is_s 64 v -> ContextSigned (contextElement tn (encodeSigned v)) = Ok v.
Proof. intros. unfold ContextSigned. rewrite notContextPrimitive_context. by apply decodeSigned_encode. Qed.

Lemma ContextObjectID_bytes tn a b c d : bytes_ok [a; b; c; d] ->
  ContextObjectID (contextElement tn [a; b; c; d]) = Ok (DecodeObjectIdentifier (be_get [a; b; c; d])).
Proof.
  intros Hb. assert (is_byte a /\ is_byte b /\ is_byte c /\ is_byte d) as (Ha & Hb' & Hc & Hd).
  { by repeat match goal with H : Forall _ _ |- _ => inversion_clear H end. }
  unfold is_u in *. transitivity (Ok (DecodeObjectIdentifier
    (Z.lor (Z.lor (Z.lor (u32 (Z.shiftl a 24)) (u32 (Z.shiftl b 16))) (u32 (Z.shiftl c 8))) d))); [reflexivity|].
  do 2 f_equal. rewrite !uwrap_small by (unfold is_u; rewrite Z.shiftl_mul_pow2 by lia; lia).
  replace (Z.lor (Z.lor (Z.lor (a ≪ 24) (b ≪ 16)) (c ≪ 8)) d)
    with (Z.lor (Z.shiftl (Z.lor (Z.shiftl (Z.lor (Z.shiftl a 8) b) 8) c) 8) d)
    by (rewrite !Z.shiftl_lor, !Z.shiftl_shiftl by lia; done).
  rewrite !lor_shiftl_add by lia. unfold be_get, be_step. cbn [fold_left]. lia.
Qed.

Lemma ContextObjectID_encode tn id : oid_ok id ->
  exists enc, EncodeObjectIdentifier id = Ok enc /\ ContextObjectID (contextElement tn (be_put 4 enc)) = Ok id.
Proof.
  intros Hid. eexists. split; [by apply EncodeObjectIdentifier_ok|].
  set (v := _ + _). assert (is_u 32 v) as Hv.
  { subst v. unfold oid_ok, MaxObjectInstance, is_u in *. lia. }
  pose proof (be_put_bytes_ok 4 v) as Hb. pose proof (be_get_be_put 4 v) as Hg.
  rewrite Z.mod_small in Hg by apply Hv. cbn [be_put] in *. rewrite ContextObjectID_bytes, Hg by done.
  f_equal. subst v. destruct id as [t i], Hid. by apply DecodeObjectIdentifier_encoded.
Qed.

Lemma ContextCharacterString_encode tn c :
  ContextCharacterString (contextElement tn ([cs_Encoding c] ++ cs_Value c)) = Ok c.
Proof.
  unfold ContextCharacterString. rewrite notContextPrimitive_context. av_simpl. decide_test.
  rewrite index_0, slice_from_1. by destruct c.
Qed.

Lemma ContextBitString_encode tn b :
  0 <= bs_UnusedBits b <= 7 -> (bs_Bytes b = [] -> bs_UnusedBits b = 0) ->
  ContextBitString (contextElement tn ([bs_UnusedBits b] ++ bs_Bytes b)) = Ok b.
Proof.
  intros Hu He. unfold ContextBitString. rewrite notContextPrimitive_context. av_simpl. decide_test.
  rewrite index_0, slice_from_1. cbn [bind].
  replace (len (bs_UnusedBits b :: bs_Bytes b) - 1) with (len (bs_Bytes b)) by len_lia.
  rewrite validateBitString_ok by done. by destruct b.
Qed.

(** ** Properties of sequences *)

(** C2. [AppendTag] and [ParseSequence] round-trip on trees of elements: every
    list of well-formed elements, nested at most as deep as the depth limit
    and with at most as many elements as the element budget, is encoded, and
    parsing the encoding returns the same tree and consumes every octet. *)
Theorem sequence_roundtrip lim d es
    (Hes : Forall (wire_at (Normalize lim) 12 d) es)
    (Hd : Z.of_nat d <= MaxConstructedDepth (Normalize lim))
    (Hc : elcounts es <= MaxElements (Normalize lim)) :
  exists bs, foldAppend AppendTag [] es = Ok bs /\ ParseSequence bs lim (-1) = Ok (es, len bs).
Proof.
  destruct (foldAppend_wire (Normalize lim) d es (Normalize_positive lim) Hes) as (bs & Hbs & _ & Hl & Hr).
  exists bs. split; [apply (Hbs [])|]. by eapply ParseSequence_reads_back.
Qed.

Lemma sequence_roundtrip_witness :
  exists bs, foldAppend AppendTag []
      [mkElement true 3 false false (constructedValue [appElement 9 (EnumValue 300); contextElement 200 [1; 2]])] = Ok bs /\
    ParseSequence bs DefaultDecodeLimits (-1) = Ok
      ([mkElement true 3 false false (constructedValue [appElement 9 (EnumValue 300); contextElement 200 [1; 2]])], len bs).
Proof.
  apply (sequence_roundtrip DefaultDecodeLimits 1); [|done|done].
  apply Forall_singleton. right. right. exists 3. eexists. split_and!; [done|by unfold tagNumber_ok, tagNumberReserved|].
  apply Forall_cons; split; [|apply Forall_singleton].
  - left. exists 9, (EnumValue 300). split_and!; try done. apply ap_enum. unfold is_u. lia.
  - right. left. exists 200, [1; 2]. split_and!; try done. solve_bytes.
Defined.

(** [ParseSequence] is total on octet strings: it neither panics nor runs
    out of the fuel the model gives it (one more than the input has octets),
    and a sequence it accepts holds at most [MaxElements] elements nested at
    most [MaxConstructedDepth] deep, every one canonical; without a closing
    tag to look for it has consumed the whole input. *)
Theorem ParseSequence_robust data lim closeTag (Hd : bytes_ok data) :
  safe (ParseSequence data lim closeTag) /\
  forall es n, ParseSequence data lim closeTag = Ok (es, n) ->
    0 <= n <= len data /\ (closeTag < 0 -> n = len data) /\
    elcounts es <= MaxElements (Normalize lim) /\
    Forall (wire_at (Normalize lim) 254 (Z.to_nat (MaxConstructedDepth (Normalize lim)))) es.
Proof.
  pose proof (Normalize_positive lim) as Hlim. pose proof Hlim as (_ & _ & Hdep & Hel & _).
  unfold ParseSequence, parseSequence, enterSequence. cbv zeta. decide_test. decide_test.
  pose proof (sequenceLoop_post (Normalize lim) (S (length data)) Hlim data closeTag 0 (MaxElements (Normalize lim)) [] 0
    Hd ltac:(len_lia) ltac:(unfold len; lia) ltac:(lia)) as H.
  destruct (sequenceLoop _ _ _ _ _ _ _ _) as [[[els o] b]|[]]; cbn [bind]; (split; [done|]); try done.
  intros es n [= <- <-]. destruct H as (Ho & Hn & Hb & _ & new & -> & Hcnt & Hw). cbn [app].
  rewrite Z.sub_0_r in Hw. split_and!; [lia..|auto|lia|done].
Qed.

Lemma ParseSequence_robust_witness :
  safe (ParseSequence [0x2E; 0x91; 5; 0x2F] DefaultDecodeLimits (-1)) /\
  forall es n, ParseSequence [0x2E; 0x91; 5; 0x2F] DefaultDecodeLimits (-1) = Ok (es, n) ->
    0 <= n <= len [0x2E; 0x91; 5; 0x2F] /\ (-1 < 0 -> n = len [0x2E; 0x91; 5; 0x2F]) /\
    elcounts es <= MaxElements (Normalize DefaultDecodeLimits) /\
    Forall (wire_at (Normalize DefaultDecodeLimits) 254
      (Z.to_nat (MaxConstructedDepth (Normalize DefaultDecodeLimits)))) es.
Proof. apply ParseSequence_robust. solve_bytes. Defined.
