(* ===== verification/Writer.v ===== *)
(** * Encoders of element sequences

    The service encoders are sequences of [Append...] calls on a buffer.
    [writes lim d f es] says that the encoder [f] appends, to any buffer,
    octets that parse back as the elements [es], nested at most [d] deep. The
    lemmas give this for each primitive encoder and compose it the way the
    code composes the calls; [ParseSequence_writes] turns it into a statement
    about [ParseSequence]. *)

From Stdlib Require Import ZArith Lia.
From stdpp Require Import base list.
From S2P Require Import Prelude Value Tags Constructed.

(** The order in which the code calls two encoders. *)
Definition seq2 (f g : bytes -> result bytes) : bytes -> result bytes := fun dst => let* dst := f dst in g dst.

Definition writes (lim : DecodeLimits) (d : nat) (f : bytes -> result bytes) (es : list Element) : Prop :=
  exists bs, (forall dst, f dst = Ok (dst ++ bs)) /\ bytes_ok bs /\ Z.of_nat (length es) <= len bs /\ reads_back lim d es bs.

Lemma reads_back_mono lim d d' es bs : (d <= d')%nat -> reads_back lim d es bs -> reads_back lim d' es bs.
Proof. intros Hd H pre rest closeTag depth budget acc fuel ????. apply H; lia. Qed.

Lemma reads_back_app lim d es fs b bs : Z.of_nat (length es) <= len b ->
  reads_back lim d es b -> reads_back lim d fs bs -> reads_back lim d (es ++ fs) (b ++ bs).
Proof.
  intros Hb H1 H2 pre rest closeTag depth budget acc fuel ????.
  pose proof (elcounts_nonneg es). pose proof (elcounts_nonneg fs). rewrite elcounts_app in *. len_simpl.
  rewrite <- app_assoc, H1 by len_lia.
  replace (pre ++ b ++ bs ++ rest) with ((pre ++ b) ++ bs ++ rest) by by rewrite <- app_assoc.
  rewrite <- len_app, H2 by len_lia. f_equal; [rewrite length_app; lia|lia|by rewrite <- app_assoc|len_lia].
Qed.

Section Writer.
Context (lim : DecodeLimits) (Hlim : limits_positive lim).

Lemma writes_ext d f g es : (forall dst, f dst = g dst) -> writes lim d f es -> writes lim d g es.
Proof using Type. intros He (bs & Hf & H). exists bs. split; [|done]. intros dst. by rewrite <- He. Qed.

Lemma writes_mono d d' f es : (d <= d')%nat -> writes lim d f es -> writes lim d' f es.
Proof using Type. intros Hd (bs & Hf & Hok & Hl & Hr). exists bs. split_and!; try done. by eapply reads_back_mono. Qed.

Lemma writes_nil d : writes lim d Ok [].
Proof using Type. exists []. split_and!; [intros; by rewrite app_nil_r|done|done|apply reads_back_nil]. Qed.

Lemma writes_seq d f g es fs : writes lim d f es -> writes lim d g fs -> writes lim d (seq2 f g) (es ++ fs).
Proof using Type.
  intros (b & Hf & Hb & Hl & Hr) (bs & Hg & Hbs & Hls & Hrs). exists (b ++ bs).
  split_and!; [|by apply Forall_app|rewrite length_app; len_lia|by apply reads_back_app].
  intros dst. unfold seq2. by rewrite Hf, bind_Ok_l, Hg, <- app_assoc.
Qed.

Lemma writes_element d f e : (exists bs, (forall dst, f dst = Ok (dst ++ bs)) /\ bytes_ok bs /\ 1 <= len bs /\ reads_back lim d [e] bs) ->
  writes lim d f [e].
Proof using Type. intros (bs & Hf & Hb & Hl & Hr). by exists bs. Qed.

Lemma writes_AppendTag d e : wire_at lim 12 d e -> writes lim d (fun dst => AppendTag dst e) [e].
Proof using Hlim. intros He. by apply writes_element, AppendTag_reads_back. Qed.

Lemma writes_value d v : app_prim lim v -> writes lim d (fun dst => AppendApplicationValue dst v) [appElement (AVTagNumber v) v].
Proof using Hlim.
  intros Hv. apply writes_element. rewrite <- (Normalize_id lim Hlim) in Hv at 1.
  destruct (AppendApplicationValue_ParseTag lim v Hv) as (bs & Hbs & Hok & Hl & Hp). exists bs. split_and!; [done..|].
  apply reads_back_primitive; try done. by destruct Hv.
Qed.

Lemma writes_elements d es : Forall (wire_at lim 12 d) es -> writes lim d (fun dst => foldAppend AppendTag dst es) es.
Proof using Hlim. intros. by apply foldAppend_wire. Qed.

Lemma writes_context d tn o : tagNumber_ok tn -> bytes_ok o -> len o <= MaxUint32 -> len o <= MaxOctetStringLength lim ->
  writes lim d (fun dst => appendContextPrimitive dst tn o) [contextElement tn o].
Proof using Hlim. intros. by apply writes_element, reads_back_context. Qed.

Lemma writes_unsigned d tn u : tagNumber_ok tn -> is_u 64 u -> 8 <= MaxOctetStringLength lim ->
  writes lim d (fun dst => AppendContextUnsigned dst tn u) [contextElement tn (encodeUnsigned u)].
Proof using Hlim.
  intros Htn Hu Hm. pose proof (encodeUnsigned_len u Hu).
  apply writes_context; [done|apply encodeUnsigned_bytes_ok|unfold MaxUint32; lia|lia].
Qed.

(** The four octets of an object identifier. *)
Definition oidOctets (id : ObjectIdentifier) : bytes := be_put 4 (oid_Type id * 2 ^ 22 + oid_Instance id).

Lemma writes_oid d tn id : tagNumber_ok tn -> oid_ok id -> 8 <= MaxOctetStringLength lim ->
  writes lim d (fun dst => AppendContextObjectID dst tn id) [contextElement tn (oidOctets id)].
Proof using Hlim.
  intros Htn Hid Hm. apply (writes_ext _ (fun dst => appendContextPrimitive dst tn (oidOctets id))).
  - intros dst. unfold AppendContextObjectID. rewrite EncodeObjectIdentifier_ok by done. done.
  - apply writes_context; [done|apply be_put_bytes_ok|unfold oidOctets, MaxUint32; len_lia..].
Qed.

Lemma ContextObjectID_octets tn id : oid_ok id -> ContextObjectID (contextElement tn (oidOctets id)) = Ok id.
Proof using Type.
  intros Hid. destruct (ContextObjectID_encode tn id Hid) as (enc & He & Hc).
  rewrite EncodeObjectIdentifier_ok in He by done. injection He as <-. done.
Qed.

(** A constructed context value: opening tag, body, closing tag. *)
Lemma writes_constructed d tn f es : tagNumber_ok tn -> writes lim d f es ->
  writes lim (S d) (fun dst => let* dst := f (appendContextOpenClose dst tn true) in Ok (appendContextOpenClose dst tn false))
    [mkElement true tn false false (constructedValue es)].
Proof using Type.
  intros Htn (bs & Hf & Hok & Hl & Hr). apply writes_element. eexists. split_and!; [|..|by apply reads_back_constructed].
  - intros dst. rewrite Hf, bind_Ok_l, appendContextOpenClose_app, (appendContextOpenClose_app dst). by rewrite <- !app_assoc.
  - apply Forall_app; split; [|apply Forall_app; split; [done|]]; by apply appendContextOpenClose_ok.
  - pose proof (appendContextOpenClose_ok tn true Htn). len_lia.
Qed.

Lemma writes_tagged d tn es : tagNumber_ok tn -> Forall (wire_at lim 12 d) es ->
  writes lim (S d) (fun dst => AppendContextTagged dst tn es) [mkElement true tn false false (constructedValue es)].
Proof using Hlim.
  intros Htn Hes. eapply writes_ext; [|apply (writes_constructed d tn (fun dst => foldAppend AppendTag dst es) es); [done|by apply writes_elements]].
  intros dst. unfold AppendContextTagged. unfold tagNumber_ok in Htn. by decide_test.
Qed.
End Writer.

Lemma foldAppend_app {A} (f : bytes -> A -> result bytes) l k dst :
  foldAppend f dst (l ++ k) = bind (foldAppend f dst l) (fun dst => foldAppend f dst k).
Proof.
  revert dst. induction l as [|a l IH]; intros dst; [done|]. cbn [app foldAppend]. rewrite bind_assoc. by destruct (f dst a); cbn [bind].
Qed.

(** The octets of an encoder that succeeds, and their parse. *)
Lemma ParseSequence_writes lim d f es : writes (Normalize lim) d f es ->
  Z.of_nat d <= MaxConstructedDepth (Normalize lim) -> elcounts es <= MaxElements (Normalize lim) ->
  exists bs, (forall dst, f dst = Ok (dst ++ bs)) /\ bytes_ok bs /\ ParseSequence bs lim (-1) = Ok (es, len bs).
Proof. intros (bs & Hf & Hok & Hl & Hr) Hd Hc. exists bs. split_and!; try done. by eapply ParseSequence_reads_back. Qed.

#[export] Hint Resolve Normalize_positive : go.
