(* ===== verification/Apdu.v ===== *)
(** * Application protocol data units: [apdu/codec.go] and [apdu/maxapdu.go] *)

From Stdlib Require Import ZArith Lia.
From stdpp Require Import base list.
From S2P Require Import Prelude Value Tags Constructed Writer.

(** ** Negotiated sizes: [maxapdu.go] *)
Definition EncodeMaxAPDUSize (size : Z) : result Z :=
  if size >=? 1476 then Ok 5
  else if size >=? 1024 then Ok 4
  else if size >=? 480 then Ok 3
  else if size >=? 206 then Ok 2
  else if size >=? 128 then Ok 1
  else if size >=? 50 then Ok 0
  else Err ErrOther.

Definition DecodeMaxAPDUSize (code : Z) : Z * bool :=
  match code with
  | 0 => (50, true)
  | 1 => (128, true)
  | 2 => (206, true)
  | 3 => (480, true)
  | 4 => (1024, true)
  | 5 => (1476, true)
  | _ => (0, false)
  end.

Definition MaxSegmentsUnspecified : Z := 0.
Definition MaxSegmentsGT64 : Z := 7.
Definition EncodeMaxSegments (count : Z) : Z :=
  if count <=? 0 then MaxSegmentsUnspecified
  else if count <? 2 then MaxSegmentsUnspecified
  else if count <? 4 then 1
  else if count <? 8 then 2
  else if count <? 16 then 3
  else if count <? 32 then 4
  else if count <? 64 then 5
  else if count =? 64 then 6
  else MaxSegmentsGT64.

(** ** PDUs *)
Definition TypeConfirmedRequest : Z := 0x00.
Definition TypeUnconfirmedRequest : Z := 0x10.
Definition TypeSimpleACK : Z := 0x20.
Definition TypeComplexACK : Z := 0x30.
Definition TypeSegmentACK : Z := 0x40.
Definition TypeError : Z := 0x50.
Definition TypeReject : Z := 0x60.
Definition TypeAbort : Z := 0x70.

Record ConfirmedRequest := mkConfirmedRequest {
  cr_SegmentedMessage : bool;
  cr_MoreFollows : bool;
  cr_SegmentedResponseAccepted : bool;
  cr_MaxSegments : Z;
  cr_MaxAPDU : Z;
  cr_InvokeID : Z;
  cr_SequenceNumber : Z;
  cr_ProposedWindowSize : Z;
  cr_ServiceChoice : Z;
  cr_Payload : bytes
}.
Record UnconfirmedRequest := mkUnconfirmedRequest { ur_ServiceChoice : Z; ur_Payload : bytes }.
Record SimpleACK := mkSimpleACK { sa_InvokeID : Z; sa_ServiceChoice : Z }.
Record ComplexACK := mkComplexACK {
  ca_SegmentedMessage : bool;
  ca_MoreFollows : bool;
  ca_InvokeID : Z;
  ca_SequenceNumber : Z;
  ca_ProposedWindowSize : Z;
  ca_ServiceChoice : Z;
  ca_Payload : bytes
}.
Record SegmentACK := mkSegmentACK {
  sg_NegativeACK : bool;
  sg_Server : bool;
  sg_InvokeID : Z;
  sg_SequenceNumber : Z;
  sg_ActualWindowSize : Z
}.
Record ErrorPDU := mkErrorPDU { ep_InvokeID : Z; ep_ServiceChoice : Z; ep_Payload : bytes }.
Record RejectPDU := mkRejectPDU { rj_InvokeID : Z; rj_Reason : Z }.
Record AbortPDU := mkAbortPDU { ab_Server : bool; ab_InvokeID : Z; ab_Reason : Z }.

(** The struct has a type and one pointer per variant, of which the parsers
    set the one of the type. *)
Inductive PDU :=
| PConfirmedRequest (r : ConfirmedRequest)
| PUnconfirmedRequest (r : UnconfirmedRequest)
| PSimpleACK (a : SimpleACK)
| PComplexACK (a : ComplexACK)
| PSegmentACK (a : SegmentACK)
| PError (e : ErrorPDU)
| PReject (r : RejectPDU)
| PAbort (a : AbortPDU).

(** ** Parsers *)
Definition checkSegmentFlags (segmented moreFollows : bool) : result unit :=
  if moreFollows && negb segmented then Err ErrMalformed else Ok tt.
Definition checkWindowSize (window : Z) : result unit :=
  if (window =? 0) || (window >? 127) then Err ErrMalformed else Ok tt.

Definition parseConfirmed (data : bytes) : result PDU :=
  if len data <? 4 then Err ErrMalformed else
  let* b0 := index data 0 in
  if bit b0 0x01 then Err ErrMalformed else
  let* b1 := index data 1 in
  if bit b1 0x80 then Err ErrMalformed else
  let seg := bit b0 0x08 in
  let more := bit b0 0x04 in
  let sra := bit b0 0x02 in
  let maxSegments := Z.land (Z.shiftr b1 4) 0x07 in
  let maxAPDU := Z.land b1 0x0F in
  let* invokeID := index data 2 in
  let* _ := checkSegmentFlags seg more in
  if negb (snd (DecodeMaxAPDUSize maxAPDU)) then Err ErrMalformed else
  let* (sequenceNumber, window, off) :=
    if seg then
      if len data <? 5 then Err ErrMalformed
      else
        let* s := index data 3 in
        let* w := index data 4 in
        let* _ := checkWindowSize w in
        Ok (s, w, 5)
    else Ok (0, 0, 3) in
  if off >=? len data then Err ErrMalformed
  else
    let* choice := index data off in
    let* payload := slice_from data (off + 1) in
    Ok (PConfirmedRequest (mkConfirmedRequest seg more sra maxSegments maxAPDU invokeID sequenceNumber window choice payload)).

Definition parseUnconfirmed (data : bytes) : result PDU :=
  if len data <? 2 then Err ErrMalformed else
  let* b0 := index data 0 in
  if bit b0 0x0F then Err ErrMalformed else
  let* choice := index data 1 in
  let* payload := slice_from data 2 in
  Ok (PUnconfirmedRequest (mkUnconfirmedRequest choice payload)).

Definition parseSimpleACK (data : bytes) : result PDU :=
  if negb (len data =? 3) then Err ErrMalformed else
  let* b0 := index data 0 in
  if bit b0 0x0F then Err ErrMalformed else
  let* i := index data 1 in
  let* choice := index data 2 in
  Ok (PSimpleACK (mkSimpleACK i choice)).

Definition parseComplexACK (data : bytes) : result PDU :=
  if len data <? 3 then Err ErrMalformed else
  let* b0 := index data 0 in
  if bit b0 0x03 then Err ErrMalformed else
  let seg := bit b0 0x08 in
  let more := bit b0 0x04 in
  let* invokeID := index data 1 in
  let* _ := checkSegmentFlags seg more in
  let* (sequenceNumber, window, off) :=
    if seg then
      if len data <? 4 then Err ErrMalformed
      else
        let* s := index data 2 in
        let* w := index data 3 in
        let* _ := checkWindowSize w in
        Ok (s, w, 4)
    else Ok (0, 0, 2) in
  if off >=? len data then Err ErrMalformed
  else
    let* choice := index data off in
    let* payload := slice_from data (off + 1) in
    Ok (PComplexACK (mkComplexACK seg more invokeID sequenceNumber window choice payload)).

Definition parseSegmentACK (data : bytes) : result PDU :=
  if negb (len data =? 4) then Err ErrMalformed else
  let* b0 := index data 0 in
  if bit b0 0x0C then Err ErrMalformed else
  let* window := index data 3 in
  let* _ := checkWindowSize window in
  let* i := index data 1 in
  let* s := index data 2 in
  Ok (PSegmentACK (mkSegmentACK (bit b0 0x02) (bit b0 0x01) i s window)).

Definition parseError (data : bytes) : result PDU :=
  if len data <? 3 then Err ErrMalformed else
  let* b0 := index data 0 in
  if bit b0 0x0F then Err ErrMalformed else
  let* i := index data 1 in
  let* choice := index data 2 in
  let* payload := slice_from data 3 in
  Ok (PError (mkErrorPDU i choice payload)).

Definition parseReject (data : bytes) : result PDU :=
  if negb (len data =? 3) then Err ErrMalformed else
  let* b0 := index data 0 in
  if bit b0 0x0F then Err ErrMalformed else
  let* i := index data 1 in
  let* reason := index data 2 in
  Ok (PReject (mkRejectPDU i reason)).

Definition parseAbort (data : bytes) : result PDU :=
  if negb (len data =? 3) then Err ErrMalformed else
  let* b0 := index data 0 in
  if bit b0 0x0E then Err ErrMalformed else
  let* i := index data 1 in
  let* reason := index data 2 in
  Ok (PAbort (mkAbortPDU (bit b0 0x01) i reason)).

Definition Parse (data : bytes) (limits : DecodeLimits) : result PDU :=
  let limits := Normalize limits in
  if len data <? 1 then Err ErrMalformed
  else if len data >? MaxAPDUSize limits then Err ErrLimitExceeded
  else
    let* b0 := index data 0 in
    let pduType := Z.land b0 0xF0 in
    if pduType =? TypeConfirmedRequest then parseConfirmed data
    else if pduType =? TypeUnconfirmedRequest then parseUnconfirmed data
    else if pduType =? TypeSimpleACK then parseSimpleACK data
    else if pduType =? TypeComplexACK then parseComplexACK data
    else if pduType =? TypeSegmentACK then parseSegmentACK data
    else if pduType =? TypeError then parseError data
    else if pduType =? TypeReject then parseReject data
    else if pduType =? TypeAbort then parseAbort data
    else Err ErrUnsupported.

(** ** Encoders *)
Definition AppendConfirmedRequest (dst : bytes) (req : ConfirmedRequest) : bytes :=
  let b0 := TypeConfirmedRequest in
  let b0 := if cr_SegmentedMessage req then Z.lor b0 0x08 else b0 in
  let b0 := if cr_MoreFollows req then Z.lor b0 0x04 else b0 in
  let b0 := if cr_SegmentedResponseAccepted req then Z.lor b0 0x02 else b0 in
  let maxInfo := Z.lor (u8 (Z.shiftl (Z.land (cr_MaxSegments req) 0x07) 4)) (Z.land (cr_MaxAPDU req) 0x0F) in
  let dst := dst ++ [b0; maxInfo; cr_InvokeID req] in
  let dst := if cr_SegmentedMessage req then dst ++ [cr_SequenceNumber req; cr_ProposedWindowSize req] else dst in
  let dst := dst ++ [cr_ServiceChoice req] in
  dst ++ cr_Payload req.

Definition AppendUnconfirmedRequest (dst : bytes) (req : UnconfirmedRequest) : bytes :=
  (dst ++ [TypeUnconfirmedRequest; ur_ServiceChoice req]) ++ ur_Payload req.

Definition AppendSimpleACK (dst : bytes) (ack : SimpleACK) : bytes :=
  dst ++ [TypeSimpleACK; sa_InvokeID ack; sa_ServiceChoice ack].

Definition AppendComplexACK (dst : bytes) (ack : ComplexACK) : bytes :=
  let b0 := TypeComplexACK in
  let b0 := if ca_SegmentedMessage ack then Z.lor b0 0x08 else b0 in
  let b0 := if ca_MoreFollows ack then Z.lor b0 0x04 else b0 in
  let dst := dst ++ [b0; ca_InvokeID ack] in
  let dst := if ca_SegmentedMessage ack then dst ++ [ca_SequenceNumber ack; ca_ProposedWindowSize ack] else dst in
  let dst := dst ++ [ca_ServiceChoice ack] in
  dst ++ ca_Payload ack.

Definition AppendSegmentACK (dst : bytes) (ack : SegmentACK) : bytes :=
  let b0 := TypeSegmentACK in
  let b0 := if sg_NegativeACK ack then Z.lor b0 0x02 else b0 in
  let b0 := if sg_Server ack then Z.lor b0 0x01 else b0 in
  dst ++ [b0; sg_InvokeID ack; sg_SequenceNumber ack; sg_ActualWindowSize ack].

Definition AppendAbort (dst : bytes) (a : AbortPDU) : bytes :=
  let b0 := TypeAbort in
  let b0 := if ab_Server a then Z.lor b0 0x01 else b0 in
  dst ++ [b0; ab_InvokeID a; ab_Reason a].

Definition AppendReject (dst : bytes) (r : RejectPDU) : bytes :=
  dst ++ [TypeReject; rj_InvokeID r; rj_Reason r].

Definition AppendError (dst : bytes) (e : ErrorPDU) : bytes :=
  (dst ++ [TypeError; ep_InvokeID e; ep_ServiceChoice e]) ++ ep_Payload e.

(** ** Error payloads *)
Record ErrorDetail := mkErrorDetail {
  ed_Class : Z;
  ed_Code : Z;
  ed_Wrapped : bool;
  ed_Parameters : list Element
}.

(** [for _, el := range d.Parameters] with its early return. *)
Fixpoint firstFailedLoop (ps : list Element) : Z * bool :=
  match ps with
  | [] => (0, false)
  | el :: ps =>
      if el_Context el && (el_TagNumber el =? 1) && negb (IsContextConstructed el) then
        match ContextUnsigned32 el with
        | Ok n => (n, true)
        | Err _ => (0, false)
        end
      else firstFailedLoop ps
  end.
Definition FirstFailedElementNumber (d : ErrorDetail) : Z * bool := firstFailedLoop (ed_Parameters d).

Definition cloneElement (el : Element) : Element :=
  mkElement (el_Context el) (el_TagNumber el) (el_Opening el) (el_Closing el) (Clone (el_Value el)).

Definition DecodeError (payload : bytes) (limits : DecodeLimits) : result ErrorDetail :=
  let* (elements, n) := ParseSequence payload limits (-1) in
  if negb (n =? len payload) then Err ErrTrailingData
  else
    let bare :=
      let* (class, code) := DecodeBACnetError elements in
      Ok (mkErrorDetail class code false []) in
    match elements with
    | e0 :: rest =>
        if (el_TagNumber e0 =? 0) && IsContextConstructed e0 then
          let* (class, code) := DecodeBACnetError (av_Elements (el_Value e0)) in
          Ok (mkErrorDetail class code true (map cloneElement rest))
        else bare
    | [] => bare
    end.

Definition DecodeErrorClassCode (payload : bytes) (limits : DecodeLimits) : result (Z * Z) :=
  let* d := DecodeError payload limits in
  Ok (ed_Class d, ed_Code d).

(** ** The PDUs of the format *)
Definition segment_ok (seg more : bool) (sequenceNumber window : Z) : Prop :=
  (more = true -> seg = true) /\
  if seg then is_byte sequenceNumber /\ 1 <= window <= 127 else sequenceNumber = 0 /\ window = 0.

Definition pdu_ok (p : PDU) : Prop :=
  match p with
  | PConfirmedRequest r =>
      segment_ok (cr_SegmentedMessage r) (cr_MoreFollows r) (cr_SequenceNumber r) (cr_ProposedWindowSize r) /\
      0 <= cr_MaxSegments r < 8 /\ 0 <= cr_MaxAPDU r < 6 /\
      is_byte (cr_InvokeID r) /\ is_byte (cr_ServiceChoice r) /\ bytes_ok (cr_Payload r)
  | PUnconfirmedRequest r => is_byte (ur_ServiceChoice r) /\ bytes_ok (ur_Payload r)
  | PSimpleACK a => is_byte (sa_InvokeID a) /\ is_byte (sa_ServiceChoice a)
  | PComplexACK a =>
      segment_ok (ca_SegmentedMessage a) (ca_MoreFollows a) (ca_SequenceNumber a) (ca_ProposedWindowSize a) /\
      is_byte (ca_InvokeID a) /\ is_byte (ca_ServiceChoice a) /\ bytes_ok (ca_Payload a)
  | PSegmentACK a => is_byte (sg_InvokeID a) /\ is_byte (sg_SequenceNumber a) /\ 1 <= sg_ActualWindowSize a <= 127
  | PError e => is_byte (ep_InvokeID e) /\ is_byte (ep_ServiceChoice e) /\ bytes_ok (ep_Payload e)
  | PReject r => is_byte (rj_InvokeID r) /\ is_byte (rj_Reason r)
  | PAbort a => is_byte (ab_InvokeID a) /\ is_byte (ab_Reason a)
  end.

(** The encoder of each variant. *)
Definition appendPDU (dst : bytes) (p : PDU) : bytes :=
  match p with
  | PConfirmedRequest r => AppendConfirmedRequest dst r
  | PUnconfirmedRequest r => AppendUnconfirmedRequest dst r
  | PSimpleACK a => AppendSimpleACK dst a
  | PComplexACK a => AppendComplexACK dst a
  | PSegmentACK a => AppendSegmentACK dst a
  | PError e => AppendError dst e
  | PReject r => AppendReject dst r
  | PAbort a => AppendAbort dst a
  end.

Lemma appendPDU_app dst p : appendPDU dst p = dst ++ appendPDU [] p.
Proof.
  destruct p as [r|r|a|a|a|e|r|a]; cbn [appendPDU]; try done;
    unfold AppendConfirmedRequest, AppendUnconfirmedRequest, AppendComplexACK, AppendError; cbv zeta.
  - destruct (cr_SegmentedMessage r); by rewrite <- !app_assoc.
  - by rewrite <- !app_assoc.
  - destruct (ca_SegmentedMessage a); by rewrite <- !app_assoc.
  - by rewrite <- !app_assoc.
Qed.

(** *** Header octets *)
Definition confirmedHeader (seg more sra : bool) : Z :=
  Z.lor (Z.lor (if seg then 8 else 0) (if more then 4 else 0)) (if sra then 2 else 0).
Definition complexHeader (seg more : bool) : Z := Z.lor (Z.lor 0x30 (if seg then 8 else 0)) (if more then 4 else 0).

(** A fact about one octet, by computation. *)
Lemma byte_fact (P : Z -> bool) b : forallb P (seqZ 0 256) = true -> is_byte b -> P b = true.
Proof. intros H Hb. by apply (forall_range P 256). Qed.

Lemma confirmedHeader_inv b : is_byte b -> Z.land b 0xF0 = TypeConfirmedRequest -> bit b 0x01 = false ->
  b = confirmedHeader (bit b 0x08) (bit b 0x04) (bit b 0x02).
Proof.
  intros Hb Ht Hr. pose proof (byte_fact (fun b => negb (Z.land b 0xF0 =? 0) || bit b 0x01 ||
    (b =? confirmedHeader (bit b 0x08) (bit b 0x04) (bit b 0x02))) b ltac:(by vm_compute) Hb) as H.
  cbv beta in H. rewrite Ht, Hr in H. by apply Z.eqb_eq.
Qed.

Lemma complexHeader_inv b : is_byte b -> Z.land b 0xF0 = TypeComplexACK -> bit b 0x03 = false ->
  b = complexHeader (bit b 0x08) (bit b 0x04).
Proof.
  intros Hb Ht Hr. pose proof (byte_fact (fun b => negb (Z.land b 0xF0 =? 0x30) || bit b 0x03 ||
    (b =? complexHeader (bit b 0x08) (bit b 0x04))) b ltac:(by vm_compute) Hb) as H.
  cbv beta in H. rewrite Ht, Hr in H. by apply Z.eqb_eq.
Qed.

Lemma segmentACKHeader_inv b : is_byte b -> Z.land b 0xF0 = TypeSegmentACK -> bit b 0x0C = false ->
  b = Z.lor (Z.lor 0x40 (if bit b 0x02 then 2 else 0)) (if bit b 0x01 then 1 else 0).
Proof.
  intros Hb Ht Hr. pose proof (byte_fact (fun b => negb (Z.land b 0xF0 =? 0x40) || bit b 0x0C ||
    (b =? Z.lor (Z.lor 0x40 (if bit b 0x02 then 2 else 0)) (if bit b 0x01 then 1 else 0))) b ltac:(by vm_compute) Hb) as H.
  cbv beta in H. rewrite Ht, Hr in H. by apply Z.eqb_eq.
Qed.

Lemma abortHeader_inv b : is_byte b -> Z.land b 0xF0 = TypeAbort -> bit b 0x0E = false ->
  b = if bit b 0x01 then 0x71 else 0x70.
Proof.
  intros Hb Ht Hr. pose proof (byte_fact (fun b => negb (Z.land b 0xF0 =? 0x70) || bit b 0x0E ||
    (b =? if bit b 0x01 then 0x71 else 0x70)) b ltac:(by vm_compute) Hb) as H.
  cbv beta in H. rewrite Ht, Hr in H. by apply Z.eqb_eq.
Qed.

Lemma plainHeader_inv b ty : is_byte b -> Z.land b 0xF0 = ty -> bit b 0x0F = false -> b = ty.
Proof.
  intros Hb <- Hr. pose proof (byte_fact (fun b => bit b 0x0F || (b =? Z.land b 0xF0)) b ltac:(by vm_compute) Hb) as H.
  cbv beta in H. rewrite Hr in H. by apply Z.eqb_eq.
Qed.

(** The octet of the size limits. *)
Definition maxInfo (ms ma : Z) : Z := Z.lor (u8 (Z.shiftl (Z.land ms 0x07) 4)) (Z.land ma 0x0F).

Lemma maxInfo_fields ms ma : 0 <= ms < 8 -> 0 <= ma < 6 ->
  bit (maxInfo ms ma) 0x80 = false /\ Z.land (Z.shiftr (maxInfo ms ma) 4) 0x07 = ms /\
  Z.land (maxInfo ms ma) 0x0F = ma /\ snd (DecodeMaxAPDUSize ma) = true /\ is_byte (maxInfo ms ma).
Proof.
  intros Hs Ha. pose (ok ms ma := negb (bit (maxInfo ms ma) 0x80) && (Z.land (Z.shiftr (maxInfo ms ma) 4) 0x07 =? ms) &&
    (Z.land (maxInfo ms ma) 0x0F =? ma) && snd (DecodeMaxAPDUSize ma) && (0 <=? maxInfo ms ma) && (maxInfo ms ma <? 256)).
  assert (forallb (ok ms) (seqZ 0 6) = true) as H.
  { apply (forall_range (fun ms => forallb (ok ms) (seqZ 0 6)) 8); [by vm_compute|done]. }
  apply (forall_range _ _ ma) in H; [|done]. unfold ok in H. bool_to_prop. done.
Qed.

Lemma maxInfo_inv b : is_byte b -> bit b 0x80 = false -> snd (DecodeMaxAPDUSize (Z.land b 0x0F)) = true ->
  let ms := Z.land (Z.shiftr b 4) 0x07 in let ma := Z.land b 0x0F in
  b = maxInfo ms ma /\ 0 <= ms < 8 /\ 0 <= ma < 6.
Proof.
  intros Hb Hr Hs. pose proof (byte_fact (fun b => let ms := Z.land (Z.shiftr b 4) 0x07 in let ma := Z.land b 0x0F in
    bit b 0x80 || negb (snd (DecodeMaxAPDUSize ma)) || ((b =? maxInfo ms ma) && (0 <=? ms) && (ms <? 8) && (0 <=? ma) && (ma <? 6)))
    b ltac:(by vm_compute) Hb) as H.
  cbv beta zeta in *. rewrite Hr, Hs in H. cbn [negb orb] in H. bool_to_prop. done.
Qed.

(** *** Encoding then parsing *)
Lemma Parse_cons b0 rest limits : len (b0 :: rest) <= MaxAPDUSize (Normalize limits) ->
  Parse (b0 :: rest) limits =
    (let data := b0 :: rest in
     let pduType := Z.land b0 0xF0 in
     if pduType =? TypeConfirmedRequest then parseConfirmed data
     else if pduType =? TypeUnconfirmedRequest then parseUnconfirmed data
     else if pduType =? TypeSimpleACK then parseSimpleACK data
     else if pduType =? TypeComplexACK then parseComplexACK data
     else if pduType =? TypeSegmentACK then parseSegmentACK data
     else if pduType =? TypeError then parseError data
     else if pduType =? TypeReject then parseReject data
     else if pduType =? TypeAbort then parseAbort data
     else Err ErrUnsupported).
Proof. intros H. unfold Parse. cbv zeta. decide_test. decide_test. decide_test. by rewrite index_0, bind_Ok_l. Qed.

Lemma checkWindowSize_ok w : 1 <= w <= 127 -> checkWindowSize w = Ok tt.
Proof. intros. unfold checkWindowSize. by decide_tests. Qed.

Lemma segment_flags_ok (seg more : bool) : (more = true -> seg = true) -> checkSegmentFlags seg more = Ok tt.
Proof. intros H. unfold checkSegmentFlags. destruct seg, more; try done. by specialize (H eq_refl). Qed.

Lemma confirmed_wire r : pdu_ok (PConfirmedRequest r) ->
  exists rest, AppendConfirmedRequest [] r = confirmedHeader (cr_SegmentedMessage r) (cr_MoreFollows r) (cr_SegmentedResponseAccepted r) :: rest /\
    parseConfirmed (AppendConfirmedRequest [] r) = Ok (PConfirmedRequest r).
Proof.
  destruct r as [seg more sra ms ma i sn w ch pl]. intros ((Hm & Hs) & Hms & Hma & _). cbn in Hm, Hs, Hms, Hma.
  destruct (maxInfo_fields ms ma Hms Hma) as (F1 & F2 & F3 & F4 & _).
  assert (AppendConfirmedRequest [] (mkConfirmedRequest seg more sra ms ma i sn w ch pl) =
    confirmedHeader seg more sra :: maxInfo ms ma :: i :: (if seg then [sn; w; ch] else [ch]) ++ pl) as ->
    by (by destruct seg, more, sra).
  eexists. split; [done|]. unfold parseConfirmed. set (h := confirmedHeader seg more sra).
  assert (bit h 1 = false /\ bit h 8 = seg /\ bit h 4 = more /\ bit h 2 = sra) as (G1 & G2 & G3 & G4)
    by (by destruct seg, more, sra).
  destruct seg.
  - destruct Hs as [_ Hw]. decide_test. read_simpl. rewrite G1. read_simpl. rewrite F1, G2, G3, G4, F2, F3, F4.
    rewrite segment_flags_ok by done. read_simpl. cbv iota. cbn [negb app]. decide_test. read_simpl.
    rewrite checkWindowSize_ok by done. read_simpl. decide_test. decide_test.
    rewrite (slice_from_tail _ pl) by (done || len_lia). done.
  - destruct Hs as [-> ->]. decide_test. read_simpl. rewrite G1. read_simpl. rewrite F1, G2, G3, G4, F2, F3, F4.
    rewrite segment_flags_ok by done. read_simpl. cbv iota. cbn [negb app]. decide_test. decide_test. read_simpl.
    rewrite (slice_from_tail _ pl) by (done || len_lia). done.
Qed.

Lemma complex_wire a : pdu_ok (PComplexACK a) ->
  exists rest, AppendComplexACK [] a = complexHeader (ca_SegmentedMessage a) (ca_MoreFollows a) :: rest /\
    parseComplexACK (AppendComplexACK [] a) = Ok (PComplexACK a).
Proof.
  destruct a as [seg more i sn w ch pl]. intros ((Hm & Hs) & _). cbn in Hm, Hs.
  assert (AppendComplexACK [] (mkComplexACK seg more i sn w ch pl) =
    complexHeader seg more :: i :: (if seg then [sn; w; ch] else [ch]) ++ pl) as -> by (by destruct seg, more).
  eexists. split; [done|]. unfold parseComplexACK. set (h := complexHeader seg more).
  assert (bit h 3 = false /\ bit h 8 = seg /\ bit h 4 = more) as (G1 & G2 & G3) by (by destruct seg, more).
  destruct seg.
  - destruct Hs as [_ Hw]. decide_test. read_simpl. rewrite G1. read_simpl. rewrite G2, G3.
    rewrite segment_flags_ok by done. read_simpl. cbv iota. cbn [negb app]. decide_test. read_simpl.
    rewrite checkWindowSize_ok by done. read_simpl. decide_test. decide_test.
    rewrite (slice_from_tail _ pl) by (done || len_lia). done.
  - destruct Hs as [-> ->]. decide_test. read_simpl. rewrite G1. read_simpl. rewrite G2, G3.
    rewrite segment_flags_ok by done. read_simpl. cbv iota. cbn [negb app]. decide_test. decide_test. read_simpl.
    rewrite (slice_from_tail _ pl) by (done || len_lia). done.
Qed.

Lemma pdu_complete p limits : pdu_ok p -> len (appendPDU [] p) <= MaxAPDUSize (Normalize limits) ->
  Parse (appendPDU [] p) limits = Ok p.
Proof.
  intros Hp. destruct p as [r|r|a|a|a|e|r|a]; cbn [appendPDU].
  - destruct (confirmed_wire r Hp) as (rest & He & Hw). rewrite He in *. intros Hl. rewrite Parse_cons by done. cbv zeta. rewrite Hw.
    by destruct (cr_SegmentedMessage r), (cr_MoreFollows r), (cr_SegmentedResponseAccepted r).
  - destruct r as [ch pl]. intros Hl. etransitivity; [by apply Parse_cons|]. unfold parseUnconfirmed. cbn -[len slice_from].
    decide_test. by rewrite (slice_from_tail _ pl) by (done || len_lia).
  - destruct a as [i ch]. intros Hl. etransitivity; [by apply Parse_cons|done].
  - destruct (complex_wire a Hp) as (rest & He & Hw). rewrite He in *. intros Hl. rewrite Parse_cons by done. cbv zeta. rewrite Hw.
    by destruct (ca_SegmentedMessage a), (ca_MoreFollows a).
  - destruct a as [neg srv i sn w], Hp as (_ & _ & Hw). cbn in Hw. intros Hl. etransitivity; [by apply Parse_cons|].
    assert (forall h, parseSegmentACK [h; i; sn; w] =
      if bit h 0x0C then Err ErrMalformed else Ok (PSegmentACK (mkSegmentACK (bit h 0x02) (bit h 0x01) i sn w))) as Hs.
    { intros h. unfold parseSegmentACK. cbn [length negb]. change (negb (len [h; i; sn; w] =? 4)) with false. read_simpl.
      by rewrite checkWindowSize_ok. }
    cbv zeta. rewrite Hs. by destruct neg, srv.
  - destruct e as [i ch pl]. intros Hl. etransitivity; [by apply Parse_cons|]. unfold parseError. cbn -[len slice_from].
    decide_test. by rewrite (slice_from_tail _ pl) by (done || len_lia).
  - destruct r as [i rs]. intros Hl. etransitivity; [by apply Parse_cons|done].
  - destruct a as [srv i rs]. intros Hl. etransitivity; [by apply Parse_cons|]. by destruct srv.
Qed.

(** *** Parsing then encoding *)
Lemma checkWindowSize_inv w u : is_byte w -> checkWindowSize w = Ok u -> 1 <= w <= 127.
Proof. unfold checkWindowSize, is_u. intros Hw H. step_if H; [done|]. bool_to_prop. lia. Qed.

Lemma checkSegmentFlags_inv seg more u : checkSegmentFlags seg more = Ok u -> more = true -> seg = true.
Proof. unfold checkSegmentFlags. by destruct seg, more. Qed.

Lemma parseConfirmed_inv data p : bytes_ok data -> (exists b rest, data = b :: rest /\ Z.land b 0xF0 = TypeConfirmedRequest) ->
  parseConfirmed data = Ok p -> pdu_ok p /\ data = appendPDU [] p.
Proof.
  intros Hok (b & rest & -> & Ht) H. unfold parseConfirmed in H. step_if H; [done|]. read_simpl. rewrite index_0, bind_Ok_l in H.
  step_if H; [done|]. destruct rest as [|b1 [|i [|x rest]]]; try (exfalso; bool_to_prop; len_lia).
  rewrite index_1, bind_Ok_l in H. step_if H; [done|]. cbv zeta in H. rewrite index_2, bind_Ok_l in H.
  apply bind_Ok_inv in H as (u & Hf & H). step_if H; [done|]. apply negb_false_iff in E2.
  repeat match goal with Hx : bytes_ok (_ :: _) |- _ => apply Forall_cons in Hx as [? Hx] end.
  pose proof (confirmedHeader_inv b ltac:(done) Ht E0) as Hh. pose proof (maxInfo_inv b1 ltac:(done) E1 E2) as (Hi & Hms & Hma).
  pose proof (checkSegmentFlags_inv _ _ _ Hf) as Hsf. clear Hf E0 E1 E2.
  cbv zeta in Hi. remember (Z.land (Z.shiftr b1 4) 7) as ms eqn:Ems. remember (Z.land b1 15) as ma eqn:Ema.
  clear Ems Ema. subst b1.
  destruct (bit b 8) eqn:Eseg.
  - apply bind_Ok_inv in H as ([[sn w] off] & Hs & H). step_if Hs; [done|].
    destruct rest as [|w' rest]; [exfalso; bool_to_prop; len_lia|]. rewrite index_3, bind_Ok_l, index_4, bind_Ok_l in Hs.
    apply Forall_cons in Hok as [Hw' Hok]. apply bind_Ok_inv in Hs as (u' & Hw & Hs). apply checkWindowSize_inv in Hw; [|done].
    injection Hs as <- <- <-. step_if H; [done|]. destruct rest as [|ch pl]; [exfalso; bool_to_prop; len_lia|].
    rewrite index_5, bind_Ok_l, (slice_from_tail _ pl), bind_Ok_l in H by (done || len_lia). injection H as <-.
    apply Forall_cons in Hok as [Hch Hok]. split; [cbn; unfold segment_ok; split_and!; (done || lia)|].
    rewrite Hh. cbn. unfold AppendConfirmedRequest. cbn -[u8 Z.land]. fold (maxInfo ms ma). by destruct (bit b 4), (bit b 2).
  - rewrite bind_Ok_l in H. step_if H; [done|]. rewrite index_3, bind_Ok_l, (slice_from_tail _ rest), bind_Ok_l in H by (done || len_lia).
    injection H as <-. split; [cbn; unfold segment_ok; split_and!; (done || lia)|].
    rewrite Hh. cbn. unfold AppendConfirmedRequest. cbn -[u8 Z.land]. fold (maxInfo ms ma). by destruct (bit b 4), (bit b 2).
Qed.

Lemma parseComplexACK_inv data p : bytes_ok data -> (exists b rest, data = b :: rest /\ Z.land b 0xF0 = TypeComplexACK) ->
  parseComplexACK data = Ok p -> pdu_ok p /\ data = appendPDU [] p.
Proof.
  intros Hok (b & rest & -> & Ht) H. unfold parseComplexACK in H. step_if H; [done|]. rewrite index_0, bind_Ok_l in H.
  step_if H; [done|]. destruct rest as [|i [|x rest]]; try (exfalso; bool_to_prop; len_lia).
  cbv zeta in H. rewrite index_1, bind_Ok_l in H. apply bind_Ok_inv in H as (u & Hf & H).
  repeat match goal with Hx : bytes_ok (_ :: _) |- _ => apply Forall_cons in Hx as [? Hx] end.
  pose proof (complexHeader_inv b ltac:(done) Ht E0) as Hh. pose proof (checkSegmentFlags_inv _ _ _ Hf) as Hsf. clear Hf E0.
  destruct (bit b 8) eqn:Eseg.
  - apply bind_Ok_inv in H as ([[sn w] off] & Hs & H). step_if Hs; [done|].
    destruct rest as [|w' rest]; [exfalso; bool_to_prop; len_lia|]. rewrite index_2, bind_Ok_l, index_3, bind_Ok_l in Hs.
    apply Forall_cons in Hok as [Hw' Hok]. apply bind_Ok_inv in Hs as (u' & Hw & Hs). apply checkWindowSize_inv in Hw; [|done].
    injection Hs as <- <- <-. step_if H; [done|]. destruct rest as [|ch pl]; [exfalso; bool_to_prop; len_lia|].
    rewrite index_4, bind_Ok_l, (slice_from_tail _ pl), bind_Ok_l in H by (done || len_lia). injection H as <-.
    apply Forall_cons in Hok as [Hch Hok]. split; [cbn; unfold segment_ok; split_and!; (done || lia)|].
    rewrite Hh. cbn. by destruct (bit b 4).
  - rewrite bind_Ok_l in H. step_if H; [done|]. rewrite index_2, bind_Ok_l, (slice_from_tail _ rest), bind_Ok_l in H by (done || len_lia).
    injection H as <-. split; [cbn; unfold segment_ok; split_and!; (done || lia)|].
    rewrite Hh. cbn. by destruct (bit b 4).
Qed.

Ltac peel_bytes := repeat match goal with Hx : bytes_ok (_ :: _) |- _ => apply Forall_cons in Hx as [? Hx] end.

Section Flat.
Context (b : Z) (rest : bytes) (p : PDU) (Hok : bytes_ok (b :: rest)).
Let data := b :: rest.

Lemma parseUnconfirmed_inv : Z.land b 0xF0 = TypeUnconfirmedRequest -> parseUnconfirmed data = Ok p ->
  pdu_ok p /\ data = appendPDU [] p.
Proof using Hok.
  intros Ht H. unfold parseUnconfirmed, data in *. step_if H; [done|]. rewrite index_0, bind_Ok_l in H. step_if H; [done|].
  destruct rest as [|ch pl]; [exfalso; bool_to_prop; len_lia|]. peel_bytes.
  rewrite index_1, bind_Ok_l, (slice_from_tail _ pl), bind_Ok_l in H by (done || len_lia). injection H as <-.
  apply plainHeader_inv in Ht as ->; done.
Qed.

Lemma parseSimpleACK_inv : Z.land b 0xF0 = TypeSimpleACK -> parseSimpleACK data = Ok p -> pdu_ok p /\ data = appendPDU [] p.
Proof using Hok.
  intros Ht H. unfold parseSimpleACK, data in *. step_if H; [done|]. rewrite index_0, bind_Ok_l in H. step_if H; [done|].
  destruct rest as [|i [|ch [|]]]; try (exfalso; bool_to_prop; len_lia). peel_bytes. injection H as <-.
  apply plainHeader_inv in Ht as ->; done.
Qed.

Lemma parseError_inv : Z.land b 0xF0 = TypeError -> parseError data = Ok p -> pdu_ok p /\ data = appendPDU [] p.
Proof using Hok.
  intros Ht H. unfold parseError, data in *. step_if H; [done|]. rewrite index_0, bind_Ok_l in H. step_if H; [done|].
  destruct rest as [|i [|ch pl]]; try (exfalso; bool_to_prop; len_lia). peel_bytes.
  rewrite index_1, bind_Ok_l, index_2, bind_Ok_l, (slice_from_tail _ pl), bind_Ok_l in H by (done || len_lia).
  injection H as <-. apply plainHeader_inv in Ht as ->; done.
Qed.

Lemma parseReject_inv : Z.land b 0xF0 = TypeReject -> parseReject data = Ok p -> pdu_ok p /\ data = appendPDU [] p.
Proof using Hok.
  intros Ht H. unfold parseReject, data in *. step_if H; [done|]. rewrite index_0, bind_Ok_l in H. step_if H; [done|].
  destruct rest as [|i [|rs [|]]]; try (exfalso; bool_to_prop; len_lia). peel_bytes. injection H as <-.
  apply plainHeader_inv in Ht as ->; done.
Qed.

Lemma parseAbort_inv : Z.land b 0xF0 = TypeAbort -> parseAbort data = Ok p -> pdu_ok p /\ data = appendPDU [] p.
Proof using Hok.
  intros Ht H. unfold parseAbort, data in *. step_if H; [done|]. rewrite index_0, bind_Ok_l in H. step_if H; [done|].
  destruct rest as [|i [|rs [|]]]; try (exfalso; bool_to_prop; len_lia). peel_bytes. injection H as <-.
  split; [done|]. pose proof (abortHeader_inv b ltac:(done) Ht E0) as Hh. rewrite Hh at 1. cbn. by destruct (bit b 1).
Qed.

Lemma parseSegmentACK_inv : Z.land b 0xF0 = TypeSegmentACK -> parseSegmentACK data = Ok p -> pdu_ok p /\ data = appendPDU [] p.
Proof using Hok.
  intros Ht H. unfold parseSegmentACK, data in *. step_if H; [done|]. rewrite index_0, bind_Ok_l in H. step_if H; [done|].
  destruct rest as [|i [|sn [|w [|]]]]; try (exfalso; bool_to_prop; len_lia). peel_bytes.
  rewrite index_3, bind_Ok_l in H. apply bind_Ok_inv in H as (u & Hw & H). apply checkWindowSize_inv in Hw; [|done].
  rewrite index_1, bind_Ok_l, index_2, bind_Ok_l in H. injection H as <-. split; [done|].
  pose proof (segmentACKHeader_inv b ltac:(done) Ht E0) as Hh. rewrite Hh at 1. cbn. by destruct (bit b 2), (bit b 1).
Qed.
End Flat.

Lemma pdu_sound data p limits : bytes_ok data -> Parse data limits = Ok p ->
  pdu_ok p /\ data = appendPDU [] p /\ len data <= MaxAPDUSize (Normalize limits).
Proof.
  intros Hok H. pose proof H as Hp. unfold Parse in H. cbv zeta in H. step_if H; [done|]. step_if H; [done|].
  destruct data as [|b rest]; [done|]. clear H. assert (len (b :: rest) <= MaxAPDUSize (Normalize limits)) as Hl by (bool_to_prop; lia).
  rewrite Parse_cons in Hp by done. cbv zeta in Hp. enough (pdu_ok p /\ b :: rest = appendPDU [] p) as [? ?] by done. clear E E0 Hl.
  step_if Hp; [apply Z.eqb_eq in E; apply parseConfirmed_inv; eauto|].
  step_if Hp; [apply Z.eqb_eq in E0; by apply parseUnconfirmed_inv|].
  step_if Hp; [apply Z.eqb_eq in E1; by apply parseSimpleACK_inv|].
  step_if Hp; [apply Z.eqb_eq in E2; apply parseComplexACK_inv; eauto|].
  step_if Hp; [apply Z.eqb_eq in E3; by apply parseSegmentACK_inv|].
  step_if Hp; [apply Z.eqb_eq in E4; by apply parseError_inv|].
  step_if Hp; [apply Z.eqb_eq in E5; by apply parseReject_inv|].
  step_if Hp; [apply Z.eqb_eq in E6; by apply parseAbort_inv|done].
Qed.

Lemma pdu_safe data limits : safe (Parse data limits).
Proof.
  unfold Parse, parseConfirmed, parseUnconfirmed, parseSimpleACK, parseComplexACK, parseSegmentACK, parseError, parseReject,
    parseAbort, checkSegmentFlags, checkWindowSize.
  cbv zeta. repeat (safe_step; cbn beta iota zeta).
  all: match goal with H : (if _ then _ else _) = Ok _ |- _ => inv_all H; simplify_eq end; safe_steps.
Qed.

(** ** Error payloads *)
Definition errorElements (class code : Z) : list Element := [appElement 9 (EnumValue class); appElement 9 (EnumValue code)].

Lemma errorFieldUint_enum e : is_u 16 e -> errorFieldUint (appElement 9 (EnumValue e)) = Ok e.
Proof.
  unfold is_u. intros He. unfold errorFieldUint. av_simpl. cbv zeta. decide_test. decide_test.
  by rewrite uwrap_small.
Qed.

Lemma DecodeBACnetError_elements class code : is_u 16 class -> is_u 16 code ->
  DecodeBACnetError (errorElements class code) = Ok (class, code).
Proof.
  intros Hc Hd. transitivity (let* a := errorFieldUint (appElement 9 (EnumValue class)) in
    let* b := errorFieldUint (appElement 9 (EnumValue code)) in Ok (a, b)); [reflexivity|].
  by rewrite !errorFieldUint_enum.
Qed.

Section ErrorPayload.
Context (limits : DecodeLimits) (class code : Z).
Hypothesis (Hclass : is_u 16 class) (Hcode : is_u 16 code) (Hel : 2 <= MaxElements (Normalize limits)).
Let lim := Normalize limits.

Lemma writes_error d : writes lim d (fun dst => EncodeBACnetError dst class code) (errorElements class code).
Proof using Hclass Hcode.
  apply (writes_ext lim d (seq2 (fun dst => AppendApplicationValue dst (EnumValue class))
    (fun dst => AppendApplicationValue dst (EnumValue code)))); [done|].
  apply (writes_seq lim d _ _ [_] [_]); apply (writes_value lim (Normalize_positive limits) d (EnumValue _)); apply ap_enum;
    by apply (is_u_mono 16 32).
Qed.

Lemma DecodeError_bare : exists bs, EncodeBACnetError [] class code = Ok bs /\
  DecodeError bs limits = Ok (mkErrorDetail class code false []).
Proof using Hclass Hcode Hel.
  destruct (ParseSequence_writes limits 0 _ _ (writes_error 0)) as (bs & Hf & Hok & Hp).
  - pose proof (Normalize_positive limits) as (_ & _ & H & _). lia.
  - done.
  - exists bs. split; [apply (Hf [])|]. unfold DecodeError. rewrite Hp, bind_Ok_l. cbv beta iota. rewrite Z.eqb_refl. cbn [negb].
    cbv zeta. by rewrite DecodeBACnetError_elements.
Qed.

Lemma cloneElement_id e : cloneElement e = e.
Proof using Type. unfold cloneElement. rewrite Clone_id. by destruct e. Qed.

Lemma DecodeError_wrapped d params : Forall (wire_at lim 12 d) params -> Z.of_nat d <= MaxConstructedDepth lim ->
  3 + elcounts params <= MaxElements lim ->
  exists bs, (let* dst := AppendContextTagged [] 0 (errorElements class code) in foldAppend AppendTag dst params) = Ok bs /\
    DecodeError bs limits = Ok (mkErrorDetail class code true params).
Proof using Hclass Hcode.
  intros Hp Hd Hc. pose proof (Normalize_positive limits) as Hl. fold lim in Hl. pose proof Hl as (_ & _ & Hdep & _).
  assert (Forall (wire_at lim 12 0) (errorElements class code)) as He.
  { assert (forall e, is_u 16 e -> wire_at lim 12 0 (appElement 9 (EnumValue e))) as H.
    { intros e Hu. left. exists 9, (EnumValue e). split_and!; try done. apply ap_enum. by apply (is_u_mono 16 32). }
    apply List.Forall_cons; [by apply H|]. apply List.Forall_cons; [by apply H|apply List.Forall_nil]. }
  destruct (ParseSequence_writes limits (Nat.max 1 d)
    (seq2 (fun dst => AppendContextTagged dst 0 (errorElements class code)) (fun dst => foldAppend AppendTag dst params))
    (mkElement true 0 false false (constructedValue (errorElements class code)) :: params)) as (bs & Hf & Hok & Hs).
  - apply (writes_seq _ _ _ _ [_] params).
    + eapply writes_mono; [|by apply (writes_tagged lim Hl 0)]. lia.
    + eapply writes_mono; [|by apply (writes_elements lim Hl d)]. lia.
  - fold lim. lia.
  - rewrite elcounts_cons, elcount_constructed. fold lim. change (elcounts (errorElements class code)) with 2. lia.
  - exists bs. split; [apply (Hf [])|]. unfold DecodeError. rewrite Hs, bind_Ok_l. cbv beta iota. rewrite Z.eqb_refl.
    cbn [negb]. cbv zeta. av_simpl. change (IsContextConstructed _) with true. cbn [Z.eqb andb].
    rewrite DecodeBACnetError_elements, bind_Ok_l by done. do 2 f_equal.
    rewrite (map_ext _ (fun e => e)) by apply cloneElement_id. apply map_id.
Qed.
End ErrorPayload.

(** ** Properties *)

(** C4. [Parse] accepts exactly the encodings of the well-formed PDUs of all
    eight types that fit the APDU limit, and never panics: parsing what an
    encoder produced returns the PDU, what parsing returns encodes back to
    the same octets, and reserved bits, undefined size codes, segmentation
    flags without a segmented message and windows outside 1..127 are errors. *)
Theorem apdu_Parse_exact data limits : bytes_ok data ->
  (forall p, Parse data limits = Ok p <->
     pdu_ok p /\ (forall dst, appendPDU dst p = dst ++ data) /\ len data <= MaxAPDUSize (Normalize limits)) /\
  safe (Parse data limits).
Proof.
  intros Hok. split; [|apply pdu_safe]. intros p. split.
  - intros H. destruct (pdu_sound data p limits Hok H) as (Hp & Hd & Hl). split_and!; [done| |done].
    intros dst. by rewrite appendPDU_app, <- Hd.
  - intros (Hp & Hd & Hl). specialize (Hd []). cbn [app] in Hd. rewrite <- Hd in *. by apply pdu_complete.
Qed.

Lemma apdu_Parse_exact_witness :
  Parse [0x0C; 0x75; 9; 0; 16; 12; 1; 2] DefaultDecodeLimits
    = Ok (PConfirmedRequest (mkConfirmedRequest true true false 7 5 9 0 16 12 [1; 2])) /\
  forall dst, appendPDU dst (PConfirmedRequest (mkConfirmedRequest true true false 7 5 9 0 16 12 [1; 2]))
    = dst ++ [0x0C; 0x75; 9; 0; 16; 12; 1; 2].
Proof.
  set (p := PConfirmedRequest _).
  assert (Parse [0x0C; 0x75; 9; 0; 16; 12; 1; 2] DefaultDecodeLimits = Ok p) as H by reflexivity. split; [done|].
  destruct (apdu_Parse_exact [0x0C; 0x75; 9; 0; 16; 12; 1; 2] DefaultDecodeLimits) as [He _]; [solve_bytes|].
  by apply He in H as (_ & Hd & _).
Defined.

(** The advertised sizes never exceed what the caller can take and are
    the largest such codes: a size of at least 50 octets encodes to the
    greatest standard capacity not above it, smaller sizes are an error, and
    the segment code of a count of at least 2 stands for the greatest power
    of two not above it, up to 64; code 7 is sent only for counts above 64. *)
Theorem advertised_sizes_sound size count :
  (if size >=? 50 then
     exists code n, EncodeMaxAPDUSize size = Ok code /\ DecodeMaxAPDUSize code = (n, true) /\ n <= size /\
       forall code' n', DecodeMaxAPDUSize code' = (n', true) -> n' <= size -> n' <= n
   else exists e, EncodeMaxAPDUSize size = Err e) /\
  (2 <= count <= 64 -> 1 <= EncodeMaxSegments count <= 6 /\
     2 ^ EncodeMaxSegments count <= count < 2 ^ (EncodeMaxSegments count + 1)) /\
  (count < 2 -> EncodeMaxSegments count = MaxSegmentsUnspecified) /\
  (EncodeMaxSegments count = MaxSegmentsGT64 <-> 64 < count).
Proof.
  split_and!.
  - assert (forall code' n', DecodeMaxAPDUSize code' = (n', true) -> n' = 50 \/ n' = 128 \/ n' = 206 \/ n' = 480 \/ n' = 1024 \/ n' = 1476) as Hd.
    { unfold DecodeMaxAPDUSize. intros c n'. repeat case_match; intros; simplify_eq; tauto. }
    unfold EncodeMaxAPDUSize. repeat (case_match; bool_to_prop); try lia; eauto;
      eexists _, _; (split_and!; [reflexivity|reflexivity|lia|]); intros c n' Hc Hn; apply Hd in Hc; lia.
  - intros Hc. unfold EncodeMaxSegments. repeat (case_match; bool_to_prop); try lia; cbn; lia.
  - intros Hc. unfold EncodeMaxSegments. repeat (case_match; bool_to_prop); try done; lia.
  - unfold EncodeMaxSegments, MaxSegmentsGT64, MaxSegmentsUnspecified. repeat (case_match; bool_to_prop); lia.
Qed.

Lemma advertised_sizes_sound_witness : 2 ^ EncodeMaxSegments 3 <= 3 < 2 ^ (EncodeMaxSegments 3 + 1).
Proof. apply (advertised_sizes_sound 1476 3). lia. Defined.

(** Error payloads decode to what was encoded: the bare form written by
    [EncodeBACnetError], and the wrapped form (error-type [0] followed by
    service parameters), whose parameters come back in order. *)
Theorem error_payload_roundtrip limits class code d params
    (Hclass : is_u 16 class) (Hcode : is_u 16 code)
    (Hp : Forall (wire_at (Normalize limits) 12 d) params) (Hd : Z.of_nat d <= MaxConstructedDepth (Normalize limits))
    (Hc : 3 + elcounts params <= MaxElements (Normalize limits)) :
  (exists bs, EncodeBACnetError [] class code = Ok bs /\
     DecodeError bs limits = Ok (mkErrorDetail class code false []) /\ DecodeErrorClassCode bs limits = Ok (class, code)) /\
  (exists bs, (let* dst := AppendContextTagged [] 0 (errorElements class code) in foldAppend AppendTag dst params) = Ok bs /\
     DecodeError bs limits = Ok (mkErrorDetail class code true params) /\ DecodeErrorClassCode bs limits = Ok (class, code)).
Proof.
  pose proof (elcounts_nonneg params). split.
  - destruct (DecodeError_bare limits class code Hclass Hcode) as (bs & He & Hb); [lia|].
    exists bs. split_and!; [done..|]. unfold DecodeErrorClassCode. by rewrite Hb.
  - destruct (DecodeError_wrapped limits class code Hclass Hcode d params) as (bs & He & Hb); [done..|].
    exists bs. split_and!; [done..|]. unfold DecodeErrorClassCode. by rewrite Hb.
Qed.

Lemma error_payload_roundtrip_witness :
  exists bs, EncodeBACnetError [] 2 31 = Ok bs /\ DecodeError bs DefaultDecodeLimits = Ok (mkErrorDetail 2 31 false []) /\
    DecodeErrorClassCode bs DefaultDecodeLimits = Ok (2, 31).
Proof.
  apply (error_payload_roundtrip DefaultDecodeLimits 2 31 0 []); try (unfold is_u; lia); try done.
Defined.
