(* ===== verification/Codec.v ===== *)
(** * Service codecs: the shape the decoders and encoders of [service/] share

    A decoder parses the payload into elements ([parseElements]), walks over
    them with a record of what it has seen so far ([forElements]) and checks
    that nothing required is missing. [yields P m] says of such a computation
    that it does not panic and that a value it returns satisfies [P]; the
    lemmas follow a decoder step by step. An encoder appends to a fresh buffer
    ([newBuffer]); with [Writer] its octets are known to parse back.

    [Codec] is the contract of an encoder/decoder pair: values that [fits]
    the limits survive the round trip, and whatever is decoded from the
    network is [typed]: inside the Go ranges the rest of the code relies on. *)

From Stdlib Require Import ZArith Lia.
From stdpp Require Import base list.
From S2P Require Import Prelude Value Tags Constructed Writer.

(** ** Definitions *)

(** [elements, n, err := ParseSequence(payload, limits, -1)], and the check
    that nothing is left over, at the head of every decoder. *)
Definition parseElements (payload : bytes) (limits : DecodeLimits) : result (list Element) :=
  let* (elements, n) := ParseSequence payload limits (-1) in
  if negb (n =? len payload) then Err ErrTrailingData else Ok elements.

(** [for _, el := range elements { ... }] *)
Fixpoint forElements {St A} (body : A -> St -> result St) (els : list A) (st : St) : result St :=
  match els with
  | [] => Ok st
  | el :: els => let* st := body el st in forElements body els st
  end.

(** [var dst []byte] *)
Definition newBuffer (f : bytes -> result bytes) : result bytes := f [].

(** [dst = append(dst, o)], a body encoded into a buffer of its own and
    appended, [dst = append(dst, c)]: literal opening and closing tags. *)
Definition appendWrapped (o c : Z) (f : bytes -> result bytes) (dst : bytes) : result bytes :=
  let* body := newBuffer f in Ok (((dst ++ [o]) ++ body) ++ [c]).
(** The same with the body appended in place. *)
Definition appendInline (o c : Z) (f : bytes -> result bytes) (dst : bytes) : result bytes :=
  let* dst := f (dst ++ [o]) in Ok (dst ++ [c]).

(** A field that may be set once: the [have...] flags. *)
Definition setOnce {A} (have : option A) (m : result A) : result (option A) :=
  match have with
  | Some _ => Err ErrMalformed
  | None => let* a := m in Ok (Some a)
  end.
(** A field that a later element sets again. *)
Definition overwrite {A} (m : result A) : result (option A) := let* a := m in Ok (Some a).
(** A required field. *)
Definition required {A} (have : option A) : result A :=
  match have with
  | Some a => Ok a
  | None => Err ErrMalformed
  end.

(** ** service/narrow.go *)
Definition narrowU8 (u : Z) : result Z := if u >? 255 then Err ErrMalformed else Ok (u8 u).
Definition narrowU16 (u : Z) : result Z := if u >? MaxUint16 then Err ErrMalformed else Ok (u16 u).
Definition narrowU32 (u : Z) : result Z := if u >? MaxUint32 then Err ErrMalformed else Ok (u32 u).
Definition narrowS32 (v : Z) : result Z :=
  if (v <? - 2 ^ 31) || (v >? 2 ^ 31 - 1) then Err ErrMalformed else Ok (swrap 32 v).

(** ** What a computation yields *)
Definition yields {A} (P : A -> Prop) (m : result A) : Prop :=
  match m with
  | Ok a => P a
  | Err Panic | Err OutOfFuel => False
  | Err _ => True
  end.

Lemma yields_safe {A} (P : A -> Prop) m : yields P m -> safe m.
Proof. by destruct m as [a|[]]. Qed.

Lemma yields_Ok {A} (P : A -> Prop) m a : yields P m -> m = Ok a -> P a.
Proof. by intros H ->. Qed.

Lemma yields_mono {A} (P Q : A -> Prop) m : (forall a, P a -> Q a) -> yields P m -> yields Q m.
Proof. destruct m as [a|[]]; cbn; auto. Qed.

Lemma yields_bind {A B} (P : A -> Prop) (Q : B -> Prop) m (f : A -> result B) :
  yields P m -> (forall a, P a -> yields Q (f a)) -> yields Q (bind m f).
Proof. destruct m as [a|[]]; cbn; auto. Qed.

Lemma yields_of_safe {A} (P : A -> Prop) m : safe m -> (forall a, m = Ok a -> P a) -> yields P m.
Proof. destruct m as [a|[]]; cbn; auto. Qed.

Lemma yields_True {A} (m : result A) : safe m -> yields (fun _ => True) m.
Proof. intros H. by apply yields_of_safe. Qed.

(** Options: the value, if any, satisfies [P]. *)
Definition optP {A} (P : A -> Prop) (o : option A) : Prop := forall a, o = Some a -> P a.
Lemma optP_Some {A} (P : A -> Prop) a : optP P (Some a) <-> P a.
Proof. split; [intros H; by apply H|by intros H ? [= <-]]. Qed.
Lemma optP_None {A} (P : A -> Prop) : optP P None.
Proof. done. Qed.
#[export] Hint Resolve optP_None : go.

Lemma yields_setOnce {A} (P : A -> Prop) o m : yields P m -> yields (optP P) (setOnce o m).
Proof. intros H. destruct o; [done|]. eapply yields_bind; [exact H|]. intros a Ha. by apply optP_Some. Qed.

Lemma yields_overwrite {A} (P : A -> Prop) m : yields P m -> yields (optP P) (overwrite m).
Proof. intros H. eapply yields_bind; [exact H|]. intros a Ha. by apply optP_Some. Qed.

Lemma yields_required {A} (P : A -> Prop) o : optP P o -> yields P (required o).
Proof. destruct o; [by intros H; apply H|done]. Qed.

Lemma yields_forElements {St A} (P : St -> Prop) (Q : A -> Prop) body els st :
  (forall el st, Q el -> P st -> yields P (body el st)) -> Forall Q els -> P st -> yields P (forElements body els st).
Proof.
  intros Hb Hels. revert st. induction Hels as [|el els Hel Hels IH]; intros st Hst; [done|]. cbn [forElements].
  eapply yields_bind; [by apply Hb|]. intros. by apply IH.
Qed.

Lemma yields_narrowU8 u : 0 <= u -> yields (is_u 8) (narrowU8 u).
Proof. intros. unfold narrowU8. destruct (_ >? _) eqn:E; [done|]. by apply uwrap_range. Qed.
Lemma yields_narrowU16 u : 0 <= u -> yields (is_u 16) (narrowU16 u).
Proof. intros. unfold narrowU16. destruct (_ >? _) eqn:E; [done|]. by apply uwrap_range. Qed.
Lemma yields_narrowU32 u : 0 <= u -> yields (is_u 32) (narrowU32 u).
Proof. intros. unfold narrowU32. destruct (_ >? _) eqn:E; [done|]. by apply uwrap_range. Qed.
Lemma yields_narrowS32 v : yields (is_s 32) (narrowS32 v).
Proof.
  unfold narrowS32. destruct (_ || _) eqn:E; [done|]. cbn [yields]. apply orb_false_iff in E as [E1 E2]. bool_to_prop.
  assert (is_s 32 v) as Hv by (unfold is_s; lia). by rewrite swrap_small.
Qed.

Lemma narrowU8_id u : is_u 8 u -> narrowU8 u = Ok u.
Proof. intros Hu. unfold narrowU8. unfold is_u in Hu. rewrite uwrap_small by done. by decide_tests. Qed.
Lemma narrowU16_id u : is_u 16 u -> narrowU16 u = Ok u.
Proof. intros Hu. unfold narrowU16, MaxUint16. unfold is_u in Hu. rewrite uwrap_small by done. by decide_tests. Qed.
Lemma narrowU32_id u : is_u 32 u -> narrowU32 u = Ok u.
Proof. intros Hu. unfold narrowU32, MaxUint32. unfold is_u in Hu. rewrite uwrap_small by done. by decide_tests. Qed.
Lemma narrowS32_id v : is_s 32 v -> narrowS32 v = Ok v.
Proof. intros Hv. unfold narrowS32. rewrite swrap_small by done. unfold is_s in Hv. by decide_tests. Qed.

(** ** Elements of a parsed payload *)
Section Wire.
Context (lim : DecodeLimits).

(** An element as the parser builds it, at any depth. *)
Definition wire (el : Element) : Prop := exists d, wire_at lim 254 d el.

Lemma wire_primitive el : wire el -> notContextPrimitive el = false ->
  exists tn o, el = contextElement tn o /\ tagNumber_ok tn /\ bytes_ok o /\ len o <= MaxOctetStringLength lim.
Proof using Type.
  intros [d Hel] Hp. assert (wire_at lim 254 (S d) el) as H by (eapply wire_at_mono; [|done]; lia). clear Hel.
  destruct H as [(tn & v & -> & _)|[(tn & o & -> & Htn & Ho & _ & Hl)|(tn & es & -> & _)]]; [done| |done]. by exists tn, o.
Qed.

Lemma wire_constructed el : wire el -> IsContextConstructed el = true ->
  exists tn es, el = mkElement true tn false false (constructedValue es) /\ tagNumber_ok tn /\ Forall wire es.
Proof using Type.
  intros [d Hel] Hp. assert (wire_at lim 254 (S d) el) as H by (eapply wire_at_mono; [|done]; lia). clear Hel.
  destruct H as [(tn & v & -> & _)|[(tn & o & -> & _)|(tn & es & -> & Htn & Hes)]]; [done|done|].
  exists tn, es. split_and!; [done..|]. eapply Forall_impl; [done|]. intros e He. by exists d.
Qed.

Lemma wire_application el : wire el -> el_Context el = false ->
  exists tn v, el = appElement tn v /\ app_prim lim v.
Proof using Type.
  intros [d Hel] Hp. assert (wire_at lim 254 (S d) el) as H by (eapply wire_at_mono; [|done]; lia). clear Hel.
  destruct H as [(tn & v & -> & _ & _ & Hv & _)|[(tn & o & -> & _)|(tn & es & -> & _)]]; [|done|done]. by exists tn, v.
Qed.

Lemma yields_parseElements payload limits : lim = Normalize limits -> bytes_ok payload ->
  yields (Forall wire) (parseElements payload limits).
Proof using Type.
  intros Hlim Hb. unfold parseElements. destruct (ParseSequence_robust payload limits (-1) Hb) as [Hs Hp].
  destruct (ParseSequence payload limits (-1)) as [[es n]|[]]; try done. cbn [bind].
  destruct (Hp es n eq_refl) as (_ & Hn & _ & Hw). rewrite Hn by done. rewrite Z.eqb_refl. cbn [negb yields].
  eapply Forall_impl; [done|]. intros e He. eexists. rewrite Hlim. exact He.
Qed.

(** Accessors *)
Lemma yields_ContextUnsigned el : wire el -> yields (is_u 64) (ContextUnsigned el).
Proof using Type.
  intros Hw. unfold ContextUnsigned. destruct (notContextPrimitive el) eqn:E; [done|].
  destruct (wire_primitive el Hw E) as (tn & o & -> & _ & Ho & _). av_simpl.
  apply yields_of_safe; [apply decodeUnsigned_safe|]. intros u Hu. by eapply decodeUnsigned_Ok.
Qed.

Lemma yields_ContextUnsigned32 el : wire el -> yields (is_u 32) (ContextUnsigned32 el).
Proof using Type.
  intros Hw. unfold ContextUnsigned32. eapply yields_bind; [by apply yields_ContextUnsigned|].
  intros u [Hu _]. by apply (yields_narrowU32 u).
Qed.

Lemma yields_ContextSigned el : wire el -> yields (is_s 64) (ContextSigned el).
Proof using Type.
  intros Hw. unfold ContextSigned. destruct (notContextPrimitive el) eqn:E; [done|].
  destruct (wire_primitive el Hw E) as (tn & o & -> & _ & Ho & _). av_simpl.
  apply yields_of_safe; [apply decodeSigned_safe|]. intros u Hu. by eapply decodeSigned_range.
Qed.

Lemma yields_ContextBool el : wire el -> yields (fun _ => True) (ContextBool el).
Proof using Type. intros _. apply yields_True. unfold ContextBool. safe_steps. Qed.

Lemma yields_ContextObjectID el : wire el -> yields oid_ok (ContextObjectID el).
Proof using Type.
  intros Hw. unfold ContextObjectID. destruct (notContextPrimitive el) eqn:E; [done|].
  destruct (wire_primitive el Hw E) as (tn & o & -> & _ & Ho & _). av_simpl.
  destruct (negb _) eqn:El; [done|]. bool_to_prop. destruct o as [|a [|b [|c [|d [|]]]]]; try (len_lia).
  pose proof (ContextObjectID_bytes 0 a b c d Ho) as H. unfold ContextObjectID in H. rewrite notContextPrimitive_context in H.
  cbn [contextElement el_Value av_OctetString octetsValue] in H. rewrite El in H. cbn [Z.eqb Pos.eqb negb] in H. rewrite H.
  apply DecodeObjectIdentifier_ok. pose proof (be_get_bound _ Ho) as Hg. done.
Qed.

(** A character string a decoder may return. *)
Definition cs_typed (c : CharacterString) : Prop := is_byte (cs_Encoding c) /\ bytes_ok (cs_Value c).
Lemma yields_ContextCharacterString el : wire el -> yields cs_typed (ContextCharacterString el).
Proof using Type.
  intros Hw. unfold ContextCharacterString. destruct (notContextPrimitive el) eqn:E; [done|].
  destruct (wire_primitive el Hw E) as (tn & o & -> & _ & Ho & _). av_simpl. destruct (len o <? 1) eqn:El; [done|].
  destruct o as [|e o]; [done|]. rewrite index_0, slice_from_1. cbn [bind yields]. by inversion_clear Ho.
Qed.

Definition bs_typed (b : BitString) : Prop :=
  0 <= bs_UnusedBits b <= 7 /\ (bs_Bytes b = [] -> bs_UnusedBits b = 0) /\ bytes_ok (bs_Bytes b).
Lemma yields_ContextBitString el : wire el -> yields bs_typed (ContextBitString el).
Proof using Type.
  intros Hw. unfold ContextBitString. destruct (notContextPrimitive el) eqn:E; [done|].
  destruct (wire_primitive el Hw E) as (tn & o & -> & _ & Ho & _). av_simpl. destruct (len o <? 1) eqn:El; [done|].
  destruct o as [|e o]; [done|]. rewrite index_0, slice_from_1. cbn [bind].
  pose proof (validateBitString_safe e (len (e :: o) - 1)) as Hs.
  destruct (validateBitString _ _) as [[]|[]] eqn:Ev; try done. cbn [bind yields]. apply validateBitString_inv in Ev as [H7 H0].
  inversion_clear Ho as [|? ? He Ho1]. unfold bs_typed, is_u in *. cbn. split_and!; [lia..| |done].
  intros ->. by apply H0.
Qed.

Definition byte4 (a b c d : Z) : Prop := is_byte a /\ is_byte b /\ is_byte c /\ is_byte d.
Definition time_typed (t : Time) : Prop := byte4 (t_Hour t) (t_Minute t) (t_Second t) (t_Hundredths t).
Definition date_typed (d : Date) : Prop := byte4 (d_Year d) (d_Month d) (d_Day d) (d_Weekday d).

Lemma octets4 (o : bytes) : bytes_ok o -> len o = 4 -> exists a b c d, o = [a; b; c; d] /\ byte4 a b c d.
Proof using Type.
  intros Ho Hl. destruct o as [|a [|b [|c [|d [|]]]]]; try len_lia. exists a, b, c, d. split; [done|].
  by repeat match goal with H : Forall _ (_ :: _) |- _ => inversion_clear H end.
Qed.

Lemma yields_ContextTime el : wire el -> yields time_typed (ContextTime el).
Proof using Type.
  intros Hw. unfold ContextTime. destruct (notContextPrimitive el) eqn:E; [done|].
  destruct (wire_primitive el Hw E) as (tn & o & -> & _ & Ho & _). av_simpl. destruct (negb _) eqn:El; [done|]. bool_to_prop.
  by destruct (octets4 o Ho El) as (a & b & c & d & -> & H).
Qed.

Lemma yields_ContextDate el : wire el -> yields date_typed (ContextDate el).
Proof using Type.
  intros Hw. unfold ContextDate. destruct (notContextPrimitive el) eqn:E; [done|].
  destruct (wire_primitive el Hw E) as (tn & o & -> & _ & Ho & _). av_simpl. destruct (negb _) eqn:El; [done|]. bool_to_prop.
  by destruct (octets4 o Ho El) as (a & b & c & d & -> & H).
Qed.

Lemma yields_ContextReal el : wire el -> yields (is_u 32) (ContextReal el).
Proof using Type.
  intros Hw. unfold ContextReal. destruct (notContextPrimitive el) eqn:E; [done|].
  destruct (wire_primitive el Hw E) as (tn & o & -> & _ & Ho & _). av_simpl. destruct (negb _) eqn:El; [done|]. bool_to_prop.
  destruct (octets4 o Ho El) as (a & b & c & d & -> & H). apply (be_get_bound _ Ho).
Qed.

Lemma yields_inner el : wire el -> IsContextConstructed el = true -> Forall wire (av_Elements (el_Value el)).
Proof using Type. intros Hw Hc. by destruct (wire_constructed el Hw Hc) as (tn & es & -> & _ & Hes). Qed.
End Wire.

#[export] Hint Resolve yields_ContextUnsigned yields_ContextUnsigned32 yields_ContextSigned yields_ContextBool yields_ContextObjectID
  yields_ContextCharacterString yields_ContextBitString yields_ContextTime yields_ContextDate yields_ContextReal yields_inner : go.

(** ** Encoders *)
Section Encode.
Context (lim : DecodeLimits) (Hlim : limits_positive lim).

Lemma writes_bind d f g es fs : writes lim d f es -> writes lim d g fs ->
  writes lim d (fun dst => bind (f dst) (fun dst => g dst)) (es ++ fs).
Proof using Type. apply writes_seq. Qed.

Lemma writes_wrapped d tn o c f es : tagNumber_ok tn ->
  appendContextOpenClose [] tn true = [o] -> appendContextOpenClose [] tn false = [c] -> writes lim d f es ->
  writes lim (S d) (fun dst => appendWrapped o c f dst) [mkElement true tn false false (constructedValue es)].
Proof using Type.
  intros Htn Ho Hc Hf. eapply writes_ext; [|by apply (writes_constructed lim d tn f es)].
  intros dst. destruct Hf as (bs & Hf & _). unfold appendWrapped, newBuffer. rewrite !Hf. cbn [bind].
  rewrite (appendContextOpenClose_app dst), (appendContextOpenClose_app (_ ++ bs)), Ho, Hc. done.
Qed.

Lemma writes_inline d tn o c f es : tagNumber_ok tn ->
  appendContextOpenClose [] tn true = [o] -> appendContextOpenClose [] tn false = [c] -> writes lim d f es ->
  writes lim (S d) (fun dst => appendInline o c f dst) [mkElement true tn false false (constructedValue es)].
Proof using Type.
  intros Htn Ho Hc Hf. eapply writes_ext; [|by apply (writes_constructed lim d tn f es)].
  intros dst. destruct Hf as (bs & Hf & _). unfold appendInline. rewrite !Hf. cbn [bind].
  rewrite (appendContextOpenClose_app dst), (appendContextOpenClose_app (_ ++ bs)), Ho, Hc. done.
Qed.

Lemma writes_foldAppend {A} d (f : bytes -> A -> result bytes) (els : A -> list Element) l :
  (forall a, a ∈ l -> writes lim d (fun dst => f dst a) (els a)) ->
  writes lim d (fun dst => foldAppend f dst l) (concat (map els l)).
Proof using Type.
  induction l as [|a l IH]; intros H; [apply writes_nil|]. cbn [foldAppend map concat].
  apply (writes_seq lim d (fun dst => f dst a)); [apply H; by left|]. apply IH. intros b Hb. apply H. by right.
Qed.

Lemma writes_bool d tn b : tagNumber_ok tn -> 8 <= MaxOctetStringLength lim ->
  writes lim d (fun dst => AppendContextBool dst tn b) [contextElement tn [if b then 1 else 0]].
Proof using Hlim. intros Htn Hm. apply writes_context; [done..|destruct b; solve_bytes|done|len_lia]. Qed.

Lemma writes_real d tn v : tagNumber_ok tn -> is_u 32 v -> 8 <= MaxOctetStringLength lim ->
  writes lim d (fun dst => AppendContextReal dst tn v) [contextElement tn (be_put 4 v)].
Proof using Hlim. intros Htn Hv Hm. apply writes_context; [done..|apply be_put_bytes_ok|done|len_lia]. Qed.

Lemma writes_signed d tn v : tagNumber_ok tn -> is_s 64 v -> 8 <= MaxOctetStringLength lim ->
  writes lim d (fun dst => AppendContextSigned dst tn v) [contextElement tn (encodeSigned v)].
Proof using Hlim.
  intros Htn Hv Hm. pose proof (signedWidth_1_spec v Hv) as [Hw _]. pose proof (encodeSigned_len v Hv) as Hl.
  apply writes_context; [done..|apply encodeSigned_bytes_ok|unfold MaxUint32; lia|lia].
Qed.

Lemma writes_time d tn t : tagNumber_ok tn -> time_typed t -> 8 <= MaxOctetStringLength lim ->
  writes lim d (fun dst => AppendContextTime dst tn t) [contextElement tn [t_Hour t; t_Minute t; t_Second t; t_Hundredths t]].
Proof using Hlim. intros Htn (H1 & H2 & H3 & H4) Hm. apply writes_context; [done..|solve_bytes|done|len_lia]. Qed.

(** A character string that fits a context primitive. *)
Definition cs_fits (c : CharacterString) : Prop :=
  cs_typed c /\ 1 + len (cs_Value c) <= MaxUint32 /\ 1 + len (cs_Value c) <= MaxOctetStringLength lim.
Lemma writes_character d tn c : tagNumber_ok tn -> cs_fits c ->
  writes lim d (fun dst => AppendContextCharacterString dst tn c) [contextElement tn ([cs_Encoding c] ++ cs_Value c)].
Proof using Hlim. intros Htn ([He Hc] & H1 & H2). apply writes_context; [done..|by apply List.Forall_cons|len_lia|len_lia]. Qed.

Definition bs_fits (b : BitString) : Prop :=
  bs_typed b /\ 1 + len (bs_Bytes b) <= MaxUint32 /\ 1 + len (bs_Bytes b) <= MaxOctetStringLength lim.
Lemma writes_bits d tn b : tagNumber_ok tn -> bs_fits b ->
  writes lim d (fun dst => AppendContextBitString dst tn b) [contextElement tn ([bs_UnusedBits b] ++ bs_Bytes b)].
Proof using Hlim.
  intros Htn ((Hu & He & Hb) & H1 & H2).
  apply (writes_ext lim d (fun dst => appendContextPrimitive dst tn ([bs_UnusedBits b] ++ bs_Bytes b))).
  - intros dst. unfold AppendContextBitString. by rewrite validateBitString_ok.
  - apply writes_context; [done..|apply List.Forall_cons; [unfold is_u; lia|done]|len_lia|len_lia].
Qed.
End Encode.

Lemma ContextBool_encode tn (b : bool) : ContextBool (contextElement tn [if b then 1 else 0]) = Ok b.
Proof. by destruct b. Qed.
Lemma ContextReal_encode tn v : is_u 32 v -> ContextReal (contextElement tn (be_put 4 v)) = Ok v.
Proof.
  intros Hv. unfold ContextReal. rewrite notContextPrimitive_context. av_simpl. rewrite len_be_put. cbn [Z.of_nat Pos.of_succ_nat Pos.succ Z.eqb Pos.eqb negb].
  rewrite Uint_be_put, Z.mod_small by apply Hv. done.
Qed.
Lemma ContextTime_encode tn t : ContextTime (contextElement tn [t_Hour t; t_Minute t; t_Second t; t_Hundredths t]) = Ok t.
Proof. by destruct t. Qed.

(** The whole of a payload parsed by [parseElements]. *)
Lemma newBuffer_parse lim d f es : writes (Normalize lim) d f es ->
  Z.of_nat d <= MaxConstructedDepth (Normalize lim) -> elcounts es <= MaxElements (Normalize lim) ->
  exists bs, newBuffer f = Ok bs /\ bytes_ok bs /\ parseElements bs lim = Ok es.
Proof.
  intros Hw Hd He. destruct (ParseSequence_writes lim d f es Hw Hd He) as (bs & Hf & Hok & Hp).
  exists bs. split_and!; [by apply Hf|done|]. unfold parseElements. rewrite Hp. cbn [bind]. by rewrite Z.eqb_refl.
Qed.

(** ** The contract of a codec *)
Class Codec (A : Type) := {
  encode : A -> result bytes;
  decode : bytes -> DecodeLimits -> result A;
  (** Values the encoder accepts and the limits of the receiver admit. *)
  fits : DecodeLimits -> A -> Prop;
  (** What a decoded value satisfies. *)
  typed : DecodeLimits -> A -> Prop;
  decode_encode lim a : fits lim a -> exists bs, encode a = Ok bs /\ bytes_ok bs /\ decode bs lim = Ok a;
  decode_typed lim bs : bytes_ok bs -> yields (typed lim) (decode bs lim)
}.

Section CodecFacts.
Context {A : Type} `{Codec A}.

Lemma encode_inj (lim : DecodeLimits) (a b : A) : fits lim a -> fits lim b -> encode a = encode b -> a = b.
Proof.
  intros Ha Hb He. destruct (decode_encode lim a Ha) as (x & Ex & _ & Dx), (decode_encode lim b Hb) as (y & Ey & _ & Dy). congruence.
Qed.

Lemma decode_safe (lim : DecodeLimits) (bs : bytes) : bytes_ok bs -> safe (decode (A := A) bs lim).
Proof. intros Hb. by eapply yields_safe, decode_typed. Qed.
End CodecFacts.

(** The two halves of the contract, for an encoder and a decoder given by
    name. *)
Definition roundtrips {A} (enc : A -> result bytes) (dec : bytes -> DecodeLimits -> result A)
    (fit : DecodeLimits -> A -> Prop) : Prop :=
  forall lim a, fit lim a -> exists bs, enc a = Ok bs /\ bytes_ok bs /\ dec bs lim = Ok a.
Definition decodes_typed {A} (dec : bytes -> DecodeLimits -> result A) (ty : DecodeLimits -> A -> Prop) : Prop :=
  forall lim bs, bytes_ok bs -> yields (ty lim) (dec bs lim).

(** ** Property values *)

(** What a propertyValue wrapper holds: one application element is the value
    itself, anything else a constructed value. *)
Definition propertyValue (els : list Element) : ApplicationValue :=
  match els with
  | [e] => if negb (el_Context e) then Clone (el_Value e) else Clone (constructedValue els)
  | _ => Clone (constructedValue els)
  end.

(** A value that reads back as itself from a wrapper, and its elements. *)
Inductive value_fits (lim : DecodeLimits) (d : nat) : ApplicationValue -> list Element -> Prop :=
| vf_primitive v : app_prim lim v -> value_fits lim d v [appElement (AVTagNumber v) v]
| vf_constructed es : Forall (wire_at lim 12 d) es -> (forall e, es = [e] -> el_Context e = true) ->
    value_fits lim d (constructedValue es) es.

Lemma propertyValue_fits lim d v es : value_fits lim d v es -> propertyValue es = v.
Proof.
  intros [w Hw|l Hl Hc]; unfold propertyValue.
  - unfold appElement. cbn [el_Context el_Value negb]. apply Clone_id.
  - destruct l as [|e [|]]; rewrite ?Clone_id; try done. by rewrite (Hc e eq_refl).
Qed.

Lemma writes_value_fits lim d v es : limits_positive lim -> value_fits lim d v es ->
  writes lim d (fun dst => AppendApplicationValue dst v) es.
Proof.
  intros Hlim [w Hw|l Hl _]; [by apply writes_value|]. eapply writes_ext; [|by apply writes_elements]. done.
Qed.

(** A value a decoder may return. *)
Definition value_typed (lim : DecodeLimits) (v : ApplicationValue) : Prop :=
  app_prim lim v \/ exists es, v = constructedValue es /\ Forall (wire lim) es.

Lemma propertyValue_typed lim es : Forall (wire lim) es -> value_typed lim (propertyValue es).
Proof.
  intros Hes. unfold propertyValue.
  assert (value_typed lim (Clone (constructedValue es))) as H by (rewrite Clone_id; right; eauto).
  destruct es as [|e [|]]; [done| |done]. destruct (el_Context e) eqn:E; [done|]. cbn [negb].
  inversion_clear Hes as [|? ? He _]. destruct (wire_application lim e He E) as (tn & v & -> & Hv). left.
  by rewrite Clone_id.
Qed.

(** The limits of the receiver leave room for octet strings of 8 octets (the
    longest integers), [d] levels of nesting and [n] elements. *)
Definition room (lim : DecodeLimits) (d n : Z) : Prop :=
  8 <= MaxOctetStringLength (Normalize lim) /\ d <= MaxConstructedDepth (Normalize lim) /\ n <= MaxElements (Normalize lim).

(** ** Automation *)

Lemma IsContextConstructed_context tn o : IsContextConstructed (contextElement tn o) = false.
Proof. done. Qed.
Lemma IsContextConstructed_constructed tn es : IsContextConstructed (mkElement true tn false false (constructedValue es)) = true.
Proof. done. Qed.
Lemma IsContextConstructed_app tn v : IsContextConstructed (appElement tn v) = false.
Proof. done. Qed.

Lemma el_TagNumber_context tn o : el_TagNumber (contextElement tn o) = tn.
Proof. done. Qed.
Lemma el_TagNumber_app tn v : el_TagNumber (appElement tn v) = tn.
Proof. done. Qed.
Lemma el_TagNumber_constructed tn v : el_TagNumber (mkElement true tn false false v) = tn.
Proof. done. Qed.
Lemma forElements_step {St A} (body : A -> St -> result St) el els st st' : body el st = Ok st' ->
  forElements body (el :: els) st = forElements body els st'.
Proof. intros H. cbn [forElements]. by rewrite H. Qed.

Lemma ContextCharacterString_cons tn c : ContextCharacterString (contextElement tn (cs_Encoding c :: cs_Value c)) = Ok c.
Proof. apply ContextCharacterString_encode. Qed.
Lemma ContextBitString_cons tn b : bs_typed b -> ContextBitString (contextElement tn (bs_UnusedBits b :: bs_Bytes b)) = Ok b.
Proof. intros (Hu & He & _). by apply ContextBitString_encode. Qed.
Lemma av_Elements_constructed es : av_Elements (constructedValue es) = es.
Proof. done. Qed.

Create Rewrite HintDb codec.
#[export] Hint Rewrite av_Elements_constructed ContextCharacterString_cons : codec.
#[export] Hint Rewrite ContextBitString_cons using assumption : codec.
#[export] Hint Rewrite el_TagNumber_context el_TagNumber_app el_TagNumber_constructed : codec.
#[export] Hint Rewrite IsContextConstructed_context IsContextConstructed_constructed IsContextConstructed_app @bind_Ok_l
  ContextBool_encode ContextTime_encode ContextCharacterString_encode : codec.
#[export] Hint Rewrite ContextUnsigned_encode ContextUnsigned32_encode ContextSigned_encode ContextReal_encode
  ContextObjectID_octets ContextBitString_encode narrowU8_id narrowU16_id narrowU32_id narrowS32_id
  using (first [assumption | eassumption | unfold is_u, is_s in *; lia]) : codec.

(** Evaluates comparisons of literals. *)
Ltac is_lit z := lazymatch z with Z0 => idtac | Zpos ?p => is_pos p | Zneg ?p => is_pos p end
with is_pos p := lazymatch p with xH => idtac | xO ?q => is_pos q | xI ?q => is_pos q end.
Ltac lit_tests :=
  repeat match goal with
  | |- context [?a =? ?b] => is_lit a; is_lit b; let v := eval vm_compute in (a =? b) in change (a =? b) with v
  end.

Lemma elcounts_nil : elcounts [] = 0.
Proof. done. Qed.
Lemma elcount_context tn o : elcount (contextElement tn o) = 1.
Proof. done. Qed.
Lemma elcount_primitive lim tn v : app_prim lim v -> elcount (appElement tn v) = 1.
Proof. by intros []. Qed.
Create Rewrite HintDb elc.
#[export] Hint Rewrite elcounts_nil elcounts_cons elcounts_app elcount_context elcount_constructed : elc.
#[export] Hint Rewrite elcount_primitive using eassumption : elc.

(** Side conditions of the encoder lemmas. *)
Ltac codec_side :=
  first
    [ assumption
    | apply Normalize_positive
    | reflexivity
    | solve [unfold tagNumber_ok, tagNumberReserved; lia]
    | solve [unfold is_u, is_s in *; lia]
    | solve [eauto] ].

(** Extended by the files that add an encoder of their own. *)
Ltac writes_hook := fail.

(** Finds the elements an encoder writes. *)
Ltac writes_step :=
  lazymatch goal with
  | |- writes ?l _ (fun dst => appendWrapped ?o _ _ dst) _ => let t := eval vm_compute in (o / 16) in eapply (writes_wrapped l _ t)
  | |- writes ?l _ (fun dst => appendInline ?o _ _ dst) _ => let t := eval vm_compute in (o / 16) in eapply (writes_inline l _ t)
  | |- writes ?l _ (appendWrapped ?o _ _) _ => let t := eval vm_compute in (o / 16) in eapply (writes_wrapped l _ t)
  | |- writes ?l _ (appendInline ?o _ _) _ => let t := eval vm_compute in (o / 16) in eapply (writes_inline l _ t)
  | |- writes _ _ (fun dst => bind _ _) _ => eapply writes_bind
  | |- writes _ _ Ok _ => apply writes_nil
  | |- writes _ _ (fun dst => Ok dst) _ => apply writes_nil
  | |- writes _ _ (fun dst => AppendContextObjectID dst _ _) _ => apply writes_oid
  | |- writes _ _ (fun dst => AppendContextUnsigned dst _ _) _ => apply writes_unsigned
  | |- writes _ _ (fun dst => AppendContextSigned dst _ _) _ => apply writes_signed
  | |- writes _ _ (fun dst => AppendContextBool dst _ _) _ => apply writes_bool
  | |- writes _ _ (fun dst => AppendContextReal dst _ _) _ => apply writes_real
  | |- writes _ _ (fun dst => AppendContextTime dst _ _) _ => apply writes_time
  | |- writes _ _ (fun dst => AppendContextCharacterString dst _ _) _ => apply writes_character
  | |- writes _ _ (fun dst => AppendContextBitString dst _ _) _ => apply writes_bits
  | |- writes _ _ (fun dst => AppendApplicationValue dst _) _ => first [eapply writes_value_fits; [|eassumption] | apply writes_value]
  | |- writes _ _ (fun dst => foldAppend _ dst _) _ => eapply writes_foldAppend; intros ? ?
  | |- writes _ _ _ _ => first [writes_hook | solve [eauto 2]]
  | |- _ => codec_side
  end.

Ltac value_simp :=
  match goal with H : value_fits _ _ _ ?es |- context [propertyValue ?es] => rewrite (propertyValue_fits _ _ _ _ H) end.

(** Extended by the files whose decoders have records of their own. *)
Ltac decode_hook := idtac.

(** Runs a decoder on known elements, one at a time. *)
Ltac decode_simp :=
  repeat (progress (cbn [el_Value el_Context app concat map andb orb negb setOnce overwrite required fst snd bind];
    autorewrite with codec; decode_hook; try value_simp; lit_tests)).
Ltac head_of t := lazymatch t with ?f _ => head_of f | _ => t end.
Ltac decode_element :=
  erewrite forElements_step;
  [|lazymatch goal with |- ?b _ _ = Ok _ => let h := head_of b in try unfold h end; cbv beta iota; decode_simp; reflexivity].
Ltac decode_run := cbn [bind app concat map]; repeat decode_element; cbn [forElements]; decode_simp.

(** The round trip of a codec: [d] is the depth of its elements. *)
Tactic Notation "codec_roundtrip" constr(lim) constr(d) "as" ident(Hp) :=
  lazymatch goal with
  | |- exists bs, newBuffer ?f = Ok bs /\ _ =>
      let bs := fresh "bs" in let Hb := fresh in let Hok := fresh in
      edestruct (newBuffer_parse lim d f) as (bs & Hb & Hok & Hp);
      [ repeat writes_step
      | lia
      | cbn [app concat map]; autorewrite with elc; lia
      | exists bs; split; [exact Hb|split; [exact Hok|]] ]
  end.

(** Follows a decoder for [yields]. *)
Ltac yields_step :=
  lazymatch goal with
  | |- yields _ (Err _) => exact I
  | |- yields _ (Ok _) => cbn [yields]
  | |- yields _ (bind (parseElements _ _) _) => eapply yields_bind; [eapply yields_parseElements; [reflexivity|assumption]|intros ? ?]
  | |- yields _ (bind (setOnce _ _) _) => eapply yields_bind; [eapply yields_setOnce|intros ? ?]
  | |- yields _ (setOnce _ _) => eapply yields_setOnce
  | |- yields _ (bind (overwrite _) _) => eapply yields_bind; [eapply yields_overwrite|intros ? ?]
  | |- yields _ (overwrite _) => eapply yields_overwrite
  | |- yields _ (bind (required _) _) => eapply yields_bind; [by eapply yields_required|intros ? ?]
  | |- yields _ (bind _ _) => eapply yields_bind; [solve [eauto with go]|intros ? ?]
  | |- yields _ (if ?b then _ else _) => let E := fresh "E" in destruct b eqn:E
  | |- yields _ (match ?p with (_, _) => _ end) => destruct p
  | |- yields _ (narrowU32 _) => apply yields_narrowU32; unfold is_u in *; lia
  | |- yields _ (narrowU16 _) => apply yields_narrowU16; unfold is_u in *; lia
  | |- yields _ (narrowU8 _) => apply yields_narrowU8; unfold is_u in *; lia
  | |- yields _ (narrowS32 _) => apply yields_narrowS32
  | |- yields _ _ => solve [eauto with go]
  end.


(** ** Lists built by a decoder *)

(** An update through a pointer to the last item of a list. *)
Fixpoint setLast {A} (f : A -> A) (l : list A) : list A :=
  match l with
  | [] => []
  | [a] => [f a]
  | a :: l => a :: setLast f l
  end.

Lemma setLast_snoc {A} (f : A -> A) l a : setLast f (l ++ [a]) = l ++ [f a].
Proof. induction l as [|b l IH]; [done|]. cbn [app setLast]. rewrite IH. by destruct l. Qed.

Lemma Forall_setLast {A} (P : A -> Prop) f l : Forall P l -> (forall a, last l = Some a -> P a -> P (f a)) -> Forall P (setLast f l).
Proof.
  destruct (decide (l = [])) as [->|Hl]; [done|]. intros H Hf. destruct (exists_last Hl) as (k & a & ->).
  rewrite setLast_snoc. apply Forall_app in H as [H1 H2]. apply Forall_app. split; [done|]. inversion_clear H2.
  apply List.Forall_cons; [|done]. apply Hf; [apply last_snoc|done].
Qed.

Lemma forElements_app {St A} (body : A -> St -> result St) xs ys st :
  forElements body (xs ++ ys) st = let* st := forElements body xs st in forElements body ys st.
Proof. revert st. induction xs as [|x xs IH]; intros st; [done|]. cbn [app forElements]. rewrite bind_assoc. by destruct (body x st); cbn [bind]. Qed.

(** A loop over the elements of a list of items that appends each item. *)
Lemma forElements_items {B A} (body : Element -> list B -> result (list B)) (els : A -> list Element) (f : A -> B) (P : A -> Prop) l :
  (forall a out, P a -> forElements body (els a) out = Ok (out ++ [f a])) -> Forall P l ->
  forall out, forElements body (concat (map els l)) out = Ok (out ++ map f l).
Proof.
  intros Hstep Hl. induction Hl as [|a l Ha Hl IH]; intros out; cbn [map concat]; [by rewrite app_nil_r|].
  rewrite forElements_app, Hstep by done. cbn [bind]. rewrite IH. by rewrite <- app_assoc.
Qed.

(** The elements of a value in a wrapper. *)
Definition valueElements (v : ApplicationValue) : list Element :=
  match av_Kind v with
  | ValueConstructed => av_Elements v
  | _ => [appElement (AVTagNumber v) v]
  end.
Lemma value_fits_elements lim d v es : value_fits lim d v es -> es = valueElements v.
Proof. intros [w Hw|l Hl Hc]; [|done]. by destruct Hw. Qed.
Definition value_ok (lim : DecodeLimits) (d : nat) (v : ApplicationValue) : Prop := value_fits lim d v (valueElements v).

(** Error class and code pairs *)
Definition error_typed (e : Z * Z) : Prop := is_u 16 (fst e) /\ is_u 16 (snd e).

Lemma yields_errorFieldUint lim el : wire lim el -> yields (is_u 16) (errorFieldUint el).
Proof.
  intros Hw. assert (forall u, yields (is_u 16) (if u >? 0xFFFF then Err ErrMalformed else Ok (u16 u))) as H.
  { intros u. destruct (_ >? _); [done|]. by apply uwrap_range. }
  unfold errorFieldUint. cbv zeta. destruct (av_Kind (el_Value el)); try apply H;
    (destruct (el_Context el); [|done]; eapply yields_bind; [by eapply yields_ContextUnsigned|]; intros u _; apply H).
Qed.

Lemma yields_DecodeBACnetError lim els : Forall (wire lim) els -> yields error_typed (DecodeBACnetError els).
Proof.
  intros Hw. unfold DecodeBACnetError. repeat (destruct (_ : bool); [try done|]); try done.
  - unfold decodeBACnetErrorContext.
    assert (forall class code, optP (is_u 16) class -> optP (is_u 16) code ->
      yields (fun '(a, b) => optP (is_u 16) a /\ optP (is_u 16) b) (errorContextLoop els class code)) as H.
    { induction Hw as [|el els Hel Hels IH]; intros class code Hc Hd; [done|]. cbn [errorContextLoop].
      eapply yields_bind; [by eapply yields_errorFieldUint|]. intros u Hu.
      destruct (_ =? 0); [destruct class; [done|]; apply IH; [by apply optP_Some|done]|].
      destruct (_ =? 1); [destruct code; [done|]; apply IH; [done|by apply optP_Some]|done]. }
    eapply yields_bind; [by apply H|]. intros [[a|] [b|]] [Ha Hb]; try done. split; [by apply Ha|by apply Hb].
  - unfold decodeBACnetErrorApplication. destruct (negb _) eqn:El; [done|]. bool_to_prop.
    destruct els as [|e0 [|e1 [|]]]; try len_lia. rewrite index_0, index_1. cbn [bind].
    inversion_clear Hw as [|? ? H0 Hw1]. inversion_clear Hw1 as [|? ? H1 _].
    eapply yields_bind; [by eapply yields_errorFieldUint|]. intros a Ha.
    eapply yields_bind; [by eapply yields_errorFieldUint|]. intros b Hb. done.
Qed.
#[export] Hint Resolve yields_DecodeBACnetError : go.

Lemma parseElements_nil lim : parseElements [] lim = Ok [].
Proof.
  unfold parseElements, ParseSequence, parseSequence, enterSequence. cbv zeta.
  pose proof (Normalize_positive lim) as (_ & _ & Hd & _). by decide_test; decide_test.
Qed.

(** Accessors of values of a known kind *)
Lemma AsObjectID_value id : AsObjectID (ObjectIDValue id) = Ok id.
Proof. done. Qed.
Lemma AsEnumerated_value e : AsEnumerated (EnumValue e) = Ok e.
Proof. done. Qed.
Lemma AsUnsigned_value u : AsUnsigned (UnsignedValue u) = Ok u.
Proof. done. Qed.
Lemma kind_same (k : ValueKind) : bool_decide (k <> k) = false.
Proof. apply bool_decide_eq_false_2. auto. Qed.
#[export] Hint Rewrite AsObjectID_value AsEnumerated_value AsUnsigned_value kind_same : codec.

Lemma yields_AsObjectID lim v : app_prim lim v -> yields oid_ok (AsObjectID v).
Proof. intros []; by unfold AsObjectID. Qed.
Lemma yields_AsEnumerated lim v : app_prim lim v -> yields (is_u 32) (AsEnumerated v).
Proof. intros []; by unfold AsEnumerated. Qed.
Lemma yields_AsUnsigned lim v : app_prim lim v -> yields (is_u 64) (AsUnsigned v).
Proof. intros []; try done. by apply (is_u_mono 32 64). Qed.
