(* ===== verification/Access.v ===== *)
(** * Property access services: [service/read_property.go],
    [service/write_property.go], [service/read_property_multiple.go],
    [service/write_property_multiple.go], [service/server_codecs.go] and the
    property references of [property.go].

    Each request or answer is a record with its encoder, its decoder and a
    [Codec] instance that proves the round trip and the well-formedness of
    what is decoded. *)

From Stdlib Require Import ZArith Lia.
From stdpp Require Import base list.
From S2P Require Import Prelude Value Tags Constructed Writer Codec.

(** ** property.go *)
Record PropertyReference := mkPropertyReference { pr_Identifier : Z; pr_ArrayIndex : option Z }.
#[global] Instance PropertyReference_eq_dec : EqDecision PropertyReference.
Proof. solve_decision. Defined.

(** [PropertyReference.Equal] *)
Definition PropertyReferenceEqual (p o : PropertyReference) : bool :=
  if negb (pr_Identifier p =? pr_Identifier o) then false
  else
    match pr_ArrayIndex p, pr_ArrayIndex o with
    | None, None => true
    | Some a, Some b => a =? b
    | _, _ => false
    end.

Definition ref_ok (r : PropertyReference) : Prop := is_u 32 (pr_Identifier r) /\ optP (is_u 32) (pr_ArrayIndex r).

(** [uint32(u)] of an unsigned that was checked against 0xFFFFFFFF. *)
Definition checkedUnsigned32 (el : Element) : result Z := let* u := ContextUnsigned el in narrowU32 u.

Lemma yields_checkedUnsigned32 lim el : wire lim el -> yields (is_u 32) (checkedUnsigned32 el).
Proof. intros. unfold checkedUnsigned32. repeat yields_step. Qed.
#[export] Hint Resolve yields_checkedUnsigned32 : go.
Lemma checkedUnsigned32_encode tn u : is_u 32 u -> checkedUnsigned32 (contextElement tn (encodeUnsigned u)) = Ok u.
Proof. intros. unfold checkedUnsigned32. by decode_simp. Qed.
#[export] Hint Rewrite checkedUnsigned32_encode using assumption : codec.

(** ** service/read_property.go *)
Record ReadPropertyRequest := mkReadProperty { rp_Object : ObjectIdentifier; rp_Property : PropertyReference }.

Definition EncodeReadProperty (req : ReadPropertyRequest) : result bytes :=
  newBuffer (fun dst =>
    let* dst := AppendContextObjectID dst 0 (rp_Object req) in
    let* dst := AppendContextUnsigned dst 1 (pr_Identifier (rp_Property req)) in
    match pr_ArrayIndex (rp_Property req) with
    | Some i => AppendContextUnsigned dst 2 i
    | None => Ok dst
    end).

(** The loop body; its state is the object, property and array index read so
    far. *)
Definition readPropertyField (el : Element) (st : option ObjectIdentifier * option Z * option Z) :
    result (option ObjectIdentifier * option Z * option Z) :=
  let '(obj, prop, index) := st in
  if el_TagNumber el =? 0 then
    let* obj := setOnce obj (ContextObjectID el) in Ok (obj, prop, index)
  else if el_TagNumber el =? 1 then
    let* prop := setOnce prop (checkedUnsigned32 el) in Ok (obj, prop, index)
  else if el_TagNumber el =? 2 then
    let* index := setOnce index (checkedUnsigned32 el) in Ok (obj, prop, index)
  else Err ErrMalformed.

Definition DecodeReadProperty (payload : bytes) (limits : DecodeLimits) : result ReadPropertyRequest :=
  let* elements := parseElements payload limits in
  let* (obj, prop, index) := forElements readPropertyField elements (None, None, None) in
  let* obj := required obj in
  let* prop := required prop in
  Ok (mkReadProperty obj (mkPropertyReference prop index)).

#[export] Program Instance ReadProperty_Codec : Codec ReadPropertyRequest := {|
  encode := EncodeReadProperty;
  decode := DecodeReadProperty;
  fits lim req := room lim 0 3 /\ oid_ok (rp_Object req) /\ ref_ok (rp_Property req);
  typed _ req := oid_ok (rp_Object req) /\ ref_ok (rp_Property req)
|}.
Next Obligation.
  intros lim [obj [pid [idx|]]] ((Hm & Hd & He) & Ho & Hp & Hi); cbn [rp_Object rp_Property pr_Identifier pr_ArrayIndex] in *;
    unfold EncodeReadProperty; cbn [rp_Object rp_Property pr_Identifier pr_ArrayIndex]; rewrite ?optP_Some in Hi;
    codec_roundtrip lim 0%nat as Hparse; unfold DecodeReadProperty; rewrite Hparse; by decode_run.
Qed.
Next Obligation.
  intros lim bs Hb. unfold DecodeReadProperty. yields_step.
  eapply yields_bind; [eapply (yields_forElements (fun '(obj, prop, index) => optP oid_ok obj /\ optP (is_u 32) prop /\ optP (is_u 32) index))|].
  - intros el [[obj prop] index] Hel (H1 & H2 & H3). unfold readPropertyField. repeat yields_step; done.
  - eassumption.
  - done.
  - intros [[obj prop] index] (H1 & H2 & H3). repeat yields_step. done.
Qed.

(** ReadProperty-ACK *)
Record ReadPropertyACK := mkReadPropertyACK { ra_Object : ObjectIdentifier; ra_Property : PropertyReference; ra_Value : ApplicationValue }.

Definition EncodeReadPropertyACK (ack : ReadPropertyACK) : result bytes :=
  newBuffer (fun dst =>
    let* dst := AppendContextObjectID dst 0 (ra_Object ack) in
    let* dst := AppendContextUnsigned dst 1 (pr_Identifier (ra_Property ack)) in
    let* dst :=
      match pr_ArrayIndex (ra_Property ack) with
      | Some i => AppendContextUnsigned dst 2 i
      | None => Ok dst
      end in
    appendWrapped 0x3E 0x3F (fun body => AppendApplicationValue body (ra_Value ack)) dst).

Definition readPropertyACKField (el : Element) (st : option ObjectIdentifier * option Z * option Z * option ApplicationValue) :
    result (option ObjectIdentifier * option Z * option Z * option ApplicationValue) :=
  let '(obj, prop, index, value) := st in
  if (el_TagNumber el =? 0) && negb (IsContextConstructed el) then
    let* obj := setOnce obj (ContextObjectID el) in Ok (obj, prop, index, value)
  else if (el_TagNumber el =? 1) && negb (IsContextConstructed el) then
    let* prop := setOnce prop (ContextUnsigned32 el) in Ok (obj, prop, index, value)
  else if (el_TagNumber el =? 2) && negb (IsContextConstructed el) then
    let* index := setOnce index (ContextUnsigned32 el) in Ok (obj, prop, index, value)
  else if (el_TagNumber el =? 3) && IsContextConstructed el then
    let* value := setOnce value (Ok (propertyValue (av_Elements (el_Value el)))) in Ok (obj, prop, index, value)
  else Err ErrMalformed.

Definition DecodeReadPropertyACK (payload : bytes) (limits : DecodeLimits) : result ReadPropertyACK :=
  let* elements := parseElements payload limits in
  let* (obj, prop, index, value) := forElements readPropertyACKField elements (None, None, None, None) in
  let* obj := required obj in
  let* prop := required prop in
  let* value := required value in
  Ok (mkReadPropertyACK obj (mkPropertyReference prop index) value).

Lemma yields_propertyValue lim el : wire lim el -> IsContextConstructed el = true ->
  yields (value_typed lim) (Ok (propertyValue (av_Elements (el_Value el)))).
Proof. intros Hw Hc. apply propertyValue_typed. by apply yields_inner. Qed.

#[export] Program Instance ReadPropertyACK_Codec : Codec ReadPropertyACK := {|
  encode := EncodeReadPropertyACK;
  decode := DecodeReadPropertyACK;
  fits lim ack := oid_ok (ra_Object ack) /\ ref_ok (ra_Property ack) /\ exists d es, value_fits (Normalize lim) d (ra_Value ack) es /\
    room lim (1 + Z.of_nat d) (4 + elcounts es);
  typed lim ack := oid_ok (ra_Object ack) /\ ref_ok (ra_Property ack) /\ value_typed (Normalize lim) (ra_Value ack)
|}.
Next Obligation.
  intros lim [obj [pid [idx|]] v] (Ho & [Hp Hi] & d & es & Hv & Hm & Hd & He);
    cbn [ra_Object ra_Property ra_Value pr_Identifier pr_ArrayIndex] in *;
    unfold EncodeReadPropertyACK; cbn [ra_Object ra_Property ra_Value pr_Identifier pr_ArrayIndex]; rewrite ?optP_Some in Hi;
    codec_roundtrip lim (S d) as Hparse; unfold DecodeReadPropertyACK; rewrite Hparse; by decode_run.
Qed.
Next Obligation.
  intros lim bs Hb. unfold DecodeReadPropertyACK. yields_step.
  eapply yields_bind; [eapply (yields_forElements (fun '(obj, prop, index, value) =>
    optP oid_ok obj /\ optP (is_u 32) prop /\ optP (is_u 32) index /\ optP (value_typed (Normalize lim)) value)); [|eassumption|done]|].
  - intros el [[[obj prop] index] value] Hel (H1 & H2 & H3 & H4). unfold readPropertyACKField. repeat yields_step; try done.
    apply andb_true_iff in E2 as [_ E2]. by apply yields_propertyValue.
  - intros [[[obj prop] index] value] (H1 & H2 & H3 & H4). repeat yields_step. done.
Qed.

(** ** service/write_property.go *)
Record WritePropertyRequest := mkWriteProperty {
  wp_Object : ObjectIdentifier; wp_Property : PropertyReference; wp_Value : ApplicationValue; wp_Priority : option Z }.

Definition appendPriority (tn : Z) (prio : option Z) (dst : bytes) : result bytes :=
  match prio with
  | Some p => if (p <? 1) || (p >? 16) then Err ErrMalformed else AppendContextUnsigned dst tn p
  | None => Ok dst
  end.

Definition EncodeWriteProperty (req : WritePropertyRequest) : result bytes :=
  newBuffer (fun dst =>
    let* dst := AppendContextObjectID dst 0 (wp_Object req) in
    let* dst := AppendContextUnsigned dst 1 (pr_Identifier (wp_Property req)) in
    let* dst :=
      match pr_ArrayIndex (wp_Property req) with
      | Some i => AppendContextUnsigned dst 2 i
      | None => Ok dst
      end in
    let* dst := appendWrapped 0x3E 0x3F (fun body => AppendApplicationValue body (wp_Value req)) dst in
    appendPriority 4 (wp_Priority req) dst).

(** A priority: 1 to 16, at most once. *)
Definition decodePriority (prio : option Z) (el : Element) : result (option Z) :=
  let* u := ContextUnsigned el in
  if (u <? 1) || (u >? 16) then Err ErrMalformed else setOnce prio (Ok (u8 u)).

Definition writePropertyField (el : Element) (st : option ObjectIdentifier * option Z * option Z * option ApplicationValue * option Z) :
    result (option ObjectIdentifier * option Z * option Z * option ApplicationValue * option Z) :=
  let '(obj, prop, index, value, prio) := st in
  if (el_TagNumber el =? 0) && negb (IsContextConstructed el) then
    let* obj := setOnce obj (ContextObjectID el) in Ok (obj, prop, index, value, prio)
  else if (el_TagNumber el =? 1) && negb (IsContextConstructed el) then
    let* prop := setOnce prop (ContextUnsigned32 el) in Ok (obj, prop, index, value, prio)
  else if (el_TagNumber el =? 2) && negb (IsContextConstructed el) then
    let* index := setOnce index (ContextUnsigned32 el) in Ok (obj, prop, index, value, prio)
  else if (el_TagNumber el =? 3) && IsContextConstructed el then
    let* value := setOnce value (Ok (propertyValue (av_Elements (el_Value el)))) in Ok (obj, prop, index, value, prio)
  else if (el_TagNumber el =? 4) && negb (IsContextConstructed el) then
    let* prio := decodePriority prio el in Ok (obj, prop, index, value, prio)
  else Err ErrMalformed.

Definition DecodeWriteProperty (payload : bytes) (limits : DecodeLimits) : result WritePropertyRequest :=
  let* elements := parseElements payload limits in
  let* (obj, prop, index, value, prio) := forElements writePropertyField elements (None, None, None, None, None) in
  let* obj := required obj in
  let* prop := required prop in
  let* value := required value in
  Ok (mkWriteProperty obj (mkPropertyReference prop index) value prio).

Definition prio_ok (p : Z) : Prop := 1 <= p <= 16.

Lemma yields_decodePriority lim prio el : wire lim el -> optP prio_ok prio -> yields (optP prio_ok) (decodePriority prio el).
Proof.
  intros Hw Hp. unfold decodePriority. repeat yields_step. apply orb_false_iff in E as [E1 E2]. bool_to_prop.
  unfold prio_ok, is_u in *. rewrite uwrap_small; [lia|unfold is_u; lia].
Qed.
#[export] Hint Resolve yields_decodePriority : go.

Lemma decodePriority_encode tn p : prio_ok p -> decodePriority None (contextElement tn (encodeUnsigned p)) = Ok (Some p).
Proof.
  unfold prio_ok. intros Hp. unfold decodePriority. rewrite ContextUnsigned_encode by (unfold is_u; lia).
  cbn [bind setOnce]. rewrite uwrap_small by (unfold is_u; lia). by decide_tests.
Qed.
#[export] Hint Rewrite decodePriority_encode using assumption : codec.

Lemma writes_priority lim d tn p : limits_positive lim -> tagNumber_ok tn -> prio_ok p -> 8 <= MaxOctetStringLength lim ->
  writes lim d (fun dst => appendPriority tn (Some p) dst) [contextElement tn (encodeUnsigned p)].
Proof.
  intros Hlim Htn Hp Hm. unfold prio_ok in Hp. eapply writes_ext; [|apply (writes_unsigned lim Hlim d tn p); [done|unfold is_u; lia|done]].
  intros dst. unfold appendPriority. by decide_tests.
Qed.
Lemma writes_no_priority lim d tn : writes lim d (fun dst => appendPriority tn None dst) [].
Proof. apply writes_nil. Qed.
Ltac writes_hook ::=
  lazymatch goal with
  | |- writes _ _ (fun dst => appendPriority _ (Some _) dst) _ => apply writes_priority
  | |- writes _ _ (fun dst => appendPriority _ None dst) _ => apply writes_no_priority
  | |- writes _ _ (appendPriority _ (Some _)) _ => apply writes_priority
  | |- writes _ _ (appendPriority _ None) _ => apply writes_no_priority
  end.

#[export] Program Instance WriteProperty_Codec : Codec WritePropertyRequest := {|
  encode := EncodeWriteProperty;
  decode := DecodeWriteProperty;
  fits lim req := oid_ok (wp_Object req) /\ ref_ok (wp_Property req) /\ optP prio_ok (wp_Priority req) /\
    exists d es, value_fits (Normalize lim) d (wp_Value req) es /\ room lim (1 + Z.of_nat d) (5 + elcounts es);
  typed lim req := oid_ok (wp_Object req) /\ ref_ok (wp_Property req) /\ optP prio_ok (wp_Priority req) /\
    value_typed (Normalize lim) (wp_Value req)
|}.
Next Obligation.
  intros lim [obj [pid idx] v prio] (Ho & [Hp Hi] & Hpr & d & es & Hv & Hm & Hd & He);
    cbn [wp_Object wp_Property wp_Value wp_Priority pr_Identifier pr_ArrayIndex] in *;
    unfold EncodeWriteProperty; cbn [wp_Object wp_Property wp_Value wp_Priority pr_Identifier pr_ArrayIndex];
    destruct idx as [idx|], prio as [p|]; rewrite ?optP_Some in *;
    codec_roundtrip lim (S d) as Hparse; unfold DecodeWriteProperty; rewrite Hparse; by decode_run.
Qed.
Next Obligation.
  intros lim bs Hb. unfold DecodeWriteProperty. yields_step.
  eapply yields_bind; [eapply (yields_forElements (fun '(obj, prop, index, value, prio) =>
    optP oid_ok obj /\ optP (is_u 32) prop /\ optP (is_u 32) index /\ optP (value_typed (Normalize lim)) value /\ optP prio_ok prio));
    [|eassumption|done]|].
  - intros el [[[[obj prop] index] value] prio] Hel (H1 & H2 & H3 & H4 & H5). unfold writePropertyField. repeat yields_step; try done.
    apply andb_true_iff in E2 as [_ E2]. by apply yields_propertyValue.
  - intros [[[[obj prop] index] value] prio] (H1 & H2 & H3 & H4 & H5). repeat yields_step. done.
Qed.

(** ** service/read_property_multiple.go: the request *)
Record ReadAccessSpecification := mkReadAccess { rs_Object : ObjectIdentifier; rs_Properties : list PropertyReference }.

Definition appendPropertyReference (dst : bytes) (p : PropertyReference) : result bytes :=
  let* dst := AppendContextUnsigned dst 0 (pr_Identifier p) in
  match pr_ArrayIndex p with
  | Some i => AppendContextUnsigned dst 1 i
  | None => Ok dst
  end.

Definition appendReadAccess (dst : bytes) (spec : ReadAccessSpecification) : result bytes :=
  let* dst := AppendContextObjectID dst 0 (rs_Object spec) in
  appendInline 0x1E 0x1F (fun dst => foldAppend appendPropertyReference dst (rs_Properties spec)) dst.

Definition EncodeReadPropertyMultiple (specs : list ReadAccessSpecification) : result bytes :=
  newBuffer (fun dst => foldAppend appendReadAccess dst specs).

(** [decodePropertyReferences]: the loop body and the function. *)
Definition propertyReferenceField (el : Element) (out : list PropertyReference) : result (list PropertyReference) :=
  if IsContextConstructed el || negb (el_Context el) then Err ErrMalformed
  else if el_TagNumber el =? 0 then
    let* u := ContextUnsigned32 el in Ok (out ++ [mkPropertyReference u None])
  else if el_TagNumber el =? 1 then
    match last out with
    | None | Some {| pr_ArrayIndex := Some _ |} => Err ErrMalformed
    | Some {| pr_ArrayIndex := None |} =>
        let* u := ContextUnsigned32 el in
        Ok (setLast (fun r => mkPropertyReference (pr_Identifier r) (Some u)) out)
    end
  else Err ErrMalformed.

Definition decodePropertyReferences (elements : list Element) : result (list PropertyReference) :=
  let* out := forElements propertyReferenceField elements [] in
  if len out =? 0 then Err ErrMalformed else Ok out.

(** The loop of [DecodeReadPropertyMultiple]: the specifications so far
    ([cur] points at the last) and [haveProps]. *)
Definition readAccessField (el : Element) (st : list ReadAccessSpecification * bool) : result (list ReadAccessSpecification * bool) :=
  let '(specs, haveProps) := st in
  if (el_TagNumber el =? 0) && negb (IsContextConstructed el) then
    if negb (len specs =? 0) && negb haveProps then Err ErrMalformed
    else
      let* id := ContextObjectID el in
      Ok (specs ++ [mkReadAccess id []], false)
  else if (el_TagNumber el =? 1) && IsContextConstructed el then
    if len specs =? 0 then Err ErrMalformed
    else if haveProps then Err ErrMalformed
    else
      let* refs := decodePropertyReferences (av_Elements (el_Value el)) in
      Ok (setLast (fun s => mkReadAccess (rs_Object s) refs) specs, true)
  else Err ErrMalformed.

Definition DecodeReadPropertyMultiple (payload : bytes) (limits : DecodeLimits) : result (list ReadAccessSpecification) :=
  let* elements := parseElements payload limits in
  let* (specs, haveProps) := forElements readAccessField elements ([], false) in
  if len specs =? 0 then Err ErrMalformed
  else if negb haveProps then Err ErrMalformed
  else Ok specs.

Definition refElements (r : PropertyReference) : list Element :=
  [contextElement 0 (encodeUnsigned (pr_Identifier r))] ++
  match pr_ArrayIndex r with Some i => [contextElement 1 (encodeUnsigned i)] | None => [] end.

Lemma writes_ref lim d r : limits_positive lim -> ref_ok r -> 8 <= MaxOctetStringLength lim ->
  writes lim d (fun dst => appendPropertyReference dst r) (refElements r).
Proof.
  destruct r as [p [i|]]; intros Hlim [Hp Hi] Hm; cbn [pr_Identifier pr_ArrayIndex] in *; rewrite ?optP_Some in Hi;
    unfold appendPropertyReference, refElements; cbn [pr_Identifier pr_ArrayIndex]; repeat writes_step.
Qed.

Lemma propertyReferenceField_item r out : ref_ok r -> forElements propertyReferenceField (refElements r) out = Ok (out ++ [r]).
Proof.
  destruct r as [p [i|]]; intros [Hp Hi]; cbn [pr_Identifier pr_ArrayIndex] in *; rewrite ?optP_Some in Hi;
    unfold refElements; cbn [pr_Identifier pr_ArrayIndex]; cbn [app].
  - decode_element. cbn [forElements]. unfold propertyReferenceField. decode_simp. cbn [contextElement el_Context negb orb].
    rewrite last_snoc. decode_simp. by rewrite setLast_snoc.
  - by decode_run.
Qed.

Lemma decodePropertyReferences_encode refs : refs <> [] -> Forall ref_ok refs ->
  decodePropertyReferences (concat (map refElements refs)) = Ok refs.
Proof.
  intros Hne Hr. unfold decodePropertyReferences.
  rewrite (forElements_items propertyReferenceField refElements id ref_ok) by (done || apply propertyReferenceField_item).
  cbn [bind app]. rewrite map_id. destruct refs; [done|]. by decide_test.
Qed.

Definition readAccessElements (s : ReadAccessSpecification) : list Element :=
  [contextElement 0 (oidOctets (rs_Object s));
   mkElement true 1 false false (constructedValue (concat (map refElements (rs_Properties s))))].

Definition readAccess_ok (s : ReadAccessSpecification) : Prop :=
  oid_ok (rs_Object s) /\ rs_Properties s <> [] /\ Forall ref_ok (rs_Properties s).

Lemma readAccessField_item s specs h : readAccess_ok s -> (specs <> [] -> h = true) ->
  forElements readAccessField (readAccessElements s) (specs, h) = Ok (specs ++ [s], true).
Proof.
  destruct s as [obj refs]. intros (Ho & Hne & Hr) Hh; cbn [rs_Object rs_Properties] in *. unfold readAccessElements; cbn [rs_Object rs_Properties].
  erewrite forElements_step.
  2:{ unfold readAccessField. decode_simp.
      assert (negb (len specs =? 0) && negb h = false) as ->; [|reflexivity].
      destruct specs as [|x specs]; [done|]. rewrite Hh by done. apply andb_false_r. }
  erewrite forElements_step; [done|]. unfold readAccessField. decode_simp.
  decide_test. rewrite decodePropertyReferences_encode by done. cbn [bind]. by rewrite setLast_snoc.
Qed.

Lemma readAccessField_items l : Forall readAccess_ok l -> forall specs h, (specs <> [] -> h = true) ->
  forElements readAccessField (concat (map readAccessElements l)) (specs, h) = Ok (specs ++ l, match l with [] => h | _ => true end).
Proof.
  induction 1 as [|s l Hs Hl IH]; intros specs h Hh; cbn [map concat forElements]; [by rewrite app_nil_r|].
  rewrite forElements_app, readAccessField_item by done. cbn [bind]. rewrite IH by done. rewrite <- app_assoc. by destruct l.
Qed.

Lemma writes_refs lim d refs : limits_positive lim -> Forall ref_ok refs -> 8 <= MaxOctetStringLength lim ->
  writes lim d (fun dst => foldAppend appendPropertyReference dst refs) (concat (map refElements refs)).
Proof. intros Hlim Hr Hm. apply writes_foldAppend. intros r Hin. apply writes_ref; [done| |done]. by eapply Forall_forall in Hr. Qed.

Lemma writes_readAccess lim d s : limits_positive lim -> readAccess_ok s -> 8 <= MaxOctetStringLength lim ->
  writes lim (S d) (fun dst => appendReadAccess dst s) (readAccessElements s).
Proof.
  intros Hlim (Ho & _ & Hr) Hm. unfold appendReadAccess, readAccessElements.
  change ([?a; ?b]) with ([a] ++ [b]). eapply writes_bind; [by apply writes_oid|].
  eapply (writes_inline lim d 1); [done..|]. by apply writes_refs.
Qed.

Lemma yields_decodePropertyReferences lim els : Forall (wire lim) els ->
  yields (fun refs => refs <> [] /\ Forall ref_ok refs) (decodePropertyReferences els).
Proof.
  intros Hw. unfold decodePropertyReferences. eapply yields_bind; [eapply (yields_forElements (Forall ref_ok)); [|exact Hw|done]|].
  - intros el out Hel Hout. unfold propertyReferenceField. repeat yields_step.
    + apply Forall_app. split; [done|]. by apply Forall_singleton.
    + destruct (last out) as [[p [i|]]|] eqn:El; cbn [yields]; [done| |done]. repeat yields_step.
      apply Forall_setLast; [done|]. intros r Hr [Hp _]. split; [done|]. by apply optP_Some.
  - intros out Hout. repeat yields_step. split; [|done]. by intros ->.
Qed.

(** The specifications read so far: complete, but for the last one when its
    list of properties is still missing. *)
Definition readAccess_state (st : list ReadAccessSpecification * bool) : Prop :=
  let '(specs, h) := st in
  if h then specs <> [] /\ Forall readAccess_ok specs
  else specs = [] \/ exists k a, specs = k ++ [mkReadAccess a []] /\ oid_ok a /\ Forall readAccess_ok k.

Lemma yields_readAccessField lim el st : wire lim el -> readAccess_state st -> yields readAccess_state (readAccessField el st).
Proof.
  intros Hel. destruct st as [specs h]. cbn [readAccess_state]. intros Hst. unfold readAccessField. repeat yields_step; try done.
  - right. exists specs, a. split_and!; [done..|]. destruct h; [by destruct Hst|].
    destruct Hst as [->|(k & b & -> & _)]; [done|]. exfalso. apply andb_false_iff in E0 as [E0|E0]; [|done].
    apply negb_false_iff in E0. bool_to_prop. len_lia.
  - apply andb_true_iff in E0 as [_ Ec].
    eapply yields_bind; [by eapply yields_decodePropertyReferences, yields_inner|]. intros refs [Hne Hr]. cbn [yields readAccess_state].
    destruct Hst as [->|(k & b & -> & Hb & Hk)]; [done|]. rewrite setLast_snoc. split; [by destruct k|].
    apply Forall_app. split; [done|]. by apply Forall_singleton.
Qed.

#[export] Program Instance ReadPropertyMultiple_Codec : Codec (list ReadAccessSpecification) := {|
  encode := EncodeReadPropertyMultiple;
  decode := DecodeReadPropertyMultiple;
  fits lim specs := specs <> [] /\ Forall readAccess_ok specs /\ room lim 1 (elcounts (concat (map readAccessElements specs)));
  typed _ specs := specs <> [] /\ Forall readAccess_ok specs
|}.
Next Obligation.
  intros lim specs (Hne & Hs & Hm & Hd & He). unfold EncodeReadPropertyMultiple.
  destruct (newBuffer_parse lim 1 (fun dst => foldAppend appendReadAccess dst specs) (concat (map readAccessElements specs)))
    as (bs & Hb & Hok & Hp); [|lia|done|].
  { apply writes_foldAppend. intros s Hin. apply writes_readAccess; [apply Normalize_positive| |done]. by eapply Forall_forall in Hs. }
  exists bs. split_and!; [done..|]. unfold DecodeReadPropertyMultiple. rewrite Hp. cbn [bind].
  rewrite readAccessField_items by done. cbn [bind app]. destruct specs; [done|]. by decide_test.
Qed.
Next Obligation.
  intros lim bs Hb. unfold DecodeReadPropertyMultiple. yields_step.
  eapply yields_bind; [eapply (yields_forElements readAccess_state); [apply yields_readAccessField|eassumption|by left]|].
  intros [specs h] Hst. repeat yields_step. by apply negb_false_iff in E0 as ->.
Qed.
