(* ===== verification/AccessMultiple.v ===== *)
(** * ReadPropertyMultiple-ACK, WritePropertyMultiple and its Error:
    [service/read_property_multiple.go], [service/write_property_multiple.go].

    The decoders of these lists collect one item at a time and [flush] it when
    the next one begins. *)

From Stdlib Require Import ZArith Lia.
From stdpp Require Import base list.
From S2P Require Import Prelude Value Tags Constructed Writer Codec Apdu Access.

(** ** ReadPropertyMultiple-ACK *)

(** [Err], when set, is an error class and code. *)
Record PropertyResult := mkPropertyResult { prs_Property : PropertyReference; prs_Value : ApplicationValue; prs_Err : option (Z * Z) }.
Record ReadAccessResult := mkReadAccessResult { rr_Object : ObjectIdentifier; rr_Properties : list PropertyResult }.

Definition appendPropertyResult (dst : bytes) (p : PropertyResult) : result bytes :=
  let* dst := AppendContextUnsigned dst 2 (pr_Identifier (prs_Property p)) in
  let* dst :=
    match pr_ArrayIndex (prs_Property p) with
    | Some i => AppendContextUnsigned dst 3 i
    | None => Ok dst
    end in
  match prs_Err p with
  | Some (class, code) => appendInline 0x5E 0x5F (fun dst => EncodeBACnetError dst class code) dst
  | None => appendInline 0x4E 0x4F (fun dst => AppendApplicationValue dst (prs_Value p)) dst
  end.

Definition appendReadAccessResult (dst : bytes) (r : ReadAccessResult) : result bytes :=
  let* dst := AppendContextObjectID dst 0 (rr_Object r) in
  appendInline 0x1E 0x1F (fun dst => foldAppend appendPropertyResult dst (rr_Properties r)) dst.

Definition EncodeReadPropertyMultipleACK (results : list ReadAccessResult) : result bytes :=
  newBuffer (fun dst => foldAppend appendReadAccessResult dst results).

(** The state of [decodeRPMPropertyResults]. *)
Record rpmState := mkRpm { rpm_out : list PropertyResult; rpm_cur : PropertyResult; rpm_haveProp : bool; rpm_haveOutcome : bool }.
Definition zeroResult : PropertyResult := mkPropertyResult (mkPropertyReference 0 None) NullValue None.
Definition rpmFlush (st : rpmState) : result rpmState :=
  if negb (rpm_haveProp st) then Ok st
  else if negb (rpm_haveOutcome st) then Err ErrMalformed
  else Ok (mkRpm (rpm_out st ++ [rpm_cur st]) zeroResult false false).

Definition rpmField (el : Element) (st : rpmState) : result rpmState :=
  if (el_TagNumber el =? 2) && negb (IsContextConstructed el) then
    let* st := rpmFlush st in
    let* u := ContextUnsigned32 el in
    let c := rpm_cur st in
    Ok (mkRpm (rpm_out st) (mkPropertyResult (mkPropertyReference u (pr_ArrayIndex (prs_Property c))) (prs_Value c) (prs_Err c)) true (rpm_haveOutcome st))
  else if (el_TagNumber el =? 3) && negb (IsContextConstructed el) then
    if negb (rpm_haveProp st) then Err ErrMalformed
    else
      let* idx := ContextUnsigned32 el in
      let c := rpm_cur st in
      Ok (mkRpm (rpm_out st) (mkPropertyResult (mkPropertyReference (pr_Identifier (prs_Property c)) (Some idx)) (prs_Value c) (prs_Err c)) true (rpm_haveOutcome st))
  else if (el_TagNumber el =? 4) && IsContextConstructed el then
    if negb (rpm_haveProp st) then Err ErrMalformed
    else if rpm_haveOutcome st then Err ErrMalformed
    else
      let c := rpm_cur st in
      Ok (mkRpm (rpm_out st) (mkPropertyResult (prs_Property c) (propertyValue (av_Elements (el_Value el))) (prs_Err c)) true true)
  else if (el_TagNumber el =? 5) && IsContextConstructed el then
    if negb (rpm_haveProp st) then Err ErrMalformed
    else if rpm_haveOutcome st then Err ErrMalformed
    else
      let* (class, code) := DecodeBACnetError (av_Elements (el_Value el)) in
      let c := rpm_cur st in
      Ok (mkRpm (rpm_out st) (mkPropertyResult (prs_Property c) (prs_Value c) (Some (class, code))) true true)
  else Err ErrMalformed.

Definition decodeRPMPropertyResults (elements : list Element) : result (list PropertyResult) :=
  let* st := forElements rpmField elements (mkRpm [] zeroResult false false) in
  let* st := rpmFlush st in
  Ok (rpm_out st).

Definition readAccessResultField (el : Element) (results : list ReadAccessResult) : result (list ReadAccessResult) :=
  if (el_TagNumber el =? 0) && negb (IsContextConstructed el) then
    let* id := ContextObjectID el in
    Ok (results ++ [mkReadAccessResult id []])
  else if (el_TagNumber el =? 1) && IsContextConstructed el then
    if len results =? 0 then Err ErrMalformed
    else
      let* props := decodeRPMPropertyResults (av_Elements (el_Value el)) in
      Ok (setLast (fun r => mkReadAccessResult (rr_Object r) props) results)
  else Err ErrMalformed.

Definition DecodeReadPropertyMultipleACK (payload : bytes) (limits : DecodeLimits) : result (list ReadAccessResult) :=
  let* elements := parseElements payload limits in
  forElements readAccessResultField elements [].

(** *** The round trip *)
Lemma elcounts_error class code : elcounts (errorElements class code) = 2.
Proof. done. Qed.
#[export] Hint Rewrite elcounts_error : elc.

Definition resultElements (p : PropertyResult) : list Element :=
  [contextElement 2 (encodeUnsigned (pr_Identifier (prs_Property p)))] ++
  match pr_ArrayIndex (prs_Property p) with Some i => [contextElement 3 (encodeUnsigned i)] | None => [] end ++
  [match prs_Err p with
   | Some (class, code) => mkElement true 5 false false (constructedValue (errorElements class code))
   | None => mkElement true 4 false false (constructedValue (valueElements (prs_Value p)))
   end].

Definition result_ok (lim : DecodeLimits) (d : nat) (p : PropertyResult) : Prop :=
  ref_ok (prs_Property p) /\
  match prs_Err p with
  | Some (class, code) => is_u 16 class /\ is_u 16 code /\ prs_Value p = NullValue
  | None => value_ok lim d (prs_Value p)
  end.

Lemma writes_result lim d p : limits_positive lim -> result_ok lim d p -> 8 <= MaxOctetStringLength lim ->
  writes lim (S d) (fun dst => appendPropertyResult dst p) (resultElements p).
Proof.
  intros Hlim. destruct p as [[pid idx] v [[class code]|]]; intros [[Hp Hi] Hv] Hm;
    cbn [prs_Property prs_Value prs_Err pr_Identifier pr_ArrayIndex] in *;
    unfold appendPropertyResult, resultElements; cbn [prs_Property prs_Value prs_Err pr_Identifier pr_ArrayIndex].
  - destruct Hv as (Hc & Hd & ->). pose proof (writes_error lim class code Hc Hd d) as He. rewrite (Normalize_id lim Hlim) in He.
    destruct idx; rewrite ?optP_Some in Hi; repeat writes_step.
  - unfold value_ok in Hv. destruct idx; rewrite ?optP_Some in Hi; repeat writes_step.
Qed.

Ltac decode_hook ::=
  cbn [rpm_out rpm_cur rpm_haveProp rpm_haveOutcome prs_Property prs_Value prs_Err pr_Identifier pr_ArrayIndex zeroResult];
  rewrite ?DecodeBACnetError_elements by assumption.

(** A state after a complete item, or at the beginning. *)
Lemma rpmField_item lim d p st out : result_ok lim d p -> rpmFlush st = Ok (mkRpm out zeroResult false false) ->
  forElements rpmField (resultElements p) st = Ok (mkRpm out p true true).
Proof.
  destruct p as [[pid idx] v [[class code]|]]; intros [[Hp Hi] Hv] Hf;
    cbn [prs_Property prs_Value prs_Err pr_Identifier pr_ArrayIndex] in *;
    unfold resultElements; cbn [prs_Property prs_Value prs_Err pr_Identifier pr_ArrayIndex app].
  - destruct Hv as (Hc & Hd & ->). erewrite forElements_step; [|unfold rpmField; decode_simp; rewrite Hf; decode_simp; reflexivity].
    destruct idx; rewrite ?optP_Some in Hi; cbn [app]; by decode_run.
  - unfold value_ok in Hv. erewrite forElements_step; [|unfold rpmField; decode_simp; rewrite Hf; decode_simp; reflexivity].
    destruct idx; rewrite ?optP_Some in Hi; cbn [app]; by decode_run.
Qed.

Lemma decodeRPMPropertyResults_encode lim d l : Forall (result_ok lim d) l ->
  decodeRPMPropertyResults (concat (map resultElements l)) = Ok l.
Proof.
  intros Hl. unfold decodeRPMPropertyResults.
  assert (forall st out, rpmFlush st = Ok (mkRpm out zeroResult false false) -> exists st',
    forElements rpmField (concat (map resultElements l)) st = Ok st' /\ rpmFlush st' = Ok (mkRpm (out ++ l) zeroResult false false)) as H.
  { induction Hl as [|p l Hp Hl IH]; intros st out Hf; cbn [map concat].
    - exists st. by rewrite app_nil_r.
    - rewrite forElements_app, (rpmField_item lim d p st out) by done. cbn [bind].
      destruct (IH (mkRpm out p true true) (out ++ [p])) as (st' & H1 & H2); [done|]. exists st'. split; [done|].
      by rewrite H2, <- app_assoc. }
  destruct (H (mkRpm [] zeroResult false false) [] eq_refl) as (st' & -> & H2). cbn [bind]. by rewrite H2.
Qed.

Definition accessResultElements (r : ReadAccessResult) : list Element :=
  [contextElement 0 (oidOctets (rr_Object r))] ++
  [mkElement true 1 false false (constructedValue (concat (map resultElements (rr_Properties r))))].
Definition accessResult_ok (lim : DecodeLimits) (d : nat) (r : ReadAccessResult) : Prop :=
  oid_ok (rr_Object r) /\ Forall (result_ok lim d) (rr_Properties r).

Lemma writes_accessResult lim d r : limits_positive lim -> accessResult_ok lim d r -> 8 <= MaxOctetStringLength lim ->
  writes lim (S (S d)) (fun dst => appendReadAccessResult dst r) (accessResultElements r).
Proof.
  intros Hlim [Ho Hr] Hm. unfold appendReadAccessResult, accessResultElements. repeat writes_step.
  apply writes_result; [done| |done]. by eapply Forall_forall in Hr.
Qed.

Lemma readAccessResultField_item lim d r out : accessResult_ok lim d r ->
  forElements readAccessResultField (accessResultElements r) out = Ok (out ++ [r]).
Proof.
  destruct r as [obj props]. intros [Ho Hr]; cbn [rr_Object rr_Properties] in *. unfold accessResultElements; cbn [rr_Object rr_Properties app].
  decode_element. erewrite forElements_step; [done|]. unfold readAccessResultField. decode_simp. decide_test.
  rewrite (decodeRPMPropertyResults_encode lim d) by done. cbn [bind]. by rewrite setLast_snoc.
Qed.

(** What the decoder of the results returns. *)
Definition result_typed (lim : DecodeLimits) (p : PropertyResult) : Prop :=
  ref_ok (prs_Property p) /\ value_typed lim (prs_Value p) /\
  optP (fun '(class, code) => is_u 16 class /\ is_u 16 code) (prs_Err p).
Definition accessResult_typed (lim : DecodeLimits) (r : ReadAccessResult) : Prop :=
  oid_ok (rr_Object r) /\ Forall (result_typed lim) (rr_Properties r).

Definition rpm_typed (lim : DecodeLimits) (st : rpmState) : Prop :=
  Forall (result_typed lim) (rpm_out st) /\ result_typed lim (rpm_cur st).

Lemma zeroResult_typed lim : result_typed lim zeroResult.
Proof. split_and!; [done|left; by apply ap_null|done]. Qed.

Lemma yields_rpmFlush lim st : rpm_typed lim st -> yields (rpm_typed lim) (rpmFlush st).
Proof.
  intros [Ho Hc]. unfold rpmFlush. repeat yields_step; [by split|]. split; cbn; [|by apply zeroResult_typed].
  apply Forall_app. split; [done|]. by apply Forall_singleton.
Qed.
#[export] Hint Resolve yields_rpmFlush : go.

Lemma yields_rpmField lim el st : wire lim el -> rpm_typed lim st -> yields (rpm_typed lim) (rpmField el st).
Proof.
  intros Hw Hst. unfold rpmField. repeat yields_step; unfold rpm_typed in *; cbn [rpm_out rpm_cur].
  - destruct H as [H1 ([H2 H5] & H3 & H4)]. done.
  - destruct Hst as [H1 ([H2 H5] & H3 & H4)]. split; [done|]. split; [split; [done|by apply optP_Some]|by split].
  - destruct Hst as [H1 ([H2 H5] & H3 & H4)]. apply andb_true_iff in E1 as [_ Ec].
    split; [done|]. split; [by split|]. split; [by apply propertyValue_typed, yields_inner|done].
  - apply andb_true_iff in E2 as [_ Ec]. eapply yields_bind; [by eapply yields_DecodeBACnetError, yields_inner|].
    intros [c k] [Hc Hk]. destruct Hst as [H1 ([H2 H5] & H3 & H4)]. split; [done|]. split; [by split|]. split; [done|by apply optP_Some].
Qed.

Lemma yields_decodeRPMPropertyResults lim els : Forall (wire lim) els ->
  yields (Forall (result_typed lim)) (decodeRPMPropertyResults els).
Proof.
  intros Hw. unfold decodeRPMPropertyResults. eapply yields_bind; [eapply (yields_forElements (rpm_typed lim)); [apply yields_rpmField|exact Hw|]|].
  - split; [done|apply zeroResult_typed].
  - intros st Hst. yields_step. cbn [yields]. apply H.
Qed.

#[export] Program Instance ReadPropertyMultipleACK_Codec : Codec (list ReadAccessResult) := {|
  encode := EncodeReadPropertyMultipleACK;
  decode := DecodeReadPropertyMultipleACK;
  fits lim results := exists d, Forall (accessResult_ok (Normalize lim) d) results /\
    room lim (2 + Z.of_nat d) (elcounts (concat (map accessResultElements results)));
  typed lim results := Forall (accessResult_typed (Normalize lim)) results
|}.
Next Obligation.
  intros lim results (d & Hr & Hm & Hd & He). unfold EncodeReadPropertyMultipleACK.
  destruct (newBuffer_parse lim (S (S d)) (fun dst => foldAppend appendReadAccessResult dst results) (concat (map accessResultElements results)))
    as (bs & Hb & Hok & Hp); [|lia|done|].
  { apply writes_foldAppend. intros r Hin. apply writes_accessResult; [apply Normalize_positive| |done]. by eapply Forall_forall in Hr. }
  exists bs. split_and!; [done..|]. unfold DecodeReadPropertyMultipleACK. rewrite Hp. cbn [bind].
  rewrite (forElements_items readAccessResultField accessResultElements id (accessResult_ok (Normalize lim) d))
    by (done || apply readAccessResultField_item). by rewrite map_id.
Qed.
Next Obligation.
  intros lim bs Hb. unfold DecodeReadPropertyMultipleACK. yields_step.
  eapply (yields_forElements (Forall (accessResult_typed (Normalize lim)))); [|eassumption|done].
  intros el results Hel Hr. unfold readAccessResultField. repeat yields_step.
  - apply Forall_app. split; [done|]. by apply Forall_singleton.
  - apply andb_true_iff in E0 as [_ Ec]. eapply yields_bind; [by eapply yields_decodeRPMPropertyResults, yields_inner|].
    intros props Hprops. cbn [yields]. apply Forall_setLast; [done|]. intros r _ [Ho _]. by split.
Qed.

(** ** WritePropertyMultiple *)
Record WritePropertyValue := mkWriteValue { wv_Property : PropertyReference; wv_Value : ApplicationValue; wv_Priority : option Z }.
Record WriteAccessSpecification := mkWriteAccess { ws_Object : ObjectIdentifier; ws_Properties : list WritePropertyValue }.

Definition appendWriteValue (dst : bytes) (p : WritePropertyValue) : result bytes :=
  let* dst := AppendContextUnsigned dst 0 (pr_Identifier (wv_Property p)) in
  let* dst :=
    match pr_ArrayIndex (wv_Property p) with
    | Some i => AppendContextUnsigned dst 1 i
    | None => Ok dst
    end in
  let* dst := appendWrapped 0x2E 0x2F (fun body => AppendApplicationValue body (wv_Value p)) dst in
  appendPriority 3 (wv_Priority p) dst.

Definition appendWriteAccess (dst : bytes) (spec : WriteAccessSpecification) : result bytes :=
  if len (ws_Properties spec) =? 0 then Err ErrMalformed
  else
    let* dst := AppendContextObjectID dst 0 (ws_Object spec) in
    appendInline 0x1E 0x1F (fun dst => foldAppend appendWriteValue dst (ws_Properties spec)) dst.

Definition EncodeWritePropertyMultiple (specs : list WriteAccessSpecification) : result bytes :=
  if len specs =? 0 then Err ErrMalformed else newBuffer (fun dst => foldAppend appendWriteAccess dst specs).

(** The state of [decodeWPMPropertyValues]. *)
Record wpmState := mkWpm {
  wpm_out : list WritePropertyValue; wpm_cur : WritePropertyValue;
  wpm_haveProp : bool; wpm_haveIndex : bool; wpm_haveValue : bool; wpm_havePriority : bool }.
Definition zeroWriteValue : WritePropertyValue := mkWriteValue (mkPropertyReference 0 None) NullValue None.
Definition wpmFlush (st : wpmState) : result wpmState :=
  if negb (wpm_haveProp st) && negb (wpm_haveValue st) then Ok st
  else if negb (wpm_haveProp st) || negb (wpm_haveValue st) then Err ErrMalformed
  else Ok (mkWpm (wpm_out st ++ [wpm_cur st]) zeroWriteValue false false false false).

Definition wpmField (el : Element) (st : wpmState) : result wpmState :=
  if (el_TagNumber el =? 0) && negb (IsContextConstructed el) then
    let* st := wpmFlush st in
    let* u := checkedUnsigned32 el in
    let c := wpm_cur st in
    Ok (mkWpm (wpm_out st) (mkWriteValue (mkPropertyReference u (pr_ArrayIndex (wv_Property c))) (wv_Value c) (wv_Priority c))
      true (wpm_haveIndex st) (wpm_haveValue st) (wpm_havePriority st))
  else if (el_TagNumber el =? 1) && negb (IsContextConstructed el) then
    if negb (wpm_haveProp st) then Err ErrMalformed
    else if wpm_haveIndex st then Err ErrMalformed
    else if wpm_haveValue st then Err ErrMalformed
    else
      let* idx := checkedUnsigned32 el in
      let c := wpm_cur st in
      Ok (mkWpm (wpm_out st) (mkWriteValue (mkPropertyReference (pr_Identifier (wv_Property c)) (Some idx)) (wv_Value c) (wv_Priority c))
        (wpm_haveProp st) true (wpm_haveValue st) (wpm_havePriority st))
  else if (el_TagNumber el =? 2) && IsContextConstructed el then
    if negb (wpm_haveProp st) then Err ErrMalformed
    else if wpm_haveValue st then Err ErrMalformed
    else
      let c := wpm_cur st in
      Ok (mkWpm (wpm_out st) (mkWriteValue (wv_Property c) (propertyValue (av_Elements (el_Value el))) (wv_Priority c))
        (wpm_haveProp st) (wpm_haveIndex st) true (wpm_havePriority st))
  else if (el_TagNumber el =? 3) && negb (IsContextConstructed el) then
    if negb (wpm_haveProp st) || negb (wpm_haveValue st) then Err ErrMalformed
    else if wpm_havePriority st then Err ErrMalformed
    else
      let* prio := decodePriority None el in
      let c := wpm_cur st in
      Ok (mkWpm (wpm_out st) (mkWriteValue (wv_Property c) (wv_Value c) prio)
        (wpm_haveProp st) (wpm_haveIndex st) (wpm_haveValue st) true)
  else Err ErrMalformed.

Definition decodeWPMPropertyValues (elements : list Element) : result (list WritePropertyValue) :=
  let* st := forElements wpmField elements (mkWpm [] zeroWriteValue false false false false) in
  let* st := wpmFlush st in
  Ok (wpm_out st).

Definition writeAccessField (el : Element) (st : list WriteAccessSpecification * bool) : result (list WriteAccessSpecification * bool) :=
  let '(specs, haveProps) := st in
  if (el_TagNumber el =? 0) && negb (IsContextConstructed el) then
    let* id := ContextObjectID el in
    Ok (specs ++ [mkWriteAccess id []], false)
  else if (el_TagNumber el =? 1) && IsContextConstructed el then
    if len specs =? 0 then Err ErrMalformed
    else if haveProps then Err ErrMalformed
    else
      let* props := decodeWPMPropertyValues (av_Elements (el_Value el)) in
      Ok (setLast (fun s => mkWriteAccess (ws_Object s) props) specs, true)
  else Err ErrMalformed.

Definition DecodeWritePropertyMultiple (payload : bytes) (limits : DecodeLimits) : result (list WriteAccessSpecification) :=
  let* elements := parseElements payload limits in
  let* (specs, _) := forElements writeAccessField elements ([], false) in
  if len specs =? 0 then Err ErrMalformed
  else if existsb (fun s => len (ws_Properties s) =? 0) specs then Err ErrMalformed
  else Ok specs.

(** *** The round trip *)
Definition writeValueElements (p : WritePropertyValue) : list Element :=
  [contextElement 0 (encodeUnsigned (pr_Identifier (wv_Property p)))] ++
  match pr_ArrayIndex (wv_Property p) with Some i => [contextElement 1 (encodeUnsigned i)] | None => [] end ++
  [mkElement true 2 false false (constructedValue (valueElements (wv_Value p)))] ++
  match wv_Priority p with Some q => [contextElement 3 (encodeUnsigned q)] | None => [] end.

Definition writeValue_ok (lim : DecodeLimits) (d : nat) (p : WritePropertyValue) : Prop :=
  ref_ok (wv_Property p) /\ value_ok lim d (wv_Value p) /\ optP prio_ok (wv_Priority p).

Lemma writes_writeValue lim d p : limits_positive lim -> writeValue_ok lim d p -> 8 <= MaxOctetStringLength lim ->
  writes lim (S d) (fun dst => appendWriteValue dst p) (writeValueElements p).
Proof.
  intros Hlim. destruct p as [[pid idx] v prio]; intros ([Hp Hi] & Hv & Hq) Hm;
    cbn [wv_Property wv_Value wv_Priority pr_Identifier pr_ArrayIndex] in *;
    unfold appendWriteValue, writeValueElements; cbn [wv_Property wv_Value wv_Priority pr_Identifier pr_ArrayIndex].
  unfold value_ok in Hv. destruct idx, prio; rewrite ?optP_Some in *; repeat writes_step.
Qed.

Ltac decode_hook ::=
  cbn [wpm_out wpm_cur wpm_haveProp wpm_haveIndex wpm_haveValue wpm_havePriority
    wv_Property wv_Value wv_Priority pr_Identifier pr_ArrayIndex zeroWriteValue];
  rewrite ?DecodeBACnetError_elements by assumption.

Lemma wpmField_item lim d p st out : writeValue_ok lim d p -> wpmFlush st = Ok (mkWpm out zeroWriteValue false false false false) ->
  exists st', forElements wpmField (writeValueElements p) st = Ok st' /\
    wpmFlush st' = Ok (mkWpm (out ++ [p]) zeroWriteValue false false false false).
Proof.
  destruct p as [[pid idx] v prio]; intros ([Hp Hi] & Hv & Hq) Hf;
    cbn [wv_Property wv_Value wv_Priority pr_Identifier pr_ArrayIndex] in *;
    unfold writeValueElements; cbn [wv_Property wv_Value wv_Priority pr_Identifier pr_ArrayIndex app].
  unfold value_ok in Hv. erewrite forElements_step; [|unfold wpmField; decode_simp; rewrite Hf; decode_simp; reflexivity].
  destruct idx, prio; rewrite ?optP_Some in *; cbn [app]; decode_run; eexists; split; reflexivity.
Qed.

Lemma decodeWPMPropertyValues_encode lim d l : Forall (writeValue_ok lim d) l ->
  decodeWPMPropertyValues (concat (map writeValueElements l)) = Ok l.
Proof.
  intros Hl. unfold decodeWPMPropertyValues.
  assert (forall st out, wpmFlush st = Ok (mkWpm out zeroWriteValue false false false false) -> exists st',
    forElements wpmField (concat (map writeValueElements l)) st = Ok st' /\
    wpmFlush st' = Ok (mkWpm (out ++ l) zeroWriteValue false false false false)) as H.
  { induction Hl as [|p l Hp Hl IH]; intros st out Hf; cbn [map concat].
    - exists st. by rewrite app_nil_r.
    - destruct (wpmField_item lim d p st out Hp Hf) as (st1 & H1 & H2). rewrite forElements_app, H1. cbn [bind].
      destruct (IH _ _ H2) as (st' & H3 & H4). exists st'. split; [done|]. by rewrite H4, <- app_assoc. }
  destruct (H (mkWpm [] zeroWriteValue false false false false) [] eq_refl) as (st' & -> & H2). cbn [bind]. by rewrite H2.
Qed.

Definition writeAccessElements (s : WriteAccessSpecification) : list Element :=
  [contextElement 0 (oidOctets (ws_Object s))] ++
  [mkElement true 1 false false (constructedValue (concat (map writeValueElements (ws_Properties s))))].
Definition writeAccess_ok (lim : DecodeLimits) (d : nat) (s : WriteAccessSpecification) : Prop :=
  oid_ok (ws_Object s) /\ ws_Properties s <> [] /\ Forall (writeValue_ok lim d) (ws_Properties s).

Lemma writes_writeAccess lim d s : limits_positive lim -> writeAccess_ok lim d s -> 8 <= MaxOctetStringLength lim ->
  writes lim (S (S d)) (fun dst => appendWriteAccess dst s) (writeAccessElements s).
Proof.
  intros Hlim (Ho & Hne & Hr) Hm. unfold writeAccessElements.
  apply (writes_ext lim _ (fun dst => let* dst := AppendContextObjectID dst 0 (ws_Object s) in
    appendInline 0x1E 0x1F (fun dst => foldAppend appendWriteValue dst (ws_Properties s)) dst)).
  { intros dst. unfold appendWriteAccess. destruct (ws_Properties s); [done|]. by decide_test. }
  repeat writes_step. apply writes_writeValue; [done| |done]. by eapply Forall_forall in Hr.
Qed.

Lemma writeAccessField_items lim d l : Forall (writeAccess_ok lim d) l -> forall specs h, exists h',
  forElements writeAccessField (concat (map writeAccessElements l)) (specs, h) = Ok (specs ++ l, h').
Proof.
  induction 1 as [|[obj props] l (Ho & Hne & Hr) Hl IH]; intros specs h; cbn [map concat]; [exists h; by rewrite app_nil_r|].
  cbn [ws_Object ws_Properties] in *. destruct (IH (specs ++ [mkWriteAccess obj props]) true) as [h' Hh']. exists h'.
  unfold writeAccessElements at 1; cbn [ws_Object ws_Properties app]. decode_element. erewrite forElements_step.
  - rewrite Hh'. by rewrite <- app_assoc.
  - unfold writeAccessField. decode_simp. decide_test. rewrite (decodeWPMPropertyValues_encode lim d) by done. cbn [bind].
    by rewrite setLast_snoc.
Qed.

Definition writeValue_typed (lim : DecodeLimits) (p : WritePropertyValue) : Prop :=
  ref_ok (wv_Property p) /\ value_typed lim (wv_Value p) /\ optP prio_ok (wv_Priority p).
Definition writeAccess_typed (lim : DecodeLimits) (s : WriteAccessSpecification) : Prop :=
  oid_ok (ws_Object s) /\ Forall (writeValue_typed lim) (ws_Properties s).
Definition wpm_typed (lim : DecodeLimits) (st : wpmState) : Prop :=
  Forall (writeValue_typed lim) (wpm_out st) /\ writeValue_typed lim (wpm_cur st).

Lemma zeroWriteValue_typed lim : writeValue_typed lim zeroWriteValue.
Proof. split; [done|]. split; [left; by apply ap_null|done]. Qed.

Lemma yields_wpmFlush lim st : wpm_typed lim st -> yields (wpm_typed lim) (wpmFlush st).
Proof.
  intros [Ho Hc]. unfold wpmFlush. repeat yields_step; [by split|]. split; cbn; [|by apply zeroWriteValue_typed].
  apply Forall_app. split; [done|]. by apply Forall_singleton.
Qed.
#[export] Hint Resolve yields_wpmFlush : go.

Lemma yields_wpmField lim el st : wire lim el -> wpm_typed lim st -> yields (wpm_typed lim) (wpmField el st).
Proof.
  intros Hw Hst. unfold wpmField. repeat yields_step.
  - destruct H as [H1 ([H2 H5] & H3 & H4)]. split; [done|]. by split.
  - destruct Hst as [H1 ([H2 H5] & H3 & H4)]. split; [done|]. split; [split; [done|by apply optP_Some]|by split].
  - destruct Hst as [H1 ([H2 H5] & H3 & H4)]. apply andb_true_iff in E1 as [_ Ec].
    split; [done|]. split; [by split|]. split; [by apply propertyValue_typed, yields_inner|done].
  - destruct Hst as [H1 ([H2 H5] & H3 & H4)]. split; [done|]. split; [by split|]. by split.
Qed.

Lemma yields_decodeWPMPropertyValues lim els : Forall (wire lim) els ->
  yields (Forall (writeValue_typed lim)) (decodeWPMPropertyValues els).
Proof.
  intros Hw. unfold decodeWPMPropertyValues. eapply yields_bind; [eapply (yields_forElements (wpm_typed lim)); [apply yields_wpmField|exact Hw|]|].
  - split; [done|apply zeroWriteValue_typed].
  - intros st Hst. yields_step. cbn [yields]. apply H.
Qed.

Lemma existsb_empty_properties specs : existsb (fun s => len (ws_Properties s) =? 0) specs = false ->
  Forall (fun s => ws_Properties s <> []) specs.
Proof.
  intros H. apply Forall_forall. intros s Hs Hne. assert (existsb (fun s => len (ws_Properties s) =? 0) specs = true) as H'; [|congruence].
  apply existsb_exists. exists s. split; [by apply list_elem_of_In|]. by rewrite Hne.
Qed.

#[export] Program Instance WritePropertyMultiple_Codec : Codec (list WriteAccessSpecification) := {|
  encode := EncodeWritePropertyMultiple;
  decode := DecodeWritePropertyMultiple;
  fits lim specs := specs <> [] /\ exists d, Forall (writeAccess_ok (Normalize lim) d) specs /\
    room lim (2 + Z.of_nat d) (elcounts (concat (map writeAccessElements specs)));
  typed lim specs := specs <> [] /\ Forall (writeAccess_typed (Normalize lim)) specs /\ Forall (fun s => ws_Properties s <> []) specs
|}.
Next Obligation.
  intros lim specs (Hne & d & Hr & Hm & Hd & He). unfold EncodeWritePropertyMultiple.
  destruct (newBuffer_parse lim (S (S d)) (fun dst => foldAppend appendWriteAccess dst specs) (concat (map writeAccessElements specs)))
    as (bs & Hb & Hok & Hp); [|lia|done|].
  { apply writes_foldAppend. intros r Hin. apply writes_writeAccess; [apply Normalize_positive| |done]. by eapply Forall_forall in Hr. }
  assert ((len specs =? 0) = false) as El by (destruct specs; [done|]; by decide_test). rewrite El.
  exists bs. split_and!; [done..|]. unfold DecodeWritePropertyMultiple. rewrite Hp. cbn [bind].
  destruct (writeAccessField_items (Normalize lim) d specs Hr [] false) as [h' ->]. cbn [bind app]. rewrite El.
  destruct (existsb _ _) eqn:Ex; [|done]. apply existsb_exists in Ex as (s & Hs & Hl). apply Z.eqb_eq, len_zero_nil in Hl.
  apply list_elem_of_In in Hs. eapply Forall_forall in Hr as (_ & Hn & _); [|done]. done.
Qed.
Next Obligation.
  intros lim bs Hb. unfold DecodeWritePropertyMultiple. yields_step.
  eapply yields_bind; [eapply (yields_forElements (fun st => Forall (writeAccess_typed (Normalize lim)) (fst st))); [|eassumption|done]|].
  - intros el [specs h] Hel Hr. unfold writeAccessField. repeat yields_step; cbn [fst] in *.
    + apply Forall_app. split; [done|]. by apply Forall_singleton.
    + apply andb_true_iff in E0 as [_ Ec]. eapply yields_bind; [by eapply yields_decodeWPMPropertyValues, yields_inner|].
      intros props Hprops. cbn [yields]. apply Forall_setLast; [done|]. intros r _ [Ho _]. by split.
  - intros [specs h] Hs. repeat yields_step. split_and!; [by intros ->|done|by apply existsb_empty_properties].
Qed.

(** *** WritePropertyMultiple-Error *)
Record WritePropertyMultipleError := mkWpmError { we_Class : Z; we_Code : Z; we_FirstFailed : ObjectIdentifier; we_FirstProperty : PropertyReference }.

Definition EncodeWritePropertyMultipleError (e : WritePropertyMultipleError) : result bytes :=
  newBuffer (fun dst =>
    let* dst := appendInline 0x0E 0x0F (fun dst => EncodeBACnetError dst (we_Class e) (we_Code e)) dst in
    appendInline 0x1E 0x1F (fun dst =>
      let* dst := AppendContextObjectID dst 0 (we_FirstFailed e) in
      let* dst := AppendContextUnsigned dst 1 (pr_Identifier (we_FirstProperty e)) in
      match pr_ArrayIndex (we_FirstProperty e) with
      | Some i => AppendContextUnsigned dst 2 i
      | None => Ok dst
      end) dst).

Definition objectPropertyField (el : Element) (st : option ObjectIdentifier * option Z * option Z) :
    result (option ObjectIdentifier * option Z * option Z) :=
  let '(obj, prop, index) := st in
  if (el_TagNumber el =? 0) && negb (IsContextConstructed el) then
    let* obj := setOnce obj (ContextObjectID el) in Ok (obj, prop, index)
  else if (el_TagNumber el =? 1) && negb (IsContextConstructed el) then
    let* prop := setOnce prop (checkedUnsigned32 el) in Ok (obj, prop, index)
  else if (el_TagNumber el =? 2) && negb (IsContextConstructed el) then
    let* index := setOnce index (checkedUnsigned32 el) in Ok (obj, prop, index)
  else Err ErrMalformed.

Definition decodeObjectPropertyReference (elements : list Element) : result (ObjectIdentifier * PropertyReference) :=
  let* (obj, prop, index) := forElements objectPropertyField elements (None, None, None) in
  let* obj := required obj in
  let* prop := required prop in
  Ok (obj, mkPropertyReference prop index).

Definition wpmErrorField (el : Element) (st : option (Z * Z) * option (ObjectIdentifier * PropertyReference)) :
    result (option (Z * Z) * option (ObjectIdentifier * PropertyReference)) :=
  let '(err, first) := st in
  if (el_TagNumber el =? 0) && IsContextConstructed el then
    let* err := setOnce err (DecodeBACnetError (av_Elements (el_Value el))) in Ok (err, first)
  else if (el_TagNumber el =? 1) && IsContextConstructed el then
    let* first := setOnce first (decodeObjectPropertyReference (av_Elements (el_Value el))) in Ok (err, first)
  else Err ErrMalformed.

Definition DecodeWritePropertyMultipleError (payload : bytes) (limits : DecodeLimits) : result WritePropertyMultipleError :=
  let* elements := parseElements payload limits in
  let* (err, first) := forElements wpmErrorField elements (None, None) in
  let* (class, code) := required err in
  let* (obj, prop) := required first in
  Ok (mkWpmError class code obj prop).

Lemma yields_decodeObjectPropertyReference lim els : Forall (wire lim) els ->
  yields (fun '(obj, prop) => oid_ok obj /\ ref_ok prop) (decodeObjectPropertyReference els).
Proof.
  intros Hw. unfold decodeObjectPropertyReference.
  eapply yields_bind; [eapply (yields_forElements (fun '(obj, prop, index) => optP oid_ok obj /\ optP (is_u 32) prop /\ optP (is_u 32) index));
    [|exact Hw|done]|].
  - intros el [[obj prop] index] Hel (H1 & H2 & H3). unfold objectPropertyField. repeat yields_step; done.
  - intros [[obj prop] index] (H1 & H2 & H3). repeat yields_step. done.
Qed.

#[export] Program Instance WritePropertyMultipleError_Codec : Codec WritePropertyMultipleError := {|
  encode := EncodeWritePropertyMultipleError;
  decode := DecodeWritePropertyMultipleError;
  fits lim e := is_u 16 (we_Class e) /\ is_u 16 (we_Code e) /\ oid_ok (we_FirstFailed e) /\ ref_ok (we_FirstProperty e) /\ room lim 1 7;
  typed _ e := is_u 16 (we_Class e) /\ is_u 16 (we_Code e) /\ oid_ok (we_FirstFailed e) /\ ref_ok (we_FirstProperty e)
|}.
Next Obligation.
  intros lim [class code obj [pid idx]] (Hc & Hk & Ho & [Hp Hi] & Hm & Hd & He); cbn [we_Class we_Code we_FirstFailed we_FirstProperty pr_Identifier pr_ArrayIndex] in *;
    unfold EncodeWritePropertyMultipleError; cbn [we_Class we_Code we_FirstFailed we_FirstProperty pr_Identifier pr_ArrayIndex].
  pose proof (writes_error lim class code Hc Hk 0) as Hwe.
  destruct idx; rewrite ?optP_Some in Hi; codec_roundtrip lim 1%nat as Hparse; unfold DecodeWritePropertyMultipleError; rewrite Hparse;
    cbn [bind app]; decode_element; (erewrite forElements_step; [|unfold wpmErrorField; decode_simp; unfold decodeObjectPropertyReference; decode_run; reflexivity]);
    by decode_run.
Qed.
Next Obligation.
  intros lim bs Hb. unfold DecodeWritePropertyMultipleError. yields_step.
  eapply yields_bind; [eapply (yields_forElements (fun '(err, first) =>
    optP error_typed err /\ optP (fun '(obj, prop) => oid_ok obj /\ ref_ok prop) first)); [|eassumption|done]|].
  - intros el [err first] Hel [H1 H2]. unfold wpmErrorField. repeat yields_step; try done.
    + apply andb_true_iff in E as [_ E]. by eapply yields_DecodeBACnetError, yields_inner.
    + apply andb_true_iff in E0 as [_ E0]. by eapply yields_decodeObjectPropertyReference, yields_inner.
  - intros [err first] [H1 H2]. eapply yields_bind; [by eapply yields_required|]. intros [class code] [Hc Hk].
    eapply yields_bind; [by eapply yields_required|]. by intros [obj prop] [Ho Hp].
Qed.
