(* ===== verification/Address.v ===== *)
(** * Network addresses: [mac.go] and [address.go] *)

From Stdlib Require Import ZArith Lia.
From stdpp Require Import base list.
From S2P Require Import Prelude.

Definition MaxMACLength : Z := 7.

(** A MAC is a length and a fixed array, compared field by field. *)
Record MAC := mkMAC { mac_length : Z; mac_bytes : bytes }.

#[global] Instance MAC_eq_dec : EqDecision MAC.
Proof. solve_decision. Defined.

Definition zeroMAC : MAC := mkMAC 0 (replicate 7 0).

(** [copy(m.bytes[:], b)] into a zeroed array. *)
Definition NewMAC (b : bytes) : result MAC :=
  let n := len b in
  if n >? MaxMACLength then Err ErrMalformed
  else Ok (mkMAC (u8 n) (b ++ replicate (7 - length b) 0)).

Definition MACBytes (m : MAC) : bytes :=
  if mac_length m =? 0 then [] else take (Z.to_nat (mac_length m)) (mac_bytes m).
Definition IsZero (m : MAC) : bool := mac_length m =? 0.

Inductive AddressScope :=
| AddressLocalStation
| AddressLocalBroadcast
| AddressRemoteStation
| AddressRemoteBroadcast
| AddressGlobalBroadcast.

#[global] Instance AddressScope_eq_dec : EqDecision AddressScope.
Proof. solve_decision. Defined.

Record Address := mkAddress { a_network : Z; a_mac : MAC; a_scope : AddressScope }.

#[global] Instance Address_eq_dec : EqDecision Address.
Proof. solve_decision. Defined.

(** Go's zero [Address{}]: the scope constants start at [AddressLocalStation]. *)
Definition zeroAddress : Address := mkAddress 0 zeroMAC AddressLocalStation.

Definition LocalStation (mac : MAC) : Address := mkAddress 0 mac AddressLocalStation.
Definition LocalBroadcast : Address := mkAddress 0 zeroMAC AddressLocalBroadcast.
Definition RemoteStation (network : Z) (mac : MAC) : Address := mkAddress network mac AddressRemoteStation.
Definition RemoteBroadcast (network : Z) : Address := mkAddress network zeroMAC AddressRemoteBroadcast.
Definition GlobalBroadcast : Address := mkAddress 0 zeroMAC AddressGlobalBroadcast.

Definition IsBroadcast (a : Address) : bool :=
  match a_scope a with
  | AddressLocalBroadcast | AddressRemoteBroadcast | AddressGlobalBroadcast => true
  | _ => false
  end.
Definition AddressEqual (a o : Address) : bool := bool_decide (a = o).

(** ** The MAC of some octets *)
Definition macOf (b : bytes) : MAC := mkMAC (len b) (b ++ replicate (7 - length b) 0).

Lemma NewMAC_ok b : len b <= MaxMACLength -> NewMAC b = Ok (macOf b).
Proof.
  unfold MaxMACLength. intros Hb. unfold NewMAC, macOf, MaxMACLength. decide_test. decide_test.
  rewrite uwrap_small; [done|]. unfold is_u. len_lia.
Qed.

Lemma NewMAC_inv b m : NewMAC b = Ok m -> m = macOf b /\ len b <= MaxMACLength.
Proof.
  intros H. assert (len b <= MaxMACLength) as Hl by (unfold NewMAC in H; inv_all H; lia).
  rewrite NewMAC_ok in H by done. by injection H as <-.
Qed.

Lemma MACBytes_macOf b : MACBytes (macOf b) = b.
Proof.
  unfold MACBytes, macOf. cbn [mac_length mac_bytes]. destruct (len b =? 0) eqn:E; bool_to_prop.
  - symmetry. by apply len_zero_nil.
  - by rewrite Z_to_nat_len, take_app_length.
Qed.

Lemma macOf_nil : macOf [] = zeroMAC.
Proof. done. Qed.
