(* ===== verification/Npdu.v ===== *)
(** * The network layer: [npdu/codec.go]

    [Parse] and [Append] of an NPDU. The blocks of the two functions that
    read and write the destination and the source address are definitions of
    their own, with the offset they start at. *)

From Stdlib Require Import ZArith Lia.
From stdpp Require Import base list.
From S2P Require Import Prelude Value Address.

(** ** Constants *)
Definition Version1 : Z := 1.
Definition ControlNetworkMessage : Z := 0x80.
Definition ControlDestinationSpec : Z := 0x20.
Definition ControlSourceSpec : Z := 0x08.
Definition ControlExpectingReply : Z := 0x04.
Definition ControlPriorityMask : Z := 0x03.
Definition ControlReservedBits : Z := Z.lor 0x40 0x10.

Definition NetMsgWhoIsRouterToNetwork : Z := 0x00.
Definition NetMsgIAmRouterToNetwork : Z := 0x01.
Definition NetMsgICouldBeRouterToNetwork : Z := 0x02.
Definition NetMsgRejectMessageToNetwork : Z := 0x03.
Definition NetMsgRouterBusyToNetwork : Z := 0x04.
Definition NetMsgRouterAvailableToNetwork : Z := 0x05.
Definition NetMsgNetworkNumberIs : Z := 0x13.

Record NPDU := mkNPDU {
  np_Version : Z;
  np_Control : Z;
  np_Destination : Address;
  np_Source : Address;
  np_HopCount : Z;
  np_NetworkMessage : bool;
  np_NetMsgType : Z;
  np_NetMsgData : bytes;
  np_APDU : bytes;
  np_ExpectingReply : bool;
  np_Priority : Z
}.

(** [uint16(a)<<8 | uint16(b)] *)
Definition net16 (a b : Z) : Z := Z.lor (u16 (Z.shiftl a 8)) b.

(** ** Network messages *)

(** The loop of [DecodeNetworkList] over the pairs of octets. *)
Fixpoint networkListLoop (data : bytes) : result (list Z) :=
  match data with
  | a :: b :: data =>
      let netn := net16 a b in
      if netn =? 0 then Err ErrMalformed
      else let* out := networkListLoop data in Ok (netn :: out)
  | _ => Ok []
  end.
Definition DecodeNetworkList (data : bytes) : result (list Z) :=
  if negb (len data mod 2 =? 0) then Err ErrMalformed else networkListLoop data.

Definition DecodeRejectMessageToNetwork (data : bytes) : result (Z * Z) :=
  if len data <? 3 then Err ErrMalformed
  else if len data >? 3 then Err ErrTrailingData
  else
    let* r := index data 0 in let* a := index data 1 in let* b := index data 2 in
    Ok (r, net16 a b).

Definition DecodeICouldBeRouterToNetwork (data : bytes) : result (Z * Z) :=
  if len data <? 3 then Err ErrMalformed
  else if len data >? 3 then Err ErrTrailingData
  else
    let* a := index data 0 in let* b := index data 1 in let* p := index data 2 in
    Ok (net16 a b, p).

Definition validateNetworkMessageData (msgType : Z) (data : bytes) : result unit :=
  if (msgType =? NetMsgIAmRouterToNetwork) || (msgType =? NetMsgRouterAvailableToNetwork)
     || (msgType =? NetMsgRouterBusyToNetwork) then
    let* _ := DecodeNetworkList data in Ok tt
  else if msgType =? NetMsgRejectMessageToNetwork then
    let* _ := DecodeRejectMessageToNetwork data in Ok tt
  else if msgType =? NetMsgICouldBeRouterToNetwork then
    let* _ := DecodeICouldBeRouterToNetwork data in Ok tt
  else if msgType =? NetMsgNetworkNumberIs then
    if len data <? 2 then Err ErrMalformed else Ok tt
  else Ok tt.

Definition validateRemoteNetwork (network : Z) : result unit :=
  if (network =? 0) || (network =? 0xFFFF) then Err ErrMalformed else Ok tt.

(** ** Parse *)

(** [if hasDst { ... }]: DNET, DLEN, DADR at [off]. *)
Definition parseDestination (data : bytes) (off : Z) : result (Address * Z) :=
  if off + 2 >? len data then Err ErrMalformed else
  let* a := index data off in
  let* b := index data (off + 1) in
  let dnet := net16 a b in
  let off := off + 2 in
  if off >=? len data then Err ErrMalformed else
  let* dlen := index data off in
  let off := off + 1 in
  if dlen >? MaxMACLength then Err ErrMalformed
  else if off + dlen >? len data then Err ErrMalformed
  else
    let* m := slice data off (off + dlen) in
    let* mac := NewMAC m in
    let off := off + dlen in
    if dnet =? 0xFFFF then
      if negb (dlen =? 0) then Err ErrMalformed else Ok (GlobalBroadcast, off)
    else if dlen =? 0 then
      if dnet =? 0 then Err ErrMalformed else Ok (RemoteBroadcast dnet, off)
    else
      if dnet =? 0 then Err ErrMalformed else Ok (RemoteStation dnet mac, off).

(** [if hasSrc { ... }]: SNET, SLEN, SADR at [off]. *)
Definition parseSource (data : bytes) (off : Z) : result (Address * Z) :=
  if off + 2 >? len data then Err ErrMalformed else
  let* a := index data off in
  let* b := index data (off + 1) in
  let snet := net16 a b in
  let off := off + 2 in
  if off >=? len data then Err ErrMalformed else
  let* slen := index data off in
  let off := off + 1 in
  if (slen =? 0) || (slen >? MaxMACLength) then Err ErrMalformed
  else if off + slen >? len data then Err ErrMalformed
  else
    let* m := slice data off (off + slen) in
    let* mac := NewMAC m in
    let off := off + slen in
    if snet =? 0xFFFF then Err ErrMalformed
    else if snet =? 0 then Ok (LocalStation mac, off)
    else Ok (RemoteStation snet mac, off).

Definition Parse (data : bytes) (limits : DecodeLimits) : result (NPDU * Z) :=
  let limits := Normalize limits in
  if len data >? MaxDatagramSize limits then Err ErrLimitExceeded
  else if len data <? 2 then Err ErrMalformed
  else
    let* version := index data 0 in
    let* control := index data 1 in
    if negb (version =? Version1) then Err ErrUnsupported
    else if bit control ControlReservedBits then Err ErrMalformed
    else
      let networkMessage := bit control ControlNetworkMessage in
      let expectingReply := bit control ControlExpectingReply in
      let priority := Z.land control ControlPriorityMask in
      let off := 2 in
      let hasDst := bit control ControlDestinationSpec in
      let hasSrc := bit control ControlSourceSpec in
      let* (destination, off) :=
        if hasDst then parseDestination data off else Ok (zeroAddress, off) in
      let* (source, off) :=
        if hasSrc then parseSource data off else Ok (zeroAddress, off) in
      let* (hop, off) :=
        if hasDst then
          if off >=? len data then Err ErrMalformed
          else let* h := index data off in Ok (h, off + 1)
        else Ok (0, off) in
      if networkMessage then
        if off >=? len data then Err ErrMalformed
        else
          let* t := index data off in
          let* d := slice_from data (off + 1) in
          let* _ := validateNetworkMessageData t d in
          Ok (mkNPDU version control destination source hop true t d [] expectingReply priority, len data)
      else
        let* d := slice_from data off in
        Ok (mkNPDU version control destination source hop false 0 [] d expectingReply priority, len data).

(** ** Append *)
Definition macLength (mac : bytes) : result Z :=
  let n := len mac in
  if n >? MaxMACLength then Err ErrMalformed
  else if n <? 0 then Err ErrMalformed
  else Ok (u8 n).

(** The first switch on [n.Destination.Scope()]: is there a DNET? *)
Definition checkDestination (d : Address) : result bool :=
  match a_scope d with
  | AddressRemoteStation =>
      let* _ := validateRemoteNetwork (a_network d) in
      if IsZero (a_mac d) then Err ErrMalformed else Ok true
  | AddressRemoteBroadcast =>
      let* _ := validateRemoteNetwork (a_network d) in Ok true
  | AddressGlobalBroadcast => Ok true
  | _ => Ok false
  end.

Definition checkSource (s : Address) : result bool :=
  match a_scope s with
  | AddressLocalStation | AddressRemoteStation =>
      if negb (IsZero (a_mac s)) then
        if bool_decide (a_scope s = AddressRemoteStation) then
          let* _ := validateRemoteNetwork (a_network s) in Ok true
        else Ok true
      else Ok false
  | _ => Ok false
  end.

(** The second switch on the destination: the octets it adds. *)
Definition destinationOctets (d : Address) : result bytes :=
  match a_scope d with
  | AddressGlobalBroadcast => Ok [0xFF; 0xFF; 0]
  | AddressRemoteBroadcast => Ok (be_put 2 (a_network d) ++ [0])
  | AddressRemoteStation =>
      let mac := MACBytes (a_mac d) in
      let* dlen := macLength mac in
      Ok (be_put 2 (a_network d) ++ [dlen] ++ mac)
  | AddressLocalStation | AddressLocalBroadcast => Ok []
  end.

Definition sourceOctets (s : Address) : result bytes :=
  let mac := MACBytes (a_mac s) in
  let snet := if bool_decide (a_scope s = AddressLocalStation) then 0 else a_network s in
  let* slen := macLength mac in
  Ok (be_put 2 snet ++ [slen] ++ mac).

Definition controlOctet (n : NPDU) (hasDst hasSrc : bool) : Z :=
  let control := if np_NetworkMessage n then ControlNetworkMessage else 0 in
  let control := if np_ExpectingReply n || bit (np_Control n) ControlExpectingReply
                 then Z.lor control ControlExpectingReply else control in
  let control := Z.lor control (Z.land (np_Priority n) ControlPriorityMask) in
  let control := if hasDst then Z.lor control ControlDestinationSpec else control in
  if hasSrc then Z.lor control ControlSourceSpec else control.

Definition Append (dst : bytes) (n : NPDU) : result bytes :=
  let version := if np_Version n =? 0 then Version1 else np_Version n in
  let* hasDst := checkDestination (np_Destination n) in
  let* hasSrc := checkSource (np_Source n) in
  let dst := dst ++ [version; controlOctet n hasDst hasSrc] in
  let* d := if hasDst then destinationOctets (np_Destination n) else Ok [] in
  let* s := if hasSrc then sourceOctets (np_Source n) else Ok [] in
  let hop := if hasDst then [if np_HopCount n =? 0 then 255 else np_HopCount n] else [] in
  let dst := dst ++ d ++ s ++ hop in
  if np_NetworkMessage n then Ok (dst ++ [np_NetMsgType n] ++ np_NetMsgData n)
  else Ok (dst ++ np_APDU n).

(** ** The wire format as a relation

    [npdu_wire n data]: [data] is the frame of clause 6.2.2 that carries [n]. *)
Inductive dest_wire : Address -> bytes -> Prop :=
| dw_global : dest_wire GlobalBroadcast [0xFF; 0xFF; 0]
| dw_broadcast net : 0 < net < 0xFFFF -> dest_wire (RemoteBroadcast net) (be_put 2 net ++ [0])
| dw_station net m : 0 < net < 0xFFFF -> 1 <= len m <= MaxMACLength ->
    dest_wire (RemoteStation net (macOf m)) (be_put 2 net ++ [len m] ++ m).

Inductive src_wire : Address -> bytes -> Prop :=
| sw_local m : 1 <= len m <= MaxMACLength -> src_wire (LocalStation (macOf m)) (be_put 2 0 ++ [len m] ++ m)
| sw_remote net m : 0 < net < 0xFFFF -> 1 <= len m <= MaxMACLength ->
    src_wire (RemoteStation net (macOf m)) (be_put 2 net ++ [len m] ++ m).

(** The control octet of the flags. *)
Definition ctl (nm er : bool) (p : Z) (hd hs : bool) : Z :=
  Z.lor (Z.lor (Z.lor (Z.lor (if nm then 0x80 else 0) (if er then 0x04 else 0)) p)
    (if hd then 0x20 else 0)) (if hs then 0x08 else 0).

Definition npdu_wire (n : NPDU) (data : bytes) : Prop :=
  exists (hd hs : bool) d s hop body,
    data = [Version1; np_Control n] ++ d ++ s ++ hop ++ body /\
    np_Version n = Version1 /\ 0 <= np_Priority n < 4 /\
    np_Control n = ctl (np_NetworkMessage n) (np_ExpectingReply n) (np_Priority n) hd hs /\
    (if hd then dest_wire (np_Destination n) d else np_Destination n = zeroAddress /\ d = []) /\
    (if hs then src_wire (np_Source n) s else np_Source n = zeroAddress /\ s = []) /\
    (if hd then hop = [np_HopCount n] else np_HopCount n = 0 /\ hop = []) /\
    (if np_NetworkMessage n
     then body = [np_NetMsgType n] ++ np_NetMsgData n /\ np_APDU n = [] /\
          validateNetworkMessageData (np_NetMsgType n) (np_NetMsgData n) = Ok tt
     else body = np_APDU n /\ np_NetMsgType n = 0 /\ np_NetMsgData n = []).

Lemma ctl_fields nm er p hd hs : 0 <= p < 4 ->
  let c := ctl nm er p hd hs in
  bit c ControlReservedBits = false /\ bit c ControlNetworkMessage = nm /\ bit c ControlExpectingReply = er /\
  Z.land c ControlPriorityMask = p /\ bit c ControlDestinationSpec = hd /\ bit c ControlSourceSpec = hs /\ is_byte c.
Proof.
  intros Hp. pose (ok p := let c := ctl nm er p hd hs in
    negb (bit c ControlReservedBits) && eqb (bit c ControlNetworkMessage) nm && eqb (bit c ControlExpectingReply) er
    && (Z.land c ControlPriorityMask =? p) && eqb (bit c ControlDestinationSpec) hd && eqb (bit c ControlSourceSpec) hs
    && (0 <=? c) && (c <? 2 ^ 8)).
  assert (ok p = true) as H.
  { apply (forall_range ok 4); [|done]. by destruct nm, er, hd, hs; vm_compute. }
  unfold ok in H. cbv zeta. bool_to_prop. repeat match goal with E : eqb _ _ = true |- _ => apply eqb_prop in E end.
  done.
Qed.

Lemma ctl_of_fields c : is_byte c -> bit c ControlReservedBits = false ->
  c = ctl (bit c ControlNetworkMessage) (bit c ControlExpectingReply) (Z.land c ControlPriorityMask)
        (bit c ControlDestinationSpec) (bit c ControlSourceSpec).
Proof.
  intros Hc Hr. pose (ok c := bit c ControlReservedBits ||
    (c =? ctl (bit c ControlNetworkMessage) (bit c ControlExpectingReply) (Z.land c ControlPriorityMask)
        (bit c ControlDestinationSpec) (bit c ControlSourceSpec))).
  assert (ok c = true) as H by (apply (forall_range ok 256); [by vm_compute|apply Hc]).
  unfold ok in H. rewrite Hr in H. by apply Z.eqb_eq.
Qed.

Lemma net16_be_put net : is_u 16 net -> exists a b, be_put 2 net = [a; b] /\ net16 a b = net /\ is_byte a /\ is_byte b.
Proof.
  intros Hn. pose proof (be_put_bytes_ok 2 net) as Hok. pose proof (be_get_be_put 2 net) as Hg.
  cbn [be_put] in *. do 2 eexists. split; [done|]. set (a := _ mod 256) in *. set (b := (net / 256 ^ Z.of_nat 0) mod 256) in *.
  inversion_clear Hok as [|? ? Ha Hok']. inversion_clear Hok' as [|? ? Hb _].
  rewrite Z.mod_small in Hg by apply Hn. unfold be_get, be_step in Hg. cbn [fold_left] in Hg. unfold is_u in *.
  split_and!; try lia. unfold net16. rewrite uwrap_small; [|unfold is_u; rewrite Z.shiftl_mul_pow2 by lia; lia].
  rewrite lor_shiftl_add by lia. lia.
Qed.

Lemma net16_bytes a b : is_byte a -> is_byte b -> net16 a b = a * 256 + b /\ be_put 2 (net16 a b) = [a; b].
Proof.
  intros Ha Hb. assert (net16 a b = a * 256 + b) as He.
  { unfold net16, is_u in *. rewrite uwrap_small; [|unfold is_u; rewrite Z.shiftl_mul_pow2 by lia; lia].
    rewrite lor_shiftl_add by lia. lia. }
  split; [done|]. rewrite He. rewrite <- (be_put_be_get [a; b]) by solve_bytes.
  unfold be_get, be_step. cbn [fold_left length]. f_equal.
Qed.

(** ** Address fields

    Both address fields are a network number, a length and a MAC. *)
Section AddressField.
Context (pre rest m : bytes) (net : Z).
Hypothesis (Hnet : is_u 16 net) (Hm : len m <= MaxMACLength).

Let field := be_put 2 net ++ [len m] ++ m.

Lemma field_reads :
  let data := pre ++ field ++ rest in
  exists a b, net16 a b = net /\ index data (len pre) = Ok a /\ index data (len pre + 1) = Ok b /\
    index data (len pre + 1 + 1) = Ok (len m) /\
    slice data (len pre + 2 + 1) (len pre + 2 + 1 + len m) = Ok m /\ len data = len pre + 3 + len m + len rest.
Proof using Hnet.
  destruct (net16_be_put net Hnet) as (a & b & He & Hn & _ & _).
  cbv zeta. unfold field. rewrite He. exists a, b. split_and!; [done|..].
  - by rewrite (index_cursor _ _ _ 0) by lia.
  - by rewrite (index_cursor _ _ _ 1) by lia.
  - by rewrite (index_cursor _ _ _ 2) by lia.
  - rewrite (slice_cursor _ _ _ _ 3 (3 + len m)) by lia.
    rewrite <- !app_assoc. rewrite (app_assoc [a; b] [len m]). apply slice_app; len_lia.
  - rewrite !len_app. change (len [a; b]) with 2. change (len [len m]) with 1. lia.
Qed.

Lemma parseDestination_field :
  parseDestination (pre ++ field ++ rest) (len pre) =
    if net =? 0xFFFF then if negb (len m =? 0) then Err ErrMalformed else Ok (GlobalBroadcast, len pre + len field)
    else if net =? 0 then Err ErrMalformed
    else Ok (if len m =? 0 then RemoteBroadcast net else RemoteStation net (macOf m), len pre + len field).
Proof using Hnet Hm.
  pose proof field_reads as (a & b & Hn & Ha & Hb & Hl & Hs & Hlen). cbv zeta in *.
  replace (len pre + len field) with (len pre + 2 + 1 + len m) by (unfold field; len_lia).
  pose proof (len_nonneg m). pose proof (len_nonneg rest). unfold parseDestination, MaxMACLength in *.
  rewrite Hlen. decide_test. decide_test. rewrite Ha, bind_Ok_l, Hb, bind_Ok_l, Hn. cbv zeta.
  decide_test. decide_test. replace (len pre + 2) with (len pre + 1 + 1) at 1 by lia. rewrite Hl, bind_Ok_l.
  decide_test. decide_test. decide_test. decide_test. rewrite Hs, bind_Ok_l, NewMAC_ok by done. rewrite bind_Ok_l.
  destruct (net =? 0xFFFF) eqn:E1; [done|]. by destruct (net =? 0), (len m =? 0).
Qed.

Lemma parseSource_field : 1 <= len m ->
  parseSource (pre ++ field ++ rest) (len pre) =
    if net =? 0xFFFF then Err ErrMalformed
    else Ok (if net =? 0 then LocalStation (macOf m) else RemoteStation net (macOf m), len pre + len field).
Proof using Hnet Hm.
  intros Hm1. pose proof field_reads as (a & b & Hn & Ha & Hb & Hl & Hs & Hlen). cbv zeta in *.
  replace (len pre + len field) with (len pre + 2 + 1 + len m) by (unfold field; len_lia).
  pose proof (len_nonneg rest). unfold parseSource, MaxMACLength in *.
  rewrite Hlen. decide_test. decide_test. rewrite Ha, bind_Ok_l, Hb, bind_Ok_l, Hn. cbv zeta.
  decide_test. decide_test. replace (len pre + 2) with (len pre + 1 + 1) at 1 by lia. rewrite Hl, bind_Ok_l.
  rewrite (proj2 (Z.eqb_neq (len m) 0)), orb_false_l by lia.
  decide_test. decide_test. decide_test. decide_test. rewrite Hs, bind_Ok_l, NewMAC_ok by done. rewrite bind_Ok_l.
  destruct (net =? 0xFFFF) eqn:E1; [done|]. by destruct (net =? 0).
Qed.
End AddressField.

(** Octets that start with a complete field. *)
Lemma field_split suf : bytes_ok suf -> 3 <= len suf ->
  (forall l, suf !! 2%nat = Some l -> 3 + l <= len suf) ->
  exists net m rest, is_u 16 net /\ suf = (be_put 2 net ++ [len m] ++ m) ++ rest.
Proof.
  intros Hok Hl Hs. destruct suf as [|a [|b [|l suf]]]; try len_lia.
  specialize (Hs l eq_refl). inversion_clear Hok as [|? ? Ha Hok']. inversion_clear Hok' as [|? ? Hb Hok''].
  inversion_clear Hok'' as [|? ? Hlb Hok]. destruct (net16_bytes a b Ha Hb) as [He Hp].
  assert (0 <= l <= len suf) by (unfold is_u in *; len_lia).
  exists (net16 a b), (take (Z.to_nat l) suf), (drop (Z.to_nat l) suf).
  rewrite He in *. unfold is_u in *. split; [lia|]. rewrite Hp, <- !app_assoc, take_drop.
  simpl. do 3 f_equal. unfold len in *. rewrite length_take. lia.
Qed.

Lemma index_third (pre suf : bytes) l : index (pre ++ suf) (len pre + 2) = Ok l -> suf !! 2%nat = Some l.
Proof.
  rewrite (index_cursor _ _ _ 2) by lia. unfold index. change (Z.to_nat 2) with 2%nat.
  cbn [Z.ltb Z.compare]. by destruct (suf !! 2%nat); [intros [= ->]|].
Qed.

Lemma parseDestination_shape pre suf r : bytes_ok suf -> parseDestination (pre ++ suf) (len pre) = Ok r ->
  exists net m rest, is_u 16 net /\ len m <= MaxMACLength /\ suf = (be_put 2 net ++ [len m] ++ m) ++ rest.
Proof.
  intros Hok H. unfold parseDestination in H. step_if H; [done|].
  apply bind_Ok_inv in H as (a & _ & H). apply bind_Ok_inv in H as (b & _ & H). cbv zeta in H.
  step_if H; [done|]. apply bind_Ok_inv in H as (l & Hl & H). apply index_third in Hl.
  step_if H; [done|]. step_if H; [done|]. clear H. rewrite len_app in *.
  destruct (field_split suf) as (net & m & rest & Hn & ->); [done|bool_to_prop; lia|..].
  { intros l' Hl'. rewrite Hl in Hl'. injection Hl' as <-. bool_to_prop. lia. }
  exists net, m, rest. split_and!; try done. bool_to_prop.
  cbn in Hl. injection Hl as <-. lia.
Qed.

Lemma parseSource_shape pre suf r : bytes_ok suf -> parseSource (pre ++ suf) (len pre) = Ok r ->
  exists net m rest, is_u 16 net /\ 1 <= len m <= MaxMACLength /\ suf = (be_put 2 net ++ [len m] ++ m) ++ rest.
Proof.
  intros Hok H. unfold parseSource in H. step_if H; [done|].
  apply bind_Ok_inv in H as (a & _ & H). apply bind_Ok_inv in H as (b & _ & H). cbv zeta in H.
  step_if H; [done|]. apply bind_Ok_inv in H as (l & Hl & H). apply index_third in Hl.
  step_if H; [done|]. step_if H; [done|]. clear H. rewrite len_app in *.
  destruct (field_split suf) as (net & m & rest & Hn & ->); [done|bool_to_prop; lia|..].
  { intros l' Hl'. rewrite Hl in Hl'. injection Hl' as <-. bool_to_prop. lia. }
  exists net, m, rest. split_and!; try done; bool_to_prop; cbn in Hl; injection Hl as <-; len_lia.
Qed.

(** The parsers accept exactly the address fields of the format. *)
Lemma parseDestination_iff pre suf a off : bytes_ok suf ->
  parseDestination (pre ++ suf) (len pre) = Ok (a, off) <->
  exists o rest, suf = o ++ rest /\ dest_wire a o /\ off = len pre + len o.
Proof.
  intros Hok. split.
  - intros H. destruct (parseDestination_shape _ _ _ Hok H) as (net & m & rest & Hn & Hm & ->).
    rewrite parseDestination_field in H by done.
    destruct (net =? 0xFFFF) eqn:E1; [|destruct (net =? 0) eqn:E0; [done|]; destruct (len m =? 0) eqn:Em]; bool_to_prop.
    + destruct (negb _) eqn:Em; [done|]. bool_to_prop. apply len_zero_nil in Em as ->.
      injection H as <- <-. subst net. eexists _, rest. split_and!; [done|constructor|done].
    + apply len_zero_nil in Em as ->. injection H as <- <-. eexists _, rest.
      split_and!; [done| |done]. apply dw_broadcast. unfold is_u in Hn. lia.
    + injection H as <- <-. eexists _, rest. split_and!; [done| |done].
      apply dw_station; unfold is_u in Hn; len_lia.
  - intros (o & rest & -> & Hw & ->). destruct Hw as [|net Hn|net m Hn Hm].
    + by apply (parseDestination_field pre rest [] 0xFFFF).
    + etransitivity; [apply (parseDestination_field pre rest [] net)|]; [unfold is_u; lia|done|].
      decide_test. by decide_test.
    + rewrite (parseDestination_field pre rest m net) by (unfold is_u; lia). decide_test. decide_test.
      by decide_test.
Qed.

Lemma parseSource_iff pre suf a off : bytes_ok suf ->
  parseSource (pre ++ suf) (len pre) = Ok (a, off) <->
  exists o rest, suf = o ++ rest /\ src_wire a o /\ off = len pre + len o.
Proof.
  intros Hok. split.
  - intros H. destruct (parseSource_shape _ _ _ Hok H) as (net & m & rest & Hn & Hm & ->).
    rewrite parseSource_field in H by (done || lia).
    destruct (net =? 0xFFFF) eqn:E1; [done|destruct (net =? 0) eqn:E0]; bool_to_prop; injection H as <- <-;
      subst; eexists _, rest; (split_and!; [done| |done]).
    + by apply sw_local.
    + apply sw_remote; unfold is_u in Hn; lia.
  - intros (o & rest & -> & Hw & ->). destruct Hw as [m Hm|net m Hn Hm].
    + rewrite (parseSource_field pre rest m 0) by (unfold is_u; lia). done.
    + rewrite (parseSource_field pre rest m net) by (unfold is_u; lia). decide_test. by decide_test.
Qed.

(** [Append] writes the same fields. *)
Lemma dest_wire_Append a o : dest_wire a o -> checkDestination a = Ok true /\ destinationOctets a = Ok o.
Proof.
  destruct 1 as [|net Hn|net m Hn Hm]; [done|..]; unfold checkDestination, validateRemoteNetwork, destinationOctets, macLength;
    cbn [a_scope a_network a_mac RemoteBroadcast RemoteStation];
    rewrite (proj2 (Z.eqb_neq net 0)), (proj2 (Z.eqb_neq net 0xFFFF)) by lia; [done|].
  rewrite MACBytes_macOf. unfold IsZero, macOf, MaxMACLength in *. cbn [orb bind mac_length].
  decide_tests. rewrite bind_Ok_l, uwrap_small by (unfold is_u; lia). done.
Qed.

Lemma src_wire_Append a o : src_wire a o -> checkSource a = Ok true /\ sourceOctets a = Ok o.
Proof.
  destruct 1 as [m Hm|net m Hn Hm]; unfold checkSource, validateRemoteNetwork, sourceOctets, macLength;
    cbn [a_scope a_network a_mac LocalStation RemoteStation]; rewrite MACBytes_macOf;
    unfold IsZero, macOf, MaxMACLength in *; cbn [mac_length].
  - decide_tests. rewrite bind_Ok_l, uwrap_small by (unfold is_u; lia). done.
  - decide_tests. rewrite bind_Ok_l, uwrap_small by (unfold is_u; lia). done.
Qed.

(** ** [Parse] against the format

    Each optional block of [Parse], at a cursor. *)
Lemma optDestination_iff (hd : bool) pre suf a off : bytes_ok suf ->
  (if hd then parseDestination (pre ++ suf) (len pre) else Ok (zeroAddress, len pre)) = Ok (a, off) <->
  exists o rest, suf = o ++ rest /\ (if hd then dest_wire a o else a = zeroAddress /\ o = []) /\ off = len pre + len o.
Proof.
  intros Hok. destruct hd; [by apply parseDestination_iff|]. split.
  - intros [= <- <-]. exists [], suf. split_and!; try done. len_lia.
  - intros (o & rest & -> & [-> ->] & ->). f_equal. f_equal. len_lia.
Qed.

Lemma optSource_iff (hs : bool) pre suf a off : bytes_ok suf ->
  (if hs then parseSource (pre ++ suf) (len pre) else Ok (zeroAddress, len pre)) = Ok (a, off) <->
  exists o rest, suf = o ++ rest /\ (if hs then src_wire a o else a = zeroAddress /\ o = []) /\ off = len pre + len o.
Proof.
  intros Hok. destruct hs; [by apply parseSource_iff|]. split.
  - intros [= <- <-]. exists [], suf. split_and!; try done. len_lia.
  - intros (o & rest & -> & [-> ->] & ->). f_equal. f_equal. len_lia.
Qed.

Lemma optHop_iff (hd : bool) (pre suf : bytes) h off :
  (if hd then if len pre >=? len (pre ++ suf) then Err ErrMalformed
              else let* h := index (pre ++ suf) (len pre) in Ok (h, len pre + 1)
   else Ok (0, len pre)) = Ok (h, off) <->
  exists o rest, suf = o ++ rest /\ (if hd then o = [h] else h = 0 /\ o = []) /\ off = len pre + len o.
Proof.
  destruct hd.
  - destruct suf as [|x suf].
    + rewrite app_nil_r. decide_test. decide_test. split; [done|].
      intros (o & rest & H & -> & _). done.
    + decide_test. decide_test. rewrite index_app by done. rewrite bind_Ok_l. split.
      * intros [= <- <-]. by exists [x], suf.
      * intros (o & rest & H & -> & ->). by injection H as -> <-.
  - split.
    + intros [= <- <-]. exists [], suf. split_and!; try done. len_lia.
    + intros (o & rest & -> & [-> ->] & ->). f_equal. f_equal. len_lia.
Qed.

Lemma npdu_sound data limits n k : bytes_ok data -> Parse data limits = Ok (n, k) ->
  npdu_wire n data /\ k = len data.
Proof.
  intros Hok H. unfold Parse in H. cbv zeta in H. step_if H; [done|]. step_if H; [done|].
  destruct data as [|v [|c suf]]; [done..|]. rewrite index_0, bind_Ok_l, index_1, bind_Ok_l in H.
  inversion_clear Hok as [|? ? _ Hok']. inversion_clear Hok' as [|? ? Hc Hsuf].
  step_if H; [done|]. step_if H; [done|]. apply negb_false_iff, Z.eqb_eq in E1 as ->.
  pose proof (ctl_of_fields c Hc E2) as Hctl. remember (bit c ControlDestinationSpec) as hd. remember (bit c ControlSourceSpec) as hs.
  assert (0 <= Z.land c ControlPriorityMask < 4) as Hp.
  { rewrite (land_ones_mod _ 2) by done. apply (Z.mod_pos_bound _ 4). lia. }
  apply bind_Ok_inv in H as ([da o1] & Hd & H). apply (optDestination_iff _ [Version1; c] suf) in Hd as (d & r1 & -> & Hd & Ho1); [|done].
  apply Forall_app in Hsuf as [_ Hr1].
  replace (Version1 :: c :: d ++ r1) with (([Version1; c] ++ d) ++ r1) in * by (by rewrite <- app_assoc).
  rewrite <- len_app in Ho1. subst o1.
  apply bind_Ok_inv in H as ([sa o2] & Hs & H). apply optSource_iff in Hs as (s & r2 & -> & Hs & Ho2); [|done].
  rewrite app_assoc in *. rewrite <- len_app in Ho2. subst o2.
  apply bind_Ok_inv in H as ([h o3] & Hh & H). apply optHop_iff in Hh as (hop & body & -> & Hh & Ho3).
  rewrite app_assoc in *. rewrite <- len_app in Ho3. subst o3.
  destruct (bit c ControlNetworkMessage) eqn:Enm.
  - destruct (_ >=? _) eqn:E3; [done|]. destruct body as [|t body]; [rewrite app_nil_r in E3; bool_to_prop; lia|].
    rewrite index_app in H by done. rewrite bind_Ok_l, (slice_from_cursor _ _ _ 1) in H by lia.
    rewrite slice_from_1, bind_Ok_l in H. apply bind_Ok_inv in H as ([] & Hv & H). injection H as <- <-.
    split; [|done]. exists hd, hs, d, s, hop, (t :: body). cbn. rewrite <- !app_assoc. split_and!; auto; tauto.
  - rewrite slice_from_app in H by done. rewrite bind_Ok_l in H. injection H as <- <-.
    split; [|done]. exists hd, hs, d, s, hop, body. cbn. rewrite <- !app_assoc. split_and!; auto; tauto.
Qed.

Lemma npdu_complete data limits n : bytes_ok data -> len data <= MaxDatagramSize (Normalize limits) ->
  npdu_wire n data -> Parse data limits = Ok (n, len data).
Proof.
  intros Hok Hlen (hd & hs & d & s & hop & body & -> & Hv & Hp & Hc & Hd & Hs & Hh & Hb).
  destruct n as [v c da sa h nm t md apdu er p]. cbn [np_Version np_Control np_Destination np_Source np_HopCount
    np_NetworkMessage np_NetMsgType np_NetMsgData np_APDU np_ExpectingReply np_Priority] in *.
  destruct (ctl_fields nm er p hd hs Hp) as (Hr & Hnm & Her & Hpr & Hhd & Hhs & _). rewrite <- Hc in *. subst v.
  unfold Parse. cbv zeta. decide_test. decide_test.
  decide_test.
  change (index ([Version1; c] ++ d ++ s ++ hop ++ body) 0) with (Ok Version1).
  change (index ([Version1; c] ++ d ++ s ++ hop ++ body) 1) with (Ok c). rewrite !bind_Ok_l.
  change (negb (Version1 =? Version1)) with false. rewrite Hr, Hnm, Her, Hpr, Hhd, Hhs. cbv iota.
  apply Forall_app in Hok as [_ Hok]. apply Forall_app in Hok as [Hdo Hok].
  assert ((if hd then parseDestination ([Version1; c] ++ d ++ s ++ hop ++ body) 2 else Ok (zeroAddress, 2))
    = Ok (da, len ([Version1; c] ++ d))) as ->.
  { apply (optDestination_iff hd [Version1; c]); [by apply Forall_app|]. exists d, (s ++ hop ++ body). rewrite len_app. done. }
  rewrite bind_Ok_l, (app_assoc _ d).
  rewrite (proj2 (optSource_iff hs ([Version1; c] ++ d) (s ++ hop ++ body) sa (len ([Version1; c] ++ d) + len s) Hok)); [|by exists s, (hop ++ body)].
  rewrite bind_Ok_l, <- len_app, (app_assoc _ s).
  rewrite (proj2 (optHop_iff hd (([Version1; c] ++ d) ++ s) (hop ++ body) h (len (([Version1; c] ++ d) ++ s) + len hop))); [|by exists hop, body].
  rewrite bind_Ok_l, <- len_app, (app_assoc _ hop). set (pre := _ ++ hop). clearbody pre. destruct nm.
  - destruct Hb as (-> & -> & Hval). cbn [app]. decide_test. decide_test. rewrite index_app, bind_Ok_l by done.
    rewrite (slice_from_cursor _ _ _ 1) by lia. rewrite slice_from_1, bind_Ok_l, Hval, bind_Ok_l. done.
  - destruct Hb as (-> & -> & ->). rewrite slice_from_app by done. done.
Qed.

(** [Append] writes the frame of the format; a zero hop count becomes 255. *)
Lemma controlOctet_ctl n hd hs : 0 <= np_Priority n < 4 ->
  np_Control n = ctl (np_NetworkMessage n) (np_ExpectingReply n) (np_Priority n) hd hs ->
  controlOctet n hd hs = np_Control n.
Proof.
  intros Hp Hc. pose proof (ctl_fields (np_NetworkMessage n) (np_ExpectingReply n) (np_Priority n) hd hs Hp) as (_ & _ & Her & _).
  unfold controlOctet. rewrite <- Hc in Her. rewrite Her, orb_diag, (land_ones_mod _ 2), Z.mod_small by done.
  rewrite Hc. unfold ctl. destruct (np_NetworkMessage n), (np_ExpectingReply n), hd, hs; cbn [orb];
    rewrite ?Z.lor_0_r, ?Z.lor_0_l; done.
Qed.

Lemma Append_wire dst n data : npdu_wire n data ->
  (np_HopCount n = 0 -> bit (np_Control n) ControlDestinationSpec = false) -> Append dst n = Ok (dst ++ data).
Proof.
  intros (hd & hs & d & s & hop & body & -> & Hv & Hp & Hc & Hd & Hs & Hh & Hb) H0.
  pose proof (ctl_fields (np_NetworkMessage n) (np_ExpectingReply n) (np_Priority n) hd hs Hp) as (_ & _ & _ & _ & Hhd & _). rewrite <- Hc in Hhd.
  assert (checkDestination (np_Destination n) = Ok hd /\ (if hd then destinationOctets (np_Destination n) else Ok []) = Ok d) as [Hcd Hdo].
  { destruct hd; [by apply dest_wire_Append|]. by destruct Hd as [-> ->]. }
  assert (checkSource (np_Source n) = Ok hs /\ (if hs then sourceOctets (np_Source n) else Ok []) = Ok s) as [Hcs Hso].
  { destruct hs; [by apply src_wire_Append|]. by destruct Hs as [-> ->]. }
  unfold Append. rewrite Hv, Hcd, bind_Ok_l, Hcs, bind_Ok_l, Hdo, bind_Ok_l, Hso, bind_Ok_l. cbv zeta.
  rewrite (controlOctet_ctl n hd hs) by done. change (if Version1 =? 0 then Version1 else Version1) with Version1.
  replace (if hd then [if np_HopCount n =? 0 then 255 else np_HopCount n] else []) with hop.
  2: { destruct hd; [|by destruct Hh as [_ ->]]. rewrite Hh. destruct (np_HopCount n =? 0) eqn:E; [|done].
       bool_to_prop. specialize (H0 E). congruence. }
  destruct (np_NetworkMessage n); [destruct Hb as (-> & _ & _)|destruct Hb as (-> & _)]; by rewrite <- !app_assoc.
Qed.

(** ** Totality *)
Lemma networkListLoop_safe : forall d, safe (networkListLoop d).
Proof.
  fix IH 1. intros [|a [|b d]]; [done..|]. cbn [networkListLoop]. specialize (IH d). safe_steps.
Qed.
#[export] Hint Resolve networkListLoop_safe : go.

Lemma validateNetworkMessageData_safe t d : safe (validateNetworkMessageData t d).
Proof.
  unfold validateNetworkMessageData, DecodeNetworkList, DecodeRejectMessageToNetwork, DecodeICouldBeRouterToNetwork.
  safe_steps.
Qed.
#[export] Hint Resolve validateNetworkMessageData_safe : go.

Lemma NewMAC_safe m : safe (NewMAC m).
Proof. unfold NewMAC. safe_steps. Qed.
#[export] Hint Resolve NewMAC_safe : go.

Section Total.
Context (data : bytes) (Hok : bytes_ok data).

Lemma parseDestination_safe off : 0 <= off -> safe (parseDestination data off).
Proof using Hok.
  intros Ho. unfold parseDestination.
  assert (forall r i, index data i = Ok r -> 0 <= r) as Hr by (intros r i Hi; pose proof (index_bytes_ok _ _ _ Hi Hok); unfold is_u in *; lia).
  safe_steps. apply Hr in H1. safe_steps.
Qed.

Lemma parseSource_safe off : 0 <= off -> safe (parseSource data off).
Proof using Hok.
  intros Ho. unfold parseSource.
  assert (forall r i, index data i = Ok r -> 0 <= r) as Hr by (intros r i Hi; pose proof (index_bytes_ok _ _ _ Hi Hok); unfold is_u in *; lia).
  safe_steps. apply Hr in H1. safe_steps.
Qed.

Lemma parseDestination_off off a off' : 0 <= off -> parseDestination data off = Ok (a, off') -> 0 <= off' <= len data.
Proof using Hok.
  intros Ho H. unfold parseDestination in H. inv_all H;
    match goal with Hi : index data (off + 2) = Ok _ |- _ => apply index_bytes_ok in Hi; [unfold is_u in Hi; lia|done] end.
Qed.

Lemma parseSource_off off a off' : 0 <= off -> parseSource data off = Ok (a, off') -> 0 <= off' <= len data.
Proof using Hok.
  intros Ho H. unfold parseSource in H. inv_all H;
    match goal with Hi : index data (off + 2) = Ok _ |- _ => apply index_bytes_ok in Hi; [unfold is_u in Hi; lia|done] end.
Qed.

Lemma npdu_safe limits : safe (Parse data limits).
Proof using Hok.
  unfold Parse. cbv zeta. do 2 (safe_step; [done|]). do 2 (safe_step; [safe_step|]). do 2 (safe_step; [done|]).
  generalize (bit a0 ControlDestinationSpec) as hd, (bit a0 ControlSourceSpec) as hs. intros.
  apply safe_bind. { destruct hd; [by apply parseDestination_safe|done]. }
  intros [d o1] Hd. assert (0 <= o1 <= len data) as Ho1.
  { destruct hd; [by apply (parseDestination_off 2 d)|]. injection Hd as _ <-. lia. }
  apply safe_bind. { destruct hs; [apply parseSource_safe; lia|done]. }
  intros [s o2] Hs. assert (0 <= o2 <= len data) as Ho2.
  { destruct hs; [apply (parseSource_off o1 s); [lia|done]|]. injection Hs as _ <-. lia. }
  apply safe_bind. { safe_steps. }
  intros [h o3] Hh. assert (0 <= o3 <= len data) as Ho3.
  { destruct hd; inv_all Hh; lia. }
  safe_steps.
Qed.
End Total.

(** ** What [Append] sends

    [made a]: [a] comes from a constructor of the package; the fields of an
    [Address] are not exported. *)
Inductive made : Address -> Prop :=
| made_local m : len m <= MaxMACLength -> bytes_ok m -> made (LocalStation (macOf m))
| made_local_broadcast : made LocalBroadcast
| made_remote net m : is_u 16 net -> len m <= MaxMACLength -> bytes_ok m -> made (RemoteStation net (macOf m))
| made_remote_broadcast net : is_u 16 net -> made (RemoteBroadcast net)
| made_global : made GlobalBroadcast.

(** The receiver's view of [n]: local destinations and absent sources are not
    on the wire, the control octet is rebuilt from the typed fields, and a
    zero hop count is sent as 255. *)
Definition received (n : NPDU) (hd hs : bool) : NPDU :=
  let er := np_ExpectingReply n || bit (np_Control n) ControlExpectingReply in
  let p := Z.land (np_Priority n) ControlPriorityMask in
  mkNPDU Version1 (ctl (np_NetworkMessage n) er p hd hs)
    (if hd then np_Destination n else zeroAddress) (if hs then np_Source n else zeroAddress)
    (if hd then if np_HopCount n =? 0 then 255 else np_HopCount n else 0)
    (np_NetworkMessage n) (if np_NetworkMessage n then np_NetMsgType n else 0)
    (if np_NetworkMessage n then np_NetMsgData n else []) (if np_NetworkMessage n then [] else np_APDU n) er p.

Lemma validateRemoteNetwork_Ok net u : is_u 16 net -> validateRemoteNetwork net = Ok u -> 0 < net < 0xFFFF.
Proof. unfold validateRemoteNetwork, is_u. intros Hn H. step_if H; [done|]. bool_to_prop. lia. Qed.

Lemma IsZero_macOf m : IsZero (macOf m) = (len m =? 0).
Proof. done. Qed.

Lemma checkDestination_wire a hd : made a -> checkDestination a = Ok hd ->
  if hd then exists o, dest_wire a o /\ bytes_ok o else True.
Proof.
  intros Ha H. destruct Ha as [m Hm Hok| |net m Hn Hm Hok|net Hn|]; cbn in H; try by injection H as <-.
  - apply bind_Ok_inv in H as (u & Hu & H). apply validateRemoteNetwork_Ok in Hu; [|done].
    rewrite IsZero_macOf in H. step_if H; [done|]. injection H as <-. bool_to_prop.
    eexists. split; [apply dw_station; [done|len_lia]|]. unfold MaxMACLength in *. pose proof (len_nonneg m). solve_bytes.
  - apply bind_Ok_inv in H as (u & Hu & H). apply validateRemoteNetwork_Ok in Hu; [|done]. injection H as <-.
    eexists. split; [by apply dw_broadcast|solve_bytes].
  - injection H as <-. eexists. split; [constructor|solve_bytes].
Qed.

Lemma checkSource_wire a hs : made a -> checkSource a = Ok hs ->
  if hs then exists o, src_wire a o /\ bytes_ok o else True.
Proof.
  intros Ha H. destruct Ha as [m Hm Hok| |net m Hn Hm Hok|net Hn|]; cbn in H; try by injection H as <-.
  - rewrite IsZero_macOf in H. destruct (len m =? 0) eqn:E; injection H as <-; [done|]. bool_to_prop.
    eexists. split; [apply sw_local; len_lia|]. unfold MaxMACLength in *. pose proof (len_nonneg m). solve_bytes.
  - rewrite IsZero_macOf in H. destruct (len m =? 0) eqn:E; [by injection H as <-|]. cbn [negb] in H.
    apply bind_Ok_inv in H as (u & Hu & H). apply validateRemoteNetwork_Ok in Hu; [|done]. injection H as <-. bool_to_prop.
    eexists. split; [apply sw_remote; [done|len_lia]|]. unfold MaxMACLength in *. pose proof (len_nonneg m). solve_bytes.
Qed.

(** An NPDU whose fields have their Go types and that [Append] is meant for. *)
Record sendable (n : NPDU) : Prop := {
  sd_version : np_Version n = 0 \/ np_Version n = Version1;
  sd_dest : made (np_Destination n);
  sd_src : made (np_Source n);
  sd_hop : is_byte (np_HopCount n);
  sd_type : is_byte (np_NetMsgType n);
  sd_data : bytes_ok (np_NetMsgData n);
  sd_apdu : bytes_ok (np_APDU n);
  sd_msg : np_NetworkMessage n = true -> validateNetworkMessageData (np_NetMsgType n) (np_NetMsgData n) = Ok tt
}.

Lemma priority_range p : 0 <= Z.land p ControlPriorityMask < 4.
Proof. rewrite (land_ones_mod _ 2) by done. apply (Z.mod_pos_bound _ 4). lia. Qed.

Lemma Append_sends n hd hs : sendable n ->
  checkDestination (np_Destination n) = Ok hd -> checkSource (np_Source n) = Ok hs ->
  exists data, Append [] n = Ok data /\ npdu_wire (received n hd hs) data /\ bytes_ok data.
Proof.
  intros [Hv Hd Hs Hh Ht Hmd Hap Hmsg] Hcd Hcs.
  pose proof (checkDestination_wire _ _ Hd Hcd) as Hdw. pose proof (checkSource_wire _ _ Hs Hcs) as Hsw.
  pose proof (ctl_fields (np_NetworkMessage n) (np_ExpectingReply n || bit (np_Control n) ControlExpectingReply)
    (Z.land (np_Priority n) ControlPriorityMask) hd hs (priority_range _)) as (_ & _ & _ & _ & _ & _ & Hcb).
  assert (exists d, (if hd then dest_wire (np_Destination n) d else d = []) /\ bytes_ok d) as (d & Hdd & Hdb).
  { destruct hd; [done|]. exists []. by split. }
  assert (exists s, (if hs then src_wire (np_Source n) s else s = []) /\ bytes_ok s) as (s & Hss & Hsb).
  { destruct hs; [done|]. exists []. by split. }
  set (hop := if hd then [if np_HopCount n =? 0 then 255 else np_HopCount n] else []).
  set (body := if np_NetworkMessage n then [np_NetMsgType n] ++ np_NetMsgData n else np_APDU n).
  set (c := np_Control (received n hd hs)).
  assert (bytes_ok hop) by (unfold hop; destruct hd; [destruct (_ =? 0)|]; solve_bytes).
  assert (bytes_ok body) by (unfold body; destruct (np_NetworkMessage n); solve_bytes).
  exists ([Version1; c] ++ d ++ s ++ hop ++ body). split_and!.
  - assert ((if hd then destinationOctets (np_Destination n) else Ok []) = Ok d) as Hdo
      by (destruct hd; [by apply dest_wire_Append|by subst d]).
    assert ((if hs then sourceOctets (np_Source n) else Ok []) = Ok s) as Hso
      by (destruct hs; [by apply src_wire_Append|by subst s]).
    unfold Append. rewrite Hcd, bind_Ok_l, Hcs, bind_Ok_l, Hdo, bind_Ok_l, Hso, bind_Ok_l. cbv zeta.
    replace (if np_Version n =? 0 then Version1 else np_Version n) with Version1 by (by destruct Hv as [-> | ->]).
    replace (controlOctet n hd hs) with c.
    2: { unfold c, received, controlOctet, ctl. cbn [np_Control].
         destruct (np_NetworkMessage n), (np_ExpectingReply n || _), hd, hs; rewrite ?Z.lor_0_r, ?Z.lor_0_l; done. }
    unfold body, hop. destruct (np_NetworkMessage n); by rewrite <- !app_assoc.
  - exists hd, hs, d, s, hop, body. unfold received, body, hop. cbn. split_and!; try done; try apply priority_range.
    + by destruct hd.
    + by destruct hs.
    + by destruct hd.
    + destruct (np_NetworkMessage n); auto.
  - solve_bytes. done.
Qed.

(** ** Properties *)

(** C3. [Parse] accepts exactly the frames of the NPDU format: on an octet
    string it returns [n] and the whole length if and only if the string fits
    the datagram limit and is a frame that carries [n] (version 1, no
    reserved control bit, the address fields the control octet announces in
    the order DNET SNET hop, a valid network message), and on any other
    string it returns an error and never panics. *)
Theorem npdu_Parse_exact data limits : bytes_ok data ->
  (forall n k, Parse data limits = Ok (n, k) <->
     len data <= MaxDatagramSize (Normalize limits) /\ npdu_wire n data /\ k = len data) /\
  safe (Parse data limits).
Proof.
  intros Hok. split; [|by apply npdu_safe]. intros n k. split.
  - intros H. destruct (npdu_sound _ _ _ _ Hok H). split; [|done].
    unfold Parse in H. cbv zeta in H. step_if H; [done|]. bool_to_prop. lia.
  - intros (Hl & Hw & ->). by apply npdu_complete.
Qed.

(** An NPDU with a remote destination and an APDU of two octets. *)
Definition sampleNPDU : NPDU :=
  mkNPDU Version1 0x24 (RemoteStation 5 (macOf [10; 20])) zeroAddress 255 false 0 [] [16; 8] true 0.
Definition sampleFrame : bytes := [1; 0x24; 0; 5; 2; 10; 20; 255; 16; 8].

Lemma npdu_Parse_exact_witness :
  bytes_ok sampleFrame /\ Parse sampleFrame DefaultDecodeLimits = Ok (sampleNPDU, 10) /\ npdu_wire sampleNPDU sampleFrame.
Proof.
  assert (bytes_ok sampleFrame) as Hok by (unfold sampleFrame; solve_bytes). split; [done|].
  assert (Parse sampleFrame DefaultDecodeLimits = Ok (sampleNPDU, 10)) as Hp by reflexivity. split; [done|].
  destruct (npdu_Parse_exact sampleFrame DefaultDecodeLimits Hok) as [H _]. by apply H in Hp as (_ & Hw & _).
Defined.

(** [Append] inverts [Parse] octet for octet: a parsed frame encodes back
    to itself, whatever follows the buffer, unless it carries a destination
    with hop count 0, which [Append] replaces by 255. *)
Theorem npdu_Append_Parse data limits n k dst : bytes_ok data -> Parse data limits = Ok (n, k) ->
  (np_HopCount n = 0 -> bit (np_Control n) ControlDestinationSpec = false) -> Append dst n = Ok (dst ++ data).
Proof. intros Hok H Hh. apply Append_wire; [|done]. by eapply npdu_sound. Qed.

Lemma npdu_Append_Parse_witness :
  Parse sampleFrame DefaultDecodeLimits = Ok (sampleNPDU, 10) /\ Append [7] sampleNPDU = Ok (7 :: sampleFrame).
Proof.
  assert (Parse sampleFrame DefaultDecodeLimits = Ok (sampleNPDU, 10)) as Hp by reflexivity. split; [done|].
  apply (npdu_Append_Parse sampleFrame DefaultDecodeLimits sampleNPDU 10 [7]); [unfold sampleFrame; solve_bytes|done|done].
Defined.

(** Every NPDU built from the package's addresses that passes [Append]'s
    checks is sent, and the receiver parses the fields that were set:
    addresses, message or APDU, priority and the expecting-reply flag. Stale
    bits of [Control] are ignored, local destinations are not encoded and a
    zero hop count is sent as 255. [Append] fails only if a remote address
    names network 0 or 0xFFFF or a remote station has no MAC. *)
Theorem npdu_Parse_Append n limits : sendable n ->
  match Append [] n with
  | Ok data => exists hd hs, checkDestination (np_Destination n) = Ok hd /\ checkSource (np_Source n) = Ok hs /\
      (len data <= MaxDatagramSize (Normalize limits) -> Parse data limits = Ok (received n hd hs, len data))
  | Err e => e = ErrMalformed /\
      (checkDestination (np_Destination n) = Err ErrMalformed \/ checkSource (np_Source n) = Err ErrMalformed)
  end.
Proof.
  intros Hn. destruct (checkDestination (np_Destination n)) as [hd|e] eqn:Hd.
  2: { unfold Append. rewrite Hd. assert (e = ErrMalformed) as ->; [|cbn; auto].
       unfold checkDestination, validateRemoteNetwork in Hd. destruct (a_scope _); try done; destruct (_ || _); cbn in Hd;
         try congruence. destruct (IsZero _); congruence. }
  destruct (checkSource (np_Source n)) as [hs|e] eqn:Hs.
  2: { unfold Append. rewrite Hd, Hs. assert (e = ErrMalformed) as ->; [|cbn; auto].
       unfold checkSource, validateRemoteNetwork in Hs. destruct (a_scope _); try done; destruct (negb _); try done;
         destruct (bool_decide _); try done; destruct (_ || _); cbn in Hs; congruence. }
  destruct (Append_sends n hd hs Hn Hd Hs) as (data & -> & Hw & Hok). exists hd, hs. split_and!; [done..|].
  intros Hl. by apply npdu_complete.
Qed.

Lemma npdu_Parse_Append_witness :
  Append [] sampleNPDU = Ok sampleFrame /\ Parse sampleFrame DefaultDecodeLimits = Ok (received sampleNPDU true false, 10).
Proof.
  split; [reflexivity|].
  assert (sendable sampleNPDU) as Hn.
  { constructor; try (cbn; unfold is_u; lia); try (cbn; solve_bytes); try done.
    - apply made_remote; [unfold is_u; lia|done|solve_bytes].
    - apply (made_local []); [done|solve_bytes]. }
  pose proof (npdu_Parse_Append sampleNPDU DefaultDecodeLimits Hn) as (hd & hs & Hd & Hs & H).
  injection Hd as <-. injection Hs as <-. apply H. done.
Defined.
