(* ===== verification/Endpoint.v ===== *)
(** * B/IP endpoints: [bip/endpoint.go]

    What the code uses of [net/netip]: an [Addr] is invalid (the zero value),
    an IPv4 address or an IPv6 address with a zone; an [AddrPort] adds a
    port; both are comparable and ordered. *)

From Stdlib Require Import ZArith Lia.
From stdpp Require Import base list countable gmap.
From S2P Require Import Prelude.

Module netip.
Inductive Addr :=
| AddrZero
| Addr4 (ip : bytes)
| Addr6 (ip zone : bytes).
Record AddrPort := mkAddrPort { Addr_of : Addr; Port : Z }.

#[global] Instance Addr_eq_dec : EqDecision Addr.
Proof. solve_decision. Defined.
#[global] Instance AddrPort_eq_dec : EqDecision AddrPort.
Proof. solve_decision. Defined.
#[global] Instance Addr_countable : Countable Addr.
Proof.
  refine (inj_countable'
    (fun a => match a with AddrZero => None | Addr4 ip => Some (inl ip) | Addr6 ip z => Some (inr (ip, z)) end)
    (fun c => match c with None => AddrZero | Some (inl ip) => Addr4 ip | Some (inr (ip, z)) => Addr6 ip z end) _).
  by intros [].
Defined.
#[global] Instance AddrPort_countable : Countable AddrPort.
Proof.
  refine (inj_countable' (fun a => (Addr_of a, Port a)) (fun c => mkAddrPort c.1 c.2) _). by intros [].
Defined.

Definition AddrFrom4 (ip : bytes) : Addr := Addr4 ip.
Definition AddrPortFrom (a : Addr) (port : Z) : AddrPort := mkAddrPort a port.
Definition zeroAddrPort : AddrPort := mkAddrPort AddrZero 0.
Definition Addr_IsValid (a : Addr) : bool := match a with AddrZero => false | _ => true end.
Definition Is4 (a : Addr) : bool := match a with Addr4 _ => true | _ => false end.
Definition IsUnspecified (a : Addr) : bool :=
  match a with
  | AddrZero => false
  | Addr4 ip => bool_decide (ip = replicate 4 0)
  | Addr6 ip z => bool_decide (ip = replicate 16 0) && bool_decide (z = [])
  end.

(** [As4] unwraps an IPv4-mapped IPv6 address and panics on every other one. *)
Definition As4 (a : Addr) : result bytes :=
  match a with
  | Addr4 ip => Ok ip
  | Addr6 ip _ =>
      if bool_decide (take 12 ip = replicate 10 0 ++ [0xFF; 0xFF]) then Ok (drop 12 ip) else Err Panic
  | AddrZero => Err Panic
  end.

Definition AddrPort_IsValid (p : AddrPort) : bool := Addr_IsValid (Addr_of p).

(** [Compare]: by the width of the address, its bits, its zone, then the port. *)
Definition BitLen (a : Addr) : Z := match a with AddrZero => 0 | Addr4 _ => 32 | Addr6 _ _ => 128 end.
Fixpoint bytes_compare (l k : bytes) : comparison :=
  match l, k with
  | [], [] => Eq
  | [], _ => Lt
  | _, [] => Gt
  | a :: l, b :: k => match a ?= b with Eq => bytes_compare l k | c => c end
  end.
Definition Addr_Compare (a b : Addr) : comparison :=
  match BitLen a ?= BitLen b with
  | Eq => match a, b with
          | Addr4 x, Addr4 y => bytes_compare x y
          | Addr6 x z, Addr6 y w => match bytes_compare x y with Eq => bytes_compare z w | c => c end
          | _, _ => Eq
          end
  | c => c
  end.
Definition AddrPort_Compare (p q : AddrPort) : comparison :=
  match Addr_Compare (Addr_of p) (Addr_of q) with Eq => Port p ?= Port q | c => c end.
End netip.

Definition DefaultPort : Z := 47808.

Record Endpoint := mkEndpoint { ep_Addr : netip.AddrPort }.

#[global] Instance Endpoint_eq_dec : EqDecision Endpoint.
Proof. solve_decision. Defined.
#[global] Instance Endpoint_countable : Countable Endpoint.
Proof. refine (inj_countable' ep_Addr mkEndpoint _). by intros []. Defined.

Definition NewEndpoint (addr : netip.AddrPort) : Endpoint := mkEndpoint addr.
Definition IsValid (e : Endpoint) : bool :=
  netip.AddrPort_IsValid (ep_Addr e) && netip.Is4 (netip.Addr_of (ep_Addr e)).
Definition EndpointEqual (e o : Endpoint) : bool := bool_decide (ep_Addr e = ep_Addr o).
Definition zeroEndpoint : Endpoint := mkEndpoint netip.zeroAddrPort.

Lemma EndpointEqual_spec e o : EndpointEqual e o = bool_decide (e = o).
Proof. unfold EndpointEqual. apply bool_decide_ext. split; [|by intros ->]. destruct e, o; simpl; congruence. Qed.

(** ** The IPv4 endpoints of the wire: four octets and a port *)
Definition endpoint4 (ip : bytes) (port : Z) : Endpoint :=
  NewEndpoint (netip.AddrPortFrom (netip.AddrFrom4 ip) port).

(** An endpoint with the representation invariant of [net/netip]. *)
Definition ep_wf (e : Endpoint) : Prop :=
  is_u 16 (netip.Port (ep_Addr e)) /\
  match netip.Addr_of (ep_Addr e) with
  | netip.AddrZero => True
  | netip.Addr4 ip => length ip = 4%nat /\ bytes_ok ip
  | netip.Addr6 ip z => length ip = 16%nat /\ bytes_ok ip /\ bytes_ok z
  end.

Lemma IsValid_endpoint4 e : IsValid e = true -> ep_wf e ->
  exists ip port, e = endpoint4 ip port /\ length ip = 4%nat /\ bytes_ok ip /\ is_u 16 port.
Proof.
  destruct e as [[[|ip|ip z] port]]; try done. intros _ [Hp [Hl Hok]]. by exists ip, port.
Qed.

(** ** The order of endpoints is total *)
Lemma bytes_compare_eq l k : netip.bytes_compare l k = Eq <-> l = k.
Proof.
  revert k. induction l as [|a l IH]; intros [|b k]; cbn; try done.
  destruct (Z.compare_spec a b) as [->|H|H].
  - rewrite IH. split; [by intros ->|by intros [= ->]].
  - split; [done|]. intros [= -> ->]. lia.
  - split; [done|]. intros [= -> ->]. lia.
Qed.

Lemma bytes_compare_antisym l k : netip.bytes_compare k l = CompOpp (netip.bytes_compare l k).
Proof.
  revert k. induction l as [|a l IH]; intros [|b k]; cbn; try done.
  rewrite (Z.compare_antisym b a). destruct (b ?= a) eqn:E; cbn; auto.
Qed.
