(* ===== verification/Bvlc.v ===== *)
(** * The BACnet virtual link: [bvlc/codec.go] and [bvlc/tables.go] *)

From Stdlib Require Import ZArith Lia.
From stdpp Require Import base list.
From S2P Require Import Prelude Value Endpoint.

(** ** Constants *)
Definition TypeBACnetIP : Z := 0x81.
Definition FunctionResult : Z := 0x00.
Definition FunctionWriteBroadcastDistributionTable : Z := 0x01.
Definition FunctionReadBroadcastDistributionTable : Z := 0x02.
Definition FunctionReadBroadcastDistributionTableAck : Z := 0x03.
Definition FunctionForwardedNPDU : Z := 0x04.
Definition FunctionRegisterForeignDevice : Z := 0x05.
Definition FunctionReadForeignDeviceTable : Z := 0x06.
Definition FunctionReadForeignDeviceTableAck : Z := 0x07.
Definition FunctionDeleteForeignDeviceTableEntry : Z := 0x08.
Definition FunctionDistributeBroadcastToNetwork : Z := 0x09.
Definition FunctionOriginalUnicastNPDU : Z := 0x0A.
Definition FunctionOriginalBroadcastNPDU : Z := 0x0B.

Definition ResultSuccessfulCompletion : Z := 0x0000.
Definition ResultWriteBroadcastDistributionTableNAK : Z := 0x0010.
Definition ResultReadBroadcastDistributionTableNAK : Z := 0x0020.
Definition ResultRegisterForeignDeviceNAK : Z := 0x0030.
Definition ResultReadForeignDeviceTableNAK : Z := 0x0040.
Definition ResultDeleteForeignDeviceTableEntryNAK : Z := 0x0050.
Definition ResultDistributeBroadcastToNetworkNAK : Z := 0x0060.

Record Message := mkMessage {
  m_Function : Z;
  m_Payload : bytes;
  m_OriginIP : bytes;
  m_OriginPort : Z;
  m_ResultCode : Z;
  m_TTL : Z
}.

Definition zeroIP : bytes := [0; 0; 0; 0].

(** ** Framing *)
Definition Parse (data : bytes) (limits : DecodeLimits) : result Message :=
  let limits := Normalize limits in
  if len data <? 4 then Err ErrMalformed
  else if len data >? MaxDatagramSize limits then Err ErrLimitExceeded
  else
    let* t := index data 0 in
    if negb (t =? TypeBACnetIP) then Err ErrMalformed else
    let* fn := index data 1 in
    let* l := slice data 2 4 in
    let declared := be_get l in
    if negb (declared =? len data) then Err ErrMalformed else
    let* body := slice_from data 4 in
    if fn =? FunctionResult then
      if negb (len body =? 2) then Err ErrMalformed
      else Ok (mkMessage fn [] zeroIP 0 (be_get body) 0)
    else if fn =? FunctionForwardedNPDU then
      if len body <? 6 then Err ErrMalformed
      else
        let* origin := slice body 0 4 in
        let* port := slice body 4 6 in
        let* payload := slice_from body 6 in
        Ok (mkMessage fn payload origin (be_get port) 0 0)
    else if fn =? FunctionRegisterForeignDevice then
      if negb (len body =? 2) then Err ErrMalformed
      else Ok (mkMessage fn [] zeroIP 0 0 (be_get body))
    else Ok (mkMessage fn body zeroIP 0 0 0).

(** [binary.BigEndian.PutUint16(dst[off:off+2], v)] *)
Definition put16 (dst : bytes) (off v : Z) : result bytes :=
  let* _ := slice dst off (off + 2) in
  Ok (take (Z.to_nat off) dst ++ be_put 2 v ++ drop (Z.to_nat (off + 2)) dst).

Definition Append (dst : bytes) (msg : Message) : result bytes :=
  let start := len dst in
  let dst := dst ++ [TypeBACnetIP; m_Function msg; 0; 0] in
  let dst :=
    if m_Function msg =? FunctionResult then dst ++ be_put 2 (m_ResultCode msg)
    else if m_Function msg =? FunctionRegisterForeignDevice then dst ++ be_put 2 (m_TTL msg)
    else if m_Function msg =? FunctionForwardedNPDU then
      dst ++ m_OriginIP msg ++ be_put 2 (m_OriginPort msg) ++ m_Payload msg
    else dst ++ m_Payload msg in
  let total := len dst - start in
  if total >? 65535 then Err ErrMalformed
  else if total <? 0 then Err ErrMalformed
  else put16 dst (start + 2) (u16 total).

Definition OriginAddrPort (m : Message) : netip.AddrPort * bool :=
  if negb (m_Function m =? FunctionForwardedNPDU) then (netip.zeroAddrPort, false)
  else (netip.AddrPortFrom (netip.AddrFrom4 (m_OriginIP m)) (m_OriginPort m), true).

(** ** Broadcast distribution masks *)

(** The loop over the bits of one octet, from bit [i - 1] down; [None] is the
    early [return false]. *)
Fixpoint contiguousBits (seenZero : bool) (b : Z) (i : nat) : option bool :=
  match i with
  | O => Some seenZero
  | S i =>
      let bit := Z.land (Z.shiftr b (Z.of_nat i)) 1 in
      if bit =? 0 then contiguousBits true b i
      else if seenZero then None
      else contiguousBits seenZero b i
  end.
Fixpoint contiguousLoop (seenZero : bool) (m : bytes) : bool :=
  match m with
  | [] => true
  | b :: m =>
      match contiguousBits seenZero b 8 with
      | Some seenZero => contiguousLoop seenZero m
      | None => false
      end
  end.
Definition Contiguous (m : bytes) : bool := contiguousLoop false m.

(** ** Tables *)
Record BDTEntry := mkBDTEntry { bdt_Endpoint : Endpoint; bdt_Mask : bytes }.
Record FDTEntry := mkFDTEntry { fdt_Address : Endpoint; fdt_TTL : Z; fdt_Remaining : Z }.

Definition NewBDTEntry (ep : Endpoint) (mask : bytes) : result BDTEntry :=
  if negb (IsValid ep) then Err ErrMalformed
  else if negb (Contiguous mask) then Err ErrMalformed
  else Ok (mkBDTEntry ep mask).

(** The address and port of a valid endpoint, six octets. *)
Definition endpointOctets (ep : Endpoint) : result bytes :=
  let* ip := netip.As4 (netip.Addr_of (ep_Addr ep)) in
  Ok (ip ++ be_put 2 (netip.Port (ep_Addr ep))).

Fixpoint EncodeBDTEntries (dst : bytes) (entries : list BDTEntry) : result bytes :=
  match entries with
  | [] => Ok dst
  | e :: entries =>
      if negb (IsValid (bdt_Endpoint e)) then Err ErrMalformed
      else if negb (Contiguous (bdt_Mask e)) then Err ErrMalformed
      else
        let* o := endpointOctets (bdt_Endpoint e) in
        EncodeBDTEntries (dst ++ o ++ bdt_Mask e) entries
  end.

(** The endpoint in the six octets at [off]. *)
Definition readEndpoint (payload : bytes) (off : Z) : result Endpoint :=
  let* ip := slice payload off (off + 4) in
  let* port := slice payload (off + 4) (off + 6) in
  Ok (NewEndpoint (netip.AddrPortFrom (netip.AddrFrom4 ip) (be_get port))).

(** [for i := range n] of the decoders: [k] entries left, the next one [i]. *)
Fixpoint decodeBDTLoop (payload : bytes) (i : Z) (k : nat) : result (list BDTEntry) :=
  match k with
  | O => Ok []
  | S k =>
      let off := i * 10 in
      let* ep := readEndpoint payload off in
      let* mask := slice payload (off + 6) (off + 10) in
      if negb (IsValid ep) then Err ErrMalformed
      else let* out := decodeBDTLoop payload (i + 1) k in Ok (mkBDTEntry ep mask :: out)
  end.
Definition DecodeBDTEntries (payload : bytes) (limits : DecodeLimits) : result (list BDTEntry) :=
  let limits := Normalize limits in
  if negb (len payload mod 10 =? 0) then Err ErrMalformed
  else
    let n := len payload / 10 in
    if n >? MaxElements limits then Err ErrLimitExceeded
    else decodeBDTLoop payload 0 (Z.to_nat n).

Fixpoint EncodeFDTEntries (dst : bytes) (entries : list FDTEntry) : result bytes :=
  match entries with
  | [] => Ok dst
  | e :: entries =>
      if negb (IsValid (fdt_Address e)) then Err ErrMalformed
      else
        let* o := endpointOctets (fdt_Address e) in
        EncodeFDTEntries (dst ++ o ++ be_put 2 (fdt_TTL e) ++ be_put 2 (fdt_Remaining e)) entries
  end.

Fixpoint decodeFDTLoop (payload : bytes) (i : Z) (k : nat) : result (list FDTEntry) :=
  match k with
  | O => Ok []
  | S k =>
      let off := i * 10 in
      let* ep := readEndpoint payload off in
      let* ttl := slice payload (off + 6) (off + 8) in
      let* rem := slice payload (off + 8) (off + 10) in
      if negb (IsValid ep) then Err ErrMalformed
      else let* out := decodeFDTLoop payload (i + 1) k in Ok (mkFDTEntry ep (be_get ttl) (be_get rem) :: out)
  end.
Definition DecodeFDTEntries (payload : bytes) (limits : DecodeLimits) : result (list FDTEntry) :=
  let limits := Normalize limits in
  if negb (len payload mod 10 =? 0) then Err ErrMalformed
  else
    let n := len payload / 10 in
    if n >? MaxElements limits then Err ErrLimitExceeded
    else decodeFDTLoop payload 0 (Z.to_nat n).

Definition EncodeDeleteFDTEntry (dst : bytes) (ep : Endpoint) : result bytes :=
  if negb (IsValid ep) then Err ErrMalformed
  else let* o := endpointOctets ep in Ok (dst ++ o).

Definition DecodeDeleteFDTEntry (payload : bytes) : result Endpoint :=
  if negb (len payload =? 6) then Err ErrMalformed
  else
    let* ep := readEndpoint payload 0 in
    if negb (IsValid ep) then Err ErrMalformed else Ok ep.

(** ** The frame format *)

(** The body of a message, and that the fields its function does not carry
    are zero. *)
Definition bodyOf (m : Message) : bytes :=
  if m_Function m =? FunctionResult then be_put 2 (m_ResultCode m)
  else if m_Function m =? FunctionRegisterForeignDevice then be_put 2 (m_TTL m)
  else if m_Function m =? FunctionForwardedNPDU then m_OriginIP m ++ be_put 2 (m_OriginPort m) ++ m_Payload m
  else m_Payload m.

Definition canonical (m : Message) : Prop :=
  if m_Function m =? FunctionResult then
    is_u 16 (m_ResultCode m) /\ m_Payload m = [] /\ m_OriginIP m = zeroIP /\ m_OriginPort m = 0 /\ m_TTL m = 0
  else if m_Function m =? FunctionRegisterForeignDevice then
    is_u 16 (m_TTL m) /\ m_Payload m = [] /\ m_OriginIP m = zeroIP /\ m_OriginPort m = 0 /\ m_ResultCode m = 0
  else if m_Function m =? FunctionForwardedNPDU then
    is_u 16 (m_OriginPort m) /\ len (m_OriginIP m) = 4 /\ m_ResultCode m = 0 /\ m_TTL m = 0
  else m_OriginIP m = zeroIP /\ m_OriginPort m = 0 /\ m_ResultCode m = 0 /\ m_TTL m = 0.

Definition frame (m : Message) : bytes :=
  [TypeBACnetIP; m_Function m] ++ be_put 2 (4 + len (bodyOf m)) ++ bodyOf m.

Ltac msg_simpl := cbn [m_Function m_Payload m_OriginIP m_OriginPort m_ResultCode m_TTL] in *.

Lemma len_frame m : len (frame m) = 4 + len (bodyOf m).
Proof. unfold frame. len_lia. Qed.

Lemma put16_middle (pre a post : bytes) v off : len a = 2 -> off = len pre -> put16 (pre ++ a ++ post) off v = Ok (pre ++ be_put 2 v ++ post).
Proof.
  intros Ha ->. unfold put16. rewrite slice_app by len_lia. rewrite bind_Ok_l, Z_to_nat_len, take_app_length.
  replace (Z.to_nat (len pre + 2)) with (length (pre ++ a)) by (rewrite <- Z_to_nat_len, len_app; f_equal; lia).
  by rewrite (app_assoc pre a), drop_app_length.
Qed.

Lemma Append_body dst m :
  Append dst m = let total := 4 + len (bodyOf m) in
    if total >? 65535 then Err ErrMalformed
    else put16 (dst ++ [TypeBACnetIP; m_Function m; 0; 0] ++ bodyOf m) (len dst + 2) (u16 total).
Proof.
  unfold Append, bodyOf. set (pre := dst ++ [_; _; _; _]).
  assert (forall body, len (pre ++ body) - len dst = 4 + len body) as Ht by (intros; unfold pre; len_lia).
  assert (forall body : bytes, (4 + len body <? 0) = false) as Hn by (intros body; pose proof (len_nonneg body); lia).
  rewrite (app_assoc dst). fold pre.
  destruct (_ =? FunctionResult); [|destruct (_ =? FunctionRegisterForeignDevice); [|destruct (_ =? FunctionForwardedNPDU)]];
    cbv zeta; rewrite Ht, Hn; done.
Qed.

Lemma Append_frame dst m : 4 + len (bodyOf m) <= 65535 -> Append dst m = Ok (dst ++ frame m).
Proof.
  intros Hl. rewrite Append_body. cbv zeta. decide_test. decide_test. rewrite uwrap_small by (unfold is_u; len_lia).
  rewrite (app_assoc dst). change [TypeBACnetIP; m_Function m; 0; 0] with ([TypeBACnetIP; m_Function m] ++ [0; 0]).
  rewrite (app_assoc dst), <- app_assoc. rewrite put16_middle by len_lia. unfold frame. by rewrite <- !app_assoc.
Qed.

Lemma Append_spec dst m :
  Append dst m = if len (frame m) <=? 65535 then Ok (dst ++ frame m) else Err ErrMalformed.
Proof.
  rewrite len_frame. destruct (_ <=? _) eqn:E; bool_to_prop; [apply Append_frame; lia|].
  rewrite Append_body. cbv zeta. decide_test. by decide_test.
Qed.

Lemma Parse_header fn body limits : len body + 4 <= 65535 -> len body + 4 <= MaxDatagramSize (Normalize limits) ->
  Parse ([TypeBACnetIP; fn] ++ be_put 2 (4 + len body) ++ body) limits =
    if fn =? FunctionResult then
      if negb (len body =? 2) then Err ErrMalformed else Ok (mkMessage fn [] zeroIP 0 (be_get body) 0)
    else if fn =? FunctionForwardedNPDU then
      if len body <? 6 then Err ErrMalformed
      else
        let* origin := slice body 0 4 in let* port := slice body 4 6 in let* payload := slice_from body 6 in
        Ok (mkMessage fn payload origin (be_get port) 0 0)
    else if fn =? FunctionRegisterForeignDevice then
      if negb (len body =? 2) then Err ErrMalformed else Ok (mkMessage fn [] zeroIP 0 0 (be_get body))
    else Ok (mkMessage fn body zeroIP 0 0 0).
Proof.
  intros H1 H2. unfold Parse. cbv zeta. set (data := _ ++ _ ++ body).
  assert (len data = 4 + len body) as Hlen by (unfold data; len_lia). rewrite Hlen.
  rewrite (proj2 (Z.ltb_ge (4 + len body) 4)) by len_lia. rewrite Z.gtb_ltb.
  rewrite (proj2 (Z.ltb_ge (MaxDatagramSize (Normalize limits)) _)) by lia.
  change (index data 0) with (Ok TypeBACnetIP). change (index data 1) with (Ok fn). rewrite !bind_Ok_l.
  change (negb (TypeBACnetIP =? TypeBACnetIP)) with false. cbv iota. unfold data.
  rewrite slice_app by len_lia. rewrite bind_Ok_l, be_get_put16 by (unfold is_u; len_lia).
  rewrite Z.eqb_refl. cbn [negb]. rewrite app_assoc, slice_from_app, bind_Ok_l by len_lia. done.
Qed.

Lemma slice_two_four (ip port rest : bytes) : len ip = 4 -> len port = 2 ->
  slice (ip ++ port ++ rest) 0 4 = Ok ip /\ slice (ip ++ port ++ rest) 4 6 = Ok port /\
  slice_from (ip ++ port ++ rest) 6 = Ok rest.
Proof.
  intros Hi Hp. split_and!.
  - by apply slice_prefix.
  - apply slice_app; lia.
  - rewrite app_assoc. apply slice_from_app. len_lia.
Qed.

Lemma Parse_frame m limits : canonical m -> len (frame m) <= 65535 -> len (frame m) <= MaxDatagramSize (Normalize limits) ->
  Parse (frame m) limits = Ok m.
Proof.
  rewrite len_frame. intros Hc H1 H2. unfold frame. rewrite Parse_header by lia. clear H1 H2.
  destruct m as [fn pl ip port code ttl]. unfold canonical, bodyOf in *. msg_simpl.
  destruct (fn =? FunctionResult) eqn:E0.
  { destruct Hc as (Hr & -> & -> & -> & ->). rewrite len_be_put, be_get_put16 by done. done. }
  destruct (fn =? FunctionRegisterForeignDevice) eqn:E1.
  { destruct Hc as (Hr & -> & -> & -> & ->). rewrite len_be_put, be_get_put16 by done.
    bool_to_prop. by subst. }
  destruct (fn =? FunctionForwardedNPDU) eqn:E2.
  { destruct Hc as (Hr & Hl & -> & ->). decide_test.
    destruct (slice_two_four ip (be_put 2 port) pl Hl) as (-> & -> & ->); [done|]. rewrite !bind_Ok_l.
    by rewrite be_get_put16. }
  by destruct Hc as (-> & -> & -> & ->).
Qed.

Lemma split_at {A} (l : list A) n : 0 <= n <= len l -> exists a b, l = a ++ b /\ len a = n.
Proof.
  intros Hn. exists (take (Z.to_nat n) l), (drop (Z.to_nat n) l). rewrite take_drop. split; [done|].
  unfold len in *. rewrite length_take. lia.
Qed.

Lemma Parse_inv data limits m : bytes_ok data -> Parse data limits = Ok m ->
  canonical m /\ data = frame m /\ len data <= 65535 /\ len data <= MaxDatagramSize (Normalize limits).
Proof.
  intros Hok H. pose proof H as H'. unfold Parse in H. cbv zeta in H. step_if H; [done|]. step_if H; [done|].
  destruct data as [|t [|fn [|a [|b body]]]]; try done. rewrite index_0, bind_Ok_l in H. step_if H; [done|].
  rewrite index_1, bind_Ok_l in H. 
  assert (slice (t :: fn :: a :: b :: body) 2 4 = Ok [a; b]) as Hs by (by apply (slice_app [t; fn] [a; b] body)). rewrite Hs in H. clear Hs.
  rewrite bind_Ok_l in H. step_if H; [done|]. clear H. bool_to_prop. subst t.
  inversion_clear Hok as [|? ? _ Hok']. inversion_clear Hok' as [|? ? Hfn Hok]. inversion_clear Hok as [|? ? Ha Hok'].
  inversion_clear Hok' as [|? ? Hb Hbody].
  assert (bytes_ok [a; b]) as Hab by solve_bytes. pose proof (be_get_len_bound _ Hab eq_refl) as Hr. unfold is_u in Hr.
  assert ([a; b] = be_put 2 (4 + len body)) as Hl.
  { rewrite <- (be_put_len 2 [a; b]) by done. f_equal. rewrite E2. len_lia. }
  change (TypeBACnetIP :: fn :: a :: b :: body) with ([TypeBACnetIP; fn] ++ [a; b] ++ body) in *. rewrite Hl in *.
  assert (4 + len body <= 65535) by len_lia.
  rewrite Parse_header in H' by len_lia. unfold frame, bodyOf, canonical. clear Hr E2 Hl Hab.
  destruct (fn =? FunctionResult) eqn:F0.
  { step_if H'; [done|]. injection H' as <-. msg_simpl. rewrite F0. bool_to_prop. rewrite be_put_len by done.
    split_and!; try done; try len_lia. by apply be_get_len_bound. }
  destruct (fn =? FunctionForwardedNPDU) eqn:F1.
  { step_if H'; [done|]. assert (6 <= len body) by (bool_to_prop; lia). destruct (split_at body 4) as (ip & r & -> & Hip); [lia|].
    destruct (split_at r 2) as (port & pl & -> & Hport); [len_lia|].
    destruct (slice_two_four ip port pl Hip Hport) as (Hs1 & Hs2 & Hs3). rewrite Hs1, bind_Ok_l, Hs2, bind_Ok_l, Hs3, bind_Ok_l in H'.
    injection H' as <-. msg_simpl. rewrite F0, F1. replace (fn =? FunctionRegisterForeignDevice) with false by (bool_to_prop; by subst fn).
    apply Forall_app in Hbody as [_ Hbody]. apply Forall_app in Hbody as [Hpo _]. rewrite be_put_len by done.
    split_and!; try done; try len_lia. by apply be_get_len_bound. }
  destruct (fn =? FunctionRegisterForeignDevice) eqn:F2.
  { step_if H'; [done|]. injection H' as <-. msg_simpl. rewrite F0, F2. bool_to_prop. rewrite be_put_len by done.
    split_and!; try done; try len_lia. by apply be_get_len_bound. }
  injection H' as <-. msg_simpl. rewrite F0, F1, F2. split_and!; try done; len_lia.
Qed.

Lemma bvlc_safe data limits : safe (Parse data limits).
Proof. unfold Parse. safe_steps. all: repeat match goal with H : slice_from _ _ = Ok _ |- _ => apply slice_from_Ok in H as (? & ? & ?) end; safe_steps. Qed.

(** ** Masks *)

(** The octet with [k] leading ones. *)
Lemma contiguousBits_ones b s : is_byte b -> contiguousBits false b 8 = Some s ->
  exists k, 0 <= k <= 8 /\ b = 256 - 2 ^ (8 - k) /\ s = (k <? 8).
Proof.
  intros Hb H. pose (ok b := match contiguousBits false b 8 with
    | Some s => existsb (fun k => (b =? 256 - 2 ^ (8 - k)) && eqb s (k <? 8)) (seqZ 0 9) | None => true end).
  assert (ok b = true) as Hk by (apply (forall_range ok 256); [by vm_compute|apply Hb]).
  unfold ok in Hk. rewrite H in Hk. apply existsb_exists in Hk as (k & Hin & Hk). bool_to_prop.
  apply list_elem_of_In, elem_of_seqZ in Hin. exists k. split_and!; try lia. by apply eqb_prop.
Qed.

Lemma contiguousBits_zero b s : is_byte b -> contiguousBits true b 8 = Some s -> b = 0 /\ s = true.
Proof.
  intros Hb H. pose (ok b := match contiguousBits true b 8 with Some s => (b =? 0) && s | None => true end).
  assert (ok b = true) as Hk by (apply (forall_range ok 256); [by vm_compute|apply Hb]).
  unfold ok in Hk. rewrite H in Hk. bool_to_prop. done.
Qed.

(** After a zero only zero octets follow. *)
Lemma contiguousLoop_true m : bytes_ok m -> contiguousLoop true m = true -> m = replicate (length m) 0.
Proof.
  induction 1 as [|b m Hb Hm IH]; [done|]. cbn [contiguousLoop].
  destruct (contiguousBits true b 8) as [s|] eqn:E; [|done]. apply contiguousBits_zero in E as [-> ->]; [|done].
  intros H. cbn. by rewrite <- IH.
Qed.

Lemma be_get_zeros n : be_get (replicate n 0) = 0.
Proof. induction n; [done|]. cbn [replicate]. rewrite be_get_cons, IHn. lia. Qed.

Lemma contiguousLoop_ones m : bytes_ok m -> contiguousLoop false m = true ->
  exists k, 0 <= k <= 8 * len m /\ be_get m = 2 ^ (8 * len m) - 2 ^ (8 * len m - k).
Proof.
  induction 1 as [|b m Hb Hm IH]; [intros _; by exists 0|]. cbn [contiguousLoop].
  destruct (contiguousBits false b 8) as [s|] eqn:E; [|done]. apply contiguousBits_ones in E as (k & Hk & -> & ->); [|done].
  rewrite be_get_cons, len_cons. pose proof (len_nonneg m). change 256 with (2 ^ 8). rewrite <- Z.pow_mul_r by lia.
  replace (2 ^ (8 * (1 + len m))) with (2 ^ 8 * 2 ^ (8 * len m)) by (rewrite <- Z.pow_add_r by lia; f_equal; lia).
  destruct (k <? 8) eqn:E; bool_to_prop; intros Hl.
  - apply contiguousLoop_true in Hl; [|done]. rewrite Hl, be_get_zeros. exists k. rewrite <- Hl. split; [lia|].
    replace (8 * (1 + len m) - k) with ((8 - k) + 8 * len m) by lia. rewrite Z.pow_add_r by lia. lia.
  - apply IH in Hl as (j & Hj & Hg). exists (8 + j). rewrite Hg. split; [lia|]. replace k with 8 by lia.
    replace (8 * (1 + len m) - (8 + j)) with (8 * len m - j) by lia. lia.
Qed.

(** [Contiguous] accepts exactly the 33 subnet masks. *)
Lemma Contiguous_spec m : bytes_ok m -> len m = 4 ->
  Contiguous m = true <-> exists k, 0 <= k <= 32 /\ be_get m = 2 ^ 32 - 2 ^ (32 - k).
Proof.
  intros Hok Hl. split.
  - intros (k & Hk)%contiguousLoop_ones; [|done]. rewrite Hl in Hk. by exists k.
  - intros (k & Hk & Hg). rewrite <- (be_put_len 4 m), Hg by done.
    apply (forall_range (fun k => Contiguous (be_put 4 (2 ^ 32 - 2 ^ (32 - k)))) 33); [by vm_compute|lia].
Qed.

(** ** Tables

    One entry is ten octets; the table is their concatenation. *)
Lemma endpointOctets_valid ep : IsValid ep = true -> ep_wf ep ->
  exists ip port, ep = endpoint4 ip port /\ endpointOctets ep = Ok (ip ++ be_put 2 port) /\
    len ip = 4 /\ bytes_ok ip /\ is_u 16 port.
Proof.
  intros Hv Hw. destruct (IsValid_endpoint4 ep Hv Hw) as (ip & port & -> & Hl & Hok & Hp).
  exists ip, port. split_and!; try done. unfold len. lia.
Qed.

Lemma readEndpoint_octets pre ip port rest off : len ip = 4 -> is_u 16 port -> off = len pre ->
  readEndpoint (pre ++ ip ++ be_put 2 port ++ rest) off = Ok (endpoint4 ip port).
Proof.
  intros Hl Hp ->. unfold readEndpoint. rewrite slice_app by len_lia. rewrite bind_Ok_l, app_assoc, slice_app by len_lia.
  by rewrite bind_Ok_l, be_get_put16.
Qed.

Definition bdt_wf (e : BDTEntry) : Prop := ep_wf (bdt_Endpoint e) /\ len (bdt_Mask e) = 4 /\ bytes_ok (bdt_Mask e).
Definition fdt_wf (e : FDTEntry) : Prop := ep_wf (fdt_Address e) /\ is_u 16 (fdt_TTL e) /\ is_u 16 (fdt_Remaining e).

Lemma decodeBDTLoop_encode es : forall pre i dst, Forall bdt_wf es -> len pre = 10 * i ->
  EncodeBDTEntries pre es = Ok dst ->
  len dst = 10 * (i + len es) /\ exists rest, dst = pre ++ rest /\ forall post, decodeBDTLoop (dst ++ post) i (length es) = Ok es.
Proof.
  induction es as [|e es IH]; intros pre i dst Hw Hpre H.
  { injection H as <-. split; [len_lia|]. exists []. by rewrite app_nil_r. }
  inversion_clear Hw as [|? ? (Hwe & Hml & Hmb) Hws]. cbn [EncodeBDTEntries] in H.
  step_if H; [done|]. step_if H; [done|]. apply negb_false_iff in E.
  destruct (endpointOctets_valid _ E Hwe) as (ip & port & He & Ho & Hip & Hib & Hp). rewrite Ho, bind_Ok_l in H.
  apply (IH _ (i + 1)) in H as (Hd & rest & -> & Hdec); [|done|len_lia]. split; [len_lia|].
  eexists. split; [by rewrite <- app_assoc|]. intros post. cbn [length decodeBDTLoop]. cbv zeta. specialize (Hdec post).
  rewrite Hdec. rewrite <- !app_assoc. rewrite readEndpoint_octets, bind_Ok_l by (done || lia).
  rewrite (app_assoc pre ip), (app_assoc (pre ++ ip)), slice_app, bind_Ok_l by len_lia.
  destruct e as [ep mask]. cbn [bdt_Endpoint bdt_Mask] in *. subst ep. done.
Qed.

Lemma decodeFDTLoop_encode es : forall pre i dst, Forall fdt_wf es -> len pre = 10 * i ->
  EncodeFDTEntries pre es = Ok dst ->
  len dst = 10 * (i + len es) /\ exists rest, dst = pre ++ rest /\ forall post, decodeFDTLoop (dst ++ post) i (length es) = Ok es.
Proof.
  induction es as [|e es IH]; intros pre i dst Hw Hpre H.
  { injection H as <-. split; [len_lia|]. exists []. by rewrite app_nil_r. }
  inversion_clear Hw as [|? ? (Hwe & Htt & Hre) Hws]. cbn [EncodeFDTEntries] in H.
  step_if H; [done|]. apply negb_false_iff in E.
  destruct (endpointOctets_valid _ E Hwe) as (ip & port & He & Ho & Hip & Hib & Hp). rewrite Ho, bind_Ok_l in H.
  apply (IH _ (i + 1)) in H as (Hd & rest & -> & Hdec); [|done|len_lia]. split; [len_lia|].
  eexists. split; [by rewrite <- app_assoc|]. intros post. cbn [length decodeFDTLoop]. cbv zeta. specialize (Hdec post).
  rewrite Hdec. rewrite <- !app_assoc. rewrite readEndpoint_octets, bind_Ok_l by (done || lia).
  rewrite (app_assoc pre ip), (app_assoc (pre ++ ip)), slice_app, bind_Ok_l by len_lia.
  rewrite (app_assoc ((pre ++ ip) ++ _)), slice_app, bind_Ok_l by len_lia.
  rewrite !be_get_put16 by done. destruct e as [ep ttl rem]. cbn [fdt_Address fdt_TTL fdt_Remaining] in *. subst ep. done.
Qed.

Lemma DecodeBDT_encode es limits b : Forall bdt_wf es -> len es <= MaxElements (Normalize limits) ->
  EncodeBDTEntries [] es = Ok b -> DecodeBDTEntries b limits = Ok es /\ len b = 10 * len es.
Proof.
  intros Hw Hl E. apply (decodeBDTLoop_encode es [] 0) in E as (Hlb & _ & _ & Hdec); [|done..]. specialize (Hdec []).
  split; [|lia]. unfold DecodeBDTEntries. rewrite app_nil_r in Hdec. rewrite Hlb, Z.mul_comm, Z.mod_mul, Z.div_mul by lia.
  cbn [negb Z.eqb]. decide_test. decide_test. rewrite Z.add_0_l, Z_to_nat_len. done.
Qed.

Lemma DecodeFDT_encode es limits b : Forall fdt_wf es -> len es <= MaxElements (Normalize limits) ->
  EncodeFDTEntries [] es = Ok b -> DecodeFDTEntries b limits = Ok es /\ len b = 10 * len es.
Proof.
  intros Hw Hl E. apply (decodeFDTLoop_encode es [] 0) in E as (Hlb & _ & _ & Hdec); [|done..]. specialize (Hdec []).
  split; [|lia]. unfold DecodeFDTEntries. rewrite app_nil_r in Hdec. rewrite Hlb, Z.mul_comm, Z.mod_mul, Z.div_mul by lia.
  cbn [negb Z.eqb]. decide_test. decide_test. rewrite Z.add_0_l, Z_to_nat_len. done.
Qed.

(** ** Properties *)

(** [Parse] accepts exactly the frames of the canonical messages, up to
    the datagram limit and the 16-bit length field, and never panics: what it
    returns re-encodes to the datagram it was read from, and a datagram of
    any other shape (wrong type, a declared length that is not the
    datagram's, a body that does not fit its function) is an error. *)
Theorem bvlc_Parse_exact data limits : bytes_ok data ->
  (forall m, Parse data limits = Ok m <->
     canonical m /\ data = frame m /\ len data <= 65535 /\ len data <= MaxDatagramSize (Normalize limits)) /\
  safe (Parse data limits).
Proof.
  intros Hok. split; [|apply bvlc_safe]. intros m. split; [by apply Parse_inv|].
  intros (Hc & -> & H1 & H2). by apply Parse_frame.
Qed.

Lemma bvlc_Parse_exact_witness :
  Parse [0x81; 0x05; 0; 6; 0; 60] DefaultDecodeLimits = Ok (mkMessage 5 [] zeroIP 0 0 60) /\
  [0x81; 0x05; 0; 6; 0; 60] = frame (mkMessage 5 [] zeroIP 0 0 60).
Proof.
  assert (Parse [0x81; 0x05; 0; 6; 0; 60] DefaultDecodeLimits = Ok (mkMessage 5 [] zeroIP 0 0 60)) as H by reflexivity.
  split; [done|]. destruct (bvlc_Parse_exact [0x81; 0x05; 0; 6; 0; 60] DefaultDecodeLimits) as [He _]; [solve_bytes|].
  by apply He in H as (_ & Hf & _).
Defined.

(** [Append] appends one frame whose length field is the frame's length,
    for every message whose frame is at most 65535 octets, and rejects the
    others; a canonical message that fits is parsed back unchanged. *)
Theorem bvlc_roundtrip m dst limits :
  (if len (frame m) <=? 65535 then Append dst m = Ok (dst ++ frame m) else Append dst m = Err ErrMalformed) /\
  (canonical m -> len (frame m) <= Z.min 65535 (MaxDatagramSize (Normalize limits)) -> Parse (frame m) limits = Ok m).
Proof.
  split; [rewrite Append_spec; by destruct (_ <=? _)|]. intros. apply Parse_frame; [done|lia..].
Qed.

Lemma bvlc_roundtrip_witness :
  Parse (frame (mkMessage 4 [1; 0] [10; 0; 0; 1] 47808 0 0)) DefaultDecodeLimits = Ok (mkMessage 4 [1; 0] [10; 0; 0; 1] 47808 0 0).
Proof.
  apply (bvlc_roundtrip (mkMessage 4 [1; 0] [10; 0; 0; 1] 47808 0 0) []); [|done]. repeat split; done.
Defined.

(** [Contiguous] holds of exactly the 33 subnet masks: the four octets
    are [k] ones followed by [32 - k] zeros. *)
Theorem mask_contiguous_exact m : bytes_ok m -> len m = 4 ->
  Contiguous m = true <-> exists k, 0 <= k <= 32 /\ be_get m = 2 ^ 32 - 2 ^ (32 - k).
Proof. apply Contiguous_spec. Qed.

Lemma mask_contiguous_exact_witness :
  Contiguous [255; 255; 252; 0] = true /\ exists k, 0 <= k <= 32 /\ be_get [255; 255; 252; 0] = 2 ^ 32 - 2 ^ (32 - k).
Proof. split; [reflexivity|]. apply mask_contiguous_exact; [solve_bytes|reflexivity|reflexivity]. Defined.

(** The table codecs round-trip: the encoded entries of a broadcast
    distribution or foreign device table decode to the same entries in order
    when they are within the element limit, and a Delete-FDT-Entry body
    decodes to its endpoint. *)
Theorem tables_roundtrip bdt fdt ep limits b f d :
  Forall bdt_wf bdt -> Forall fdt_wf fdt -> ep_wf ep ->
  len bdt <= MaxElements (Normalize limits) -> len fdt <= MaxElements (Normalize limits) ->
  EncodeBDTEntries [] bdt = Ok b -> EncodeFDTEntries [] fdt = Ok f -> EncodeDeleteFDTEntry [] ep = Ok d ->
  DecodeBDTEntries b limits = Ok bdt /\ DecodeFDTEntries f limits = Ok fdt /\ DecodeDeleteFDTEntry d = Ok ep.
Proof.
  intros Hb Hf Hw Hlb Hlf Eb Ef Ed. split_and!.
  - by apply (DecodeBDT_encode bdt limits b).
  - by apply (DecodeFDT_encode fdt limits f).
  - unfold EncodeDeleteFDTEntry in Ed. step_if Ed; [done|]. apply negb_false_iff in E.
    destruct (endpointOctets_valid ep E Hw) as (ip & port & -> & Ho & Hip & _ & Hp). rewrite Ho, bind_Ok_l in Ed. assert (d = ip ++ be_put 2 port) as -> by (injection Ed as Ed; exact (eq_sym Ed)). clear Ed.
    unfold DecodeDeleteFDTEntry. rewrite len_app, len_be_put, Hip. cbn [Z.eqb Pos.eqb negb].
    pose proof (readEndpoint_octets [] ip port [] 0 Hip Hp eq_refl) as Hr. rewrite app_nil_r in Hr. cbn [app] in Hr.
    rewrite Hr. done.
Qed.

Lemma tables_roundtrip_witness :
  DecodeBDTEntries [10; 0; 0; 1; 0xBA; 0xC0; 255; 255; 255; 0] DefaultDecodeLimits
    = Ok [mkBDTEntry (endpoint4 [10; 0; 0; 1] 47808) [255; 255; 255; 0]] /\
  DecodeFDTEntries [10; 0; 0; 9; 0xBA; 0xC0; 0; 60; 0; 90] DefaultDecodeLimits
    = Ok [mkFDTEntry (endpoint4 [10; 0; 0; 9] 47808) 60 90] /\
  DecodeDeleteFDTEntry [10; 0; 0; 9; 0xBA; 0xC0] = Ok (endpoint4 [10; 0; 0; 9] 47808).
Proof.
  assert (forall x, is_byte x -> ep_wf (endpoint4 [10; 0; 0; x] 47808)) as Hw.
  { intros x Hx. split; [unfold is_u; cbn; lia|]. split; [done|]. solve_bytes. }
  assert (is_byte 1 /\ is_byte 9) as [H1 H9] by (unfold is_u; lia).
  apply tables_roundtrip; try reflexivity; try (cbn; done).
  - apply Forall_singleton. split; [by apply Hw|]. split; [done|cbn; solve_bytes].
  - apply Forall_singleton. split; [by apply Hw|]. cbn. unfold is_u. lia.
  - by apply Hw.
Defined.
