(* ===== verification/Link.v ===== *)
(** * The data link and the network layer together: [internal/link/link.go]
    and the inbound path of [client/client.go]

    Framing of an outbound APDU (NPDU, then BVLC) and the decoding of an
    inbound datagram down to the APDU that is dispatched. *)

From Stdlib Require Import ZArith Lia.
From stdpp Require Import base list.
From S2P Require Import Prelude Value Address Npdu Endpoint Bvlc Apdu.

(** ** [internal/link] *)
Definition MACLen : Z := 6.

Definition Origin (msg : Message) (immediate : Endpoint) : Endpoint :=
  match OriginAddrPort msg with
  | (ap, true) => NewEndpoint ap
  | (_, false) => immediate
  end.

(** [MustMAC] panics when the MAC is too long. *)
Definition MustMAC (b : bytes) : result MAC :=
  match NewMAC b with
  | Ok m => Ok m
  | Err _ => Err Panic
  end.

Definition LinkMAC (ep : Endpoint) : result (option MAC) :=
  if negb (IsValid ep) then Ok None
  else
    let* ip := netip.As4 (netip.Addr_of (ep_Addr ep)) in
    let* m := MustMAC (ip ++ be_put 2 (netip.Port (ep_Addr ep))) in
    Ok (Some m).

Definition LinkEndpoint (mac : bytes) : result (option Endpoint) :=
  if negb (len mac =? MACLen) then Ok None
  else
    let* ip := slice mac 0 4 in
    let* port := slice_from mac 4 in
    Ok (Some (NewEndpoint (netip.AddrPortFrom (netip.AddrFrom4 ip) (be_get port)))).

Definition LinkAPDU (dest : Address) (expectingReply : bool) (hopCount : Z) (apdu : bytes) : NPDU :=
  let n dst := mkNPDU Version1 0 dst zeroAddress hopCount false 0 [] apdu expectingReply 0 in
  match a_scope dest with
  | AddressRemoteStation | AddressRemoteBroadcast | AddressGlobalBroadcast => n dest
  | AddressLocalStation | AddressLocalBroadcast => n zeroAddress
  end.

Definition Frame (fn : Z) (n : NPDU) : result (bytes * bytes) :=
  let* raw := Npdu.Append [] n in
  let* frame := Bvlc.Append [] (mkMessage fn raw zeroIP 0 0 0) in
  Ok (raw, frame).

(** ** The inbound path of the client *)
Record packetSource := mkSource { s_bacnetAddress : Address; s_origin : Endpoint; s_immediate : Endpoint }.

Definition bipMACAddress (ep : Endpoint) : result (option Address) :=
  let* m := LinkMAC ep in
  Ok (match m with Some mac => Some (LocalStation mac) | None => None end).

(** What a datagram leads to; [Discard] covers every early return of the
    handler, most of which report a diagnostic. *)
Inductive inbound :=
| Discard
| BVLCManagement (msg : Message)
| NetworkLayer (n : NPDU) (src : packetSource)
| Dispatch (pdu : PDU) (src : packetSource) (n : NPDU).

(** The part of [handlePacket] after the BVLC function is decided. *)
Definition handleNPDU (limits : DecodeLimits) (payload : bytes) (origin immediate : Endpoint) : result inbound :=
  if negb (IsValid origin) then Ok Discard
  else if len payload =? 0 then Ok Discard
  else
    match Npdu.Parse payload limits with
    | Err _ => Ok Discard
    | Ok (n, _) =>
        let* addr :=
          if IsZero (a_mac (np_Source n)) && bool_decide (a_scope (np_Source n) = AddressLocalStation)
          then bipMACAddress origin else Ok (Some (np_Source n)) in
        match addr with
        | None => Ok Discard
        | Some a =>
            let src := mkSource a origin immediate in
            if np_NetworkMessage n then Ok (NetworkLayer n src)
            else if len (np_APDU n) =? 0 then Ok Discard
            else match Apdu.Parse (np_APDU n) limits with
                 | Err _ => Ok Discard
                 | Ok pdu => Ok (Dispatch pdu src n)
                 end
        end
    end.

(** [fd] is the configured BBMD when foreign-device mode is active. *)
Definition handlePacket (limits : DecodeLimits) (fd : option Endpoint) (data : bytes) (immediate : Endpoint) : result inbound :=
  match Bvlc.Parse data limits with
  | Err _ => Ok Discard
  | Ok msg =>
      let fn := m_Function msg in
      if (fn =? FunctionOriginalUnicastNPDU) || (fn =? FunctionOriginalBroadcastNPDU) then
        handleNPDU limits (m_Payload msg) immediate immediate
      else if fn =? FunctionDistributeBroadcastToNetwork then Ok Discard
      else if fn =? FunctionForwardedNPDU then
        if match fd with Some bbmd => negb (EndpointEqual immediate bbmd) | None => false end then Ok Discard
        else handleNPDU limits (m_Payload msg) (Origin msg immediate) immediate
      else if (fn =? FunctionResult) || (fn =? FunctionReadBroadcastDistributionTableAck)
              || (fn =? FunctionReadForeignDeviceTableAck) then Ok (BVLCManagement msg)
      else if fn =? FunctionRegisterForeignDevice then Ok Discard
      else Ok Discard
  end.

(** [sendNPDU]: the frame handed to the transport, its destination and
    whether it is a broadcast. [fd] is the BBMD while the foreign-device
    registration is live. *)
Definition sendNPDU (fd : option Endpoint) (dest : Endpoint) (broadcast : bool) (n : NPDU) : result (bytes * Endpoint * bool) :=
  let '(fn, dest, broadcast) :=
    if broadcast then
      match fd with
      | Some bbmd => (FunctionDistributeBroadcastToNetwork, bbmd, false)
      | None => (FunctionOriginalBroadcastNPDU, dest, true)
      end
    else (FunctionOriginalUnicastNPDU, dest, false) in
  let* (_, frame) := Frame fn n in
  Ok (frame, dest, broadcast).

Definition sendAPDU (fd : option Endpoint) (dest : Endpoint) (broadcast : bool) (destAddr : Address)
    (expectingReply : bool) (hopCount : Z) (apduBytes : bytes) : result (bytes * Endpoint * bool) :=
  sendNPDU fd dest broadcast (LinkAPDU destAddr expectingReply hopCount apduBytes).

(** ** B/IP MACs *)
Lemma LinkMAC_endpoint4 ip port : length ip = 4%nat -> LinkMAC (endpoint4 ip port) = Ok (Some (macOf (ip ++ be_put 2 port))).
Proof.
  intros Hl. unfold LinkMAC. cbn [IsValid negb endpoint4 NewEndpoint netip.AddrPortFrom netip.AddrFrom4 ep_Addr netip.Addr_of netip.As4].
  rewrite bind_Ok_l. unfold MustMAC. rewrite NewMAC_ok; [done|]. unfold MaxMACLength. len_simpl. unfold len. lia.
Qed.

Lemma LinkEndpoint_mac ip port : length ip = 4%nat -> is_u 16 port -> LinkEndpoint (ip ++ be_put 2 port) = Ok (Some (endpoint4 ip port)).
Proof.
  intros Hl Hp. unfold LinkEndpoint, MACLen. assert (len ip = 4) as Hl' by (unfold len; lia).
  replace (len (ip ++ be_put 2 port)) with 6 by len_lia. cbn [Z.eqb Pos.eqb negb].
  rewrite slice_prefix, bind_Ok_l, slice_from_app, bind_Ok_l, be_get_put16 by done. done.
Qed.

Lemma LinkMAC_safe ep : ep_wf ep -> safe (LinkMAC ep).
Proof.
  intros Hw. destruct (IsValid ep) eqn:E; [|unfold LinkMAC; by rewrite E].
  destruct (IsValid_endpoint4 ep E Hw) as (ip & port & -> & Hl & _ & _). by rewrite LinkMAC_endpoint4.
Qed.

(** ** The whole path *)
Lemma dest_wire_len a o : dest_wire a o -> len o <= 10.
Proof. destruct 1; unfold MaxMACLength in *; len_lia. Qed.

Lemma handleNPDU_safe limits payload origin immediate : bytes_ok payload -> ep_wf origin ->
  safe (handleNPDU limits payload origin immediate).
Proof.
  intros Hok Hw. unfold handleNPDU. destruct (negb _); [done|]. destruct (_ =? 0); [done|].
  destruct (Npdu.Parse payload limits) as [[n k]|e]; [|done]. apply safe_bind.
  - destruct (_ && _); [|done]. unfold bipMACAddress. apply safe_bind; [by apply LinkMAC_safe|done].
  - intros [a|] _; [|done]. destruct (np_NetworkMessage n); [done|]. destruct (_ =? 0); [done|].
    by destruct (Apdu.Parse _ _).
Qed.

Lemma frame_fields m : canonical m -> bytes_ok (frame m) ->
  bytes_ok (m_Payload m) /\
  (m_Function m = FunctionForwardedNPDU -> forall immediate, ep_wf (Origin m immediate)).
Proof.
  intros Hc Hok. unfold frame in Hok. apply Forall_app in Hok as [_ Hok]. apply Forall_app in Hok as [_ Hok].
  unfold bodyOf, canonical in *.
  destruct (m_Function m =? FunctionResult) eqn:E0; [destruct Hc as (_ & -> & _); apply Z.eqb_eq in E0; by rewrite E0|].
  destruct (m_Function m =? FunctionRegisterForeignDevice) eqn:E1; [destruct Hc as (_ & -> & _); apply Z.eqb_eq in E1; by rewrite E1|].
  destruct (m_Function m =? FunctionForwardedNPDU) eqn:E2.
  - apply Forall_app in Hok as [Hip Hok]. apply Forall_app in Hok as [_ Hpl]. split; [done|]. intros _ immediate.
    destruct Hc as (Hp & Hl & _). unfold Origin, OriginAddrPort. rewrite E2. cbn. split; [done|]. split; [unfold len in Hl; lia|done].
  - split; [done|]. intros E. by rewrite E in E2.
Qed.

Lemma npdu_wire_apdu n data : npdu_wire n data -> bytes_ok data -> bytes_ok (np_APDU n).
Proof.
  intros (hd & hs & d & s & hop & body & -> & _ & _ & _ & _ & _ & _ & Hb) Hok.
  repeat (apply Forall_app in Hok as [_ Hok]). destruct (np_NetworkMessage n); [destruct Hb as (_ & -> & _)|destruct Hb as (<- & _)]; done.
Qed.

Lemma handleNPDU_Dispatch limits payload origin immediate pdu src n : bytes_ok payload ->
  handleNPDU limits payload origin immediate = Ok (Dispatch pdu src n) ->
  pdu_ok pdu /\ s_immediate src = immediate /\ npdu_wire n payload /\ np_APDU n = appendPDU [] pdu.
Proof.
  intros Hok H. unfold handleNPDU in H. step_if H; [done|]. step_if H; [done|].
  destruct (Npdu.Parse payload limits) as [[n' k]|e] eqn:Hn; [|done]. destruct (npdu_sound _ _ _ _ Hok Hn) as [Hw _].
  apply bind_Ok_inv in H as (addr & _ & H). destruct addr as [a|]; [|done]. step_if H; [done|]. step_if H; [done|].
  destruct (Apdu.Parse (np_APDU n') limits) as [p|e] eqn:Hp; [|done]. injection H as <- <- <-.
  destruct (pdu_sound _ _ _ (npdu_wire_apdu _ _ Hw Hok) Hp) as (Hpo & He & _). done.
Qed.

Section Outbound.
Context (limits : DecodeLimits) (dest : Address) (er : bool) (hop : Z) (apdu : bytes) (hd : bool).
Hypothesis (Hdest : made dest) (Hhop : is_byte hop) (Hapdu : bytes_ok apdu) (Hchk : checkDestination dest = Ok hd).

Lemma LinkAPDU_fields :
  np_Destination (LinkAPDU dest er hop apdu) = (if hd then dest else zeroAddress) /\
  checkDestination (np_Destination (LinkAPDU dest er hop apdu)) = Ok hd /\
  np_Source (LinkAPDU dest er hop apdu) = zeroAddress /\ np_APDU (LinkAPDU dest er hop apdu) = apdu /\
  np_NetworkMessage (LinkAPDU dest er hop apdu) = false /\ np_ExpectingReply (LinkAPDU dest er hop apdu) = er /\
  sendable (LinkAPDU dest er hop apdu).
Proof using Hdest Hhop Hapdu Hchk.
  assert (made zeroAddress) as Hz by (apply (made_local []); [done|solve_bytes]).
  destruct Hdest as [m Hm Hok| |net m Hn Hm Hok|net Hn|]; cbn [LinkAPDU a_scope LocalStation LocalBroadcast RemoteStation RemoteBroadcast GlobalBroadcast] in *;
    unfold LinkAPDU; cbn.
  1,2: injection Hchk as <-; split_and!; try done; constructor; cbn; try done; try solve_bytes; right; done.
  - split_and!; try done.
    + cbn in Hchk. destruct (validateRemoteNetwork net); [|done]. cbn in Hchk. destruct (IsZero _); [done|]. by injection Hchk as <-.
    + constructor; cbn; try done; try solve_bytes; right; done.
  - split_and!; try done.
    + cbn in Hchk. destruct (validateRemoteNetwork net); [|done]. by injection Hchk as <-.
    + constructor; cbn; try done; try solve_bytes; right; done.
  - injection Hchk as <-. split_and!; try done. constructor; cbn; try done; try solve_bytes; right; done.
Qed.

(** The frame of an APDU, and that the inbound path reads it back. *)
Lemma Frame_received fn : 17 + len apdu <= Z.min 65535 (MaxDatagramSize (Normalize limits)) ->
  fn <> FunctionResult -> fn <> FunctionRegisterForeignDevice -> fn <> FunctionForwardedNPDU ->
  exists raw, let n := LinkAPDU dest er hop apdu in
    Frame fn n = Ok (raw, frame (mkMessage fn raw zeroIP 0 0 0)) /\ bytes_ok raw /\ 2 <= len raw /\
    Bvlc.Parse (frame (mkMessage fn raw zeroIP 0 0 0)) limits = Ok (mkMessage fn raw zeroIP 0 0 0) /\
    Npdu.Parse raw limits = Ok (received n hd false, len raw).
Proof using Hdest Hhop Hapdu Hchk.
  intros Hlen F1 F2 F3. destruct LinkAPDU_fields as (Hd & Hc & Hs & Ha & Hm & He & Hsend). set (n := LinkAPDU dest er hop apdu) in *.
  destruct (Append_sends n hd false Hsend Hc) as (raw & Hraw & Hw & Hok); [by rewrite Hs|].
  assert (2 <= len raw <= 13 + len apdu) as Hl.
  { destruct Hw as (hd' & hs' & d & s & hp & body & -> & _ & _ & Hctl & Hd' & Hs' & Hh & Hb).
    pose proof (ctl_fields (np_NetworkMessage n) (np_ExpectingReply n || bit (np_Control n) ControlExpectingReply)
      (Z.land (np_Priority n) ControlPriorityMask) hd false (priority_range _)) as (_ & _ & _ & _ & G1 & G2 & _).
    pose proof (ctl_fields (np_NetworkMessage n) (np_ExpectingReply n || bit (np_Control n) ControlExpectingReply)
      (Z.land (np_Priority n) ControlPriorityMask) hd' hs' (priority_range _)) as (_ & _ & _ & _ & G1' & G2' & _).
    cbn [received np_Control np_NetworkMessage np_ExpectingReply np_Priority] in Hctl. rewrite Hctl in G1, G2.
    assert (hd' = hd) as -> by congruence. assert (hs' = false) as -> by congruence. destruct Hs' as [_ ->].
    cbn [received np_NetworkMessage] in Hb. rewrite Hm in Hb. destruct Hb as (-> & _). cbn [received np_APDU]. rewrite Hm, Ha.
    assert (len d <= 10 /\ len hp <= 1) by (destruct hd; [split; [by eapply dest_wire_len|rewrite Hh; done]|destruct Hd' as [_ ->], Hh as [_ ->]; done]).
    len_lia. }
  exists raw. cbv zeta. unfold Frame. rewrite Hraw, bind_Ok_l.
  assert (bodyOf (mkMessage fn raw zeroIP 0 0 0) = raw) as Hb.
  { unfold bodyOf. cbn [m_Function m_Payload]. by rewrite (proj2 (Z.eqb_neq fn _)), (proj2 (Z.eqb_neq fn _)), (proj2 (Z.eqb_neq fn _)). }
  assert (canonical (mkMessage fn raw zeroIP 0 0 0)) as Hcan.
  { unfold canonical. cbn. by rewrite (proj2 (Z.eqb_neq fn _)), (proj2 (Z.eqb_neq fn _)), (proj2 (Z.eqb_neq fn _)). }
  rewrite Append_frame by (rewrite Hb; lia). rewrite bind_Ok_l. split_and!; try done; try lia.
  - apply Parse_frame; rewrite ?len_frame, ?Hb; [done|lia..].
  - apply npdu_complete; [done|lia|done].
Qed.
End Outbound.

(** A framed APDU is dispatched by the node that receives it. *)
Lemma frame_dispatched p dest er hop limits fn fd ip port hd :
  pdu_ok p -> made dest -> checkDestination dest = Ok hd -> is_byte hop ->
  length ip = 4%nat -> bytes_ok ip -> is_u 16 port ->
  bytes_ok (appendPDU [] p) -> len (appendPDU [] p) <= MaxAPDUSize (Normalize limits) ->
  17 + len (appendPDU [] p) <= Z.min 65535 (MaxDatagramSize (Normalize limits)) ->
  fn = FunctionOriginalUnicastNPDU \/ fn = FunctionOriginalBroadcastNPDU ->
  exists raw frame n, Frame fn (LinkAPDU dest er hop (appendPDU [] p)) = Ok (raw, frame) /\
    handlePacket limits fd frame (endpoint4 ip port) =
      Ok (Dispatch p (mkSource (LocalStation (macOf (ip ++ be_put 2 port))) (endpoint4 ip port) (endpoint4 ip port)) n) /\
    np_Destination n = (if hd then dest else zeroAddress) /\ np_ExpectingReply n = er.
Proof.
  intros Hp Hdest Hchk Hhop Hip Hib Hport Hok Hl1 Hl2 Hfn.
  destruct (LinkAPDU_fields dest er hop (appendPDU [] p) hd Hdest Hhop Hok Hchk) as (Hd & _ & Hs & Ha & Hm & He & _).
  destruct (Frame_received limits dest er hop (appendPDU [] p) hd Hdest Hhop Hok Hchk fn) as (raw & Hf & Hrok & Hrl & Hb & Hn);
    [done|by destruct Hfn as [-> | ->]..|].
  assert (np_ExpectingReply (received (LinkAPDU dest er hop (appendPDU [] p)) hd false) = er) as Her.
  { cbn. rewrite He. unfold LinkAPDU. destruct (a_scope dest); cbn; by rewrite orb_false_r. }
  exists raw, (Bvlc.frame (mkMessage fn raw zeroIP 0 0 0)), (received (LinkAPDU dest er hop (appendPDU [] p)) hd false). split_and!.
  - exact Hf.
  - unfold handlePacket. rewrite Hb. cbn [m_Function m_Payload].
    replace ((fn =? FunctionOriginalUnicastNPDU) || (fn =? FunctionOriginalBroadcastNPDU)) with true by (by destruct Hfn as [-> | ->]).
    unfold handleNPDU. change (IsValid (endpoint4 ip port)) with true. cbn [negb]. rewrite (proj2 (Z.eqb_neq (len raw) 0)) by lia.
    rewrite Hn. cbn [received np_Source a_mac a_scope np_NetworkMessage np_APDU zeroAddress].
    change (IsZero zeroMAC && bool_decide (AddressLocalStation = AddressLocalStation)) with true. cbv iota.
    unfold bipMACAddress. rewrite LinkMAC_endpoint4 by done. rewrite !bind_Ok_l, Hm, Ha.
    rewrite pdu_complete by done. rewrite (proj2 (Z.eqb_neq _ 0)); [done|].
    intros Hz. apply len_zero_nil in Hz. pose proof (pdu_complete p limits Hp Hl1) as Hpc. by rewrite Hz in Hpc.
  - cbn. destruct hd; [by rewrite Hd|done].
  - done.
Qed.

(** ** Properties *)

(** C5. End to end through the stack: a well-formed APDU of any type, sent to
    a local or remote station or a broadcast address as a unicast or
    broadcast datagram, is dispatched by the receiver as the same APDU; the
    source it sees is the local station whose MAC is the sender's B/IP
    address, and the destination and the expecting-reply flag are the ones
    the sender set. *)
Theorem stack_roundtrip p dest er hop limits broadcast ep fd ip port hd :
  pdu_ok p -> made dest -> checkDestination dest = Ok hd -> is_byte hop ->
  length ip = 4%nat -> bytes_ok ip -> is_u 16 port ->
  bytes_ok (appendPDU [] p) -> len (appendPDU [] p) <= MaxAPDUSize (Normalize limits) ->
  17 + len (appendPDU [] p) <= Z.min 65535 (MaxDatagramSize (Normalize limits)) ->
  exists frame n, sendAPDU None ep broadcast dest er hop (appendPDU [] p) = Ok (frame, ep, broadcast) /\
    handlePacket limits fd frame (endpoint4 ip port) =
      Ok (Dispatch p (mkSource (LocalStation (macOf (ip ++ be_put 2 port))) (endpoint4 ip port) (endpoint4 ip port)) n) /\
    np_Destination n = (if hd then dest else zeroAddress) /\ np_ExpectingReply n = er.
Proof.
  intros Hp Hdest Hchk Hhop Hip Hib Hport Hok Hl1 Hl2. set (fn := if broadcast then FunctionOriginalBroadcastNPDU else FunctionOriginalUnicastNPDU).
  destruct (frame_dispatched p dest er hop limits fn fd ip port hd) as (raw & frame & n & Hf & Hh & Hd & He); try done; [destruct broadcast; auto|].
  exists frame, n. split_and!; try done. unfold sendAPDU, sendNPDU. unfold fn in Hf. destruct broadcast; cbv beta iota zeta; by rewrite Hf.
Qed.

Lemma stack_roundtrip_witness :
  exists frame n, sendAPDU None (endpoint4 [10; 0; 0; 2] 47808) false (RemoteStation 7 (macOf [9])) true 255
      (appendPDU [] (PSimpleACK (mkSimpleACK 3 15))) = Ok (frame, endpoint4 [10; 0; 0; 2] 47808, false) /\
    handlePacket DefaultDecodeLimits None frame (endpoint4 [10; 0; 0; 1] 47808) =
      Ok (Dispatch (PSimpleACK (mkSimpleACK 3 15))
            (mkSource (LocalStation (macOf ([10; 0; 0; 1] ++ be_put 2 47808))) (endpoint4 [10; 0; 0; 1] 47808) (endpoint4 [10; 0; 0; 1] 47808)) n) /\
    np_Destination n = RemoteStation 7 (macOf [9]) /\ np_ExpectingReply n = true.
Proof.
  apply (stack_roundtrip (PSimpleACK (mkSimpleACK 3 15)) (RemoteStation 7 (macOf [9])) true 255 DefaultDecodeLimits false
    (endpoint4 [10; 0; 0; 2] 47808) None [10; 0; 0; 1] 47808 true); try done; try (cbn; unfold is_u; lia); try (cbn; solve_bytes).
  - apply made_remote; [unfold is_u; lia|done|solve_bytes].
  - unfold is_u, TypeSimpleACK. lia.
Defined.

(** The inbound path is total: no datagram, from no peer, makes it panic,
    and a datagram is dispatched as an APDU only if it is a BVLC frame that
    carries an NPDU of the format that carries a well-formed APDU. In
    foreign-device mode a Forwarded-NPDU from any other peer than the
    configured BBMD is discarded. *)
Theorem inbound_path_total limits fd data immediate : bytes_ok data -> ep_wf immediate ->
  safe (handlePacket limits fd data immediate) /\
  (forall pdu src n, handlePacket limits fd data immediate = Ok (Dispatch pdu src n) ->
     pdu_ok pdu /\ s_immediate src = immediate /\
     exists msg, canonical msg /\ data = frame msg /\ npdu_wire n (m_Payload msg) /\ np_APDU n = appendPDU [] pdu /\
       (m_Function msg = FunctionForwardedNPDU -> forall bbmd, fd = Some bbmd -> immediate = bbmd)).
Proof.
  intros Hok Hw. unfold handlePacket. destruct (Bvlc.Parse data limits) as [msg|e] eqn:Hb; [|done].
  destruct (Parse_inv data limits msg Hok Hb) as (Hc & Hd & _). rewrite Hd in Hok.
  destruct (frame_fields msg Hc Hok) as [Hpl Hor].
  destruct (_ || (m_Function msg =? FunctionOriginalBroadcastNPDU)) eqn:E1.
  { split; [by apply handleNPDU_safe|]. intros pdu src n H. destruct (handleNPDU_Dispatch _ _ _ _ _ _ _ Hpl H) as (H1 & H2 & H3 & H4).
    split_and!; [done..|]. exists msg. split_and!; try done. intros E. by rewrite E in E1. }
  destruct (m_Function msg =? FunctionDistributeBroadcastToNetwork); [done|].
  destruct (m_Function msg =? FunctionForwardedNPDU) eqn:E2.
  { apply Z.eqb_eq in E2. destruct (match fd with Some _ => _ | None => _ end) eqn:Efd; [done|].
    split; [apply handleNPDU_safe; [done|by apply Hor]|]. intros pdu src n H.
    destruct (handleNPDU_Dispatch _ _ _ _ _ _ _ Hpl H) as (H1 & H2 & H3 & H4). split_and!; [done..|]. exists msg. split_and!; try done.
    intros _ bbmd ->. apply negb_false_iff in Efd. rewrite EndpointEqual_spec in Efd. by apply bool_decide_eq_true in Efd. }
  repeat case_match; done.
Qed.

Lemma inbound_path_total_witness :
  safe (handlePacket DefaultDecodeLimits (Some (endpoint4 [10; 0; 0; 9] 47808)) [0x81; 0x0A; 0; 9; 1; 0; 0x20; 3; 15] (endpoint4 [10; 0; 0; 1] 47808)).
Proof. apply inbound_path_total; [solve_bytes|]. split; [unfold is_u; cbn; lia|]. split; [done|solve_bytes]. Defined.
