(* ===== verification/Segment.v ===== *)
(** * Segmentation arithmetic: [internal/segment/segment.go]

    Window sizes, the reassembly of a message received in order, and the cut
    of a payload into segments. A Go [int] is a [Z]: the code only forms
    lengths and counts of slices that exist. *)

From Stdlib Require Import ZArith Lia.
From stdpp Require Import base list.
From S2P Require Import Prelude.

Definition MaxWindow : Z := 127.
Definition MaxSegments : Z := 256.

Definition ValidWindow (w : Z) : bool := (w >=? 1) && (w <=? MaxWindow).

Definition Window (local proposed : Z) : Z :=
  let w := local in
  let w := if (proposed >? 0) && (proposed <? w) then proposed else w in
  if w =? 0 then 1 else w.

Inductive Outcome := Stored | StoredAck | Complete | OutOfOrder | TooManySegments | TooLong.

#[global] Instance Outcome_eq_dec : EqDecision Outcome.
Proof. solve_decision. Defined.

Record Reassembly := mkReassembly {
  r_window : Z;
  r_expected : Z;
  r_inWindow : Z;
  r_segments : Z;
  r_maxSegments : Z;
  r_maxOctets : Z;
  r_buf : bytes
}.

Definition NewReassembly (window maxSegments maxOctets : Z) : Reassembly :=
  let window := if window =? 0 then 1 else window in
  mkReassembly window 0 0 0 maxSegments maxOctets [].

Definition Add (r : Reassembly) (seq : Z) (more : bool) (payload : bytes) : Outcome * Reassembly :=
  if negb (seq =? r_expected r) then (OutOfOrder, r)
  else if r_segments r + 1 >? r_maxSegments r then (TooManySegments, r)
  else if len (r_buf r) + len payload >? r_maxOctets r then (TooLong, r)
  else
    let buf := r_buf r ++ payload in
    let segments := r_segments r + 1 in
    let first := segments =? 1 in
    let expected := u8 (r_expected r + 1) in
    let inWindow := u8 (r_inWindow r + 1) in
    let upd inWindow := mkReassembly (r_window r) expected inWindow segments (r_maxSegments r) (r_maxOctets r) buf in
    if negb more then (Complete, upd 0)
    else if first || (inWindow >=? r_window r) then (StoredAck, upd 0)
    else (Stored, upd inWindow).

Definition Expected (r : Reassembly) : Z := r_expected r.
Definition Last (r : Reassembly) : Z := u8 (r_expected r - 1).
Definition Segments (r : Reassembly) : Z := r_segments r.
Definition Payload (r : Reassembly) : bytes := r_buf r.

(** [/] truncates towards zero; the dividend and the divisor are positive. *)
Definition Count (n size : Z) : Z :=
  if size <? 1 then 0 else if n <=? 0 then 1 else Z.quot (n + size - 1) size.

Definition Bounds (i size n : Z) : Z * Z :=
  let start := Z.min (i * size) n in
  let stop := Z.min (start + size) n in
  (start, stop).

(** ** The segments of a payload *)

(** Octets [start, end) of segment [i], and whether more follow. *)
Definition chunk (payload : bytes) (size i : Z) : result bytes :=
  let (start, stop) := Bounds i size (len payload) in slice payload start stop.
Definition moreFollows (payload : bytes) (size i : Z) : bool := i <? Count (len payload) size - 1.

Lemma Count_spec n size : 1 <= size -> 0 <= n ->
  1 <= Count n size /\ (Count n size - 1) * size <= n <= Count n size * size /\
  (0 < n -> (Count n size - 1) * size < n).
Proof.
  intros Hs Hn. unfold Count. decide_test. destruct (n <=? 0) eqn:E; bool_to_prop; [lia|].
  rewrite Z.quot_div_nonneg by lia. pose proof (Z.div_mod (n + size - 1) size). pose proof (Z.mod_pos_bound (n + size - 1) size).
  nia.
Qed.

Section Chunks.
Context (payload : bytes) (size : Z) (Hsize : 1 <= size).
Let n := len payload.
Let count := Count n size.

Lemma Bounds_range i : 0 <= i -> let (a, b) := Bounds i size n in
  0 <= a <= b /\ b <= n /\ b - a <= size /\ a = Z.min (i * size) n /\ b = Z.min ((i + 1) * size) n.
Proof using Hsize. intros Hi. unfold Bounds. pose proof (len_nonneg payload). fold n in H. nia. Qed.

Lemma chunk_total i : 0 <= i -> exists c, chunk payload size i = Ok c /\ len c <= size /\
  take (Z.to_nat (Z.min (i * size) n)) payload ++ c = take (Z.to_nat (Z.min ((i + 1) * size) n)) payload.
Proof using Hsize.
  intros Hi. pose proof (Bounds_range i Hi) as H. unfold chunk. fold n. destruct (Bounds i size n) as [a b].
  destruct H as (Hab & Hbn & Hs & -> & ->). eexists. split; [by apply slice_total|]. split.
  - unfold len. rewrite length_take, length_drop. lia.
  - set (a := Z.min (i * size) n) in *. set (b := Z.min ((i + 1) * size) n) in *.
    replace (Z.to_nat b) with (Z.to_nat a + Z.to_nat (b - a))%nat by lia.
    by rewrite <- take_take_drop.
Qed.

Lemma chunk_count_end : Z.min (count * size) n = n.
Proof using Hsize. pose proof (len_nonneg payload) as H. fold n in H. destruct (Count_spec n size Hsize H). unfold count. lia. Qed.
End Chunks.

(** ** Reassembly *)

(** The octets of segment [i], total. *)
Definition chunkOf (payload : bytes) (size i : Z) : bytes :=
  match chunk payload size i with Ok c => c | Err _ => [] end.

(** The window position one segment on. *)
Lemma window_step window k : 1 <= window <= 127 -> 1 <= k ->
  let w := u8 ((k - 1) mod window + 1) in
  (w >=? window) = (k mod window =? 0) /\ (k mod window <> 0 -> w = k mod window).
Proof.
  intros Hwin Hk. pose proof (Z.mod_pos_bound (k - 1) window ltac:(lia)) as Hm. cbv zeta.
  rewrite uwrap_small by (unfold is_u; lia).
  pose proof (Z.add_mod (k - 1) 1 window ltac:(lia)) as Ha. replace (k - 1 + 1) with k in Ha by lia.
  destruct (Z.eq_dec window 1) as [->|Hw1].
  { rewrite !Z.mod_1_r. done. }
  rewrite (Z.mod_small 1) in Ha by lia.
  destruct (Z.eq_dec ((k - 1) mod window + 1) window) as [He|He].
  - rewrite He in *. rewrite Z.mod_same in Ha by lia. rewrite Ha. split; [lia|done].
  - rewrite (Z.mod_small ((k - 1) mod window + 1)) in Ha by lia. rewrite Ha. split; [lia|done].
Qed.

Section Reassemble.
Context (payload : bytes) (size window maxSegments maxOctets : Z).
Hypothesis (Hsize : 1 <= size) (Hwin : 1 <= window <= 127).
Let n := len payload.
Let count := Count n size.
Hypothesis (Hcount : count <= 256) (Hsegs : count <= maxSegments) (Hoct : n <= maxOctets).

(** The state after the first [k] segments have been stored. *)
Definition holds (k : Z) : Reassembly :=
  mkReassembly window (u8 k) (if k =? 0 then 0 else (k - 1) mod window) k maxSegments maxOctets
    (take (Z.to_nat (Z.min (k * size) n)) payload).

Lemma holds_0 : holds 0 = NewReassembly window maxSegments maxOctets.
Proof using Hwin. unfold holds, NewReassembly. rewrite (proj2 (Z.eqb_neq window 0)) by lia. rewrite Z.min_l by apply len_nonneg. done. Qed.

Lemma count_pos : 1 <= count.
Proof using Hsize. apply Count_spec; [done|apply len_nonneg]. Qed.

Lemma chunkOf_spec i : 0 <= i ->
  take (Z.to_nat (Z.min (i * size) n)) payload ++ chunkOf payload size i = take (Z.to_nat (Z.min ((i + 1) * size) n)) payload /\
  len (chunkOf payload size i) <= size.
Proof using Hsize. intros Hi. unfold chunkOf. by destruct (chunk_total payload size Hsize i Hi) as (c & -> & Hl & He). Qed.

Lemma len_taken k : 0 <= k -> len (take (Z.to_nat (Z.min (k * size) n)) payload) = Z.min (k * size) n.
Proof using Hsize. intros Hk. pose proof (len_nonneg payload). fold n in H. unfold len. rewrite length_take. unfold n, len in *. lia. Qed.

(** The expected segment is stored, and acknowledged when it is the first,
    closes a window or ends the message; every other one changes nothing. *)
Lemma Add_expected k : 0 <= k < count ->
  Add (holds k) (u8 k) (moreFollows payload size k) (chunkOf payload size k) =
    (if k =? count - 1 then (Complete, mkReassembly window (u8 (k + 1)) 0 (k + 1) maxSegments maxOctets payload)
     else (if k mod window =? 0 then StoredAck else Stored, holds (k + 1))).
Proof using Hsize Hwin Hcount Hsegs Hoct.
  intros Hk. unfold Add, holds. cbn [r_expected r_segments r_maxSegments r_buf r_maxOctets r_window r_inWindow].
  rewrite Z.eqb_refl. cbn [negb]. rewrite Z.gtb_ltb, (proj2 (Z.ltb_ge maxSegments (k + 1))) by lia.
  rewrite <- len_app. destruct (chunkOf_spec k ltac:(lia)) as [-> _]. rewrite len_taken by lia.
  rewrite Z.gtb_ltb, (proj2 (Z.ltb_ge maxOctets _)) by lia. cbv zeta.
  replace (u8 (u8 k + 1)) with (u8 (k + 1)) by (unfold uwrap; by rewrite Zplus_mod_idemp_l).
  unfold moreFollows. fold n. fold count. destruct (k =? count - 1) eqn:E.
  { apply Z.eqb_eq in E as ->. rewrite Z.ltb_irrefl. cbn [negb].
    rewrite Z.sub_add. unfold count, n. rewrite chunk_count_end by done. do 2 f_equal. unfold len. by rewrite Nat2Z.id, firstn_all. }
  apply Z.eqb_neq in E. rewrite (proj2 (Z.ltb_lt k (count - 1))) by lia. cbn [negb].
  rewrite (proj2 (Z.eqb_neq (k + 1) 0)) by lia. replace (k + 1 - 1) with k by lia.
  destruct (k =? 0) eqn:E0.
  { apply Z.eqb_eq in E0 as ->. change (0 + 1 =? 1) with true. cbn [orb]. by rewrite Z.mod_0_l by lia. }
  apply Z.eqb_neq in E0. rewrite (proj2 (Z.eqb_neq (k + 1) 1)) by lia. cbn [orb].
  destruct (window_step window k Hwin ltac:(lia)) as [-> Hw]. destruct (k mod window =? 0) eqn:Em; [apply Z.eqb_eq in Em; by rewrite Em|].
  apply Z.eqb_neq in Em. by rewrite Hw.
Qed.

Lemma Add_unexpected k i more c : 0 <= k < 256 -> 0 <= i < 256 -> i <> k -> Add (holds k) (u8 i) more c = (OutOfOrder, holds k).
Proof using Type.
  intros Hk Hi Hne. unfold Add. cbn [r_expected holds]. rewrite !uwrap_small by (unfold is_u; lia).
  by rewrite (proj2 (Z.eqb_neq i k)).
Qed.

(** Segments arrive as any list of indices: lost, repeated or out of order. *)
Fixpoint feed (r : Reassembly) (ids : list Z) : Reassembly + bytes :=
  match ids with
  | [] => inl r
  | i :: ids =>
      match Add r (u8 i) (moreFollows payload size i) (chunkOf payload size i) with
      | (Complete, r) => inr (Payload r)
      | (_, r) => feed r ids
      end
  end.

Lemma feed_step k i ids : 0 <= k < count -> 0 <= i < count ->
  feed (holds k) (i :: ids) =
    if i =? k then if k =? count - 1 then inr payload else feed (holds (k + 1)) ids else feed (holds k) ids.
Proof using Hsize Hwin Hcount Hsegs Hoct.
  intros Hk Hi. cbn [feed]. destruct (i =? k) eqn:E; bool_to_prop.
  - subst i. rewrite Add_expected by done. destruct (k =? count - 1); [done|]. by destruct (k mod window =? 0).
  - by rewrite Add_unexpected by lia.
Qed.

(** From [k] segments on, the message completes exactly when the missing
    segments arrive in order, with anything in between. *)
Lemma feed_spec ids : forall k, 0 <= k < count -> Forall (fun i => 0 <= i < count) ids ->
  (seqZ k (count - k) `sublist_of` ids /\ feed (holds k) ids = inr payload) \/
  (~ seqZ k (count - k) `sublist_of` ids /\ exists j, k <= j < count /\ feed (holds k) ids = inl (holds j)).
Proof using Hsize Hwin Hcount Hsegs Hoct.
  induction ids as [|i ids IH]; intros k Hk His.
  { right. split; [|exists k; split; [lia|done]]. rewrite sublist_nil_r. rewrite seqZ_cons by lia. done. }
  apply Forall_cons in His as [Hi His]. rewrite feed_step by done.
  rewrite (seqZ_cons k) by lia. destruct (i =? k) eqn:E; bool_to_prop.
  - subst i. destruct (k =? count - 1) eqn:El; bool_to_prop.
    + left. split; [|done]. apply sublist_skip. replace (Z.pred (count - k)) with 0 by lia. apply sublist_nil_l.
    + destruct (IH (k + 1) ltac:(lia) His) as [[Hs Hf]|[Hs (j & Hj & Hf)]]; rewrite Hf;
        replace (count - (k + 1)) with (Z.pred (count - k)) in Hs by lia.
      * left. split; [|done]. by apply sublist_skip.
      * right. split; [|exists j; split; [lia|done]]. intros Hc. apply Hs.
        inversion Hc as [| |? ? ? Hc']; subst; [done|]. etrans; [|exact Hc']. by apply sublist_cons.
  - destruct (IH k Hk His) as [[Hs Hf]|[Hs (j & Hj & Hf)]]; rewrite Hf; rewrite (seqZ_cons k) in Hs by lia.
    + left. split; [|done]. by apply sublist_cons.
    + right. split; [|by exists j]. intros Hc. apply Hs. inversion Hc; subst; done.
Qed.
End Reassemble.

Lemma concat_chunks payload size k : 1 <= size -> (0 <= k) ->
  concat (map (chunkOf payload size) (seqZ 0 k)) = take (Z.to_nat (Z.min (k * size) (len payload))) payload.
Proof.
  intros Hs Hk. revert k Hk. apply natlike_ind.
  - rewrite Z.min_l by apply len_nonneg. done.
  - intros k Hk IH. rewrite <- Z.add_1_r, seqZ_app, map_app, concat_app, IH by lia.
    replace (seqZ (0 + k) 1) with [k] by (unfold seqZ; cbn; f_equal; lia).
    cbn [map concat]. rewrite app_nil_r. by apply chunkOf_spec.
Qed.

(** ** Reassembly of arbitrary input *)
Record reassembly_ok (r : Reassembly) : Prop := {
  ro_segments : 0 <= r_segments r <= r_maxSegments r;
  ro_octets : len (r_buf r) <= r_maxOctets r;
  ro_expected : r_expected r = u8 (r_segments r);
  ro_window : 1 <= r_window r < 256;
  ro_inWindow : 0 <= r_inWindow r < r_window r
}.

Lemma NewReassembly_ok window maxSegments maxOctets : is_byte window -> 0 <= maxSegments -> 0 <= maxOctets ->
  reassembly_ok (NewReassembly window maxSegments maxOctets).
Proof.
  intros Hw Hs Ho. unfold NewReassembly, is_u in *. destruct (window =? 0) eqn:E; bool_to_prop; split; cbn; try done; lia.
Qed.

Lemma Add_ok r seq more payload o r' : reassembly_ok r -> Add r seq more payload = (o, r') ->
  reassembly_ok r' /\ r_window r' = r_window r /\ r_maxSegments r' = r_maxSegments r /\ r_maxOctets r' = r_maxOctets r /\
  match o with
  | Stored | StoredAck | Complete =>
      seq = r_expected r /\ r_segments r' = r_segments r + 1 /\ r_buf r' = r_buf r ++ payload /\ Last r' = seq /\
      (more = false <-> o = Complete)
  | OutOfOrder => r' = r /\ seq <> r_expected r
  | TooManySegments => r' = r /\ r_segments r = r_maxSegments r
  | TooLong => r' = r /\ r_maxOctets r < len (r_buf r ++ payload)
  end.
Proof.
  intros [H1 H2 H3 H4 H5]. unfold Add.
  destruct (negb (seq =? _)) eqn:E1; [intros [= <- <-]; bool_to_prop; split_and!; done|].
  destruct (_ >? r_maxSegments r) eqn:E2; [intros [= <- <-]; bool_to_prop; split_and!; try done; lia|].
  destruct (_ >? r_maxOctets r) eqn:E3; [intros [= <- <-]; bool_to_prop; split_and!; try done; len_lia|].
  bool_to_prop. subst seq. cbv zeta. rewrite (uwrap_small 8 (r_inWindow r + 1)) by (unfold is_u; lia).
  assert (u8 (r_expected r + 1) = u8 (r_segments r + 1)) as He
    by (rewrite H3; unfold uwrap; by rewrite Zplus_mod_idemp_l).
  assert (Last (mkReassembly (r_window r) (u8 (r_expected r + 1)) 0 0 0 0 []) = r_expected r) as HL.
  { unfold Last. cbn. rewrite H3. unfold uwrap. rewrite Zplus_mod_idemp_l, Zminus_mod_idemp_l. f_equal. lia. }
  unfold Last in *. cbn [r_expected] in HL.
  destruct more; cbn [negb]; [destruct (_ || _) eqn:E4|]; intros [= <- <-]; cbn;
    (split; [split; cbn; try done; try len_lia|by split_and!]).
Qed.

(** ** Properties *)

(** [Count] and [Bounds] cut a payload exactly: the slices of the
    segments are in range, hold at most [size] octets each and concatenate to
    the payload, and no smaller number of segments would carry it; an empty
    payload takes one segment. *)
Theorem segments_partition payload size : 1 <= size ->
  let count := Count (len payload) size in
  1 <= count /\ concat (map (chunkOf payload size) (seqZ 0 count)) = payload /\
  (forall i, 0 <= i < count -> exists c, chunk payload size i = Ok c /\ len c <= size) /\
  (forall k, 1 <= k -> len payload <= k * size -> count <= k).
Proof.
  intros Hs. cbv zeta. pose proof (Count_spec (len payload) size Hs (len_nonneg payload)) as (Hc & Hb & Hm).
  split_and!; [done|..].
  - rewrite concat_chunks, chunk_count_end by lia. unfold len. by rewrite Nat2Z.id, firstn_all.
  - intros i Hi. destruct (chunk_total payload size Hs i ltac:(lia)) as (c & He & Hl & _). by exists c.
  - intros k Hk Hle. destruct (Z.lt_ge_cases 0 (len payload)) as [Hp|Hp]; [specialize (Hm Hp); nia|].
    unfold Count. decide_test. by decide_test.
Qed.

Lemma segments_partition_witness :
  concat (map (chunkOf [1; 2; 3; 4; 5] 2) (seqZ 0 (Count (len [1; 2; 3; 4; 5]) 2))) = [1; 2; 3; 4; 5].
Proof. apply (segments_partition [1; 2; 3; 4; 5] 2). lia. Defined.

(** A receiver that adds the segments of a message of at most 256
    segments, in whatever order they arrive and with any losses and
    repetitions, either still waits or delivers exactly the payload, and it
    delivers it precisely when every segment has arrived once in order
    (possibly between others). It never stores a wrong octet and never hits
    its limits when the message is within them. *)
Theorem reassembly_any_delivery payload size window maxSegments maxOctets ids :
  1 <= size -> 1 <= window <= 127 -> Count (len payload) size <= 256 -> Count (len payload) size <= maxSegments ->
  len payload <= maxOctets -> Forall (fun i => 0 <= i < Count (len payload) size) ids ->
  match feed payload size (NewReassembly window maxSegments maxOctets) ids with
  | inr p => p = payload /\ seqZ 0 (Count (len payload) size) `sublist_of` ids
  | inl r => ~ seqZ 0 (Count (len payload) size) `sublist_of` ids /\
             exists k, 0 <= k < Count (len payload) size /\ Segments r = k /\
               Payload r = concat (map (chunkOf payload size) (seqZ 0 k))
  end.
Proof.
  intros Hs Hw Hc Hm Ho Hids. rewrite <- (holds_0 payload size window maxSegments maxOctets Hw).
  pose proof (count_pos payload size Hs) as Hp.
  destruct (feed_spec payload size window maxSegments maxOctets Hs Hw Hc Hm Ho ids 0 ltac:(lia) Hids)
    as [[Hsub ->]|[Hsub (j & Hj & ->)]]; rewrite Z.sub_0_r in Hsub.
  - by split.
  - split; [done|]. exists j. split_and!; [lia..|done|]. by rewrite concat_chunks by lia.
Qed.

Lemma reassembly_any_delivery_witness :
  feed [1; 2; 3; 4; 5] 2 (NewReassembly 2 16 100) [0; 2; 0; 1; 0; 2] = inr [1; 2; 3; 4; 5] /\
  match feed [1; 2; 3; 4; 5] 2 (NewReassembly 2 16 100) [0; 2; 0; 1; 0; 2] with
  | inr p => p = [1; 2; 3; 4; 5] /\ seqZ 0 3 `sublist_of` [0; 2; 0; 1; 0; 2]
  | inl _ => False
  end.
Proof.
  split; [reflexivity|].
  pose proof (reassembly_any_delivery [1; 2; 3; 4; 5] 2 2 16 100 [0; 2; 0; 1; 0; 2]) as H.
  apply H; try done. change (Count (len [1; 2; 3; 4; 5]) 2) with 3.
  repeat (apply List.Forall_cons; [lia|]). apply List.Forall_nil.
Defined.

(** Whatever a peer sends, a reassembly stays inside its limits: every
    [Add] keeps the segment and octet counts at or below the maxima and the
    window position below the window, stores a segment only if it is the
    expected one and the buffer grows by exactly its octets, leaves the state
    alone otherwise, and reports [Complete] exactly for a stored segment
    without more-follows. *)
Theorem reassembly_bounded r seq more payload o r' : reassembly_ok r -> Add r seq more payload = (o, r') ->
  reassembly_ok r' /\ r_window r' = r_window r /\ r_maxSegments r' = r_maxSegments r /\ r_maxOctets r' = r_maxOctets r /\
  match o with
  | Stored | StoredAck | Complete =>
      seq = r_expected r /\ r_segments r' = r_segments r + 1 /\ r_buf r' = r_buf r ++ payload /\ Last r' = seq /\
      (more = false <-> o = Complete)
  | OutOfOrder => r' = r /\ seq <> r_expected r
  | TooManySegments => r' = r /\ r_segments r = r_maxSegments r
  | TooLong => r' = r /\ r_maxOctets r < len (r_buf r ++ payload)
  end.
Proof. apply Add_ok. Qed.

Lemma reassembly_bounded_witness :
  let r' := mkReassembly 4 1 0 1 8 10 [7; 8] in
  Add (NewReassembly 4 8 10) 0 true [7; 8] = (StoredAck, r') /\ reassembly_ok r'.
Proof.
  cbv zeta. split; [reflexivity|].
  apply (reassembly_bounded (NewReassembly 4 8 10) 0 true [7; 8] StoredAck); [|reflexivity].
  apply NewReassembly_ok; unfold is_u; lia.
Defined.
