(* ===== verification/SegmentSend.v ===== *)
(** * Segmented transmission: [client/segment_send.go] and the reply side of
    [server/responder.go]

    [ClientSend] models [buildConfirmedSegments] and the loop of
    [sendConfirmedSegments]; [ServerSend] models [decodeMaxSegments], the
    segment encoder and the loop of [sendSegments]. A loop is a state, the
    segments an iteration transmits, and the handler of one event (a
    SegmentACK, a timer, the end of the context); channels deliver the events
    in the order given. *)

From Stdlib Require Import ZArith Lia.
From stdpp Require Import base list.
From S2P Require Import Prelude Value Tags Constructed Writer Apdu Segment.

Module ClientSend.
Definition confirmedSeg0Overhead : Z := 6.
Definition defaultSegmentSendWindow : Z := 16.

(** The request of segment [i]. *)
Definition segmentRequest (req : ConfirmedRequest) (window count i : Z) (part : bytes) : ConfirmedRequest :=
  mkConfirmedRequest true (i <? count - 1) (cr_SegmentedResponseAccepted req) (cr_MaxSegments req) (cr_MaxAPDU req)
    (cr_InvokeID req) (u8 i) window (cr_ServiceChoice req) part.

(** [for i := range count]: [k] segments left, the next one [i]. *)
Fixpoint buildLoop (req : ConfirmedRequest) (remoteMax window size count i : Z) (k : nat) : result (list bytes) :=
  match k with
  | O => Ok []
  | S k =>
      let payload := cr_Payload req in
      let (start, stop) := Bounds i size (len payload) in
      let* part := slice payload start stop in
      let seg := AppendConfirmedRequest [] (segmentRequest req window count i part) in
      if len seg >? remoteMax then Err ErrAPDUTooLarge
      else let* out := buildLoop req remoteMax window size count (i + 1) k in Ok (seg :: out)
  end.

Definition buildConfirmedSegments (req : ConfirmedRequest) (remoteMax proposedWindow : Z) : result (list bytes) :=
  let proposedWindow := if negb (ValidWindow proposedWindow) then defaultSegmentSendWindow else proposedWindow in
  let size := remoteMax - confirmedSeg0Overhead in
  if size <? 1 then Err ErrAPDUTooLarge
  else
    let count := Count (len (cr_Payload req)) size in
    if count >? Segment.MaxSegments then Err ErrAPDUTooLarge
    else buildLoop req remoteMax proposedWindow size count 0 (Z.to_nat count).

(** The variables of [sendConfirmedSegments]. *)
Record state := mkState { window : Z; nextToSend : Z; highestAcked : Z; inFlight : Z; nakRounds : Z }.
Definition initial : state := mkState 1 0 (-1) 0 0.

Inductive event :=
| EDone | EClosed | ETimer
| EAck (ack : SegmentACK).

Inductive fault := FTransport | FContext | FClosed | FSegmentTimeout | FNakLimit | FProtocolViolation.
Inductive verdict := Wait | Progress | Fail (f : fault).

Section Loop.
(** [sendOk a] is whether the [a]-th transmission succeeds. *)
Context (sendOk : nat -> bool).

(** The inner sending loop from attempt [a] on: the indices handed to the
    transport, the state after it and whether every send succeeded. *)
Fixpoint fill (n : Z) (fuel : nat) (a : nat) (st : state) : list Z * state * bool :=
  match fuel with
  | O => ([], st, true)
  | S fuel =>
      if (inFlight st <? window st) && (nextToSend st <? n) then
        if sendOk a then
          let st' := mkState (window st) (nextToSend st + 1) (highestAcked st) (inFlight st + 1) (nakRounds st) in
          let '(out, st'', ok) := fill n fuel (S a) st' in (nextToSend st :: out, st'', ok)
        else ([nextToSend st], st, false)
      else ([], st, true)
  end.

(** One turn of [for !gotProgress { select ... }]. *)
Definition onEvent (invokeID retryCount : Z) (st : state) (e : event) : state * verdict :=
  match e with
  | EDone => (st, Fail FContext)
  | EClosed => (st, Fail FClosed)
  | ETimer => (st, Fail FSegmentTimeout)
  | EAck ack =>
      if negb (sg_InvokeID ack =? invokeID) || negb (sg_Server ack) then (st, Wait)
      else
        let w := if ValidWindow (sg_ActualWindowSize ack) then sg_ActualWindowSize ack else window st in
        let st := mkState w (nextToSend st) (highestAcked st) (inFlight st) (nakRounds st) in
        if sg_NegativeACK ack then
          let rounds := nakRounds st + 1 in
          let st := mkState w (nextToSend st) (highestAcked st) (inFlight st) rounds in
          if rounds >? retryCount + 3 then (st, Fail FNakLimit)
          else
            let resume := u8 (sg_SequenceNumber ack + 1) mod 256 in
            let resume := if (resume =? 0) && (highestAcked st >=? 0) then 256 else resume in
            if resume >? nextToSend st then (st, Fail FProtocolViolation)
            else if resume <=? highestAcked st then (st, Wait)
            else (mkState w resume (resume - 1) 0 rounds, Progress)
        else
          let acked := sg_SequenceNumber ack in
          if acked <=? highestAcked st then (st, Wait)
          else if acked >=? nextToSend st then (st, Fail FProtocolViolation)
          else
            let newly := acked - highestAcked st in
            let inFlight' := inFlight st - newly in
            let inFlight' := if inFlight' <? 0 then 0 else inFlight' in
            (mkState w (nextToSend st) acked inFlight' 0, Progress)
  end.

(** The outer loop over a list of events, [a] attempts made so far: the
    segments handed to the transport and how it ended ([None]: still
    waiting). *)
Fixpoint run (invokeID retryCount n : Z) (a : nat) (st : state) (es : list event) : list Z * state * option (option fault) :=
  match es with
  | [] => ([], st, None)
  | e :: es =>
      match onEvent invokeID retryCount st e with
      | (st, Wait) => run invokeID retryCount n a st es
      | (st, Fail f) => ([], st, Some (Some f))
      | (st, Progress) =>
          if highestAcked st + 1 <? n then
            match fill n (Z.to_nat n) a st with
            | (out, st, true) =>
                let '(out', st, r) := run invokeID retryCount n (a + length out) st es in (out ++ out', st, r)
            | (out, st, false) => (out, st, Some (Some FTransport))
            end
          else ([], st, Some None)
      end
  end.
Definition sendConfirmedSegments (invokeID retryCount n : Z) (es : list event) : list Z * state * option (option fault) :=
  if highestAcked initial + 1 <? n then
    match fill n (Z.to_nat n) 0 initial with
    | (out, st, true) =>
        let '(out', st, r) := run invokeID retryCount n (length out) st es in (out ++ out', st, r)
    | (out, st, false) => (out, st, Some (Some FTransport))
    end
  else ([], initial, Some None).
End Loop.

(** ** The sending loop *)

(** What holds between events: the segments below [nextToSend] were sent,
    those up to [highestAcked] acknowledged, and [inFlight] counts the rest. *)
Record inv (retryCount n : Z) (st : state) : Prop := {
  inv_acked : 0 <= highestAcked st + 1 <= nextToSend st;
  inv_next : nextToSend st <= n;
  inv_inFlight : inFlight st = nextToSend st - (highestAcked st + 1);
  inv_window : 1 <= window st <= 127;
  inv_nak : 0 <= nakRounds st <= retryCount + 3
}.

Lemma ValidWindow_spec w : ValidWindow w = true <-> 1 <= w <= 127.
Proof. unfold ValidWindow, MaxWindow. rewrite andb_true_iff, Z.geb_leb, !Z.leb_le. lia. Qed.

Lemma fill_spec sendOk rc n fuel : forall a st out st' ok, inv rc n st -> n - nextToSend st <= Z.of_nat fuel ->
  fill sendOk n fuel a st = (out, st', ok) ->
  Forall (fun i => nextToSend st <= i < Z.min n (highestAcked st + 1 + window st)) out /\
  len out <= Z.max 0 (highestAcked st + 1 + window st - nextToSend st) /\
  (ok = true -> inv rc n st' /\ nextToSend st <= nextToSend st' /\ highestAcked st' = highestAcked st /\
     nakRounds st' = nakRounds st /\ (forall i, nextToSend st <= i < nextToSend st' -> i ∈ out) /\
     (nextToSend st' = n \/ highestAcked st + 1 + window st <= nextToSend st')).
Proof.
  induction fuel as [|fuel IH]; intros a st out st' ok [H1 H2 H3 H4 H5] Hf; cbn [fill].
  - intros [= <- <- <-]. split_and!; [done|change (len []) with 0; lia|]. intros _. split_and!; try done; lia.
  - destruct (_ && _) eqn:E.
    + bool_to_prop. destruct (sendOk a).
      * destruct (fill _ n fuel _ _) as [[out1 st1] ok1] eqn:Ef. intros [= <- <- <-].
        apply IH in Ef as (Hall & Hlen & Hok); [|split; cbn; lia|cbn; lia]. cbn in *. split_and!.
        -- apply List.Forall_cons; [lia|]. eapply Forall_impl; [exact Hall|]. cbn. lia.
        -- rewrite len_cons. lia.
        -- intros Ht. destruct (Hok Ht) as (Hi & Hle & Ha & Hn & Hin & Hb). split_and!; try done; try lia.
           intros i Hi'. destruct (Z.eq_dec i (nextToSend st)) as [->|]; [left|right; apply Hin; lia].
      * intros [= <- <- <-]. split_and!; [|rewrite len_cons; change (len []) with 0; lia|done].
        apply List.Forall_cons; [lia|apply List.Forall_nil].
    + intros [= <- <- <-]. split_and!; [done|change (len []) with 0; lia|]. intros _. split_and!; try done; lia.
Qed.

(** The measure that every answered window and every negative SegmentACK
    lowers. *)
Definition measure (retryCount n : Z) (st : state) : Z :=
  (n - 1 - highestAcked st) * (retryCount + 4) + (retryCount + 3 - nakRounds st).

Lemma client_onEvent_inv invokeID rc n st e st' v : 0 <= rc -> inv rc n st ->
  (forall a, e = EAck a -> is_byte (sg_SequenceNumber a)) -> onEvent invokeID rc st e = (st', v) ->
  match v with
  | Fail _ => True
  | Wait => inv rc n st' /\ nextToSend st' = nextToSend st /\ highestAcked st' = highestAcked st /\
            measure rc n st' <= measure rc n st
  | Progress => inv rc n st' /\ nextToSend st' <= nextToSend st /\ highestAcked st <= highestAcked st' /\
                measure rc n st' < measure rc n st
  end.
Proof.
  intros Hrc [H1 H2 H3 H4 H5] Hb. destruct e as [| | |a]; cbn; try (by intros [= <- <-]).
  specialize (Hb a eq_refl). unfold is_u in Hb. unfold measure.
  destruct (_ || _); [intros [= <- <-]; split_and!; done || lia|].
  set (w := if ValidWindow _ then _ else _).
  assert (1 <= w <= 127) as Hw by (unfold w; destruct (ValidWindow _) eqn:E; [by apply ValidWindow_spec|done]). clearbody w.
  destruct (sg_NegativeACK a).
  - destruct (_ >? _) eqn:E1; [by intros [= <- <-]|]. bool_to_prop. unfold uwrap. rewrite Zmod_mod.
    set (resume := if _ && _ then 256 else _).
    assert (0 <= resume /\ (resume = 0 -> highestAcked st < 0)) as [Hr Hr0].
    { unfold resume. pose proof (Z.mod_pos_bound (sg_SequenceNumber a + 1) 256). destruct (_ && _) eqn:E; bool_to_prop; lia. }
    clearbody resume. destruct (resume >? _) eqn:E2; [by intros [= <- <-]|]. destruct (resume <=? _) eqn:E3; bool_to_prop; intros [= <- <-]; cbn.
    + split_and!; [split; cbn; lia|lia..].
    + split_and!; [split; cbn; lia|lia..|nia].
  - destruct (_ <=? _) eqn:E1; [intros [= <- <-]; split_and!; [split; cbn; lia|cbn; lia..]|].
    destruct (_ >=? _) eqn:E2; [by intros [= <- <-]|]. bool_to_prop.
    rewrite (proj2 (Z.ltb_ge (inFlight st - (sg_SequenceNumber a - highestAcked st)) 0)) by lia.
    intros [= <- <-]. cbn. split_and!; [split; cbn; lia|lia..|nia].
Qed.

(** The requests of the segments. *)
Lemma segmentRequest_len req window count i part : len (AppendConfirmedRequest [] (segmentRequest req window count i part)) = 6 + len part.
Proof. unfold AppendConfirmedRequest. cbn [cr_SegmentedMessage cr_Payload segmentRequest]. len_lia. Qed.

Lemma buildLoop_spec req remoteMax window size k : size = remoteMax - 6 -> 1 <= size -> forall i, 0 <= i ->
  buildLoop req remoteMax window size (Count (len (cr_Payload req)) size) i k =
    Ok (map (fun i => AppendConfirmedRequest [] (segmentRequest req window (Count (len (cr_Payload req)) size) i (chunkOf (cr_Payload req) size i)))
          (seqZ i (Z.of_nat k))).
Proof.
  intros Hsz Hs. induction k as [|k IH]; intros i Hi; [done|]. cbn [buildLoop]. cbv zeta.
  destruct (chunk_total (cr_Payload req) size Hs i Hi) as (c & Hc & Hl & _). unfold chunk in Hc.
  assert (chunkOf (cr_Payload req) size i = c) as Hco by (unfold chunkOf, chunk; by rewrite Hc).
  destruct (Bounds i size _) as [a b]. rewrite Hc, bind_Ok_l, segmentRequest_len. decide_test. decide_test.
  rewrite IH, bind_Ok_l by lia. rewrite (seqZ_cons i) by lia. cbn [map]. rewrite Hco. do 2 f_equal. f_equal. f_equal; lia.
Qed.

(** [buildConfirmedSegments] succeeds exactly when there is room and at most
    256 segments are needed; then it returns the requests of the segments. *)
Lemma buildConfirmedSegments_spec req remoteMax w :
  let size := remoteMax - 6 in
  let count := Count (len (cr_Payload req)) size in
  let w' := if ValidWindow w then w else defaultSegmentSendWindow in
  buildConfirmedSegments req remoteMax w =
    if (size <? 1) || (256 <? count) then Err ErrAPDUTooLarge
    else Ok (map (fun i => AppendConfirmedRequest [] (segmentRequest req w' count i (chunkOf (cr_Payload req) size i))) (seqZ 0 count)).
Proof.
  cbv zeta. unfold buildConfirmedSegments, confirmedSeg0Overhead, Segment.MaxSegments. cbv zeta.
  destruct (_ <? 1) eqn:E1; [done|]. rewrite Z.gtb_ltb. destruct (256 <? _) eqn:E2; [done|]. bool_to_prop. cbn [orb].
  pose proof (Count_spec (len (cr_Payload req)) (remoteMax - 6) ltac:(lia) (len_nonneg _)).
  rewrite buildLoop_spec by lia. rewrite Z2Nat.id by lia. by destruct (ValidWindow w).
Qed.

Lemma client_measure_nonneg rc n st : 0 <= rc -> inv rc n st -> 0 <= measure rc n st.
Proof. intros Hrc [H1 H2 H3 H4 H5]. unfold measure. nia. Qed.

Definition acks_ok (es : list event) : Prop := Forall (fun e => forall a, e = EAck a -> is_byte (sg_SequenceNumber a)) es.

Lemma client_run_spec sendOk invokeID rc n es : 0 <= rc -> acks_ok es ->
  forall a st, inv rc n st -> highestAcked st + 1 < n ->
  let '(out, st', r) := run sendOk invokeID rc n a st es in
  Forall (fun i => 0 <= i < n) out /\ len out <= 127 * measure rc n st /\
  match r with
  | Some None => highestAcked st' = n - 1 /\ forall i, nextToSend st <= i < n -> i ∈ out
  | Some (Some _) => True
  | None => inv rc n st' /\ highestAcked st' + 1 < n /\ forall i, nextToSend st <= i < nextToSend st' -> i ∈ out
  end.
Proof.
  intros Hrc. induction 1 as [|e es He Hes IH]; intros a st Hi Ha; cbn [run].
  { pose proof (client_measure_nonneg rc n st Hrc Hi). split_and!; try done; [len_lia|lia]. }
  destruct (onEvent invokeID rc st e) as [st1 v] eqn:Ev. pose proof (client_onEvent_inv _ _ _ _ _ _ _ Hrc Hi He Ev) as Hv.
  destruct v as [| |f].
  - destruct Hv as (Hi1 & Hn1 & Ha1 & Hm1). specialize (IH a st1 Hi1 ltac:(lia)). destruct (run _ invokeID rc n a st1 es) as [[out st'] r].
    rewrite Hn1 in IH. destruct IH as (? & ? & ?). split_and!; try done; lia.
  - destruct Hv as (Hi1 & Hn1 & Ha1 & Hm1). pose proof (client_measure_nonneg rc n st1 Hrc Hi1). destruct (_ <? n) eqn:El; bool_to_prop.
    + destruct (fill sendOk n (Z.to_nat n) a st1) as [[o2 st2] ok] eqn:Ef.
      apply (fill_spec sendOk rc) in Ef as (Hall2 & Hlen2 & Hok2); [|done|destruct Hi1; lia].
      assert (Forall (fun i => 0 <= i < n) o2) by (eapply Forall_impl; [exact Hall2|cbn; destruct Hi1; lia]).
      assert (len o2 <= 127) by (destruct Hi1; lia).
      destruct ok; [|split_and!; try done; lia].
      destruct (Hok2 eq_refl) as (Hi2 & Hle & Ha2 & Hk2 & Hcov & _).
      specialize (IH (a + length o2)%nat st2 Hi2 ltac:(lia)). destruct (run _ invokeID rc n _ st2 es) as [[out st'] r].
      assert (measure rc n st2 = measure rc n st1) as Hm2 by (unfold measure; by rewrite Ha2, Hk2).
      destruct IH as (Hall & Hlen & Hr). rewrite Hm2 in Hlen. split_and!; [by apply Forall_app|rewrite len_app; lia|].
      destruct r as [[f|]|]; [done|..].
      * destruct Hr as [Hr1 Hr2]. split; [done|]. intros i Hin. apply elem_of_app.
        destruct (Z.lt_ge_cases i (nextToSend st2)); [left; apply Hcov; lia|right; apply Hr2; lia].
      * destruct Hr as (Hr1 & Hr2 & Hr3). split_and!; [done..|]. intros i Hin. apply elem_of_app.
        destruct (Z.lt_ge_cases i (nextToSend st2)); [left; apply Hcov; lia|right; apply Hr3; lia].
    + split_and!; [done|change (len []) with 0; lia| |]; destruct Hi1, Hi; lia.
  - split_and!; try done. pose proof (client_measure_nonneg rc n st Hrc Hi). len_lia.
Qed.
End ClientSend.

Module ServerSend.
Definition decodeMaxSegments (code : Z) : Z :=
  match code with
  | 1 => 2 | 2 => 4 | 3 => 8 | 4 => 16 | 5 => 32 | 6 => 64
  | _ => 0
  end.

(** The closure [encode] of [sendSegments]. *)
Definition encode (invokeID choice window segSize count : Z) (payload : bytes) (i : Z) : result bytes :=
  let (start, stop) := Bounds i segSize (len payload) in
  let* part := slice payload start stop in
  Ok (AppendComplexACK [] (mkComplexACK true (i <? count - 1) invokeID (u8 i) window choice part)).

Record state := mkState { window : Z; acked : Z; retries : Z }.
Definition initial : state := mkState 1 (-1) 0.

Inductive event :=
| EDone | EAborted | ETimer
| EAck (ack : SegmentACK).
Inductive fault := FTransport | FContext | FAborted | FSegmentTimeout.
Inductive verdict := Wait | Progress | Fail (f : fault).

(** [end := min(acked+1+window, count)] and the segments sent before it. *)
Definition windowEnd (count : Z) (st : state) : Z := Z.min (acked st + 1 + window st) count.
Definition transmit (count : Z) (st : state) : list Z := seqZ (acked st + 1) (windowEnd count st - (acked st + 1)).

(** One turn of [for !progressed { select ... }] after the window up to
    [stop] was sent. *)
Definition onEvent (maxRetries stop : Z) (st : state) (e : event) : state * verdict :=
  match e with
  | EDone => (st, Fail FContext)
  | EAborted => (st, Fail FAborted)
  | ETimer =>
      let st := mkState (window st) (acked st) (retries st + 1) in
      if retries st >? maxRetries then (st, Fail FSegmentTimeout) else (st, Progress)
  | EAck ack =>
      let w := if ValidWindow (sg_ActualWindowSize ack) then sg_ActualWindowSize ack else window st in
      let st := mkState w (acked st) (retries st) in
      let seq := sg_SequenceNumber ack in
      let base := acked st + 1 in
      let off := (seq - base mod 256 + 256) mod 256 in
      let n := base + off in
      if n >=? stop then (st, Wait)
      else if n >? acked st then (mkState w n 0, Progress)
      else if negb (sg_NegativeACK ack) then (st, Wait)
      else (st, Progress)
  end.

Section Loop.
(** [sendOk a] is whether the [a]-th transmission succeeds. *)
Context (sendOk : nat -> bool).

(** The sending loop over the indices [is'] from attempt [a] on. *)
Fixpoint sendAll (a : nat) (is' : list Z) : list Z * bool :=
  match is' with
  | [] => ([], true)
  | i :: is' => if sendOk a then let (out, ok) := sendAll (S a) is' in (i :: out, ok) else ([i], false)
  end.

(** [for acked < count-1]; [stop] is the end of the window last sent. *)
Fixpoint run (maxRetries count : Z) (a : nat) (stop : Z) (st : state) (es : list event) : list Z * state * option (option fault) :=
  match es with
  | [] => ([], st, None)
  | e :: es =>
      match onEvent maxRetries stop st e with
      | (st, Wait) => run maxRetries count a stop st es
      | (st, Fail f) => ([], st, Some (Some f))
      | (st, Progress) =>
          if acked st <? count - 1 then
            match sendAll a (transmit count st) with
            | (out, true) =>
                let '(out', st', r) := run maxRetries count (a + length out) (windowEnd count st) st es in (out ++ out', st', r)
            | (out, false) => (out, st, Some (Some FTransport))
            end
          else ([], st, Some None)
      end
  end.
Definition sendSegments (maxRetries count : Z) (es : list event) : list Z * state * option (option fault) :=
  if acked initial <? count - 1 then
    match sendAll 0 (transmit count initial) with
    | (out, true) =>
        let '(out', st, r) := run maxRetries count (length out) (windowEnd count initial) initial es in (out ++ out', st, r)
    | (out, false) => (out, initial, Some (Some FTransport))
    end
  else ([], initial, Some None).
End Loop.

(** ** The sending loop *)
Record inv (maxRetries count stop : Z) (st : state) : Prop := {
  inv_acked : -1 <= acked st < stop;
  inv_stop : stop <= Z.min count (acked st + 128);
  inv_window : 1 <= window st <= 127;
  inv_retries : 0 <= retries st <= maxRetries
}.

Definition measure (maxRetries count : Z) (st : state) : Z :=
  (count - 1 - acked st) * (maxRetries + 1) + (maxRetries - retries st).

Lemma windowEnd_inv maxRetries count st : -1 <= acked st < count - 1 -> 1 <= window st <= 127 -> 0 <= retries st <= maxRetries ->
  inv maxRetries count (windowEnd count st) st /\ acked st + 1 < windowEnd count st.
Proof. intros Ha Hw Hr. unfold windowEnd. split; [split|]; lia. Qed.

(** The offset of a sequence number above the first unacknowledged segment. *)
Lemma seq_offset seq base : is_byte seq -> (seq - base mod 256 + 256) mod 256 = (seq - base) mod 256.
Proof.
  intros _. rewrite <- (Z.mul_1_l 256) at 2. rewrite Z_mod_plus_full. by rewrite Zminus_mod_idemp_r.
Qed.

Lemma server_onEvent_inv maxRetries count stop st e st' v : inv maxRetries count stop st ->
  (forall a, e = EAck a -> is_byte (sg_SequenceNumber a)) -> onEvent maxRetries stop st e = (st', v) ->
  match v with
  | Fail _ => True
  | Wait => inv maxRetries count stop st' /\ acked st' = acked st /\ retries st' = retries st
  | Progress => -1 <= acked st' < stop /\ acked st <= acked st' /\ 1 <= window st' <= 127 /\ 0 <= retries st' <= maxRetries /\
                measure maxRetries count st' < measure maxRetries count st
  end.
Proof.
  intros [H1 H2 H3 H4] Hb. unfold measure. destruct e as [| | |a]; cbn; try (by intros [= <- <-]).
  - destruct (_ >? _) eqn:E; bool_to_prop; intros [= <- <-]; [done|]. cbn. split_and!; lia.
  - specialize (Hb a eq_refl). rewrite seq_offset by done.
    set (w := if ValidWindow _ then _ else _).
    assert (1 <= w <= 127) as Hw by (unfold w; destruct (ValidWindow _) eqn:E; [by apply ClientSend.ValidWindow_spec|done]). clearbody w.
    pose proof (Z.mod_pos_bound (sg_SequenceNumber a - (acked st + 1)) 256 ltac:(lia)).
    destruct (_ >=? _) eqn:E1; [intros [= <- <-]; bool_to_prop; split_and!; [split; cbn; lia|done..]|]. bool_to_prop.
    rewrite Z.gtb_ltb, (proj2 (Z.ltb_lt (acked st) _)) by lia. intros [= <- <-]. cbn. split_and!; try lia. nia.
Qed.

Lemma server_measure_nonneg maxRetries count stop st : inv maxRetries count stop st -> 0 <= measure maxRetries count st.
Proof. intros [H1 H2 H3 H4]. unfold measure. nia. Qed.

Definition acks_ok (es : list event) : Prop := Forall (fun e => forall a, e = EAck a -> is_byte (sg_SequenceNumber a)) es.

Lemma transmit_spec maxRetries count st : inv maxRetries count (windowEnd count st) st ->
  Forall (fun i => 0 <= i < count) (transmit count st) /\ len (transmit count st) <= 127 /\
  forall i, acked st < i < windowEnd count st -> i ∈ transmit count st.
Proof.
  intros [H1 H2 H3 H4]. unfold transmit. split_and!.
  - apply Forall_forall. intros i Hin%elem_of_seqZ. lia.
  - unfold len. rewrite length_seqZ. unfold windowEnd. lia.
  - intros i Hi. apply elem_of_seqZ. lia.
Qed.

Lemma sendAll_spec sendOk ids : forall a out ok, sendAll sendOk a ids = (out, ok) ->
  out `prefix_of` ids /\ (ok = true -> out = ids).
Proof.
  induction ids as [|i ids IH]; intros a out ok; cbn [sendAll]; [intros [= <- <-]; done|].
  destruct (sendOk a).
  - destruct (sendAll sendOk (S a) ids) as [out1 ok1] eqn:E. intros [= <- <-]. destruct (IH _ _ _ E) as [Hp He].
    split; [by apply prefix_cons|]. intros Ht. by rewrite He.
  - intros [= <- <-]. split; [|done]. exists ids. done.
Qed.

Lemma prefix_bounds (out ids : list Z) count : out `prefix_of` ids -> Forall (fun i => 0 <= i < count) ids -> len ids <= 127 ->
  Forall (fun i => 0 <= i < count) out /\ len out <= 127.
Proof. intros [k ->] Hall Hl. apply Forall_app in Hall as [? _]. split; [done|]. len_lia. Qed.

Lemma server_run_spec sendOk maxRetries count es : acks_ok es ->
  forall a stop st, inv maxRetries count stop st -> acked st < count - 1 ->
  let '(out, st', r) := run sendOk maxRetries count a stop st es in
  Forall (fun i => 0 <= i < count) out /\ len out <= 127 * measure maxRetries count st /\
  (r = Some None -> acked st' = count - 1 /\ forall i, stop <= i < count -> i ∈ out).
Proof.
  induction 1 as [|e es He Hes IH]; intros a stop st Hi Ha; cbn [run].
  { pose proof (server_measure_nonneg _ _ _ _ Hi). split_and!; try done. len_lia. }
  destruct (onEvent maxRetries stop st e) as [st1 v] eqn:Ev. pose proof (server_onEvent_inv _ _ _ _ _ _ _ Hi He Ev) as Hv.
  pose proof (server_measure_nonneg _ _ _ _ Hi) as Hm. destruct v as [| |f].
  - destruct Hv as (Hi1 & Ha1 & Hr1). specialize (IH a stop st1 Hi1 ltac:(lia)). destruct (run _ _ _ _ _ st1 es) as [[out st'] r].
    unfold measure in *. by rewrite Ha1, Hr1 in IH.
  - destruct Hv as (Ha1 & Hge & Hw1 & Hr1 & Hm1). destruct Hi as [G1 G2 G3 G4]. destruct (_ <? _) eqn:El; bool_to_prop.
    + destruct (windowEnd_inv maxRetries count st1) as [Hi1 Hwe]; [lia..|]. pose proof (server_measure_nonneg _ _ _ _ Hi1) as Hm'.
      destruct (transmit_spec _ _ _ Hi1) as (Ht1 & Ht2 & Ht3). specialize (IH).
      destruct (sendAll sendOk a (transmit count st1)) as [o1 ok] eqn:Es. apply sendAll_spec in Es as [Hp He1].
      destruct (prefix_bounds _ _ count Hp Ht1 Ht2) as [Hb1 Hb2]. destruct ok; [|split_and!; try done; lia].
      rewrite (He1 eq_refl) in *. specialize (IH (a + length (transmit count st1))%nat _ st1 Hi1 El).
      destruct (run _ _ _ _ _ st1 es) as [[out st'] r]. destruct IH as (Hall & Hlen & Hr).
      split_and!; [by apply Forall_app|rewrite len_app; lia|].
      intros Hs. destruct (Hr Hs) as [Hr2 Hr3]. split; [done|]. intros i Hin. apply elem_of_app.
      destruct (Z.lt_ge_cases i (windowEnd count st1)); [left; apply Ht3; lia|right; apply Hr3; lia].
    + split_and!; [done|change (len []) with 0; lia|]. intros _. split; lia.
  - split_and!; try done. len_lia.
Qed.

(** ** What the segments carry *)
Lemma encode_segment invokeID choice window segSize payload i : 1 <= segSize -> 0 <= i ->
  encode invokeID choice window segSize (Count (len payload) segSize) payload i =
    Ok (AppendComplexACK [] (mkComplexACK true (moreFollows payload segSize i) invokeID (u8 i) window choice (chunkOf payload segSize i))) /\
  len (chunkOf payload segSize i) <= segSize.
Proof.
  intros Hs Hi. destruct (chunk_total payload segSize Hs i Hi) as (c & Hc & Hl & _). unfold encode, chunkOf, chunk in *.
  destruct (Bounds i segSize (len payload)) as [a b]. rewrite Hc. done.
Qed.
End ServerSend.

(** ** Segments on the wire

    A receiver that parses each APDU and adds the segment it carries. [view]
    picks the segments of one direction. *)
Section Receive.
Context (view : PDU -> option (Z * bool * bytes)) (limits : DecodeLimits).

Fixpoint receive (r : Reassembly) (apdus : list bytes) : Reassembly + bytes :=
  match apdus with
  | [] => inl r
  | d :: apdus =>
      match Apdu.Parse d limits with
      | Ok p =>
          match view p with
          | Some (seq, more, part) =>
              match Add r seq more part with
              | (Complete, r) => inr (Payload r)
              | (_, r) => receive r apdus
              end
          | None => receive r apdus
          end
      | Err _ => receive r apdus
      end
  end.

(** Segments that parse back are received as [feed] says. *)
Lemma receive_feed payload size wire ids :
  (forall i, i ∈ ids -> exists p, Apdu.Parse (wire i) limits = Ok p /\
     view p = Some (u8 i, moreFollows payload size i, chunkOf payload size i)) ->
  forall r, receive r (map wire ids) = feed payload size r ids.
Proof.
  induction ids as [|i ids IH]; intros H r; [done|]. cbn [map receive feed].
  destruct (H i ltac:(left)) as (p & -> & ->). specialize (IH ltac:(intros j Hj; apply H; by right)).
  destruct (Add _ _ _ _) as [[] r']; done || apply IH.
Qed.
End Receive.

Definition requestSegment (p : PDU) : option (Z * bool * bytes) :=
  match p with
  | PConfirmedRequest q => Some (cr_SequenceNumber q, cr_MoreFollows q, cr_Payload q)
  | _ => None
  end.
Definition replySegment (p : PDU) : option (Z * bool * bytes) :=
  match p with
  | PComplexACK a => Some (ca_SequenceNumber a, ca_MoreFollows a, ca_Payload a)
  | _ => None
  end.

Lemma chunkOf_bytes_ok payload size i : bytes_ok payload -> bytes_ok (chunkOf payload size i).
Proof.
  intros Hp. unfold chunkOf, chunk. destruct (Bounds _ _ _) as [a b]. destruct (slice payload a b) as [c|] eqn:E; [|solve_bytes].
  by eapply slice_bytes_ok.
Qed.

(** The request segments are well-formed PDUs. *)
Lemma requestSegment_parse req limits w size i :
  let count := Count (len (cr_Payload req)) size in
  let q := ClientSend.segmentRequest req w count i (chunkOf (cr_Payload req) size i) in
  1 <= size -> 6 + size <= MaxAPDUSize (Normalize limits) -> 1 <= w <= 127 ->
  0 <= cr_MaxSegments req < 8 -> 0 <= cr_MaxAPDU req < 6 -> is_byte (cr_InvokeID req) -> is_byte (cr_ServiceChoice req) ->
  bytes_ok (cr_Payload req) -> 0 <= i ->
  Apdu.Parse (AppendConfirmedRequest [] q) limits = Ok (PConfirmedRequest q).
Proof.
  intros count q Hs Hl Hw H1 H2 H3 H4 H5 Hi. pose proof (chunkOf_spec (cr_Payload req) size Hs i Hi) as [_ Hc].
  apply (pdu_complete (PConfirmedRequest q)).
  - unfold q, ClientSend.segmentRequest. cbn. unfold segment_ok. split_and!; try done; try lia.
    + by apply uwrap_range.
    + by apply chunkOf_bytes_ok.
  - cbn [appendPDU]. unfold q. rewrite ClientSend.segmentRequest_len. lia.
Qed.

Lemma replySegment_parse limits invokeID choice w size payload i :
  let a := mkComplexACK true (moreFollows payload size i) invokeID (u8 i) w choice (chunkOf payload size i) in
  1 <= size -> 5 + size <= MaxAPDUSize (Normalize limits) -> 1 <= w <= 127 ->
  is_byte invokeID -> is_byte choice -> bytes_ok payload -> 0 <= i ->
  Apdu.Parse (AppendComplexACK [] a) limits = Ok (PComplexACK a) /\ len (AppendComplexACK [] a) <= 5 + size.
Proof.
  intros a Hs Hl Hw H1 H2 H3 Hi. pose proof (chunkOf_spec payload size Hs i Hi) as [_ Hc].
  assert (len (AppendComplexACK [] a) = 5 + len (chunkOf payload size i)) as Hlen.
  { unfold AppendComplexACK, a. cbn [ca_SegmentedMessage ca_Payload]. len_lia. }
  split; [|lia]. apply (pdu_complete (PComplexACK a)).
  - unfold a. cbn. unfold segment_ok. split_and!; try done; try lia.
    + by apply uwrap_range.
    + by apply chunkOf_bytes_ok.
  - cbn [appendPDU]. rewrite Hlen. lia.
Qed.

Lemma omap_wire (wire : Z -> bytes) count ids : Forall (fun i => 0 <= i < count) ids ->
  omap (fun i => map wire (seqZ 0 count) !! Z.to_nat i) ids = map wire ids.
Proof.
  induction 1 as [|i ids Hi _ IH]; [done|]. cbn [omap list_omap map].
  assert (map wire (seqZ 0 count) !! Z.to_nat i = Some (wire i)) as ->.
  { apply (list_lookup_fmap_Some_2 wire). apply lookup_seqZ. lia. }
  f_equal. apply IH.
Qed.

(** ** Properties *)

(** C1. Segmented requests arrive whole. When [buildConfirmedSegments]
    returns APDUs, there are at most 256, none is longer than the remote
    maximum, and a responder that parses and reassembles any arrivals of them
    (lost, repeated, reordered) ends up with exactly the request's payload,
    and does so once each segment has arrived in order. It fails with
    ErrAPDUTooLarge exactly when the remote maximum leaves no room for a
    payload octet or more than 256 segments would be needed. *)
Theorem client_segments_reassemble req remoteMax w limits window maxSegments maxOctets ids :
  remoteMax <= MaxAPDUSize (Normalize limits) -> 0 <= cr_MaxSegments req < 8 -> 0 <= cr_MaxAPDU req < 6 ->
  is_byte (cr_InvokeID req) -> is_byte (cr_ServiceChoice req) -> bytes_ok (cr_Payload req) ->
  1 <= window <= 127 -> 256 <= maxSegments -> len (cr_Payload req) <= maxOctets ->
  match ClientSend.buildConfirmedSegments req remoteMax w with
  | Ok segs =>
      len segs <= 256 /\ Forall (fun s => len s <= remoteMax) segs /\
      (Forall (fun i => 0 <= i < len segs) ids ->
       match receive requestSegment limits (NewReassembly window maxSegments maxOctets) (omap (fun i => segs !! Z.to_nat i) ids) with
       | inr p => p = cr_Payload req /\ seqZ 0 (len segs) `sublist_of` ids
       | inl _ => ~ seqZ 0 (len segs) `sublist_of` ids
       end)
  | Err e => e = ErrAPDUTooLarge /\ (remoteMax < 7 \/ 256 * (remoteMax - 6) < len (cr_Payload req))
  end.
Proof.
  intros Hm H1 H2 H3 H4 H5 Hw Hms Ho. rewrite ClientSend.buildConfirmedSegments_spec.
  set (size := remoteMax - 6). set (count := Count (len (cr_Payload req)) size). set (w' := if ValidWindow w then _ else _).
  assert (1 <= w' <= 127) as Hw'.
  { unfold w', ClientSend.defaultSegmentSendWindow. destruct (ValidWindow w) eqn:E; [by apply ClientSend.ValidWindow_spec|lia]. }
  destruct (_ || _) eqn:E.
  { split; [done|]. bool_to_prop; [left; lia|]. destruct (Z.lt_ge_cases remoteMax 7); [by left|right].
    pose proof (Count_spec (len (cr_Payload req)) size ltac:(lia) (len_nonneg _)) as (_ & Hb & Hb2). fold count in Hb, Hb2.
    destruct (Z.eq_dec (len (cr_Payload req)) 0) as [Hz|Hz]; [|pose proof (len_nonneg (cr_Payload req)); nia].
    exfalso. unfold count, Count in *. rewrite Hz in *. destruct (size <? 1); cbn in *; lia. }
  bool_to_prop. assert (1 <= size) as Hs by lia.
  pose proof (Count_spec (len (cr_Payload req)) size Hs (len_nonneg _)) as (Hc1 & _). fold count in Hc1.
  set (wire := fun i => AppendConfirmedRequest [] _).
  assert (len (map wire (seqZ 0 count)) = count) as Hlen by (unfold len; rewrite length_map, length_seqZ; lia). rewrite Hlen.
  split_and!; [lia|..].
  - apply Forall_forall. intros s Hin. apply list_elem_of_In, in_map_iff in Hin as (i & <- & Hi).
    apply list_elem_of_In, elem_of_seqZ in Hi. unfold wire. rewrite ClientSend.segmentRequest_len.
    destruct (chunkOf_spec (cr_Payload req) size Hs i) as [_ Hl]; lia.
  - intros Hids. rewrite omap_wire by done. rewrite (receive_feed _ _ (cr_Payload req) size).
    + rewrite <- (holds_0 (cr_Payload req) size window maxSegments maxOctets Hw).
      destruct (feed_spec (cr_Payload req) size window maxSegments maxOctets Hs Hw ltac:(lia) ltac:(lia) Ho ids 0 ltac:(lia) Hids)
        as [[Hsub ->]|[Hsub (j & Hj & ->)]]; rewrite Z.sub_0_r in Hsub; by try split.
    + intros i Hin. rewrite Forall_forall in Hids. specialize (Hids i Hin). eexists. split.
      * unfold wire. apply requestSegment_parse; try done; lia.
      * done.
Qed.

(** A request of 120 octets for a peer that takes 50. *)
Definition sampleRequest : ConfirmedRequest := mkConfirmedRequest false false true 0 5 7 0 0 15 (replicate 120 42).

Lemma client_segments_reassemble_witness :
  match ClientSend.buildConfirmedSegments sampleRequest 50 4 with
  | Ok segs => len segs = 3 /\ Forall (fun s => len s <= 50) segs
  | Err _ => False
  end.
Proof.
  pose proof (client_segments_reassemble sampleRequest 50 4 DefaultDecodeLimits 4 256 5000 []) as H.
  destruct (ClientSend.buildConfirmedSegments sampleRequest 50 4) as [segs|e] eqn:E; [|vm_compute in E; discriminate].
  split; [by vm_compute in E; injection E as <-|]. apply H; try done; try (cbn; unfold is_u; lia).
  apply Forall_replicate. unfold is_u. lia.
Defined.

(** Segmented replies arrive whole: every ComplexACK segment the server
    encodes for a payload of at most 256 segments fits the negotiated limit
    (the segment size plus the five header octets), and a requester that
    parses and reassembles any arrivals of the segments it sent obtains
    exactly the payload once each has arrived in order. *)
Theorem server_segments_reassemble invokeID choice w segSize payload limits window maxSegments maxOctets ids segs :
  let count := Count (len payload) segSize in
  1 <= segSize -> 5 + segSize <= MaxAPDUSize (Normalize limits) -> 1 <= w <= 127 -> is_byte invokeID -> is_byte choice ->
  bytes_ok payload -> count <= 256 -> count <= maxSegments -> len payload <= maxOctets -> 1 <= window <= 127 ->
  Forall (fun i => 0 <= i < count) ids ->
  Forall2 (fun i s => ServerSend.encode invokeID choice w segSize count payload i = Ok s) ids segs ->
  Forall (fun s => len s <= 5 + segSize) segs /\
  match receive replySegment limits (NewReassembly window maxSegments maxOctets) segs with
  | inr p => p = payload /\ seqZ 0 count `sublist_of` ids
  | inl _ => ~ seqZ 0 count `sublist_of` ids
  end.
Proof.
  intros count Hs Hl Hw Hi Hch Hp Hc Hm Ho Hwin Hids Hsegs.
  set (wire := fun i => AppendComplexACK [] (mkComplexACK true (moreFollows payload segSize i) invokeID (u8 i) w choice (chunkOf payload segSize i))).
  assert (segs = map wire ids) as ->.
  { clear Hl. revert segs Hsegs. induction Hids as [|i ids Hi' Hids IH]; intros segs Hsegs; inversion_clear Hsegs as [|? s ? segs' He Hs']; [done|].
    cbn [map]. f_equal; [|by apply IH]. destruct (ServerSend.encode_segment invokeID choice w segSize payload i Hs ltac:(lia)) as [He' _].
    unfold count in He. rewrite He' in He. by injection He as <-. }
  assert (forall i, i ∈ ids -> Apdu.Parse (wire i) limits = Ok (PComplexACK (mkComplexACK true (moreFollows payload segSize i) invokeID (u8 i) w choice (chunkOf payload segSize i))) /\ len (wire i) <= 5 + segSize) as Hwire.
  { intros i Hin. rewrite Forall_forall in Hids. specialize (Hids i Hin). apply replySegment_parse; try done; lia. }
  split.
  - apply Forall_forall. intros s Hin. apply list_elem_of_In, in_map_iff in Hin as (i & <- & Hi').
    apply Hwire. by apply list_elem_of_In.
  - rewrite (receive_feed _ _ payload segSize).
    + rewrite <- (holds_0 payload segSize window maxSegments maxOctets Hwin). pose proof (count_pos payload segSize Hs).
      destruct (feed_spec payload segSize window maxSegments maxOctets Hs Hwin Hc Hm Ho ids 0 ltac:(lia) Hids)
        as [[Hsub ->]|[Hsub (j & Hj & ->)]]; rewrite Z.sub_0_r in Hsub; by try split.
    + intros i Hin. destruct (Hwire i Hin) as [He _]. by eexists.
Qed.

Lemma server_segments_reassemble_witness :
  receive replySegment DefaultDecodeLimits (NewReassembly 1 16 100)
    [[0x3C; 9; 0; 4; 12; 1; 2]; [0x38; 9; 1; 4; 12; 3]] = inr [1; 2; 3] /\
  Forall (fun s => len s <= 7) [[0x3C; 9; 0; 4; 12; 1; 2]; [0x38; 9; 1; 4; 12; 3]].
Proof.
  split; [reflexivity|].
  apply (server_segments_reassemble 9 12 4 2 [1; 2; 3] DefaultDecodeLimits 1 16 100 [0; 1]); try done; try (unfold is_u; lia).
  - solve_bytes.
  - change (Count (len [1; 2; 3]) 2) with 2. repeat (apply List.Forall_cons; [lia|]). apply List.Forall_nil.
  - repeat (apply Forall2_cons; split; [reflexivity|]). by apply Forall2_nil.
Defined.

(** The client's sending loop, against any responder and any transport:
    whatever SegmentACKs and timers it sees, it hands only segments of the
    message to the transport, returns success only after the last segment was
    acknowledged and every segment was transmitted, and it transmits at most
    [1 + 127 * (n * (retryCount + 4) + retryCount + 3)] segments in all, so no
    responder can keep it sending for ever. While it waits, the segments in
    flight are those after the highest acknowledged one. *)
Theorem client_send_loop sendOk invokeID retryCount n es : 0 <= retryCount -> 1 <= n -> ClientSend.acks_ok es ->
  let '(out, st, r) := ClientSend.sendConfirmedSegments sendOk invokeID retryCount n es in
  Forall (fun i => 0 <= i < n) out /\ len out <= 1 + 127 * (n * (retryCount + 4) + retryCount + 3) /\
  (r = Some None -> ClientSend.highestAcked st = n - 1 /\ forall i, 0 <= i < n -> i ∈ out) /\
  (r = None -> ClientSend.inv retryCount n st).
Proof.
  intros Hrc Hn Hes. unfold ClientSend.sendConfirmedSegments. cbn [ClientSend.highestAcked ClientSend.initial]. decide_test.
  assert (ClientSend.inv retryCount n ClientSend.initial) as Hi by (split; cbn; lia).
  destruct (ClientSend.fill sendOk n (Z.to_nat n) 0 ClientSend.initial) as [[out1 st1] ok] eqn:Ef.
  apply (ClientSend.fill_spec sendOk retryCount) in Ef as (Hall1 & Hlen1 & Hok1); [|done|cbn; lia]. cbn in Hall1, Hlen1, Hok1.
  assert (Forall (fun i => 0 <= i < n) out1) by (eapply Forall_impl; [exact Hall1|cbn; lia]).
  destruct ok; [|split_and!; try done; nia].
  destruct (Hok1 eq_refl) as (Hi1 & Hle & Ha & Hk & Hcov & _).
  pose proof (ClientSend.client_run_spec sendOk invokeID retryCount n es Hrc Hes (length out1) st1 Hi1 ltac:(lia)) as Hrun.
  destruct (ClientSend.run _ _ _ _ _ _ _) as [[out st] r]. destruct Hrun as (Hall & Hlen & Hr).
  unfold ClientSend.measure in Hlen. rewrite Ha, Hk in Hlen. split_and!; [by apply Forall_app|rewrite len_app; lia|..].
  - intros ->. destruct Hr as [Hr1 Hr2]. split; [done|]. intros i Hin. apply elem_of_app.
    destruct (Z.lt_ge_cases i (ClientSend.nextToSend st1)); [left; apply Hcov; lia|right; apply Hr2; lia].
  - intros ->. apply Hr.
Qed.

(** A responder that acknowledges the first segment with window 2, then the
    last one. *)
Definition sampleAck (seq : Z) : SegmentACK := mkSegmentACK false true 7 seq 2.

Lemma client_send_loop_witness :
  let '(out, st, r) := ClientSend.sendConfirmedSegments (fun _ => true) 7 3 3 [ClientSend.EAck (sampleAck 0); ClientSend.EAck (sampleAck 2)] in
  out = [0; 1; 2] /\ r = Some None /\ ClientSend.highestAcked st = 3 - 1 /\ forall i, 0 <= i < 3 -> i ∈ out.
Proof.
  pose proof (client_send_loop (fun _ => true) 7 3 3 [ClientSend.EAck (sampleAck 0); ClientSend.EAck (sampleAck 2)] ltac:(lia) ltac:(lia)) as H.
  assert (ClientSend.acks_ok [ClientSend.EAck (sampleAck 0); ClientSend.EAck (sampleAck 2)]) as Ho.
  { repeat (apply List.Forall_cons; [intros a [= <-]; unfold is_u; cbn; lia|]). apply List.Forall_nil. }
  specialize (H Ho). destruct (ClientSend.sendConfirmedSegments _ _ _ _ _) as [[out st] r] eqn:E. vm_compute in E.
  destruct H as (_ & _ & Hs & _). injection E as <- <- <-. split; [done|]. split; [done|]. by apply Hs.
Defined.

(** The server's sending loop, against any requester and any transport:
    it transmits only segments of the reply, at most
    [127 * (count * (retries + 1) + retries)] beyond the first window, and
    returns success only after the last segment was acknowledged and every
    segment was transmitted. *)
Theorem server_send_loop sendOk maxRetries count es : 0 <= maxRetries -> 1 <= count -> ServerSend.acks_ok es ->
  let '(out, st, r) := ServerSend.sendSegments sendOk maxRetries count es in
  Forall (fun i => 0 <= i < count) out /\ len out <= 127 + 127 * (count * (maxRetries + 1) + maxRetries) /\
  (r = Some None -> ServerSend.acked st = count - 1 /\ forall i, 0 <= i < count -> i ∈ out).
Proof.
  intros Hr Hc Hes. unfold ServerSend.sendSegments. cbn [ServerSend.acked ServerSend.initial]. decide_test.
  destruct (ServerSend.windowEnd_inv maxRetries count ServerSend.initial) as [Hi Hw]; [cbn; lia..|].
  destruct (ServerSend.transmit_spec _ _ _ Hi) as (Ht1 & Ht2 & Ht3).
  change (ServerSend.acked ServerSend.initial) with (-1) in Ht3.
  destruct (ServerSend.sendAll sendOk 0 _) as [o1 ok] eqn:Es. apply ServerSend.sendAll_spec in Es as [Hp He1].
  destruct (ServerSend.prefix_bounds _ _ count Hp Ht1 Ht2) as [Hb1 Hb2]. destruct ok; [|split_and!; try done; nia].
  rewrite (He1 eq_refl) in *.
  pose proof (ServerSend.server_run_spec sendOk maxRetries count es Hes (length (ServerSend.transmit count ServerSend.initial)) _ _ Hi ltac:(cbn; lia)) as H.
  destruct (ServerSend.run _ _ _ _ _ _ _) as [[out st] r]. destruct H as (Hall & Hlen & Hs).
  change (ServerSend.measure maxRetries count ServerSend.initial) with ((count - 1 - -1) * (maxRetries + 1) + (maxRetries - 0)) in Hlen.
  split_and!; [by apply Forall_app|rewrite len_app; lia|]. intros Hr'. destruct (Hs Hr') as [Hs1 Hs2]. split; [done|].
  intros i Hin. apply elem_of_app.
  destruct (Z.lt_ge_cases i (ServerSend.windowEnd count ServerSend.initial)); [left; apply Ht3; lia|right; apply Hs2; lia].
Qed.

Lemma server_send_loop_witness :
  let '(out, st, r) := ServerSend.sendSegments (fun _ => true) 3 4
    [ServerSend.EAck (sampleAck 0); ServerSend.ETimer; ServerSend.EAck (sampleAck 2); ServerSend.EAck (sampleAck 3)] in
  out = [0; 1; 2; 1; 2; 3] /\ r = Some None /\ ServerSend.acked st = 4 - 1.
Proof.
  pose proof (server_send_loop (fun _ => true) 3 4 [ServerSend.EAck (sampleAck 0); ServerSend.ETimer; ServerSend.EAck (sampleAck 2); ServerSend.EAck (sampleAck 3)] ltac:(lia) ltac:(lia)) as H.
  assert (ServerSend.acks_ok [ServerSend.EAck (sampleAck 0); ServerSend.ETimer; ServerSend.EAck (sampleAck 2); ServerSend.EAck (sampleAck 3)]) as Ho.
  { repeat (apply List.Forall_cons; [intros a Ha; first [discriminate Ha|injection Ha as <-; unfold is_u; cbn; lia]|]). apply List.Forall_nil. }
  specialize (H Ho). destruct (ServerSend.sendSegments _ _ _ _) as [[out st] r] eqn:E. vm_compute in E.
  destruct H as (_ & _ & Hs). injection E as <- <- <-. split; [done|]. split; [done|]. by apply Hs.
Defined.

(** The server ignores a negative SegmentACK that names the last
    acknowledged segment (255 before any acknowledgement): while it waits for
    a window to be acknowledged, such an ACK, which asks for the whole window
    again, is taken for a duplicate and the window is sent again only when
    the segment timer expires. *)
Theorem server_ignores_nak_of_window_start maxRetries count stop st ack :
  ServerSend.inv maxRetries count stop st -> sg_NegativeACK ack = true -> sg_SequenceNumber ack = u8 (ServerSend.acked st) ->
  exists st', ServerSend.onEvent maxRetries stop st (ServerSend.EAck ack) = (st', ServerSend.Wait) /\
    ServerSend.acked st' = ServerSend.acked st.
Proof.
  intros [H1 H2 H3 H4] _ Hseq. cbn. rewrite ServerSend.seq_offset by (rewrite Hseq; by apply uwrap_range).
  assert ((sg_SequenceNumber ack - (ServerSend.acked st + 1)) mod 256 = 255) as ->.
  { rewrite Hseq. unfold uwrap. rewrite Zminus_mod_idemp_l. by replace (_ - _) with (-1) by lia. }
  rewrite Z.geb_leb, (proj2 (Z.leb_le stop _)) by lia. by eexists.
Qed.

Lemma server_ignores_nak_of_window_start_witness :
  exists st', ServerSend.onEvent 3 3 (ServerSend.mkState 2 0 0) (ServerSend.EAck (mkSegmentACK true true 7 0 2)) = (st', ServerSend.Wait) /\
    ServerSend.acked st' = 0.
Proof. apply (server_ignores_nak_of_window_start 3 5); [split; cbn; lia|done|done]. Defined.
