(* ===== verification/ServicePolicy.v ===== *)
(** * Confirmed-service policies: [client/service_policy.go] *)

From Stdlib Require Import ZArith Lia.
From stdpp Require Import base list gmap strings.
From S2P Require Import Prelude.

(** ** Service choices: [apdu/codec.go] *)
Definition ServiceAcknowledgeAlarm : Z := 0.
Definition ServiceGetAlarmSummary : Z := 3.
Definition ServiceGetEnrollmentSummary : Z := 4.
Definition ServiceSubscribeCOV : Z := 5.
Definition ServiceAtomicReadFile : Z := 6.
Definition ServiceAtomicWriteFile : Z := 7.
Definition ServiceAddListElement : Z := 8.
Definition ServiceRemoveListElement : Z := 9.
Definition ServiceCreateObject : Z := 10.
Definition ServiceDeleteObject : Z := 11.
Definition ServiceReadProperty : Z := 12.
Definition ServiceReadPropertyMultiple : Z := 14.
Definition ServiceWriteProperty : Z := 15.
Definition ServiceWritePropertyMultiple : Z := 16.
Definition ServiceDeviceCommunicationControl : Z := 17.
Definition ServiceConfirmedPrivateTransfer : Z := 18.
Definition ServiceConfirmedTextMessage : Z := 19.
Definition ServiceReinitializeDevice : Z := 20.
Definition ServiceVTOpen : Z := 21.
Definition ServiceVTClose : Z := 22.
Definition ServiceVTData : Z := 23.
Definition ServiceReadRange : Z := 26.
Definition ServiceLifeSafetyOperation : Z := 27.
Definition ServiceSubscribeCOVProperty : Z := 28.
Definition ServiceGetEventInformation : Z := 29.
Definition ServiceSubscribeCOVPropertyMultiple : Z := 30.
Definition ServiceAuditLogQuery : Z := 33.
Definition ServiceAuthRequest : Z := 34.

(** ** Policies *)
Inductive SuccessResponseKind := SuccessSimpleACK | SuccessComplexACK.
Inductive OperationClass :=
| OperationNormal | OperationWrite | OperationDeviceManagement | OperationNetworkManagement | OperationLifeSafety.

#[global] Instance OperationClass_eq_dec : EqDecision OperationClass.
Proof. solve_decision. Defined.

Record ConfirmedServicePolicy := mkPolicy {
  p_Name : string;
  RetransmitSafe : bool;
  SideEffecting : bool;
  OutcomeUnknownAfterSend : bool;
  p_OperationClass : OperationClass;
  SuccessResponse : SuccessResponseKind
}.
Record ConfirmedServiceCapabilities := mkCapabilities { RequestMaySegment : bool; ResponseMaySegment : bool }.

Definition confirmedPolicies : gmap Z ConfirmedServicePolicy := list_to_map [
  (ServiceAcknowledgeAlarm, mkPolicy "AcknowledgeAlarm" false true true OperationWrite SuccessSimpleACK);
  (ServiceGetAlarmSummary, mkPolicy "GetAlarmSummary" true false false OperationNormal SuccessComplexACK);
  (ServiceGetEnrollmentSummary, mkPolicy "GetEnrollmentSummary" true false false OperationNormal SuccessComplexACK);
  (ServiceSubscribeCOV, mkPolicy "SubscribeCOV" false true true OperationWrite SuccessSimpleACK);
  (ServiceAtomicReadFile, mkPolicy "AtomicReadFile" true false false OperationNormal SuccessComplexACK);
  (ServiceAtomicWriteFile, mkPolicy "AtomicWriteFile" false true true OperationWrite SuccessComplexACK);
  (ServiceAddListElement, mkPolicy "AddListElement" false true true OperationWrite SuccessSimpleACK);
  (ServiceRemoveListElement, mkPolicy "RemoveListElement" false true true OperationWrite SuccessSimpleACK);
  (ServiceCreateObject, mkPolicy "CreateObject" false true true OperationWrite SuccessComplexACK);
  (ServiceDeleteObject, mkPolicy "DeleteObject" false true true OperationWrite SuccessSimpleACK);
  (ServiceReadProperty, mkPolicy "ReadProperty" true false false OperationNormal SuccessComplexACK);
  (ServiceReadPropertyMultiple, mkPolicy "ReadPropertyMultiple" true false false OperationNormal SuccessComplexACK);
  (ServiceWriteProperty, mkPolicy "WriteProperty" false true true OperationWrite SuccessSimpleACK);
  (ServiceWritePropertyMultiple, mkPolicy "WritePropertyMultiple" false true true OperationWrite SuccessSimpleACK);
  (ServiceDeviceCommunicationControl, mkPolicy "DeviceCommunicationControl" false true true OperationDeviceManagement SuccessSimpleACK);
  (ServiceConfirmedPrivateTransfer, mkPolicy "ConfirmedPrivateTransfer" false true true OperationWrite SuccessComplexACK);
  (ServiceConfirmedTextMessage, mkPolicy "ConfirmedTextMessage" false true true OperationWrite SuccessSimpleACK);
  (ServiceReinitializeDevice, mkPolicy "ReinitializeDevice" false true true OperationDeviceManagement SuccessSimpleACK);
  (ServiceVTOpen, mkPolicy "VTOpen" false true true OperationWrite SuccessComplexACK);
  (ServiceVTClose, mkPolicy "VTClose" false true true OperationWrite SuccessSimpleACK);
  (ServiceVTData, mkPolicy "VTData" false true true OperationWrite SuccessSimpleACK);
  (ServiceReadRange, mkPolicy "ReadRange" true false false OperationNormal SuccessComplexACK);
  (ServiceLifeSafetyOperation, mkPolicy "LifeSafetyOperation" false true true OperationLifeSafety SuccessSimpleACK);
  (ServiceSubscribeCOVProperty, mkPolicy "SubscribeCOVProperty" false true true OperationWrite SuccessSimpleACK);
  (ServiceGetEventInformation, mkPolicy "GetEventInformation" true false false OperationNormal SuccessComplexACK);
  (ServiceSubscribeCOVPropertyMultiple, mkPolicy "SubscribeCOVPropertyMultiple" false true true OperationWrite SuccessSimpleACK);
  (ServiceAuditLogQuery, mkPolicy "AuditLogQuery" true false false OperationNormal SuccessComplexACK);
  (ServiceAuthRequest, mkPolicy "AuthRequest" false true true OperationWrite SuccessComplexACK)].

Definition confirmedCapabilities : gmap Z ConfirmedServiceCapabilities := list_to_map [
  (ServiceAcknowledgeAlarm, mkCapabilities false false);
  (ServiceGetAlarmSummary, mkCapabilities false true);
  (ServiceGetEnrollmentSummary, mkCapabilities false true);
  (ServiceSubscribeCOV, mkCapabilities false false);
  (ServiceAtomicReadFile, mkCapabilities true true);
  (ServiceAtomicWriteFile, mkCapabilities true false);
  (ServiceAddListElement, mkCapabilities true false);
  (ServiceRemoveListElement, mkCapabilities true false);
  (ServiceCreateObject, mkCapabilities true false);
  (ServiceDeleteObject, mkCapabilities false false);
  (ServiceReadProperty, mkCapabilities false true);
  (ServiceReadPropertyMultiple, mkCapabilities true true);
  (ServiceWriteProperty, mkCapabilities true false);
  (ServiceWritePropertyMultiple, mkCapabilities true false);
  (ServiceDeviceCommunicationControl, mkCapabilities false false);
  (ServiceConfirmedPrivateTransfer, mkCapabilities true true);
  (ServiceConfirmedTextMessage, mkCapabilities true false);
  (ServiceReinitializeDevice, mkCapabilities false false);
  (ServiceVTOpen, mkCapabilities false false);
  (ServiceVTClose, mkCapabilities false false);
  (ServiceVTData, mkCapabilities true false);
  (ServiceReadRange, mkCapabilities false true);
  (ServiceLifeSafetyOperation, mkCapabilities false false);
  (ServiceSubscribeCOVProperty, mkCapabilities false false);
  (ServiceGetEventInformation, mkCapabilities false true);
  (ServiceSubscribeCOVPropertyMultiple, mkCapabilities true false);
  (ServiceAuditLogQuery, mkCapabilities false true);
  (ServiceAuthRequest, mkCapabilities true true)].

Definition ConfirmedServicePolicyFor (serviceChoice : Z) : option ConfirmedServicePolicy := confirmedPolicies !! serviceChoice.
Definition ConfirmedServiceCapabilitiesFor (serviceChoice : Z) : option ConfirmedServiceCapabilities :=
  confirmedCapabilities !! serviceChoice.

(** [ErrMissingServicePolicy] wraps [ErrUnsupported]. *)
Definition requireServicePolicy (serviceChoice : Z) : result ConfirmedServicePolicy :=
  match ConfirmedServicePolicyFor serviceChoice with
  | Some p => Ok p
  | None => Err ErrUnsupported
  end.

(** The two opt-ins of the client configuration. *)
Record managementConfig := mkManagement { deviceManagementEnabled : bool; networkManagementEnabled : bool }.

Definition operationClassEnabled (c : managementConfig) (class : OperationClass) : bool :=
  match class with
  | OperationNormal | OperationWrite => true
  | OperationDeviceManagement => deviceManagementEnabled c
  | OperationNetworkManagement => networkManagementEnabled c
  | OperationLifeSafety => true
  end.

(** [ErrNetworkManagementDisabled] wraps [ErrUnsupported]. *)
Definition checkPolicyClass (c : managementConfig) (p : ConfirmedServicePolicy) : result unit :=
  if negb (operationClassEnabled c (p_OperationClass p)) then
    match p_OperationClass p with
    | OperationDeviceManagement => Err ErrDeviceManagementDisabled
    | OperationNetworkManagement => Err ErrUnsupported
    | _ => Err ErrUnsupported
    end
  else Ok tt.
Definition checkOperationClass (c : managementConfig) (serviceChoice : Z) : result unit :=
  let* p := requireServicePolicy serviceChoice in checkPolicyClass c p.

(** ** Retransmission: [client/transaction.go] and [client/confirmed.go] *)
Inductive RetransmitPolicy := RetransmitEnabled | RetransmitDisabled.

#[global] Instance RetransmitPolicy_eq_dec : EqDecision RetransmitPolicy.
Proof. solve_decision. Defined.

Definition DefaultRetransmitPolicy (serviceChoice : Z) : RetransmitPolicy :=
  match ConfirmedServicePolicyFor serviceChoice with
  | Some p => if negb (RetransmitSafe p) then RetransmitDisabled else RetransmitEnabled
  | None => RetransmitDisabled
  end.

(** The errors a transaction ends with. [OutcomeUnknown] is
    [*bacnet.OutcomeUnknownError]. *)
Inductive txError :=
| TCause (cause : string)
| TErrorResponse (invokeID service class code : Z)
| TReject (invokeID reason : Z)
| TAbort (invokeID : Z) (server : bool) (reason : Z)
| TDecode (e : error)
| TOutcomeUnknown (operation : string) (cause : txError).

Definition wrapOutcomeUnknown (serviceChoice : Z) (cause : txError) : txError :=
  match ConfirmedServicePolicyFor serviceChoice with
  | Some p => if negb (OutcomeUnknownAfterSend p) then cause else TOutcomeUnknown (p_Name p) cause
  | None => cause
  end.

Record confirmedOpts := mkConfirmedOpts {
  o_policy : RetransmitPolicy;
  o_segmentedResponseAccepted : bool;
  o_forceOutcomeUnknown : bool;
  o_outcomeUnknownName : string
}.

Definition maybeUnknown (o : confirmedOpts) (serviceChoice : Z) (cause : txError) (sent : bool) : txError :=
  if negb sent then cause
  else if o_forceOutcomeUnknown o then
    let name := if bool_decide (o_outcomeUnknownName o = "") then "InvokeConfirmed" else o_outcomeUnknownName o in
    TOutcomeUnknown name cause
  else wrapOutcomeUnknown serviceChoice cause.

(** ** Properties *)

(** A fact about every policy, by computation over the table. *)
Definition policy_consistent (choice : Z) (p : ConfirmedServicePolicy) : bool :=
  eqb (RetransmitSafe p) (negb (SideEffecting p)) && eqb (OutcomeUnknownAfterSend p) (SideEffecting p) &&
  eqb (SideEffecting p) (negb (bool_decide (p_OperationClass p = OperationNormal))) &&
  bool_decide (is_Some (confirmedCapabilities !! choice)).

Lemma policies_consistent choice p : ConfirmedServicePolicyFor choice = Some p -> policy_consistent choice p = true.
Proof.
  intros H. assert (forallb (fun '(c, p) => policy_consistent c p) (map_to_list confirmedPolicies) = true) as Hall by by vm_compute.
  rewrite forallb_forall in Hall. apply (Hall (choice, p)). apply list_elem_of_In. by apply elem_of_map_to_list.
Qed.

(** No confirmed service with side effects is ever retransmitted by
    default, and when its request was sent and no answer seen the caller gets
    an outcome-unknown error that names the service; a service without side
    effects is retransmitted and its error is passed through unchanged. Every
    service with a policy has segmentation capabilities too, and a service
    without a policy is never retransmitted. *)
Theorem side_effects_never_retransmitted choice cause :
  match ConfirmedServicePolicyFor choice with
  | Some p =>
      is_Some (ConfirmedServiceCapabilitiesFor choice) /\
      if SideEffecting p
      then DefaultRetransmitPolicy choice = RetransmitDisabled /\ wrapOutcomeUnknown choice cause = TOutcomeUnknown (p_Name p) cause
      else DefaultRetransmitPolicy choice = RetransmitEnabled /\ wrapOutcomeUnknown choice cause = cause
  | None => DefaultRetransmitPolicy choice = RetransmitDisabled /\ wrapOutcomeUnknown choice cause = cause
  end.
Proof.
  destruct (ConfirmedServicePolicyFor choice) as [p|] eqn:Hp.
  - pose proof (policies_consistent choice p Hp) as Hc. unfold policy_consistent in Hc. bool_to_prop.
    repeat match goal with E : eqb _ _ = true |- _ => apply eqb_prop in E end. apply bool_decide_eq_true in H0.
    split; [done|]. unfold DefaultRetransmitPolicy, wrapOutcomeUnknown. rewrite Hp.
    destruct (SideEffecting p), (RetransmitSafe p), (OutcomeUnknownAfterSend p); done.
  - unfold DefaultRetransmitPolicy, wrapOutcomeUnknown. by rewrite Hp.
Qed.
