(* ===== verification/Transaction.v ===== *)
(** * Client transactions: [client/transaction.go], [client/path.go]

    A pending transaction is an object shared by the requesting goroutine,
    the receive loop and the timers; the manager's map holds pointers to it.
    The model keeps the objects in a store ([heap]) and pointers in the maps.
    Every method runs under the manager's mutex, so a run of the program is a
    sequence of methods; [step] lists them. *)

From Stdlib Require Import ZArith Lia.
From stdpp Require Import base list gmap fin_maps fin_sets strings.
From S2P Require Import Prelude Value Address Npdu Endpoint Bvlc Apdu Link ServicePolicy.

(** ** Paths *)
Record Target := mkTarget { t_Address : Address; t_Endpoint : Endpoint; t_Origin : Endpoint; t_MaxAPDU : Z }.

(** The check that ends every accepting branch. *)
Definition hopMismatch (target : Target) (src : packetSource) : bool :=
  IsValid (t_Endpoint target) && IsValid (s_immediate src) && negb (EndpointEqual (t_Endpoint target) (s_immediate src)).

Definition matchTargetSource (target : Target) (src : packetSource) : bool :=
  match a_scope (t_Address target) with
  | AddressRemoteStation | AddressRemoteBroadcast =>
      if negb (AddressEqual (s_bacnetAddress src) (t_Address target)) then false
      else if hopMismatch target src then false
      else true
  | AddressLocalStation | AddressLocalBroadcast | AddressGlobalBroadcast =>
      if IsValid (t_Origin target) then
        if negb (IsValid (s_origin src)) || negb (EndpointEqual (t_Origin target) (s_origin src)) then false
        else if hopMismatch target src then false
        else true
      else if (bool_decide (a_scope (s_bacnetAddress src) = AddressLocalStation)
               || bool_decide (a_scope (s_bacnetAddress src) = AddressRemoteStation))
              && negb (AddressEqual (s_bacnetAddress src) (t_Address target)) then false
      else if hopMismatch target src then false
      else true
  end.

(** ** State *)
Inductive txPhase := txAwaitingInitial | txReceivingSegments | txSendingSegments.

#[global] Instance txPhase_eq_dec : EqDecision txPhase.
Proof. solve_decision. Defined.

Record txResult := mkTxResult { res_pdu : option PDU; res_src : option packetSource; res_err : option txError }.

(** A [clock.Timer]: stopped, or running with the duration it was reset to. *)
Inductive timerState := TimerStopped | TimerRunning (d : Z).

Record pendingTx := mkPendingTx {
  tx_invokeID : Z;
  tx_service : Z;
  tx_address : Address;
  tx_origin : Endpoint;
  tx_immediate : Endpoint;
  tx_encodedAPDU : bytes;
  tx_retriesLeft : Z;
  tx_result : option txResult;
  tx_timer : option timerState;
  tx_sent : bool;
  tx_phase : txPhase
}.

(** Field updates. *)
Definition setTimer (t : timerState) (tx : pendingTx) : pendingTx :=
  mkPendingTx (tx_invokeID tx) (tx_service tx) (tx_address tx) (tx_origin tx) (tx_immediate tx) (tx_encodedAPDU tx) (tx_retriesLeft tx)
    (tx_result tx) (match tx_timer tx with Some _ => Some t | None => None end) (tx_sent tx) (tx_phase tx).
Definition setPhase (p : txPhase) (retries : Z) (tx : pendingTx) : pendingTx :=
  mkPendingTx (tx_invokeID tx) (tx_service tx) (tx_address tx) (tx_origin tx) (tx_immediate tx) (tx_encodedAPDU tx) retries
    (tx_result tx) (tx_timer tx) (tx_sent tx) p.
(** [select { case tx.result <- res: default: }] on a channel of capacity 1. *)
Definition publish (res : txResult) (tx : pendingTx) : pendingTx :=
  mkPendingTx (tx_invokeID tx) (tx_service tx) (tx_address tx) (tx_origin tx) (tx_immediate tx) (tx_encodedAPDU tx) (tx_retriesLeft tx)
    (match tx_result tx with Some r => Some r | None => Some res end) (tx_timer tx) (tx_sent tx) (tx_phase tx).
Definition markSent (tx : pendingTx) : pendingTx :=
  mkPendingTx (tx_invokeID tx) (tx_service tx) (tx_address tx) (tx_origin tx) (tx_immediate tx) (tx_encodedAPDU tx) (tx_retriesLeft tx)
    (tx_result tx) (tx_timer tx) true (tx_phase tx).

Record txManager := mkTxManager {
  nextID : Z;
  inUse : gmap Z nat;
  reserved : gset Z;
  quarantine : gmap Z Z;
  max : Z;
  heap : gmap nat pendingTx
}.

Definition newTxManager (max : Z) : txManager :=
  let max := if (max <=? 0) || (max >? 255) then 255 else max in
  mkTxManager 0 ∅ ∅ ∅ max ∅.

(** ** Methods *)
Definition updateHeap (f : pendingTx -> pendingTx) (p : nat) (m : txManager) : txManager :=
  mkTxManager (nextID m) (inUse m) (reserved m) (quarantine m) (max m) (alter f p (heap m)).

(** [for range 256] of [tryAllocLocked]. *)
Fixpoint allocLoop (k : nat) (now : Z) (m : txManager) : option Z * txManager :=
  match k with
  | O => (None, m)
  | S k =>
      let id := nextID m in
      let m := mkTxManager (u8 (nextID m + 1)) (inUse m) (reserved m) (quarantine m) (max m) (heap m) in
      if bool_decide (is_Some (inUse m !! id)) then allocLoop k now m
      else if bool_decide (id ∈ reserved m) then allocLoop k now m
      else if match quarantine m !! id with Some until => now <? until | None => false end then allocLoop k now m
      else (Some id, mkTxManager (nextID m) (inUse m) ({[id]} ∪ reserved m) (delete id (quarantine m)) (max m) (heap m))
  end.
Definition tryAllocLocked (now : Z) (m : txManager) : option Z * txManager :=
  if Z.of_nat (size (inUse m)) + Z.of_nat (size (reserved m)) >=? max m then (None, m)
  else allocLoop 256 now m.

(** [p] points to the new transaction [tx]. *)
Definition register (p : nat) (tx : pendingTx) (m : txManager) : txManager :=
  mkTxManager (nextID m) (<[tx_invokeID tx := p]> (inUse m)) (reserved m ∖ {[tx_invokeID tx]}) (quarantine m) (max m)
    (<[p := tx]> (heap m)).

(** [complete] and [abortAll] take the transaction out of the map under the
    mutex and then, after [Unlock], stop its timer and publish its result. The
    model does both in one step: the goroutine that took the transaction out
    is the only one that still reaches it through the manager, and the result
    channel keeps its first value, so the states in between differ only in how
    far the timers and results of removed transactions have got. *)
Definition complete (invokeID : Z) (res : txResult) (quarantineFor now : Z) (m : txManager) : bool * txManager :=
  match inUse m !! invokeID with
  | Some p =>
      let q := if quarantineFor >? 0 then <[invokeID := now + quarantineFor]> (quarantine m) else quarantine m in
      let m := mkTxManager (nextID m) (delete invokeID (inUse m)) (reserved m) q (max m) (heap m) in
      (true, updateHeap (publish res) p (updateHeap (setTimer TimerStopped) p m))
  | None => (false, m)
  end.

Definition enterSegmented (invokeID : Z) (m : txManager) : bool * txManager :=
  match inUse m !! invokeID with
  | Some p => (true, updateHeap (fun tx => setTimer TimerStopped (setPhase txReceivingSegments 0 tx)) p m)
  | None => (false, m)
  end.
Definition enterSendingSegments (invokeID : Z) (m : txManager) : bool * txManager :=
  match inUse m !! invokeID with
  | Some p => (true, updateHeap (fun tx => setTimer TimerStopped (setPhase txSendingSegments 0 tx)) p m)
  | None => (false, m)
  end.
Definition enterAwaitingResponse (invokeID d : Z) (m : txManager) : bool * txManager :=
  match inUse m !! invokeID with
  | Some p =>
      (true, updateHeap (fun tx => let tx := setPhase txAwaitingInitial (tx_retriesLeft tx) tx in
                                   if d >? 0 then setTimer (TimerRunning d) tx else tx) p m)
  | None => (false, m)
  end.

Inductive timeoutAction := timeoutGone | timeoutIgnoreSegmented | timeoutRetransmit | timeoutFail.
Definition onTimeout (invokeID : Z) (retransmitAllowed : bool) (m : txManager) : timeoutAction * txManager :=
  match inUse m !! invokeID with
  | None => (timeoutGone, m)
  | Some p =>
      match heap m !! p with
      | None => (timeoutGone, m)
      | Some tx =>
          if bool_decide (tx_phase tx = txReceivingSegments) || bool_decide (tx_phase tx = txSendingSegments)
          then (timeoutIgnoreSegmented, m)
          else if retransmitAllowed && (tx_retriesLeft tx >? 0)
          then (timeoutRetransmit, updateHeap (fun tx => setPhase (tx_phase tx) (tx_retriesLeft tx - 1) tx) p m)
          else (timeoutFail, m)
      end
  end.

Definition phase (invokeID : Z) (m : txManager) : option txPhase :=
  p ← inUse m !! invokeID; tx_phase <$> heap m !! p.
Definition lookup (invokeID : Z) (m : txManager) : option pendingTx :=
  p ← inUse m !! invokeID; heap m !! p.

Definition matchSource (tx : pendingTx) (src : packetSource) : bool :=
  matchTargetSource (mkTarget (tx_address tx) (tx_immediate tx) (tx_origin tx) 0) src.

(** The loop of [abortAll] over the transactions that were pending. *)
Definition abortOne (err : txError) (tx : pendingTx) : pendingTx :=
  let resErr := if tx_sent tx then wrapOutcomeUnknown (tx_service tx) err else err in
  publish (mkTxResult None None (Some resErr)) (setTimer TimerStopped tx).
Definition abortAll (err : txError) (m : txManager) : txManager :=
  let pending := (map_to_list (inUse m)).*2 in
  mkTxManager (nextID m) ∅ (reserved m) (quarantine m) (max m)
    (foldr (fun p h => alter (abortOne err) p h) (heap m) pending).

(** ** Runs

    What the requesting goroutines, the receive loop and the timers do to the
    manager. A goroutine registers a transaction it has just built, under the
    invoke ID it was given. *)
Inductive step : txManager -> txManager -> Prop :=
| step_alloc now m m' r : tryAllocLocked now m = (r, m') -> step m m'
| step_register p tx m : heap m !! p = None -> tx_invokeID tx ∈ reserved m -> tx_result tx = None ->
    0 <= tx_retriesLeft tx -> step m (register p tx m)
| step_complete id res q now m m' b : complete id res q now m = (b, m') -> step m m'
| step_segmented id m m' b : enterSegmented id m = (b, m') -> step m m'
| step_sending id m m' b : enterSendingSegments id m = (b, m') -> step m m'
| step_awaiting id d m m' b : enterAwaitingResponse id d m = (b, m') -> step m m'
| step_timeout id allowed m m' a : onTimeout id allowed m = (a, m') -> step m m'
| step_sent p m : step m (updateHeap markSent p m)
| step_abort err m : step m (abortAll err m).

Inductive reachable (n : Z) : txManager -> Prop :=
| reach_new : reachable n (newTxManager n)
| reach_step m m' : reachable n m -> step m m' -> reachable n m'.

(** ** The invariant *)
Record inv (m : txManager) : Prop := {
  inv_next : 0 <= nextID m < 256;
  inv_max : 1 <= max m <= 255;
  inv_ids : forall id, is_Some (inUse m !! id) \/ id ∈ reserved m -> 0 <= id < 256;
  inv_disj : forall id, is_Some (inUse m !! id) -> id ∉ reserved m;
  inv_cap : Z.of_nat (size (inUse m)) + Z.of_nat (size (reserved m)) <= max m;
  inv_pending : forall id p, inUse m !! id = Some p ->
    exists tx, heap m !! p = Some tx /\ tx_invokeID tx = id /\ tx_result tx = None /\ 0 <= tx_retriesLeft tx;
  inv_done : forall p tx, heap m !! p = Some tx -> inUse m !! tx_invokeID tx = Some p \/ is_Some (tx_result tx)
}.

Lemma newTxManager_inv n : inv (newTxManager n).
Proof.
  unfold newTxManager. split; cbn; try done.
  - destruct (_ || _) eqn:E; bool_to_prop; lia.
  - intros id [[? H]|H]; [by rewrite lookup_empty in H|set_solver].
  - rewrite map_size_empty, size_empty. destruct (_ || _) eqn:E; bool_to_prop; lia.
Qed.

(** An update of one object that keeps its identity and its outcome. *)
Definition keeps (f : pendingTx -> pendingTx) : Prop :=
  forall tx, tx_invokeID (f tx) = tx_invokeID tx /\ tx_result (f tx) = tx_result tx.

Lemma updateHeap_inv f p m : keeps f -> (forall tx, heap m !! p = Some tx -> 0 <= tx_retriesLeft tx -> 0 <= tx_retriesLeft (f tx)) ->
  inv m -> inv (updateHeap f p m).
Proof.
  intros Hf Hr [H1 H2 H3 H4 H5 H6 H7]. split; cbn; try done.
  - intros id p' Hp'. destruct (H6 id p' Hp') as (tx & Htx & Hid & Hres & Hret).
    destruct (decide (p' = p)) as [->|Hne].
    + exists (f tx). rewrite lookup_alter_eq, Htx. destruct (Hf tx) as [-> ->]. split_and!; try done. by apply Hr.
    + exists tx. by rewrite lookup_alter_ne.
  - intros p' tx Htx. destruct (decide (p' = p)) as [->|Hne].
    + rewrite lookup_alter_eq in Htx. apply fmap_Some in Htx as (tx0 & Htx0 & ->). destruct (Hf tx0) as [-> ->]. by apply H7.
    + rewrite lookup_alter_ne in Htx by done. by apply H7.
Qed.

Lemma setTimer_keeps t : keeps (setTimer t).
Proof. done. Qed.
Lemma setPhase_keeps ph r : keeps (setPhase ph r).
Proof. done. Qed.
Lemma markSent_keeps : keeps markSent.
Proof. done. Qed.

(** *** Allocation *)

(** What a successful or exhausted search has looked at. *)
Definition idBusy (now : Z) (m : txManager) (id : Z) : bool :=
  bool_decide (is_Some (inUse m !! id)) || bool_decide (id ∈ reserved m) ||
  match quarantine m !! id with Some until => now <? until | None => false end.

Lemma allocLoop_spec now k : forall m r m', 0 <= nextID m < 256 -> allocLoop k now m = (r, m') ->
  0 <= nextID m' < 256 /\ inUse m' = inUse m /\ max m' = max m /\ heap m' = heap m /\
  match r with
  | Some id => 0 <= id < 256 /\ idBusy now m id = false /\ reserved m' = {[id]} ∪ reserved m /\ quarantine m' = delete id (quarantine m)
  | None => reserved m' = reserved m /\ quarantine m' = quarantine m /\
            forall i, 0 <= i < Z.of_nat k -> idBusy now m ((nextID m + i) mod 256) = true
  end.
Proof.
  induction k as [|k IH]; intros m r m' Hn; cbn [allocLoop].
  { intros [= <- <-]. split_and!; try done; lia. }
  assert (0 <= u8 (nextID m + 1) < 256) as Hn' by (apply (uwrap_range 8); lia).
  set (m1 := mkTxManager (u8 (nextID m + 1)) _ _ _ _ _).
  assert (forall r m', allocLoop k now m1 = (r, m') -> idBusy now m (nextID m) = true ->
    0 <= nextID m' < 256 /\ inUse m' = inUse m /\ max m' = max m /\ heap m' = heap m /\
    match r with
    | Some id => 0 <= id < 256 /\ idBusy now m id = false /\ reserved m' = {[id]} ∪ reserved m /\ quarantine m' = delete id (quarantine m)
    | None => reserved m' = reserved m /\ quarantine m' = quarantine m /\
              forall i, 0 <= i < Z.of_nat (S k) -> idBusy now m ((nextID m + i) mod 256) = true
    end) as Hrec.
  { intros r0 m0 E Hb. apply IH in E as (E1 & E2 & E3 & E4 & E5); [|done]. do 4 (split; [done|]). destruct r0; [exact E5|].
    destruct E5 as (E5 & E6 & E7). split_and!; try done. intros i Hi. destruct (Z.eq_dec i 0) as [->|Hi0].
    - rewrite Z.add_0_r, Z.mod_small by done. done.
    - specialize (E7 (i - 1) ltac:(lia)). cbn [nextID m1] in E7. unfold uwrap in E7. rewrite Zplus_mod_idemp_l in E7.
      by replace (nextID m + 1 + (i - 1)) with (nextID m + i) in E7 by lia. }
  cbn [inUse reserved quarantine m1].
  destruct (bool_decide (is_Some (inUse m !! nextID m))) eqn:E1; [intros E; apply Hrec; [done|]; unfold idBusy; by rewrite E1|].
  destruct (bool_decide (nextID m ∈ reserved m)) eqn:E2; [intros E; apply Hrec; [done|]; unfold idBusy; by rewrite E2, orb_true_r|].
  destruct (match quarantine m !! nextID m with Some until => now <? until | None => false end) eqn:E3; [intros E; apply Hrec; [done|]; unfold idBusy; by rewrite E3, orb_true_r|].
  intros [= <- <-]. cbn. split_and!; try done; try lia. unfold idBusy. by rewrite E1, E2, E3.
Qed.

Lemma tryAlloc_inv now m r m' : inv m -> tryAllocLocked now m = (r, m') -> inv m'.
Proof.
  intros [H1 H2 H3 H4 H5 H6 H7] H. unfold tryAllocLocked in H. destruct (_ >=? _) eqn:E; [by injection H as _ <-|]. bool_to_prop.
  destruct (allocLoop_spec _ _ _ _ _ H1 H) as (A1 & A2 & A3 & A4 & A5). destruct r as [id|].
  - destruct A5 as (A5 & A6 & A7 & A8). unfold idBusy in A6. apply orb_false_iff in A6 as [A6 _]. apply orb_false_iff in A6 as [A6 A6'].
    apply bool_decide_eq_false in A6, A6'. split; rewrite ?A2, ?A3, ?A4, ?A7; try done.
    + intros i Hi. destruct (decide (i = id)) as [->|]; [done|]. rewrite elem_of_union, elem_of_singleton in Hi. apply H3. tauto.
    + intros i Hi. rewrite elem_of_union, elem_of_singleton. intros [->|Hin]; [done|]. by eapply H4.
    + rewrite size_union, size_singleton; [lia|]. intros x Hx%elem_of_singleton Hr. by subst x.
  - destruct A5 as (A5 & A6 & _). split; rewrite ?A2, ?A3, ?A4, ?A5; done.
Qed.

(** *** The other methods *)
Lemma register_inv p tx m : inv m -> heap m !! p = None -> tx_invokeID tx ∈ reserved m -> tx_result tx = None ->
  0 <= tx_retriesLeft tx -> inv (register p tx m).
Proof.
  intros [H1 H2 H3 H4 H5 H6 H7] Hp Hid Hres Hret. set (id := tx_invokeID tx) in *.
  assert (inUse m !! id = None) as Hnew.
  { destruct (inUse m !! id) eqn:E; [|done]. exfalso. apply (H4 id); [by eexists|done]. }
  split; cbn; try done; fold id.
  - intros i [[q Hq]|Hi].
    + destruct (decide (i = id)) as [->|Hne]; [apply H3; by right|]. rewrite lookup_insert_ne in Hq by done. apply H3. left. by eexists.
    + apply elem_of_difference in Hi as [Hi _]. apply H3. by right.
  - intros i [q Hq]. rewrite elem_of_difference, elem_of_singleton. intros [Hi Hne]. rewrite lookup_insert_ne in Hq by done.
    apply (H4 i); [by eexists|done].
  - rewrite map_size_insert_None by done. rewrite size_difference by (by apply singleton_subseteq_l). rewrite size_singleton.
    assert (1 <= size (reserved m))%nat; [|lia].
    rewrite <- (size_singleton (C := gset Z) id). apply subseteq_size. by apply singleton_subseteq_l.
  - intros i q Hq. destruct (decide (i = id)) as [->|Hne].
    + rewrite lookup_insert_eq in Hq. injection Hq as <-. exists tx. by rewrite lookup_insert_eq.
    + rewrite lookup_insert_ne in Hq by done. destruct (H6 i q Hq) as (tx' & Htx' & Hrest). exists tx'.
      rewrite lookup_insert_ne; [done|]. intros ->. by rewrite Hp in Htx'.
  - intros q tx' Htx'. destruct (decide (q = p)) as [->|Hne].
    + rewrite lookup_insert_eq in Htx'. injection Htx' as <-. left. by rewrite lookup_insert_eq.
    + rewrite lookup_insert_ne in Htx' by done. destruct (H7 q tx' Htx') as [Hin|]; [|by right]. left.
      rewrite lookup_insert_ne; [done|]. intros He. fold id in He. rewrite <- He in Hin. by rewrite Hnew in Hin.
Qed.

Lemma complete_inv id res q now m b m' : inv m -> complete id res q now m = (b, m') -> inv m'.
Proof.
  intros Hi H. unfold complete in H. destruct (inUse m !! id) as [p|] eqn:E; injection H as <- <-; [|done].
  destruct Hi as [H1 H2 H3 H4 H5 H6 H7]. split; cbn; try done.
  - intros i [Hs|Hi]; apply H3; [left|by right]. rewrite lookup_delete_is_Some in Hs. tauto.
  - intros i Hs. apply H4. rewrite lookup_delete_is_Some in Hs. tauto.
  - pose proof (map_size_delete id (inUse m)) as Hs. rewrite E in Hs. rewrite Hs. lia.
  - intros i p' Hp'. apply lookup_delete_Some in Hp' as [Hne Hp']. destruct (H6 i p' Hp') as (tx & Htx & Hid & Hrest).
    exists tx. destruct (H6 id p E) as (tx0 & Htx0 & Hid0 & _). assert (p' <> p) as Hpp by (intros ->; congruence).
    rewrite !lookup_alter_ne by done. done.
  - intros p' tx Htx. destruct (decide (p' = p)) as [->|Hne].
    + rewrite lookup_alter_eq in Htx. apply fmap_Some in Htx as (tx0 & _ & ->). right. cbn. by destruct (tx_result tx0).
    + rewrite !lookup_alter_ne in Htx by done. destruct (H7 p' tx Htx) as [Hin|]; [|by right]. left.
      rewrite lookup_delete_ne; [done|]. intros He. rewrite <- He in Hin. congruence.
Qed.

Definition abortFold (err : txError) (h : gmap nat pendingTx) (ps : list nat) : gmap nat pendingTx :=
  foldr (fun p h => alter (abortOne err) p h) h ps.

Lemma abortOne_result err tx : is_Some (tx_result (abortOne err tx)) /\
  (forall r, tx_result tx = Some r -> tx_result (abortOne err tx) = Some r).
Proof. unfold abortOne. cbn. split; [by destruct (tx_result tx)|by intros r ->]. Qed.

Lemma abortFold_Some err h ps p tx : h !! p = Some tx -> exists tx', abortFold err h ps !! p = Some tx' /\
  tx_invokeID tx' = tx_invokeID tx /\ (p ∈ ps -> is_Some (tx_result tx')) /\ (p ∉ ps -> tx' = tx) /\
  (forall r, tx_result tx = Some r -> tx_result tx' = Some r).
Proof.
  intros Hp. induction ps as [|q ps (tx' & Htx' & Hid & Hin & Hout & Hr)]; cbn [abortFold foldr].
  { exists tx. split_and!; try done. by intros ?%elem_of_nil. }
  fold (abortFold err h ps). destruct (decide (q = p)) as [->|Hne].
  - exists (abortOne err tx'). rewrite lookup_alter_eq, Htx'. destruct (abortOne_result err tx') as [Ha Hb].
    split_and!; try done. intros Hnin. by rewrite elem_of_cons in Hnin; tauto. intros r Hr'. by apply Hb, Hr.
  - exists tx'. rewrite lookup_alter_ne by done. split_and!; try done.
    + intros [->|]%elem_of_cons; [done|by apply Hin].
    + intros Hnin. apply Hout. intros Hc. apply Hnin. by right.
Qed.

Lemma abortFold_None err h ps p : h !! p = None -> abortFold err h ps !! p = None.
Proof.
  intros Hp. induction ps as [|q ps IH]; [done|]. cbn [abortFold foldr]. fold (abortFold err h ps).
  destruct (decide (q = p)) as [->|Hne]; [by rewrite lookup_alter_eq, IH|by rewrite lookup_alter_ne].
Qed.

Lemma abortAll_inv err m : inv m -> inv (abortAll err m).
Proof.
  intros [H1 H2 H3 H4 H5 H6 H7]. split; cbn; try done.
  - intros id [[? Hs]|Hi]; [by rewrite lookup_empty in Hs|]. apply H3. by right.
  - intros id [? Hs]. by rewrite lookup_empty in Hs.
  - rewrite map_size_empty. lia.
  - intros p tx' Htx'. right. fold (abortFold err (heap m) (map_to_list (inUse m)).*2) in Htx'.
    destruct (heap m !! p) as [tx|] eqn:Hp; [|by rewrite abortFold_None in Htx'].
    destruct (abortFold_Some err (heap m) (map_to_list (inUse m)).*2 p tx Hp) as (tx'' & He & _ & Hin & Hout & Hr).
    rewrite He in Htx'. injection Htx' as ->. destruct (H7 p tx Hp) as [Hu|[r Hres]]; [|exists r; by apply Hr].
    apply Hin. apply list_elem_of_fmap. exists (tx_invokeID tx, p). split; [done|]. by apply elem_of_map_to_list.
Qed.

Lemma step_inv m m' : inv m -> step m m' -> inv m'.
Proof.
  intros Hi Hs. destruct Hs as [now m m' r H|p tx m Hp Hid Hres Hret|id res q now m m' b H|id m m' b H|id m m' b H|id d m m' b H|id al m m' a H|p m|err m].
  - by eapply tryAlloc_inv.
  - by apply register_inv.
  - by eapply complete_inv.
  - unfold enterSegmented in H. destruct (inUse m !! id); injection H as <- <-; [|done]. apply updateHeap_inv; [done|cbn; lia|done].
  - unfold enterSendingSegments in H. destruct (inUse m !! id); injection H as <- <-; [|done]. apply updateHeap_inv; [done|cbn; lia|done].
  - unfold enterAwaitingResponse in H. destruct (inUse m !! id); injection H as <- <-; [|done].
    apply updateHeap_inv; [|by destruct (d >? 0)|done]. intros tx. by destruct (d >? 0).
  - unfold onTimeout in H. destruct (inUse m !! id) as [p|]; [|by injection H as <- <-]. destruct (heap m !! p) as [tx|] eqn:Hp; [|by injection H as <- <-].
    destruct (_ || _); [by injection H as <- <-|]. destruct (_ && _) eqn:E; injection H as <- <-; [|done]. bool_to_prop.
    apply updateHeap_inv; [done| |done]. intros tx' Htx' _. rewrite Hp in Htx'. injection Htx' as <-. cbn. lia.
  - by apply updateHeap_inv.
  - by apply abortAll_inv.
Qed.

Lemma reachable_inv n m : reachable n m -> inv m.
Proof. induction 1; [apply newTxManager_inv|by eapply step_inv]. Qed.

(** *** Outcomes are final *)
Lemma updateHeap_result f p m q tx r : (forall tx r, tx_result tx = Some r -> tx_result (f tx) = Some r) ->
  heap m !! q = Some tx -> tx_result tx = Some r -> exists tx', heap (updateHeap f p m) !! q = Some tx' /\ tx_result tx' = Some r.
Proof.
  intros Hf Hq Hr. cbn. destruct (decide (q = p)) as [->|Hne].
  - exists (f tx). rewrite lookup_alter_eq, Hq. split; [done|]. by apply Hf.
  - exists tx. by rewrite lookup_alter_ne.
Qed.

Lemma step_result m m' q tx r : inv m -> step m m' -> heap m !! q = Some tx -> tx_result tx = Some r ->
  exists tx', heap m' !! q = Some tx' /\ tx_result tx' = Some r.
Proof.
  intros Hi Hs Hq Hr. destruct Hs as [now m m' r' H|p tx' m Hp Hid Hres Hret|id res qu now m m' b H|id m m' b H|id m m' b H|id d m m' b H|id al m m' a H|p m|err m].
  - exists tx. split; [|done]. unfold tryAllocLocked in H. destruct (_ >=? _); [by injection H as _ <-|].
    destruct (allocLoop_spec _ _ _ _ _ (inv_next _ Hi) H) as (_ & _ & _ & -> & _). done.
  - exists tx. cbn. rewrite lookup_insert_ne; [done|]. intros ->. congruence.
  - unfold complete in H. destruct (inUse m !! id) as [p|]; injection H as <- <-; [|by exists tx].
    set (m1 := mkTxManager _ _ _ _ _ _).
    destruct (updateHeap_result (setTimer TimerStopped) p m1 q tx r) as (tx1 & Hq1 & Hr1); [done..|].
    by apply (updateHeap_result (publish res) p (updateHeap (setTimer TimerStopped) p m1) q tx1 r); [cbn; intros ?? ->|..].
  - unfold enterSegmented in H. destruct (inUse m !! id); injection H as <- <-; [|by exists tx]. by eapply updateHeap_result.
  - unfold enterSendingSegments in H. destruct (inUse m !! id); injection H as <- <-; [|by exists tx]. by eapply updateHeap_result.
  - unfold enterAwaitingResponse in H. destruct (inUse m !! id); injection H as <- <-; [|by exists tx].
    eapply updateHeap_result; [|done..]. intros tx0 r0 H0. by destruct (d >? 0).
  - unfold onTimeout in H. destruct (inUse m !! id) as [p|]; [|injection H as <- <-; by exists tx]. destruct (heap m !! p); [|injection H as <- <-; by exists tx].
    destruct (_ || _); [injection H as <- <-; by exists tx|]. destruct (_ && _); injection H as <- <-; [by eapply updateHeap_result|by exists tx].
  - by eapply updateHeap_result.
  - destruct (abortFold_Some err (heap m) (map_to_list (inUse m)).*2 q tx Hq) as (tx' & He & _ & _ & _ & Hr'). exists tx'. split; [done|by apply Hr'].
Qed.

(** ** Properties *)

(** C30. In every state a client can reach, by any interleaving of requests,
    responses, timeouts and shutdown: at most [max] (at most 255) invoke IDs
    are taken, no ID is both reserved and in use, and a transaction either is
    pending under its own invoke ID without an outcome or has exactly one
    outcome, which no later step changes. So every registered request ends
    with at most one result, and one that is no longer pending has it. *)
Theorem transactions_safe n m : reachable n m ->
  Z.of_nat (size (inUse m)) + Z.of_nat (size (reserved m)) <= max m <= 255 /\
  (forall id, is_Some (inUse m !! id) -> 0 <= id < 256 /\ id ∉ reserved m) /\
  (forall p tx, heap m !! p = Some tx ->
     (inUse m !! tx_invokeID tx = Some p /\ tx_result tx = None) \/
     (inUse m !! tx_invokeID tx <> Some p /\ is_Some (tx_result tx))) /\
  (forall m' p tx r, step m m' -> heap m !! p = Some tx -> tx_result tx = Some r ->
     exists tx', heap m' !! p = Some tx' /\ tx_result tx' = Some r).
Proof.
  intros Hr. pose proof (reachable_inv n m Hr) as Hi. pose proof Hi as [H1 H2 H3 H4 H5 H6 H7]. split_and!; try lia.
  - intros id Hid. split; [apply H3; by left|by apply H4].
  - intros p tx Hp. destruct (H7 p tx Hp) as [Hu|Hs].
    + left. split; [done|]. destruct (H6 _ _ Hu) as (tx' & Hp' & _ & Hn & _). congruence.
    + right. split; [|done]. intros Hu. destruct (H6 _ _ Hu) as (tx' & Hp' & _ & Hn & _). destruct Hs as [r Hs]. congruence.
  - intros m' p tx r Hs. by eapply step_result.
Qed.

(** A transaction and a result for the witnesses. *)
Definition sampleTx (id : Z) : pendingTx :=
  mkPendingTx id 12 zeroAddress zeroEndpoint zeroEndpoint [] 3 None (Some (TimerRunning 1)) false txAwaitingInitial.
Definition sampleResult : txResult := mkTxResult None None None.

(** Allocate an ID, register a transaction under it and complete it. *)
Definition sampleManager : txManager :=
  snd (complete 0 sampleResult 5 100 (register 1 (sampleTx 0) (snd (tryAllocLocked 100 (newTxManager 4))))).

Lemma sampleManager_reachable : reachable 4 sampleManager.
Proof.
  eapply reach_step; [eapply reach_step; [eapply reach_step; [apply reach_new|]|]|].
  - apply (step_alloc 100 _ _ (fst (tryAllocLocked 100 (newTxManager 4)))). apply surjective_pairing.
  - apply (step_register 1 (sampleTx 0)); [done|by apply (bool_decide_eq_true (0 ∈ reserved (snd (tryAllocLocked 100 (newTxManager 4))))); vm_compute|done|cbn; lia].
  - apply (step_complete 0 sampleResult 5 100 _ _ true). by vm_compute.
Qed.

Lemma transactions_safe_witness : reachable 4 sampleManager /\ max sampleManager <= 255.
Proof. split; [apply sampleManager_reachable|]. apply (transactions_safe 4), sampleManager_reachable. Defined.

(** An allocated invoke ID is free: not in use, not reserved by another
    request and not in quarantine at the time; it is reserved afterwards.
    Allocation fails only at capacity or when every one of the 256 IDs is in
    use, reserved or quarantined. *)
Theorem allocation_fresh n m now r m' : reachable n m -> tryAllocLocked now m = (r, m') ->
  match r with
  | Some id => 0 <= id < 256 /\ inUse m !! id = None /\ (id ∉ reserved m) /\ (id ∈ reserved m') /\ inUse m' = inUse m /\
               (forall until, quarantine m !! id = Some until -> until <= now)
  | None => max m <= Z.of_nat (size (inUse m)) + Z.of_nat (size (reserved m)) \/
            (forall id, 0 <= id < 256 -> is_Some (inUse m !! id) \/ id ∈ reserved m \/
               (exists until, quarantine m !! id = Some until /\ now < until))
  end.
Proof.
  intros Hr H. pose proof (reachable_inv n m Hr) as [H1 _ _ _ _ _ _]. unfold tryAllocLocked in H.
  destruct (_ >=? _) eqn:E; [injection H as <- <-; left; bool_to_prop; lia|].
  destruct (allocLoop_spec _ _ _ _ _ H1 H) as (_ & A2 & _ & _ & A5). destruct r as [id|].
  - destruct A5 as (A5 & A6 & A7 & _). unfold idBusy in A6. apply orb_false_iff in A6 as [A6 Aq]. apply orb_false_iff in A6 as [A6 Ar].
    apply bool_decide_eq_false in A6, Ar. split_and!; try done; try lia.
    + apply eq_None_not_Some. done.
    + rewrite A7. first [apply elem_of_union_l; by apply elem_of_singleton|apply elem_of_union_r; by apply elem_of_singleton].
    + intros u Hu. rewrite Hu in Aq. bool_to_prop. lia.
  - right. destruct A5 as (_ & _ & A5). intros id Hid. specialize (A5 ((id - nextID m) mod 256)).
    assert ((nextID m + (id - nextID m) mod 256) mod 256 = id) as He.
    { rewrite Zplus_mod_idemp_r. replace (nextID m + (id - nextID m)) with id by lia. by apply Z.mod_small. }
    rewrite He in A5. specialize (A5 ltac:(pose proof (Z.mod_pos_bound (id - nextID m) 256); lia)). unfold idBusy in A5.
    apply orb_true_iff in A5 as [A5|A5]; [apply orb_true_iff in A5 as [A5|A5]; apply bool_decide_eq_true in A5; auto|].
    destruct (quarantine m !! id) as [until|]; [|done]. right. right. exists until. bool_to_prop. split; [done|lia].
Qed.

Lemma allocation_fresh_witness :
  fst (tryAllocLocked 101 sampleManager) = Some 1 /\ inUse sampleManager !! 1 = None.
Proof.
  split; [by vm_compute|].
  destruct (tryAllocLocked 101 sampleManager) as [r m'] eqn:E. assert (r = Some 1) as -> by (vm_compute in E; congruence).
  apply (allocation_fresh 4 sampleManager 101 (Some 1) m' sampleManager_reachable E).
Defined.

(** C29. Completion is won exactly once: in a reachable state, completing a
    pending transaction publishes that result to it and stops its timer if it
    has one, leaving the transaction otherwise as it was; it frees the ID and
    quarantines it when asked to; every other transaction, pending ID,
    reservation and quarantine is untouched. Completing it again, whoever
    does, changes nothing and reports that the race was lost. *)
Theorem completion_once n m id res q now m' : reachable n m -> complete id res q now m = (true, m') ->
  (exists p tx, inUse m !! id = Some p /\ heap m !! p = Some tx /\ tx_invokeID tx = id /\ tx_result tx = None /\
     heap m' !! p = Some (mkPendingTx id (tx_service tx) (tx_address tx) (tx_origin tx) (tx_immediate tx) (tx_encodedAPDU tx)
       (tx_retriesLeft tx) (Some res) (match tx_timer tx with Some _ => Some TimerStopped | None => None end) (tx_sent tx) (tx_phase tx)) /\
     forall p', p' <> p -> heap m' !! p' = heap m !! p') /\
  inUse m' !! id = None /\ (0 < q -> quarantine m' !! id = Some (now + q)) /\ (q <= 0 -> quarantine m' !! id = quarantine m !! id) /\
  (forall id', id' <> id -> inUse m' !! id' = inUse m !! id' /\ quarantine m' !! id' = quarantine m !! id') /\
  nextID m' = nextID m /\ reserved m' = reserved m /\
  (forall res' q' now', complete id res' q' now' m' = (false, m')).
Proof.
  intros Hr H. pose proof (reachable_inv n m Hr) as [_ _ _ _ _ H6 _]. unfold complete in H.
  destruct (inUse m !! id) as [p|] eqn:E; [|done]. injection H as <-. destruct (H6 id p E) as (tx & Htx & Hid & Hn & _). split_and!.
  - exists p, tx. cbn. rewrite !lookup_alter_eq, Htx. split_and!; [done..| |].
    + cbn. unfold publish. cbn. by rewrite Hn, Hid.
    + intros p' Hp'. by rewrite !lookup_alter_ne by done.
  - cbn. by rewrite lookup_delete_eq.
  - intros Hq. cbn. rewrite Z.gtb_ltb, (proj2 (Z.ltb_lt 0 q)) by done. by rewrite lookup_insert_eq.
  - intros Hq. cbn. by rewrite Z.gtb_ltb, (proj2 (Z.ltb_ge 0 q)) by done.
  - intros id' Hne. cbn. rewrite lookup_delete_ne by done. split; [done|]. destruct (q >? 0); [by rewrite lookup_insert_ne by done|done].
  - done.
  - done.
  - intros res' q' now'. unfold complete at 1. cbn [inUse updateHeap]. by rewrite lookup_delete_eq.
Qed.

Lemma completion_once_witness :
  let m := register 1 (sampleTx 0) (snd (tryAllocLocked 100 (newTxManager 4))) in
  fst (complete 0 sampleResult 5 100 m) = true /\ inUse (snd (complete 0 sampleResult 5 100 m)) !! 0 = None.
Proof.
  cbv zeta. set (m := register _ _ _). split; [by vm_compute|].
  destruct (complete 0 sampleResult 5 100 m) as [b m'] eqn:E. assert (b = true) as -> by (vm_compute in E; congruence).
  apply (completion_once 4 m 0 sampleResult 5 100 m'); [|done].
  eapply reach_step; [eapply reach_step; [apply reach_new|]|].
  - apply (step_alloc 100 _ _ (fst (tryAllocLocked 100 (newTxManager 4)))). apply surjective_pairing.
  - apply step_register; [done|by apply (bool_decide_eq_true (0 ∈ reserved (snd (tryAllocLocked 100 (newTxManager 4))))); vm_compute|done|cbn; lia].
Defined.

(** The APDU timer: a request is sent again only while the transaction is
    pending, no segment of it is being sent or received, the service may be
    retransmitted and retries are left, and each retransmission uses up one
    retry; entering a segmented phase gives up the remaining retries and
    stops the timer, so a late timer never repeats a segmented request. *)
Theorem retransmission_bounded n m id allowed a m' : reachable n m -> onTimeout id allowed m = (a, m') ->
  (a = timeoutRetransmit -> allowed = true /\
     exists p tx, inUse m !! id = Some p /\ heap m !! p = Some tx /\ tx_phase tx = txAwaitingInitial /\ 0 < tx_retriesLeft tx /\
       exists tx', heap m' !! p = Some tx' /\ tx_retriesLeft tx' = tx_retriesLeft tx - 1) /\
  (a <> timeoutRetransmit -> m' = m) /\
  (a = timeoutGone <-> inUse m !! id = None) /\
  (forall m1 b1, enterSegmented id m = (b1, m1) -> a <> timeoutGone -> fst (onTimeout id allowed m1) = timeoutIgnoreSegmented /\
     exists tx, lookup id m1 = Some tx /\ tx_retriesLeft tx = 0 /\ forall d, tx_timer tx <> Some (TimerRunning d)).
Proof.
  intros Hr H. pose proof (reachable_inv n m Hr) as [_ _ _ _ _ H6 _]. unfold onTimeout in H.
  destruct (inUse m !! id) as [p|] eqn:E; [|by injection H as <- <-].
  destruct (H6 id p E) as (tx & Htx & Hid & Hn & Hret). rewrite Htx in H.
  assert (forall m1 b1, enterSegmented id m = (b1, m1) -> fst (onTimeout id allowed m1) = timeoutIgnoreSegmented /\
     exists tx, lookup id m1 = Some tx /\ tx_retriesLeft tx = 0 /\ forall d, tx_timer tx <> Some (TimerRunning d)) as Hseg.
  { intros m1 b1 H1. unfold enterSegmented in H1. rewrite E in H1. injection H1 as <- <-.
    unfold onTimeout, lookup. cbn. rewrite E. cbn. rewrite lookup_alter_eq, Htx. cbn. split; [done|].
    eexists. split_and!; [done|done|]. cbn. by destruct (tx_timer tx). }
  destruct (_ || _) eqn:E1.
  { injection H as <- <-. split_and!; try done. intros m1 b1 H1 _. by eapply Hseg. }
  destruct (_ && _) eqn:E2.
  - injection H as <- <-. apply andb_true_iff in E2 as [Ha Hl]. apply orb_false_iff in E1 as [Hp1 Hp2].
    apply bool_decide_eq_false in Hp1, Hp2. apply Z.gtb_lt in Hl. split_and!; try done.
    + intros _. split; [done|]. exists p, tx. split_and!; try done; try lia; [by destruct (tx_phase tx)|].
      cbn. rewrite lookup_alter_eq, Htx. by eexists.
    + intros m1 b1 H1' _. by eapply Hseg.
  - injection H as <- <-. split_and!; try done. intros m1 b1 H1 _. by eapply Hseg.
Qed.

Lemma retransmission_bounded_witness :
  let m := register 1 (sampleTx 0) (snd (tryAllocLocked 100 (newTxManager 4))) in
  fst (onTimeout 0 true m) = timeoutRetransmit /\
  exists p tx, inUse m !! 0 = Some p /\ heap m !! p = Some tx /\ tx_phase tx = txAwaitingInitial /\ 0 < tx_retriesLeft tx /\
       exists tx', heap (snd (onTimeout 0 true m)) !! p = Some tx' /\ tx_retriesLeft tx' = tx_retriesLeft tx - 1.
Proof.
  cbv zeta. set (m := register _ _ _). split; [by vm_compute|].
  destruct (onTimeout 0 true m) as [a m'] eqn:E. assert (a = timeoutRetransmit) as -> by (vm_compute in E; congruence).
  apply (retransmission_bounded 4 m 0 true timeoutRetransmit m'); [|done|done].
  eapply reach_step; [eapply reach_step; [apply reach_new|]|].
  - apply (step_alloc 100 _ _ (fst (tryAllocLocked 100 (newTxManager 4)))). apply surjective_pairing.
  - apply step_register; [done|by apply (bool_decide_eq_true (0 ∈ reserved (snd (tryAllocLocked 100 (newTxManager 4))))); vm_compute|done|cbn; lia].
Defined.

(** A response is matched only on the path its request took: a datagram
    with a valid B/IP sender matches a target with a valid endpoint only if it
    came from that endpoint; a remote target also requires the source address
    to be the target's, and a target behind a BBMD requires the claimed origin
    to be the expected one. *)
Theorem responses_only_from_target target src : matchTargetSource target src = true ->
  (IsValid (t_Endpoint target) = true -> IsValid (s_immediate src) = true -> s_immediate src = t_Endpoint target) /\
  (a_scope (t_Address target) = AddressRemoteStation \/ a_scope (t_Address target) = AddressRemoteBroadcast ->
     s_bacnetAddress src = t_Address target) /\
  (IsValid (t_Origin target) = true -> a_scope (t_Address target) = AddressLocalStation -> s_origin src = t_Origin target).
Proof.
  intros H. assert (hopMismatch target src = false) as Hh.
  { unfold matchTargetSource in H. by destruct (hopMismatch target src); [|done]; repeat case_match. }
  split_and!.
  - intros Hv Hi. unfold hopMismatch in Hh. rewrite Hv, Hi in Hh. apply negb_false_iff in Hh. rewrite EndpointEqual_spec in Hh.
    by apply bool_decide_eq_true in Hh.
  - intros Hs. unfold matchTargetSource in H. assert (AddressEqual (s_bacnetAddress src) (t_Address target) = true) as He.
    { destruct (AddressEqual _ _); [done|]. by destruct Hs as [Hs|Hs]; rewrite Hs in H. }
    by apply bool_decide_eq_true in He.
  - intros Hv Hs. unfold matchTargetSource in H. rewrite Hs, Hv in H. destruct (_ || _) eqn:E; [done|].
    apply orb_false_iff in E as [_ E]. apply negb_false_iff in E. rewrite EndpointEqual_spec in E. by apply bool_decide_eq_true in E.
Qed.

Lemma responses_only_from_target_witness :
  let ep := endpoint4 [10; 0; 0; 1] 47808 in
  let a := RemoteStation 7 (macOf [1]) in
  matchTargetSource (mkTarget a ep zeroEndpoint 0) (mkSource a ep ep) = true /\
  (a_scope a = AddressRemoteStation \/ a_scope a = AddressRemoteBroadcast -> a = a).
Proof.
  cbv zeta. split; [reflexivity|].
  apply (responses_only_from_target (mkTarget (RemoteStation 7 (macOf [1])) (endpoint4 [10; 0; 0; 1] 47808) zeroEndpoint 0)
    (mkSource (RemoteStation 7 (macOf [1])) (endpoint4 [10; 0; 0; 1] 47808) (endpoint4 [10; 0; 0; 1] 47808))). reflexivity.
Defined.
