(* ===== verification/Bbmd.v ===== *)
(** * The BACnet/IP broadcast management device: [bbmd/bbmd.go]

    The state is the record [BBMD]; the clock is an argument of the operations
    that read it (nanoseconds); the datagrams handed to the transport are
    returned in the order they are sent. What the transport answers is never
    looked at by the callers of [distribute] and [result], so it is not part
    of the model. *)

From Stdlib Require Import ZArith Lia Bool.
From stdpp Require Import base list gmap sorting.
From S2P Require Import Prelude Value Address Npdu Endpoint Bvlc Apdu.

Definition Second : Z := 10 ^ 9.
Definition GracePeriod : Z := 30 * Second.

(** [bip.OutboundPacket] *)
Record OutboundPacket := mkPacket { pkt_Data : bytes; pkt_Destination : Endpoint; pkt_Broadcast : bool }.

(** [bbmd.Config] without its clock. *)
Record Config := mkConfig {
  cfg_Self : Endpoint;
  cfg_BDT : list BDTEntry;
  cfg_MaxForeignDevices : Z;
  cfg_RejectRegistrations : bool
}.

Record foreign := mkForeign { f_ttl : Z; f_expires : Z }.

Record BBMD := mkBBMD {
  b_self : Endpoint;
  b_max : Z;
  b_reject : bool;
  b_bdt : list BDTEntry;
  b_fdt : gmap Endpoint foreign
}.

Definition setFDT (fdt : gmap Endpoint foreign) (b : BBMD) : BBMD :=
  mkBBMD (b_self b) (b_max b) (b_reject b) (b_bdt b) fdt.

(** The loop of [New] over the BDT. *)
Fixpoint checkBDT (es : list BDTEntry) : result unit :=
  match es with
  | [] => Ok tt
  | e :: es =>
      match NewBDTEntry (bdt_Endpoint e) (bdt_Mask e) with
      | Ok _ => checkBDT es
      | Err _ => Err ErrInvalidConfig
      end
  end.
Definition New (cfg : Config) : result BBMD :=
  let ip := netip.Addr_of (ep_Addr (cfg_Self cfg)) in
  if negb (IsValid (cfg_Self cfg)) || negb (netip.Is4 ip) || netip.IsUnspecified ip then Err ErrInvalidConfig
  else
    let* _ := checkBDT (cfg_BDT cfg) in
    if cfg_MaxForeignDevices cfg <? 0 then Err ErrInvalidConfig
    else
      let max := if cfg_MaxForeignDevices cfg =? 0 then 128 else cfg_MaxForeignDevices cfg in
      Ok (mkBBMD (cfg_Self cfg) max (cfg_RejectRegistrations cfg) (cfg_BDT cfg) ∅).

(** ** The foreign device table *)

Definition alive (now : Z) (f : foreign) : bool := negb (f_expires f - now <=? 0).

(** The remaining time in whole seconds, rounded up and cut to 16 bits. *)
Definition remaining (now : Z) (f : foreign) : Z :=
  let secs := (f_expires f - now + Second - 1) / Second in
  u16 (if secs >? 0xFFFF then 0xFFFF else secs).

(** [sort.Slice(out, func(i, j) { return out[i].Address.Addr.Compare(out[j].Address.Addr) < 0 })] *)
Definition entry_le (x y : FDTEntry) : Prop :=
  netip.AddrPort_Compare (ep_Addr (fdt_Address x)) (ep_Addr (fdt_Address y)) <> Gt.
#[global] Instance entry_le_dec : RelDecision entry_le.
Proof. intros x y. unfold entry_le. apply not_dec. destruct (netip.AddrPort_Compare _ _); [by right|by right|by left]. Defined.

Definition fdtLocked (now : Z) (b : BBMD) : list FDTEntry * BBMD :=
  let live := filter (fun '(_, f) => alive now f = true) (b_fdt b) in
  let out := (fun '(ep, f) => mkFDTEntry ep (f_ttl f) (remaining now f)) <$> map_to_list live in
  (merge_sort entry_le out, setFDT live b).

Definition register (now : Z) (ep : Endpoint) (ttl : Z) (b : BBMD) : Z * BBMD :=
  if b_reject b then (ResultRegisterForeignDeviceNAK, b)
  else
    let b := snd (fdtLocked now b) in
    if negb (bool_decide (is_Some (b_fdt b !! ep))) && (Z.of_nat (size (b_fdt b)) >=? b_max b)
    then (ResultRegisterForeignDeviceNAK, b)
    else (ResultSuccessfulCompletion,
          setFDT (<[ep := mkForeign ttl (now + (ttl * Second + GracePeriod))]> (b_fdt b)) b).

Definition delete (ep : Endpoint) (b : BBMD) : bool * BBMD :=
  match b_fdt b !! ep with
  | None => (false, b)
  | Some _ => (true, setFDT (base.delete ep (b_fdt b)) b)
  end.

Definition registered (now : Z) (ep : Endpoint) (b : BBMD) : bool :=
  match b_fdt b !! ep with
  | Some f => now <? f_expires f
  | None => false
  end.

(** ** Distribution *)

(** The address with the inverted mask set, octet by octet. *)
Fixpoint orInverted (ip mask : bytes) : bytes :=
  match ip, mask with
  | a :: ip, m :: mask => Z.lor a (Z.lxor m 0xFF) :: orInverted ip mask
  | _, _ => ip
  end.
Definition forwardAddress (e : BDTEntry) : result Endpoint :=
  let* ip := netip.As4 (netip.Addr_of (ep_Addr (bdt_Endpoint e))) in
  Ok (NewEndpoint (netip.AddrPortFrom (netip.AddrFrom4 (orInverted ip (bdt_Mask e))) (netip.Port (ep_Addr (bdt_Endpoint e))))).

Definition oneHop (e : BDTEntry) : bool := bool_decide (bdt_Mask e = [0xFF; 0xFF; 0xFF; 0xFF]).

Definition forwarded (origin : Endpoint) (npdu : bytes) : result bytes :=
  let* ip := netip.As4 (netip.Addr_of (ep_Addr origin)) in
  Append [] (mkMessage FunctionForwardedNPDU npdu ip (netip.Port (ep_Addr origin)) 0 0).

(** The destinations among the peers. *)
Fixpoint peerDests (self origin : Endpoint) (bdt : list BDTEntry) : result (list Endpoint) :=
  match bdt with
  | [] => Ok []
  | e :: bdt =>
      let* to := forwardAddress e in
      let* dests := peerDests self origin bdt in
      if EndpointEqual to self || EndpointEqual (bdt_Endpoint e) self || EndpointEqual to origin then Ok dests
      else Ok (to :: dests)
  end.
Definition foreignDests (self origin : Endpoint) (fdt : list FDTEntry) : list Endpoint :=
  fdt_Address <$> filter (fun f => negb (EndpointEqual (fdt_Address f) origin) && negb (EndpointEqual (fdt_Address f) self) = true) fdt.

Definition distribute (now : Z) (origin : Endpoint) (npdu : bytes) (peers : bool) (b : BBMD) : result (list OutboundPacket * BBMD) :=
  match forwarded origin npdu with
  | Err Panic => Err Panic
  | Err _ => Ok ([], b)
  | Ok frame =>
      let* dests := if peers then peerDests (b_self b) origin (b_bdt b) else Ok [] in
      let '(fdt, b) := fdtLocked now b in
      let dests := dests ++ foreignDests (b_self b) origin fdt in
      Ok ((fun to => mkPacket frame to false) <$> dests, b)
  end.

(** [result]: send a BVLC-Result. *)
Definition sendResult (to : Endpoint) (code : Z) : list OutboundPacket :=
  match Append [] (mkMessage FunctionResult [] zeroIP 0 code 0) with
  | Ok frame => [mkPacket frame to false]
  | Err _ => []
  end.

Definition isPeerOneHop (from : Endpoint) (b : BBMD) : bool :=
  existsb (fun e => EndpointEqual (bdt_Endpoint e) from && negb (EndpointEqual (bdt_Endpoint e) (b_self b)) && oneHop e) (b_bdt b).

(** [off += 3 + int(npdu[off+2])] for an address whose octets are present;
    [None] is the early [return false]. *)
Definition skipAddress (npdu : bytes) (present : bool) (off : Z) : result (option Z) :=
  if present then
    if len npdu <? off + 3 then Ok None
    else let* l := index npdu (off + 2) in Ok (Some (off + (3 + l)))
  else Ok (Some off).
Definition confirmedRequest (npdu : bytes) : result bool :=
  if len npdu <? 2 then Ok false
  else
    let* ctl := index npdu 1 in
    if bit ctl 0x80 then Ok false else
    let* off := skipAddress npdu (bit ctl 0x20) 2 in
    match off with
    | None => Ok false
    | Some off =>
        let* off := skipAddress npdu (bit ctl 0x08) off in
        match off with
        | None => Ok false
        | Some off =>
            let off := if bit ctl 0x20 then off + 1 else off in
            if off <? len npdu then let* t := index npdu off in Ok (Z.land t 0xF0 =? 0x00) else Ok false
        end
    end.

(** ** Inbound BVLC messages *)

(** The answer to a table read: the entries in an acknowledgement, or a NAK. *)
Definition tableReply (from : Endpoint) (ack nak : Z) (body : result bytes) : result (list OutboundPacket) :=
  match body with
  | Err Panic => Err Panic
  | Err _ => Ok (sendResult from nak)
  | Ok body =>
      match Append [] (mkMessage ack body zeroIP 0 0 0) with
      | Err _ => Ok (sendResult from nak)
      | Ok frame => Ok [mkPacket frame from false]
      end
  end.

(** What a call of [HandleBVLC] sends, whether the NPDU is also delivered
    locally and from which origin, and the state it leaves. *)
Record outcome := mkOutcome { o_sent : list OutboundPacket; o_deliver : bool; o_origin : Endpoint; o_bbmd : BBMD }.

Definition done (sent : list OutboundPacket) (b : BBMD) : result outcome := Ok (mkOutcome sent false zeroEndpoint b).
Definition deliver (sent : list OutboundPacket) (origin : Endpoint) (b : BBMD) : result outcome := Ok (mkOutcome sent true origin b).

(** [now] is the clock where it is read first, [now'] where [distribute]
    reads it after the registration check. *)
Definition HandleBVLC (now now' : Z) (msg : Message) (from : Endpoint) (b : BBMD) : result outcome :=
  let fn := m_Function msg in
  if EndpointEqual from (b_self b) then done [] b
  else if fn =? FunctionOriginalBroadcastNPDU then
    let* c := confirmedRequest (m_Payload msg) in
    if c then done [] b
    else let* (sent, b) := distribute now from (m_Payload msg) true b in deliver sent from b
  else if fn =? FunctionForwardedNPDU then
    let oep := NewEndpoint (fst (OriginAddrPort msg)) in
    if EndpointEqual oep (b_self b) then done [] b
    else
      let* local :=
        if isPeerOneHop from b then
          match forwarded oep (m_Payload msg) with
          | Ok frame => Ok [mkPacket frame zeroEndpoint true]
          | Err Panic => Err Panic
          | Err _ => Ok []
          end
        else Ok [] in
      let* (sent, b) := distribute now oep (m_Payload msg) false b in
      deliver (local ++ sent) oep b
  else if fn =? FunctionDistributeBroadcastToNetwork then
    let* refuse := if negb (registered now from b) then Ok true else confirmedRequest (m_Payload msg) in
    if refuse then done (sendResult from ResultDistributeBroadcastToNetworkNAK) b
    else
      match forwarded from (m_Payload msg) with
      | Err Panic => Err Panic
      | Err _ => done (sendResult from ResultDistributeBroadcastToNetworkNAK) b
      | Ok frame =>
          let* (sent, b) := distribute now' from (m_Payload msg) true b in
          deliver (mkPacket frame zeroEndpoint true :: sent) from b
      end
  else if fn =? FunctionRegisterForeignDevice then
    let '(code, b) := register now from (m_TTL msg) b in done (sendResult from code) b
  else if fn =? FunctionReadBroadcastDistributionTable then
    let* sent := tableReply from FunctionReadBroadcastDistributionTableAck ResultReadBroadcastDistributionTableNAK
      (EncodeBDTEntries [] (b_bdt b)) in
    done sent b
  else if fn =? FunctionWriteBroadcastDistributionTable then
    done (sendResult from ResultWriteBroadcastDistributionTableNAK) b
  else if fn =? FunctionReadForeignDeviceTable then
    let '(fdt, b) := fdtLocked now b in
    let* sent := tableReply from FunctionReadForeignDeviceTableAck ResultReadForeignDeviceTableNAK (EncodeFDTEntries [] fdt) in
    done sent b
  else if fn =? FunctionDeleteForeignDeviceTableEntry then
    match DecodeDeleteFDTEntry (m_Payload msg) with
    | Err Panic => Err Panic
    | Err _ => done (sendResult from ResultDeleteForeignDeviceTableEntryNAK) b
    | Ok ep =>
        let '(ok, b) := delete ep b in
        done (sendResult from (if ok then ResultSuccessfulCompletion else ResultDeleteForeignDeviceTableEntryNAK)) b
    end
  else done [] b.

Definition LocalBroadcast (now : Z) (npdu : bytes) (b : BBMD) : result (list OutboundPacket * BBMD) :=
  distribute now (b_self b) npdu true b.

(** [BBMD.BDT] and [BBMD.FDT] *)
Definition BDT (b : BBMD) : list BDTEntry := b_bdt b.
Definition FDT (now : Z) (b : BBMD) : list FDTEntry * BBMD := fdtLocked now b.

(** ** The table after expiry *)

Lemma Addr_Compare_antisym a b : netip.Addr_Compare b a = CompOpp (netip.Addr_Compare a b).
Proof.
  unfold netip.Addr_Compare. rewrite (Z.compare_antisym (netip.BitLen a)). destruct (netip.BitLen a ?= netip.BitLen b) eqn:E; [|done..].
  destruct a, b; try done; cbn; [apply bytes_compare_antisym|].
  rewrite (bytes_compare_antisym ip). destruct (netip.bytes_compare ip ip0); cbn; [apply bytes_compare_antisym|done..].
Qed.

#[global] Instance entry_le_total : Total entry_le.
Proof.
  intros x y. unfold entry_le, netip.AddrPort_Compare. rewrite (Addr_Compare_antisym (netip.Addr_of (ep_Addr (fdt_Address x)))).
  rewrite (Z.compare_antisym (netip.Port (ep_Addr (fdt_Address x)))).
  destruct (netip.Addr_Compare _ _); cbn; [|by left|by right]. destruct (_ ?= _); cbn; [by left|by left|by right].
Qed.

Definition entryOf (now : Z) (p : Endpoint * foreign) : FDTEntry := mkFDTEntry (fst p) (f_ttl (snd p)) (remaining now (snd p)).

Lemma fdtLocked_entries now b :
  fst (fdtLocked now b) ≡ₚ entryOf now <$> map_to_list (filter (fun '(_, f) => alive now f = true) (b_fdt b)).
Proof. cbn. rewrite merge_sort_Permutation. apply reflexive_eq, list_fmap_ext. by intros i [ep f] _. Qed.

Lemma fdtLocked_lookup now b ep f : b_fdt (snd (fdtLocked now b)) !! ep = Some f <-> b_fdt b !! ep = Some f /\ alive now f = true.
Proof. cbn. by rewrite map_lookup_filter_Some. Qed.

Lemma fdtLocked_same now b : b_self (snd (fdtLocked now b)) = b_self b /\ b_max (snd (fdtLocked now b)) = b_max b /\
  b_reject (snd (fdtLocked now b)) = b_reject b /\ b_bdt (snd (fdtLocked now b)) = b_bdt b.
Proof. done. Qed.

Lemma fdtLocked_size now b : (size (b_fdt (snd (fdtLocked now b))) <= size (b_fdt b))%nat.
Proof. cbn. apply map_subseteq_size, map_filter_subseteq. Qed.

Lemma fdtLocked_elem now b x : x ∈ fst (fdtLocked now b) <->
  exists ep f, b_fdt b !! ep = Some f /\ alive now f = true /\ x = mkFDTEntry ep (f_ttl f) (remaining now f).
Proof.
  rewrite fdtLocked_entries, list_elem_of_fmap. split.
  - intros ([ep f] & -> & H). apply elem_of_map_to_list, map_lookup_filter_Some in H as [H1 H2]. by exists ep, f.
  - intros (ep & f & H1 & H2 & ->). exists (ep, f). split; [done|]. apply elem_of_map_to_list. by apply map_lookup_filter_Some.
Qed.

Lemma fdtLocked_addresses now b : NoDup (fdt_Address <$> fst (fdtLocked now b)).
Proof.
  rewrite fdtLocked_entries, <- list_fmap_compose.
  rewrite (list_fmap_ext _ fst) by (by intros i [ep f] _). apply NoDup_fst_map_to_list.
Qed.

(** The clock only moves forward, so what has expired stays expired. *)
Lemma alive_spec now f : alive now f = (now <? f_expires f).
Proof. unfold alive. destruct (_ <=? _) eqn:E, (now <? _) eqn:E'; bool_to_prop; lia. Qed.

Lemma registered_fdtLocked now t ep b : now <= t -> registered t ep (snd (fdtLocked now b)) = registered t ep b.
Proof.
  intros Ht. unfold registered. destruct (b_fdt b !! ep) as [f|] eqn:E.
  - destruct (alive now f) eqn:Ha.
    + by rewrite (proj2 (fdtLocked_lookup now b ep f)).
    + destruct (b_fdt (snd (fdtLocked now b)) !! ep) as [f'|] eqn:E'; [apply fdtLocked_lookup in E' as []; congruence|].
      rewrite alive_spec in Ha. symmetry. bool_to_prop. apply Z.ltb_ge. lia.
  - destruct (b_fdt (snd (fdtLocked now b)) !! ep) as [f'|] eqn:E'; [apply fdtLocked_lookup in E' as []; congruence|done].
Qed.

(** ** The invariant *)

Record bbmd_ok (b : BBMD) : Prop := {
  ok_self : IsValid (b_self b) = true /\ ep_wf (b_self b);
  ok_bdt : Forall (fun e => bdt_wf e /\ IsValid (bdt_Endpoint e) = true /\ Contiguous (bdt_Mask e) = true) (b_bdt b);
  ok_fdt : forall ep f, b_fdt b !! ep = Some f -> IsValid ep = true /\ ep_wf ep /\ is_u 16 (f_ttl f);
  ok_max : 1 <= b_max b;
  ok_size : Z.of_nat (size (b_fdt b)) <= b_max b
}.

Lemma fdtLocked_ok now b : bbmd_ok b -> bbmd_ok (snd (fdtLocked now b)).
Proof.
  intros [H1 H2 H3 H4 H5]. split; try done.
  - intros ep f [H _]%fdtLocked_lookup. by apply (H3 ep f).
  - pose proof (fdtLocked_size now b). change (b_max (snd (fdtLocked now b))) with (b_max b). lia.
Qed.

Lemma register_ok now ep ttl b : bbmd_ok b -> IsValid ep = true -> ep_wf ep -> is_u 16 ttl -> bbmd_ok (snd (register now ep ttl b)).
Proof.
  intros Hb Hv Hw Ht. unfold register. destruct (b_reject b); [done|]. pose proof (fdtLocked_ok now b Hb) as Hb'.
  set (b1 := snd (fdtLocked now b)) in *. cbv zeta. destruct (_ && _) eqn:E; [done|]. destruct Hb' as [H1 H2 H3 H4 H5].
  clearbody b1. split; cbn; try done.
  - intros ep' f [[<- <-]|[_ H]]%lookup_insert_Some; [done|]. by apply (H3 ep' f).
  - rewrite map_size_insert. apply andb_false_iff in E as [E|E].
    + apply negb_false_iff, bool_decide_eq_true in E as [f Hf]. by rewrite Hf.
    + destruct (b_fdt b1 !! ep); [done|]. bool_to_prop. lia.
Qed.

Lemma delete_ok ep b : bbmd_ok b -> bbmd_ok (snd (delete ep b)).
Proof.
  intros Hb. unfold delete. destruct (b_fdt b !! ep) eqn:E; [|done]. destruct Hb as [H1 H2 H3 H4 H5]. split; cbn; try done.
  - intros ep' f' [_ H]%lookup_delete_Some. by apply (H3 ep' f').
  - rewrite map_size_delete, E. lia.
Qed.

(** ** Destinations *)

Lemma As4_valid ep : IsValid ep = true -> ep_wf ep ->
  exists ip port, ep = endpoint4 ip port /\ netip.As4 (netip.Addr_of (ep_Addr ep)) = Ok ip /\ len ip = 4 /\ bytes_ok ip /\ is_u 16 port.
Proof.
  intros Hv Hw. destruct (IsValid_endpoint4 ep Hv Hw) as (ip & port & -> & Hl & Hok & Hp). exists ip, port. split_and!; try done. unfold len. lia.
Qed.

Lemma forwarded_spec ip port npdu : len ip = 4 ->
  forwarded (endpoint4 ip port) npdu =
    if 10 + len npdu <=? 65535 then Ok (frame (mkMessage FunctionForwardedNPDU npdu ip port 0 0)) else Err ErrMalformed.
Proof.
  intros Hl. unfold forwarded. cbn [netip.As4 netip.Addr_of ep_Addr endpoint4 NewEndpoint netip.AddrPortFrom netip.AddrFrom4 netip.Port bind].
  rewrite Append_spec, len_frame. cbn [app]. replace (len (bodyOf _)) with (6 + len npdu) by (unfold bodyOf; cbn; len_lia).
  by replace (4 + (6 + len npdu)) with (10 + len npdu) by lia.
Qed.

Lemma forwarded_safe origin npdu : IsValid origin = true -> ep_wf origin -> forwarded origin npdu <> Err Panic.
Proof.
  intros Hv Hw. destruct (As4_valid origin Hv Hw) as (ip & port & -> & _ & Hl & _). rewrite forwarded_spec by done. by destruct (_ <=? _).
Qed.

Lemma peerDests_spec self origin bdt : Forall (fun e => IsValid (bdt_Endpoint e) = true) bdt ->
  exists dests, peerDests self origin bdt = Ok dests /\
    forall to, to ∈ dests <-> exists e, e ∈ bdt /\ forwardAddress e = Ok to /\ to <> self /\ bdt_Endpoint e <> self /\ to <> origin.
Proof.
  induction 1 as [|e bdt He _ (dests & IH1 & IH2)].
  { exists []. split; [done|]. intros to. split; [by intros ?%elem_of_nil|]. by intros (e & ?%elem_of_nil & _). }
  cbn [peerDests]. assert (exists to, forwardAddress e = Ok to) as [to Hto].
  { unfold forwardAddress. destruct (bdt_Endpoint e) as [[[|ip|ip z] port]]; try done. by eexists. }
  rewrite Hto, bind_Ok_l, IH1, bind_Ok_l, !EndpointEqual_spec.
  assert (forall x, (exists e', e' ∈ e :: bdt /\ forwardAddress e' = Ok x /\ x <> self /\ bdt_Endpoint e' <> self /\ x <> origin) <->
    (x = to /\ to <> self /\ bdt_Endpoint e <> self /\ to <> origin) \/ x ∈ dests) as Heq.
  { intros x. rewrite IH2. split.
    - intros (e' & [->|Hin]%elem_of_cons & Hf & Hr); [left; assert (x = to) as -> by congruence; tauto|right; eauto].
    - intros [(-> & Hr)|(e' & Hin & Hr)]; [exists e|exists e']; (split; [by constructor|tauto]). }
  destruct (bool_decide (to = self) || _ || _) eqn:E.
  - exists dests. split; [done|]. intros x. rewrite Heq. split; [auto|]. intros [(-> & N1 & N2 & N3)|Hin]; [|done].
    by rewrite !bool_decide_eq_false_2 in E.
  - apply orb_false_iff in E as [E E3]. apply orb_false_iff in E as [E1 E2]. apply bool_decide_eq_false in E1, E2, E3.
    exists (to :: dests). split; [done|]. intros x. rewrite Heq, elem_of_cons. tauto.
Qed.

Lemma foreignDests_elem self origin now b ep :
  ep ∈ foreignDests self origin (fst (fdtLocked now b)) <-> registered now ep b = true /\ ep <> origin /\ ep <> self.
Proof.
  unfold foreignDests. rewrite list_elem_of_fmap. setoid_rewrite list_elem_of_filter. setoid_rewrite fdtLocked_elem. split.
  - intros (x & Hx & Hf & ep' & f & Hl & Ha & ->). cbn in Hx. subst ep'. cbn in Hf.
    apply andb_true_iff in Hf as [Hf1 Hf2]. apply negb_true_iff in Hf1, Hf2. rewrite EndpointEqual_spec in Hf1, Hf2.
    apply bool_decide_eq_false in Hf1, Hf2. rewrite alive_spec in Ha. unfold registered. by rewrite Hl.
  - intros (Hr & N1 & N2). unfold registered in Hr. destruct (b_fdt b !! ep) as [f|] eqn:Hl; [|done].
    exists (mkFDTEntry ep (f_ttl f) (remaining now f)). split; [done|]. cbn. rewrite !EndpointEqual_spec, !bool_decide_eq_false_2 by done.
    split; [done|]. exists ep, f. rewrite alive_spec. done.
Qed.

Lemma foreignDests_NoDup self origin now b : NoDup (foreignDests self origin (fst (fdtLocked now b))).
Proof.
  pose proof (fdtLocked_addresses now b) as H. unfold foreignDests. generalize dependent (fst (fdtLocked now b)). intros l.
  induction l as [|x l IH]; [done|]. rewrite fmap_cons, NoDup_cons. intros [Hx Hl]. rewrite filter_cons.
  destruct (decide _); [|by apply IH]. rewrite fmap_cons, NoDup_cons. split; [|by apply IH].
  intros (y & Hy & [_ Hin]%list_elem_of_filter)%list_elem_of_fmap. apply Hx. rewrite Hy. by apply list_elem_of_fmap_2.
Qed.

(** ** Distribution, in terms of the tables *)

Lemma distribute_spec now origin npdu peers b : bbmd_ok b -> IsValid origin = true -> ep_wf origin ->
  exists ip port dests b', origin = endpoint4 ip port /\ len ip = 4 /\ bytes_ok ip /\ is_u 16 port /\
    distribute now origin npdu peers b = Ok ((fun to => mkPacket (frame (mkMessage FunctionForwardedNPDU npdu ip port 0 0)) to false) <$> dests, b') /\
    (b' = b \/ b' = snd (fdtLocked now b)) /\
    if 10 + len npdu <=? 65535
    then exists ps, dests = ps ++ foreignDests (b_self b) origin (fst (fdtLocked now b)) /\
           forall to, to ∈ ps <-> peers = true /\ exists e, e ∈ b_bdt b /\ forwardAddress e = Ok to /\
                                    to <> b_self b /\ bdt_Endpoint e <> b_self b /\ to <> origin
    else dests = [].
Proof.
  intros Hb Hv Hw. destruct (As4_valid origin Hv Hw) as (ip & port & -> & _ & Hl & Hok & Hp). exists ip, port.
  unfold distribute. rewrite forwarded_spec by done. destruct (10 + len npdu <=? 65535).
  - destruct (peerDests_spec (b_self b) (endpoint4 ip port) (b_bdt b)) as (ps & Hps & Hin).
    { eapply Forall_impl; [apply (ok_bdt b Hb)|]. by intros e (_ & He & _). }
    exists ((if peers then ps else []) ++ foreignDests (b_self b) (endpoint4 ip port) (fst (fdtLocked now b))), (snd (fdtLocked now b)).
    split_and!; try done; [|by right|].
    + destruct peers; [rewrite Hps|]; rewrite bind_Ok_l; cbn; done.
    + eexists. split; [done|]. intros to. destruct peers; [rewrite Hin; tauto|]. split; [by intros ?%elem_of_nil|by intros [? _]].
  - exists [], b. split_and!; try done. by left.
Qed.

Lemma skipAddress_total npdu present off : bytes_ok npdu -> 0 <= off ->
  exists o, skipAddress npdu present off = Ok o /\ forall off', o = Some off' -> off <= off'.
Proof.
  intros Hok Hoff. unfold skipAddress. destruct present; [|exists (Some off); split; [done|intros ? [= <-]; lia]].
  destruct (_ <? _) eqn:E; [by exists None|]. bool_to_prop. destruct (index_total npdu (off + 2)) as (x & Hx & _); [lia|].
  pose proof (index_bytes_ok _ _ _ Hx Hok). unfold is_u in *. rewrite Hx, bind_Ok_l. eexists. split; [done|]. intros ? [= <-]. lia.
Qed.

Lemma confirmedRequest_total npdu : bytes_ok npdu -> exists c, confirmedRequest npdu = Ok c.
Proof.
  intros Hok. unfold confirmedRequest. destruct (_ <? 2) eqn:E; [by eexists|]. bool_to_prop.
  destruct (index_total npdu 1) as (c & Hc & _); [lia|]. rewrite Hc, bind_Ok_l. destruct (bit c 0x80); [by eexists|].
  destruct (skipAddress_total npdu (bit c 0x20) 2 Hok) as ([o|] & Ho & Hle); [lia| |]; rewrite Ho, bind_Ok_l; [|by eexists].
  specialize (Hle o eq_refl). destruct (skipAddress_total npdu (bit c 0x08) o Hok) as ([o2|] & Ho2 & Hle2); [lia| |]; rewrite Ho2, bind_Ok_l; [|by eexists].
  specialize (Hle2 o2 eq_refl). cbv zeta. set (o3 := if bit c 0x20 then o2 + 1 else o2).
  assert (2 <= o3) by (unfold o3; destruct (bit c 0x20); lia). destruct (o3 <? len npdu) eqn:E3; [|by eexists]. bool_to_prop.
  destruct (index_total npdu o3) as (t & Ht & _); [lia|]. rewrite Ht. by eexists.
Qed.

(** [skipAddress] over an address that is there. *)
Lemma skipAddress_wire (pre d post : bytes) (present : bool) : (if present then exists net (m : bytes), d = be_put 2 net ++ [len m] ++ m else d = []) ->
  skipAddress (pre ++ d ++ post) present (len pre) = Ok (Some (len pre + len d)).
Proof.
  unfold skipAddress. destruct present; [|intros ->; by rewrite len_nil, Z.add_0_r]. intros (net & m & ->). decide_test.
  rewrite <- !app_assoc. rewrite (app_assoc pre). cbn [app]. rewrite index_app by len_lia. rewrite bind_Ok_l. do 2 f_equal. len_lia.
Qed.

Lemma confirmedRequest_wire n data : npdu_wire n data ->
  confirmedRequest data = Ok (negb (np_NetworkMessage n) && match np_APDU n with t :: _ => Z.land t 0xF0 =? 0 | [] => false end).
Proof.
  intros (hd & hs & d & s & hop & body & -> & _ & Hp & Hc & Hd & Hs & Hhop & Hb).
  destruct (ctl_fields (np_NetworkMessage n) (np_ExpectingReply n) (np_Priority n) hd hs Hp) as (_ & Hnm & _ & _ & Hbd & Hbs & _).
  rewrite <- Hc in Hnm, Hbd, Hbs. unfold confirmedRequest. set (c := np_Control n) in *. decide_test. cbn [app]. rewrite index_1, bind_Ok_l.
  change 0x80 with ControlNetworkMessage. rewrite Hnm. destruct (np_NetworkMessage n); [done|]. cbn [negb andb].
  change 0x20 with ControlDestinationSpec. change 0x08 with ControlSourceSpec. rewrite Hbd, Hbs.
  assert (forall l k : bytes, Version1 :: c :: l ++ k = [Version1; c] ++ l ++ k) as Hcons by done. rewrite Hcons.
  change 2 with (len [Version1; c]). rewrite skipAddress_wire.
  2:{ destruct hd; [|by destruct Hd]. inversion Hd; subst; [exists 0xFFFF, []|exists net, []|exists net, m]; done. }
  rewrite bind_Ok_l, app_assoc, <- len_app. rewrite skipAddress_wire.
  2:{ destruct hs; [|by destruct Hs]. inversion Hs; subst; [exists 0, m|exists net, m]; done. }
  rewrite bind_Ok_l. destruct Hb as (-> & _ & _). cbv zeta. set (pre := (([Version1; c] ++ d) ++ s) ++ hop).
  replace (if hd then _ else _) with (len pre) by (unfold pre; destruct hd; [rewrite Hhop|destruct Hhop as [_ ->]]; len_lia).
  replace (([Version1; c] ++ d) ++ s ++ hop ++ np_APDU n) with (pre ++ np_APDU n) by (unfold pre; by rewrite <- !app_assoc).
  destruct (np_APDU n) as [|t r].
  - rewrite app_nil_r. by decide_test.
  - decide_test. by rewrite index_app.
Qed.

(** ** A received message is handled *)

Definition origin_of (m : Message) : Endpoint := NewEndpoint (fst (OriginAddrPort m)).
Definition rx (m : Message) : Prop :=
  bytes_ok (m_Payload m) /\ is_u 16 (m_TTL m) /\
  (m_Function m = FunctionForwardedNPDU -> IsValid (origin_of m) = true /\ ep_wf (origin_of m)).

Lemma Parse_rx data limits m : bytes_ok data -> Bvlc.Parse data limits = Ok m -> rx m.
Proof.
  intros Hok H. destruct (Parse_inv data limits m Hok H) as (Hc & Hd & _). rewrite Hd in Hok. unfold frame in Hok.
  apply Forall_app in Hok as [_ Hok]. apply Forall_app in Hok as [_ Hok]. unfold bodyOf in Hok. unfold rx, canonical in *.
  assert (is_u 16 0) as H0 by (unfold is_u; lia).
  destruct (m_Function m =? FunctionResult) eqn:E0.
  { destruct Hc as (_ & -> & _ & _ & ->). apply Z.eqb_eq in E0. split_and!; try done. by rewrite E0. }
  destruct (m_Function m =? FunctionRegisterForeignDevice) eqn:E1.
  { destruct Hc as (Ht & -> & _). apply Z.eqb_eq in E1. split_and!; try done. by rewrite E1. }
  destruct (m_Function m =? FunctionForwardedNPDU) eqn:E2.
  - apply Forall_app in Hok as [Hip Hok]. apply Forall_app in Hok as [_ Hpl]. destruct Hc as (Hp & Hl & _ & ->). split_and!; try done.
    intros _. unfold origin_of, OriginAddrPort. rewrite E2. split; [done|]. split; [done|]. cbn. split; [unfold len in Hl; lia|done].
  - destruct Hc as (_ & _ & _ & ->). split_and!; try done. intros E. by rewrite E in E2.
Qed.

Lemma EncodeBDTEntries_safe es : forall dst, Forall (fun e => bdt_wf e) es -> EncodeBDTEntries dst es <> Err Panic.
Proof.
  induction es as [|e es IH]; intros dst; [done|]. intros Hf. inversion_clear Hf as [|? ? (Hw & _ & _) Hes].
  cbn [EncodeBDTEntries]. destruct (IsValid _) eqn:E; [|done]. cbn [negb].
  destruct (negb _); [done|]. destruct (endpointOctets_valid _ E Hw) as (ip & port & _ & -> & _). rewrite bind_Ok_l. by apply IH.
Qed.

Lemma EncodeFDTEntries_safe es : forall dst, Forall (fun e => ep_wf (fdt_Address e)) es -> EncodeFDTEntries dst es <> Err Panic.
Proof.
  induction es as [|e es IH]; intros dst; [done|]. intros Hf. inversion_clear Hf as [|? ? Hw Hes].
  cbn [EncodeFDTEntries]. destruct (IsValid _) eqn:E; [|done]. cbn [negb].
  destruct (endpointOctets_valid _ E Hw) as (ip & port & _ & -> & _). rewrite bind_Ok_l. by apply IH.
Qed.

Lemma tableReply_total from ack nak body : body <> Err Panic -> exists sent, tableReply from ack nak body = Ok sent.
Proof. intros Hb. unfold tableReply. destruct body as [body|[]]; try done; try (by eexists). destruct (Append _ _); by eexists. Qed.

Lemma remaining_range now f : is_u 16 (remaining now f).
Proof. apply (uwrap_range 16). lia. Qed.

(** What no operation changes. *)
Definition same_config (b b' : BBMD) : Prop :=
  b_self b' = b_self b /\ b_max b' = b_max b /\ b_reject b' = b_reject b /\ b_bdt b' = b_bdt b.
Definition steady (b b' : BBMD) : Prop := bbmd_ok b' /\ same_config b b'.

Lemma distribute_ok now origin npdu peers b : bbmd_ok b -> IsValid origin = true -> ep_wf origin ->
  exists sent b', distribute now origin npdu peers b = Ok (sent, b') /\ steady b b'.
Proof.
  intros Hb Hv Hw. destruct (distribute_spec now origin npdu peers b Hb Hv Hw) as (ip & port & dests & b' & _ & _ & _ & _ & Hd & Hb' & _).
  do 2 eexists. split; [exact Hd|]. destruct Hb' as [->| ->]; (split; [|done]); [done|by apply fdtLocked_ok].
Qed.

Lemma HandleBVLC_ok now now' msg from b : bbmd_ok b -> rx msg -> IsValid from = true -> ep_wf from ->
  exists o, HandleBVLC now now' msg from b = Ok o /\ steady b (o_bbmd o).
Proof.
  intros Hb (Hpl & Httl & Horg) Hv Hw. assert (steady b b) as Hs by done. unfold HandleBVLC. cbv zeta.
  destruct (confirmedRequest_total _ Hpl) as [c Hc].
  assert (forall l b', steady b b' -> exists o, done l b' = Ok o /\ steady b (o_bbmd o)) as Hdone by (intros l b' ?; by eexists).
  destruct (EndpointEqual from _); [by apply Hdone|].
  destruct (m_Function msg =? FunctionOriginalBroadcastNPDU) eqn:E1.
  { rewrite Hc, bind_Ok_l. destruct c; [by apply Hdone|].
    destruct (distribute_ok now from (m_Payload msg) true b Hb Hv Hw) as (sent & b' & -> & Hb'). by eexists. }
  destruct (m_Function msg =? FunctionForwardedNPDU) eqn:E2.
  { apply Z.eqb_eq in E2. destruct (Horg E2) as [Hov How]. destruct (EndpointEqual _ (b_self b)); [by apply Hdone|].
    assert (exists l, (if isPeerOneHop from b then
          match forwarded (origin_of msg) (m_Payload msg) with
          | Ok frame => Ok [mkPacket frame zeroEndpoint true] | Err Panic => Err Panic | Err _ => Ok [] end
        else Ok []) = Ok l) as [l Hl].
    { destruct (isPeerOneHop from b); [|by eexists]. pose proof (forwarded_safe _ (m_Payload msg) Hov How).
      destruct (forwarded _ _) as [?|[]]; try done; by eexists. }
    unfold origin_of in Hl, Hov, How. rewrite Hl, bind_Ok_l.
    destruct (distribute_ok now _ (m_Payload msg) false b Hb Hov How) as (sent & b' & -> & Hb'). by eexists. }
  destruct (m_Function msg =? FunctionDistributeBroadcastToNetwork).
  { replace (if negb (registered now from b) then _ else _) with (Ok (negb (registered now from b) || c)) by (by destruct (registered now from b)).
    rewrite bind_Ok_l. destruct (_ || c); [by apply Hdone|]. pose proof (forwarded_safe _ (m_Payload msg) Hv Hw) as Hf.
    destruct (forwarded _ _) as [fr|[]]; try done; try by apply Hdone.
    destruct (distribute_ok now' from (m_Payload msg) true b Hb Hv Hw) as (sent & b' & -> & Hb'). by eexists. }
  destruct (m_Function msg =? FunctionRegisterForeignDevice).
  { pose proof (register_ok now from (m_TTL msg) b Hb Hv Hw Httl) as Hr.
    destruct (register now from (m_TTL msg) b) as [code b'] eqn:E. apply Hdone. split; [done|].
    unfold register in E. destruct (b_reject b); [by injection E as _ <-|]. cbv zeta in E. destruct (_ && _); by injection E as _ <-. }
  destruct (m_Function msg =? FunctionReadBroadcastDistributionTable).
  { destruct (tableReply_total from FunctionReadBroadcastDistributionTableAck ResultReadBroadcastDistributionTableNAK
      (EncodeBDTEntries [] (b_bdt b))) as [sent ->]; [|by apply Hdone].
    apply EncodeBDTEntries_safe. eapply Forall_impl; [apply (ok_bdt b Hb)|]. by intros e (? & _). }
  destruct (m_Function msg =? FunctionWriteBroadcastDistributionTable); [by apply Hdone|].
  destruct (m_Function msg =? FunctionReadForeignDeviceTable).
  { destruct (fdtLocked now b) as [fdt b'] eqn:E.
    destruct (tableReply_total from FunctionReadForeignDeviceTableAck ResultReadForeignDeviceTableNAK (EncodeFDTEntries [] fdt)) as [sent ->].
    - apply EncodeFDTEntries_safe. apply Forall_forall. intros x Hx. replace fdt with (fst (fdtLocked now b)) in Hx by (by rewrite E).
      apply fdtLocked_elem in Hx as (ep & f & Hf & _ & ->). by apply (ok_fdt b Hb ep f).
    - rewrite bind_Ok_l. apply Hdone. replace b' with (snd (fdtLocked now b)) by (by rewrite E). split; [by apply fdtLocked_ok|done]. }
  destruct (m_Function msg =? FunctionDeleteForeignDeviceTableEntry); [|by apply Hdone].
  assert (safe (DecodeDeleteFDTEntry (m_Payload msg))) as Hsafe.
  { unfold DecodeDeleteFDTEntry, readEndpoint. safe_steps. }
  destruct (DecodeDeleteFDTEntry (m_Payload msg)) as [ep|[]]; try done; try by apply Hdone.
  pose proof (delete_ok ep b Hb) as Hd. destruct (delete ep b) as [ok b'] eqn:E. apply Hdone. split; [done|].
  unfold delete in E. by destruct (b_fdt b !! ep); injection E as _ <-.
Qed.

(** ** Runs *)
Inductive bbmd_reachable (cfg : Config) : BBMD -> Prop :=
| br_new b : New cfg = Ok b -> bbmd_reachable cfg b
| br_handle now now' data limits msg from b o : bbmd_reachable cfg b ->
    bytes_ok data -> Bvlc.Parse data limits = Ok msg -> IsValid from = true -> ep_wf from ->
    HandleBVLC now now' msg from b = Ok o -> bbmd_reachable cfg (o_bbmd o)
| br_local now npdu sent b b' : bbmd_reachable cfg b -> LocalBroadcast now npdu b = Ok (sent, b') -> bbmd_reachable cfg b'
| br_fdt now b : bbmd_reachable cfg b -> bbmd_reachable cfg (snd (FDT now b)).

(** A configuration whose addresses have the representation of [net/netip]. *)
Definition cfg_wf (cfg : Config) : Prop := ep_wf (cfg_Self cfg) /\ Forall bdt_wf (cfg_BDT cfg).

Lemma checkBDT_Ok es : checkBDT es = Ok tt -> Forall (fun e => IsValid (bdt_Endpoint e) = true /\ Contiguous (bdt_Mask e) = true) es.
Proof.
  induction es as [|e es IH]; [done|]. cbn [checkBDT]. unfold NewBDTEntry. destruct (IsValid _) eqn:E1; [|done].
  destruct (Contiguous _) eqn:E2; [|done]. cbn. auto.
Qed.

Lemma New_ok cfg b : cfg_wf cfg -> New cfg = Ok b ->
  bbmd_ok b /\ b_self b = cfg_Self cfg /\ b_bdt b = cfg_BDT cfg /\ b_reject b = cfg_RejectRegistrations cfg /\
  b_max b = (if cfg_MaxForeignDevices cfg =? 0 then 128 else cfg_MaxForeignDevices cfg).
Proof.
  intros [Hw Hbw] H. unfold New in H. cbv zeta in H. destruct (_ || _) eqn:E; [done|]. apply orb_false_iff in E as [E _].
  apply orb_false_iff in E as [E _]. apply negb_false_iff in E.
  destruct (checkBDT (cfg_BDT cfg)) as [[]|] eqn:Ec; [|done]. rewrite bind_Ok_l in H. destruct (_ <? 0) eqn:Em; [done|].
  injection H as <-. split_and!; try done. bool_to_prop. split; cbn; try done.
  - apply checkBDT_Ok in Ec. apply Forall_forall. intros e He. rewrite Forall_forall in Ec, Hbw. split; [by apply Hbw|by apply Ec].
  - destruct (_ =? 0) eqn:Ez; bool_to_prop; lia.
  - rewrite map_size_empty. destruct (_ =? 0) eqn:Ez; bool_to_prop; lia.
Qed.

Lemma bbmd_reachable_ok cfg b : cfg_wf cfg -> bbmd_reachable cfg b ->
  bbmd_ok b /\ b_self b = cfg_Self cfg /\ b_bdt b = cfg_BDT cfg /\ b_reject b = cfg_RejectRegistrations cfg /\
  b_max b = (if cfg_MaxForeignDevices cfg =? 0 then 128 else cfg_MaxForeignDevices cfg).
Proof.
  intros Hw. assert (forall b b', steady b b' -> bbmd_ok b /\ b_self b = cfg_Self cfg /\ b_bdt b = cfg_BDT cfg /\
    b_reject b = cfg_RejectRegistrations cfg /\ b_max b = (if cfg_MaxForeignDevices cfg =? 0 then 128 else cfg_MaxForeignDevices cfg) ->
    bbmd_ok b' /\ b_self b' = cfg_Self cfg /\ b_bdt b' = cfg_BDT cfg /\ b_reject b' = cfg_RejectRegistrations cfg /\
    b_max b' = (if cfg_MaxForeignDevices cfg =? 0 then 128 else cfg_MaxForeignDevices cfg)) as Hstep.
  { intros b1 b2 [Hb2 (-> & -> & -> & ->)] (_ & H). done. }
  induction 1 as [b H|now now' data limits msg from b o _ IH Hd Hp Hv Hwf H|now npdu sent b b' _ IH H|now b _ IH].
  - by apply New_ok.
  - eapply Hstep; [|exact IH]. destruct (HandleBVLC_ok now now' msg from b (proj1 IH) (Parse_rx _ _ _ Hd Hp) Hv Hwf) as (o' & Ho & Hs). congruence.
  - eapply Hstep; [|exact IH]. destruct (ok_self b (proj1 IH)) as [Hsv Hsw].
    destruct (distribute_ok now (b_self b) npdu true b (proj1 IH) Hsv Hsw) as (s & b2 & Ho & Hs). unfold LocalBroadcast in H. congruence.
  - eapply Hstep; [|exact IH]. split; [apply fdtLocked_ok, IH|done].
Qed.

(** ** Properties *)

(** C32. In every run of a BBMD made by [New], whatever valid peers send and
    in any order: the foreign device table never holds more entries than
    configured, all of them valid IPv4 endpoints; the distribution table and
    the own address never change (so a Write-BDT has no effect); and the next
    message is handled too - no parsed BVLC message makes [HandleBVLC] or
    [LocalBroadcast] panic. *)
Theorem bbmd_safe cfg b now now' data limits msg from npdu : cfg_wf cfg -> bbmd_reachable cfg b ->
  bytes_ok data -> Bvlc.Parse data limits = Ok msg -> IsValid from = true -> ep_wf from ->
  Z.of_nat (size (b_fdt b)) <= (if cfg_MaxForeignDevices cfg =? 0 then 128 else cfg_MaxForeignDevices cfg) /\
  (forall ep f, b_fdt b !! ep = Some f -> IsValid ep = true) /\
  b_bdt b = cfg_BDT cfg /\ b_self b = cfg_Self cfg /\
  (exists o, HandleBVLC now now' msg from b = Ok o) /\ (exists r, LocalBroadcast now npdu b = Ok r).
Proof.
  intros Hw Hr Hd Hp Hv Hwf. destruct (bbmd_reachable_ok cfg b Hw Hr) as (Hb & H1 & H2 & H3 & H4). rewrite <- H4. split_and!; try done.
  - apply (ok_size b Hb).
  - intros ep f Hf. by apply (ok_fdt b Hb ep f).
  - destruct (HandleBVLC_ok now now' msg from b Hb (Parse_rx _ _ _ Hd Hp) Hv Hwf) as (o & Ho & _). by exists o.
  - destruct (ok_self b Hb) as [Hsv Hsw]. destruct (distribute_ok now (b_self b) npdu true b Hb Hsv Hsw) as (s & b2 & Ho & _). by eexists.
Qed.

Definition sampleConfig : Config :=
  mkConfig (endpoint4 [10; 0; 0; 1] 47808)
    [mkBDTEntry (endpoint4 [10; 0; 0; 1] 47808) [255; 255; 255; 0]; mkBDTEntry (endpoint4 [10; 0; 1; 1] 47808) [255; 255; 255; 0]] 2 false.

Lemma sample_wf ip port : length ip = 4%nat -> bytes_ok ip -> is_u 16 port -> IsValid (endpoint4 ip port) = true /\ ep_wf (endpoint4 ip port).
Proof. by intros H1 H2 H3. Qed.

Lemma sampleConfig_wf : cfg_wf sampleConfig.
Proof.
  assert (is_u 16 47808) as Hp by (unfold is_u; lia). split; [apply sample_wf; [done|cbn; solve_bytes|done]|].
  repeat apply List.Forall_cons; try apply List.Forall_nil; (split; [apply sample_wf; [done|cbn; solve_bytes|exact Hp]|split; [done|cbn; solve_bytes]]).
Qed.

Definition sampleBBMD : BBMD := mkBBMD (cfg_Self sampleConfig) 2 false (cfg_BDT sampleConfig) ∅.

Lemma sampleBBMD_reachable : bbmd_reachable sampleConfig sampleBBMD.
Proof. by apply br_new. Qed.

Lemma bbmd_safe_witness :
  exists o, HandleBVLC 0 0 (mkMessage FunctionRegisterForeignDevice [] zeroIP 0 0 60) (endpoint4 [10; 0; 2; 9] 47808) sampleBBMD = Ok o.
Proof.
  destruct (sample_wf [10; 0; 2; 9] 47808) as [Hv Hw]; [done|solve_bytes|unfold is_u; lia|].
  apply (bbmd_safe sampleConfig sampleBBMD 0 0 [0x81; 5; 0; 6; 0; 60] DefaultDecodeLimits
    (mkMessage FunctionRegisterForeignDevice [] zeroIP 0 0 60) (endpoint4 [10; 0; 2; 9] 47808) []
    sampleConfig_wf sampleBBMD_reachable); [solve_bytes|reflexivity|done|done].
Defined.

(** C31. What [distribute] sends: one Forwarded-NPDU per destination, each a
    frame that parses back to the origin and the NPDU, never to the BBMD
    itself or the origin; among the foreign devices it goes to exactly those
    registered at that time, once each, and among the peers to exactly the
    forward addresses of the table (only when [peers] is set). An NPDU too
    long for a BVLC frame is not sent at all. *)
Theorem distribution_exact now origin npdu peers b limits sent b' : bbmd_ok b -> IsValid origin = true -> ep_wf origin ->
  10 + len npdu <= MaxDatagramSize (Normalize limits) ->
  distribute now origin npdu peers b = Ok (sent, b') ->
  (10 + len npdu > 65535 -> sent = []) /\
  (10 + len npdu <= 65535 ->
     (forall p, p ∈ sent -> pkt_Broadcast p = false /\ pkt_Destination p <> origin /\ pkt_Destination p <> b_self b /\
        exists m, Bvlc.Parse (pkt_Data p) limits = Ok m /\ m_Function m = FunctionForwardedNPDU /\ m_Payload m = npdu /\ origin_of m = origin) /\
     exists ps fs, sent = ps ++ fs /\ NoDup (pkt_Destination <$> fs) /\
       (forall ep, ep ∈ pkt_Destination <$> fs <-> registered now ep b = true /\ ep <> origin /\ ep <> b_self b) /\
       (forall ep, ep ∈ pkt_Destination <$> ps <-> peers = true /\ exists e, e ∈ b_bdt b /\ forwardAddress e = Ok ep /\
          ep <> b_self b /\ bdt_Endpoint e <> b_self b /\ ep <> origin)).
Proof.
  intros Hb Hv Hw Hlim H. destruct (distribute_spec now origin npdu peers b Hb Hv Hw) as (ip & port & dests & b2 & -> & Hl & Hok & Hp & Hd & _ & Hds).
  rewrite H in Hd. injection Hd as -> _. split; intros Hn.
  { rewrite (proj2 (Z.leb_gt _ _)) in Hds by lia. by rewrite Hds. }
  rewrite (proj2 (Z.leb_le _ _)) in Hds by lia. destruct Hds as (ps & -> & Hps). set (m := mkMessage FunctionForwardedNPDU npdu ip port 0 0).
  set (mk := fun to : Endpoint => mkPacket (frame m) to false). assert (forall l : list Endpoint, pkt_Destination <$> (mk <$> l) = l) as Hmk.
  { intros l. induction l as [|x l IH]; [done|]. rewrite !fmap_cons. by rewrite IH. }
  split.
  - intros p (to & -> & Hto)%list_elem_of_fmap. cbn [pkt_Broadcast pkt_Data pkt_Destination]. split; [done|]. split_and!.
    + apply elem_of_app in Hto as [Hto|Hto]; [apply Hps in Hto as (_ & e & Hto)|apply foreignDests_elem in Hto]; tauto.
    + apply elem_of_app in Hto as [Hto|Hto]; [apply Hps in Hto as (_ & e & Hto)|apply foreignDests_elem in Hto]; tauto.
    + exists m. split; [|done]. assert (len (frame m) = 10 + len npdu) by (rewrite len_frame; unfold bodyOf; cbn; len_lia).
      apply Parse_frame; [|lia..]. unfold canonical. cbn. done.
  - exists (mk <$> ps), (mk <$> foreignDests (b_self b) (endpoint4 ip port) (fst (fdtLocked now b))). rewrite <- fmap_app, !Hmk.
    split_and!; [done|apply foreignDests_NoDup|intros ep; apply foreignDests_elem|done].
Qed.

Definition sampleRegistered : BBMD := snd (register 0 (endpoint4 [10; 0; 2; 9] 47808) 60 sampleBBMD).

Lemma sampleRegistered_ok : bbmd_ok sampleRegistered.
Proof.
  destruct (sample_wf [10; 0; 2; 9] 47808) as [Hv Hw]; [done|solve_bytes|unfold is_u; lia|].
  apply register_ok; [|done|done|unfold is_u; lia]. apply (bbmd_reachable_ok sampleConfig); [apply sampleConfig_wf|apply sampleBBMD_reachable].
Qed.

Lemma distribution_exact_witness :
  let origin := endpoint4 [10; 0; 0; 7] 47808 in
  exists sent b', distribute 5 origin [1; 0; 0x10; 8] true sampleRegistered = Ok (sent, b') /\
    pkt_Destination <$> sent = [endpoint4 [10; 0; 1; 255] 47808; endpoint4 [10; 0; 2; 9] 47808] /\
    forall p, p ∈ sent -> pkt_Destination p <> origin.
Proof.
  cbv zeta. destruct (sample_wf [10; 0; 0; 7] 47808) as [Hv Hw]; [done|solve_bytes|unfold is_u; lia|].
  destruct (distribute 5 (endpoint4 [10; 0; 0; 7] 47808) [1; 0; 0x10; 8] true sampleRegistered) as [[sent b']|] eqn:E; [|by vm_compute in E].
  exists sent, b'. split; [done|]. split; [by vm_compute in E; injection E as <- _|]. intros p Hp.
  apply (distribution_exact 5 _ [1; 0; 0x10; 8] true sampleRegistered DefaultDecodeLimits sent b' sampleRegistered_ok Hv Hw); done.
Defined.

(** A registration lives for exactly its Time-to-Live plus the 30 second
    grace period, whoever else registers meanwhile; it is refused only when
    registrations are configured off or the table is full of other live
    devices, and nothing else changes. *)
Theorem registration_lifetime now ep ttl b code b' : register now ep ttl b = (code, b') ->
  (code = ResultSuccessfulCompletion -> forall t, now <= t -> registered t ep b' = (t <? now + (ttl + 30) * Second)) /\
  (forall t ep', now <= t -> ep' <> ep \/ code <> ResultSuccessfulCompletion -> registered t ep' b' = registered t ep' b) /\
  (code <> ResultSuccessfulCompletion ->
     code = ResultRegisterForeignDeviceNAK /\
     (b_reject b = true \/ (registered now ep b = false /\ b_max b <= Z.of_nat (size (b_fdt (snd (fdtLocked now b))))))).
Proof.
  unfold register. destruct (b_reject b) eqn:Er; [intros [= <- <-]; split; [done|split; [done|auto]]|]. cbv zeta.
  pose proof (registered_fdtLocked now) as Hreg. set (b1 := snd (fdtLocked now b)) in *. destruct (_ && _) eqn:E; intros [= <- <-].
  - split_and!; [done| |].
    + intros t ep' Ht _. by apply Hreg.
    + intros _. split; [done|]. right. apply andb_true_iff in E as [E1 E2]. apply negb_true_iff, bool_decide_eq_false in E1. split; [|change (b_max b1) with (b_max b) in E2; bool_to_prop; lia].
      destruct (registered now ep b) eqn:Eb; [|done]. specialize (Hreg now ep b ltac:(lia)). rewrite Eb in Hreg. unfold registered in Hreg.
      fold b1 in Hreg. destruct E1. by destruct (b_fdt b1 !! ep).
  - split_and!; [| |done].
    + intros _ t _. unfold registered. cbn [b_fdt setFDT]. rewrite lookup_insert_eq. cbn [f_expires]. unfold GracePeriod. f_equal. lia.
    + intros t ep' Ht [Hne|Hne]; [|done]. rewrite <- (Hreg t ep' b Ht). unfold registered. cbn [b_fdt setFDT]. by rewrite lookup_insert_ne.
Qed.

Lemma registration_lifetime_witness :
  fst (register 0 (endpoint4 [10; 0; 2; 9] 47808) 60 sampleBBMD) = ResultSuccessfulCompletion /\
  registered (89 * Second) (endpoint4 [10; 0; 2; 9] 47808) sampleRegistered = true /\
  registered (90 * Second) (endpoint4 [10; 0; 2; 9] 47808) sampleRegistered = false.
Proof.
  destruct (registration_lifetime 0 (endpoint4 [10; 0; 2; 9] 47808) 60 sampleBBMD ResultSuccessfulCompletion sampleRegistered) as (H & _ & _).
  { by apply surjective_pairing. }
  specialize (H eq_refl). split_and!; [done|rewrite H; [done|vm_compute; done]|rewrite H; [done|vm_compute; done]].
Defined.

(** Distribute-Broadcast-To-Network is served only for registered foreign
    devices and never for an NPDU that carries a confirmed request: any other
    sender gets exactly one NAK, nothing is distributed or delivered and the
    tables do not change. A served one is broadcast on the local network
    first. *)
Theorem distribute_request_guarded now now' msg from b o : rx msg -> from <> b_self b ->
  m_Function msg = FunctionDistributeBroadcastToNetwork -> HandleBVLC now now' msg from b = Ok o ->
  (o_deliver o = true -> registered now from b = true /\ confirmedRequest (m_Payload msg) = Ok false /\ o_origin o = from /\
     exists frame sent, forwarded from (m_Payload msg) = Ok frame /\ o_sent o = mkPacket frame zeroEndpoint true :: sent) /\
  (o_deliver o = false -> o_bbmd o = b /\ o_sent o = [mkPacket [0x81; 0; 0; 6; 0; 0x60] from false]) /\
  (registered now from b = false \/ confirmedRequest (m_Payload msg) = Ok true -> o_deliver o = false).
Proof.
  intros (Hpl & _) Hself Hfn H. unfold HandleBVLC in H. cbv zeta in H. rewrite Hfn, EndpointEqual_spec, bool_decide_eq_false_2 in H by done.
  cbn [Z.eqb Pos.eqb FunctionOriginalBroadcastNPDU FunctionForwardedNPDU FunctionDistributeBroadcastToNetwork] in H.
  destruct (confirmedRequest_total _ Hpl) as [c Hc]. rewrite Hc in H |- *. destruct (registered now from b) eqn:Er; cbn [negb bind] in H.
  - destruct c; cbn [bind] in H.
    { injection H as <-. split_and!; try done. }
    destruct (forwarded from (m_Payload msg)) as [fr|[]]; try done; try (injection H as <-; split_and!; try done; by intros [?|?]).
    destruct (distribute now' from (m_Payload msg) true b) as [[sent b2]|]; [|done]. injection H as <-.
    split_and!; try done; [|by intros [?|?]]. intros _. split_and!; try done. by exists fr, sent.
  - injection H as <-. split_and!; done.
Qed.

Lemma distribute_request_guarded_witness :
  let msg := mkMessage FunctionDistributeBroadcastToNetwork [1; 0; 0x10; 8] zeroIP 0 0 0 in
  exists o, HandleBVLC 5 5 msg (endpoint4 [10; 0; 2; 8] 47808) sampleRegistered = Ok o /\
    o_sent o = [mkPacket [0x81; 0; 0; 6; 0; 0x60] (endpoint4 [10; 0; 2; 8] 47808) false].
Proof.
  cbv zeta. set (msg := mkMessage _ _ _ _ _ _). set (from := endpoint4 [10; 0; 2; 8] 47808).
  destruct (HandleBVLC 5 5 msg from sampleRegistered) as [o|] eqn:E; [|by vm_compute in E]. exists o. split; [done|].
  assert (rx msg) as Hrx by (split; [cbn; solve_bytes|split; [unfold is_u; cbn; lia|done]]).
  destruct (distribute_request_guarded 5 5 msg from sampleRegistered o Hrx) as (_ & H2 & H3); [done|done|done|].
  apply H2, H3. left. by vm_compute.
Defined.

(** [confirmedRequest] agrees with the NPDU parser: on every NPDU that
    parses, it tells exactly whether the NPDU carries an APDU whose type is
    Confirmed-Request; it never panics on any octets. *)
Theorem confirmedRequest_agrees npdu limits : bytes_ok npdu ->
  safe (confirmedRequest npdu) /\
  (forall n k, Npdu.Parse npdu limits = Ok (n, k) ->
     confirmedRequest npdu = Ok (negb (np_NetworkMessage n) &&
       match np_APDU n with t :: _ => Z.land t 0xF0 =? TypeConfirmedRequest | [] => false end)).
Proof.
  intros Hok. split.
  - destruct (confirmedRequest_total npdu Hok) as [c ->]. done.
  - intros n k H. apply (npdu_sound npdu limits) in H as [Hwire _]; [|done]. by apply confirmedRequest_wire.
Qed.

Lemma confirmedRequest_agrees_witness :
  confirmedRequest [1; 0x20; 0; 7; 1; 9; 255; 0x00; 5; 1; 12] = Ok true.
Proof.
  destruct (Npdu.Parse [1; 0x20; 0; 7; 1; 9; 255; 0x00; 5; 1; 12] DefaultDecodeLimits) as [[n k]|] eqn:E; [|by vm_compute in E].
  destruct (confirmedRequest_agrees [1; 0x20; 0; 7; 1; 9; 255; 0x00; 5; 1; 12] DefaultDecodeLimits) as [_ H]; [solve_bytes|].
  rewrite (H n k E). vm_compute in E. by injection E as <- _.
Defined.

(** The check that keeps confirmed requests from being distributed is not
    made for a Forwarded-NPDU: one that carries a ReadProperty request goes to
    the registered foreign devices. *)
Theorem forwarded_confirmed_request_distributed :
  let npdu := [1; 4; 0x00; 5; 1; 12] in
  let msg := mkMessage FunctionForwardedNPDU npdu [10; 0; 1; 7] 47808 0 0 in
  confirmedRequest npdu = Ok true /\
  exists o, HandleBVLC 5 5 msg (endpoint4 [10; 0; 1; 1] 47808) sampleRegistered = Ok o /\
    pkt_Destination <$> o_sent o = [endpoint4 [10; 0; 2; 9] 47808].
Proof. split; [done|]. eexists. split; vm_compute; reflexivity. Qed.

Lemma tableReply_frame from ack nak body limits : 4 + len body <= Z.min 65535 (MaxDatagramSize (Normalize limits)) ->
  ack = FunctionReadBroadcastDistributionTableAck \/ ack = FunctionReadForeignDeviceTableAck ->
  exists p, tableReply from ack nak (Ok body) = Ok [p] /\ pkt_Destination p = from /\ pkt_Broadcast p = false /\
    Bvlc.Parse (pkt_Data p) limits = Ok (mkMessage ack body zeroIP 0 0 0).
Proof.
  intros Hl Hack. set (m := mkMessage ack body zeroIP 0 0 0). exists (mkPacket (frame m) from false).
  assert (bodyOf m = body) as Hbody by (destruct Hack as [-> | ->]; done).
  unfold tableReply. fold m. rewrite Append_spec, len_frame, Hbody, (proj2 (Z.leb_le _ _)) by lia. split_and!; try done.
  apply Parse_frame; rewrite ?len_frame, ?Hbody; [|lia..]. by destruct Hack as [-> | ->].
Qed.

Lemma EncodeBDTEntries_total es : forall dst, Forall (fun e => bdt_wf e /\ IsValid (bdt_Endpoint e) = true /\ Contiguous (bdt_Mask e) = true) es ->
  exists b, EncodeBDTEntries dst es = Ok b.
Proof.
  induction es as [|e es IH]; intros dst Hf; [by eexists|]. inversion_clear Hf as [|? ? ((Hw & _) & Hv & Hc) Hes].
  cbn [EncodeBDTEntries]. rewrite Hv, Hc. destruct (endpointOctets_valid _ Hv Hw) as (ip & port & _ & -> & _). apply (IH _ Hes).
Qed.

Lemma EncodeFDTEntries_total es : forall dst, Forall (fun e => IsValid (fdt_Address e) = true /\ ep_wf (fdt_Address e)) es ->
  exists b, EncodeFDTEntries dst es = Ok b.
Proof.
  induction es as [|e es IH]; intros dst Hf; [by eexists|]. inversion_clear Hf as [|? ? (Hv & Hw) Hes].
  cbn [EncodeFDTEntries]. rewrite Hv. destruct (endpointOctets_valid _ Hv Hw) as (ip & port & _ & -> & _). apply (IH _ Hes).
Qed.

(** The table reads: a Read-FDT is answered with an acknowledgement that
    decodes to exactly the live entries, each once, in address order, with
    their Time-to-Live and the remaining seconds (rounded up); a Read-BDT
    with one that decodes to the configured table. This holds as long as the
    tables fit the reader's limits and a BVLC frame. *)
Theorem tables_reported now now' msg from b o limits : bbmd_ok b -> from <> b_self b ->
  let fdt := fst (fdtLocked now b) in
  10 * len fdt + 4 <= Z.min 65535 (MaxDatagramSize (Normalize limits)) -> len fdt <= MaxElements (Normalize limits) ->
  10 * len (b_bdt b) + 4 <= Z.min 65535 (MaxDatagramSize (Normalize limits)) -> len (b_bdt b) <= MaxElements (Normalize limits) ->
  HandleBVLC now now' msg from b = Ok o ->
  (m_Function msg = FunctionReadForeignDeviceTable ->
     exists p body, o_sent o = [p] /\ pkt_Destination p = from /\
       Bvlc.Parse (pkt_Data p) limits = Ok (mkMessage FunctionReadForeignDeviceTableAck body zeroIP 0 0 0) /\
       DecodeFDTEntries body limits = Ok fdt /\ Sorted entry_le fdt /\ NoDup (fdt_Address <$> fdt) /\
       forall e, e ∈ fdt <-> exists f, b_fdt b !! fdt_Address e = Some f /\ now < f_expires f /\ fdt_TTL e = f_ttl f /\
                                  fdt_Remaining e = Z.min 0xFFFF ((f_expires f - now + Second - 1) / Second)) /\
  (m_Function msg = FunctionReadBroadcastDistributionTable ->
     exists p body, o_sent o = [p] /\ pkt_Destination p = from /\
       Bvlc.Parse (pkt_Data p) limits = Ok (mkMessage FunctionReadBroadcastDistributionTableAck body zeroIP 0 0 0) /\
       DecodeBDTEntries body limits = Ok (b_bdt b)).
Proof.
  intros Hb Hself fdt Hf1 Hf2 Hb1 Hb2 H. unfold HandleBVLC in H. cbv zeta in H. rewrite EndpointEqual_spec, bool_decide_eq_false_2 in H by done.
  split; intros Hfn; rewrite Hfn in H; cbn [Z.eqb Pos.eqb FunctionOriginalBroadcastNPDU FunctionForwardedNPDU FunctionDistributeBroadcastToNetwork
    FunctionRegisterForeignDevice FunctionReadBroadcastDistributionTable FunctionWriteBroadcastDistributionTable FunctionReadForeignDeviceTable] in H.
  - assert (Forall (fun e => IsValid (fdt_Address e) = true /\ ep_wf (fdt_Address e) /\ fdt_wf e) fdt) as Hall.
    { apply Forall_forall. intros e (ep & f & Hf & _ & ->)%fdtLocked_elem. destruct (ok_fdt b Hb ep f Hf) as (H1 & H2 & H3).
      split_and!; try done. split_and!; try done. apply remaining_range. }
    destruct (fdtLocked now b) as [l b2] eqn:E. cbn in fdt. subst fdt.
    destruct (EncodeFDTEntries_total l []) as [body Hbody]; [eapply Forall_impl; [exact Hall|]; by intros e (? & ? & _)|].
    destruct (DecodeFDT_encode l limits body) as [Hdec Hlen]; [eapply Forall_impl; [exact Hall|]; by intros e (_ & _ & ?)|done|done|].
    destruct (tableReply_frame from FunctionReadForeignDeviceTableAck ResultReadForeignDeviceTableNAK body limits) as (p & Hp & H1 & _ & H2);
      [lia|auto|]. rewrite Hbody, Hp in H. injection H as <-. exists p, body. replace l with (fst (fdtLocked now b)) by (by rewrite E).
    split_and!; try done; [by rewrite E|apply (Sorted_merge_sort entry_le)|apply fdtLocked_addresses|]. intros e. rewrite fdtLocked_elem.
    assert (forall f, alive now f = true -> remaining now f = Z.min 0xFFFF ((f_expires f - now + Second - 1) / Second)) as Hrem.
    { intros f Ha. rewrite alive_spec in Ha. bool_to_prop. unfold remaining.
      assert (0 < (f_expires f - now + Second - 1) / Second) by (apply Z.div_str_pos; unfold Second; lia).
      destruct (_ >? _) eqn:Eg; bool_to_prop; rewrite uwrap_small by (unfold is_u; lia); lia. }
    split.
    + intros (ep & f & Hf & Ha & ->). exists f. cbn. rewrite Hrem by done. rewrite alive_spec in Ha. bool_to_prop. done.
    + intros (f & Hf & Ha & Ht & Hr). assert (alive now f = true) as Hal by (rewrite alive_spec; by apply Z.ltb_lt).
      exists (fdt_Address e), f. rewrite Hrem by done. split_and!; try done. destruct e; cbn in *. by rewrite Ht, Hr.
  - destruct (EncodeBDTEntries_total (b_bdt b) [] (ok_bdt b Hb)) as [body Hbody].
    destruct (DecodeBDT_encode (b_bdt b) limits body) as [Hdec Hlen]; [eapply Forall_impl; [exact (ok_bdt b Hb)|]; by intros e (? & _)|done|done|].
    destruct (tableReply_frame from FunctionReadBroadcastDistributionTableAck ResultReadBroadcastDistributionTableNAK body limits) as (p & Hp & H1 & _ & H2);
      [lia|auto|]. rewrite Hbody, Hp in H. injection H as <-. by exists p, body.
Qed.

Lemma tables_reported_witness :
  exists o p body, HandleBVLC 5 5 (mkMessage FunctionReadForeignDeviceTable [] zeroIP 0 0 0) (endpoint4 [10; 0; 2; 8] 47808) sampleRegistered = Ok o /\
    o_sent o = [p] /\ Bvlc.Parse (pkt_Data p) DefaultDecodeLimits = Ok (mkMessage FunctionReadForeignDeviceTableAck body zeroIP 0 0 0) /\
    DecodeFDTEntries body DefaultDecodeLimits = Ok [mkFDTEntry (endpoint4 [10; 0; 2; 9] 47808) 60 90].
Proof.
  set (msg := mkMessage FunctionReadForeignDeviceTable [] zeroIP 0 0 0). set (from := endpoint4 [10; 0; 2; 8] 47808).
  destruct (HandleBVLC 5 5 msg from sampleRegistered) as [o|] eqn:E; [|by vm_compute in E].
  destruct (tables_reported 5 5 msg from sampleRegistered o DefaultDecodeLimits sampleRegistered_ok) as [H _]; [done|by vm_compute..|done|].
  destruct (H eq_refl) as (p & body & Hs & _ & Hp & Hd & _). exists o, p, body. split_and!; try done.
Defined.
