(* ===== verification/ServerKey.v ===== *)
(** * Who a confirmed request came from: the [peer] of [server/packet.go] and
    its transaction key, with the text renderings the key is made of
    ([bip.Endpoint.String], [Address.String], [MAC.String]). *)

From Stdlib Require Import ZArith Lia Ascii.
From stdpp Require Import base list strings pretty.
From S2P Require Import Prelude Address Endpoint.
#[local] Open Scope string_scope.
#[local] Open Scope list_scope.
#[local] Open Scope Z_scope.

(** [fmt]'s [%d] of a non-negative integer. *)
Definition decimal (n : Z) : string := pretty (Z.to_N n).

(** [hex.EncodeToString] *)
Definition hexDigit (d : Z) : ascii := ascii_of_N (Z.to_N (if d <? 10 then 48 + d else 87 + d)).
Fixpoint hexEncode (b : bytes) : string :=
  match b with
  | []%list => EmptyString
  | (x :: b)%list => String (hexDigit (x / 16)) (String (hexDigit (x mod 16)) (hexEncode b))
  end.

Definition MAC_String (m : MAC) : string :=
  if mac_length m =? 0 then "" else hexEncode (take (Z.to_nat (mac_length m)) (mac_bytes m)).

Definition Address_String (a : Address) : string :=
  match a_scope a with
  | AddressLocalStation => "local:" +:+ MAC_String (a_mac a)
  | AddressLocalBroadcast => "local-broadcast"
  | AddressRemoteStation => "net=" +:+ decimal (a_network a) +:+ ":" +:+ MAC_String (a_mac a)
  | AddressRemoteBroadcast => "net=" +:+ decimal (a_network a) +:+ ":broadcast"
  | AddressGlobalBroadcast => "global-broadcast"
  end.

Record peer := mkPeer { p_immediate : Endpoint; p_origin : Endpoint; p_source : Address; p_broadcast : bool }.

Section Key.
(** [netip.AddrPort.String] of an IPv6 address; no request with such an
    origin reaches the key. *)
Context (ipv6String : bytes -> bytes -> Z -> string).

(** [netip.AddrPort.String] of an IPv4 address: the four octets in decimal
    with dots, a colon, the port. *)
Fixpoint dotted (ip : bytes) : string :=
  match ip with
  | []%list => ""
  | [x]%list => decimal x
  | (x :: ip)%list => decimal x +:+ String "." (dotted ip)
  end.
Definition Endpoint_String (e : Endpoint) : string :=
  match netip.Addr_of (ep_Addr e) with
  | netip.AddrZero => ""
  | netip.Addr4 ip => dotted ip +:+ String ":" (decimal (netip.Port (ep_Addr e)))
  | netip.Addr6 ip zone => ipv6String ip zone (netip.Port (ep_Addr e))
  end.

(** [fmt.Sprintf("%s|%s|%d", p.origin, p.source, invokeID)] *)
Definition key (p : peer) (invokeID : Z) : string :=
  Endpoint_String (p_origin p) +:+ String "|" (Address_String (p_source p) +:+ String "|" (decimal invokeID)).

(** ** The key determines the requester and the invoke ID *)

(** Character [c] does not occur in [s]. *)
Fixpoint free (c : ascii) (s : string) : bool :=
  match s with
  | EmptyString => true
  | String d s => negb (Ascii.eqb c d) && free c s
  end.

Lemma free_app c s t : free c (s +:+ t) = free c s && free c t.
Proof. induction s as [|d s IH]; [done|]. simpl. by rewrite <- andb_assoc, <- IH. Qed.

(** A separator that occurs in neither first part splits both. *)
Lemma split_unique c : forall s s' t t', free c s = true -> free c s' = true ->
  s +:+ String c t = s' +:+ String c t' -> s = s' /\ t = t'.
Proof.
  induction s as [|d s IH]; intros [|d' s'] t t'; cbn [String.append free]; intros Hs Hs' H.
  - by injection H.
  - injection H as -> _. by rewrite Ascii.eqb_refl in Hs'.
  - injection H as -> _. by rewrite Ascii.eqb_refl in Hs.
  - apply andb_true_iff in Hs as [_ Hs], Hs' as [_ Hs']. injection H as -> H. destruct (IH s' t t' Hs Hs' H) as [-> ->]. done.
Qed.

Lemma decimal_inj n m : 0 <= n -> 0 <= m -> decimal n = decimal m -> n = m.
Proof. intros Hn Hm H. unfold decimal in H. apply (inj (@pretty N _)) in H. lia. Qed.

(** [c] is not a digit. *)
Definition separator (c : ascii) : Prop := c = "|"%char \/ c = "."%char \/ c = ":"%char \/ c = "["%char.

Lemma pretty_N_go_free c x : separator c -> forall s, free c s = true -> free c (pretty_N_go x s) = true.
Proof.
  intros Hc. induction (N.lt_wf_0 x) as [x _ IH]; intros s Hs. destruct (decide (x = 0%N)) as [->|Hx]; [by rewrite pretty_N_go_0|].
  rewrite pretty_N_go_step by lia. apply IH; [by apply N.div_lt; lia|]. cbn [free]. rewrite Hs, andb_true_r.
  unfold pretty_N_char. destruct Hc as [-> | [-> | [-> | ->]]]; by repeat case_match.
Qed.

Lemma decimal_free n c : separator c -> free c (decimal n) = true.
Proof.
  intros Hc. unfold decimal, pretty, pretty_N. destruct (decide _); [by destruct Hc as [-> | [-> | [-> | ->]]]|]. by apply pretty_N_go_free.
Qed.

Definition unhexDigit (c : ascii) : Z := let n := Z.of_N (N_of_ascii c) in if n <? 58 then n - 48 else n - 87.
Lemma hexDigit_inv d : 0 <= d < 16 -> unhexDigit (hexDigit d) = d /\ negb (Ascii.eqb "|" (hexDigit d)) = true.
Proof.
  intros Hd. assert ((unhexDigit (hexDigit d) =? d) && negb (Ascii.eqb "|" (hexDigit d)) = true) as H.
  { apply (forall_range (fun d => (unhexDigit (hexDigit d) =? d) && negb (Ascii.eqb "|" (hexDigit d))) 16); [by vm_compute|done]. }
  apply andb_true_iff in H as [H1 H2]. apply Z.eqb_eq in H1. done.
Qed.

Lemma hex_range x : is_byte x -> 0 <= x / 16 < 16 /\ 0 <= x mod 16 < 16.
Proof. unfold is_u. intros H. pose proof (Z.div_mod x 16). pose proof (Z.mod_pos_bound x 16). lia. Qed.

Lemma hexEncode_inj b : forall b', bytes_ok b -> bytes_ok b' -> hexEncode b = hexEncode b' -> b = b'.
Proof.
  induction b as [|x b IH]; intros [|y b'] Hb Hb' H; try done. inversion_clear Hb as [|? ? Hx Hb1]. inversion_clear Hb' as [|? ? Hy Hb1'].
  cbn [hexEncode] in H. injection H as H1 H2 H3. destruct (hex_range x Hx) as [X1 X2], (hex_range y Hy) as [Y1 Y2].
  f_equal; [|by apply IH]. assert (x / 16 = y / 16) as E1 by (rewrite <- (proj1 (hexDigit_inv _ X1)), H1; by apply hexDigit_inv).
  assert (x mod 16 = y mod 16) as E2 by (rewrite <- (proj1 (hexDigit_inv _ X2)), H2; by apply hexDigit_inv).
  rewrite (Z.div_mod x 16), (Z.div_mod y 16), E1, E2; lia.
Qed.

Lemma hexEncode_free b : bytes_ok b -> free "|" (hexEncode b) = true.
Proof.
  induction 1 as [|x b Hx _ IH]; [done|]. cbn [hexEncode free]. destruct (hex_range x Hx) as [X1 X2].
  by rewrite (proj2 (hexDigit_inv _ X1)), (proj2 (hexDigit_inv _ X2)), IH.
Qed.

Lemma MAC_String_macOf m : MAC_String (macOf m) = hexEncode m.
Proof.
  transitivity (hexEncode (MACBytes (macOf m))); [|by rewrite MACBytes_macOf].
  unfold MAC_String, MACBytes. by destruct (mac_length (macOf m) =? 0).
Qed.

(** ** The requesters of the server

    The origin is a valid endpoint; the source is the zero address of a local
    station or the address of a remote station. *)
Definition source_ok (a : Address) : Prop :=
  a = zeroAddress \/ exists net m, a = RemoteStation net (macOf m) /\ is_u 16 net /\ bytes_ok m.
Definition peer_ok (p : peer) : Prop :=
  IsValid (p_origin p) = true /\ ep_wf (p_origin p) /\ source_ok (p_source p).

Lemma Address_String_inj a a' : source_ok a -> source_ok a' -> Address_String a = Address_String a' -> a = a'.
Proof.
  intros [->|(net & m & -> & Hn & Hm)] [->|(net' & m' & -> & Hn' & Hm')] H; try done.
  cbn [Address_String RemoteStation a_scope a_network a_mac] in H. rewrite !MAC_String_macOf in H. cbn [String.append] in H.
  injection H as H. apply split_unique in H as [H1 H2]; [|by apply decimal_free; unfold separator; auto..].
  apply decimal_inj in H1; [|apply Hn|apply Hn']. apply hexEncode_inj in H2; [|done..]. by subst.
Qed.

Lemma Address_String_free a : source_ok a -> free "|" (Address_String a) = true.
Proof.
  intros [->|(net & m & -> & Hn & Hm)]; [done|]. cbn [Address_String RemoteStation a_scope a_network a_mac].
  rewrite !free_app, MAC_String_macOf, hexEncode_free by done. by rewrite decimal_free by (unfold separator; auto).
Qed.

Lemma dotted4 a b c d : dotted [a; b; c; d] = decimal a +:+ String "." (decimal b +:+ String "." (decimal c +:+ String "." (decimal d))).
Proof. done. Qed.

Lemma valid_octets e : IsValid e = true -> ep_wf e ->
  exists a b c d port, e = endpoint4 [a; b; c; d] port /\ is_u 16 a /\ is_u 16 b /\ is_u 16 c /\ is_u 16 d /\ is_u 16 port.
Proof.
  intros Hv Hw. destruct (IsValid_endpoint4 e Hv Hw) as (ip & port & -> & Hl & Hok & Hp).
  destruct ip as [|a [|b [|c [|d [|]]]]]; try done. exists a, b, c, d, port.
  assert (forall x, x ∈ [a; b; c; d]%list -> is_u 16 x) as H.
  { intros x Hx. eapply Forall_forall in Hok; [|exact Hx]. unfold is_u in *. cbn in *. lia. }
  split_and!; try done; apply H; repeat (apply elem_of_cons; first [by left|right]).
Qed.

Lemma Endpoint_String_inj e e' : IsValid e = true -> ep_wf e -> IsValid e' = true -> ep_wf e' ->
  Endpoint_String e = Endpoint_String e' -> e = e'.
Proof.
  intros Hv Hw Hv' Hw' H. destruct (valid_octets e Hv Hw) as (a & b & c & d & p & -> & Ha & Hb & Hc & Hd & Hp).
  destruct (valid_octets e' Hv' Hw') as (a' & b' & c' & d' & p' & -> & Ha' & Hb' & Hc' & Hd' & Hp').
  cbn [Endpoint_String netip.Addr_of ep_Addr endpoint4 NewEndpoint netip.AddrPortFrom netip.AddrFrom4 netip.Port] in H.
  assert (forall x, is_u 16 x -> free "." (decimal x) = true /\ free ":" (decimal x) = true) as Hfree.
  { intros x Hx. split; apply decimal_free; unfold separator; auto. }
  apply split_unique in H as [H1 H2].
  2,3: rewrite dotted4, !free_app; cbn [free]; rewrite !free_app; cbn [free]; rewrite !free_app; cbn [free];
    by rewrite !(fun x Hx => proj2 (Hfree x Hx)) by done.
  rewrite !dotted4 in H1. apply split_unique in H1 as [E1 H1]; [|by apply Hfree..].
  apply split_unique in H1 as [E2 H1]; [|by apply Hfree..]. apply split_unique in H1 as [E3 E4]; [|by apply Hfree..].
  unfold is_u in *. apply decimal_inj in E1, E2, E3, E4, H2; try lia. by subst.
Qed.

Lemma Endpoint_String_free e : IsValid e = true -> ep_wf e -> free "|" (Endpoint_String e) = true.
Proof.
  intros Hv Hw. destruct (valid_octets e Hv Hw) as (a & b & c & d & p & -> & Ha & Hb & Hc & Hd & Hp).
  cbn [Endpoint_String netip.Addr_of ep_Addr endpoint4 NewEndpoint netip.AddrPortFrom netip.AddrFrom4 netip.Port].
  rewrite dotted4, !free_app. cbn [free]. rewrite !free_app. cbn [free]. rewrite !free_app. cbn [free].
  by rewrite !decimal_free by (unfold separator; auto).
Qed.

Lemma key_inj p p' id id' : peer_ok p -> peer_ok p' -> is_byte id -> is_byte id' -> key p id = key p' id' ->
  p_origin p = p_origin p' /\ p_source p = p_source p' /\ id = id'.
Proof.
  intros (Hv & Hw & Hs) (Hv' & Hw' & Hs') Hid Hid' H. unfold key in H.
  apply split_unique in H as [H1 H]; [|by apply Endpoint_String_free..]. apply split_unique in H as [H2 H3]; [|by apply Address_String_free..].
  split_and!; [by apply Endpoint_String_inj|by apply Address_String_inj|]. apply decimal_inj in H3; [done|apply Hid|apply Hid'].
Qed.

End Key.
