(* ===== verification/Responder.v ===== *)
(** * The responding side of confirmed transactions: [server/responder.go],
    and the outcomes of services it answers with ([server/dispatch.go])

    The transaction table maps a key to a pointer; the pointers are shared
    with the workers that execute the requests, so the transactions live in a
    heap. What the receive loop, the workers and the housekeeping do to the
    table are the steps of [step] below. A reply is the requester and the
    octets of the APDU; [Link.v] frames it. *)

From Stdlib Require Import ZArith Lia Bool.
From stdpp Require Import base list gmap strings sorting.
From S2P Require Import Prelude Value Ids Tags Constructed Address Endpoint Apdu Segment SegmentSend ServerKey.

(** The part of [config] that the responder reads. *)
Record serverConfig := mkServerConfig {
  sc_segmentation : bool;
  sc_maxSegments : Z;
  sc_window : Z;
  sc_maxAPDU : Z;
  sc_segmentTimeout : Z;
  sc_limits : DecodeLimits
}.

Definition AbortReasonBufferOverflow : Z := 1.
Definition AbortReasonInvalidAPDUInThisState : Z := 2.
Definition AbortReasonSegmentationNotSupported : Z := 4.
Definition AbortReasonOutOfResources : Z := 9.

(** ** Outcomes of a service

    The errors a handler can return. The bodies of the
    WritePropertyMultiple and SubscribeCOVPropertyMultiple errors come from
    their own encoders; any other error is an error class and code
    ([object.AsError]). *)
Inductive svcError :=
| rejectError (reason : Z)
| abortError (reason : Z)
| bodyError (body : result bytes)
| createObjectError (class code first : Z)
| objectError (class code : Z).

(** [result], without the hook [after] that runs once the reply was sent. *)
Inductive svcResult :=
| silent
| fail (err : svcError)
| ack
| complexACK (payload : bytes).

(** The Error body of an error that is not a Reject or an Abort. *)
Definition errorBody (e : svcError) : result bytes :=
  match e with
  | bodyError body => body
  | createObjectError class code first =>
      let* body := EncodeBACnetError [0x0E] class code in
      AppendContextUnsigned (body ++ [0x0F]) 1 first
  | objectError class code => EncodeBACnetError [] class code
  | rejectError _ | abortError _ => Ok []
  end.

(** [result.encode]: the reply APDU, and the payload of a ComplexACK. *)
Definition encodeResult (r : svcResult) (invokeID svc : Z) : bytes * bytes * bool :=
  match r with
  | fail (rejectError reason) => (AppendReject [] (mkRejectPDU invokeID reason), [], false)
  | fail (abortError reason) => (AppendAbort [] (mkAbortPDU true invokeID reason), [], false)
  | fail e =>
      let body :=
        match errorBody e with
        | Ok body => body
        | Err _ => match EncodeBACnetError [] ErrorClassDevice ErrorCodeOperationalProblem with Ok body => body | Err _ => [] end
        end in
      (AppendError [] (mkErrorPDU invokeID svc body), [], false)
  | ack => (AppendSimpleACK [] (mkSimpleACK invokeID svc), [], false)
  | complexACK payload => (AppendComplexACK [] (mkComplexACK false false invokeID 0 0 svc payload), payload, true)
  | silent => ([], [], false)
  end.

(** ** How a completed request is answered: [finish] up to the sending *)
Inductive plan :=
| planSilent
| planReply (reply : bytes)
| planAbort (reason : Z)
| planSegments (payload : bytes) (segSize count : Z).

Definition finishPlan (cfg : serverConfig) (req : ConfirmedRequest) (res : svcResult) : plan :=
  match res with
  | silent => planSilent
  | _ =>
    let '(reply, payload, complex) := encodeResult res (cr_InvokeID req) (cr_ServiceChoice req) in
    let remoteMax := fst (DecodeMaxAPDUSize (cr_MaxAPDU req)) in
    let limit := Z.min remoteMax (sc_maxAPDU cfg) in
    if negb complex || (len reply <=? limit) then planReply reply
    else if negb (cr_SegmentedResponseAccepted req) || negb (sc_segmentation cfg)
    then planAbort AbortReasonSegmentationNotSupported
    else
      let segSize := limit - 5 in
      let count := Count (len payload) segSize in
      let maxSegs := ServerSend.decodeMaxSegments (cr_MaxSegments req) in
      if ((maxSegs >? 0) && (count >? maxSegs)) || (count >? sc_maxSegments cfg) || (count >? Segment.MaxSegments)
      then planAbort AbortReasonBufferOverflow
      else planSegments payload segSize count
  end.

(** ** The transaction table *)
Record rtx := mkRtx {
  rt_key : string;
  rt_peer : peer;
  rt_invokeID : Z;
  rt_service : Z;
  rt_content : bytes;
  rt_segmented : bool;
  rt_asm : option Reassembly;
  rt_deadline : Z;
  rt_header : ConfirmedRequest;
  rt_acks : option (list SegmentACK);  (** the channel, once made, with what it holds *)
  rt_aborted : option bool             (** the channel, once made, and whether it is closed *)
}.

Record responder := mkResponder { r_tx : gmap string nat; r_heap : gmap nat rtx }.
Definition newResponder : responder := mkResponder ∅ ∅.

(** What an operation gives: the replies sent, the request handed to a worker
    (the transaction's pointer with the request) and the table it leaves. *)
Definition reply : Type := peer * bytes.
Definition job : Type := nat * ConfirmedRequest.
Record effect := mkEffect { e_sent : list reply; e_job : option job; e_resp : responder }.
Definition quiet (r : responder) : effect := mkEffect [] None r.

Definition sendAbort (p : peer) (invokeID reason : Z) : reply := (p, AppendAbort [] (mkAbortPDU true invokeID reason)).
Definition segmentACK (p : peer) (invokeID seq window : Z) (nak : bool) : reply :=
  (p, AppendSegmentACK [] (mkSegmentACK nak true invokeID seq window)).

Definition dropKey (k : string) (r : responder) : responder := mkResponder (delete k (r_tx r)) (r_heap r).
Definition putTx (k : string) (ptr : nat) (t : rtx) (r : responder) : responder :=
  mkResponder (<[k := ptr]> (r_tx r)) (<[ptr := t]> (r_heap r)).
Definition setTx (ptr : nat) (t : rtx) (r : responder) : responder := mkResponder (r_tx r) (<[ptr := t]> (r_heap r)).

(** [req := t.header; req.Payload = payload] *)
Definition withPayload (req : ConfirmedRequest) (payload : bytes) : ConfirmedRequest :=
  mkConfirmedRequest (cr_SegmentedMessage req) (cr_MoreFollows req) (cr_SegmentedResponseAccepted req) (cr_MaxSegments req) (cr_MaxAPDU req)
    (cr_InvokeID req) (cr_SequenceNumber req) (cr_ProposedWindowSize req) (cr_ServiceChoice req) payload.

(** [submitOK] is whether [Server.submit] finds room in the queue. *)
Definition execute (submitOK : bool) (ptr : nat) (t : rtx) (payload : bytes) (r : responder) : effect :=
  let req := withPayload (rt_header t) payload in
  if submitOK then mkEffect [] (Some (ptr, req)) r
  else mkEffect [sendAbort (rt_peer t) (cr_InvokeID req) AbortReasonOutOfResources] None (dropKey (rt_key t) r).

(** The content a repeated request is compared with. *)
Definition contentOf (service : Z) (payload : bytes) : bytes := service :: payload.

(** The transaction with a segment added: the reassembly and its deadline
    and, after the last one, the request it makes up. *)
Definition storeSegment (asm : Reassembly) (deadline : Z) (last : bool) (req : ConfirmedRequest) (t : rtx) : rtx :=
  if last then
    let h := rt_header t in
    mkRtx (rt_key t) (rt_peer t) (rt_invokeID t) (rt_service t) (contentOf (rt_service t) (Payload asm)) false (Some asm) deadline
      (mkConfirmedRequest (cr_SegmentedMessage h) (cr_MoreFollows h) (cr_SegmentedResponseAccepted req) (cr_MaxSegments req) (cr_MaxAPDU req)
         (cr_InvokeID h) (cr_SequenceNumber h) (cr_ProposedWindowSize h) (cr_ServiceChoice h) (cr_Payload h))
      (rt_acks t) (rt_aborted t)
  else
    mkRtx (rt_key t) (rt_peer t) (rt_invokeID t) (rt_service t) (rt_content t) (rt_segmented t) (Some asm) deadline (rt_header t)
      (rt_acks t) (rt_aborted t).

(** [segment] from the point where the transaction [t] is known. *)
Definition addSegment (cfg : serverConfig) (now : Z) (submitOK : bool) (ptr : nat) (t : rtx) (req : ConfirmedRequest) (p : peer)
    (k : string) (r : responder) : result effect :=
  if negb (rt_segmented t) || match rt_acks t with Some _ => true | None => false end then Ok (quiet r)
  else
    match rt_asm t with
    | None => Err Panic
    | Some asm =>
        let (outcome, asm) := Add asm (cr_SequenceNumber req) (cr_MoreFollows req) (cr_Payload req) in
        match outcome with
        | OutOfOrder =>
            let last := Last asm in
            let nak := negb (cr_SequenceNumber req =? last) in
            Ok (mkEffect [segmentACK p (cr_InvokeID req) last (r_window asm) nak] None r)
        | TooManySegments | TooLong =>
            Ok (mkEffect [sendAbort p (cr_InvokeID req) AbortReasonBufferOverflow] None (dropKey k r))
        | Stored | StoredAck | Complete =>
            let last := bool_decide (outcome = Complete) in
            let t := storeSegment asm (now + 2 * sc_segmentTimeout cfg) last req t in
            let r := setTx ptr t r in
            let acks := if bool_decide (outcome = Stored) then [] else [segmentACK p (cr_InvokeID req) (cr_SequenceNumber req) (r_window asm) false] in
            if last then
              let e := execute submitOK ptr t (Payload asm) r in
              Ok (mkEffect (acks ++ e_sent e) (e_job e) (e_resp e))
            else Ok (mkEffect acks None r)
        end
    end.

(** [segment]; [fresh] is the pointer of the transaction it may make. *)
Definition segment (cfg : serverConfig) (now : Z) (submitOK : bool) (fresh : nat) (req : ConfirmedRequest) (p : peer)
    (k : string) (r : responder) : result effect :=
  if negb (sc_segmentation cfg) then Ok (mkEffect [sendAbort p (cr_InvokeID req) AbortReasonSegmentationNotSupported] None r)
  else
    match r_tx r !! k with
    | Some ptr =>
        match r_heap r !! ptr with
        | Some t => addSegment cfg now submitOK ptr t req p k r
        | None => Err Panic
        end
    | None =>
        if negb (cr_SequenceNumber req =? 0)
        then Ok (mkEffect [sendAbort p (cr_InvokeID req) AbortReasonInvalidAPDUInThisState] None r)
        else
          let asm := NewReassembly (Window (sc_window cfg) (cr_ProposedWindowSize req)) (sc_maxSegments cfg) (MaxReassembledAPDU (sc_limits cfg)) in
          let t := mkRtx k p (cr_InvokeID req) (cr_ServiceChoice req) [] true (Some asm) 0 req None None in
          addSegment cfg now submitOK fresh t req p k (putTx k fresh t r)
    end.

Section Server.
Context (ipv6String : bytes -> bytes -> Z -> string).
#[local] Abbreviation key := (key ipv6String).

Definition confirmed (cfg : serverConfig) (now : Z) (submitOK : bool) (fresh : nat) (req : ConfirmedRequest) (p : peer)
    (r : responder) : result effect :=
  if p_broadcast p then Ok (quiet r)
  else
    let k := key p (cr_InvokeID req) in
    if cr_SegmentedMessage req then segment cfg now submitOK fresh req p k r
    else
      match r_tx r !! k with
      | Some _ => Ok (quiet r)
      | None =>
          let t := mkRtx k p (cr_InvokeID req) (cr_ServiceChoice req) (contentOf (cr_ServiceChoice req) (cr_Payload req)) false None 0 req None None in
          Ok (execute submitOK fresh t (cr_Payload req) (putTx k fresh t r))
      end.

(** [expire]: reassemblies past their deadline end without an answer. *)
Definition stale (now : Z) (r : responder) (ptr : nat) : bool :=
  match r_heap r !! ptr with
  | Some t => rt_segmented t && (rt_deadline t <? now)
  | None => false
  end.
Definition expire (now : Z) (r : responder) : responder :=
  mkResponder (filter (fun '(_, ptr) => stale now r ptr = false) (r_tx r)) (r_heap r).

(** [finish] before it sends: the channels of a segmented reply; and the
    deferred release at its end. *)
Definition finishBegin (cfg : serverConfig) (ptr : nat) (req : ConfirmedRequest) (res : svcResult) (r : responder) : list reply * responder :=
  match r_heap r !! ptr with
  | None => ([], r)
  | Some t =>
      match finishPlan cfg req res with
      | planSilent => ([], r)
      | planReply b => ([(rt_peer t, b)], r)
      | planAbort reason => ([sendAbort (rt_peer t) (cr_InvokeID req) reason], r)
      | planSegments _ _ _ =>
          ([], setTx ptr (mkRtx (rt_key t) (rt_peer t) (rt_invokeID t) (rt_service t) (rt_content t) (rt_segmented t) (rt_asm t)
                            (rt_deadline t) (rt_header t) (Some []) (Some false)) r)
      end
  end.
Definition finishEnd (ptr : nat) (r : responder) : responder :=
  match r_heap r !! ptr with
  | None => r
  | Some t => dropKey (rt_key t) r
  end.

(** The acknowledgement channel holds 16; when it is full the ACK is dropped. *)
Definition deliverSegmentACK (sack : SegmentACK) (p : peer) (r : responder) : responder :=
  if sg_Server sack then r
  else
    match r_tx r !! key p (sg_InvokeID sack) with
    | None => r
    | Some ptr =>
        match r_heap r !! ptr with
        | Some t =>
            match rt_acks t with
            | Some ch =>
                if (length ch <? 16)%nat
                then setTx ptr (mkRtx (rt_key t) (rt_peer t) (rt_invokeID t) (rt_service t) (rt_content t) (rt_segmented t) (rt_asm t)
                       (rt_deadline t) (rt_header t) (Some (ch ++ [sack])) (rt_aborted t)) r
                else r
            | None => r
            end
        | None => r
        end
    end.

Definition abortFromClient (invokeID : Z) (p : peer) (r : responder) : responder :=
  match r_tx r !! key p invokeID with
  | None => r
  | Some ptr =>
      match r_heap r !! ptr with
      | None => r
      | Some t =>
          match rt_aborted t with
          | None => if rt_segmented t then dropKey (rt_key t) r else r
          | Some _ =>
              setTx ptr (mkRtx (rt_key t) (rt_peer t) (rt_invokeID t) (rt_service t) (rt_content t) (rt_segmented t) (rt_asm t)
                (rt_deadline t) (rt_header t) (rt_acks t) (Some true)) r
          end
      end
  end.

(** The worker takes an acknowledgement off its channel. *)
Definition takeAck (ptr : nat) (r : responder) : responder :=
  match r_heap r !! ptr with
  | Some t =>
      setTx ptr (mkRtx (rt_key t) (rt_peer t) (rt_invokeID t) (rt_service t) (rt_content t) (rt_segmented t) (rt_asm t)
        (rt_deadline t) (rt_header t) (tail <$> rt_acks t) (rt_aborted t)) r
  | None => r
  end.

Definition close (r : responder) : responder := mkResponder ∅ (r_heap r).

(** ** Runs

    The responder with the jobs waiting for or being executed by a worker and
    the transactions whose reply is being sent. *)
Record world := mkWorld { w_resp : responder; w_jobs : list job; w_sending : list nat }.
Definition active (w : world) : list nat := map fst (w_jobs w) ++ w_sending w.

(** A request as the receive loop hands it over. *)
Definition arrives (req : ConfirmedRequest) (p : peer) : Prop := pdu_ok (PConfirmedRequest req) /\ peer_ok p.

(** [Server.Close] waits for the receive loop, the workers and the housekeeping
    before it closes the responder: no reply is being sent then, and what is
    left in the queue is never run. *)
Inductive step (cfg : serverConfig) : world -> list reply -> world -> Prop :=
| step_confirmed now submitOK fresh req p w e : arrives req p -> r_heap (w_resp w) !! fresh = None ->
    confirmed cfg now submitOK fresh req p (w_resp w) = Ok e ->
    step cfg w (e_sent e) (mkWorld (e_resp e) (w_jobs w ++ option_list (e_job e)) (w_sending w))
| step_begin ptr req res jobs jobs' w sent r : w_jobs w = jobs ++ (ptr, req) :: jobs' ->
    finishBegin cfg ptr req res (w_resp w) = (sent, r) ->
    step cfg w sent (mkWorld r (jobs ++ jobs') (ptr :: w_sending w))
| step_end ptr ids ids' w : w_sending w = ids ++ ptr :: ids' ->
    step cfg w [] (mkWorld (finishEnd ptr (w_resp w)) (w_jobs w) (ids ++ ids'))
| step_expire now w : step cfg w [] (mkWorld (expire now (w_resp w)) (w_jobs w) (w_sending w))
| step_ack sack p w : step cfg w [] (mkWorld (deliverSegmentACK sack p (w_resp w)) (w_jobs w) (w_sending w))
| step_take ptr w : step cfg w [] (mkWorld (takeAck ptr (w_resp w)) (w_jobs w) (w_sending w))
| step_abort invokeID p w : step cfg w [] (mkWorld (abortFromClient invokeID p (w_resp w)) (w_jobs w) (w_sending w))
| step_close w : w_sending w = [] -> step cfg w [] (mkWorld (close (w_resp w)) [] []).

Inductive reachable (cfg : serverConfig) : world -> Prop :=
| reach_new : reachable cfg (mkWorld newResponder [] [])
| reach_step w sent w' : reachable cfg w -> step cfg w sent w' -> reachable cfg w'.

(** ** The invariant *)

(** What a transaction in the table looks like. *)
Record tx_ok (cfg : serverConfig) (k : string) (t : rtx) : Prop := {
  tx_key : rt_key t = k /\ k = key (rt_peer t) (rt_invokeID t);
  tx_peer : peer_ok (rt_peer t) /\ is_byte (rt_invokeID t);
  tx_header : cr_InvokeID (rt_header t) = rt_invokeID t /\ 0 <= cr_MaxAPDU (rt_header t) < 6;
  tx_asm : rt_segmented t = true -> rt_acks t = None /\ rt_aborted t = None /\
    exists a, rt_asm t = Some a /\ reassembly_ok a /\ r_maxSegments a = sc_maxSegments cfg /\
              r_maxOctets a = MaxReassembledAPDU (sc_limits cfg)
}.

Record table_ok (cfg : serverConfig) (act : list nat) (r : responder) : Prop := {
  to_tx : forall k ptr, r_tx r !! k = Some ptr -> exists t, r_heap r !! ptr = Some t /\ tx_ok cfg k t /\
    (rt_segmented t = false -> ptr ∈ act);
  to_active : forall ptr, ptr ∈ act -> exists t, r_heap r !! ptr = Some t /\ r_tx r !! rt_key t = Some ptr /\ rt_segmented t = false;
  to_nodup : NoDup act
}.

Definition cfg_ok (cfg : serverConfig) : Prop :=
  1 <= sc_window cfg <= 127 /\ 0 <= sc_maxSegments cfg /\ 0 <= MaxReassembledAPDU (sc_limits cfg) /\ 50 <= sc_maxAPDU cfg <= 1476.

Lemma table_perm cfg act act' r : act ≡ₚ act' -> table_ok cfg act r -> table_ok cfg act' r.
Proof.
  intros Hp [H1 H2 H3]. split.
  - intros k ptr Hk. destruct (H1 k ptr Hk) as (t & Ht & Hok & Ha). exists t. by setoid_rewrite <- Hp.
  - intros ptr. rewrite <- Hp. apply H2.
  - by rewrite <- Hp.
Qed.

(** A transaction that stays as active as it was. *)
Lemma setTx_ok cfg act r ptr t t' : table_ok cfg act r -> r_heap r !! ptr = Some t -> rt_key t' = rt_key t ->
  rt_segmented t' = rt_segmented t -> (tx_ok cfg (rt_key t) t -> tx_ok cfg (rt_key t) t') -> table_ok cfg act (setTx ptr t' r).
Proof.
  intros [H1 H2 H3] Ht Hk Hs Hok. split; [| |done].
  - intros k q Hq. destruct (H1 k q Hq) as (tq & Htq & Hokq & Ha). cbn. destruct (decide (q = ptr)) as [->|Hne].
    + rewrite lookup_insert_eq. assert (tq = t) as -> by congruence. destruct (tx_key _ _ _ Hokq) as [Hkey _]. exists t'.
      split_and!; [done|by subst k; apply Hok|by rewrite Hs].
    + rewrite lookup_insert_ne by done. by exists tq.
  - intros q Hq. destruct (H2 q Hq) as (tq & Htq & Hkq & Hsq). cbn. destruct (decide (q = ptr)) as [->|Hne].
    + rewrite lookup_insert_eq. exists t'. assert (tq = t) as -> by congruence. by rewrite Hk, Hs.
    + rewrite lookup_insert_ne by done. by exists tq.
Qed.

(** A transaction that is handed to a worker. *)
Lemma activate_ok cfg act r k ptr t' : table_ok cfg act r -> r_tx r !! k = Some ptr \/ r_tx r !! k = None /\ r_heap r !! ptr = None ->
  ptr ∉ act -> rt_segmented t' = false -> tx_ok cfg k t' -> table_ok cfg (ptr :: act) (putTx k ptr t' r).
Proof.
  intros [H1 H2 H3] Hk Hn Hs Hok. destruct (tx_key _ _ _ Hok) as [Hkey _].
  assert (forall k' q, r_tx r !! k' = Some q -> q = ptr -> k' = k) as Hinj.
  { intros k' q Hk' ->. destruct (H1 k' ptr Hk') as (t & Ht & Hokt & _). destruct Hk as [Hk|[_ Hk]]; [|congruence].
    destruct (H1 k ptr Hk) as (t2 & Ht2 & Hokt2 & _). assert (t2 = t) as -> by congruence.
    destruct (tx_key _ _ _ Hokt) as [? _], (tx_key _ _ _ Hokt2) as [? _]. congruence. }
  split.
  - intros k' q. cbn. rewrite lookup_insert_Some. intros [[<- <-]|[Hne Hk']].
    + rewrite lookup_insert_eq. exists t'. split_and!; try done. intros _. by left.
    + destruct (decide (q = ptr)) as [E|E]; [by rewrite (Hinj k' q Hk' E) in Hne|]. rewrite lookup_insert_ne by done.
      destruct (H1 k' q Hk') as (tq & Htq & Hokq & Ha). exists tq. split_and!; try done. intros Hf. right. by apply Ha.
  - intros q [->|Hq]%elem_of_cons; cbn.
    + rewrite lookup_insert_eq. exists t'. by rewrite Hkey, lookup_insert_eq.
    + destruct (H2 q Hq) as (tq & Htq & Hkq & Hsq). assert (q <> ptr) as Hne by congruence. rewrite lookup_insert_ne by done.
      exists tq. split_and!; try done. rewrite lookup_insert_ne; [done|]. intros E. rewrite <- E in Hkq. destruct Hk as [Hk|[Hk _]]; congruence.
  - by apply NoDup_cons.
Qed.

(** A new reassembly. *)
Lemma putTx_ok cfg act r k fresh t : table_ok cfg act r -> r_tx r !! k = None -> r_heap r !! fresh = None ->
  rt_segmented t = true -> tx_ok cfg k t -> table_ok cfg act (putTx k fresh t r).
Proof.
  intros [H1 H2 H3] Hk Hf Hs Hok. split; [| |done].
  - intros k' q. cbn. rewrite lookup_insert_Some. intros [[<- <-]|[Hne Hk']].
    + rewrite lookup_insert_eq. exists t. split_and!; try done. by rewrite Hs.
    + destruct (H1 k' q Hk') as (tq & Htq & Hokq & Ha). rewrite lookup_insert_ne by congruence. by exists tq.
  - intros q Hq. destruct (H2 q Hq) as (tq & Htq & Hkq & Hsq). cbn. rewrite lookup_insert_ne by congruence.
    exists tq. split_and!; try done. rewrite lookup_insert_ne; congruence.
Qed.

(** A transaction that leaves the table, whatever became of it. *)
Lemma drop_ok cfg act r k ptr h : table_ok cfg act r -> (forall q, q <> ptr -> h !! q = r_heap r !! q) ->
  (forall q, r_tx r !! k = Some q -> q = ptr) -> (forall k', r_tx r !! k' = Some ptr -> k' = k) -> ptr ∉ act ->
  table_ok cfg act (mkResponder (delete k (r_tx r)) h).
Proof.
  intros [H1 H2 H3] Hh Hk Hk' Hn. split; [| |done]; cbn.
  - intros k' q [Hne Hq]%lookup_delete_Some. rewrite Hh by (intros ->; by apply Hne; symmetry; apply Hk'). by apply H1.
  - intros q Hq. assert (q <> ptr) as Hne by congruence. rewrite Hh by done. destruct (H2 q Hq) as (tq & Htq & Hkq & Hsq). exists tq.
    split_and!; try done. rewrite lookup_delete_ne; [done|]. intros E. rewrite <- E in Hkq. by apply Hne, Hk.
Qed.

Lemma key_of_ptr cfg act r k k' ptr : table_ok cfg act r -> r_tx r !! k = Some ptr -> r_tx r !! k' = Some ptr -> k' = k.
Proof.
  intros Ht Hk Hk'. destruct (to_tx _ _ _ Ht k ptr Hk) as (t & Htp & Hok & _). destruct (to_tx _ _ _ Ht k' ptr Hk') as (t' & Htp' & Hok' & _).
  destruct (tx_key _ _ _ Hok) as [? _], (tx_key _ _ _ Hok') as [? _]. congruence.
Qed.

Lemma segmented_inactive cfg act r ptr t : table_ok cfg act r -> r_heap r !! ptr = Some t -> rt_segmented t = true -> ptr ∉ act.
Proof. intros Ht Hp Hs Hin. destruct (to_active _ _ _ Ht ptr Hin) as (t' & Ht' & _ & Hs'). congruence. Qed.

(** Release of an active transaction. *)
Lemma finishEnd_ok cfg act ptr r : table_ok cfg (ptr :: act) r -> table_ok cfg act (finishEnd ptr r).
Proof.
  intros [H1 H2 H3]. apply NoDup_cons in H3 as [Hn H3]. destruct (H2 ptr ltac:(left)) as (t & Ht & Hk & Hs). unfold finishEnd. rewrite Ht. split; [| |done]; cbn.
  - intros k q [Hne Hq]%lookup_delete_Some. destruct (H1 k q Hq) as (tq & Htq & Hok & Ha). exists tq. split_and!; try done.
    intros Hsq. specialize (Ha Hsq). apply elem_of_cons in Ha as [->|Ha]; [|done]. destruct (tx_key _ _ _ Hok) as [Hkey _]. congruence.
  - intros q Hq. destruct (H2 q ltac:(by right)) as (tq & Htq & Hkq & Hsq). exists tq. split_and!; try done.
    rewrite lookup_delete_ne; [done|]. intros E. rewrite <- E in Hkq. congruence.
Qed.

(** What an operation did keeps the table, with the job it gave active. *)
Definition good (cfg : serverConfig) (act : list nat) (e : effect) : Prop :=
  table_ok cfg (map fst (option_list (e_job e)) ++ act) (e_resp e).

Lemma storeSegment_ok cfg k t asm d last req : tx_ok cfg k t -> rt_segmented t = true -> 0 <= cr_MaxAPDU req < 6 ->
  reassembly_ok asm -> r_maxSegments asm = sc_maxSegments cfg -> r_maxOctets asm = MaxReassembledAPDU (sc_limits cfg) ->
  let t' := storeSegment asm d last req t in
  tx_ok cfg k t' /\ rt_segmented t' = negb last /\ rt_key t' = rt_key t /\ rt_peer t' = rt_peer t.
Proof.
  intros [H1 H2 H3 H4] Hs Hreq Hr Hm Ho. destruct (H4 Hs) as (Ha & Hab & _). unfold storeSegment. cbv zeta.
  destruct last; cbn; (split_and!; [|done..]); split; cbn; try done.
  - split; [apply H3|done].
  - intros _. split_and!; try done. by exists asm.
Qed.

Lemma addSegment_ok cfg now submitOK ptr t req p k act r : table_ok cfg act r -> r_tx r !! k = Some ptr -> r_heap r !! ptr = Some t ->
  arrives req p -> exists e, addSegment cfg now submitOK ptr t req p k r = Ok e /\ good cfg act e.
Proof.
  intros Ht Hk Hp [Hreq _]. pose proof Ht as [H1 _ _]. destruct (H1 k ptr Hk) as (t2 & Ht2 & Hok & _). assert (t2 = t) as -> by congruence.
  destruct (tx_key _ _ _ Hok) as [Hkey _]. unfold addSegment. destruct (negb (rt_segmented t) || _) eqn:E; [by eexists|].
  apply orb_false_iff in E as [E _]. apply negb_false_iff in E. destruct (tx_asm _ _ _ Hok E) as (_ & _ & a & Ha & Hr & Hm & Ho). rewrite Ha.
  pose proof (segmented_inactive _ _ _ _ _ Ht Hp E) as Hn.
  assert (forall h, (forall q, q <> ptr -> h !! q = r_heap r !! q) -> table_ok cfg act (mkResponder (delete k (r_tx r)) h)) as Hdrop.
  { intros h Hh. apply (drop_ok cfg act r k ptr); try done; [congruence|]. intros k' Hk'. by apply (key_of_ptr cfg act r k k' ptr). }
  destruct (Add a _ _ _) as [o a'] eqn:Ea. destruct (Add_ok _ _ _ _ _ _ Hr Ea) as (Hr' & _ & Hm' & Ho' & _).
  assert (0 <= cr_MaxAPDU req < 6) as Hmax by apply Hreq.
  assert (forall d last, let t' := storeSegment a' d last req t in
    tx_ok cfg k t' /\ rt_segmented t' = negb last /\ rt_key t' = rt_key t /\ rt_peer t' = rt_peer t) as Hst.
  { intros d last. apply storeSegment_ok; try done; congruence. }
  assert (forall d, table_ok cfg act (setTx ptr (storeSegment a' d false req t) r)) as Hset.
  { intros d. destruct (Hst d false) as (S1 & S2 & S3 & _). apply (setTx_ok cfg act r ptr t); [done..|by rewrite S2, E|by rewrite Hkey]. }
  destruct o; (eexists; split; [reflexivity|]); try done; try (cbn; by apply Hdrop); try apply Hset.
  - set (d := now + _). destruct (Hst d true) as (S1 & S2 & S3 & _). change (bool_decide (Complete = Complete)) with true.
    unfold good, execute. destruct submitOK; cbn [e_sent e_job e_resp option_list map fst app].
    + replace (setTx ptr (storeSegment a' d true req t) r) with (putTx k ptr (storeSegment a' d true req t) r).
      * apply activate_ok; try done. by left.
      * unfold putTx, setTx. by rewrite insert_id.
    + unfold dropKey, setTx. cbn [r_tx r_heap]. rewrite S3, Hkey. apply Hdrop.
      intros q Hq. by rewrite lookup_insert_ne.
Qed.

Lemma confirmed_ok cfg now submitOK fresh req p act r : cfg_ok cfg -> table_ok cfg act r -> arrives req p -> r_heap r !! fresh = None ->
  exists e, confirmed cfg now submitOK fresh req p r = Ok e /\ good cfg act e.
Proof.
  intros (Hw & Hm & Ho & _) Ht Harr Hf. pose proof Harr as [Hreq Hp]. destruct Hreq as (Hseg & _ & Hmax & Hid & _).
  assert (fresh ∉ act) as Hn by (intros Hin; destruct (to_active _ _ _ Ht fresh Hin) as (? & ? & _); congruence).
  unfold confirmed. destruct (p_broadcast p); [by eexists|]. set (k := key p (cr_InvokeID req)).
  destruct (cr_SegmentedMessage req) eqn:Es.
  - unfold segment. destruct (negb (sc_segmentation cfg)); [by eexists|]. destruct (r_tx r !! k) as [ptr|] eqn:Hk.
    + pose proof Ht as [H1 _ _]. destruct (H1 k ptr Hk) as (t & Htp & _). rewrite Htp. by apply addSegment_ok.
    + destruct (negb _); [by eexists|]. set (t := mkRtx k p _ _ _ true _ _ _ _ _). apply addSegment_ok; try done.
      * apply putTx_ok; try done. split; try done. intros _. split_and!; try done. eexists. split; [done|].
        split_and!; try done. apply NewReassembly_ok; try done. unfold Window, is_u.
        destruct (_ && _) eqn:Ew; bool_to_prop; (destruct (_ =? 0) eqn:Ez; bool_to_prop; lia).
      * cbn. apply lookup_insert_eq.
      * cbn. apply lookup_insert_eq.
  - destruct (r_tx r !! k) as [ptr|] eqn:Hk; [by eexists|]. set (t := mkRtx k p _ _ _ false _ _ _ _ _).
    unfold execute. destruct submitOK; (eexists; split; [reflexivity|]); unfold good; cbn.
    + apply activate_ok; try done. by right.
    + unfold dropKey, putTx. cbn. rewrite delete_insert_id by done. rewrite <- (delete_id (r_tx r) k) by done.
      apply (drop_ok cfg act r k fresh); try done.
      * intros q Hq. by rewrite lookup_insert_ne.
      * congruence.
      * intros k' Hk'. destruct (to_tx _ _ _ Ht k' fresh Hk') as (? & ? & _). congruence.
Qed.

(** The updates of an active transaction. *)
Lemma update_active_ok cfg act r ptr t t' : table_ok cfg act r -> r_heap r !! ptr = Some t -> rt_segmented t = false ->
  rt_key t' = rt_key t -> rt_peer t' = rt_peer t -> rt_invokeID t' = rt_invokeID t -> rt_segmented t' = false -> rt_header t' = rt_header t ->
  table_ok cfg act (setTx ptr t' r).
Proof.
  intros Ht Hp Hs Hk Hpe Hi Hs' Hh. apply (setTx_ok cfg act r ptr t); try done; [congruence|].
  intros [H1 H2 H3 H4]. split; rewrite ?Hk, ?Hpe, ?Hi, ?Hh; try done. by rewrite Hs'.
Qed.

Lemma finishBegin_ok cfg act ptr req res r sent r' : table_ok cfg act r -> ptr ∈ act ->
  finishBegin cfg ptr req res r = (sent, r') -> table_ok cfg act r'.
Proof.
  intros Ht Hin. destruct (to_active _ _ _ Ht ptr Hin) as (t & Hp & _ & Hs). unfold finishBegin. rewrite Hp.
  destruct (finishPlan cfg req res); intros [= <- <-]; try done. by apply (update_active_ok cfg act r ptr t).
Qed.

Lemma expire_ok cfg act now r : table_ok cfg act r -> table_ok cfg act (expire now r).
Proof.
  intros [H1 H2 H3]. split; [| |done]; cbn.
  - intros k ptr [Hk _]%map_lookup_filter_Some. by apply H1.
  - intros ptr Hin. destruct (H2 ptr Hin) as (t & Hp & Hk & Hs). exists t. split_and!; try done.
    apply map_lookup_filter_Some. split; [done|]. unfold stale. by rewrite Hp, Hs.
Qed.

Lemma with_acks cfg act r ptr t ch : table_ok cfg act r -> r_heap r !! ptr = Some t -> rt_segmented t = false \/ ch = rt_acks t ->
  table_ok cfg act (setTx ptr (mkRtx (rt_key t) (rt_peer t) (rt_invokeID t) (rt_service t) (rt_content t) (rt_segmented t) (rt_asm t)
    (rt_deadline t) (rt_header t) ch (rt_aborted t)) r).
Proof.
  intros Ht Hp Hch. apply (setTx_ok cfg act r ptr t); try done. intros [H1 H2 H3 H4]. split; try done. cbn. intros Hs.
  destruct Hch as [Hch| ->]; [congruence|]. by apply H4.
Qed.

Lemma deliver_ok cfg act sack p r : table_ok cfg act r -> table_ok cfg act (deliverSegmentACK sack p r).
Proof.
  intros Ht. unfold deliverSegmentACK. destruct (sg_Server sack); [done|]. destruct (r_tx r !! _) as [ptr|] eqn:Hk; [|done].
  destruct (to_tx _ _ _ Ht _ ptr Hk) as (t & Hp & Hok & _). rewrite Hp. destruct (rt_acks t) as [ch|] eqn:Hch; [|done].
  destruct (_ <? _)%nat; [|done]. apply with_acks; try done. left. destruct (rt_segmented t) eqn:Hs; [|done].
  destruct (tx_asm _ _ _ Hok Hs) as (Ha & _). congruence.
Qed.

Lemma takeAck_ok cfg act ptr r : table_ok cfg act r -> table_ok cfg act (takeAck ptr r).
Proof.
  intros Ht. unfold takeAck. destruct (r_heap r !! ptr) as [t|] eqn:Hp; [|done].
  apply (setTx_ok cfg act r ptr t); try done. intros [H1 H2 H3 H4]. split; try done. cbn. intros Hs. destruct (H4 Hs) as (-> & H). done.
Qed.

Lemma abort_ok cfg act id p r : table_ok cfg act r -> table_ok cfg act (abortFromClient id p r).
Proof.
  intros Ht. unfold abortFromClient. destruct (r_tx r !! _) as [ptr|] eqn:Hk; [|done].
  destruct (to_tx _ _ _ Ht _ ptr Hk) as (t & Hp & Hok & _). rewrite Hp. destruct (rt_aborted t) eqn:Hab.
  - destruct (rt_segmented t) eqn:Hs; [destruct (tx_asm _ _ _ Hok Hs) as (_ & Ha & _); congruence|].
    by apply (update_active_ok cfg act r ptr t).
  - destruct (rt_segmented t) eqn:Hs; [|done]. unfold dropKey. destruct (tx_key _ _ _ Hok) as [Hkey _]. rewrite Hkey.
    apply (drop_ok cfg act r _ ptr); try done; [congruence|intros k' Hk'; by apply (key_of_ptr cfg act r _ _ ptr Ht)|].
    by eapply segmented_inactive.
Qed.

Lemma empty_table_ok cfg h : table_ok cfg [] (mkResponder ∅ h).
Proof. split; cbn; [intros k ptr; by rewrite lookup_empty|by intros ? ?%elem_of_nil|constructor]. Qed.

Lemma step_ok cfg w sent w' : cfg_ok cfg -> table_ok cfg (active w) (w_resp w) -> step cfg w sent w' -> table_ok cfg (active w') (w_resp w').
Proof.
  intros Hcfg Ht H. destruct H as [now submitOK fresh req p w e Harr Hf He|ptr req res jobs jobs' w sent r Hj Hb|ptr ids ids' w Hs
    |now w|sack p w|ptr w|id p w|w _]; cbn [w_resp active w_jobs w_sending] in *.
  - destruct (confirmed_ok cfg now submitOK fresh req p _ _ Hcfg Ht Harr Hf) as (e' & He' & Hg). rewrite He in He'. injection He' as <-.
    eapply table_perm; [|exact Hg]. unfold active. cbn [w_jobs w_sending]. rewrite map_app, app_assoc.
    apply Permutation_app_tail, Permutation_app_comm.
  - assert (active w ≡ₚ map fst (jobs ++ jobs') ++ ptr :: w_sending w) as Hperm.
    { unfold active. rewrite Hj, !map_app. cbn [map fst]. rewrite <- !app_assoc. apply Permutation_app_head. cbn [app]. by rewrite Permutation_middle. }
    eapply table_perm; [exact Hperm|]. eapply finishBegin_ok; [exact Ht| |exact Hb]. rewrite Hperm. apply elem_of_app. right. by left.
  - apply finishEnd_ok. eapply table_perm; [|exact Ht]. unfold active. cbn [w_jobs w_sending]. rewrite Hs. rewrite !app_assoc. by rewrite <- Permutation_middle.
  - by apply expire_ok.
  - by apply deliver_ok.
  - by apply takeAck_ok.
  - by apply abort_ok.
  - apply empty_table_ok.
Qed.

Lemma reachable_ok cfg w : cfg_ok cfg -> reachable cfg w -> table_ok cfg (active w) (w_resp w).
Proof.
  intros Hcfg. induction 1 as [|w sent w' _ IH Hst]; [apply empty_table_ok|by eapply step_ok].
Qed.

(** Every active transaction has its own entry of the table. *)
Lemma active_bounded cfg act r : table_ok cfg act r -> (length act <= size (r_tx r))%nat.
Proof.
  intros [_ H2 H3]. rewrite <- length_map_to_list, <- (length_fmap snd). apply submseteq_length, NoDup_submseteq; [done|].
  intros ptr Hin. destruct (H2 ptr Hin) as (t & _ & Hk & _). apply list_elem_of_fmap. exists (rt_key t, ptr). split; [done|].
  by apply elem_of_map_to_list.
Qed.

(** The transaction of a requester and an invoke ID is the one of its key. *)
Definition same_request (p : peer) (id : Z) (t : rtx) : Prop :=
  p_origin (rt_peer t) = p_origin p /\ p_source (rt_peer t) = p_source p /\ rt_invokeID t = id.

Lemma same_request_key cfg k t p id : tx_ok cfg k t -> same_request p id t -> k = key p id.
Proof. intros [(_ & ->) _ _ _] (Ho & Hs & <-). unfold ServerKey.key. by rewrite Ho, Hs. Qed.

Lemma key_same_request cfg t p id : tx_ok cfg (key p id) t -> peer_ok p -> is_byte id -> same_request p id t.
Proof.
  intros [(_ & Hk) [Hp Hi] _ _] Hp' Hi'. destruct (key_inj ipv6String p (rt_peer t) id (rt_invokeID t)) as (H1 & H2 & H3); try done.
Qed.

(** ** A segmented request *)

(** The arrivals one after the other, at one time, with room in the queue and
    no reply in between; each transaction gets a fresh pointer. *)
Fixpoint serve (cfg : serverConfig) (now : Z) (p : peer) (reqs : list ConfirmedRequest) (r : responder) : result (list job * responder) :=
  match reqs with
  | [] => Ok ([], r)
  | req :: reqs =>
      let* e := confirmed cfg now true (fresh (dom (r_heap r))) req p r in
      let* (jobs, r) := serve cfg now p reqs (e_resp e) in
      Ok (option_list (e_job e) ++ jobs, r)
  end.

Section Segmented.
Context (cfg : serverConfig) (now : Z) (p : peer) (req : ConfirmedRequest) (w size : Z).
Let payload := cr_Payload req.
Let count := Count (len payload) size.
Let window := Window (sc_window cfg) w.
Context (Hseg : sc_segmentation cfg = true) (Hbc : p_broadcast p = false) (Hsize : 1 <= size) (Hwin : 1 <= window <= 127).
Context (Hc256 : count <= 256) (Hcseg : count <= sc_maxSegments cfg) (Hoct : len payload <= MaxReassembledAPDU (sc_limits cfg)).
Let k := key p (cr_InvokeID req).
Let seg i := ClientSend.segmentRequest req w count i (chunkOf payload size i).
Let hold i := holds payload size window (sc_maxSegments cfg) (MaxReassembledAPDU (sc_limits cfg)) i.

(** After [j] segments in order: no transaction before the first. *)
Definition waiting (j : Z) (r : responder) : Prop :=
  if j =? 0 then r_tx r !! k = None
  else exists ptr t, r_tx r !! k = Some ptr /\ r_heap r !! ptr = Some t /\ rt_segmented t = true /\ rt_acks t = None /\
         rt_asm t = Some (hold j) /\ rt_service t = cr_ServiceChoice req /\
         cr_InvokeID (rt_header t) = cr_InvokeID req /\ cr_ServiceChoice (rt_header t) = cr_ServiceChoice req.
Definition served (r : responder) : Prop :=
  exists ptr t, r_tx r !! k = Some ptr /\ r_heap r !! ptr = Some t /\ rt_segmented t = false.

(** The request the service gets. *)
Definition reassembled (q : ConfirmedRequest) : Prop :=
  cr_Payload q = payload /\ cr_ServiceChoice q = cr_ServiceChoice req /\ cr_InvokeID q = cr_InvokeID req /\
  cr_MaxSegments q = cr_MaxSegments req /\ cr_MaxAPDU q = cr_MaxAPDU req /\
  cr_SegmentedResponseAccepted q = cr_SegmentedResponseAccepted req.

(** One segment for a transaction that holds [j] segments. *)
Lemma addSegment_step j i ptr t r : 0 <= j < count -> 0 <= i < count -> r_tx r !! k = Some ptr -> r_heap r !! ptr = Some t ->
  rt_segmented t = true -> rt_acks t = None -> rt_asm t = Some (hold j) -> rt_service t = cr_ServiceChoice req ->
  cr_InvokeID (rt_header t) = cr_InvokeID req -> cr_ServiceChoice (rt_header t) = cr_ServiceChoice req -> (j = 0 -> i = 0) ->
  exists e, addSegment cfg now true ptr t (seg i) p k r = Ok e /\
    if i =? j then if j =? count - 1 then (exists q, e_job e = Some (ptr, q) /\ reassembled q) /\ served (e_resp e)
                   else e_job e = None /\ waiting (j + 1) (e_resp e)
    else e_job e = None /\ waiting j (e_resp e).
Proof using Hsize Hwin Hc256 Hcseg Hoct.
  intros Hj Hi Hk Hp Hs Ha Hasm Hsvc Hid Hch Hj0. unfold addSegment. rewrite Hs, Ha, Hasm. cbn [negb orb].
  cbn [seg ClientSend.segmentRequest cr_SequenceNumber cr_MoreFollows cr_Payload cr_InvokeID].
  change (i <? count - 1) with (moreFollows payload size i). destruct (i =? j) eqn:E; bool_to_prop.
  - subst i. unfold hold. rewrite Add_expected by done. fold payload count. destruct (j =? count - 1) eqn:El.
    + eexists. split; [reflexivity|]. cbn [bool_decide]. split.
      * eexists. split; [reflexivity|]. unfold reassembled. cbn. done.
      * eexists ptr, _. cbn. rewrite lookup_insert_eq. done.
    + destruct (j mod window =? 0); (eexists; split; [reflexivity|]; split; [done|]); unfold waiting;
        rewrite (proj2 (Z.eqb_neq (j + 1) 0)) by lia; eexists ptr, _; cbn; rewrite lookup_insert_eq; done.
  - unfold hold. rewrite Add_unexpected by lia. eexists. split; [reflexivity|]. split; [done|].
    unfold waiting. assert (j <> 0) by (intros ->; by apply E, Hj0). rewrite (proj2 (Z.eqb_neq j 0)) by done. by exists ptr, t.
Qed.

Lemma confirmed_seg i r : confirmed cfg now true (fresh (dom (r_heap r))) (seg i) p r =
  segment cfg now true (fresh (dom (r_heap r))) (seg i) p k r.
Proof using Hbc. unfold confirmed. by rewrite Hbc. Qed.

Lemma confirmed_waiting j i r : 0 <= j < count -> 0 <= i < count -> waiting j r ->
  exists e, confirmed cfg now true (fresh (dom (r_heap r))) (seg i) p r = Ok e /\
    if i =? j then if j =? count - 1 then (exists ptr q, e_job e = Some (ptr, q) /\ reassembled q) /\ served (e_resp e)
                   else e_job e = None /\ waiting (j + 1) (e_resp e)
    else e_job e = None /\ waiting j (e_resp e).
Proof using All.
  intros Hj Hi Hw. rewrite confirmed_seg. unfold segment. rewrite Hseg. cbn [negb]. unfold waiting in Hw. destruct (j =? 0) eqn:E0.
  - apply Z.eqb_eq in E0 as ->. rewrite Hw. cbn [seg ClientSend.segmentRequest cr_SequenceNumber].
    rewrite (uwrap_small 8 i) by (unfold is_u; lia). destruct (i =? 0) eqn:Ei; cbn [negb].
    + apply Z.eqb_eq in Ei as ->. set (fr := fresh _). set (t := mkRtx _ _ _ _ _ _ _ _ _ _ _).
      destruct (addSegment_step 0 0 fr t (putTx k fr t r)) as (e & He & Hr); try done.
      * cbn. apply lookup_insert_eq.
      * cbn. apply lookup_insert_eq.
      * unfold hold. by rewrite holds_0.
      * exists e. split; [exact He|]. rewrite Z.eqb_refl in Hr. destruct (0 =? count - 1); [|done].
        destruct Hr as [(q & Hq & Hre) Hsv]. split; [by exists fr, q|done].
    + eexists. split; [reflexivity|]. split; [done|]. by unfold waiting.
  - destruct Hw as (ptr & t & Hk & Hp & Hs & Ha & Hasm & Hsvc & Hid & Hch). rewrite Hk, Hp. bool_to_prop.
    destruct (addSegment_step j i ptr t r) as (e & He & Hr); try done. exists e. split; [exact He|].
    destruct (i =? j); [|done]. destruct (j =? count - 1); [|done]. destruct Hr as [(q & Hq & Hre) Hsv]. split; [by exists ptr, q|done].
Qed.

Lemma serve_served ids r : served r -> exists r', serve cfg now p (map seg ids) r = Ok ([], r').
Proof using Hseg Hbc.
  revert r. induction ids as [|i ids IH]; intros r Hsv; [by exists r|]. cbn [map serve]. rewrite confirmed_seg. unfold segment. rewrite Hseg.
  destruct Hsv as (ptr & t & Hk & Hp & Hs). rewrite Hk, Hp. cbn [negb]. unfold addSegment. rewrite Hs. cbn [negb orb quiet bind e_resp e_job].
  destruct (IH r) as [r' Hr']; [by exists ptr, t|]. rewrite Hr'. by exists r'.
Qed.

Lemma serve_waiting ids : forall j r, 0 <= j < count -> Forall (fun i => 0 <= i < count) ids -> waiting j r ->
  exists jobs r', serve cfg now p (map seg ids) r = Ok (jobs, r') /\
    ((seqZ j (count - j) `sublist_of` ids /\ exists ptr q, jobs = [(ptr, q)] /\ reassembled q) \/
     (~ seqZ j (count - j) `sublist_of` ids /\ jobs = [])).
Proof using All.
  induction ids as [|i ids IH]; intros j r Hj His Hw.
  { exists [], r. split; [done|]. right. split; [|done]. rewrite sublist_nil_r, seqZ_cons by lia. done. }
  apply Forall_cons in His as [Hi His]. cbn [map serve]. destruct (confirmed_waiting j i r Hj Hi Hw) as (e & -> & He). rewrite bind_Ok_l.
  rewrite (seqZ_cons j) by lia. destruct (i =? j) eqn:E; bool_to_prop.
  - subst i. destruct (j =? count - 1) eqn:El; bool_to_prop.
    + destruct He as [(ptr & q & -> & Hre) Hsv]. destruct (serve_served ids _ Hsv) as [r' ->]. exists [(ptr, q)], r'. split; [done|].
      left. split; [|by exists ptr, q]. apply sublist_skip. replace (Z.pred (count - j)) with 0 by lia. apply sublist_nil_l.
    + destruct He as [-> Hw']. destruct (IH (j + 1) _ ltac:(lia) His Hw') as (jobs & r' & -> & Hcase). exists jobs, r'. split; [done|].
      replace (count - (j + 1)) with (Z.pred (count - j)) in Hcase by lia. destruct Hcase as [[Hs Hq]|[Hs ->]].
      * left. split; [|done]. by apply sublist_skip.
      * right. split; [|done]. intros Hc. apply Hs. inversion Hc as [| |? ? ? Hc']; subst; [done|]. etrans; [|exact Hc']. by apply sublist_cons.
  - destruct He as [-> Hw']. destruct (IH j _ Hj His Hw') as (jobs & r' & -> & Hcase). exists jobs, r'. split; [done|].
    rewrite (seqZ_cons j) in Hcase by lia. destruct Hcase as [[Hs Hq]|[Hs ->]].
    + left. split; [|done]. by apply sublist_cons.
    + right. split; [|done]. intros Hc. apply Hs. inversion Hc; subst; done.
Qed.
End Segmented.
End Server.

Lemma maxAPDU_range code : 0 <= code < 6 -> 50 <= fst (DecodeMaxAPDUSize code) <= 1476.
Proof.
  intros H. assert (code = 0 \/ code = 1 \/ code = 2 \/ code = 3 \/ code = 4 \/ code = 5) as Hc by lia.
  by destruct Hc as [-> | [-> | [-> | [-> | [-> | ->]]]]].
Qed.

Lemma decodeMaxSegments_spec c : 0 <= c < 8 ->
  ServerSend.decodeMaxSegments c = if (0 <? c) && (c <? 7) then 2 ^ c else 0.
Proof.
  intros H. assert (c = 0 \/ c = 1 \/ c = 2 \/ c = 3 \/ c = 4 \/ c = 5 \/ c = 6 \/ c = 7) as Hc by lia.
  by destruct Hc as [-> | [-> | [-> | [-> | [-> | [-> | [-> | ->]]]]]]].
Qed.

Lemma too_many_segments count ms own : 0 <= ms < 8 ->
  ((ServerSend.decodeMaxSegments ms >? 0) && (count >? ServerSend.decodeMaxSegments ms)) || (count >? own) || (count >? Segment.MaxSegments) = true <->
  own < count \/ 256 < count \/ (0 < ms < 7 /\ 2 ^ ms < count).
Proof.
  intros H. rewrite decodeMaxSegments_spec by done. rewrite !orb_true_iff, andb_true_iff, !Z.gtb_lt. change Segment.MaxSegments with 256.
  destruct ((0 <? ms) && (ms <? 7)) eqn:E.
  - apply andb_true_iff in E as [E1 E2]. apply Z.ltb_lt in E1, E2. pose proof (Z.pow_pos_nonneg 2 ms). lia.
  - assert (~ (0 < ms < 7)) by (intros [E1 E2]; by rewrite (proj2 (Z.ltb_lt _ _) E1), (proj2 (Z.ltb_lt _ _) E2) in E). lia.
Qed.

(** A ComplexACK that is too long needs more than one segment. *)
Lemma segments_needed (payload : bytes) limit : 50 <= limit -> limit < 3 + len payload -> 2 <= Count (len payload) (limit - 5).
Proof. intros H1 H2. destruct (Count_spec (len payload) (limit - 5)) as (_ & H & _); [lia..|]. nia. Qed.

Lemma finishPlan_cases cfg req res reply payload complex : encodeResult res (cr_InvokeID req) (cr_ServiceChoice req) = (reply, payload, complex) ->
  res = silent /\ finishPlan cfg req res = planSilent \/
  res <> silent /\
  finishPlan cfg req res = (let limit := Z.min (fst (DecodeMaxAPDUSize (cr_MaxAPDU req))) (sc_maxAPDU cfg) in
    if negb complex || (len reply <=? limit) then planReply reply
    else if negb (cr_SegmentedResponseAccepted req) || negb (sc_segmentation cfg) then planAbort AbortReasonSegmentationNotSupported
    else let segSize := limit - 5 in
      let count := Count (len payload) segSize in
      let maxSegs := ServerSend.decodeMaxSegments (cr_MaxSegments req) in
      if ((maxSegs >? 0) && (count >? maxSegs)) || (count >? sc_maxSegments cfg) || (count >? Segment.MaxSegments)
      then planAbort AbortReasonBufferOverflow
      else planSegments payload segSize count) /\
  (complex = true -> res = complexACK payload /\ len reply = 3 + len payload).
Proof.
  intros Ee. destruct res as [|e| |pl]; [by left|right..]; (split; [done|]); unfold finishPlan; rewrite Ee; (split; [done|]).
  - intros ->. by destruct e.
  - intros ->. done.
  - intros _. injection Ee as <- <- _. split; [done|]. unfold AppendComplexACK. cbn [ca_SegmentedMessage ca_Payload]. len_lia.
Qed.

(** ** The size of an Error *)

(** A small value takes a header of at most two octets. *)
Lemma small_header ctx tn (v : bytes) : 0 <= tn < 15 -> len v <= 8 -> exists hdr, encodeTagHeader ctx tn (len v) = Ok hdr /\ len hdr <= 2.
Proof.
  intros Ht Hv. pose proof (len_nonneg v). unfold encodeTagHeader, MaxUint32. decide_tests. cbn [negb]. cbv zeta.
  destruct (len v <? 5); (eexists; split; [reflexivity|by cbn]).
Qed.

Lemma EncodeBACnetError_len dst class code : is_u 16 class -> is_u 16 code ->
  exists bs, EncodeBACnetError dst class code = Ok (dst ++ bs) /\ len bs <= 20.
Proof.
  intros Hc Hd. pose proof (encodeUnsigned_len class ltac:(by apply (is_u_mono 16 64))) as [_ H1].
  pose proof (encodeUnsigned_len code ltac:(by apply (is_u_mono 16 64))) as [_ H2].
  destruct (small_header false TagEnumerated _ ltac:(done) H1) as (h1 & E1 & L1), (small_header false TagEnumerated _ ltac:(done) H2) as (h2 & E2 & L2).
  exists ((h1 ++ encodeUnsigned class) ++ h2 ++ encodeUnsigned code).
  unfold EncodeBACnetError, AppendApplicationValue, EnumValue. cbn [av_Kind appendPrimitiveValue av_Enumerated]. unfold appendAppPrimitive.
  rewrite E1. cbn [bind]. rewrite E2. cbn [bind]. split; [by rewrite <- !app_assoc|len_lia].
Qed.

(** The error classes, codes and element numbers of the Go types. *)
Definition error_typed (e : svcError) : Prop :=
  match e with
  | createObjectError class code first => is_u 16 class /\ is_u 16 code /\ is_u 32 first
  | objectError class code => is_u 16 class /\ is_u 16 code
  | rejectError _ | abortError _ | bodyError _ => True
  end.

(** A reply that is not a ComplexACK and has no body of its own is short. *)
Lemma short_reply r id svc : (forall e, r = fail e -> error_typed e) -> (forall body, r <> fail (bodyError (Ok body))) ->
  (forall payload, r <> complexACK payload) -> len (encodeResult r id svc).1.1 <= 50.
Proof.
  intros Ht Hb Hc. destruct r as [|e| |payload]; [by cbn|specialize (Ht e eq_refl)|by cbn|by destruct (Hc payload)].
  assert (forall body, len body <= 40 -> len (AppendError [] (mkErrorPDU id svc body)) <= 50) as Hl by (intros body H; unfold AppendError; cbn [ep_Payload]; len_lia).
  destruct e as [reason|reason|[body|]|class code first|class code]; [by cbn|by cbn|by destruct (Hb body)|apply Hl; by vm_compute|..];
    cbn [encodeResult fst]; apply Hl; cbn [errorBody].
  - destruct Ht as (H1 & H2 & H3). destruct (EncodeBACnetError_len [0x0E] class code H1 H2) as (bs & -> & L1). cbn [bind].
    pose proof (encodeUnsigned_len first ltac:(by apply (is_u_mono 32 64))) as [_ H4]. destruct (small_header true 1 _ ltac:(done) H4) as (h & E & L2).
    unfold AppendContextUnsigned, appendContextPrimitive. rewrite E. change (1 =? tagNumberReserved) with false. cbn [bind]. len_lia.
  - destruct Ht as [H1 H2]. destruct (EncodeBACnetError_len [] class code H1 H2) as (bs & -> & L1). cbn [app]. lia.
Qed.

(** ** Properties *)

(** C33. The responding side in every run, whatever requests, repeats, segments,
    acknowledgements and aborts arrive, however the workers are scheduled and
    whenever the server is closed: the next request never makes it panic; two
    transactions that are being executed or answered never belong to the same
    requester and invoke ID, and there are at most as many of them as the
    table has entries; a reassembly in the table stays within the server's
    segment and octet limits; a request whose requester and invoke ID belong
    to a transaction that is being executed or answered is dropped - it is not
    executed again and nothing is sent; and nothing leaks: with no transaction
    active, only reassemblies are left and expiry removes them. *)
Theorem responder_safe ipv6String cfg w now submitOK ptr0 req p : cfg_ok cfg -> reachable ipv6String cfg w ->
  arrives req p -> r_heap (w_resp w) !! ptr0 = None ->
  (exists e, confirmed ipv6String cfg now submitOK ptr0 req p (w_resp w) = Ok e) /\
  NoDup (active w) /\ (length (active w) <= size (r_tx (w_resp w)))%nat /\
  (forall k ptr t, r_tx (w_resp w) !! k = Some ptr -> r_heap (w_resp w) !! ptr = Some t -> rt_segmented t = true ->
     exists asm, rt_asm t = Some asm /\ 0 <= r_segments asm <= sc_maxSegments cfg /\ len (r_buf asm) <= MaxReassembledAPDU (sc_limits cfg)) /\
  (forall a b ta tb, a ∈ active w -> b ∈ active w -> r_heap (w_resp w) !! a = Some ta -> r_heap (w_resp w) !! b = Some tb ->
     same_request (rt_peer ta) (rt_invokeID ta) tb -> a = b) /\
  (forall a ta, a ∈ active w -> r_heap (w_resp w) !! a = Some ta -> same_request p (cr_InvokeID req) ta ->
     sc_segmentation cfg = true \/ cr_SegmentedMessage req = false ->
     confirmed ipv6String cfg now submitOK ptr0 req p (w_resp w) = Ok (quiet (w_resp w))) /\
  (active w = [] -> (forall k ptr t, r_tx (w_resp w) !! k = Some ptr -> r_heap (w_resp w) !! ptr = Some t -> rt_deadline t < now) ->
     r_tx (expire now (w_resp w)) = ∅).
Proof.
  intros Hcfg Hr Harr Hf. pose proof (reachable_ok ipv6String cfg w Hcfg Hr) as Ht. split_and!.
  - destruct (confirmed_ok ipv6String cfg now submitOK ptr0 req p _ _ Hcfg Ht Harr Hf) as (e & He & _). by exists e.
  - apply Ht.
  - by apply (active_bounded ipv6String cfg).
  - intros k ptr t Hk Hp Hs. destruct (to_tx _ _ _ _ Ht k ptr Hk) as (t' & Hp' & Hok & _). assert (t' = t) as -> by congruence.
    destruct (tx_asm _ _ _ _ Hok Hs) as (_ & _ & asm & Ha & [Hn Hl _ _ _] & Hm & Ho). exists asm. by rewrite <- Hm, <- Ho.
  - intros a b ta tb Ha Hb Hta Htb Hsame. destruct (to_active _ _ _ _ Ht a Ha) as (ta' & Hta' & Hka & _).
    destruct (to_active _ _ _ _ Ht b Hb) as (tb' & Htb' & Hkb & _). assert (ta' = ta) as -> by congruence. assert (tb' = tb) as -> by congruence.
    destruct (to_tx _ _ _ _ Ht _ a Hka) as (? & Hx & Hoka & _). destruct (to_tx _ _ _ _ Ht _ b Hkb) as (? & Hy & Hokb & _).
    rewrite Hta in Hx. rewrite Htb in Hy. injection Hx as <-. injection Hy as <-.
    pose proof (same_request_key _ _ _ _ _ _ Hokb Hsame) as E. destruct (tx_key _ _ _ _ Hoka) as [_ E']. congruence.
  - intros a ta Ha Hta Hsame Hseg. destruct (to_active _ _ _ _ Ht a Ha) as (ta' & Hta' & Hka & Hs). assert (ta' = ta) as -> by congruence.
    destruct (to_tx _ _ _ _ Ht _ a Hka) as (? & Hx & Hoka & _). rewrite Hta in Hx. injection Hx as <-.
    pose proof (same_request_key _ _ _ _ _ _ Hoka Hsame) as E. rewrite E in Hka. unfold confirmed. destruct (p_broadcast p); [done|].
    destruct (cr_SegmentedMessage req); [|by rewrite Hka]. destruct Hseg as [Hseg|]; [|done]. unfold segment. rewrite Hseg, Hka, Hta. cbn [negb].
    unfold addSegment. by rewrite Hs.
  - intros Hact Hdead. apply map_eq. intros k. rewrite lookup_empty. apply eq_None_not_Some. intros [ptr H].
    apply map_lookup_filter_Some in H as [Hk Hst]. destruct (to_tx _ _ _ _ Ht k ptr Hk) as (t & Hp & _ & Ha).
    unfold stale in Hst. rewrite Hp in Hst. specialize (Hdead k ptr t Hk Hp). rewrite (proj2 (Z.ltb_lt _ _)) in Hst by done.
    rewrite andb_true_r in Hst. specialize (Ha Hst). rewrite Hact in Ha. by apply elem_of_nil in Ha.
Qed.

Definition noIPv6 (_ _ : bytes) (_ : Z) : string := EmptyString.
Definition sampleServer : serverConfig := mkServerConfig true 64 4 1476 2 DefaultDecodeLimits.
Definition samplePeer : peer := mkPeer (endpoint4 [10; 0; 0; 7] 47808) (endpoint4 [10; 0; 0; 7] 47808) zeroAddress false.
Definition sampleRequest : ConfirmedRequest := mkConfirmedRequest false false true 0 5 9 0 0 12 [1; 2].

Lemma sampleServer_ok : cfg_ok sampleServer.
Proof. unfold cfg_ok, sampleServer. cbn. lia. Qed.

Lemma sample_arrives : arrives sampleRequest samplePeer.
Proof.
  split.
  - cbn. unfold segment_ok, is_u. cbn. split_and!; try done; try lia. solve_bytes.
  - unfold peer_ok. cbn. split; [done|]. split; [|by left]. split; [unfold is_u; cbn; lia|]. split; [done|cbn; solve_bytes].
Qed.

(** A ReadProperty request, waiting for a worker. *)
Definition sampleWorld : world :=
  match confirmed noIPv6 sampleServer 0 true 0 sampleRequest samplePeer newResponder with
  | Ok e => mkWorld (e_resp e) ([] ++ option_list (e_job e)) []
  | Err _ => mkWorld newResponder [] []
  end.

Lemma sampleWorld_reachable : reachable noIPv6 sampleServer sampleWorld.
Proof.
  eapply reach_step; [apply reach_new|]. apply (step_confirmed noIPv6 sampleServer 0 true 0 sampleRequest samplePeer (mkWorld newResponder [] []));
    [apply sample_arrives|done|by vm_compute].
Qed.

Lemma responder_safe_witness :
  active sampleWorld = [0%nat] /\
  confirmed noIPv6 sampleServer 5 true 1 sampleRequest samplePeer (w_resp sampleWorld) = Ok (quiet (w_resp sampleWorld)).
Proof.
  split; [by vm_compute|].
  destruct (r_heap (w_resp sampleWorld) !! 0%nat) as [t|] eqn:E; [|by vm_compute in E].
  apply (responder_safe noIPv6 sampleServer sampleWorld 5 true 1 sampleRequest samplePeer sampleServer_ok sampleWorld_reachable sample_arrives) with (a := 0%nat) (ta := t);
    [by vm_compute|by left|done| |by left].
  vm_compute in E. injection E as <-. by vm_compute.
Defined.

(** C34. Segmented requests, client to server: the segments a client builds for
    a request, arriving from one requester in whatever order and with
    whatever losses and repetitions, make the server execute exactly one
    request - with the original payload, service, invoke ID and size limits -
    when the arrivals contain all the segments in their order (with anything
    before, between and after), and none otherwise: a segment that comes too
    early is refused with a negative SegmentACK and must come again. The
    segments that follow the last one are ignored. The arrivals are at one
    time, before the request is answered, with room in the workers' queue; the
    request must fit the server's limits and the key be free. *)
Theorem segmented_request_served ipv6String cfg now p req w size r ids :
  let count := Count (len (cr_Payload req)) size in
  sc_segmentation cfg = true -> p_broadcast p = false -> 1 <= size -> 1 <= Window (sc_window cfg) w <= 127 ->
  count <= 256 -> count <= sc_maxSegments cfg -> len (cr_Payload req) <= MaxReassembledAPDU (sc_limits cfg) ->
  r_tx r !! key ipv6String p (cr_InvokeID req) = None -> Forall (fun i => 0 <= i < count) ids ->
  exists jobs r', serve ipv6String cfg now p
      (map (fun i => ClientSend.segmentRequest req w count i (chunkOf (cr_Payload req) size i)) ids) r = Ok (jobs, r') /\
    ((seqZ 0 count `sublist_of` ids /\ exists ptr q, jobs = [(ptr, q)] /\ reassembled req q) \/
     (~ seqZ 0 count `sublist_of` ids /\ jobs = [])).
Proof.
  intros count Hseg Hbc Hs Hw H1 H2 H3 Hk Hids.
  destruct (serve_waiting ipv6String cfg now p req w size Hseg Hbc Hs Hw H1 H2 H3 ids 0 r) as (jobs & r' & Hj & Hc); [| |done|].
  - pose proof (count_pos (cr_Payload req) size Hs). fold count. lia.
  - done.
  - fold count in Hc. rewrite Z.sub_0_r in Hc. by exists jobs, r'.
Qed.

Lemma segmented_request_served_witness :
  let req := mkConfirmedRequest false false true 0 5 9 0 0 15 [1; 2; 3; 4; 5] in
  let segs := map (fun i => ClientSend.segmentRequest req 2 3 i (chunkOf [1; 2; 3; 4; 5] 2 i)) [0; 2; 1; 1; 2; 0] in
  exists jobs r' ptr q, serve noIPv6 sampleServer 0 samplePeer segs newResponder = Ok (jobs, r') /\ jobs = [(ptr, q)] /\ reassembled req q.
Proof.
  cbv zeta. set (req := mkConfirmedRequest false false true 0 5 9 0 0 15 [1; 2; 3; 4; 5]).
  destruct (segmented_request_served noIPv6 sampleServer 0 samplePeer req 2 2 newResponder [0; 2; 1; 1; 2; 0]) as (jobs & r' & Hj & Hc);
    try done; try (cbn; lia).
  - change (Count (len (cr_Payload req)) 2) with 3. repeat (apply List.Forall_cons; [lia|]). apply List.Forall_nil.
  - exists jobs, r'. destruct Hc as [[_ (ptr & q & Hq & Hre)]|[Hn _]]; [by exists ptr, q|]. exfalso. apply Hn. change (Count (len (cr_Payload req)) 2) with 3.
    change (seqZ 0 3) with [0; 1; 2]. apply sublist_skip, sublist_cons, sublist_skip, sublist_cons, sublist_skip, sublist_cons, sublist_nil.
Defined.

(** C35. How a parsed request is answered: nothing only when the service said
    so; a reply that is not a ComplexACK in one piece, and it fits both sides'
    APDU sizes unless it is an Error with a body of its own (those of
    WritePropertyMultiple and SubscribeCOVPropertyMultiple), which is sent
    whatever its length; a ComplexACK that fits in one piece; a longer one in
    segments of the common size - at least 45 octets, at most the segments
    either side accepts, each segment within the size limit - if the
    requester accepts segments and segmentation is on, and otherwise as an
    Abort that says why. *)
Theorem answer_fits cfg req res : cfg_ok cfg -> 0 <= cr_MaxAPDU req < 6 -> 0 <= cr_MaxSegments req < 8 ->
  let '(reply, payload, complex) := encodeResult res (cr_InvokeID req) (cr_ServiceChoice req) in
  let limit := Z.min (fst (DecodeMaxAPDUSize (cr_MaxAPDU req))) (sc_maxAPDU cfg) in
  50 <= limit <= 1476 /\
  match finishPlan cfg req res with
  | planSilent => res = silent
  | planReply r => r = reply /\
      match res with
      | fail (bodyError (Ok body)) => len r = 3 + len body
      | fail e => error_typed e -> len r <= limit
      | _ => len r <= limit
      end
  | planSegments pl size count =>
      res = complexACK payload /\ limit < len reply /\ pl = payload /\ size = limit - 5 /\ 45 <= size /\ count = Count (len payload) size /\
      2 <= count <= 256 /\ count <= sc_maxSegments cfg /\ cr_SegmentedResponseAccepted req = true /\ sc_segmentation cfg = true /\
      (0 < cr_MaxSegments req < 7 -> count <= 2 ^ cr_MaxSegments req) /\
      (forall i s, 0 <= i < count -> ServerSend.encode (cr_InvokeID req) (cr_ServiceChoice req) (sc_window cfg) size count pl i = Ok s ->
         len s <= limit)
  | planAbort reason =>
      res = complexACK payload /\ limit < len reply /\
      ((reason = AbortReasonSegmentationNotSupported /\ (cr_SegmentedResponseAccepted req = false \/ sc_segmentation cfg = false)) \/
       (reason = AbortReasonBufferOverflow /\
          (sc_maxSegments cfg < Count (len payload) (limit - 5) \/ 256 < Count (len payload) (limit - 5) \/
           (0 < cr_MaxSegments req < 7 /\ 2 ^ cr_MaxSegments req < Count (len payload) (limit - 5)))))
  end.
Proof.
  intros (_ & _ & _ & Hmax) Hcode Hms. destruct (encodeResult res (cr_InvokeID req) (cr_ServiceChoice req)) as [[reply payload] complex] eqn:Ee. cbv zeta.
  set (limit := Z.min _ _). assert (50 <= limit <= 1476) as Hl.
  { unfold limit. pose proof (maxAPDU_range _ Hcode). lia. }
  split; [done|].
  destruct (finishPlan_cases cfg req res reply payload complex Ee) as [[-> ->]|(Hns & -> & Hcx)]; [done|]. fold limit. cbv zeta.
  destruct (negb complex || (len reply <=? limit)) eqn:E1.
  { split; [done|]. apply orb_true_iff in E1 as [E1|E1].
    - apply negb_true_iff in E1. pose proof (short_reply res (cr_InvokeID req) (cr_ServiceChoice req)) as Hsh. rewrite Ee in Hsh. cbn [fst] in Hsh.
      destruct res as [|e| |pl]; [done| |specialize (Hsh ltac:(done) ltac:(done) ltac:(done)); lia|by injection Ee as _ _ <-].
      destruct e as [| |[body|]| |]; try (intros He; specialize (Hsh ltac:(by intros ? [= <-]) ltac:(done) ltac:(done)); lia).
      injection Ee as <- _ _. unfold AppendError. cbn [ep_Payload errorBody]. len_lia.
    - apply Z.leb_le in E1. destruct res as [|[| |[body|]| |]| |]; try done. injection Ee as <- _ _. unfold AppendError. cbn [ep_Payload errorBody]. len_lia. }
  apply orb_false_iff in E1 as [E1 E2]. apply negb_false_iff in E1. destruct (Hcx E1) as [Hres Hlen]. apply Z.leb_gt in E2.
  destruct (negb (cr_SegmentedResponseAccepted req) || negb (sc_segmentation cfg)) eqn:E3.
  { split_and!; try done. left. split; [done|]. apply orb_true_iff in E3 as [E3|E3]; apply negb_true_iff in E3; auto. }
  apply orb_false_iff in E3 as [E3 E4]. apply negb_false_iff in E3, E4. cbv zeta. set (count := Count _ _).
  pose proof (segments_needed payload limit ltac:(lia) ltac:(lia)) as Hc2. fold count in Hc2.
  pose proof (too_many_segments count _ (sc_maxSegments cfg) Hms) as Htm. destruct (_ || (count >? Segment.MaxSegments)).
  - split_and!; try done. right. split; [done|]. by apply Htm.
  - assert (~ (sc_maxSegments cfg < count \/ 256 < count \/ (0 < cr_MaxSegments req < 7 /\ 2 ^ cr_MaxSegments req < count))) as Hn
      by (intros Hx; by apply Htm in Hx).
    split_and!; try done; try lia.
    + intros i s Hi Hs. destruct (ServerSend.encode_segment (cr_InvokeID req) (cr_ServiceChoice req) (sc_window cfg) (limit - 5) payload i) as [He Hlc]; [lia..|].
      unfold count in Hs. rewrite He in Hs. injection Hs as <-. unfold AppendComplexACK. cbn [ca_SegmentedMessage ca_Payload]. len_lia.
Qed.

Lemma answer_fits_witness :
  finishPlan sampleServer (mkConfirmedRequest false false true 2 0 9 0 0 12 []) (complexACK (replicate 100 7)) = planSegments (replicate 100 7) 45 3 /\
  3 <= 2 ^ 2.
Proof.
  pose proof (answer_fits sampleServer (mkConfirmedRequest false false true 2 0 9 0 0 12 []) (complexACK (replicate 100 7)) sampleServer_ok) as H.
  specialize (H ltac:(cbn; lia) ltac:(cbn; lia)). destruct (encodeResult _ _ _) as [[reply payload] complex] eqn:E.
  assert (finishPlan sampleServer (mkConfirmedRequest false false true 2 0 9 0 0 12 []) (complexACK (replicate 100 7)) = planSegments (replicate 100 7) 45 3) as Hp
    by (vm_compute; reflexivity).
  split; [done|]. rewrite Hp in H. destruct H as [_ H]. by apply H.
Defined.
