(* ===== verification/ServerPacket.v ===== *)
(** * The server's packet path: [server/packet.go], [server/routes.go], the
    dispatch of [server/dispatch.go] and the communication control state of
    [server/handlers_device.go]

    The server reaches the BBMD through an interface ([server.BBMD]): a class
    of operations with the laws the packet path relies on. [Bbmd.v] implements
    it. *)

From Stdlib Require Import ZArith Lia Bool.
From stdpp Require Import base list gmap strings.
From S2P Require Import Prelude Value Address Npdu Endpoint Bvlc Apdu Link ServicePolicy Bbmd ServerKey Responder.

(** ** The interface of the BBMD *)
Class BBMDOps (St : Type) := {
  bbmd_HandleBVLC : Z -> Z -> Message -> Endpoint -> St -> result (list OutboundPacket * bool * Endpoint * St);
  bbmd_LocalBroadcast : Z -> bytes -> St -> result (list OutboundPacket * St)
}.
Class BBMDLaws (St : Type) `{BBMDOps St} (ok : St -> Prop) : Prop := {
  bbmd_handles now now' msg from st : ok st -> rx msg -> IsValid from = true -> ep_wf from ->
    exists sent deliver origin st', bbmd_HandleBVLC now now' msg from st = Ok (sent, deliver, origin, st') /\ ok st' /\
      (deliver = true -> IsValid origin = true /\ ep_wf origin);
  bbmd_broadcasts now npdu st : ok st -> exists sent st', bbmd_LocalBroadcast now npdu st = Ok (sent, st') /\ ok st'
}.

#[global] Instance BBMD_ops : BBMDOps BBMD := {|
  bbmd_HandleBVLC now now' msg from b :=
    let* o := HandleBVLC now now' msg from b in Ok (o_sent o, o_deliver o, o_origin o, o_bbmd o);
  bbmd_LocalBroadcast := Bbmd.LocalBroadcast
|}.

(** ** Routes *)
Definition maxRoutes : Z := 64.
Abbreviation routeTable := (gmap Z Endpoint).

Definition learn (network : Z) (router : Endpoint) (t : routeTable) : routeTable :=
  if (network =? 0) || (network =? 0xFFFF) || negb (IsValid router) then t
  else if negb (bool_decide (is_Some (t !! network))) && (Z.of_nat (size t) >=? maxRoutes) then t
  else <[network := router]> t.
Definition lookupRoute (network : Z) (t : routeTable) : option Endpoint := t !! network.

Definition learnRoutes (n : NPDU) (router : Endpoint) (t : routeTable) : routeTable :=
  let t := if bool_decide (a_scope (np_Source n) = AddressRemoteStation) then learn (a_network (np_Source n)) router t else t in
  if np_NetworkMessage n && (np_NetMsgType n =? NetMsgIAmRouterToNetwork) then
    match DecodeNetworkList (np_NetMsgData n) with
    | Err _ => t
    | Ok nets => fold_left (fun t net => learn net router t) nets t
    end
  else t.

(** ** DeviceCommunicationControl *)
Inductive EnableDisable := EnableDisableEnable | EnableDisableDisable | EnableDisableDisableInitiation.
#[global] Instance EnableDisable_eq_dec : EqDecision EnableDisable.
Proof. solve_decision. Defined.

(** [until] is [None] for the zero time: indefinite. *)
Record dccState := mkDcc { d_mode : EnableDisable; d_until : option Z }.

Definition current (now : Z) (d : dccState) : EnableDisable * dccState :=
  let expired := match d_until d with Some until => negb (now <? until) | None => false end in
  let d := if negb (bool_decide (d_mode d = EnableDisableEnable)) && expired then mkDcc EnableDisableEnable (d_until d) else d in
  (d_mode d, d).
Definition dccExpire (now : Z) (d : dccState) : dccState := snd (current now d).
Definition dccSet (mode : EnableDisable) (until : option Z) (d : dccState) : dccState := mkDcc mode until.
Definition respondsTo (now confirmedService : Z) (d : dccState) : bool * dccState :=
  let (mode, d) := current now d in
  if negb (bool_decide (mode = EnableDisableDisable)) then (true, d)
  else ((confirmedService =? ServiceDeviceCommunicationControl) || (confirmedService =? ServiceReinitializeDevice), d).
Definition mayInitiate (now : Z) (d : dccState) : bool * dccState :=
  let (mode, d) := current now d in (bool_decide (mode = EnableDisableEnable), d).

(** ** Services *)

(** Which application hooks are set. *)
Record hooks := mkHooks { h_PrivateTransfer : bool; h_TextMessage : bool; h_TimeSync : bool; h_WriteGroup : bool }.

Definition ServiceIAm : Z := 0.
Definition ServiceUnconfirmedPrivateTransfer : Z := 4.
Definition ServiceUnconfirmedTextMessage : Z := 5.
Definition ServiceTimeSynchronization : Z := 6.
Definition ServiceWhoHas : Z := 7.
Definition ServiceWhoIs : Z := 8.
Definition ServiceUTCTimeSynchronization : Z := 9.
Definition ServiceWriteGroup : Z := 10.
Definition RejectReasonInvalidTag : Z := 4.
Definition RejectReasonUnrecognizedService : Z := 9.

(** The served services with their bits of BACnetServicesSupported; the
    handlers are not part of the model. *)
Definition confirmedServices : gmap Z Z := list_to_map [
  (ServiceReadProperty, 12); (ServiceReadPropertyMultiple, 14); (ServiceWriteProperty, 15); (ServiceWritePropertyMultiple, 16);
  (ServiceDeviceCommunicationControl, 17); (ServiceConfirmedPrivateTransfer, 18); (ServiceConfirmedTextMessage, 19);
  (ServiceReinitializeDevice, 20); (ServiceReadRange, 35); (ServiceSubscribeCOV, 5); (ServiceSubscribeCOVProperty, 38);
  (ServiceSubscribeCOVPropertyMultiple, 41); (ServiceAtomicReadFile, 6); (ServiceAtomicWriteFile, 7); (ServiceAddListElement, 8);
  (ServiceRemoveListElement, 9); (ServiceCreateObject, 10); (ServiceDeleteObject, 11); (ServiceAcknowledgeAlarm, 0);
  (ServiceGetAlarmSummary, 3); (ServiceGetEnrollmentSummary, 4); (ServiceGetEventInformation, 39)].
Definition unconfirmedServices : gmap Z Z := list_to_map [
  (ServiceWhoIs, 34); (ServiceWhoHas, 33); (ServiceTimeSynchronization, 32); (ServiceUTCTimeSynchronization, 36);
  (ServiceUnconfirmedPrivateTransfer, 30); (ServiceUnconfirmedTextMessage, 31); (ServiceWriteGroup, 40); (ServiceIAm, 26)].

Definition serviceEnabled (h : hooks) (isConfirmed : bool) (choice : Z) : bool :=
  if isConfirmed then
    if choice =? ServiceConfirmedPrivateTransfer then h_PrivateTransfer h
    else if choice =? ServiceConfirmedTextMessage then h_TextMessage h
    else true
  else if choice =? ServiceUnconfirmedPrivateTransfer then h_PrivateTransfer h
  else if choice =? ServiceUnconfirmedTextMessage then h_TextMessage h
  else if (choice =? ServiceTimeSynchronization) || (choice =? ServiceUTCTimeSynchronization) then h_TimeSync h
  else if choice =? ServiceWriteGroup then h_WriteGroup h
  else true.

(** [handleConfirmed]; [handler] runs the service's handler. *)
Definition handleConfirmed (h : hooks) (handler : ConfirmedRequest -> peer -> svcResult) (req : ConfirmedRequest) (p : peer) : svcResult :=
  match confirmedServices !! cr_ServiceChoice req with
  | Some _ => if serviceEnabled h true (cr_ServiceChoice req) then handler req p else fail (rejectError RejectReasonUnrecognizedService)
  | None => fail (rejectError RejectReasonUnrecognizedService)
  end.

(** ** Sending *)

(** [sendAPDU] to a B/IP node; [bbmd] is the state of the BBMD, if any. *)
Definition sendAPDU {St} `{BBMDOps St} (now : Z) (to : Endpoint) (broadcast : bool) (dest : Address) (expectingReply : bool)
    (apduBytes : bytes) (bbmd : option St) : result (list OutboundPacket * option St) :=
  let fn := if broadcast then FunctionOriginalBroadcastNPDU else FunctionOriginalUnicastNPDU in
  let* (raw, frame) := Frame fn (LinkAPDU dest expectingReply 255 apduBytes) in
  match broadcast, bbmd with
  | true, Some b =>
      let* (sent, b) := bbmd_LocalBroadcast now raw b in
      Ok (sent ++ [mkPacket frame to broadcast], Some b)
  | _, _ => Ok ([mkPacket frame to broadcast], bbmd)
  end.

(** [reply]: the datagram that carries an APDU back to the requester; an APDU
    that does not fit a frame is not sent. *)
Definition replyPacket (p : peer) (apduBytes : bytes) : result (list OutboundPacket) :=
  match Frame FunctionOriginalUnicastNPDU (LinkAPDU (p_source p) false 255 apduBytes) with
  | Ok (_, frame) => Ok [mkPacket frame (p_immediate p) false]
  | Err Panic => Err Panic
  | Err _ => Ok []
  end.

(** [broadcastAPDU]: a local broadcast, or a broadcast on the remote network
    of the requester. *)
Definition broadcastAPDU {St} `{BBMDOps St} (now : Z) (p : option peer) (apduBytes : bytes) (bbmd : option St) :
    result (list OutboundPacket * option St) :=
  let remote := match p with Some p => bool_decide (a_scope (p_source p) = AddressRemoteStation) | None => false end in
  match p with
  | Some p => if remote then sendAPDU now (p_immediate p) false (RemoteBroadcast (a_network (p_source p))) false apduBytes bbmd
              else sendAPDU now zeroEndpoint true zeroAddress false apduBytes bbmd
  | None => sendAPDU now zeroEndpoint true zeroAddress false apduBytes bbmd
  end.

Definition nakFor (fn : Z) : Z :=
  if fn =? FunctionWriteBroadcastDistributionTable then ResultWriteBroadcastDistributionTableNAK
  else if fn =? FunctionReadBroadcastDistributionTable then ResultReadBroadcastDistributionTableNAK
  else if fn =? FunctionRegisterForeignDevice then ResultRegisterForeignDeviceNAK
  else if fn =? FunctionReadForeignDeviceTable then ResultReadForeignDeviceTableNAK
  else if fn =? FunctionDeleteForeignDeviceTableEntry then ResultDeleteForeignDeviceTableEntryNAK
  else ResultDistributeBroadcastToNetworkNAK.

(** [bvlcResult] *)
Definition bvlcResult (to : Endpoint) (code : Z) : list OutboundPacket := sendResult to code.

(** ** The receive loop *)

(** What a datagram leads to beyond the datagrams sent at once. *)
Inductive action :=
| actConfirmed (req : ConfirmedRequest) (p : peer)      (** [responder.confirmed] *)
| actUnconfirmed (req : UnconfirmedRequest) (p : peer)  (** queued for a worker *)
| actSegmentACK (sack : SegmentACK) (p : peer)          (** [responder.deliverSegmentACK] *)
| actResponse (pdu : PDU) (p : peer)                    (** [requester.response] *)
| actAbort (invokeID : Z) (p : peer).                   (** [responder.abortFromClient] *)

Definition dispatch (h : hooks) (now : Z) (pdu : PDU) (p : peer) (d : dccState) : option action * dccState :=
  match pdu with
  | PConfirmedRequest req =>
      let (ok, d) := respondsTo now (cr_ServiceChoice req) d in ((if ok then Some (actConfirmed req p) else None), d)
  | PUnconfirmedRequest req =>
      let (ok, d) := respondsTo now 0xFF d in
      if negb ok then (None, d)
      else
        match unconfirmedServices !! ur_ServiceChoice req with
        | None => (None, d)
        | Some _ => if negb (serviceEnabled h false (ur_ServiceChoice req)) then (None, d) else (Some (actUnconfirmed req p), d)
        end
  | PSegmentACK sack => (Some (actSegmentACK sack p), d)
  | PAbort a => ((if ab_Server a then Some (actResponse pdu p) else Some (actAbort (ab_InvokeID a) p)), d)
  | PSimpleACK _ | PComplexACK _ | PError _ | PReject _ => (Some (actResponse pdu p), d)
  end.

(** The state the packet path keeps: the BBMD, if any, the routes and the
    communication control. *)
Record netState (St : Type) := mkNet { n_bbmd : option St; n_routes : routeTable; n_dcc : dccState }.
Arguments mkNet {St} _ _ _.
Arguments n_bbmd {St} _.
Arguments n_routes {St} _.
Arguments n_dcc {St} _.

Record served (St : Type) := mkServed { v_sent : list OutboundPacket; v_action : option action; v_state : netState St }.
Arguments mkServed {St} _ _ _.
Arguments v_sent {St} _.
Arguments v_action {St} _.
Arguments v_state {St} _.

Section Packet.
Context {St : Type} `{BBMDOps St}.
Context (limits : DecodeLimits) (h : hooks).

(** [handlePacket] from the check of the origin on. *)
Definition serveNPDU (now : Z) (payload : bytes) (p : peer) (s : netState St) : result (served St) :=
  let stop s := Ok (mkServed [] None s) in
  if negb (IsValid (p_origin p)) || (len payload =? 0) then stop s
  else
    match Npdu.Parse payload limits with
    | Err _ => stop s
    | Ok (n, _) =>
        let s := mkNet (n_bbmd s) (learnRoutes n (p_origin p) (n_routes s)) (n_dcc s) in
        if np_NetworkMessage n then stop s
        else if bool_decide (a_scope (np_Destination n) = AddressRemoteStation) || bool_decide (a_scope (np_Destination n) = AddressRemoteBroadcast)
        then stop s
        else
          let broadcast := if bool_decide (a_scope (np_Destination n) = AddressGlobalBroadcast) then true else p_broadcast p in
          let source := if bool_decide (a_scope (np_Source n) = AddressRemoteStation) then np_Source n else p_source p in
          let p := mkPeer (p_immediate p) (p_origin p) source broadcast in
          if len (np_APDU n) =? 0 then stop s
          else
            match Apdu.Parse (np_APDU n) limits with
            | Ok pdu => let (a, d) := dispatch h now pdu p (n_dcc s) in Ok (mkServed [] a (mkNet (n_bbmd s) (n_routes s) d))
            | Err _ =>
                if len (np_APDU n) >=? 4 then
                  let* b0 := index (np_APDU n) 0 in
                  if (Z.land b0 0xF0 =? TypeConfirmedRequest) && (Z.land b0 0x08 =? 0) then
                    let* id := index (np_APDU n) 2 in
                    let* sent := replyPacket p (AppendReject [] (mkRejectPDU id RejectReasonInvalidTag)) in
                    Ok (mkServed sent None s)
                  else stop s
                else stop s
            end
    end.

(** [now] and [now'] are as in [HandleBVLC]; [now2] is the clock at the
    dispatch. *)
Definition handlePacket (now now' now2 : Z) (data : bytes) (immediate : Endpoint) (s : netState St) : result (served St) :=
  let stop s := Ok (mkServed [] None s) in
  match Bvlc.Parse data limits with
  | Err _ => stop s
  | Ok msg =>
      let fn := m_Function msg in
      let from origin broadcast := mkPeer immediate origin zeroAddress broadcast in
      if fn =? FunctionOriginalUnicastNPDU then serveNPDU now2 (m_Payload msg) (from immediate false) s
      else if (fn =? FunctionOriginalBroadcastNPDU) || (fn =? FunctionForwardedNPDU) || (fn =? FunctionDistributeBroadcastToNetwork) then
        match n_bbmd s with
        | Some b =>
            let* (sent, deliver, origin, b) := bbmd_HandleBVLC now now' msg immediate b in
            let s := mkNet (Some b) (n_routes s) (n_dcc s) in
            if negb deliver then Ok (mkServed sent None s)
            else
              let* v := serveNPDU now2 (m_Payload msg) (from origin true) s in
              Ok (mkServed (sent ++ v_sent v) (v_action v) (v_state v))
        | None =>
            if fn =? FunctionForwardedNPDU then serveNPDU now2 (m_Payload msg) (from (Origin msg immediate) true) s
            else if fn =? FunctionDistributeBroadcastToNetwork
            then Ok (mkServed (bvlcResult immediate ResultDistributeBroadcastToNetworkNAK) None s)
            else serveNPDU now2 (m_Payload msg) (from immediate true) s
        end
      else if (fn =? FunctionRegisterForeignDevice) || (fn =? FunctionReadBroadcastDistributionTable)
              || (fn =? FunctionWriteBroadcastDistributionTable) || (fn =? FunctionReadForeignDeviceTable)
              || (fn =? FunctionDeleteForeignDeviceTableEntry) then
        match n_bbmd s with
        | Some b =>
            let* (sent, _, _, b) := bbmd_HandleBVLC now now' msg immediate b in
            Ok (mkServed sent None (mkNet (Some b) (n_routes s) (n_dcc s)))
        | None => Ok (mkServed (bvlcResult immediate (nakFor fn)) None s)
        end
      else stop s
  end.
End Packet.

(** ** The BBMD implements the interface *)
Lemma HandleBVLC_origin now now' msg from b o : rx msg -> IsValid from = true -> ep_wf from ->
  HandleBVLC now now' msg from b = Ok o -> o_deliver o = true -> IsValid (o_origin o) = true /\ ep_wf (o_origin o).
Proof.
  intros (_ & _ & Horg) Hv Hw H Hd. unfold HandleBVLC in H. cbv zeta in H.
  assert (forall sent b', done sent b' = Ok o -> False) as Hdone by (intros ? ? [= <-]; done).
  destruct (EndpointEqual from _); [by apply Hdone in H|].
  destruct (m_Function msg =? FunctionOriginalBroadcastNPDU).
  { destruct (confirmedRequest _) as [[]|]; [by apply Hdone in H| |done]. rewrite bind_Ok_l in H.
    destruct (distribute _ _ _ _ _) as [[sent b']|]; [|done]. by injection H as <-. }
  destruct (m_Function msg =? FunctionForwardedNPDU) eqn:E2.
  { apply Z.eqb_eq in E2. specialize (Horg E2). destruct (EndpointEqual _ (b_self b)); [by apply Hdone in H|].
    apply bind_Ok_inv in H as (l0 & _ & H). destruct (distribute _ _ _ _ _) as [[sent b']|]; [|done]. by injection H as <-. }
  destruct (m_Function msg =? FunctionDistributeBroadcastToNetwork).
  { apply bind_Ok_inv in H as (c & _ & H). destruct c; [by apply Hdone in H|]. destruct (forwarded _ _) as [fr|[]]; try done; try by apply Hdone in H.
    destruct (distribute _ _ _ _ _) as [[sent b']|]; [|done]. by injection H as <-. }
  destruct (m_Function msg =? FunctionRegisterForeignDevice); [destruct (register _ _ _ _); by apply Hdone in H|].
  destruct (m_Function msg =? FunctionReadBroadcastDistributionTable); [apply bind_Ok_inv in H as (l0 & _ & H); by apply Hdone in H|].
  destruct (m_Function msg =? FunctionWriteBroadcastDistributionTable); [by apply Hdone in H|].
  destruct (m_Function msg =? FunctionReadForeignDeviceTable).
  { destruct (fdtLocked now b). apply bind_Ok_inv in H as (l0 & _ & H). by apply Hdone in H. }
  destruct (m_Function msg =? FunctionDeleteForeignDeviceTableEntry); [|by apply Hdone in H].
  destruct (DecodeDeleteFDTEntry _) as [ep|[]]; try done; try (by apply Hdone in H). destruct (delete ep b). by apply Hdone in H.
Qed.

#[global] Instance BBMD_laws : BBMDLaws BBMD bbmd_ok.
Proof.
  split.
  - intros now now' msg from b Hb Hrx Hv Hw. destruct (HandleBVLC_ok now now' msg from b Hb Hrx Hv Hw) as (o & Ho & Hs & _).
    exists (o_sent o), (o_deliver o), (o_origin o), (o_bbmd o). cbn. rewrite Ho. split_and!; try done.
    by eapply HandleBVLC_origin.
  - intros now npdu b Hb. destruct (ok_self b Hb) as [Hv Hw]. destruct (distribute_ok now (b_self b) npdu true b Hb Hv Hw) as (sent & b' & Hd & Hs & _).
    by exists sent, b'.
Qed.

(** ** Routes stay bounded *)
Definition routes_ok (t : routeTable) : Prop :=
  Z.of_nat (size t) <= maxRoutes /\ forall net ep, t !! net = Some ep -> net <> 0 /\ net <> 0xFFFF /\ IsValid ep = true.

Lemma learn_ok net ep t : routes_ok t -> routes_ok (learn net ep t).
Proof.
  intros [Hs Ht]. unfold learn. destruct (_ || negb (IsValid ep)) eqn:E; [done|]. apply orb_false_iff in E as [E Ev].
  apply orb_false_iff in E as [E0 E1]. apply negb_false_iff in Ev. apply Z.eqb_neq in E0, E1. destruct (_ && _) eqn:E2; [done|]. split.
  - rewrite map_size_insert. apply andb_false_iff in E2 as [E2|E2].
    + apply negb_false_iff, bool_decide_eq_true in E2 as [x Hx]. by rewrite Hx.
    + destruct (t !! net); [done|]. bool_to_prop. lia.
  - intros n e [[<- <-]|[_ H]]%lookup_insert_Some; [done|by eapply Ht].
Qed.

Lemma learnRoutes_ok n ep t : routes_ok t -> routes_ok (learnRoutes n ep t).
Proof.
  intros Ht. unfold learnRoutes. set (t1 := if bool_decide _ then _ else t). assert (routes_ok t1) as Ht1 by (unfold t1; destruct (bool_decide _); auto using learn_ok).
  clearbody t1. destruct (_ && _); [|done]. destruct (DecodeNetworkList _) as [nets|]; [|done]. revert t1 Ht1. induction nets as [|net nets IH]; [done|].
  intros t1 Ht1. cbn [fold_left]. by apply IH, learn_ok.
Qed.

(** ** Replies *)

(** The addresses a request can have as its source. *)
Definition reply_source (a : Address) : Prop :=
  a = zeroAddress \/ exists net m, a = RemoteStation net (macOf m) /\ 0 < net < 0xFFFF /\ 1 <= len m <= MaxMACLength /\ bytes_ok m.

Lemma reply_source_ok a : reply_source a -> source_ok a.
Proof. intros [->|(net & m & -> & Hn & _ & Hm)]; [by left|right]. exists net, m. split_and!; try done. unfold is_u. lia. Qed.

Lemma reply_source_made a : reply_source a -> made a /\ exists hd, checkDestination a = Ok hd /\ (if hd then a else zeroAddress) = a.
Proof.
  intros [->|(net & m & -> & Hn & Hm & Hok)].
  - split; [apply (made_local []); [done|solve_bytes]|by exists false].
  - split; [apply made_remote; [unfold is_u; lia|lia|done]|]. exists true. split; [|done]. cbn. unfold validateRemoteNetwork.
    rewrite (proj2 (Z.eqb_neq net 0)), (proj2 (Z.eqb_neq net 0xFFFF)) by lia. cbn. unfold IsZero, macOf. cbn.
    by rewrite (proj2 (Z.eqb_neq (len m) 0)) by lia.
Qed.

Lemma replyPacket_frame p pdu limits ip port fd : reply_source (p_source p) -> pdu_ok pdu ->
  length ip = 4%nat -> bytes_ok ip -> is_u 16 port ->
  bytes_ok (appendPDU [] pdu) -> len (appendPDU [] pdu) <= MaxAPDUSize (Normalize limits) ->
  17 + len (appendPDU [] pdu) <= Z.min 65535 (MaxDatagramSize (Normalize limits)) ->
  exists frame n, replyPacket p (appendPDU [] pdu) = Ok [mkPacket frame (p_immediate p) false] /\
    Link.handlePacket limits fd frame (endpoint4 ip port) =
      Ok (Dispatch pdu (mkSource (LocalStation (macOf (ip ++ be_put 2 port))) (endpoint4 ip port) (endpoint4 ip port)) n) /\
    np_Destination n = p_source p.
Proof.
  intros Hs Hp Hip Hib Hport Hok H1 H2. destruct (reply_source_made _ Hs) as (Hm & hd & Hc & Hd).
  destruct (frame_dispatched pdu (p_source p) false 255 limits FunctionOriginalUnicastNPDU fd ip port hd) as (raw & frame & n & Hf & Hh & Hn & _);
    try done; [by left|]. exists frame, n. unfold replyPacket. rewrite Hf. split_and!; try done. by rewrite Hn.
Qed.

Lemma reject_reply p id reason : reply_source (p_source p) -> is_byte id -> is_byte reason ->
  exists frame, replyPacket p (AppendReject [] (mkRejectPDU id reason)) = Ok [mkPacket frame (p_immediate p) false].
Proof.
  intros Hs Hid Hr. destruct (replyPacket_frame p (PReject (mkRejectPDU id reason)) DefaultDecodeLimits [0; 0; 0; 0] 0 None Hs) as (fr & n & Hf & _).
  - split; done.
  - done.
  - solve_bytes.
  - unfold is_u. lia.
  - cbn. unfold TypeReject. solve_bytes.
  - done.
  - done.
  - by exists fr.
Qed.

(** ** A parsed NPDU *)
Lemma npdu_wire_source n data : npdu_wire n data -> bytes_ok data -> a_scope (np_Source n) = AddressRemoteStation -> reply_source (np_Source n).
Proof.
  intros (hd & hs & d & s & hop & body & -> & _ & _ & _ & _ & Hs & _) Hok Hsc. destruct hs; [|destruct Hs as [Hs _]; by rewrite Hs in Hsc].
  inversion Hs as [m Hm Ha|net m Hn Hm Ha]; subst; rewrite <- Ha in *; [done|]. right. exists net, m. split_and!; try done; try lia.
  apply Forall_app in Hok as [_ Hok]. apply Forall_app in Hok as [_ Hok]. apply Forall_app in Hok as [Hok _].
  apply Forall_app in Hok as [_ Hok]. by apply Forall_app in Hok as [_ Hok].
Qed.

Definition net_ok {St} (ok : St -> Prop) (s : netState St) : Prop :=
  routes_ok (n_routes s) /\ forall b, n_bbmd s = Some b -> ok b.

(** What the packet path guarantees of the action it starts. *)
Definition action_ok (immediate : Endpoint) (a : action) : Prop :=
  match a with
  | actConfirmed req p => arrives req p /\ p_immediate p = immediate /\ reply_source (p_source p)
  | actUnconfirmed req p => pdu_ok (PUnconfirmedRequest req) /\ peer_ok p /\ p_immediate p = immediate /\ reply_source (p_source p)
  | actSegmentACK sack p => pdu_ok (PSegmentACK sack) /\ peer_ok p
  | actResponse pdu p => pdu_ok pdu /\ peer_ok p
  | actAbort id p => is_byte id /\ peer_ok p
  end.

Section PacketProofs.
Context {St : Type} `{BBMDOps St} (ok : St -> Prop) `{!BBMDLaws St ok}.
Context (limits : DecodeLimits) (h : hooks).

Lemma dispatch_ok now pdu p d a d' : pdu_ok pdu -> peer_ok p -> reply_source (p_source p) ->
  dispatch h now pdu p d = (Some a, d') -> action_ok (p_immediate p) a.
Proof.
  intros Hp Hpe Hs. destruct pdu as [req|req|x|x|x|x|x|x]; cbn [dispatch]; try (by intros [= <- _]).
  - destruct (respondsTo _ _ _) as [[] ?]; intros [= <- _]. done.
  - destruct (respondsTo _ _ _) as [[] ?]; [|done]. cbn [negb]. destruct (unconfirmedServices !! _); [|done].
    destruct (negb _); [done|]. intros [= <- _]. done.
  - destruct (ab_Server x); intros [= <- _]; [done|]. split; [apply Hp|done].
Qed.

Lemma serveNPDU_ok now payload p s : net_ok ok s -> bytes_ok payload -> ep_wf (p_origin p) -> p_source p = zeroAddress ->
  exists v, serveNPDU limits h now payload p s = Ok v /\ net_ok ok (v_state v) /\
    forall a, v_action v = Some a -> action_ok (p_immediate p) a.
Proof.
  intros Hs Hok Hw Hz. unfold serveNPDU. cbv zeta.
  assert (forall s', net_ok ok s' -> exists v, Ok (mkServed [] None s') = Ok v /\ net_ok ok (v_state v) /\
    forall a, v_action v = Some a -> action_ok (p_immediate p) a) as Hstop by (intros s' ?; by eexists).
  destruct (negb (IsValid (p_origin p)) || _) eqn:E; [by apply Hstop|]. apply orb_false_iff in E as [Ev _]. apply negb_false_iff in Ev.
  destruct (Npdu.Parse payload limits) as [[n k]|] eqn:Hn; [|by apply Hstop]. destruct (npdu_sound _ _ _ _ Hok Hn) as [Hwire _].
  set (s1 := mkNet _ _ _). assert (net_ok ok s1) as Hs1 by (destruct Hs as [H1 H2]; split; [by apply learnRoutes_ok|done]).
  destruct (np_NetworkMessage n); [by apply Hstop|]. destruct (_ || _); [by apply Hstop|].
  set (p1 := mkPeer _ _ _ _). assert (reply_source (p_source p1)) as Hsrc.
  { cbn. destruct (bool_decide _) eqn:Eb; [apply bool_decide_eq_true in Eb; by eapply npdu_wire_source|]. rewrite Hz. by left. }
  assert (peer_ok p1) as Hp1 by (split; [done|split; [done|by apply reply_source_ok]]).
  destruct (len (np_APDU n) =? 0); [by apply Hstop|]. pose proof (npdu_wire_apdu _ _ Hwire Hok) as Hapdu.
  destruct (Apdu.Parse (np_APDU n) limits) as [pdu|] eqn:Hpdu.
  - destruct (pdu_sound _ _ _ Hapdu Hpdu) as (Hpo & _). destruct (dispatch h now pdu p1 (n_dcc s1)) as [a d] eqn:Ed. eexists. split; [reflexivity|].
    split; [done|]. cbn [v_action]. intros a' ->. change (p_immediate p) with (p_immediate p1). by eapply dispatch_ok.
  - destruct (_ >=? 4) eqn:E4; [|by apply Hstop]. bool_to_prop. destruct (index_total (np_APDU n) 0) as (b0 & -> & _); [lia|]. rewrite bind_Ok_l.
    destruct (_ && _); [|by apply Hstop]. destruct (index_total (np_APDU n) 2) as (id & Hid & _); [lia|]. rewrite Hid, bind_Ok_l.
    pose proof (index_bytes_ok _ _ _ Hid Hapdu) as Hib.
    destruct (reject_reply p1 id RejectReasonInvalidTag Hsrc Hib ltac:(unfold is_u, RejectReasonInvalidTag; lia)) as [fr Hf].
    rewrite Hf, bind_Ok_l. by eexists.
Qed.
End PacketProofs.

Lemma handlePacket_ok {St} `{BBMDOps St} (ok : St -> Prop) `{!BBMDLaws St ok} limits h now now' now2 data immediate s :
  net_ok ok s -> bytes_ok data -> IsValid immediate = true -> ep_wf immediate ->
  exists v, handlePacket limits h now now' now2 data immediate s = Ok v /\ net_ok ok (v_state v) /\
    forall a, v_action v = Some a -> action_ok immediate a.
Proof.
  intros Hs Hok Hv Hw. unfold handlePacket. cbv zeta.
  assert (forall sent s', net_ok ok s' -> exists v, Ok (mkServed sent None s') = Ok v /\ net_ok ok (v_state v) /\
    forall a, v_action v = Some a -> action_ok immediate a) as Hstop by (intros sent s' ?; by eexists).
  destruct (Bvlc.Parse data limits) as [msg|] eqn:Hp; [|by apply Hstop]. pose proof (Parse_rx _ _ _ Hok Hp) as Hrx.
  pose proof Hrx as (Hpl & _ & Horg).
  assert (forall origin broadcast s', net_ok ok s' -> ep_wf origin -> exists v,
    serveNPDU limits h now2 (m_Payload msg) (mkPeer immediate origin zeroAddress broadcast) s' = Ok v /\ net_ok ok (v_state v) /\
    forall a, v_action v = Some a -> action_ok immediate a) as Hserve.
  { intros origin broadcast s' Hs' Hwo. by apply (serveNPDU_ok ok limits h now2 (m_Payload msg) (mkPeer immediate origin zeroAddress broadcast) s'). }
  destruct (m_Function msg =? FunctionOriginalUnicastNPDU); [by apply Hserve|].
  assert (forall b, n_bbmd s = Some b -> exists sent deliver origin b', bbmd_HandleBVLC now now' msg immediate b = Ok (sent, deliver, origin, b') /\
    net_ok ok (mkNet (Some b') (n_routes s) (n_dcc s)) /\ (deliver = true -> ep_wf origin)) as Hb.
  { intros b Hb. destruct Hs as [H1 H2]. destruct (bbmd_handles now now' msg immediate b (H2 b Hb) Hrx Hv Hw) as (sent & dl & og & b' & He & Hb' & Ho).
    exists sent, dl, og, b'. split_and!; [done| |intros Ht; by apply Ho]. split; [done|]. by intros ? [= <-]. }
  destruct (_ || (m_Function msg =? FunctionDistributeBroadcastToNetwork)).
  - destruct (n_bbmd s) as [b|] eqn:Eb.
    + destruct (Hb b eq_refl) as (sent & dl & og & b' & -> & Hs' & Ho). rewrite bind_Ok_l. destruct dl; cbn [negb]; [|by apply Hstop].
      destruct (Hserve og true _ Hs' (Ho eq_refl)) as (v & -> & Hv1 & Hv2). rewrite bind_Ok_l. by eexists.
    + destruct (m_Function msg =? FunctionForwardedNPDU) eqn:E2.
      * apply Hserve; [done|]. apply Z.eqb_eq in E2. destruct (Horg E2) as [_ Hwo]. unfold Origin, origin_of, OriginAddrPort in *. by rewrite E2 in *.
      * destruct (_ =? FunctionDistributeBroadcastToNetwork); [by apply Hstop|by apply Hserve].
  - destruct (_ || (m_Function msg =? FunctionDeleteForeignDeviceTableEntry)); [|by apply Hstop].
    destruct (n_bbmd s) as [b|] eqn:Eb; [|by apply Hstop].
    destruct (Hb b eq_refl) as (sent & dl & og & b' & -> & Hs' & _). rewrite bind_Ok_l. by apply Hstop.
Qed.

(** ** Properties *)

(** C36. The server's packet path, over any BBMD that satisfies the interface:
    no datagram from a valid peer makes it panic; the router table keeps at
    most 64 routes, to valid networks and endpoints only, and the BBMD its
    invariant; and what reaches the responder, the requester and the workers
    is a well-formed PDU from a requester with a valid B/IP origin and a
    reply address that can be sent to. *)
Theorem server_inbound_total {St} `{BBMDOps St} (ok : St -> Prop) `{!BBMDLaws St ok} limits h now now' now2 data immediate s :
  net_ok ok s -> bytes_ok data -> IsValid immediate = true -> ep_wf immediate ->
  exists v, handlePacket limits h now now' now2 data immediate s = Ok v /\
    Z.of_nat (size (n_routes (v_state v))) <= maxRoutes /\
    (forall net ep, n_routes (v_state v) !! net = Some ep -> net <> 0 /\ net <> 0xFFFF /\ IsValid ep = true) /\
    (forall b, n_bbmd (v_state v) = Some b -> ok b) /\
    (forall a, v_action v = Some a -> action_ok immediate a).
Proof.
  intros Hs Hok Hv Hw. destruct (handlePacket_ok ok limits h now now' now2 data immediate s Hs Hok Hv Hw) as (v & Hh & [Hr Hb] & Ha).
  exists v. split_and!; try done; apply Hr.
Qed.

Definition sampleNet : netState BBMD := mkNet (Some sampleRegistered) ∅ (mkDcc EnableDisableEnable None).

Lemma sampleNet_ok : net_ok bbmd_ok sampleNet.
Proof.
  split; [split; [done|]|].
  - intros net ep Hl. cbn in Hl. by apply lookup_empty_Some in Hl.
  - intros b [= <-]. apply sampleRegistered_ok.
Qed.

(** A ReadProperty from the foreign device, distributed as a broadcast. *)
Lemma server_inbound_total_witness :
  exists v, handlePacket DefaultDecodeLimits (mkHooks false false false false) 5 5 5
      [0x81; 0x0A; 0; 12; 1; 4; 0x00; 5; 9; 12; 1; 2] (endpoint4 [10; 0; 2; 9] 47808) sampleNet = Ok v /\
    match v_action v with Some (actConfirmed req p) => arrives req p | _ => False end.
Proof.
  destruct (sample_wf [10; 0; 2; 9] 47808) as [Hv Hw]; [done|solve_bytes|unfold is_u; lia|].
  destruct (server_inbound_total bbmd_ok DefaultDecodeLimits (mkHooks false false false false) 5 5 5
    [0x81; 0x0A; 0; 12; 1; 4; 0x00; 5; 9; 12; 1; 2] (endpoint4 [10; 0; 2; 9] 47808) sampleNet sampleNet_ok) as (v & Hh & _ & _ & _ & Ha);
    [solve_bytes|done|done|].
  exists v. split; [done|].
  assert (exists req p, v_action v = Some (actConfirmed req p)) as (req & p & E).
  { vm_compute in Hh. injection Hh as <-. by eexists _, _. }
  rewrite E. apply (Ha _ E).
Defined.

(** C37. A reply reaches its requester: for every PDU and every requester the
    packet path lets through, the datagram is addressed to the B/IP node the
    request came from, and a client that receives it dispatches the same PDU
    with the NPDU addressed to the station the request came from. *)
Theorem reply_reaches_requester p pdu limits ip port fd : reply_source (p_source p) -> pdu_ok pdu ->
  length ip = 4%nat -> bytes_ok ip -> is_u 16 port ->
  bytes_ok (appendPDU [] pdu) -> len (appendPDU [] pdu) <= MaxAPDUSize (Normalize limits) ->
  17 + len (appendPDU [] pdu) <= Z.min 65535 (MaxDatagramSize (Normalize limits)) ->
  exists pkt n, replyPacket p (appendPDU [] pdu) = Ok [pkt] /\ pkt_Destination pkt = p_immediate p /\ pkt_Broadcast pkt = false /\
    Link.handlePacket limits fd (pkt_Data pkt) (endpoint4 ip port) =
      Ok (Dispatch pdu (mkSource (LocalStation (macOf (ip ++ be_put 2 port))) (endpoint4 ip port) (endpoint4 ip port)) n) /\
    np_Destination n = p_source p.
Proof.
  intros Hs Hp Hip Hib Hport Hok H1 H2. destruct (replyPacket_frame p pdu limits ip port fd) as (fr & n & Hr & Hh & Hn); try done.
  by exists (mkPacket fr (p_immediate p) false), n.
Qed.

Lemma reply_reaches_requester_witness :
  exists pkt n, replyPacket (mkPeer (endpoint4 [10; 0; 0; 7] 47808) (endpoint4 [10; 0; 0; 7] 47808) (RemoteStation 5 (macOf [3])) false)
      (appendPDU [] (PSimpleACK (mkSimpleACK 9 15))) = Ok [pkt] /\
    Link.handlePacket DefaultDecodeLimits None (pkt_Data pkt) (endpoint4 [10; 0; 0; 1] 47808) =
      Ok (Dispatch (PSimpleACK (mkSimpleACK 9 15)) (mkSource (LocalStation (macOf ([10; 0; 0; 1] ++ be_put 2 47808)))
            (endpoint4 [10; 0; 0; 1] 47808) (endpoint4 [10; 0; 0; 1] 47808)) n) /\
    np_Destination n = RemoteStation 5 (macOf [3]).
Proof.
  destruct (reply_reaches_requester (mkPeer (endpoint4 [10; 0; 0; 7] 47808) (endpoint4 [10; 0; 0; 7] 47808) (RemoteStation 5 (macOf [3])) false)
    (PSimpleACK (mkSimpleACK 9 15)) DefaultDecodeLimits [10; 0; 0; 1] 47808 None) as (pkt & n & H1 & _ & _ & H2 & H3).
  - right. exists 5, [3]. split; [done|]. split; [lia|]. split; [done|solve_bytes].
  - split; unfold is_u; cbn; lia.
  - done.
  - solve_bytes.
  - unfold is_u. lia.
  - cbn. unfold TypeSimpleACK. solve_bytes.
  - done.
  - done.
  - by exists pkt, n.
Defined.

(** Communication control: after a Disable the server answers no request
    but DeviceCommunicationControl and ReinitializeDevice until the duration
    is over - for ever if none was given - and initiates nothing; from then
    on it serves and initiates again. Segment acknowledgements, aborts and
    answers to its own requests are handled all the time. *)
Theorem communication_control h now pdu p until d : let dis := dccSet EnableDisableDisable until d in
  let over := match until with Some u => u <=? now | None => false end in
  (over = false ->
     fst (mayInitiate now dis) = false /\
     forall a, fst (dispatch h now pdu p dis) = Some a ->
       match a with
       | actConfirmed req _ => cr_ServiceChoice req = ServiceDeviceCommunicationControl \/ cr_ServiceChoice req = ServiceReinitializeDevice
       | actUnconfirmed _ _ => False
       | _ => True
       end) /\
  (over = true -> fst (mayInitiate now dis) = true /\ fst (dispatch h now pdu p dis) = fst (dispatch h now pdu p (mkDcc EnableDisableEnable None))) /\
  (match pdu with PConfirmedRequest _ | PUnconfirmedRequest _ => True | _ => fst (dispatch h now pdu p dis) <> None end).
Proof.
  intros dis over. assert (current now dis = if over then (EnableDisableEnable, mkDcc EnableDisableEnable until) else (EnableDisableDisable, dis)) as Hc.
  { unfold current, dis, over, dccSet. cbn [d_until d_mode]. destruct until as [u|]; [|done]. rewrite <- Z.leb_antisym. by destruct (u <=? now). }
  split_and!.
  - intros Ho. rewrite Ho in Hc. split; [unfold mayInitiate; by rewrite Hc|]. intros a.
    destruct pdu as [req|req|x|x|x|x|x|x]; cbn [dispatch]; try (by intros [= <-]).
    + unfold respondsTo. rewrite Hc. cbn. destruct (_ || _) eqn:E; [|done]. intros [= <-]. apply orb_true_iff in E as [E|E]; apply Z.eqb_eq in E; auto.
    + unfold respondsTo. rewrite Hc. done.
    + destruct (ab_Server x); by intros [= <-].
  - intros Ho. rewrite Ho in Hc. split; [unfold mayInitiate; by rewrite Hc|].
    destruct pdu as [req|req|x|x|x|x|x|x]; cbn [dispatch]; try done.
    + unfold respondsTo. by rewrite Hc.
    + unfold respondsTo. rewrite Hc. cbn [fst snd current d_mode d_until andb negb bool_decide].
      change (current now (mkDcc EnableDisableEnable None)) with (EnableDisableEnable, mkDcc EnableDisableEnable None). cbv iota zeta.
      change (negb (bool_decide (EnableDisableEnable = EnableDisableDisable))) with true. cbn [negb].
      destruct (unconfirmedServices !! _); [|done]. by destruct (negb _).
  - destruct pdu as [req|req|x|x|x|x|x|x]; cbn [dispatch]; try done. by destruct (ab_Server x).
Qed.
