(* ===== verification/Requester.v ===== *)
(** * The server's own requests: [server/requester.go]

    Confirmed COV and event notifications. A pending request is an object
    that the goroutine of [invoke] and the receive loop share; the map holds
    pointers to it. Goroutines interleave in any order: a run is a sequence
    of steps with a trace of what happened. *)

From Stdlib Require Import ZArith Lia.
From stdpp Require Import base list gmap fin_maps.
From S2P Require Import Prelude Value Apdu Address Npdu Endpoint Bvlc Link Bbmd ServerKey Responder ServerPacket.

(** [ch] is a channel of capacity 1. *)
Record pendingReq := mkPendingReq { pq_to : Endpoint; pq_svc : Z; pq_ch : option PDU }.
Record requester := mkRequester { rq_next : Z; rq_pending : gmap Z nat; rq_heap : gmap nat pendingReq; rq_closing : bool }.
Definition newRequester : requester := mkRequester 0 ∅ ∅ false.

Inductive requestError :=
| errNoInvokeID
| errSend                                   (** the error of [sendAPDU] *)
| errContext                                (** [ctx.Err()] *)
| errRequestTimeout
| errAnswer (e : error)                     (** an Error PDU that cannot be decoded *)
| ErrorResponse (invokeID service class code : Z)
| RejectError (invokeID reason : Z)
| AbortError (invokeID : Z) (server : bool) (reason : Z).

(** The search for an invoke ID, [k] candidates left. *)
Fixpoint takeInvokeID (k : nat) (r : requester) : option Z * requester :=
  match k with
  | 0%nat => (None, r)
  | S k =>
      let cand := rq_next r in
      let r := mkRequester (u8 (rq_next r + 1)) (rq_pending r) (rq_heap r) (rq_closing r) in
      if bool_decide (is_Some (rq_pending r !! cand)) then takeInvokeID k r else (Some cand, r)
  end.
(** The first critical section of [invoke]; [p] points to the new
    [pendingReq]. *)
Definition startRequest (p : nat) (to : Endpoint) (svc : Z) (r : requester) : option Z * requester :=
  match takeInvokeID 256 r with
  | (None, r) => (None, r)
  | (Some id, r) => (Some id, mkRequester (rq_next r) (<[id := p]> (rq_pending r)) (<[p := mkPendingReq to svc None]> (rq_heap r)) (rq_closing r))
  end.
(** The deferred function of [invoke]. *)
Definition endRequest (id : Z) (r : requester) : requester := mkRequester (rq_next r) (base.delete id (rq_pending r)) (rq_heap r) (rq_closing r).

(** The frame: a size that has no code is sent as code 0. *)
Definition requestPDU (cfg : serverConfig) (id svc : Z) (payload : bytes) : ConfirmedRequest :=
  let code := match EncodeMaxAPDUSize (sc_maxAPDU cfg) with Ok code => code | Err _ => 0 end in
  mkConfirmedRequest false false false 0 (u8 code) id 0 0 svc payload.

(** [responseError]; [nil] is [None]. On a PDU that is no answer it
    dereferences a nil pointer. *)
Definition responseError (pdu : PDU) (id : Z) : result (option requestError) :=
  match pdu with
  | PSimpleACK _ | PComplexACK _ => Ok None
  | PError e =>
      match DecodeErrorClassCode (ep_Payload e) DefaultDecodeLimits with
      | Err err => Ok (Some (errAnswer err))
      | Ok (class, code) => Ok (Some (ErrorResponse id (ep_ServiceChoice e) class code))
      end
  | PReject r => Ok (Some (RejectError id (rj_Reason r)))
  | PAbort a => Ok (Some (AbortError id (ab_Server a) (ab_Reason a)))
  | _ => Err Panic
  end.

(** The request an answer is for. *)
Definition answerID (pdu : PDU) : option Z :=
  match pdu with
  | PSimpleACK a => Some (sa_InvokeID a)
  | PComplexACK a => Some (ca_InvokeID a)
  | PError e => Some (ep_InvokeID e)
  | PReject r => Some (rj_InvokeID r)
  | PAbort a => Some (ab_InvokeID a)
  | _ => None
  end.
(** [response]: the answer of a node that was asked is kept if none is. The
    lookup and the delivery are one step: in between only the request could
    end, and nobody reads the channel of a request that has ended. *)
Definition response (pdu : PDU) (p : peer) (r : requester) : requester :=
  match answerID pdu with
  | None => r
  | Some id =>
      match rq_pending r !! id with
      | None => r
      | Some ptr =>
          mkRequester (rq_next r) (rq_pending r)
            (alter (fun pr => if negb (EndpointEqual (pq_to pr) (p_immediate p)) then pr
                              else mkPendingReq (pq_to pr) (pq_svc pr) (match pq_ch pr with None => Some pdu | Some a => Some a end)) ptr (rq_heap r)) (rq_closing r)
      end
  end.

(** [close], up to the wait, and [async]: whether the function runs. *)
Definition requesterClose (r : requester) : requester := mkRequester (rq_next r) (rq_pending r) (rq_heap r) true.
Definition async (serverClosed : bool) (r : requester) : bool := negb (rq_closing r || serverClosed).

(** ** The goroutine of [invoke]

    It sends, waits for an answer, the end of its context or the timeout, and
    sends again; when it has a result it leaves through the deferred
    function. *)
Inductive invokePhase := sendingRequest | awaitingAnswer | leaving (res : option requestError) | returned (res : option requestError).
Record invocation := mkInvocation { iv_id : Z; iv_ptr : nat; iv_to : Endpoint; iv_dest : Address; iv_frame : bytes; iv_attempt : Z; iv_phase : invokePhase }.
Definition atPhase (ph : invokePhase) (iv : invocation) : invocation :=
  mkInvocation (iv_id iv) (iv_ptr iv) (iv_to iv) (iv_dest iv) (iv_frame iv) (iv_attempt iv) ph.
(** The head of the loop: [attempt <= retries]. *)
Definition atAttempt (retries attempt : Z) : invokePhase := if attempt <=? retries then sendingRequest else leaving (Some errRequestTimeout).
Definition startInvocation (cfg : serverConfig) (retries id : Z) (p : nat) (to : Endpoint) (dest : Address) (svc : Z) (payload : bytes) : invocation :=
  mkInvocation id p to dest (AppendConfirmedRequest [] (requestPDU cfg id svc payload)) 0 (atAttempt retries 0).
Definition nextAttempt (retries : Z) (iv : invocation) : invocation :=
  mkInvocation (iv_id iv) (iv_ptr iv) (iv_to iv) (iv_dest iv) (iv_frame iv) (iv_attempt iv + 1) (atAttempt retries (iv_attempt iv + 1)).
(** [sendAPDU] either fails, before or in the transport, or gives one
    datagram to it. *)
Definition attemptSend {St} `{BBMDOps St} (now : Z) (iv : invocation) (bbmd : option St) : result (list OutboundPacket * option St) :=
  ServerPacket.sendAPDU now (iv_to iv) false (iv_dest iv) true (iv_frame iv) bbmd.

Inductive requestEvent :=
| Invoked (g : nat) (id : Z) (to : Endpoint) (dest : Address) (svc : Z) (payload : bytes)
| Sent (g : nat) (packets : list OutboundPacket)
| SendFailed (g : nat)
| Cancelled (g : nat)
| Received (pdu : PDU) (p : peer)
| Returned (g : nat) (res : option requestError).

Record requestWorld := mkRequestWorld { rw_requester : requester; rw_running : gmap nat invocation }.

Section Runs.
Context (cfg : serverConfig) (retries : Z).

(** [g] names a call of [invoke]. The channel is looked at and the deferred
    function is run in steps of their own: any other goroutine can run in
    between. A [select] takes any case that is ready. *)
Inductive request_step : requestWorld -> list requestEvent -> requestWorld -> Prop :=
| rq_invoke r gs g p to dest svc payload id r' : gs !! g = None -> rq_heap r !! p = None -> startRequest p to svc r = (Some id, r') ->
    request_step (mkRequestWorld r gs) [Invoked g id to dest svc payload]
      (mkRequestWorld r' (<[g := startInvocation cfg retries id p to dest svc payload]> gs))
| rq_refuse r gs p to svc r' : startRequest p to svc r = (None, r') -> request_step (mkRequestWorld r gs) [] (mkRequestWorld r' gs)
| rq_send r gs g iv now packets (bbmd bbmd' : option BBMD) : gs !! g = Some iv -> iv_phase iv = sendingRequest ->
    attemptSend now iv bbmd = Ok (packets, bbmd') ->
    request_step (mkRequestWorld r gs) [Sent g packets] (mkRequestWorld r (<[g := atPhase awaitingAnswer iv]> gs))
| rq_send_fails r gs g iv : gs !! g = Some iv -> iv_phase iv = sendingRequest ->
    request_step (mkRequestWorld r gs) [SendFailed g] (mkRequestWorld r (<[g := atPhase (leaving (Some errSend)) iv]> gs))
| rq_cancelled r gs g iv : gs !! g = Some iv -> iv_phase iv = awaitingAnswer ->
    request_step (mkRequestWorld r gs) [Cancelled g] (mkRequestWorld r (<[g := atPhase (leaving (Some errContext)) iv]> gs))
| rq_answered r gs g iv pr pdu res : gs !! g = Some iv -> iv_phase iv = awaitingAnswer -> rq_heap r !! iv_ptr iv = Some pr -> pq_ch pr = Some pdu ->
    responseError pdu (iv_id iv) = Ok res ->
    request_step (mkRequestWorld r gs) [] (mkRequestWorld r (<[g := atPhase (leaving res) iv]> gs))
| rq_timeout r gs g iv : gs !! g = Some iv -> iv_phase iv = awaitingAnswer ->
    request_step (mkRequestWorld r gs) [] (mkRequestWorld r (<[g := nextAttempt retries iv]> gs))
| rq_return r gs g iv res : gs !! g = Some iv -> iv_phase iv = leaving res ->
    request_step (mkRequestWorld r gs) [Returned g res] (mkRequestWorld (endRequest (iv_id iv) r) (<[g := atPhase (returned res) iv]> gs))
| rq_receive r gs pdu p : request_step (mkRequestWorld r gs) [Received pdu p] (mkRequestWorld (response pdu p r) gs).

Inductive request_run : list requestEvent -> requestWorld -> Prop :=
| request_start : request_run [] (mkRequestWorld newRequester ∅)
| request_next tr w ls w' : request_run tr w -> request_step w ls w' -> request_run (tr ++ ls) w'.

(** ** What the trace says *)

(** An answer that counts for the request [g]: it carries its invoke ID, was
    received after the request was made, and came from the node that was
    asked. *)
Definition answered (tr : list requestEvent) (g : nat) (id : Z) (to : Endpoint) (pdu : PDU) : Prop :=
  exists t1 t2 t3 dest svc payload p, tr = t1 ++ Invoked g id to dest svc payload :: t2 ++ Received pdu p :: t3 /\
    answerID pdu = Some id /\ p_immediate p = to.
Definition attempt_of (g : nat) (ev : requestEvent) : bool :=
  match ev with Sent g' _ | SendFailed g' => bool_decide (g' = g) | _ => false end.
Definition sends (g : nat) (tr : list requestEvent) : Z := len (List.filter (attempt_of g) tr).
Definition running (iv : invocation) : Prop := match iv_phase iv with returned _ => False | _ => True end.

(** Where a result comes from. *)
Definition explained (tr : list requestEvent) (g : nat) (id : Z) (to : Endpoint) (res : option requestError) : Prop :=
  (res = Some errSend /\ SendFailed g ∈ tr) \/ (res = Some errContext /\ Cancelled g ∈ tr) \/ (res = Some errRequestTimeout /\ sends g tr = Z.max 0 (retries + 1)) \/
  exists pdu, answered tr g id to pdu /\ responseError pdu id = Ok res.

Definition invoked (tr : list requestEvent) (g : nat) (iv : invocation) : Prop :=
  exists t1 t2 svc payload, tr = t1 ++ Invoked g (iv_id iv) (iv_to iv) (iv_dest iv) svc payload :: t2 /\
    is_byte (iv_id iv) /\ iv_frame iv = AppendConfirmedRequest [] (requestPDU cfg (iv_id iv) svc payload).

Definition attempt_ok (tr : list requestEvent) (g : nat) (iv : invocation) : Prop :=
  0 <= iv_attempt iv /\
  match iv_phase iv with
  | sendingRequest => sends g tr = iv_attempt iv /\ iv_attempt iv <= retries
  | awaitingAnswer => sends g tr = iv_attempt iv + 1 /\ iv_attempt iv <= retries
  | leaving res | returned res => sends g tr <= Z.max 0 (retries + 1) /\ explained tr g (iv_id iv) (iv_to iv) res
  end.

Record request_ok (tr : list requestEvent) (w : requestWorld) : Prop := {
  ro_running g iv : rw_running w !! g = Some iv -> running iv -> rq_pending (rw_requester w) !! iv_id iv = Some (iv_ptr iv);
  ro_heap g iv : rw_running w !! g = Some iv -> exists pr, rq_heap (rw_requester w) !! iv_ptr iv = Some pr /\ pq_to pr = iv_to iv;
  ro_pending id p : rq_pending (rw_requester w) !! id = Some p -> is_byte id /\ exists g iv, rw_running w !! g = Some iv /\ running iv /\ iv_id iv = id /\ iv_ptr iv = p;
  ro_next : is_byte (rq_next (rw_requester w));
  ro_ptr g g' iv iv' : rw_running w !! g = Some iv -> rw_running w !! g' = Some iv' -> iv_ptr iv = iv_ptr iv' -> g = g';
  ro_invoked g iv : rw_running w !! g = Some iv -> invoked tr g iv;
  ro_answer g iv pr pdu : rw_running w !! g = Some iv -> rq_heap (rw_requester w) !! iv_ptr iv = Some pr -> pq_ch pr = Some pdu ->
    answered tr g (iv_id iv) (iv_to iv) pdu;
  ro_sends g iv : rw_running w !! g = Some iv -> attempt_ok tr g iv;
  ro_none g : rw_running w !! g = None -> sends g tr = 0
}.

Lemma sends_app g tr ls : sends g (tr ++ ls) = sends g tr + sends g ls.
Proof. unfold sends. by rewrite List.filter_app, len_app. Qed.

Lemma answered_snoc tr ls g id to pdu : answered tr g id to pdu -> answered (tr ++ ls) g id to pdu.
Proof.
  intros (t1 & t2 & t3 & dest & svc & payload & p & -> & Hid & Hto). exists t1, t2, (t3 ++ ls), dest, svc, payload, p. split_and!; try done.
  by rewrite <- app_assoc, <- app_comm_cons, <- app_assoc, <- app_comm_cons.
Qed.
Lemma invoked_snoc tr ls g iv : invoked tr g iv -> invoked (tr ++ ls) g iv.
Proof. intros (t1 & t2 & svc & payload & -> & H). exists t1, (t2 ++ ls), svc, payload. split; [|done]. by rewrite <- app_assoc, <- app_comm_cons. Qed.
Lemma explained_snoc tr ls g id to res : sends g ls = 0 -> explained tr g id to res -> explained (tr ++ ls) g id to res.
Proof.
  intros H0 [[-> H]|[[-> H]|[[-> H]|(pdu & Ha & Hr)]]]; unfold explained.
  - left. split; [done|]. apply elem_of_app. by left.
  - right; left. split; [done|]. apply elem_of_app. by left.
  - right; right; left. split; [done|]. by rewrite sends_app, H0, Z.add_0_r.
  - right; right; right. exists pdu. split; [by apply answered_snoc|done].
Qed.

Lemma attempt_snoc tr ls g iv : sends g ls = 0 -> attempt_ok tr g iv -> attempt_ok (tr ++ ls) g iv.
Proof.
  intros H0 [Ha H]. split; [done|]. rewrite sends_app, H0, Z.add_0_r. destruct (iv_phase iv); [done..| |]; (destruct H; split; [done|by apply explained_snoc]).
Qed.

Lemma takeInvokeID_spec k r : is_byte (rq_next r) ->
  match takeInvokeID k r with
  | (Some id, r') => is_byte id /\ rq_pending r !! id = None /\ is_byte (rq_next r') /\ rq_pending r' = rq_pending r /\ rq_heap r' = rq_heap r
  | (None, r') => is_byte (rq_next r') /\ rq_pending r' = rq_pending r /\ rq_heap r' = rq_heap r /\
      forall i, (i < k)%nat -> is_Some (rq_pending r !! u8 (rq_next r + Z.of_nat i))
  end.
Proof.
  assert (forall x, is_byte (u8 x)) as Hu by (intros x; apply uwrap_range; lia).
  revert r. induction k as [|k IH]; intros r Hr; cbn [takeInvokeID]; [split_and!; try done; intros; lia|].
  case_bool_decide as Hused.
  - cbn [rq_pending] in Hused. specialize (IH (mkRequester (u8 (rq_next r + 1)) (rq_pending r) (rq_heap r) (rq_closing r)) (Hu _)).
    destruct (takeInvokeID k _) as [[id|] r']; [done|]. cbn [rq_next rq_pending rq_heap] in IH. destruct IH as (H1 & H2 & H3 & H4). split_and!; try done.
    intros [|i] Hi; [rewrite Z.add_0_r; by rewrite uwrap_small|]. specialize (H4 i ltac:(lia)).
    assert (u8 (u8 (rq_next r + 1) + Z.of_nat i) = u8 (rq_next r + Z.of_nat (S i))) as <-; [|done].
    unfold uwrap. rewrite Z.add_mod_idemp_l by done. f_equal. lia.
  - cbn [rq_pending] in Hused. apply eq_None_not_Some in Hused. split_and!; try done. apply Hu.
Qed.

(** An invoke ID is found unless all 256 are in use. *)
Lemma startRequest_spec p to svc r : is_byte (rq_next r) ->
  match startRequest p to svc r with
  | (Some id, r') => is_byte id /\ rq_pending r !! id = None /\ is_byte (rq_next r') /\ rq_pending r' = <[id := p]> (rq_pending r) /\
      rq_heap r' = <[p := mkPendingReq to svc None]> (rq_heap r)
  | (None, r') => is_byte (rq_next r') /\ rq_pending r' = rq_pending r /\ rq_heap r' = rq_heap r /\ forall id, is_byte id -> is_Some (rq_pending r !! id)
  end.
Proof.
  intros Hr. unfold startRequest. pose proof (takeInvokeID_spec 256 r Hr) as H. destruct (takeInvokeID 256 r) as [[id|] r'].
  - destruct H as (H1 & H2 & H3 & H4 & H5). cbn. by rewrite H4, H5.
  - destruct H as (H1 & H2 & H3 & H4). split_and!; try done. intros id Hid. unfold is_byte, is_u in *.
    specialize (H4 (Z.to_nat ((id - rq_next r) mod 256))). pose proof (Z.mod_pos_bound (id - rq_next r) 256 ltac:(lia)).
    rewrite Z2Nat.id in H4 by lia. unfold uwrap in H4. change (2 ^ 8) with 256 in *. rewrite Z.add_mod_idemp_r in H4 by lia.
    replace (rq_next r + (id - rq_next r)) with id in H4 by lia. rewrite (Z.mod_small id) in H4 by lia. apply H4. lia.
Qed.

(** ** The invariant *)

Definition same_call (iv iv' : invocation) : Prop :=
  iv_id iv' = iv_id iv /\ iv_ptr iv' = iv_ptr iv /\ iv_to iv' = iv_to iv /\ iv_dest iv' = iv_dest iv /\ iv_frame iv' = iv_frame iv.

(** A step of the goroutine of [g] that keeps it running. *)
Lemma phase_ok tr r gs g iv iv' ls : request_ok tr (mkRequestWorld r gs) -> gs !! g = Some iv -> running iv -> running iv' -> same_call iv iv' ->
  (forall g', g' <> g -> sends g' ls = 0) -> attempt_ok (tr ++ ls) g iv' ->
  request_ok (tr ++ ls) (mkRequestWorld r (<[g := iv']> gs)).
Proof.
  intros [H1 H2 H3 H4 H5 H6 H7 H8 H9] Hg Hr Hr' (Hid & Hptr & Hto & Hdest & Hfr) Hls Hat. cbn [rw_requester rw_running] in *.
  assert (forall g' iv1, <[g := iv']> gs !! g' = Some iv1 -> exists iv0, gs !! g' = Some iv0 /\ same_call iv0 iv1 /\ (running iv1 -> running iv0)) as Hback.
  { intros g' iv1 H. apply lookup_insert_Some in H as [[<- <-]|[Hne H]]; [by exists iv|by exists iv1]. }
  split; cbn [rw_requester rw_running].
  - intros g' iv1 (iv0 & Hg' & (-> & -> & _) & Hrun)%Hback Hrun1. by apply (H1 g'); [|apply Hrun].
  - intros g' iv1 (iv0 & Hg' & (_ & -> & -> & _) & _)%Hback. by apply (H2 g').
  - intros id p Hp. destruct (H3 id p Hp) as (Hb & g' & iv0 & Hg' & Hr0 & Hi0 & Hp0). split; [done|].
    destruct (decide (g' = g)) as [->|Hne].
    + simplify_eq. exists g, iv'. by rewrite lookup_insert_eq.
    + exists g', iv0. by rewrite lookup_insert_ne.
  - done.
  - intros g1 g2 iv1 iv2 (iv1' & Hg1 & (_ & -> & _) & _)%Hback (iv2' & Hg2 & (_ & -> & _) & _)%Hback. by apply H5.
  - intros g' iv1 (iv0 & Hg' & (E1 & _ & E2 & E3 & E4) & _)%Hback. apply invoked_snoc. unfold invoked. rewrite E1, E2, E3, E4. by apply H6.
  - intros g' iv1 pr pdu (iv0 & Hg' & (-> & -> & -> & _) & _)%Hback Hpr Hch. apply answered_snoc. by eapply H7.
  - intros g' iv1 H. apply lookup_insert_Some in H as [[<- <-]|[Hne H]]; [done|]. apply attempt_snoc; [by apply Hls|by apply H8].
  - intros g' H. apply lookup_insert_None in H as [H Hne]. rewrite sends_app, (Hls g') by done. by rewrite (H9 _ H).
Qed.

Lemma running_phase iv ph : iv_phase iv = ph -> match ph with returned _ => False | _ => True end -> running iv.
Proof. unfold running. by intros ->. Qed.

Lemma atAttempt_running a : match atAttempt retries a with returned _ => False | _ => True end.
Proof. unfold atAttempt. by destruct (_ <=? _). Qed.

Lemma sends_one g ev : sends g [ev] = if attempt_of g ev then 1 else 0.
Proof. unfold sends. cbn. by destruct (attempt_of g ev). Qed.

Lemma send_ok tr r gs g iv iv' ev : request_ok tr (mkRequestWorld r gs) -> gs !! g = Some iv -> iv_phase iv = sendingRequest ->
  same_call iv iv' -> running iv' -> (forall g', attempt_of g' ev = bool_decide (g = g')) -> attempt_ok (tr ++ [ev]) g iv' ->
  request_ok (tr ++ [ev]) (mkRequestWorld r (<[g := iv']> gs)).
Proof.
  intros Hok Hg Hph Hsame Hrun Hev Hat. apply (phase_ok _ _ _ _ _ _ _ Hok Hg (running_phase _ _ Hph I) Hrun Hsame); [|done].
  intros g' Hne. rewrite sends_one, Hev. by rewrite bool_decide_eq_false_2 by congruence.
Qed.

Lemma returned_ok tr r gs g iv res : request_ok tr (mkRequestWorld r gs) -> gs !! g = Some iv -> iv_phase iv = leaving res ->
  request_ok (tr ++ [Returned g res]) (mkRequestWorld (endRequest (iv_id iv) r) (<[g := atPhase (returned res) iv]> gs)).
Proof.
  intros Hok Hg Hph. pose proof (running_phase _ _ Hph I) as Hrun.
  assert (forall g', sends g' [Returned g res] = 0) as Hls by (intros g'; by rewrite sends_one).
  pose proof (ro_sends _ _ Hok g iv Hg) as Hat. apply (attempt_snoc _ [Returned g res]) in Hat; [|done].
  assert (attempt_ok (tr ++ [Returned g res]) g (atPhase (leaving res) iv)) as Hat' by (unfold attempt_ok in *; by rewrite Hph in Hat).
  pose proof (phase_ok _ _ _ _ _ (atPhase (leaving res) iv) [Returned g res] Hok Hg Hrun I ltac:(done) (fun g' _ => Hls g') Hat') as Hok'.
  destruct Hok as [H1 _ H3 _ _ _ _ _ _], Hok' as [_ K2 _ K4 K5 K6 K7 K8 K9]. cbn [rw_requester rw_running] in *.
  assert (forall g' iv1, <[g := atPhase (returned res) iv]> gs !! g' = Some iv1 -> (g' = g /\ iv1 = atPhase (returned res) iv) \/ (g' <> g /\ gs !! g' = Some iv1)) as Hback.
  { intros g' iv1 H. apply lookup_insert_Some in H as [[<- <-]|[Hne H]]; [by left|right; split; [congruence|done]]. }
  assert (forall g' iv1, <[g := atPhase (returned res) iv]> gs !! g' = Some iv1 -> exists iv0, <[g := atPhase (leaving res) iv]> gs !! g' = Some iv0 /\ same_call iv0 iv1 /\
    (attempt_ok (tr ++ [Returned g res]) g' iv0 -> attempt_ok (tr ++ [Returned g res]) g' iv1)) as Hsame.
  { intros g' iv1 [[-> ->]|[Hne H]]%Hback; [exists (atPhase (leaving res) iv); by rewrite lookup_insert_eq|exists iv1; by rewrite lookup_insert_ne]. }
  split; cbn [rw_requester rw_running endRequest rq_pending rq_heap rq_next].
  - intros g' iv1 [[-> ->]|[Hne H]]%Hback Hr1; [done|]. rewrite lookup_delete_ne; [by apply (H1 g')|]. intros Heq.
    pose proof (H1 _ _ Hg Hrun) as E1. pose proof (H1 _ _ H Hr1) as E2. rewrite <- Heq in E2. rewrite E1 in E2. injection E2 as E2.
    apply Hne. apply (K5 g' g iv1 (atPhase (leaving res) iv)); [by rewrite lookup_insert_ne by congruence|by rewrite lookup_insert_eq|exact (eq_sym E2)].
  - intros g' iv1 (iv0 & Hg' & (_ & -> & -> & _) & _)%Hsame. by apply (K2 g').
  - intros id p [Hne Hp]%lookup_delete_Some. destruct (H3 id p Hp) as (Hb & g' & iv0 & Hg' & Hr0 & Hi0 & Hp0). split; [done|].
    exists g', iv0. rewrite lookup_insert_ne; [done|]. intros <-. congruence.
  - done.
  - intros g1 g2 iv1 iv2 (iv1' & Hg1 & (_ & -> & _) & _)%Hsame (iv2' & Hg2 & (_ & -> & _) & _)%Hsame. by apply K5.
  - intros g' iv1 (iv0 & Hg' & (E1 & _ & E2 & E3 & E4) & _)%Hsame. unfold invoked. rewrite E1, E2, E3, E4. by apply K6.
  - intros g' iv1 pr pdu (iv0 & Hg' & (-> & -> & -> & _) & _)%Hsame Hpr Hch. by eapply K7.
  - intros g' iv1 (iv0 & Hg' & _ & H)%Hsame. by apply H, K8.
  - intros g' H. apply K9. rewrite lookup_insert_None in *. done.
Qed.

Lemma sends_none g ev : attempt_of g ev = false -> sends g [ev] = 0.
Proof. intros H. by rewrite sends_one, H. Qed.

Lemma invoked_ok tr r gs g p to dest svc payload id r' : request_ok tr (mkRequestWorld r gs) -> gs !! g = None -> rq_heap r !! p = None ->
  startRequest p to svc r = (Some id, r') ->
  request_ok (tr ++ [Invoked g id to dest svc payload]) (mkRequestWorld r' (<[g := startInvocation cfg retries id p to dest svc payload]> gs)).
Proof.
  intros [H1 H2 H3 H4 H5 H6 H7 H8 H9] Hg Hp Hst. cbn [rw_requester rw_running] in *.
  pose proof (startRequest_spec p to svc r H4) as Hs. rewrite Hst in Hs. destruct Hs as (Hb & Hfree & Hnext & Hpend & Hheap).
  set (iv := startInvocation cfg retries id p to dest svc payload).
  assert (running iv) as Hrun by apply atAttempt_running.
  assert (forall g' iv1, <[g := iv]> gs !! g' = Some iv1 -> (g' = g /\ iv1 = iv) \/ (g' <> g /\ gs !! g' = Some iv1)) as Hback.
  { intros g' iv1 H. apply lookup_insert_Some in H as [[<- <-]|[Hne H]]; [by left|right; split; [congruence|done]]. }
  assert (forall g' iv1, gs !! g' = Some iv1 -> iv_ptr iv1 <> p) as Hfresh.
  { intros g' iv1 H Heq. destruct (H2 _ _ H) as (pr & Hpr & _). congruence. }
  assert (forall g', sends g' [Invoked g id to dest svc payload] = 0) as Hls by (intros g'; by apply sends_none).
  split; cbn [rw_requester rw_running]; rewrite ?Hpend, ?Hheap.
  - intros g' iv1 [[-> ->]|[Hne H]]%Hback Hr1; [by rewrite lookup_insert_eq|]. rewrite lookup_insert_ne; [by apply (H1 g')|].
    intros ->. rewrite (H1 _ _ H Hr1) in Hfree. done.
  - intros g' iv1 [[-> ->]|[Hne H]]%Hback; [exists (mkPendingReq to svc None); by rewrite lookup_insert_eq|].
    rewrite lookup_insert_ne; [by apply (H2 g')|]. apply not_eq_sym. by eapply Hfresh.
  - intros i q. rewrite lookup_insert_Some. intros [[<- <-]|[Hne Hq]].
    + split; [done|]. exists g, iv. by rewrite lookup_insert_eq.
    + destruct (H3 i q Hq) as (Hi & g' & iv0 & Hg' & Hrest). split; [done|]. exists g', iv0. rewrite lookup_insert_ne; [done|congruence].
  - done.
  - intros g1 g2 iv1 iv2 [[-> ->]|[Hne1 Hg1]]%Hback [[-> ->]|[Hne2 Hg2]]%Hback Hptr; [done| | |by eapply H5].
    + by edestruct Hfresh; [exact Hg2|].
    + by edestruct Hfresh; [exact Hg1|].
  - intros g' iv1 [[-> ->]|[Hne H]]%Hback; [exists tr, [], svc, payload; done|]. by apply invoked_snoc, H6.
  - intros g' iv1 pr pdu [[-> ->]|[Hne H]]%Hback Hpr Hch.
    + cbn [iv_ptr iv startInvocation] in Hpr. rewrite lookup_insert_eq in Hpr. by simplify_eq.
    + rewrite lookup_insert_ne in Hpr by (apply not_eq_sym; by eapply Hfresh). apply answered_snoc. by eapply H7.
  - intros g' iv1 [[-> ->]|[Hne H]]%Hback; [|by apply attempt_snoc; [apply Hls|apply H8]].
    unfold attempt_ok. cbn. rewrite sends_app, Hls, (H9 _ Hg), Z.add_0_r. split; [done|]. unfold atAttempt. destruct (Z.leb_spec 0 retries); [done|].
    split; [lia|]. right; right; left. split; [done|]. rewrite sends_app, Hls, (H9 _ Hg). lia.
  - intros g' H. apply lookup_insert_None in H as [H Hne]. by rewrite sends_app, Hls, (H9 _ H).
Qed.

Lemma received_ok tr r gs pdu p : request_ok tr (mkRequestWorld r gs) ->
  request_ok (tr ++ [Received pdu p]) (mkRequestWorld (response pdu p r) gs).
Proof.
  intros [H1 H2 H3 H4 H5 H6 H7 H8 H9]. cbn [rw_requester rw_running] in *.
  assert (forall g', sends g' [Received pdu p] = 0) as Hls by (intros g'; by apply sends_none).
  assert (rq_next (response pdu p r) = rq_next r /\ rq_pending (response pdu p r) = rq_pending r) as [Hnext Hpend].
  { unfold response. destruct (answerID pdu); [|done]. by destruct (_ !! _). }
  assert (forall ptr pr', rq_heap (response pdu p r) !! ptr = Some pr' -> exists pr, rq_heap r !! ptr = Some pr /\ pq_to pr' = pq_to pr /\
    (pq_ch pr' = pq_ch pr \/ (pq_ch pr' = Some pdu /\ pq_to pr = p_immediate p /\ exists id, answerID pdu = Some id /\ rq_pending r !! id = Some ptr))) as Hheap.
  { intros ptr pr'. unfold response. destruct (answerID pdu) as [id|]; [|intros H; exists pr'; split_and!; auto].
    destruct (rq_pending r !! id) as [ptr0|] eqn:Hp0; [|intros H; exists pr'; split_and!; auto]. cbn [rq_heap].
    destruct (decide (ptr0 = ptr)) as [->|Hne]; [|rewrite lookup_alter_ne by done; intros H; exists pr'; split_and!; auto].
    rewrite lookup_alter_eq. destruct (rq_heap r !! ptr) as [pr|]; [|done]. cbn. intros [= <-]. exists pr. split; [done|].
    destruct (EndpointEqual (pq_to pr) (p_immediate p)) eqn:He; cbn [negb]; [|by split; [|left]]. split; [done|]. cbn [pq_ch].
    destruct (pq_ch pr) as [a|]; [by left|]. right. split_and!; [done|rewrite EndpointEqual_spec in He; by apply bool_decide_eq_true in He|by exists id]. }
  split; cbn [rw_requester rw_running]; rewrite ?Hnext, ?Hpend; try done.
  - intros g iv Hg. destruct (H2 _ _ Hg) as (pr & Hpr & Hto). destruct (rq_heap (response pdu p r) !! iv_ptr iv) as [pr'|] eqn:Hpr'.
    + destruct (Hheap _ _ Hpr') as (pr0 & Hpr0 & Hto0 & _). simplify_eq. exists pr'. split; [done|congruence].
    + exfalso. revert Hpr'. unfold response. destruct (answerID pdu); [|congruence]. destruct (rq_pending r !! _) as [ptr0|]; [|congruence]. cbn [rq_heap].
      intros H%lookup_alter_None. congruence.
  - intros g iv Hg. by apply invoked_snoc, H6.
  - intros g iv pr' a Hg Hpr' Ha. destruct (Hheap _ _ Hpr') as (pr & Hpr & Hto & Hch). destruct Hch as [Hch|(Hch & Hfrom & id & Hid & Hp0)].
    + apply answered_snoc. eapply H7; [done..|congruence].
    + rewrite Ha in Hch. injection Hch as ->. destruct (H3 _ _ Hp0) as (_ & g' & iv' & Hg' & _ & Hiv & Hptr).
      pose proof (H5 _ _ _ _ Hg' Hg Hptr) as ->. simplify_eq. destruct (H6 _ _ Hg) as (t1 & t2 & svc & payload & -> & _).
      exists t1, t2, [], (iv_dest iv), svc, payload, p. rewrite <- app_assoc, <- app_comm_cons. split_and!; [done|done|].
      destruct (H2 _ _ Hg) as (pr0 & Hpr0 & Hto0). congruence.
  - intros g iv Hg. apply attempt_snoc; [apply Hls|by apply H8].
  - intros g Hg. by rewrite sends_app, Hls, H9.
Qed.

Lemma step_request_ok tr w ls w' : request_ok tr w -> request_step w ls w' -> request_ok (tr ++ ls) w'.
Proof.
  intros Hok Hst. destruct Hst as [r gs g p to dest svc payload id r' Hg Hp Hs|r gs p to svc r' Hs|r gs g iv now packets bbmd bbmd' Hg Hph Hat|r gs g iv Hg Hph
    |r gs g iv Hg Hph|r gs g iv pr pdu res Hg Hph Hpr Hch Hres|r gs g iv Hg Hph|r gs g iv res Hg Hph|r gs pdu p].
  - by eapply invoked_ok.
  - rewrite app_nil_r. pose proof (startRequest_spec p to svc r (ro_next _ _ Hok)) as H. rewrite Hs in H. destruct H as (Hn & Hpe & Hh & _).
    destruct Hok as [H1 H2 H3 H4 H5 H6 H7 H8 H9]. split; cbn [rw_requester rw_running] in *; rewrite ?Hpe, ?Hh; done.
  - destruct (ro_sends _ _ Hok _ _ Hg) as [H0 H]. rewrite Hph in H. eapply send_ok; try done. split; [done|]. cbn.
    rewrite sends_app, sends_one. cbn. rewrite bool_decide_eq_true_2 by done. lia.
  - destruct (ro_sends _ _ Hok _ _ Hg) as [H0 H]. rewrite Hph in H. eapply send_ok; try done. split; [done|]. cbn.
    rewrite sends_app, sends_one. cbn. rewrite bool_decide_eq_true_2 by done. split; [lia|]. left. split; [done|]. apply elem_of_app; right. by left.
  - destruct (ro_sends _ _ Hok _ _ Hg) as [H0 H]. rewrite Hph in H. eapply phase_ok; try done; [by apply (running_phase _ _ Hph)|].
    split; [done|]. cbn. rewrite sends_app, sends_one. cbn. split; [lia|]. right; left. split; [done|]. apply elem_of_app; right. by left.
  - destruct (ro_sends _ _ Hok _ _ Hg) as [H0 H]. rewrite Hph in H. eapply phase_ok; try done; [by apply (running_phase _ _ Hph)|].
    rewrite app_nil_r. split; [done|]. cbn. split; [lia|]. right; right; right. exists pdu. split; [|done]. by eapply (ro_answer _ _ Hok).
  - destruct (ro_sends _ _ Hok _ _ Hg) as [H0 H]. rewrite Hph in H. eapply phase_ok; try done; [by apply (running_phase _ _ Hph)|apply atAttempt_running|].
    unfold attempt_ok. cbn. rewrite app_nil_r. split; [lia|]. unfold atAttempt. destruct (Z.leb_spec (iv_attempt iv + 1) retries); [lia|].
    split; [lia|]. right; right; left. split; [done|lia].
  - by apply returned_ok.
  - by apply received_ok.
Qed.

Lemma request_run_ok tr w : request_run tr w -> request_ok tr w.
Proof. induction 1 as [|tr w ls w' _ IH Hst]; [by split; cbn|by eapply step_request_ok]. Qed.

(** ** What was sent *)

(** The datagrams of a request; [t] is the trace before. *)
Definition request_sent (t : list requestEvent) (g : nat) (packets : list OutboundPacket) : Prop :=
  exists id to dest svc payload now (bbmd bbmd' : option BBMD), Invoked g id to dest svc payload ∈ t /\ is_byte id /\
    sendAPDU now to false dest true (AppendConfirmedRequest [] (requestPDU cfg id svc payload)) bbmd = Ok (packets, bbmd').

Lemma step_sent tr w ls w' g packets : request_ok tr w -> request_step w ls w' -> Sent g packets ∈ ls -> request_sent tr g packets.
Proof.
  intros Hok Hst Hin. destruct Hst as [| |r gs g' iv now packets' bbmd bbmd' Hg Hph Hat| | | | | |];
    (apply elem_of_nil in Hin || (apply list_elem_of_singleton in Hin; try discriminate Hin)); [done| |done..].
  injection Hin as -> ->. destruct (ro_invoked _ _ Hok _ _ Hg) as (t1 & t2 & svc & payload & -> & Hb & Hfr).
  exists (iv_id iv), (iv_to iv), (iv_dest iv), svc, payload, now, bbmd, bbmd'. split_and!; [|done|by rewrite <- Hfr].
  apply elem_of_app. right. by left.
Qed.

Lemma run_sent tr w g packets : request_run tr w -> Sent g packets ∈ tr ->
  exists t1 t2, tr = t1 ++ t2 /\ Sent g packets ∈ t2 /\ request_sent t1 g packets.
Proof.
  induction 1 as [|tr w ls w' Hrun IH Hst]; [by intros ?%elem_of_nil|]. intros [Hin|Hin]%elem_of_app.
  - destruct (IH Hin) as (t1 & t2 & -> & H2 & H1). exists t1, (t2 ++ ls). split_and!; [by rewrite app_assoc|apply elem_of_app; by left|done].
  - exists tr, ls. split_and!; [done..|]. eapply step_sent; [by apply request_run_ok|done..].
Qed.

Lemma requestPDU_fields id svc payload : exists code, requestPDU cfg id svc payload = mkConfirmedRequest false false false 0 code id 0 0 svc payload /\
  code ∈ [0; 1; 2; 3; 4; 5].
Proof. eexists. split; [reflexivity|]. unfold EncodeMaxAPDUSize. repeat (destruct (_ <? _) || destruct (_ >=? _) || destruct (_ =? _)); set_solver. Qed.

Lemma requestPDU_ok id svc payload : is_byte id -> is_byte svc -> bytes_ok payload -> pdu_ok (PConfirmedRequest (requestPDU cfg id svc payload)).
Proof.
  intros Hid Hsvc Hpl. destruct (requestPDU_fields id svc payload) as (code & -> & Hc). split; [done|]. cbn. split; [lia|].
  split; [|done]. rewrite !elem_of_cons, elem_of_nil in Hc. lia.
Qed.

Lemma requestPDU_bytes id svc payload : is_byte id -> is_byte svc -> bytes_ok payload ->
  bytes_ok (AppendConfirmedRequest [] (requestPDU cfg id svc payload)) /\ len (AppendConfirmedRequest [] (requestPDU cfg id svc payload)) = 4 + len payload.
Proof.
  intros Hid Hsvc Hpl. assert (exists a, is_byte a /\ AppendConfirmedRequest [] (requestPDU cfg id svc payload) = 0 :: a :: id :: svc :: payload) as (a & Ha & ->).
  { destruct (requestPDU_fields id svc payload) as (code & -> & Hc). rewrite !elem_of_cons, elem_of_nil in Hc.
    unfold AppendConfirmedRequest. cbn -[Z.land Z.lor Z.shiftl uwrap]. eexists. split; [|reflexivity].
    destruct_or? Hc; try done; subst code; done. }
  split; [by solve_bytes|]. rewrite !len_cons. lia.
Qed.

(** The datagrams belong to a call made before them. If it names a
    destination that can be addressed and its payload has the size for it,
    there is one datagram, to the node that was asked, and that node
    dispatches the unsegmented request of the call. *)
Definition reaches (tr : list requestEvent) (g : nat) (packets : list OutboundPacket) : Prop :=
  exists t1 t2 id to dest svc payload, tr = t1 ++ t2 /\ Sent g packets ∈ t2 /\ Invoked g id to dest svc payload ∈ t1 /\
    forall hd limits fd ip port, made dest -> checkDestination dest = Ok hd -> is_byte svc -> bytes_ok payload ->
      length ip = 4%nat -> bytes_ok ip -> is_u 16 port ->
      4 + len payload <= MaxAPDUSize (Normalize limits) -> 21 + len payload <= Z.min 65535 (MaxDatagramSize (Normalize limits)) ->
      exists frame n, packets = [mkPacket frame to false] /\
        Link.handlePacket limits fd frame (endpoint4 ip port) =
          Ok (Dispatch (PConfirmedRequest (requestPDU cfg id svc payload))
            (mkSource (LocalStation (macOf (ip ++ be_put 2 port))) (endpoint4 ip port) (endpoint4 ip port)) n) /\
        np_ExpectingReply n = true /\ np_Destination n = (if hd then dest else zeroAddress).

Lemma sent_reaches tr w g packets : request_run tr w -> Sent g packets ∈ tr -> reaches tr g packets.
Proof.
  intros Hrun Hin. destruct (run_sent _ _ _ _ Hrun Hin) as (t1 & t2 & -> & H2 & id & to & dest & svc & payload & now & bbmd & bbmd' & Hinv & Hb & Hs).
  exists t1, t2, id, to, dest, svc, payload. split_and!; try done.
  intros hd limits fd ip port Hm Hc Hsvc Hpl Hip Hib Hport H1 H3. destruct (requestPDU_bytes id svc payload Hb Hsvc Hpl) as [Hok Hlen].
  destruct (frame_dispatched (PConfirmedRequest (requestPDU cfg id svc payload)) dest true 255 limits FunctionOriginalUnicastNPDU fd ip port hd)
    as (raw & frame & n & Hf & Hh & Hd & He); cbn [appendPDU]; rewrite ?Hlen; try done; [by apply requestPDU_ok|lia|by left|].
  exists frame, n. split_and!; try done. cbn [appendPDU] in Hf. unfold sendAPDU in Hs. rewrite Hf in Hs. cbn in Hs. by simplify_eq.
Qed.

(** An answer that was received has a result: [responseError] is not called
    on a PDU whose body it would not find. *)
Lemma answer_handled pdu id : answerID pdu = Some id -> exists res, responseError pdu id = Ok res.
Proof. destruct pdu; cbn; try done; [by eexists|by eexists|intros _|by eexists|by eexists]. destruct (DecodeErrorClassCode _ _) as [[]|]; by eexists. Qed.

(** C22. The server's confirmed requests. In every interleaving of the
    goroutines of [invoke] with the receive loop: the requests that are
    outstanding have pairwise different invoke IDs, and a new one is refused
    only when all 256 are in use; a request is attempted at most once and
    [retries] times again; each datagram that is sent carries to the node that
    was asked the unsegmented request as it was made, under the invoke ID that
    was allocated for it; an answer that waits in a channel can be turned into
    a result; and every result that is returned is explained by a send that
    failed, by the end of the context, by the attempts being used up, or by
    an answer with the invoke ID of the request that was received after the
    request was made from the node that was asked. *)
Theorem requester_safe tr w : request_run tr w ->
  (forall g g' iv iv', rw_running w !! g = Some iv -> rw_running w !! g' = Some iv' -> running iv -> running iv' -> iv_id iv = iv_id iv' -> g = g') /\
  (forall p to svc r', startRequest p to svc (rw_requester w) = (None, r') ->
    forall id, is_byte id -> exists g iv, rw_running w !! g = Some iv /\ running iv /\ iv_id iv = id) /\
  (forall g iv, rw_running w !! g = Some iv -> sends g tr <= Z.max 0 (retries + 1)) /\
  (forall g packets, Sent g packets ∈ tr -> reaches tr g packets) /\
  (forall g iv pr pdu, rw_running w !! g = Some iv -> rq_heap (rw_requester w) !! iv_ptr iv = Some pr -> pq_ch pr = Some pdu ->
    exists res, responseError pdu (iv_id iv) = Ok res) /\
  (forall g iv res, rw_running w !! g = Some iv -> iv_phase iv = returned res -> explained tr g (iv_id iv) (iv_to iv) res).
Proof.
  intros Hrun. pose proof (request_run_ok _ _ Hrun) as Hok. split_and!.
  - intros g g' iv iv' Hg Hg' Hr Hr' Hid. pose proof (ro_running _ _ Hok _ _ Hg Hr) as H1. pose proof (ro_running _ _ Hok _ _ Hg' Hr') as H2.
    apply (ro_ptr _ _ Hok g g' iv iv' Hg Hg'). congruence.
  - intros p to svc r' Hs id Hid. pose proof (startRequest_spec p to svc _ (ro_next _ _ Hok)) as H. rewrite Hs in H.
    destruct H as (_ & _ & _ & H). destruct (H id Hid) as [q Hq]. destruct (ro_pending _ _ Hok _ _ Hq) as (_ & g & iv & Hg & Hr & Hi & _). by exists g, iv.
  - intros g iv Hg. destruct (ro_sends _ _ Hok _ _ Hg) as [H0 H]. destruct (iv_phase iv); lia.
  - intros g packets Hin. by eapply sent_reaches.
  - intros g iv pr pdu Hg Hpr Hch. destruct (ro_answer _ _ Hok _ _ _ _ Hg Hpr Hch) as (_ & _ & _ & _ & _ & _ & _ & _ & Hid & _). by apply answer_handled.
  - intros g iv res Hg Hph. destruct (ro_sends _ _ Hok _ _ Hg) as [_ H]. rewrite Hph in H. apply H.
Qed.
End Runs.

(** A request that is sent twice and answered by a SimpleACK. *)
Lemma requester_safe_witness : exists tr w frame, request_run sampleServer 3 tr w /\
  Sent 0%nat [mkPacket frame (endpoint4 [192; 168; 0; 9] 47808) false] ∈ tr /\ sends 0%nat tr = 2 /\
  (exists iv, rw_running w !! 0%nat = Some iv /\ iv_phase iv = returned None) /\
  explained 3 tr 0%nat 0 (endpoint4 [192; 168; 0; 9] 47808) None /\
  reaches sampleServer tr 0%nat [mkPacket frame (endpoint4 [192; 168; 0; 9] 47808) false].
Proof.
  set (to := endpoint4 [192; 168; 0; 9] 47808).
  destruct (attemptSend 0 (startInvocation sampleServer 3 0 7%nat to zeroAddress 1 [9; 0]) (None : option BBMD)) as [[pkts b]|] eqn:Hsend; [|done].
  assert (exists frame, pkts = [mkPacket frame to false]) as [frame ->].
  { revert Hsend. vm_compute. intros [= <- _]. by eexists. }
  set (ack := PSimpleACK (mkSimpleACK 0 1)). set (p := mkPeer to to zeroAddress false).
  assert (exists tr w iv, request_run sampleServer 3 tr w /\ Sent 0%nat [mkPacket frame to false] ∈ tr /\ sends 0%nat tr = 2 /\
    rw_running w !! 0%nat = Some iv /\ iv_phase iv = returned None /\ iv_id iv = 0 /\ iv_to iv = to) as (tr & w & iv & Hrun & Hin & Hn & Hiv & Hph & Hid & Hto).
  { eexists _, _, _. split.
    - eapply request_next; [eapply request_next; [eapply request_next; [eapply request_next; [eapply request_next; [eapply request_next; [eapply request_next;
        [apply request_start|]|]|]|]|]|]|].
      + by apply (rq_invoke _ _ newRequester ∅ 0%nat 7%nat to zeroAddress 1 [9; 0] 0).
      + eapply (rq_send _ _ _ _ 0%nat _ 0); [by rewrite lookup_insert_eq|done|exact Hsend].
      + eapply (rq_timeout _ _ _ _ 0%nat); [by rewrite lookup_insert_eq|done].
      + eapply (rq_send _ _ _ _ 0%nat _ 0); [by rewrite lookup_insert_eq|done|exact Hsend].
      + apply (rq_receive _ _ _ _ ack p).
      + eapply (rq_answered _ _ _ _ 0%nat); [by rewrite lookup_insert_eq|done..].
      + eapply (rq_return _ _ _ _ 0%nat); [by rewrite lookup_insert_eq|done].
    - split_and!; [cbn [app]; set_solver|done|cbn [rw_running]; by rewrite lookup_insert_eq|done..]. }
  destruct (requester_safe sampleServer 3 tr w Hrun) as (_ & _ & _ & Hreach & _ & Hexp).
  exists tr, w, frame. split_and!; [done..|by exists iv|rewrite <- Hid, <- Hto; by apply (Hexp 0%nat iv)|by apply Hreach].
Defined.
