(* ===== verification/Discovery.v ===== *)
(** * Discovery services: Who-Is and I-Am ([service/discovery.go]), Who-Has
    and I-Have ([service/who_has.go]). *)

From Stdlib Require Import ZArith Lia.
From stdpp Require Import base list.
From S2P Require Import Prelude Value Tags Constructed Writer Apdu Codec ServerPacket.

(** ** Who-Is *)
Record WhoIs := mkWhoIs { wi_LowLimit : option Z; wi_HighLimit : option Z }.

Definition EncodeWhoIs (req : WhoIs) : result bytes :=
  match wi_LowLimit req, wi_HighLimit req with
  | None, None => Ok []
  | Some lo, Some hi =>
      newBuffer (fun dst =>
        let* dst := AppendContextUnsigned dst 0 lo in
        AppendContextUnsigned dst 1 hi)
  | _, _ => Err ErrMalformed
  end.

Definition checkedLimit (el : Element) : result Z := let* v := ContextUnsigned el in narrowU32 v.

Definition whoIsField (el : Element) (st : option Z * option Z) : result (option Z * option Z) :=
  let '(low, high) := st in
  if el_TagNumber el =? 0 then let* low := setOnce low (checkedLimit el) in Ok (low, high)
  else if el_TagNumber el =? 1 then let* high := setOnce high (checkedLimit el) in Ok (low, high)
  else Err ErrMalformed.

(** [haveLow != haveHigh], and the order of the two limits. *)
Definition checkLimits (low high : option Z) : result unit :=
  match low, high with
  | Some lo, Some hi => if lo >? hi then Err ErrMalformed else Ok tt
  | None, None => Ok tt
  | _, _ => Err ErrMalformed
  end.

Definition DecodeWhoIs (payload : bytes) (limits : DecodeLimits) : result WhoIs :=
  if len payload =? 0 then Ok (mkWhoIs None None)
  else
    let* elements := parseElements payload limits in
    let* (low, high) := forElements whoIsField elements (None, None) in
    let* _ := checkLimits low high in
    Ok (mkWhoIs low high).

(** Both limits in order, or none. *)
Definition window_ok (low high : option Z) : Prop :=
  match low, high with
  | Some lo, Some hi => 0 <= lo <= hi /\ hi < 2 ^ 32
  | None, None => True
  | _, _ => False
  end.

Lemma yields_checkedLimit lim el : wire lim el -> yields (is_u 32) (checkedLimit el).
Proof. intros. unfold checkedLimit. repeat yields_step. Qed.
#[export] Hint Resolve yields_checkedLimit : go.
Lemma checkedLimit_encode tn u : is_u 32 u -> checkedLimit (contextElement tn (encodeUnsigned u)) = Ok u.
Proof. intros. unfold checkedLimit. by decode_simp. Qed.
#[export] Hint Rewrite checkedLimit_encode using (first [assumption | unfold is_u; lia]) : codec.

Lemma checkLimits_window low high : window_ok low high -> checkLimits low high = Ok tt.
Proof. destruct low, high; cbn; intros H; try done. by decide_tests. Qed.
Lemma yields_checkLimits low high : optP (is_u 32) low -> optP (is_u 32) high ->
  yields (fun _ => window_ok low high) (checkLimits low high).
Proof.
  intros Hl Hh. destruct low as [lo|], high as [hi|]; cbn; try done. rewrite optP_Some in Hl, Hh.
  destruct (_ >? _) eqn:E; [done|]. bool_to_prop. unfold is_u in *. cbn. lia.
Qed.

#[export] Program Instance WhoIs_Codec : Codec WhoIs := {|
  encode := EncodeWhoIs;
  decode := DecodeWhoIs;
  fits lim req := room lim 0 2 /\ window_ok (wi_LowLimit req) (wi_HighLimit req);
  typed _ req := window_ok (wi_LowLimit req) (wi_HighLimit req)
|}.
Next Obligation.
  intros lim [[lo|] [hi|]] [(Hm & Hd & He) Hw]; cbn [wi_LowLimit wi_HighLimit window_ok] in Hw; try done.
  - unfold EncodeWhoIs; cbn [wi_LowLimit wi_HighLimit]. codec_roundtrip lim 0%nat as Hparse.
    unfold DecodeWhoIs. destruct (_ =? 0) eqn:El.
    { apply Z.eqb_eq, len_zero_nil in El. subst. rewrite parseElements_nil in Hparse. discriminate Hparse. }
    rewrite Hparse. decode_run. rewrite checkLimits_window by done. done.
  - exists []. done.
Qed.
Next Obligation.
  intros lim bs Hb. unfold DecodeWhoIs. destruct (_ =? 0); [done|]. yields_step.
  eapply yields_bind; [eapply (yields_forElements (fun '(low, high) => optP (is_u 32) low /\ optP (is_u 32) high)); [|eassumption|done]|].
  - intros el [low high] Hel [H1 H2]. unfold whoIsField. repeat yields_step; done.
  - intros [low high] [H1 H2]. eapply yields_bind; [by apply yields_checkLimits|]. by intros [].
Qed.

(** ** Sequences of application values *)

(** [v, n, err := ParseApplicationValue(payload[off:], limits); off += n] *)
Definition nextValue (payload : bytes) (limits : DecodeLimits) (off : Z) : result (ApplicationValue * Z) :=
  let* rest := slice_from payload off in
  let* (v, n) := ParseApplicationValue rest limits in
  Ok (v, off + n).

Lemma nextValue_at lim v : app_prim (Normalize lim) v -> exists bs, (forall dst, AppendApplicationValue dst v = Ok (dst ++ bs)) /\ bytes_ok bs /\
  forall pre suf, nextValue (pre ++ bs ++ suf) lim (len pre) = Ok (v, len pre + len bs).
Proof.
  intros Hv. destruct (AppendApplicationValue_ParseTag lim v Hv) as (bs & Hf & Hok & _ & Hp).
  exists bs. split_and!; [done..|]. intros pre suf. unfold nextValue. rewrite slice_from_app by done. cbn [bind].
  unfold ParseApplicationValue. rewrite Hp. cbn [bind appElement el_Context el_Opening el_Closing orb el_Value]. done.
Qed.

Lemma yields_nextValue payload lim off : bytes_ok payload -> 0 <= off <= len payload ->
  yields (fun '(v, off') => app_prim (Normalize lim) v /\ off <= off' <= len payload) (nextValue payload lim off).
Proof.
  intros Hb Ho. unfold nextValue. rewrite slice_from_total by done. cbn [bind]. set (rest := drop _ payload).
  assert (bytes_ok rest) as Hr by by apply Forall_drop.
  assert (len rest = len payload - off) as Hl by (subst rest; unfold len in *; rewrite length_drop; lia).
  unfold ParseApplicationValue. pose proof (ParseTag_never_panics rest lim Hr) as Hs.
  destruct (ParseTag rest lim) as [[el n]|[]] eqn:E; try done. cbn [bind].
  destruct (el_Context el) eqn:Ec; [done|]. destruct (el_Opening el) eqn:Eo; [done|]. destruct (el_Closing el) eqn:Ecl; [done|].
  cbn [orb bind yields]. apply ParseTag_shape in E as [Hsh Hn]; [|done].
  apply tag_shape_wire in Hsh as [Hw _]; [|done..]. assert (exists d, wire_at (Normalize lim) 254 d el) as Hw' by eauto.
  destruct (wire_application (Normalize lim) el Hw' Ec) as (tn & v & -> & Hv). split; [done|lia].
Qed.

(** ** I-Am *)
Record IAm := mkIAm { ia_Device : ObjectIdentifier; ia_MaxAPDULength : Z; ia_Segmentation : Z; ia_VendorID : Z }.

Definition EncodeIAm (msg : IAm) : result bytes :=
  newBuffer (fun dst =>
    let* dst := AppendApplicationValue dst (ObjectIDValue (ia_Device msg)) in
    let* dst := AppendApplicationValue dst (UnsignedValue (ia_MaxAPDULength msg)) in
    let* dst := AppendApplicationValue dst (EnumValue (ia_Segmentation msg)) in
    AppendApplicationValue dst (UnsignedValue (ia_VendorID msg))).

Definition DecodeIAm (payload : bytes) (limits : DecodeLimits) : result IAm :=
  let* (device, off) := nextValue payload limits 0 in
  let* (maxAPDU, off) := nextValue payload limits off in
  let* (seg, off) := nextValue payload limits off in
  let* (vendor, off) := nextValue payload limits off in
  if negb (off =? len payload) then Err ErrTrailingData else
  let* id := AsObjectID device in
  if negb (oid_Type id =? ObjectTypeDevice) then Err ErrMalformed else
  if bool_decide (av_Kind maxAPDU <> ValueUnsigned) then Err ErrMalformed else
  if av_Unsigned maxAPDU >? 0xFFFF then Err ErrMalformed else
  match AsEnumerated seg with
  | Err _ => Err ErrMalformed
  | Ok segU =>
      if segU >? 3 then Err ErrMalformed else
      if bool_decide (av_Kind vendor <> ValueUnsigned) then Err ErrMalformed else
      if av_Unsigned vendor >? 0xFFFF then Err ErrMalformed else
      Ok (mkIAm id (u16 (av_Unsigned maxAPDU)) (u8 segU) (u16 (av_Unsigned vendor)))
  end.

Definition iam_ok (m : IAm) : Prop :=
  oid_ok (ia_Device m) /\ oid_Type (ia_Device m) = ObjectTypeDevice /\ is_u 16 (ia_MaxAPDULength m) /\
  0 <= ia_Segmentation m <= 3 /\ is_u 16 (ia_VendorID m).

#[export] Program Instance IAm_Codec : Codec IAm := {|
  encode := EncodeIAm;
  decode := DecodeIAm;
  fits _ m := iam_ok m;
  typed _ m := iam_ok m
|}.
Next Obligation.
  intros lim [dev maxA seg vendor] (Ho & Ht & Ha & Hs & Hv); cbn [ia_Device ia_MaxAPDULength ia_Segmentation ia_VendorID] in *.
  destruct (nextValue_at lim (ObjectIDValue dev)) as (b1 & H1 & K1 & N1); [by apply ap_oid|].
  destruct (nextValue_at lim (UnsignedValue maxA)) as (b2 & H2 & K2 & N2); [apply ap_unsigned; unfold is_u in *; lia|].
  destruct (nextValue_at lim (EnumValue seg)) as (b3 & H3 & K3 & N3); [apply ap_enum; unfold is_u; lia|].
  destruct (nextValue_at lim (UnsignedValue vendor)) as (b4 & H4 & K4 & N4); [apply ap_unsigned; unfold is_u in *; lia|].
  exists (b1 ++ b2 ++ b3 ++ b4). split_and!.
  - unfold EncodeIAm, newBuffer; cbn [ia_Device ia_MaxAPDULength ia_Segmentation ia_VendorID].
    rewrite H1. cbn [bind]. rewrite H2. cbn [bind]. rewrite H3. cbn [bind]. rewrite H4. by rewrite <- !app_assoc.
  - by repeat (apply Forall_app; split).
  - unfold DecodeIAm. pose proof (N1 [] (b2 ++ b3 ++ b4)) as Hn. cbn [app] in Hn. change (len []) with 0 in Hn. rewrite Hn. cbn [bind].
    rewrite Z.add_0_l, (N2 b1 (b3 ++ b4)). cbn [bind].
    rewrite <- len_app, (app_assoc b1 b2), (N3 (b1 ++ b2) b4). cbn [bind]. rewrite <- len_app, (app_assoc (b1 ++ b2) b3).
    pose proof (N4 ((b1 ++ b2) ++ b3) []) as H. rewrite app_nil_r in H. rewrite H. cbn [bind]. rewrite <- len_app, Z.eqb_refl.
    cbn [negb]. autorewrite with codec. change (av_Kind (UnsignedValue ?u)) with ValueUnsigned. autorewrite with codec.
    change (av_Unsigned (UnsignedValue ?u)) with u.
    rewrite Ht. cbn [Z.eqb Pos.eqb negb]. unfold is_u in *. decide_tests. rewrite !uwrap_small by (unfold is_u; lia). done.
Qed.
Next Obligation.
  intros lim bs Hb. unfold DecodeIAm.
  eapply yields_bind; [apply yields_nextValue; [done|len_lia]|]. intros [dev o1] [Hd Ho1].
  eapply yields_bind; [apply yields_nextValue; [done|lia]|]. intros [ma o2] [Hm Ho2].
  eapply yields_bind; [apply yields_nextValue; [done|lia]|]. intros [seg o3] [Hs Ho3].
  eapply yields_bind; [apply yields_nextValue; [done|lia]|]. intros [ven o4] [Hv Ho4].
  destruct (negb _); [done|]. eapply yields_bind; [by eapply yields_AsObjectID|]. intros id Hid.
  destruct (negb (oid_Type id =? _)) eqn:Et; [done|]. destruct (bool_decide (av_Kind ma <> _)); [done|].
  destruct (av_Unsigned ma >? _) eqn:Em; [done|]. pose proof (yields_AsEnumerated _ _ Hs) as Hse.
  destruct (AsEnumerated seg) as [e|]; [|done]. cbn [yields] in Hse. destruct (e >? 3) eqn:Ee; [done|].
  destruct (bool_decide _); [done|]. destruct (av_Unsigned ven >? _) eqn:Ev; [done|]. cbn [yields].
  bool_to_prop. split_and!; cbn [ia_Device ia_MaxAPDULength ia_Segmentation ia_VendorID]; [done..|by apply uwrap_range| | |by apply uwrap_range].
  all: unfold is_u in Hse; rewrite uwrap_small by (unfold is_u; lia); lia.
Qed.

(** ** Who-Has *)
Record WhoHas := mkWhoHas { wh_LowLimit : option Z; wh_HighLimit : option Z; wh_Object : option ObjectIdentifier; wh_Name : option CharacterString }.

Definition EncodeWhoHas (req : WhoHas) : result bytes :=
  match wh_Object req, wh_Name req with
  | Some _, Some _ | None, None => Err ErrMalformed
  | obj, name =>
      let* _ := checkLimits (wh_LowLimit req) (wh_HighLimit req) in
      newBuffer (fun dst =>
        let* dst :=
          match wh_LowLimit req, wh_HighLimit req with
          | Some lo, Some hi => let* dst := AppendContextUnsigned dst 0 lo in AppendContextUnsigned dst 1 hi
          | _, _ => Ok dst
          end in
        match obj, name with
        | Some id, _ => AppendContextObjectID dst 2 id
        | None, Some s => AppendContextCharacterString dst 3 s
        | None, None => Ok dst
        end)
  end.

Definition whoHasState : Type := option Z * option Z * option ObjectIdentifier * option CharacterString.
Definition whoHasField (el : Element) (st : whoHasState) : result whoHasState :=
  let '(low, high, obj, name) := st in
  if (el_TagNumber el =? 0) && negb (IsContextConstructed el) then
    let* low := setOnce low (checkedLimit el) in Ok (low, high, obj, name)
  else if (el_TagNumber el =? 1) && negb (IsContextConstructed el) then
    let* high := setOnce high (checkedLimit el) in Ok (low, high, obj, name)
  else if (el_TagNumber el =? 2) && negb (IsContextConstructed el) then
    match obj, name with
    | None, None => let* id := ContextObjectID el in Ok (low, high, Some id, name)
    | _, _ => Err ErrMalformed
    end
  else if (el_TagNumber el =? 3) && negb (IsContextConstructed el) then
    match obj, name with
    | None, None => let* s := ContextCharacterString el in Ok (low, high, obj, Some s)
    | _, _ => Err ErrMalformed
    end
  else Err ErrMalformed.

Definition DecodeWhoHas (payload : bytes) (limits : DecodeLimits) : result WhoHas :=
  let* elements := parseElements payload limits in
  let* (low, high, obj, name) := forElements whoHasField elements (None, None, None, None) in
  let* _ := checkLimits low high in
  match obj, name with
  | Some _, Some _ | None, None => Err ErrMalformed
  | _, _ => Ok (mkWhoHas low high obj name)
  end.

(** By identifier or by name, not both. *)
Definition whoHas_choice (P : CharacterString -> Prop) (m : WhoHas) : Prop :=
  match wh_Object m, wh_Name m with
  | Some id, None => oid_ok id
  | None, Some s => P s
  | _, _ => False
  end.

#[export] Program Instance WhoHas_Codec : Codec WhoHas := {|
  encode := EncodeWhoHas;
  decode := DecodeWhoHas;
  fits lim m := room lim 0 3 /\ window_ok (wh_LowLimit m) (wh_HighLimit m) /\ whoHas_choice (cs_fits (Normalize lim)) m;
  typed _ m := window_ok (wh_LowLimit m) (wh_HighLimit m) /\ whoHas_choice cs_typed m
|}.
Next Obligation.
  intros lim [lo hi obj name] [(Hm & Hd & He) [Hw Hc]]; cbn [wh_LowLimit wh_HighLimit whoHas_choice wh_Object wh_Name] in Hw, Hc.
  unfold EncodeWhoHas; cbn [wh_LowLimit wh_HighLimit wh_Object wh_Name]. pose proof (checkLimits_window lo hi Hw) as Hcl.
  unfold whoHas_choice in Hc. cbn [wh_Object wh_Name] in Hc.
  destruct obj as [id|], name as [s|]; try done; rewrite Hcl; cbn [bind];
    destruct lo as [lo|], hi as [hi|]; cbn [window_ok] in Hw; try done;
    codec_roundtrip lim 0%nat as Hparse; unfold DecodeWhoHas; rewrite Hparse; decode_run; rewrite Hcl; done.
Qed.
Next Obligation.
  intros lim bs Hb. unfold DecodeWhoHas. yields_step.
  eapply yields_bind; [eapply (yields_forElements (fun '(low, high, obj, name) =>
    optP (is_u 32) low /\ optP (is_u 32) high /\ optP oid_ok obj /\ optP cs_typed name)); [|eassumption|done]|].
  - intros el [[[low high] obj] name] Hel (H1 & H2 & H3 & H4). unfold whoHasField. repeat yields_step; try done;
      destruct obj, name; try done; repeat yields_step; (split; [done|split; [done|split]]); try done; by apply optP_Some.
  - intros [[[low high] obj] name] (H1 & H2 & H3 & H4). eapply yields_bind; [by apply yields_checkLimits|]. intros [] Hw.
    destruct obj as [id|], name as [s|]; try done; split; try done; unfold whoHas_choice; cbn [wh_Object wh_Name]; auto.
Qed.

(** ** I-Have *)
Record IHave := mkIHave { ih_Device : ObjectIdentifier; ih_Object : ObjectIdentifier; ih_Name : CharacterString }.

Definition EncodeIHave (msg : IHave) : result bytes :=
  newBuffer (fun dst =>
    let* dst := AppendApplicationValue dst (ObjectIDValue (ih_Device msg)) in
    let* dst := AppendApplicationValue dst (ObjectIDValue (ih_Object msg)) in
    AppendApplicationValue dst (characterValue (ih_Name msg))).

Definition DecodeIHave (payload : bytes) (limits : DecodeLimits) : result IHave :=
  let* (device, off) := nextValue payload limits 0 in
  let* (object, off) := nextValue payload limits off in
  let* (name, off) := nextValue payload limits off in
  if negb (off =? len payload) then Err ErrTrailingData else
  let* devID := AsObjectID device in
  if negb (oid_Type devID =? ObjectTypeDevice) then Err ErrMalformed else
  let* objID := AsObjectID object in
  if bool_decide (av_Kind name <> ValueCharacterString) then Err ErrMalformed else
  Ok (mkIHave devID objID (av_Character name)).

Definition ihave_typed (m : IHave) : Prop :=
  oid_ok (ih_Device m) /\ oid_Type (ih_Device m) = ObjectTypeDevice /\ oid_ok (ih_Object m) /\ cs_typed (ih_Name m).

#[export] Program Instance IHave_Codec : Codec IHave := {|
  encode := EncodeIHave;
  decode := DecodeIHave;
  fits lim m := ihave_typed m /\ len (cs_Value (ih_Name m)) < MaxUint32 /\ len (cs_Value (ih_Name m)) <= MaxCharacterLength (Normalize lim);
  typed _ m := ihave_typed m
|}.
Next Obligation.
  intros lim [dev obj [enc name]] ((Ho & Ht & Hob & [He Hn]) & Hl & Hm); cbn [ih_Device ih_Object ih_Name cs_Encoding cs_Value] in *.
  destruct (nextValue_at lim (ObjectIDValue dev)) as (b1 & H1 & K1 & N1); [by apply ap_oid|].
  destruct (nextValue_at lim (ObjectIDValue obj)) as (b2 & H2 & K2 & N2); [by apply ap_oid|].
  destruct (nextValue_at lim (characterValue (mkCharacterString enc name))) as (b3 & H3 & K3 & N3); [by apply ap_character|].
  exists (b1 ++ b2 ++ b3). split_and!.
  - unfold EncodeIHave, newBuffer; cbn [ih_Device ih_Object ih_Name].
    rewrite H1. cbn [bind]. rewrite H2. cbn [bind]. rewrite H3. by rewrite <- !app_assoc.
  - by repeat (apply Forall_app; split).
  - unfold DecodeIHave. pose proof (N1 [] (b2 ++ b3)) as H. cbn [app] in H. change (len []) with 0 in H. rewrite H. cbn [bind].
    rewrite Z.add_0_l, (N2 b1 b3). cbn [bind]. rewrite <- len_app, (app_assoc b1 b2).
    pose proof (N3 (b1 ++ b2) []) as H'. rewrite app_nil_r in H'. rewrite H'. cbn [bind]. rewrite <- len_app, Z.eqb_refl.
    cbn [negb]. autorewrite with codec. rewrite Ht. done.
Qed.
Next Obligation.
  intros lim bs Hb. unfold DecodeIHave.
  eapply yields_bind; [apply yields_nextValue; [done|len_lia]|]. intros [dev o1] [Hd Ho1].
  eapply yields_bind; [apply yields_nextValue; [done|lia]|]. intros [ob o2] [Hm Ho2].
  eapply yields_bind; [apply yields_nextValue; [done|lia]|]. intros [nm o3] [Hs Ho3].
  destruct (negb _); [done|]. eapply yields_bind; [by eapply yields_AsObjectID|]. intros id Hid.
  destruct (negb (oid_Type id =? _)) eqn:Et; [done|]. bool_to_prop.
  eapply yields_bind; [by eapply yields_AsObjectID|]. intros oid Hoid.
  destruct (bool_decide _) eqn:Ek; [done|]. apply bool_decide_eq_false in Ek. cbn [yields].
  destruct Hs; try (exfalso; by apply Ek). done.
Qed.

(** ** Whole APDUs *)
Definition ServiceIHave : Z := 1.
Definition unconfirmedAPDU (choice : Z) (payload : result bytes) : result bytes :=
  let* payload := payload in Ok (AppendUnconfirmedRequest [] (mkUnconfirmedRequest choice payload)).
Definition EncodeWhoIsAPDU (req : WhoIs) : result bytes := unconfirmedAPDU ServiceWhoIs (EncodeWhoIs req).
Definition EncodeIAmAPDU (msg : IAm) : result bytes := unconfirmedAPDU ServiceIAm (EncodeIAm msg).
Definition EncodeWhoHasAPDU (req : WhoHas) : result bytes := unconfirmedAPDU ServiceWhoHas (EncodeWhoHas req).
Definition EncodeIHaveAPDU (msg : IHave) : result bytes := unconfirmedAPDU ServiceIHave (EncodeIHave msg).
