(* ===== verification/DeviceControl.v ===== *)
(** * Device management services: DeviceCommunicationControl
    ([service/device_communication_control.go]) and ReinitializeDevice
    ([service/reinitialize_device.go]). *)

From Stdlib Require Import ZArith Lia.
From stdpp Require Import base list.
From S2P Require Import Prelude Value Tags Constructed Writer Codec.

(** A field of type [EnableDisable] or [ReinitializedStateOfDevice] is a
    [uint8]. *)
Record DeviceCommunicationControlRequest := mkDCC { dc_TimeDuration : option Z; dc_EnableDisable : Z; dc_Password : option CharacterString }.

(** [req.Password != nil && len(req.Password.Value) > 20] *)
Definition longPassword (p : option CharacterString) : bool :=
  match p with Some c => len (cs_Value c) >? 20 | None => false end.
Definition appendPassword (tn : Z) (p : option CharacterString) (dst : bytes) : result bytes :=
  match p with Some c => AppendContextCharacterString dst tn c | None => Ok dst end.

Definition EncodeDeviceCommunicationControl (req : DeviceCommunicationControlRequest) : result bytes :=
  if dc_EnableDisable req >? 2 then Err ErrMalformed
  else if longPassword (dc_Password req) then Err ErrMalformed
  else
    newBuffer (fun dst =>
      let* dst :=
        match dc_TimeDuration req with
        | Some d => AppendContextUnsigned dst 0 d
        | None => Ok dst
        end in
      let* dst := AppendContextUnsigned dst 1 (dc_EnableDisable req) in
      appendPassword 2 (dc_Password req) dst).

Definition decodeDuration (el : Element) : result Z :=
  let* u := ContextUnsigned el in if u >? 0xFFFF then Err ErrMalformed else Ok (u16 u).
(** An enumeration with values up to [max]. *)
Definition decodeEnumeration (max : Z) (el : Element) : result Z :=
  let* u := ContextUnsigned el in if u >? max then Err ErrUndefinedEnumeration else Ok (u8 u).
Definition decodePassword (el : Element) : result CharacterString :=
  let* cs := ContextCharacterString el in if len (cs_Value cs) >? 20 then Err ErrMalformed else Ok cs.

Definition dccField (el : Element) (st : option Z * option Z * option CharacterString) : result (option Z * option Z * option CharacterString) :=
  let '(duration, enable, password) := st in
  if (el_TagNumber el =? 0) && negb (IsContextConstructed el) then
    let* duration := setOnce duration (decodeDuration el) in Ok (duration, enable, password)
  else if (el_TagNumber el =? 1) && negb (IsContextConstructed el) then
    let* enable := setOnce enable (decodeEnumeration 2 el) in Ok (duration, enable, password)
  else if (el_TagNumber el =? 2) && negb (IsContextConstructed el) then
    let* password := setOnce password (decodePassword el) in Ok (duration, enable, password)
  else Err ErrMalformed.

Definition DecodeDeviceCommunicationControl (payload : bytes) (limits : DecodeLimits) : result DeviceCommunicationControlRequest :=
  let* elements := parseElements payload limits in
  let* (duration, enable, password) := forElements dccField elements (None, None, None) in
  let* enable := required enable in
  Ok (mkDCC duration enable password).

Record ReinitializeDeviceRequest := mkReinitialize { rd_State : Z; rd_Password : option CharacterString }.

Definition EncodeReinitializeDevice (req : ReinitializeDeviceRequest) : result bytes :=
  if rd_State req >? 7 then Err ErrMalformed
  else if longPassword (rd_Password req) then Err ErrMalformed
  else
    newBuffer (fun dst =>
      let* dst := AppendContextUnsigned dst 0 (rd_State req) in
      appendPassword 1 (rd_Password req) dst).

Definition reinitializeField (el : Element) (st : option Z * option CharacterString) : result (option Z * option CharacterString) :=
  let '(state, password) := st in
  if (el_TagNumber el =? 0) && negb (IsContextConstructed el) then
    let* state := setOnce state (decodeEnumeration 7 el) in Ok (state, password)
  else if (el_TagNumber el =? 1) && negb (IsContextConstructed el) then
    let* password := setOnce password (decodePassword el) in Ok (state, password)
  else Err ErrMalformed.

Definition DecodeReinitializeDevice (payload : bytes) (limits : DecodeLimits) : result ReinitializeDeviceRequest :=
  let* elements := parseElements payload limits in
  let* (state, password) := forElements reinitializeField elements (None, None) in
  let* state := required state in
  Ok (mkReinitialize state password).

(** ** Lemmas *)
Definition password_ok (c : CharacterString) : Prop := cs_typed c /\ len (cs_Value c) <= 20.

Lemma password_fits lim c : password_ok c -> 21 <= MaxOctetStringLength lim -> cs_fits lim c.
Proof. intros [Hc Hl] Hm. unfold cs_fits, MaxUint32. split_and!; [done|lia|lia]. Qed.

Lemma longPassword_ok p : optP password_ok p -> longPassword p = false.
Proof. intros H. destruct p as [c|]; [|done]. destruct (H c eq_refl) as [_ Hl]. cbn. rewrite Z.gtb_ltb. by apply Z.ltb_ge. Qed.

Lemma yields_decodeDuration lim el : wire lim el -> yields (is_u 16) (decodeDuration el).
Proof. intros. unfold decodeDuration. repeat yields_step. by apply uwrap_range. Qed.
Lemma yields_decodeEnumeration lim max el : max <= 255 -> wire lim el -> yields (fun u => 0 <= u <= max) (decodeEnumeration max el).
Proof.
  intros Hmax Hw. unfold decodeEnumeration. repeat yields_step. bool_to_prop. unfold is_u in *. rewrite uwrap_small by (unfold is_u; lia). lia.
Qed.
Lemma yields_decodePassword lim el : wire lim el -> yields password_ok (decodePassword el).
Proof. intros. unfold decodePassword. repeat yields_step. bool_to_prop. done. Qed.

Lemma decodeDuration_encode tn u : is_u 16 u -> decodeDuration (contextElement tn (encodeUnsigned u)) = Ok u.
Proof.
  intros Hu. unfold decodeDuration. unfold is_u in Hu. rewrite ContextUnsigned_encode by (unfold is_u; lia). cbn [bind].
  rewrite uwrap_small by done. by decide_tests.
Qed.
Lemma decodeEnumeration_encode tn max u : 0 <= u <= max -> max <= 255 -> decodeEnumeration max (contextElement tn (encodeUnsigned u)) = Ok u.
Proof.
  intros Hu Hm. unfold decodeEnumeration. rewrite ContextUnsigned_encode by (unfold is_u; lia). cbn [bind].
  rewrite uwrap_small by (unfold is_u; lia). by decide_tests.
Qed.
Lemma decodePassword_encode tn c : password_ok c -> decodePassword (contextElement tn (cs_Encoding c :: cs_Value c)) = Ok c.
Proof. intros [_ Hl]. unfold decodePassword. rewrite ContextCharacterString_cons. cbn [bind]. by decide_tests. Qed.
#[export] Hint Rewrite decodeDuration_encode decodeEnumeration_encode decodePassword_encode using (first [assumption | lia]) : codec.

Ltac writes_hook ::=
  lazymatch goal with
  | |- writes _ _ (appendPassword _ (Some _)) _ => unfold appendPassword
  | |- writes _ _ (appendPassword _ None) _ => apply writes_nil
  | |- writes _ _ (fun dst => appendPassword _ (Some _) dst) _ => unfold appendPassword
  | |- writes _ _ (fun dst => appendPassword _ None dst) _ => apply writes_nil
  end.

#[export] Program Instance DeviceCommunicationControl_Codec : Codec DeviceCommunicationControlRequest := {|
  encode := EncodeDeviceCommunicationControl;
  decode := DecodeDeviceCommunicationControl;
  fits lim req := room lim 0 3 /\ 21 <= MaxOctetStringLength (Normalize lim) /\
    optP (is_u 16) (dc_TimeDuration req) /\ 0 <= dc_EnableDisable req <= 2 /\ optP password_ok (dc_Password req);
  typed _ req := optP (is_u 16) (dc_TimeDuration req) /\ 0 <= dc_EnableDisable req <= 2 /\ optP password_ok (dc_Password req)
|}.
Next Obligation.
  intros lim [dur en pw] ((Hm & Hd & He) & Hm2 & H1 & H2 & H3); cbn [dc_TimeDuration dc_EnableDisable dc_Password] in *.
  unfold EncodeDeviceCommunicationControl; cbn [dc_TimeDuration dc_EnableDisable dc_Password]. rewrite longPassword_ok by done.
  decide_tests. destruct pw as [c|]; [rewrite optP_Some in H3; pose proof (password_fits _ c H3 Hm2)|];
    (destruct dur as [d|]; rewrite ?optP_Some in H1); codec_roundtrip lim 0%nat as Hparse;
    unfold DecodeDeviceCommunicationControl; rewrite Hparse; by decode_run.
Qed.
Next Obligation.
  intros lim bs Hb. unfold DecodeDeviceCommunicationControl. yields_step.
  eapply yields_bind; [eapply (yields_forElements (fun '(a, b, c) =>
    optP (is_u 16) a /\ optP (fun u => 0 <= u <= 2) b /\ optP password_ok c)); [|eassumption|done]|].
  - intros el [[dur en] pw] Hel (H1 & H2 & H3). unfold dccField. repeat yields_step; try done;
      [by eapply yields_decodeDuration|by eapply yields_decodeEnumeration|by eapply yields_decodePassword].
  - intros [[dur en] pw] (H1 & H2 & H3). repeat yields_step. done.
Qed.

#[export] Program Instance ReinitializeDevice_Codec : Codec ReinitializeDeviceRequest := {|
  encode := EncodeReinitializeDevice;
  decode := DecodeReinitializeDevice;
  fits lim req := room lim 0 2 /\ 21 <= MaxOctetStringLength (Normalize lim) /\ 0 <= rd_State req <= 7 /\ optP password_ok (rd_Password req);
  typed _ req := 0 <= rd_State req <= 7 /\ optP password_ok (rd_Password req)
|}.
Next Obligation.
  intros lim [st pw] ((Hm & Hd & He) & Hm2 & H2 & H3); cbn [rd_State rd_Password] in *.
  unfold EncodeReinitializeDevice; cbn [rd_State rd_Password]. rewrite longPassword_ok by done.
  decide_tests. destruct pw as [c|]; [rewrite optP_Some in H3; pose proof (password_fits _ c H3 Hm2)|];
    codec_roundtrip lim 0%nat as Hparse; unfold DecodeReinitializeDevice; rewrite Hparse; by decode_run.
Qed.
Next Obligation.
  intros lim bs Hb. unfold DecodeReinitializeDevice. yields_step.
  eapply yields_bind; [eapply (yields_forElements (fun '(b, c) => optP (fun u => 0 <= u <= 7) b /\ optP password_ok c)); [|eassumption|done]|].
  - intros el [st pw] Hel (H2 & H3). unfold reinitializeField. repeat yields_step; try done;
      [by eapply yields_decodeEnumeration|by eapply yields_decodePassword].
  - intros [st pw] (H2 & H3). repeat yields_step. done.
Qed.
