(* ===== verification/Object.v ===== *)
(** * The object model: [server/object/object.go] and [base.go]

    A [Base] is a table of properties. Its closures read the object they
    belong to: [view] is what they see of it - the identifier, the name, the
    order of the properties and the state [S] of the object type that embeds
    the [Base] - and a [Set] closure returns the new state. The locks make
    every operation atomic, so an operation is a function on the object; what
    it reports to the Device is part of its result. *)

From Stdlib Require Import ZArith Lia.
From stdpp Require Import base list gmap.
From S2P Require Import Prelude Value Ids Access.

(** ** object.go *)
Record Write := mkWrite { w_Property : PropertyReference; w_Value : ApplicationValue; w_Priority : Z }.

Definition ErrUnknownProperty : error := ErrResponse ErrorClassProperty ErrorCodeUnknownProperty.
Definition ErrWriteAccessDenied : error := ErrResponse ErrorClassProperty ErrorCodeWriteAccessDenied.
Definition ErrInvalidDataType : error := ErrResponse ErrorClassProperty ErrorCodeInvalidDataType.
Definition ErrValueOutOfRange : error := ErrResponse ErrorClassProperty ErrorCodeValueOutOfRange.
Definition ErrNotAnArray : error := ErrResponse ErrorClassProperty ErrorCodePropertyIsNotAnArray.
Definition ErrInvalidArrayIndex : error := ErrResponse ErrorClassProperty ErrorCodeInvalidArrayIndex.
Definition ErrUnknownObject : error := ErrResponse ErrorClassObject ErrorCodeUnknownObject.
Definition ErrDuplicateName : error := ErrResponse ErrorClassProperty ErrorCodeDuplicateName.
Definition ErrObjectExists : error := ErrResponse ErrorClassObject ErrorCodeObjectIdentifierAlreadyExists.
Definition ErrNotDeletable : error := ErrResponse ErrorClassObject ErrorCodeObjectDeletionNotPermitted.
Definition ErrNotCreatable : error := ErrResponse ErrorClassObject ErrorCodeDynamicCreationNotSupported.
Definition ErrUnsupportedType : error := ErrResponse ErrorClassObject ErrorCodeUnsupportedObjectType.
Definition ErrNoSpaceForObject : error := ErrResponse ErrorClassResources ErrorCodeNoSpaceForObject.

(** [AsError]: class and code. *)
Definition AsError (e : error) : Z * Z :=
  match e with
  | ErrResponse class code => (class, code)
  | _ => (ErrorClassDevice, ErrorCodeOperationalProblem)
  end.

Record Change := mkChange { ch_Object : ObjectIdentifier; ch_Properties : list Z }.

(** What a server asks of an object. [base] says whether the object embeds a
    [Base], which [Rename] and [Create] need. A write that fails changes
    nothing. *)
Class ObjectOps (O : Type) := {
  Identifier : O -> ObjectIdentifier;
  Name : O -> bytes;
  ReadProperty : O -> PropertyReference -> result ApplicationValue;
  WriteProperty : O -> Write -> result (list Change * O);
  Properties : O -> list Z * (Z -> bool);
  isBase : O -> bool;
  setName : bytes -> O -> O;
  SetDeletable : bool -> O -> O;
  Deletable : O -> bool;
  SetNotifier : bool -> O -> O
}.

(** What the Device relies on: identifiers never change, names only by
    [setName], and whether an object may be deleted by [SetDeletable]. *)
Class ObjectLaws (O : Type) `{!ObjectOps O} := {
  write_Identifier o w cs o' : WriteProperty o w = Ok (cs, o') -> Identifier o' = Identifier o;
  write_Name o w cs o' : WriteProperty o w = Ok (cs, o') -> Name o' = Name o;
  setName_Identifier n o : Identifier (setName n o) = Identifier o;
  setName_Name n o : isBase o = true -> Name (setName n o) = n;
  SetDeletable_Identifier d o : Identifier (SetDeletable d o) = Identifier o;
  SetDeletable_Name d o : Name (SetDeletable d o) = Name o;
  SetNotifier_Identifier d o : Identifier (SetNotifier d o) = Identifier o;
  SetNotifier_Name d o : Name (SetNotifier d o) = Name o;
  write_Deletable o w cs o' : WriteProperty o w = Ok (cs, o') -> Deletable o' = Deletable o;
  SetDeletable_Deletable d o : isBase o = true -> Deletable (SetDeletable d o) = d;
  SetNotifier_Deletable d o : Deletable (SetNotifier d o) = Deletable o
}.

Definition ErrPropertyIsNotAList : error := ErrResponse ErrorClassServices ErrorCodePropertyIsNotAList.
Definition ErrListElementNotFound : error := ErrResponse ErrorClassServices ErrorCodeListElementNotFound.
Definition ErrNoSpaceForListElement : error := ErrResponse ErrorClassResources ErrorCodeNoSpaceToAddListElement.
Definition ErrNoSpaceToWriteProperty : error := ErrResponse ErrorClassResources ErrorCodeNoSpaceToWriteProperty.

(** What the list operations of a [ListModifier] return: the changes
    reported and the object, or an error - a [ListError] has the 1-based
    number of the element. *)
Inductive listOutcome (O : Type) :=
| ListDone (changes : list Change) (o : O)
| ListFailed (e : error) (first : option Z).
Arguments ListDone {O} _ _.
Arguments ListFailed {O} _ _.

(** An object that may be a [ListModifier]: [None] is one that is not. *)
Class ListOps (O : Type) := {
  changeElements : O -> option (bool -> PropertyReference -> list Element -> listOutcome O)
}.

(** A change of a list keeps the object's identifier and name. *)
Class ListLaws (O : Type) `{!ObjectOps O} `{!ListOps O} := {
  change_keeps o change add ref els cs o' : changeElements o = Some change -> change add ref els = ListDone cs o' ->
    Identifier o' = Identifier o /\ Name o' = Name o
}.

(** ** base.go: values *)

(** [bacnet.Element{Value: v}] *)
Definition item (v : ApplicationValue) : Element := mkElement false 0 false false v.

Definition charString (s : bytes) : ApplicationValue := characterValue (mkCharacterString 0 s).

Definition statusFlags (inAlarm fault overridden outOfService : bool) : ApplicationValue :=
  let b := 0 in
  let b := if inAlarm then Z.lor b 0x80 else b in
  let b := if fault then Z.lor b 0x40 else b in
  let b := if overridden then Z.lor b 0x20 else b in
  let b := if outOfService then Z.lor b 0x10 else b in
  bitStringValue (mkBitString 4 [b]).

(** [bitString]; octet [k] holds the bits [8k .. 8k+7], first bit highest. *)
Definition bitString (n : Z) (set : Z -> bool) : ApplicationValue :=
  let nbytes := let k := (n + 7) / 8 in if k =? 0 then 1 else k in
  let octet k :=
    fold_left (fun acc i => if (8 * k + i <? n) && set (8 * k + i) then Z.lor acc (Z.shiftr 0x80 i) else acc) (seqZ 0 8) 0 in
  if n =? 0 then bitStringValue (mkBitString 0 [])
  else bitStringValue (mkBitString (u8 (nbytes * 8 - n)) (map octet (seqZ 0 nbytes))).

(** [bit] of a bit string value; the octets of a bit string are below 256. *)
Definition valueBit (v : ApplicationValue) (i : Z) : bool :=
  if bool_decide (av_Kind v <> ValueBitString) then false
  else
    match bs_Bytes (av_BitString v) !! Z.to_nat (i / 8) with
    | Some b => negb (Z.land b (Z.shiftr 0x80 (i mod 8)) =? 0)
    | None => false
    end.

Definition kindAllowed (kinds : list ValueKind) (k : ValueKind) : bool := existsb (fun x => bool_decide (x = k)) kinds.

(** [arrayItem]: item [idx] of an array value; 0 is the length. *)
Definition arrayItem (v : ApplicationValue) (idx : Z) : result ApplicationValue :=
  let n := if bool_decide (av_Kind v <> ValueConstructed) then 0 else u32 (len (av_Elements v)) in
  if idx =? 0 then Ok (UnsignedValue n)
  else if idx >? n then Err ErrInvalidArrayIndex
  else
    let* el := index (av_Elements v) (idx - 1) in
    if el_Context el then Ok (Clone (constructedValue [el])) else Ok (Clone (el_Value el)).

(** ** base.go: the property table *)

(** What the closures of an object see of it. *)
Record view (S : Type) := mkView { o_id : ObjectIdentifier; o_name : bytes; o_order : list Z; o_state : S }.
Arguments mkView {S} _ _ _ _.
Arguments o_id {S} _.
Arguments o_name {S} _.
Arguments o_order {S} _.
Arguments o_state {S} _.

Record Property (S : Type) := mkProperty {
  p_Value : ApplicationValue;
  p_Get : option (view S -> ApplicationValue);
  p_Set : option (Write -> S -> result (list Z * S));
  p_Writable : bool;
  p_Kinds : list ValueKind;
  p_Array : bool;
  p_Required : bool
}.
Arguments mkProperty {S} _ _ _ _ _ _ _.
Arguments p_Value {S} _.
Arguments p_Get {S} _.
Arguments p_Set {S} _.
Arguments p_Writable {S} _.
Arguments p_Kinds {S} _.
Arguments p_Array {S} _.
Arguments p_Required {S} _.

Record Base (S : Type) := mkBase { b_view : view S; b_props : gmap Z (Property S); b_notify : bool; b_deletable : bool }.
Arguments mkBase {S} _ _ _ _.
Arguments b_view {S} _.
Arguments b_props {S} _.
Arguments b_notify {S} _.
Arguments b_deletable {S} _.

(** [Property] literals: computed, stored and settable properties. *)
Definition computed {S} (required : bool) (get : S -> ApplicationValue) : Property S :=
  mkProperty NullValue (Some (fun v => get (o_state v))) None false [] false required.
Definition stored {S} (required : bool) (v : ApplicationValue) : Property S :=
  mkProperty v None None false [] false required.
Definition storedText {S} (s : bytes) : Property S :=
  mkProperty (charString s) None None true [ValueCharacterString] false false.
Definition settable {S} (required : bool) (get : S -> ApplicationValue) (set : Write -> S -> result (list Z * S)) : Property S :=
  mkProperty NullValue (Some (fun v => get (o_state v))) (Some set) true [] false required.

Section BaseOps.
Context {S : Type}.
Implicit Types (b : Base S) (v : view S) (p : Property S).

Definition setOrder (order : list Z) v : view S := mkView (o_id v) (o_name v) order (o_state v).
Definition setState (s : S) v : view S := mkView (o_id v) (o_name v) (o_order v) s.

Definition Define (id : Z) p b : Base S :=
  let order :=
    match b_props b !! id with
    | Some _ => o_order (b_view b)
    | None => o_order (b_view b) ++ [id]
    end in
  mkBase (setOrder order (b_view b)) (<[id := p]> (b_props b)) (b_notify b) (b_deletable b).

Definition propertyList v : ApplicationValue :=
  let skipped id := (id =? PropertyObjectIdentifier) || (id =? PropertyObjectName) || (id =? PropertyObjectType) || (id =? PropertyPropertyList) in
  constructedValue (map (fun id => item (EnumValue (u32 id))) (List.filter (fun id => negb (skipped id)) (o_order v))).

Definition NewBase (id : ObjectIdentifier) (name : bytes) (s : S) : Base S :=
  let always array get := mkProperty NullValue (Some get) None false [] array true in
  let b := mkBase (mkView id name [] s) ∅ false false in
  let b := Define PropertyObjectIdentifier (always false (fun v => ObjectIDValue (o_id v))) b in
  let b := Define PropertyObjectName (always false (fun v => charString (o_name v))) b in
  let b := Define PropertyObjectType (always false (fun v => EnumValue (u32 (oid_Type (o_id v))))) b in
  Define PropertyPropertyList (always true propertyList) b.

(** [Properties]: in order, and which are required. *)
Definition baseProperties b : list Z * (Z -> bool) :=
  (o_order (b_view b), fun id => match b_props b !! id with Some p => p_Required p | None => false end).

Definition valueOf v p : ApplicationValue := match p_Get p with Some get => get v | None => p_Value p end.

Definition readLocked b (ref : PropertyReference) : result ApplicationValue :=
  match b_props b !! pr_Identifier ref with
  | None => Err ErrUnknownProperty
  | Some p =>
      let v := valueOf (b_view b) p in
      match pr_ArrayIndex ref with
      | None => Ok (Clone v)
      | Some idx => if negb (p_Array p) then Err ErrNotAnArray else arrayItem v idx
      end
  end.

(** [p.Value = v] *)
Definition setValue (v : ApplicationValue) p : Property S :=
  mkProperty v (p_Get p) (p_Set p) (p_Writable p) (p_Kinds p) (p_Array p) (p_Required p).
Definition putProperty (id : Z) p b : Base S :=
  mkBase (b_view b) (<[id := p]> (b_props b)) (b_notify b) (b_deletable b).
Definition putState (s : S) b : Base S := mkBase (setState s (b_view b)) (b_props b) (b_notify b) (b_deletable b).

Definition writeLocked b (w : Write) : result (list Z * Base S) :=
  let id := pr_Identifier (w_Property w) in
  match b_props b !! id with
  | None => Err ErrUnknownProperty
  | Some p =>
      if negb (p_Writable p) then Err ErrWriteAccessDenied
      else
        match p_Set p with
        | Some set => let* (changed, s) := set w (o_state (b_view b)) in Ok (changed, putState s b)
        | None =>
            match pr_ArrayIndex (w_Property w) with
            | Some idx =>
                if negb (p_Array p) then Err ErrNotAnArray
                else
                  let n := u32 (len (av_Elements (p_Value p))) in
                  if (idx =? 0) || (idx >? n) then Err ErrInvalidArrayIndex
                  else if negb (kindAllowed (p_Kinds p) (av_Kind (w_Value w))) then Err ErrInvalidDataType
                  else
                    let els := <[Z.to_nat (idx - 1) := item (Clone (w_Value w))]> (av_Elements (p_Value p)) in
                    Ok ([id], putProperty id (setValue (constructedValue els) p) b)
            | None =>
                let bad :=
                  if p_Array p
                  then bool_decide (av_Kind (w_Value w) <> ValueConstructed) ||
                       existsb (fun el => el_Context el || negb (kindAllowed (p_Kinds p) (av_Kind (el_Value el)))) (av_Elements (w_Value w))
                  else negb (kindAllowed (p_Kinds p) (av_Kind (w_Value w))) in
                if bad then Err ErrInvalidDataType
                else Ok ([id], putProperty id (setValue (Clone (w_Value w)) p) b)
            end
        end
  end.

(** The change reported to the Device, if any. *)
Definition notifyChange b (changed : list Z) : list Change :=
  if (len changed >? 0) && b_notify b then [mkChange (o_id (b_view b)) changed] else [].

Definition baseWriteProperty b (w : Write) : result (list Change * Base S) :=
  let* (changed, b') := writeLocked b w in Ok (notifyChange b changed, b').

(** [Update]: a change made by the application. *)
Definition Update (fn : S -> list Z * S) b : list Change * Base S :=
  let (changed, s) := fn (o_state (b_view b)) in (notifyChange b changed, putState s b).

Definition baseSetName (name : bytes) b : Base S :=
  mkBase (mkView (o_id (b_view b)) name (o_order (b_view b)) (o_state (b_view b))) (b_props b) (b_notify b) (b_deletable b).
Definition baseSetDeletable (d : bool) b : Base S := mkBase (b_view b) (b_props b) (b_notify b) d.
Definition baseSetNotifier (n : bool) b : Base S := mkBase (b_view b) (b_props b) n (b_deletable b).

#[export] Instance Base_ops : ObjectOps (Base S) := {|
  Identifier b := o_id (b_view b);
  Name b := o_name (b_view b);
  ReadProperty := readLocked;
  WriteProperty := baseWriteProperty;
  Properties := baseProperties;
  isBase _ := true;
  setName := baseSetName;
  SetDeletable := baseSetDeletable;
  Deletable := b_deletable;
  SetNotifier := baseSetNotifier
|}.

(** ** What a write does *)

(** A write that succeeds: the property is writable, and either its [Set] ran
    or its stored value was replaced. *)
Inductive written b (w : Write) : list Z -> Base S -> Prop :=
| written_set p set changed s :
    b_props b !! pr_Identifier (w_Property w) = Some p -> p_Writable p = true -> p_Set p = Some set ->
    set w (o_state (b_view b)) = Ok (changed, s) -> written b w changed (putState s b)
| written_stored p x :
    b_props b !! pr_Identifier (w_Property w) = Some p -> p_Writable p = true -> p_Set p = None ->
    written b w [pr_Identifier (w_Property w)] (putProperty (pr_Identifier (w_Property w)) (setValue x p) b).

Lemma writeLocked_written b w changed b' : writeLocked b w = Ok (changed, b') -> written b w changed b'.
Proof.
  unfold writeLocked. destruct (b_props b !! _) as [p|] eqn:Ep; [|done]. destruct (p_Writable p) eqn:Ew; [|done]. cbn [negb].
  destruct (p_Set p) as [set|] eqn:Es.
  - intros H. apply bind_Ok_inv in H as ([c s] & Hs & [= <- <-]). by eapply written_set.
  - destruct (pr_ArrayIndex (w_Property w)) as [idx|].
    + destruct (negb (p_Array p)); [done|]. cbv zeta. destruct (_ || _); [done|]. destruct (negb _); [done|].
      intros [= <- <-]. by eapply written_stored.
    + cbv zeta. destruct (if p_Array p then _ else _); [done|]. intros [= <- <-]. by eapply written_stored.
Qed.

Lemma written_id b w changed b' : written b w changed b' -> o_id (b_view b') = o_id (b_view b).
Proof. by intros []. Qed.
Lemma written_name b w changed b' : written b w changed b' -> o_name (b_view b') = o_name (b_view b).
Proof. by intros []. Qed.

(** A property that is computed or not writable stays as it is defined. *)
Lemma written_keeps b w changed b' id p : written b w changed b' -> b_props b !! id = Some p ->
  p_Set p <> None \/ p_Writable p = false -> b_props b' !! id = Some p.
Proof.
  intros [q set c s Hq Hw Hs Hr|q x Hq Hw Hs] Hp Hk; [done|]. cbn.
  destruct (decide (pr_Identifier (w_Property w) = id)) as [<-|Hne]; [|by rewrite lookup_insert_ne].
  rewrite Hq in Hp. injection Hp as ->. destruct Hk as [Hk|Hk]; [by rewrite Hs in Hk|by rewrite Hw in Hk].
Qed.

(** What the [Set] closures of an object do, whatever the property. *)
Definition setters (R : Z -> Write -> S -> S -> Prop) b : Prop :=
  forall id p set w s changed s', b_props b !! id = Some p -> p_Set p = Some set -> set w s = Ok (changed, s') -> R id w s s'.

(** A property that adds no other behaviour. *)
Definition setter (R : Z -> Write -> S -> S -> Prop) (id : Z) p : Prop :=
  match p_Set p with
  | Some set => forall w s changed s', set w s = Ok (changed, s') -> R id w s s'
  | None => True
  end.

Lemma setters_Define R id p b : setters R b -> setter R id p -> setters R (Define id p b).
Proof.
  intros Hb Hp id' q set w s ch s' Hq Hs Hr. cbn in Hq. destruct (decide (id = id')) as [<-|Hne].
  - rewrite lookup_insert_eq in Hq. injection Hq as <-. unfold setter in Hp. rewrite Hs in Hp. by eapply Hp.
  - rewrite lookup_insert_ne in Hq by done. by eapply Hb.
Qed.

Lemma setters_NewBase R id name s : setters R (NewBase id name s).
Proof. unfold NewBase. by repeat apply setters_Define. Qed.

Lemma setters_putState R s b : setters R b -> setters R (putState s b).
Proof. done. Qed.

Lemma setters_written R b w changed b' : setters R b -> written b w changed b' -> setters R b'.
Proof.
  intros Hb [q set ch s Hq _ _ _|q x Hq _ Hqs]; [done|]. intros id p set w' s c s' Hp Hs Hr. cbn in Hp.
  destruct (decide (pr_Identifier (w_Property w) = id)) as [<-|Hne].
  - rewrite lookup_insert_eq in Hp. injection Hp as <-. cbn in Hs. by rewrite Hqs in Hs.
  - rewrite lookup_insert_ne in Hp by done. by eapply Hb.
Qed.

Lemma written_state R b w changed b' : setters R b -> written b w changed b' ->
  o_state (b_view b') = o_state (b_view b) \/ R (pr_Identifier (w_Property w)) w (o_state (b_view b)) (o_state (b_view b')).
Proof. intros Hb [q set ch s Hq _ Hs Hr|q x Hq _ _]; [right; by eapply Hb|by left]. Qed.

Lemma lookup_Define id id' p b : b_props (Define id p b) !! id' = if decide (id = id') then Some p else b_props b !! id'.
Proof. cbn. destruct (decide (id = id')) as [<-|]; [by rewrite lookup_insert_eq|by rewrite lookup_insert_ne]. Qed.

Lemma Define_state id p b : o_state (b_view (Define id p b)) = o_state (b_view b).
Proof. done. Qed.
Lemma NewBase_state id name s : o_state (b_view (NewBase id name s)) = s.
Proof. unfold NewBase. by rewrite !Define_state. Qed.

#[export] Instance Base_laws : ObjectLaws (Base S).
Proof.
  split; try done; intros b w cs b' H; cbn in H; apply bind_Ok_inv in H as ([c b2] & H & [= <- <-]); apply writeLocked_written in H.
  - by eapply written_id.
  - by eapply written_name.
  - by destruct H.
Qed.
End BaseOps.
