(* ===== verification/Commandable.v ===== *)
(** * Command prioritisation: [server/object/commandable.go]

    The priority array and the properties it gives an object, over the state
    [S] of any object type that holds one ([CommandState]). The abstract
    specification is a map from priorities to commands ([command]); the
    properties of a commandable object refine it. *)

From Stdlib Require Import ZArith Lia.
From stdpp Require Import base list gmap.
From S2P Require Import Prelude Value Ids Float32 Tags Constructed Access Object.

(** ** commandable.go *)
Record priorityArray := mkPA { pa_slots : list (option ApplicationValue); pa_relinquish : ApplicationValue }.
Definition newPA (relinquish : ApplicationValue) : priorityArray := mkPA (replicate 16 None) relinquish.

Definition defaultPriority : Z := 16.

Fixpoint firstSlot (slots : list (option ApplicationValue)) (i : Z) : option (Z * ApplicationValue) :=
  match slots with
  | [] => None
  | Some v :: _ => Some (i, v)
  | None :: slots => firstSlot slots (i + 1)
  end.

Definition present (pa : priorityArray) : ApplicationValue :=
  match firstSlot (pa_slots pa) 1 with
  | Some (_, v) => v
  | None => pa_relinquish pa
  end.

Definition active (pa : priorityArray) : option Z := fst <$> firstSlot (pa_slots pa) 1.

Definition paWrite (pa : priorityArray) (v : ApplicationValue) (priority : Z) : result priorityArray :=
  let priority := if priority =? 0 then defaultPriority else priority in
  if (priority <? 1) || (priority >? 16) then Err ErrValueOutOfRange
  else
    let put o := mkPA (<[Z.to_nat (priority - 1) := o]> (pa_slots pa)) (pa_relinquish pa) in
    if bool_decide (av_Kind v = ValueNull) then Ok (put None) else Ok (put (Some (Clone v))).

Definition paValue (pa : priorityArray) : ApplicationValue :=
  constructedValue (map (fun s => item (match s with Some v => v | None => NullValue end)) (pa_slots pa)).

Definition currentPriority (pa : priorityArray) : ApplicationValue :=
  match active pa with
  | Some p => UnsignedValue p
  | None => NullValue
  end.

Definition sameValue (a b : ApplicationValue) : bool :=
  if negb (bool_decide (av_Kind a = av_Kind b)) then false
  else
    match av_Kind a with
    | ValueReal => f32_eqb (f32 (av_Real a)) (f32 (av_Real b))
    | ValueEnumerated => av_Enumerated a =? av_Enumerated b
    | ValueUnsigned => av_Unsigned a =? av_Unsigned b
    | ValueBoolean => bool_decide (av_Boolean a = av_Boolean b)
    | ValueNull => true
    | _ =>
        match AppendApplicationValue [] a, AppendApplicationValue [] b with
        | Ok ea, Ok eb => bool_decide (ea = eb)
        | _, _ => false
        end
    end.

(** The state of an object with a priority array, and the check of a value
    for its Present_Value. *)
Class CommandState (S : Type) := {
  getPA : S -> priorityArray;
  putPA : priorityArray -> S -> S;
  checkCommand : S -> ApplicationValue -> result unit;
  get_putPA pa s : getPA (putPA pa s) = pa;
  check_putPA pa s v : checkCommand (putPA pa s) v = checkCommand s v
}.

Section Commandable.
Context {S : Type} `{!CommandState S}.

(** [onChange] of every caller. *)
Definition pvChanged : list Z := [PropertyPresentValue].

Definition setRelinquish (w : Write) (s : S) : result (list Z * S) :=
  match pr_ArrayIndex (w_Property w) with
  | Some _ => Err ErrNotAnArray
  | None =>
      let* _ := checkCommand s (w_Value w) in
      let before := present (getPA s) in
      let pa := mkPA (pa_slots (getPA s)) (Clone (w_Value w)) in
      let changed := [PropertyRelinquishDefault] in
      let changed := if negb (sameValue before (present pa)) then changed ++ pvChanged else changed in
      Ok (changed, putPA pa s)
  end.

Definition setPresent (w : Write) (s : S) : result (list Z * S) :=
  match pr_ArrayIndex (w_Property w) with
  | Some _ => Err ErrNotAnArray
  | None =>
      let* _ := if negb (bool_decide (av_Kind (w_Value w) = ValueNull)) then checkCommand s (w_Value w) else Ok tt in
      let before := present (getPA s) in
      let* pa := paWrite (getPA s) (w_Value w) (w_Priority w) in
      let changed := [PropertyPriorityArray; PropertyCurrentCommandPriority] in
      let changed := if negb (sameValue before (present pa)) then changed ++ pvChanged else changed in
      Ok (changed, putPA pa s)
  end.

Definition priorityArrayProperty : Property S :=
  mkProperty NullValue (Some (fun v => paValue (getPA (o_state v)))) None false [] true true.
Definition relinquishProperty : Property S := settable true (fun s => pa_relinquish (getPA s)) setRelinquish.
Definition currentPriorityProperty : Property S := computed true (fun s => currentPriority (getPA s)).
Definition presentProperty : Property S := settable true (fun s => present (getPA s)) setPresent.

Definition defineCommandable (b : Base S) : Base S :=
  let b := Define PropertyPriorityArray priorityArrayProperty b in
  let b := Define PropertyRelinquishDefault relinquishProperty b in
  let b := Define PropertyCurrentCommandPriority currentPriorityProperty b in
  Define PropertyPresentValue presentProperty b.
End Commandable.

(** ** The specification: clause 19.2

    The commands in force by priority, and the value without any. *)
Record command := mkCommand { cm_slots : gmap Z ApplicationValue; cm_default : ApplicationValue }.

(** The command of the highest priority: the lowest number. *)
Definition inForce (c : command) : option (Z * ApplicationValue) :=
  head (omap (fun p => (fun v => (p, v)) <$> cm_slots c !! p) (seqZ 1 16)).
Definition commanded (c : command) : ApplicationValue :=
  match inForce c with Some (_, v) => v | None => cm_default c end.

(** What a write of Present_Value or Relinquish_Default commands. *)
Definition command_step (check : ApplicationValue -> result unit) (w : Write) (c : command) : result command :=
  let id := pr_Identifier (w_Property w) in
  if id =? PropertyPresentValue then
    if bool_decide (pr_ArrayIndex (w_Property w) <> None) then Err ErrNotAnArray
    else
      let p := if w_Priority w =? 0 then 16 else w_Priority w in
      if bool_decide (av_Kind (w_Value w) = ValueNull) then
        if bool_decide (1 <= p <= 16) then Ok (mkCommand (delete p (cm_slots c)) (cm_default c)) else Err ErrValueOutOfRange
      else
        let* _ := check (w_Value w) in
        if bool_decide (1 <= p <= 16) then Ok (mkCommand (<[p := w_Value w]> (cm_slots c)) (cm_default c)) else Err ErrValueOutOfRange
  else if id =? PropertyRelinquishDefault then
    if bool_decide (pr_ArrayIndex (w_Property w) <> None) then Err ErrNotAnArray
    else let* _ := check (w_Value w) in Ok (mkCommand (cm_slots c) (w_Value w))
  else Ok c.

(** A sequence of writes; those that fail change nothing. *)
Definition command_run (check : ApplicationValue -> result unit) (ws : list Write) (c : command) : command :=
  fold_left (fun c w => match command_step check w c with Ok c' => c' | Err _ => c end) ws c.
Definition write_run {O} `{ObjectOps O} (ws : list Write) (o : O) : O :=
  fold_left (fun o w => match WriteProperty o w with Ok (_, o') => o' | Err _ => o end) ws o.

(** ** The priority array implements the commands *)
Record implements (pa : priorityArray) (c : command) : Prop := {
  im_slots : pa_slots pa = (fun p => cm_slots c !! p) <$> seqZ 1 16;
  im_default : pa_relinquish pa = cm_default c
}.

Lemma firstSlot_map (f : Z -> option ApplicationValue) n i :
  firstSlot (f <$> seqZ i n) i = head (omap (fun p => (fun v => (p, v)) <$> f p) (seqZ i n)).
Proof.
  destruct (Z_lt_le_dec n 0) as [Hn|Hn]; [by rewrite seqZ_nil by lia|]. revert i. pattern n. apply natlike_ind; [done| |done]. clear n Hn. intros n Hn IH i.
  rewrite seqZ_cons by lia. replace (Z.pred (Z.succ n)) with n by lia. cbn [fmap list_fmap firstSlot omap list_omap].
  destruct (f i) as [v|]; [done|]. cbn. by rewrite <- IH.
Qed.

Lemma implements_new v : implements (newPA v) (mkCommand ∅ v).
Proof. by split. Qed.

Lemma implements_present pa c : implements pa c -> firstSlot (pa_slots pa) 1 = inForce c /\ present pa = commanded c.
Proof.
  intros [Hs Hd]. assert (firstSlot (pa_slots pa) 1 = inForce c) as H by (rewrite Hs; apply firstSlot_map).
  split; [done|]. unfold present, commanded. by rewrite H, Hd.
Qed.

Lemma implements_put pa c p o : implements pa c -> 1 <= p <= 16 ->
  implements (mkPA (<[Z.to_nat (p - 1) := o]> (pa_slots pa)) (pa_relinquish pa))
    (mkCommand (partial_alter (fun _ => o) p (cm_slots c)) (cm_default c)).
Proof.
  intros [Hs Hd] Hp. split; [|done]. cbn. rewrite Hs. apply list_eq. intros i.
  destruct (decide (i < 16)%nat) as [Hi|Hi].
  - rewrite list_lookup_fmap, lookup_seqZ_lt by lia. cbn [fmap option_fmap option_map].
    destruct (decide (i = Z.to_nat (p - 1))) as [->|Hne].
    + rewrite list_lookup_insert_eq by (rewrite length_fmap, length_seqZ; lia).
      replace (1 + Z.of_nat (Z.to_nat (p - 1))) with p by lia. by rewrite lookup_partial_alter_eq.
    + rewrite list_lookup_insert_ne, list_lookup_fmap, lookup_seqZ_lt by (done || lia). cbn [fmap option_fmap option_map].
      by rewrite lookup_partial_alter_ne by lia.
  - rewrite !lookup_ge_None_2; [done|rewrite length_fmap, length_seqZ; lia|rewrite length_insert, length_fmap, length_seqZ; lia].
Qed.

Lemma bool_decide_isSome {A} (o : option A) : bool_decide (o <> None) = match o with Some _ => true | None => false end.
Proof. destruct o; [apply bool_decide_eq_true_2; congruence|apply bool_decide_eq_false_2; congruence]. Qed.

(** The loop lemma: a write of a slot. *)
Lemma paWrite_implements pa c v prio : implements pa c -> 0 <= prio ->
  let p := if prio =? 0 then 16 else prio in
  if bool_decide (1 <= p <= 16)
  then exists pa', paWrite pa v prio = Ok pa' /\
    implements pa' (mkCommand (if bool_decide (av_Kind v = ValueNull) then delete p (cm_slots c) else <[p := v]> (cm_slots c)) (cm_default c))
  else paWrite pa v prio = Err ErrValueOutOfRange.
Proof.
  intros Him Hp. cbv zeta. unfold paWrite, defaultPriority. cbv zeta. set (p := if prio =? 0 then 16 else prio).
  assert (0 <= p) as Hp0 by (subst p; destruct (prio =? 0); lia). destruct (bool_decide_reflect (1 <= p <= 16)) as [H|H].
  - decide_tests. destruct (bool_decide _); (eexists; split; [reflexivity|]); rewrite ?Clone_id; by apply implements_put.
  - destruct (decide (p < 1)); by decide_tests.
Qed.

Section Refinement.
Context {S : Type} `{!CommandState S}.
Implicit Types (b : Base S) (c : command).

(** A commandable object: its four properties are those of
    [defineCommandable], and no other property touches the commands. *)
Record commandable b : Prop := {
  cb_present : b_props b !! PropertyPresentValue = Some presentProperty;
  cb_relinquish : b_props b !! PropertyRelinquishDefault = Some relinquishProperty;
  cb_array : b_props b !! PropertyPriorityArray = Some priorityArrayProperty;
  cb_current : b_props b !! PropertyCurrentCommandPriority = Some currentPriorityProperty;
  cb_others : setters (fun id _ s s' => id <> PropertyPresentValue -> id <> PropertyRelinquishDefault ->
    getPA s' = getPA s /\ forall v, checkCommand s' v = checkCommand s v) b
}.

Record refines (check : ApplicationValue -> result unit) b c : Prop := {
  rf_commandable : commandable b;
  rf_check v : checkCommand (o_state (b_view b)) v = check v;
  rf_implements : implements (getPA (o_state (b_view b))) c
}.

Lemma commandable_putState b s : commandable b -> commandable (putState s b).
Proof. by intros []. Qed.

Lemma commandable_written b w changed b' : commandable b -> written b w changed b' -> commandable b'.
Proof.
  intros Hc Hw. destruct Hc as [H1 H2 H3 H4 H5].
  split; [by eapply written_keeps; [done..|left]|by eapply written_keeps; [done..|left]|by eapply written_keeps; [done..|right]
    |by eapply written_keeps; [done..|right]|by eapply setters_written].
Qed.

Lemma refines_present check b c w : refines check b c -> 0 <= w_Priority w -> pr_Identifier (w_Property w) = PropertyPresentValue ->
  match WriteProperty b w with
  | Ok (_, b') => exists c', command_step check w c = Ok c' /\ refines check b' c'
  | Err e => command_step check w c = Err e
  end.
Proof.
  intros [Hc Hk Him] Hp Hid. pose proof (cb_present b Hc) as Hpv.
  cbn [WriteProperty Base_ops]. unfold baseWriteProperty, writeLocked, command_step. rewrite Hid, Hpv. cbn [p_Writable p_Set presentProperty settable negb].
  unfold setPresent. rewrite Z.eqb_refl, bool_decide_isSome. destruct (pr_ArrayIndex _); [done|].
  pose proof (paWrite_implements _ c (w_Value w) (w_Priority w) Him Hp) as Hpa. cbv zeta in Hpa.
  set (p := if w_Priority w =? 0 then 16 else w_Priority w) in *.
  destruct (bool_decide (av_Kind (w_Value w) = ValueNull)); cbn [negb bind].
  - destruct (bool_decide (1 <= p <= 16)); [|by rewrite Hpa]. destruct Hpa as (pa' & -> & Hpa). cbn [bind].
    eexists. split; [reflexivity|]. split; [by apply commandable_putState| |]; cbn; [|by rewrite get_putPA]. intros v. by rewrite check_putPA.
  - rewrite Hk. destruct (check (w_Value w)) as [[]|e]; [|done]. cbn [bind].
    destruct (bool_decide (1 <= p <= 16)); [|by rewrite Hpa]. destruct Hpa as (pa' & -> & Hpa). cbn [bind].
    eexists. split; [reflexivity|]. split; [by apply commandable_putState| |]; cbn; [|by rewrite get_putPA]. intros v. by rewrite check_putPA.
Qed.

Lemma refines_relinquish check b c w : refines check b c -> pr_Identifier (w_Property w) = PropertyRelinquishDefault ->
  match WriteProperty b w with
  | Ok (_, b') => exists c', command_step check w c = Ok c' /\ refines check b' c'
  | Err e => command_step check w c = Err e
  end.
Proof.
  intros [Hc Hk Him] Hid. pose proof (cb_relinquish b Hc) as Hpv.
  cbn [WriteProperty Base_ops]. unfold baseWriteProperty, writeLocked, command_step. rewrite Hid, Hpv. cbn [p_Writable p_Set relinquishProperty settable negb].
  unfold setRelinquish. change (PropertyRelinquishDefault =? PropertyPresentValue) with false. rewrite Z.eqb_refl, bool_decide_isSome.
  destruct (pr_ArrayIndex _); [done|]. rewrite Hk. destruct (check (w_Value w)) as [[]|e]; [|done]. cbn [bind].
  eexists. split; [reflexivity|]. split; [by apply commandable_putState| |]; cbn.
  - intros v. by rewrite check_putPA.
  - rewrite get_putPA, Clone_id. by destruct Him as [H1 H2].
Qed.

Lemma refines_other check b c w : refines check b c -> pr_Identifier (w_Property w) <> PropertyPresentValue ->
  pr_Identifier (w_Property w) <> PropertyRelinquishDefault -> command_step check w c = Ok c /\
  match WriteProperty b w with Ok (_, b') => refines check b' c | Err _ => True end.
Proof.
  intros [Hc Hk Him] H1 H2. split; [unfold command_step; by rewrite !(proj2 (Z.eqb_neq _ _))|].
  cbn [WriteProperty Base_ops]. unfold baseWriteProperty. destruct (writeLocked b w) as [[ch b']|] eqn:E; [|done]. cbn [bind].
  apply writeLocked_written in E. pose proof (written_state _ _ _ _ _ (cb_others b Hc) E) as Hs.
  split; [by eapply commandable_written| |]; destruct Hs as [->|Hs]; try done; destruct (Hs H1 H2) as [Hg Hv].
  - intros v. by rewrite Hv.
  - by rewrite Hg.
Qed.

(** One write: the object and the commands agree on its outcome. *)
Lemma refines_write check b c w : refines check b c -> 0 <= w_Priority w ->
  match WriteProperty b w with
  | Ok (_, b') => exists c', command_step check w c = Ok c' /\ refines check b' c'
  | Err e => command_step check w c = Err e \/ command_step check w c = Ok c
  end.
Proof.
  intros Hr Hp. destruct (decide (pr_Identifier (w_Property w) = PropertyPresentValue)) as [H1|H1].
  { pose proof (refines_present check b c w Hr Hp H1) as H. destruct (WriteProperty b w) as [[]|]; [done|by left]. }
  destruct (decide (pr_Identifier (w_Property w) = PropertyRelinquishDefault)) as [H2|H2].
  { pose proof (refines_relinquish check b c w Hr H2) as H. destruct (WriteProperty b w) as [[]|]; [done|by left]. }
  destruct (refines_other check b c w Hr H1 H2) as [Hs H]. destruct (WriteProperty b w) as [[]|]; [by eexists|by right].
Qed.

Lemma refines_run check ws b c : refines check b c -> Forall (fun w => 0 <= w_Priority w) ws ->
  refines check (write_run ws b) (command_run check ws c).
Proof.
  intros Hr Hws. revert b c Hr. induction Hws as [|w ws Hw Hws IH]; intros b c Hr; [done|]. cbn [write_run command_run fold_left].
  apply IH. pose proof (refines_write check b c w Hr Hw) as H. destruct (WriteProperty b w) as [[ch b']|e].
  - by destruct H as (c' & -> & H).
  - by destruct H as [-> | ->].
Qed.

(** *** What is read *)
Definition wholeRef (id : Z) : PropertyReference := mkPropertyReference id None.
Definition itemRef (id i : Z) : PropertyReference := mkPropertyReference id (Some i).

Lemma refines_reads check b c : refines check b c ->
  ReadProperty b (wholeRef PropertyPresentValue) = Ok (commanded c) /\
  ReadProperty b (wholeRef PropertyRelinquishDefault) = Ok (cm_default c) /\
  ReadProperty b (wholeRef PropertyCurrentCommandPriority) =
    Ok (match inForce c with Some (p, _) => UnsignedValue p | None => NullValue end) /\
  ReadProperty b (itemRef PropertyPriorityArray 0) = Ok (UnsignedValue 16) /\
  forall p, 1 <= p <= 16 ->
    ReadProperty b (itemRef PropertyPriorityArray p) = Ok (match cm_slots c !! p with Some v => v | None => NullValue end).
Proof.
  intros [[H1 H2 H3 H4 _] _ Him]. destruct (implements_present _ _ Him) as [Hf Hp]. destruct Him as [Hs Hd].
  cbn [ReadProperty Base_ops]. unfold readLocked. cbn [pr_Identifier pr_ArrayIndex wholeRef itemRef]. rewrite H1, H2, H3, H4.
  unfold valueOf, currentPriorityProperty, presentProperty, relinquishProperty, computed, settable; cbn. unfold currentPriority, active.
  rewrite !Clone_id, Hp, Hd, Hf. split_and!; try done; [by destruct (inForce c) as [[]|]|by rewrite Hs|].
  intros p Hpp. unfold arrayItem, paValue. cbn [av_Kind av_Elements constructedValue]. rewrite bool_decide_eq_false_2 by congruence. cbv zeta.
  rewrite Hs. unfold len. rewrite length_map, length_fmap, length_seqZ. change (u32 (Z.of_nat (Z.to_nat 16))) with 16.
  decide_tests. unfold index. decide_test. rewrite <- Hs. change (map ?f (pa_slots ?q)) with (f <$> pa_slots q).
  rewrite Hs, list_lookup_fmap, list_lookup_fmap, lookup_seqZ_lt by lia. cbn.
  replace (1 + Z.of_nat (Z.to_nat (p - 1))) with p by lia. rewrite Clone_id. done.
Qed.
End Refinement.
