(* ===== verification/Events.v ===== *)
(** * Points and their event detection: [server/object/intrinsic.go] and the
    state of [server/object/point.go]

    The state of a point object, intrinsic reporting as a state machine over
    the event state ([EvaluateEvents]), the acknowledgment of transitions
    ([AcknowledgeAlarm]) and the event properties ([defineEvents]).

    A [time.Time] is its distance from Go's zero time in nanoseconds. What the
    code asks of the local time zone - calendar fields of an instant and back -
    is the class [LocalTime]. *)

From Stdlib Require Import ZArith Lia.
From stdpp Require Import base list gmap.
From S2P Require Import Prelude Value Ids Float32 Tags Constructed Access Object Commandable.

(** ** Times *)
Record Civil := mkCivil {
  c_Year : Z; c_Month : Z; c_Day : Z; c_Weekday : Z; c_Hour : Z; c_Minute : Z; c_Second : Z; c_Nanosecond : Z }.

(** package time: the calendar fields of an instant in the local zone, and
    [time.Date] of such fields. *)
Class LocalTime := { civil : Z -> Civil; Date_ : Civil -> Z }.

Definition second : Z := 10 ^ 9.

(** [t.Truncate(d)] *)
Definition Truncate (t d : Z) : Z := t - t mod d.
(** [t.Sub(u)], a saturating duration. *)
Definition timeSub (t u : Z) : Z := Z.max (- 2 ^ 63) (Z.min (2 ^ 63 - 1) (t - u)).

Section Calendar.
Context {LT : LocalTime}.

Definition dateOf (t : Z) : Date :=
  let c := civil t in
  let wd := if c_Weekday c =? 0 then 7 else c_Weekday c in
  mkDate (u8 (c_Year c - 1900)) (u8 (c_Month c)) (u8 (c_Day c)) wd.
Definition timeOf (t : Z) : Time :=
  let c := civil t in
  mkTime (u8 (c_Hour c)) (u8 (c_Minute c)) (u8 (c_Second c)) (u8 (c_Nanosecond c / 10 ^ 7)).

(** [dateTimeToTime]: unspecified fields become the first of their range. *)
Definition dateTimeToTime (d : Date) (t : Time) : Z :=
  let or0 v := if v =? 0xFF then 0 else v in
  Date_ (mkCivil (if d_Year d =? 0xFF then 1900 else d_Year d + 1900)
    (if (d_Month d =? 0xFF) || (d_Month d >? 12) then 1 else d_Month d)
    (if (d_Day d =? 0xFF) || (d_Day d >? 31) then 1 else d_Day d)
    0 (or0 (t_Hour t)) (or0 (t_Minute t)) (or0 (t_Second t)) (or0 (t_Hundredths t) * 10 ^ 7)).

Definition timeStampElement (t : Z) : Element :=
  let '(d, tm) :=
    if negb (t =? 0) then (dateOf t, timeOf t) else (mkDate 0xFF 0xFF 0xFF 0xFF, mkTime 0xFF 0xFF 0xFF 0xFF) in
  mkElement true 2 false false (constructedValue [item (dateValue d); item (timeValue tm)]).
End Calendar.

(** ** Event states, types and transitions *)
Definition EventStateNormal : Z := 0.
Definition EventStateFault : Z := 1.
Definition EventStateOffnormal : Z := 2.
Definition EventStateHighLimit : Z := 3.
Definition EventStateLowLimit : Z := 4.

Definition ReliabilityNoFaultDetected : Z := 0.
Definition ReliabilityMultiStateFault : Z := 9.

Definition EventTypeChangeOfState : Z := 1.
Definition EventTypeOutOfRange : Z := 5.
Definition EventTypeChangeOfReliability : Z := 19.

Definition NotifyAlarm : Z := 0.
Definition NotifyEvent : Z := 1.
Definition NotifyAckNotification : Z := 2.

Definition LimitEnableLow : Z := 1.
Definition LimitEnableHigh : Z := 2.

Definition TransitionToOffNormal : Z := 0.
Definition TransitionToFault : Z := 1.
Definition TransitionToNormal : Z := 2.

Definition EnableToOffNormal : Z := 1.
Definition EnableToFault : Z := 2.
Definition EnableToNormal : Z := 4.

Definition ErrInvalidTimeStamp : error := ErrResponse ErrorClassServices ErrorCodeInvalidTimeStamp.
Definition ErrInvalidEventState : error := ErrResponse ErrorClassServices ErrorCodeInvalidEventState.
Definition ErrNoAlarmConfigured : error := ErrResponse ErrorClassObject ErrorCodeNoAlarmConfigured.

Definition transitionOf (state : Z) : Z :=
  if state =? EventStateNormal then TransitionToNormal
  else if state =? EventStateFault then TransitionToFault
  else TransitionToOffNormal.

(** ** The state of a point *)
Record EventConfig := mkEventConfig {
  ec_NotificationClass : Z;
  ec_EventEnable : Z;
  ec_NotifyType : Z;
  ec_TimeDelay : Z;
  ec_HighLimit : Z;
  ec_LowLimit : Z;
  ec_Deadband : Z;
  ec_LimitEnable : Z;
  ec_AlarmValue : Z;
  ec_AlarmValues : list Z;
  ec_FaultValues : list Z
}.

(** [since] and the [stamps] are times; a zero time was never set. *)
Record intrinsic := mkIntrinsic {
  in_cfg : EventConfig;
  in_enabled : bool;
  in_acked : Z;
  in_stamps : list Z;
  in_pending : Z;
  in_since : Z;
  in_lastFault : Z
}.

Inductive pointKind := kindAnalog | kindBinary | kindMultiState.
#[global] Instance pointKind_eq_dec : EqDecision pointKind.
Proof. solve_decision. Defined.

Record pointState := mkPoint {
  pt_kind : pointKind;
  pt_input : bool;
  pt_pv : ApplicationValue;
  pt_pa : option priorityArray;
  pt_outOfService : bool;
  pt_eventState : Z;
  pt_reliability : Z;
  pt_covIncrement : Z;
  pt_states : Z;
  pt_intrinsic : option intrinsic
}.

Definition setPv (v : ApplicationValue) (p : pointState) : pointState :=
  mkPoint (pt_kind p) (pt_input p) v (pt_pa p) (pt_outOfService p) (pt_eventState p) (pt_reliability p) (pt_covIncrement p) (pt_states p) (pt_intrinsic p).
Definition setPa (pa : priorityArray) (p : pointState) : pointState :=
  mkPoint (pt_kind p) (pt_input p) (pt_pv p) (Some pa) (pt_outOfService p) (pt_eventState p) (pt_reliability p) (pt_covIncrement p) (pt_states p) (pt_intrinsic p).
Definition setOutOfService (b : bool) (p : pointState) : pointState :=
  mkPoint (pt_kind p) (pt_input p) (pt_pv p) (pt_pa p) b (pt_eventState p) (pt_reliability p) (pt_covIncrement p) (pt_states p) (pt_intrinsic p).
Definition setEventState (e : Z) (p : pointState) : pointState :=
  mkPoint (pt_kind p) (pt_input p) (pt_pv p) (pt_pa p) (pt_outOfService p) e (pt_reliability p) (pt_covIncrement p) (pt_states p) (pt_intrinsic p).
Definition setReliabilityOf (r : Z) (p : pointState) : pointState :=
  mkPoint (pt_kind p) (pt_input p) (pt_pv p) (pt_pa p) (pt_outOfService p) (pt_eventState p) r (pt_covIncrement p) (pt_states p) (pt_intrinsic p).
Definition setCovIncrement (f : Z) (p : pointState) : pointState :=
  mkPoint (pt_kind p) (pt_input p) (pt_pv p) (pt_pa p) (pt_outOfService p) (pt_eventState p) (pt_reliability p) f (pt_states p) (pt_intrinsic p).
Definition setIntrinsic (i : intrinsic) (p : pointState) : pointState :=
  mkPoint (pt_kind p) (pt_input p) (pt_pv p) (pt_pa p) (pt_outOfService p) (pt_eventState p) (pt_reliability p) (pt_covIncrement p) (pt_states p) (Some i).

(** ** point.go: the present value, its check, the reliability *)
Definition pointPresent (p : pointState) : ApplicationValue :=
  match pt_pa p with
  | Some pa => present pa
  | None => pt_pv p
  end.

Definition checkPoint (p : pointState) (v : ApplicationValue) : result unit :=
  match pt_kind p with
  | kindAnalog =>
      if bool_decide (av_Kind v <> ValueReal) then Err ErrInvalidDataType
      else if isNaN (av_Real v) || isInf (av_Real v) then Err ErrValueOutOfRange
      else Ok tt
  | kindBinary =>
      if bool_decide (av_Kind v <> ValueEnumerated) then Err ErrInvalidDataType
      else if av_Enumerated v >? 1 then Err ErrValueOutOfRange
      else Ok tt
  | kindMultiState =>
      if bool_decide (av_Kind v <> ValueUnsigned) then Err ErrInvalidDataType
      else if (av_Unsigned v <? 1) || (av_Unsigned v >? pt_states p) then Err ErrValueOutOfRange
      else Ok tt
  end.

Definition hasState (list : list Z) (v : Z) : bool := existsb (fun s => s =? v) list.

Definition currentReliability (p : pointState) : Z :=
  match pt_intrinsic p with
  | Some i =>
      if (pt_reliability p =? ReliabilityNoFaultDetected) && bool_decide (pt_kind p = kindMultiState)
         && hasState (ec_FaultValues (in_cfg i)) (av_Unsigned (pointPresent p))
      then ReliabilityMultiStateFault
      else pt_reliability p
  | None => pt_reliability p
  end.

Definition pointStatusFlags (p : pointState) : ApplicationValue :=
  statusFlags (negb (pt_eventState p =? EventStateNormal)) (negb (currentReliability p =? ReliabilityNoFaultDetected)) false (pt_outOfService p).

(** ** intrinsic.go: detection *)
Definition eventType (p : pointState) (state : Z) : Z :=
  if state =? EventStateFault then EventTypeChangeOfReliability
  else if bool_decide (pt_kind p <> kindAnalog) then EventTypeChangeOfState
  else EventTypeOutOfRange.

(** The state that the algorithm of the family leads to, without the delay. *)
Definition condition (p : pointState) (i : intrinsic) : Z :=
  let cfg := in_cfg i in
  let state := pt_eventState p in
  let pv := pointPresent p in
  let toOffNormal := bit (ec_EventEnable cfg) EnableToOffNormal in
  let toNormal := bit (ec_EventEnable cfg) EnableToNormal in
  let alarmOf (alarm : bool) :=
    if state =? EventStateNormal then (if alarm && toOffNormal then EventStateOffnormal else state)
    else if state =? EventStateOffnormal then (if negb alarm && toNormal then EventStateNormal else state)
    else state in
  match pt_kind p with
  | kindAnalog =>
      let v := f32 (av_Real pv) in
      let high := bit (ec_LimitEnable cfg) LimitEnableHigh in
      let low := bit (ec_LimitEnable cfg) LimitEnableLow in
      if state =? EventStateNormal then
        if f32_ltb (f32 (ec_HighLimit cfg)) v && high && toOffNormal then EventStateHighLimit
        else if f32_ltb v (f32 (ec_LowLimit cfg)) && low && toOffNormal then EventStateLowLimit
        else state
      else if state =? EventStateHighLimit then
        if negb high || (f32_ltb v (f32_sub (f32 (ec_HighLimit cfg)) (f32 (ec_Deadband cfg))) && toNormal) then EventStateNormal else state
      else if state =? EventStateLowLimit then
        if negb low || (f32_ltb (f32_add (f32 (ec_LowLimit cfg)) (f32 (ec_Deadband cfg))) v && toNormal) then EventStateNormal else state
      else state
  | kindBinary => alarmOf (av_Enumerated pv =? ec_AlarmValue cfg)
  | kindMultiState => alarmOf (hasState (ec_AlarmValues cfg) (av_Unsigned pv))
  end.

(** [NotificationParameters] of the three kinds of event. *)
Inductive eventParams :=
| outOfRange (exceeding : Z) (flags : BitString) (deadband exceeded : Z)
| changeOfState (choice : Z) (value : ApplicationValue) (flags : BitString)
| changeOfReliability (elements : list Element).

Record EventTransition := mkTransition {
  ev_Object : ObjectIdentifier;
  ev_NotificationClass : Z;
  ev_EventType : Z;
  ev_NotifyType : Z;
  ev_From : Z;
  ev_To : Z;
  ev_Transition : Z;
  ev_TimeStamp : Z;
  ev_Params : option eventParams
}.

(** [el, _, _ := ParseTag(raw, DefaultDecodeLimits())] of what was just
    encoded; on an error the zero element. *)
Definition encodedElement (raw : result bytes) : Element :=
  match raw with
  | Ok raw => match ParseTag raw DefaultDecodeLimits with Ok (el, _) => el | Err _ => zeroElement end
  | Err _ => zeroElement
  end.

Definition eventParamsOf (p : pointState) (i : intrinsic) (ty exceeded : Z) : eventParams :=
  let flags := av_BitString (pointStatusFlags p) in
  let pv := pointPresent p in
  if ty =? EventTypeOutOfRange then outOfRange (av_Real pv) flags (ec_Deadband (in_cfg i)) exceeded
  else if ty =? EventTypeChangeOfState then
    changeOfState (if bool_decide (pt_kind p = kindMultiState) then 11 else 1) (Clone pv) flags
  else
    let rel := encodedElement (AppendContextUnsigned [] 0 (currentReliability p)) in
    let sf := encodedElement (AppendContextBitString [] 1 flags) in
    let pid := encodedElement (AppendContextUnsigned [] 0 PropertyPresentValue) in
    changeOfReliability [rel; sf; mkElement true 2 false false (constructedValue
      [pid; mkElement true 2 false false (constructedValue [item (Clone pv)])])].

Definition setStamp (tr t : Z) (stamps : list Z) : list Z := <[Z.to_nat tr := t]> stamps.

(** The event state that [EvaluateEvents] leads to, with the pending state
    and its start. *)
Definition nextEventState (now : Z) (p : pointState) (i : intrinsic) : Z * Z * Z :=
  let from := pt_eventState p in
  if negb (currentReliability p =? ReliabilityNoFaultDetected) then (EventStateFault, EventStateFault, in_since i)
  else if from =? EventStateFault then (EventStateNormal, EventStateNormal, in_since i)
  else
    let next := condition p i in
    if next =? from then (from, from, in_since i)
    else
      let '(pending, since) := if negb (next =? in_pending i) then (next, now) else (in_pending i, in_since i) in
      let to := if timeSub now since >=? ec_TimeDelay (in_cfg i) * second then next else from in
      (to, pending, since).

Definition changedByEvent : list Z :=
  [PropertyEventState; PropertyStatusFlags; PropertyEventTimeStamps; PropertyAckedTransitions].

(** [EvaluateEvents]: the function [Update] runs, with the transition. *)
Definition evaluate (id : ObjectIdentifier) (now : Z) (ackRequired : Z -> Z -> bool) (p : pointState) :
    list EventTransition * list Z * pointState :=
  match pt_intrinsic p with
  | None => ([], [], p)
  | Some i =>
      if negb (in_enabled i) then ([], [], p)
      else
        let now := Truncate now (10 ^ 7) in
        let from := pt_eventState p in
        let limit state :=
          if state =? EventStateHighLimit then ec_HighLimit (in_cfg i)
          else if state =? EventStateLowLimit then ec_LowLimit (in_cfg i)
          else 0 in
        let rel := currentReliability p in
        let '(to, pending, since) := nextEventState now p i in
        let i1 := mkIntrinsic (in_cfg i) (in_enabled i) (in_acked i) (in_stamps i) pending since (in_lastFault i) in
        if (to =? from) && (negb (to =? EventStateFault) || (rel =? in_lastFault i)) then ([], [], setIntrinsic i1 p)
        else
          let exceeded := if to =? EventStateNormal then limit from else limit to in
          let tr := transitionOf to in
          let acked := if ackRequired (ec_NotificationClass (in_cfg i)) tr then Z.ldiff (in_acked i) (Z.shiftl 1 tr) else in_acked i in
          let i2 := mkIntrinsic (in_cfg i) (in_enabled i) acked (setStamp tr now (in_stamps i)) pending since
            (if to =? EventStateFault then rel else in_lastFault i) in
          let p2 := setEventState to (setIntrinsic i2 p) in
          let ty := if (to =? EventStateNormal) && (from =? EventStateFault) then EventTypeChangeOfReliability else eventType p2 to in
          let ev := mkTransition id (ec_NotificationClass (in_cfg i)) ty (ec_NotifyType (in_cfg i)) from to tr now
            (Some (eventParamsOf p2 i2 ty exceeded)) in
          ([ev], changedByEvent, p2)
  end.

(** [Point.EvaluateEvents] and [AcknowledgeAlarm] on the object. *)
Definition EvaluateEvents (now : Z) (ackRequired : Z -> Z -> bool) (b : Base pointState) :
    list EventTransition * list Change * Base pointState :=
  let '(evs, changed, s) := evaluate (o_id (b_view b)) now ackRequired (o_state (b_view b)) in
  (evs, notifyChange b changed, putState s b).

Inductive TimeStamp :=
| TimeStampTime (t : Time)
| TimeStampSequence (n : Z)
| TimeStampDateTime (d : Date) (t : Time).

Section Acknowledge.
Context {LT : LocalTime}.

Definition acknowledge (id : ObjectIdentifier) (state : Z) (stamp : TimeStamp) (p : pointState) :
    result (EventTransition * list Z * pointState) :=
  match pt_intrinsic p with
  | None => Err ErrNoAlarmConfigured
  | Some i =>
      if state >? EventStateLowLimit then Err ErrInvalidEventState
      else
        let tr := transitionOf state in
        let* i :=
          if Z.land (in_acked i) (Z.shiftl 1 tr) =? 0 then
            match stamp with
            | TimeStampDateTime d t =>
                let* at_ := index (in_stamps i) tr in
                if at_ >? dateTimeToTime d t then Err ErrInvalidTimeStamp
                else Ok (mkIntrinsic (in_cfg i) (in_enabled i) (Z.lor (in_acked i) (Z.shiftl 1 tr)) (in_stamps i) (in_pending i) (in_since i) (in_lastFault i))
            | _ => Err ErrInvalidTimeStamp
            end
          else if negb (state =? pt_eventState p) then Err ErrInvalidEventState
          else Ok i in
        let* at_ := index (in_stamps i) tr in
        let ev := mkTransition id (ec_NotificationClass (in_cfg i)) (eventType p state) NotifyAckNotification (pt_eventState p) state tr at_ None in
        Ok (ev, [PropertyAckedTransitions], setIntrinsic i p)
  end.

Definition AcknowledgeAlarm (state : Z) (stamp : TimeStamp) (b : Base pointState) :
    result (EventTransition * list Change * Base pointState) :=
  let* (ev, changed, s) := acknowledge (o_id (b_view b)) state stamp (o_state (b_view b)) in
  Ok (ev, notifyChange b changed, putState s b).

(** ** The event properties *)
Definition maskBits (n mask : Z) : ApplicationValue := bitString n (fun i => bit mask (Z.shiftl 1 i)).
Definition bitsOf (bs : BitString) (n : Z) : Z :=
  fold_left (fun v i => if valueBit (bitStringValue bs) i then Z.lor v (Z.shiftl 1 i) else v) (seqZ 0 n) 0.

Definition zeroConfig : EventConfig := mkEventConfig 0 0 0 0 0 0 0 0 0 [] [].
Definition zeroIntrinsic : intrinsic := mkIntrinsic zeroConfig false 0 [] 0 0 0.
(** [p.intrinsic] of a point that has one. *)
Definition theIntrinsic (p : pointState) : intrinsic := default zeroIntrinsic (pt_intrinsic p).
Definition theConfig (p : pointState) : EventConfig := in_cfg (theIntrinsic p).
Definition setConfig (f : EventConfig -> EventConfig) (p : pointState) : pointState :=
  match pt_intrinsic p with
  | Some i => setIntrinsic (mkIntrinsic (f (in_cfg i)) (in_enabled i) (in_acked i) (in_stamps i) (in_pending i) (in_since i) (in_lastFault i)) p
  | None => p
  end.
Definition setEnabled (e : bool) (p : pointState) : pointState :=
  match pt_intrinsic p with
  | Some i => setIntrinsic (mkIntrinsic (in_cfg i) e (in_acked i) (in_stamps i) (in_pending i) (in_since i) (in_lastFault i)) p
  | None => p
  end.

(** A property written with one value: the index is refused, the value
    checked. *)
Definition scalarSet (check : ApplicationValue -> result unit) (changed : list Z) (put : ApplicationValue -> pointState -> pointState)
    (w : Write) (s : pointState) : result (list Z * pointState) :=
  match pr_ArrayIndex (w_Property w) with
  | Some _ => Err ErrNotAnArray
  | None => let* _ := check (w_Value w) in Ok (changed, put (w_Value w) s)
  end.

Definition checkKind (k : ValueKind) (range : ApplicationValue -> bool) (v : ApplicationValue) : result unit :=
  if bool_decide (av_Kind v <> k) then Err ErrInvalidDataType
  else if negb (range v) then Err ErrValueOutOfRange
  else Ok tt.

Definition eventUnsigned (id : Z) (get : EventConfig -> Z) (set : Z -> EventConfig -> EventConfig) : Property pointState :=
  settable false (fun s => UnsignedValue (get (theConfig s)))
    (scalarSet (checkKind ValueUnsigned (fun v => av_Unsigned v <=? MaxUint32)) [id] (fun v => setConfig (set (u32 (av_Unsigned v))))).
Definition eventBits (id n : Z) (get : EventConfig -> Z) (set : Z -> EventConfig -> EventConfig) : Property pointState :=
  settable false (fun s => maskBits n (get (theConfig s)))
    (scalarSet (checkKind ValueBitString (fun _ => true)) [id] (fun v => setConfig (set (bitsOf (av_BitString v) n)))).
Definition eventReal (id : Z) (get : EventConfig -> Z) (set : Z -> EventConfig -> EventConfig) (nonNegative : bool) : Property pointState :=
  settable false (fun s => RealValue (get (theConfig s)))
    (scalarSet (checkKind ValueReal (fun v => negb (isNaN (av_Real v) || isInf (av_Real v) || (nonNegative && f32_neg (av_Real v))))) [id]
      (fun v => setConfig (set (av_Real v)))).

Definition withClass v c := mkEventConfig v (ec_EventEnable c) (ec_NotifyType c) (ec_TimeDelay c) (ec_HighLimit c) (ec_LowLimit c) (ec_Deadband c) (ec_LimitEnable c) (ec_AlarmValue c) (ec_AlarmValues c) (ec_FaultValues c).
Definition withEventEnable v c := mkEventConfig (ec_NotificationClass c) v (ec_NotifyType c) (ec_TimeDelay c) (ec_HighLimit c) (ec_LowLimit c) (ec_Deadband c) (ec_LimitEnable c) (ec_AlarmValue c) (ec_AlarmValues c) (ec_FaultValues c).
Definition withNotifyType v c := mkEventConfig (ec_NotificationClass c) (ec_EventEnable c) v (ec_TimeDelay c) (ec_HighLimit c) (ec_LowLimit c) (ec_Deadband c) (ec_LimitEnable c) (ec_AlarmValue c) (ec_AlarmValues c) (ec_FaultValues c).
Definition withTimeDelay v c := mkEventConfig (ec_NotificationClass c) (ec_EventEnable c) (ec_NotifyType c) v (ec_HighLimit c) (ec_LowLimit c) (ec_Deadband c) (ec_LimitEnable c) (ec_AlarmValue c) (ec_AlarmValues c) (ec_FaultValues c).
Definition withHighLimit v c := mkEventConfig (ec_NotificationClass c) (ec_EventEnable c) (ec_NotifyType c) (ec_TimeDelay c) v (ec_LowLimit c) (ec_Deadband c) (ec_LimitEnable c) (ec_AlarmValue c) (ec_AlarmValues c) (ec_FaultValues c).
Definition withLowLimit v c := mkEventConfig (ec_NotificationClass c) (ec_EventEnable c) (ec_NotifyType c) (ec_TimeDelay c) (ec_HighLimit c) v (ec_Deadband c) (ec_LimitEnable c) (ec_AlarmValue c) (ec_AlarmValues c) (ec_FaultValues c).
Definition withDeadband v c := mkEventConfig (ec_NotificationClass c) (ec_EventEnable c) (ec_NotifyType c) (ec_TimeDelay c) (ec_HighLimit c) (ec_LowLimit c) v (ec_LimitEnable c) (ec_AlarmValue c) (ec_AlarmValues c) (ec_FaultValues c).
Definition withLimitEnable v c := mkEventConfig (ec_NotificationClass c) (ec_EventEnable c) (ec_NotifyType c) (ec_TimeDelay c) (ec_HighLimit c) (ec_LowLimit c) (ec_Deadband c) v (ec_AlarmValue c) (ec_AlarmValues c) (ec_FaultValues c).
Definition withAlarmValue v c := mkEventConfig (ec_NotificationClass c) (ec_EventEnable c) (ec_NotifyType c) (ec_TimeDelay c) (ec_HighLimit c) (ec_LowLimit c) (ec_Deadband c) (ec_LimitEnable c) v (ec_AlarmValues c) (ec_FaultValues c).
Definition withAlarmValues v c := mkEventConfig (ec_NotificationClass c) (ec_EventEnable c) (ec_NotifyType c) (ec_TimeDelay c) (ec_HighLimit c) (ec_LowLimit c) (ec_Deadband c) (ec_LimitEnable c) (ec_AlarmValue c) v (ec_FaultValues c).
Definition withFaultValues v c := mkEventConfig (ec_NotificationClass c) (ec_EventEnable c) (ec_NotifyType c) (ec_TimeDelay c) (ec_HighLimit c) (ec_LowLimit c) (ec_Deadband c) (ec_LimitEnable c) (ec_AlarmValue c) (ec_AlarmValues c) v.

(** [states]: a list of states; a write replaces it. *)
Fixpoint plainValues (els : list Element) : result (list ApplicationValue) :=
  match els with
  | [] => Ok []
  | el :: els => if el_Context el then Err ErrInvalidDataType else let* vs := plainValues els in Ok (el_Value el :: vs)
  end.
Fixpoint stateList (states : Z) (vals : list ApplicationValue) : result (list Z) :=
  match vals with
  | [] => Ok []
  | v :: vals =>
      if bool_decide (av_Kind v <> ValueUnsigned) then Err ErrInvalidDataType
      else if (av_Unsigned v <? 1) || (av_Unsigned v >? states) then Err ErrValueOutOfRange
      else let* l := stateList states vals in Ok (u32 (av_Unsigned v) :: l)
  end.
Definition eventStates (id : Z) (get : EventConfig -> list Z) (set : list Z -> EventConfig -> EventConfig) : Property pointState :=
  settable false (fun s => constructedValue (map (fun v => item (UnsignedValue v)) (get (theConfig s))))
    (fun w s =>
      match pr_ArrayIndex (w_Property w) with
      | Some _ => Err ErrNotAnArray
      | None =>
          let* vals := if bool_decide (av_Kind (w_Value w) = ValueConstructed) then plainValues (av_Elements (w_Value w)) else Ok [w_Value w] in
          let* next := stateList (pt_states s) vals in
          Ok ([id; PropertyReliability; PropertyStatusFlags], setConfig (set next) s)
      end).

Definition newIntrinsic (cfg : EventConfig) : intrinsic := mkIntrinsic cfg true 7 [0; 0; 0] EventStateNormal 0 0.

Definition defineEvents (cfg : EventConfig) (b : Base pointState) : Base pointState :=
  let kind := pt_kind (o_state (b_view b)) in
  let b := putState (setIntrinsic (newIntrinsic cfg) (o_state (b_view b))) b in
  let b := Define PropertyNotificationClass (eventUnsigned PropertyNotificationClass ec_NotificationClass withClass) b in
  let b := Define PropertyTimeDelay (eventUnsigned PropertyTimeDelay ec_TimeDelay withTimeDelay) b in
  let b := Define PropertyEventEnable (eventBits PropertyEventEnable 3 ec_EventEnable withEventEnable) b in
  let b := Define PropertyNotifyType (settable false (fun s => EnumValue (ec_NotifyType (theConfig s)))
    (scalarSet (checkKind ValueEnumerated (fun v => av_Enumerated v <=? NotifyEvent)) [PropertyNotifyType]
      (fun v => setConfig (withNotifyType (av_Enumerated v))))) b in
  let b := Define PropertyEventDetectionEnable (settable false (fun s => BoolValue (in_enabled (theIntrinsic s)))
    (scalarSet (checkKind ValueBoolean (fun _ => true)) [PropertyEventDetectionEnable] (fun v => setEnabled (av_Boolean v)))) b in
  let b := Define PropertyAckedTransitions (computed false (fun s => maskBits 3 (in_acked (theIntrinsic s)))) b in
  let b := Define PropertyEventTimeStamps (mkProperty NullValue
    (Some (fun v => constructedValue (map timeStampElement (in_stamps (theIntrinsic (o_state v)))))) None false [] true false) b in
  match kind with
  | kindAnalog =>
      let b := Define PropertyHighLimit (eventReal PropertyHighLimit ec_HighLimit withHighLimit false) b in
      let b := Define PropertyLowLimit (eventReal PropertyLowLimit ec_LowLimit withLowLimit false) b in
      let b := Define PropertyDeadband (eventReal PropertyDeadband ec_Deadband withDeadband true) b in
      Define PropertyLimitEnable (eventBits PropertyLimitEnable 2 ec_LimitEnable withLimitEnable) b
  | kindBinary =>
      Define PropertyAlarmValue (settable false (fun s => EnumValue (ec_AlarmValue (theConfig s)))
        (scalarSet (checkKind ValueEnumerated (fun v => av_Enumerated v <=? 1)) [PropertyAlarmValue]
          (fun v => setConfig (withAlarmValue (av_Enumerated v))))) b
  | kindMultiState =>
      let b := Define PropertyAlarmValues (eventStates PropertyAlarmValues ec_AlarmValues withAlarmValues) b in
      Define PropertyFaultValues (eventStates PropertyFaultValues ec_FaultValues withFaultValues) b
  end.

(** [EventInfo] *)
Record EventInfo := mkEventInfo {
  ei_Object : ObjectIdentifier; ei_EventType : Z; ei_EventState : Z; ei_Acked : Z; ei_TimeStamps : list Z;
  ei_NotifyType : Z; ei_EventEnable : Z; ei_NotificationClass : Z }.
Definition EventInfoOf (b : Base pointState) : option EventInfo :=
  let p := o_state (b_view b) in
  match pt_intrinsic p with
  | None => None
  | Some i => Some (mkEventInfo (o_id (b_view b)) (eventType p EventStateNormal) (pt_eventState p) (in_acked i) (in_stamps i)
      (ec_NotifyType (in_cfg i)) (ec_EventEnable (in_cfg i)) (ec_NotificationClass (in_cfg i)))
  end.
End Acknowledge.
