(* ===== verification/Point.v ===== *)
(** * Points: [server/object/point.go]

    Analog, binary and multi-state inputs, outputs and values, built over
    [Object] (the property table), [Commandable] (the priority array) and
    [Events] (event detection). *)

From Stdlib Require Import ZArith Lia.
From stdpp Require Import base list gmap.
From S2P Require Import Prelude Value Ids Float32 Tags Constructed Access Object Commandable Events.

Record PointConfig := mkPointConfig {
  pc_Instance : Z;
  pc_Name : bytes;
  pc_Description : bytes;
  pc_Commandable : bool;
  pc_Units : Z;
  pc_Value : Z;
  pc_COVIncrement : Z;
  pc_Active : bool;
  pc_Polarity : Z;
  pc_ActiveText : bytes;
  pc_InactiveText : bytes;
  pc_NumberOfStates : Z;
  pc_State : Z;
  pc_StateText : option (list bytes);
  pc_Events : option EventConfig
}.

Definition boolEnum (b : bool) : Z := if b then 1 else 0.

#[export] Program Instance Point_CommandState : CommandState pointState := {|
  getPA p := default (newPA NullValue) (pt_pa p);
  putPA := setPa;
  checkCommand := checkPoint
|}.
Next Obligation. done. Qed.
Next Obligation. done. Qed.

(** [writePresentValue]: of a point without a priority array. *)
Definition writePresentValue (w : Write) (p : pointState) : result (list Z * pointState) :=
  match pr_ArrayIndex (w_Property w) with
  | Some _ => Err ErrNotAnArray
  | None =>
      if pt_input p && negb (pt_outOfService p) then Err ErrWriteAccessDenied
      else
        let* _ := checkPoint p (w_Value w) in
        if sameValue (pt_pv p) (w_Value w) then Ok ([], p)
        else Ok ([PropertyPresentValue], setPv (Clone (w_Value w)) p)
  end.

Definition writeOutOfService (w : Write) (p : pointState) : result (list Z * pointState) :=
  match pr_ArrayIndex (w_Property w) with
  | Some _ => Err ErrNotAnArray
  | None =>
      if bool_decide (av_Kind (w_Value w) <> ValueBoolean) then Err ErrInvalidDataType
      else if bool_decide (pt_outOfService p = av_Boolean (w_Value w)) then Ok ([], p)
      else Ok ([PropertyOutOfService; PropertyStatusFlags], setOutOfService (av_Boolean (w_Value w)) p)
  end.

(** The family's checks of the configuration: the initial value, the COV
    increment and the number of states. *)
Definition initialPoint (kind : pointKind) (cfg : PointConfig) : result (ApplicationValue * Z * Z) :=
  match kind with
  | kindAnalog =>
      if f32_neg (pc_COVIncrement cfg) || isNaN (pc_COVIncrement cfg) then Err ErrOther
      else Ok (RealValue (pc_Value cfg), pc_COVIncrement cfg, 0)
  | kindBinary =>
      if pc_Polarity cfg >? 1 then Err ErrOther else Ok (EnumValue (boolEnum (pc_Active cfg)), 0, 0)
  | kindMultiState =>
      if pc_NumberOfStates cfg =? 0 then Err ErrOther
      else if (match pc_StateText cfg with Some l => negb (u32 (len l) =? pc_NumberOfStates cfg) | None => false end) then Err ErrOther
      else
        let st := if pc_State cfg =? 0 then 1 else pc_State cfg in
        if st >? pc_NumberOfStates cfg then Err ErrOther
        else Ok (UnsignedValue st, 0, pc_NumberOfStates cfg)
  end.

Definition definePresentValue (commandable : bool) (b : Base pointState) : Base pointState :=
  if commandable then defineCommandable b
  else Define PropertyPresentValue (settable true pt_pv writePresentValue) b.

Definition defineCommon (cfg : PointConfig) (b : Base pointState) : Base pointState :=
  let b := match pc_Description cfg with [] => b | _ => Define PropertyDescription (storedText (pc_Description cfg)) b end in
  let b := Define PropertyStatusFlags (computed true pointStatusFlags) b in
  let b := Define PropertyEventState (computed true (fun p => EnumValue (pt_eventState p))) b in
  let b := Define PropertyReliability (computed false (fun p => EnumValue (currentReliability p))) b in
  Define PropertyOutOfService (settable true (fun p => BoolValue (pt_outOfService p)) writeOutOfService) b.

Definition nonNegative (v : ApplicationValue) : bool := negb (f32_neg (av_Real v) || isNaN (av_Real v)).

Definition defineFamily (t : Z) (kind : pointKind) (cfg : PointConfig) (b : Base pointState) : Base pointState :=
  match kind with
  | kindAnalog =>
      let b := Define PropertyUnits (stored true (EnumValue (pc_Units cfg))) b in
      Define PropertyCOVIncrement (settable false (fun p => RealValue (pt_covIncrement p))
        (scalarSet (checkKind ValueReal nonNegative) [PropertyCOVIncrement] (fun v => setCovIncrement (av_Real v)))) b
  | kindBinary =>
      let b := if negb (t =? ObjectTypeBinaryValue) then Define PropertyPolarity (stored true (EnumValue (pc_Polarity cfg))) b else b in
      match pc_ActiveText cfg, pc_InactiveText cfg with
      | [], [] => b
      | _, _ =>
          Define PropertyActiveText (storedText (pc_ActiveText cfg)) (Define PropertyInactiveText (storedText (pc_InactiveText cfg)) b)
      end
  | kindMultiState =>
      let b := Define PropertyNumberOfStates (stored true (UnsignedValue (pc_NumberOfStates cfg))) b in
      match pc_StateText cfg with
      | None => b
      | Some l =>
          Define PropertyStateText (mkProperty (constructedValue (map (fun s => item (charString s)) l)) None None true [ValueCharacterString] true false) b
      end
  end.

(** The checks of the event configuration. *)
Definition checkEvents (t : Z) (kind : pointKind) (cfg : PointConfig) (ev : EventConfig) : bool :=
  negb (t =? ObjectTypeMultiStateOutput)
  && (if bool_decide (kind = kindMultiState)
      then forallb (fun v => (1 <=? v) && (v <=? pc_NumberOfStates cfg)) (ec_AlarmValues ev ++ ec_FaultValues ev)
      else true)
  && (ec_NotifyType ev <=? NotifyEvent)
  && negb (f32_neg (ec_Deadband ev)).

Section NewPoint.
Context {LT : LocalTime}.

Definition newPoint (t : Z) (kind : pointKind) (input commandable : bool) (cfg : PointConfig) : result (Base pointState) :=
  if pc_Instance cfg >? MaxObjectInstance - 1 then Err ErrOther
  else if len (pc_Name cfg) =? 0 then Err ErrOther
  else
    let* (initial, inc, states) := initialPoint kind cfg in
    let s := mkPoint kind input (if commandable then NullValue else initial) (if commandable then Some (newPA initial) else None)
      false EventStateNormal ReliabilityNoFaultDetected inc states None in
    let b := NewBase (mkObjectID t (pc_Instance cfg)) (pc_Name cfg) s in
    let b := definePresentValue commandable b in
    let b := defineCommon cfg b in
    let b := defineFamily t kind cfg b in
    match pc_Events cfg with
    | None => Ok b
    | Some ev => if checkEvents t kind cfg ev then Ok (defineEvents ev b) else Err ErrOther
    end.

Definition NewAnalogInput := newPoint ObjectTypeAnalogInput kindAnalog true false.
Definition NewAnalogOutput := newPoint ObjectTypeAnalogOutput kindAnalog false true.
Definition NewAnalogValue cfg := newPoint ObjectTypeAnalogValue kindAnalog false (pc_Commandable cfg) cfg.
Definition NewBinaryInput := newPoint ObjectTypeBinaryInput kindBinary true false.
Definition NewBinaryOutput := newPoint ObjectTypeBinaryOutput kindBinary false true.
Definition NewBinaryValue cfg := newPoint ObjectTypeBinaryValue kindBinary false (pc_Commandable cfg) cfg.
Definition NewMultiStateInput := newPoint ObjectTypeMultiStateInput kindMultiState true false.
Definition NewMultiStateOutput := newPoint ObjectTypeMultiStateOutput kindMultiState false true.
Definition NewMultiStateValue cfg := newPoint ObjectTypeMultiStateValue kindMultiState false (pc_Commandable cfg) cfg.
End NewPoint.

(** ** Changes by the application *)
Definition SetPresentValue (v : ApplicationValue) (b : Base pointState) : result (list Change * Base pointState) :=
  let* _ := checkPoint (o_state (b_view b)) v in
  Ok (Update (fun p =>
    let before := pointPresent p in
    match pt_pa p with
    | Some pa =>
        let p' := setPa (mkPA (pa_slots pa) (Clone v)) p in
        if sameValue before (pointPresent p') then ([], p') else ([PropertyPresentValue], p')
    | None =>
        if pt_input p && pt_outOfService p then ([], p)
        else
          let p' := setPv (Clone v) p in
          if sameValue before (pointPresent p') then ([], p') else ([PropertyPresentValue], p')
    end) b).

Definition SetReliability (r : Z) (b : Base pointState) : list Change * Base pointState :=
  Update (fun p => if pt_reliability p =? r then ([], p) else ([PropertyReliability; PropertyStatusFlags], setReliabilityOf r p)) b.

(** [COVValues] and [COVIncrement] *)
Definition COVValues (b : Base pointState) : list (Z * ApplicationValue) :=
  let p := o_state (b_view b) in
  [(PropertyPresentValue, pointPresent p); (PropertyStatusFlags, pointStatusFlags p)].
Definition COVIncrement (b : Base pointState) : Z * bool :=
  let p := o_state (b_view b) in
  if bool_decide (pt_kind p <> kindAnalog) then (0, false) else (pt_covIncrement p, true).

(** ** What the properties of a point can change *)

Record config_ok (states : Z) (c : EventConfig) : Prop := {
  co_alarm : Forall (fun v => 1 <= v <= states) (ec_AlarmValues c);
  co_fault : Forall (fun v => 1 <= v <= states) (ec_FaultValues c);
  co_notify : ec_NotifyType c <= NotifyEvent
}.

(** Event detection is as it was, but for its configuration. *)
Definition reconfigured (states : Z) (o o' : option intrinsic) : Prop :=
  match o, o' with
  | None, None => True
  | Some i, Some i' =>
      in_acked i' = in_acked i /\ in_stamps i' = in_stamps i /\ in_pending i' = in_pending i /\ in_since i' = in_since i /\
      in_lastFault i' = in_lastFault i /\ (is_u 32 states -> config_ok states (in_cfg i) -> config_ok states (in_cfg i'))
  | _, _ => False
  end.

Definition cov_ok (f : Z) : Prop := f32_neg f = false /\ isNaN f = false.

(** A write that configures the point: its value and event state stay. *)
Record configured (p p' : pointState) : Prop := {
  cf_kind : pt_kind p' = pt_kind p;
  cf_input : pt_input p' = pt_input p;
  cf_pv : pt_pv p' = pt_pv p;
  cf_pa : pt_pa p' = pt_pa p;
  cf_states : pt_states p' = pt_states p;
  cf_eventState : pt_eventState p' = pt_eventState p;
  cf_reliability : pt_reliability p' = pt_reliability p;
  cf_cov : cov_ok (pt_covIncrement p) -> cov_ok (pt_covIncrement p');
  cf_intrinsic : reconfigured (pt_states p) (pt_intrinsic p) (pt_intrinsic p')
}.

(** What a write of a property of a point does to its state. *)
Inductive pointWrite (commandable : bool) (id : Z) (w : Write) (p p' : pointState) : Prop :=
| pw_present c : commandable = true -> id = PropertyPresentValue -> setPresent w p = Ok (c, p') -> pointWrite commandable id w p p'
| pw_relinquish c : commandable = true -> id = PropertyRelinquishDefault -> setRelinquish w p = Ok (c, p') -> pointWrite commandable id w p p'
| pw_value c : commandable = false -> id = PropertyPresentValue -> writePresentValue w p = Ok (c, p') -> pointWrite commandable id w p p'
| pw_configured : id <> PropertyPresentValue -> id <> PropertyRelinquishDefault -> configured p p' -> pointWrite commandable id w p p'.

Lemma reconfigured_refl states o : reconfigured states o o.
Proof. destruct o; cbn; auto 10. Qed.

Lemma configured_refl p : configured p p.
Proof. split; try done. apply reconfigured_refl. Qed.

Lemma scalarSet_Ok check ch put w s c s' : scalarSet check ch put w s = Ok (c, s') ->
  pr_ArrayIndex (w_Property w) = None /\ check (w_Value w) = Ok tt /\ c = ch /\ s' = put (w_Value w) s.
Proof.
  unfold scalarSet. destruct (pr_ArrayIndex _); [done|]. intros H. apply bind_Ok_inv in H as (u & Hc & Hr). destruct u. by injection Hr as <- <-.
Qed.

Lemma checkKind_Ok k range v : checkKind k range v = Ok tt -> av_Kind v = k /\ range v = true.
Proof.
  unfold checkKind. destruct (decide (av_Kind v = k)) as [Hk|Hk]; [|by rewrite bool_decide_eq_true_2].
  rewrite bool_decide_eq_false_2 by auto. by destruct (range v).
Qed.

(** Writes of the event configuration. *)
Lemma configured_setConfig f p :
  (forall c, config_ok (pt_states p) c -> is_u 32 (pt_states p) -> config_ok (pt_states p) (f c)) -> configured p (setConfig f p).
Proof.
  intros Hf. unfold setConfig. destruct (pt_intrinsic p) as [i|] eqn:Ei; [|apply configured_refl].
  split; try done. rewrite Ei. cbn. split_and!; auto.
Qed.

Lemma configured_setEnabled e p : configured p (setEnabled e p).
Proof.
  unfold setEnabled. destruct (pt_intrinsic p) as [i|] eqn:Ei; [|apply configured_refl].
  split; try done. rewrite Ei. cbn. auto 10.
Qed.

Lemma stateList_ok states vals l : is_u 32 states -> stateList states vals = Ok l -> Forall (fun v => 1 <= v <= states) l.
Proof.
  intros Hs. revert l. induction vals as [|v vals IH]; intros l; cbn [stateList]; [by intros [= <-]|].
  destruct (bool_decide _); [done|]. destruct (_ || _) eqn:E; [done|]. bool_to_prop. intros Hr.
  apply bind_Ok_inv in Hr as (k & Hk & [= <-]). apply List.Forall_cons; [|by apply IH].
  unfold is_u in Hs. rewrite uwrap_small; [lia|unfold is_u; lia].
Qed.

Section Setters.
Context {LT : LocalTime}.

Lemma setter_scalar cm id check ch put r get : id <> PropertyPresentValue -> id <> PropertyRelinquishDefault ->
  (forall v p, check v = Ok tt -> configured p (put v p)) ->
  setter (pointWrite cm) id (settable r get (scalarSet check ch put)).
Proof.
  intros H1 H2 Hp w s c s' H. apply scalarSet_Ok in H as (_ & Hc & _ & ->). apply pw_configured; auto.
Qed.

Lemma setter_states cm id get set : id <> PropertyPresentValue -> id <> PropertyRelinquishDefault ->
  (forall states l c, Forall (fun v => 1 <= v <= states) l -> config_ok states c -> config_ok states (set l c)) ->
  setter (pointWrite cm) id (eventStates id get set).
Proof.
  intros H1 H2 Hs w s c s' H. apply pw_configured; [done..|]. destruct (pr_ArrayIndex _); [done|].
  apply bind_Ok_inv in H as (vals & _ & H). apply bind_Ok_inv in H as (l & Hl & [= <- <-]).
  apply configured_setConfig. intros cfg Hc Hu. apply Hs; [|done]. by eapply stateList_ok.
Qed.

Ltac config_fields := intros; match goal with H : config_ok _ _ |- _ => destruct H end; by split.

Lemma defineEvents_setters cm cfg b : setters (pointWrite cm) b -> setters (pointWrite cm) (defineEvents cfg b).
Proof.
  intros Hb. unfold defineEvents. assert (setters (pointWrite cm) (putState (setIntrinsic (newIntrinsic cfg) (o_state (b_view b))) b)) as Hb' by done.
  destruct (pt_kind _); repeat apply setters_Define; try done;
    try (apply setter_scalar; [done..|]; intros v p Hc; try first [apply configured_setEnabled|solve [apply configured_setConfig; config_fields]]).
  - apply checkKind_Ok in Hc as [_ Hc]. apply configured_setConfig. intros c [] _. split; try done. cbn. bool_to_prop. done.
  - apply checkKind_Ok in Hc as [_ Hc]. apply configured_setConfig. intros c [] _. split; try done. cbn. bool_to_prop. done.
  - apply checkKind_Ok in Hc as [_ Hc]. apply configured_setConfig. intros c [] _. split; try done. cbn. bool_to_prop. done.
  - apply setter_states; [done..|]. intros states l c Hl []. by split.
  - apply setter_states; [done..|]. intros states l c Hl []. by split.
Qed.

Lemma newPoint_setters t kind input cm cfg b : newPoint t kind input cm cfg = Ok b -> setters (pointWrite cm) b.
Proof.
  unfold newPoint. destruct (_ >? _); [done|]. destruct (_ =? 0); [done|]. intros H. apply bind_Ok_inv in H as ([[initial inc] states] & _ & H).
  set (b1 := NewBase _ _ _) in H. set (b2 := definePresentValue cm b1) in H. set (b3 := defineCommon cfg b2) in H.
  set (b4 := defineFamily t kind cfg b3) in H.
  assert (setters (pointWrite cm) b2) as H2.
  { unfold b2, definePresentValue. assert (setters (pointWrite cm) b1) as H1 by apply setters_NewBase. destruct cm.
    - unfold defineCommandable. repeat apply setters_Define; try done; intros w s c s' Hw; [by eapply pw_relinquish|by eapply pw_present].
    - apply setters_Define; [done|]. intros w s c s' Hw. by eapply pw_value. }
  clearbody b2. assert (setters (pointWrite cm) b3) as H3.
  { unfold b3, defineCommon. destruct (pc_Description cfg); repeat apply setters_Define; try done; intros w s c s' Hw; apply pw_configured; try done;
      unfold writeOutOfService in Hw; destruct (pr_ArrayIndex _); try done; repeat step_if Hw; try done; injection Hw as <- <-;
      first [apply configured_refl|split; try done; apply reconfigured_refl]. }
  clearbody b3. assert (setters (pointWrite cm) b4) as H4.
  { unfold b4, defineFamily. destruct kind.
    - repeat apply setters_Define; try done. apply setter_scalar; [done..|]. intros v p Hc. apply checkKind_Ok in Hc as [_ Hc].
      split; try done; [intros _|apply reconfigured_refl]. unfold nonNegative in Hc. apply negb_true_iff, orb_false_iff in Hc. exact Hc.
    - destruct (negb _), (pc_ActiveText cfg), (pc_InactiveText cfg); by repeat apply setters_Define.
    - destruct (pc_StateText cfg); by repeat apply setters_Define. }
  destruct (pc_Events cfg) as [ev|]; [|by injection H as <-]. destruct (checkEvents _ _ _ _); [|done]. injection H as <-. by apply defineEvents_setters.
Qed.
End Setters.
