(* ===== verification/PointSafety.v ===== *)
(** * What a point guarantees: its invariant and its commands

    The steps of a point are the writes of its properties, the changes its
    application makes, event detection and acknowledgments. In every state
    reached from [newPoint] its values belong to its family; a commandable
    point refines the specification of [Commandable]. *)

From Stdlib Require Import ZArith Lia.
From stdpp Require Import base list gmap relations.
From S2P Require Import Prelude Value Ids Float32 Tags Constructed Access Object Commandable Events Point.

(** ** Values and states of the families *)
Definition in_family (kind : pointKind) (states : Z) (v : ApplicationValue) : Prop :=
  match kind with
  | kindAnalog => av_Kind v = ValueReal /\ f32_finite (av_Real v) = true
  | kindBinary => av_Kind v = ValueEnumerated /\ av_Enumerated v <= 1
  | kindMultiState => av_Kind v = ValueUnsigned /\ 1 <= av_Unsigned v <= states
  end.

Definition event_state (kind : pointKind) (e : Z) : Prop :=
  e = EventStateNormal \/ e = EventStateFault \/
  match kind with
  | kindAnalog => e = EventStateHighLimit \/ e = EventStateLowLimit
  | _ => e = EventStateOffnormal
  end.

Lemma checkPoint_family p v : checkPoint p v = Ok tt <-> in_family (pt_kind p) (pt_states p) v.
Proof.
  unfold checkPoint, in_family, f32_finite. destruct (pt_kind p).
  - destruct (bool_decide_reflect (av_Kind v <> ValueReal)) as [Hk|Hk]; [split; [done|tauto]|].
    apply dec_stable in Hk. destruct (isNaN (av_Real v)), (isInf (av_Real v)); cbn; intuition discriminate.
  - destruct (bool_decide_reflect (av_Kind v <> ValueEnumerated)) as [Hk|Hk]; [split; [done|tauto]|].
    apply dec_stable in Hk. destruct (_ >? 1) eqn:E; bool_to_prop; intuition (lia || discriminate).
  - destruct (bool_decide_reflect (av_Kind v <> ValueUnsigned)) as [Hk|Hk]; [split; [done|tauto]|].
    apply dec_stable in Hk. destruct (_ || _) eqn:E; bool_to_prop; intuition (lia || discriminate).
Qed.

Definition pa_family (kind : pointKind) (states : Z) (pa : priorityArray) : Prop :=
  length (pa_slots pa) = 16%nat /\ in_family kind states (pa_relinquish pa) /\
  Forall (fun o => forall v, o = Some v -> in_family kind states v) (pa_slots pa).

Definition values_ok (cm : bool) (p : pointState) : Prop :=
  if cm then exists pa, pt_pa p = Some pa /\ pa_family (pt_kind p) (pt_states p) pa
  else pt_pa p = None /\ in_family (pt_kind p) (pt_states p) (pt_pv p).

Definition events_ok (p : pointState) : Prop :=
  match pt_intrinsic p with
  | None => pt_eventState p = EventStateNormal
  | Some i => event_state (pt_kind p) (pt_eventState p) /\ 0 <= in_acked i < 8 /\ length (in_stamps i) = 3%nat /\
      (pt_kind p = kindMultiState -> config_ok (pt_states p) (in_cfg i))
  end.

Record point_ok (cm : bool) (p : pointState) : Prop := {
  ok_states : is_u 32 (pt_states p);
  ok_cov : cov_ok (pt_covIncrement p);
  ok_values : values_ok cm p;
  ok_events : events_ok p
}.

Lemma firstSlot_in slots i p v : firstSlot slots i = Some (p, v) -> Some v ∈ slots.
Proof.
  revert i. induction slots as [|[w|] slots IH]; intros i; cbn [firstSlot]; [done| |].
  - intros [= _ <-]. by left.
  - intros H. right. by eapply IH.
Qed.

Lemma present_family kind states pa : pa_family kind states pa -> in_family kind states (present pa).
Proof.
  intros (_ & Hr & Hs). unfold present. destruct (firstSlot _ _) as [[p v]|] eqn:E; [|done].
  apply firstSlot_in in E. eapply Forall_forall in Hs; [|exact E]. by apply Hs.
Qed.

Lemma pointPresent_family cm p : values_ok cm p -> in_family (pt_kind p) (pt_states p) (pointPresent p).
Proof.
  unfold pointPresent, values_ok. destruct cm.
  - intros (pa & -> & Hpa). by apply present_family.
  - by intros [-> Hv].
Qed.

Lemma paWrite_family kind states pa v prio pa' : pa_family kind states pa -> (av_Kind v = ValueNull \/ in_family kind states v) ->
  paWrite pa v prio = Ok pa' -> pa_family kind states pa'.
Proof.
  intros (Hl & Hr & Hs) Hv. unfold paWrite. cbv zeta. destruct (_ || _); [done|].
  assert (forall o, (forall w, o = Some w -> in_family kind states w) ->
    pa_family kind states (mkPA (<[Z.to_nat ((if prio =? 0 then defaultPriority else prio) - 1) := o]> (pa_slots pa)) (pa_relinquish pa))) as H.
  { intros o Ho. split; [cbn; by rewrite length_insert|]. split; [done|]. cbn. by apply Forall_insert. }
  destruct (bool_decide_reflect (av_Kind v = ValueNull)) as [Hn|Hn]; intros [= <-]; apply H; [done|]. intros w [= <-]. rewrite Clone_id.
  by destruct Hv.
Qed.

(** ** The steps keep the invariant *)
Lemma point_ok_put cm p p' : point_ok cm p -> pt_kind p' = pt_kind p -> pt_states p' = pt_states p -> pt_covIncrement p' = pt_covIncrement p ->
  pt_intrinsic p' = pt_intrinsic p -> pt_eventState p' = pt_eventState p -> values_ok cm p' -> point_ok cm p'.
Proof.
  intros [H1 H2 H3 H4] Hk Hs Hc Hi He Hv. split; [by rewrite Hs|by rewrite Hc|done|]. unfold events_ok in *. by rewrite Hi, Hk, Hs, He.
Qed.

Lemma setPa_ok p pa : point_ok true p -> pa_family (pt_kind p) (pt_states p) pa -> point_ok true (setPa pa p).
Proof. intros Hp Hpa. eapply point_ok_put; [exact Hp|done..|]. by exists pa. Qed.

Lemma setPv_ok p v : point_ok false p -> in_family (pt_kind p) (pt_states p) v -> point_ok false (setPv v p).
Proof. intros Hp Hv. eapply point_ok_put; [exact Hp|done..|]. by destruct (ok_values _ _ Hp). Qed.

Lemma setPresent_ok w p c p' : point_ok true p -> setPresent w p = Ok (c, p') -> point_ok true p'.
Proof.
  intros Hp. unfold setPresent. destruct (pr_ArrayIndex _); [done|]. cbn [getPA putPA checkCommand Point_CommandState].
  destruct (ok_values _ _ Hp) as (pa & Epa & Hpa). rewrite Epa. cbn [default]. intros H. apply bind_Ok_inv in H as ([] & Hc & H).
  cbv zeta in H. apply bind_Ok_inv in H as (pa' & Hw & [= _ <-]). apply setPa_ok; [done|]. eapply paWrite_family; [exact Hpa| |exact Hw].
  destruct (bool_decide_reflect (av_Kind (w_Value w) = ValueNull)) as [Hn|Hn]; [by left|right]. cbn in Hc. by apply checkPoint_family.
Qed.

Lemma setRelinquish_ok w p c p' : point_ok true p -> setRelinquish w p = Ok (c, p') -> point_ok true p'.
Proof.
  intros Hp. unfold setRelinquish. destruct (pr_ArrayIndex _); [done|]. cbn [getPA putPA checkCommand Point_CommandState].
  destruct (ok_values _ _ Hp) as (pa & Epa & Hl & Hr & Hs). rewrite Epa. cbn [default]. intros H. apply bind_Ok_inv in H as ([] & Hc & H).
  injection H as _ <-. apply setPa_ok; [done|]. split_and!; [done| |done]. cbn. rewrite Clone_id. by apply checkPoint_family.
Qed.

Lemma writePresentValue_ok w p c p' : point_ok false p -> writePresentValue w p = Ok (c, p') -> point_ok false p'.
Proof.
  intros Hp. unfold writePresentValue. destruct (pr_ArrayIndex _); [done|]. destruct (_ && _); [done|].
  intros H. apply bind_Ok_inv in H as ([] & Hc & H). destruct (sameValue _ _); injection H as _ <-; [done|].
  apply setPv_ok; [done|]. rewrite Clone_id. by apply checkPoint_family.
Qed.

Lemma configured_ok cm p p' : point_ok cm p -> configured p p' -> point_ok cm p'.
Proof.
  intros [H1 H2 H3 H4] [C1 C2 C3 C4 C5 C6 C7 C8 C9]. split; [by rewrite C5|auto| |].
  - unfold values_ok in *. by rewrite C1, C3, C4, C5.
  - unfold events_ok, reconfigured in *. destruct (pt_intrinsic p) as [i|], (pt_intrinsic p') as [i'|]; try done.
    + destruct C9 as (-> & -> & _ & _ & _ & Hc). rewrite C1, C5, C6. intuition.
    + by rewrite C6.
Qed.

Lemma pointWrite_ok cm id w p p' : point_ok cm p -> pointWrite cm id w p p' -> point_ok cm p'.
Proof.
  intros Hp [c -> _ H|c -> _ H|c -> _ H|_ _ H];
    [by eapply setPresent_ok|by eapply setRelinquish_ok|by eapply writePresentValue_ok|by eapply configured_ok].
Qed.

Lemma condition_state p i : event_state (pt_kind p) (pt_eventState p) -> event_state (pt_kind p) (condition p i).
Proof.
  intros He. unfold condition, event_state in *. cbv zeta.
  destruct (pt_kind p); repeat (destruct (_ : bool); cbn [andb]); auto.
Qed.

Lemma transitionOf_range e : 0 <= transitionOf e < 3.
Proof. unfold transitionOf, TransitionToNormal, TransitionToFault, TransitionToOffNormal. repeat (destruct (_ : bool)); lia. Qed.

(** Setting and clearing one of the three transition bits. *)
Lemma acked_bits a tr : 0 <= a < 8 -> 0 <= tr < 3 ->
  0 <= Z.ldiff a (Z.shiftl 1 tr) < 8 /\ 0 <= Z.lor a (Z.shiftl 1 tr) < 8 /\
  Z.land (Z.ldiff a (Z.shiftl 1 tr)) (Z.shiftl 1 tr) = 0 /\ Z.land (Z.lor a (Z.shiftl 1 tr)) (Z.shiftl 1 tr) <> 0.
Proof.
  intros Ha Ht.
  pose (f a tr := (0 <=? Z.ldiff a (Z.shiftl 1 tr)) && (Z.ldiff a (Z.shiftl 1 tr) <? 8) && (0 <=? Z.lor a (Z.shiftl 1 tr)) &&
    (Z.lor a (Z.shiftl 1 tr) <? 8) && (Z.land (Z.ldiff a (Z.shiftl 1 tr)) (Z.shiftl 1 tr) =? 0) &&
    negb (Z.land (Z.lor a (Z.shiftl 1 tr)) (Z.shiftl 1 tr) =? 0)).
  assert (f a tr = true) as H.
  { apply (forall_range (fun a => f a tr) 8); [|done]. apply (forall_range (fun tr => forallb (fun a => f a tr) (seqZ 0 8)) 3); [|done].
    by vm_compute. }
  unfold f in H. bool_to_prop. lia.
Qed.

Lemma nextEventState_state now p i to pending since : event_state (pt_kind p) (pt_eventState p) ->
  nextEventState now p i = (to, pending, since) -> event_state (pt_kind p) to.
Proof.
  intros He. unfold nextEventState. cbv zeta. destruct (negb _); [intros [= <- _ _]; by right; left|].
  destruct (pt_eventState p =? EventStateFault); [intros [= <- _ _]; by left|].
  destruct (_ =? pt_eventState p); [by intros [= <- _ _]|]. destruct (negb _); destruct (_ >=? _); intros [= <- _ _]; try done; by apply condition_state.
Qed.

Lemma point_ok_events cm p i p' : point_ok cm p -> pt_intrinsic p <> None ->
  pt_kind p' = pt_kind p -> pt_states p' = pt_states p -> pt_covIncrement p' = pt_covIncrement p -> pt_pa p' = pt_pa p -> pt_pv p' = pt_pv p ->
  pt_intrinsic p' = Some i -> event_state (pt_kind p) (pt_eventState p') -> 0 <= in_acked i < 8 -> length (in_stamps i) = 3%nat ->
  in_cfg i = in_cfg (theIntrinsic p) -> point_ok cm p'.
Proof.
  intros [H1 H2 H3 H4] Hn Hk Hs Hc Hpa Hpv Hi He Ha Hl Hcfg. split; [by rewrite Hs|by rewrite Hc| |].
  - unfold values_ok in *. by rewrite Hk, Hs, Hpa, Hpv.
  - unfold events_ok, theIntrinsic in *. rewrite Hi, Hk, Hs, Hcfg. destruct (pt_intrinsic p); [|done]. cbn. tauto.
Qed.

Lemma evaluate_ok cm id now ack p evs ch p' : point_ok cm p -> evaluate id now ack p = (evs, ch, p') -> point_ok cm p'.
Proof.
  intros Hp. unfold evaluate. destruct (pt_intrinsic p) as [i|] eqn:Ei; [|by intros [= _ _ <-]].
  destruct (negb (in_enabled i)); [by intros [= _ _ <-]|]. cbv zeta.
  destruct (nextEventState _ p i) as [[to pending] since] eqn:En.
  pose proof (ok_events _ _ Hp) as He. unfold events_ok in He. rewrite Ei in He. destruct He as (He & Ha & Hl & _).
  assert (in_cfg i = in_cfg (theIntrinsic p)) as Hcfg by (unfold theIntrinsic; by rewrite Ei).
  destruct (_ && _); intros [= _ _ <-]; (eapply point_ok_events; [exact Hp|by rewrite Ei|try done..]).
  - by eapply nextEventState_state.
  - cbn. destruct (acked_bits (in_acked i) (transitionOf to) Ha (transitionOf_range to)) as (H1 & _). by destruct (ack _ _).
  - cbn. unfold setStamp. by rewrite length_insert.
Qed.

(** Event detection changes the event state and its own record only. *)
Definition same_values (p p' : pointState) : Prop :=
  pt_kind p' = pt_kind p /\ pt_states p' = pt_states p /\ pt_pa p' = pt_pa p /\ pt_pv p' = pt_pv p /\
  pt_outOfService p' = pt_outOfService p /\ pt_reliability p' = pt_reliability p /\ theConfig p' = theConfig p.

Lemma evaluate_fixed id now ack p evs ch p' : evaluate id now ack p = (evs, ch, p') -> same_values p p'.
Proof.
  unfold evaluate, same_values, theConfig, theIntrinsic. destruct (pt_intrinsic p) as [i|] eqn:Ei; [|intros [= _ _ <-]; by rewrite Ei].
  destruct (negb _); [intros [= _ _ <-]; by rewrite Ei|]. cbv zeta. destruct (nextEventState _ p i) as [[to pending] since].
  destruct (_ && _); by intros [= _ _ <-].
Qed.

Section Steps.
Context {LT : LocalTime}.

Lemma acknowledge_fixed id state stamp p ev ch p' : acknowledge id state stamp p = Ok (ev, ch, p') -> same_values p p'.
Proof.
  unfold acknowledge, same_values, theConfig, theIntrinsic. destruct (pt_intrinsic p) as [i|] eqn:Ei; [|done]. destruct (_ >? _); [done|].
  cbv zeta. intros H. apply bind_Ok_inv in H as (i' & Hi' & H). apply bind_Ok_inv in H as (t & _ & [= _ _ <-]).
  split_and!; try done. cbn.
  destruct (_ =? 0); [destruct stamp as [|?|d tm]; try done; apply bind_Ok_inv in Hi' as (u & _ & Hi'); destruct (_ >? _); [done|]
     |destruct (negb _); [done|]]; by injection Hi' as <-.
Qed.

Lemma acknowledge_ok cm id state stamp p ev ch p' : point_ok cm p -> acknowledge id state stamp p = Ok (ev, ch, p') -> point_ok cm p'.
Proof.
  intros Hp. unfold acknowledge. destruct (pt_intrinsic p) as [i|] eqn:Ei; [|done]. destruct (_ >? _); [done|]. cbv zeta.
  pose proof (ok_events _ _ Hp) as He. unfold events_ok in He. rewrite Ei in He. destruct He as (He & Ha & Hl & _).
  assert (in_cfg i = in_cfg (theIntrinsic p)) as Hcfg by (unfold theIntrinsic; by rewrite Ei).
  pose proof (acked_bits (in_acked i) (transitionOf state) Ha (transitionOf_range state)) as (_ & Hor & _).
  intros H. apply bind_Ok_inv in H as (i' & Hi' & H). apply bind_Ok_inv in H as (t & _ & [= _ _ <-]).
  eapply point_ok_events; [exact Hp|by rewrite Ei|done..| | | |]; cbn; [done| | |];
    (destruct (_ =? 0); [destruct stamp as [|?|d tm]; try done; apply bind_Ok_inv in Hi' as (u & _ & Hi'); destruct (_ >? _); [done|]
     |destruct (negb _); [done|]]; injection Hi' as <-; done).
Qed.

(** ** Runs *)
Inductive quiet_step (b : Base pointState) : Base pointState -> Prop :=
| step_write w cs b' : WriteProperty b w = Ok (cs, b') -> quiet_step b b'
| step_set v cs b' : SetPresentValue v b = Ok (cs, b') -> quiet_step b b'
| step_reliability r : quiet_step b (snd (SetReliability r b))
| step_acknowledge state stamp ev cs b' : AcknowledgeAlarm state stamp b = Ok (ev, cs, b') -> quiet_step b b'.
Inductive point_step (b : Base pointState) : Base pointState -> Prop :=
| step_quiet b' : quiet_step b b' -> point_step b b'
| step_evaluate now ack evs cs b' : EvaluateEvents now ack b = (evs, cs, b') -> point_step b b'.

(** The property that holds Present_Value. *)
Definition presentOf (cm : bool) : Property pointState := if cm then presentProperty else settable true pt_pv writePresentValue.

Record object_ok (cm : bool) (kind : pointKind) (states : Z) (b : Base pointState) : Prop := {
  ob_setters : setters (pointWrite cm) b;
  ob_point : point_ok cm (o_state (b_view b));
  ob_kind : pt_kind (o_state (b_view b)) = kind;
  ob_states : pt_states (o_state (b_view b)) = states;
  ob_present : b_props b !! PropertyPresentValue = Some (presentOf cm);
  ob_eventState : b_props b !! PropertyEventState = Some (computed true (fun p => EnumValue (pt_eventState p)));
  ob_flags : b_props b !! PropertyStatusFlags = Some (computed true pointStatusFlags)
}.

Lemma object_ok_state cm kind states b s : object_ok cm kind states b -> point_ok cm s ->
  pt_kind s = pt_kind (o_state (b_view b)) -> pt_states s = pt_states (o_state (b_view b)) -> object_ok cm kind states (putState s b).
Proof. intros [H1 H2 H3 H4 H5 H6 H7] Hs Hk Hn. split; try done; cbn; congruence. Qed.

Lemma pointWrite_fixed cm id w p p' : pointWrite cm id w p p' -> pt_kind p' = pt_kind p /\ pt_states p' = pt_states p.
Proof.
  intros [c _ _ H|c _ _ H|c _ _ H|_ _ []]; [| | |done].
  - unfold setPresent in H. destruct (pr_ArrayIndex _); [done|]. apply bind_Ok_inv in H as (? & _ & H). cbv zeta in H.
    by apply bind_Ok_inv in H as (? & _ & [= _ <-]).
  - unfold setRelinquish in H. destruct (pr_ArrayIndex _); [done|]. apply bind_Ok_inv in H as (? & _ & H). by injection H as _ <-.
  - unfold writePresentValue in H. destruct (pr_ArrayIndex _); [done|]. destruct (_ && _); [done|]. apply bind_Ok_inv in H as (? & _ & H).
    by destruct (sameValue _ _); injection H as _ <-.
Qed.

Lemma point_step_ok cm kind states b b' : object_ok cm kind states b -> point_step b b' -> object_ok cm kind states b'.
Proof.
  intros Hb Hst. destruct Hst as [b' [w cs b1 H|v cs b1 H|r|state stamp ev cs b1 H]|now ack evs cs b' H].
  - cbn in H. unfold baseWriteProperty in H. apply bind_Ok_inv in H as ([ch b2] & H & [= _ <-]). apply writeLocked_written in H.
    destruct Hb as [H1 H2 H3 H4 H5 H6 H7]. pose proof (written_state _ _ _ _ _ H1 H) as Hs.
    split; [by eapply setters_written| | | |eapply written_keeps; [exact H|done|left; by destruct cm]|by eapply written_keeps; [done..|right]
      |by eapply written_keeps; [done..|right]].
    + destruct Hs as [->|Hs]; [done|]. by eapply pointWrite_ok.
    + destruct Hs as [->|Hs]; [done|]. apply pointWrite_fixed in Hs. congruence || (destruct Hs; congruence).
    + destruct Hs as [->|Hs]; [done|]. apply pointWrite_fixed in Hs. congruence || (destruct Hs; congruence).
  - unfold SetPresentValue in H. apply bind_Ok_inv in H as ([] & Hc & H). apply checkPoint_family in Hc. unfold Update in H.
    pose proof (ob_point _ _ _ _ Hb) as Hp. set (p := o_state (b_view b)) in *.
    destruct (pt_pa p) as [pa|] eqn:Epa.
    + assert (cm = true) as -> by (destruct cm; [done|]; destruct (ok_values _ _ Hp); congruence).
      assert (point_ok true (setPa (mkPA (pa_slots pa) (Clone v)) p)) as Hok.
      { apply setPa_ok; [done|]. destruct (ok_values _ _ Hp) as (pa2 & E & Hl & Hr & Hs). rewrite Epa in E. injection E as <-.
        split_and!; [done|cbn; by rewrite Clone_id|done]. }
      destruct (sameValue _ _); injection H as _ <-; by apply object_ok_state.
    + assert (cm = false) as -> by (destruct cm; [|done]; destruct (ok_values _ _ Hp) as (? & ? & _); congruence).
      assert (point_ok false (setPv (Clone v) p)) as Hok by (apply setPv_ok; [done|by rewrite Clone_id]).
      destruct (pt_input p && _); [injection H as _ <-; by apply object_ok_state|]. destruct (sameValue _ _); injection H as _ <-; by apply object_ok_state.
  - unfold SetReliability, Update. pose proof (ob_point _ _ _ _ Hb) as Hp. set (p := o_state (b_view b)) in *.
    destruct (_ =? r); cbn [snd]; apply object_ok_state; try done. by eapply point_ok_put; [exact Hp|done..|apply Hp].
  - unfold AcknowledgeAlarm in H. apply bind_Ok_inv in H as ([[ev' ch] s] & E & [= _ _ <-]).
    pose proof (acknowledge_ok _ _ _ _ _ _ _ _ (ob_point _ _ _ _ Hb) E) as Hs. destruct (acknowledge_fixed _ _ _ _ _ _ _ E) as (Hk & Hn & _).
    by apply object_ok_state.
  - unfold EvaluateEvents in H. destruct (evaluate _ _ _ _) as [[evs' ch] s] eqn:E. injection H as _ _ <-.
    pose proof (evaluate_ok _ _ _ _ _ _ _ _ (ob_point _ _ _ _ Hb) E) as Hs. destruct (evaluate_fixed _ _ _ _ _ _ _ E) as (Hk & Hn & _).
    by apply object_ok_state.
Qed.
End Steps.

(** What the other steps leave alone: the event state, and which condition is
    pending since when. *)
Definition same_detection (p p' : pointState) : Prop :=
  pt_eventState p' = pt_eventState p /\ pt_kind p' = pt_kind p /\
  match pt_intrinsic p, pt_intrinsic p' with
  | Some i, Some i' => in_pending i' = in_pending i /\ in_since i' = in_since i
  | None, None => True
  | _, _ => False
  end.

Lemma same_detection_intrinsic p p' : pt_eventState p' = pt_eventState p -> pt_kind p' = pt_kind p -> pt_intrinsic p' = pt_intrinsic p ->
  same_detection p p'.
Proof. intros He Hk Hi. split; [done|]. split; [done|]. rewrite Hi. by destruct (pt_intrinsic p). Qed.

Lemma pointWrite_detection cm id w p p' : pointWrite cm id w p p' -> same_detection p p'.
Proof.
  intros [c _ _ H|c _ _ H|c _ _ H|_ _ []].
  - unfold setPresent in H. destruct (pr_ArrayIndex _); [done|]. apply bind_Ok_inv in H as (? & _ & H). cbv zeta in H.
    apply bind_Ok_inv in H as (? & _ & [= _ <-]). by apply same_detection_intrinsic.
  - unfold setRelinquish in H. destruct (pr_ArrayIndex _); [done|]. apply bind_Ok_inv in H as (? & _ & H). injection H as _ <-.
    by apply same_detection_intrinsic.
  - unfold writePresentValue in H. destruct (pr_ArrayIndex _); [done|]. destruct (_ && _); [done|]. apply bind_Ok_inv in H as (? & _ & H).
    destruct (sameValue _ _); injection H as _ <-; by apply same_detection_intrinsic.
  - split; [done|]. split; [done|]. unfold reconfigured in *. destruct (pt_intrinsic p), (pt_intrinsic p'); try done. tauto.
Qed.

Section Quiet.
Context {LT : LocalTime}.

Lemma acknowledge_detection id state stamp p ev ch p' : acknowledge id state stamp p = Ok (ev, ch, p') -> same_detection p p'.
Proof.
  unfold acknowledge. destruct (pt_intrinsic p) as [i|] eqn:Ei; [|done]. destruct (_ >? _); [done|].
  cbv zeta. intros H. apply bind_Ok_inv in H as (i' & Hi' & H). apply bind_Ok_inv in H as (t & _ & [= _ _ <-]).
  split; [done|]. split; [done|]. rewrite Ei. cbn.
  destruct (_ =? 0); [destruct stamp as [|?|d tm]; try done; apply bind_Ok_inv in Hi' as (u & _ & Hi'); destruct (_ >? _); [done|]
     |destruct (negb _); [done|]]; by injection Hi' as <-.
Qed.

Lemma quiet_detection cm kind states b b' : object_ok cm kind states b -> quiet_step b b' ->
  same_detection (o_state (b_view b)) (o_state (b_view b')).
Proof.
  intros Hb Hst. destruct Hst as [w cs b' H|v cs b' H|r|state stamp ev cs b' H].
  - cbn in H. unfold baseWriteProperty in H. apply bind_Ok_inv in H as ([ch b2] & H & [= _ <-]). apply writeLocked_written in H.
    pose proof (written_state _ _ _ _ _ (ob_setters _ _ _ _ Hb) H) as [->|Hs]; [by apply same_detection_intrinsic|]. by eapply pointWrite_detection.
  - unfold SetPresentValue in H. apply bind_Ok_inv in H as (? & _ & H). unfold Update in H.
    destruct (pt_pa _); [|destruct (_ && _)]; try destruct (sameValue _ _); injection H as _ <-; by apply same_detection_intrinsic.
  - unfold SetReliability, Update. destruct (_ =? r); by apply same_detection_intrinsic.
  - unfold AcknowledgeAlarm in H. apply bind_Ok_inv in H as ([[ev' ch] s] & E & [= _ _ <-]). by eapply acknowledge_detection.
Qed.
End Quiet.

(** ** A new point *)

Lemma lookup_Define_ne {S} id id' (p : Property S) b : id <> id' -> b_props (Define id p b) !! id' = b_props b !! id'.
Proof. intros. rewrite lookup_Define. by rewrite decide_False. Qed.
Lemma lookup_Define_eq {S} id (p : Property S) b : b_props (Define id p b) !! id = Some p.
Proof. rewrite lookup_Define. by rewrite decide_True. Qed.

(** The properties that [definePresentValue] defines. *)
Definition commandProperty (id : Z) : Prop :=
  id = PropertyPresentValue \/ id = PropertyPriorityArray \/ id = PropertyRelinquishDefault \/ id = PropertyCurrentCommandPriority.
(** Those every point has besides. *)
Definition commonProperty (id : Z) : Prop := id = PropertyStatusFlags \/ id = PropertyEventState \/ id = PropertyOutOfService.

Ltac skip_defines := repeat (rewrite lookup_Define_ne by done).

Section New.
Context {LT : LocalTime}.

Lemma defineCommon_lookup cfg b id : commandProperty id -> b_props (defineCommon cfg b) !! id = b_props b !! id.
Proof. unfold defineCommon. intros [->|[->|[->| ->]]]; skip_defines; destruct (pc_Description cfg); by skip_defines. Qed.

Lemma defineFamily_lookup t kind cfg b id : commandProperty id \/ commonProperty id -> b_props (defineFamily t kind cfg b) !! id = b_props b !! id.
Proof.
  unfold defineFamily. intros [[->|[->|[->| ->]]]|[->|[->| ->]]]; destruct kind; try by skip_defines.
  all: try (destruct (negb _), (pc_ActiveText cfg), (pc_InactiveText cfg); by skip_defines).
  all: destruct (pc_StateText cfg); by skip_defines.
Qed.

Lemma defineEvents_lookup cfg b id : commandProperty id \/ commonProperty id -> b_props (defineEvents cfg b) !! id = b_props b !! id.
Proof. unfold defineEvents. cbv zeta. intros [[->|[->|[->| ->]]]|[->|[->| ->]]]; destruct (pt_kind _); skip_defines; done. Qed.

(** The object built by [newPoint]: where its properties come from, and its
    state. *)
Lemma newPoint_shape t kind input cm cfg b : newPoint t kind input cm cfg = Ok b ->
  exists initial inc states,
    initialPoint kind cfg = Ok (initial, inc, states) /\
    o_id (b_view b) = mkObjectID t (pc_Instance cfg) /\ o_name (b_view b) = pc_Name cfg /\
    0 < len (pc_Name cfg) /\ pc_Instance cfg < MaxObjectInstance /\
    o_state (b_view b) = mkPoint kind input (if cm then NullValue else initial) (if cm then Some (newPA initial) else None)
      false EventStateNormal ReliabilityNoFaultDetected inc states (newIntrinsic <$> pc_Events cfg) /\
    (forall ev, pc_Events cfg = Some ev -> checkEvents t kind cfg ev = true) /\
    (forall id, commandProperty id -> b_props b !! id =
       b_props (definePresentValue cm (NewBase (mkObjectID t (pc_Instance cfg)) (pc_Name cfg) (o_state (b_view b)))) !! id) /\
    b_props b !! PropertyEventState = Some (computed true (fun p => EnumValue (pt_eventState p))) /\
    b_props b !! PropertyStatusFlags = Some (computed true pointStatusFlags).
Proof.
  unfold newPoint. destruct (_ >? _) eqn:E1; [done|]. destruct (len _ =? 0) eqn:E2; [done|]. intros H.
  apply bind_Ok_inv in H as ([[initial inc] states] & Hi & H). exists initial, inc, states. cbv zeta in H.
  assert (0 < len (pc_Name cfg) /\ pc_Instance cfg < MaxObjectInstance) as [Hn Hm] by (bool_to_prop; len_lia).
  set (s := mkPoint _ _ _ _ _ _ _ _ _ _) in H. set (b0 := NewBase _ _ s) in H.
  assert (forall b' : Base pointState, o_id (b_view (defineFamily t kind cfg (defineCommon cfg b'))) = o_id (b_view b') /\
    o_name (b_view (defineFamily t kind cfg (defineCommon cfg b'))) = o_name (b_view b') /\
    o_state (b_view (defineFamily t kind cfg (defineCommon cfg b'))) = o_state (b_view b')) as Hv.
  { intros b'. unfold defineFamily, defineCommon. destruct (pc_Description cfg), kind; try done;
      try (destruct (negb _), (pc_ActiveText cfg), (pc_InactiveText cfg); done); by destruct (pc_StateText cfg). }
  assert (o_id (b_view (definePresentValue cm b0)) = o_id (b_view b0) /\ o_name (b_view (definePresentValue cm b0)) = o_name (b_view b0) /\
    o_state (b_view (definePresentValue cm b0)) = s) as (Hp1 & Hp2 & Hp3) by (destruct cm; done).
  destruct (Hv (definePresentValue cm b0)) as (H1 & H2 & H3). set (b4 := defineFamily _ _ _ _) in *.
  assert (forall id, commandProperty id -> b_props b4 !! id = b_props (definePresentValue cm b0) !! id) as Hc.
  { intros id Hid. unfold b4. rewrite defineFamily_lookup by auto. by apply defineCommon_lookup. }
  assert (b_props b4 !! PropertyEventState = Some (computed true (fun p => EnumValue (pt_eventState p))) /\
    b_props b4 !! PropertyStatusFlags = Some (computed true pointStatusFlags)) as [He Hf].
  { unfold b4. rewrite !defineFamily_lookup by (unfold commonProperty; auto). unfold defineCommon.
    split; skip_defines; apply lookup_Define_eq. }
  assert (forall s', forall id, commandProperty id -> b_props (definePresentValue cm b0) !! id =
    b_props (definePresentValue cm (NewBase (mkObjectID t (pc_Instance cfg)) (pc_Name cfg) s')) !! id) as Hd.
  { intros s' id _. unfold b0. destruct cm; reflexivity. }
  destruct (pc_Events cfg) as [ev|] eqn:Eev.
  - destruct (checkEvents _ _ _ _) eqn:Ec; [|done]. injection H as <-.
    assert (forall k, o_id (b_view (defineEvents ev k)) = o_id (b_view k) /\ o_name (b_view (defineEvents ev k)) = o_name (b_view k) /\
      o_state (b_view (defineEvents ev k)) = setIntrinsic (newIntrinsic ev) (o_state (b_view k))) as Hk
      by (intros k; unfold defineEvents; destruct (pt_kind _); done).
    destruct (Hk b4) as (K1 & K2 & K3). split_and!; try done.
    + rewrite K1, H1. by rewrite Hp1.
    + rewrite K2, H2. by rewrite Hp2.
    + rewrite K3, H3, Hp3. done.
    + by intros ev' [= <-].
    + intros id Hid. rewrite defineEvents_lookup, Hc by auto. by apply Hd.
    + by rewrite defineEvents_lookup by (unfold commonProperty; auto).
    + by rewrite defineEvents_lookup by (unfold commonProperty; auto).
  - injection H as <-. split_and!; try done.
    + by rewrite H1, Hp1.
    + by rewrite H2, Hp2.
    + by rewrite H3, Hp3.
    + intros id Hid. rewrite Hc by done. by apply Hd.
Qed.

(** The configuration of a point, typed as in Go, with a finite value. *)
Definition config_typed (kind : pointKind) (cfg : PointConfig) : Prop :=
  is_u 32 (pc_NumberOfStates cfg) /\ is_u 32 (pc_State cfg) /\ (kind = kindAnalog -> f32_finite (pc_Value cfg) = true).

Lemma initialPoint_ok kind cfg initial inc states : config_typed kind cfg -> initialPoint kind cfg = Ok (initial, inc, states) ->
  in_family kind states initial /\ is_u 32 states /\ cov_ok inc /\ (kind = kindMultiState -> states = pc_NumberOfStates cfg).
Proof.
  intros (Hn & Hs & Hv) H. unfold initialPoint in H. destruct kind.
  - destruct (_ || _) eqn:E; [done|]. injection H as <- <- <-. apply orb_false_iff in E.
    split; [split; [done|by apply Hv]|]. by split.
  - destruct (_ >? 1); [done|]. injection H as <- <- <-. split_and!; try done. cbn. by destruct (pc_Active cfg).
  - destruct (_ =? 0) eqn:E0; [done|]. destruct (match pc_StateText cfg with Some _ => _ | None => _ end); [done|]. cbv zeta in H.
    set (st := if pc_State cfg =? 0 then 1 else pc_State cfg) in H. assert (1 <= st) as Hst.
    { unfold st. unfold is_u in Hs. destruct (pc_State cfg =? 0) eqn:Es; bool_to_prop; lia. }
    destruct (_ >? _) eqn:E; [done|]. injection H as <- <- <-. bool_to_prop. by split_and!.
Qed.

Lemma checkEvents_ok t kind cfg ev states : checkEvents t kind cfg ev = true -> kind = kindMultiState -> states = pc_NumberOfStates cfg ->
  config_ok states ev.
Proof.
  unfold checkEvents. intros H -> ->. bool_to_prop. rewrite bool_decide_eq_true_2 in * by done.
  match goal with H : forallb _ _ = true |- _ => rename H into Hf end. rewrite forallb_forall in Hf.
  split; [apply Forall_forall; intros v Hv|apply Forall_forall; intros v Hv|done];
    (assert (In v (ec_AlarmValues ev ++ ec_FaultValues ev)) as Hin by (apply in_or_app; rewrite <- !list_elem_of_In; auto));
    apply Hf in Hin; bool_to_prop; lia.
Qed.
End New.

Section Properties.
Context {LT : LocalTime}.

Lemma newPoint_ok t kind input cm cfg b : config_typed kind cfg -> newPoint t kind input cm cfg = Ok b ->
  exists states, object_ok cm kind states b /\ (kind = kindMultiState -> states = pc_NumberOfStates cfg).
Proof.
  intros Hcfg H. pose proof (newPoint_setters _ _ _ _ _ _ H) as Hset.
  destruct (newPoint_shape _ _ _ _ _ _ H) as (initial & inc & states & Hi & _ & _ & _ & _ & Hs & Hev & Hp & He & Hf).
  destruct (initialPoint_ok _ _ _ _ _ Hcfg Hi) as (Hfam & Hst & Hcov & Hn). exists states. split; [|done].
  split; try done; rewrite ?Hs; try done.
  - split; cbn; [done..| |].
    + unfold values_ok. destruct cm; cbn; [|done]. exists (newPA initial). split; [done|]. split; [done|]. split; [done|].
      apply Forall_forall. intros o Ho v ->. by apply elem_of_replicate in Ho as [? _].
    + unfold events_ok. cbn. destruct (pc_Events cfg) as [ev|] eqn:Eev; [|done]. cbn. split; [by left|]. split; [lia|]. split; [done|].
      intros Hk. eapply checkEvents_ok; [by apply Hev|done|]. rewrite Hn by done. done.
  - rewrite (Hp PropertyPresentValue) by by left. destruct cm; [|apply lookup_Define_eq]. unfold definePresentValue, defineCommandable.
    apply lookup_Define_eq.
Qed.

Lemma object_ok_rtc cm kind states b b' : object_ok cm kind states b -> rtc point_step b b' -> object_ok cm kind states b'.
Proof. intros Hb Hr. induction Hr as [|b b1 b' Hs Hr IH]; [done|]. apply IH. by eapply point_step_ok. Qed.

(** Reads of an object in a good state. *)
Lemma object_ok_reads cm kind states b : object_ok cm kind states b ->
  let p := o_state (b_view b) in
  ReadProperty b (wholeRef PropertyPresentValue) = Ok (pointPresent p) /\
  ReadProperty b (wholeRef PropertyEventState) = Ok (EnumValue (pt_eventState p)) /\
  ReadProperty b (wholeRef PropertyStatusFlags) = Ok (pointStatusFlags p).
Proof.
  intros Hb p. cbn [ReadProperty Base_ops]. unfold readLocked. cbn [wholeRef pr_Identifier pr_ArrayIndex].
  rewrite (ob_present _ _ _ _ Hb), (ob_eventState _ _ _ _ Hb), (ob_flags _ _ _ _ Hb). cbn. rewrite !Clone_id. split; [|done]. f_equal.
  unfold pointPresent. pose proof (ok_values _ _ (ob_point _ _ _ _ Hb)) as Hv. fold p in Hv |- *. destruct cm; unfold values_ok in Hv; cbn; fold p.
  - by destruct Hv as (pa & -> & _).
  - by destruct Hv as [-> _].
Qed.

Lemma statusFlags_bits a f o s :
  let v := statusFlags a f o s in valueBit v 0 = a /\ valueBit v 1 = f /\ valueBit v 2 = o /\ valueBit v 3 = s.
Proof. by destruct a, f, o, s. Qed.

(** C8. Type safety of points: whatever is written to its properties, whatever
    its application sets, and whenever events are detected or acknowledged, a
    point of any of the nine types reads a Present_Value of its family (a
    finite REAL, 0 or 1, or a state of the object), an Event_State of its
    family, and Status_Flags whose bits say exactly whether the event state is
    not NORMAL, whether there is a fault and whether it is out of service.
    (The constructor does not check that an initial analog value is finite:
    [config_typed] assumes it.) *)
Theorem point_values_in_family t kind input cm cfg b0 b : config_typed kind cfg ->
  newPoint t kind input cm cfg = Ok b0 -> rtc point_step b0 b ->
  let p := o_state (b_view b) in
  (exists v, ReadProperty b (wholeRef PropertyPresentValue) = Ok v /\ in_family kind (pc_NumberOfStates cfg) v) /\
  (exists e, ReadProperty b (wholeRef PropertyEventState) = Ok (EnumValue e) /\ event_state kind e /\
    exists f, ReadProperty b (wholeRef PropertyStatusFlags) = Ok f /\
      valueBit f 0 = negb (e =? EventStateNormal) /\
      valueBit f 1 = negb (currentReliability p =? ReliabilityNoFaultDetected) /\
      valueBit f 2 = false /\ valueBit f 3 = pt_outOfService p).
Proof.
  intros Hcfg Hnew Hrun p. destruct (newPoint_ok _ _ _ _ _ _ Hcfg Hnew) as (states & Hok & Hn). pose proof (object_ok_rtc _ _ _ _ _ Hok Hrun) as Hb.
  destruct (object_ok_reads _ _ _ _ Hb) as (R1 & R2 & R3). pose proof (ob_point _ _ _ _ Hb) as Hp. split.
  - eexists. split; [exact R1|]. pose proof (pointPresent_family _ _ (ok_values _ _ Hp)) as H.
    rewrite (ob_kind _ _ _ _ Hb), (ob_states _ _ _ _ Hb) in H. destruct kind; [done..|]. by rewrite <- Hn.
  - eexists. split; [exact R2|]. split.
    + pose proof (ok_events _ _ Hp) as H. unfold events_ok in H. rewrite (ob_kind _ _ _ _ Hb) in H.
      destruct (pt_intrinsic _); [by destruct H|]. rewrite H. by left.
    + eexists. split; [exact R3|]. apply statusFlags_bits.
Qed.

(** *** Commands *)
Lemma newPoint_commandable t kind input cfg b : newPoint t kind input true cfg = Ok b ->
  exists initial inc states, initialPoint kind cfg = Ok (initial, inc, states) /\
    refines (checkPoint (o_state (b_view b))) b (mkCommand ∅ initial).
Proof.
  intros H. pose proof (newPoint_setters _ _ _ _ _ _ H) as Hset.
  destruct (newPoint_shape _ _ _ _ _ _ H) as (initial & inc & states & Hi & _ & _ & _ & _ & Hs & _ & Hp & _).
  exists initial, inc, states. split; [done|]. split; [|done|].
  - assert (forall id p, commandProperty id ->
      b_props (definePresentValue true (NewBase (mkObjectID t (pc_Instance cfg)) (pc_Name cfg) (o_state (b_view b)))) !! id = Some p ->
      b_props b !! id = Some p) as Hl by (intros id p Hid Hq; by rewrite (Hp id Hid)).
    unfold commandProperty in Hl. split; try (apply Hl; [auto|reflexivity]).
    intros id q set w s ch s' Hq Hqs Hr Hn1 Hn2. destruct (Hset id q set w s ch s' Hq Hqs Hr) as [c _ E _|c _ E _|c E _ _|_ _ Hc]; try done.
    split.
    + cbn. by rewrite (cf_pa _ _ Hc).
    + intros v. cbn. unfold checkPoint. by rewrite (cf_kind _ _ Hc), (cf_states _ _ Hc).
  - rewrite Hs. cbn. apply implements_new.
Qed.

(** C7. A commandable point implements the command prioritisation of clause
    19.2: after any sequence of writes of any of its properties (failing ones
    included), Present_Value is the value last written at the
    highest-priority slot in use, or Relinquish_Default; Priority_Array,
    Current_Command_Priority and Relinquish_Default are those of the abstract
    commands; and the next write of Present_Value or Relinquish_Default
    succeeds exactly when the specification accepts it, with the same error
    otherwise. *)
Theorem commandable_point_refines t kind input cfg b0 ws :
  newPoint t kind input true cfg = Ok b0 -> Forall (fun w => 0 <= w_Priority w) ws ->
  exists initial inc states, initialPoint kind cfg = Ok (initial, inc, states) /\
  let check := checkPoint (o_state (b_view b0)) in
  let b := write_run ws b0 in
  let c := command_run check ws (mkCommand ∅ initial) in
  ReadProperty b (wholeRef PropertyPresentValue) = Ok (commanded c) /\
  ReadProperty b (wholeRef PropertyRelinquishDefault) = Ok (cm_default c) /\
  ReadProperty b (wholeRef PropertyCurrentCommandPriority) =
    Ok (match inForce c with Some (p, _) => UnsignedValue p | None => NullValue end) /\
  ReadProperty b (itemRef PropertyPriorityArray 0) = Ok (UnsignedValue 16) /\
  (forall p, 1 <= p <= 16 ->
    ReadProperty b (itemRef PropertyPriorityArray p) = Ok (match cm_slots c !! p with Some v => v | None => NullValue end)) /\
  (forall w, 0 <= w_Priority w ->
    pr_Identifier (w_Property w) = PropertyPresentValue \/ pr_Identifier (w_Property w) = PropertyRelinquishDefault ->
    match WriteProperty b w, command_step check w c with
    | Ok _, Ok _ => True
    | Err e, Err e' => e = e'
    | _, _ => False
    end).
Proof.
  intros Hnew Hws. destruct (newPoint_commandable _ _ _ _ _ Hnew) as (initial & inc & states & Hi & Hr). exists initial, inc, states. split; [done|].
  intros check b c. pose proof (refines_run _ ws _ _ Hr Hws) as Hrun. fold b c in Hrun.
  destruct (refines_reads _ _ _ Hrun) as (R1 & R2 & R3 & R4 & R5). split_and!; [done..|].
  intros w Hp [Hw|Hw].
  - pose proof (refines_present _ _ _ w Hrun Hp Hw) as H. destruct (WriteProperty b w) as [[cs b']|e].
    + destruct H as (c' & H & _). unfold c, check. by rewrite H.
    + unfold c, check. by rewrite H.
  - pose proof (refines_relinquish _ _ _ w Hrun Hw) as H. destruct (WriteProperty b w) as [[cs b']|e].
    + destruct H as (c' & H & _). unfold c, check. by rewrite H.
    + unfold c, check. by rewrite H.
Qed.
End Properties.
