(* ===== verification/EventDetection.v ===== *)
(** * Event detection over time

    [EvaluateEvents] ([Events.v]) as a state machine: which transitions it
    reports ([edge]), that a condition is reported only when it held for the
    time delay (safety) and is reported when it does (liveness), and how an
    acknowledgment answers a report. *)

From Stdlib Require Import ZArith Lia Sorted.
From stdpp Require Import base list gmap relations sorting.
From S2P Require Import Prelude Value Ids Float32 Tags Constructed Access Object Commandable Events Point PointSafety.

(** ** One evaluation *)

(** The transitions between event states: a fault from anywhere, back to
    NORMAL from FAULT, and the off-normal states of the family from and to
    NORMAL - never from one limit to the other. *)
Inductive edge (kind : pointKind) : Z -> Z -> Prop :=
| edge_fault from : edge kind from EventStateFault
| edge_recover : edge kind EventStateFault EventStateNormal
| edge_exceeds to : event_state kind to -> to <> EventStateFault -> to <> EventStateNormal -> edge kind EventStateNormal to
| edge_returns from : event_state kind from -> from <> EventStateFault -> from <> EventStateNormal -> edge kind from EventStateNormal.

Lemma condition_cases p i : let next := condition p i in
  next = pt_eventState p \/
  (pt_eventState p = EventStateNormal /\ event_state (pt_kind p) next /\ next <> EventStateFault /\ next <> EventStateNormal) \/
  (next = EventStateNormal /\ pt_eventState p <> EventStateNormal /\ pt_eventState p <> EventStateFault).
Proof.
  cbv zeta. unfold condition, event_state. cbv zeta. unfold EventStateNormal, EventStateFault, EventStateOffnormal, EventStateHighLimit, EventStateLowLimit.
  destruct (pt_eventState p =? 0) eqn:E0; bool_to_prop.
  { rewrite E0. destruct (pt_kind p); cbn [Z.eqb];
      repeat match goal with |- context [if ?b then _ else _] => destruct b end; first [by left|right; left; repeat split; auto; lia]. }
  destruct (pt_kind p); repeat match goal with |- context [if ?b then _ else _] => let E := fresh "E" in destruct b eqn:E end; bool_to_prop;
    first [by left|right; right; repeat split; lia].
Qed.

Lemma condition_edge p i : event_state (pt_kind p) (pt_eventState p) -> condition p i <> pt_eventState p ->
  edge (pt_kind p) (pt_eventState p) (condition p i) /\ condition p i <> EventStateFault.
Proof.
  intros He Hn. destruct (condition_cases p i) as [H|[(H1 & H2 & H3 & H4)|(H1 & H2 & H3)]]; [done| |].
  - rewrite H1. split; [by apply edge_exceeds|done].
  - rewrite H1. split; [by apply edge_returns|done].
Qed.

(** What an evaluation does, case by case. *)
Inductive evaluated (id : ObjectIdentifier) (now : Z) (ack : Z -> Z -> bool) (p : pointState) (i : intrinsic) :
    list EventTransition -> pointState -> Prop :=
| ev_disabled : in_enabled i = false -> evaluated id now ack p i [] p
| ev_quiet pending since :
    in_enabled i = true -> nextEventState (Truncate now (10 ^ 7)) p i = (pt_eventState p, pending, since) ->
    evaluated id now ack p i []
      (setIntrinsic (mkIntrinsic (in_cfg i) (in_enabled i) (in_acked i) (in_stamps i) pending since (in_lastFault i)) p)
| ev_report to pending since ev i' :
    in_enabled i = true -> nextEventState (Truncate now (10 ^ 7)) p i = (to, pending, since) ->
    (to = pt_eventState p -> to = EventStateFault /\ currentReliability p <> in_lastFault i) ->
    ev_Object ev = id -> ev_From ev = pt_eventState p -> ev_To ev = to -> ev_Transition ev = transitionOf to ->
    ev_TimeStamp ev = Truncate now (10 ^ 7) -> ev_NotificationClass ev = ec_NotificationClass (in_cfg i) ->
    ev_EventType ev = (if (to =? EventStateNormal) && (pt_eventState p =? EventStateFault) then EventTypeChangeOfReliability else eventType p to) ->
    in_cfg i' = in_cfg i -> in_enabled i' = in_enabled i -> in_pending i' = pending -> in_since i' = since ->
    in_acked i' = (if ack (ec_NotificationClass (in_cfg i)) (transitionOf to) then Z.ldiff (in_acked i) (Z.shiftl 1 (transitionOf to)) else in_acked i) ->
    in_stamps i' = <[Z.to_nat (transitionOf to) := Truncate now (10 ^ 7)]> (in_stamps i) ->
    evaluated id now ack p i [ev] (setEventState to (setIntrinsic i' p)).

Lemma evaluate_evaluated id now ack p i evs ch p' : pt_intrinsic p = Some i -> evaluate id now ack p = (evs, ch, p') ->
  evaluated id now ack p i evs p' /\ (evs = [] <-> ch = []).
Proof.
  intros Hi. unfold evaluate. rewrite Hi. destruct (in_enabled i) eqn:En; cbn [negb]; [|intros [= <- <- <-]; split; [by apply ev_disabled|done]].
  cbv zeta. destruct (nextEventState _ p i) as [[to pending] since] eqn:Ne. destruct (_ && _) eqn:E.
  - intros [= <- <- <-]. split; [|done]. apply andb_true_iff in E as [E _]. apply Z.eqb_eq in E. subst to. rewrite <- En. by apply ev_quiet.
  - intros [= <- <- <-]. split; [|done]. eapply ev_report; try reflexivity; [done|exact Ne| |by destruct (_ && _)].
    intros ->. rewrite Z.eqb_refl in E. cbn [andb] in E. apply orb_false_iff in E as [E1 E2].
    apply negb_false_iff, Z.eqb_eq in E1. apply Z.eqb_neq in E2. done.
Qed.

Lemma nextEventState_cases now p i to pending since : nextEventState now p i = (to, pending, since) ->
  (currentReliability p <> ReliabilityNoFaultDetected /\ to = EventStateFault /\ pending = EventStateFault) \/
  (currentReliability p = ReliabilityNoFaultDetected /\ pt_eventState p = EventStateFault /\ to = EventStateNormal /\ pending = EventStateNormal) \/
  (currentReliability p = ReliabilityNoFaultDetected /\ pt_eventState p <> EventStateFault /\
     condition p i = pt_eventState p /\ to = pt_eventState p /\ pending = pt_eventState p) \/
  (currentReliability p = ReliabilityNoFaultDetected /\ pt_eventState p <> EventStateFault /\ condition p i <> pt_eventState p /\
     pending = condition p i /\ (if decide (condition p i = in_pending i) then since = in_since i else since = now) /\
     to = if timeSub now since >=? ec_TimeDelay (in_cfg i) * second then condition p i else pt_eventState p).
Proof.
  unfold nextEventState. cbv zeta. destruct (negb _) eqn:E1.
  { intros [= <- <- <-]. left. bool_to_prop. done. }
  apply negb_false_iff, Z.eqb_eq in E1. destruct (_ =? EventStateFault) eqn:E2.
  { intros [= <- <- <-]. right. left. bool_to_prop. done. }
  apply Z.eqb_neq in E2. destruct (condition p i =? pt_eventState p) eqn:E3; bool_to_prop.
  { intros [= <- <- <-]. right. right. left. done. }
  right. right. right. destruct (decide (condition p i = in_pending i)) as [Ed|Ed].
  - rewrite <- Ed, Z.eqb_refl in H. cbn [negb] in H. injection H as <- <- <-. done.
  - rewrite (proj2 (Z.eqb_neq _ _)) in H by done. cbn [negb] in H. injection H as <- <- <-. done.
Qed.

(** ** Runs of a point, with what its evaluations saw and reported *)
Record evalStep := mkEval { es_now : Z; es_pre : pointState; es_out : list EventTransition }.

Section Runs.
Context {LT : LocalTime}.

Inductive point_run (b0 : Base pointState) : list evalStep -> Base pointState -> Prop :=
| pr_start : point_run b0 [] b0
| pr_quiet tr b b' : point_run b0 tr b -> quiet_step b b' -> point_run b0 tr b'
| pr_eval tr b now ack evs cs b' : point_run b0 tr b -> EvaluateEvents now ack b = (evs, cs, b') ->
    point_run b0 (tr ++ [mkEval now (o_state (b_view b)) evs]) b'.

Lemma point_run_rtc b0 tr b : point_run b0 tr b -> rtc point_step b0 b.
Proof.
  induction 1 as [|tr b b' Hr IH Hs|tr b now ack evs cs b' Hr IH He]; [done|eapply rtc_r; [done|by apply step_quiet]|].
  eapply rtc_r; [done|by eapply step_evaluate].
Qed.

Definition stamped (now : Z) : Z := Truncate now (10 ^ 7).

(** An evaluation that saw the condition [to] in event state [from], without a
    fault; one with detection disabled sees nothing. *)
Definition saw (from to : Z) (e : evalStep) : Prop :=
  in_enabled (theIntrinsic (es_pre e)) = true ->
  pt_eventState (es_pre e) = from /\ currentReliability (es_pre e) = ReliabilityNoFaultDetected /\
  condition (es_pre e) (theIntrinsic (es_pre e)) = to.

(** The end of a trace in which the condition held since [since]. *)
Definition held (from to since : Z) (tr : list evalStep) : Prop :=
  exists before e after, tr = before ++ e :: after /\ stamped (es_now e) = since /\
    in_enabled (theIntrinsic (es_pre e)) = true /\ Forall (saw from to) (e :: after).

(** What is pending has been seen since [in_since]. *)
Definition pending_ok (tr : list evalStep) (p : pointState) : Prop :=
  match pt_intrinsic p with
  | None => True
  | Some i => in_pending i = pt_eventState p \/ in_pending i = EventStateFault \/ held (pt_eventState p) (in_pending i) (in_since i) tr
  end.

Lemma held_snoc from to since tr e : held from to since tr -> saw from to e -> held from to since (tr ++ [e]).
Proof.
  intros (before & e0 & after & -> & Hs & Hen & Ha) He. exists before, e0, (after ++ [e]). rewrite <- app_assoc. split; [done|]. split; [done|].
  split; [done|]. change (e0 :: after ++ [e]) with ((e0 :: after) ++ [e]). apply Forall_app. by split; [|apply Forall_singleton].
Qed.

Lemma held_new from to e tr : in_enabled (theIntrinsic (es_pre e)) = true -> saw from to e -> held from to (stamped (es_now e)) (tr ++ [e]).
Proof. intros Hen He. exists tr, e, []. split; [done|]. split; [done|]. split; [done|]. by apply Forall_singleton. Qed.

Lemma timeSub_ge t u d : timeSub t u >= d -> 0 <= d -> t - u >= d.
Proof. unfold timeSub. lia. Qed.

(** A condition that is pending after an evaluation is held by the trace. *)
Lemma held_next tr now p i since l : pt_intrinsic p = Some i -> event_state (pt_kind p) (pt_eventState p) -> pending_ok tr p ->
  in_enabled i = true -> currentReliability p = ReliabilityNoFaultDetected -> condition p i <> pt_eventState p ->
  (if decide (condition p i = in_pending i) then since = in_since i else since = stamped now) ->
  held (pt_eventState p) (condition p i) since (tr ++ [mkEval now p l]).
Proof.
  intros Hi Hes Hp Hen Hr Hc Hs. unfold pending_ok in Hp. rewrite Hi in Hp.
  assert (theIntrinsic (es_pre (mkEval now p l)) = i) as Hth by (unfold theIntrinsic; cbn; by rewrite Hi).
  assert (saw (pt_eventState p) (condition p i) (mkEval now p l)) as Hsaw by (unfold saw; rewrite Hth; done).
  destruct (decide (condition p i = in_pending i)) as [Ed|Ed].
  - destruct (condition_edge p i Hes Hc) as [_ Hnf]. destruct Hp as [Hp|[Hp|Hp]]; [congruence..|]. rewrite Hs, <- Ed in *. by apply held_snoc.
  - rewrite Hs. apply (held_new _ _ (mkEval now p l)); [by rewrite Hth|done].
Qed.

(** The pending condition after one more evaluation. *)
Lemma pending_eval tr id now ack p i evs ch p' : pt_intrinsic p = Some i -> event_state (pt_kind p) (pt_eventState p) -> pending_ok tr p ->
  evaluate id now ack p = (evs, ch, p') -> pending_ok (tr ++ [mkEval now p evs]) p'.
Proof.
  intros Hi Hes Hp He. destruct (evaluate_evaluated _ _ _ _ _ _ _ _ Hi He) as [Hev _].
  assert (forall to pending since l, in_enabled i = true -> nextEventState (stamped now) p i = (to, pending, since) ->
    pending = to \/ pending = EventStateFault \/ (held (pt_eventState p) pending since (tr ++ [mkEval now p l]) /\ (to = pending \/ to = pt_eventState p))) as Hn.
  { intros to pending since l Hen Hn.
    destruct (nextEventState_cases _ _ _ _ _ _ Hn) as [(_ & _ & H)|[(_ & _ & -> & ->)|[(_ & _ & _ & -> & ->)|(Hr & Hf & Hc & -> & Hs & Hto)]]];
      [by right; left|by left|by left|]. right. right. split; [by eapply held_next|]. destruct (_ >=? _) in Hto; auto. }
  destruct Hev as [Hdis|pending since Hen Hne|to pending since ev i' Hen Hne Hsame Ho Hfr Hto Htr Hts Hcl Hty Hcfg Hen' Hpe Hsi Hac Hst]; unfold pending_ok.
  - unfold pending_ok in Hp. rewrite Hi in *. destruct Hp as [Hp|[Hp|Hp]]; [by left|by right; left|]. right. right. apply held_snoc; [done|].
    intros H. unfold theIntrinsic in H. cbn in H. rewrite Hi in H. cbn in H. congruence.
  - cbn. destruct (Hn _ _ _ [] Hen Hne) as [H|[H|[H _]]]; [by left|by right; left|by right; right].
  - cbn. rewrite Hpe, Hsi. destruct (Hn _ _ _ [ev] Hen Hne) as [H|[H|[_ [H|H]]]]; [by left|by right; left|by left|].
    destruct (Hsame H) as [Hfault _]. destruct (nextEventState_cases _ _ _ _ _ _ Hne) as [(_ & _ & H')|[(_ & _ & Hx & _)|[(_ & Hx & _)|(_ & Hx & _)]]];
      [by right; left|by rewrite Hfault in Hx|congruence..].
Qed.

(** A report of a condition comes after the delay. *)
Lemma report_held tr id now ack p i evs ch p' ev : pt_intrinsic p = Some i -> event_state (pt_kind p) (pt_eventState p) -> pending_ok tr p ->
  evaluate id now ack p = (evs, ch, p') -> ev ∈ evs -> ev_From ev <> EventStateFault -> ev_To ev <> EventStateFault ->
  0 <= ec_TimeDelay (in_cfg i) ->
  exists since, held (ev_From ev) (ev_To ev) since (tr ++ [mkEval now p evs]) /\ stamped now - since >= ec_TimeDelay (in_cfg i) * second.
Proof.
  intros Hi Hes Hp He Hin H1 H2 Hd. destruct (evaluate_evaluated _ _ _ _ _ _ _ _ Hi He) as [Hev _].
  destruct Hev as [Hdis|pending since Hen Hn|to pending since ev' i' Hen Hn Hsame Ho Hfr Hto Htr Hts Hcl Hty Hcfg Hen' Hpe Hsi Hac Hst];
    [by apply elem_of_nil in Hin..|]. apply list_elem_of_singleton in Hin as ->. rewrite Hfr, Hto in *.
  destruct (nextEventState_cases _ _ _ _ _ _ Hn) as [(_ & -> & _)|[(_ & H & _)|[(_ & _ & _ & -> & _)|(Hr & Hf & Hc & Hpen & Hs & Hto')]]]; [done| | |].
  - done.
  - by destruct (Hsame eq_refl).
  - destruct (timeSub _ since >=? _) eqn:Et; [|by destruct (Hsame Hto')]. exists since. rewrite Hto'. split; [by eapply held_next|].
    bool_to_prop. apply timeSub_ge; [unfold stamped; lia|unfold second; lia].
Qed.

Lemma pending_quiet tr p p' : same_detection p p' -> pending_ok tr p -> pending_ok tr p'.
Proof.
  intros (He & _ & Hi). unfold pending_ok. destruct (pt_intrinsic p), (pt_intrinsic p'); try done. destruct Hi as [-> ->]. by rewrite He.
Qed.

Lemma run_ok t kind input cm cfg b0 tr b : config_typed kind cfg -> newPoint t kind input cm cfg = Ok b0 -> point_run b0 tr b ->
  (exists states, object_ok cm kind states b) /\ pending_ok tr (o_state (b_view b)).
Proof.
  intros Hcfg Hnew Hrun. destruct (newPoint_ok _ _ _ _ _ _ Hcfg Hnew) as (states & Hok & _).
  assert (object_ok cm kind states b) as Hb by (eapply object_ok_rtc; [done|by eapply point_run_rtc]). split; [by exists states|]. clear Hb.
  induction Hrun as [|tr b b' Hr IH Hs|tr b now ack evs cs b' Hr IH He].
  - destruct (newPoint_shape _ _ _ _ _ _ Hnew) as (? & ? & ? & _ & _ & _ & _ & _ & Hst & _). unfold pending_ok. rewrite Hst. cbn.
    destruct (pc_Events cfg); cbn; [by left|done].
  - assert (object_ok cm kind states b) as Hb by (eapply object_ok_rtc; [done|by eapply point_run_rtc]).
    eapply pending_quiet; [by eapply quiet_detection|done].
  - assert (object_ok cm kind states b) as Hb by (eapply object_ok_rtc; [done|by eapply point_run_rtc]).
    unfold EvaluateEvents in He. destruct (evaluate _ _ _ _) as [[evs' ch] s] eqn:E. injection He as <- _ <-. cbn.
    destruct (pt_intrinsic (o_state (b_view b))) as [i|] eqn:Ei.
    + eapply pending_eval; [exact Ei| |exact IH|exact E]. pose proof (ok_events _ _ (ob_point _ _ _ _ Hb)) as H. unfold events_ok in H. rewrite Ei in H. apply H.
    + unfold evaluate in E. rewrite Ei in E. injection E as <- <- <-. unfold pending_ok. by rewrite Ei.
Qed.

(** C9. The time delay is honoured: when an evaluation reports that a point
    went off-normal or returned to normal (no fault involved), then the
    condition for that transition was already seen by an evaluation at least
    Time_Delay seconds earlier, and every evaluation since then with event
    detection enabled saw it too, without a fault and in the same event
    state - whatever was written or set in between. (Evaluations while
    Event_Detection_Enable is FALSE see nothing, and do not restart the
    delay.) *)
Theorem time_delay_honoured t kind input cm cfg b0 tr b now ack evs cs b' ev : config_typed kind cfg ->
  newPoint t kind input cm cfg = Ok b0 -> point_run b0 tr b -> EvaluateEvents now ack b = (evs, cs, b') -> ev ∈ evs ->
  ev_From ev <> EventStateFault -> ev_To ev <> EventStateFault ->
  let delay := ec_TimeDelay (theConfig (o_state (b_view b))) in
  0 <= delay ->
  exists since, held (ev_From ev) (ev_To ev) since (tr ++ [mkEval now (o_state (b_view b)) evs]) /\ stamped now - since >= delay * second.
Proof.
  intros Hcfg Hnew Hrun He Hin H1 H2 delay Hd. destruct (run_ok _ _ _ _ _ _ _ _ Hcfg Hnew Hrun) as [[states Hb] Hp].
  unfold EvaluateEvents in He. destruct (evaluate _ _ _ _) as [[evs' ch] s] eqn:E. injection He as <- _ <-.
  destruct (pt_intrinsic (o_state (b_view b))) as [i|] eqn:Ei.
  - pose proof (ok_events _ _ (ob_point _ _ _ _ Hb)) as H. unfold events_ok in H. rewrite Ei in H. destruct H as [H _].
    assert (theConfig (o_state (b_view b)) = in_cfg i) as Hc by (unfold theConfig, theIntrinsic; by rewrite Ei).
    subst delay. rewrite Hc in *. eapply report_held; [exact Ei|exact H|exact Hp|exact E|done..].
  - unfold evaluate in E. rewrite Ei in E. injection E as <- _ _. by apply elem_of_nil in Hin.
Qed.

(** ** Transitions *)

(** C11. The event state machine: an evaluation of a point changes its event
    state only by reporting it. The report names the object, the old and the
    new state, and follows an [edge] of the state machine - in particular
    never from one limit straight to the other - and leads to FAULT exactly
    when there is a fault; it is stamped with the evaluation's time, which
    becomes the time stamp of that transition only, and marks the transition
    unacknowledged exactly when the Notification Class wants an
    acknowledgment. Without a report the event state, the time stamps and the
    acknowledged transitions stay as they are. *)
Theorem event_state_machine t kind input cm cfg b0 tr b now ack evs cs b' : config_typed kind cfg ->
  newPoint t kind input cm cfg = Ok b0 -> point_run b0 tr b -> EvaluateEvents now ack b = (evs, cs, b') ->
  let p := o_state (b_view b) in
  let p' := o_state (b_view b') in
  (evs = [] /\ cs = [] /\ pt_eventState p' = pt_eventState p /\ in_stamps (theIntrinsic p') = in_stamps (theIntrinsic p) /\
     in_acked (theIntrinsic p') = in_acked (theIntrinsic p)) \/
  (exists ev, evs = [ev] /\ ev_Object ev = o_id (b_view b) /\ ev_From ev = pt_eventState p /\ ev_To ev = pt_eventState p' /\
     edge kind (ev_From ev) (ev_To ev) /\
     (ev_To ev = EventStateFault <-> currentReliability p <> ReliabilityNoFaultDetected) /\
     ev_Transition ev = transitionOf (ev_To ev) /\ ev_TimeStamp ev = stamped now /\
     in_stamps (theIntrinsic p') = <[Z.to_nat (ev_Transition ev) := stamped now]> (in_stamps (theIntrinsic p)) /\
     (Z.land (in_acked (theIntrinsic p')) (Z.shiftl 1 (ev_Transition ev)) = 0 <->
        ack (ev_NotificationClass ev) (ev_Transition ev) = true \/ Z.land (in_acked (theIntrinsic p)) (Z.shiftl 1 (ev_Transition ev)) = 0)).
Proof.
  intros Hcfg Hnew Hrun He p p'. destruct (run_ok _ _ _ _ _ _ _ _ Hcfg Hnew Hrun) as [[states Hb] _].
  unfold EvaluateEvents in He. fold p in He. destruct (evaluate _ _ _ _) as [[evs' ch] s] eqn:E. injection He as <- <- <-.
  assert (p' = s) as Hs by done. clearbody p'. subst p'. pose proof (ok_events _ _ (ob_point _ _ _ _ Hb)) as Hev. unfold events_ok in Hev. fold p in Hev.
  destruct (pt_intrinsic p) as [i|] eqn:Ei.
  2:{ unfold evaluate in E. rewrite Ei in E. injection E as <- <- <-. by left. }
  destruct Hev as (Hes & Ha & Hl & _). assert (theIntrinsic p = i) as Hth by (unfold theIntrinsic; by rewrite Ei). rewrite Hth.
  assert (pt_kind p = kind) as Hk by apply (ob_kind _ _ _ _ Hb).
  destruct (evaluate_evaluated _ _ _ _ _ _ _ _ Ei E) as [Hev Hch]. unfold notifyChange.
  destruct Hev as [Hdis|pending since Hen Hn|to pending since ev i' Hen Hn Hsame Ho Hfr Hto Htr Hts Hcl Hty Hcfg' Hen' Hpe Hsi Hac Hst].
  - left. rewrite (proj1 Hch eq_refl), Hth. done.
  - left. rewrite (proj1 Hch eq_refl). done.
  - right. exists ev. unfold theIntrinsic. cbn. rewrite Hto, Hfr, Htr, Hts, Hcl, Hst, Hac. split_and!; try done.
    + destruct (nextEventState_cases _ _ _ _ _ _ Hn) as [(_ & -> & _)|[(_ & -> & -> & _)|[(_ & _ & _ & -> & _)|(_ & _ & Hc & _ & _ & Hto')]]].
      * apply edge_fault.
      * apply edge_recover.
      * by destruct (Hsame eq_refl) as [-> _]; apply edge_fault.
      * rewrite <- Hk. destruct (_ >=? _) in Hto'; [|by destruct (Hsame Hto') as [-> _]; apply edge_fault]. rewrite Hto'. by apply condition_edge.
    + destruct (nextEventState_cases _ _ _ _ _ _ Hn) as [(H & -> & _)|[(H & _ & -> & _)|[(H & Hx & _ & -> & _)|(H & Hx & Hc & _ & _ & Hto')]]]; [done|done|done|].
      split; [|done]. intros Hf. exfalso. destruct (_ >=? _) in Hto'; [|congruence]. destruct (condition_edge p i Hes Hc) as [_ Hnf]. congruence.
    + destruct (acked_bits (in_acked i) (transitionOf to) Ha (transitionOf_range to)) as (_ & _ & H0 & _).
      destruct (ack _ _); [by rewrite H0; split; [left|]|]. split; [by right|]. by intros [|].
Qed.

(** ** Liveness *)

(** An evaluation at which the condition [to] is there to be reported. *)
Definition due (from to delay : Z) (e : evalStep) : Prop :=
  let i := theIntrinsic (es_pre e) in
  pt_intrinsic (es_pre e) <> None /\ in_enabled i = true /\ currentReliability (es_pre e) = ReliabilityNoFaultDetected /\
  ec_TimeDelay (in_cfg i) <= delay /\ (pt_eventState (es_pre e) = from -> condition (es_pre e) i = to).

Definition reported (from to : Z) (e : evalStep) : Prop := exists ev, ev ∈ es_out e /\ ev_From ev = from /\ ev_To ev = to.

Definition waiting (from to t0 : Z) (p : pointState) : Prop :=
  pt_eventState p = from /\ match pt_intrinsic p with Some i => in_pending i = to /\ in_since i <= t0 | None => False end.

(** One evaluation: it reports the condition, or waits on - and then the
    delay is not over. *)
Lemma due_eval id now ack p evs ch p' from to delay : from <> to -> from <> EventStateFault -> pt_eventState p = from ->
  due from to delay (mkEval now p evs) -> evaluate id now ack p = (evs, ch, p') -> 0 <= delay < 2 ^ 32 ->
  in_since (theIntrinsic p) <= stamped now ->
  reported from to (mkEval now p evs) \/
  (waiting from to (stamped now) p' /\ 0 < delay * second /\
    forall t0, waiting from to t0 p -> waiting from to t0 p' /\ stamped now - t0 < delay * second).
Proof.
  intros Hne Hnf Hfrom (Hi & Hen & Hr & Hd & Hc) He Hb Hsince. cbn in *. specialize (Hc Hfrom).
  destruct (pt_intrinsic p) as [i|] eqn:Ei; [|done]. assert (theIntrinsic p = i) as Hth by (unfold theIntrinsic; by rewrite Ei). rewrite Hth in *.
  destruct (evaluate_evaluated _ _ _ _ _ _ _ _ Ei He) as [Hev _].
  assert (forall to' pending since, nextEventState (stamped now) p i = (to', pending, since) ->
    pending = to /\ (if decide (to = in_pending i) then since = in_since i else since = stamped now) /\
    to' = if timeSub (stamped now) since >=? ec_TimeDelay (in_cfg i) * second then to else from) as Hn.
  { intros to' pending since Hn.
    destruct (nextEventState_cases _ _ _ _ _ _ Hn) as [(H & _)|[(_ & H & _)|[(_ & _ & H & _)|(_ & _ & _ & -> & Hs & ->)]]]; [congruence..|].
    by rewrite Hc, Hfrom in *. }
  destruct Hev as [Hdis|pending since Hen' Hnx|to' pending since ev i' Hen1 Hnx Hsame Ho Hfr Hto Htr Hts Hcl Hty Hcfg' Hen' Hpe Hsi Hac Hst].
  - congruence.
  - right. destruct (Hn _ _ _ Hnx) as (-> & Hs & Hto). destruct (timeSub _ _ >=? _) eqn:Et; [congruence|]. bool_to_prop.
    assert (since <= stamped now) as Hle by (destruct (decide (to = in_pending i)); [rewrite Hs; done|lia]).
    split; [by split|]. unfold timeSub, second in *. split; [lia|]. intros t0 [_ Hw]. rewrite Ei in Hw. destruct Hw as [Hp H0].
    rewrite decide_True in Hs by done. split; [split; [done|]; cbn; split; [done|lia]|lia].
  - left. exists ev. split; [by apply list_elem_of_singleton|]. destruct (Hn _ _ _ Hnx) as (-> & Hs & Hto').
    rewrite Hfr, Hto. split; [done|]. destruct (timeSub _ _ >=? _) in Hto'; [done|]. rewrite <- Hfrom in Hto'. destruct (Hsame Hto'). congruence.
Qed.

(** The clock of the pending state is one of the evaluations'. *)
Lemma since_eval id now ack p evs ch p' : evaluate id now ack p = (evs, ch, p') ->
  in_since (theIntrinsic p') = in_since (theIntrinsic p) \/ in_since (theIntrinsic p') = stamped now.
Proof.
  intros He. destruct (pt_intrinsic p) as [i|] eqn:Ei.
  2:{ unfold evaluate in He. rewrite Ei in He. injection He as _ _ <-. by left. }
  assert (forall to pending since, nextEventState (stamped now) p i = (to, pending, since) -> since = in_since i \/ since = stamped now) as Hn.
  { unfold nextEventState. cbv zeta. intros to pending since. destruct (negb _); [intros [= _ _ <-]; by left|].
    destruct (_ =? EventStateFault); [intros [= _ _ <-]; by left|]. destruct (_ =? pt_eventState p); [intros [= _ _ <-]; by left|].
    destruct (negb _); intros [= _ _ <-]; auto. }
  unfold theIntrinsic. rewrite Ei. cbn.
  destruct (evaluate_evaluated _ _ _ _ _ _ _ _ Ei He) as [[Hdis|pending since _ H|to' pending since ev i' _ H Hsame Ho Hfr Hto Htr Hts Hcl Hty Hcfg' Hen' Hpe Hsi Hac Hst] _].
  - rewrite Ei. by left.
  - cbn. by eapply Hn.
  - cbn. rewrite Hsi. by eapply Hn.
Qed.

Lemma quiet_since cm kind states b b' : object_ok cm kind states b -> quiet_step b b' ->
  in_since (theIntrinsic (o_state (b_view b'))) = in_since (theIntrinsic (o_state (b_view b))).
Proof.
  intros Hb Hs. destruct (quiet_detection _ _ _ _ _ Hb Hs) as (_ & _ & Hi). unfold theIntrinsic.
  destruct (pt_intrinsic (o_state (b_view b))), (pt_intrinsic (o_state (b_view b'))); cbn; [by destruct Hi|done..].
Qed.

Lemma run_object_ok cm kind states b0 tr b : object_ok cm kind states b0 -> point_run b0 tr b -> object_ok cm kind states b.
Proof. intros H Hr. eapply object_ok_rtc; [exact H|by eapply point_run_rtc]. Qed.

(** A step of a run that evaluates. *)
Lemma EvaluateEvents_evaluate now ack (b : Base pointState) evs cs b' : EvaluateEvents now ack b = (evs, cs, b') ->
  exists ch, evaluate (o_id (b_view b)) now ack (o_state (b_view b)) = (evs, ch, o_state (b_view b')).
Proof. unfold EvaluateEvents. destruct (evaluate _ _ _ _) as [[e ch] s]. intros [= <- <- <-]. by exists ch. Qed.

Lemma since_run cm kind states b0 tr b t : object_ok cm kind states b0 -> point_run b0 tr b ->
  in_since (theIntrinsic (o_state (b_view b0))) <= t -> Forall (fun e => stamped (es_now e) <= t) tr ->
  in_since (theIntrinsic (o_state (b_view b))) <= t.
Proof.
  intros H0 Hr Hs. induction Hr as [|tr b b' Hr IH Hq|tr b now ack evs cs b' Hr IH He]; intros Hf; [done| |].
  - rewrite (quiet_since _ _ _ _ _ (run_object_ok _ _ _ _ _ _ H0 Hr) Hq). by apply IH.
  - apply Forall_app in Hf as [Hf Hn]. rewrite Forall_singleton in Hn. specialize (IH Hf).
    destruct (EvaluateEvents_evaluate _ _ _ _ _ _ He) as [ch E]. destruct (since_eval _ _ _ _ _ _ _ E) as [->| ->]; [exact IH|exact Hn].
Qed.

(** A run whose evaluations are due and report nothing yet is still within
    the delay. *)
Lemma due_run cm kind states b1 tr b from to delay : object_ok cm kind states b1 -> point_run b1 tr b ->
  from <> to -> from <> EventStateFault -> 0 <= delay < 2 ^ 32 -> pt_eventState (o_state (b_view b1)) = from ->
  Forall (due from to delay) tr -> StronglySorted Z.le (in_since (theIntrinsic (o_state (b_view b1))) :: map (fun e => stamped (es_now e)) tr) ->
  Exists (reported from to) tr \/
  (pt_eventState (o_state (b_view b)) = from /\ forall e0 rest, tr = e0 :: rest ->
     waiting from to (stamped (es_now e0)) (o_state (b_view b)) /\
     Forall (fun e => stamped (es_now e) - stamped (es_now e0) < delay * second) tr).
Proof.
  intros H0 Hr Hne Hnf Hd Hfrom. induction Hr as [|tr b b' Hr IH Hq|tr b now ack evs cs b' Hr IH He]; intros Hdue Hsort.
  - right. split; [done|]. by intros.
  - destruct (IH Hdue Hsort) as [?|[He Hw]]; [by left|right]. destruct (quiet_detection _ _ _ _ _ (run_object_ok _ _ _ _ _ _ H0 Hr) Hq) as (Hs & _ & Hi).
    split; [by rewrite Hs|]. intros e0 rest Etr. destruct (Hw e0 rest Etr) as [[W1 W2] W3]. split; [|done]. split; [by rewrite Hs|].
    destruct (pt_intrinsic (o_state (b_view b))), (pt_intrinsic (o_state (b_view b'))); try done. destruct Hi as [-> ->]. done.
  - apply Forall_app in Hdue as [Hdue Hnow]. rewrite Forall_singleton in Hnow. rewrite map_app, app_comm_cons in Hsort.
    apply StronglySorted_app in Hsort as (Hlt & Hsort & _).
    destruct (IH Hdue Hsort) as [?|[Hes Hw]]; [left; apply Exists_app; by left|].
    assert (in_since (theIntrinsic (o_state (b_view b))) <= stamped now) as Hsince.
    { eapply since_run; [done|done| |].
      - apply (Hlt _ (stamped now)); [by left|by left].
      - apply Forall_forall. intros e Hin. apply (Hlt _ (stamped now)); [right; by apply (list_elem_of_fmap_2 (fun e => stamped (es_now e)))|by left]. }
    destruct (EvaluateEvents_evaluate _ _ _ _ _ _ He) as [ch E].
    destruct (due_eval _ _ _ _ _ _ _ _ _ _ Hne Hnf Hes Hnow E Hd Hsince) as [Hrep|(W1 & W2 & W3)]; [left; apply Exists_app; right; by left|right].
    split; [apply W1|]. intros e0 rest Etr. destruct tr as [|e tr].
    + injection Etr as <- <-. split; [done|]. apply Forall_singleton. cbn. lia.
    + injection Etr as <- _. destruct (Hw e tr eq_refl) as [V1 V2]. destruct (W3 _ V1) as [W4 W5]. split; [done|]. apply Forall_app. split; [done|]. by apply Forall_singleton.
Qed.

(** C10. A standing condition is reported (liveness): take any stretch [tr] of
    the life of a point, in state [from], whose evaluations all find event
    detection enabled, no fault and, as long as the event state is [from],
    the condition for [to] met; writes and acknowledgments may come between
    them. If the clock does not go back and the evaluations of the stretch
    span the time delay, then one of them reports the transition. *)
Theorem standing_condition_reported t kind input cm cfg b0 tr0 b1 tr b2 from to delay first last : config_typed kind cfg ->
  newPoint t kind input cm cfg = Ok b0 -> point_run b0 tr0 b1 -> point_run b1 tr b2 ->
  from <> to -> from <> EventStateFault -> 0 <= delay < 2 ^ 32 ->
  pt_eventState (o_state (b_view b1)) = from -> Forall (due from to delay) tr ->
  StronglySorted Z.le (0 :: map (fun e => stamped (es_now e)) (tr0 ++ tr)) ->
  head tr = Some first -> last ∈ tr -> stamped (es_now last) - stamped (es_now first) >= delay * second ->
  Exists (reported from to) tr.
Proof.
  intros Hcfg Hnew Hr0 Hr1 Hne Hnf Hd Hfrom Hdue Hsort Hf Hl Hspan. destruct (newPoint_ok _ _ _ _ _ _ Hcfg Hnew) as (states & Hok & _).
  destruct (newPoint_shape _ _ _ _ _ _ Hnew) as (? & ? & ? & _ & _ & _ & _ & _ & Hst & _).
  assert (in_since (theIntrinsic (o_state (b_view b0))) = 0) as Hz by (rewrite Hst; unfold theIntrinsic; by destruct (pc_Events cfg)).
  rewrite map_app, app_comm_cons in Hsort. apply StronglySorted_app in Hsort as (Hlt & _ & Hsort).
  assert (StronglySorted Z.le (in_since (theIntrinsic (o_state (b_view b1))) :: map (fun e => stamped (es_now e)) tr)) as Hs1.
  { constructor; [done|]. apply Forall_forall. intros u Hu. eapply since_run; [exact Hok|exact Hr0| |].
    - rewrite Hz. apply (Hlt 0 u); [by left|done].
    - apply Forall_forall. intros e He. apply (Hlt _ u); [right; by apply (list_elem_of_fmap_2 (fun e => stamped (es_now e)))|done]. }
  destruct (due_run _ _ _ _ _ _ _ _ _ (run_object_ok _ _ _ _ _ _ Hok Hr0) Hr1 Hne Hnf Hd Hfrom Hdue Hs1) as [?|[_ Hw]]; [done|exfalso].
  destruct tr as [|e tr]; [done|]. injection Hf as ->. destruct (Hw _ _ eq_refl) as [_ Hall]. rewrite Forall_forall in Hall. specialize (Hall _ Hl). lia.
Qed.
End Runs.

(** ** Acknowledgment *)

(** An instant that the local calendar represents: its fields are in range,
    the year fits a BACnet date, and they name this instant (not one repeated
    when the clocks go back). *)
Definition representable {LT : LocalTime} (t : Z) : Prop :=
  let c := civil t in
  1900 <= c_Year c < 2155 /\ 1 <= c_Month c <= 12 /\ 1 <= c_Day c <= 31 /\ 0 <= c_Hour c < 24 /\ 0 <= c_Minute c < 60 /\
  0 <= c_Second c < 60 /\ c_Nanosecond c = t mod second /\
  Date_ (mkCivil (c_Year c) (c_Month c) (c_Day c) 0 (c_Hour c) (c_Minute c) (c_Second c) (c_Nanosecond c)) = t.

Section Acknowledgment.
Context {LT : LocalTime}.

Lemma dateTimeToTime_of t : representable t -> t mod 10 ^ 7 = 0 -> dateTimeToTime (dateOf t) (timeOf t) = t.
Proof.
  unfold representable. cbv zeta. intros (Hy & Hm & Hd & Hh & Hmi & Hs & Hn & Ht) H0.
  unfold dateTimeToTime, dateOf, timeOf. cbv zeta. cbn [d_Year d_Month d_Day t_Hour t_Minute t_Second t_Hundredths].
  assert (0 <= c_Nanosecond (civil t) < 10 ^ 9) as Hb by (rewrite Hn; apply Z.mod_pos_bound; done).
  assert (c_Nanosecond (civil t) mod 10 ^ 7 = 0) as Hz by (rewrite Hn; unfold second; rewrite Z.mod_mod_divide; [done|by exists 100]).
  assert (0 <= c_Nanosecond (civil t) / 10 ^ 7 < 100) as Hc by (split; [apply Z.div_pos; lia|apply Z.div_lt_upper_bound; lia]).
  unfold u8. rewrite !Z.mod_small by lia.
  repeat match goal with |- context [?a =? 255] => rewrite (proj2 (Z.eqb_neq a 255)) by lia end.
  replace (c_Month (civil t) >? 12) with false by lia. replace (c_Day (civil t) >? 31) with false by lia. cbn [orb].
  replace (c_Year (civil t) - 1900 + 1900) with (c_Year (civil t)) by lia.
  replace (c_Nanosecond (civil t) / 10 ^ 7 * 10 ^ 7) with (c_Nanosecond (civil t)) by (pose proof (Z.div_mod (c_Nanosecond (civil t)) (10 ^ 7)); lia).
  done.
Qed.

Lemma Truncate_mod t d : 0 < d -> Truncate t d mod d = 0.
Proof. intros Hd. unfold Truncate. rewrite Zminus_mod, Z.mod_mod, Z.sub_diag by lia. by apply Z.mod_0_l; lia. Qed.

Lemma acked_set a tr : 0 <= a < 8 -> 0 <= tr < 3 -> Z.land a (Z.shiftl 1 tr) <> 0 -> Z.lor a (Z.shiftl 1 tr) = a.
Proof.
  intros Ha Ht Hn. pose (f a tr := (Z.land a (Z.shiftl 1 tr) =? 0) || (Z.lor a (Z.shiftl 1 tr) =? a)).
  assert (f a tr = true) as H.
  { apply (forall_range (fun a => f a tr) 8); [|done]. apply (forall_range (fun tr => forallb (fun a => f a tr) (seqZ 0 8)) 3); [|done].
    by vm_compute. }
  unfold f in H. apply orb_true_iff in H as [H|H]; apply Z.eqb_eq in H; done.
Qed.

(** The acknowledgment of a transition in the current event state. *)
Lemma acknowledge_current id p i d tm at_ : pt_intrinsic p = Some i -> pt_eventState p <= EventStateLowLimit -> 0 <= in_acked i < 8 ->
  in_stamps i !! Z.to_nat (transitionOf (pt_eventState p)) = Some at_ ->
  let tr := transitionOf (pt_eventState p) in
  let unacked := Z.land (in_acked i) (Z.shiftl 1 tr) = 0 in
  (at_ <= dateTimeToTime d tm -> exists ev p', acknowledge id (pt_eventState p) (TimeStampDateTime d tm) p = Ok (ev, [PropertyAckedTransitions], p') /\
     ev_Object ev = id /\ ev_To ev = pt_eventState p /\ ev_Transition ev = tr /\ ev_TimeStamp ev = at_ /\ ev_NotifyType ev = NotifyAckNotification /\
     pt_eventState p' = pt_eventState p /\ in_acked (theIntrinsic p') = Z.lor (in_acked i) (Z.shiftl 1 tr)) /\
  (unacked -> dateTimeToTime d tm < at_ -> acknowledge id (pt_eventState p) (TimeStampDateTime d tm) p = Err ErrInvalidTimeStamp).
Proof.
  intros Hi He Ha Hat tr unacked. unfold acknowledge. rewrite Hi. replace (pt_eventState p >? EventStateLowLimit) with false by lia. cbv zeta. fold tr.
  fold tr in Hat. assert (index (in_stamps i) tr = Ok at_) as Hix.
  { unfold index. pose proof (transitionOf_range (pt_eventState p)). fold tr in H. by rewrite (proj2 (Z.ltb_ge _ _)), Hat by lia. }
  unfold unacked. destruct (Z.eqb_spec (Z.land (in_acked i) (Z.shiftl 1 tr)) 0) as [E|E].
  - rewrite Hix. cbn [bind]. split.
    + intros Hle. replace (at_ >? dateTimeToTime d tm) with false by lia. cbn [bind in_stamps]. rewrite Hix. cbn [bind]. do 2 eexists. split; [reflexivity|done].
    + intros _ Hlt. by replace (at_ >? dateTimeToTime d tm) with true by lia.
  - split; [|done]. intros _. rewrite Z.eqb_refl. cbn [negb bind]. rewrite Hix. cbn [bind]. do 2 eexists. split; [reflexivity|]. split_and!; try done.
    cbn. pose proof (acked_set (in_acked i) tr Ha (transitionOf_range _) E). congruence.
Qed.

(** The state after a report. *)
Lemma reported_state cm kind states b now ack evs cs b' ev : object_ok cm kind states b ->
  EvaluateEvents now ack b = (evs, cs, b') -> ev ∈ evs ->
  exists i, pt_intrinsic (o_state (b_view b')) = Some i /\ ev_Object ev = o_id (b_view b') /\ ev_To ev = pt_eventState (o_state (b_view b')) /\
    ev_Transition ev = transitionOf (ev_To ev) /\ ev_TimeStamp ev = stamped now /\
    event_state kind (ev_To ev) /\ 0 <= in_acked i < 8 /\ in_stamps i !! Z.to_nat (ev_Transition ev) = Some (ev_TimeStamp ev) /\
    (ack (ev_NotificationClass ev) (ev_Transition ev) = true -> Z.land (in_acked i) (Z.shiftl 1 (ev_Transition ev)) = 0).
Proof.
  intros Hb He Hin. pose proof (ok_events _ _ (ob_point _ _ _ _ (run_object_ok _ _ _ _ _ _ Hb (pr_eval _ _ _ _ _ _ _ _ (pr_start b) He)))) as Hok'.
  pose proof (ok_events _ _ (ob_point _ _ _ _ Hb)) as Hok. pose proof (ob_kind _ _ _ _ Hb) as Hk. unfold EvaluateEvents in He.
  destruct (evaluate _ _ _ _) as [[evs' ch] s] eqn:E. injection He as <- _ <-. cbn [putState b_view o_state o_id] in *.
  destruct (pt_intrinsic (o_state (b_view b))) as [i|] eqn:Ei.
  2:{ unfold evaluate in E. rewrite Ei in E. injection E as <- _ _. by apply elem_of_nil in Hin. }
  destruct (evaluate_evaluated _ _ _ _ _ _ _ _ Ei E) as [Hev _].
  destruct Hev as [|pending since Hen Hn|to pending since ev' i' Hen Hn Hsame Ho Hfr Hto Htr Hts Hcl Hty Hcfg' Hen' Hpe Hsi Hac Hst];
    [by apply elem_of_nil in Hin..|]. apply list_elem_of_singleton in Hin as ->.
  unfold events_ok in *. rewrite Ei in Hok. cbn in Hok'. destruct Hok as (_ & Ha & Hl & _), Hok' as (Hes & Ha' & _).
  destruct Ha' as [Ha1 Ha2]. exists i'. cbn. rewrite Hto, Htr, Hcl, Hts. rewrite Hk in Hes. split_and!; try done.
  - rewrite Hst. apply list_lookup_insert_eq. rewrite Hl. pose proof (transitionOf_range to). lia.
  - intros Hack. rewrite Hac, Hack. apply (acked_bits (in_acked i) (transitionOf to) Ha (transitionOf_range to)).
Qed.

(** What event detection reported can be acknowledged. *)
Lemma acknowledge_reported cm kind states b now ack evs cs b' ev : object_ok cm kind states b ->
  EvaluateEvents now ack b = (evs, cs, b') -> ev ∈ evs -> representable (ev_TimeStamp ev) ->
  let p := o_state (b_view b') in
  let bit := Z.shiftl 1 (ev_Transition ev) in
  (exists a p', acknowledge (o_id (b_view b')) (ev_To ev) (TimeStampDateTime (dateOf (ev_TimeStamp ev)) (timeOf (ev_TimeStamp ev))) p =
       Ok (a, [PropertyAckedTransitions], p') /\
     ev_Object a = ev_Object ev /\ ev_NotifyType a = NotifyAckNotification /\ ev_To a = ev_To ev /\ ev_TimeStamp a = ev_TimeStamp ev /\
     in_acked (theIntrinsic p') = Z.lor (in_acked (theIntrinsic p)) bit /\ Z.land (in_acked (theIntrinsic p')) bit <> 0) /\
  (forall d tm, ack (ev_NotificationClass ev) (ev_Transition ev) = true -> dateTimeToTime d tm < ev_TimeStamp ev ->
     acknowledge (o_id (b_view b')) (ev_To ev) (TimeStampDateTime d tm) p = Err ErrInvalidTimeStamp).
Proof.
  intros Hb He Hin Hrep p bit. subst p.
  destruct (reported_state _ _ _ _ _ _ _ _ _ _ Hb He Hin) as (i & Hi & Ho & Hto & Htr & Hts & Hes & Ha & Hst & Hcl).
  assert (ev_To ev <= EventStateLowLimit) as Hle.
  { unfold event_state, EventStateNormal, EventStateFault, EventStateHighLimit, EventStateLowLimit, EventStateOffnormal in *. destruct kind; lia. }
  assert (forall d tm, _) as Hack by (intros d' tm'; exact (acknowledge_current (o_id (b_view b')) (o_state (b_view b')) i d' tm' (ev_TimeStamp ev)
    Hi ltac:(by rewrite <- Hto) Ha ltac:(by rewrite <- Hto, <- Htr))).
  rewrite <- Hto, <- Htr in Hack. fold bit in Hack, Hcl. split.
  - destruct (Hack (dateOf (ev_TimeStamp ev)) (timeOf (ev_TimeStamp ev))) as [Hok _].
    rewrite dateTimeToTime_of in Hok by (done || (rewrite Hts; by apply Truncate_mod)).
    destruct Hok as (a & p' & E & H1 & H2 & H3 & H4 & H5 & H6 & H7); [lia|]. exists a, p'.
    rewrite H7, H1, H2, H4, H5. split_and!; try done; [unfold theIntrinsic; by rewrite Hi|].
    unfold bit. rewrite Htr. apply (acked_bits (in_acked i) (transitionOf (ev_To ev)) Ha (transitionOf_range _)).
  - intros d tm Hk Hlt. destruct (Hack d tm) as [_ Hbad]. rewrite Hbad; [done| |done]. by apply Hcl.
Qed.

(** Reports can be acknowledged: the operator who acknowledges the
    transition an evaluation just reported, with the time stamp of the report
    as it is encoded on the wire, is answered with the acknowledgment
    notification of that transition; it is marked acknowledged, the other
    transitions are left alone. When the Notification Class wants the
    acknowledgment, an older time stamp is refused. *)
Theorem report_acknowledgeable t kind input cm cfg b0 tr b now ack evs cs b' ev d tm : config_typed kind cfg ->
  newPoint t kind input cm cfg = Ok b0 -> point_run b0 tr b -> EvaluateEvents now ack b = (evs, cs, b') -> ev ∈ evs ->
  representable (ev_TimeStamp ev) ->
  let stamp := TimeStampDateTime (dateOf (ev_TimeStamp ev)) (timeOf (ev_TimeStamp ev)) in
  let bit := Z.shiftl 1 (ev_Transition ev) in
  (exists a cs' b'', AcknowledgeAlarm (ev_To ev) stamp b' = Ok (a, cs', b'') /\
     ev_Object a = ev_Object ev /\ ev_NotifyType a = NotifyAckNotification /\ ev_To a = ev_To ev /\ ev_TimeStamp a = ev_TimeStamp ev /\
     in_acked (theIntrinsic (o_state (b_view b''))) = Z.lor (in_acked (theIntrinsic (o_state (b_view b')))) bit /\
     Z.land (in_acked (theIntrinsic (o_state (b_view b'')))) bit <> 0) /\
  (ack (ev_NotificationClass ev) (ev_Transition ev) = true -> dateTimeToTime d tm < ev_TimeStamp ev ->
     AcknowledgeAlarm (ev_To ev) (TimeStampDateTime d tm) b' = Err ErrInvalidTimeStamp).
Proof.
  intros Hcfg Hnew Hrun He Hin Hrep stamp bit. destruct (run_ok _ _ _ _ _ _ _ _ Hcfg Hnew Hrun) as [[states Hb] _].
  destruct (acknowledge_reported _ _ _ _ _ _ _ _ _ _ Hb He Hin Hrep) as [(a & p' & E & H1 & H2 & H3 & H4 & H5 & H6) Hold]. unfold AcknowledgeAlarm. split.
  - unfold stamp. rewrite E. cbn [bind]. do 3 eexists. split; [reflexivity|]. by split_and!.
  - intros Hk Hlt. by rewrite (Hold d tm Hk Hlt).
Qed.
End Acknowledgment.
