(* ===== verification/PointWitnesses.v ===== *)
(** * Points at concrete inputs

    One analog input with a high limit of 100.0 and a time delay of two
    seconds, one commandable binary output, and a calendar that knows one day:
    the theorems of [PointSafety.v] and [EventDetection.v] applied to them. *)

From Stdlib Require Import ZArith Lia Sorted.
From stdpp Require Import base list gmap relations sorting.
From S2P Require Import Prelude Value Ids Float32 Tags Constructed Access Object Commandable Events Point PointSafety EventDetection.

(** A calendar for the day that starts at Go's time 0, called 1 January 2000. *)
#[export] Instance oneDay : LocalTime := {|
  civil t := let s := t / second in mkCivil 2000 1 1 6 (s / 3600) (s / 60 mod 60) (s mod 60) (t mod second);
  Date_ c := ((c_Hour c * 60 + c_Minute c) * 60 + c_Second c) * second + c_Nanosecond c
|}.

Definition okOr {A} (d : A) (r : result A) : A := match r with Ok a => a | Err _ => d end.

Lemma okOr_Ok {A} (d : A) r : isOk r = true -> r = Ok (okOr d r).
Proof. by destruct r. Qed.

(** 100.0, 50.0, 1.0 and 150.0 *)
Definition limits : EventConfig := mkEventConfig 1 7 NotifyAlarm 2 0x42C80000 0 0x3F800000 3 0 [] [].
Definition room : PointConfig := mkPointConfig 1 [82] [] false 62 0x42480000 0 false 0 [] [] 0 0 None (Some limits).
Definition room0 : Base pointState := okOr (NewBase (mkObjectID 0 0) [] (mkPoint kindAnalog true NullValue None false 0 0 0 0 None)) (NewAnalogInput room).
Definition room1 : Base pointState := snd (okOr ([], room0) (SetPresentValue (RealValue 0x43160000) room0)).
Definition ackAll (class transition : Z) : bool := true.
Definition at100 := EvaluateEvents (100 * second) ackAll room1.
Definition at103 := EvaluateEvents (103 * second) ackAll (snd at100).

Definition trace100 : list evalStep := [mkEval (100 * second) (o_state (b_view room1)) (fst (fst at100))].
Definition trace103 : list evalStep := trace100 ++ [mkEval (103 * second) (o_state (b_view (snd at100))) (fst (fst at103))].

Lemma room_typed : config_typed kindAnalog room.
Proof. unfold config_typed, is_u. cbn. repeat split; try lia. Qed.
Lemma room_new : NewAnalogInput room = Ok room0.
Proof. apply okOr_Ok. by vm_compute. Qed.
Lemma room_warms : quiet_step room0 room1.
Proof.
  apply (step_set _ (RealValue 0x43160000) (fst (okOr ([], room0) (SetPresentValue (RealValue 0x43160000) room0)))).
  rewrite <- surjective_pairing. apply okOr_Ok. by vm_compute.
Qed.

Lemma room_run1 : point_run room1 [] room1.
Proof. apply pr_start. Qed.
Lemma room_run b : quiet_step room0 b -> point_run room0 [] b.
Proof. intros H. eapply pr_quiet; [apply pr_start|exact H]. Qed.
Lemma room_run100 b0 : point_run b0 [] room1 -> point_run b0 trace100 (snd at100).
Proof. intros H. apply (pr_eval b0 [] room1 _ ackAll _  (snd (fst at100)) _ H). unfold at100. by destruct (EvaluateEvents _ _ _) as [[]]. Qed.
Lemma room_run103 b0 : point_run b0 [] room1 -> point_run b0 trace103 (snd at103).
Proof.
  intros H. apply (pr_eval b0 trace100 (snd at100) _ ackAll _ (snd (fst at103)) _ (room_run100 b0 H)). unfold at103.
  by destruct (EvaluateEvents _ _ _) as [[]].
Qed.

Lemma room_report : exists ev, fst (fst at103) = [ev] /\ ev_From ev = EventStateNormal /\ ev_To ev = EventStateHighLimit /\
  ev_TimeStamp ev = 103 * second.
Proof. eexists. split; [vm_compute; reflexivity|]. split_and!; reflexivity. Qed.
Lemma room_at103 : EvaluateEvents (103 * second) ackAll (snd at100) = (fst (fst at103), snd (fst at103), snd at103).
Proof. unfold at103. by destruct (EvaluateEvents _ _ _) as [[]]. Qed.

Lemma time_delay_honoured_witness : exists ev since, ev_To ev = EventStateHighLimit /\
  held (ev_From ev) (ev_To ev) since trace103 /\ stamped (103 * second) - since >= 2 * second.
Proof.
  destruct room_report as (ev & Hevs & Hfrom & Hto & _).
  destruct (time_delay_honoured _ _ _ _ _ _ _ _ _ _ _ _ _ ev room_typed room_new (room_run100 _ (room_run _ room_warms)) room_at103) as (since & Hh & Hs).
  - rewrite Hevs. by left.
  - by rewrite Hfrom.
  - by rewrite Hto.
  - by vm_compute.
  - exists ev, since. split; [exact Hto|]. split; [exact Hh|exact Hs].
Defined.

Lemma event_state_machine_witness : pt_eventState (o_state (b_view (snd at103))) = EventStateHighLimit /\
  exists ev, fst (fst at103) = [ev] /\ edge kindAnalog (ev_From ev) (ev_To ev).
Proof.
  split; [by vm_compute|].
  destruct (event_state_machine _ _ _ _ _ _ _ _ _ _ _ _ _ room_typed room_new (room_run100 _ (room_run _ room_warms)) room_at103)
    as [(H & _)|(ev & H & _ & _ & _ & He & _)].
  - destruct room_report as (ev & Hevs & _). congruence.
  - exists ev. split; [exact H|exact He].
Defined.

Lemma standing_condition_reported_witness : Exists (reported EventStateNormal EventStateHighLimit) trace103.
Proof.
  apply (standing_condition_reported _ _ _ _ _ _ [] room1 trace103 (snd at103) _ _ 2
    (mkEval (100 * second) (o_state (b_view room1)) (fst (fst at100)))
    (mkEval (103 * second) (o_state (b_view (snd at100))) (fst (fst at103))) room_typed room_new (room_run _ room_warms)).
  - apply room_run103, pr_start.
  - done.
  - done.
  - done.
  - by vm_compute.
  - repeat constructor; vm_compute; congruence.
  - change (StronglySorted Z.le [0; stamped (100 * second); stamped (103 * second)]). repeat constructor; vm_compute; congruence.
  - done.
  - right. by left.
  - by vm_compute.
Defined.

Lemma report_acknowledgeable_witness : exists ev a cs b, fst (fst at103) = [ev] /\
  AcknowledgeAlarm EventStateHighLimit (TimeStampDateTime (dateOf (103 * second)) (timeOf (103 * second))) (snd at103) = Ok (a, cs, b) /\
  ev_NotifyType a = NotifyAckNotification /\
  AcknowledgeAlarm EventStateHighLimit (TimeStampDateTime (dateOf 0) (timeOf 0)) (snd at103) = Err ErrInvalidTimeStamp.
Proof.
  destruct room_report as (ev & Hevs & Hfrom & Hto & Hts).
  destruct (report_acknowledgeable _ _ _ _ _ _ _ _ _ _ _ _ _ ev (dateOf 0) (timeOf 0) room_typed room_new (room_run100 _ (room_run _ room_warms)) room_at103)
    as [(a & cs & b & Ha & _ & Hn & _) Hold].
  - rewrite Hevs. by left.
  - rewrite Hts. vm_compute. intuition congruence.
  - rewrite Hto, Hts in *. exists ev, a, cs, b. split; [exact Hevs|]. split; [exact Ha|]. split; [exact Hn|]. apply Hold; [done|by vm_compute].
Defined.

Lemma point_values_in_family_witness : exists v, ReadProperty room1 (wholeRef PropertyPresentValue) = Ok v /\ in_family kindAnalog 0 v.
Proof.
  apply (point_values_in_family _ _ _ _ _ _ room1 room_typed room_new). apply rtc_once, step_quiet, room_warms.
Defined.

(** A commandable binary output, commanded on at priority 8, off at 5, and
    released at 5. *)
Definition fan : PointConfig := mkPointConfig 2 [70] [] true 0 0 0 false 0 [] [] 0 0 None None.
Definition fan0 : Base pointState := okOr room0 (NewBinaryOutput fan).
Lemma fan_new : NewBinaryOutput fan = Ok fan0.
Proof. apply okOr_Ok. by vm_compute. Qed.
Definition commandAt (v : ApplicationValue) (priority : Z) : Write := mkWrite (wholeRef PropertyPresentValue) v priority.
Definition commands : list Write := [commandAt (EnumValue 1) 8; commandAt (EnumValue 0) 5; commandAt (EnumValue 2) 3; commandAt NullValue 5].

Lemma commandable_point_refines_witness : ReadProperty (write_run commands fan0) (wholeRef PropertyPresentValue) = Ok (EnumValue 1).
Proof.
  destruct (commandable_point_refines _ _ _ _ _ commands fan_new) as (initial & inc & states & Hi & H & _).
  - repeat constructor; done.
  - vm_compute in Hi. injection Hi as <- _ _. rewrite H. by vm_compute.
Defined.
