(* ===== verification/Device.v ===== *)
(** * The Device object and its object table: [server/object/device.go]

    A [Device] is a [Base] whose state is the table: the objects of the
    device under their identifiers, their names, the revision of the table,
    the factories of CreateObject and what the server provides ([Runtime]).
    In the code the table holds pointers, and the Device itself is one of its
    objects: an [entry] is the Device or an object of any type with
    [ObjectOps]. *)

From Stdlib Require Import ZArith Lia Ascii String.
From stdpp Require Import base list gmap fin_sets fin_maps sorting strings.
From S2P Require Import Prelude Value Ids Access Object Events.
#[local] Open Scope list_scope.
#[local] Open Scope Z_scope.

#[global] Instance ObjectIdentifier_countable : Countable ObjectIdentifier.
Proof.
  apply (inj_countable' (fun id => (oid_Type id, oid_Instance id)) (fun p => mkObjectID (fst p) (snd p))). by intros [].
Defined.

Definition ProtocolVersion : Z := 1.
Definition DefaultProtocolRevision : Z := 31.
Definition servicesSupportedBits : Z := 50.
Definition objectTypesSupportedBits : Z := 65.

(** ** Names: [ObjectType.String] and [itoa] *)

(** The octets of a Go string literal. *)
Definition octets (s : string) : bytes := map (fun c => Z.of_nat (nat_of_ascii c)) (list_ascii_of_string s).

(** [itoa]: the digits before [acc]; a uint32 has at most ten. *)
Fixpoint itoaLoop (fuel : nat) (u : Z) (acc : bytes) : bytes :=
  match fuel with
  | O => acc
  | S fuel => if u >? 0 then itoaLoop fuel (u / 10) (48 + u mod 10 :: acc) else acc
  end.
Definition itoa (u : Z) : bytes := if u =? 0 then [48] else itoaLoop 10 u [].

Definition objectTypeNames : list (Z * string) :=
  [(ObjectTypeAnalogInput, "analog-input"); (ObjectTypeAnalogOutput, "analog-output"); (ObjectTypeAnalogValue, "analog-value");
   (ObjectTypeBinaryInput, "binary-input"); (ObjectTypeBinaryOutput, "binary-output"); (ObjectTypeBinaryValue, "binary-value");
   (ObjectTypeCalendar, "calendar"); (ObjectTypeCommand, "command"); (ObjectTypeDevice, "device");
   (ObjectTypeEventEnrollment, "event-enrollment"); (ObjectTypeFile, "file"); (ObjectTypeGroup, "group");
   (ObjectTypeMultiStateInput, "multi-state-input"); (ObjectTypeMultiStateOutput, "multi-state-output");
   (ObjectTypeNotificationClass, "notification-class"); (ObjectTypeSchedule, "schedule");
   (ObjectTypeMultiStateValue, "multi-state-value"); (ObjectTypeTrendLog, "trend-log");
   (ObjectTypeLifeSafetyPoint, "life-safety-point"); (ObjectTypeLifeSafetyZone, "life-safety-zone");
   (ObjectTypeAccumulator, "accumulator"); (ObjectTypePulseConverter, "pulse-converter");
   (ObjectTypeTrendLogMultiple, "trend-log-multiple"); (ObjectTypeAccessDoor, "access-door");
   (ObjectTypeAccessPoint, "access-point"); (ObjectTypeNetworkPort, "network-port"); (ObjectTypeAuditLog, "audit-log");
   (ObjectTypeStructuredView, "structured-view"); (ObjectTypeCharacterStringValue, "characterstring-value");
   (ObjectTypeIntegerValue, "integer-value"); (ObjectTypePositiveIntegerValue, "positive-integer-value")]%string%list.

Definition ObjectType_String (t : Z) : bytes :=
  match find (fun p => fst p =? t) objectTypeNames with
  | Some (_, s) => octets s
  | None => octets "ObjectType(" ++ itoa (uwrap 16 t) ++ octets ")"
  end.

(** ** The state *)
Record Runtime := mkRuntime {
  rt_ServicesSupported : list Z;
  rt_MaxAPDULengthAccepted : Z;
  rt_Segmentation : Z;
  rt_MaxSegmentsAccepted : Z;
  rt_APDUTimeout : Z;
  rt_APDUSegmentTimeout : Z;
  rt_APDURetries : Z;
  rt_ActiveCOVSubscriptions : list Element;
  rt_Now : Z
}.

Record DeviceConfig := mkDeviceConfig {
  dc_Instance : Z;
  dc_Name : bytes;
  dc_VendorID : Z;
  dc_VendorName : bytes;
  dc_ModelName : bytes;
  dc_FirmwareRevision : bytes;
  dc_ApplicationSoftwareVersion : bytes;
  dc_Description : bytes;
  dc_Location : bytes;
  dc_SerialNumber : bytes;
  dc_ProtocolRevision : Z;
  dc_MaxObjects : Z
}.

Inductive entry (O : Type) :=
| theDevice
| anObject (o : O).
Arguments theDevice {O}.
Arguments anObject {O} _.

(** [tb_wall] is [time.Now()]; the observers are numbered functions. *)
Record tables (O : Type) := mkTables {
  tb_cfg : DeviceConfig;
  tb_objects : gmap ObjectIdentifier (entry O);
  tb_names : gmap bytes ObjectIdentifier;
  tb_revision : Z;
  tb_factories : gmap Z (Z -> bytes -> result O);
  tb_status : Z;
  tb_observers : gset Z;
  tb_nextObs : Z;
  tb_rt : option Runtime;
  tb_wall : Z
}.
Arguments mkTables {O} _ _ _ _ _ _ _ _ _ _.
Arguments tb_cfg {O} _.
Arguments tb_objects {O} _.
Arguments tb_names {O} _.
Arguments tb_revision {O} _.
Arguments tb_factories {O} _.
Arguments tb_status {O} _.
Arguments tb_observers {O} _.
Arguments tb_nextObs {O} _.
Arguments tb_rt {O} _.
Arguments tb_wall {O} _.

Definition Device (O : Type) : Type := Base (tables O).

(** The first [i], [i + 1], ... that is not in use. *)
Fixpoint firstFree (used : Z -> bool) (fuel : nat) (i : Z) : option Z :=
  match fuel with
  | O => None
  | S fuel => if used i then firstFree used fuel (i + 1) else Some i
  end.

Section DeviceOps.
Context {O : Type} `{!ObjectOps O} {LT : LocalTime}.
Implicit Types (d : Device O) (t : tables O) (id : ObjectIdentifier) (name : bytes).

(** Updates of the table. *)
Definition putObjects t (objects : gmap ObjectIdentifier (entry O)) : tables O :=
  mkTables (tb_cfg t) objects (tb_names t) (tb_revision t) (tb_factories t) (tb_status t) (tb_observers t) (tb_nextObs t) (tb_rt t) (tb_wall t).
(** Objects, names and the next revision. *)
Definition revise t (objects : gmap ObjectIdentifier (entry O)) (names : gmap bytes ObjectIdentifier) : tables O :=
  mkTables (tb_cfg t) objects names (u32 (tb_revision t + 1)) (tb_factories t) (tb_status t) (tb_observers t) (tb_nextObs t) (tb_rt t) (tb_wall t).
Definition tablesOf d : tables O := o_state (b_view d).

(** ** The entries *)
Definition entryIdentifier d (e : entry O) : ObjectIdentifier := match e with theDevice => Identifier d | anObject o => Identifier o end.
Definition entryName d (e : entry O) : bytes := match e with theDevice => Name d | anObject o => Name o end.
Definition entryRead d (e : entry O) (ref : PropertyReference) : result ApplicationValue :=
  match e with theDevice => ReadProperty d ref | anObject o => ReadProperty o ref end.
Definition entryProperties d (e : entry O) : list Z * (Z -> bool) :=
  match e with theDevice => Properties d | anObject o => Properties o end.
Definition entryDeletable d (e : entry O) : bool := match e with theDevice => Deletable d | anObject o => Deletable o end.

(** ** The Device's own properties *)
Definition systemStatus t : Z := tb_status t.
Definition runtimeOr {A} (fn : Runtime -> A) (def : A) t : A := match tb_rt t with Some r => fn r | None => def end.
Definition now t : Z := runtimeOr rt_Now (tb_wall t) t.

Definition servicesSupported t : ApplicationValue :=
  bitString servicesSupportedBits (fun i => existsb (Z.eqb i) (runtimeOr rt_ServicesSupported [] t)).
Definition objectTypesSupported t : ApplicationValue :=
  bitString objectTypesSupportedBits (fun i =>
    existsb (fun p => oid_Type (fst p) =? i) (map_to_list (tb_objects t)) || existsb (fun p => fst p =? i) (map_to_list (tb_factories t))).

(** The order of Object_List. *)
Definition idLe (a b : ObjectIdentifier) : Prop :=
  oid_Type a < oid_Type b \/ (oid_Type a = oid_Type b /\ oid_Instance a <= oid_Instance b).
#[export] Instance idLe_dec a b : Decision (idLe a b).
Proof. unfold idLe. solve_decision. Defined.

(** [ObjectIdentifiers] of the Device [own]. *)
Definition objectIdentifiers (own : ObjectIdentifier) t : list ObjectIdentifier :=
  own :: merge_sort idLe (filter (fun id => id <> own) (map fst (map_to_list (tb_objects t)))).
Definition objectList (v : view (tables O)) : ApplicationValue :=
  constructedValue (map (fun id => item (ObjectIDValue id)) (objectIdentifiers (o_id v) (o_state v))).

Definition milliseconds (duration : Z) : Z := uwrap 64 (Z.quot duration (10 ^ 6)).
Definition text (s : bytes) : Property (tables O) := stored true (charString s).
Definition textIf (s : bytes) (id : Z) (p : Property (tables O)) d : Device O := if negb (len s =? 0) then Define id p d else d.

Definition defineProperties (cfg : DeviceConfig) d : Device O :=
  let d := Define PropertySystemStatus (computed true (fun t => EnumValue (systemStatus t))) d in
  let d := Define PropertyVendorName (text (dc_VendorName cfg)) d in
  let d := Define PropertyVendorIdentifier (stored true (UnsignedValue (dc_VendorID cfg))) d in
  let d := Define PropertyModelName (text (dc_ModelName cfg)) d in
  let d := Define PropertyFirmwareRevision (text (dc_FirmwareRevision cfg)) d in
  let d := Define PropertyApplicationSoftwareVersion (text (dc_ApplicationSoftwareVersion cfg)) d in
  let d := textIf (dc_Location cfg) PropertyLocation (storedText (dc_Location cfg)) d in
  let d := textIf (dc_Description cfg) PropertyDescription (storedText (dc_Description cfg)) d in
  let d := textIf (dc_SerialNumber cfg) PropertySerialNumber (stored false (charString (dc_SerialNumber cfg))) d in
  let d := Define PropertyProtocolVersion (stored true (UnsignedValue ProtocolVersion)) d in
  let d := Define PropertyProtocolRevision (stored true (UnsignedValue (dc_ProtocolRevision cfg))) d in
  let d := Define PropertyProtocolServicesSupported (computed true servicesSupported) d in
  let d := Define PropertyProtocolObjectTypesSupported (computed true objectTypesSupported) d in
  let d := Define PropertyObjectList (mkProperty NullValue (Some objectList) None false [] true true) d in
  let d := Define PropertyMaxAPDULength (computed true (fun t => UnsignedValue (runtimeOr rt_MaxAPDULengthAccepted 1476 t))) d in
  let d := Define PropertySegmentation (computed true (fun t => EnumValue (runtimeOr rt_Segmentation 3 t))) d in
  let d := Define PropertyMaxSegmentsAccepted (computed false (fun t => UnsignedValue (runtimeOr rt_MaxSegmentsAccepted 0 t))) d in
  let d := Define PropertyAPDUSegmentTimeout (computed false (fun t => UnsignedValue (milliseconds (runtimeOr rt_APDUSegmentTimeout (2 * second) t)))) d in
  let d := Define PropertyAPDUTimeout (computed true (fun t => UnsignedValue (milliseconds (runtimeOr rt_APDUTimeout (3 * second) t)))) d in
  let d := Define PropertyNumberOfAPDURetries (computed true (fun t => UnsignedValue (uwrap 64 (runtimeOr rt_APDURetries 3 t)))) d in
  let d := Define PropertyDeviceAddressBinding (stored true (constructedValue [])) d in
  let d := Define PropertyDatabaseRevision (computed true (fun t => UnsignedValue (tb_revision t))) d in
  let d := Define PropertyLocalDate (computed false (fun t => dateValue (dateOf (now t)))) d in
  let d := Define PropertyLocalTime (computed false (fun t => timeValue (timeOf (now t)))) d in
  Define PropertyActiveCOVSubscriptions (computed false (fun t => constructedValue (runtimeOr rt_ActiveCOVSubscriptions [] t))) d.

Definition withDeviceDefaults (cfg : DeviceConfig) : DeviceConfig :=
  mkDeviceConfig (dc_Instance cfg) (dc_Name cfg) (dc_VendorID cfg) (dc_VendorName cfg) (dc_ModelName cfg) (dc_FirmwareRevision cfg)
    (dc_ApplicationSoftwareVersion cfg) (dc_Description cfg) (dc_Location cfg) (dc_SerialNumber cfg)
    (if dc_ProtocolRevision cfg =? 0 then DefaultProtocolRevision else dc_ProtocolRevision cfg)
    (if dc_MaxObjects cfg <=? 0 then 65535 else dc_MaxObjects cfg).

Definition NewDevice (wall : Z) (cfg : DeviceConfig) : result (Device O) :=
  if dc_Instance cfg >=? MaxObjectInstance then Err ErrOther
  else if len (dc_Name cfg) =? 0 then Err ErrOther
  else
    let cfg := withDeviceDefaults cfg in
    let id := mkObjectID ObjectTypeDevice (dc_Instance cfg) in
    Ok (defineProperties cfg (NewBase id (dc_Name cfg)
      (mkTables cfg {[ id := theDevice ]} {[ dc_Name cfg := id ]} 0 ∅ 0 ∅ 0 None wall))).

(** ** The object table *)
Definition Object d id : option (entry O) :=
  if (oid_Type id =? ObjectTypeDevice) && (oid_Instance id =? WildcardInstance) then Some theDevice
  else tb_objects (tablesOf d) !! id.
Definition ObjectByName d name : option (entry O) :=
  match tb_names (tablesOf d) !! name with
  | Some id => tb_objects (tablesOf d) !! id
  | None => None
  end.

(** What [dispatch] tells the observers when the table changes. *)
Definition listChanged d : list Change := [mkChange (Identifier d) [PropertyObjectList; PropertyDatabaseRevision]].

Definition Add (o : O) d : result (list Change * Device O) :=
  let t := tablesOf d in
  let id := Identifier o in
  let name := Name o in
  if oid_Type id =? ObjectTypeDevice then Err ErrOther
  else if len name =? 0 then Err ErrOther
  else if bool_decide (is_Some (tb_objects t !! id)) then Err ErrObjectExists
  else if bool_decide (is_Some (tb_names t !! name)) then Err ErrDuplicateName
  else if Z.of_nat (size (tb_objects t)) >=? dc_MaxObjects (tb_cfg t) then Err ErrNoSpaceForObject
  else
    Ok (listChanged d,
        putState (revise t (<[id := anObject (SetNotifier true o)]> (tb_objects t)) (<[name := id]> (tb_names t))) d).

Definition Remove (id : ObjectIdentifier) d : result (list Change * Device O) :=
  let t := tablesOf d in
  if bool_decide (id = Identifier d) then Err ErrNotDeletable
  else
    match tb_objects t !! id with
    | None => Err ErrUnknownObject
    | Some e => Ok (listChanged d, putState (revise t (delete id (tb_objects t)) (delete (entryName d e) (tb_names t))) d)
    end.

Definition Rename (id : ObjectIdentifier) (name : bytes) d : result (list Change * Device O) :=
  let t := tablesOf d in
  if len name =? 0 then Err ErrValueOutOfRange
  else
    match tb_objects t !! id with
    | None => Err ErrUnknownObject
    | Some e =>
        match tb_names t !! name with
        | Some other => if bool_decide (other = id) then Ok ([], d) else Err ErrDuplicateName
        | None =>
            let names := <[name := id]> (delete (entryName d e) (tb_names t)) in
            let changed := [mkChange id [PropertyObjectName]] in
            match e with
            | theDevice => Ok (changed, putState (revise t (tb_objects t) names) (baseSetName name d))
            | anObject o =>
                if negb (isBase o) then Err ErrWriteAccessDenied
                else Ok (changed, putState (revise t (<[id := anObject (setName name o)]> (tb_objects t)) names) d)
            end
        end
    end.

Definition hasType (ty : Z) d : bool := existsb (fun p => oid_Type (fst p) =? ty) (map_to_list (tb_objects (tablesOf d))).

(** The [i]-th name that [Create] tries. *)
Definition nameCandidate (base : bytes) (i : Z) : bytes := if i =? 0 then base else base ++ [45] ++ itoa (u32 i).

Definition chooseInstance (ty : Z) (instance : option Z) d : result Z :=
  match instance with
  | Some inst =>
      if inst >=? MaxObjectInstance then Err ErrValueOutOfRange
      else match Object d (mkObjectID ty inst) with Some _ => Err ErrObjectExists | None => Ok inst end
  | None =>
      let objects := tb_objects (tablesOf d) in
      match firstFree (fun i => bool_decide (is_Some (objects !! mkObjectID ty (u32 i)))) (S (size objects)) 0 with
      | Some i => Ok (u32 i)
      | None => Err OutOfFuel
      end
  end.

Definition chooseName (ty inst : Z) name d : result bytes :=
  if negb (len name =? 0) then Ok name
  else
    let base := ObjectType_String ty ++ [45] ++ itoa inst in
    match firstFree (fun i => bool_decide (is_Some (ObjectByName d (nameCandidate base i)))) (S (size (tb_names (tablesOf d)))) 0 with
    | Some i => Ok (nameCandidate base i)
    | None => Err OutOfFuel
    end.

(** [Create]; the new object is returned as its identifier in the table. *)
Definition Create (ty : Z) (instance : option Z) name d : result (ObjectIdentifier * list Change * Device O) :=
  match tb_factories (tablesOf d) !! ty with
  | None => if negb (ty =? ObjectTypeDevice) && hasType ty d then Err ErrNotCreatable else Err ErrUnsupportedType
  | Some f =>
      let* inst := chooseInstance ty instance d in
      let* name := chooseName ty inst name d in
      let* o := f inst name in
      let o := if isBase o then SetDeletable true o else o in
      let* (changed, d) := Add o d in
      Ok (Identifier o, changed, d)
  end.

(** ** The other operations *)
Definition updateTables (f : tables O -> tables O) d : Device O := putState (f (tablesOf d)) d.
Definition RegisterFactory (ty : Z) (f : Z -> bytes -> result O) : Device O -> Device O :=
  updateTables (fun t => mkTables (tb_cfg t) (tb_objects t) (tb_names t) (tb_revision t) (<[ty := f]> (tb_factories t)) (tb_status t)
    (tb_observers t) (tb_nextObs t) (tb_rt t) (tb_wall t)).
Definition SetSystemStatus (s : Z) : Device O -> Device O :=
  updateTables (fun t => mkTables (tb_cfg t) (tb_objects t) (tb_names t) (tb_revision t) (tb_factories t) s
    (tb_observers t) (tb_nextObs t) (tb_rt t) (tb_wall t)).
Definition Bind (rt : option Runtime) : Device O -> Device O :=
  updateTables (fun t => mkTables (tb_cfg t) (tb_objects t) (tb_names t) (tb_revision t) (tb_factories t) (tb_status t)
    (tb_observers t) (tb_nextObs t) rt (tb_wall t)).
Definition Observe d : Z * Device O :=
  (tb_nextObs (tablesOf d), updateTables (fun t => mkTables (tb_cfg t) (tb_objects t) (tb_names t) (tb_revision t) (tb_factories t) (tb_status t)
    ({[ tb_nextObs t ]} ∪ tb_observers t) (tb_nextObs t + 1) (tb_rt t) (tb_wall t)) d).
Definition cancelObserver (n : Z) : Device O -> Device O :=
  updateTables (fun t => mkTables (tb_cfg t) (tb_objects t) (tb_names t) (tb_revision t) (tb_factories t) (tb_status t)
    (tb_observers t ∖ {[ n ]}) (tb_nextObs t) (tb_rt t) (tb_wall t)).

(** [Device.WriteProperty], and a write of an object of the table. *)
Definition deviceWriteProperty d (w : Write) : result (list Change * Device O) :=
  if pr_Identifier (w_Property w) =? PropertyObjectName then Err ErrWriteAccessDenied else baseWriteProperty d w.
Definition putObject (id : ObjectIdentifier) (o : O) d : Device O :=
  updateTables (fun t => putObjects t (<[id := anObject o]> (tb_objects t))) d.
Definition entryWrite d (e : entry O) (w : Write) : result (list Change * Device O) :=
  match e with
  | theDevice => deviceWriteProperty d w
  | anObject o => let* (changed, o') := WriteProperty o w in Ok (changed, putObject (Identifier o) o' d)
  end.
End DeviceOps.
