(* ===== verification/DeviceSafety.v ===== *)
(** * The object table keeps its promises

    In every state reached from [NewDevice], identifiers and names are unique
    and agree with the two lookups, the table is bounded and Object_List
    reports it ([device_table]); [Create] picks free identifiers and names and
    its loops end ([create_object]); Database_Revision counts exactly the
    changes of the table ([database_revision]). *)

From Stdlib Require Import ZArith Lia Sorted.
From stdpp Require Import base list gmap fin_sets fin_maps sorting relations.
From S2P Require Import Prelude Value Ids Access Object Commandable Events Device.
#[local] Open Scope Z_scope.

(** ** The loops of [Create] *)
Lemma firstFree_spec used fuel i :
  match firstFree used fuel i with
  | Some j => i <= j < i + Z.of_nat fuel /\ used j = false /\ forall k, i <= k < j -> used k = true
  | None => forall k, i <= k < i + Z.of_nat fuel -> used k = true
  end.
Proof.
  revert i. induction fuel as [|fuel IH]; intros i; cbn [firstFree]; [lia|]. destruct (used i) eqn:E.
  - specialize (IH (i + 1)). destruct (firstFree used fuel (i + 1)) as [j|].
    + destruct IH as (H1 & H2 & H3). split; [lia|]. split; [done|]. intros k Hk. destruct (decide (k = i)) as [->|]; [done|]. apply H3. lia.
    + intros k Hk. destruct (decide (k = i)) as [->|]; [done|]. apply IH. lia.
  - split; [lia|]. split; [done|]. lia.
Qed.

(** Pigeonhole: with more candidates than keys one is free. *)
Lemma firstFree_map {K A} `{Countable K} (m : gmap K A) (key : Z -> K) used :
  (forall i, used i = true -> is_Some (m !! key i)) ->
  (forall i j, 0 <= i < Z.of_nat (S (size m)) -> 0 <= j < Z.of_nat (S (size m)) -> key i = key j -> i = j) ->
  exists j, firstFree used (S (size m)) 0 = Some j /\ 0 <= j < Z.of_nat (S (size m)).
Proof.
  intros Hused Hinj. pose proof (firstFree_spec used (S (size m)) 0) as Hs. destruct (firstFree _ _ 0) as [j|]; [exists j; split; [done|lia]|exfalso].
  set (keys := list_to_set (C := gset K) (key <$> seqZ 0 (Z.of_nat (S (size m))))).
  assert (size keys = S (size m)) as Hsize.
  { unfold keys. rewrite size_list_to_set; [by rewrite length_fmap, length_seqZ, Nat2Z.id|].
    apply (NoDup_fmap_2_strong key); [|apply NoDup_seqZ]. intros i j Hi Hj. apply elem_of_seqZ in Hi, Hj. apply Hinj; lia. }
  assert (keys ⊆ dom m) as Hsub.
  { intros k. unfold keys. rewrite elem_of_list_to_set, list_elem_of_fmap. intros (i & -> & Hi). apply elem_of_seqZ in Hi.
    apply elem_of_dom, Hused, Hs. lia. }
  apply subseteq_size in Hsub. rewrite size_dom in Hsub. lia.
Qed.

Definition digitsValue (v : Z) (l : bytes) : Z := fold_left (fun v c => v * 10 + (c - 48)) l v.

Lemma itoaLoop_value fuel u acc : 0 <= u < 10 ^ Z.of_nat fuel -> digitsValue 0 (itoaLoop fuel u acc) = digitsValue u acc.
Proof.
  unfold digitsValue. revert u acc. induction fuel as [|fuel IH]; intros u acc Hu; cbn [itoaLoop]; [by replace u with 0 by lia|].
  destruct (u >? 0) eqn:E.
  - rewrite IH.
    + cbn [fold_left]. f_equal. pose proof (Z.div_mod u 10). lia.
    + rewrite Nat2Z.inj_succ, Z.pow_succ_r in Hu by lia. split; [apply Z.div_pos; lia|apply Z.div_lt_upper_bound; lia].
  - by replace u with 0 by lia.
Qed.

Lemma itoa_inj u v : is_u 32 u -> is_u 32 v -> itoa u = itoa v -> u = v.
Proof.
  assert (forall u, is_u 32 u -> digitsValue 0 (itoa u) = u) as H.
  { intros w Hw. unfold itoa. destruct (w =? 0) eqn:E; [bool_to_prop; by subst|]. unfold is_u in Hw. by rewrite itoaLoop_value by (cbn; lia). }
  intros Hu Hv He. rewrite <- (H u Hu), <- (H v Hv). by rewrite He.
Qed.

Lemma nameCandidate_inj base i j : is_u 32 i -> is_u 32 j -> nameCandidate base i = nameCandidate base j -> i = j.
Proof.
  unfold nameCandidate. intros Hi Hj.
  assert (forall x l, base <> base ++ [x] ++ l) as Hne.
  { intros x l He. apply (f_equal length) in He. rewrite length_app in He. cbn in He. lia. }
  destruct (i =? 0) eqn:E1, (j =? 0) eqn:E2; bool_to_prop; try lia; intros He.
  - by apply Hne in He.
  - symmetry in He. by apply Hne in He.
  - apply app_inv_head in He. injection He as He. unfold uwrap in He. rewrite !Z.mod_small in He by (unfold is_u in *; lia). by apply itoa_inj.
Qed.

Section Invariant.
Context {O : Type} `{!ObjectOps O} `{!ObjectLaws O} {LT : LocalTime}.
Implicit Types (d : Device O) (t : tables O).

(** ** The invariant *)
Record device_ok d : Prop := {
  dk_id : oid_Type (Identifier d) = ObjectTypeDevice;
  dk_own : tb_objects (tablesOf d) !! Identifier d = Some theDevice;
  dk_device : forall id, tb_objects (tablesOf d) !! id = Some theDevice -> id = Identifier d;
  dk_object : forall id o, tb_objects (tablesOf d) !! id = Some (anObject o) -> Identifier o = id /\ oid_Type id <> ObjectTypeDevice;
  dk_name : forall id e, tb_objects (tablesOf d) !! id = Some e ->
    entryName d e <> [] /\ tb_names (tablesOf d) !! entryName d e = Some id;
  dk_names : forall n id, tb_names (tablesOf d) !! n = Some id ->
    exists e, tb_objects (tablesOf d) !! id = Some e /\ entryName d e = n;
  dk_bound : Z.of_nat (size (tb_objects (tablesOf d))) <= dc_MaxObjects (tb_cfg (tablesOf d));
  dk_setters : setters (fun _ _ _ _ => False) d;
  dk_list : b_props d !! PropertyObjectList = Some (mkProperty NullValue (Some objectList) None false [] true true);
  dk_revision : b_props d !! PropertyDatabaseRevision = Some (computed true (fun t => UnsignedValue (tb_revision t)))
}.

Lemma entryName_put d t e : entryName (putState t d) e = entryName d e.
Proof. by destruct e. Qed.

(** Keeping the Device's own part. *)
Lemma device_ok_tables d t : device_ok d -> tb_cfg t = tb_cfg (tablesOf d) ->
  tb_objects t !! Identifier d = Some theDevice ->
  (forall id, tb_objects t !! id = Some theDevice -> id = Identifier d) ->
  (forall id o, tb_objects t !! id = Some (anObject o) -> Identifier o = id /\ oid_Type id <> ObjectTypeDevice) ->
  (forall id e, tb_objects t !! id = Some e -> entryName d e <> [] /\ tb_names t !! entryName d e = Some id) ->
  (forall n id, tb_names t !! n = Some id -> exists e, tb_objects t !! id = Some e /\ entryName d e = n) ->
  Z.of_nat (size (tb_objects t)) <= dc_MaxObjects (tb_cfg t) -> device_ok (putState t d).
Proof.
  intros [] Hc H1 H2 H3 H4 H5 H6. by split.
Qed.

(** Changes outside of the objects and names. *)
Lemma device_ok_same d t : device_ok d -> tb_cfg t = tb_cfg (tablesOf d) -> tb_objects t = tb_objects (tablesOf d) ->
  tb_names t = tb_names (tablesOf d) -> device_ok (putState t d).
Proof.
  intros Hd Hc Ho Hn. destruct Hd. apply device_ok_tables; rewrite ?Ho, ?Hn, ?Hc; done.
Qed.

(** *** Properties *)
Lemma setters_textIf R s id p d : setters R d -> setter R id p -> setters R (textIf s id p d).
Proof. intros Hd Hp. unfold textIf. destruct (negb _); [by apply setters_Define|done]. Qed.

Lemma setters_defineProperties R cfg d : setters R d -> setters R (defineProperties cfg d).
Proof. intros Hd. unfold defineProperties. repeat (first [apply setters_Define|apply setters_textIf]; [|done]). done. Qed.

(** The view of a device but for the order of its properties. *)
Definition sameView d d0 : Prop :=
  o_id (b_view d) = o_id (b_view d0) /\ o_name (b_view d) = o_name (b_view d0) /\ tablesOf d = tablesOf d0.
Lemma sameView_Define id p d d0 : sameView d d0 -> sameView (Define id p d) d0.
Proof. done. Qed.
Lemma sameView_textIf s id p d d0 : sameView d d0 -> sameView (textIf s id p d) d0.
Proof. unfold textIf. by destruct (negb _). Qed.

Lemma defineProperties_view cfg d : sameView (defineProperties cfg d) d.
Proof. unfold defineProperties. cbv zeta. repeat (first [apply sameView_Define|apply sameView_textIf]). done. Qed.

Lemma defineProperties_lookup cfg d :
  b_props (defineProperties cfg d) !! PropertyObjectList = Some (mkProperty NullValue (Some objectList) None false [] true true) /\
  b_props (defineProperties cfg d) !! PropertyDatabaseRevision = Some (computed true (fun t => UnsignedValue (tb_revision t))).
Proof.
  unfold defineProperties. cbv zeta. split; repeat (rewrite lookup_Define; case_decide; [try done|]); done.
Qed.

Lemma NewDevice_ok wall cfg d : NewDevice wall cfg = Ok d -> device_ok d /\
  dc_MaxObjects (tb_cfg (tablesOf d)) = (if dc_MaxObjects cfg <=? 0 then 65535 else dc_MaxObjects cfg).
Proof.
  unfold NewDevice. destruct (_ >=? _); [done|]. destruct (len (dc_Name cfg) =? 0) eqn:En; [done|]. cbv zeta.
  set (id := mkObjectID _ _). set (b := NewBase id _ _). intros [= <-].
  destruct (defineProperties_view (withDeviceDefaults cfg) b) as (V1 & V2 & V3).
  destruct (defineProperties_lookup (withDeviceDefaults cfg) b) as [L1 L2].
  assert (Identifier (defineProperties (withDeviceDefaults cfg) b) = id) as Hid by apply V1.
  assert (tb_objects (tablesOf b) = {[ id := theDevice ]}) as Ho by done.
  assert (tb_names (tablesOf b) = {[ dc_Name cfg := id ]}) as Hn by done.
  assert (Name (defineProperties (withDeviceDefaults cfg) b) = dc_Name cfg) as Hname by (by etrans; [exact V2|]).
  split; [split; rewrite ?Hid, ?V3, ?Ho, ?Hn; try done|by rewrite V3].
  - apply lookup_singleton_eq.
  - intros i [<- _]%lookup_singleton_Some. done.
  - by intros i o [_ ?]%lookup_singleton_Some.
  - intros i e [<- <-]%lookup_singleton_Some. cbn [entryName]. rewrite Hname. split.
    + intros He. bool_to_prop. by rewrite He in *.
    + apply lookup_singleton_eq.
  - intros n i [<- <-]%lookup_singleton_Some. exists theDevice. split; [apply lookup_singleton_eq|exact Hname].
  - rewrite map_size_singleton. cbn. destruct (_ <=? 0) eqn:E; bool_to_prop; lia.
  - apply setters_defineProperties, setters_NewBase.
Qed.

(** *** The table *)
Lemma entryIdentifier_ok d id e : device_ok d -> tb_objects (tablesOf d) !! id = Some e -> entryIdentifier d e = id.
Proof. intros Hd He. destruct e as [|o]; cbn [entryIdentifier]; [by rewrite (dk_device _ Hd _ He)|by apply (dk_object _ Hd _ _ He)]. Qed.

(** Names are unique. *)
Lemma entryName_unique d id id' e e' : device_ok d -> tb_objects (tablesOf d) !! id = Some e -> tb_objects (tablesOf d) !! id' = Some e' ->
  entryName d e = entryName d e' -> id = id'.
Proof.
  intros Hd He He' Hn. destruct (dk_name _ Hd _ _ He) as [_ H1], (dk_name _ Hd _ _ He') as [_ H2]. rewrite Hn in H1. congruence.
Qed.

Lemma Add_inv (o : O) d cs d' : Add o d = Ok (cs, d') ->
  oid_Type (Identifier o) <> ObjectTypeDevice /\ Name o <> [] /\ tb_objects (tablesOf d) !! Identifier o = None /\
  tb_names (tablesOf d) !! Name o = None /\ Z.of_nat (size (tb_objects (tablesOf d))) < dc_MaxObjects (tb_cfg (tablesOf d)) /\
  cs = listChanged d /\ d' = putState (revise (tablesOf d) (<[Identifier o := anObject (SetNotifier true o)]> (tb_objects (tablesOf d)))
    (<[Name o := Identifier o]> (tb_names (tablesOf d)))) d.
Proof.
  unfold Add. cbv zeta. destruct (_ =? ObjectTypeDevice) eqn:E1; [done|]. destruct (len _ =? 0) eqn:E2; [done|].
  destruct (bool_decide_reflect (is_Some (tb_objects (tablesOf d) !! Identifier o))) as [|E3]; [done|].
  destruct (bool_decide_reflect (is_Some (tb_names (tablesOf d) !! Name o))) as [|E4]; [done|]. destruct (_ >=? _) eqn:E5; [done|].
  intros [= <- <-]. apply eq_None_not_Some in E3, E4. bool_to_prop. split_and!; try done. intros Hn. by rewrite Hn in *.
Qed.

Lemma table_Add_ok (o : O) d cs d' : device_ok d -> Add o d = Ok (cs, d') -> device_ok d'.
Proof.
  intros Hd H. apply Add_inv in H as (Ht & Hname & Ho & Hn & Hmax & _ & ->).
  assert (Identifier o <> Identifier d) as Hne by (intros He; rewrite He in Ht; by rewrite (dk_id _ Hd) in Ht).
  apply device_ok_tables; try done; cbn [revise tb_objects tb_names tb_cfg].
  - rewrite lookup_insert_ne by done. apply Hd.
  - intros id. rewrite lookup_insert_Some. intros [[_ ?]|[_ Hid]]; [done|by apply Hd].
  - intros id x. rewrite lookup_insert_Some. intros [[<- [= <-]]|[_ Hid]]; [by rewrite SetNotifier_Identifier|by apply Hd].
  - intros id e. rewrite lookup_insert_Some. intros [[<- <-]|[Hid He]].
    + cbn [entryName]. rewrite SetNotifier_Name, lookup_insert_eq. done.
    + destruct (dk_name _ Hd _ _ He) as [H1 H2]. split; [done|]. rewrite lookup_insert_ne; [done|]. intros Hc. congruence.
  - intros n id. rewrite lookup_insert_Some. intros [[<- <-]|[Hnn Hid]].
    + exists (anObject (SetNotifier true o)). rewrite lookup_insert_eq. split; [done|]. apply SetNotifier_Name.
    + destruct (dk_names _ Hd _ _ Hid) as (e & He & Hen). exists e. rewrite lookup_insert_ne; [done|]. intros Hc. congruence.
  - rewrite map_size_insert_None by done. lia.
Qed.

Lemma Remove_ok id d cs d' : device_ok d -> Remove id d = Ok (cs, d') -> device_ok d'.
Proof.
  intros Hd. unfold Remove. cbv zeta. destruct (bool_decide_reflect (id = Identifier d)) as [|Hne]; [done|].
  destruct (tb_objects (tablesOf d) !! id) as [e|] eqn:He; [|done]. intros [= _ <-]. destruct (dk_name _ Hd _ _ He) as [_ Hn].
  apply device_ok_tables; try done; cbn [revise tb_objects tb_names tb_cfg].
  - rewrite lookup_delete_ne by done. apply Hd.
  - intros i. rewrite lookup_delete_Some. intros [_ Hi]. by apply Hd.
  - intros i o. rewrite lookup_delete_Some. intros [_ Hi]. by apply Hd.
  - intros i e'. rewrite lookup_delete_Some. intros [Hi He']. destruct (dk_name _ Hd _ _ He') as [H1 H2]. split; [done|].
    rewrite lookup_delete_ne; [done|]. intros Hc. rewrite Hc in Hn. congruence.
  - intros n i. rewrite lookup_delete_Some. intros [Hi Hni]. destruct (dk_names _ Hd _ _ Hni) as (e' & He' & Hen). exists e'.
    rewrite lookup_delete_ne; [done|]. intros <-. congruence.
  - rewrite map_size_delete, He. cbn. pose proof (dk_bound _ Hd). lia.
Qed.

Lemma renamed_ok d id e e' name : device_ok d -> tb_objects (tablesOf d) !! id = Some e -> tb_names (tablesOf d) !! name = None ->
  name <> [] -> forall d', tb_cfg (tablesOf d') = tb_cfg (tablesOf d) ->
  tb_objects (tablesOf d') = <[id := e']> (tb_objects (tablesOf d)) ->
  tb_names (tablesOf d') = <[name := id]> (delete (entryName d e) (tb_names (tablesOf d))) ->
  b_props d' = b_props d -> Identifier d' = Identifier d ->
  (forall x, (x = theDevice -> id <> Identifier d) -> entryName d' x = entryName d x) -> entryName d' e' = name ->
  (e' = theDevice <-> e = theDevice) -> (forall o, e' = anObject o -> Identifier o = id) -> device_ok d'.
Proof.
  intros Hd He Hfree Hne d' Hc Ho Hn Hp Hid Hkeep Hname Hdev Hobj. destruct (dk_name _ Hd _ _ He) as [_ Hen].
  assert (forall i x, <[id := e']> (tb_objects (tablesOf d)) !! i = Some x -> (i = id /\ x = e') \/
    (i <> id /\ tb_objects (tablesOf d) !! i = Some x /\ entryName d' x = entryName d x)) as Hcase.
  { intros i x. rewrite lookup_insert_Some. intros [[<- <-]|[Hi Hx]]; [by left|right]. split; [done|]. split; [done|]. apply Hkeep.
    intros ->. rewrite <- (dk_device _ Hd _ Hx). done. }
  split; rewrite ?Hid, ?Hc, ?Ho, ?Hn, ?Hp; try apply Hd.
  - destruct (decide (id = Identifier d)) as [->|Hi]; [|rewrite lookup_insert_ne by done; apply Hd]. rewrite lookup_insert_eq. f_equal. apply Hdev.
    pose proof (dk_own _ Hd). congruence.
  - intros i H. destruct (Hcase _ _ H) as [[-> Hx]|(_ & Hx & _)]; [|by apply Hd]. symmetry in Hx. apply Hdev in Hx. subst e. by apply Hd.
  - intros i o H. destruct (Hcase _ _ H) as [[-> Hx]|(_ & Hx & _)]; [|by apply Hd]. split; [by apply Hobj|]. destruct e as [|o1]; [|by apply (dk_object _ Hd _ _ He)].
    destruct Hdev as [_ Hdev]. rewrite Hdev in Hx by done. done.
  - intros i x H. destruct (Hcase _ _ H) as [[-> ->]|(Hi & Hx & ->)]; [rewrite Hname, lookup_insert_eq; done|].
    destruct (dk_name _ Hd _ _ Hx) as [H1 H2]. split; [done|]. rewrite lookup_insert_ne by congruence. rewrite lookup_delete_ne; [done|]. intros Hx'. congruence.
  - intros n i. rewrite lookup_insert_Some. intros [[<- <-]|[Hnn Hi]]; [exists e'; by rewrite lookup_insert_eq|].
    rewrite lookup_delete_Some in Hi. destruct Hi as [Hi1 Hi2]. destruct (dk_names _ Hd _ _ Hi2) as (x & Hx & Hxn).
    assert (i <> id) as Hii by congruence. exists x. rewrite lookup_insert_ne by done. split; [done|]. rewrite Hkeep; [done|].
    intros -> Hii'. apply Hii. rewrite Hii'. by apply Hd.
  - rewrite map_size_insert_Some by (by eexists). apply Hd.
  - unfold setters. rewrite Hp. apply Hd.
Qed.

Lemma Rename_ok id name d cs d' : device_ok d -> Rename id name d = Ok (cs, d') -> device_ok d'.
Proof.
  intros Hd. unfold Rename. cbv zeta. destruct (len name =? 0) eqn:E0; [done|].
  assert (name <> []) as Hne by (intros ->; done).
  destruct (tb_objects (tablesOf d) !! id) as [e|] eqn:He; [|done]. destruct (tb_names (tablesOf d) !! name) as [other|] eqn:Hn.
  - by destruct (bool_decide (other = id)); [intros [= _ <-]|].
  - destruct e as [|o].
    + intros [= _ <-]. pose proof (dk_device _ Hd _ He) as ->.
      refine (renamed_ok d _ _ theDevice name Hd He Hn Hne _ _ _ _ _ _ _ _ _ _); try reflexivity; try done.
      * symmetry. by apply insert_id.
      * intros [|x] Hx; [by destruct (Hx eq_refl)|done].
    + destruct (isBase o) eqn:Hb; [|done]. intros [= _ <-]. destruct (dk_object _ Hd _ _ He) as [Hio Hty].
      refine (renamed_ok d _ _ (anObject (setName name o)) name Hd He Hn Hne _ _ _ _ _ _ _ _ _ _); try reflexivity; try done.
      * cbn [entryName]. by apply setName_Name.
      * intros x [= <-]. by rewrite setName_Identifier.
Qed.

Lemma putObject_ok id (o o' : O) d : device_ok d -> tb_objects (tablesOf d) !! id = Some (anObject o) ->
  Identifier o' = Identifier o -> Name o' = Name o -> device_ok (putObject id o' d).
Proof.
  intros Hd Ho Hi Hn. destruct (dk_object _ Hd _ _ Ho) as [Hid Hty]. assert (id <> Identifier d) as Hne by (intros ->; by rewrite (dk_own _ Hd) in Ho).
  unfold putObject, updateTables. apply device_ok_tables; try done; cbn [putObjects tb_objects tb_names tb_cfg].
  - rewrite lookup_insert_ne by done. apply Hd.
  - intros i. rewrite lookup_insert_Some. intros [[_ ?]|[_ H]]; [done|by apply Hd].
  - intros i x. rewrite lookup_insert_Some. intros [[<- [= <-]]|[_ H]]; [by rewrite Hi|by apply Hd].
  - intros i x. rewrite lookup_insert_Some. intros [[<- <-]|[_ H]]; [|by apply Hd]. cbn [entryName]. rewrite Hn. by apply (dk_name _ Hd _ _ Ho).
  - intros n i H. destruct (dk_names _ Hd _ _ H) as (x & Hx & Hxn). destruct (decide (id = i)) as [<-|Hii].
    + exists (anObject o'). rewrite lookup_insert_eq. split; [done|]. rewrite <- Hxn. rewrite Ho in Hx. injection Hx as <-. exact Hn.
    + exists x. by rewrite lookup_insert_ne.
  - rewrite map_size_insert_Some by (by eexists). apply Hd.
Qed.

Lemma Create_inv ty inst name d id cs d' : Create ty inst name d = Ok (id, cs, d') ->
  exists f i nm o, tb_factories (tablesOf d) !! ty = Some f /\ chooseInstance ty inst d = Ok i /\ chooseName ty i name d = Ok nm /\ f i nm = Ok o /\
    let o' := if isBase o then SetDeletable true o else o in Add o' d = Ok (cs, d') /\ id = Identifier o'.
Proof.
  unfold Create. destruct (tb_factories _ !! ty) as [f|]; [|by destruct (_ && _)]. intros H.
  apply bind_Ok_inv in H as (i & Hi & H). apply bind_Ok_inv in H as (nm & Hn & H). apply bind_Ok_inv in H as (o & Ho & H). cbv zeta in H.
  apply bind_Ok_inv in H as ([c d1] & Ha & [= <- <- <-]). by exists f, i, nm, o.
Qed.

(** A write of the Device keeps everything but the value of the property. *)
Lemma deviceWrite_written d w cs d' : device_ok d -> deviceWriteProperty d w = Ok (cs, d') ->
  exists id p x, d' = putProperty id (setValue x p) d /\ b_props d !! id = Some p /\ p_Set p = None /\ p_Writable p = true.
Proof.
  intros Hd. unfold deviceWriteProperty. destruct (_ =? _); [done|]. unfold baseWriteProperty. intros H.
  apply bind_Ok_inv in H as ([c d1] & H & [= _ <-]). apply writeLocked_written in H. destruct H as [q set c' s Hq Hw Hs Hr|q x Hq Hw Hs].
  - destruct (dk_setters _ Hd _ _ _ _ _ _ _ Hq Hs Hr).
  - by eexists _, q, x.
Qed.

Lemma entryWrite_ok id e d w cs d' : device_ok d -> Object d id = Some e -> entryWrite d e w = Ok (cs, d') -> device_ok d'.
Proof.
  intros Hd He H. destruct e as [|o]; cbn [entryWrite] in H.
  - pose proof H as Hw. apply deviceWrite_written in Hw as (i & p & x & -> & Hp & Hs & Hwr); [|done].
    destruct Hd as [? ? ? ? ? ? ? Hset Hl Hrev]. split; try done.
    + intros i' q set w' s c s' Hq Hqs Hr. cbn in Hq. destruct (decide (i = i')) as [<-|Hne].
      * rewrite lookup_insert_eq in Hq. injection Hq as <-. cbn in Hqs. congruence.
      * rewrite lookup_insert_ne in Hq by done. by eapply Hset.
    + cbn. rewrite lookup_insert_ne; [done|]. intros ->. rewrite Hl in Hp. by injection Hp as <-.
    + cbn. rewrite lookup_insert_ne; [done|]. intros ->. rewrite Hrev in Hp. by injection Hp as <-.
  - apply bind_Ok_inv in H as ([c o'] & Hw & [= _ <-]). unfold Object in He. destruct (_ && _) in He; [done|].
    rewrite (proj1 (dk_object _ Hd _ _ He)). apply (putObject_ok id o); [done|done|by eapply write_Identifier|by eapply write_Name].
Qed.

(** ** Runs *)
Inductive device_step d : Device O -> Prop :=
| dstep_add o cs d' : Add o d = Ok (cs, d') -> device_step d d'
| dstep_remove id cs d' : Remove id d = Ok (cs, d') -> device_step d d'
| dstep_rename id name cs d' : Rename id name d = Ok (cs, d') -> device_step d d'
| dstep_create ty inst name id cs d' : Create ty inst name d = Ok (id, cs, d') -> device_step d d'
| dstep_write id e w cs d' : Object d id = Some e -> entryWrite d e w = Ok (cs, d') -> device_step d d'
| dstep_object id o o' : tb_objects (tablesOf d) !! id = Some (anObject o) -> Identifier o' = Identifier o -> Name o' = Name o ->
    device_step d (putObject id o' d)
| dstep_factory ty f : device_step d (RegisterFactory ty f d)
| dstep_status s : device_step d (SetSystemStatus s d)
| dstep_bind rt : device_step d (Bind rt d)
| dstep_observe : device_step d (snd (Observe d))
| dstep_cancel n : device_step d (cancelObserver n d).

Lemma device_step_ok d d' : device_ok d -> device_step d d' -> device_ok d'.
Proof.
  intros Hd [o cs d1 H|id cs d1 H|id name cs d1 H|ty inst name id cs d1 H|id e w cs d1 He H|id o o' H Hi Hn|ty f|s|rt| |n];
    try (by apply device_ok_same).
  - by eapply table_Add_ok.
  - by eapply Remove_ok.
  - by eapply Rename_ok.
  - apply Create_inv in H as (f & i & nm & o & _ & _ & _ & _ & H & _). by eapply table_Add_ok.
  - by eapply entryWrite_ok.
  - by eapply putObject_ok.
Qed.

Lemma device_run_ok d d' : device_ok d -> rtc device_step d d' -> device_ok d'.
Proof. intros Hd Hr. induction Hr as [|d d1 d' Hs Hr IH]; [done|]. apply IH. by eapply device_step_ok. Qed.

(** ** Object_List *)
#[local] Instance idLe_trans : Transitive idLe.
Proof. intros a b c. unfold idLe. lia. Qed.
#[local] Instance idLe_total : Total idLe.
Proof. intros a b. unfold idLe. lia. Qed.

Lemma objectIdentifiers_spec own t : tb_objects t !! own = Some theDevice ->
  NoDup (objectIdentifiers own t) /\ StronglySorted idLe (tail (objectIdentifiers own t)) /\
  forall id, id ∈ objectIdentifiers own t <-> is_Some (tb_objects t !! id).
Proof.
  intros Hown. unfold objectIdentifiers. cbn [tail]. set (l := filter _ _).
  assert (forall id, id ∈ l <-> id <> own /\ is_Some (tb_objects t !! id)) as Hin.
  { intros id. unfold l. rewrite list_elem_of_filter, list_elem_of_fmap. split.
    - intros [Hne ([i e] & -> & Hi)]. apply elem_of_map_to_list in Hi. split; [done|by exists e].
    - intros [Hne [e He]]. split; [done|]. exists (id, e). split; [done|]. by apply elem_of_map_to_list. }
  split_and!.
  - rewrite merge_sort_Permutation. constructor; [rewrite Hin; tauto|]. apply NoDup_filter, NoDup_fst_map_to_list.
  - apply StronglySorted_merge_sort; apply _.
  - intros id. rewrite elem_of_cons, merge_sort_Permutation, Hin. destruct (decide (id = own)) as [->|]; [rewrite Hown|tauto].
    split; [by eexists|by left].
Qed.

Lemma read_objectList d : device_ok d ->
  ReadProperty d (wholeRef PropertyObjectList) = Ok (constructedValue (map (fun id => item (ObjectIDValue id)) (objectIdentifiers (Identifier d) (tablesOf d)))).
Proof.
  intros Hd. cbn [ReadProperty Base_ops]. unfold readLocked. cbn [wholeRef pr_Identifier pr_ArrayIndex]. rewrite (dk_list _ Hd). cbn [valueOf p_Get].
  by rewrite Clone_id.
Qed.

Lemma read_revision d : device_ok d ->
  ReadProperty d (wholeRef PropertyDatabaseRevision) = Ok (UnsignedValue (tb_revision (tablesOf d))).
Proof.
  intros Hd. cbn [ReadProperty Base_ops]. unfold readLocked. cbn [wholeRef pr_Identifier pr_ArrayIndex]. by rewrite (dk_revision _ Hd).
Qed.

Lemma Object_cases d id e : device_ok d -> Object d id = Some e ->
  tb_objects (tablesOf d) !! entryIdentifier d e = Some e /\ entryIdentifier d e = if decide (id = AnyDevice) then Identifier d else id.
Proof.
  intros Hd. unfold Object. destruct (_ && _) eqn:E.
  - intros [= <-]. apply andb_true_iff in E as [E1 E2]. bool_to_prop. split; [apply Hd|]. rewrite decide_True; [done|]. destruct id. cbn in *. by subst.
  - intros He. rewrite (entryIdentifier_ok _ _ _ Hd He). split; [done|]. rewrite decide_False; [done|]. by intros ->.
Qed.

(** C23. The object table: after any run of additions, removals, renamings,
    creations, writes and changes by the application, a lookup by identifier
    finds the object of that identifier (the wildcard instance finds the
    Device), a lookup by name finds the object of that name, and the two
    agree, so that no two objects share an identifier or a name; the table
    never exceeds its bound; and a read of Object_List gives the identifiers
    of exactly the objects of the table, each once, the Device first and the
    others by type and instance. *)
Theorem device_table wall cfg d0 d : NewDevice wall cfg = Ok d0 -> rtc device_step d0 d ->
  (forall id e, Object d id = Some e ->
     entryIdentifier d e = (if decide (id = AnyDevice) then Identifier d else id) /\ ObjectByName d (entryName d e) = Some e) /\
  (forall n e, ObjectByName d n = Some e -> entryName d e = n /\ Object d (entryIdentifier d e) = Some e) /\
  Object d AnyDevice = Some theDevice /\ Object d (Identifier d) = Some theDevice /\
  Z.of_nat (size (tb_objects (tablesOf d))) <= dc_MaxObjects (tb_cfg (tablesOf d)) /\
  (exists ids, ReadProperty d (wholeRef PropertyObjectList) = Ok (constructedValue (map (fun id => item (ObjectIDValue id)) (Identifier d :: ids))) /\
     NoDup (Identifier d :: ids) /\ StronglySorted idLe ids /\
     forall id, id ∈ Identifier d :: ids <-> is_Some (tb_objects (tablesOf d) !! id)).
Proof.
  intros Hnew Hrun. destruct (NewDevice_ok _ _ _ Hnew) as [H0 _]. pose proof (device_run_ok _ _ H0 Hrun) as Hd. split_and!; try done; try apply Hd.
  - intros id e He. destruct (Object_cases _ _ _ Hd He) as [Ht Hid]. split; [done|]. unfold ObjectByName.
    by rewrite (proj2 (dk_name _ Hd _ _ Ht)).
  - intros n e. unfold ObjectByName. destruct (tb_names _ !! n) as [id|] eqn:Hn; [|done]. intros He.
    destruct (dk_names _ Hd _ _ Hn) as (e' & He' & <-). rewrite He in He'. injection He' as <-. split; [done|].
    unfold Object. destruct (_ && _) eqn:E; rewrite (entryIdentifier_ok _ _ _ Hd He) in *; [|done]. f_equal.
    apply andb_true_iff in E as [E1 _]. apply Z.eqb_eq in E1. destruct e as [|o]; [done|]. by destruct (dk_object _ Hd _ _ He).
  - unfold Object. destruct (_ && _); [done|apply Hd].
  - destruct (objectIdentifiers_spec _ _ (dk_own _ Hd)) as (H1 & H2 & H3). eexists. split; [by apply read_objectList|done].
Qed.

(** ** Database_Revision *)

(** Database_Revision reads as a counter of the changes of the table: a
    step that adds, removes or renames an object, and no other step, increases
    it by one (modulo 2^32); every other step leaves the objects' identifiers
    and names as they are. *)
Theorem database_revision wall cfg d0 d d' : NewDevice wall cfg = Ok d0 -> rtc device_step d0 d -> device_step d d' ->
  exists rev rev', ReadProperty d (wholeRef PropertyDatabaseRevision) = Ok (UnsignedValue rev) /\
    ReadProperty d' (wholeRef PropertyDatabaseRevision) = Ok (UnsignedValue rev') /\
    ((tb_names (tablesOf d') = tb_names (tablesOf d) /\ rev' = rev) \/
     (tb_names (tablesOf d') <> tb_names (tablesOf d) /\ rev' = u32 (rev + 1))).
Proof.
  intros Hnew Hrun Hstep. destruct (NewDevice_ok _ _ _ Hnew) as [H0 _]. pose proof (device_run_ok _ _ H0 Hrun) as Hd.
  pose proof (device_step_ok _ _ Hd Hstep) as Hd'. do 2 eexists. split; [by apply read_revision|]. split; [by apply read_revision|].
  assert (forall (o : O) cs d1, Add o d = Ok (cs, d1) -> tb_names (tablesOf d1) <> tb_names (tablesOf d) /\ tb_revision (tablesOf d1) = u32 (tb_revision (tablesOf d) + 1)) as Hadd.
  { intros o cs d1 H. apply Add_inv in H as (_ & _ & _ & Hn & _ & _ & ->). cbn [tablesOf putState b_view o_state setState revise tb_names tb_revision].
    split; [|done]. intros He. fold (tablesOf d) in He. rewrite <- He, lookup_insert_eq in Hn. done. }
  destruct Hstep as [o cs d1 H|id cs d1 H|id name cs d1 H|ty inst name id cs d1 H|id e w cs d1 He H|id o o' H Hi Hn|ty f|s|rt| |n]; try by left.
  - right. by eapply Hadd.
  - right. unfold Remove in H. cbv zeta in H. destruct (bool_decide _); [done|]. destruct (tb_objects (tablesOf d) !! id) as [e|] eqn:He; [|done].
    injection H as _ <-. split; [|done]. cbn. intros Hc. destruct (dk_name _ Hd _ _ He) as [_ Hn]. fold (tablesOf d) in Hc.
    by rewrite <- Hc, lookup_delete_eq in Hn.
  - unfold Rename in H. cbv zeta in H. destruct (len name =? 0); [done|]. destruct (tb_objects (tablesOf d) !! id) as [e|] eqn:He; [|done].
    destruct (tb_names (tablesOf d) !! name) as [other|] eqn:Hn; [destruct (bool_decide _); [|done]; injection H as _ <-; by left|right].
    assert (tb_names (tablesOf d1) = <[name := id]> (delete (entryName d e) (tb_names (tablesOf d))) /\ tb_revision (tablesOf d1) = u32 (tb_revision (tablesOf d) + 1)) as [Hn' ->]
      by (destruct e as [|o]; [|destruct (isBase o); [|done]]; by injection H as _ <-).
    split; [|done]. rewrite Hn'. intros Hc. by rewrite <- Hc, lookup_insert_eq in Hn.
  - right. apply Create_inv in H as (f & i & nm & o & _ & _ & _ & _ & H & _). by eapply Hadd.
  - left. destruct e as [|o]; cbn [entryWrite] in H.
    + apply deviceWrite_written in H as (i & p & x & -> & _); [done|done].
    + by apply bind_Ok_inv in H as ([c o'] & _ & [= _ <-]).
Qed.

(** ** CreateObject *)
Lemma chooseInstance_free ty d : Z.of_nat (size (tb_objects (tablesOf d))) < 2 ^ 32 - 1 ->
  exists i, chooseInstance ty None d = Ok i /\ 0 <= i /\ tb_objects (tablesOf d) !! mkObjectID ty i = None /\
    forall k, 0 <= k < i -> is_Some (tb_objects (tablesOf d) !! mkObjectID ty k).
Proof.
  intros Hsize. cbn [chooseInstance]. cbv zeta.
  set (used := fun i => bool_decide (is_Some (tb_objects (tablesOf d) !! mkObjectID ty (u32 i)))).
  assert (forall i, 0 <= i < Z.of_nat (S (size (tb_objects (tablesOf d)))) -> u32 i = i) as Hu by (intros i Hi; apply Z.mod_small; lia).
  destruct (firstFree_map (tb_objects (tablesOf d)) (fun i => mkObjectID ty (u32 i)) used) as (j & Hj & Hb).
  - intros i Hi. by apply bool_decide_eq_true in Hi.
  - intros i j Hi Hj [= He]. by rewrite !Hu in He.
  - pose proof (firstFree_spec used (S (size (tb_objects (tablesOf d)))) 0) as Hs. rewrite Hj in *. destruct Hs as (_ & H1 & H2).
    exists j. rewrite Hu by done. split; [done|]. split; [lia|]. split.
    + unfold used in H1. rewrite Hu in H1 by done. by apply bool_decide_eq_false, eq_None_not_Some in H1.
    + intros k Hk. specialize (H2 k Hk). unfold used in H2. rewrite Hu in H2 by lia. by apply bool_decide_eq_true in H2.
Qed.

Lemma chooseName_free ty i name d : device_ok d -> Z.of_nat (size (tb_names (tablesOf d))) < 2 ^ 32 - 1 ->
  name = [] \/ tb_names (tablesOf d) !! name = None ->
  exists nm, chooseName ty i name d = Ok nm /\ (name <> [] -> nm = name) /\ nm <> [] /\ tb_names (tablesOf d) !! nm = None.
Proof.
  intros Hd Hsize Hname. unfold chooseName. destruct name as [|c name].
  2:{ exists (c :: name). destruct Hname as [|Hn]; done. }
  cbn [len]. change (negb (len [] =? 0)) with false. cbn iota. cbv zeta. set (base := ObjectType_String ty ++ [45] ++ itoa i).
  set (used := fun i => bool_decide (is_Some (ObjectByName d (nameCandidate base i)))).
  assert (forall i, used i = true <-> is_Some (tb_names (tablesOf d) !! nameCandidate base i)) as Hused.
  { intros k. unfold used, ObjectByName. rewrite bool_decide_eq_true. destruct (tb_names (tablesOf d) !! nameCandidate base k) as [id|] eqn:En; [|split; by intros [? ?]].
    destruct (dk_names _ Hd _ _ En) as (e & -> & _). split; by eexists. }
  destruct (firstFree_map (tb_names (tablesOf d)) (nameCandidate base) used) as (j & Hj & Hb).
  - intros k. apply Hused.
  - intros k l Hk Hl. apply nameCandidate_inj; unfold is_u; lia.
  - pose proof (firstFree_spec used (S (size (tb_names (tablesOf d)))) 0) as Hs. rewrite Hj in *. destruct Hs as (_ & H1 & _).
    exists (nameCandidate base j). split; [done|]. split; [done|]. split.
    + unfold nameCandidate, base. destruct (ObjectType_String ty); [|by destruct (j =? 0)]. by destruct (j =? 0).
    + apply eq_None_not_Some. rewrite <- Hused. by rewrite H1.
Qed.

Lemma size_names d : device_ok d -> Z.of_nat (size (tb_names (tablesOf d))) <= Z.of_nat (size (tb_objects (tablesOf d))).
Proof.
  intros Hd. apply inj_le. set (ids := list_to_set (C := gset ObjectIdentifier) (snd <$> map_to_list (tb_names (tablesOf d)))).
  assert (size ids = size (tb_names (tablesOf d))) as <-.
  { unfold ids. rewrite size_list_to_set; [by rewrite length_fmap, length_map_to_list|].
    apply NoDup_fmap_2_strong; [|apply NoDup_map_to_list]. intros [n id] [n' id'] Hn Hn' Heq. cbn in Heq. subst id'.
    apply elem_of_map_to_list in Hn, Hn'. destruct (dk_names _ Hd _ _ Hn) as (e & He & <-), (dk_names _ Hd _ _ Hn') as (e' & He' & <-). congruence. }
  rewrite <- (size_dom (D := gset ObjectIdentifier)). apply subseteq_size. intros id. unfold ids. rewrite elem_of_list_to_set, list_elem_of_fmap.
  intros ([n i] & -> & Hn). apply elem_of_map_to_list in Hn. apply elem_of_dom. destruct (dk_names _ Hd _ _ Hn) as (e & He & _). by eexists.
Qed.

Lemma Add_free (o : O) d : oid_Type (Identifier o) <> ObjectTypeDevice -> Name o <> [] -> tb_objects (tablesOf d) !! Identifier o = None ->
  tb_names (tablesOf d) !! Name o = None -> Z.of_nat (size (tb_objects (tablesOf d))) < dc_MaxObjects (tb_cfg (tablesOf d)) ->
  Add o d = Ok (listChanged d, putState (revise (tablesOf d) (<[Identifier o := anObject (SetNotifier true o)]> (tb_objects (tablesOf d)))
    (<[Name o := Identifier o]> (tb_names (tablesOf d)))) d).
Proof.
  intros Ht Hn Ho Hnm Hmax. unfold Add. cbv zeta. apply Z.eqb_neq in Ht. rewrite Ht, Ho, Hnm. rewrite !bool_decide_eq_false_2 by (by intros [? ?]).
  replace (len (Name o) =? 0) with false by (destruct (Name o); [done|len_lia]). by replace (_ >=? _) with false by lia.
Qed.

(** The configuration and the identifier of the Device stay. *)
Lemma config_run d d' : rtc device_step d d' -> device_ok d -> tb_cfg (tablesOf d') = tb_cfg (tablesOf d) /\ Identifier d' = Identifier d.
Proof.
  induction 1 as [|d d1 d' Hs Hr IH]; intros Hd; [done|].
  cut (tb_cfg (tablesOf d1) = tb_cfg (tablesOf d) /\ Identifier d1 = Identifier d).
  { intros [<- <-]. by apply IH; eapply device_step_ok. }
  clear IH Hr.
  destruct Hs as [o cs d1 H|id cs d1 H|id name cs d1 H|ty inst name id cs d1 H|id e w cs d1 He H|id o o' H Hi Hn|ty f|s|rt| |n]; try done.
  - by apply Add_inv in H as (_ & _ & _ & _ & _ & _ & ->).
  - unfold Remove in H. cbv zeta in H. destruct (bool_decide _); [done|]. destruct (_ !! _); [|done]. by injection H as _ <-.
  - unfold Rename in H. cbv zeta in H. destruct (len name =? 0); [done|]. destruct (tb_objects _ !! id) as [e|]; [|done].
    destruct (tb_names _ !! name); [destruct (bool_decide _); [|done]; by injection H as _ <-|].
    destruct e as [|o]; [|destruct (isBase o); [|done]]; by injection H as _ <-.
  - apply Create_inv in H as (f & i & nm & o & _ & _ & _ & _ & H & _). by apply Add_inv in H as (_ & _ & _ & _ & _ & _ & ->).
  - destruct e as [|o]; cbn [entryWrite] in H; [by apply deviceWrite_written in H as (i & p & x & -> & _)|].
    by apply bind_Ok_inv in H as ([c o'] & _ & [= _ <-]).
Qed.

(** CreateObject: with a factory for the type, room in the table and an
    instance and name that are not taken, [Create] always comes to an end and
    calls the factory once: with the requested instance, or the lowest one
    that is free; with the requested name, or one that no object has. When
    the factory fails the table stays as it was; otherwise the new object is
    found under both, marked deletable, and every other object stays. A taken
    instance or name, a full table, and a type without factory are refused
    with their errors. *)
Theorem create_object wall cfg d0 d ty f inst name : NewDevice wall cfg = Ok d0 -> dc_MaxObjects cfg < 2 ^ 32 - 1 ->
  rtc device_step d0 d -> tb_factories (tablesOf d) !! ty = Some f -> ty <> ObjectTypeDevice ->
  (forall i n o, f i n = Ok o -> Identifier o = mkObjectID ty i /\ Name o = n /\ isBase o = true) ->
  let t := tablesOf d in
  let full := dc_MaxObjects (tb_cfg t) <= Z.of_nat (size (tb_objects t)) in
  match inst with
  | Some i => (i >= MaxObjectInstance -> Create ty inst name d = Err ErrValueOutOfRange) /\
      (i < MaxObjectInstance -> is_Some (tb_objects t !! mkObjectID ty i) -> Create ty inst name d = Err ErrObjectExists)
  | None => True
  end /\
  (match inst with Some i => i < MaxObjectInstance /\ tb_objects t !! mkObjectID ty i = None | None => True end ->
   exists i, match inst with Some i' => i = i' | None => forall k, 0 <= k < i -> is_Some (tb_objects t !! mkObjectID ty k) end /\
     tb_objects t !! mkObjectID ty i = None /\
     (name <> [] -> is_Some (tb_names t !! name) -> forall o, f i name = Ok o -> Create ty inst name d = Err ErrDuplicateName) /\
     (name = [] \/ tb_names t !! name = None -> exists nm, (name <> [] -> nm = name) /\ nm <> [] /\ tb_names t !! nm = None /\
       match f i nm with
       | Err e => Create ty inst name d = Err e
       | Ok o => (full -> Create ty inst name d = Err ErrNoSpaceForObject) /\
           (~ full -> exists d' o', Create ty inst name d = Ok (mkObjectID ty i, listChanged d, d') /\
             o' = SetNotifier true (SetDeletable true o) /\
             Object d' (mkObjectID ty i) = Some (anObject o') /\ ObjectByName d' nm = Some (anObject o') /\
             forall id, id <> mkObjectID ty i -> Object d' id = Object d id)
       end)).
Proof.
  intros Hnew Hmax Hrun Hf Hty Hfac t full. destruct (NewDevice_ok _ _ _ Hnew) as [H0 Hcfg]. pose proof (device_run_ok _ _ H0 Hrun) as Hd.
  assert (Z.of_nat (size (tb_objects t)) < 2 ^ 32 - 1) as Hsize.
  { pose proof (dk_bound _ Hd) as Hb. rewrite (proj1 (config_run _ _ Hrun H0)), Hcfg in Hb. destruct (_ <=? 0) in Hb; unfold t; lia. }
  assert (forall i, Object d (mkObjectID ty i) = tb_objects t !! mkObjectID ty i) as Hobj.
  { intros i. unfold Object. cbn [oid_Type]. apply Z.eqb_neq in Hty. by rewrite Hty. }
  split.
  { destruct inst as [i|]; [|done]. unfold Create. rewrite Hf. unfold chooseInstance. rewrite Hobj. split.
    - intros Hi. by replace (i >=? MaxObjectInstance) with true by lia.
    - intros Hi [e ->]. by replace (i >=? MaxObjectInstance) with false by lia. }
  intros Hinst. assert (exists i, chooseInstance ty inst d = Ok i /\
    match inst with Some i' => i = i' | None => forall k, 0 <= k < i -> is_Some (tb_objects t !! mkObjectID ty k) end /\
    tb_objects t !! mkObjectID ty i = None) as (i & Hi & Hlow & Hfree).
  { destruct inst as [i|].
    - destruct Hinst as [Hlt Hnone]. exists i. unfold chooseInstance. rewrite Hobj, Hnone. by replace (i >=? MaxObjectInstance) with false by lia.
    - destruct (chooseInstance_free ty d Hsize) as (i & Hi & _ & Hn & Hk). by exists i. }
  exists i. split; [done|]. split; [done|]. unfold Create. rewrite Hf, Hi. cbn [bind]. split.
  - intros Hne Htaken o Ho. unfold chooseName. replace (len name =? 0) with false by (destruct name; [done|len_lia]). cbn [negb bind]. rewrite Ho. cbn [bind].
    destruct (Hfac _ _ _ Ho) as (Hid & Hn & Hb). rewrite Hb. unfold Add. rewrite !SetDeletable_Identifier, !SetDeletable_Name, Hid, Hn. cbv zeta. cbn [oid_Type].
    apply Z.eqb_neq in Hty. rewrite Hty. fold t. rewrite Hfree. replace (len name =? 0) with false by (destruct name; [done|len_lia]).
    rewrite bool_decide_eq_false_2 by (by intros [? ?]). by rewrite bool_decide_eq_true_2.
  - intros Hname. destruct (chooseName_free ty i name d Hd) as (nm & Hnm & Hsame & Hne & Hnfree); [pose proof (size_names d Hd); fold t in Hsize; unfold t in *; lia|done|]. fold t in Hnfree.
    exists nm. split; [done|]. split; [done|]. split; [done|]. rewrite Hnm. cbn [bind]. destruct (f i nm) as [o|e] eqn:Ho; [|done]. cbn [bind].
    destruct (Hfac _ _ _ Ho) as (Hid & Hn & Hb). rewrite Hb. set (o1 := SetDeletable true o).
    assert (Identifier o1 = mkObjectID ty i /\ Name o1 = nm) as [Hid1 Hn1] by (unfold o1; by rewrite SetDeletable_Identifier, SetDeletable_Name). split.
    + intros Hfull. unfold Add. rewrite Hid1, Hn1. cbv zeta. cbn [oid_Type]. apply Z.eqb_neq in Hty. rewrite Hty. fold t. rewrite Hfree, Hnfree.
      replace (len nm =? 0) with false by (destruct nm; [done|len_lia]). rewrite !bool_decide_eq_false_2 by (by intros [? ?]).
      by replace (_ >=? _) with true by (unfold full in Hfull; lia).
    + intros Hroom. rewrite Add_free by (rewrite ?Hid1, ?Hn1; try done; fold t; unfold full in Hroom; lia). cbn [bind]. rewrite Hid1, Hn1.
      do 2 eexists. split; [reflexivity|]. split; [reflexivity|]. unfold Object, ObjectByName. cbn [tablesOf putState b_view o_state setState revise tb_names tb_objects].
      split_and!.
      * cbn [oid_Type]. apply Z.eqb_neq in Hty. rewrite Hty. cbn [andb]. apply lookup_insert_eq.
      * by rewrite !lookup_insert_eq.
      * intros id Hne'. destruct (_ && _); [done|]. by rewrite lookup_insert_ne.
Qed.
End Invariant.
