(* ===== verification/DataHandlers.v ===== *)
(** * The data handlers of the server: [server/handlers_data.go]

    ReadProperty, ReadPropertyMultiple, WriteProperty, WritePropertyMultiple,
    Who-Is and Who-Has over the object table of [Device.v] and the codecs of
    [Access.v], [AccessMultiple.v] and [Discovery.v]. A handler that writes
    also returns the changes the observers are told and the new device. *)

From Stdlib Require Import ZArith Lia.
From stdpp Require Import base list gmap.
From S2P Require Import Prelude Value Ids Tags Constructed Apdu Codec Access AccessMultiple Responder ServerKey ServerPacket Discovery Object Events Device.
#[local] Open Scope Z_scope.

Definition isSpecialProperty (id : Z) : bool := (id =? PropertyAll) || (id =? PropertyRequired) || (id =? PropertyOptional).

(** dispatch.go: [rejectFor], and [fail] of an error of the object model. *)
Definition rejectFor (e : error) : svcResult :=
  fail (rejectError
    match e with
    | ErrLimitExceeded => RejectReasonBufferOverflow
    | ErrTrailingData => RejectReasonTooManyArguments
    | ErrUndefinedEnumeration => RejectReasonUndefinedEnumeration
    | _ => RejectReasonInvalidTag
    end).
Definition failWith (e : error) : svcResult := let '(class, code) := AsError e in fail (objectError class code).

Section Handlers.
Context {O : Type} `{!ObjectOps O} {LT : LocalTime}.
Context (cfg : serverConfig).
Implicit Types (d : Device O).

(** ** Reading *)
Definition readProperty d (payload : bytes) : svcResult :=
  match DecodeReadProperty payload (sc_limits cfg) with
  | Err e => rejectFor e
  | Ok r =>
      match Object d (rp_Object r) with
      | None => failWith ErrUnknownObject
      | Some o =>
          if isSpecialProperty (pr_Identifier (rp_Property r)) then failWith ErrUnknownProperty
          else
            match entryRead d o (rp_Property r) with
            | Err e => failWith e
            | Ok v =>
                match EncodeReadPropertyACK (mkReadPropertyACK (entryIdentifier d o) (rp_Property r) v) with
                | Err e => failWith e
                | Ok payload => complexACK payload
                end
            end
      end
  end.

Definition readOne d (o : entry O) (ref : PropertyReference) : PropertyResult :=
  match entryRead d o ref with
  | Err e => mkPropertyResult ref NullValue (Some (AsError e))
  | Ok v => mkPropertyResult ref v None
  end.

(** The properties that one reference of a specification stands for. *)
Definition selected d (o : entry O) (ref : PropertyReference) : list PropertyReference :=
  if isSpecialProperty (pr_Identifier ref) then
    let '(all, required) := entryProperties d o in
    let keep id :=
      if pr_Identifier ref =? PropertyRequired then required id
      else if pr_Identifier ref =? PropertyOptional then negb (required id)
      else true in
    map (fun id => mkPropertyReference id None) (List.filter keep all)
  else [ref].

Definition readSpecification d (spec : ReadAccessSpecification) : ReadAccessResult :=
  match Object d (rs_Object spec) with
  | None => mkReadAccessResult (rs_Object spec)
      (map (fun ref => mkPropertyResult ref NullValue (Some (AsError ErrUnknownObject))) (rs_Properties spec))
  | Some o => mkReadAccessResult (entryIdentifier d o) (map (readOne d o) (flat_map (selected d o) (rs_Properties spec)))
  end.

Definition readPropertyMultiple d (payload : bytes) : svcResult :=
  match DecodeReadPropertyMultiple payload (sc_limits cfg) with
  | Err e => rejectFor e
  | Ok specs =>
      match EncodeReadPropertyMultipleACK (map (readSpecification d) specs) with
      | Err e => failWith e
      | Ok payload => complexACK payload
      end
  end.

(** ** Writing; [hook] is the application's BeforeWrite, if any. *)
Context (hook : option (ObjectIdentifier -> Write -> result unit)).

Definition write d (id : ObjectIdentifier) (w : Write) : result (list Change * Device O) :=
  match Object d id with
  | None => Err ErrUnknownObject
  | Some o =>
      let* _ := match hook with Some h => h (entryIdentifier d o) w | None => Ok tt end in
      entryWrite d o w
  end.

Definition writeOf (ref : PropertyReference) (v : ApplicationValue) (prio : option Z) : Write := mkWrite ref v (default 0 prio).

Definition writeProperty d (payload : bytes) : svcResult * list Change * Device O :=
  match DecodeWriteProperty payload (sc_limits cfg) with
  | Err e => (rejectFor e, [], d)
  | Ok r =>
      match write d (wp_Object r) (writeOf (wp_Property r) (wp_Value r) (wp_Priority r)) with
      | Err e => (failWith e, [], d)
      | Ok (changes, d) => (ack, changes, d)
      end
  end.

Definition multipleError (e : error) (id : ObjectIdentifier) (ref : PropertyReference) : svcResult :=
  let '(class, code) := AsError e in fail (bodyError (EncodeWritePropertyMultipleError (mkWpmError class code id ref))).

(** The writes of one specification, up to the first that fails. *)
Fixpoint writeValues (id : ObjectIdentifier) (vals : list WritePropertyValue) d : option svcResult * list Change * Device O :=
  match vals with
  | [] => (None, [], d)
  | pv :: vals =>
      match write d id (writeOf (wv_Property pv) (wv_Value pv) (wv_Priority pv)) with
      | Err e => (Some (multipleError e id (wv_Property pv)), [], d)
      | Ok (changes, d) => let '(r, more, d) := writeValues id vals d in (r, changes ++ more, d)
      end
  end.
Fixpoint writeSpecifications (specs : list WriteAccessSpecification) d : svcResult * list Change * Device O :=
  match specs with
  | [] => (ack, [], d)
  | spec :: specs =>
      match writeValues (ws_Object spec) (ws_Properties spec) d with
      | (Some r, changes, d) => (r, changes, d)
      | (None, changes, d) => let '(r, more, d) := writeSpecifications specs d in (r, changes ++ more, d)
      end
  end.

Definition writePropertyMultiple d (payload : bytes) : svcResult * list Change * Device O :=
  match DecodeWritePropertyMultiple payload (sc_limits cfg) with
  | Err e => (rejectFor e, [], d)
  | Ok specs => writeSpecifications specs d
  end.

(** ** Discovery: what is sent, to the requester or as a broadcast *)
Inductive outgoing := nothing | replyFrame (frame : bytes) | broadcastFrame (frame : bytes).

(** [inst < low || inst > high], with both limits or none. *)
Definition outsideWindow (inst : Z) (low high : option Z) : bool :=
  match low, high with
  | Some lo, Some hi => (inst <? lo) || (inst >? hi)
  | _, _ => false
  end.

Definition answerTo (p : option peer) (frame : bytes) : outgoing :=
  match p with
  | Some p => if negb (p_broadcast p) then replyFrame frame else broadcastFrame frame
  | None => broadcastFrame frame
  end.

Definition sendIAm d (p : option peer) : outgoing :=
  let seg := if sc_segmentation cfg then 0 else 3 in
  match EncodeIAm (mkIAm (Identifier d) (sc_maxAPDU cfg) seg (dc_VendorID (tb_cfg (tablesOf d)))) with
  | Err _ => nothing
  | Ok payload => answerTo p (AppendUnconfirmedRequest [] (mkUnconfirmedRequest ServiceIAm payload))
  end.

Definition whoIs d (payload : bytes) (p : peer) : outgoing :=
  match DecodeWhoIs payload (sc_limits cfg) with
  | Err _ => nothing
  | Ok r => if outsideWindow (oid_Instance (Identifier d)) (wi_LowLimit r) (wi_HighLimit r) then nothing else sendIAm d (Some p)
  end.

(** [Server.IAm], which the application calls. *)
Definition IAm_ (now : Z) d (dcc : dccState) : outgoing * dccState :=
  let '(may, dcc) := mayInitiate now dcc in (if may then sendIAm d None else nothing, dcc).

Definition whoHas d (payload : bytes) (p : peer) : outgoing :=
  match DecodeWhoHas payload (sc_limits cfg) with
  | Err _ => nothing
  | Ok r =>
      if outsideWindow (oid_Instance (Identifier d)) (wh_LowLimit r) (wh_HighLimit r) then nothing
      else
        let found :=
          match wh_Object r, wh_Name r with
          | Some id, _ => Object d id
          | None, Some name => ObjectByName d (cs_Value name)
          | None, None => None
          end in
        match found with
        | None => nothing
        | Some o =>
            match EncodeIHave (mkIHave (Identifier d) (entryIdentifier d o) (mkCharacterString 0 (entryName d o))) with
            | Err _ => nothing
            | Ok payload => answerTo (Some p) (AppendUnconfirmedRequest [] (mkUnconfirmedRequest ServiceIHave payload))
            end
        end
  end.
End Handlers.
