(* ===== verification/DataService.v ===== *)
(** * What a client sees of the data services

    The handlers of [DataHandlers.v] between the encoders and decoders of a
    client: a multiple write is a prefix of single writes, a multiple read
    agrees with single reads, commands written over the network follow the
    command prioritisation, and Who-Is and Who-Has find exactly what the
    device has. *)

From Stdlib Require Import ZArith Lia.
From stdpp Require Import base list gmap relations.
From S2P Require Import Prelude Value Ids Tags Constructed Apdu Codec Access AccessMultiple Responder ServerKey ServerPacket Discovery Object Commandable Events Device DeviceSafety DataHandlers.
#[local] Open Scope Z_scope.

(** The two halves of a codec's contract, for the encoders by name. *)
Lemma sent {A} `{Codec A} lim (a : A) : fits lim a -> exists bs, encode a = Ok bs /\ bytes_ok bs /\ decode bs lim = Ok a.
Proof. apply decode_encode. Qed.

Section DataService.
Context {O : Type} `{!ObjectOps O} `{!ObjectLaws O} {LT : LocalTime}.
Context (cfg : serverConfig) (hook : option (ObjectIdentifier -> Write -> result unit)).
Implicit Types (d : Device O).

(** ** Multiple writes *)

(** The writes of a request, in order. *)
Definition flatWrites (specs : list WriteAccessSpecification) : list (ObjectIdentifier * WritePropertyValue) :=
  concat (map (fun s => map (pair (ws_Object s)) (ws_Properties s)) specs).

Definition writeItem d (x : ObjectIdentifier * WritePropertyValue) : result (list Change * Device O) :=
  write hook d (fst x) (mkWrite (wv_Property (snd x)) (wv_Value (snd x)) (default 0 (wv_Priority (snd x)))).

(** Writes that all succeed. *)
Fixpoint writeAll (ws : list (ObjectIdentifier * WritePropertyValue)) d : result (list Change * Device O) :=
  match ws with
  | [] => Ok ([], d)
  | x :: ws =>
      let* (changes, d) := writeItem d x in
      let* (more, d) := writeAll ws d in
      Ok (changes ++ more, d)
  end.

Lemma writeAll_app a b d : writeAll (a ++ b) d =
  (let* (changes, d) := writeAll a d in let* (more, d) := writeAll b d in Ok (changes ++ more, d)).
Proof.
  revert d. induction a as [|x a IH]; intros d; cbn [writeAll app bind].
  - by destruct (writeAll b d) as [[]|].
  - destruct (writeItem d x) as [[c d1]|]; [|done]. cbn [bind]. rewrite IH. destruct (writeAll a d1) as [[c1 d2]|]; [|done]. cbn [bind].
    destruct (writeAll b d2) as [[c2 d3]|]; [|done]. cbn [bind]. by rewrite app_assoc.
Qed.

Lemma writeValues_prefix id vals d r cs d' : writeValues hook id vals d = (r, cs, d') ->
  exists n, writeAll (take n (map (pair id) vals)) d = Ok (cs, d') /\
    match r with
    | None => n = length vals
    | Some res => exists pv e, vals !! n = Some pv /\ writeItem d' (id, pv) = Err e /\ res = multipleError e id (wv_Property pv)
    end.
Proof.
  revert r cs d. induction vals as [|pv vals IH]; intros r cs d; cbn [writeValues]; [intros [= <- <- <-]; by exists 0%nat|].
  unfold writeOf. destruct (write hook d id _) as [[c d1]|e] eqn:Ew.
  - destruct (writeValues hook id vals d1) as [[r1 c1] d2] eqn:Ev. intros [= <- <- <-]. destruct (IH _ _ _ Ev) as (n & Ha & Hr).
    exists (S n). split; [|destruct r1; [exact Hr|cbn; lia]]. cbn [map take writeAll]. unfold writeItem at 1. cbn [fst snd]. rewrite Ew. cbn [bind]. by rewrite Ha.
  - intros [= <- <- <-]. exists 0%nat. split; [done|]. by exists pv, e.
Qed.

Lemma writeSpecifications_prefix specs d res cs d' : writeSpecifications hook specs d = (res, cs, d') ->
  exists n, writeAll (take n (flatWrites specs)) d = Ok (cs, d') /\
    ((n = length (flatWrites specs) /\ res = ack) \/
     exists id pv e, flatWrites specs !! n = Some (id, pv) /\ writeItem d' (id, pv) = Err e /\ res = multipleError e id (wv_Property pv)).
Proof.
  revert res cs d. induction specs as [|s specs IH]; intros res cs d; cbn [writeSpecifications]; [intros [= <- <- <-]; exists 0%nat; split; [done|by left]|].
  destruct (writeValues hook (ws_Object s) (ws_Properties s) d) as [[r c] d1] eqn:Ev. destruct (writeValues_prefix _ _ _ _ _ _ Ev) as (n & Ha & Hr).
  unfold flatWrites. cbn [map concat]. fold (flatWrites specs). destruct r as [r|].
  - intros [= <- <- <-]. destruct Hr as (pv & e & Hpv & He & ->). pose proof (lookup_lt_Some _ _ _ Hpv) as Hlt. exists n.
    rewrite take_app_le by (rewrite length_map; lia). split; [done|right]. exists (ws_Object s), pv, e. split; [|done].
    rewrite lookup_app_l by (rewrite length_map; lia). change (map ?f ?l) with (f <$> l). by rewrite list_lookup_fmap, Hpv.
  - destruct (writeSpecifications hook specs d1) as [[r2 c2] d2] eqn:Es. intros [= <- <- <-]. destruct (IH _ _ _ Es) as (m & Hm & Hres). subst n.
    exists (length (ws_Properties s) + m)%nat. rewrite take_app_add' by (by rewrite length_map). rewrite writeAll_app.
    rewrite take_ge in Ha by (rewrite length_map; lia). rewrite Ha. cbn [bind]. rewrite Hm. split; [done|]. destruct Hres as [[-> ->]|(id & pv & e & Hl & He)].
    + left. by rewrite length_app, length_map.
    + right. exists id, pv, e. split; [|done]. rewrite lookup_app_r by (rewrite length_map; lia). rewrite length_map.
      by replace (length (ws_Properties s) + m - length (ws_Properties s))%nat with m by lia.
Qed.

(** C24. WritePropertyMultiple applies a prefix of its writes: a request that
    decodes is carried out as single writes in the order they are listed, up
    to the first that fails; the writes before it stay applied, those after
    it are not tried. The answer is a SimpleACK exactly when all succeeded;
    otherwise the error it carries decodes, at the client, to the class and
    code of the failed write and to the object and property it named. A
    request that does not decode changes nothing. *)
Theorem write_multiple_prefix payload d res cs d' lim : bytes_ok payload -> room lim 1 7 ->
  writePropertyMultiple cfg hook d payload = (res, cs, d') ->
  match DecodeWritePropertyMultiple payload (sc_limits cfg) with
  | Err e => res = rejectFor e /\ cs = [] /\ d' = d
  | Ok specs => exists n, writeAll (take n (flatWrites specs)) d = Ok (cs, d') /\
      ((n = length (flatWrites specs) /\ res = ack) \/
       exists id pv e, flatWrites specs !! n = Some (id, pv) /\ writeItem d' (id, pv) = Err e /\
         (is_u 16 (fst (AsError e)) -> is_u 16 (snd (AsError e)) -> exists body, res = fail (bodyError (Ok body)) /\
            DecodeWritePropertyMultipleError body lim = Ok (mkWpmError (fst (AsError e)) (snd (AsError e)) id (wv_Property pv))))
  end.
Proof.
  intros Hb Hroom. unfold writePropertyMultiple. pose proof (decode_typed (A := list WriteAccessSpecification) (sc_limits cfg) payload Hb) as Ht.
  cbn [decode WritePropertyMultiple_Codec typed] in Ht. destruct (DecodeWritePropertyMultiple _ _) as [specs|e]; [|by intros [= <- <- <-]].
  intros H. destruct (writeSpecifications_prefix _ _ _ _ _ H) as (n & Ha & Hres). exists n. split; [done|]. destruct Hres as [?|(id & pv & e & Hl & He & ->)]; [by left|right].
  exists id, pv, e. split; [done|]. split; [done|]. intros Hc Hk. cbn [yields] in Ht. destruct Ht as (_ & Hs & _).
  assert (oid_ok id /\ ref_ok (wv_Property pv)) as [Hid Href].
  { apply list_elem_of_lookup_2 in Hl. unfold flatWrites in Hl. apply list_elem_of_In, in_concat in Hl as (l & Hin & Hx). apply in_map_iff in Hin as (s & <- & Hin).
    apply in_map_iff in Hx as (pv' & [= <- <-] & Hpv). rewrite Forall_forall in Hs. specialize (Hs s ltac:(by apply list_elem_of_In)). destruct Hs as [Ho Hv].
    split; [done|]. rewrite Forall_forall in Hv. by apply (Hv pv'), list_elem_of_In. }
  unfold multipleError. destruct (AsError e) as [class code]. cbn [fst snd] in *.
  destruct (sent lim (mkWpmError class code id (wv_Property pv))) as (body & Eb & _ & Db); [by split|]. exists body. cbn in Eb, Db. by rewrite Eb.
Qed.

(** ** Single and multiple reads *)

(** What ReadProperty answers to an encoded request. *)
Lemma read_served d (req : ReadPropertyRequest) lim : fits (sc_limits cfg) req -> exists bs, EncodeReadProperty req = Ok bs /\
  match Object d (rp_Object req) with
  | None => readProperty cfg d bs = fail (objectError ErrorClassObject ErrorCodeUnknownObject)
  | Some o =>
      if isSpecialProperty (pr_Identifier (rp_Property req))
      then readProperty cfg d bs = fail (objectError ErrorClassProperty ErrorCodeUnknownProperty)
      else
        match entryRead d o (rp_Property req) with
        | Err e => readProperty cfg d bs = fail (objectError (fst (AsError e)) (snd (AsError e)))
        | Ok v => fits lim (mkReadPropertyACK (entryIdentifier d o) (rp_Property req) v) ->
            exists answer, readProperty cfg d bs = complexACK answer /\
              DecodeReadPropertyACK answer lim = Ok (mkReadPropertyACK (entryIdentifier d o) (rp_Property req) v)
        end
  end.
Proof.
  intros Hf. destruct (sent _ _ Hf) as (bs & Eb & _ & Db). cbn in Eb, Db. exists bs. split; [done|]. unfold readProperty. rewrite Db.
  destruct (Object d (rp_Object req)) as [o|]; [|done]. destruct (isSpecialProperty _); [done|].
  destruct (entryRead d o (rp_Property req)) as [v|e]; [|unfold failWith; by destruct (AsError e)].
  intros Ha. destruct (sent _ _ Ha) as (answer & Ea & _ & Da). cbn in Ea, Da. rewrite Ea. by exists answer.
Qed.

(** The references that some references stand for, on an object that lists
    the properties [all], of which some are required: ALL (8), REQUIRED (105)
    and OPTIONAL (80) stand for those of the listed properties that are of
    that sort, in their order, and any other reference for itself. *)
Definition whole (id : Z) : PropertyReference := mkPropertyReference id None.
Inductive expands (all : list Z) (required : Z -> bool) : list PropertyReference -> list PropertyReference -> Prop :=
| expands_nil : expands all required [] []
| expands_all ref refs out : pr_Identifier ref = 8 -> expands all required refs out ->
    expands all required (ref :: refs) (map whole all ++ out)
| expands_required ref refs out : pr_Identifier ref = 105 -> expands all required refs out ->
    expands all required (ref :: refs) (map whole (List.filter required all) ++ out)
| expands_optional ref refs out : pr_Identifier ref = 80 -> expands all required refs out ->
    expands all required (ref :: refs) (map whole (List.filter (fun id => negb (required id)) all) ++ out)
| expands_plain ref refs out : pr_Identifier ref <> 8 -> pr_Identifier ref <> 105 -> pr_Identifier ref <> 80 -> expands all required refs out ->
    expands all required (ref :: refs) (ref :: out).

Lemma selected_expands d (o : entry O) refs :
  expands (fst (entryProperties d o)) (snd (entryProperties d o)) refs (flat_map (selected d o) refs).
Proof.
  induction refs as [|ref refs IH]; [constructor|]. cbn [flat_map]. unfold selected at 1, isSpecialProperty, PropertyAll, PropertyRequired, PropertyOptional.
  destruct (entryProperties d o) as [all required]. cbn [fst snd] in *.
  destruct (Z.eqb_spec (pr_Identifier ref) 8) as [E|H1]; [rewrite E; cbn [orb]|].
  - change (8 =? 105) with false. change (8 =? 80) with false. cbv iota. rewrite (filter_true all). by apply expands_all.
  - destruct (Z.eqb_spec (pr_Identifier ref) 105) as [E|H2]; [rewrite ?E, ?orb_true_r; by apply expands_required|].
    destruct (Z.eqb_spec (pr_Identifier ref) 80) as [E|H3]; [rewrite ?E, ?orb_true_r; by apply expands_optional|].
    by apply expands_plain.
Qed.

(** C25. ReadPropertyMultiple agrees with ReadProperty: the client decodes one
    result per specification, under the identifier of the object, with
    exactly the references it asked for - ALL, REQUIRED and OPTIONAL stand for
    the properties that the object lists and that are of that sort, in its
    order - and each value or error in it is what a ReadProperty request for
    that single property is answered. *)
Theorem multiple_read_agrees d (specs : list ReadAccessSpecification) lim : fits (sc_limits cfg) specs ->
  fits lim (map (readSpecification d) specs) ->
  exists bs answer results, EncodeReadPropertyMultiple specs = Ok bs /\ readPropertyMultiple cfg d bs = complexACK answer /\
    DecodeReadPropertyMultipleACK answer lim = Ok results /\
    Forall2 (fun spec r =>
      match Object d (rs_Object spec) with
      | None => rr_Object r = rs_Object spec /\ map prs_Property (rr_Properties r) = rs_Properties spec
      | Some o => rr_Object r = entryIdentifier d o /\
          expands (fst (entryProperties d o)) (snd (entryProperties d o)) (rs_Properties spec) (map prs_Property (rr_Properties r))
      end /\
      Forall (fun p =>
        let req := mkReadProperty (rs_Object spec) (prs_Property p) in
        isSpecialProperty (pr_Identifier (prs_Property p)) = false -> fits (sc_limits cfg) req ->
        exists single, EncodeReadProperty req = Ok single /\
          match prs_Err p with
          | Some (class, code) => readProperty cfg d single = fail (objectError class code)
          | None => let ack := mkReadPropertyACK (rr_Object r) (prs_Property p) (prs_Value p) in
              fits lim ack -> exists one, readProperty cfg d single = complexACK one /\ DecodeReadPropertyACK one lim = Ok ack
          end) (rr_Properties r)) specs results.
Proof.
  intros Hf Hr. destruct (sent _ _ Hf) as (bs & Eb & _ & Db). destruct (sent _ _ Hr) as (answer & Ea & _ & Da). cbn in Eb, Db, Ea, Da.
  exists bs, answer, (map (readSpecification d) specs). split; [done|]. unfold readPropertyMultiple. rewrite Db, Ea. split; [done|]. split; [done|].
  clear. induction specs as [|spec specs IH]; constructor; [|done]. clear IH. unfold readSpecification.
  destruct (Object d (rs_Object spec)) as [o|] eqn:Eo; cbn [rr_Object rr_Properties]; rewrite map_map.
  - split.
    + split; [done|]. rewrite (map_ext _ (fun ref => ref)) by (intros ref; unfold readOne; by destruct (entryRead d o ref)).
      rewrite map_id. apply selected_expands.
    + apply Forall_forall. intros p Hp. apply list_elem_of_In, in_map_iff in Hp as (ref & <- & _). intros Hs Hq.
      destruct (read_served d _ lim Hq) as (single & Es & Hserved). exists single. split; [done|]. unfold readOne in *.
      cbn [rp_Object rp_Property] in Hserved. rewrite Eo in Hserved.
      destruct (entryRead d o ref) as [v|e] eqn:Er; cbn [prs_Property prs_Err prs_Value] in *; rewrite Hs, Er in Hserved; [done|].
      by destruct (AsError e).
  - split; [split; [done|]; cbn; apply map_id|]. apply Forall_forall. intros p Hp. apply list_elem_of_In, in_map_iff in Hp as (ref & <- & _).
    intros Hs Hq. destruct (read_served d _ lim Hq) as (single & Es & Hserved). exists single. split; [done|].
    cbn [rp_Object rp_Property] in Hserved. by rewrite Eo in Hserved.
Qed.

(** ** Discovery *)
Lemma answerTo_Some p frame : answerTo (Some p) frame = if p_broadcast p then broadcastFrame frame else replyFrame frame.
Proof. unfold answerTo. by destruct (p_broadcast p). Qed.

(** Limits of a request that admit an instance. *)
Definition inWindow (inst : Z) (low high : option Z) : Prop :=
  match low, high with Some lo, Some hi => lo <= inst <= hi | _, _ => True end.

Lemma outsideWindow_spec inst low high : if outsideWindow inst low high then ~ inWindow inst low high else inWindow inst low high.
Proof. unfold outsideWindow, inWindow. destruct low, high; try done. destruct (_ || _) eqn:E; bool_to_prop; lia. Qed.

(** Discovery finds what the device has: a Who-Is is answered exactly when
    the device's instance is in its window, with an I-Am that decodes to the
    device's identifier, limits and vendor; a Who-Has is answered exactly
    when, besides, the device has the object it seeks by identifier or by
    name, with an I-Have that decodes to that object's identifier and name.
    A broadcast request is answered with a broadcast, any other one to the
    requester. *)
Theorem discovery_answered wall dcfg d0 d p lim : NewDevice wall dcfg = Ok d0 -> rtc device_step d0 d ->
  0 <= dc_Instance dcfg -> is_u 16 (dc_VendorID dcfg) -> is_u 16 (sc_maxAPDU cfg) ->
  let inst := oid_Instance (Identifier d) in
  let sentTo frame := if p_broadcast p then broadcastFrame frame else replyFrame frame in
  (forall req : WhoIs, fits (sc_limits cfg) req -> exists bs, EncodeWhoIs req = Ok bs /\
     (~ inWindow inst (wi_LowLimit req) (wi_HighLimit req) -> whoIs cfg d bs p = nothing) /\
     (inWindow inst (wi_LowLimit req) (wi_HighLimit req) -> exists payload,
        whoIs cfg d bs p = sentTo (AppendUnconfirmedRequest [] (mkUnconfirmedRequest ServiceIAm payload)) /\
        DecodeIAm payload lim = Ok (mkIAm (mkObjectID ObjectTypeDevice (dc_Instance dcfg)) (sc_maxAPDU cfg)
          (if sc_segmentation cfg then 0 else 3) (dc_VendorID dcfg)))) /\
  (forall req : WhoHas, fits (sc_limits cfg) req -> exists bs, EncodeWhoHas req = Ok bs /\
     let found := match wh_Object req with Some id => Object d id | None => ObjectByName d (from_option cs_Value [] (wh_Name req)) end in
     (~ inWindow inst (wh_LowLimit req) (wh_HighLimit req) \/ found = None -> whoHas cfg d bs p = nothing) /\
     forall o, inWindow inst (wh_LowLimit req) (wh_HighLimit req) -> found = Some o ->
       let have := mkIHave (Identifier d) (entryIdentifier d o) (mkCharacterString 0 (entryName d o)) in
       fits lim have -> exists payload,
         whoHas cfg d bs p = sentTo (AppendUnconfirmedRequest [] (mkUnconfirmedRequest ServiceIHave payload)) /\
         DecodeIHave payload lim = Ok have).
Proof.
  intros Hnew Hrun Hi Hv Hm inst sentTo. destruct (NewDevice_ok _ _ _ Hnew) as [H0 _]. destruct (config_run _ _ Hrun H0) as [Hc Hid].
  assert (Identifier d0 = mkObjectID ObjectTypeDevice (dc_Instance dcfg) /\ tb_cfg (tablesOf d0) = withDeviceDefaults dcfg /\
    dc_Instance dcfg < MaxObjectInstance) as (Hid0 & Hc0 & Hlt).
  { unfold NewDevice in Hnew. destruct (_ >=? _) eqn:E; [done|]. destruct (len _ =? 0); [done|]. cbv zeta in Hnew. injection Hnew as <-. bool_to_prop.
    split; [|split; [|lia]]; [by etrans; [apply defineProperties_view|]|]. by rewrite (proj2 (proj2 (defineProperties_view _ _))). }
  rewrite Hid0 in Hid. rewrite Hc0 in Hc. split.
  - intros req Hf. destruct (sent _ _ Hf) as (bs & Eb & _ & Db). cbn in Eb, Db. exists bs. split; [done|]. unfold whoIs. rewrite Db. fold inst.
    pose proof (outsideWindow_spec inst (wi_LowLimit req) (wi_HighLimit req)) as Hw. destruct (outsideWindow _ _ _); split; intros H; try done.
    unfold sendIAm. rewrite Hid, Hc. cbn [withDeviceDefaults dc_VendorID].
    destruct (sent lim (mkIAm (mkObjectID ObjectTypeDevice (dc_Instance dcfg)) (sc_maxAPDU cfg) (if sc_segmentation cfg then 0 else 3) (dc_VendorID dcfg)))
      as (payload & Ep & _ & Dp).
    { split; [split; cbn; unfold MaxObjectInstance in *; [unfold ObjectTypeDevice; lia|lia]|]. split_and!; try done; cbn; destruct (sc_segmentation cfg); lia. }
    cbn in Ep, Dp. rewrite Ep. exists payload. rewrite answerTo_Some. done.
  - intros req Hf. destruct (sent _ _ Hf) as (bs & Eb & _ & Db). cbn in Eb, Db. exists bs. split; [done|]. intros found. unfold whoHas. rewrite Db. fold inst.
    assert (match wh_Object req, wh_Name req with Some id, _ => Object d id | None, Some name => ObjectByName d (cs_Value name) | None, None => None end = found) as Hfound.
    { unfold found. destruct Hf as (_ & _ & Hch). unfold whoHas_choice in Hch. by destruct (wh_Object req), (wh_Name req). }
    pose proof (outsideWindow_spec inst (wh_LowLimit req) (wh_HighLimit req)) as Hw. rewrite Hfound. split.
    + destruct (outsideWindow _ _ _); [done|]. intros [H|H]; [done|]. by rewrite H.
    + intros o Hin Ho Hh. destruct (outsideWindow _ _ _); [done|]. rewrite Ho. destruct (sent _ _ Hh) as (payload & Ep & _ & Dp). cbn [encode decode IHave_Codec] in Ep, Dp.
      rewrite Ep. exists payload. by rewrite answerTo_Some.
Qed.
End DataService.

(** ** Commands over the network *)
Section Commands.
Context {S : Type} `{!CommandState S} {LT : LocalTime}.

(** C6. Commands over the network: a WriteProperty request for Present_Value or
    Relinquish_Default of a commandable object, as a client encodes it, is
    acknowledged exactly when the application's BeforeWrite hook, if there is
    one, lets it pass and the command prioritisation accepts the command; it
    is answered with the error of the hook, or else of the prioritisation
    (and no effect) otherwise. When it is acknowledged the object stands for
    the new commands, no other object changes, and the next ReadProperty of
    Present_Value gives the client the value commanded at the highest
    priority. *)
Theorem network_commands cfg hook wall dcfg (d0 d : Device (Base S)) lim id b check c (r : WritePropertyRequest) :
  NewDevice wall dcfg = Ok d0 -> rtc device_step d0 d -> Object d id = Some (anObject b) -> refines check b c ->
  fits (sc_limits cfg) r -> fits (sc_limits cfg) (mkReadProperty id (wholeRef PropertyPresentValue)) -> wp_Object r = id ->
  pr_Identifier (wp_Property r) = PropertyPresentValue \/ pr_Identifier (wp_Property r) = PropertyRelinquishDefault ->
  exists req read, EncodeWriteProperty r = Ok req /\ EncodeReadProperty (mkReadProperty id (wholeRef PropertyPresentValue)) = Ok read /\
    let w := mkWrite (wp_Property r) (wp_Value r) (default 0 (wp_Priority r)) in
    match let* _ := match hook with Some h => h id w | None => Ok tt end in command_step check w c with
    | Err e => writeProperty cfg hook d req = (failWith e, [], d)
    | Ok c' => exists cs d' b', writeProperty cfg hook d req = (ack, cs, d') /\ rtc device_step d0 d' /\
        Object d' id = Some (anObject b') /\ refines check b' c' /\ (forall id', id' <> id -> Object d' id' = Object d id') /\
        let value := mkReadPropertyACK id (wholeRef PropertyPresentValue) (commanded c') in
        (fits lim value -> exists answer, readProperty cfg d' read = complexACK answer /\ DecodeReadPropertyACK answer lim = Ok value)
    end.
Proof.
  intros Hnew Hrun Hobj Href Hf Hfr Hid Hprop. destruct (NewDevice_ok _ _ _ Hnew) as [H0 _]. pose proof (device_run_ok _ _ H0 Hrun) as Hd.
  destruct (sent _ _ Hf) as (req & Eq & _ & Dq). destruct (sent _ _ Hfr) as (read & Er & _ & Dr). cbn in Eq, Dq, Er, Dr.
  exists req, read. split; [done|]. split; [done|]. intros w. unfold writeProperty. rewrite Dq, Hid. unfold write. rewrite Hobj. cbn [bind entryWrite].
  assert (id <> AnyDevice /\ tb_objects (tablesOf d) !! id = Some (anObject b)) as [Hne Hin].
  { unfold Object in Hobj. destruct (_ && _) eqn:E in Hobj; [done|]. split; [|done]. by intros ->. }
  destruct (dk_object _ Hd _ _ Hin) as [Hib Hty]. unfold writeOf. fold w. cbn [entryIdentifier]. rewrite Hib.
  destruct (match hook with Some h => h id w | None => Ok tt end) as [[]|e]; cbn [bind]; [|done]. assert (0 <= w_Priority w) as Hp.
  { destruct Hf as (_ & _ & Hpr & _). unfold w. cbn. destruct (wp_Priority r); [|done]. rewrite optP_Some in Hpr. unfold prio_ok in Hpr. cbn. lia. }
  assert (match WriteProperty b w with Ok (_, b') => exists c', command_step check w c = Ok c' /\ refines check b' c' | Err e => command_step check w c = Err e end) as Hw.
  { destruct Hprop as [Hpv|Hrd]; [by apply refines_present|by apply refines_relinquish]. }
  destruct (WriteProperty b w) as [[cs b']|e] eqn:Ew; cbn [bind].
  2:{ by rewrite Hw. }
  destruct Hw as (c' & -> & Hr'). exists cs, (putObject id b' d), b'. split; [done|].
  assert (rtc device_step d0 (putObject id b' d)) as Hrun'.
  { eapply rtc_r; [exact Hrun|]. eapply dstep_object; [exact Hin|by eapply write_Identifier|by eapply write_Name]. }
  assert (Object (putObject id b' d) id = Some (anObject b')) as Hobj'.
  { unfold Object. cbn [andb]. apply Z.eqb_neq in Hty. rewrite Hty. cbn. apply lookup_insert_eq. }
  split; [done|]. split; [done|]. split; [done|]. split.
  - intros id' Hne'. unfold Object. destruct (_ && _); [done|]. cbn. by rewrite lookup_insert_ne.
  - intros Hv. destruct (read_served cfg (putObject id b' d) (mkReadProperty id (wholeRef PropertyPresentValue)) lim Hfr) as (read' & Er' & Hs).
    rewrite Er in Er'. injection Er' as <-. cbn [rp_Object rp_Property] in Hs. rewrite Hobj' in Hs.
    change (isSpecialProperty (pr_Identifier (wholeRef PropertyPresentValue))) with false in Hs. cbn iota in Hs. cbn [entryRead entryIdentifier] in Hs.
    rewrite (proj1 (refines_reads _ _ _ Hr')) in Hs. rewrite (write_Identifier _ _ _ _ Ew), Hib in Hs. by apply Hs.
Qed.
End Commands.
