(* ===== verification/ServerWitnesses.v ===== *)
(** * The server at concrete inputs

    A device with one commandable binary output and a factory of binary
    values: the theorems of [DeviceSafety.v] and [DataService.v] applied to
    it. *)

From Stdlib Require Import ZArith Lia.
From stdpp Require Import base list gmap relations.
From S2P Require Import Prelude Value Ids Tags Constructed Apdu Codec Access AccessMultiple Responder ServerKey ServerPacket Discovery Object Commandable Events Point PointSafety EventDetection PointWitnesses Device DeviceSafety DataHandlers DataService.
#[local] Open Scope Z_scope.

Definition deviceConfig : DeviceConfig := mkDeviceConfig 1234 [68] 260 [] [] [] [] [] [] [] 0 0.
Definition aDevice : Type := Device (Base pointState).
Definition noDevice : aDevice := NewBase (mkObjectID 0 0) [] (mkTables deviceConfig ∅ ∅ 0 ∅ 0 ∅ 0 None 0).
Definition device0 : aDevice := okOr noDevice (NewDevice 0 deviceConfig).
Definition device1 : aDevice := snd (okOr ([], noDevice) (Add fan0 device0)).

Lemma device_new : NewDevice 0 deviceConfig = Ok device0.
Proof. apply okOr_Ok. by vm_compute. Qed.
Lemma device_added : Add fan0 device0 = Ok (fst (okOr ([], noDevice) (Add fan0 device0)), device1).
Proof. unfold device1. rewrite <- surjective_pairing. apply okOr_Ok. by vm_compute. Qed.
Lemma device_run1 : rtc device_step device0 device1.
Proof. eapply rtc_once, dstep_add, device_added. Qed.

Definition found {A} (o : option A) : bool := match o with Some _ => true | None => false end.

Lemma device_table_witness : found (ObjectByName device1 [70]) = true /\ Object device1 AnyDevice = Some theDevice /\
  forall e, ObjectByName device1 [70] = Some e -> entryName device1 e = [70].
Proof.
  split; [by vm_compute|]. destruct (device_table _ _ _ _ device_new device_run1) as (_ & Hn & Ha & _). split; [exact Ha|].
  intros e He. by apply Hn.
Defined.

Lemma database_revision_witness : exists rev, ReadProperty device0 (wholeRef PropertyDatabaseRevision) = Ok (UnsignedValue rev) /\
  ReadProperty device1 (wholeRef PropertyDatabaseRevision) = Ok (UnsignedValue (u32 (rev + 1))).
Proof.
  destruct (database_revision _ _ _ _ _ device_new (rtc_refl _ _) (dstep_add _ _ _ _ device_added)) as (rev & rev' & R1 & R2 & [[Hn _]|[_ ->]]).
  - exfalso. apply (f_equal (fun m => isOk (match m !! [70] with Some _ => Ok tt | None => Err ErrOther end))) in Hn. by vm_compute in Hn.
  - exists rev. split; [exact R1|exact R2].
Defined.

(** A factory of binary values. *)
Definition makeValue (i : Z) (n : bytes) : result (Base pointState) :=
  NewBinaryValue (mkPointConfig i n [] true 0 0 0 false 0 [] [] 0 0 None None).
Definition device2 : aDevice := RegisterFactory ObjectTypeBinaryValue makeValue device1.

Lemma makeValue_honest i n o : makeValue i n = Ok o -> Identifier o = mkObjectID ObjectTypeBinaryValue i /\ Name o = n /\ isBase o = true.
Proof. intros H. destruct (newPoint_shape _ _ _ _ _ _ H) as (initial & inc & states & _ & Hi & Hn & _). done. Qed.

Lemma makeValue_ok i n : i < MaxObjectInstance -> n <> [] -> isOk (makeValue i n) = true.
Proof.
  intros Hi Hn. unfold makeValue, NewBinaryValue, newPoint. cbn [pc_Instance pc_Name]. replace (i >? MaxObjectInstance - 1) with false by lia.
  destruct n as [|c n]; [by destruct Hn|]. by replace (len (c :: n) =? 0) with false by len_lia.
Qed.

Lemma device_run2 : rtc device_step device0 device2.
Proof. eapply rtc_r; [apply device_run1|apply dstep_factory]. Qed.

Lemma create_object_witness : exists i nm cs d, Create ObjectTypeBinaryValue None [] device2 = Ok (mkObjectID ObjectTypeBinaryValue i, cs, d) /\
  (forall k, 0 <= k < i -> is_Some (tb_objects (tablesOf device2) !! mkObjectID ObjectTypeBinaryValue k)) /\ ObjectByName d nm <> None.
Proof.
  destruct (create_object 0 deviceConfig device0 device2 ObjectTypeBinaryValue makeValue None [] device_new) as [_ H].
  - by vm_compute.
  - apply device_run2.
  - unfold device2, RegisterFactory, updateTables, tablesOf. cbn [putState b_view o_state setState tb_factories]. apply lookup_insert_eq.
  - done.
  - apply makeValue_honest.
  - destruct (H I) as (i & Hlow & _ & _ & Hname). destruct (Hname (or_introl eq_refl)) as (nm & _ & Hne & _ & Hf). exists i, nm.
    destruct (makeValue i nm) as [o|e] eqn:Ho.
    + destruct Hf as [_ Hroom]. destruct Hroom as (d' & o' & Hc & _ & _ & Hn & _); [by vm_compute|]. exists (listChanged device2), d'. split; [exact Hc|].
      split; [exact Hlow|]. rewrite Hn. discriminate.
    + exfalso. assert (i < MaxObjectInstance) as Hi.
      { destruct (Z_lt_le_dec i 1) as [|Hge]; [unfold MaxObjectInstance; lia|]. destruct (Hlow 0 ltac:(lia)) as [x Hx]. by vm_compute in Hx. }
      pose proof (makeValue_ok i nm Hi Hne) as Hok. rewrite Ho in Hok. discriminate.
Defined.

(** ** The data services *)
Lemma enum_fits (e : Z) : is_u 32 e -> value_ok (Normalize DefaultDecodeLimits) 0 (EnumValue e).
Proof. intros He. apply (vf_primitive _ _ (EnumValue e)), ap_enum, He. Qed.

Definition fanID : ObjectIdentifier := mkObjectID ObjectTypeBinaryOutput 2.
Definition presentRef : PropertyReference := wholeRef PropertyPresentValue.
Definition threeWrites : list WriteAccessSpecification :=
  [mkWriteAccess fanID [mkWriteValue presentRef (EnumValue 1) (Some 8); mkWriteValue presentRef (EnumValue 2) None;
    mkWriteValue presentRef (EnumValue 0) (Some 5)]].
Definition threeWritesPayload : bytes := Eval vm_compute in okOr [] (EncodeWritePropertyMultiple threeWrites).
Definition afterWrites := writePropertyMultiple sampleServer None device1 threeWritesPayload.
Definition isAck (r : svcResult) : bool := match r with ack => true | _ => false end.

(** The second of three writes is out of range: only the first one stays. *)
Lemma write_multiple_prefix_witness : exists n pv e, flatWrites threeWrites !! n = Some (fanID, pv) /\
  writeItem None (snd afterWrites) (fanID, pv) = Err e /\
  exists cs, writeAll None (take n (flatWrites threeWrites)) device1 = Ok (cs, snd afterWrites).
Proof.
  assert (bytes_ok threeWritesPayload) as Hb by (unfold threeWritesPayload; solve_bytes).
  pose proof (write_multiple_prefix sampleServer None threeWritesPayload device1 (fst (fst afterWrites)) (snd (fst afterWrites)) (snd afterWrites)
    DefaultDecodeLimits Hb ltac:(unfold room; vm_compute; intuition congruence) ltac:(unfold afterWrites; by destruct (writePropertyMultiple _ _ _ _) as [[]])) as H.
  assert (DecodeWritePropertyMultiple threeWritesPayload (sc_limits sampleServer) = Ok threeWrites) as Hd by (vm_compute; reflexivity).
  rewrite Hd in H. destruct H as (n & Ha & [[_ Hack]|(id & pv & e & Hl & He & _)]).
  - exfalso. assert (isAck (fst (fst afterWrites)) = false) as Hf by (vm_compute; reflexivity). rewrite Hack in Hf. discriminate.
  - assert (id = fanID) as ->.
    { apply list_elem_of_lookup_2 in Hl. unfold threeWrites, flatWrites in Hl. cbn in Hl. rewrite !elem_of_cons, elem_of_nil in Hl.
      destruct Hl as [Hl|[Hl|[Hl|[]]]]; by injection Hl. }
    exists n, pv, e. split; [exact Hl|]. split; [exact He|]. by eexists.
Defined.

(** A value and an unknown property. *)
Definition twoReads : list ReadAccessSpecification := [mkReadAccess fanID [presentRef; wholeRef 9999]].
Lemma multiple_read_agrees_witness : exists bs answer results, EncodeReadPropertyMultiple twoReads = Ok bs /\
  readPropertyMultiple sampleServer device1 bs = complexACK answer /\
  DecodeReadPropertyMultipleACK answer DefaultDecodeLimits = Ok results /\ map rr_Object results = [fanID].
Proof.
  assert (map (readSpecification device1) twoReads =
    [mkReadAccessResult fanID [mkPropertyResult presentRef (EnumValue 0) None; mkPropertyResult (wholeRef 9999) NullValue (Some (2, 32))]]) as Hr
    by (vm_compute; reflexivity).
  destruct (multiple_read_agrees sampleServer device1 twoReads DefaultDecodeLimits) as (bs & answer & results & H1 & H2 & H3 & H4).
  - split; [done|]. split; [|vm_compute; intuition congruence].
    apply Forall_singleton. split; [vm_compute; intuition congruence|]. split; [done|].
    constructor; [split; [vm_compute; intuition congruence|done]|apply Forall_singleton; split; [vm_compute; intuition congruence|done]].
  - rewrite Hr. exists 0%nat. split; [|vm_compute; intuition congruence]. apply Forall_singleton. split; [vm_compute; intuition congruence|].
    constructor; [split; [split; [vm_compute; intuition congruence|done]|apply enum_fits; unfold is_u; lia]|]. apply Forall_singleton.
    split; [split; [vm_compute; intuition congruence|done]|]. unfold is_u. cbn. intuition (lia || done).
  - exists bs, answer, results. split; [exact H1|]. split; [exact H2|]. split; [exact H3|].
    apply Forall2_cons_inv_l in H4 as (r & l & [Hr1 _] & H4 & ->). apply Forall2_nil_inv_l in H4 as ->. cbn [map]. f_equal.
    assert (found (Object device1 fanID) = true) as Hf by (vm_compute; reflexivity). cbn [rs_Object] in Hr1.
    destruct (Object device1 fanID) as [o|] eqn:Ho; [|discriminate]. destruct Hr1 as [-> _].
    destruct (Object_cases _ _ _ (device_run_ok _ _ (proj1 (NewDevice_ok _ _ _ device_new)) device_run1) Ho) as [_ ->]. reflexivity.
Defined.

(** A unicast Who-Is for 1000 to 2000, and a Who-Has by name. *)
Lemma discovery_answered_witness : exists bs payload, EncodeWhoIs (mkWhoIs (Some 1000) (Some 2000)) = Ok bs /\
  whoIs sampleServer device1 bs samplePeer = replyFrame (AppendUnconfirmedRequest [] (mkUnconfirmedRequest ServiceIAm payload)) /\
  DecodeIAm payload DefaultDecodeLimits = Ok (mkIAm (mkObjectID ObjectTypeDevice 1234) 1476 0 260).
Proof.
  destruct (discovery_answered sampleServer _ _ _ _ samplePeer DefaultDecodeLimits device_new device_run1) as [H _].
  - done.
  - unfold is_u. cbn. lia.
  - unfold is_u. cbn. lia.
  - destruct (H (mkWhoIs (Some 1000) (Some 2000))) as (bs & Hb & _ & Hi).
    + split; vm_compute; intuition congruence.
    + destruct Hi as (payload & Hp & Hd); [vm_compute; intuition congruence|]. exists bs, payload. split; [exact Hb|]. split; [exact Hp|exact Hd].
Defined.

Lemma fan_found : Object device1 fanID = Some (anObject (SetNotifier true fan0)).
Proof.
  destruct (Add_inv _ _ _ _ device_added) as (_ & _ & _ & _ & _ & _ & ->). assert (Identifier fan0 = fanID) as -> by (vm_compute; reflexivity).
  unfold Object, tablesOf. cbn [fanID oid_Type oid_Instance putState b_view o_state setState revise tb_objects].
  change (ObjectTypeBinaryOutput =? ObjectTypeDevice) with false. cbn [andb]. apply lookup_insert_eq.
Qed.

(** An application that keeps priority 1 for itself. *)
Definition keepsFirst : option (ObjectIdentifier -> Write -> result unit) :=
  Some (fun _ w => if w_Priority w =? 1 then Err ErrWriteAccessDenied else Ok tt).

(** Fan on at priority 8. *)
Definition fanOn : WritePropertyRequest := mkWriteProperty fanID presentRef (EnumValue 1) (Some 8).
Lemma network_commands_witness : exists req read answer cs d, EncodeWriteProperty fanOn = Ok req /\
  writeProperty sampleServer keepsFirst device1 req = (ack, cs, d) /\ readProperty sampleServer d read = complexACK answer /\
  DecodeReadPropertyACK answer DefaultDecodeLimits = Ok (mkReadPropertyACK fanID presentRef (EnumValue 1)).
Proof.
  destruct (newPoint_commandable _ _ _ _ _ fan_new) as (initial & inc & states & Hi & Hr). vm_compute in Hi. injection Hi as <- _ _.
  assert (refines (checkPoint (o_state (b_view fan0))) (SetNotifier true fan0) (mkCommand ∅ (EnumValue 0))) as Hr'
    by (destruct Hr as [[H1 H2 H3 H4 H5] Hc Hm]; split; [by split|exact Hc|exact Hm]).
  assert (value_ok (Normalize DefaultDecodeLimits) 0 (EnumValue 1)) as Hv by (apply enum_fits; unfold is_u; cbn; lia).
  destruct (network_commands sampleServer keepsFirst _ _ _ _ DefaultDecodeLimits fanID _ _ _ fanOn device_new device_run1 fan_found Hr') as (req & read & Hq & _ & H).
  - split; [vm_compute; intuition congruence|]. split; [split; [vm_compute; intuition congruence|done]|]. split; [apply optP_Some; vm_compute; intuition congruence|].
    exists 0%nat, (valueElements (EnumValue 1)). split; [exact Hv|]. unfold room. vm_compute. intuition congruence.
  - split; [vm_compute; intuition congruence|]. split; [vm_compute; intuition congruence|]. split; [vm_compute; intuition congruence|done].
  - done.
  - by left.
  - assert (command_step (checkPoint (o_state (b_view fan0))) (mkWrite presentRef (EnumValue 1) (default 0 (Some 8))) (mkCommand ∅ (EnumValue 0)) =
      Ok (mkCommand {[ 8 := EnumValue 1 ]} (EnumValue 0))) as Hc by (vm_compute; reflexivity).
    change (wp_Property fanOn) with presentRef in H. change (wp_Value fanOn) with (EnumValue 1) in H. change (wp_Priority fanOn) with (Some 8) in H.
    cbv zeta in H. change (keepsFirst) with (Some (fun (_ : ObjectIdentifier) w => if w_Priority w =? 1 then Err ErrWriteAccessDenied else Ok tt)) in H.
    cbn [w_Priority default bind Z.eqb Pos.eqb from_option Datatypes.id] in H, Hc. rewrite Hc in H. destruct H as (cs & d' & b' & Hw & _ & _ & _ & _ & Hread). destruct Hread as (answer & Ha & Hd).
    + assert (commanded (mkCommand {[8 := EnumValue 1]} (EnumValue 0)) = EnumValue 1) as -> by (vm_compute; reflexivity).
      split; [vm_compute; intuition congruence|]. split; [split; [vm_compute; intuition congruence|done]|].
      exists 0%nat, (valueElements (EnumValue 1)). split; [exact Hv|]. unfold room. vm_compute. intuition congruence.
    + exists req, read, answer, cs, d'. split; [exact Hq|]. split; [exact Hw|]. split; [exact Ha|exact Hd].
Defined.
