(* ===== verification/PropertyValues.v ===== *)
(** * BACnetPropertyValue lists

    The property values of COV notifications and of CreateObject
    ([service/server_codecs.go], [service/cov.go]), both ways. *)

From Stdlib Require Import ZArith Lia.
From stdpp Require Import base list.
From S2P Require Import Prelude Value Tags Constructed Writer Codec Access AccessMultiple Object.

Record PropertyValue := mkPropertyValue { pv_Property : PropertyReference; pv_Value : ApplicationValue; pv_Priority : option Z }.

(** One turn of the loop of [appendPropertyValues]. *)
Definition appendPropertyValue (dst : bytes) (pv : PropertyValue) : result bytes :=
  let* dst := AppendContextUnsigned dst 0 (pr_Identifier (pv_Property pv)) in
  let* dst :=
    match pr_ArrayIndex (pv_Property pv) with
    | Some i => AppendContextUnsigned dst 1 i
    | None => Ok dst
    end in
  let* dst := AppendContextTagged dst 2 [item (pv_Value pv)] in
  appendPriority 3 (pv_Priority pv) dst.
Definition appendPropertyValues (dst : bytes) (values : list PropertyValue) : result bytes := foldAppend appendPropertyValue dst values.

(** The state of [decodeCOVValues]. *)
Record covValues := mkCovValues {
  cv_out : list PropertyValue; cv_cur : PropertyValue; cv_haveProp : bool; cv_haveIndex : bool; cv_haveValue : bool; cv_havePriority : bool }.
Definition zeroPropertyValue : PropertyValue := mkPropertyValue (mkPropertyReference 0 None) NullValue None.
Definition covFlush (st : covValues) : result covValues :=
  if negb (cv_haveProp st) then Ok st
  else if negb (cv_haveValue st) then Err ErrMalformed
  else Ok (mkCovValues (cv_out st ++ [cv_cur st]) zeroPropertyValue false false false false).

Definition covField (el : Element) (st : covValues) : result covValues :=
  if (el_TagNumber el =? 0) && negb (IsContextConstructed el) then
    let* st := covFlush st in
    let* u := ContextUnsigned32 el in
    let c := cv_cur st in
    Ok (mkCovValues (cv_out st) (mkPropertyValue (mkPropertyReference u (pr_ArrayIndex (pv_Property c))) (pv_Value c) (pv_Priority c))
      true (cv_haveIndex st) (cv_haveValue st) (cv_havePriority st))
  else if (el_TagNumber el =? 1) && negb (IsContextConstructed el) then
    if negb (cv_haveProp st) || cv_haveIndex st || cv_haveValue st then Err ErrMalformed
    else
      let* idx := ContextUnsigned32 el in
      let c := cv_cur st in
      Ok (mkCovValues (cv_out st) (mkPropertyValue (mkPropertyReference (pr_Identifier (pv_Property c)) (Some idx)) (pv_Value c) (pv_Priority c))
        (cv_haveProp st) true (cv_haveValue st) (cv_havePriority st))
  else if (el_TagNumber el =? 2) && IsContextConstructed el then
    if negb (cv_haveProp st) || cv_haveValue st then Err ErrMalformed
    else
      let c := cv_cur st in
      Ok (mkCovValues (cv_out st) (mkPropertyValue (pv_Property c) (propertyValue (av_Elements (el_Value el))) (pv_Priority c))
        (cv_haveProp st) (cv_haveIndex st) true (cv_havePriority st))
  else if (el_TagNumber el =? 3) && negb (IsContextConstructed el) then
    if negb (cv_haveValue st) || cv_havePriority st then Err ErrMalformed
    else
      let* prio := decodePriority None el in
      let c := cv_cur st in
      Ok (mkCovValues (cv_out st) (mkPropertyValue (pv_Property c) (pv_Value c) prio)
        (cv_haveProp st) (cv_haveIndex st) (cv_haveValue st) true)
  else Err ErrMalformed.

Definition decodeCOVValues (elements : list Element) : result (list PropertyValue) :=
  let* st := forElements covField elements (mkCovValues [] zeroPropertyValue false false false false) in
  let* st := covFlush st in
  Ok (cv_out st).

(** ** The round trip *)
Definition propertyValueElements (p : PropertyValue) : list Element :=
  [contextElement 0 (encodeUnsigned (pr_Identifier (pv_Property p)))] ++
  match pr_ArrayIndex (pv_Property p) with Some i => [contextElement 1 (encodeUnsigned i)] | None => [] end ++
  [mkElement true 2 false false (constructedValue (valueElements (pv_Value p)))] ++
  match pv_Priority p with Some q => [contextElement 3 (encodeUnsigned q)] | None => [] end.

Definition propertyValue_ok (lim : DecodeLimits) (d : nat) (p : PropertyValue) : Prop :=
  ref_ok (pv_Property p) /\ value_ok lim d (pv_Value p) /\ optP prio_ok (pv_Priority p).

Lemma AppendTag_item dst v : AppendTag dst (item v) = AppendApplicationValue dst v.
Proof. by destruct v as [[]]. Qed.

(** Items: application values as elements of a list. *)
Definition appItem (v : ApplicationValue) : Element := appElement (AVTagNumber v) v.
Lemma writes_item lim d v : limits_positive lim -> app_prim lim v -> writes lim d (fun dst => AppendTag dst (item v)) [appItem v].
Proof. intros Hlim Hv. eapply writes_ext; [intros; symmetry; apply AppendTag_item|exact (writes_value lim Hlim d v Hv)]. Qed.

Lemma writes_cons lim d {A} (f : bytes -> A -> result bytes) a l e es :
  writes lim d (fun dst => f dst a) [e] -> writes lim d (fun dst => foldAppend f dst l) es -> writes lim d (fun dst => foldAppend f dst (a :: l)) (e :: es).
Proof. intros Ha Hl. exact (writes_seq lim d _ _ _ _ Ha Hl). Qed.

Lemma writes_items lim d vs : limits_positive lim -> Forall (app_prim lim) vs -> writes lim d (fun dst => foldAppend AppendTag dst (map item vs)) (map appItem vs).
Proof. intros Hlim Hv. induction Hv as [|v vs Hv Hvs IH]; [apply writes_nil|]. apply writes_cons; [by apply writes_item|exact IH]. Qed.

Lemma writes_tagged_items lim d tn vs : limits_positive lim -> tagNumber_ok tn -> Forall (app_prim lim) vs ->
  writes lim (S d) (fun dst => AppendContextTagged dst tn (map item vs)) [mkElement true tn false false (constructedValue (map appItem vs))].
Proof.
  intros Hlim Htn Hv. eapply writes_ext; [|apply (writes_constructed lim d tn (fun dst => foldAppend AppendTag dst (map item vs))); [done|by apply writes_items]].
  intros dst. unfold AppendContextTagged. unfold tagNumber_ok, tagNumberReserved in *. by decide_test.
Qed.

Lemma byte4_time lim t : time_typed t -> app_prim lim (timeValue t).
Proof. destruct t. intros (H1 & H2 & H3 & H4). by apply ap_time. Qed.
Lemma byte4_date lim d : date_typed d -> app_prim lim (dateValue d).
Proof. destruct d. intros (H1 & H2 & H3 & H4). by apply ap_date. Qed.

(** A value in a tagged wrapper of its own. *)
Lemma writes_tagged_value lim d tn v es : limits_positive lim -> tagNumber_ok tn -> value_fits lim d v es ->
  writes lim (S d) (fun dst => AppendContextTagged dst tn [item v]) [mkElement true tn false false (constructedValue es)].
Proof.
  intros Hlim Htn Hv. eapply writes_ext; [|apply (writes_constructed lim d tn (fun dst => AppendApplicationValue dst v)); [done|by apply writes_value_fits]].
  intros dst. unfold AppendContextTagged. unfold tagNumber_ok, tagNumberReserved in *. decide_test. cbn [foldAppend].
  rewrite AppendTag_item. by destruct (AppendApplicationValue _ v).
Qed.

Ltac writes_hook ::=
  lazymatch goal with
  | |- writes _ _ (fun dst => appendPriority _ (Some _) dst) _ => apply writes_priority
  | |- writes _ _ (fun dst => appendPriority _ None dst) _ => apply writes_no_priority
  | |- writes _ _ (appendPriority _ (Some _)) _ => apply writes_priority
  | |- writes _ _ (appendPriority _ None) _ => apply writes_no_priority
  | |- writes _ _ (fun dst => AppendContextTagged dst _ [item _]) _ => eapply writes_tagged_value
  end.

Lemma writes_propertyValue lim d p : limits_positive lim -> propertyValue_ok lim d p -> 8 <= MaxOctetStringLength lim ->
  writes lim (S d) (fun dst => appendPropertyValue dst p) (propertyValueElements p).
Proof.
  intros Hlim. destruct p as [[pid idx] v prio]; intros ([Hp Hi] & Hv & Hq) Hm;
    cbn [pv_Property pv_Value pv_Priority pr_Identifier pr_ArrayIndex] in *;
    unfold appendPropertyValue, propertyValueElements; cbn [pv_Property pv_Value pv_Priority pr_Identifier pr_ArrayIndex].
  unfold value_ok in Hv. destruct idx, prio; rewrite ?optP_Some in *; repeat writes_step.
Qed.

Lemma writes_propertyValues lim d l : limits_positive lim -> Forall (propertyValue_ok lim d) l -> 8 <= MaxOctetStringLength lim ->
  writes lim (S d) (fun dst => appendPropertyValues dst l) (concat (map propertyValueElements l)).
Proof.
  intros Hlim Hl Hm. apply writes_foldAppend. intros p Hp. apply writes_propertyValue; [done| |done]. by eapply Forall_forall in Hl.
Qed.

Ltac decode_hook ::=
  cbn [cv_out cv_cur cv_haveProp cv_haveIndex cv_haveValue cv_havePriority pv_Property pv_Value pv_Priority pr_Identifier pr_ArrayIndex zeroPropertyValue].

Lemma covField_item lim d p st out : propertyValue_ok lim d p -> covFlush st = Ok (mkCovValues out zeroPropertyValue false false false false) ->
  exists st', forElements covField (propertyValueElements p) st = Ok st' /\
    covFlush st' = Ok (mkCovValues (out ++ [p]) zeroPropertyValue false false false false).
Proof.
  destruct p as [[pid idx] v prio]; intros ([Hp Hi] & Hv & Hq) Hf;
    cbn [pv_Property pv_Value pv_Priority pr_Identifier pr_ArrayIndex] in *;
    unfold propertyValueElements; cbn [pv_Property pv_Value pv_Priority pr_Identifier pr_ArrayIndex app].
  unfold value_ok in Hv. erewrite forElements_step; [|unfold covField; decode_simp; rewrite Hf; decode_simp; reflexivity].
  destruct idx, prio; rewrite ?optP_Some in *; cbn [app]; decode_run; eexists; split; reflexivity.
Qed.

Lemma decodeCOVValues_encode lim d l : Forall (propertyValue_ok lim d) l ->
  decodeCOVValues (concat (map propertyValueElements l)) = Ok l.
Proof.
  intros Hl. unfold decodeCOVValues.
  assert (forall st out, covFlush st = Ok (mkCovValues out zeroPropertyValue false false false false) -> exists st',
    forElements covField (concat (map propertyValueElements l)) st = Ok st' /\
    covFlush st' = Ok (mkCovValues (out ++ l) zeroPropertyValue false false false false)) as H.
  { induction Hl as [|p l Hp Hl IH]; intros st out Hf; cbn [map concat].
    - exists st. by rewrite app_nil_r.
    - destruct (covField_item lim d p st out Hp Hf) as (st1 & H1 & H2). rewrite forElements_app, H1. cbn [bind].
      destruct (IH _ _ H2) as (st' & H3 & H4). exists st'. split; [done|]. by rewrite H4, <- app_assoc. }
  destruct (H (mkCovValues [] zeroPropertyValue false false false false) [] eq_refl) as (st' & -> & H2). cbn [bind]. by rewrite H2.
Qed.

(** ** What the decoder returns *)
Definition propValue_typed (lim : DecodeLimits) (p : PropertyValue) : Prop :=
  ref_ok (pv_Property p) /\ value_typed lim (pv_Value p) /\ optP prio_ok (pv_Priority p).
Definition cov_typed (lim : DecodeLimits) (st : covValues) : Prop :=
  Forall (propValue_typed lim) (cv_out st) /\ propValue_typed lim (cv_cur st).

Lemma zeroPropertyValue_typed lim : propValue_typed lim zeroPropertyValue.
Proof. split; [done|]. split; [left; by apply ap_null|done]. Qed.

Lemma yields_covFlush lim st : cov_typed lim st -> yields (cov_typed lim) (covFlush st).
Proof.
  intros [Ho Hc]. unfold covFlush. repeat yields_step; [by split|]. split; cbn; [|by apply zeroPropertyValue_typed].
  apply Forall_app. split; [done|]. by apply Forall_singleton.
Qed.
#[export] Hint Resolve yields_covFlush : go.

Lemma yields_covField lim el st : wire lim el -> cov_typed lim st -> yields (cov_typed lim) (covField el st).
Proof.
  intros Hw Hst. unfold covField. repeat yields_step.
  - destruct H as [H1 ([H2 H5] & H3 & H4)]. split; [done|]. by split.
  - destruct Hst as [H1 ([H2 H5] & H3 & H4)]. split; [done|]. split; [split; [done|by apply optP_Some]|by split].
  - destruct Hst as [H1 ([H2 H5] & H3 & H4)]. apply andb_true_iff in E1 as [_ Ec].
    split; [done|]. split; [by split|]. split; [by apply propertyValue_typed, yields_inner|done].
  - destruct Hst as [H1 ([H2 H5] & H3 & H4)]. split; [done|]. split; [by split|]. by split.
Qed.

Lemma yields_decodeCOVValues lim els : Forall (wire lim) els -> yields (Forall (propValue_typed lim)) (decodeCOVValues els).
Proof.
  intros Hw. unfold decodeCOVValues. eapply yields_bind; [eapply (yields_forElements (cov_typed lim)); [apply yields_covField|exact Hw|]|].
  - split; [done|apply zeroPropertyValue_typed].
  - intros st Hst. yields_step. cbn [yields]. apply H.
Qed.
