(* ===== verification/CovCodecs.v ===== *)
(** * Change-of-value services ([service/cov.go], [service/server_codecs.go])

    SubscribeCOV, SubscribeCOVProperty and the COV notification. *)

From Stdlib Require Import ZArith Lia.
From stdpp Require Import base list.
From S2P Require Import Prelude Value Tags Constructed Writer Codec Access AccessMultiple Object PropertyValues.

(** ** SubscribeCOV *)
Record SubscribeCOVRequest := mkSubscribeCOV {
  sb_ProcessIdentifier : Z; sb_MonitoredObject : ObjectIdentifier; sb_IssueConfirmed : bool; sb_Lifetime : Z; sb_Cancellation : bool }.

Definition EncodeSubscribeCOV (req : SubscribeCOVRequest) : result bytes :=
  newBuffer (fun dst =>
    let* dst := AppendContextUnsigned dst 0 (sb_ProcessIdentifier req) in
    let* dst := AppendContextObjectID dst 1 (sb_MonitoredObject req) in
    if sb_Cancellation req then Ok dst
    else
      let* dst := AppendContextBool dst 2 (sb_IssueConfirmed req) in
      AppendContextUnsigned dst 3 (sb_Lifetime req)).

Definition subscribeFields : Type := option Z * option ObjectIdentifier * option bool * option Z.

Definition subscribeCOVField (el : Element) (st : subscribeFields) : result subscribeFields :=
  let '(pid, obj, confirmed, lifetime) := st in
  if el_TagNumber el =? 0 then let* pid := setOnce pid (checkedUnsigned32 el) in Ok (pid, obj, confirmed, lifetime)
  else if el_TagNumber el =? 1 then let* obj := setOnce obj (ContextObjectID el) in Ok (pid, obj, confirmed, lifetime)
  else if el_TagNumber el =? 2 then let* confirmed := setOnce confirmed (ContextBool el) in Ok (pid, obj, confirmed, lifetime)
  else if el_TagNumber el =? 3 then let* lifetime := setOnce lifetime (checkedUnsigned32 el) in Ok (pid, obj, confirmed, lifetime)
  else Err ErrMalformed.

(** The subscription, or a cancellation when both [issueConfirmed] and
    [lifetime] are missing. *)
Definition subscription (pid : Z) (obj : ObjectIdentifier) (confirmed : option bool) (lifetime : option Z) : result SubscribeCOVRequest :=
  match confirmed, lifetime with
  | None, None => Ok (mkSubscribeCOV pid obj false 0 true)
  | Some c, Some l => Ok (mkSubscribeCOV pid obj c l false)
  | _, _ => Err ErrMalformed
  end.

Definition DecodeSubscribeCOV (payload : bytes) (limits : DecodeLimits) : result SubscribeCOVRequest :=
  let* elements := parseElements payload limits in
  let* (pid, obj, confirmed, lifetime) := forElements subscribeCOVField elements (None, None, None, None) in
  let* pid := required pid in
  let* obj := required obj in
  subscription pid obj confirmed lifetime.

(** A cancellation carries neither flag nor lifetime. *)
Definition subscribe_ok (req : SubscribeCOVRequest) : Prop :=
  is_u 32 (sb_ProcessIdentifier req) /\ oid_ok (sb_MonitoredObject req) /\
  if sb_Cancellation req then sb_IssueConfirmed req = false /\ sb_Lifetime req = 0 else is_u 32 (sb_Lifetime req).

Definition fields_typed (st : subscribeFields) : Prop :=
  let '(pid, obj, confirmed, lifetime) := st in optP (is_u 32) pid /\ optP oid_ok obj /\ optP (is_u 32) lifetime.

Lemma yields_subscription pid obj confirmed lifetime : is_u 32 pid -> oid_ok obj -> optP (is_u 32) lifetime ->
  yields subscribe_ok (subscription pid obj confirmed lifetime).
Proof. intros Hp Ho Hl. destruct confirmed, lifetime; try done. by rewrite optP_Some in Hl. Qed.
#[export] Hint Resolve yields_subscription : go.

#[export] Program Instance SubscribeCOV_Codec : Codec SubscribeCOVRequest := {|
  encode := EncodeSubscribeCOV;
  decode := DecodeSubscribeCOV;
  fits lim req := subscribe_ok req /\ room lim 0 4;
  typed _ req := subscribe_ok req
|}.
Next Obligation.
  intros lim [pid obj confirmed lifetime cancel] ((Hp & Ho & Hl) & Hm & Hd & He); cbn [sb_ProcessIdentifier sb_MonitoredObject sb_IssueConfirmed sb_Lifetime sb_Cancellation] in *.
  unfold EncodeSubscribeCOV, DecodeSubscribeCOV; cbn [sb_ProcessIdentifier sb_MonitoredObject sb_IssueConfirmed sb_Lifetime sb_Cancellation].
  destruct cancel; [destruct Hl as [-> ->]|]; codec_roundtrip lim 0%nat as Hparse; rewrite Hparse; by decode_run.
Qed.
Next Obligation.
  intros lim bs Hb. unfold DecodeSubscribeCOV. yields_step.
  eapply yields_bind; [eapply (yields_forElements fields_typed); [|eassumption|done]|].
  - intros el [[[pid obj] confirmed] lifetime] Hel (H1 & H2 & H3). unfold subscribeCOVField. repeat yields_step; done.
  - intros [[[pid obj] confirmed] lifetime] (H1 & H2 & H3). repeat yields_step.
Qed.

(** ** SubscribeCOVProperty *)
Record SubscribeCOVPropertyRequest := mkSubscribeCOVProperty {
  sp_Base : SubscribeCOVRequest; sp_Property : PropertyReference; sp_COVIncrement : option Z }.

Definition EncodeSubscribeCOVProperty (req : SubscribeCOVPropertyRequest) : result bytes :=
  let base := sp_Base req in
  newBuffer (fun dst =>
    let* dst := AppendContextUnsigned dst 0 (sb_ProcessIdentifier base) in
    let* dst := AppendContextObjectID dst 1 (sb_MonitoredObject base) in
    let* dst :=
      if sb_Cancellation base then Ok dst
      else
        let* dst := AppendContextBool dst 2 (sb_IssueConfirmed base) in
        AppendContextUnsigned dst 3 (sb_Lifetime base) in
    let* dst := appendInline 0x4E 0x4F (fun dst =>
      let* dst := AppendContextUnsigned dst 0 (pr_Identifier (sp_Property req)) in
      match pr_ArrayIndex (sp_Property req) with
      | Some i => AppendContextUnsigned dst 1 i
      | None => Ok dst
      end) dst in
    match sb_Cancellation base, sp_COVIncrement req with
    | false, Some inc => AppendTag dst (contextElement 5 (be_put 4 inc))
    | _, _ => Ok dst
    end).

(** [decodePropertyReference]; nested elements are refused first. *)
Definition referenceField (el : Element) (st : option Z * option Z) : result (option Z * option Z) :=
  let '(id, index) := st in
  if IsContextConstructed el || el_Opening el || el_Closing el then Err ErrMalformed
  else
    let* u := ContextUnsigned32 el in
    if el_TagNumber el =? 0 then let* id := setOnce id (Ok u) in Ok (id, index)
    else if el_TagNumber el =? 1 then let* index := setOnce index (Ok u) in Ok (id, index)
    else Err ErrMalformed.
Definition decodePropertyReference (elements : list Element) : result PropertyReference :=
  let* (id, index) := forElements referenceField elements (None, None) in
  let* id := required id in
  Ok (mkPropertyReference id index).

(** A REAL read off the octets of an element. *)
Definition incrementOf (el : Element) : result Z :=
  if negb (len (av_OctetString (el_Value el)) =? 4) then Err ErrMalformed else Uint 4 (av_OctetString (el_Value el)).

Definition subscribeCOVPropertyField (el : Element) (st : subscribeFields * option PropertyReference * option Z) :
    result (subscribeFields * option PropertyReference * option Z) :=
  let '((pid, obj, confirmed, lifetime), prop, inc) := st in
  if (el_TagNumber el =? 0) && negb (IsContextConstructed el) then
    let* pid := setOnce pid (checkedUnsigned32 el) in Ok ((pid, obj, confirmed, lifetime), prop, inc)
  else if (el_TagNumber el =? 1) && negb (IsContextConstructed el) then
    let* obj := setOnce obj (ContextObjectID el) in Ok ((pid, obj, confirmed, lifetime), prop, inc)
  else if (el_TagNumber el =? 2) && negb (IsContextConstructed el) then
    let* confirmed := setOnce confirmed (ContextBool el) in Ok ((pid, obj, confirmed, lifetime), prop, inc)
  else if (el_TagNumber el =? 3) && negb (IsContextConstructed el) then
    let* lifetime := setOnce lifetime (checkedUnsigned32 el) in Ok ((pid, obj, confirmed, lifetime), prop, inc)
  else if (el_TagNumber el =? 4) && IsContextConstructed el then
    let* prop := setOnce prop (decodePropertyReference (av_Elements (el_Value el))) in Ok ((pid, obj, confirmed, lifetime), prop, inc)
  else if (el_TagNumber el =? 5) && negb (IsContextConstructed el) then
    let* inc := overwrite (incrementOf el) in Ok ((pid, obj, confirmed, lifetime), prop, inc)
  else Err ErrMalformed.

Definition DecodeSubscribeCOVProperty (payload : bytes) (limits : DecodeLimits) : result SubscribeCOVPropertyRequest :=
  let* elements := parseElements payload limits in
  let* ((pid, obj, confirmed, lifetime), prop, inc) := forElements subscribeCOVPropertyField elements ((None, None, None, None), None, None) in
  let* pid := required pid in
  let* obj := required obj in
  let* prop := required prop in
  let* base := subscription pid obj confirmed lifetime in
  Ok (mkSubscribeCOVProperty base prop inc).

Lemma decodePropertyReference_encode r : ref_ok r -> decodePropertyReference (refElements r) = Ok r.
Proof.
  destruct r as [p [i|]]; intros [Hp Hi]; cbn [pr_Identifier pr_ArrayIndex] in *; rewrite ?optP_Some in Hi;
    unfold decodePropertyReference, refElements; cbn [pr_Identifier pr_ArrayIndex app]; by decode_run.
Qed.
#[export] Hint Rewrite decodePropertyReference_encode using assumption : codec.

Lemma yields_decodePropertyReference lim els : Forall (wire lim) els -> yields ref_ok (decodePropertyReference els).
Proof.
  intros Hw. unfold decodePropertyReference.
  eapply yields_bind; [eapply (yields_forElements (fun '(id, index) => optP (is_u 32) id /\ optP (is_u 32) index)); [|exact Hw|done]|].
  - intros el [id index] Hel [H1 H2]. unfold referenceField. repeat yields_step; done.
  - intros [id index] [H1 H2]. repeat yields_step. done.
Qed.

Lemma incrementOf_encode v : is_u 32 v -> incrementOf (contextElement 5 (be_put 4 v)) = Ok v.
Proof.
  intros Hv. unfold incrementOf. av_simpl. rewrite len_be_put. cbn [Z.of_nat Pos.of_succ_nat Pos.succ Z.eqb Pos.eqb negb].
  rewrite Uint_be_put, Z.mod_small by apply Hv. done.
Qed.
#[export] Hint Rewrite incrementOf_encode using assumption : codec.

Lemma wire_octets lim el : wire lim el -> bytes_ok (av_OctetString (el_Value el)).
Proof.
  intros [d Hw]. assert (wire_at lim 254 (S d) el) as H by (eapply wire_at_mono; [|done]; lia).
  destruct H as [(tn & v & -> & _ & _ & Hv & _)|[(tn & o & -> & _ & Ho & _)|(tn & es & -> & _)]]; [|done|done].
  by destruct Hv.
Qed.

Lemma yields_incrementOf lim el : wire lim el -> yields (is_u 32) (incrementOf el).
Proof.
  intros Hw. unfold incrementOf. destruct (negb _) eqn:El; [done|]. bool_to_prop. pose proof (wire_octets _ _ Hw) as Ho.
  destruct (octets4 _ Ho El) as (a & b & c & d & Hs & H). rewrite Hs in *. apply (be_get_bound _ Ho).
Qed.
#[export] Hint Resolve yields_incrementOf : go.

(** A cancellation names the property but no increment. *)
Definition subscribeProperty_ok (req : SubscribeCOVPropertyRequest) : Prop :=
  subscribe_ok (sp_Base req) /\ ref_ok (sp_Property req) /\ optP (is_u 32) (sp_COVIncrement req).

#[export] Program Instance SubscribeCOVProperty_Codec : Codec SubscribeCOVPropertyRequest := {|
  encode := EncodeSubscribeCOVProperty;
  decode := DecodeSubscribeCOVProperty;
  fits lim req := subscribeProperty_ok req /\ (sb_Cancellation (sp_Base req) = true -> sp_COVIncrement req = None) /\ room lim 1 8;
  typed _ req := subscribeProperty_ok req
|}.
Next Obligation.
  intros lim [[pid obj confirmed lifetime cancel] [p idx] inc] (((Hp & Ho & Hl) & [Hr Hi] & Hinc) & Hc & Hm & Hd & He);
    cbn [sp_Base sp_Property sp_COVIncrement sb_ProcessIdentifier sb_MonitoredObject sb_IssueConfirmed sb_Lifetime sb_Cancellation pr_Identifier pr_ArrayIndex] in *.
  pose proof (decodePropertyReference_encode (mkPropertyReference p idx) (conj Hr Hi)) as Hdec. unfold refElements in Hdec.
  unfold EncodeSubscribeCOVProperty, DecodeSubscribeCOVProperty;
    cbn [sp_Base sp_Property sp_COVIncrement sb_ProcessIdentifier sb_MonitoredObject sb_IssueConfirmed sb_Lifetime sb_Cancellation pr_Identifier pr_ArrayIndex] in *.
  assert (forall v, is_u 32 v -> wire_at (Normalize lim) 12 1 (contextElement 5 (be_put 4 v))) as Hwire.
  { intros v Hv. right. left. exists 5, (be_put 4 v). split_and!; [done|done|apply be_put_bytes_ok|done|rewrite len_be_put; lia]. }
  assert (forall v, is_u 32 v -> writes (Normalize lim) 1 (fun dst => AppendTag dst (contextElement 5 (be_put 4 v))) [contextElement 5 (be_put 4 v)]) as Hw
    by (intros v Hv; apply writes_AppendTag; [apply Normalize_positive|by apply Hwire]).
  destruct cancel; [destruct Hl as [-> ->]; rewrite (Hc eq_refl)|destruct inc as [inc|]]; destruct idx as [idx|]; rewrite ?optP_Some in *;
    codec_roundtrip lim 1%nat as Hparse; rewrite Hparse; cbn [bind app]; cbn [app] in Hdec;
    repeat (erewrite forElements_step; [|unfold subscribeCOVPropertyField; decode_simp; rewrite ?Hdec; decode_simp; reflexivity]); by decode_run.
Qed.
Next Obligation.
  intros lim bs Hb. unfold DecodeSubscribeCOVProperty. yields_step.
  eapply yields_bind; [eapply (yields_forElements (fun '(f, prop, inc) => fields_typed f /\ optP ref_ok prop /\ optP (is_u 32) inc)); [|eassumption|done]|].
  - intros el [[[[[pid obj] confirmed] lifetime] prop] inc] Hel ((H1 & H2 & H3) & H4 & H5). unfold subscribeCOVPropertyField. repeat yields_step; try done.
    apply andb_true_iff in E3 as [_ Ec]. by eapply yields_decodePropertyReference, yields_inner.
  - intros [[[[[pid obj] confirmed] lifetime] prop] inc] ((H1 & H2 & H3) & H4 & H5). repeat yields_step. done.
Qed.

(** ** COV notifications *)
Record COVNotification := mkCOVNotification {
  cn_ProcessIdentifier : Z; cn_InitiatingDevice : ObjectIdentifier; cn_MonitoredObject : ObjectIdentifier; cn_TimeRemaining : Z;
  cn_Values : list PropertyValue }.

Definition EncodeCOVNotification (note : COVNotification) : result bytes :=
  newBuffer (fun dst =>
    let* dst := AppendContextUnsigned dst 0 (cn_ProcessIdentifier note) in
    let* dst := AppendContextObjectID dst 1 (cn_InitiatingDevice note) in
    let* dst := AppendContextObjectID dst 2 (cn_MonitoredObject note) in
    let* dst := AppendContextUnsigned dst 3 (cn_TimeRemaining note) in
    if len (cn_Values note) =? 0 then Err ErrMalformed
    else appendInline 0x4E 0x4F (fun dst => appendPropertyValues dst (cn_Values note)) dst).

Definition notificationFields : Type := option Z * option ObjectIdentifier * option ObjectIdentifier * option Z * option (list PropertyValue).
Definition covNotificationField (el : Element) (st : notificationFields) : result notificationFields :=
  let '(pid, dev, obj, time, values) := st in
  if (el_TagNumber el =? 0) && negb (IsContextConstructed el) then
    let* pid := setOnce pid (checkedUnsigned32 el) in Ok (pid, dev, obj, time, values)
  else if (el_TagNumber el =? 1) && negb (IsContextConstructed el) then
    let* dev := setOnce dev (ContextObjectID el) in Ok (pid, dev, obj, time, values)
  else if (el_TagNumber el =? 2) && negb (IsContextConstructed el) then
    let* obj := setOnce obj (ContextObjectID el) in Ok (pid, dev, obj, time, values)
  else if (el_TagNumber el =? 3) && negb (IsContextConstructed el) then
    let* time := setOnce time (checkedUnsigned32 el) in Ok (pid, dev, obj, time, values)
  else if (el_TagNumber el =? 4) && IsContextConstructed el then
    let* values := setOnce values (decodeCOVValues (av_Elements (el_Value el))) in Ok (pid, dev, obj, time, values)
  else Err ErrMalformed.

Definition DecodeCOVNotification (payload : bytes) (limits : DecodeLimits) : result COVNotification :=
  let* elements := parseElements payload limits in
  let* (pid, dev, obj, time, values) := forElements covNotificationField elements (None, None, None, None, None) in
  let* pid := required pid in
  let* dev := required dev in
  let* obj := required obj in
  let* time := required time in
  let* values := required values in
  Ok (mkCOVNotification pid dev obj time values).

Definition note_ok (note : COVNotification) : Prop :=
  is_u 32 (cn_ProcessIdentifier note) /\ oid_ok (cn_InitiatingDevice note) /\ oid_ok (cn_MonitoredObject note) /\ is_u 32 (cn_TimeRemaining note).

Lemma covNotificationField_values pid dev obj time es l : decodeCOVValues es = Ok l ->
  covNotificationField (mkElement true 4 false false (constructedValue es)) (pid, dev, obj, time, None) = Ok (pid, dev, obj, time, Some l).
Proof. intros H. unfold covNotificationField. decode_simp. by rewrite H. Qed.

#[export] Program Instance COVNotification_Codec : Codec COVNotification := {|
  encode := EncodeCOVNotification;
  decode := DecodeCOVNotification;
  fits lim note := note_ok note /\ cn_Values note <> [] /\ exists d, Forall (propertyValue_ok (Normalize lim) d) (cn_Values note) /\
    room lim (2 + Z.of_nat d) (5 + elcounts (concat (map propertyValueElements (cn_Values note))));
  typed lim note := note_ok note /\ Forall (propValue_typed (Normalize lim)) (cn_Values note)
|}.
Next Obligation.
  intros lim [pid dev obj time vals] ((Hp & Hd & Ho & Ht) & Hne & d & Hv & Hm & Hdep & He); cbn [cn_ProcessIdentifier cn_InitiatingDevice cn_MonitoredObject cn_TimeRemaining cn_Values] in *.
  pose proof (writes_propertyValues (Normalize lim) d vals (Normalize_positive lim) Hv Hm) as Hw.
  pose proof (decodeCOVValues_encode (Normalize lim) d vals Hv) as Hdec.
  unfold EncodeCOVNotification, DecodeCOVNotification; cbn [cn_ProcessIdentifier cn_InitiatingDevice cn_MonitoredObject cn_TimeRemaining cn_Values].
  replace (len vals =? 0) with false by (symmetry; destruct vals; [done|]; apply Z.eqb_neq; len_lia).
  codec_roundtrip lim (S (S d)) as Hparse. rewrite Hparse. cbn [bind app].
  do 4 decode_element. rewrite (forElements_step _ _ _ _ _ (covNotificationField_values _ _ _ _ _ _ Hdec)). done.
Qed.
Next Obligation.
  intros lim bs Hb. unfold DecodeCOVNotification. yields_step.
  eapply yields_bind; [eapply (yields_forElements (fun '(pid, dev, obj, time, values) => optP (is_u 32) pid /\ optP oid_ok dev /\ optP oid_ok obj /\
    optP (is_u 32) time /\ optP (Forall (propValue_typed (Normalize lim))) values)); [|eassumption|done]|].
  - intros el [[[[pid dev] obj] time] values] Hel (H1 & H2 & H3 & H4 & H5). unfold covNotificationField. repeat yields_step; try done.
    apply andb_true_iff in E3 as [_ Ec]. by eapply yields_decodeCOVValues, yields_inner.
  - intros [[[[pid dev] obj] time] values] (H1 & H2 & H3 & H4 & H5). repeat yields_step. done.
Qed.
