(* ===== verification/CovMultiple.v ===== *)
(** * COV services for several properties ([service/cov_multiple.go],
    [service/request_decoders.go])

    SubscribeCOVPropertyMultiple and COVNotificationMultiple. *)

From Stdlib Require Import ZArith Lia.
From stdpp Require Import base list.
From S2P Require Import Prelude Value Tags Constructed Writer Codec Access AccessMultiple Object PropertyValues CovCodecs.

(** ** SubscribeCOVPropertyMultiple *)
Record COVPropertyReference := mkCOVReference { cr_Property : PropertyReference; cr_COVIncrement : option Z; cr_Timestamped : bool }.
Record COVMultipleSubscription := mkCOVSubscription { cs_Object : ObjectIdentifier; cs_Properties : list COVPropertyReference }.
Record SubscribeCOVPropertyMultipleRequest := mkSubscribeMultiple {
  sm_ProcessIdentifier : Z; sm_Cancellation : bool; sm_IssueConfirmed : bool; sm_LifetimeRemaining : option Z; sm_MaxNotificationDelay : option Z;
  sm_Subscriptions : list COVMultipleSubscription }.

Definition appendCOVReference (dst : bytes) (r : COVPropertyReference) : result bytes :=
  let* dst := appendInline 0x0E 0x0F (fun dst => appendPropertyReference dst (cr_Property r)) dst in
  let* dst :=
    match cr_COVIncrement r with
    | Some inc => AppendContextReal dst 1 inc
    | None => Ok dst
    end in
  AppendContextBool dst 2 (cr_Timestamped r).

Definition appendCOVSubscription (dst : bytes) (s : COVMultipleSubscription) : result bytes :=
  if len (cs_Properties s) =? 0 then Err ErrMalformed
  else
    let* dst := AppendContextObjectID dst 0 (cs_Object s) in
    appendInline 0x1E 0x1F (fun dst => foldAppend appendCOVReference dst (cs_Properties s)) dst.

Definition EncodeSubscribeCOVPropertyMultiple (req : SubscribeCOVPropertyMultipleRequest) : result bytes :=
  if len (sm_Subscriptions req) =? 0 then Err ErrMalformed
  else
    newBuffer (fun dst =>
      let* dst := AppendContextUnsigned dst 0 (sm_ProcessIdentifier req) in
      let* dst := if sm_Cancellation req then Ok dst else AppendContextBool dst 1 (sm_IssueConfirmed req) in
      let* dst :=
        match sm_Cancellation req, sm_LifetimeRemaining req with
        | false, Some l => AppendContextUnsigned dst 2 l
        | _, _ => Ok dst
        end in
      let* dst :=
        match sm_MaxNotificationDelay req with
        | Some d => AppendContextUnsigned dst 3 d
        | None => Ok dst
        end in
      appendInline 0x4E 0x4F (fun dst => foldAppend appendCOVSubscription dst (sm_Subscriptions req)) dst).

(** The state of [decodeCOVReferences]: the references so far, [haveInc] and
    [haveStamp]. *)
Definition covReferenceField (el : Element) (st : list COVPropertyReference * bool * bool) : result (list COVPropertyReference * bool * bool) :=
  let '(out, haveInc, haveStamp) := st in
  if (el_TagNumber el =? 0) && IsContextConstructed el then
    let* prop := decodePropertyReference (av_Elements (el_Value el)) in
    Ok (out ++ [mkCOVReference prop None false], false, false)
  else if (el_TagNumber el =? 1) && negb (IsContextConstructed el) then
    if (len out =? 0) || haveInc || haveStamp then Err ErrMalformed
    else
      let* inc := ContextReal el in
      Ok (setLast (fun r => mkCOVReference (cr_Property r) (Some inc) (cr_Timestamped r)) out, true, haveStamp)
  else if (el_TagNumber el =? 2) && negb (IsContextConstructed el) then
    if (len out =? 0) || haveStamp then Err ErrMalformed
    else
      let* b := ContextBool el in
      Ok (setLast (fun r => mkCOVReference (cr_Property r) (cr_COVIncrement r) b) out, haveInc, true)
  else Err ErrMalformed.

Definition decodeCOVReferences (els : list Element) : result (list COVPropertyReference) :=
  let* (out, _, _) := forElements covReferenceField els ([], false, false) in
  if len out =? 0 then Err ErrMalformed else Ok out.

(** The loop of [decodeCOVMultipleSubscriptions], two elements at a turn. *)
Fixpoint covSubscriptionsLoop (els : list Element) (out : list COVMultipleSubscription) : result (list COVMultipleSubscription) :=
  match els with
  | [] => Ok out
  | el :: els =>
      if negb (el_TagNumber el =? 0) || IsContextConstructed el then Err ErrMalformed
      else
        let* obj := ContextObjectID el in
        match els with
        | [] => Err ErrMalformed
        | list :: els =>
            if negb (el_TagNumber list =? 1) || negb (IsContextConstructed list) then Err ErrMalformed
            else
              let* props := decodeCOVReferences (av_Elements (el_Value list)) in
              covSubscriptionsLoop els (out ++ [mkCOVSubscription obj props])
        end
  end.
Definition decodeCOVMultipleSubscriptions (els : list Element) : result (list COVMultipleSubscription) :=
  let* out := covSubscriptionsLoop els [] in
  if len out =? 0 then Err ErrMalformed else Ok out.

Definition subscribeMultipleFields : Type := option Z * option bool * option Z * option Z * option (list COVMultipleSubscription).
Definition subscribeMultipleField (el : Element) (st : subscribeMultipleFields) : result subscribeMultipleFields :=
  let '(pid, confirmed, lifetime, delay, subs) := st in
  if (el_TagNumber el =? 0) && negb (IsContextConstructed el) then
    let* pid := overwrite (ContextUnsigned32 el) in Ok (pid, confirmed, lifetime, delay, subs)
  else if (el_TagNumber el =? 1) && negb (IsContextConstructed el) then
    let* confirmed := overwrite (ContextBool el) in Ok (pid, confirmed, lifetime, delay, subs)
  else if (el_TagNumber el =? 2) && negb (IsContextConstructed el) then
    let* lifetime := overwrite (ContextUnsigned32 el) in Ok (pid, confirmed, lifetime, delay, subs)
  else if (el_TagNumber el =? 3) && negb (IsContextConstructed el) then
    let* delay := overwrite (ContextUnsigned32 el) in Ok (pid, confirmed, lifetime, delay, subs)
  else if (el_TagNumber el =? 4) && IsContextConstructed el then
    let* subs := setOnce subs (decodeCOVMultipleSubscriptions (av_Elements (el_Value el))) in Ok (pid, confirmed, lifetime, delay, subs)
  else Err ErrMalformed.

Definition DecodeSubscribeCOVPropertyMultiple (payload : bytes) (limits : DecodeLimits) : result SubscribeCOVPropertyMultipleRequest :=
  let* elements := parseElements payload limits in
  let* (pid, confirmed, lifetime, delay, subs) := forElements subscribeMultipleField elements (None, None, None, None, None) in
  let* pid := required pid in
  let* subs := required subs in
  let cancellation := match confirmed, lifetime with None, None => true | _, _ => false end in
  Ok (mkSubscribeMultiple pid cancellation (default false confirmed) lifetime delay subs).

(** *** Round trip *)
Definition covReference_ok (r : COVPropertyReference) : Prop := ref_ok (cr_Property r) /\ optP (is_u 32) (cr_COVIncrement r).
Definition covSubscription_ok (s : COVMultipleSubscription) : Prop :=
  oid_ok (cs_Object s) /\ cs_Properties s <> [] /\ Forall covReference_ok (cs_Properties s).

Definition covReferenceElements (r : COVPropertyReference) : list Element :=
  [mkElement true 0 false false (constructedValue (refElements (cr_Property r)))] ++
  match cr_COVIncrement r with Some inc => [contextElement 1 (be_put 4 inc)] | None => [] end ++
  [contextElement 2 [if cr_Timestamped r then 1 else 0]].
Definition covSubscriptionElements (s : COVMultipleSubscription) : list Element :=
  [contextElement 0 (oidOctets (cs_Object s));
   mkElement true 1 false false (constructedValue (concat (map covReferenceElements (cs_Properties s))))].

Lemma writes_covReference lim d r : limits_positive lim -> covReference_ok r -> 8 <= MaxOctetStringLength lim ->
  writes lim (S d) (fun dst => appendCOVReference dst r) (covReferenceElements r).
Proof.
  destruct r as [prop [inc|] t]; intros Hlim [Hp Hi] Hm; cbn [cr_Property cr_COVIncrement cr_Timestamped] in *; rewrite ?optP_Some in Hi;
    pose proof (writes_ref lim d prop Hlim Hp Hm) as Hw; unfold appendCOVReference, covReferenceElements; cbn [cr_Property cr_COVIncrement cr_Timestamped];
    repeat writes_step.
Qed.

Lemma covReferenceField_item r st : covReference_ok r ->
  exists h1 h2, forElements covReferenceField (covReferenceElements r) st = Ok (st.1.1 ++ [r], h1, h2).
Proof.
  destruct r as [prop inc t], st as [[out hi] hs]; intros [Hp Hi]; cbn [cr_Property cr_COVIncrement cr_Timestamped fst] in *.
  unfold covReferenceElements; cbn [cr_Property cr_COVIncrement cr_Timestamped].
  assert (forall r, (len (out ++ [r]) =? 0) = false) as Hlen by (intros r; apply Z.eqb_neq; len_lia).
  destruct inc as [inc|]; rewrite ?optP_Some in Hi; cbn [app]; (erewrite forElements_step by (unfold covReferenceField; decode_simp; reflexivity));
    repeat (erewrite forElements_step by (unfold covReferenceField; decode_simp; rewrite ?Hlen; cbn [orb]; rewrite ?setLast_snoc, ?Hlen; decode_simp;
      rewrite ?setLast_snoc; reflexivity)); cbn [forElements]; eexists _, _; reflexivity.
Qed.

Lemma decodeCOVReferences_encode l : l <> [] -> Forall covReference_ok l -> decodeCOVReferences (concat (map covReferenceElements l)) = Ok l.
Proof.
  intros Hne Hl. unfold decodeCOVReferences.
  assert (forall st, exists h1 h2, forElements covReferenceField (concat (map covReferenceElements l)) st = Ok (st.1.1 ++ l, h1, h2)) as H.
  { clear Hne. induction Hl as [|r l Hr Hl IH]; intros st; cbn [map concat].
    - destruct st as [[out h1] h2]. exists h1, h2. by rewrite app_nil_r.
    - destruct (covReferenceField_item r st Hr) as (h1 & h2 & H1). rewrite forElements_app, H1. cbn [bind].
      destruct (IH (st.1.1 ++ [r], h1, h2)) as (h3 & h4 & H2). exists h3, h4. rewrite H2. cbn [fst]. by rewrite <- app_assoc. }
  destruct (H ([], false, false)) as (h1 & h2 & ->). cbn [bind fst app]. destruct l; [done|]. by decide_test.
Qed.

Lemma writes_covSubscription lim d s : limits_positive lim -> covSubscription_ok s -> 8 <= MaxOctetStringLength lim ->
  writes lim (S (S d)) (fun dst => appendCOVSubscription dst s) (covSubscriptionElements s).
Proof.
  intros Hlim (Ho & Hne & Hr) Hm. unfold appendCOVSubscription, covSubscriptionElements.
  replace (len (cs_Properties s) =? 0) with false by (symmetry; destruct (cs_Properties s); [done|]; apply Z.eqb_neq; len_lia).
  change ([?a; ?b]) with ([a] ++ [b]). eapply writes_bind; [by apply writes_oid|].
  eapply (writes_inline lim (S d) 1); [done..|]. apply writes_foldAppend. intros r Hin. apply writes_covReference; [done| |done].
  by eapply Forall_forall in Hr.
Qed.

Lemma covSubscriptionsLoop_encode l : Forall covSubscription_ok l -> forall out,
  covSubscriptionsLoop (concat (map covSubscriptionElements l)) out = Ok (out ++ l).
Proof.
  induction 1 as [|s l (Ho & Hne & Hr) Hl IH]; intros out; cbn [map concat]; [by rewrite app_nil_r|].
  destruct s as [obj props]; cbn [cs_Object cs_Properties] in *. unfold covSubscriptionElements at 1. cbn [cs_Object cs_Properties app covSubscriptionsLoop].
  decode_simp. rewrite decodeCOVReferences_encode by done. cbn [bind]. by rewrite IH, <- app_assoc.
Qed.

Lemma decodeCOVMultipleSubscriptions_encode l : l <> [] -> Forall covSubscription_ok l ->
  decodeCOVMultipleSubscriptions (concat (map covSubscriptionElements l)) = Ok l.
Proof.
  intros Hne Hl. unfold decodeCOVMultipleSubscriptions. rewrite covSubscriptionsLoop_encode by done. cbn [bind app]. destruct l; [done|]. by decide_test.
Qed.

(** *** What the decoder returns *)
Lemma yields_covReferenceField lim el st : wire lim el -> Forall covReference_ok st.1.1 -> yields (fun st => Forall covReference_ok st.1.1) (covReferenceField el st).
Proof.
  destruct st as [[out hi] hs]. intros Hel Ho. cbn [fst] in *. unfold covReferenceField. repeat yields_step; try done.
  - apply andb_true_iff in E as [_ Ec]. eapply yields_bind; [by eapply yields_decodePropertyReference, yields_inner|]. intros p Hp.
    cbn [yields fst]. apply Forall_app. split; [done|]. by apply Forall_singleton.
  - cbn [fst]. apply Forall_setLast; [done|]. intros r _ [Hp _]. split; [done|]. by apply optP_Some.
  - cbn [fst]. apply Forall_setLast; [done|]. by intros r _ [Hp Hi].
Qed.

Lemma yields_decodeCOVReferences lim els : Forall (wire lim) els -> yields (fun l => l <> [] /\ Forall covReference_ok l) (decodeCOVReferences els).
Proof.
  intros Hw. unfold decodeCOVReferences. eapply yields_bind; [eapply (yields_forElements (fun st => Forall covReference_ok st.1.1)); [|exact Hw|done]|].
  - intros. by eapply yields_covReferenceField.
  - intros [[out h1] h2] Ho. cbn [fst] in Ho. repeat yields_step. split; [by intros ->|done].
Qed.

Lemma yields_covSubscriptionsLoop lim els : Forall (wire lim) els -> forall out, Forall covSubscription_ok out ->
  yields (Forall covSubscription_ok) (covSubscriptionsLoop els out).
Proof.
  induction els as [els IH] using (induction_ltof1 _ (@length Element)). unfold ltof in IH. intros Hw out Ho.
  destruct els as [|el els]; [done|]. cbn [covSubscriptionsLoop]. inversion_clear Hw as [|? ? Hel Hels]. yields_step; [done|].
  eapply yields_bind; [by eapply yields_ContextObjectID|]. intros obj Hobj. destruct els as [|lst els]; [done|]. inversion_clear Hels as [|? ? Hlst Hrest].
  yields_step; [done|]. apply orb_false_iff in E0 as [_ Ec]. apply negb_false_iff in Ec.
  eapply yields_bind; [by eapply yields_decodeCOVReferences, yields_inner|]. intros props [Hne Hp]. apply IH; [cbn; lia|done|].
  apply Forall_app. split; [done|]. by apply Forall_singleton.
Qed.

Lemma yields_decodeCOVMultipleSubscriptions lim els : Forall (wire lim) els ->
  yields (fun l => l <> [] /\ Forall covSubscription_ok l) (decodeCOVMultipleSubscriptions els).
Proof.
  intros Hw. unfold decodeCOVMultipleSubscriptions. eapply yields_bind; [by apply (yields_covSubscriptionsLoop lim)|]. intros out Ho.
  repeat yields_step. split; [by intros ->|done].
Qed.

(** A cancellation carries neither flag nor lifetime. *)
Definition subscribeMultiple_ok (req : SubscribeCOVPropertyMultipleRequest) : Prop :=
  is_u 32 (sm_ProcessIdentifier req) /\ optP (is_u 32) (sm_LifetimeRemaining req) /\ optP (is_u 32) (sm_MaxNotificationDelay req) /\
  sm_Subscriptions req <> [] /\ Forall covSubscription_ok (sm_Subscriptions req) /\
  (sm_Cancellation req = true -> sm_IssueConfirmed req = false /\ sm_LifetimeRemaining req = None).

Lemma subscribeMultipleField_subs pid confirmed lifetime delay es l : decodeCOVMultipleSubscriptions es = Ok l ->
  subscribeMultipleField (mkElement true 4 false false (constructedValue es)) (pid, confirmed, lifetime, delay, None) = Ok (pid, confirmed, lifetime, delay, Some l).
Proof. intros H. unfold subscribeMultipleField. decode_simp. by rewrite H. Qed.

#[export] Program Instance SubscribeCOVPropertyMultiple_Codec : Codec SubscribeCOVPropertyMultipleRequest := {|
  encode := EncodeSubscribeCOVPropertyMultiple;
  decode := DecodeSubscribeCOVPropertyMultiple;
  fits lim req := subscribeMultiple_ok req /\ room lim 3 (5 + elcounts (concat (map covSubscriptionElements (sm_Subscriptions req))));
  typed _ req := subscribeMultiple_ok req
|}.
Next Obligation.
  intros lim [pid cancel confirmed lifetime delay subs] ((Hp & Hl & Hdel & Hne & Hs & Hc) & Hm & Hd & He);
    cbn [sm_ProcessIdentifier sm_Cancellation sm_IssueConfirmed sm_LifetimeRemaining sm_MaxNotificationDelay sm_Subscriptions] in *.
  pose proof (decodeCOVMultipleSubscriptions_encode subs Hne Hs) as Hdec.
  assert (forall s, s ∈ subs -> writes (Normalize lim) 2 (fun dst => appendCOVSubscription dst s) (covSubscriptionElements s)) as Hw.
  { intros s Hin. apply (writes_covSubscription _ 0); [apply Normalize_positive| |done]. by eapply Forall_forall in Hs. }
  unfold EncodeSubscribeCOVPropertyMultiple, DecodeSubscribeCOVPropertyMultiple;
    cbn [sm_ProcessIdentifier sm_Cancellation sm_IssueConfirmed sm_LifetimeRemaining sm_MaxNotificationDelay sm_Subscriptions].
  replace (len subs =? 0) with false by (symmetry; destruct subs; [done|]; apply Z.eqb_neq; len_lia).
  destruct cancel; [destruct (Hc eq_refl) as [-> ->]|destruct lifetime as [lifetime|]]; destruct delay as [delay|]; rewrite ?optP_Some in *;
    codec_roundtrip lim 3%nat as Hparse; rewrite Hparse; cbn [bind app];
    repeat (erewrite forElements_step; [|first [by apply subscribeMultipleField_subs | unfold subscribeMultipleField; decode_simp; reflexivity]]); by decode_run.
Qed.
Next Obligation.
  intros lim bs Hb. unfold DecodeSubscribeCOVPropertyMultiple. yields_step.
  eapply yields_bind; [eapply (yields_forElements (fun '(pid, confirmed, lifetime, delay, subs) => optP (is_u 32) pid /\ optP (is_u 32) lifetime /\
    optP (is_u 32) delay /\ optP (fun l => l <> [] /\ Forall covSubscription_ok l) subs)); [|eassumption|done]|].
  - intros el [[[[pid confirmed] lifetime] delay] subs] Hel (H1 & H2 & H3 & H4). unfold subscribeMultipleField. repeat yields_step; try done.
    apply andb_true_iff in E3 as [_ Ec]. by eapply yields_decodeCOVMultipleSubscriptions, yields_inner.
  - intros [[[[pid confirmed] lifetime] delay] subs] (H1 & H2 & H3 & H4). repeat yields_step. destruct H5 as [Hne Hs]. split_and!; try done.
    cbn. destruct confirmed, lifetime; done.
Qed.

(** ** COVNotificationMultiple *)
Record DateTime := mkDateTime { dt_Date : Date; dt_Time : Time }.
Record COVNotificationMultipleValue := mkCOVMultipleValue {
  mv_Property : PropertyReference; mv_Value : ApplicationValue; mv_TimeOfChange : option Time; mv_TimeStamp : option DateTime }.
Record COVNotificationMultipleObject := mkCOVMultipleObject { mo_Object : ObjectIdentifier; mo_Values : list COVNotificationMultipleValue }.
Record COVNotificationMultiple := mkCOVNotificationMultiple {
  nm_ProcessIdentifier : Z; nm_InitiatingDevice : ObjectIdentifier; nm_TimeRemaining : Z; nm_Timestamp : option DateTime;
  nm_Objects : list COVNotificationMultipleObject }.

Definition appendMultipleValue (dst : bytes) (v : COVNotificationMultipleValue) : result bytes :=
  let* dst := AppendContextUnsigned dst 0 (pr_Identifier (mv_Property v)) in
  let* dst :=
    match pr_ArrayIndex (mv_Property v) with
    | Some i => AppendContextUnsigned dst 1 i
    | None => Ok dst
    end in
  let* dst := AppendContextTagged dst 2 [item (mv_Value v)] in
  match (match mv_TimeOfChange v, mv_TimeStamp v with
         | None, Some ts => Some (dt_Time ts)
         | toc, _ => toc
         end) with
  | Some t => AppendContextTime dst 3 t
  | None => Ok dst
  end.

Definition appendMultipleObject (dst : bytes) (o : COVNotificationMultipleObject) : result bytes :=
  let* dst := AppendContextObjectID dst 0 (mo_Object o) in
  appendInline 0x1E 0x1F (fun dst => foldAppend appendMultipleValue dst (mo_Values o)) dst.

Definition EncodeCOVNotificationMultiple (note : COVNotificationMultiple) : result bytes :=
  newBuffer (fun dst =>
    let* dst := AppendContextUnsigned dst 0 (nm_ProcessIdentifier note) in
    let* dst := AppendContextObjectID dst 1 (nm_InitiatingDevice note) in
    let* dst := AppendContextUnsigned dst 2 (nm_TimeRemaining note) in
    let* dst :=
      match nm_Timestamp note with
      | Some ts => AppendContextTagged dst 3 [item (dateValue (dt_Date ts)); item (timeValue (dt_Time ts))]
      | None => Ok dst
      end in
    appendInline 0x4E 0x4F (fun dst => foldAppend appendMultipleObject dst (nm_Objects note)) dst).

(** A date and time read off two elements, whatever kinds they have; fewer
    elements leave the field as it was. *)
Definition zeroDate : Date := mkDate 0 0 0 0.
Definition zeroTime : Time := mkTime 0 0 0 0.
Definition dateTimeOf (els : list Element) (have : option DateTime) : option DateTime :=
  match els with
  | d :: t :: _ => Some (mkDateTime
      (if bool_decide (av_Kind (el_Value d) = ValueDate) then av_Date (el_Value d) else zeroDate)
      (if bool_decide (av_Kind (el_Value t) = ValueTime) then av_Time (el_Value t) else zeroTime))
  | _ => have
  end.

(** The state of [decodeCOVMultipleValues]. *)
Record multipleValues := mkMultipleValues { ms_out : list COVNotificationMultipleValue; ms_cur : COVNotificationMultipleValue; ms_haveProp : bool; ms_haveValue : bool }.
Definition zeroMultipleValue : COVNotificationMultipleValue := mkCOVMultipleValue (mkPropertyReference 0 None) NullValue None None.
Definition multipleFlush (st : multipleValues) : result multipleValues :=
  if negb (ms_haveProp st) then Ok st
  else if negb (ms_haveValue st) then Err ErrMalformed
  else Ok (mkMultipleValues (ms_out st ++ [ms_cur st]) zeroMultipleValue false false).

Definition multipleValueField (el : Element) (st : multipleValues) : result multipleValues :=
  if (el_TagNumber el =? 0) && negb (IsContextConstructed el) then
    let* st := multipleFlush st in
    let* u := ContextUnsigned32 el in
    let c := ms_cur st in
    Ok (mkMultipleValues (ms_out st) (mkCOVMultipleValue (mkPropertyReference u (pr_ArrayIndex (mv_Property c))) (mv_Value c) (mv_TimeOfChange c) (mv_TimeStamp c))
      true (ms_haveValue st))
  else if (el_TagNumber el =? 1) && negb (IsContextConstructed el) then
    if negb (ms_haveProp st) then Err ErrMalformed
    else
      let* idx := ContextUnsigned32 el in
      let c := ms_cur st in
      Ok (mkMultipleValues (ms_out st)
        (mkCOVMultipleValue (mkPropertyReference (pr_Identifier (mv_Property c)) (Some idx)) (mv_Value c) (mv_TimeOfChange c) (mv_TimeStamp c))
        (ms_haveProp st) (ms_haveValue st))
  else if (el_TagNumber el =? 2) && IsContextConstructed el then
    if negb (ms_haveProp st) || ms_haveValue st then Err ErrMalformed
    else
      let c := ms_cur st in
      Ok (mkMultipleValues (ms_out st)
        (mkCOVMultipleValue (mv_Property c) (propertyValue (av_Elements (el_Value el))) (mv_TimeOfChange c) (mv_TimeStamp c)) (ms_haveProp st) true)
  else if (el_TagNumber el =? 3) && negb (IsContextConstructed el) then
    if negb (ms_haveProp st) then Err ErrMalformed
    else
      let* t := ContextTime el in
      let c := ms_cur st in
      Ok (mkMultipleValues (ms_out st) (mkCOVMultipleValue (mv_Property c) (mv_Value c) (Some t) (mv_TimeStamp c)) (ms_haveProp st) (ms_haveValue st))
  else if (el_TagNumber el =? 3) && IsContextConstructed el then
    if negb (ms_haveProp st) then Err ErrMalformed
    else
      let c := ms_cur st in
      match dateTimeOf (av_Elements (el_Value el)) None with
      | Some ts => Ok (mkMultipleValues (ms_out st) (mkCOVMultipleValue (mv_Property c) (mv_Value c) (Some (dt_Time ts)) (Some ts)) (ms_haveProp st) (ms_haveValue st))
      | None => Ok st
      end
  else Err ErrMalformed.

Definition decodeCOVMultipleValues (els : list Element) : result (list COVNotificationMultipleValue) :=
  let* st := forElements multipleValueField els (mkMultipleValues [] zeroMultipleValue false false) in
  let* st := multipleFlush st in
  Ok (ms_out st).

Definition multipleObjectField (el : Element) (out : list COVNotificationMultipleObject) : result (list COVNotificationMultipleObject) :=
  if (el_TagNumber el =? 0) && negb (IsContextConstructed el) then
    let* id := ContextObjectID el in Ok (out ++ [mkCOVMultipleObject id []])
  else if (el_TagNumber el =? 1) && IsContextConstructed el then
    if len out =? 0 then Err ErrMalformed
    else
      let* vals := decodeCOVMultipleValues (av_Elements (el_Value el)) in
      Ok (setLast (fun o => mkCOVMultipleObject (mo_Object o) vals) out)
  else Err ErrMalformed.
Definition decodeCOVMultipleObjects (els : list Element) : result (list COVNotificationMultipleObject) := forElements multipleObjectField els [].

Definition noteFields : Type := option Z * option ObjectIdentifier * option Z * option DateTime * list COVNotificationMultipleObject.
Definition noteField (el : Element) (st : noteFields) : result noteFields :=
  let '(pid, dev, time, ts, objects) := st in
  if (el_TagNumber el =? 0) && negb (IsContextConstructed el) then
    let* pid := overwrite (ContextUnsigned32 el) in Ok (pid, dev, time, ts, objects)
  else if (el_TagNumber el =? 1) && negb (IsContextConstructed el) then
    let* dev := overwrite (ContextObjectID el) in Ok (pid, dev, time, ts, objects)
  else if (el_TagNumber el =? 2) && negb (IsContextConstructed el) then
    let* time := overwrite (ContextUnsigned32 el) in Ok (pid, dev, time, ts, objects)
  else if (el_TagNumber el =? 3) && IsContextConstructed el then
    Ok (pid, dev, time, dateTimeOf (av_Elements (el_Value el)) ts, objects)
  else if (el_TagNumber el =? 4) && IsContextConstructed el then
    let* objects := decodeCOVMultipleObjects (av_Elements (el_Value el)) in Ok (pid, dev, time, ts, objects)
  else Err ErrMalformed.

Definition DecodeCOVNotificationMultiple (payload : bytes) (limits : DecodeLimits) : result COVNotificationMultiple :=
  let* elements := parseElements payload limits in
  let* (pid, dev, time, ts, objects) := forElements noteField elements (None, None, None, None, []) in
  let* pid := required pid in
  let* dev := required dev in
  let* time := required time in
  Ok (mkCOVNotificationMultiple pid dev time ts objects).

(** *** Round trip *)
Definition dateTime_ok (ts : DateTime) : Prop := date_typed (dt_Date ts) /\ time_typed (dt_Time ts).
Definition multipleValue_ok (lim : DecodeLimits) (d : nat) (v : COVNotificationMultipleValue) : Prop :=
  ref_ok (mv_Property v) /\ value_ok lim d (mv_Value v) /\ optP time_typed (mv_TimeOfChange v) /\ mv_TimeStamp v = None.
Definition multipleObject_ok (lim : DecodeLimits) (d : nat) (o : COVNotificationMultipleObject) : Prop :=
  oid_ok (mo_Object o) /\ Forall (multipleValue_ok lim d) (mo_Values o).

Definition timeOctets (t : Time) : bytes := [t_Hour t; t_Minute t; t_Second t; t_Hundredths t].
Definition multipleValueElements (v : COVNotificationMultipleValue) : list Element :=
  [contextElement 0 (encodeUnsigned (pr_Identifier (mv_Property v)))] ++
  match pr_ArrayIndex (mv_Property v) with Some i => [contextElement 1 (encodeUnsigned i)] | None => [] end ++
  [mkElement true 2 false false (constructedValue (valueElements (mv_Value v)))] ++
  match mv_TimeOfChange v with Some t => [contextElement 3 (timeOctets t)] | None => [] end.
Definition multipleObjectElements (o : COVNotificationMultipleObject) : list Element :=
  [contextElement 0 (oidOctets (mo_Object o));
   mkElement true 1 false false (constructedValue (concat (map multipleValueElements (mo_Values o))))].

Lemma writes_multipleValue lim d v : limits_positive lim -> multipleValue_ok lim d v -> 8 <= MaxOctetStringLength lim ->
  writes lim (S d) (fun dst => appendMultipleValue dst v) (multipleValueElements v).
Proof.
  intros Hlim. destruct v as [[pid idx] v toc ts]; intros ([Hp Hi] & Hv & Ht & Hts) Hm;
    cbn [mv_Property mv_Value mv_TimeOfChange mv_TimeStamp pr_Identifier pr_ArrayIndex] in *; subst ts.
  unfold appendMultipleValue, multipleValueElements, timeOctets; cbn [mv_Property mv_Value mv_TimeOfChange mv_TimeStamp pr_Identifier pr_ArrayIndex].
  unfold value_ok in Hv. destruct idx, toc; rewrite ?optP_Some in *; repeat writes_step.
Qed.

Lemma writes_multipleObject lim d o : limits_positive lim -> multipleObject_ok lim d o -> 8 <= MaxOctetStringLength lim ->
  writes lim (S (S d)) (fun dst => appendMultipleObject dst o) (multipleObjectElements o).
Proof.
  intros Hlim [Ho Hv] Hm. unfold appendMultipleObject, multipleObjectElements.
  change ([?a; ?b]) with ([a] ++ [b]). eapply writes_bind; [by apply writes_oid|].
  eapply (writes_inline lim (S d) 1); [done..|]. apply writes_foldAppend. intros v Hin. apply writes_multipleValue; [done| |done].
  by eapply Forall_forall in Hv.
Qed.

Ltac decode_hook ::=
  cbn [ms_out ms_cur ms_haveProp ms_haveValue mv_Property mv_Value mv_TimeOfChange mv_TimeStamp pr_Identifier pr_ArrayIndex zeroMultipleValue].

Lemma multipleValueField_item lim d v st out : multipleValue_ok lim d v -> multipleFlush st = Ok (mkMultipleValues out zeroMultipleValue false false) ->
  exists st', forElements multipleValueField (multipleValueElements v) st = Ok st' /\
    multipleFlush st' = Ok (mkMultipleValues (out ++ [v]) zeroMultipleValue false false).
Proof.
  destruct v as [[pid idx] v toc ts]; intros ([Hp Hi] & Hv & Ht & Hts) Hf;
    cbn [mv_Property mv_Value mv_TimeOfChange mv_TimeStamp pr_Identifier pr_ArrayIndex] in *; subst ts.
  unfold multipleValueElements, timeOctets; cbn [mv_Property mv_Value mv_TimeOfChange mv_TimeStamp pr_Identifier pr_ArrayIndex app].
  unfold value_ok in Hv. erewrite forElements_step; [|unfold multipleValueField; decode_simp; rewrite Hf; decode_simp; reflexivity].
  destruct idx, toc; rewrite ?optP_Some in *; cbn [app]; decode_run; eexists; split; reflexivity.
Qed.

Lemma decodeCOVMultipleValues_encode lim d l : Forall (multipleValue_ok lim d) l ->
  decodeCOVMultipleValues (concat (map multipleValueElements l)) = Ok l.
Proof.
  intros Hl. unfold decodeCOVMultipleValues.
  assert (forall st out, multipleFlush st = Ok (mkMultipleValues out zeroMultipleValue false false) -> exists st',
    forElements multipleValueField (concat (map multipleValueElements l)) st = Ok st' /\
    multipleFlush st' = Ok (mkMultipleValues (out ++ l) zeroMultipleValue false false)) as H.
  { induction Hl as [|p l Hp Hl IH]; intros st out Hf; cbn [map concat].
    - exists st. by rewrite app_nil_r.
    - destruct (multipleValueField_item lim d p st out Hp Hf) as (st1 & H1 & H2). rewrite forElements_app, H1. cbn [bind].
      destruct (IH _ _ H2) as (st' & H3 & H4). exists st'. split; [done|]. by rewrite H4, <- app_assoc. }
  destruct (H (mkMultipleValues [] zeroMultipleValue false false) [] eq_refl) as (st' & -> & H2). cbn [bind]. by rewrite H2.
Qed.

Lemma decodeCOVMultipleObjects_encode lim d l : Forall (multipleObject_ok lim d) l ->
  decodeCOVMultipleObjects (concat (map multipleObjectElements l)) = Ok l.
Proof.
  intros Hl. unfold decodeCOVMultipleObjects.
  rewrite (forElements_items multipleObjectField multipleObjectElements Datatypes.id (multipleObject_ok lim d)); [by rewrite map_id| |done].
  intros [obj vals] out [Ho Hv]. cbn [mo_Object mo_Values] in *. unfold multipleObjectElements. cbn [mo_Object mo_Values].
  erewrite forElements_step by (unfold multipleObjectField; decode_simp; reflexivity).
  erewrite forElements_step; [done|]. unfold multipleObjectField. decode_simp.
  replace (len (out ++ [mkCOVMultipleObject obj []]) =? 0) with false by (symmetry; apply Z.eqb_neq; len_lia).
  rewrite (decodeCOVMultipleValues_encode lim d) by done. cbn [bind]. by rewrite setLast_snoc.
Qed.

(** *** What the decoder returns *)
Definition multipleValue_typed (lim : DecodeLimits) (v : COVNotificationMultipleValue) : Prop :=
  ref_ok (mv_Property v) /\ value_typed lim (mv_Value v) /\ optP time_typed (mv_TimeOfChange v) /\ optP dateTime_ok (mv_TimeStamp v).
Definition multipleObject_typed (lim : DecodeLimits) (o : COVNotificationMultipleObject) : Prop :=
  oid_ok (mo_Object o) /\ Forall (multipleValue_typed lim) (mo_Values o).

Lemma wire_date lim el : wire lim el -> date_typed (if bool_decide (av_Kind (el_Value el) = ValueDate) then av_Date (el_Value el) else zeroDate).
Proof.
  intros [d Hw]. assert (wire_at lim 254 (S d) el) as H by (eapply wire_at_mono; [|done]; lia).
  destruct H as [(tn & v & -> & _ & _ & Hv & _)|[(tn & o & -> & _)|(tn & es & -> & _)]]; [|done|done]. by destruct Hv.
Qed.
Lemma wire_time lim el : wire lim el -> time_typed (if bool_decide (av_Kind (el_Value el) = ValueTime) then av_Time (el_Value el) else zeroTime).
Proof.
  intros [d Hw]. assert (wire_at lim 254 (S d) el) as H by (eapply wire_at_mono; [|done]; lia).
  destruct H as [(tn & v & -> & _ & _ & Hv & _)|[(tn & o & -> & _)|(tn & es & -> & _)]]; [|done|done]. by destruct Hv.
Qed.

Lemma dateTimeOf_typed lim els have : Forall (wire lim) els -> optP dateTime_ok have -> optP dateTime_ok (dateTimeOf els have).
Proof.
  intros Hw Hh. destruct els as [|d [|t els]]; [done|done|]. inversion_clear Hw as [|? ? Hd Hw1]. inversion_clear Hw1 as [|? ? Ht _].
  apply optP_Some. split; [by apply (wire_date lim)|by apply (wire_time lim)].
Qed.

Definition multiple_typed (lim : DecodeLimits) (st : multipleValues) : Prop :=
  Forall (multipleValue_typed lim) (ms_out st) /\ multipleValue_typed lim (ms_cur st).

Lemma zeroMultipleValue_typed lim : multipleValue_typed lim zeroMultipleValue.
Proof. split; [done|]. split; [left; by apply ap_null|done]. Qed.

Lemma yields_multipleFlush lim st : multiple_typed lim st -> yields (multiple_typed lim) (multipleFlush st).
Proof.
  intros [Ho Hc]. unfold multipleFlush. repeat yields_step; [by split|]. split; cbn; [|by apply zeroMultipleValue_typed].
  apply Forall_app. split; [done|]. by apply Forall_singleton.
Qed.
#[export] Hint Resolve yields_multipleFlush : go.

Lemma yields_multipleValueField lim el st : wire lim el -> multiple_typed lim st -> yields (multiple_typed lim) (multipleValueField el st).
Proof.
  intros Hw Hst. unfold multipleValueField. repeat yields_step.
  - destruct H as [H1 ([H2 H5] & H3 & H4)]. split; [done|]. by split.
  - destruct Hst as [H1 ([H2 H5] & H3 & H4)]. split; [done|]. split; [split; [done|by apply optP_Some]|by split].
  - destruct Hst as [H1 ([H2 H5] & H3 & H4)]. apply andb_true_iff in E1 as [_ Ec].
    split; [done|]. split; [by split|]. split; [by apply propertyValue_typed, yields_inner|done].
  - destruct Hst as [H1 ([H2 H5] & H3 & H4 & H6)]. split; [done|]. split; [by split|]. split; [done|]. split; [by apply optP_Some|done].
  - apply andb_true_iff in E3 as [_ Ec]. pose proof (dateTimeOf_typed lim _ None (yields_inner _ _ Hw Ec) (optP_None _)) as Hts.
    destruct (dateTimeOf _ None) as [ts|]; [|done]. rewrite optP_Some in Hts. destruct Hst as [H1 ([H2 H5] & H3 & H4 & H6)].
    split; [done|]. split; [by split|]. split; [done|]. split; apply optP_Some; [apply Hts|done].
Qed.

Lemma yields_decodeCOVMultipleValues lim els : Forall (wire lim) els -> yields (Forall (multipleValue_typed lim)) (decodeCOVMultipleValues els).
Proof.
  intros Hw. unfold decodeCOVMultipleValues. eapply yields_bind; [eapply (yields_forElements (multiple_typed lim)); [apply yields_multipleValueField|exact Hw|]|].
  - split; [done|apply zeroMultipleValue_typed].
  - intros st Hst. yields_step. cbn [yields]. apply H.
Qed.

Lemma yields_decodeCOVMultipleObjects lim els : Forall (wire lim) els -> yields (Forall (multipleObject_typed lim)) (decodeCOVMultipleObjects els).
Proof.
  intros Hw. eapply (yields_forElements (Forall (multipleObject_typed lim))); [|exact Hw|done].
  intros el out Hel Ho. unfold multipleObjectField. repeat yields_step; try done.
  - apply Forall_app. split; [done|]. by apply Forall_singleton.
  - apply andb_true_iff in E0 as [_ Ec]. eapply yields_bind; [by eapply yields_decodeCOVMultipleValues, yields_inner|]. intros vals Hv.
    cbn [yields]. apply Forall_setLast; [done|]. by intros o _ [Hid _].
Qed.

Definition multipleNote_typed (note : COVNotificationMultiple) : Prop :=
  is_u 32 (nm_ProcessIdentifier note) /\ oid_ok (nm_InitiatingDevice note) /\ is_u 32 (nm_TimeRemaining note) /\ optP dateTime_ok (nm_Timestamp note).

Lemma noteField_timestamp pid dev time ts objects d t : noteField (mkElement true 3 false false (constructedValue
    [appItem (dateValue d); appItem (timeValue t)])) (pid, dev, time, ts, objects) = Ok (pid, dev, time, Some (mkDateTime d t), objects).
Proof. by destruct d, t. Qed.
Lemma noteField_objects pid dev time ts objects es l : decodeCOVMultipleObjects es = Ok l ->
  noteField (mkElement true 4 false false (constructedValue es)) (pid, dev, time, ts, objects) = Ok (pid, dev, time, ts, l).
Proof. intros H. unfold noteField. decode_simp. by rewrite H. Qed.

Lemma elcount_date d : elcount (appItem (dateValue d)) = 1.
Proof. done. Qed.
Lemma elcount_time t : elcount (appItem (timeValue t)) = 1.
Proof. done. Qed.
#[export] Hint Rewrite elcount_date elcount_time : elc.

#[export] Program Instance COVNotificationMultiple_Codec : Codec COVNotificationMultiple := {|
  encode := EncodeCOVNotificationMultiple;
  decode := DecodeCOVNotificationMultiple;
  fits lim note := multipleNote_typed note /\ exists d, Forall (multipleObject_ok (Normalize lim) d) (nm_Objects note) /\
    room lim (3 + Z.of_nat d) (7 + elcounts (concat (map multipleObjectElements (nm_Objects note))));
  typed lim note := multipleNote_typed note /\ Forall (multipleObject_typed (Normalize lim)) (nm_Objects note)
|}.
Next Obligation.
  intros lim [pid dev time ts objects] ((Hp & Hd & Ht & Hts) & d & Hv & Hm & Hdep & He);
    cbn [nm_ProcessIdentifier nm_InitiatingDevice nm_TimeRemaining nm_Timestamp nm_Objects] in *.
  pose proof (decodeCOVMultipleObjects_encode (Normalize lim) d objects Hv) as Hdec.
  assert (forall o, o ∈ objects -> writes (Normalize lim) (S (S d)) (fun dst => appendMultipleObject dst o) (multipleObjectElements o)) as Hw.
  { intros o Hin. apply writes_multipleObject; [apply Normalize_positive| |done]. by eapply Forall_forall in Hv. }
  assert (forall ts, dateTime_ok ts -> writes (Normalize lim) (S (S (S d))) (fun dst => AppendContextTagged dst 3 [item (dateValue (dt_Date ts)); item (timeValue (dt_Time ts))])
    [mkElement true 3 false false (constructedValue [appItem (dateValue (dt_Date ts)); appItem (timeValue (dt_Time ts))])]) as Hwt.
  { intros ts0 [H1 H2]. apply (writes_tagged_items _ _ 3 [_; _]); [apply Normalize_positive|done|].
    apply List.Forall_cons; [by apply byte4_date|]. apply List.Forall_cons; [by apply byte4_time|by apply List.Forall_nil]. }
  unfold EncodeCOVNotificationMultiple, DecodeCOVNotificationMultiple; cbn [nm_ProcessIdentifier nm_InitiatingDevice nm_TimeRemaining nm_Timestamp nm_Objects].
  destruct ts as [[dt tm]|]; rewrite ?optP_Some in *; [specialize (Hwt _ Hts)|clear Hwt]; cbn [dt_Date dt_Time] in *;
    codec_roundtrip lim (S (S (S d))) as Hparse; rewrite Hparse; cbn [bind app];
    do 3 decode_element; rewrite ?(forElements_step _ _ _ _ _ (noteField_timestamp _ _ _ _ _ _ _));
    by rewrite (forElements_step _ _ _ _ _ (noteField_objects _ _ _ _ _ _ _ Hdec)).
Qed.
Next Obligation.
  intros lim bs Hb. unfold DecodeCOVNotificationMultiple. yields_step.
  eapply yields_bind; [eapply (yields_forElements (fun '(pid, dev, time, ts, objects) => optP (is_u 32) pid /\ optP oid_ok dev /\ optP (is_u 32) time /\
    optP dateTime_ok ts /\ Forall (multipleObject_typed (Normalize lim)) objects)); [|eassumption|done]|].
  - intros el [[[[pid dev] time] ts] objects] Hel (H1 & H2 & H3 & H4 & H5). unfold noteField. repeat yields_step; try done.
    + apply andb_true_iff in E2 as [_ Ec]. split_and!; try done. by eapply dateTimeOf_typed, H4; eapply yields_inner.
    + apply andb_true_iff in E3 as [_ Ec]. eapply yields_bind; [by eapply yields_decodeCOVMultipleObjects, yields_inner|]. by intros l Hl.
  - intros [[[[pid dev] time] ts] objects] (H1 & H2 & H3 & H4 & H5). repeat yields_step. done.
Qed.
