(* ===== verification/AlarmServices.v ===== *)
(** * Alarm services ([service/event_notification.go], [acknowledge_alarm.go], [alarm_summary.go], [get_event_information.go])

    BACnetTimeStamp, the AcknowledgeAlarm request, the GetAlarmSummary answer
    and GetEventInformation. The CHOICE of a timestamp is the constructor of
    [TimeStamp]. *)

From Stdlib Require Import ZArith Lia.
From stdpp Require Import base list.
From S2P Require Import Prelude Value Tags Constructed Writer Codec Access AccessMultiple Object Events PropertyValues CovMultiple.

(** ** BACnetTimeStamp *)
Definition appendTimeStamp (dst : bytes) (ts : TimeStamp) : result bytes :=
  match ts with
  | TimeStampTime t => AppendContextTime dst 0 t
  | TimeStampSequence n => AppendContextUnsigned dst 1 n
  | TimeStampDateTime d t => AppendContextTagged dst 2 [item (dateValue d); item (timeValue t)]
  end.
Definition EncodeTimeStamp (ts : TimeStamp) : result bytes := newBuffer (fun dst => appendTimeStamp dst ts).

Definition DecodeTimeStamp (el : Element) : result TimeStamp :=
  if (el_TagNumber el =? 0) && negb (IsContextConstructed el) then let* t := ContextTime el in Ok (TimeStampTime t)
  else if (el_TagNumber el =? 1) && negb (IsContextConstructed el) then let* u := checkedUnsigned32 el in Ok (TimeStampSequence u)
  else if (el_TagNumber el =? 2) && IsContextConstructed el then
    match av_Elements (el_Value el) with
    | [d; t] =>
        if el_Context d || bool_decide (av_Kind (el_Value d) <> ValueDate) || el_Context t || bool_decide (av_Kind (el_Value t) <> ValueTime)
        then Err ErrMalformed
        else Ok (TimeStampDateTime (av_Date (el_Value d)) (av_Time (el_Value t)))
    | _ => Err ErrMalformed
    end
  else Err ErrMalformed.

(** [appendTimeStampField], with the opening and closing tags it computes. *)
Definition appendTimeStampField (dst : bytes) (tagNumber : Z) (ts : TimeStamp) : result bytes :=
  appendWrapped (Z.lor (Z.lor (u8 (Z.shiftl tagNumber 4)) 0x08) 6) (Z.lor (Z.lor (u8 (Z.shiftl tagNumber 4)) 0x08) 7)
    (fun dst => appendTimeStamp dst ts) dst.

(** [len(el.Value.Elements) != 1], then [DecodeTimeStamp] of the only one. *)
Definition timeStampField (el : Element) : result TimeStamp :=
  match av_Elements (el_Value el) with
  | [e] => DecodeTimeStamp e
  | _ => Err ErrMalformed
  end.

Definition stamp_ok (ts : TimeStamp) : Prop :=
  match ts with
  | TimeStampTime t => time_typed t
  | TimeStampSequence n => is_u 32 n
  | TimeStampDateTime d t => date_typed d /\ time_typed t
  end.

(** The element of a timestamp. *)
Definition stampElement (ts : TimeStamp) : Element :=
  match ts with
  | TimeStampTime t => contextElement 0 (timeOctets t)
  | TimeStampSequence n => contextElement 1 (encodeUnsigned n)
  | TimeStampDateTime d t => mkElement true 2 false false (constructedValue [appItem (dateValue d); appItem (timeValue t)])
  end.

Section Stamp.
Context (lim : DecodeLimits) (Hlim : limits_positive lim) (Hm : 8 <= MaxOctetStringLength lim).

Lemma writes_stamp ts : stamp_ok ts -> writes lim 1 (fun dst => appendTimeStamp dst ts) [stampElement ts].
Proof using Hlim Hm.
  destruct ts as [t|n|d t]; intros H; cbn [appendTimeStamp stampElement stamp_ok] in *.
  - by apply writes_time.
  - apply writes_unsigned; [done..|by apply (is_u_mono 32 64)|done].
  - destruct H as [H1 H2]. apply (writes_tagged_items _ _ 2 [_; _]); [done..|].
    apply List.Forall_cons; [by apply byte4_date|]. apply List.Forall_cons; [by apply byte4_time|by apply List.Forall_nil].
Qed.

Lemma writes_stampField tn ts : 0 <= tn < 15 -> stamp_ok ts ->
  writes lim 2 (fun dst => appendTimeStampField dst tn ts) [mkElement true tn false false (constructedValue [stampElement ts])].
Proof using Hlim Hm.
  intros Htn Hts. unfold appendTimeStampField.
  assert (forall k, In k (seqZ 0 15) -> appendContextOpenClose [] k true = [Z.lor (Z.lor (u8 (Z.shiftl k 4)) 8) 6] /\
    appendContextOpenClose [] k false = [Z.lor (Z.lor (u8 (Z.shiftl k 4)) 8) 7]) as Hk by (intros k Hk; vm_compute in Hk; destruct_or! Hk; by subst k).
  destruct (Hk tn) as [Ho Hc]; [apply list_elem_of_In, elem_of_seqZ; lia|].
  apply (writes_wrapped lim 1 tn); [unfold tagNumber_ok, tagNumberReserved; lia|done..|by apply writes_stamp].
Qed.
End Stamp.

Lemma elcount_stamp ts : elcount (stampElement ts) <= 3.
Proof. by destruct ts. Qed.

Lemma timeStampField_wrapped tn ts : stamp_ok ts ->
  timeStampField (mkElement true tn false false (constructedValue [stampElement ts])) = Ok ts.
Proof.
  unfold timeStampField. cbn [el_Value]. rewrite av_Elements_constructed.
  destruct ts as [t|n|d t]; intros H; cbn [stampElement stamp_ok] in *; unfold DecodeTimeStamp, timeOctets; by decode_simp.
Qed.
#[export] Hint Rewrite timeStampField_wrapped using assumption : codec.

Lemma yields_timeStampField lim el : wire lim el -> IsContextConstructed el = true -> yields stamp_ok (timeStampField el).
Proof.
  intros Hw Hc. pose proof (yields_inner lim el Hw Hc) as Hi. unfold timeStampField.
  destruct (av_Elements (el_Value el)) as [|e [|]]; [done| |done]. inversion_clear Hi as [|? ? He _]. unfold DecodeTimeStamp.
  destruct (_ && _); [by repeat yields_step|]. destruct (_ && _); [by repeat yields_step|]. destruct (_ && _) eqn:E1; [|done].
  apply andb_true_iff in E1 as [_ Ec]. pose proof (yields_inner lim e He Ec) as Hi.
  destruct (av_Elements (el_Value e)) as [|d [|t [|]]]; try done. inversion_clear Hi as [|? ? Hd Hi1]. inversion_clear Hi1 as [|? ? Ht _].
  destruct (_ || _) eqn:Ek; [done|]. apply orb_false_iff in Ek as [[[_ Hkd]%orb_false_iff _]%orb_false_iff Hkt].
  apply bool_decide_eq_false, dec_stable in Hkd, Hkt.
  pose proof (wire_date lim d Hd) as H1. pose proof (wire_time lim t Ht) as H2. rewrite bool_decide_eq_true_2 in H1, H2 by done. by split.
Qed.
#[export] Hint Resolve yields_timeStampField : go.

Ltac writes_hook ::=
  lazymatch goal with
  | |- writes _ _ (fun dst => appendTimeStampField dst _ _) _ => apply writes_stampField; [..|lia|]
  | |- writes _ _ (fun dst => AppendApplicationValue dst _) _ => apply writes_value
  | |- writes _ _ (fun dst => AppendContextTagged dst _ _) _ => apply writes_tagged
  end.

(** ** AcknowledgeAlarm *)
Record AcknowledgeAlarmRequest := mkAcknowledgeAlarm {
  aa_ProcessIdentifier : Z; aa_EventObject : ObjectIdentifier; aa_EventStateAcked : Z; aa_TimeStamp : TimeStamp;
  aa_AcknowledgmentSource : CharacterString; aa_TimeOfAcknowledgment : TimeStamp }.

Definition EncodeAcknowledgeAlarm (req : AcknowledgeAlarmRequest) : result bytes :=
  newBuffer (fun dst =>
    let* dst := AppendContextUnsigned dst 0 (aa_ProcessIdentifier req) in
    let* dst := AppendContextObjectID dst 1 (aa_EventObject req) in
    let* dst := AppendContextUnsigned dst 2 (aa_EventStateAcked req) in
    let* dst := appendTimeStampField dst 3 (aa_TimeStamp req) in
    let* dst := AppendContextCharacterString dst 4 (aa_AcknowledgmentSource req) in
    appendTimeStampField dst 5 (aa_TimeOfAcknowledgment req)).

Definition alarmFields : Type :=
  option Z * option ObjectIdentifier * option Z * option TimeStamp * option CharacterString * option TimeStamp.
Definition acknowledgeAlarmField (el : Element) (st : alarmFields) : result alarmFields :=
  let '(pid, obj, state, ts, src, ackTS) := st in
  if (el_TagNumber el =? 0) && negb (IsContextConstructed el) then
    let* pid := overwrite (ContextUnsigned32 el) in Ok (pid, obj, state, ts, src, ackTS)
  else if (el_TagNumber el =? 1) && negb (IsContextConstructed el) then
    let* obj := overwrite (ContextObjectID el) in Ok (pid, obj, state, ts, src, ackTS)
  else if (el_TagNumber el =? 2) && negb (IsContextConstructed el) then
    let* state := overwrite (ContextUnsigned32 el) in Ok (pid, obj, state, ts, src, ackTS)
  else if (el_TagNumber el =? 3) && IsContextConstructed el then
    let* ts := overwrite (timeStampField el) in Ok (pid, obj, state, ts, src, ackTS)
  else if (el_TagNumber el =? 4) && negb (IsContextConstructed el) then
    let* src := overwrite (ContextCharacterString el) in Ok (pid, obj, state, ts, src, ackTS)
  else if (el_TagNumber el =? 5) && IsContextConstructed el then
    let* ackTS := overwrite (timeStampField el) in Ok (pid, obj, state, ts, src, ackTS)
  else Err ErrMalformed.

Definition DecodeAcknowledgeAlarm (payload : bytes) (limits : DecodeLimits) : result AcknowledgeAlarmRequest :=
  let* elements := parseElements payload limits in
  let* (pid, obj, state, ts, src, ackTS) := forElements acknowledgeAlarmField elements (None, None, None, None, None, None) in
  let* pid := required pid in
  let* obj := required obj in
  let* state := required state in
  let* ts := required ts in
  let* src := required src in
  let* ackTS := required ackTS in
  Ok (mkAcknowledgeAlarm pid obj state ts src ackTS).

Definition alarm_ok (req : AcknowledgeAlarmRequest) : Prop :=
  is_u 32 (aa_ProcessIdentifier req) /\ oid_ok (aa_EventObject req) /\ is_u 32 (aa_EventStateAcked req) /\ stamp_ok (aa_TimeStamp req) /\
  cs_typed (aa_AcknowledgmentSource req) /\ stamp_ok (aa_TimeOfAcknowledgment req).

#[export] Program Instance AcknowledgeAlarm_Codec : Codec AcknowledgeAlarmRequest := {|
  encode := EncodeAcknowledgeAlarm;
  decode := DecodeAcknowledgeAlarm;
  fits lim req := alarm_ok req /\ cs_fits (Normalize lim) (aa_AcknowledgmentSource req) /\ room lim 2 12;
  typed _ req := alarm_ok req
|}.
Next Obligation.
  intros lim [pid obj state ts src ackTS] ((Hp & Ho & Hs & Hts & _ & Hats) & Hsrc & Hm & Hd & He);
    cbn [aa_ProcessIdentifier aa_EventObject aa_EventStateAcked aa_TimeStamp aa_AcknowledgmentSource aa_TimeOfAcknowledgment] in *.
  pose proof (elcount_stamp ts). pose proof (elcount_stamp ackTS).
  unfold EncodeAcknowledgeAlarm, DecodeAcknowledgeAlarm;
    cbn [aa_ProcessIdentifier aa_EventObject aa_EventStateAcked aa_TimeStamp aa_AcknowledgmentSource aa_TimeOfAcknowledgment].
  codec_roundtrip lim 2%nat as Hparse. rewrite Hparse. by decode_run.
Qed.
Next Obligation.
  intros lim bs Hb. unfold DecodeAcknowledgeAlarm. yields_step.
  eapply yields_bind; [eapply (yields_forElements (fun '(pid, obj, state, ts, src, ackTS) => optP (is_u 32) pid /\ optP oid_ok obj /\ optP (is_u 32) state /\
    optP stamp_ok ts /\ optP cs_typed src /\ optP stamp_ok ackTS)); [|eassumption|done]|].
  - intros el [[[[[pid obj] state] ts] src] ackTS] Hel (H1 & H2 & H3 & H4 & H5 & H6). unfold acknowledgeAlarmField. repeat yields_step; try done.
    + apply andb_true_iff in E2 as [_ Ec]. by eapply yields_timeStampField.
    + apply andb_true_iff in E4 as [_ Ec]. by eapply yields_timeStampField.
  - intros [[[[[pid obj] state] ts] src] ackTS] (H1 & H2 & H3 & H4 & H5 & H6). repeat yields_step. done.
Qed.

(** ** GetAlarmSummary *)
Record AlarmSummaryEntry := mkAlarmSummary { as_Object : ObjectIdentifier; as_AlarmState : Z; as_AckedTransitions : BitString }.

Definition appendAlarmSummary (dst : bytes) (e : AlarmSummaryEntry) : result bytes :=
  let* dst := AppendApplicationValue dst (ObjectIDValue (as_Object e)) in
  let* dst := AppendApplicationValue dst (EnumValue (as_AlarmState e)) in
  AppendApplicationValue dst (bitStringValue (as_AckedTransitions e)).
Definition EncodeGetAlarmSummaryACK (entries : list AlarmSummaryEntry) : result bytes :=
  newBuffer (fun dst => foldAppend appendAlarmSummary dst entries).

Definition EncodeGetAlarmSummary : result bytes := Ok [].
Definition DecodeGetAlarmSummary (payload : bytes) (limits : DecodeLimits) : result unit :=
  if negb (len payload =? 0) then Err ErrTrailingData else Ok tt.

(** The loop over groups of three elements. *)
Fixpoint alarmSummaries (els : list Element) : result (list AlarmSummaryEntry) :=
  match els with
  | a :: b :: c :: els =>
      let* obj := AsObjectID (el_Value a) in
      let* state := AsEnumerated (el_Value b) in
      if bool_decide (av_Kind (el_Value c) <> ValueBitString) then Err ErrMalformed
      else
        let* out := alarmSummaries els in
        Ok (mkAlarmSummary obj state (av_BitString (Clone (el_Value c))) :: out)
  | _ => Ok []
  end.
Definition DecodeGetAlarmSummaryACK (payload : bytes) (limits : DecodeLimits) : result (list AlarmSummaryEntry) :=
  let* els := parseElements payload limits in
  if negb (len els mod 3 =? 0) then Err ErrMalformed else alarmSummaries els.

Definition alarmSummary_ok (e : AlarmSummaryEntry) : Prop :=
  oid_ok (as_Object e) /\ is_u 32 (as_AlarmState e) /\ bs_typed (as_AckedTransitions e).
Definition alarmSummary_fits (lim : DecodeLimits) (e : AlarmSummaryEntry) : Prop :=
  oid_ok (as_Object e) /\ is_u 32 (as_AlarmState e) /\ app_prim lim (bitStringValue (as_AckedTransitions e)).
Definition alarmSummaryElements (e : AlarmSummaryEntry) : list Element :=
  [appItem (ObjectIDValue (as_Object e)); appItem (EnumValue (as_AlarmState e)); appItem (bitStringValue (as_AckedTransitions e))].

Lemma alarmSummaries_encode l : alarmSummaries (concat (map alarmSummaryElements l)) = Ok l.
Proof.
  induction l as [|[obj state acked] l IH]; [done|]. cbn [map concat app alarmSummaryElements alarmSummaries as_Object as_AlarmState as_AckedTransitions].
  unfold appItem, appElement. cbn [el_Value]. rewrite IH, Clone_id. done.
Qed.

Lemma length_concat_groups {A B} (f : A -> list B) n l : (forall a, length (f a) = n) -> length (concat (map f l)) = (n * length l)%nat.
Proof. intros Hf. induction l as [|a l IH]; [cbn; lia|]. cbn [map concat length]. rewrite length_app, IH, Hf. lia. Qed.

(** Three application elements with contents of the right kinds. *)
Lemma wire_value lim el : wire lim el -> av_Kind (el_Value el) = ValueBitString -> bs_typed (av_BitString (el_Value el)).
Proof.
  intros [d Hw]. assert (wire_at lim 254 (S d) el) as H by (eapply wire_at_mono; [|done]; lia).
  destruct H as [(tn & v & -> & _ & _ & Hv & _)|[(tn & o & -> & _)|(tn & es & -> & _)]]; [|done|done]. by destruct Hv.
Qed.
Lemma yields_AsObjectID_wire lim el : wire lim el -> yields oid_ok (AsObjectID (el_Value el)).
Proof.
  intros [d Hw]. assert (wire_at lim 254 (S d) el) as H by (eapply wire_at_mono; [|done]; lia).
  destruct H as [(tn & v & -> & _ & _ & Hv & _)|[(tn & o & -> & _)|(tn & es & -> & _)]]; [|done|done]. by eapply yields_AsObjectID.
Qed.
Lemma yields_AsEnumerated_wire lim el : wire lim el -> yields (is_u 32) (AsEnumerated (el_Value el)).
Proof.
  intros [d Hw]. assert (wire_at lim 254 (S d) el) as H by (eapply wire_at_mono; [|done]; lia).
  destruct H as [(tn & v & -> & _ & _ & Hv & _)|[(tn & o & -> & _)|(tn & es & -> & _)]]; [|done|done]. by eapply yields_AsEnumerated.
Qed.
#[export] Hint Resolve yields_AsObjectID_wire yields_AsEnumerated_wire : go.

Lemma yields_alarmSummaries lim n els : (length els <= n)%nat -> Forall (wire lim) els -> yields (Forall alarmSummary_ok) (alarmSummaries els).
Proof.
  revert els. induction n as [|n IH]; intros els Hn Hw; [destruct els; [by apply List.Forall_nil|cbn in Hn; lia]|].
  destruct els as [|a [|b [|c els]]]; [by apply List.Forall_nil..|]. cbn [alarmSummaries].
  inversion_clear Hw as [|? ? Ha Hw1]. inversion_clear Hw1 as [|? ? Hb Hw2]. inversion_clear Hw2 as [|? ? Hc Hw3].
  do 2 yields_step. destruct (bool_decide _) eqn:E; [done|]. apply bool_decide_eq_false, dec_stable in E.
  eapply yields_bind; [apply (IH els); [cbn in Hn; lia|done]|]. intros out Hout. apply List.Forall_cons; [|done].
  split_and!; [done..|]. rewrite Clone_id. by apply (wire_value lim).
Qed.

#[export] Program Instance GetAlarmSummaryACK_Codec : Codec (list AlarmSummaryEntry) := {|
  encode := EncodeGetAlarmSummaryACK;
  decode := DecodeGetAlarmSummaryACK;
  fits lim l := Forall (alarmSummary_fits (Normalize lim)) l /\ room lim 0 (3 * len l);
  typed _ l := Forall alarmSummary_ok l
|}.
Next Obligation.
  intros lim l (Hl & Hm & Hd & He).
  assert (length (concat (map alarmSummaryElements l)) = (3 * length l)%nat) as Hlen by by apply length_concat_groups.
  assert (elcounts (concat (map alarmSummaryElements l)) = 3 * len l) as Hel.
  { clear -l. induction l as [|e l IH]; [done|]. cbn [map concat]. rewrite elcounts_app, IH. unfold alarmSummaryElements. len_simpl.
    change (elcounts _) with 3. lia. }
  unfold EncodeGetAlarmSummaryACK, DecodeGetAlarmSummaryACK.
  destruct (newBuffer_parse lim 0 (fun dst => foldAppend appendAlarmSummary dst l) (concat (map alarmSummaryElements l))) as (bs & Hb & Hok & Hp).
  - apply writes_foldAppend. intros e He'. apply list_elem_of_In in He'. rewrite List.Forall_forall in Hl. destruct (Hl e He') as (H1 & H2 & H3).
    unfold appendAlarmSummary, alarmSummaryElements. pose proof (Normalize_positive lim).
    apply (writes_bind _ _ _ _ [_] [_; _]); [by apply writes_value, ap_oid|].
    apply (writes_bind _ _ _ _ [_] [_]); [by apply writes_value, ap_enum|by apply writes_value].
  - lia.
  - lia.
  - exists bs. split_and!; [done..|]. rewrite Hp. cbn [bind].
    assert (len (concat (map alarmSummaryElements l)) mod 3 = 0) as -> by (unfold len; rewrite Hlen, Nat2Z.inj_mul, Z.mul_comm; apply Z_mod_mult).
    cbn [Z.eqb negb]. apply alarmSummaries_encode.
Qed.
Next Obligation.
  intros lim bs Hb. unfold DecodeGetAlarmSummaryACK. do 2 yields_step; [done|]. by eapply yields_alarmSummaries.
Qed.
