(* ===== verification/EventInformation.v ===== *)
(** * GetEventInformation ([service/get_event_information.go])

    The request and the answer with its event summaries; the timestamps and
    the priorities of a summary are constructed values the codec carries
    without looking inside. *)

From Stdlib Require Import ZArith Lia.
From stdpp Require Import base list.
From S2P Require Import Prelude Value Tags Constructed Writer Codec Access AccessMultiple Object PropertyValues.

(** The request names the object of the last summary received. *)
Definition EncodeGetEventInformation (lastReceived : option ObjectIdentifier) : result bytes :=
  match lastReceived with
  | None => Ok []
  | Some id => AppendContextObjectID [] 0 id
  end.
Definition DecodeGetEventInformation (payload : bytes) (limits : DecodeLimits) : result (option ObjectIdentifier) :=
  if len payload =? 0 then Ok None
  else
    let* elements := parseElements payload limits in
    match elements with
    | [el] =>
        if negb (el_TagNumber el =? 0) || IsContextConstructed el then Err ErrMalformed
        else let* id := ContextObjectID el in Ok (Some id)
    | _ => Err ErrMalformed
    end.

Record EventSummary := mkEventSummary {
  es_Object : ObjectIdentifier; es_EventState : Z; es_AcknowledgedTransitions : BitString; es_EventTimeStamps : ApplicationValue;
  es_NotifyType : Z; es_EventEnable : BitString; es_EventPriorities : ApplicationValue }.
Record GetEventInformationACK := mkEventInformationACK { ei_Summaries : list EventSummary; ei_MoreEvents : bool }.

Definition encodeEventSummary (s : EventSummary) (dst : bytes) : result bytes :=
  if bool_decide (av_Kind (es_EventTimeStamps s) <> ValueConstructed) then Err ErrMalformed
  else if bool_decide (av_Kind (es_EventPriorities s) <> ValueConstructed) then Err ErrMalformed
  else
    let* dst := AppendContextObjectID dst 0 (es_Object s) in
    let* dst := AppendContextUnsigned dst 1 (es_EventState s) in
    let* dst := AppendContextBitString dst 2 (es_AcknowledgedTransitions s) in
    let* dst := AppendContextTagged dst 3 (av_Elements (es_EventTimeStamps s)) in
    let* dst := AppendContextUnsigned dst 4 (es_NotifyType s) in
    let* dst := AppendContextBitString dst 5 (es_EventEnable s) in
    AppendContextTagged dst 6 (av_Elements (es_EventPriorities s)).

(** Each summary is encoded into a buffer of its own. *)
Definition appendEventSummary (dst : bytes) (s : EventSummary) : result bytes :=
  let* sum := newBuffer (encodeEventSummary s) in Ok (dst ++ sum).
Definition EncodeGetEventInformationACK (ack : GetEventInformationACK) : result bytes :=
  newBuffer (fun dst =>
    let* dst := appendInline 0x0E 0x0F (fun dst => foldAppend appendEventSummary dst (ei_Summaries ack)) dst in
    AppendContextBool dst 1 (ei_MoreEvents ack)).

(** [decodeEventSummary]: a later field overwrites an earlier one. *)
Definition summaryFields : Type :=
  option ObjectIdentifier * option Z * option BitString * option ApplicationValue * option Z * option BitString * option ApplicationValue.
Definition eventSummaryField (el : Element) (st : summaryFields) : result summaryFields :=
  let '(obj, state, acked, stamps, notify, enable, prios) := st in
  if (el_TagNumber el =? 0) && negb (IsContextConstructed el) then
    let* obj := overwrite (ContextObjectID el) in Ok (obj, state, acked, stamps, notify, enable, prios)
  else if (el_TagNumber el =? 1) && negb (IsContextConstructed el) then
    let* state := overwrite (ContextUnsigned32 el) in Ok (obj, state, acked, stamps, notify, enable, prios)
  else if (el_TagNumber el =? 2) && negb (IsContextConstructed el) then
    let* acked := overwrite (ContextBitString el) in Ok (obj, state, acked, stamps, notify, enable, prios)
  else if (el_TagNumber el =? 3) && IsContextConstructed el then
    Ok (obj, state, acked, Some (Clone (constructedValue (av_Elements (el_Value el)))), notify, enable, prios)
  else if (el_TagNumber el =? 4) && negb (IsContextConstructed el) then
    let* notify := overwrite (ContextUnsigned32 el) in Ok (obj, state, acked, stamps, notify, enable, prios)
  else if (el_TagNumber el =? 5) && negb (IsContextConstructed el) then
    let* enable := overwrite (ContextBitString el) in Ok (obj, state, acked, stamps, notify, enable, prios)
  else if (el_TagNumber el =? 6) && IsContextConstructed el then
    Ok (obj, state, acked, stamps, notify, enable, Some (Clone (constructedValue (av_Elements (el_Value el)))))
  else Err ErrMalformed.
Definition decodeEventSummary (els : list Element) : result EventSummary :=
  let* (obj, state, acked, stamps, notify, enable, prios) := forElements eventSummaryField els (None, None, None, None, None, None, None) in
  let* obj := required obj in
  let* state := required state in
  let* acked := required acked in
  let* stamps := required stamps in
  let* notify := required notify in
  let* enable := required enable in
  let* prios := required prios in
  Ok (mkEventSummary obj state acked stamps notify enable prios).

(** [decodeEventSummaries]: [flush] decodes the fields collected for the
    current summary; an object identifier starts the next one. *)
Definition flushSummary (out : list EventSummary) (cur : list Element) : result (list EventSummary) :=
  if len cur =? 0 then Ok out
  else let* s := decodeEventSummary cur in Ok (out ++ [s]).
Definition eventSummariesField (el : Element) (st : list EventSummary * list Element) : result (list EventSummary * list Element) :=
  let '(out, cur) := st in
  let* (out, cur) :=
    if (el_TagNumber el =? 0) && negb (IsContextConstructed el) && (len cur >? 0) then let* out := flushSummary out cur in Ok (out, [])
    else Ok (out, cur) in
  Ok (out, cur ++ [el]).
Definition decodeEventSummaries (els : list Element) : result (list EventSummary) :=
  let* (out, cur) := forElements eventSummariesField els ([], []) in
  flushSummary out cur.

Definition eventInformationField (el : Element) (st : option (list EventSummary) * option bool) : result (option (list EventSummary) * option bool) :=
  let '(summaries, more) := st in
  if (el_TagNumber el =? 0) && IsContextConstructed el then
    let* summaries := setOnce summaries (decodeEventSummaries (av_Elements (el_Value el))) in Ok (summaries, more)
  else if (el_TagNumber el =? 1) && negb (IsContextConstructed el) then
    let* more := setOnce more (ContextBool el) in Ok (summaries, more)
  else Err ErrMalformed.
Definition DecodeGetEventInformationACK (payload : bytes) (limits : DecodeLimits) : result GetEventInformationACK :=
  let* elements := parseElements payload limits in
  let* (summaries, more) := forElements eventInformationField elements (None, None) in
  let* summaries := required summaries in
  let* more := required more in
  Ok (mkEventInformationACK summaries more).

(** ** Round trip *)
Definition summary_typed (lim : DecodeLimits) (s : EventSummary) : Prop :=
  oid_ok (es_Object s) /\ is_u 32 (es_EventState s) /\ bs_typed (es_AcknowledgedTransitions s) /\ value_typed lim (es_EventTimeStamps s) /\
  is_u 32 (es_NotifyType s) /\ bs_typed (es_EventEnable s) /\ value_typed lim (es_EventPriorities s).

Definition summary_fits (lim : DecodeLimits) (d : nat) (s : EventSummary) : Prop :=
  oid_ok (es_Object s) /\ is_u 32 (es_EventState s) /\ bs_fits lim (es_AcknowledgedTransitions s) /\
  is_u 32 (es_NotifyType s) /\ bs_fits lim (es_EventEnable s) /\
  exists ts ps, es_EventTimeStamps s = constructedValue ts /\ es_EventPriorities s = constructedValue ps /\
    Forall (wire_at lim 12 d) ts /\ Forall (wire_at lim 12 d) ps.

Definition summaryElements (s : EventSummary) : list Element :=
  [contextElement 0 (oidOctets (es_Object s)); contextElement 1 (encodeUnsigned (es_EventState s));
   contextElement 2 ([bs_UnusedBits (es_AcknowledgedTransitions s)] ++ bs_Bytes (es_AcknowledgedTransitions s));
   mkElement true 3 false false (constructedValue (av_Elements (es_EventTimeStamps s)));
   contextElement 4 (encodeUnsigned (es_NotifyType s));
   contextElement 5 ([bs_UnusedBits (es_EventEnable s)] ++ bs_Bytes (es_EventEnable s));
   mkElement true 6 false false (constructedValue (av_Elements (es_EventPriorities s)))].

Lemma writes_summary lim d s : limits_positive lim -> 8 <= MaxOctetStringLength lim -> summary_fits lim d s ->
  writes lim (S d) (fun dst => appendEventSummary dst s) (summaryElements s).
Proof.
  intros Hlim Hm (Ho & Hs & Ha & Hn & He & ts & ps & Hts & Hps & Wt & Wp).
  assert (writes lim (S d) (encodeEventSummary s) (summaryElements s)) as (bs & Hf & Hbs).
  { unfold encodeEventSummary, summaryElements. rewrite Hts, Hps. cbn [av_Kind constructedValue av_Elements]. rewrite !kind_same.
    apply (writes_bind _ _ _ _ [_]); [by apply writes_oid|].
    apply (writes_bind _ _ _ _ [_]); [apply writes_unsigned; [done..|by apply (is_u_mono 32 64)|done]|].
    apply (writes_bind _ _ _ _ [_]); [by apply writes_bits|].
    apply (writes_bind _ _ _ _ [_]); [by apply writes_tagged|].
    apply (writes_bind _ _ _ _ [_]); [apply writes_unsigned; [done..|by apply (is_u_mono 32 64)|done]|].
    apply (writes_bind _ _ _ _ [_]); [by apply writes_bits|]. by apply writes_tagged. }
  exists bs. split; [|done]. intros dst. unfold appendEventSummary, newBuffer. by rewrite Hf.
Qed.

Lemma decodeEventSummary_encode lim d s : summary_fits lim d s -> decodeEventSummary (summaryElements s) = Ok s.
Proof.
  destruct s as [obj state acked stamps notify enable prios]. intros (Ho & Hs & [Ha _] & Hn & [He _] & ts & ps & Hts & Hps & _).
  cbn [es_Object es_EventState es_AcknowledgedTransitions es_EventTimeStamps es_NotifyType es_EventEnable es_EventPriorities] in *. subst stamps prios.
  unfold decodeEventSummary, summaryElements.
  cbn [es_Object es_EventState es_AcknowledgedTransitions es_EventTimeStamps es_NotifyType es_EventEnable es_EventPriorities].
  do 3 decode_element.
  erewrite (forElements_step _ (mkElement true 3 _ _ _)); [|unfold eventSummaryField; decode_simp; rewrite Clone_id; reflexivity].
  do 2 decode_element.
  erewrite (forElements_step _ (mkElement true 6 _ _ _)); [|unfold eventSummaryField; decode_simp; rewrite Clone_id; reflexivity].
  cbn [forElements]. by decode_simp.
Qed.

Lemma collect_summary s out cur :
  forElements eventSummariesField (summaryElements s) (out, cur) = let* out := flushSummary out cur in Ok (out, summaryElements s).
Proof.
  unfold summaryElements. cbn [forElements]. unfold eventSummariesField at 1. decode_simp.
  destruct cur as [|c cur].
  - change (len [] >? 0) with false. cbn [andb bind app]. unfold flushSummary. change (len [] =? 0) with true. cbn [bind]. by unfold eventSummariesField; decode_simp.
  - replace (len (c :: cur) >? 0) with true by (symmetry; apply Z.gtb_lt; len_lia). cbn [andb bind app].
    destruct (flushSummary out (c :: cur)); [|done]. cbn [bind app]. by unfold eventSummariesField; decode_simp.
Qed.

Lemma collect_summaries lim d l out out' cur : Forall (summary_fits lim d) l -> flushSummary out cur = Ok out' ->
  bind (forElements eventSummariesField (concat (map summaryElements l)) (out, cur)) (fun '(out, cur) => flushSummary out cur) = Ok (out' ++ l).
Proof.
  revert out out' cur. induction l as [|s l IH]; intros out out' cur Hl Hf; [by rewrite app_nil_r|]. inversion_clear Hl as [|? ? Hs Hl'].
  cbn [map concat]. rewrite forElements_app, collect_summary, Hf. cbn [bind]. rewrite (IH out' (out' ++ [s])); [by rewrite <- app_assoc|done|].
  unfold flushSummary. change (len (summaryElements s) =? 0) with false. by rewrite (decodeEventSummary_encode lim d).
Qed.

Lemma decodeEventSummaries_encode lim d l : Forall (summary_fits lim d) l -> decodeEventSummaries (concat (map summaryElements l)) = Ok l.
Proof. intros Hl. by apply (collect_summaries lim d l [] [] []). Qed.

Lemma eventInformationField_summaries more es l : decodeEventSummaries es = Ok l ->
  eventInformationField (mkElement true 0 false false (constructedValue es)) (None, more) = Ok (Some l, more).
Proof. intros H. unfold eventInformationField. decode_simp. by rewrite H. Qed.

(** ** What the decoders yield *)
Lemma constructed_typed lim el : wire lim el -> IsContextConstructed el = true ->
  value_typed lim (Clone (constructedValue (av_Elements (el_Value el)))).
Proof. intros Hw Hc. rewrite Clone_id. right. eexists. split; [done|]. by apply yields_inner. Qed.

Lemma yields_eventSummary lim els : Forall (wire lim) els -> yields (summary_typed lim) (decodeEventSummary els).
Proof.
  intros Hw. unfold decodeEventSummary.
  eapply yields_bind; [eapply (yields_forElements (fun '(obj, state, acked, stamps, notify, enable, prios) => optP oid_ok obj /\ optP (is_u 32) state /\
    optP bs_typed acked /\ optP (value_typed lim) stamps /\ optP (is_u 32) notify /\ optP bs_typed enable /\ optP (value_typed lim) prios)); [|exact Hw|done]|].
  - intros el [[[[[[obj state] acked] stamps] notify] enable] prios] Hel (H1 & H2 & H3 & H4 & H5 & H6 & H7).
    unfold eventSummaryField. repeat yields_step; try done.
    + apply andb_true_iff in E2 as [_ Ec]. split_and!; try done. apply optP_Some. by apply constructed_typed.
    + apply andb_true_iff in E5 as [_ Ec]. split_and!; try done. apply optP_Some. by apply constructed_typed.
  - intros [[[[[[obj state] acked] stamps] notify] enable] prios] (H1 & H2 & H3 & H4 & H5 & H6 & H7). repeat yields_step. done.
Qed.

Lemma yields_flushSummary lim out cur : Forall (summary_typed lim) out -> Forall (wire lim) cur ->
  yields (Forall (summary_typed lim)) (flushSummary out cur).
Proof.
  intros Ho Hc. unfold flushSummary. yields_step; [done|]. eapply yields_bind; [by apply yields_eventSummary|].
  intros s Hs. cbn [yields]. apply Forall_app. split; [done|]. by apply Forall_singleton.
Qed.

Lemma yields_eventSummaries lim els : Forall (wire lim) els -> yields (Forall (summary_typed lim)) (decodeEventSummaries els).
Proof.
  intros Hw. unfold decodeEventSummaries.
  eapply yields_bind; [eapply (yields_forElements (fun '(out, cur) => Forall (summary_typed lim) out /\ Forall (wire lim) cur)); [|exact Hw|done]|].
  - intros el [out cur] Hel [Ho Hc]. unfold eventSummariesField.
    eapply (yields_bind (fun '(out, cur) => Forall (summary_typed lim) out /\ Forall (wire lim) cur)).
    + yields_step; [|done]. eapply yields_bind; [by apply yields_flushSummary|]. done.
    + intros [out' cur'] [Ho' Hc']. cbn [yields]. split; [done|]. apply Forall_app. split; [done|]. by apply Forall_singleton.
  - intros [out cur] [Ho Hc]. by apply yields_flushSummary.
Qed.

#[export] Program Instance GetEventInformation_Codec : Codec (option ObjectIdentifier) := {|
  encode := EncodeGetEventInformation;
  decode := DecodeGetEventInformation;
  fits lim last := optP oid_ok last /\ room lim 0 1;
  typed _ last := optP oid_ok last
|}.
Next Obligation.
  intros lim [id|] (Hid & Hm & Hd & He); [|by exists []]. rewrite optP_Some in Hid. cbn [EncodeGetEventInformation].
  destruct (newBuffer_parse lim 0 (fun dst => AppendContextObjectID dst 0 id) [contextElement 0 (oidOctets id)]) as (bs & Hb & Hok & Hp); [|lia|done|].
  - by apply writes_oid; [apply Normalize_positive|..].
  - exists bs. split_and!; [done..|]. unfold DecodeGetEventInformation. destruct (len bs =? 0) eqn:E.
    + bool_to_prop. apply len_zero_nil in E. subst bs. by rewrite parseElements_nil in Hp.
    + rewrite Hp. cbn [bind]. by decode_simp.
Qed.
Next Obligation.
  intros lim bs Hb. unfold DecodeGetEventInformation. yields_step; [done|].
  eapply yields_bind; [by eapply yields_parseElements|]. intros els H. destruct els as [|el [|]]; [done| |done]. inversion_clear H as [|? ? Hel _]. yields_step; [done|]. yields_step. by apply optP_Some.
Qed.

#[export] Program Instance GetEventInformationACK_Codec : Codec GetEventInformationACK := {|
  encode := EncodeGetEventInformationACK;
  decode := DecodeGetEventInformationACK;
  fits lim ack := exists d, Forall (summary_fits (Normalize lim) d) (ei_Summaries ack) /\
    room lim (2 + Z.of_nat d) (2 + elcounts (concat (map summaryElements (ei_Summaries ack))));
  typed lim ack := Forall (summary_typed (Normalize lim)) (ei_Summaries ack)
|}.
Next Obligation.
  intros lim [summaries more] (d & Hs & Hm & Hd & He); cbn [ei_Summaries ei_MoreEvents] in *.
  pose proof (decodeEventSummaries_encode (Normalize lim) d summaries Hs) as Hdec.
  assert (forall s, s ∈ summaries -> writes (Normalize lim) (S d) (fun dst => appendEventSummary dst s) (summaryElements s)) as Hw.
  { intros s Hin. apply writes_summary; [apply Normalize_positive|done|]. by eapply Forall_forall in Hs. }
  unfold EncodeGetEventInformationACK, DecodeGetEventInformationACK; cbn [ei_Summaries ei_MoreEvents].
  codec_roundtrip lim (S (S d)) as Hparse. rewrite Hparse. cbn [bind app].
  rewrite (forElements_step _ _ _ _ _ (eventInformationField_summaries _ _ _ Hdec)). by decode_run.
Qed.
Next Obligation.
  intros lim bs Hb. unfold DecodeGetEventInformationACK. yields_step.
  eapply yields_bind; [eapply (yields_forElements (fun '(summaries, more) => optP (Forall (summary_typed (Normalize lim))) summaries)); [|eassumption|done]|].
  - intros el [summaries more] Hel H1. unfold eventInformationField. repeat yields_step; try done.
    apply andb_true_iff in E as [_ Ec]. by apply yields_eventSummaries, yields_inner.
  - intros [summaries more] H1. yields_step. by destruct more.
Qed.
