(* ===== verification/EnrollmentSummary.v ===== *)
(** * GetEnrollmentSummary ([service/enrollment_summary.go], [request_decoders.go], recipients of [audit.go])

    The request with its six filters and the answer. *)

From Stdlib Require Import ZArith Lia.
From stdpp Require Import base list.
From S2P Require Import Prelude Value Tags Constructed Writer Codec Access AccessMultiple Object PropertyValues AlarmServices.

(** ** Recipients (audit.go) *)
Record AuditAddress := mkAuditAddress { aud_Network : Z; aud_MAC : bytes }.
Record AuditRecipient := mkAuditRecipient { ar_Device : option ObjectIdentifier; ar_Address : option AuditAddress }.

Definition auditAddressElements (a : AuditAddress) : list Element :=
  [item (UnsignedValue (aud_Network a)); item (octetsValue ValueOctetString (aud_MAC a))].
Definition appendAuditRecipient (dst : bytes) (tag : Z) (r : AuditRecipient) : result bytes :=
  let* el :=
    match ar_Device r, ar_Address r with
    | Some id, None => Ok (mkElement true 0 false false (ObjectIDValue id))
    | None, Some a => Ok (mkElement true 1 false false (constructedValue (auditAddressElements a)))
    | _, _ => Err ErrMalformed
    end in
  AppendContextTagged dst tag [el].

Definition decodeAuditAddress (els : list Element) : result AuditAddress :=
  match els with
  | [n; m] =>
      if el_Context n || el_Context m || bool_decide (av_Kind (el_Value n) <> ValueUnsigned) || bool_decide (av_Kind (el_Value m) <> ValueOctetString)
      then Err ErrMalformed
      else let* network := narrowU16 (av_Unsigned (el_Value n)) in Ok (mkAuditAddress network (av_OctetString (el_Value m)))
  | _ => Err ErrMalformed
  end.
Definition decodeAuditRecipient (el : Element) : result AuditRecipient :=
  if negb (IsContextConstructed el) then Err ErrMalformed
  else
    match av_Elements (el_Value el) with
    | [inner] =>
        if el_Context inner && (el_TagNumber inner =? 0) && negb (IsContextConstructed inner) then
          let* id := ContextObjectID inner in Ok (mkAuditRecipient (Some id) None)
        else if (el_TagNumber inner =? 1) && IsContextConstructed inner then
          let* addr := decodeAuditAddress (av_Elements (el_Value inner)) in Ok (mkAuditRecipient None (Some addr))
        else Err ErrMalformed
    | _ => Err ErrMalformed
    end.

Record RecipientProcess := mkRecipientProcess { rpr_Recipient : AuditRecipient; rpr_ProcessIdentifier : Z }.
Definition decodeRecipientProcess (els : list Element) : result RecipientProcess :=
  match els with
  | [r; p] =>
      if negb (el_Context r) || negb (el_TagNumber r =? 0) || negb (el_Context p) || negb (el_TagNumber p =? 1) || IsContextConstructed p
      then Err ErrMalformed
      else
        let* r := decodeAuditRecipient r in
        let* pid := ContextUnsigned32 p in
        Ok (mkRecipientProcess r pid)
  | _ => Err ErrMalformed
  end.

(** ** The request *)
Record GetEnrollmentSummaryRequest := mkEnrollmentRequest {
  gr_AcknowledgmentFilter : Z; gr_EnrollmentFilter : option RecipientProcess; gr_EventStateFilter : option Z; gr_EventTypeFilter : option Z;
  gr_PriorityFilter : option (Z * Z); gr_NotificationClassFilter : option Z }.

Definition appendOption (tag : Z) (v : option Z) (dst : bytes) : result bytes :=
  match v with
  | Some v => AppendContextUnsigned dst tag v
  | None => Ok dst
  end.

Definition EncodeGetEnrollmentSummary (req : GetEnrollmentSummaryRequest) : result bytes :=
  newBuffer (fun dst =>
    let* dst := AppendContextUnsigned dst 0 (gr_AcknowledgmentFilter req) in
    let* dst :=
      match gr_EnrollmentFilter req with
      | Some f => appendWrapped 0x1E 0x1F (fun inner =>
          let* inner := appendAuditRecipient inner 0 (rpr_Recipient f) in
          AppendContextUnsigned inner 1 (rpr_ProcessIdentifier f)) dst
      | None => Ok dst
      end in
    let* dst := appendOption 2 (gr_EventStateFilter req) dst in
    let* dst := appendOption 3 (gr_EventTypeFilter req) dst in
    let* dst :=
      match gr_PriorityFilter req with
      | Some (lo, hi) =>
          if (lo >? 255) || (hi >? 255) then Err ErrMalformed
          else appendInline 0x4E 0x4F (fun dst => let* dst := AppendContextUnsigned dst 0 lo in AppendContextUnsigned dst 1 hi) dst
      | None => Ok dst
      end in
    appendOption 5 (gr_NotificationClassFilter req) dst).

Definition decodePriorityFilter (inner : list Element) : result (Z * Z) :=
  match inner with
  | [a; b] =>
      if negb (el_TagNumber a =? 0) || negb (el_TagNumber b =? 1) then Err ErrMalformed
      else
        match ContextUnsigned a, ContextUnsigned b with
        | Ok lo, Ok hi => if (lo >? 255) || (hi >? 255) then Err ErrMalformed else Ok (u32 lo, u32 hi)
        | _, _ => Err ErrMalformed
        end
  | _ => Err ErrMalformed
  end.

(** Elements with another tag are skipped. *)
Definition enrollmentFields : Type := option Z * option RecipientProcess * option Z * option Z * option (Z * Z) * option Z.
Definition enrollmentField (el : Element) (st : enrollmentFields) : result enrollmentFields :=
  let '(ack, filter, state, ty, prio, class) := st in
  if (el_TagNumber el =? 0) && negb (IsContextConstructed el) then
    let* ack := overwrite (let* u := ContextUnsigned el in narrowU8 u) in Ok (ack, filter, state, ty, prio, class)
  else if (el_TagNumber el =? 1) && IsContextConstructed el then
    let* filter := overwrite (decodeRecipientProcess (av_Elements (el_Value el))) in Ok (ack, filter, state, ty, prio, class)
  else if (el_TagNumber el =? 2) && negb (IsContextConstructed el) then
    let* state := overwrite (ContextUnsigned32 el) in Ok (ack, filter, state, ty, prio, class)
  else if (el_TagNumber el =? 3) && negb (IsContextConstructed el) then
    let* ty := overwrite (ContextUnsigned32 el) in Ok (ack, filter, state, ty, prio, class)
  else if (el_TagNumber el =? 4) && IsContextConstructed el then
    let* prio := overwrite (decodePriorityFilter (av_Elements (el_Value el))) in Ok (ack, filter, state, ty, prio, class)
  else if (el_TagNumber el =? 5) && negb (IsContextConstructed el) then
    let* class := overwrite (ContextUnsigned32 el) in Ok (ack, filter, state, ty, prio, class)
  else Ok st.
Definition DecodeGetEnrollmentSummary (payload : bytes) (limits : DecodeLimits) : result GetEnrollmentSummaryRequest :=
  let* elements := parseElements payload limits in
  let* (ack, filter, state, ty, prio, class) := forElements enrollmentField elements (None, None, None, None, None, None) in
  let* ack := required ack in
  Ok (mkEnrollmentRequest ack filter state ty prio class).

(** ** The answer *)
Record EnrollmentSummaryEntry := mkEnrollment {
  en_Object : ObjectIdentifier; en_EventType : Z; en_EventState : Z; en_Priority : Z; en_NotificationClass : Z; en_NotificationClassAbsent : bool }.

Definition appendEnrollment (dst : bytes) (e : EnrollmentSummaryEntry) : result bytes :=
  let* dst := AppendApplicationValue dst (ObjectIDValue (en_Object e)) in
  let* dst := AppendApplicationValue dst (EnumValue (en_EventType e)) in
  let* dst := AppendApplicationValue dst (EnumValue (en_EventState e)) in
  let* dst := AppendApplicationValue dst (UnsignedValue (en_Priority e)) in
  if en_NotificationClassAbsent e then Ok dst
  else AppendApplicationValue dst (UnsignedValue (en_NotificationClass e)).
Definition EncodeGetEnrollmentSummaryACK (entries : list EnrollmentSummaryEntry) : result bytes :=
  newBuffer (fun dst => foldAppend appendEnrollment dst entries).

(** Four values of an entry. *)
Definition enrollmentHead (a b c d : Element) : result EnrollmentSummaryEntry :=
  if el_Context a || el_Context b || el_Context c || el_Context d then Err ErrMalformed
  else
    match AsObjectID (el_Value a), AsEnumerated (el_Value b), AsEnumerated (el_Value c) with
    | Ok obj, Ok et, Ok es =>
        if bool_decide (av_Kind (el_Value d) <> ValueUnsigned) || (av_Unsigned (el_Value d) >? 255) then Err ErrMalformed
        else Ok (mkEnrollment obj et es (u32 (av_Unsigned (el_Value d))) 0 true)
    | _, _, _ => Err ErrMalformed
    end.
Fixpoint enrollments (els : list Element) : result (list EnrollmentSummaryEntry) :=
  match els with
  | [] => Ok []
  | a :: b :: c :: d :: els =>
      let* entry := enrollmentHead a b c d in
      match els with
      | e :: rest =>
          if negb (el_Context e) && bool_decide (av_Kind (el_Value e) = ValueUnsigned) then
            if av_Unsigned (el_Value e) >? 0xFFFFFFFF then Err ErrMalformed
            else
              let entry := mkEnrollment (en_Object entry) (en_EventType entry) (en_EventState entry) (en_Priority entry)
                (u32 (av_Unsigned (el_Value e))) false in
              let* out := enrollments rest in Ok (entry :: out)
          else let* out := enrollments els in Ok (entry :: out)
      | [] => Ok [entry]
      end
  | _ => Err ErrMalformed
  end.
Definition DecodeGetEnrollmentSummaryACK (payload : bytes) (limits : DecodeLimits) : result (list EnrollmentSummaryEntry) :=
  let* els := parseElements payload limits in enrollments els.

(** ** Round trip of the request *)
Definition recipient_ok (lim : DecodeLimits) (r : AuditRecipient) : Prop :=
  match ar_Device r, ar_Address r with
  | Some id, None => oid_ok id
  | None, Some a => is_u 16 (aud_Network a) /\ app_prim lim (octetsValue ValueOctetString (aud_MAC a))
  | _, _ => False
  end.
Definition auditElement (r : AuditRecipient) : Element :=
  match ar_Device r, ar_Address r with
  | Some id, _ => contextElement 0 (oidOctets id)
  | None, Some a => mkElement true 1 false false (constructedValue
      [appItem (UnsignedValue (aud_Network a)); appItem (octetsValue ValueOctetString (aud_MAC a))])
  | None, None => zeroElement
  end.

(** A wrapper around one element. *)
Lemma writes_tagged_one lim d tn el e : tagNumber_ok tn -> writes lim d (fun dst => AppendTag dst el) [e] ->
  writes lim (S d) (fun dst => AppendContextTagged dst tn [el]) [mkElement true tn false false (constructedValue [e])].
Proof.
  intros Htn Hw. eapply writes_ext; [|apply (writes_constructed lim d tn (fun dst => foldAppend AppendTag dst [el]) [e]); [done|]].
  - intros dst. unfold AppendContextTagged. unfold tagNumber_ok, tagNumberReserved in *. by decide_test.
  - by apply writes_cons, writes_nil.
Qed.

Lemma writes_auditRecipient lim tn r : limits_positive lim -> 8 <= MaxOctetStringLength lim -> tagNumber_ok tn -> recipient_ok lim r ->
  writes lim 2 (fun dst => appendAuditRecipient dst tn r) [mkElement true tn false false (constructedValue [auditElement r])].
Proof.
  intros Hlim Hm Htn. unfold recipient_ok, appendAuditRecipient, auditElement.
  destruct r as [[id|] [[net mac]|]]; cbn [ar_Device ar_Address aud_Network aud_MAC bind]; intros Hr; try done.
  - apply writes_tagged_one; [done|]. eapply (writes_mono _ 0); [lia|]. eapply writes_ext; [|apply (writes_oid lim Hlim 0 0 id); done].
    intros dst. unfold AppendContextObjectID. rewrite EncodeObjectIdentifier_ok by done.
    cbn [AppendTag orb andb bool_decide]. unfold contextContentOctets, ObjectIDValue. cbn [av_Kind av_ObjectID]. by rewrite EncodeObjectIdentifier_ok.
  - destruct Hr as [Hn Hmac]. apply writes_tagged_one; [done|].
    eapply writes_ext; [|apply (writes_constructed lim 0 1 (fun dst => foldAppend AppendTag dst (map item [UnsignedValue net; octetsValue ValueOctetString mac]))); [done|]].
    + done.
    + apply (writes_items lim 0 [UnsignedValue net; octetsValue ValueOctetString mac]); [done|].
      apply List.Forall_cons; [apply ap_unsigned; unfold is_u in *; lia|by apply List.Forall_cons].
Qed.

Lemma decodeAuditRecipient_encode lim tn r : recipient_ok lim r ->
  decodeAuditRecipient (mkElement true tn false false (constructedValue [auditElement r])) = Ok r.
Proof.
  unfold recipient_ok, auditElement. destruct r as [[id|] [[net mac]|]]; cbn [ar_Device ar_Address aud_Network aud_MAC]; intros Hr; try done.
  - unfold decodeAuditRecipient. by decode_simp.
  - destruct Hr as [Hn Hmac]. unfold decodeAuditRecipient. decode_simp. cbn -[narrowU16]. by rewrite narrowU16_id.
Qed.

Definition process_ok (lim : DecodeLimits) (p : RecipientProcess) : Prop := recipient_ok lim (rpr_Recipient p) /\ is_u 32 (rpr_ProcessIdentifier p).
Definition processElements (p : RecipientProcess) : list Element :=
  [mkElement true 0 false false (constructedValue [auditElement (rpr_Recipient p)]); contextElement 1 (encodeUnsigned (rpr_ProcessIdentifier p))].

Lemma decodeRecipientProcess_encode lim p : process_ok lim p -> decodeRecipientProcess (processElements p) = Ok p.
Proof.
  destruct p as [r pid]. intros [Hr Hp]. cbn [rpr_Recipient rpr_ProcessIdentifier] in *. unfold decodeRecipientProcess, processElements.
  cbn [rpr_Recipient rpr_ProcessIdentifier]. decode_simp. rewrite (decodeAuditRecipient_encode lim) by done. by decode_simp.
Qed.

Definition filter_ok (lo_hi : Z * Z) : Prop := is_u 8 (fst lo_hi) /\ is_u 8 (snd lo_hi).
Lemma decodePriorityFilter_encode lo hi : is_u 8 lo -> is_u 8 hi ->
  decodePriorityFilter [contextElement 0 (encodeUnsigned lo); contextElement 1 (encodeUnsigned hi)] = Ok (lo, hi).
Proof.
  unfold is_u. intros Hl Hh. unfold decodePriorityFilter. decode_simp. decide_tests. rewrite !uwrap_small by (unfold is_u; lia). done.
Qed.

Definition request_ok (lim : DecodeLimits) (req : GetEnrollmentSummaryRequest) : Prop :=
  is_u 8 (gr_AcknowledgmentFilter req) /\ optP (process_ok lim) (gr_EnrollmentFilter req) /\ optP (is_u 32) (gr_EventStateFilter req) /\
  optP (is_u 32) (gr_EventTypeFilter req) /\ optP filter_ok (gr_PriorityFilter req) /\ optP (is_u 32) (gr_NotificationClassFilter req).

Definition optionElements (tn : Z) (v : option Z) : list Element := match v with Some v => [contextElement tn (encodeUnsigned v)] | None => [] end.
Definition requestElements (req : GetEnrollmentSummaryRequest) : list Element :=
  [contextElement 0 (encodeUnsigned (gr_AcknowledgmentFilter req))] ++
  match gr_EnrollmentFilter req with Some f => [mkElement true 1 false false (constructedValue (processElements f))] | None => [] end ++
  optionElements 2 (gr_EventStateFilter req) ++ optionElements 3 (gr_EventTypeFilter req) ++
  match gr_PriorityFilter req with
  | Some (lo, hi) => [mkElement true 4 false false (constructedValue [contextElement 0 (encodeUnsigned lo); contextElement 1 (encodeUnsigned hi)])]
  | None => []
  end ++ optionElements 5 (gr_NotificationClassFilter req).

Lemma writes_appendOption lim d tn v : limits_positive lim -> 8 <= MaxOctetStringLength lim -> tagNumber_ok tn -> optP (is_u 32) v ->
  writes lim d (appendOption tn v) (optionElements tn v).
Proof.
  intros Hlim Hm Htn Hv. destruct v as [v|]; [|apply writes_nil]. rewrite optP_Some in Hv. apply writes_unsigned; [done..|by apply (is_u_mono 32 64)|done].
Qed.

Lemma writes_request lim req : limits_positive lim -> 8 <= MaxOctetStringLength lim -> request_ok lim req ->
  exists f, EncodeGetEnrollmentSummary req = newBuffer f /\ writes lim 3 f (requestElements req).
Proof.
  destruct req as [ack filter state ty prio class]. intros Hlim Hm (Ha & Hf & Hs & Ht & Hp & Hc).
  unfold EncodeGetEnrollmentSummary, requestElements.
  cbn [gr_AcknowledgmentFilter gr_EnrollmentFilter gr_EventStateFilter gr_EventTypeFilter gr_PriorityFilter gr_NotificationClassFilter] in *.
  eexists. split; [reflexivity|].
  apply writes_bind; [apply writes_unsigned; [done..|by apply (is_u_mono 8 64)|done]|].
  apply writes_bind.
  { destruct filter as [[r pid]|]; [|apply writes_nil]. rewrite optP_Some in Hf. destruct Hf as [Hr Hpid]. cbn [rpr_Recipient rpr_ProcessIdentifier] in *.
    apply (writes_wrapped lim 2 1); [done..|]. apply (writes_bind _ _ _ _ [_] [_]); [by apply writes_auditRecipient|].
    apply writes_unsigned; [done..|by apply (is_u_mono 32 64)|done]. }
  apply writes_bind; [by apply writes_appendOption|]. apply writes_bind; [by apply writes_appendOption|].
  apply writes_bind; [|by apply writes_appendOption].
  destruct prio as [[lo hi]|]; [|apply writes_nil]. rewrite optP_Some in Hp. destruct Hp as [Hl Hh]. cbn [fst snd] in *. unfold is_u in Hl, Hh. decide_tests.
  eapply (writes_mono _ 1); [lia|]. apply (writes_inline lim 0 4); [done..|].
  apply (writes_bind _ _ _ _ [_] [_]); (apply writes_unsigned; [done..|unfold is_u; lia|done]).
Qed.

(** The decoder on the elements of one field. *)
Lemma decode_option ack filter state ty prio class v : optP (is_u 32) v ->
  forElements enrollmentField (optionElements 2 v) (ack, filter, None, ty, prio, class) = Ok (ack, filter, v, ty, prio, class) /\
  forElements enrollmentField (optionElements 3 v) (ack, filter, state, None, prio, class) = Ok (ack, filter, state, v, prio, class) /\
  forElements enrollmentField (optionElements 5 v) (ack, filter, state, ty, prio, None) = Ok (ack, filter, state, ty, prio, v).
Proof. destruct v as [v|]; [|done]. rewrite optP_Some. intros Hv. unfold optionElements. split_and!; by decode_run. Qed.

Lemma decode_process lim ack filter state ty prio class : optP (process_ok lim) filter ->
  forElements enrollmentField match filter with Some f => [mkElement true 1 false false (constructedValue (processElements f))] | None => [] end
    (ack, None, state, ty, prio, class) = Ok (ack, filter, state, ty, prio, class).
Proof.
  destruct filter as [f|]; [|done]. rewrite optP_Some. intros Hf. cbn [forElements]. unfold enrollmentField. decode_simp.
  by rewrite (decodeRecipientProcess_encode lim).
Qed.

Lemma decode_priority ack filter state ty prio class : optP filter_ok prio ->
  forElements enrollmentField match prio with
  | Some (lo, hi) => [mkElement true 4 false false (constructedValue [contextElement 0 (encodeUnsigned lo); contextElement 1 (encodeUnsigned hi)])]
  | None => []
  end (ack, filter, state, ty, None, class) = Ok (ack, filter, state, ty, prio, class).
Proof.
  destruct prio as [[lo hi]|]; [|done]. rewrite optP_Some. intros [Hl Hh]. cbn [fst snd] in *. cbn [forElements]. unfold enrollmentField. decode_simp.
  by rewrite decodePriorityFilter_encode.
Qed.

Lemma forElements_request req lim : request_ok lim req ->
  forElements enrollmentField (requestElements req) (None, None, None, None, None, None) =
  Ok (Some (gr_AcknowledgmentFilter req), gr_EnrollmentFilter req, gr_EventStateFilter req, gr_EventTypeFilter req, gr_PriorityFilter req,
    gr_NotificationClassFilter req).
Proof.
  destruct req as [ack filter state ty prio class]. intros (Ha & Hf & Hs & Ht & Hp & Hc). unfold requestElements.
  cbn [gr_AcknowledgmentFilter gr_EnrollmentFilter gr_EventStateFilter gr_EventTypeFilter gr_PriorityFilter gr_NotificationClassFilter] in *.
  cbn [app]. decode_element. rewrite !forElements_app, (decode_process lim) by done. cbn [bind].
  rewrite forElements_app, (proj1 (decode_option _ _ None _ _ _ _ Hs)). cbn [bind].
  rewrite forElements_app, (proj1 (proj2 (decode_option _ _ _ None _ _ _ Ht))). cbn [bind].
  rewrite forElements_app, decode_priority by done. cbn [bind].
  by rewrite (proj2 (proj2 (decode_option _ _ _ _ _ None _ Hc))).
Qed.

Lemma elcounts_request req : elcounts (requestElements req) <= 13.
Proof.
  unfold requestElements, processElements, auditElement.
  destruct req as [ack [[[[id|] [a|]] pid]|] [s|] [t|] [[lo hi]|] [c|]];
    cbn [gr_AcknowledgmentFilter gr_EnrollmentFilter gr_EventStateFilter gr_EventTypeFilter gr_PriorityFilter gr_NotificationClassFilter
         rpr_Recipient rpr_ProcessIdentifier ar_Device ar_Address optionElements app]; by vm_compute.
Qed.

Lemma yields_auditAddress lim els : Forall (wire lim) els ->
  yields (fun a => is_u 16 (aud_Network a) /\ app_prim lim (octetsValue ValueOctetString (aud_MAC a))) (decodeAuditAddress els).
Proof.
  intros Hw. destruct els as [|n [|m [|]]]; [done..| |done]. cbn [decodeAuditAddress].
  inversion_clear Hw as [|? ? Hn Hw1]. inversion_clear Hw1 as [|? ? Hm _].
  destruct (_ || _) eqn:E; [done|]. apply orb_false_iff in E as [[[En Em]%orb_false_iff Kn]%orb_false_iff Km].
  apply bool_decide_eq_false, dec_stable in Kn, Km.
  destruct (wire_application lim n Hn En) as (tn & v & -> & Hv). destruct (wire_application lim m Hm Em) as (tm & w & -> & Hw).
  cbn [appElement el_Value] in *. destruct Hv; try done. destruct Hw; try done.
  eapply yields_bind; [apply yields_narrowU16; cbn; unfold is_u in *; lia|]. intros k Hk. split; [done|]. by apply ap_octets.
Qed.
#[export] Hint Resolve yields_auditAddress : go.

Lemma yields_auditRecipient lim el : wire lim el -> yields (recipient_ok lim) (decodeAuditRecipient el).
Proof.
  intros Hw. unfold decodeAuditRecipient. destruct (IsContextConstructed el) eqn:Ec; [|done]. cbn [negb].
  pose proof (yields_inner lim el Hw Ec) as Hi. destruct (av_Elements (el_Value el)) as [|inner [|]]; [done| |done].
  inversion_clear Hi as [|? ? Hin _]. repeat yields_step; [done|].
  apply andb_true_iff in E0 as [_ Ei]. eapply yields_bind; [by apply yields_auditAddress, yields_inner|]. done.
Qed.
#[export] Hint Resolve yields_auditRecipient : go.

Lemma yields_recipientProcess lim els : Forall (wire lim) els -> yields (process_ok lim) (decodeRecipientProcess els).
Proof.
  intros Hw. destruct els as [|r [|p [|]]]; [done..| |done]. cbn [decodeRecipientProcess].
  inversion_clear Hw as [|? ? Hr Hw1]. inversion_clear Hw1 as [|? ? Hp _]. repeat yields_step. done.
Qed.

Lemma yields_priorityFilter lim els : Forall (wire lim) els -> yields filter_ok (decodePriorityFilter els).
Proof.
  intros Hw. destruct els as [|a [|b [|]]]; [done..| |done]. cbn [decodePriorityFilter].
  inversion_clear Hw as [|? ? Ha Hw1]. inversion_clear Hw1 as [|? ? Hb _]. destruct (_ || _); [done|].
  pose proof (yields_ContextUnsigned lim a Ha) as Ya. pose proof (yields_ContextUnsigned lim b Hb) as Yb.
  destruct (ContextUnsigned a) as [lo|], (ContextUnsigned b) as [hi|]; try done. cbn [yields] in Ya, Yb. unfold is_u in Ya, Yb.
  destruct (_ || _) eqn:E; [done|]. bool_to_prop. unfold filter_ok, is_u. cbn [yields fst snd]. rewrite !uwrap_small by (unfold is_u; lia). lia.
Qed.

#[export] Program Instance GetEnrollmentSummary_Codec : Codec GetEnrollmentSummaryRequest := {|
  encode := EncodeGetEnrollmentSummary;
  decode := DecodeGetEnrollmentSummary;
  fits lim req := request_ok (Normalize lim) req /\ room lim 3 13;
  typed lim req := request_ok (Normalize lim) req
|}.
Next Obligation.
  intros lim req (Hreq & Hm & Hd & He). destruct (writes_request (Normalize lim) req) as (f & -> & Hw); [apply Normalize_positive|done..|].
  pose proof (elcounts_request req).
  destruct (newBuffer_parse lim 3 f (requestElements req)) as (bs & Hb & Hok & Hp); [done|lia|lia|].
  exists bs. split_and!; [done..|]. unfold DecodeGetEnrollmentSummary. rewrite Hp. cbn [bind]. rewrite (forElements_request req (Normalize lim)) by done.
  by destruct req.
Qed.
Next Obligation.
  intros lim bs Hb. unfold DecodeGetEnrollmentSummary. yields_step.
  eapply yields_bind; [eapply (yields_forElements (fun '(ack, filter, state, ty, prio, class) => optP (is_u 8) ack /\ optP (process_ok (Normalize lim)) filter /\
    optP (is_u 32) state /\ optP (is_u 32) ty /\ optP filter_ok prio /\ optP (is_u 32) class)); [|eassumption|done]|].
  - intros el [[[[[ack filter] state] ty] prio] class] Hel (H1 & H2 & H3 & H4 & H5 & H6). unfold enrollmentField. repeat yields_step; try done.
    + apply andb_true_iff in E0 as [_ Ec]. by apply yields_recipientProcess, yields_inner.
    + apply andb_true_iff in E3 as [_ Ec]. by eapply yields_priorityFilter, yields_inner.
  - intros [[[[[ack filter] state] ty] prio] class] (H1 & H2 & H3 & H4 & H5 & H6). repeat yields_step. done.
Qed.

(** ** Round trip of the answer *)
Definition enrollment_ok (e : EnrollmentSummaryEntry) : Prop :=
  oid_ok (en_Object e) /\ is_u 32 (en_EventType e) /\ is_u 32 (en_EventState e) /\ is_u 8 (en_Priority e) /\ is_u 32 (en_NotificationClass e) /\
  (en_NotificationClassAbsent e = true -> en_NotificationClass e = 0).
Definition enrollmentElements (e : EnrollmentSummaryEntry) : list Element :=
  [appItem (ObjectIDValue (en_Object e)); appItem (EnumValue (en_EventType e)); appItem (EnumValue (en_EventState e));
   appItem (UnsignedValue (en_Priority e))] ++
  if en_NotificationClassAbsent e then [] else [appItem (UnsignedValue (en_NotificationClass e))].

Lemma writes_enrollment lim e : limits_positive lim -> enrollment_ok e -> writes lim 0 (fun dst => appendEnrollment dst e) (enrollmentElements e).
Proof.
  intros Hlim (H1 & H2 & H3 & H4 & H5 & _). unfold appendEnrollment, enrollmentElements, is_u in *.
  apply (writes_bind _ _ _ _ [_]); [by apply writes_value, ap_oid|].
  apply (writes_bind _ _ _ _ [_]); [by apply writes_value, ap_enum|].
  apply (writes_bind _ _ _ _ [_]); [by apply writes_value, ap_enum|].
  apply (writes_bind _ _ _ _ [_]); [apply writes_value, ap_unsigned; [done|unfold is_u; lia]|].
  destruct (en_NotificationClassAbsent e); [apply writes_nil|]. apply writes_value, ap_unsigned; [done|unfold is_u; lia].
Qed.

Lemma enrollments_encode l : Forall enrollment_ok l -> enrollments (concat (map enrollmentElements l)) = Ok l.
Proof.
  induction l as [|[obj et es prio class absent] l IH]; [done|]. intros Hl. inversion_clear Hl as [|? ? He Hl']. specialize (IH Hl').
  destruct He as (H1 & H2 & H3 & H4 & H5 & H6). cbn [en_Object en_EventType en_EventState en_Priority en_NotificationClass en_NotificationClassAbsent] in *.
  assert (enrollmentHead (appItem (ObjectIDValue obj)) (appItem (EnumValue et)) (appItem (EnumValue es)) (appItem (UnsignedValue prio)) =
    Ok (mkEnrollment obj et es prio 0 true)) as Hhead.
  { unfold enrollmentHead, is_u in *. cbn -[u32 Z.gtb]. decide_tests. rewrite uwrap_small by (unfold is_u; lia). done. }
  destruct absent.
  - rewrite (H6 eq_refl). cbn [map concat enrollmentElements en_Object en_EventType en_EventState en_Priority en_NotificationClassAbsent app enrollments].
    rewrite Hhead. cbn [bind]. destruct l as [|e' l]; [done|]. rewrite IH.
    unfold enrollmentElements at 1. cbn [map concat app]. done.
  - cbn [map concat enrollmentElements en_Object en_EventType en_EventState en_Priority en_NotificationClass en_NotificationClassAbsent app enrollments].
    rewrite Hhead. cbn [bind]. cbn [appItem appElement el_Context negb andb el_Value av_Kind UnsignedValue]. rewrite bool_decide_eq_true_2 by done.
    change (av_Unsigned (UnsignedValue class)) with class. unfold is_u in H5. decide_tests. rewrite IH. cbn [bind].
    by rewrite uwrap_small.
Qed.

Lemma yields_enrollmentHead lim a b c d : wire lim a -> wire lim b -> wire lim c -> wire lim d ->
  yields (fun e => enrollment_ok e /\ en_NotificationClass e = 0) (enrollmentHead a b c d).
Proof.
  intros Ha Hb Hc Hd. unfold enrollmentHead. destruct (_ || _) eqn:E; [done|]. apply orb_false_iff in E as [_ Ed].
  pose proof (yields_AsObjectID_wire lim a Ha) as Ya. pose proof (yields_AsEnumerated_wire lim b Hb) as Yb. pose proof (yields_AsEnumerated_wire lim c Hc) as Yc.
  destruct (AsObjectID _) as [obj|], (AsEnumerated (el_Value b)) as [et|], (AsEnumerated (el_Value c)) as [es|]; try done. cbn [yields] in *.
  destruct (wire_application lim d Hd Ed) as (tn & v & -> & Hv). cbn [appElement el_Value] in *.
  destruct (_ || _) eqn:E; [done|]. apply orb_false_iff in E as [Ek Ep]. apply bool_decide_eq_false, dec_stable in Ek. destruct Hv; try done.
  cbn [av_Unsigned UnsignedValue] in *. bool_to_prop. unfold is_u in *. split; [|done].
  split_and!; cbn [en_Object en_EventType en_EventState en_Priority en_NotificationClass]; try done; unfold is_u in *;
    rewrite ?uwrap_small by (unfold is_u; lia); lia.
Qed.

Lemma yields_enrollments lim n els : (length els <= n)%nat -> Forall (wire lim) els -> yields (Forall enrollment_ok) (enrollments els).
Proof.
  revert els. induction n as [|n IH]; intros els Hn Hw; [destruct els; [by apply List.Forall_nil|cbn in Hn; lia]|].
  destruct els as [|a [|b [|c [|d els]]]]; [by apply List.Forall_nil|done..|]. cbn [enrollments].
  inversion_clear Hw as [|? ? Ha Hw1]. inversion_clear Hw1 as [|? ? Hb Hw2]. inversion_clear Hw2 as [|? ? Hc Hw3]. inversion_clear Hw3 as [|? ? Hd Hw4].
  eapply yields_bind; [by apply (yields_enrollmentHead lim)|]. intros e [He Hz].
  destruct els as [|u rest]; [by apply Forall_singleton|]. inversion_clear Hw4 as [|? ? Hu Hrest].
  destruct (_ && _) eqn:E.
  - destruct (_ >? _) eqn:Ev; [done|]. eapply yields_bind; [apply (IH rest); [cbn in Hn; lia|done]|]. intros out Hout.
    apply List.Forall_cons; [|done]. destruct He as (H1 & H2 & H3 & H4 & H5 & H6). split_and!; try done. cbn. apply uwrap_range. lia.
  - eapply yields_bind; [apply (IH (u :: rest)); [cbn in *; lia|by apply List.Forall_cons]|]. intros out Hout. by apply List.Forall_cons.
Qed.

#[export] Program Instance GetEnrollmentSummaryACK_Codec : Codec (list EnrollmentSummaryEntry) := {|
  encode := EncodeGetEnrollmentSummaryACK;
  decode := DecodeGetEnrollmentSummaryACK;
  fits lim l := Forall enrollment_ok l /\ room lim 0 (5 * len l);
  typed _ l := Forall enrollment_ok l
|}.
Next Obligation.
  intros lim l (Hl & Hm & Hd & He).
  assert (elcounts (concat (map enrollmentElements l)) <= 5 * len l) as Hel.
  { clear -l. induction l as [|e l IH]; [done|]. cbn [map concat]. rewrite elcounts_app. len_simpl.
    assert (elcounts (enrollmentElements e) <= 5) by (unfold enrollmentElements; by destruct (en_NotificationClassAbsent e)). lia. }
  destruct (newBuffer_parse lim 0 (fun dst => foldAppend appendEnrollment dst l) (concat (map enrollmentElements l))) as (bs & Hb & Hok & Hp); [|lia|lia|].
  - apply writes_foldAppend. intros e Hin. apply writes_enrollment; [apply Normalize_positive|]. by eapply Forall_forall in Hl.
  - exists bs. split_and!; [done..|]. unfold DecodeGetEnrollmentSummaryACK. rewrite Hp. by apply enrollments_encode.
Qed.
Next Obligation. intros lim bs Hb. unfold DecodeGetEnrollmentSummaryACK. yields_step. by eapply yields_enrollments. Qed.
