(* ===== verification/NotificationParams.v ===== *)
(** * Notification parameters ([service/notification_parameters.go])

    The CHOICE of an event notification's event values. The typed bodies are
    the constructors of [NotificationBody]; the code has a pointer for each
    of them, of which its producers and its decoder set at most one. *)

From Stdlib Require Import ZArith Lia.
From stdpp Require Import base list.
From S2P Require Import Prelude Value Tags Constructed Writer Codec Access AccessMultiple Object PropertyValues CovCodecs.

Definition NotificationChangeOfBitstring : Z := 0.
Definition NotificationChangeOfState : Z := 1.
Definition NotificationChangeOfValue : Z := 2.
Definition NotificationCommandFailure : Z := 3.
Definition NotificationFloatingLimit : Z := 4.
Definition NotificationOutOfRange : Z := 5.
Definition NotificationComplexEventType : Z := 6.
Definition NotificationChangeOfLifeSafety : Z := 8.
Definition NotificationExtended : Z := 9.
Definition NotificationBufferReady : Z := 10.
Definition NotificationUnsignedRange : Z := 11.

Record PropertyStates := mkPropertyStates { ps_Choice : Z; ps_Value : ApplicationValue }.

(** Floats are bit patterns. *)
Inductive NotificationBody :=
| ChangeOfBitstring (referenced flags : BitString)
| ChangeOfState (newState : PropertyStates) (flags : BitString)
| ChangeOfValue (newValue : ApplicationValue) (flags : BitString)
| CommandFailure (command : ApplicationValue) (flags : BitString) (feedback : ApplicationValue)
| FloatingLimit (reference : Z) (flags : BitString) (setPoint errorLimit : Z)
| OutOfRange (exceeding : Z) (flags : BitString) (deadband limit : Z)
| ComplexEventType (values : list Element)
| ChangeOfLifeSafety (state mode : Z) (flags : BitString) (operation : Z)
| Extended (vendor eventType : Z) (parameters : list Element)
| BufferReady (buffer : list Element) (previous current : Z)
| UnsignedRange (exceeding : Z) (flags : BitString) (limit : Z).

Record NotificationParameters := mkNotificationParameters {
  np_Choice : Z; np_Body : option NotificationBody; np_RawElements : list Element }.

(** ** Encoding *)

(** One element, encoded and parsed back. *)
Definition parseBack (raw : result bytes) : result Element :=
  let* raw := raw in
  match ParseTag raw DefaultDecodeLimits with
  | Ok (el, n) => if negb (n =? len raw) then Err ErrMalformed else Ok el
  | Err _ => Err ErrMalformed
  end.
(** A sequence of elements, encoded and parsed back. *)
Definition parseBackSequence (raw : result bytes) : result (list Element) :=
  let* raw := raw in
  match ParseSequence raw DefaultDecodeLimits (-1) with
  | Ok (els, n) => if negb (n =? len raw) then Err ErrMalformed else Ok els
  | Err _ => Err ErrMalformed
  end.

Definition parseContextUnsignedElement (tag v : Z) : result Element := parseBack (newBuffer (fun dst => AppendContextUnsigned dst tag v)).
Definition parseContextBitStringElement (tag : Z) (bs : BitString) : result Element := parseBack (newBuffer (fun dst => AppendContextBitString dst tag bs)).

Definition encodeRealFlagsRealReal (v0 : Z) (flags : BitString) (v2 v3 : Z) : result (list Element) :=
  parseBackSequence (newBuffer (fun raw =>
    let* raw := AppendContextReal raw 0 v0 in
    let* raw := AppendContextBitString raw 1 flags in
    let* raw := AppendContextReal raw 2 v2 in
    AppendContextReal raw 3 v3)).
Definition encodeOutOfRange (exceeding : Z) (flags : BitString) (deadband limit : Z) : result (list Element) :=
  encodeRealFlagsRealReal exceeding flags deadband limit.
Definition encodeFloatingLimit (reference : Z) (flags : BitString) (setPoint errorLimit : Z) : result (list Element) :=
  encodeRealFlagsRealReal reference flags setPoint errorLimit.

Definition encodeChangeOfLifeSafety (state mode : Z) (flags : BitString) (operation : Z) : result (list Element) :=
  let* st := parseContextUnsignedElement 0 state in
  let* mode := parseContextUnsignedElement 1 mode in
  let* flags := parseContextBitStringElement 2 flags in
  let* op := parseContextUnsignedElement 3 operation in
  Ok [st; mode; flags; op].

Definition encodeExtended (vendor eventType : Z) (parameters : list Element) : result (list Element) :=
  let* vid := parseContextUnsignedElement 0 vendor in
  let* et := parseContextUnsignedElement 1 eventType in
  Ok ([vid; et] ++ if len parameters >? 0 then [mkElement true 2 false false (constructedValue parameters)] else []).

Definition changeOfValueNewValue (v : ApplicationValue) : result Element :=
  match av_Kind v with
  | ValueConstructed => Ok (mkElement true 0 false false v)
  | ValueBitString => Ok (mkElement true 0 false false (constructedValue [mkElement true 0 false false v]))
  | ValueReal => Ok (mkElement true 0 false false (constructedValue [mkElement true 1 false false v]))
  | _ => Err ErrUnsupported
  end.

Definition encodePropertyStates (ps : PropertyStates) : result (list Element) :=
  match av_Kind (ps_Value ps) with
  | ValueBoolean => let* el := parseBack (newBuffer (fun raw => AppendContextBool raw (ps_Choice ps) (av_Boolean (ps_Value ps)))) in Ok [el]
  | ValueEnumerated => let* el := parseContextUnsignedElement (ps_Choice ps) (av_Enumerated (ps_Value ps)) in Ok [el]
  | ValueUnsigned => let* el := parseContextUnsignedElement (ps_Choice ps) (av_Unsigned (ps_Value ps)) in Ok [el]
  | _ => Ok [mkElement true (ps_Choice ps) false false (ps_Value ps)]
  end.

Definition encodeNotificationInner (p : NotificationParameters) : result (list Element * Z) :=
  match np_Body p with
  | Some (ChangeOfState newState flags) =>
      let* ps := encodePropertyStates newState in
      let* flags := parseContextBitStringElement 1 flags in
      Ok ([mkElement true 0 false false (constructedValue ps)] ++ [flags], NotificationChangeOfState)
  | Some (ChangeOfBitstring referenced flags) =>
      let* els := parseBackSequence (newBuffer (fun raw =>
        let* raw := AppendContextBitString raw 0 referenced in AppendContextBitString raw 1 flags)) in
      Ok (els, NotificationChangeOfBitstring)
  | Some (ChangeOfValue newValue flags) =>
      let* newValue := changeOfValueNewValue newValue in
      let* flags := parseContextBitStringElement 1 flags in
      Ok ([newValue] ++ [flags], NotificationChangeOfValue)
  | Some (OutOfRange exceeding flags deadband limit) =>
      let* els := encodeOutOfRange exceeding flags deadband limit in Ok (els, NotificationOutOfRange)
  | Some (CommandFailure command flags feedback) =>
      let* flags := parseContextBitStringElement 1 flags in
      Ok ([mkElement true 0 false false command; flags; mkElement true 2 false false feedback], NotificationCommandFailure)
  | Some (FloatingLimit reference flags setPoint errorLimit) =>
      let* els := encodeFloatingLimit reference flags setPoint errorLimit in Ok (els, NotificationFloatingLimit)
  | Some (BufferReady buffer previous current) =>
      let* prev := parseContextUnsignedElement 1 previous in
      let* cur := parseContextUnsignedElement 2 current in
      Ok (buffer ++ [prev; cur], NotificationBufferReady)
  | Some (UnsignedRange exceeding flags limit) =>
      let* ex := parseContextUnsignedElement 0 exceeding in
      let* flags := parseContextBitStringElement 1 flags in
      let* lim := parseContextUnsignedElement 2 limit in
      Ok ([ex; flags; lim], NotificationUnsignedRange)
  | Some (ChangeOfLifeSafety state mode flags operation) =>
      let* els := encodeChangeOfLifeSafety state mode flags operation in Ok (els, NotificationChangeOfLifeSafety)
  | Some (Extended vendor eventType parameters) =>
      let* els := encodeExtended vendor eventType parameters in Ok (els, NotificationExtended)
  | Some (ComplexEventType values) => Ok (values, NotificationComplexEventType)
  | None => if len (np_RawElements p) >? 0 then Ok (np_RawElements p, np_Choice p) else Err ErrMalformed
  end.

Definition EncodeNotificationParameters (p : NotificationParameters) : result (list Element) :=
  let* (inner, choice) := encodeNotificationInner p in
  Ok [mkElement true choice false false (constructedValue inner)].

(** ** Decoding *)
Definition contextReal (el : Element) (tag : Z) : result Z :=
  if negb (el_TagNumber el =? tag) then Err ErrMalformed
  else if IsContextConstructed el then
    match av_Elements (el_Value el) with
    | [e] => if negb (el_Context e) && bool_decide (av_Kind (el_Value e) = ValueReal) then Ok (av_Real (el_Value e)) else Err ErrMalformed
    | _ => Err ErrMalformed
    end
  else if negb (len (av_OctetString (el_Value el)) =? 4) then Err ErrMalformed
  else Uint 4 (av_OctetString (el_Value el)).

(** An error of an accessor that the decoder reports as malformed. *)
Definition malformed {A} (m : result A) : result A := match m with Ok a => Ok a | Err _ => Err ErrMalformed end.

Definition decodeRealFlagsRealReal (flagsOf : Element -> result BitString) (els : list Element) : result (Z * BitString * Z * Z) :=
  match els with
  | [a; b; c; d] =>
      let* v0 := contextReal a 0 in
      let* flags := flagsOf b in
      let* v2 := contextReal c 2 in
      let* v3 := contextReal d 3 in
      Ok (v0, flags, v2, v3)
  | _ => Err ErrMalformed
  end.
Definition decodeFloatingLimit (els : list Element) : result NotificationBody :=
  let* (reference, flags, setPoint, limit) := decodeRealFlagsRealReal ContextBitString els in Ok (FloatingLimit reference flags setPoint limit).
Definition decodeOutOfRange (els : list Element) : result NotificationBody :=
  let* (exceeding, flags, deadband, limit) :=
    decodeRealFlagsRealReal (fun el => if negb (el_TagNumber el =? 1) then Err ErrMalformed else malformed (ContextBitString el)) els in
  Ok (OutOfRange exceeding flags deadband limit).

Definition decodeChangeOfLifeSafety (els : list Element) : result NotificationBody :=
  match els with
  | [a; b; c; d] =>
      let* st := ContextUnsigned32 a in
      let* mode := ContextUnsigned32 b in
      let* flags := ContextBitString c in
      let* op := ContextUnsigned32 d in
      Ok (ChangeOfLifeSafety st mode flags op)
  | _ => Err ErrMalformed
  end.

(** [cloneElements] *)
Definition cloneElements (els : list Element) : list Element :=
  map (fun el => mkElement (el_Context el) (el_TagNumber el) (el_Opening el) (el_Closing el) (Clone (el_Value el))) els.

(** Elements with another tag are skipped; fields not met are zero. *)
Definition extendedField (el : Element) (st : Z * Z * list Element) : result (Z * Z * list Element) :=
  let '(vendor, eventType, parameters) := st in
  if (el_TagNumber el =? 0) && negb (IsContextConstructed el) then
    let* u := ContextUnsigned el in let* vendor := narrowU16 u in Ok (vendor, eventType, parameters)
  else if (el_TagNumber el =? 1) && negb (IsContextConstructed el) then
    let* eventType := ContextUnsigned32 el in Ok (vendor, eventType, parameters)
  else if (el_TagNumber el =? 2) && IsContextConstructed el then
    Ok (vendor, eventType, cloneElements (av_Elements (el_Value el)))
  else Ok st.
Definition decodeExtended (els : list Element) : result NotificationBody :=
  let* (vendor, eventType, parameters) := forElements extendedField els (0, 0, []) in Ok (Extended vendor eventType parameters).

Definition decodeCommandFailure (els : list Element) : result NotificationBody :=
  match els with
  | [a; b; c] => let* flags := ContextBitString b in Ok (CommandFailure (Clone (el_Value a)) flags (Clone (el_Value c)))
  | _ => Err ErrMalformed
  end.

Definition bufferReadyField (el : Element) (st : list Element * Z * Z) : result (list Element * Z * Z) :=
  let '(buffer, previous, current) := st in
  if el_TagNumber el =? 0 then
    Ok (buffer ++ [mkElement (el_Context el) (el_TagNumber el) (el_Opening el) (el_Closing el) (Clone (el_Value el))], previous, current)
  else if (el_TagNumber el =? 1) && negb (IsContextConstructed el) then
    let* previous := ContextUnsigned32 el in Ok (buffer, previous, current)
  else if (el_TagNumber el =? 2) && negb (IsContextConstructed el) then
    let* current := ContextUnsigned32 el in Ok (buffer, previous, current)
  else Ok st.
Definition decodeBufferReady (els : list Element) : result NotificationBody :=
  let* (buffer, previous, current) := forElements bufferReadyField els ([], 0, 0) in Ok (BufferReady buffer previous current).

Definition decodeUnsignedRange (els : list Element) : result NotificationBody :=
  match els with
  | [a; b; c] =>
      let* u0 := ContextUnsigned32 a in
      let* flags := ContextBitString b in
      let* u2 := ContextUnsigned32 c in
      Ok (UnsignedRange u0 flags u2)
  | _ => Err ErrMalformed
  end.

(** The value of a BACnetPropertyStates element. *)
Definition propertyStateValue (el : Element) : result ApplicationValue :=
  if negb (IsContextConstructed el) && (el_TagNumber el =? 0) then let* b := malformed (ContextBool el) in Ok (BoolValue b)
  else if negb (IsContextConstructed el) then
    match ContextUnsigned32 el with
    | Ok u => Ok (EnumValue u)
    | Err _ => Ok (octetsValue ValueContext (av_OctetString (el_Value el)))
    end
  else Ok (Clone (constructedValue (av_Elements (el_Value el)))).
Definition decodeChangeOfState (els : list Element) : result NotificationBody :=
  match els with
  | [a; b] =>
      if negb (el_TagNumber a =? 0) || negb (IsContextConstructed a) then Err ErrMalformed
      else
        match av_Elements (el_Value a) with
        | [psEl] =>
            if negb (el_Context psEl) then Err ErrMalformed
            else
              let* v := propertyStateValue psEl in
              if negb (el_TagNumber b =? 1) || IsContextConstructed b then Err ErrMalformed
              else let* flags := ContextBitString b in Ok (ChangeOfState (mkPropertyStates (el_TagNumber psEl) v) flags)
        | _ => Err ErrMalformed
        end
  | _ => Err ErrMalformed
  end.

Definition decodeChangeOfBitstring (els : list Element) : result NotificationBody :=
  match els with
  | [a; b] =>
      if negb (el_TagNumber a =? 0) then Err ErrMalformed
      else
        let* ref := malformed (ContextBitString a) in
        if negb (el_TagNumber b =? 1) then Err ErrMalformed
        else let* flags := malformed (ContextBitString b) in Ok (ChangeOfBitstring ref flags)
  | _ => Err ErrMalformed
  end.

(** The alternative of another element than a constructed one is kept in a
    context value. *)
Definition contextValue (es : list Element) : ApplicationValue :=
  mkAV ValueContext false 0 0 0 0 [] zeroCharacter zeroBitString 0 zeroDate zeroTime zeroObjectID es.
Definition decodeChangeOfValue (els : list Element) : result NotificationBody :=
  match els with
  | [a; b] =>
      if negb (el_TagNumber a =? 0) then Err ErrMalformed
      else
        let newVal := if IsContextConstructed a then Clone (constructedValue (av_Elements (el_Value a))) else Clone (contextValue [a]) in
        if negb (el_TagNumber b =? 1) then Err ErrMalformed
        else let* flags := malformed (ContextBitString b) in Ok (ChangeOfValue newVal flags)
  | _ => Err ErrMalformed
  end.

Definition decodeBody (choice : Z) (els : list Element) : result (option NotificationBody) :=
  let some m := let* b := m in Ok (Some b) in
  if choice =? NotificationChangeOfState then some (decodeChangeOfState els)
  else if choice =? NotificationChangeOfBitstring then some (decodeChangeOfBitstring els)
  else if choice =? NotificationChangeOfValue then some (decodeChangeOfValue els)
  else if choice =? NotificationOutOfRange then some (decodeOutOfRange els)
  else if choice =? NotificationCommandFailure then some (decodeCommandFailure els)
  else if choice =? NotificationFloatingLimit then some (decodeFloatingLimit els)
  else if choice =? NotificationBufferReady then some (decodeBufferReady els)
  else if choice =? NotificationUnsignedRange then some (decodeUnsignedRange els)
  else if choice =? NotificationChangeOfLifeSafety then some (decodeChangeOfLifeSafety els)
  else if choice =? NotificationExtended then some (decodeExtended els)
  else if choice =? NotificationComplexEventType then Ok (Some (ComplexEventType (cloneElements els)))
  else Ok None.
Definition DecodeNotificationParameters (elements : list Element) : result NotificationParameters :=
  match elements with
  | [choiceEl] =>
      if negb (el_Context choiceEl) || negb (IsContextConstructed choiceEl) then Err ErrMalformed
      else
        let inner := av_Elements (el_Value choiceEl) in
        let* body := decodeBody (el_TagNumber choiceEl) inner in
        Ok (mkNotificationParameters (el_TagNumber choiceEl) body (cloneElements inner))
  | _ => Err ErrMalformed
  end.

(** ** The elements of a body *)
Definition bitsElement (tn : Z) (b : BitString) : Element := contextElement tn ([bs_UnusedBits b] ++ bs_Bytes b).
Definition unsignedElement (tn v : Z) : Element := contextElement tn (encodeUnsigned v).
Definition realElement (tn v : Z) : Element := contextElement tn (be_put 4 v).
Definition constructedElement (tn : Z) (es : list Element) : Element := mkElement true tn false false (constructedValue es).

Definition stateElement (ps : PropertyStates) : Element :=
  match av_Kind (ps_Value ps) with
  | ValueBoolean => contextElement (ps_Choice ps) [if av_Boolean (ps_Value ps) then 1 else 0]
  | ValueEnumerated => unsignedElement (ps_Choice ps) (av_Enumerated (ps_Value ps))
  | ValueUnsigned => unsignedElement (ps_Choice ps) (av_Unsigned (ps_Value ps))
  | _ => mkElement true (ps_Choice ps) false false (ps_Value ps)
  end.
(** The contents of a primitive value in a context tag: what arrives of the
    untyped values of command-failure. *)
Definition bareOctets (v : ApplicationValue) : option bytes :=
  match av_Kind v with
  | ValueBoolean => Some [if av_Boolean v then 1 else 0]
  | ValueUnsigned => Some (encodeUnsigned (av_Unsigned v))
  | ValueEnumerated => Some (encodeUnsigned (av_Enumerated v))
  | ValueReal => Some (be_put 4 (av_Real v))
  | _ => None
  end.
Definition fieldElement (tn : Z) (v : ApplicationValue) : Element :=
  match bareOctets v with
  | Some o => contextElement tn o
  | None => mkElement true tn false false v
  end.
(** The new value of change-of-value: changed-bits in context 0,
    changed-value in context 1. *)
Definition newValueElement (v : ApplicationValue) : Element :=
  match av_Kind v with
  | ValueBitString => constructedElement 0 [bitsElement 0 (av_BitString v)]
  | ValueReal => constructedElement 0 [realElement 1 (av_Real v)]
  | _ => mkElement true 0 false false v
  end.

(** The elements a receiver parses. *)
Definition bodyElements (b : NotificationBody) : list Element :=
  match b with
  | ChangeOfBitstring r f => [bitsElement 0 r; bitsElement 1 f]
  | ChangeOfState ps f => [constructedElement 0 [stateElement ps]; bitsElement 1 f]
  | ChangeOfValue v f => [newValueElement v; bitsElement 1 f]
  | CommandFailure c f v => [fieldElement 0 c; bitsElement 1 f; fieldElement 2 v]
  | FloatingLimit r f s e => [realElement 0 r; bitsElement 1 f; realElement 2 s; realElement 3 e]
  | OutOfRange r f s e => [realElement 0 r; bitsElement 1 f; realElement 2 s; realElement 3 e]
  | ComplexEventType vs => vs
  | ChangeOfLifeSafety s m f o => [unsignedElement 0 s; unsignedElement 1 m; bitsElement 2 f; unsignedElement 3 o]
  | Extended v t ps => [unsignedElement 0 v; unsignedElement 1 t] ++ if len ps >? 0 then [constructedElement 2 ps] else []
  | BufferReady buf p c => buf ++ [unsignedElement 1 p; unsignedElement 2 c]
  | UnsignedRange e f l => [unsignedElement 0 e; bitsElement 1 f; unsignedElement 2 l]
  end.
(** The elements the encoder makes, where they differ: a typed value in a
    context tag. *)
Definition sentNewValue (v : ApplicationValue) : Element :=
  match av_Kind v with
  | ValueBitString => constructedElement 0 [mkElement true 0 false false v]
  | ValueReal => constructedElement 0 [mkElement true 1 false false v]
  | _ => mkElement true 0 false false v
  end.
Definition sentElements (b : NotificationBody) : list Element :=
  match b with
  | ChangeOfValue v f => [sentNewValue v; bitsElement 1 f]
  | CommandFailure c f v => [mkElement true 0 false false c; bitsElement 1 f; mkElement true 2 false false v]
  | b => bodyElements b
  end.
Definition bodyChoice (b : NotificationBody) : Z :=
  match b with
  | ChangeOfBitstring _ _ => NotificationChangeOfBitstring
  | ChangeOfState _ _ => NotificationChangeOfState
  | ChangeOfValue _ _ => NotificationChangeOfValue
  | CommandFailure _ _ _ => NotificationCommandFailure
  | FloatingLimit _ _ _ _ => NotificationFloatingLimit
  | OutOfRange _ _ _ _ => NotificationOutOfRange
  | ComplexEventType _ => NotificationComplexEventType
  | ChangeOfLifeSafety _ _ _ _ => NotificationChangeOfLifeSafety
  | Extended _ _ _ => NotificationExtended
  | BufferReady _ _ _ => NotificationBufferReady
  | UnsignedRange _ _ _ => NotificationUnsignedRange
  end.

(** What the receiver makes of a body: the number of a property state comes
    back as an enumerated value, whatever its choice; the new value of
    change-of-value as the chosen alternative; a primitive value of
    command-failure as the octets in its context tag. *)
Definition receivedField (v : ApplicationValue) : ApplicationValue :=
  match bareOctets v with
  | Some o => octetsValue ValueContext o
  | None => v
  end.
Definition receivedNewValue (v : ApplicationValue) : ApplicationValue :=
  match av_Kind v with
  | ValueBitString => constructedValue [bitsElement 0 (av_BitString v)]
  | ValueReal => constructedValue [realElement 1 (av_Real v)]
  | _ => v
  end.
Definition receivedBody (b : NotificationBody) : NotificationBody :=
  match b with
  | ChangeOfState ps f =>
      ChangeOfState (mkPropertyStates (ps_Choice ps)
        (if bool_decide (av_Kind (ps_Value ps) = ValueUnsigned) then EnumValue (av_Unsigned (ps_Value ps)) else ps_Value ps)) f
  | ChangeOfValue v f => ChangeOfValue (receivedNewValue v) f
  | CommandFailure c f v => CommandFailure (receivedField c) f (receivedField v)
  | _ => b
  end.

Definition flags_ok (b : BitString) : Prop := bs_typed b /\ len (bs_Bytes b) <= 7.
Definition constructed_fits (lim : DecodeLimits) (d : nat) (v : ApplicationValue) : Prop :=
  exists es, v = constructedValue es /\ Forall (wire_at lim 12 d) es.
Definition state_fits (lim : DecodeLimits) (d : nat) (ps : PropertyStates) : Prop :=
  tagNumber_ok (ps_Choice ps) /\
  ((ps_Choice ps = 0 /\ exists b, ps_Value ps = BoolValue b) \/
   (ps_Choice ps <> 0 /\ exists u, is_u 32 u /\ (ps_Value ps = EnumValue u \/ ps_Value ps = UnsignedValue u)) \/
   constructed_fits lim d (ps_Value ps)).
(** A change-of-value reports bits, a real or the alternative as decoded. *)
Definition newValue_fits (lim : DecodeLimits) (d : nat) (v : ApplicationValue) : Prop :=
  constructed_fits lim d v \/ (exists b, v = bitStringValue b /\ bs_fits lim b) \/ (exists r, v = RealValue r /\ is_u 32 r).
(** The values of command-failure: constructed, or of a primitive type. *)
Definition field_fits (lim : DecodeLimits) (d : nat) (v : ApplicationValue) : Prop :=
  constructed_fits lim d v \/ (exists b, v = BoolValue b) \/ (exists u, is_u 64 u /\ v = UnsignedValue u) \/
  (exists u, is_u 32 u /\ v = EnumValue u) \/ (exists r, is_u 32 r /\ v = RealValue r).
(** Bits that both the encoder, which parses its own output, and the receiver
    accept. *)
Definition bits_fit (lim : DecodeLimits) (b : BitString) : Prop := bs_fits lim b /\ bs_fits (Normalize DefaultDecodeLimits) b.
Definition body_fits (lim : DecodeLimits) (d : nat) (b : NotificationBody) : Prop :=
  match b with
  | ChangeOfBitstring r f => bits_fit lim r /\ flags_ok f
  | ChangeOfState ps f => state_fits lim d ps /\ flags_ok f
  | ChangeOfValue v f => newValue_fits lim d v /\ flags_ok f
  | CommandFailure c f v => field_fits lim d c /\ flags_ok f /\ field_fits lim d v
  | FloatingLimit r f s e | OutOfRange r f s e => is_u 32 r /\ flags_ok f /\ is_u 32 s /\ is_u 32 e
  | ComplexEventType vs => Forall (wire_at lim 12 d) vs
  | ChangeOfLifeSafety s m f o => is_u 32 s /\ is_u 32 m /\ flags_ok f /\ is_u 32 o
  | Extended v t ps => is_u 16 v /\ is_u 32 t /\ Forall (wire_at lim 12 d) ps
  | BufferReady buf p c => Forall (fun e => wire_at lim 12 d e /\ el_TagNumber e = 0) buf /\ is_u 32 p /\ is_u 32 c
  | UnsignedRange e f l => is_u 32 e /\ flags_ok f /\ is_u 32 l
  end.

(** *** Elements parsed back *)
Lemma parseBack_context tn o : tagNumber_ok tn -> bytes_ok o -> len o <= 8 ->
  parseBack (newBuffer (fun dst => appendContextPrimitive dst tn o)) = Ok (contextElement tn o).
Proof.
  intros Htn Ho Hl. destruct (appendContextPrimitive_ParseTag DefaultDecodeLimits tn o) as (bs & Hb & _ & _ & Hp); [done..|unfold MaxUint32; lia| |].
  - change (MaxOctetStringLength (Normalize DefaultDecodeLimits)) with 65535. lia.
  - unfold parseBack, newBuffer. rewrite Hb. cbn [bind app]. specialize (Hp []). rewrite app_nil_r in Hp. rewrite Hp, Z.eqb_refl. done.
Qed.

Lemma parseBack_unsigned tn v : tagNumber_ok tn -> is_u 64 v -> parseContextUnsignedElement tn v = Ok (unsignedElement tn v).
Proof. intros Htn Hv. apply parseBack_context; [done|apply encodeUnsigned_bytes_ok|]. pose proof (encodeUnsigned_len v Hv). lia. Qed.

Lemma parseBack_bits tn b : tagNumber_ok tn -> flags_ok b -> parseContextBitStringElement tn b = Ok (bitsElement tn b).
Proof.
  intros Htn [(Hu & He & Hb) Hl]. unfold parseContextBitStringElement, newBuffer, AppendContextBitString. rewrite validateBitString_ok by done.
  apply parseBack_context; [done|apply List.Forall_cons; [unfold is_u; lia|done]|cbn [app]; len_lia].
Qed.

Lemma parseBackSequence_writes d f es : writes (Normalize DefaultDecodeLimits) d f es -> Z.of_nat d <= 32 -> elcounts es <= 4096 ->
  parseBackSequence (newBuffer f) = Ok es.
Proof.
  intros Hw Hd He. destruct (newBuffer_parse DefaultDecodeLimits d f es Hw Hd He) as (bs & -> & _ & Hp).
  unfold parseBackSequence. cbn [bind]. unfold parseElements in Hp. destruct (ParseSequence _ _ _) as [[els n]|]; [|done]. cbn [bind] in Hp. by destruct (negb _).
Qed.

Lemma flags_default b : flags_ok b -> bs_fits (Normalize DefaultDecodeLimits) b.
Proof. intros [Ht Hl]. split; [done|]. change (MaxOctetStringLength (Normalize DefaultDecodeLimits)) with 65535. unfold MaxUint32. lia. Qed.

Lemma realFlags_encode r f s e : is_u 32 r -> flags_ok f -> is_u 32 s -> is_u 32 e ->
  encodeRealFlagsRealReal r f s e = Ok [realElement 0 r; bitsElement 1 f; realElement 2 s; realElement 3 e].
Proof.
  intros Hr Hf%flags_default Hs He. apply (parseBackSequence_writes 0); [|done|done]. pose proof (Normalize_positive DefaultDecodeLimits).
  apply (writes_bind _ _ _ _ [_]); [by apply writes_real|]. apply (writes_bind _ _ _ _ [_]); [by apply writes_bits|].
  apply (writes_bind _ _ _ _ [_]); [by apply writes_real|]. by apply writes_real.
Qed.

(** The encoder makes [sentElements]; on the wire these are [bodyElements]. *)
Lemma encodeNotificationInner_body lim d c r b : body_fits lim d b ->
  encodeNotificationInner (mkNotificationParameters c (Some b) r) = Ok (sentElements b, bodyChoice b).
Proof.
  assert (forall v, is_u 32 v -> is_u 64 v) as H64 by (intros; by apply (is_u_mono 32 64)).
  destruct b; cbn [body_fits]; intros Hb; unfold encodeNotificationInner; cbn [np_Body sentElements bodyElements bodyChoice].
  - destruct Hb as [H1 H2]. erewrite (parseBackSequence_writes 0 _ [_; _]); [done| |done|done].
    pose proof (Normalize_positive DefaultDecodeLimits).
    apply (writes_bind _ _ _ _ [_] [_]); (apply writes_bits; [done..|first [by apply flags_default|apply H1]]).
  - destruct newState as [choice v]. destruct Hb as [[Htn Hs] Hf]. cbn [ps_Choice ps_Value] in *. unfold stateElement, encodePropertyStates. cbn [ps_Choice ps_Value].
    rewrite parseBack_bits by done.
    destruct Hs as [[-> [x ->]]|[[_ (u & Hu & [-> | ->])]|(es & -> & _)]];
      cbn [av_Kind av_Boolean av_Enumerated av_Unsigned BoolValue EnumValue UnsignedValue constructedValue].
    + destruct x; (unfold AppendContextBool; rewrite (parseBack_context 0 [_]); [done|done|solve_bytes|done]).
    + by rewrite parseBack_unsigned by first [done|auto].
    + by rewrite parseBack_unsigned by first [done|auto].
    + done.
  - destruct Hb as [Hv Hf]. rewrite parseBack_bits by done. by destruct Hv as [(es & -> & _)|[(bs & -> & _)|(r0 & -> & _)]].
  - destruct Hb as (_ & Hf & _). by rewrite parseBack_bits by done.
  - destruct Hb as (H1 & H2 & H3 & H4). unfold encodeFloatingLimit. by rewrite realFlags_encode by done.
  - destruct Hb as (H1 & H2 & H3 & H4). unfold encodeOutOfRange. by rewrite realFlags_encode by done.
  - done.
  - destruct Hb as (H1 & H2 & H3 & H4). unfold encodeChangeOfLifeSafety. by rewrite !parseBack_unsigned, parseBack_bits by first [done|auto].
  - destruct Hb as (H1 & H2 & _). unfold encodeExtended. apply (is_u_mono 16 64) in H1; [|lia]. by rewrite !parseBack_unsigned by first [done|auto].
  - destruct Hb as (_ & H1 & H2). by rewrite !parseBack_unsigned by first [done|auto].
  - destruct Hb as (H1 & H2 & H3). by rewrite !parseBack_unsigned, parseBack_bits by first [done|auto].
Qed.

(** A primitive value in a context tag is written as its contents. *)
Lemma AppendTag_bare tn v o : contextContentOctets v = Ok o -> forall dst, AppendTag dst (mkElement true tn false false v) = AppendTag dst (contextElement tn o).
Proof.
  intros Hv dst. assert (av_Kind v <> ValueConstructed) as Hk by (intros Hk; unfold contextContentOctets in Hv; by rewrite Hk in Hv).
  destruct v as [k b u s r d os c bs en da t oid es]. cbn [av_Kind] in Hk. unfold contextElement, octetsValue. cbn [AppendTag orb andb].
  rewrite bool_decide_eq_false_2 by done. rewrite Hv. rewrite bool_decide_eq_false_2 by done. done.
Qed.
Lemma AppendTag_field lim d tn v : field_fits lim d v -> forall dst, AppendTag dst (mkElement true tn false false v) = AppendTag dst (fieldElement tn v).
Proof.
  intros [(es & -> & _)|[[b ->]|[(u & _ & ->)|[(u & _ & ->)|(r & _ & ->)]]]] dst; [done|..]; (apply AppendTag_bare; [try done]); by destruct b.
Qed.
Lemma AppendTag_inside tn e e' : (forall dst, AppendTag dst e = AppendTag dst e') ->
  forall dst, AppendTag dst (constructedElement tn [e]) = AppendTag dst (constructedElement tn [e']).
Proof. intros H dst. unfold constructedElement, constructedValue. cbn [AppendTag foldAppend orb andb]. by rewrite H. Qed.
Lemma AppendTag_newValue lim d v : newValue_fits lim d v -> forall dst, AppendTag dst (sentNewValue v) = AppendTag dst (newValueElement v).
Proof.
  intros [(es & -> & _)|[(b & -> & [(Hu & He & _) _])|(r & -> & _)]]; [done|..]; apply AppendTag_inside, AppendTag_bare; [|done].
  unfold contextContentOctets, bitStringValue. cbn [av_Kind av_BitString]. by rewrite validateBitString_ok.
Qed.
Lemma foldAppend_sent lim d b : body_fits lim d b -> forall dst, foldAppend AppendTag dst (sentElements b) = foldAppend AppendTag dst (bodyElements b).
Proof.
  intros Hb dst. destruct b; try done; cbn [body_fits sentElements bodyElements foldAppend] in *.
  - by rewrite (AppendTag_newValue lim d) by apply Hb.
  - destruct Hb as (Hc & _ & Hv). rewrite (AppendTag_field lim d 0) by done. destruct (AppendTag dst _); [|done]. cbn [bind].
    destruct (AppendTag _ (bitsElement _ _)); [|done]. cbn [bind]. by rewrite (AppendTag_field lim d 2) by done.
Qed.

(** *** The receiver reads them back *)
Lemma contextReal_element tn v : is_u 32 v -> contextReal (realElement tn v) tn = Ok v.
Proof.
  intros Hv. unfold contextReal, realElement. rewrite el_TagNumber_context, Z.eqb_refl, IsContextConstructed_context. cbn [negb].
  unfold contextElement. av_simpl. rewrite len_be_put. cbn [Z.of_nat Pos.of_succ_nat Pos.succ Z.eqb Pos.eqb negb].
  rewrite Uint_be_put, Z.mod_small by apply Hv. done.
Qed.
Lemma ContextBitString_element tn b : bs_typed b -> ContextBitString (bitsElement tn b) = Ok b.
Proof. intros (H1 & H2 & H3). by apply ContextBitString_encode. Qed.
Lemma ContextUnsigned32_element tn v : is_u 32 v -> ContextUnsigned32 (unsignedElement tn v) = Ok v.
Proof. apply ContextUnsigned32_encode. Qed.
Lemma ContextUnsigned_element tn v : is_u 64 v -> ContextUnsigned (unsignedElement tn v) = Ok v.
Proof. apply ContextUnsigned_encode. Qed.
Lemma cloneElements_id es : cloneElements es = es.
Proof. unfold cloneElements. induction es as [|[cx tn op cl v] es IH]; [done|]. cbn [map el_Context el_TagNumber el_Opening el_Closing el_Value]. by rewrite IH, Clone_id. Qed.

Lemma propertyStateValue_element lim d ps : state_fits lim d ps ->
  propertyStateValue (stateElement ps) = Ok (if bool_decide (av_Kind (ps_Value ps) = ValueUnsigned) then EnumValue (av_Unsigned (ps_Value ps)) else ps_Value ps) /\
  el_Context (stateElement ps) = true /\ el_TagNumber (stateElement ps) = ps_Choice ps.
Proof.
  destruct ps as [choice v]. intros [Htn Hs]. cbn [ps_Choice ps_Value] in *. unfold stateElement. cbn [ps_Choice ps_Value].
  destruct Hs as [[-> [b ->]]|[[Hne (u & Hu & [-> | ->])]|(es & -> & _)]]; cbn [av_Kind BoolValue EnumValue UnsignedValue constructedValue av_Boolean av_Enumerated av_Unsigned].
  - by destruct b.
  - rewrite bool_decide_eq_false_2 by done. split; [|done]. unfold propertyStateValue, unsignedElement. rewrite IsContextConstructed_context, el_TagNumber_context.
    decide_tests. by rewrite ContextUnsigned32_encode.
  - rewrite bool_decide_eq_true_2 by done. split; [|done]. unfold propertyStateValue, unsignedElement. rewrite IsContextConstructed_context, el_TagNumber_context.
    decide_tests. by rewrite ContextUnsigned32_encode.
  - rewrite bool_decide_eq_false_2 by done. split; [|done]. change (Ok (Clone (constructedValue es)) = Ok (constructedValue es)). by rewrite Clone_id.
Qed.

Lemma bufferReady_buffer lim d buf out p c : Forall (fun e => wire_at lim 12 d e /\ el_TagNumber e = 0) buf ->
  forElements bufferReadyField buf (out, p, c) = Ok (out ++ buf, p, c).
Proof.
  revert out. induction buf as [|e buf IH]; intros out Hb; [by rewrite app_nil_r|]. inversion_clear Hb as [|? ? [_ He] Hb'].
  cbn [forElements]. unfold bufferReadyField at 1. rewrite He. cbn [Z.eqb bind]. rewrite <- He, Clone_id, IH by done.
  rewrite <- app_assoc. by destruct e.
Qed.

(** The decoder of a choice, on the elements of its body. *)
Lemma decodeChangeOfState_elements lim d ps f : state_fits lim d ps -> bs_typed f ->
  decodeChangeOfState (bodyElements (ChangeOfState ps f)) = Ok (receivedBody (ChangeOfState ps f)).
Proof.
  intros Hs Hf. destruct (propertyStateValue_element lim d ps Hs) as (Hv & Hc & Htn). cbn [bodyElements receivedBody]. unfold constructedElement.
  cbn [decodeChangeOfState el_TagNumber el_Value].
  rewrite IsContextConstructed_constructed, av_Elements_constructed, Hc, Hv. cbn [Z.eqb negb orb bind].
  change (negb (el_TagNumber (bitsElement 1 _) =? 1)) with false. change (IsContextConstructed (bitsElement _ _)) with false. cbn [orb]. cbv iota.
  rewrite ContextBitString_element by done. by rewrite Htn.
Qed.
Lemma decodeChangeOfBitstring_elements r f : bs_typed r -> bs_typed f ->
  decodeChangeOfBitstring [bitsElement 0 r; bitsElement 1 f] = Ok (ChangeOfBitstring r f).
Proof.
  intros Hr Hf. cbn [decodeChangeOfBitstring]. change (negb (el_TagNumber (bitsElement 0 _) =? 0)) with false.
  change (negb (el_TagNumber (bitsElement 1 _) =? 1)) with false. cbv iota. by rewrite !ContextBitString_element by done.
Qed.
Lemma decodeChangeOfValue_constructed es f : bs_typed f ->
  decodeChangeOfValue [constructedElement 0 es; bitsElement 1 f] = Ok (ChangeOfValue (constructedValue es) f).
Proof.
  intros Hf. unfold constructedElement. cbn [decodeChangeOfValue el_TagNumber el_Value]. rewrite IsContextConstructed_constructed, av_Elements_constructed, Clone_id.
  change (negb (el_TagNumber (bitsElement 1 _) =? 1)) with false. cbn [Z.eqb negb]. cbv iota zeta. by rewrite ContextBitString_element by done.
Qed.
Lemma decodeChangeOfValue_elements lim d v f : newValue_fits lim d v -> bs_typed f ->
  decodeChangeOfValue (bodyElements (ChangeOfValue v f)) = Ok (receivedBody (ChangeOfValue v f)).
Proof.
  intros [(es & -> & _)|[(b & -> & _)|(r & -> & _)]] Hf; cbn [bodyElements receivedBody]; unfold newValueElement, receivedNewValue;
    cbn [av_Kind constructedValue bitStringValue RealValue av_BitString av_Real]; by apply decodeChangeOfValue_constructed.
Qed.
Lemma fieldElement_value tn v : el_Value (fieldElement tn v) = receivedField v.
Proof. unfold fieldElement, receivedField. by destruct (bareOctets v). Qed.
Lemma decodeRealFlags_elements flagsOf r f s e : is_u 32 r -> is_u 32 s -> is_u 32 e -> flagsOf (bitsElement 1 f) = Ok f ->
  decodeRealFlagsRealReal flagsOf [realElement 0 r; bitsElement 1 f; realElement 2 s; realElement 3 e] = Ok (r, f, s, e).
Proof. intros Hr Hs He Hf. cbn [decodeRealFlagsRealReal]. rewrite !contextReal_element by done. cbn [bind]. by rewrite Hf. Qed.
Lemma decodeExtended_elements v t ps : is_u 16 v -> is_u 32 t -> decodeExtended (bodyElements (Extended v t ps)) = Ok (Extended v t ps).
Proof.
  intros Hv Ht. assert (is_u 64 v) by by apply (is_u_mono 16 64). unfold decodeExtended. cbn [bodyElements app forElements]. unfold extendedField at 1 2.
  change (el_TagNumber (unsignedElement ?k _)) with k. change (IsContextConstructed (unsignedElement _ _)) with false.
  cbn [Z.eqb Pos.eqb negb andb]. rewrite ContextUnsigned_element by done. cbn [bind]. rewrite narrowU16_id by done. cbn [bind].
  rewrite ContextUnsigned32_element by done. cbn [bind]. destruct ps as [|p ps]; [done|].
  replace (len (p :: ps) >? 0) with true by (symmetry; apply Z.gtb_lt; len_lia). cbn [forElements]. unfold extendedField, constructedElement.
  rewrite IsContextConstructed_constructed. cbn [el_TagNumber el_Value Z.eqb Pos.eqb negb andb bind]. by rewrite av_Elements_constructed, cloneElements_id.
Qed.
Lemma decodeBufferReady_elements lim d buf p c : body_fits lim d (BufferReady buf p c) ->
  decodeBufferReady (bodyElements (BufferReady buf p c)) = Ok (BufferReady buf p c).
Proof.
  intros (H1 & H2 & H3). unfold decodeBufferReady. cbn [bodyElements]. rewrite forElements_app, (bufferReady_buffer lim d) by done.
  cbn [bind app forElements]. unfold bufferReadyField.
  change (el_TagNumber (unsignedElement ?k _)) with k. change (IsContextConstructed (unsignedElement _ _)) with false. cbn [Z.eqb Pos.eqb negb andb].
  by rewrite !ContextUnsigned32_element by done.
Qed.

Ltac decode_choice f := change (decodeBody _ ?l) with (let* b := f l in Ok (Some b)).
Lemma decodeBody_elements lim d b : body_fits lim d b -> decodeBody (bodyChoice b) (bodyElements b) = Ok (Some (receivedBody b)).
Proof.
  destruct b; cbn [body_fits]; intros Hb.
  - destruct Hb as [[[H1 _] _] [H2 _]]. decode_choice decodeChangeOfBitstring. cbn [bodyElements]. by rewrite decodeChangeOfBitstring_elements.
  - destruct Hb as [Hs [H2 _]]. decode_choice decodeChangeOfState. by rewrite (decodeChangeOfState_elements lim d).
  - destruct Hb as [Hv [H2 _]]. decode_choice decodeChangeOfValue. by rewrite (decodeChangeOfValue_elements lim d).
  - destruct Hb as (_ & [H2 _] & _). decode_choice decodeCommandFailure. cbn [bodyElements decodeCommandFailure receivedBody].
    rewrite ContextBitString_element by done. cbn [bind]. by rewrite !Clone_id, !fieldElement_value.
  - destruct Hb as (H1 & [H2 _] & H3 & H4). decode_choice decodeFloatingLimit. unfold decodeFloatingLimit. cbn [bodyElements].
    by rewrite decodeRealFlags_elements by (done || by apply ContextBitString_element).
  - destruct Hb as (H1 & [H2 _] & H3 & H4). decode_choice decodeOutOfRange. unfold decodeOutOfRange. cbn [bodyElements].
    rewrite decodeRealFlags_elements; [done..|]. change (negb (el_TagNumber (bitsElement 1 _) =? 1)) with false. cbv iota.
    by rewrite ContextBitString_element.
  - change (decodeBody _ ?l) with (@Ok (option NotificationBody) (Some (ComplexEventType (cloneElements l)))). by rewrite cloneElements_id.
  - destruct Hb as (H1 & H2 & [H3 _] & H4). decode_choice decodeChangeOfLifeSafety. cbn [bodyElements decodeChangeOfLifeSafety].
    by rewrite !ContextUnsigned32_element, ContextBitString_element by done.
  - destruct Hb as (H1 & H2 & _). decode_choice decodeExtended. by rewrite decodeExtended_elements.
  - decode_choice decodeBufferReady. by rewrite (decodeBufferReady_elements lim d).
  - destruct Hb as (H1 & [H2 _] & H3). decode_choice decodeUnsignedRange. cbn [bodyElements decodeUnsignedRange].
    by rewrite !ContextUnsigned32_element, ContextBitString_element by done.
Qed.

(** *** The elements on the wire *)
Section BodyWire.
Context (lim : DecodeLimits) (Hlim : limits_positive lim) (Hm : 8 <= MaxOctetStringLength lim).

Lemma wire_context d tn o : tagNumber_ok tn -> bytes_ok o -> len o <= 8 -> wire_at lim 12 d (contextElement tn o).
Proof using Hm.
  intros Htn Ho Hl. assert (exists tn' o', contextElement tn o = contextElement tn' o' /\ tagNumber_ok tn' /\ bytes_ok o' /\ len o' <= MaxUint32 /\
    len o' <= MaxOctetStringLength lim) as H by (exists tn, o; unfold MaxUint32; split_and!; [done..|lia|lia]).
  destruct d; right; [by left|by left].
Qed.
Lemma wire_unsigned d tn v : tagNumber_ok tn -> is_u 32 v -> wire_at lim 12 d (unsignedElement tn v).
Proof using Hm.
  intros Htn Hv%(is_u_mono 32 64); [|lia]. apply wire_context; [done|apply encodeUnsigned_bytes_ok|]. pose proof (encodeUnsigned_len v Hv). lia.
Qed.
Lemma wire_bits d tn b : tagNumber_ok tn -> flags_ok b -> wire_at lim 12 d (bitsElement tn b).
Proof using Hm. intros Htn [(Hu & He & Hb) Hl]. apply wire_context; [done|apply List.Forall_cons; [unfold is_u; lia|done]|cbn [app]; len_lia]. Qed.
Lemma wire_bitString d tn b : tagNumber_ok tn -> bs_fits lim b -> wire_at lim 12 d (bitsElement tn b).
Proof using Type.
  intros Htn ((Hu & He & Hb) & H1 & H2). assert (exists tn' o', bitsElement tn b = contextElement tn' o' /\ tagNumber_ok tn' /\ bytes_ok o' /\ len o' <= MaxUint32 /\
    len o' <= MaxOctetStringLength lim) as H.
  { exists tn, ([bs_UnusedBits b] ++ bs_Bytes b). split_and!; [done..|apply List.Forall_cons; [unfold is_u; lia|done]|len_lia|len_lia]. }
  destruct d; right; [by left|by left].
Qed.
Lemma wire_real d tn v : tagNumber_ok tn -> wire_at lim 12 d (realElement tn v).
Proof using Hm. intros Htn. apply wire_context; [done|apply be_put_bytes_ok|len_lia]. Qed.
Lemma wire_constructedElement d tn es : tagNumber_ok tn -> Forall (wire_at lim 12 d) es -> wire_at lim 12 (S d) (constructedElement tn es).
Proof using Type. intros Htn Hes. right. right. by exists tn, es. Qed.

Lemma wire_state d ps : state_fits lim d ps -> wire_at lim 12 (S d) (stateElement ps).
Proof using Hm.
  destruct ps as [choice v]. intros [Htn Hs]. cbn [ps_Choice ps_Value] in *. unfold stateElement. cbn [ps_Choice ps_Value].
  destruct Hs as [[_ [b ->]]|[[_ (u & Hu & [-> | ->])]|(es & -> & Hes)]];
    cbn [av_Kind BoolValue EnumValue UnsignedValue constructedValue av_Boolean av_Enumerated av_Unsigned].
  - apply wire_context; [done|destruct b; solve_bytes|done].
  - by apply wire_unsigned.
  - by apply wire_unsigned.
  - by apply (wire_constructedElement d choice es).
Qed.

Lemma wire_newValue d v : newValue_fits lim d v -> wire_at lim 12 (S d) (newValueElement v).
Proof using Hm.
  intros [(es & -> & Hes)|[(b & -> & Hb)|(r & -> & _)]]; [by apply (wire_constructedElement d 0 es)|..];
    (apply wire_constructedElement; [done|]); apply Forall_singleton; [by apply wire_bitString|by apply wire_real].
Qed.
Lemma wire_field d tn v : tagNumber_ok tn -> field_fits lim d v -> wire_at lim 12 (S d) (fieldElement tn v).
Proof using Hm.
  intros Htn [(es & -> & Hes)|[[b ->]|[(u & Hu & ->)|[(u & Hu & ->)|(r & _ & ->)]]]]; [by apply (wire_constructedElement d tn es)|..].
  - apply wire_context; [done| |done]. destruct b; cbn [av_Boolean BoolValue]; solve_bytes.
  - apply wire_context; [done|apply encodeUnsigned_bytes_ok|]. pose proof (encodeUnsigned_len u Hu). cbn. lia.
  - by apply wire_unsigned.
  - by apply wire_real.
Qed.

Lemma wire_body d b : body_fits lim d b -> Forall (wire_at lim 12 (S (S d))) (bodyElements b).
Proof using Hlim Hm.
  assert (forall k e, (k <= S (S d))%nat -> wire_at lim 12 k e -> wire_at lim 12 (S (S d)) e) as Hmono by (intros; by eapply wire_at_mono).
  assert (forall e, wire_at lim 12 d e -> wire_at lim 12 (S (S d)) e) as H0 by (intros e; apply Hmono; lia).
  assert (forall k es, tagNumber_ok k -> Forall (wire_at lim 12 d) es -> wire_at lim 12 (S (S d)) (mkElement true k false false (constructedValue es))) as Hcons
    by (intros k es Hk Hes; apply (Hmono (S d)); [lia|by apply wire_constructedElement]).
  destruct b; cbn [body_fits bodyElements]; intros Hb;
    try (destruct_and? Hb; by repeat (apply List.Forall_cons; [first [by apply wire_bits | by apply wire_real | by apply wire_unsigned]|])).
  - destruct Hb as [[Hr _] Hf]. apply List.Forall_cons; [by apply wire_bitString|by apply Forall_singleton, wire_bits].
  - destruct Hb as [Hs Hf]. apply List.Forall_cons; [|by apply Forall_singleton, wire_bits].
    apply wire_constructedElement; [done|]. apply Forall_singleton. by apply wire_state.
  - destruct Hb as [Hv Hf]. apply List.Forall_cons; [by apply (Hmono (S d)); [lia|apply wire_newValue]|by apply Forall_singleton, wire_bits].
  - destruct Hb as (Hc & Hf & Hv). apply List.Forall_cons; [by apply (Hmono (S d)); [lia|apply wire_field]|]. apply List.Forall_cons; [by apply wire_bits|].
    apply Forall_singleton. by apply (Hmono (S d)); [lia|apply wire_field].
  - by eapply Forall_impl.
  - destruct Hb as (H1 & H2 & H3). apply (is_u_mono 16 32) in H1; [|lia]. do 2 (apply List.Forall_cons; [by apply wire_unsigned|]).
    destruct (_ >? _); [|done]. by apply Forall_singleton, Hcons.
  - destruct Hb as (H1 & H2 & H3). apply Forall_app. split; [eapply Forall_impl; [exact H1|]; intros e [He _]; auto|].
    by repeat (apply List.Forall_cons; [by apply wire_unsigned|]).
Qed.
End BodyWire.

(** ** What the decoder yields *)
(** A property state is a boolean, a number of 32 bits, the octets of a
    context tag, or constructed. *)
Definition stateValue_typed (lim : DecodeLimits) (v : ApplicationValue) : Prop :=
  (exists b, v = BoolValue b) \/ (exists u, is_u 32 u /\ v = EnumValue u) \/ (exists o, bytes_ok o /\ v = octetsValue ValueContext o) \/
  (exists es, Forall (wire lim) es /\ v = constructedValue es).
Definition newValue_typed (lim : DecodeLimits) (v : ApplicationValue) : Prop :=
  (exists es, Forall (wire lim) es /\ v = constructedValue es) \/ (exists e, wire lim e /\ v = contextValue [e]).
Definition body_typed (lim : DecodeLimits) (b : NotificationBody) : Prop :=
  match b with
  | ChangeOfBitstring r f => bs_typed r /\ bs_typed f
  | ChangeOfState ps f => tagNumber_ok (ps_Choice ps) /\ stateValue_typed lim (ps_Value ps) /\ bs_typed f
  | ChangeOfValue v f => newValue_typed lim v /\ bs_typed f
  | CommandFailure c f v => (exists e, wire lim e /\ c = el_Value e) /\ bs_typed f /\ (exists e, wire lim e /\ v = el_Value e)
  | FloatingLimit r f s e | OutOfRange r f s e => is_u 32 r /\ bs_typed f /\ is_u 32 s /\ is_u 32 e
  | ComplexEventType vs => Forall (wire lim) vs
  | ChangeOfLifeSafety s m f o => is_u 32 s /\ is_u 32 m /\ bs_typed f /\ is_u 32 o
  | Extended v t ps => is_u 16 v /\ is_u 32 t /\ Forall (wire lim) ps
  | BufferReady buf p c => Forall (wire lim) buf /\ is_u 32 p /\ is_u 32 c
  | UnsignedRange e f l => is_u 32 e /\ bs_typed f /\ is_u 32 l
  end.
Definition params_typed (lim : DecodeLimits) (p : NotificationParameters) : Prop :=
  tagNumber_ok (np_Choice p) /\ optP (body_typed lim) (np_Body p) /\ Forall (wire lim) (np_RawElements p).

Lemma yields_malformed {A} (P : A -> Prop) (m : result A) : yields P m -> yields P (malformed m).
Proof. by destruct m as [|[]]. Qed.

Section Yields.
Context (lim : DecodeLimits).

Lemma wire_element_cases el : wire lim el ->
  (exists tn v, el = appElement tn v /\ tagNumber_ok tn /\ app_prim lim v) \/ (exists tn o, el = contextElement tn o /\ tagNumber_ok tn /\ bytes_ok o) \/
  (exists tn es, el = constructedElement tn es /\ tagNumber_ok tn /\ Forall (wire lim) es).
Proof using Type.
  intros [d Hw]. assert (wire_at lim 254 (S d) el) as H by (eapply wire_at_mono; [|done]; lia).
  destruct H as [(tn & v & -> & Htn & _ & Hv & _)|[(tn & o & -> & Htn & Ho & _)|(tn & es & -> & Htn & Hes)]]; [by left; exists tn, v|by right; left; exists tn, o|].
  right. right. exists tn, es. split_and!; [done..|]. eapply Forall_impl; [exact Hes|]. intros e He. by exists d.
Qed.

Lemma yields_contextReal el tag : wire lim el -> yields (is_u 32) (contextReal el tag).
Proof using Type.
  intros Hw. unfold contextReal. destruct (negb _); [done|]. destruct (IsContextConstructed el) eqn:Ec.
  - pose proof (yields_inner lim el Hw Ec) as Hi. destruct (av_Elements (el_Value el)) as [|e [|]]; [done| |done].
    inversion_clear Hi as [|? ? He _]. destruct (_ && _) eqn:E; [|done]. apply andb_true_iff in E as [Ectx Ek]. apply bool_decide_eq_true in Ek.
    destruct (wire_element_cases e He) as [(tn & v & -> & _ & Hv)|[(tn & o & -> & _)|(tn & es & -> & _)]]; [|done|done].
    cbn [appElement el_Value] in *. by destruct Hv.
  - destruct (negb _) eqn:El; [done|]. bool_to_prop. pose proof (wire_octets lim el Hw) as Ho.
    destruct (octets4 _ Ho El) as (a & b & c & d & Hs & H). rewrite Hs in *. apply (be_get_bound _ Ho).
Qed.

Lemma wire_tag el : wire lim el -> tagNumber_ok (el_TagNumber el).
Proof using Type. intros Hw. by destruct (wire_element_cases el Hw) as [(tn & v & -> & H & _)|[(tn & o & -> & H & _)|(tn & es & -> & H & _)]]. Qed.

Lemma yields_realFlags flagsOf els : (forall el, wire lim el -> yields bs_typed (flagsOf el)) -> Forall (wire lim) els ->
  yields (fun '(r, f, s, e) => is_u 32 r /\ bs_typed f /\ is_u 32 s /\ is_u 32 e) (decodeRealFlagsRealReal flagsOf els).
Proof using Type.
  intros Hf Hw. destruct els as [|a [|b [|c [|d [|]]]]]; [done..| |done]. cbn [decodeRealFlagsRealReal].
  inversion_clear Hw as [|? ? Ha Hw1]. inversion_clear Hw1 as [|? ? Hb Hw2]. inversion_clear Hw2 as [|? ? Hc Hw3]. inversion_clear Hw3 as [|? ? Hd _].
  eapply yields_bind; [by apply yields_contextReal|]. intros r Hr. eapply yields_bind; [by apply Hf|]. intros f Hff.
  eapply yields_bind; [by apply yields_contextReal|]. intros s Hs. eapply yields_bind; [by apply yields_contextReal|]. by intros e He.
Qed.

Lemma yields_propertyState el : wire lim el -> yields (stateValue_typed lim) (propertyStateValue el).
Proof using Type.
  intros Hw. unfold propertyStateValue. destruct (_ && _).
  - eapply yields_bind; [by eapply yields_malformed, yields_ContextBool|]. intros b _. left. by exists b.
  - destruct (IsContextConstructed el) eqn:E; cbn [negb].
    + right. right. right. exists (av_Elements (el_Value el)). split; [by apply yields_inner|apply Clone_id].
    + pose proof (yields_ContextUnsigned32 lim el Hw) as Hu. destruct (ContextUnsigned32 el) as [u|].
      * right. left. by exists u.
      * right. right. left. exists (av_OctetString (el_Value el)). split; [by eapply wire_octets|done].
Qed.

Lemma yields_changeOfState els : Forall (wire lim) els -> yields (body_typed lim) (decodeChangeOfState els).
Proof using Type.
  intros Hw. destruct els as [|a [|b [|]]]; [done..| |done]. cbn [decodeChangeOfState].
  inversion_clear Hw as [|? ? Ha Hw1]. inversion_clear Hw1 as [|? ? Hb _].
  destruct (_ || _) eqn:E; [done|]. apply orb_false_iff in E as [_ Ec%negb_false_iff]. pose proof (yields_inner lim a Ha Ec) as Hi.
  destruct (av_Elements (el_Value a)) as [|e [|]]; [done| |done]. inversion_clear Hi as [|? ? He _]. destruct (negb _); [done|].
  eapply yields_bind; [by apply yields_propertyState|]. intros v Hv. destruct (_ || _); [done|].
  eapply yields_bind; [by eapply yields_ContextBitString|]. intros f Hf. split; [by apply wire_tag|done].
Qed.

Lemma yields_changeOfBitstring els : Forall (wire lim) els -> yields (body_typed lim) (decodeChangeOfBitstring els).
Proof using Type.
  intros Hw. destruct els as [|a [|b [|]]]; [done..| |done]. cbn [decodeChangeOfBitstring].
  inversion_clear Hw as [|? ? Ha Hw1]. inversion_clear Hw1 as [|? ? Hb _]. destruct (negb _); [done|].
  eapply yields_bind; [by eapply yields_malformed, yields_ContextBitString|]. intros r Hr. destruct (negb _); [done|].
  eapply yields_bind; [by eapply yields_malformed, yields_ContextBitString|]. done.
Qed.

Lemma yields_changeOfValue els : Forall (wire lim) els -> yields (body_typed lim) (decodeChangeOfValue els).
Proof using Type.
  intros Hw. destruct els as [|a [|b [|]]]; [done..| |done]. cbn [decodeChangeOfValue].
  inversion_clear Hw as [|? ? Ha Hw1]. inversion_clear Hw1 as [|? ? Hb _]. destruct (negb _); [done|]. cbv zeta. destruct (negb _); [done|].
  eapply yields_bind; [by eapply yields_malformed, yields_ContextBitString|]. intros f Hf. split; [|done]. rewrite !Clone_id.
  destruct (IsContextConstructed a) eqn:E; [left; exists (av_Elements (el_Value a)); split; [by apply yields_inner|done]|right; by exists a].
Qed.

Lemma yields_fixedFields els : Forall (wire lim) els ->
  yields (body_typed lim) (decodeChangeOfLifeSafety els) /\ yields (body_typed lim) (decodeCommandFailure els) /\
  yields (body_typed lim) (decodeUnsignedRange els).
Proof using Type.
  intros Hw. split_and!.
  - destruct els as [|a [|b [|c [|d [|]]]]]; [done..| |done]. cbn [decodeChangeOfLifeSafety]. rewrite !List.Forall_cons_iff in Hw.
    destruct Hw as (Ha & Hb & Hc & Hd & _). repeat yields_step. done.
  - destruct els as [|a [|b [|c [|]]]]; [done..| |done]. cbn [decodeCommandFailure]. rewrite !List.Forall_cons_iff in Hw.
    destruct Hw as (Ha & Hb & Hc & _). eapply yields_bind; [by eapply yields_ContextBitString|]. intros f Hf. rewrite !Clone_id.
    split_and!; [by exists a|done|by exists c].
  - destruct els as [|a [|b [|c [|]]]]; [done..| |done]. cbn [decodeUnsignedRange]. rewrite !List.Forall_cons_iff in Hw.
    destruct Hw as (Ha & Hb & Hc & _). repeat yields_step. done.
Qed.

Lemma cloneElements_wire els : Forall (wire lim) els -> Forall (wire lim) (cloneElements els).
Proof using Type. by rewrite cloneElements_id. Qed.

Lemma yields_extended els : Forall (wire lim) els -> yields (body_typed lim) (decodeExtended els).
Proof using Type.
  intros Hw. unfold decodeExtended.
  eapply yields_bind; [eapply (yields_forElements (fun '(v, t, ps) => is_u 16 v /\ is_u 32 t /\ Forall (wire lim) ps)); [|exact Hw|done]|].
  - intros el [[v t] ps] Hel (H1 & H2 & H3). unfold extendedField. repeat yields_step; try done.
    { eapply yields_bind; [apply yields_narrowU16; apply H|]. by intros k Hk. }
    apply andb_true_iff in E1 as [_ Ec]. split_and!; [done..|]. by apply cloneElements_wire, yields_inner.
  - by intros [[v t] ps] H.
Qed.

Lemma yields_bufferReady els : Forall (wire lim) els -> yields (body_typed lim) (decodeBufferReady els).
Proof using Type.
  intros Hw. unfold decodeBufferReady.
  eapply yields_bind; [eapply (yields_forElements (fun '(buf, p, c) => Forall (wire lim) buf /\ is_u 32 p /\ is_u 32 c)); [|exact Hw|done]|].
  - intros el [[buf p] c] Hel (H1 & H2 & H3). unfold bufferReadyField. repeat yields_step; try done.
    split_and!; try done. apply Forall_app. split; [done|]. apply Forall_singleton. rewrite Clone_id. by destruct el.
  - by intros [[buf p] c] H.
Qed.

Lemma yields_decodeBody choice els : Forall (wire lim) els -> yields (optP (body_typed lim)) (decodeBody choice els).
Proof using Type.
  intros Hw. assert (forall m, yields (body_typed lim) m -> yields (optP (body_typed lim)) (let* b := m in Ok (Some b))) as Hsome.
  { intros m Hm. eapply yields_bind; [exact Hm|]. intros b Hb. by apply optP_Some. }
  destruct (yields_fixedFields els Hw) as (H1 & H2 & H3). unfold decodeBody. cbv zeta.
  destruct (_ =? _); [by apply Hsome, yields_changeOfState|]. destruct (_ =? _); [by apply Hsome, yields_changeOfBitstring|].
  destruct (_ =? _); [by apply Hsome, yields_changeOfValue|].
  destruct (_ =? _).
  { apply Hsome. unfold decodeOutOfRange. eapply yields_bind; [apply yields_realFlags; [|done]|by intros [[[r f] s] e]].
    intros el Hel. destruct (negb _); [done|]. by eapply yields_malformed, yields_ContextBitString. }
  destruct (_ =? _); [by apply Hsome|]. destruct (_ =? _).
  { apply Hsome. unfold decodeFloatingLimit. eapply yields_bind; [apply yields_realFlags; [|done]|by intros [[[r f] s] e]].
    intros el Hel. by eapply yields_ContextBitString. }
  destruct (_ =? _); [by apply Hsome, yields_bufferReady|]. destruct (_ =? _); [by apply Hsome|]. destruct (_ =? _); [by apply Hsome|].
  destruct (_ =? _); [by apply Hsome, yields_extended|]. destruct (_ =? _); [|done]. apply optP_Some. by apply cloneElements_wire.
Qed.

Lemma yields_notificationParameters els : Forall (wire lim) els -> yields (params_typed lim) (DecodeNotificationParameters els).
Proof using Type.
  intros Hw. destruct els as [|el [|]]; [done| |done]. cbn [DecodeNotificationParameters]. inversion_clear Hw as [|? ? Hel _].
  destruct (_ || _) eqn:E; [done|]. apply orb_false_iff in E as [_ Ec%negb_false_iff]. cbv zeta. pose proof (yields_inner lim el Hel Ec) as Hi.
  eapply yields_bind; [by apply yields_decodeBody|]. intros b Hb. split_and!; [by apply wire_tag|done|by apply cloneElements_wire].
Qed.
End Yields.
