(* ===== verification/EventNotification.v ===== *)
(** * Event notifications ([service/event_notification.go])

    The payload of ConfirmedEventNotification and UnconfirmedEventNotification:
    encoder, decoder, and what the recipient makes of a notification. *)

From Stdlib Require Import ZArith Lia.
From stdpp Require Import base list.
From S2P Require Import Prelude Value Tags Constructed Writer Codec Access AccessMultiple Object Events PropertyValues CovMultiple AlarmServices NotificationParams.

Record EventNotification := mkEventNotification {
  note_ProcessIdentifier : Z; note_InitiatingDevice : ObjectIdentifier; note_EventObject : ObjectIdentifier; note_TimeStamp : TimeStamp;
  note_NotificationClass : Z; note_Priority : Z; note_EventType : Z; note_MessageText : option CharacterString; note_NotifyType : Z;
  note_AckRequired : option bool; note_FromState : option Z; note_ToState : Z;
  note_NotificationParams : option ApplicationValue; note_Parameters : option NotificationParameters }.

Definition appendWhen {A} (f : bytes -> A -> result bytes) (o : option A) (dst : bytes) : result bytes :=
  match o with Some a => f dst a | None => Ok dst end.

Definition appendEventValues (note : EventNotification) (dst : bytes) : result bytes :=
  match note_Parameters note, note_NotificationParams note with
  | Some p, _ => let* els := EncodeNotificationParameters p in AppendContextTagged dst 12 els
  | None, Some v =>
      if bool_decide (av_Kind v <> ValueConstructed) then Err ErrMalformed else AppendContextTagged dst 12 (av_Elements v)
  | None, None => Ok dst
  end.

Definition EncodeEventNotification (note : EventNotification) : result bytes :=
  newBuffer (fun dst =>
    let* dst := AppendContextUnsigned dst 0 (note_ProcessIdentifier note) in
    let* dst := AppendContextObjectID dst 1 (note_InitiatingDevice note) in
    let* dst := AppendContextObjectID dst 2 (note_EventObject note) in
    let* dst := appendTimeStampField dst 3 (note_TimeStamp note) in
    let* dst := AppendContextUnsigned dst 4 (note_NotificationClass note) in
    let* dst := AppendContextUnsigned dst 5 (note_Priority note) in
    let* dst := AppendContextUnsigned dst 6 (note_EventType note) in
    let* dst := appendWhen (fun dst c => AppendContextCharacterString dst 7 c) (note_MessageText note) dst in
    let* dst := AppendContextUnsigned dst 8 (note_NotifyType note) in
    let* dst := appendWhen (fun dst b => AppendContextBool dst 9 b) (note_AckRequired note) dst in
    let* dst := appendWhen (fun dst s => AppendContextUnsigned dst 10 s) (note_FromState note) dst in
    let* dst := AppendContextUnsigned dst 11 (note_ToState note) in
    appendEventValues note dst).

(** What the decoder has seen: every field once. *)
Record noteState := mkNoteState {
  no_pid : option Z; no_dev : option ObjectIdentifier; no_obj : option ObjectIdentifier; no_ts : option TimeStamp; no_class : option Z;
  no_prio : option Z; no_type : option Z; no_msg : option CharacterString; no_notify : option Z; no_ack : option bool; no_from : option Z;
  no_to : option Z; no_params : option (ApplicationValue * NotificationParameters) }.
Definition zeroNote : noteState := mkNoteState None None None None None None None None None None None None None.

Definition eventNotificationField (el : Element) (st : noteState) : result noteState :=
  let '(mkNoteState pid dev obj ts class prio ty msg notify ack from to params) := st in
  let primitive tn := (el_TagNumber el =? tn) && negb (IsContextConstructed el) in
  let constructed tn := (el_TagNumber el =? tn) && IsContextConstructed el in
  if primitive 0 then let* pid := setOnce pid (checkedUnsigned32 el) in Ok (mkNoteState pid dev obj ts class prio ty msg notify ack from to params)
  else if primitive 1 then let* dev := setOnce dev (ContextObjectID el) in Ok (mkNoteState pid dev obj ts class prio ty msg notify ack from to params)
  else if primitive 2 then let* obj := setOnce obj (ContextObjectID el) in Ok (mkNoteState pid dev obj ts class prio ty msg notify ack from to params)
  else if constructed 3 then let* ts := setOnce ts (timeStampField el) in Ok (mkNoteState pid dev obj ts class prio ty msg notify ack from to params)
  else if primitive 4 then let* class := setOnce class (checkedUnsigned32 el) in Ok (mkNoteState pid dev obj ts class prio ty msg notify ack from to params)
  else if primitive 5 then
    let* prio := setOnce prio (let* u := ContextUnsigned el in narrowU8 u) in Ok (mkNoteState pid dev obj ts class prio ty msg notify ack from to params)
  else if primitive 6 then let* ty := setOnce ty (checkedUnsigned32 el) in Ok (mkNoteState pid dev obj ts class prio ty msg notify ack from to params)
  else if primitive 7 then let* msg := setOnce msg (ContextCharacterString el) in Ok (mkNoteState pid dev obj ts class prio ty msg notify ack from to params)
  else if primitive 8 then let* notify := setOnce notify (checkedUnsigned32 el) in Ok (mkNoteState pid dev obj ts class prio ty msg notify ack from to params)
  else if primitive 9 then let* ack := setOnce ack (ContextBool el) in Ok (mkNoteState pid dev obj ts class prio ty msg notify ack from to params)
  else if primitive 10 then let* from := setOnce from (checkedUnsigned32 el) in Ok (mkNoteState pid dev obj ts class prio ty msg notify ack from to params)
  else if primitive 11 then let* to := setOnce to (checkedUnsigned32 el) in Ok (mkNoteState pid dev obj ts class prio ty msg notify ack from to params)
  else if constructed 12 then
    let v := Clone (constructedValue (av_Elements (el_Value el))) in
    let* params := setOnce params (let* p := DecodeNotificationParameters (av_Elements (el_Value el)) in Ok (v, p)) in
    Ok (mkNoteState pid dev obj ts class prio ty msg notify ack from to params)
  else Err ErrMalformed.

Definition DecodeEventNotification (payload : bytes) (limits : DecodeLimits) : result EventNotification :=
  let* elements := parseElements payload limits in
  let* st := forElements eventNotificationField elements zeroNote in
  let* pid := required (no_pid st) in
  let* dev := required (no_dev st) in
  let* obj := required (no_obj st) in
  let* ts := required (no_ts st) in
  let* class := required (no_class st) in
  let* prio := required (no_prio st) in
  let* ty := required (no_type st) in
  let* notify := required (no_notify st) in
  let* to := required (no_to st) in
  Ok (mkEventNotification pid dev obj ts class prio ty (no_msg st) notify (no_ack st) (no_from st) to (fst <$> no_params st) (snd <$> no_params st)).

(** ** Elements as the parser builds them

    The tag number of an application element is not written by the encoder,
    which takes the tag from the kind of the value; the parser puts it in. *)
Fixpoint wireElement (e : Element) : Element :=
  match e with
  | mkElement cx tn op cl (mkAV k b u s r d o c bs en da t oid es) =>
      let v := mkAV k b u s r d o c bs en da t oid (map wireElement es) in
      mkElement cx (if cx || op || cl then tn else AVTagNumber v) op cl v
  end.

Lemma AppendTag_wireElement e : forall dst, AppendTag dst (wireElement e) = AppendTag dst e.
Proof.
  revert e. apply (element_nested_ind (fun v => forall dst, foldAppend AppendTag dst (map wireElement (av_Elements v)) = foldAppend AppendTag dst (av_Elements v))
    (fun e => forall dst, AppendTag dst (wireElement e) = AppendTag dst e)).
  - intros v Hv. induction Hv as [|e es He Hes IH]; intros dst; [done|]. cbn [map foldAppend]. rewrite He.
    destruct (AppendTag dst e); [|done]. apply IH.
  - intros [cx tn op cl v] Hv dst. destruct v as [k b u s r d o c bs en da t oid es]. cbn [el_Value av_Elements] in Hv.
    cbn [wireElement AppendTag]. destruct op; [by destruct cx|]. destruct cl; [by destruct cx|]. destruct cx; cbn [orb andb].
    + destruct (tn =? tagNumberReserved); [done|]. destruct (bool_decide _); [by rewrite Hv|].
      unfold contextContentOctets. cbn [av_Kind av_Elements]. unfold len. by rewrite length_map.
    + destruct (bool_decide _); [by rewrite Hv|]. done.
Qed.

Lemma writes_wireElements lim d es : limits_positive lim -> Forall (wire_at lim 12 d) (map wireElement es) ->
  writes lim d (fun dst => foldAppend AppendTag dst es) (map wireElement es).
Proof.
  intros Hlim Hes. eapply writes_ext; [|by apply writes_elements]. intros dst. clear Hes. revert dst.
  induction es as [|e es IH]; intros dst; [done|]. cbn [map foldAppend]. rewrite AppendTag_wireElement. destruct (AppendTag dst e); [|done]. apply IH.
Qed.

(** ** What the recipient makes of a notification

    The event values come back both as raw elements and decoded. *)
Definition choiceElement (b : NotificationBody) : Element := constructedElement (bodyChoice b) (bodyElements b).

(** The event values the encoder accepts: a typed body, raw elements of a
    choice without one, or nothing. *)
Definition params_fits (lim : DecodeLimits) (d : nat) (p : option NotificationParameters) : Prop :=
  match p with
  | None => True
  | Some (mkNotificationParameters c (Some b) _) => body_fits lim d b
  | Some (mkNotificationParameters c None r) =>
      tagNumber_ok c /\ 11 < c /\ r <> [] /\ Forall (wire_at lim 12 (S (S d))) (map wireElement r)
  end.

Definition paramsElements (p : option NotificationParameters) : list Element :=
  match p with
  | None => []
  | Some (mkNotificationParameters c (Some b) _) => [choiceElement b]
  | Some (mkNotificationParameters c None r) => [constructedElement c (map wireElement r)]
  end.
Definition receivedParams (p : option NotificationParameters) : option NotificationParameters :=
  match p with
  | None => None
  | Some (mkNotificationParameters c (Some b) _) => Some (mkNotificationParameters (bodyChoice b) (Some (receivedBody b)) (bodyElements b))
  | Some (mkNotificationParameters c None r) => Some (mkNotificationParameters c None (map wireElement r))
  end.
(** The notification the recipient decodes. *)
Definition receivedNote (n : EventNotification) : EventNotification :=
  mkEventNotification (note_ProcessIdentifier n) (note_InitiatingDevice n) (note_EventObject n) (note_TimeStamp n) (note_NotificationClass n)
    (note_Priority n) (note_EventType n) (note_MessageText n) (note_NotifyType n) (note_AckRequired n) (note_FromState n) (note_ToState n)
    (match note_Parameters n with Some p => Some (constructedValue (paramsElements (Some p))) | None => None end)
    (receivedParams (note_Parameters n)).

Definition note_typed (lim : DecodeLimits) (n : EventNotification) : Prop :=
  is_u 32 (note_ProcessIdentifier n) /\ oid_ok (note_InitiatingDevice n) /\ oid_ok (note_EventObject n) /\ stamp_ok (note_TimeStamp n) /\
  is_u 32 (note_NotificationClass n) /\ is_u 8 (note_Priority n) /\ is_u 32 (note_EventType n) /\ optP cs_typed (note_MessageText n) /\
  is_u 32 (note_NotifyType n) /\ optP (is_u 32) (note_FromState n) /\ is_u 32 (note_ToState n) /\ optP (params_typed lim) (note_Parameters n).

(** A notification that fits the receiver's limits, with event values [d]
    levels deep. *)
Record note_fits (lim : DecodeLimits) (d : nat) (n : EventNotification) : Prop := {
  nf_pid : is_u 32 (note_ProcessIdentifier n);
  nf_dev : oid_ok (note_InitiatingDevice n);
  nf_obj : oid_ok (note_EventObject n);
  nf_ts : stamp_ok (note_TimeStamp n);
  nf_class : is_u 32 (note_NotificationClass n);
  nf_prio : is_u 8 (note_Priority n);
  nf_type : is_u 32 (note_EventType n);
  nf_msg : optP (cs_fits lim) (note_MessageText n);
  nf_notify : is_u 32 (note_NotifyType n);
  nf_from : optP (is_u 32) (note_FromState n);
  nf_to : is_u 32 (note_ToState n);
  nf_untyped : note_NotificationParams n = None;
  nf_params : params_fits lim d (note_Parameters n) }.

Definition whenElements {A} (f : A -> Element) (o : option A) : list Element := match o with Some a => [f a] | None => [] end.
Definition eventValueElements (p : option NotificationParameters) : list Element :=
  match p with Some _ => [constructedElement 12 (paramsElements p)] | None => [] end.
Definition noteElements (n : EventNotification) : list Element :=
  [unsignedElement 0 (note_ProcessIdentifier n); contextElement 1 (oidOctets (note_InitiatingDevice n)); contextElement 2 (oidOctets (note_EventObject n));
   constructedElement 3 [stampElement (note_TimeStamp n)]; unsignedElement 4 (note_NotificationClass n); unsignedElement 5 (note_Priority n);
   unsignedElement 6 (note_EventType n)] ++
  whenElements (fun c => contextElement 7 ([cs_Encoding c] ++ cs_Value c)) (note_MessageText n) ++
  [unsignedElement 8 (note_NotifyType n)] ++
  whenElements (fun b : bool => contextElement 9 [if b then 1 else 0]) (note_AckRequired n) ++
  whenElements (unsignedElement 10) (note_FromState n) ++
  [unsignedElement 11 (note_ToState n)] ++ eventValueElements (note_Parameters n).

Lemma writes_appendWhen lim d {A} (f : bytes -> A -> result bytes) (g : A -> Element) o :
  (forall a, o = Some a -> writes lim d (fun dst => f dst a) [g a]) -> writes lim d (appendWhen f o) (whenElements g o).
Proof. intros H. destruct o as [a|]; [by apply H|apply writes_nil]. Qed.

Lemma writes_parameters lim d p : limits_positive lim -> 8 <= MaxOctetStringLength lim -> params_fits lim d (Some p) ->
  exists els, EncodeNotificationParameters p = Ok els /\
    writes lim (S (S (S d))) (fun dst => foldAppend AppendTag dst els) (paramsElements (Some p)).
Proof.
  intros Hlim Hm Hp. destruct p as [c [b|] r]; unfold EncodeNotificationParameters; cbn [params_fits paramsElements] in *.
  - rewrite (encodeNotificationInner_body lim d) by done. eexists. split; [reflexivity|].
    eapply writes_ext; [|apply (writes_elements lim Hlim (S (S (S d))) [choiceElement b])].
    + intros dst. cbn [foldAppend]. unfold choiceElement, constructedElement, constructedValue. cbn [AppendTag orb andb].
      by rewrite (foldAppend_sent lim d).
    + apply Forall_singleton. apply wire_constructedElement; [by destruct b|by apply wire_body].
  - destruct Hp as (Hc & _ & Hne & Hr). unfold encodeNotificationInner. cbn [np_Body np_RawElements np_Choice].
    replace (len r >? 0) with true by (symmetry; apply Z.gtb_lt; destruct r; [done|len_lia]).
    eexists. split; [reflexivity|]. pose proof (writes_wireElements lim (S (S (S d))) [constructedElement c r] Hlim) as Hw. apply Hw.
    apply Forall_singleton. change (wireElement (constructedElement c r)) with (constructedElement c (map wireElement r)).
    by apply wire_constructedElement.
Qed.

Lemma writes_eventValues lim d n : limits_positive lim -> 8 <= MaxOctetStringLength lim -> note_fits lim d n ->
  writes lim (S (S (S (S d)))) (appendEventValues n) (eventValueElements (note_Parameters n)).
Proof.
  intros Hlim Hm Hn. destruct Hn as [_ _ _ _ _ _ _ _ _ _ _ Hun Hp]. unfold appendEventValues. rewrite Hun.
  destruct (note_Parameters n) as [p|]; [|apply writes_nil]. unfold eventValueElements.
  destruct (writes_parameters lim d p Hlim Hm Hp) as (els & He & Hw).
  eapply writes_ext; [|by apply (writes_constructed lim _ 12 (fun dst => foldAppend AppendTag dst els))]. intros dst. by rewrite He.
Qed.

Lemma writes_note lim d n : limits_positive lim -> 8 <= MaxOctetStringLength lim -> note_fits lim d n ->
  exists f, EncodeEventNotification n = newBuffer f /\ writes lim (S (S (S (S d)))) f (noteElements n).
Proof.
  intros Hlim Hm Hn. pose proof (writes_eventValues lim d n Hlim Hm Hn) as Hv. destruct Hn. unfold EncodeEventNotification, noteElements.
  eexists. split; [reflexivity|].
  assert (forall v, is_u 32 v -> is_u 64 v) as H64 by (intros; by apply (is_u_mono 32 64)).
  apply (writes_bind _ _ _ _ [_]); [apply writes_unsigned; by auto|]. apply (writes_bind _ _ _ _ [_]); [by apply writes_oid|].
  apply (writes_bind _ _ _ _ [_]); [by apply writes_oid|].
  apply (writes_bind _ _ _ _ [_]); [apply (writes_mono _ 2); [lia|]; by apply writes_stampField|].
  apply (writes_bind _ _ _ _ [_]); [apply writes_unsigned; by auto|].
  apply (writes_bind _ _ _ _ [_]); [apply writes_unsigned; [done..|by apply (is_u_mono 8 64)|done]|].
  apply (writes_bind _ _ _ _ [_]); [apply writes_unsigned; by auto|].
  apply writes_bind; [apply writes_appendWhen; intros c Hc; rewrite Hc, optP_Some in nf_msg0; by apply writes_character|].
  apply (writes_bind _ _ _ _ [_]); [apply writes_unsigned; by auto|].
  apply writes_bind; [apply writes_appendWhen; intros b _; by apply writes_bool|].
  apply writes_bind; [apply writes_appendWhen; intros s Hs; rewrite Hs, optP_Some in nf_from0; apply writes_unsigned; by auto|].
  apply (writes_bind _ _ _ _ [_]); [apply writes_unsigned; by auto|]. exact Hv.
Qed.

(** ** The recipient decodes it *)
Lemma DecodeNotificationParameters_elements lim d p : params_fits lim d (Some p) ->
  (let* q := DecodeNotificationParameters (paramsElements (Some p)) in Ok (Some q)) = Ok (receivedParams (Some p)).
Proof.
  destruct p as [c [b|] r]; cbn [params_fits paramsElements receivedParams]; intros Hp.
  - unfold choiceElement, constructedElement. cbn [DecodeNotificationParameters el_Context el_TagNumber el_Value].
    rewrite IsContextConstructed_constructed, av_Elements_constructed. cbn [negb orb]. cbv zeta.
    rewrite (decodeBody_elements lim d) by done. cbn [bind]. by rewrite cloneElements_id.
  - destruct Hp as (Hc & Hgt & _). unfold constructedElement. cbn [DecodeNotificationParameters el_Context el_TagNumber el_Value].
    rewrite IsContextConstructed_constructed, av_Elements_constructed. cbn [negb orb]. cbv zeta.
    assert (decodeBody c (map wireElement r) = Ok None) as ->.
    { unfold decodeBody, NotificationChangeOfState, NotificationChangeOfBitstring, NotificationChangeOfValue, NotificationOutOfRange, NotificationCommandFailure,
        NotificationFloatingLimit, NotificationBufferReady, NotificationUnsignedRange, NotificationChangeOfLifeSafety, NotificationExtended, NotificationComplexEventType.
      cbv zeta. by decide_tests. }
    cbn [bind]. by rewrite cloneElements_id.
Qed.

Section Decode.
Context (lim : DecodeLimits) (d : nat) (n : EventNotification) (Hn : note_fits lim d n).

(** The fields before the optional ones. *)
Definition noteHead : list Element :=
  [unsignedElement 0 (note_ProcessIdentifier n); contextElement 1 (oidOctets (note_InitiatingDevice n)); contextElement 2 (oidOctets (note_EventObject n));
   constructedElement 3 [stampElement (note_TimeStamp n)]; unsignedElement 4 (note_NotificationClass n); unsignedElement 5 (note_Priority n);
   unsignedElement 6 (note_EventType n)].
Definition headState (msg : option CharacterString) (notify : option Z) (ack : option bool) (from to : option Z)
    (params : option (ApplicationValue * NotificationParameters)) : noteState :=
  mkNoteState (Some (note_ProcessIdentifier n)) (Some (note_InitiatingDevice n)) (Some (note_EventObject n)) (Some (note_TimeStamp n))
    (Some (note_NotificationClass n)) (Some (note_Priority n)) (Some (note_EventType n)) msg notify ack from to params.

Lemma decode_noteHead : forElements eventNotificationField noteHead zeroNote = Ok (headState None None None None None None).
Proof using Hn.
  destruct Hn. unfold noteHead, unsignedElement, constructedElement, zeroNote. assert (is_u 64 (note_Priority n)) by by apply (is_u_mono 8 64).
  by decode_run.
Qed.

Lemma decode_noteText : forElements eventNotificationField
    (whenElements (fun c => contextElement 7 ([cs_Encoding c] ++ cs_Value c)) (note_MessageText n) ++ [unsignedElement 8 (note_NotifyType n)])
    (headState None None None None None None) =
  Ok (headState (note_MessageText n) (Some (note_NotifyType n)) None None None None).
Proof using Hn.
  destruct Hn. unfold unsignedElement, headState. destruct (note_MessageText n) as [c|]; cbn [whenElements app]; by decode_run.
Qed.

Lemma decode_noteStates : forElements eventNotificationField
    (whenElements (fun b : bool => contextElement 9 [if b then 1 else 0]) (note_AckRequired n) ++ whenElements (unsignedElement 10) (note_FromState n) ++
     [unsignedElement 11 (note_ToState n)])
    (headState (note_MessageText n) (Some (note_NotifyType n)) None None None None) =
  Ok (headState (note_MessageText n) (Some (note_NotifyType n)) (note_AckRequired n) (note_FromState n) (Some (note_ToState n)) None).
Proof using Hn.
  destruct Hn. unfold unsignedElement, headState.
  destruct (note_AckRequired n) as [b|], (note_FromState n) as [s|]; rewrite ?optP_Some in *; cbn [whenElements app]; by decode_run.
Qed.

Lemma decode_eventValues : forElements eventNotificationField (eventValueElements (note_Parameters n))
    (headState (note_MessageText n) (Some (note_NotifyType n)) (note_AckRequired n) (note_FromState n) (Some (note_ToState n)) None) =
  Ok (headState (note_MessageText n) (Some (note_NotifyType n)) (note_AckRequired n) (note_FromState n) (Some (note_ToState n))
    (match receivedParams (note_Parameters n) with Some q => Some (constructedValue (paramsElements (note_Parameters n)), q) | None => None end)).
Proof using Hn.
  destruct Hn as [_ _ _ _ _ _ _ _ _ _ _ _ Hp]. destruct (note_Parameters n) as [p|]; [|done].
  assert (exists q, DecodeNotificationParameters (paramsElements (Some p)) = Ok q /\ receivedParams (Some p) = Some q) as (q & Hd & Hr).
  { pose proof (DecodeNotificationParameters_elements lim d p Hp) as Hd. destruct (DecodeNotificationParameters _) as [q|]; [|done].
    injection Hd as Hd. by exists q. }
  rewrite Hr. cbn [eventValueElements forElements]. unfold eventNotificationField, headState, constructedElement. decode_simp.
  rewrite Hd. cbn [bind]. by rewrite Clone_id.
Qed.

Lemma decode_noteElements : forElements eventNotificationField (noteElements n) zeroNote =
  Ok (headState (note_MessageText n) (Some (note_NotifyType n)) (note_AckRequired n) (note_FromState n) (Some (note_ToState n))
    (match receivedParams (note_Parameters n) with Some q => Some (constructedValue (paramsElements (note_Parameters n)), q) | None => None end)).
Proof using Hn.
  unfold noteElements. fold noteHead. rewrite forElements_app, decode_noteHead. cbn [bind]. rewrite app_assoc, forElements_app, decode_noteText. cbn [bind].
  rewrite !app_assoc, forElements_app, <- app_assoc, decode_noteStates. cbn [bind]. apply decode_eventValues.
Qed.
End Decode.

Lemma DecodeEventNotification_encode lim n : (exists d, note_fits (Normalize lim) d n /\ room lim (4 + Z.of_nat d) (elcounts (noteElements n))) ->
  exists bs, EncodeEventNotification n = Ok bs /\ bytes_ok bs /\ DecodeEventNotification bs lim = Ok (receivedNote n).
Proof.
  intros (d & Hn & Hm & Hd & He). destruct (writes_note (Normalize lim) d n) as (f & -> & Hw); [apply Normalize_positive|done..|].
  destruct (newBuffer_parse lim (S (S (S (S d)))) f (noteElements n)) as (bs & Hb & Hok & Hp); [done|lia|lia|].
  exists bs. split_and!; [done..|]. unfold DecodeEventNotification. rewrite Hp. cbn [bind]. rewrite (decode_noteElements (Normalize lim) d n Hn).
  unfold receivedNote, headState. cbn [bind required no_pid no_dev no_obj no_ts no_class no_prio no_type no_notify no_to no_msg no_ack no_from no_params].
  destruct (note_Parameters n) as [[c [b|] r]|]; done.
Qed.

Definition state_typed (lim : DecodeLimits) (st : noteState) : Prop :=
  optP (is_u 32) (no_pid st) /\ optP oid_ok (no_dev st) /\ optP oid_ok (no_obj st) /\ optP stamp_ok (no_ts st) /\ optP (is_u 32) (no_class st) /\
  optP (is_u 8) (no_prio st) /\ optP (is_u 32) (no_type st) /\ optP cs_typed (no_msg st) /\ optP (is_u 32) (no_notify st) /\
  optP (is_u 32) (no_from st) /\ optP (is_u 32) (no_to st) /\ optP (fun q => params_typed lim (snd q)) (no_params st).

Lemma yields_eventNotificationField lim el st : wire lim el -> state_typed lim st -> yields (state_typed lim) (eventNotificationField el st).
Proof.
  destruct st as [pid dev obj ts class prio ty msg notify ack from to params]. unfold state_typed.
  cbn [no_pid no_dev no_obj no_ts no_class no_prio no_type no_msg no_notify no_ack no_from no_to no_params].
  intros Hw Hst. destruct_and? Hst. unfold eventNotificationField. cbv beta iota zeta.
  repeat yields_step; cbn [no_pid no_dev no_obj no_ts no_class no_prio no_type no_msg no_notify no_ack no_from no_to no_params]; try by split_and!.
  - apply andb_true_iff in E2 as [_ Ec]. by eapply yields_timeStampField.
  - apply andb_true_iff in E11 as [_ Ec]. eapply yields_bind; [by eapply yields_notificationParameters, yields_inner|]. by intros q Hq.
Qed.

Lemma yields_eventNotification lim bs : bytes_ok bs -> yields (note_typed (Normalize lim)) (DecodeEventNotification bs lim).
Proof.
  intros Hb. unfold DecodeEventNotification. yields_step.
  eapply yields_bind; [eapply (yields_forElements (state_typed (Normalize lim))); [apply yields_eventNotificationField|eassumption|done]|].
  intros st Hst. unfold state_typed in Hst. destruct_and? Hst. repeat yields_step. unfold note_typed.
  cbn [note_ProcessIdentifier note_InitiatingDevice note_EventObject note_TimeStamp note_NotificationClass note_Priority note_EventType note_MessageText
       note_NotifyType note_FromState note_ToState note_Parameters].
  split_and!; try done. intros p Hp. destruct (no_params st) as [[v q]|] eqn:E; [|done]. injection Hp as <-.
  match goal with H : optP _ (Some (v, q)) |- _ => by rewrite optP_Some in H end.
Qed.
