(* ===== verification/ObjectServices.v ===== *)
(** * Object access services: AddListElement, RemoveListElement, CreateObject
    and DeleteObject ([service/list_object.go], [service/request_decoders.go]) *)

From Stdlib Require Import ZArith Lia.
From stdpp Require Import base list.
From S2P Require Import Prelude Value Tags Constructed Writer Codec Access AccessMultiple Object PropertyValues.

(** ** AddListElement and RemoveListElement *)
Record ListElementRequest := mkListElement { le_Object : ObjectIdentifier; le_Property : PropertyReference; le_Elements : list Element }.

Definition EncodeListElementRequest (req : ListElementRequest) : result bytes :=
  newBuffer (fun dst =>
    let* dst := AppendContextObjectID dst 0 (le_Object req) in
    let* dst := AppendContextUnsigned dst 1 (pr_Identifier (le_Property req)) in
    let* dst :=
      match pr_ArrayIndex (le_Property req) with
      | Some i => AppendContextUnsigned dst 2 i
      | None => Ok dst
      end in
    if len (le_Elements req) =? 0 then Err ErrMalformed
    else AppendContextTagged dst 3 (le_Elements req)).

Definition listElementField (el : Element) (st : option ObjectIdentifier * option Z * option Z * option (list Element)) :
    result (option ObjectIdentifier * option Z * option Z * option (list Element)) :=
  let '(obj, prop, index, els) := st in
  if (el_TagNumber el =? 0) && negb (IsContextConstructed el) then
    let* obj := overwrite (ContextObjectID el) in Ok (obj, prop, index, els)
  else if (el_TagNumber el =? 1) && negb (IsContextConstructed el) then
    let* prop := overwrite (ContextUnsigned32 el) in Ok (obj, prop, index, els)
  else if (el_TagNumber el =? 2) && negb (IsContextConstructed el) then
    let* index := overwrite (ContextUnsigned32 el) in Ok (obj, prop, index, els)
  else if (el_TagNumber el =? 3) && IsContextConstructed el then
    let* els := overwrite (Ok (av_Elements (Clone (el_Value el)))) in Ok (obj, prop, index, els)
  else Err ErrMalformed.

Definition DecodeListElementRequest (payload : bytes) (limits : DecodeLimits) : result ListElementRequest :=
  let* elements := parseElements payload limits in
  let* (obj, prop, index, els) := forElements listElementField elements (None, None, None, None) in
  let* obj := required obj in
  let* prop := required prop in
  let* els := required els in
  Ok (mkListElement obj (mkPropertyReference prop index) els).

(** ** CreateObject *)
Record CreateObjectRequest := mkCreateObject { co_Type : option Z; co_Identifier : option ObjectIdentifier; co_InitialValues : list PropertyValue }.

Definition EncodeCreateObject (req : CreateObjectRequest) : result bytes :=
  match co_Identifier req, co_Type req with
  | None, None => Err ErrMalformed
  | id, t =>
      newBuffer (fun dst =>
        let* dst := appendWrapped 0x0E 0x0F (fun choice =>
          match id with
          | Some id => AppendContextObjectID choice 1 id
          | None => AppendContextUnsigned choice 0 (default 0 t)
          end) dst in
        if len (co_InitialValues req) =? 0 then Ok dst
        else appendInline 0x1E 0x1F (fun dst => foldAppend appendPropertyValue dst (co_InitialValues req)) dst)
  end.

(** The objectSpecifier: an object type of 10 bits, or an identifier. *)
Definition decodeSpecifier (inner : list Element) : result (option Z * option ObjectIdentifier) :=
  match inner with
  | [choice] =>
      if (el_TagNumber choice =? 0) && negb (IsContextConstructed choice) then
        let* u := ContextUnsigned choice in
        if u >? 0x3FF then Err ErrMalformed
        else let* v := narrowU16 u in Ok (Some v, None)
      else if (el_TagNumber choice =? 1) && negb (IsContextConstructed choice) then
        let* id := ContextObjectID choice in Ok (None, Some id)
      else Err ErrMalformed
  | _ => Err ErrMalformed
  end.

Definition createObjectField (el : Element) (st : option (option Z * option ObjectIdentifier) * option (list PropertyValue)) :
    result (option (option Z * option ObjectIdentifier) * option (list PropertyValue)) :=
  let '(spec, values) := st in
  if (el_TagNumber el =? 0) && IsContextConstructed el then
    let* spec := setOnce spec (decodeSpecifier (av_Elements (el_Value el))) in Ok (spec, values)
  else if (el_TagNumber el =? 1) && IsContextConstructed el then
    let* values := overwrite (decodeCOVValues (av_Elements (el_Value el))) in Ok (spec, values)
  else Err ErrMalformed.

Definition DecodeCreateObject (payload : bytes) (limits : DecodeLimits) : result CreateObjectRequest :=
  let* elements := parseElements payload limits in
  let* (spec, values) := forElements createObjectField elements (None, None) in
  let* (t, id) := required spec in
  Ok (mkCreateObject t id (default [] values)).

(** The created object: an application or a context object identifier. *)
Definition EncodeCreateObjectACK (id : ObjectIdentifier) : result bytes := newBuffer (fun dst => AppendApplicationValue dst (ObjectIDValue id)).
Definition DecodeCreateObjectACK (payload : bytes) (limits : DecodeLimits) : result ObjectIdentifier :=
  let* els := parseElements payload limits in
  match els with
  | [el] =>
      match AsObjectID (el_Value el) with
      | Ok id => Ok id
      | Err _ => ContextObjectID el
      end
  | _ => Err ErrMalformed
  end.

(** ** DeleteObject *)
Record DeleteObjectRequest := mkDeleteObject { do_Object : ObjectIdentifier }.
Definition EncodeDeleteObject (req : DeleteObjectRequest) : result bytes :=
  newBuffer (fun dst => AppendApplicationValue dst (ObjectIDValue (do_Object req))).
Definition DecodeDeleteObject (payload : bytes) (limits : DecodeLimits) : result DeleteObjectRequest :=
  let* els := parseElements payload limits in
  match els with
  | [el] => let* id := AsObjectID (el_Value el) in Ok (mkDeleteObject id)
  | _ => Err ErrMalformed
  end.

(** ** The contracts *)
#[export] Program Instance ListElement_Codec : Codec ListElementRequest := {|
  encode := EncodeListElementRequest;
  decode := DecodeListElementRequest;
  fits lim req := oid_ok (le_Object req) /\ ref_ok (le_Property req) /\ le_Elements req <> [] /\
    exists d, Forall (wire_at (Normalize lim) 12 d) (le_Elements req) /\ room lim (1 + Z.of_nat d) (4 + elcounts (le_Elements req));
  typed lim req := oid_ok (le_Object req) /\ ref_ok (le_Property req) /\ Forall (wire (Normalize lim)) (le_Elements req)
|}.
Next Obligation.
  intros lim [obj [pid idx] els] (Ho & [Hp Hi] & Hne & d & Hes & Hm & Hd & He); cbn [le_Object le_Property le_Elements pr_Identifier pr_ArrayIndex] in *.
  unfold EncodeListElementRequest; cbn [le_Object le_Property le_Elements pr_Identifier pr_ArrayIndex].
  replace (len els =? 0) with false by (symmetry; destruct els; [done|]; apply Z.eqb_neq; len_lia).
  pose proof (writes_tagged (Normalize lim) (Normalize_positive lim) d 3 els ltac:(done) Hes) as Hw.
  destruct idx as [idx|]; rewrite ?optP_Some in Hi; codec_roundtrip lim (S d) as Hparse;
    unfold DecodeListElementRequest; rewrite Hparse; decode_run; by rewrite ?Clone_id.
Qed.
Next Obligation.
  intros lim bs Hb. unfold DecodeListElementRequest. yields_step.
  eapply yields_bind; [eapply (yields_forElements (fun '(obj, prop, index, els) =>
    optP oid_ok obj /\ optP (is_u 32) prop /\ optP (is_u 32) index /\ optP (Forall (wire (Normalize lim))) els)); [|eassumption|done]|].
  - intros el [[[obj prop] index] els] Hel (H1 & H2 & H3 & H4). unfold listElementField.
    repeat yields_step; try done.
    apply andb_true_iff in E2 as [_ Ec]. rewrite Clone_id. by apply yields_inner.
  - intros [[[obj prop] index] els] (H1 & H2 & H3 & H4). repeat yields_step. done.
Qed.

(** A request names the object by its type or by its identifier. *)
Definition specifier_ok (req : CreateObjectRequest) : Prop :=
  match co_Type req, co_Identifier req with
  | Some t, None => 0 <= t <= 0x3FF
  | None, Some id => oid_ok id
  | _, _ => False
  end.

Lemma decodeSpecifier_type t : 0 <= t <= 0x3FF -> decodeSpecifier [contextElement 0 (encodeUnsigned t)] = Ok (Some t, None).
Proof. intros Ht. unfold decodeSpecifier. decode_simp. by decide_tests. Qed.
Lemma decodeSpecifier_id id : oid_ok id -> decodeSpecifier [contextElement 1 (oidOctets id)] = Ok (None, Some id).
Proof. intros Hid. unfold decodeSpecifier. by decode_simp. Qed.

Lemma createObjectField_values spec values es l : decodeCOVValues es = Ok l ->
  createObjectField (mkElement true 1 false false (constructedValue es)) (spec, values) = Ok (spec, Some l).
Proof. intros H. unfold createObjectField. decode_simp. by rewrite H. Qed.

Lemma yields_decodeSpecifier lim els : Forall (wire lim) els ->
  yields (fun '(t, id) => specifier_ok (mkCreateObject t id [])) (decodeSpecifier els).
Proof.
  intros Hels. unfold decodeSpecifier. destruct els as [|c [|]]; try done. rewrite Forall_singleton in Hels.
  destruct (_ && _).
  - eapply yields_bind; [by eapply yields_ContextUnsigned|]. intros u Hu. cbv beta in *. destruct (u >? 0x3FF) eqn:E; [done|]. bool_to_prop.
    unfold is_u in Hu. rewrite narrowU16_id by (unfold is_u; lia). cbn. lia.
  - destruct (_ && _); [|done]. eapply yields_bind; [by eapply yields_ContextObjectID|]. done.
Qed.

#[export] Program Instance CreateObject_Codec : Codec CreateObjectRequest := {|
  encode := EncodeCreateObject;
  decode := DecodeCreateObject;
  fits lim req := specifier_ok req /\ exists d, Forall (propertyValue_ok (Normalize lim) d) (co_InitialValues req) /\
    room lim (2 + Z.of_nat d) (3 + elcounts (concat (map propertyValueElements (co_InitialValues req))));
  typed lim req := specifier_ok req /\ Forall (propValue_typed (Normalize lim)) (co_InitialValues req)
|}.
Next Obligation.
  intros lim [t id vals] (Hs & d & Hv & Hm & Hd & He). unfold specifier_ok in Hs. cbn [co_Type co_Identifier co_InitialValues] in *.
  assert (forall p, p ∈ vals -> writes (Normalize lim) (S d) (fun dst => appendPropertyValue dst p) (propertyValueElements p)) as Hw.
  { intros p Hp. apply writes_propertyValue; [apply Normalize_positive| |done]. by eapply Forall_forall in Hv. }
  pose proof (decodeCOVValues_encode (Normalize lim) d vals Hv) as Hdec.
  unfold EncodeCreateObject, DecodeCreateObject; cbn [co_Type co_Identifier co_InitialValues].
  destruct vals as [|v vals]; [clear Hw|replace (len (v :: vals) =? 0) with false by (symmetry; apply Z.eqb_neq; len_lia)];
    cbn [map concat] in He; autorewrite with elc in He;
    (destruct t as [t|], id as [id|]; try done; change (len [] =? 0) with true; cbn [default from_option Datatypes.id];
     codec_roundtrip lim (S (S d)) as Hparse; rewrite Hparse;
     cbn [bind app concat map]; erewrite forElements_step by
       (unfold createObjectField; decode_simp; first [rewrite decodeSpecifier_type by done | rewrite decodeSpecifier_id by done]; decode_simp; reflexivity)).
  - done.
  - done.
  - by rewrite (forElements_step _ _ _ _ _ (createObjectField_values _ _ _ _ Hdec)).
  - by rewrite (forElements_step _ _ _ _ _ (createObjectField_values _ _ _ _ Hdec)).
Qed.
Next Obligation.
  intros lim bs Hb. unfold DecodeCreateObject. yields_step.
  eapply yields_bind; [eapply (yields_forElements (fun '(spec, values) =>
    optP (fun '(t, id) => specifier_ok (mkCreateObject t id [])) spec /\ optP (Forall (propValue_typed (Normalize lim))) values)); [|eassumption|done]|].
  - intros el [spec values] Hel [H1 H2]. unfold createObjectField. repeat yields_step; try done.
    + apply andb_true_iff in E as [_ Ec]. by eapply yields_decodeSpecifier, yields_inner.
    + apply andb_true_iff in E0 as [_ Ec]. by eapply yields_decodeCOVValues, yields_inner.
  - intros [spec values] [H1 H2]. repeat yields_step. split; [done|]. destruct values as [l|]; [by rewrite optP_Some in H2|by apply List.Forall_nil].
Qed.

(** An object identifier as the whole of a payload. *)
Lemma oid_payload lim id : oid_ok id -> room lim 0 1 -> exists bs, newBuffer (fun dst => AppendApplicationValue dst (ObjectIDValue id)) = Ok bs /\
  bytes_ok bs /\ parseElements bs lim = Ok [appElement TagObjectIdentifier (ObjectIDValue id)].
Proof.
  intros Hid (Hm & Hd & He). apply (newBuffer_parse lim 0); [|lia|by cbn]. apply (writes_value (Normalize lim) (Normalize_positive lim) 0 (ObjectIDValue id)).
  by apply ap_oid.
Qed.

Lemma yields_bareObjectID lim el : wire lim el -> yields oid_ok (AsObjectID (el_Value el)).
Proof.
  intros Hw. unfold AsObjectID. destruct (av_Kind (el_Value el)) eqn:Ek; try done. destruct (el_Context el) eqn:Ec.
  - exfalso. destruct Hw as [d Hw]. assert (wire_at lim 254 (S d) el) as H by (eapply wire_at_mono; [|done]; lia).
    by destruct H as [(tn & v & -> & _)|[(tn & o & -> & _)|(tn & es & -> & _)]].
  - destruct (wire_application lim el Hw Ec) as (tn & v & -> & Hv). cbn in *. by destruct Hv.
Qed.

#[export] Program Instance DeleteObject_Codec : Codec DeleteObjectRequest := {|
  encode := EncodeDeleteObject;
  decode := DecodeDeleteObject;
  fits lim req := oid_ok (do_Object req) /\ room lim 0 1;
  typed _ req := oid_ok (do_Object req)
|}.
Next Obligation.
  intros lim [id] [Hid Hr]. destruct (oid_payload lim id Hid Hr) as (bs & H1 & H2 & H3). exists bs. split_and!; [done..|].
  unfold DecodeDeleteObject. by rewrite H3.
Qed.
Next Obligation.
  intros lim bs Hb. unfold DecodeDeleteObject. yields_step. destruct a as [|el [|]]; try done.
  rewrite Forall_singleton in H. eapply yields_bind; [by eapply yields_bareObjectID|]. done.
Qed.

(** The answer of CreateObject, a bare identifier. *)
Lemma CreateObjectACK_roundtrip lim id : oid_ok id -> room lim 0 1 -> exists bs, EncodeCreateObjectACK id = Ok bs /\ bytes_ok bs /\
  DecodeCreateObjectACK bs lim = Ok id.
Proof.
  intros Hid Hr. destruct (oid_payload lim id Hid Hr) as (bs & H1 & H2 & H3). exists bs. split_and!; [done..|].
  unfold DecodeCreateObjectACK. by rewrite H3.
Qed.

Lemma CreateObjectACK_typed lim bs : bytes_ok bs -> yields oid_ok (DecodeCreateObjectACK bs lim).
Proof.
  intros Hb. unfold DecodeCreateObjectACK. yields_step. destruct a as [|el [|]]; try done. rewrite Forall_singleton in H.
  pose proof (yields_bareObjectID _ el H) as Hy. destruct (AsObjectID (el_Value el)); [done|]. by eapply yields_ContextObjectID.
Qed.
