(* ===== verification/ServiceCodecs.v ===== *)
(** * The service codecs together

    The properties of the encoders and decoders of [service/] modelled in
    [Access], [AccessMultiple], [Discovery], [DeviceControl],
    [ObjectServices] and the alarm and event services, obtained from their
    [Codec] instances. *)

From Stdlib Require Import ZArith Lia.
From stdpp Require Import base list.
From S2P Require Import Prelude Value Tags Constructed Writer Codec Access AccessMultiple Discovery DeviceControl Events PropertyValues ObjectServices AlarmServices EventInformation EnrollmentSummary NotificationParams EventNotification.

(** C38. The property access services round trip: every request, answer and
    error that fits its field ranges and the limits of the receiver is
    encoded, and the receiver decodes exactly the same value - object,
    property, array index, value and priority, for one or many properties. A
    value is primitive, or constructed of any elements but a single
    application element: the decoders take such a value, a list or array with
    one member, for the member itself ([one_element_list]). *)
Theorem property_services_roundtrip :
  roundtrips EncodeReadProperty DecodeReadProperty fits /\
  roundtrips EncodeReadPropertyACK DecodeReadPropertyACK fits /\
  roundtrips EncodeWriteProperty DecodeWriteProperty fits /\
  roundtrips EncodeReadPropertyMultiple DecodeReadPropertyMultiple fits /\
  roundtrips EncodeReadPropertyMultipleACK DecodeReadPropertyMultipleACK fits /\
  roundtrips EncodeWritePropertyMultiple DecodeWritePropertyMultiple fits /\
  roundtrips EncodeWritePropertyMultipleError DecodeWritePropertyMultipleError fits.
Proof. repeat apply conj; intros lim a Ha; exact (decode_encode lim a Ha). Qed.

(** A write of a real to an array element, with a priority. *)
Lemma property_services_roundtrip_witness :
  let req := mkWriteProperty (mkObjectID 2 7) (mkPropertyReference 85 (Some 3)) (RealValue 0x42F00000) (Some 8) in
  exists bs, EncodeWriteProperty req = Ok bs /\ bytes_ok bs /\ DecodeWriteProperty bs DefaultDecodeLimits = Ok req.
Proof.
  intros req. destruct property_services_roundtrip as (_ & _ & H & _). apply H. clear H.
  split; [vm_compute; intuition congruence|]. split; [split; [vm_compute; intuition congruence|by apply optP_Some]|]. split; [by apply optP_Some|].
  exists 0%nat, [appElement (AVTagNumber (RealValue 0x42F00000)) (RealValue 0x42F00000)]. split; [apply vf_primitive, ap_real; unfold is_u; lia|].
  unfold room. vm_compute. intuition congruence.
Defined.

(** The Object_List of a device that holds nothing but its Device object
    arrives as an object identifier, not as a list. *)
Example one_element_list :
  let device := mkObjectID 8 5 in
  let ack v := mkReadPropertyACK device (mkPropertyReference 76 None) v in
  match EncodeReadPropertyACK (ack (constructedValue [appItem (ObjectIDValue device)])) with
  | Ok bs => DecodeReadPropertyACK bs DefaultDecodeLimits = Ok (ack (ObjectIDValue device))
  | Err _ => False
  end.
Proof. vm_compute. reflexivity. Qed.

(** The discovery and device management services round trip: Who-Is and
    Who-Has with or without a window of instances, I-Am and I-Have,
    DeviceCommunicationControl and ReinitializeDevice with every enumerated
    value, duration and password their encoders accept. *)
Theorem management_services_roundtrip :
  roundtrips EncodeWhoIs DecodeWhoIs fits /\
  roundtrips EncodeIAm DecodeIAm fits /\
  roundtrips EncodeWhoHas DecodeWhoHas fits /\
  roundtrips EncodeIHave DecodeIHave fits /\
  roundtrips EncodeDeviceCommunicationControl DecodeDeviceCommunicationControl fits /\
  roundtrips EncodeReinitializeDevice DecodeReinitializeDevice fits.
Proof. repeat apply conj; intros lim a Ha; exact (decode_encode lim a Ha). Qed.

(** A Who-Is for a window, and communication disabled for an hour with a
    password. *)
Lemma management_services_roundtrip_witness :
  let whoIs := mkWhoIs (Some 1000) (Some 4194303) in
  let dcc := mkDCC (Some 60) 1 (Some (mkCharacterString 0 [112; 119])) in
  (exists bs, EncodeWhoIs whoIs = Ok bs /\ bytes_ok bs /\ DecodeWhoIs bs DefaultDecodeLimits = Ok whoIs) /\
  (exists bs, EncodeDeviceCommunicationControl dcc = Ok bs /\ bytes_ok bs /\
    DecodeDeviceCommunicationControl bs DefaultDecodeLimits = Ok dcc).
Proof.
  intros whoIs dcc. destruct management_services_roundtrip as (H1 & _ & _ & _ & H2 & _). split; [apply H1|apply H2]; clear H1 H2.
  - split; vm_compute; intuition congruence.
  - split; [vm_compute; intuition congruence|]. split; [vm_compute; congruence|]. split; [apply optP_Some; unfold is_u; cbn; lia|].
    split; [cbn; lia|]. apply optP_Some. split; [split; [unfold is_u; cbn; lia|cbn; solve_bytes]|vm_compute; congruence].
Defined.

(** The object services round trip: list changes with any elements, creations
    by type or by identifier with any initial values, and deletions. *)
Theorem object_services_roundtrip :
  roundtrips EncodeListElementRequest DecodeListElementRequest fits /\
  roundtrips EncodeCreateObject DecodeCreateObject fits /\
  roundtrips EncodeDeleteObject DecodeDeleteObject fits.
Proof. repeat apply conj; intros lim a Ha; exact (decode_encode lim a Ha). Qed.

(** C39. The alarm and event services round trip: acknowledgments, alarm
    summaries, event information with its time stamps and priorities,
    enrollment summaries with every filter and their answers are decoded as
    they were encoded. An event notification is decoded with the same fields.
    Its event values may be of every typed kind - bits, a property state (a
    boolean, a number or a constructed one), a new value of bits, a real or as
    decoded, a failed command with constructed or boolean, numeric or real
    values, the limits, life safety, extended, buffer and complex ones; status
    flags of at most 7 octets - or raw elements of another choice; of them the
    receiver gets the typed form, with what [receivedBody] says of its
    values, and the elements. *)
Theorem alarm_services_roundtrip :
  roundtrips EncodeAcknowledgeAlarm DecodeAcknowledgeAlarm fits /\
  roundtrips EncodeGetAlarmSummaryACK DecodeGetAlarmSummaryACK fits /\
  roundtrips EncodeGetEventInformation DecodeGetEventInformation fits /\
  roundtrips EncodeGetEventInformationACK DecodeGetEventInformationACK fits /\
  roundtrips EncodeGetEnrollmentSummary DecodeGetEnrollmentSummary fits /\
  roundtrips EncodeGetEnrollmentSummaryACK DecodeGetEnrollmentSummaryACK fits /\
  (forall lim d note, note_fits (Normalize lim) d note -> room lim (4 + Z.of_nat d) (elcounts (noteElements note)) ->
    exists bs, EncodeEventNotification note = Ok bs /\ bytes_ok bs /\ DecodeEventNotification bs lim = Ok (receivedNote note)).
Proof.
  repeat apply conj; try (intros lim a Ha; exact (decode_encode lim a Ha)).
  intros lim d note Hn Hroom. apply DecodeEventNotification_encode. by exists d.
Qed.

(** An out-of-range notification for a high limit, and a change of value that
    reports a real. *)
Lemma alarm_services_roundtrip_witness :
  let value := mkNotificationParameters NotificationChangeOfValue (Some (ChangeOfValue (RealValue 0x42F00000) (mkBitString 4 [0]))) [] in
  let params := mkNotificationParameters NotificationOutOfRange (Some (OutOfRange 0x42F00000 (mkBitString 4 [128]) 0 0x42C80000)) [] in
  let note := mkEventNotification 7 (mkObjectID 8 1) (mkObjectID 0 3) (TimeStampSequence 12) 1 100 5 None 0 (Some true) (Some 0) 3 None (Some params) in
  let changed := mkEventNotification 7 (mkObjectID 8 1) (mkObjectID 0 3) (TimeStampSequence 13) 1 100 2 None 0 (Some true) (Some 0) 0 None (Some value) in
  (exists bs, EncodeEventNotification note = Ok bs /\ bytes_ok bs /\ DecodeEventNotification bs DefaultDecodeLimits = Ok (receivedNote note)) /\
  (exists bs, EncodeEventNotification changed = Ok bs /\ bytes_ok bs /\ DecodeEventNotification bs DefaultDecodeLimits = Ok (receivedNote changed)).
Proof.
  intros value params note changed. split.
  2: { apply (proj2 (proj2 (proj2 (proj2 (proj2 (proj2 alarm_services_roundtrip))))) DefaultDecodeLimits 0%nat).
    - split; cbn [note_ProcessIdentifier note_InitiatingDevice note_EventObject note_TimeStamp note_NotificationClass note_Priority note_EventType
        note_MessageText note_NotifyType note_FromState note_ToState note_NotificationParams note_Parameters];
        unfold oid_ok, stamp_ok, is_u; cbn; unfold MaxObjectInstance; try done; try lia; [apply optP_Some; lia|].
      split; [right; right; exists 0x42F00000; unfold is_u; split; [done|lia]|].
      unfold flags_ok, bs_typed, is_u; cbn. split_and!; try done; try lia; solve_bytes.
    - unfold room. vm_compute. intuition congruence. } apply (proj2 (proj2 (proj2 (proj2 (proj2 (proj2 alarm_services_roundtrip))))) DefaultDecodeLimits 0%nat).
  - split; cbn [note_ProcessIdentifier note_InitiatingDevice note_EventObject note_TimeStamp note_NotificationClass note_Priority note_EventType
      note_MessageText note_NotifyType note_FromState note_ToState note_NotificationParams note_Parameters];
      unfold oid_ok, stamp_ok, is_u; cbn; unfold MaxObjectInstance; try done; try lia; [apply optP_Some; lia|].
    unfold flags_ok, bs_typed, is_u, params, MaxUint32; cbn. split_and!; try done; try lia; solve_bytes.
  - unfold room. vm_compute. intuition congruence.
Defined.

(** C40. The decoders are type-safe: whatever octets arrive, a decoder returns
    an error or a value whose fields are inside the ranges of their Go types -
    numbers of their width, values made of well-formed elements - and which
    keeps what the decoder checks beyond them: object types of 10 bits and
    instances of 22, write priorities 1 to 16, windows with low <= high, at
    least one property per specification, the three ways to enable
    communication, the eight states of a reinitialization; none of them
    panics. Enumerations that a decoder does not check - an acknowledgment
    filter ([any_acknowledgment_filter]), an event state, an event type - are
    any number of their width. *)
Theorem service_decoders_typed :
  decodes_typed DecodeReadProperty (fun _ req => oid_ok (rp_Object req) /\ ref_ok (rp_Property req)) /\
  decodes_typed DecodeReadPropertyACK (fun lim ack => oid_ok (ra_Object ack) /\ ref_ok (ra_Property ack) /\ value_typed (Normalize lim) (ra_Value ack)) /\
  decodes_typed DecodeWriteProperty (fun lim req => oid_ok (wp_Object req) /\ ref_ok (wp_Property req) /\ optP prio_ok (wp_Priority req) /\
    value_typed (Normalize lim) (wp_Value req)) /\
  decodes_typed DecodeReadPropertyMultiple (fun _ specs => specs <> [] /\ Forall readAccess_ok specs) /\
  decodes_typed DecodeReadPropertyMultipleACK (fun lim results => Forall (accessResult_typed (Normalize lim)) results) /\
  decodes_typed DecodeWritePropertyMultiple (fun lim specs => specs <> [] /\ Forall (writeAccess_typed (Normalize lim)) specs /\
    Forall (fun s => ws_Properties s <> []) specs) /\
  decodes_typed DecodeWritePropertyMultipleError (fun _ e => is_u 16 (we_Class e) /\ is_u 16 (we_Code e) /\ oid_ok (we_FirstFailed e) /\
    ref_ok (we_FirstProperty e)) /\
  decodes_typed DecodeWhoIs (fun _ req => window_ok (wi_LowLimit req) (wi_HighLimit req)) /\
  decodes_typed DecodeIAm (fun _ m => iam_ok m) /\
  decodes_typed DecodeWhoHas (fun _ m => window_ok (wh_LowLimit m) (wh_HighLimit m) /\ whoHas_choice cs_typed m) /\
  decodes_typed DecodeIHave (fun _ m => ihave_typed m) /\
  decodes_typed DecodeDeviceCommunicationControl (fun _ req => optP (is_u 16) (dc_TimeDuration req) /\ 0 <= dc_EnableDisable req <= 2 /\
    optP password_ok (dc_Password req)) /\
  decodes_typed DecodeReinitializeDevice (fun _ req => 0 <= rd_State req <= 7 /\ optP password_ok (rd_Password req)) /\
  decodes_typed DecodeListElementRequest (fun lim req => oid_ok (le_Object req) /\ ref_ok (le_Property req) /\
    Forall (wire (Normalize lim)) (le_Elements req)) /\
  decodes_typed DecodeCreateObject (fun lim req => specifier_ok req /\ Forall (propValue_typed (Normalize lim)) (co_InitialValues req)) /\
  decodes_typed DecodeDeleteObject (fun _ req => oid_ok (do_Object req)) /\
  decodes_typed DecodeAcknowledgeAlarm (fun _ req => alarm_ok req) /\
  decodes_typed DecodeGetAlarmSummaryACK (fun _ entries => Forall alarmSummary_ok entries) /\
  decodes_typed DecodeGetEventInformation (fun _ last => optP oid_ok last) /\
  decodes_typed DecodeGetEventInformationACK (fun lim ack => Forall (summary_typed (Normalize lim)) (ei_Summaries ack)) /\
  decodes_typed DecodeGetEnrollmentSummary (fun lim req => request_ok (Normalize lim) req) /\
  decodes_typed DecodeGetEnrollmentSummaryACK (fun _ entries => Forall enrollment_ok entries) /\
  decodes_typed DecodeEventNotification (fun lim note => note_typed (Normalize lim) note).
Proof.
  repeat apply conj; intros lim bs Hb;
    lazymatch goal with
    | |- yields _ (DecodeEventNotification _ _) => by apply yields_eventNotification
    | |- @yields ?A _ _ => exact (@decode_typed A _ lim bs Hb)
    end.
Qed.

(** A ReadProperty request off the wire. *)
Lemma service_decoders_typed_witness :
  yields (fun req => oid_ok (rp_Object req) /\ ref_ok (rp_Property req)) (DecodeReadProperty [12; 0; 128; 0; 7; 25; 85] DefaultDecodeLimits) /\
  DecodeReadProperty [12; 0; 128; 0; 7; 25; 85] DefaultDecodeLimits = Ok (mkReadProperty (mkObjectID 2 7) (mkPropertyReference 85 None)).
Proof. split; [|by vm_compute]. apply (proj1 service_decoders_typed). solve_bytes. Defined.

Example any_acknowledgment_filter : DecodeGetEnrollmentSummary [9; 200] DefaultDecodeLimits = Ok (mkEnrollmentRequest 200 None None None None None).
Proof. vm_compute. reflexivity. Qed.
