(* ===== verification/ObjectHandlers.v ===== *)
(** * The object handlers of the server: [server/handlers_object.go]

    AddListElement, RemoveListElement, CreateObject and DeleteObject over the
    object table of [Device.v] and the codecs of [ObjectServices.v]. Like the
    handlers of [DataHandlers.v] they return the changes the observers are
    told and the new device. *)

From Stdlib Require Import ZArith Lia.
From stdpp Require Import base list gmap.
From S2P Require Import Prelude Value Ids Tags Constructed Apdu Codec Access Responder ServerKey ServerPacket Object Events Device DataHandlers PropertyValues ObjectServices.
#[local] Open Scope Z_scope.

(** [fail] of [listFailure] and of [createFailure]. *)
Definition failElement (e : error) (first : Z) : svcResult := let '(class, code) := AsError e in fail (createObjectError class code first).

Definition sameApp (a b : ApplicationValue) : bool :=
  match AppendApplicationValue [] a, AppendApplicationValue [] b with
  | Ok x, Ok y => bool_decide (x = y)
  | _, _ => false
  end.

Section ObjectHandlers.
Context {O : Type} `{!ObjectOps O} `{!ListOps O} {LT : LocalTime}.
Context (cfg : serverConfig).
Implicit Types (d : Device O).

(** ** AddListElement and RemoveListElement; [hook] is BeforeWrite. *)
Section ChangeList.
Context (hook : option (ObjectIdentifier -> Write -> result unit)).

(** An object that is a [ListModifier]; the Device is not. *)
Definition entryModifier (e : entry O) : option (O * (bool -> PropertyReference -> list Element -> listOutcome O)) :=
  match e with
  | theDevice => None
  | anObject o => match changeElements o with Some change => Some (o, change) | None => None end
  end.

Definition changeList (add : bool) d (payload : bytes) : svcResult * list Change * Device O :=
  match DecodeListElementRequest payload (sc_limits cfg) with
  | Err e => (rejectFor e, [], d)
  | Ok r =>
      match Object d (le_Object r) with
      | None => (failElement ErrUnknownObject 0, [], d)
      | Some entry =>
          match entryModifier entry with
          | None =>
              match entryRead d entry (mkPropertyReference (pr_Identifier (le_Property r)) None) with
              | Err e => (failElement e 0, [], d)
              | Ok _ => (failElement ErrPropertyIsNotAList 0, [], d)
              end
          | Some (o, change) =>
              match (match hook with
                     | Some h => h (entryIdentifier d entry) (mkWrite (le_Property r) (constructedValue (le_Elements r)) 0)
                     | None => Ok tt
                     end) with
              | Err e => (failElement e 0, [], d)
              | Ok _ =>
                  match change add (le_Property r) (le_Elements r) with
                  | ListFailed e first => (failElement e (default 0 first), [], d)
                  | ListDone changes o' => (ack, changes, putObject (Identifier o) o' d)
                  end
              end
          end
      end
  end.
Definition addListElement := changeList true.
Definition removeListElement := changeList false.
End ChangeList.

(** ** CreateObject *)

(** The type and the instance asked for. *)
Definition requested (r : CreateObjectRequest) : option (Z * option Z) :=
  match co_Identifier r, co_Type r with
  | Some id, _ => Some (oid_Type id, if oid_Instance id =? WildcardInstance then None else Some (oid_Instance id))
  | None, Some t => Some (t, None)
  | None, None => None
  end.

(** The Object_Name among the initial values, [i] of them seen. *)
Fixpoint initialName d (i : Z) (vals : list PropertyValue) (name : bytes) : bytes + (error * Z) :=
  match vals with
  | [] => inl name
  | pv :: vals =>
      if negb (pr_Identifier (pv_Property pv) =? PropertyObjectName) then initialName d (i + 1) vals name
      else
        let v := pv_Value pv in
        if negb (bool_decide (av_Kind v = ValueCharacterString)) || (len (cs_Value (av_Character v)) =? 0)
             || bool_decide (is_Some (pr_ArrayIndex (pv_Property pv)))
        then inr (ErrInvalidDataType, u32 (i + 1))
        else if bool_decide (is_Some (ObjectByName d (cs_Value (av_Character v)))) then inr (ErrDuplicateName, u32 (i + 1))
        else initialName d (i + 1) vals (cs_Value (av_Character v))
  end.

(** One initial value of the object [id]: [None] leaves the object alone. *)
Definition initialValue (id : ObjectIdentifier) (pv : PropertyValue) d : result (list Change * Device O) :=
  let prop := pr_Identifier (pv_Property pv) in
  match tb_objects (tablesOf d) !! id with
  | None => Err ErrUnknownObject
  | Some o =>
      if prop =? PropertyObjectName then Ok ([], d)
      else if (prop =? PropertyObjectIdentifier) || (prop =? PropertyObjectType) then
        if sameApp (match entryRead d o (pv_Property pv) with Ok v => v | Err _ => NullValue end) (pv_Value pv) then Ok ([], d)
        else Err ErrWriteAccessDenied
      else entryWrite d o (writeOf (pv_Property pv) (pv_Value pv) (pv_Priority pv))
  end.

(** The initial values in order, [i] of them done; the first that fails
    removes the object again. *)
Fixpoint initialValues (id : ObjectIdentifier) (i : Z) (vals : list PropertyValue) d : option (error * Z) * list Change * Device O :=
  match vals with
  | [] => (None, [], d)
  | pv :: vals =>
      match initialValue id pv d with
      | Ok (changes, d) => let '(r, more, d) := initialValues id (i + 1) vals d in (r, changes ++ more, d)
      | Err e =>
          let '(changes, d) := match Remove id d with Ok x => x | Err _ => ([], d) end in
          (Some (e, u32 (i + 1)), changes, d)
      end
  end.

Definition createObject d (payload : bytes) : svcResult * list Change * Device O :=
  match DecodeCreateObject payload (sc_limits cfg) with
  | Err e => (rejectFor e, [], d)
  | Ok r =>
      match requested r with
      | None => (fail (rejectError RejectReasonMissingRequiredParameter), [], d)
      | Some (t, inst) =>
          match initialName d 0 (co_InitialValues r) [] with
          | inr (e, first) => (failElement e first, [], d)
          | inl name =>
              match Create t inst name d with
              | Err e => (failElement e 0, [], d)
              | Ok (id, created, d) =>
                  let '(failed, changes, d) := initialValues id 0 (co_InitialValues r) d in
                  let res :=
                    match failed with
                    | Some (e, first) => failElement e first
                    | None => match EncodeCreateObjectACK id with Ok payload => complexACK payload | Err e => failWith e end
                    end in
                  (res, created ++ changes, d)
              end
          end
      end
  end.

(** ** DeleteObject; [hook] is BeforeDelete. Returns also the object whose
    COV subscriptions are dropped ([cov.objectRemoved]). *)
Definition deleteObject (hook : option (ObjectIdentifier -> result unit)) d (payload : bytes) :
    svcResult * list Change * option ObjectIdentifier * Device O :=
  match DecodeDeleteObject payload (sc_limits cfg) with
  | Err e => (rejectFor e, [], None, d)
  | Ok r =>
      match Object d (do_Object r) with
      | None => (failWith ErrUnknownObject, [], None, d)
      | Some o =>
          let id := entryIdentifier d o in
          if negb (entryDeletable d o) || bool_decide (id = Identifier d) then (failWith ErrNotDeletable, [], None, d)
          else
            match (match hook with Some h => h id | None => Ok tt end) with
            | Err e => (failWith e, [], None, d)
            | Ok _ =>
                match Remove id d with
                | Err e => (failWith e, [], None, d)
                | Ok (changes, d) => (ack, changes, Some id, d)
                end
            end
      end
  end.
End ObjectHandlers.
