(* ===== verification/CovEngine.v ===== *)
(** * COV subscriptions: [server/cov.go]

    The engine holds pointers to subscriptions that goroutines keep using
    after they left the table, so they live in a heap. Every critical section
    of the code is one operation. The goroutine of a subscription ([run]) is
    two of them: [runTake] at the head of its loop, and [evaluate], which reads
    the device in one state: a change that comes while the code evaluates
    marks the subscription again ([changed]), so it evaluates once more. *)

From Stdlib Require Import ZArith Lia Ascii Floats.SpecFloat.
From stdpp Require Import base list gmap sorting strings pretty.
From S2P Require Import Prelude Value Ids Float32 Tags Constructed Codec Access Address Endpoint Link Responder ServerKey ServerPacket Object Events Device DataHandlers PropertyValues CovCodecs CovMultiple ObjectHandlers.
#[local] Open Scope string_scope.
#[local] Open Scope list_scope.
#[local] Open Scope Z_scope.

(** ** The state *)
Inductive subKind := subObject | subProperty | subMultiple.
#[global] Instance subKind_eq_dec : EqDecision subKind.
Proof. solve_decision. Defined.

(** [last] and [haveLast] are one field. *)
Record covRef := mkCovRef {
  rf_prop : PropertyReference; rf_increment : option Z; rf_timestamped : bool; rf_last : option ApplicationValue; rf_changedAt : Time }.
Record covTarget := mkCovTarget { tg_obj : ObjectIdentifier; tg_refs : list covRef }.

(** [expires] is [None] for an indefinite subscription. *)
Record covSub := mkCovSub {
  su_kind : subKind; su_key : string; su_to : Endpoint; su_dest : Address; su_recipient : peer; su_pid : Z; su_confirmed : bool;
  su_lifetime : Z; su_expires : option Z; su_targets : list covTarget;
  su_dirty : bool; su_initial : bool; su_running : bool; su_closed : bool }.

Record covEngine := mkCovEngine { ce_subs : gmap string Z; ce_heap : gmap Z covSub; ce_next : Z }.
Definition newCOVEngine : covEngine := mkCovEngine ∅ ∅ 0.

(** config.maxCOV and config.maxLifetime *)
Record covConfig := mkCovConfig { cc_maxCOV : Z; cc_maxLifetime : Z }.

(** The increment that an object which is a [COVReporter] has, and whether it
    has one; [None] for an object that is no [COVReporter]. *)
Class CovOps (O : Type) := { COVIncrement : O -> option (Z * bool) }.

(** point.go: a point always reports, an analog one with its increment. *)
#[export] Instance Point_cov : CovOps (Base pointState) := {|
  COVIncrement b :=
    let p := o_state (b_view b) in
    Some (if bool_decide (pt_kind p <> kindAnalog) then (0, false) else (pt_covIncrement p, true))
|}.

(** Updates of a subscription. *)
Definition closeSub (s : covSub) : covSub :=
  mkCovSub (su_kind s) (su_key s) (su_to s) (su_dest s) (su_recipient s) (su_pid s) (su_confirmed s) (su_lifetime s) (su_expires s) (su_targets s)
    (su_dirty s) (su_initial s) (su_running s) true.
Definition setTargets (ts : list covTarget) (s : covSub) : covSub :=
  mkCovSub (su_kind s) (su_key s) (su_to s) (su_dest s) (su_recipient s) (su_pid s) (su_confirmed s) (su_lifetime s) (su_expires s) ts
    (su_dirty s) (su_initial s) (su_running s) (su_closed s).
Definition setExpires (at_ : option Z) (s : covSub) : covSub :=
  mkCovSub (su_kind s) (su_key s) (su_to s) (su_dest s) (su_recipient s) (su_pid s) (su_confirmed s) (su_lifetime s) at_ (su_targets s)
    (su_dirty s) (su_initial s) (su_running s) (su_closed s).
Definition setFlags (dirty initial running : bool) (s : covSub) : covSub :=
  mkCovSub (su_kind s) (su_key s) (su_to s) (su_dest s) (su_recipient s) (su_pid s) (su_confirmed s) (su_lifetime s) (su_expires s) (su_targets s)
    dirty initial running (su_closed s).

(** An update through the pointer [p]. *)
Definition withSub (p : Z) (f : covSub -> covSub) (e : covEngine) : covEngine :=
  mkCovEngine (ce_subs e) (alter f p (ce_heap e)) (ce_next e).

(** ** Keys *)
Section Keys.
Context (ipv6String : bytes -> bytes -> Z -> string).

Definition kindNumber (k : subKind) : Z := match k with subObject => 0 | subProperty => 1 | subMultiple => 2 end.
Definition ObjectIdentifier_String (id : ObjectIdentifier) : string := decimal (oid_Type id) +:+ String ":"%char (decimal (oid_Instance id)).
Definition subKey (kind : subKind) (p : peer) (pid : Z) (obj : ObjectIdentifier) (prop : option PropertyReference) : string :=
  let k := decimal (kindNumber kind) +:+ String "|"%char (Endpoint_String ipv6String (p_origin p) +:+ String "|"%char (Address_String (p_source p) +:+
    String "|"%char (decimal pid +:+ String "|"%char (ObjectIdentifier_String obj)))) in
  match prop with
  | None => k
  | Some r =>
      let k := k +:+ String "|"%char (decimal (pr_Identifier r)) in
      match pr_ArrayIndex r with
      | Some i => k +:+ String "["%char (decimal i +:+ "]")
      | None => k
      end
  end.
End Keys.

(** ** The table *)
Definition errCOVNotSupported : error := ErrResponse ErrorClassObject ErrorCodeOptionalFunctionalityNotSupported.
Definition errCOVNoSpace : error := ErrResponse ErrorClassResources ErrorCodeNoSpaceToAddListElement.
Definition errCOVLifetime : error := ErrResponse ErrorClassServices ErrorCodeParameterOutOfRange.

(** [upsert]; the pointer is new, its subscription [sub]. *)
Definition upsert (cfg : covConfig) (now : Z) (sub : covSub) (e : covEngine) : result (Z * covEngine) :=
  if (cc_maxLifetime cfg >? 0) && ((su_lifetime sub =? 0) || (su_lifetime sub * second >? cc_maxLifetime cfg)) then Err errCOVLifetime
  else
    let sub := if su_lifetime sub >? 0 then setExpires (Some (now + su_lifetime sub * second)) sub else sub in
    let p := ce_next e in
    match ce_subs e !! su_key sub with
    | Some old => Ok (p, mkCovEngine (<[su_key sub := p]> (ce_subs e)) (<[p := sub]> (alter closeSub old (ce_heap e))) (p + 1))
    | None =>
        if Z.of_nat (size (ce_subs e)) >=? cc_maxCOV cfg then Err errCOVNoSpace
        else Ok (p, mkCovEngine (<[su_key sub := p]> (ce_subs e)) (<[p := sub]> (ce_heap e)) (p + 1))
    end.

Definition cancel (key : string) (e : covEngine) : covEngine :=
  match ce_subs e !! key with
  | Some p => mkCovEngine (delete key (ce_subs e)) (alter closeSub p (ce_heap e)) (ce_next e)
  | None => e
  end.

(** Loops over the table: those of its subscriptions that [gone] says are
    closed and leave it, the others updated. *)
Definition sweep (f : covSub -> covSub * bool) (e : covEngine) : covEngine :=
  let inTable (p : Z) (s : covSub) : bool := bool_decide (ce_subs e !! su_key s = Some p) in
  let gone (p : Z) : bool := match ce_heap e !! p with Some s => snd (f s) | None => false end in
  mkCovEngine (filter (fun kp => gone (snd kp) = false) (ce_subs e))
    (map_imap (fun p s => Some (if inTable p s then let (s', out) := f s in if out then closeSub s' else s' else s)) (ce_heap e)) (ce_next e).

Definition expired (now : Z) (s : covSub) : bool := match su_expires s with Some at_ => negb (now <? at_) | None => false end.
Definition covExpire (now : Z) : covEngine -> covEngine := sweep (fun s => (s, expired now s)).

Definition dropObject (id : ObjectIdentifier) (s : covSub) : covSub * bool :=
  let kept := List.filter (fun t => negb (bool_decide (tg_obj t = id))) (su_targets s) in
  (setTargets kept s, len kept =? 0).
Definition objectRemoved (id : ObjectIdentifier) : covEngine -> covEngine := sweep (dropObject id).

Definition covCount (e : covEngine) : Z := Z.of_nat (size (ce_subs e)).

(** [close] *)
Definition covClose (e : covEngine) : covEngine := sweep (fun s => (s, true)) e.

(** [kick] of the pointer [p]: the engine, and whether a goroutine starts. *)
Definition kick (p : Z) (initial : bool) (e : covEngine) : covEngine * bool :=
  match ce_heap e !! p with
  | None => (e, false)
  | Some s =>
      if su_closed s then (e, false)
      else (withSub p (setFlags true (su_initial s || initial) true) e, negb (su_running s))
  end.

(** [changed]: the subscriptions on the object are kicked; those whose
    goroutine starts are returned. The order of the table does not matter. *)
Definition monitors (id : ObjectIdentifier) (s : covSub) : bool := existsb (fun t => bool_decide (tg_obj t = id)) (su_targets s).
Definition hits (id : ObjectIdentifier) (e : covEngine) : list Z :=
  List.filter (fun p => match ce_heap e !! p with Some s => monitors id s | None => false end) (map snd (map_to_list (ce_subs e))).
Definition changed (c : Change) (e : covEngine) : covEngine * list Z :=
  fold_left (fun '(e, started) p => let (e, s) := kick p false e in (e, if s then started ++ [p] else started)) (hits (ch_Object c) e) (e, []).

(** The head of the loop of [run]: [None] when the goroutine ends. *)
Definition runTake (p : Z) (e : covEngine) : covEngine * option bool :=
  match ce_heap e !! p with
  | None => (e, None)
  | Some s =>
      if negb (su_dirty s) || su_closed s then (withSub p (setFlags (su_dirty s) (su_initial s) false) e, None)
      else (withSub p (setFlags false false (su_running s)) e, Some (su_initial s))
  end.

(** ** Evaluation *)

(** [last] is what was sent, if anything. *)
Definition significant (ref : covRef) (last v : ApplicationValue) (objInc : Z) (analog : bool) : bool :=
  if bool_decide (av_Kind v = ValueReal) && bool_decide (av_Kind last = ValueReal) then
    let inc :=
      match rf_increment ref with
      | Some inc => inc
      | None => if analog && (pr_Identifier (rf_prop ref) =? PropertyPresentValue) then objInc else 0
      end in
    let d := f32_abs (f32_sub (f32 (av_Real v)) (f32 (av_Real last))) in
    if f32_eqb (f32 inc) (S754_zero false) then negb (f32_eqb d (S754_zero false)) else f32_leb (f32 inc) d
  else
    match AppendApplicationValue [] v, AppendApplicationValue [] last with
    | Ok a, Ok b => negb (bool_decide (a = b))
    | _, _ => true
    end.

(** The time remaining, in seconds rounded up. *)
Definition remaining (expires : option Z) (now : Z) : Z :=
  match expires with
  | Some at_ => if timeSub at_ now >? 0 then u32 (Ceil (Seconds (timeSub at_ now))) else 0
  | None => 0
  end.

(** A reference and what evaluation read: its value, if it could be read,
    and whether that must be notified. *)
Record reading := mkReading { rd_ref : covRef; rd_value : option ApplicationValue; rd_fired : bool }.

Inductive evalOutcome :=
| evQuiet
| evMuted
| evNothing
| evUnencodable (e : error)
| evNotify (confirmed : bool) (service : Z) (payload : bytes).

Definition ServiceConfirmedCOVNotification : Z := 1.
Definition ServiceConfirmedCOVNotificationMultiple : Z := 31.
Definition ServiceUnconfirmedCOV : Z := 2.
Definition ServiceUnconfirmedCOVNotificationMultiple : Z := 11.

Section Evaluate.
Context {O : Type} `{!ObjectOps O} {LT : LocalTime} `{!CovOps O}.
Implicit Types (d : Device O).

Definition timeOfDay (t : Z) : Time := timeOf t.
Definition dateOfDay (t : Z) : Date := dateOf t.

(** [COVIncrement] of an entry; the Device reports none. *)
Definition covIncrementOf (o : entry O) : Z * bool :=
  match o with
  | anObject o => default (0, false) (COVIncrement o)
  | theDevice => (0, false)
  end.
Definition isCOVReporter (o : entry O) : bool := match o with anObject o => bool_decide (is_Some (COVIncrement o)) | theDevice => false end.

Definition evalRef d (now : Z) (o : entry O) (ref : covRef) : reading :=
  match entryRead d o (rf_prop ref) with
  | Err _ => mkReading ref None false
  | Ok v =>
      let (inc, analog) := covIncrementOf o in
      let fired := match rf_last ref with Some last => significant ref last v inc analog | None => true end in
      mkReading (mkCovRef (rf_prop ref) (rf_increment ref) (rf_timestamped ref) (rf_last ref) (if fired then timeOfDay now else rf_changedAt ref)) (Some v) fired
  end.

(** A target after evaluation read it; one whose object is gone is left as it
    is and not notified. *)
Record evaluated := mkEvaluated { ed_obj : ObjectIdentifier; ed_readings : option (list reading); ed_refs : list covRef }.
Definition evalTarget d (now : Z) (t : covTarget) : evaluated :=
  mkEvaluated (tg_obj t) (match Object d (tg_obj t) with Some o => Some (map (evalRef d now o) (tg_refs t)) | None => None end) (tg_refs t).

(** The references afterwards; [sent] updates [last]. *)
Definition refAfter (sent : bool) (r : reading) : covRef :=
  let ref := rd_ref r in
  match rd_value r with
  | Some v => if sent then mkCovRef (rf_prop ref) (rf_increment ref) (rf_timestamped ref) (Some v) (rf_changedAt ref) else ref
  | None => ref
  end.
Definition targetAfter (sent : bool) (e : evaluated) : covTarget :=
  mkCovTarget (ed_obj e) (match ed_readings e with Some rs => map (refAfter sent) rs | None => ed_refs e end).

(** [send]: the objects and their values *)
Definition covValues : Type := list (covRef * ApplicationValue).
Definition readValue (r : reading) : option (covRef * ApplicationValue) :=
  match rd_value r with Some v => Some (rd_ref r, v) | None => None end.
Definition sendValues (e : evaluated) : option (ObjectIdentifier * covValues) :=
  match ed_readings e with Some rs => Some (ed_obj e, omap readValue rs) | None => None end.
Definition sendOf (evs : list evaluated) : list (ObjectIdentifier * covValues) := omap sendValues evs.

Definition multipleNote d (now : Z) (s : covSub) (send : list (ObjectIdentifier * covValues)) : COVNotificationMultiple :=
  mkCOVNotificationMultiple (su_pid s) (Identifier d) (remaining (su_expires s) now) (Some (mkDateTime (dateOfDay now) (timeOfDay now)))
    (map (fun '(obj, vals) => mkCOVMultipleObject obj
      (map (fun '(ref, v) => mkCOVMultipleValue (rf_prop ref) v (if rf_timestamped ref then Some (rf_changedAt ref) else None) None) vals)) send).
Definition singleNote d (now : Z) (s : covSub) (obj : ObjectIdentifier) (vals : covValues) : COVNotification :=
  mkCOVNotification (su_pid s) (Identifier d) obj (remaining (su_expires s) now)
    (map (fun '(ref, v) => mkPropertyValue (rf_prop ref) v None) vals).

Definition notification d (now : Z) (s : covSub) (send : list (ObjectIdentifier * covValues)) : evalOutcome :=
  let outcome (payload : result bytes) (confirmedSvc unconfirmedSvc : Z) :=
    match payload with
    | Err e => evUnencodable e
    | Ok payload => evNotify (su_confirmed s) (if su_confirmed s then confirmedSvc else unconfirmedSvc) payload
    end in
  if bool_decide (su_kind s = subMultiple) then
    outcome (EncodeCOVNotificationMultiple (multipleNote d now s send)) ServiceConfirmedCOVNotificationMultiple ServiceUnconfirmedCOVNotificationMultiple
  else
    match send with
    | [] => evNothing
    | (obj, vals) :: _ => outcome (EncodeCOVNotification (singleNote d now s obj vals)) ServiceConfirmedCOVNotification ServiceUnconfirmedCOV
    end.

(** [evaluate]: what is sent, the subscription and the communication control
    state afterwards. *)
Definition evaluate d (now : Z) (dcc : dccState) (s : covSub) (initial : bool) : evalOutcome * covSub * dccState :=
  let evs := map (evalTarget d now) (su_targets s) in
  let trigger := initial || existsb (fun e => existsb rd_fired (default [] (ed_readings e))) evs in
  if negb trigger then (evQuiet, setTargets (map (targetAfter false) evs) s, dcc)
  else
    let (may, dcc) := mayInitiate now dcc in
    if negb may then (evMuted, setTargets (map (targetAfter false) evs) s, dcc)
    else (notification d now s (sendOf evs), setTargets (map (targetAfter true) evs) s, dcc).
End Evaluate.

(** ** The handlers *)
Section CovHandlers.
Context {O : Type} `{!ObjectOps O} {LT : LocalTime} `{!CovOps O}.
Context (cfg : serverConfig) (ccfg : covConfig) (ipv6String : bytes -> bytes -> Z -> string).
Implicit Types (d : Device O) (p : peer) (e : covEngine).

(** A reference that was not notified yet. *)
Definition newRef (prop : PropertyReference) (increment : option Z) (timestamped : bool) : covRef :=
  mkCovRef prop increment timestamped None (mkTime 0 0 0 0).
Definition newSub (kind : subKind) (key : string) p (pid : Z) (confirmed : bool) (lifetime : Z) (targets : list covTarget) : covSub :=
  mkCovSub kind key (p_immediate p) (p_source p) p pid confirmed lifetime None targets false false false false.

(** A handler's reply, and the subscription that the hook [after] of the
    result kicks for its initial notification. *)
Definition covReply : Type := svcResult * option Z * covEngine.

Definition startSubscription (now : Z) (sub : covSub) e : covReply :=
  match upsert ccfg now sub e with
  | Err err => (failWith err, None, e)
  | Ok (ptr, e) => (ack, Some ptr, e)
  end.

Definition subscribeCOV d (now : Z) (payload : bytes) p e : covReply :=
  match DecodeSubscribeCOV payload (sc_limits cfg) with
  | Err err => (rejectFor err, None, e)
  | Ok r =>
      match Object d (sb_MonitoredObject r) with
      | None => (failWith ErrUnknownObject, None, e)
      | Some o =>
          if negb (isCOVReporter o) then (failWith errCOVNotSupported, None, e)
          else
            let id := entryIdentifier d o in
            let key := subKey ipv6String subObject p (sb_ProcessIdentifier r) id None in
            if sb_Cancellation r then (ack, None, cancel key e)
            else
              startSubscription now (newSub subObject key p (sb_ProcessIdentifier r) (sb_IssueConfirmed r) (sb_Lifetime r)
                [mkCovTarget id [newRef (mkPropertyReference PropertyPresentValue None) None false;
                                 newRef (mkPropertyReference PropertyStatusFlags None) None false]]) e
      end
  end.

Definition statusFlagsRef : PropertyReference := mkPropertyReference PropertyStatusFlags None.

Definition subscribeCOVProperty d (now : Z) (payload : bytes) p e : covReply :=
  match DecodeSubscribeCOVProperty payload (sc_limits cfg) with
  | Err err => (rejectFor err, None, e)
  | Ok r =>
      let base := sp_Base r in
      match Object d (sb_MonitoredObject base) with
      | None => (failWith ErrUnknownObject, None, e)
      | Some o =>
          let id := entryIdentifier d o in
          let key := subKey ipv6String subProperty p (sb_ProcessIdentifier base) id (Some (sp_Property r)) in
          if sb_Cancellation base then (ack, None, cancel key e)
          else
            match entryRead d o (sp_Property r) with
            | Err err => (failWith err, None, e)
            | Ok _ =>
                if match sp_COVIncrement r with Some inc => f32_neg inc || isNaN inc | None => false end then (failWith ErrValueOutOfRange, None, e)
                else
                  let refs := newRef (sp_Property r) (sp_COVIncrement r) false ::
                    (if negb (pr_Identifier (sp_Property r) =? PropertyStatusFlags) && isOk (entryRead d o statusFlagsRef)
                     then [newRef statusFlagsRef None false] else []) in
                  startSubscription now (newSub subProperty key p (sb_ProcessIdentifier base) (sb_IssueConfirmed base) (sb_Lifetime base)
                    [mkCovTarget id refs]) e
            end
      end
  end.

Definition firstProp (spec : COVMultipleSubscription) : PropertyReference :=
  match cs_Properties spec with r :: _ => cr_Property r | [] => mkPropertyReference 0 None end.

(** [covMultipleError.encode] *)
Definition encodeCovMultipleError (err : Z * Z) (obj : ObjectIdentifier) (prop : PropertyReference) : result bytes :=
  let* errBody := EncodeBACnetError [] (fst err) (snd err) in
  let dst := [0x0E] ++ errBody in
  let dst := dst ++ [0x0F; 0x1E] in
  let* dst := AppendContextObjectID dst 0 obj in
  let dst := dst ++ [0x1E] in
  let* dst := AppendContextUnsigned dst 0 (pr_Identifier prop) in
  let* dst :=
    match pr_ArrayIndex prop with
    | Some i => AppendContextUnsigned dst 1 i
    | None => Ok dst
    end in
  let dst := dst ++ [0x1F; 0x2E] in
  let dst := dst ++ errBody in
  Ok (dst ++ [0x2F; 0x1F]).

Definition covMultipleFail (e : error) (obj : ObjectIdentifier) (prop : PropertyReference) : svcResult :=
  fail (bodyError (encodeCovMultipleError (AsError e) obj prop)).

(** The references of one specification, or the first failure. *)
Fixpoint multipleRefs d (o : entry O) (obj : ObjectIdentifier) (props : list COVPropertyReference) : svcResult + list covRef :=
  match props with
  | [] => inr []
  | ref :: props =>
      match entryRead d o (cr_Property ref) with
      | Err err => inl (covMultipleFail err obj (cr_Property ref))
      | Ok _ =>
          match multipleRefs d o obj props with
          | inl r => inl r
          | inr refs => inr (newRef (cr_Property ref) (cr_COVIncrement ref) (cr_Timestamped ref) :: refs)
          end
      end
  end.
Fixpoint multipleTargets d (specs : list COVMultipleSubscription) : svcResult + list covTarget :=
  match specs with
  | [] => inr []
  | spec :: specs =>
      match Object d (cs_Object spec) with
      | None => inl (covMultipleFail ErrUnknownObject (cs_Object spec) (firstProp spec))
      | Some o =>
          match multipleRefs d o (cs_Object spec) (cs_Properties spec) with
          | inl r => inl r
          | inr refs =>
              match multipleTargets d specs with
              | inl r => inl r
              | inr targets => inr (mkCovTarget (entryIdentifier d o) refs :: targets)
              end
          end
      end
  end.

Definition subscribeCOVPropertyMultiple d (now : Z) (payload : bytes) p e : covReply :=
  match DecodeSubscribeCOVPropertyMultiple payload (sc_limits cfg) with
  | Err err => (rejectFor err, None, e)
  | Ok r =>
      let key := subKey ipv6String subMultiple p (sm_ProcessIdentifier r) (mkObjectID 0 0) None in
      if sm_Cancellation r then (ack, None, cancel key e)
      else
        match multipleTargets d (sm_Subscriptions r) with
        | inl res => (res, None, e)
        | inr targets =>
            startSubscription now (newSub subMultiple key p (sm_ProcessIdentifier r) (sm_IssueConfirmed r) (default 0 (sm_LifetimeRemaining r)) targets) e
        end
  end.
End CovHandlers.

(** ** Active_COV_Subscriptions *)
Definition ctxConstructed (tag : Z) (els : list Element) : Element := mkElement true tag false false (constructedValue els).
Definition ctxUnsigned (tag u : Z) : Element := mkElement true tag false false (UnsignedValue u).
Definition ctxBool (tag : Z) (b : bool) : Element := mkElement true tag false false (BoolValue b).
Definition ctxReal (tag f : Z) : Element := mkElement true tag false false (RealValue f).
Definition ctxObjectID (tag : Z) (id : ObjectIdentifier) : Element := mkElement true tag false false (ObjectIDValue id).

Definition recipientAddress (s : covSub) : result (Z * bytes) :=
  if bool_decide (a_scope (su_dest s) = AddressRemoteStation) then Ok (a_network (su_dest s), MACBytes (a_mac (su_dest s)))
  else let* mac := LinkMAC (su_to s) in Ok (0, match mac with Some mac => MACBytes mac | None => [] end).

(** The reference [i] of a subscription is one that the subscriber asked
    for. *)
Definition monitored (kind : subKind) (i : nat) (ref : covRef) : bool :=
  match kind with
  | subObject => pr_Identifier (rf_prop ref) =? PropertyPresentValue
  | subProperty => Nat.eqb i 0
  | subMultiple => true
  end.

Definition activeRef (network : Z) (mac : bytes) (s : covSub) (left : Z) (obj : ObjectIdentifier) (ref : covRef) : list Element :=
  let recipient := [ctxConstructed 0 [ctxConstructed 1 [item (UnsignedValue network); item (octetsValue ValueOctetString mac)]]; ctxUnsigned 1 (su_pid s)] in
  let mpr := [ctxObjectID 0 obj; ctxUnsigned 1 (pr_Identifier (rf_prop ref))] ++
    match pr_ArrayIndex (rf_prop ref) with Some i => [ctxUnsigned 2 i] | None => [] end in
  [ctxConstructed 0 recipient; ctxConstructed 1 mpr; ctxBool 2 (su_confirmed s); ctxUnsigned 3 left] ++
    match rf_increment ref with Some inc => [ctxReal 4 inc] | None => [] end.

(** The seconds remaining, as a uint64. *)
Definition remaining64 (expires : option Z) (now : Z) : Z :=
  match expires with
  | Some at_ => if timeSub at_ now >? 0 then uwrap 64 (Ceil (Seconds (timeSub at_ now))) else 0
  | None => 0
  end.

Definition activeSub (now : Z) (s : covSub) : result (list Element) :=
  let* (network, mac) := recipientAddress s in
  Ok (flat_map (fun t => concat (imap (fun i ref =>
      if monitored (su_kind s) i ref then activeRef network mac s (remaining64 (su_expires s) now) (tg_obj t) ref else []) (tg_refs t))) (su_targets s)).

Definition byKey (a b : covSub) : Prop := String.le (su_key a) (su_key b).
#[export] Instance byKey_dec a b : Decision (byKey a b).
Proof. unfold byKey. apply _. Defined.

Definition tableSubs (e : covEngine) : list covSub := omap (fun kp => ce_heap e !! snd kp) (map_to_list (ce_subs e)).
Fixpoint activeElements (now : Z) (subs : list covSub) : result (list Element) :=
  match subs with
  | [] => Ok []
  | s :: subs => let* els := activeSub now s in let* rest := activeElements now subs in Ok (els ++ rest)
  end.
Definition activeSubscriptions (now : Z) (e : covEngine) : result (list Element) := activeElements now (merge_sort byKey (tableSubs e)).
