(* ===== verification/CovSafety.v ===== *)
(** * The COV engine keeps its table and loses no change

    The table of subscriptions as an invariant of the operations of
    [CovEngine.v], and the engine in its surroundings as a step relation: the
    device changes and reports what it changed, the observer marks the
    subscriptions, their goroutines evaluate, requests come and subscriptions
    end, in any order. *)

From Stdlib Require Import ZArith Lia.
From stdpp Require Import base list gmap fin_maps fin_sets strings.
From S2P Require Import Prelude Value Ids Tags Access Address Endpoint ServerPacket Object Events Device PropertyValues CovCodecs CovMultiple CovEngine.
#[local] Open Scope Z_scope.

(** ** The table *)
Record engine_ok (maxCOV : Z) (e : covEngine) : Prop := {
  eo_table k p : ce_subs e !! k = Some p -> exists s, ce_heap e !! p = Some s /\ su_key s = k /\ su_closed s = false;
  eo_live p s : ce_heap e !! p = Some s -> su_closed s = false -> ce_subs e !! su_key s = Some p;
  eo_next p : is_Some (ce_heap e !! p) -> p < ce_next e;
  eo_size : Z.of_nat (size (ce_subs e)) <= Z.max 0 maxCOV
}.

Section Table.
Context (maxCOV : Z).
Implicit Types (e : covEngine) (s : covSub) (p : Z).

Lemma newCOVEngine_ok : engine_ok maxCOV newCOVEngine.
Proof. split; cbn; [intros k p H; by rewrite lookup_empty in H|intros p s H; by rewrite lookup_empty in H|intros p [s H]; by rewrite lookup_empty in H|].
  rewrite map_size_empty. lia. Qed.

(** An update that keeps the key and the end of a subscription. *)
Lemma withSub_ok p f e : (forall s, su_key (f s) = su_key s /\ su_closed (f s) = su_closed s) -> engine_ok maxCOV e -> engine_ok maxCOV (withSub p f e).
Proof.
  intros Hf [Ht Hl Hn Hs]. unfold withSub. split; cbn; [| | |done].
  - intros k q Hk. destruct (Ht _ _ Hk) as (s & Hq & Hkey & Hc). rewrite lookup_alter.
    destruct (decide (p = q)) as [->|]; [|by exists s]. exists (f s). rewrite Hq. destruct (Hf s) as [-> ->]. done.
  - intros q s Hq Hc. rewrite lookup_alter in Hq. destruct (decide (p = q)) as [->|]; [|by apply Hl].
    destruct (ce_heap e !! q) as [s0|] eqn:E; [|done]. injection Hq as <-. destruct (Hf s0) as [Hk Hc']. rewrite Hk. apply Hl; [done|congruence].
  - intros q [s Hq]. rewrite lookup_alter in Hq. apply Hn. destruct (decide (p = q)) as [->|]; [|by exists s]. destruct (ce_heap e !! q); [by eexists|done].
Qed.

Lemma cancel_ok key e : engine_ok maxCOV e -> engine_ok maxCOV (cancel key e).
Proof.
  intros He. unfold cancel. destruct (ce_subs e !! key) as [p|] eqn:Ep; [|done]. destruct He as [Ht Hl Hn Hs].
  destruct (Ht _ _ Ep) as (s & Hp & Hkey & Hc). split; cbn.
  - intros k q Hk. apply lookup_delete_Some in Hk as [Hne Hk]. destruct (Ht _ _ Hk) as (s' & Hq & Hk' & Hc').
    exists s'. split; [|done]. rewrite lookup_alter_ne; [done|]. intros <-. congruence.
  - intros q s' Hq Hc'. rewrite lookup_alter in Hq. destruct (decide (p = q)) as [<-|Hne].
    + rewrite Hp in Hq. by injection Hq as <-.
    + apply lookup_delete_Some. split; [|by apply Hl]. intros Hk. apply Hne. pose proof (Hl _ _ Hq Hc') as H. congruence.
  - intros q [s' Hq]. rewrite lookup_alter in Hq. apply Hn. destruct (decide (p = q)) as [<-|]; [by exists s|by exists s'].
  - rewrite map_size_delete_Some by eauto. lia.
Qed.

Lemma upsert_ok cfg now sub e p e' : cc_maxCOV cfg = maxCOV -> su_closed sub = false -> engine_ok maxCOV e ->
  upsert cfg now sub e = Ok (p, e') -> engine_ok maxCOV e'.
Proof.
  intros Hm Hc [Ht Hl Hn Hs]. unfold upsert. destruct (_ && _); [done|].
  set (sub' := if su_lifetime sub >? 0 then _ else sub).
  assert (su_key sub' = su_key sub /\ su_closed sub' = false) as [Hk' Hc'] by (unfold sub'; by destruct (_ >? 0)).
  assert (forall q s, ce_heap e !! q = Some s -> q <> ce_next e) as Hfresh by (intros q s Hq ->; specialize (Hn _ (ex_intro _ _ Hq)); lia).
  destruct (ce_subs e !! su_key sub') as [old|] eqn:Eo; [|destruct (_ >=? _) eqn:Es; [done|]]; intros [= <- <-]; split; cbn.
  - intros k q Hk. apply lookup_insert_Some in Hk as [[<- <-]|[Hne Hk]]; [exists sub'; by rewrite lookup_insert_eq|].
    destruct (Ht _ _ Hk) as (s & Hq & Hks & Hcs). exists s. split; [|done]. rewrite lookup_insert_ne by (by apply not_eq_sym, (Hfresh q s)).
    destruct (Ht _ _ Eo) as (so & Hso & Hko & _). rewrite lookup_alter_ne; [done|]. intros <-. congruence.
  - intros q s Hq Hcs. apply lookup_insert_Some in Hq as [[<- <-]|[Hne Hq]]; [by rewrite lookup_insert_eq|].
    rewrite lookup_alter in Hq. destruct (decide (old = q)) as [<-|Ho].
    + destruct (ce_heap e !! old); [|done]. by injection Hq as <-.
    + rewrite lookup_insert_ne; [by apply Hl|]. intros Hk. apply Ho. pose proof (Hl _ _ Hq Hcs) as H. congruence.
  - intros q Hq. apply lookup_insert_is_Some in Hq as [<-|[Hne [s Hq]]]; [lia|]. rewrite lookup_alter in Hq.
    enough (q < ce_next e) by lia. apply Hn. destruct (decide (old = q)) as [->|]; [destruct (ce_heap e !! q); [by eexists|done]|by exists s].
  - by rewrite map_size_insert_Some by eauto.
  - intros k q Hk. apply lookup_insert_Some in Hk as [[<- <-]|[Hne Hk]]; [exists sub'; by rewrite lookup_insert_eq|].
    destruct (Ht _ _ Hk) as (s & Hq & Hks & Hcs). exists s. split; [|done]. by rewrite lookup_insert_ne by (by apply not_eq_sym, (Hfresh q s)).
  - intros q s Hq Hcs. apply lookup_insert_Some in Hq as [[<- <-]|[Hne Hq]]; [by rewrite lookup_insert_eq|].
    rewrite lookup_insert_ne; [by apply Hl|]. intros Hk. pose proof (Hl _ _ Hq Hcs) as H. congruence.
  - intros q Hq. apply lookup_insert_is_Some in Hq as [<-|[Hne Hq]]; [lia|]. specialize (Hn _ Hq). lia.
  - rewrite map_size_insert_None by done. bool_to_prop. lia.
Qed.

(** What a sweep does to a subscription: nothing outside the table, else
    [f], and the end of it when [f] says so. *)
Definition swept (f : covSub -> covSub * bool) e p s : covSub :=
  if bool_decide (ce_subs e !! su_key s = Some p) then if snd (f s) then closeSub (fst (f s)) else fst (f s) else s.
Lemma sweep_heap f e p : ce_heap (sweep f e) !! p = swept f e p <$> ce_heap e !! p.
Proof.
  unfold sweep. cbn. rewrite map_lookup_imap. destruct (ce_heap e !! p) as [s|]; [|done]. cbn. unfold swept.
  destruct (bool_decide _); [|done]. by destruct (f s) as [s' []].
Qed.

Lemma sweep_ok f e : (forall s, su_key (fst (f s)) = su_key s /\ su_closed (fst (f s)) = su_closed s) -> engine_ok maxCOV e -> engine_ok maxCOV (sweep f e).
Proof.
  intros Hf [Ht Hl Hn Hs].
  assert (forall k p, ce_subs (sweep f e) !! k = Some p <->
    ce_subs e !! k = Some p /\ match ce_heap e !! p with Some s => snd (f s) | None => false end = false) as Hsubs by
    (intros k p; unfold sweep; cbn; by rewrite map_lookup_filter_Some).
  split.
  - intros k p Hk. apply Hsubs in Hk as [Hk Hg]. destruct (Ht _ _ Hk) as (s & Hp & Hkey & Hc). rewrite Hp in Hg.
    exists (fst (f s)). destruct (Hf s) as [Hfk Hfc]. split; [|by rewrite Hfk, Hfc].
    rewrite sweep_heap, Hp. cbn. unfold swept. by rewrite Hkey, bool_decide_true, Hg by done.
  - intros p s' Hp Hc. rewrite sweep_heap in Hp. destruct (ce_heap e !! p) as [s|] eqn:E; [|done]. cbn in Hp. injection Hp as <-.
    unfold swept in *. case_bool_decide as Et.
    + destruct (snd (f s)) eqn:Eg; [done|]. destruct (Hf s) as [-> _]. apply Hsubs. by rewrite E.
    + by apply Hl in E.
  - intros p [s Hp]. rewrite sweep_heap in Hp. unfold sweep; cbn. apply Hn. destruct (ce_heap e !! p); [by eexists|done].
  - unfold sweep; cbn. pose proof (map_size_filter (fun kp => match ce_heap e !! snd kp with Some s => snd (f s) | None => false end = false) (ce_subs e)). lia.
Qed.

Lemma kick_ok p initial e : engine_ok maxCOV e -> engine_ok maxCOV (fst (kick p initial e)).
Proof.
  intros He. unfold kick. destruct (ce_heap e !! p) as [s|]; [|done]. destruct (su_closed s); [done|]. by apply withSub_ok.
Qed.
Lemma runTake_ok p e : engine_ok maxCOV e -> engine_ok maxCOV (fst (runTake p e)).
Proof.
  intros He. unfold runTake. destruct (ce_heap e !! p) as [s|]; [|done]. destruct (_ || _); by apply withSub_ok.
Qed.
End Table.

(** ** The engine in its surroundings *)
Section World.
Context {O : Type} `{!ObjectOps O} {LT : LocalTime} `{!CovOps O}.
Context (ccfg : covConfig).

(** The properties whose changes the objects report. *)
Context (tracked : ObjectIdentifier -> PropertyReference -> Prop).
Implicit Types (d : Device O) (s : covSub) (t : covTarget) (p : Z).

(** What evaluation reads of an object. *)
Definition readingOf d (id : ObjectIdentifier) (ref : PropertyReference) : option (result ApplicationValue * (Z * bool)) :=
  match Object d id with
  | Some o => Some (entryRead d o ref, covIncrementOf o)
  | None => None
  end.

(** The device became [d'] and told its observers [cs]. *)
Definition reported d (cs : list Change) d' : Prop :=
  forall id ref, tracked id ref -> (forall c, c ∈ cs -> ch_Object c <> id) -> readingOf d' id ref = readingOf d id ref.

(** A device with changes it did not yet tell its observer, the engine, the
    kicks to come - of the observer, or initial ones after a reply -, the
    goroutines at the head of their loops and those that evaluate. [w_sent]
    is every notification sent; [w_lost] are the subscriptions whose last
    attempt to notify was muted or whose initial kick was lost with the reply,
    [w_garbled] those that had values which cannot be encoded. *)
Record world := mkWorld {
  w_device : Device O; w_dcc : dccState; w_engine : covEngine; w_changes : list Change; w_kicks : list (Z * bool);
  w_runners : gset Z; w_evals : gmap Z bool; w_lost : gset Z; w_garbled : gset Z; w_sent : list (Z * bytes) }.

Definition freshSub s : Prop :=
  su_dirty s = false /\ su_running s = false /\ su_closed s = false /\ (su_kind s <> subMultiple -> (length (su_targets s) <= 1)%nat) /\
  forall t ref, t ∈ su_targets s -> ref ∈ tg_refs t -> rf_last ref = None.
Definition lostAfter (out : evalOutcome) p (lost : gset Z) : gset Z :=
  match out with
  | evMuted => {[ p ]} ∪ lost
  | evNotify _ _ _ => lost ∖ {[ p ]}
  | evQuiet | evNothing | evUnencodable _ => lost
  end.
Definition garbledAfter (out : evalOutcome) p (garbled : gset Z) : gset Z :=
  match out with evUnencodable _ => {[ p ]} ∪ garbled | _ => garbled end.
Definition sentAfter (out : evalOutcome) p (sent : list (Z * bytes)) : list (Z * bytes) :=
  match out with evNotify _ _ payload => sent ++ [(p, payload)] | _ => sent end.

(** What comes from outside: a change of the device, requests, the end of
    subscriptions, a reply that could not be sent. *)
Inductive external : world -> world -> Prop :=
| x_change d dcc e changes kicks runners evals lost garbled sent cs d' : reported d cs d' ->
    external (mkWorld d dcc e changes kicks runners evals lost garbled sent) (mkWorld d' dcc e (changes ++ cs) kicks runners evals lost garbled sent)
| x_subscribe d dcc e changes kicks runners evals lost garbled sent now sub p e' : freshSub sub -> upsert ccfg now sub e = Ok (p, e') ->
    external (mkWorld d dcc e changes kicks runners evals lost garbled sent) (mkWorld d dcc e' changes (kicks ++ [(p, true)]) runners evals lost garbled sent)
| x_replyLost d dcc e changes l1 p l2 runners evals lost garbled sent :
    external (mkWorld d dcc e changes (l1 ++ (p, true) :: l2) runners evals lost garbled sent) (mkWorld d dcc e changes (l1 ++ l2) runners evals ({[ p ]} ∪ lost) garbled sent)
| x_cancel d dcc e changes kicks runners evals lost garbled sent key :
    external (mkWorld d dcc e changes kicks runners evals lost garbled sent) (mkWorld d dcc (cancel key e) changes kicks runners evals lost garbled sent)
| x_expire d dcc e changes kicks runners evals lost garbled sent now :
    external (mkWorld d dcc e changes kicks runners evals lost garbled sent) (mkWorld d dcc (covExpire now e) changes kicks runners evals lost garbled sent)
| x_removed d dcc e changes kicks runners evals lost garbled sent id :
    external (mkWorld d dcc e changes kicks runners evals lost garbled sent) (mkWorld d dcc (objectRemoved id e) changes kicks runners evals lost garbled sent)
| x_close d dcc e changes kicks runners evals lost garbled sent :
    external (mkWorld d dcc e changes kicks runners evals lost garbled sent) (mkWorld d dcc (covClose e) changes kicks runners evals lost garbled sent)
| x_control d dcc e changes kicks runners evals lost garbled sent dcc' :
    external (mkWorld d dcc e changes kicks runners evals lost garbled sent) (mkWorld d dcc' e changes kicks runners evals lost garbled sent).

(** What the engine does by itself. *)
Inductive internal : world -> world -> Prop :=
| i_changed d dcc e c changes kicks runners evals lost garbled sent :
    internal (mkWorld d dcc e (c :: changes) kicks runners evals lost garbled sent)
      (mkWorld d dcc e changes (kicks ++ map (fun p => (p, false)) (hits (ch_Object c) e)) runners evals lost garbled sent)
| i_kick d dcc e changes l1 p initial l2 runners evals lost garbled sent e' starts : kick p initial e = (e', starts) ->
    internal (mkWorld d dcc e changes (l1 ++ (p, initial) :: l2) runners evals lost garbled sent)
      (mkWorld d dcc e' changes (l1 ++ l2) (if starts : bool then {[ p ]} ∪ runners else runners) evals lost garbled sent)
| i_ends d dcc e changes kicks runners evals lost garbled sent p e' : p ∈ runners -> runTake p e = (e', None) ->
    internal (mkWorld d dcc e changes kicks runners evals lost garbled sent) (mkWorld d dcc e' changes kicks (runners ∖ {[ p ]}) evals lost garbled sent)
| i_takes d dcc e changes kicks runners evals lost garbled sent p e' initial : p ∈ runners -> runTake p e = (e', Some initial) ->
    internal (mkWorld d dcc e changes kicks runners evals lost garbled sent) (mkWorld d dcc e' changes kicks (runners ∖ {[ p ]}) (<[p := initial]> evals) lost garbled sent)
| i_evaluates d dcc e changes kicks runners evals lost garbled sent p initial s now out s' dcc' :
    evals !! p = Some initial -> ce_heap e !! p = Some s -> evaluate d now dcc s initial = (out, s', dcc') ->
    internal (mkWorld d dcc e changes kicks runners evals lost garbled sent)
      (mkWorld d dcc' (withSub p (fun _ => s') e) changes kicks ({[ p ]} ∪ runners) (delete p evals) (lostAfter out p lost) (garbledAfter out p garbled) (sentAfter out p sent)).

Inductive reachable : world -> Prop :=
| reach_init d dcc : reachable (mkWorld d dcc newCOVEngine [] [] ∅ ∅ ∅ ∅ [])
| reach_external w w' : reachable w -> external w w' -> reachable w'
| reach_internal w w' : reachable w -> internal w w' -> reachable w'.

Definition quiescent (w : world) : Prop := w_changes w = [] /\ w_kicks w = [] /\ w_runners w = ∅ /\ w_evals w = ∅.

(** Every value that can be read was notified, or differs from the one last
    notified by less than the increment. *)
Definition settled d t : Prop :=
  forall ref, ref ∈ tg_refs t -> tracked (tg_obj t) (rf_prop ref) -> forall v inc analog, readingOf d (tg_obj t) (rf_prop ref) = Some (Ok v, (inc, analog)) ->
    exists last, rf_last ref = Some last /\ (last = v \/ significant ref last v inc analog = false).

(** A notification that carries, for the subscriber's process, the value [v]
    of a property. *)
Definition carries (kind : subKind) (pid : Z) (payload : bytes) (obj : ObjectIdentifier) (ref : PropertyReference) (v : ApplicationValue) : Prop :=
  if bool_decide (kind = subMultiple) then
    exists note, EncodeCOVNotificationMultiple note = Ok payload /\ nm_ProcessIdentifier note = pid /\
      exists o mv, o ∈ nm_Objects note /\ mo_Object o = obj /\ mv ∈ mo_Values o /\ mv_Property mv = ref /\ mv_Value mv = v
  else
    exists note, EncodeCOVNotification note = Ok payload /\ cn_ProcessIdentifier note = pid /\
      cn_MonitoredObject note = obj /\ mkPropertyValue ref v None ∈ cn_Values note.
Definition told (sent : list (Z * bytes)) p s t ref last : Prop :=
  exists payload, (p, payload) ∈ sent /\ carries (su_kind s) (su_pid s) payload (tg_obj t) (rf_prop ref) last.

(** *** Evaluation settles *)
Lemma evalRef_settled d now o ref sent v : entryRead d o (rf_prop ref) = Ok v ->
  let r := evalRef d now o ref in
  rf_prop (refAfter sent r) = rf_prop ref /\ rd_value r = Some v /\
  (sent = true -> rf_last (refAfter sent r) = Some v) /\
  (rd_fired r = false -> exists last, rf_last (refAfter sent r) = Some (if sent then v else last) /\ rf_last ref = Some last /\
     rf_increment (refAfter sent r) = rf_increment ref /\
     significant ref last v (fst (covIncrementOf o)) (snd (covIncrementOf o)) = false).
Proof.
  intros Hv. unfold evalRef. rewrite Hv. destruct (covIncrementOf o) as [inc analog]. cbn.
  split; [by destruct sent|]. split; [done|]. split; [by intros ->|].
  destruct (rf_last ref) as [last|]; [|done]. intros Hf. exists last. by destruct sent.
Qed.

Lemma significant_ref ref ref' last v inc analog : rf_prop ref' = rf_prop ref -> rf_increment ref' = rf_increment ref ->
  significant ref' last v inc analog = significant ref last v inc analog.
Proof. intros Hp Hi. unfold significant. by rewrite Hp, Hi. Qed.

Lemma evalRef_prop d now o ref sent : rf_prop (refAfter sent (evalRef d now o ref)) = rf_prop ref.
Proof. unfold evalRef. destruct (entryRead d o _); [|done]. destruct (covIncrementOf o). by destruct sent. Qed.

Lemma evalTarget_settled d now t sent : sent = true \/ existsb rd_fired (default [] (ed_readings (evalTarget d now t))) = false ->
  settled d (targetAfter sent (evalTarget d now t)).
Proof.
  intros Hq ref' Hin _ v inc analog. unfold evalTarget in *. cbn [targetAfter tg_obj tg_refs ed_obj ed_readings ed_refs] in *. unfold readingOf.
  destruct (Object d (tg_obj t)) as [o|]; [|done]. cbn [default] in *. rewrite map_map in Hin. apply list_elem_of_fmap in Hin as (ref & -> & Hin).
  rewrite evalRef_prop. intros [= Hv Hi]. destruct (evalRef_settled d now o ref sent v Hv) as (Hp & _ & Hs & Hf).
  destruct Hq as [->|Hq]; [exists v; split; [by apply Hs|by left]|]. cbn in Hq.
  destruct Hf as (last & Hl & Hl' & Hinc & Hsig).
  { apply not_true_iff_false. intros Hfire. apply not_true_iff_false in Hq. apply Hq.
    apply existsb_exists. exists (evalRef d now o ref). split; [|done]. apply in_map. by apply list_elem_of_In. }
  eexists. split; [exact Hl|]. destruct sent; [by left|]. right. rewrite (significant_ref ref) by done. rewrite Hi in Hsig. exact Hsig.
Qed.

Lemma evaluate_spec d now dcc s initial out s' dcc' : evaluate d now dcc s initial = (out, s', dcc') ->
  (exists ts, s' = setTargets ts s) /\ (out = evMuted \/ forall t, t ∈ su_targets s' -> settled d t).
Proof.
  unfold evaluate. cbv zeta. destruct (negb (initial || _)) eqn:Et.
  - intros [= <- <- <-]. split; [by eexists|]. right. intros t Hin. cbn in Hin. rewrite map_map in Hin.
    apply list_elem_of_fmap in Hin as (t0 & -> & Hin). apply evalTarget_settled. right. apply negb_true_iff, orb_false_iff in Et as [_ Et].
    apply not_true_iff_false. intros Hf. apply not_true_iff_false in Et. apply Et. apply existsb_exists.
    exists (evalTarget d now t0). split; [|done]. apply in_map. by apply list_elem_of_In.
  - destruct (mayInitiate now dcc) as [may dcc1]. destruct (negb may).
    + intros [= <- <- <-]. split; [by eexists|]. by left.
    + intros [= <- <- <-]. split; [by eexists|]. right. intros t Hin. cbn in Hin. rewrite map_map in Hin.
      apply list_elem_of_fmap in Hin as (t0 & -> & Hin). apply evalTarget_settled. by left.
Qed.

(** *** The invariant *)

(** Why a target is not forgotten. *)
Definition accounted (w : world) p s t : Prop :=
  su_dirty s = true \/ is_Some (w_evals w !! p) \/ (exists initial, (p, initial) ∈ w_kicks w) \/ p ∈ w_lost w \/
  (exists c, c ∈ w_changes w /\ ch_Object c = tg_obj t) \/ settled (w_device w) t.

Record world_ok (w : world) : Prop := {
  wo_engine : engine_ok (cc_maxCOV ccfg) (w_engine w);
  wo_running p s : ce_heap (w_engine w) !! p = Some s -> (su_running s = true <-> p ∈ w_runners w \/ is_Some (w_evals w !! p));
  wo_busy p : p ∈ w_runners w \/ is_Some (w_evals w !! p) -> is_Some (ce_heap (w_engine w) !! p);
  wo_apart p : p ∈ w_runners w -> w_evals w !! p = None;
  wo_dirty p s : ce_heap (w_engine w) !! p = Some s -> su_closed s = false -> su_dirty s = true -> su_running s = true;
  wo_accounted p s t : ce_heap (w_engine w) !! p = Some s -> su_closed s = false -> t ∈ su_targets s -> accounted w p s t
}.

Lemma accounted_mono w w' p s s' t : accounted w p s t -> su_dirty s' = su_dirty s -> w_device w' = w_device w -> w_evals w' = w_evals w ->
  w_kicks w ⊆ w_kicks w' -> w_lost w ⊆ w_lost w' -> w_changes w = w_changes w' -> accounted w' p s' t.
Proof.
  intros H Hd Hdev He Hk Hl Hc. unfold accounted in *. rewrite Hd, Hdev, He, <- Hc.
  destruct H as [H|[H|[(b & H)|[H|H]]]]; [by left|by right; left|do 2 right; left; exists b; by apply Hk|do 3 right; left; by apply Hl|by do 4 right].
Qed.

(** An operation of the table: what it leaves alive it leaves as it was, less
    some targets. *)
Definition keeps (e e' : covEngine) : Prop :=
  forall p, match ce_heap e !! p, ce_heap e' !! p with
  | Some s, Some s' => su_running s' = su_running s /\ su_dirty s' = su_dirty s /\
      (su_closed s' = false -> su_closed s = false /\ forall t, t ∈ su_targets s' -> t ∈ su_targets s)
  | None, None => True
  | _, _ => False
  end.

Lemma keeps_ok d dcc e changes kicks runners evals lost garbled sent e' lost' : keeps e e' -> engine_ok (cc_maxCOV ccfg) e' -> lost ⊆ lost' ->
  world_ok (mkWorld d dcc e changes kicks runners evals lost garbled sent) -> world_ok (mkWorld d dcc e' changes kicks runners evals lost' garbled sent).
Proof.
  intros Hk He' Hlost [He Hr Hb Ha Hd Hac]; cbn in *. split; cbn; [done| | |done| |].
  - intros p s' Hp. specialize (Hk p). rewrite Hp in Hk. destruct (ce_heap e !! p) as [s|] eqn:E; [|done].
    destruct Hk as (-> & _). by apply Hr.
  - intros p Hp. specialize (Hk p). destruct (Hb p Hp) as [s Hs]. rewrite Hs in Hk. destruct (ce_heap e' !! p); [by eexists|done].
  - intros p s' Hp Hc Hdirty. specialize (Hk p). rewrite Hp in Hk. destruct (ce_heap e !! p) as [s|] eqn:E; [|done].
    destruct Hk as (Hrun & Hdir & Hcl). destruct (Hcl Hc) as [Hc0 _]. rewrite Hrun. eapply Hd; [done|done|congruence].
  - intros p s' t Hp Hc Ht. specialize (Hk p). rewrite Hp in Hk. destruct (ce_heap e !! p) as [s|] eqn:E; [|done].
    destruct Hk as (Hrun & Hdir & Hcl). destruct (Hcl Hc) as [Hc0 Hts]. specialize (Hac p s t E Hc0 (Hts t Ht)).
    by eapply accounted_mono.
Qed.

Lemma keeps_cancel key e : keeps e (cancel key e).
Proof.
  intros p. unfold cancel. destruct (ce_subs e !! key) as [q|]; [|by destruct (ce_heap e !! p)]. cbn. rewrite lookup_alter.
  destruct (decide (q = p)) as [->|]; [|by destruct (ce_heap e !! p)]. by destruct (ce_heap e !! p).
Qed.
Lemma keeps_sweep f e : (forall s, su_running (fst (f s)) = su_running s /\ su_dirty (fst (f s)) = su_dirty s /\ su_closed (fst (f s)) = su_closed s /\
  forall t, t ∈ su_targets (fst (f s)) -> t ∈ su_targets s) -> keeps e (sweep f e).
Proof.
  intros Hf p. rewrite sweep_heap. destruct (ce_heap e !! p) as [s|]; [|done]. cbn. unfold swept. destruct (Hf s) as (H1 & H2 & H3 & H4).
  destruct (bool_decide _); [|done]. destruct (snd (f s)); cbn; [done|]. split; [done|]. split; [done|]. intros H. split; [congruence|done].
Qed.

Lemma dropObject_keeps id s : let s' := fst (dropObject id s) in
  su_running s' = su_running s /\ su_dirty s' = su_dirty s /\ su_closed s' = su_closed s /\ (forall t, t ∈ su_targets s' -> t ∈ su_targets s) /\ su_key s' = su_key s.
Proof.
  cbn. split_and!; try done. intros t Ht. rewrite !list_elem_of_In in *. by apply filter_In in Ht as [Ht _].
Qed.

(** What [upsert] does to the heap: a new pointer, and the end of the
    subscription it replaces. *)
Lemma upsert_heap cfg now sub e p e' : upsert cfg now sub e = Ok (p, e') ->
  p = ce_next e /\
  (exists sub', ce_heap e' !! p = Some sub' /\ su_running sub' = su_running sub /\ su_dirty sub' = su_dirty sub) /\
  (forall q, q <> p -> ce_heap e' !! q = (if bool_decide (ce_subs e !! su_key sub = Some q) then closeSub <$> ce_heap e !! q else ce_heap e !! q)).
Proof.
  unfold upsert. destruct (_ && _); [done|]. set (sub' := if su_lifetime sub >? 0 then _ else sub).
  assert (su_key sub' = su_key sub /\ su_running sub' = su_running sub /\ su_dirty sub' = su_dirty sub) as (Hk & Hr & Hd) by (unfold sub'; by destruct (_ >? 0)).
  rewrite Hk. destruct (ce_subs e !! su_key sub) as [old|] eqn:Eo; [|destruct (_ >=? _); [done|]]; intros [= <- <-]; cbn;
    (split; [done|]); (split; [exists sub'; by rewrite lookup_insert_eq|]); intros q Hq; rewrite lookup_insert_ne by done.
  - rewrite lookup_alter. by destruct (decide (old = q)) as [->|]; [rewrite bool_decide_true|rewrite bool_decide_false by congruence].
  - by rewrite bool_decide_false.
Qed.

(** A new subscription waits for its initial kick. *)
Lemma subscribe_ok d dcc e changes kicks runners evals lost garbled sent now sub p e' : freshSub sub -> upsert ccfg now sub e = Ok (p, e') ->
  world_ok (mkWorld d dcc e changes kicks runners evals lost garbled sent) -> world_ok (mkWorld d dcc e' changes (kicks ++ [(p, true)]) runners evals lost garbled sent).
Proof.
  intros (Hdirty & Hrun & Hclosed & _) Hup [He Hr Hb Ha Hd Hac]; cbn in *. pose proof (upsert_ok _ ccfg now sub e p e' eq_refl Hclosed He Hup) as He'.
  apply upsert_heap in Hup as (Hp & (sub' & Hheap & Hr' & Hd') & Hold).
  assert (~ is_Some (ce_heap e !! p)) as Hnew by (intros H; apply (eo_next _ _ He) in H; lia).
  assert (forall q s', q <> p -> ce_heap e' !! q = Some s' -> exists s, ce_heap e !! q = Some s /\ su_running s' = su_running s /\ (su_closed s' = false -> s' = s)) as Hq.
  { intros q s' Hne Hs. rewrite Hold in Hs by done. destruct (ce_heap e !! q) as [s|]; [|by destruct (bool_decide _)]. exists s. split; [done|].
    destruct (bool_decide _); injection Hs as <-; done. }
  split; cbn; [done| | |done| |].
  - intros q s Hs. destruct (decide (q = p)) as [->|Hne].
    + rewrite Hheap in Hs. injection Hs as <-. rewrite Hr', Hrun. split; [done|]. intros Hbusy. by destruct Hnew; apply Hb.
    + destruct (Hq q s Hne Hs) as (s0 & Hs0 & -> & _). by apply Hr.
  - intros q Hbusy. destruct (decide (q = p)) as [->|Hne]; [by eexists|]. rewrite Hold by done. destruct (Hb q Hbusy) as [s ->]. by destruct (bool_decide _); eexists.
  - intros q s Hs Hc Hdir. destruct (decide (q = p)) as [->|Hne]; [congruence|].
    destruct (Hq q s Hne Hs) as (s0 & Hs0 & _ & Heq). specialize (Heq Hc). subst s. by eapply Hd.
  - intros q s t Hs Hc Ht. destruct (decide (q = p)) as [->|Hne].
    { do 2 right. left. exists true. cbn. set_solver. }
    destruct (Hq q s Hne Hs) as (s0 & Hs0 & _ & Heq). specialize (Heq Hc). subst s. specialize (Hac q s0 t Hs0 Hc Ht).
    eapply accounted_mono; [exact Hac|done..| |done|done]. intros x Hx. apply elem_of_app. by left.
Qed.

Lemma elem_kicks p b q b' (l1 l2 : list (Z * bool)) : (p, b) ∈ l1 ++ (q, b') :: l2 -> (p = q /\ b = b') \/ (p, b) ∈ l1 ++ l2.
Proof. set_solver. Qed.

Lemma external_ok w w' : world_ok w -> external w w' -> world_ok w'.
Proof.
  intros Hw. destruct 1 as [? ? ? ? ? ? ? ? ? ? cs d' Hrep|? ? ? ? ? ? ? ? ? ? now sub p e' Hfresh Hup|? ? ? ? l1 p l2 ? ? ? ? ?|
    ? ? ? ? ? ? ? ? ? ? key|? ? ? ? ? ? ? ? ? ? now|? ? ? ? ? ? ? ? ? ? id| |].
  - destruct Hw as [He Hr Hb Ha Hd Hac]; cbn in *. split; try done. intros p s t Hp Hc Ht. cbn in Hp.
    destruct (Hac p s t Hp Hc Ht) as [H|[H|[H|[H|[(c & Hin & Hobj)|H]]]]]; unfold accounted; cbn; try by eauto.
    + do 4 right. left. exists c. split; [|done]. set_solver.
    + do 4 right. destruct (decide (Exists (fun c => ch_Object c = tg_obj t) cs)) as [Hex|Hno].
      * left. apply Exists_exists in Hex as (c & Hin & Hobj). exists c. split; [|done]. set_solver.
      * right. intros ref Hin Htr v inc analog Hv. apply (H ref Hin Htr v inc analog). rewrite <- Hv. symmetry. apply Hrep; [done|].
        intros c Hc' Hobj. apply Hno. apply Exists_exists. by exists c.
  - by eapply subscribe_ok.
  - destruct Hw as [He Hr Hb Ha Hd Hac]; cbn in *. split; try done. intros q s t Hq Hc Ht. cbn in Hq.
    destruct (decide (q = p)) as [->|Hne]; [do 3 right; left; apply elem_of_union; left; by apply elem_of_singleton|].
    destruct (Hac q s t Hq Hc Ht) as [H|[H|[(b & Hin)|[H|H]]]]; [by left|by right; left| |do 3 right; left; apply elem_of_union; by right|by do 4 right].
    apply elem_kicks in Hin as [[-> _]|Hin]; [done|]. do 2 right. left. by exists b.
  - eapply keeps_ok, Hw; [apply keeps_cancel|apply cancel_ok, Hw|done].
  - eapply keeps_ok, Hw; [by apply keeps_sweep|by apply sweep_ok, Hw|done].
  - eapply keeps_ok, Hw; [|apply sweep_ok, Hw|done].
    + apply keeps_sweep. intros s. destruct (dropObject_keeps id s) as (?&?&?&?&?). done.
    + intros s. by destruct (dropObject_keeps id s) as (?&?&?&?&?).
  - eapply keeps_ok, Hw; [by apply keeps_sweep|by apply sweep_ok, Hw|done].
  - by destruct Hw.
Qed.

Lemma withSub_heap p f e sp : ce_heap e !! p = Some sp -> forall q s, ce_heap (withSub p f e) !! q = Some s ->
  (q = p /\ s = f sp) \/ (q <> p /\ ce_heap e !! q = Some s).
Proof.
  intros Ep q s. unfold withSub; cbn. rewrite lookup_alter.
  destruct (decide (p = q)) as [<-|Hne]; [rewrite Ep; intros [= <-]; by left|by right].
Qed.
Lemma withSub_lives p f e q : is_Some (ce_heap e !! q) -> is_Some (ce_heap (withSub p f e) !! q).
Proof.
  intros Hq. unfold withSub; cbn. rewrite lookup_alter. destruct (decide (p = q)) as [->|]; [|done]. by apply fmap_is_Some.
Qed.

Lemma kick_world d dcc e changes l1 p initial l2 runners evals lost garbled sent e' starts : kick p initial e = (e', starts) ->
  world_ok (mkWorld d dcc e changes (l1 ++ (p, initial) :: l2) runners evals lost garbled sent) ->
  world_ok (mkWorld d dcc e' changes (l1 ++ l2) (if starts : bool then {[ p ]} ∪ runners else runners) evals lost garbled sent).
Proof.
  intros Hk Hw. pose proof (kick_ok _ p initial e (wo_engine _ Hw)) as He'. rewrite Hk in He'. destruct Hw as [He Hr Hb Ha Hd Hac]; cbn in *.
  assert (forall q s t, q <> p \/ su_closed s = true -> ce_heap e !! q = Some s -> su_closed s = false -> t ∈ su_targets s ->
    accounted (mkWorld d dcc e' changes (l1 ++ l2) (if starts then {[ p ]} ∪ runners else runners) evals lost garbled sent) q s t) as Hothers.
  { intros q s t [Hne|Hcl] Hq Hc Ht; [|congruence]. specialize (Hac q s t Hq Hc Ht). unfold accounted in *; cbn in *.
    destruct Hac as [H|[H|[(b & Hin)|H]]]; [by left|by right; left| |by do 3 right].
    apply elem_kicks in Hin as [[-> _]|Hin]; [done|]. do 2 right. left. by exists b. }
  unfold kick in Hk. destruct (ce_heap e !! p) as [sp|] eqn:Ep; [destruct (su_closed sp) eqn:Ec|]; injection Hk as <- <-.
  - split; cbn; try done. intros q s t Hq Hc Ht. apply Hothers; try done. destruct (decide (q = p)) as [->|]; [right; congruence|by left].
  - pose proof (withSub_heap p (setFlags true (su_initial sp || initial) true) e sp Ep) as Hq.
    split; cbn -[withSub]; [done| | | | |].
    + intros q s Hs. apply Hq in Hs as [[-> ->]|[Hne Hs]].
      * cbn. split; [intros _|done]. destruct (su_running sp) eqn:Erun; cbn; [by apply (Hr p sp Ep)|left; set_solver].
      * rewrite (Hr q s Hs). destruct (negb (su_running sp)); [|done]. set_solver.
    + intros q Hbusy. apply withSub_lives. destruct (decide (q = p)) as [->|Hne]; [by eexists|].
      apply Hb. destruct (negb _); [|done]. set_solver.
    + intros q Hin. destruct (su_running sp) eqn:Erun; cbn in Hin; [by apply Ha|]. apply elem_of_union in Hin as [Hin|Hin]; [|by apply Ha].
      apply elem_of_singleton in Hin as ->. destruct (evals !! p) eqn:Ee; [|done].
      assert (su_running sp = true) by (apply (Hr p sp Ep); right; by eexists). congruence.
    + intros q s Hs Hc Hdir. apply Hq in Hs as [[-> ->]|[Hne Hs]]; [done|]. by eapply Hd.
    + intros q s t Hs Hc Ht. apply Hq in Hs as [[-> ->]|[Hne Hs]]; [by left|]. apply (Hothers q s t); [by left|done|done|done].
  - split; cbn; try done. intros q s t Hq Hc Ht. apply Hothers; try done. left. congruence.
Qed.

Lemma take_world d dcc e changes kicks runners evals lost garbled sent p e' o : p ∈ runners -> runTake p e = (e', o) ->
  world_ok (mkWorld d dcc e changes kicks runners evals lost garbled sent) ->
  world_ok (mkWorld d dcc e' changes kicks (runners ∖ {[ p ]}) (match o with Some initial => <[p := initial]> evals | None => evals end) lost garbled sent).
Proof.
  intros Hin Hk Hw. pose proof (runTake_ok _ p e (wo_engine _ Hw)) as He'. rewrite Hk in He'. destruct Hw as [He Hr Hb Ha Hd Hac]; cbn in *.
  destruct (Hb p (or_introl Hin)) as [sp Ep]. unfold runTake in Hk. rewrite Ep in Hk.
  assert (su_running sp = true) as Hrun by (apply (Hr p sp Ep); by left). pose proof (Ha p Hin) as Hnone.
  destruct (negb (su_dirty sp) || su_closed sp) eqn:Et; injection Hk as <- <-.
  - pose proof (withSub_heap p (setFlags (su_dirty sp) (su_initial sp) false) e sp Ep) as Hq.
    split; cbn -[withSub]; [done| | | | |].
    + intros q s Hs. apply Hq in Hs as [[-> ->]|[Hne Hs]]; [|rewrite (Hr q s Hs); set_solver].
      cbn. split; [done|]. rewrite Hnone. intros [H|[]]; [set_solver|done].
    + intros q Hbusy. apply withSub_lives, Hb. set_solver.
    + intros q Hq'. apply Ha. set_solver.
    + intros q s Hs Hc Hdir. apply Hq in Hs as [[-> ->]|[Hne Hs]]; [|by eapply Hd]. cbn in *. by rewrite Hdir, Hc in Et.
    + intros q s t Hs Hc Ht. apply Hq in Hs as [[-> ->]|[Hne Hs]]; [|by apply (Hac q s t)]. apply (Hac p sp t Ep Hc Ht).
  - apply orb_false_iff in Et as [Et Ec].
    pose proof (withSub_heap p (setFlags false false (su_running sp)) e sp Ep) as Hq.
    split; cbn -[withSub]; [done| | | | |].
    + intros q s Hs. apply Hq in Hs as [[-> ->]|[Hne Hs]].
      * cbn. split; [|done]. intros _. right. rewrite lookup_insert_eq. by eexists.
      * rewrite (Hr q s Hs), lookup_insert_ne by done. set_solver.
    + intros q Hbusy. apply withSub_lives. destruct (decide (q = p)) as [->|Hne]; [by eexists|].
      rewrite lookup_insert_ne in Hbusy by done. apply Hb. set_solver.
    + intros q Hq'. rewrite lookup_insert_ne by set_solver. apply Ha. set_solver.
    + intros q s Hs Hc Hdir. apply Hq in Hs as [[-> ->]|[Hne Hs]]; [done|]. by eapply Hd.
    + intros q s t Hs Hc Ht. apply Hq in Hs as [[-> ->]|[Hne Hs]].
      * right. left. cbn. rewrite lookup_insert_eq. by eexists.
      * specialize (Hac q s t Hs Hc Ht). unfold accounted in *; cbn in *. by rewrite lookup_insert_ne.
Qed.

Lemma hits_spec id e p : p ∈ hits id e <-> exists s, ce_heap e !! p = Some s /\ (exists k, ce_subs e !! k = Some p) /\ exists t, t ∈ su_targets s /\ tg_obj t = id.
Proof.
  unfold hits. rewrite list_elem_of_In, filter_In, <- list_elem_of_In, list_elem_of_fmap. split.
  - intros [([k q] & -> & Hk) Hm]. apply elem_of_map_to_list in Hk. cbn in *. destruct (ce_heap e !! q) as [s|]; [|done].
    exists s. split; [done|]. split; [by exists k|]. apply existsb_exists in Hm as (t & Hin & Ht). apply bool_decide_eq_true in Ht.
    exists t. by rewrite list_elem_of_In.
  - intros (s & Hp & (k & Hk) & t & Hin & Ht). split; [exists (k, p); by rewrite elem_of_map_to_list|]. rewrite Hp.
    apply existsb_exists. exists t. by rewrite <- list_elem_of_In, bool_decide_eq_true.
Qed.

Lemma evaluate_world d dcc e changes kicks runners evals lost garbled sent p initial s now out s' dcc' :
  evals !! p = Some initial -> ce_heap e !! p = Some s -> evaluate d now dcc s initial = (out, s', dcc') ->
  world_ok (mkWorld d dcc e changes kicks runners evals lost garbled sent) ->
  world_ok (mkWorld d dcc' (withSub p (fun _ => s') e) changes kicks ({[ p ]} ∪ runners) (delete p evals) (lostAfter out p lost) (garbledAfter out p garbled) (sentAfter out p sent)).
Proof.
  intros Hev Es Hk [He Hr Hb Ha Hd Hac]; cbn in *. destruct (evaluate_spec _ _ _ _ _ _ _ _ Hk) as [[ts Hts] Hset].
  assert (su_running s = true) as Hrun by (apply (Hr p s Es); right; by eexists).
  pose proof (withSub_heap p (fun _ => s') e s Es) as Hq.
  assert (forall q, q <> p -> q ∈ lost -> q ∈ lostAfter out p lost) as Hlost by (intros q Hne Hl; destruct out; cbn; set_solver).
  assert (engine_ok (cc_maxCOV ccfg) (withSub p (fun _ => s') e)) as He'.
  { replace (withSub p (fun _ => s') e) with (withSub p (setTargets ts) e) by (unfold withSub; f_equal; apply map_eq; intros q;
      rewrite !lookup_alter; destruct (decide (p = q)) as [<-|]; [rewrite Es; by rewrite Hts|done]). by apply withSub_ok. }
  split; cbn -[withSub]; [done| | | | |].
  - intros q sq Hs. apply Hq in Hs as [[-> ->]|[Hne Hs]].
    + rewrite Hts; cbn. rewrite Hrun. split; [intros _; left; set_solver|done].
    + rewrite (Hr q sq Hs), lookup_delete_ne by done. set_solver.
  - intros q Hbusy. apply withSub_lives. destruct (decide (q = p)) as [->|Hne]; [by eexists|]. apply Hb. rewrite lookup_delete_ne in Hbusy by done. set_solver.
  - intros q Hin. destruct (decide (q = p)) as [->|Hne]; [by rewrite lookup_delete_eq|]. rewrite lookup_delete_ne by done. apply Ha. set_solver.
  - intros q sq Hs Hc Hdir. apply Hq in Hs as [[-> ->]|[Hne Hs]]; [by rewrite Hts|]. by eapply Hd.
  - intros q sq t Hs Hc Ht. apply Hq in Hs as [[-> ->]|[Hne Hs]].
    + destruct Hset as [->|Hset]; [do 3 right; left; set_solver|]. do 5 right. by apply Hset.
    + specialize (Hac q sq t Hs Hc Ht). unfold accounted in *; cbn in *. rewrite lookup_delete_ne by done.
      destruct Hac as [H|[H|[H|[H|H]]]]; [by left|by right; left|by do 2 right; left|do 3 right; left; by apply Hlost|by do 4 right].
Qed.

Lemma internal_ok w w' : world_ok w -> internal w w' -> world_ok w'.
Proof.
  intros Hw. destruct 1 as [| |? ? ? ? ? ? ? ? ? ? p e' Hin Hk|? ? ? ? ? ? ? ? ? ? p e' initial Hin Hk|]; [|by eapply kick_world|
    exact (take_world _ _ _ _ _ _ _ _ _ _ _ _ None Hin Hk Hw)|exact (take_world _ _ _ _ _ _ _ _ _ _ _ _ (Some initial) Hin Hk Hw)|by eapply evaluate_world].
  destruct Hw as [He Hr Hb Ha Hd Hac]; cbn in *. split; try done. intros p s t Hp Hc Ht. cbn in Hp.
  destruct (Hac p s t Hp Hc Ht) as [H|[H|[(b & Hin)|[H|[(c0 & Hin & Hobj)|H]]]]]; unfold accounted; cbn in *;
    [by left|by right; left| |by do 3 right; left| |by do 5 right].
  - do 2 right. left. exists b. apply elem_of_app. by left.
  - apply elem_of_cons in Hin as [->|Hin]; [|by do 4 right; left; exists c0].
    do 2 right. left. exists false. apply elem_of_app. right. apply list_elem_of_fmap. exists p. split; [done|].
    apply hits_spec. exists s. split; [done|]. split; [exists (su_key s); by apply (eo_live _ _ He)|by exists t].
Qed.

Lemma world_reachable_ok w : reachable w -> world_ok w.
Proof.
  induction 1 as [d dcc|w w' _ IH Hx|w w' _ IH Hi]; [|by eapply external_ok|by eapply internal_ok].
  split; cbn; [apply newCOVEngine_ok| | | | |]; try (intros p s H; by rewrite lookup_empty in H).
  - intros p [H|[b H]]; [set_solver|by rewrite lookup_empty in H].
  - done.
  - intros p s t H. by rewrite lookup_empty in H.
Qed.

(** *** What the subscriber was told *)

(** Of the subscriptions, what the notifications depend on: those that were
    there, with the same subscriber and some of their targets, and new ones
    that were not notified. *)
Definition inherits (e e' : covEngine) : Prop :=
  forall p s', ce_heap e' !! p = Some s' ->
    (exists s, ce_heap e !! p = Some s /\ su_kind s' = su_kind s /\ su_pid s' = su_pid s /\ (length (su_targets s') <= length (su_targets s))%nat /\
       forall t, t ∈ su_targets s' -> t ∈ su_targets s) \/ freshSub s'.

Definition told_ok (e : covEngine) (garbled : gset Z) (sent : list (Z * bytes)) : Prop :=
  forall p s, ce_heap e !! p = Some s -> (su_kind s <> subMultiple -> (length (su_targets s) <= 1)%nat) /\
    (p ∉ garbled -> forall t ref last, t ∈ su_targets s -> ref ∈ tg_refs t -> rf_last ref = Some last -> told sent p s t ref last).

Lemma told_inherits e e' garbled sent : inherits e e' -> told_ok e garbled sent -> told_ok e' garbled sent.
Proof.
  intros Hi He p s' Hp. destruct (Hi p s' Hp) as [(s & Hs & Hk & Hpid & Hl & Ht)|(_ & _ & _ & H1 & H2)].
  - destruct (He p s Hs) as [H1 H2]. split; [rewrite Hk; intros H; specialize (H1 H); lia|]. intros Hg t ref last Hin Hr Hlast.
    destruct (H2 Hg t ref last (Ht t Hin) Hr Hlast) as (payload & Hsent & Hc). exists payload. by rewrite Hk, Hpid.
  - split; [done|]. intros _ t ref last Hin Hr Hlast. by rewrite (H2 t ref Hin Hr) in Hlast.
Qed.

Lemma inherits_alter p f e : (forall s, su_kind (f s) = su_kind s /\ su_pid (f s) = su_pid s /\ su_targets (f s) = su_targets s) ->
  forall e', ce_heap e' = alter f p (ce_heap e) -> inherits e e'.
Proof.
  intros Hf e' He' q s' Hq. rewrite He', lookup_alter in Hq. left. destruct (decide (p = q)) as [<-|]; [|by exists s'].
  destruct (ce_heap e !! p) as [s|]; [|done]. injection Hq as <-. exists s. destruct (Hf s) as (-> & -> & ->). done.
Qed.
Lemma inherits_flags p dirty initial running e : inherits e (withSub p (setFlags dirty initial running) e).
Proof. by apply (inherits_alter p (setFlags dirty initial running)). Qed.
Lemma inherits_refl e : inherits e e.
Proof. intros p s' Hp. left. by exists s'. Qed.

Lemma inherits_sweep f e : (forall s, su_kind (fst (f s)) = su_kind s /\ su_pid (fst (f s)) = su_pid s /\
    (length (su_targets (fst (f s))) <= length (su_targets s))%nat /\ forall t, t ∈ su_targets (fst (f s)) -> t ∈ su_targets s) -> inherits e (sweep f e).
Proof.
  intros Hf p s' Hp. left. rewrite sweep_heap in Hp. destruct (ce_heap e !! p) as [s|]; [|done]. injection Hp as <-. exists s. split; [done|].
  unfold swept. destruct (Hf s) as (H1 & H2 & H3 & H4). destruct (bool_decide _); [|done]. by destruct (snd (f s)).
Qed.

Lemma upsert_inherits now sub e p e' : freshSub sub -> upsert ccfg now sub e = Ok (p, e') -> inherits e e'.
Proof.
  intros Hfresh Hup. pose proof (upsert_heap _ _ _ _ _ _ Hup) as (_ & (sub' & Hp & _) & Hold).
  intros q s Hq. destruct (decide (q = p)) as [->|Hne].
  - right. rewrite Hp in Hq. injection Hq as ->. unfold upsert in Hup. destruct (_ && _); [done|].
    set (sub0 := if su_lifetime sub >? 0 then _ else sub) in Hup.
    assert (freshSub sub0) as Hf0 by (unfold sub0; by destruct (_ >? 0)).
    destruct (ce_subs e !! su_key sub0); [|destruct (_ >=? _); [done|]]; injection Hup as <- <-; cbn in Hp; rewrite lookup_insert_eq in Hp; by injection Hp as <-.
  - left. rewrite Hold in Hq by done. destruct (ce_heap e !! q) as [s0|]; [|by destruct (bool_decide _)]. exists s0. split; [done|].
    by destruct (bool_decide _); injection Hq as <-.
Qed.

Lemma external_told w w' : external w w' -> told_ok (w_engine w) (w_garbled w) (w_sent w) -> told_ok (w_engine w') (w_garbled w') (w_sent w').
Proof.
  intros Hx. enough (inherits (w_engine w) (w_engine w') /\ w_garbled w' = w_garbled w /\ w_sent w' = w_sent w) as (Hi & -> & ->) by by apply told_inherits.
  destruct Hx as [|? ? ? ? ? ? ? ? ? ? now sub p e' Hfresh Hup| |? ? e ? ? ? ? ? ? ? key| |? ? ? ? ? ? ? ? ? ? id| |]; cbn; (split; [|done]); try apply inherits_refl.
  - apply upsert_inherits in Hup; done.
  - unfold cancel. destruct (ce_subs e !! key) as [p|]; [|apply inherits_refl]. by apply (inherits_alter p closeSub).
  - by apply inherits_sweep.
  - apply inherits_sweep. intros s. destruct (dropObject_keeps id s) as (_ & _ & _ & Ht & _). split; [done|]. split; [done|]. split; [|done].
    apply List.filter_length_le.
  - by apply inherits_sweep.
Qed.

Lemma evalTarget_told d now t sent ref' last : ref' ∈ tg_refs (targetAfter sent (evalTarget d now t)) -> rf_last ref' = Some last ->
  (exists ref, ref ∈ tg_refs t /\ rf_prop ref' = rf_prop ref /\ rf_last ref = Some last) \/
  (sent = true /\ exists vals ref0, sendValues (evalTarget d now t) = Some (tg_obj t, vals) /\ (ref0, last) ∈ vals /\ rf_prop ref' = rf_prop ref0).
Proof.
  unfold evalTarget, sendValues, targetAfter; cbn. destruct (Object d (tg_obj t)) as [o|]; [|by left; exists ref'].
  rewrite map_map. intros Hin Hl. apply list_elem_of_fmap in Hin as (ref & -> & Hin). unfold refAfter in *.
  destruct (rd_value (evalRef d now o ref)) as [v|] eqn:Ev.
  - destruct sent.
    + cbn in *. injection Hl as ->. right. split; [done|]. eexists _, (rd_ref (evalRef d now o ref)). split; [done|]. split; [|done].
      apply list_elem_of_omap. exists (evalRef d now o ref). split; [by apply list_elem_of_fmap_2|]. unfold readValue. by rewrite Ev.
    + left. exists ref. split; [done|]. unfold evalRef in *. destruct (entryRead d o (rf_prop ref)); [|done]. by destruct (covIncrementOf o).
  - left. exists ref. split; [done|]. unfold evalRef in *. destruct (entryRead d o (rf_prop ref)); [by destruct (covIncrementOf o)|done].
Qed.

Lemma notification_carries d now s send out payload confirmed svc obj vals ref v :
  notification d now s send = out -> out = evNotify confirmed svc payload -> (obj, vals) ∈ send -> (ref, v) ∈ vals ->
  (su_kind s <> subMultiple -> (length send <= 1)%nat) -> carries (su_kind s) (su_pid s) payload obj (rf_prop ref) v.
Proof.
  intros <- Hout Hs Hv Hone. unfold notification, carries in *. case_bool_decide as Hk.
  - destruct (EncodeCOVNotificationMultiple _) as [pl|] eqn:E; [|done]. injection Hout as _ _ <-.
    exists (multipleNote d now s send). split; [done|]. split; [done|].
    eexists _, (mkCOVMultipleValue (rf_prop ref) v (if rf_timestamped ref then Some (rf_changedAt ref) else None) None).
    split; [cbn; apply list_elem_of_fmap; by exists (obj, vals)|]. split; [done|]. split; [|done]. cbn. apply list_elem_of_fmap. by exists (ref, v).
  - specialize (Hone Hk). destruct send as [|[obj' vals'] [|]]; [done| |cbn in Hone; lia]. apply list_elem_of_singleton in Hs as [= -> ->].
    destruct (EncodeCOVNotification _) as [pl|] eqn:E; [|done]. injection Hout as _ _ <-.
    exists (singleNote d now s obj' vals'). split; [done|]. split; [done|]. split; [done|]. cbn. apply list_elem_of_fmap. by exists (ref, v).
Qed.

Lemma length_sendOf {A} (f : A -> option (ObjectIdentifier * covValues)) l : (length (omap f l) <= length l)%nat.
Proof. induction l as [|x l IH]; [done|]. cbn. destruct (f x); cbn; lia. Qed.

Lemma evaluate_told d now dcc s initial out s' dcc' t' ref' last : evaluate d now dcc s initial = (out, s', dcc') ->
  (forall e, out <> evUnencodable e) -> (su_kind s <> subMultiple -> (length (su_targets s) <= 1)%nat) ->
  t' ∈ su_targets s' -> ref' ∈ tg_refs t' -> rf_last ref' = Some last ->
  (exists t ref, t ∈ su_targets s /\ ref ∈ tg_refs t /\ tg_obj t' = tg_obj t /\ rf_prop ref' = rf_prop ref /\ rf_last ref = Some last) \/
  (exists confirmed svc payload, out = evNotify confirmed svc payload /\ carries (su_kind s) (su_pid s) payload (tg_obj t') (rf_prop ref') last).
Proof.
  intros He Hout Hone Ht Hr Hl.
  assert (exists sent t, s' = setTargets (map (targetAfter sent) (map (evalTarget d now) (su_targets s))) s /\ t ∈ su_targets s /\
    t' = targetAfter sent (evalTarget d now t) /\ (sent = true -> out = notification d now s (sendOf (map (evalTarget d now) (su_targets s)))))
    as (sent & t & Hs' & Hin & -> & Hn).
  { unfold evaluate in He. cbv zeta in He. destruct (negb (initial || _)); [|destruct (mayInitiate now dcc) as [may dcc1]; destruct (negb may)];
      injection He as <- <- <-; cbn in Ht; rewrite map_map in Ht; apply list_elem_of_fmap in Ht as (t & -> & Hin);
      [exists false, t|exists false, t|exists true, t]; done. }
  destruct (evalTarget_told d now t sent ref' last Hr Hl) as [(ref & Hri & Hp & Hl')|(-> & vals & ref0 & Hsend & Hv & Hp)].
  - left. by exists t, ref.
  - specialize (Hn eq_refl). assert ((tg_obj t, vals) ∈ sendOf (map (evalTarget d now) (su_targets s))) as Hs.
    { apply list_elem_of_omap. exists (evalTarget d now t). split; [by apply list_elem_of_fmap_2|done]. }
    destruct out as [| | |e|confirmed svc payload].
    + exfalso. unfold notification in Hn. case_bool_decide; [by destruct (EncodeCOVNotificationMultiple _)|]. destruct (sendOf _) as [|[? ?] ?]; [done|]. by destruct (EncodeCOVNotification _).
    + exfalso. unfold notification in Hn. case_bool_decide; [by destruct (EncodeCOVNotificationMultiple _)|]. destruct (sendOf _) as [|[? ?] ?]; [done|]. by destruct (EncodeCOVNotification _).
    + exfalso. unfold notification in Hn. case_bool_decide; [by destruct (EncodeCOVNotificationMultiple _)|].
      destruct (sendOf _) as [|[? ?] ?]; [by apply not_elem_of_nil in Hs|]. by destruct (EncodeCOVNotification _).
    + by destruct (Hout e).
    + right. exists confirmed, svc, payload. split; [done|]. rewrite Hp. eapply (notification_carries d now s _ _ _ _ _ _ vals); [by rewrite <- Hn|done|done|done|].
      intros Hk. specialize (Hone Hk). unfold sendOf. pose proof (length_sendOf sendValues (map (evalTarget d now) (su_targets s))) as Hlen.
      rewrite length_map in Hlen. lia.
Qed.

Lemma told_sent sent sent' p s t ref last : sent ⊆ sent' -> told sent p s t ref last -> told sent' p s t ref last.
Proof. intros Hs (payload & Hin & Hc). exists payload. split; [by apply Hs|done]. Qed.

Lemma internal_told w w' : internal w w' -> told_ok (w_engine w) (w_garbled w) (w_sent w) -> told_ok (w_engine w') (w_garbled w') (w_sent w').
Proof.
  destruct 1 as [|? ? e ? ? p initial ? ? ? ? ? ? e' starts Hk|? ? e ? ? ? ? ? ? ? p e' Hin Hk|? ? e ? ? ? ? ? ? ? p e' initial Hin Hk|
    d dcc e ? ? ? ? ? garbled sent p initial s now out s' dcc' _ Es Hk]; cbn; try apply told_inherits.
  - apply inherits_refl.
  - unfold kick in Hk. destruct (ce_heap e !! p) as [s|]; [destruct (su_closed s)|]; injection Hk as <- <-; [apply inherits_refl| |apply inherits_refl].
    apply inherits_flags.
  - unfold runTake in Hk. destruct (ce_heap e !! p) as [s|]; [destruct (_ || _); [|done]|]; injection Hk as <-; [apply inherits_flags|apply inherits_refl].
  - unfold runTake in Hk. destruct (ce_heap e !! p) as [s|]; [destruct (_ || _)|]; [done| |done]. injection Hk as <- <-. apply inherits_flags.
  - intros He q sq Hq. destruct (withSub_heap p (fun _ => s') e s Es q sq Hq) as [[-> ->]|[Hne Hq']].
    + destruct (He p s Es) as [Hone Htold]. destruct (evaluate_spec _ _ _ _ _ _ _ _ Hk) as [[ts Hts] _].
      assert (length (su_targets s') = length (su_targets s)) as Hlen.
      { unfold evaluate in Hk. cbv zeta in Hk. destruct (negb (initial || _)); [|destruct (mayInitiate now dcc) as [may dcc1]; destruct (negb may)];
          injection Hk as _ <- _; cbn; by rewrite !length_map. }
      split; [rewrite Hlen, Hts; exact Hone|]. intros Hg t' ref' last Ht Hr Hl.
      destruct (evaluate_told _ _ _ _ _ _ _ _ t' ref' last Hk) as [(t & ref & H1 & H2 & H3 & H4 & H5)|(c & svc & payload & -> & Hc)]; try done.
      * intros err ->. cbn in Hg. set_solver.
      * assert (p ∉ garbled) as Hg' by (intros Hin; apply Hg; destruct out; cbn; set_solver).
        destruct (Htold Hg' t ref last H1 H2 H5) as (payload & Hin & Hc). exists payload.
        split; [destruct out; cbn; set_solver|]. by rewrite Hts, H3, H4.
      * exists payload. split; [cbn; set_solver|]. by rewrite Hts.
    + destruct (He q sq Hq') as [Hone Htold]. split; [done|]. intros Hg t ref last Ht Hr Hl.
      eapply told_sent; [|apply Htold; try done]; [destruct out; cbn; set_solver|]. intros Hin. apply Hg. destruct out; cbn; set_solver.
Qed.

Lemma reachable_told w : reachable w -> told_ok (w_engine w) (w_garbled w) (w_sent w).
Proof.
  induction 1 as [d dcc|w w' _ IH Hx|w w' _ IH Hi]; [|by eapply external_told|by eapply internal_told].
  intros p s Hp. cbn in Hp. by rewrite lookup_empty in Hp.
Qed.

(** *** The steps of the engine end *)

Definition dirtyCount (e : covEngine) : nat := size (filter (fun ps => su_dirty (snd ps) = true) (ce_heap e)).
Definition work (w : world) : nat := 3 * dirtyCount (w_engine w) + 2 * size (w_evals w) + size (w_runners w).

(** Changes to observe come first, then kicks, then the goroutines. *)
Definition before (w' w : world) : Prop :=
  (length (w_changes w') < length (w_changes w))%nat \/
  (length (w_changes w') = length (w_changes w) /\
   ((length (w_kicks w') < length (w_kicks w))%nat \/ (length (w_kicks w') = length (w_kicks w) /\ (work w' < work w)%nat))).

Lemma before_wf : well_founded before.
Proof.
  intros w. remember (length (w_changes w)) as a eqn:Ea. revert w Ea. induction (lt_wf a) as [a _ IHa]. intros w Ea.
  remember (length (w_kicks w)) as b eqn:Eb. revert w Ea Eb. induction (lt_wf b) as [b _ IHb]. intros w Ea Eb.
  remember (work w) as c eqn:Ec. revert w Ea Eb Ec. induction (lt_wf c) as [c _ IHc]. intros w -> -> ->.
  constructor. intros w' [H|[H1 [H|[H2 H]]]]; [by eapply IHa|by eapply IHb|by eapply IHc].
Qed.

Lemma runners_remove (X : gset Z) p : p ∈ X -> (S (size (X ∖ {[ p ]})) = size X)%nat.
Proof.
  intros Hp. assert ({[ p ]} ⊆ X) as Hs by set_solver. pose proof (subseteq_size (C := gset Z) _ _ Hs) as Hle.
  pose proof (size_difference (C := gset Z) _ _ Hs) as Hd. pose proof (size_singleton (C := gset Z) p) as H1. lia.
Qed.
Lemma runners_add (X : gset Z) p : (size ({[ p ]} ∪ X) <= S (size X))%nat.
Proof.
  pose proof (size_union_alt (C := gset Z) {[ p ]} X) as Hu. pose proof (size_singleton (C := gset Z) p) as H1.
  assert (X ∖ {[ p ]} ⊆ X) as Hs by set_solver. pose proof (subseteq_size (C := gset Z) _ _ Hs). lia.
Qed.

Lemma filter_dirty_alter p f (h : gmap Z covSub) s : h !! p = Some s ->
  filter (fun ps => su_dirty (snd ps) = true) (alter f p h) =
  if su_dirty (f s) then <[p := f s]> (filter (fun ps => su_dirty (snd ps) = true) h) else delete p (filter (fun ps => su_dirty (snd ps) = true) h).
Proof.
  intros Hp. assert (alter f p h = <[p := f s]> h) as ->.
  { apply map_eq. intros q. rewrite lookup_alter, lookup_insert. destruct (decide (p = q)) as [<-|]; [by rewrite Hp|done]. }
  destruct (su_dirty (f s)) eqn:Ed; [by apply map_filter_insert_True|]. rewrite map_filter_insert_False by (cbn; congruence).
  by rewrite map_filter_delete.
Qed.

Lemma dirty_lookup p (h : gmap Z covSub) s : h !! p = Some s ->
  filter (fun ps => su_dirty (snd ps) = true) h !! p = if su_dirty s then Some s else None.
Proof.
  intros Hp. destruct (su_dirty s) eqn:Ed; [by apply map_lookup_filter_Some|]. apply map_lookup_filter_None. right. intros s' Hs'. cbn. congruence.
Qed.

Lemma dirtyCount_clears p f e s : ce_heap e !! p = Some s -> su_dirty s = true -> su_dirty (f s) = false ->
  (S (dirtyCount (withSub p f e)) = dirtyCount e)%nat.
Proof.
  intros Hp Hd Hf. unfold dirtyCount, withSub; cbn. rewrite (filter_dirty_alter _ _ _ _ Hp), Hf.
  pose proof (dirty_lookup _ _ _ Hp) as Hl. rewrite Hd in Hl. rewrite map_size_delete_Some by eauto.
  destruct (size (filter _ (ce_heap e))) eqn:E; [|done]. apply map_size_empty_iff in E. by rewrite E, lookup_empty in Hl.
Qed.
Lemma dirtyCount_same p f e s : ce_heap e !! p = Some s -> su_dirty (f s) = su_dirty s -> dirtyCount (withSub p f e) = dirtyCount e.
Proof.
  intros Hp Hf. unfold dirtyCount, withSub; cbn. rewrite (filter_dirty_alter _ _ _ _ Hp), Hf. pose proof (dirty_lookup _ _ _ Hp) as Hl.
  destruct (su_dirty s); [by rewrite map_size_insert_Some by eauto|by rewrite map_size_delete_None by done].
Qed.

Lemma internal_before w w' : internal w w' -> before w' w.
Proof.
  destruct 1 as [|? ? e ? ? p initial ? ? ? ? ? ? e' starts Hk|? ? e ? ? ? ? ? ? ? p e' Hin Hk|? ? e ? ? ? ? ? ? ? p e' initial Hin Hk|
    d dcc e ? ? ? evals ? garbled sent p initial s now out s' dcc' Hev Es Hk]; unfold before, work; cbn -[Nat.mul].
  - left. lia.
  - right. split; [done|]. left. rewrite !length_app. cbn. lia.
  - do 2 (right; split; [done|]). pose proof (runners_remove _ _ Hin). unfold runTake in Hk.
    destruct (ce_heap e !! p) as [s|] eqn:Ep; [destruct (_ || _); [|done]|]; injection Hk as <-; [|lia]. rewrite (dirtyCount_same p _ e s) by done. lia.
  - do 2 (right; split; [done|]). pose proof (runners_remove _ _ Hin). unfold runTake in Hk.
    destruct (ce_heap e !! p) as [s|] eqn:Ep; [destruct (negb (su_dirty s) || _) eqn:Ed; [done|]|done]. injection Hk as <- <-.
    apply orb_false_iff in Ed as [Ed _]. pose proof (dirtyCount_clears p (setFlags false false (su_running s)) e s Ep) as Hc.
    specialize (Hc ltac:(by destruct (su_dirty s)) eq_refl).
    assert (forall m : gmap Z bool, size (<[p := su_initial s]> m) <= S (size m))%nat as Hins.
    { intros m. rewrite map_size_insert. destruct (m !! p); cbn; lia. }
    specialize (Hins evals). lia.
  - do 2 (right; split; [done|]). destruct (evaluate_spec _ _ _ _ _ _ _ _ Hk) as [[ts ->] _]. rewrite (dirtyCount_same p _ e s) by done.
    pose proof (runners_add runners p). rewrite map_size_delete_Some by eauto. destruct (size evals) eqn:E; [|lia].
    apply map_size_empty_iff in E. by rewrite E, lookup_empty in Hev.
Qed.

(** While something waits, the engine has a step. *)
Lemma world_progress w : reachable w -> ~ quiescent w -> exists w', internal w w'.
Proof.
  intros Hw Hq. apply world_reachable_ok in Hw as [_ _ Hb _ _ _]. destruct w as [d dcc e changes kicks runners evals lost garbled sent]; cbn in *.
  destruct changes as [|c changes]; [|by eexists; constructor].
  destruct kicks as [|[p initial] kicks].
  2:{ destruct (kick p initial e) as [e' starts] eqn:Ek. eexists. by apply (i_kick d dcc e [] [] p initial kicks). }
  destruct (decide (runners = ∅)) as [->|Hr].
  - destruct (decide (evals = ∅)) as [->|He]; [by destruct Hq|]. apply map_choose in He as (p & initial & Hp).
    destruct (Hb p) as [s Hs]; [by right; eexists|]. destruct (evaluate d 0 dcc s initial) as [[out s'] dcc'] eqn:E. eexists. by eapply i_evaluates.
  - apply set_choose_L in Hr as [p Hp]. destruct (runTake p e) as [e' [initial|]] eqn:Et; eexists; [by eapply i_takes|by eapply i_ends].
Qed.
End World.
