(* ===== verification/CovService.v ===== *)
(** * What the COV services do

    The key of a subscription names one subscriber, process, object and
    property; requests act on the subscription of their key and no other; the
    notifications carry the values of the device; the engine forgets no
    change and comes to rest. *)

From Stdlib Require Import ZArith Lia Ascii Floats.SpecFloat.
From stdpp Require Import base list gmap fin_maps strings pretty relations.
From S2P Require Import Prelude Value Ids Float32 Tags Codec Access Address Endpoint Responder ServerKey ServerPacket Object Events Device DeviceSafety DataHandlers PropertyValues CovCodecs CovMultiple CovEngine CovSafety.
#[local] Open Scope string_scope.
#[local] Open Scope list_scope.
#[local] Open Scope Z_scope.

(** ** The key *)
Section SubKey.
Context (ipv6String : bytes -> bytes -> Z -> string).

(** Text up to the first [c], if any. *)
Lemma split_first c : forall s s' t t', free c s = true -> free c s' = true ->
  (t = "" \/ exists u, t = String c u) -> (t' = "" \/ exists u, t' = String c u) -> s +:+ t = s' +:+ t' -> s = s' /\ t = t'.
Proof.
  induction s as [|d s IH]; intros [|d' s'] t t'; cbn [String.append free]; intros Hs Hs' Ht Ht' H.
  - done.
  - destruct Ht as [->|[u ->]]; [done|]. injection H as -> _. by rewrite Ascii.eqb_refl in Hs'.
  - destruct Ht' as [->|[u ->]]; [done|]. injection H as -> _. by rewrite Ascii.eqb_refl in Hs.
  - apply andb_true_iff in Hs as [_ Hs], Hs' as [_ Hs']. injection H as -> H. destruct (IH s' t t' Hs Hs' Ht Ht' H) as [-> ->]. done.
Qed.

Lemma decimal_bar n : free "|" (decimal n) = true.
Proof. apply decimal_free. unfold separator. auto. Qed.
Lemma decimal_colon n : free ":" (decimal n) = true.
Proof. apply decimal_free. unfold separator. auto. Qed.
Lemma decimal_bracket n : free "[" (decimal n) = true.
Proof. apply decimal_free. unfold separator. auto. Qed.

Lemma append_cons c s t : String c s +:+ t = String c (s +:+ t).
Proof. done. Qed.
Lemma append_nil_r s : s +:+ "" = s.
Proof. induction s as [|c s IH]; [done|]. by rewrite ?append_cons, IH. Qed.
Lemma append_assoc s t u : (s +:+ t) +:+ u = s +:+ (t +:+ u).
Proof. induction s as [|c s IH]; [done|]. by rewrite ?append_cons, IH. Qed.

(** What follows the object in a key. *)
Definition propSuffix (prop : option PropertyReference) : string :=
  match prop with
  | None => ""
  | Some r => String "|" (decimal (pr_Identifier r) +:+ match pr_ArrayIndex r with Some i => String "[" (decimal i +:+ "]") | None => "" end)
  end.

Lemma subKey_parts kind p pid obj prop : subKey ipv6String kind p pid obj prop =
  decimal (kindNumber kind) +:+ String "|" (Endpoint_String ipv6String (p_origin p) +:+ String "|" (Address_String (p_source p) +:+
    String "|" (decimal pid +:+ String "|" (decimal (oid_Type obj) +:+ String ":" (decimal (oid_Instance obj) +:+ propSuffix prop))))).
Proof.
  unfold subKey, propSuffix, ObjectIdentifier_String. destruct prop as [[id [i|]]|]; cbn [pr_Identifier pr_ArrayIndex];
    rewrite ?append_nil_r; repeat (rewrite append_assoc || rewrite append_cons); done.
Qed.

Lemma propSuffix_inj r r' : optP ref_ok r -> optP ref_ok r' -> propSuffix r = propSuffix r' -> r = r'.
Proof.
  assert (forall o : option Z, match o with Some i => String "[" (decimal i +:+ "]") | None => "" end = "" \/
    exists u, match o with Some i => String "[" (decimal i +:+ "]") | None => "" end = String "[" u) as Hb by (intros [i|]; eauto).
  destruct r as [[id i]|], r' as [[id' i']|]; cbn [propSuffix pr_Identifier pr_ArrayIndex]; try done. rewrite !optP_Some. intros [H1 H2] [H1' H2'] H.
  injection H as H. apply (split_first "[") in H as [Hid Hi]; [|apply decimal_bracket|apply decimal_bracket|apply Hb|apply Hb].
  apply decimal_inj in Hid as ->; [|apply H1|apply H1']. f_equal. f_equal. destruct i as [i|], i' as [i'|]; try done.
  cbn [pr_ArrayIndex pr_Identifier] in *. rewrite optP_Some in H2, H2'. injection Hi as Hi. change (decimal i +:+ "]") with (decimal i +:+ String "]" "") in Hi.
  change (decimal i' +:+ "]") with (decimal i' +:+ String "]" "") in Hi.
  f_equal. apply decimal_inj; [apply H2|apply H2'|].
  assert (forall s s', s +:+ String "]" "" = s' +:+ String "]" "" -> s = s') as Happ.
  { clear. intros s s' H. apply (f_equal (fun x => rev (String.list_ascii_of_string x))) in H.
    assert (forall x, String.list_ascii_of_string (x +:+ String "]" "") = String.list_ascii_of_string x ++ ["]"%char]) as Hl.
    { induction x as [|c x IH]; [done|]. rewrite append_cons. cbn [String.list_ascii_of_string]. by rewrite IH. }
    rewrite !Hl, !rev_app_distr in H. injection H as H. apply (f_equal (@rev _)) in H. rewrite !rev_involutive in H.
    rewrite <- (String.string_of_list_ascii_of_string s), <- (String.string_of_list_ascii_of_string s'). by rewrite H. }
  by apply Happ.
Qed.

Lemma subKey_inj kind p pid obj prop kind' p' pid' obj' prop' : peer_ok p -> peer_ok p' -> is_u 32 pid -> is_u 32 pid' ->
  oid_ok obj -> oid_ok obj' -> optP ref_ok prop -> optP ref_ok prop' ->
  subKey ipv6String kind p pid obj prop = subKey ipv6String kind' p' pid' obj' prop' ->
  kind = kind' /\ p_origin p = p_origin p' /\ p_source p = p_source p' /\ pid = pid' /\ obj = obj' /\ prop = prop'.
Proof.
  intros (Hv & Hw & Hs) (Hv' & Hw' & Hs') Hp Hp' Ho Ho' Hr Hr' H. rewrite !subKey_parts in H.
  apply split_unique in H as [Hk H]; [|by apply decimal_bar..]. apply split_unique in H as [H1 H]; [|by apply Endpoint_String_free..].
  apply split_unique in H as [H2 H]; [|by apply Address_String_free..]. apply split_unique in H as [H3 H]; [|by apply decimal_bar..].
  apply split_unique in H as [H4 H]; [|by apply decimal_colon..].
  assert (forall r, propSuffix r = "" \/ exists u, propSuffix r = String "|" u) as Hb by (intros [r|]; [right; eexists; reflexivity|by left]).
  apply (split_first "|") in H as [H5 H6]; [|apply decimal_bar|apply decimal_bar|apply Hb|apply Hb].
  destruct obj as [ty inst], obj' as [ty' inst'], Ho as [Hty Hin], Ho' as [Hty' Hin']; cbn [oid_Type oid_Instance] in *.
  split_and!.
  - destruct kind, kind'; try done; by apply decimal_inj in Hk.
  - by eapply Endpoint_String_inj.
  - by apply Address_String_inj.
  - apply decimal_inj; [apply Hp|apply Hp'|done].
  - f_equal; apply decimal_inj; try done; unfold is_u, MaxObjectInstance in *; lia.
  - by apply propSuffix_inj.
Qed.
End SubKey.

(** ** Requests *)

(** The live subscription under a key. *)
Definition liveSub (e : covEngine) (key : string) : option covSub :=
  match ce_subs e !! key with Some p => ce_heap e !! p | None => None end.

Lemma liveSub_cancel key e : liveSub (cancel key e) key = None.
Proof. unfold liveSub, cancel. destruct (ce_subs e !! key) eqn:E; cbn; [by rewrite lookup_delete_eq|by rewrite E]. Qed.

Lemma liveSub_cancel_ne maxCOV key key' e : engine_ok maxCOV e -> key' <> key -> liveSub (cancel key e) key' = liveSub e key'.
Proof.
  intros He Hne. unfold liveSub, cancel. destruct (ce_subs e !! key) as [p|] eqn:E; [|done]. cbn. rewrite lookup_delete_ne by done.
  destruct (ce_subs e !! key') as [q|] eqn:E'; [|done]. rewrite lookup_alter_ne; [done|]. intros <-.
  destruct (eo_table _ _ He _ _ E) as (s & Hs & Hk & _), (eo_table _ _ He _ _ E') as (s' & Hs' & Hk' & _). congruence.
Qed.

(** What [upsert] of a new subscription does. *)
Lemma upsert_exact maxCOV cfg now sub e : engine_ok maxCOV e -> cc_maxCOV cfg = maxCOV -> freshSub sub ->
  match upsert cfg now sub e with
  | Err err =>
      (err = errCOVLifetime /\ 0 < cc_maxLifetime cfg /\ (su_lifetime sub = 0 \/ cc_maxLifetime cfg < su_lifetime sub * second)) \/
      (err = errCOVNoSpace /\ liveSub e (su_key sub) = None /\ maxCOV <= Z.of_nat (size (ce_subs e)))
  | Ok (p, e') =>
      engine_ok maxCOV e' /\ ce_subs e' !! su_key sub = Some p /\
      liveSub e' (su_key sub) = Some (if su_lifetime sub >? 0 then setExpires (Some (now + su_lifetime sub * second)) sub else sub) /\
      forall key, key <> su_key sub -> liveSub e' key = liveSub e key
  end.
Proof.
  intros He Hm Hf. destruct (upsert cfg now sub e) as [[p e']|err] eqn:E.
  - split; [eapply upsert_ok; [done|apply Hf|done..]|]. pose proof (upsert_heap _ _ _ _ _ _ E) as (-> & _ & Hold). unfold upsert in E. destruct (_ && _); [done|].
    set (sub' := if su_lifetime sub >? 0 then _ else sub) in *. assert (su_key sub' = su_key sub) as Hk by (unfold sub'; by destruct (su_lifetime sub >? 0)). rewrite Hk in E.
    assert (ce_subs e' = <[su_key sub := ce_next e]> (ce_subs e) /\ ce_heap e' !! ce_next e = Some sub') as [Hs Hh].
    { destruct (ce_subs e !! su_key sub); [|destruct (_ >=? _); [done|]]; injection E as <-; cbn; by rewrite lookup_insert_eq. }
    split; [by rewrite Hs, lookup_insert_eq|]. split; [unfold liveSub; by rewrite Hs, lookup_insert_eq|]. intros key Hne. unfold liveSub. rewrite Hs, lookup_insert_ne by done.
    destruct (ce_subs e !! key) as [q|] eqn:Eq; [|done]. destruct (eo_table _ _ He _ _ Eq) as (s & Hq & Hks & _).
    rewrite Hold; [|intros ->; pose proof (eo_next _ _ He (ce_next e) ltac:(by eexists)); lia].
    rewrite bool_decide_false; [done|]. intros Hold'. destruct (eo_table _ _ He _ _ Hold') as (s' & Hq' & Hks' & _). congruence.
  - unfold upsert in E. destruct ((cc_maxLifetime cfg >? 0) && _) eqn:El.
    + injection E as <-. left. split; [done|]. apply andb_true_iff in El as [El1 El2].
      apply orb_true_iff in El2. rewrite Z.eqb_eq, Z.gtb_lt in El2. rewrite Z.gtb_lt in El1. lia.
    + set (sub' := if su_lifetime sub >? 0 then _ else sub) in *. assert (su_key sub' = su_key sub) as Hk by (unfold sub'; by destruct (su_lifetime sub >? 0)). rewrite Hk in E.
      unfold liveSub. destruct (ce_subs e !! su_key sub) eqn:Eo; [done|]. destruct (_ >=? _) eqn:Es; [|done]. injection E as <-. right. rewrite Z.geb_le in Es. split_and!; [done|done|lia].
Qed.

(** ** The handlers *)
Section Requests.
Context {O : Type} `{!ObjectOps O} `{!ObjectLaws O} {LT : LocalTime} `{!CovOps O}.
Context (cfg : serverConfig) (ccfg : covConfig) (ipv6String : bytes -> bytes -> Z -> string).
Implicit Types (d : Device O) (p : peer) (e : covEngine).

(** What a request may do: nothing, end a subscription, or start a new one
    whose initial notification is due after the reply. *)
Inductive served (now : Z) e : covReply -> Prop :=
| served_nothing res : served now e (res, None, e)
| served_cancel key : served now e (ack, None, cancel key e)
| served_starts sub ptr e' : freshSub sub -> upsert ccfg now sub e = Ok (ptr, e') -> served now e (ack, Some ptr, e').

Lemma startSubscription_served now sub e : freshSub sub -> served now e (startSubscription ccfg now sub e).
Proof.
  intros Hf. unfold startSubscription. destruct (upsert ccfg now sub e) as [[ptr e']|err] eqn:E; [by eapply served_starts|constructor].
Qed.

Lemma newSub_fresh kind key p pid confirmed lifetime targets : (kind <> subMultiple -> (length targets <= 1)%nat) ->
  (forall t ref, t ∈ targets -> ref ∈ tg_refs t -> rf_last ref = None) -> freshSub (newSub kind key p pid confirmed lifetime targets).
Proof. intros H1 H2. done. Qed.

Definition unsent (refs : list covRef) : Prop := Forall (fun ref => rf_last ref = None) refs.
Lemma multipleRefs_unsent d o obj props refs : multipleRefs d o obj props = inr refs -> unsent refs.
Proof.
  revert refs. induction props as [|r props IH]; intros refs; cbn; [intros [= <-]; constructor|]. destruct (entryRead d o _); [|done].
  destruct (multipleRefs d o obj props) as [|l]; [done|]. intros [= <-]. constructor; [done|by apply IH].
Qed.
Lemma multipleTargets_unsent d specs ts : multipleTargets d specs = inr ts -> Forall (fun t => unsent (tg_refs t)) ts.
Proof.
  revert ts. induction specs as [|s specs IH]; intros ts; cbn; [intros [= <-]; constructor|]. destruct (Object d _) as [o|]; [|done].
  destruct (multipleRefs _ _ _ _) as [|refs] eqn:E; [done|]. destruct (multipleTargets d specs) as [|l]; [done|]. intros [= <-].
  constructor; [by eapply multipleRefs_unsent|by apply IH].
Qed.

Lemma subscribeCOV_served d now payload p e : served now e (subscribeCOV cfg ccfg ipv6String d now payload p e).
Proof.
  unfold subscribeCOV. destruct (DecodeSubscribeCOV _ _) as [r|]; [|constructor]. destruct (Object d _) as [o|]; [|constructor].
  destruct (negb _); [constructor|]. destruct (sb_Cancellation r); [constructor|]. apply startSubscription_served, newSub_fresh; [cbn; lia|].
  intros t ref ->%list_elem_of_singleton Hr. cbn in Hr. set_solver.
Qed.
Lemma subscribeCOVProperty_served d now payload p e : served now e (subscribeCOVProperty cfg ccfg ipv6String d now payload p e).
Proof.
  unfold subscribeCOVProperty. destruct (DecodeSubscribeCOVProperty _ _) as [r|]; [|constructor]. destruct (Object d _) as [o|]; [|constructor].
  destruct (sb_Cancellation _); [constructor|]. destruct (entryRead d o _); [|constructor].
  destruct (match sp_COVIncrement r with Some inc => _ | None => false end); [constructor|].
  apply startSubscription_served, newSub_fresh; [cbn; lia|]; intros t ref ->%list_elem_of_singleton Hr; cbn in Hr; apply elem_of_cons in Hr as [->|Hr]; [done|].
  destruct (_ && _); [by apply list_elem_of_singleton in Hr as ->|by apply not_elem_of_nil in Hr].
Qed.
Lemma subscribeCOVPropertyMultiple_served d now payload p e : served now e (subscribeCOVPropertyMultiple cfg ccfg ipv6String d now payload p e).
Proof.
  unfold subscribeCOVPropertyMultiple. destruct (DecodeSubscribeCOVPropertyMultiple _ _) as [r|]; [|constructor].
  destruct (sm_Cancellation r); [constructor|]. destruct (multipleTargets d _) as [|ts] eqn:E; [constructor|]. apply startSubscription_served, newSub_fresh; [done|].
  intros t ref Ht Hr. apply multipleTargets_unsent in E. rewrite Forall_forall in E. specialize (E t Ht). unfold unsent in E. rewrite Forall_forall in E. by apply E.
Qed.

(** *** SubscribeCOV *)

(** Who subscribes to what. *)
Record subIdentity := mkIdentity { si_kind : subKind; si_peer : peer; si_pid : Z; si_obj : ObjectIdentifier; si_prop : option PropertyReference }.
Definition identity_ok (i : subIdentity) : Prop := peer_ok (si_peer i) /\ is_u 32 (si_pid i) /\ oid_ok (si_obj i) /\ optP ref_ok (si_prop i).
Definition sameIdentity (i j : subIdentity) : Prop :=
  si_kind i = si_kind j /\ p_origin (si_peer i) = p_origin (si_peer j) /\ p_source (si_peer i) = p_source (si_peer j) /\
  si_pid i = si_pid j /\ si_obj i = si_obj j /\ si_prop i = si_prop j.
Definition keyOf (i : subIdentity) : string := subKey ipv6String (si_kind i) (si_peer i) (si_pid i) (si_obj i) (si_prop i).

Lemma keyOf_inj i j : identity_ok i -> identity_ok j -> keyOf i = keyOf j -> sameIdentity i j.
Proof. intros (H1 & H2 & H3 & H4) (H1' & H2' & H3' & H4') H. by apply subKey_inj in H. Qed.

(** The subscription that a SubscribeCOV request asks for. *)
Definition asked (now : Z) p (r : SubscribeCOVRequest) (s : covSub) : Prop :=
  su_kind s = subObject /\ su_to s = p_immediate p /\ su_dest s = p_source p /\ su_pid s = sb_ProcessIdentifier r /\ su_confirmed s = sb_IssueConfirmed r /\
  su_expires s = (if sb_Lifetime r =? 0 then None else Some (now + sb_Lifetime r * second)) /\ su_closed s = false /\
  map (fun t => (tg_obj t, map rf_prop (tg_refs t))) (su_targets s) =
    [(sb_MonitoredObject r, [mkPropertyReference PropertyPresentValue None; mkPropertyReference PropertyStatusFlags None])].

Lemma reporter_inv d id o : device_ok d -> Object d id = Some o -> isCOVReporter o = true ->
  entryIdentifier d o = id /\ exists obj, o = anObject obj /\ is_Some (COVIncrement obj).
Proof.
  intros Hd Ho Hr. destruct (Object_cases _ _ _ Hd Ho) as [_ Hi]. destruct o as [|obj]; [done|]. cbn in Hr. apply bool_decide_eq_true in Hr.
  split; [|by exists obj]. rewrite Hi. destruct (decide (id = AnyDevice)) as [->|]; [|done]. unfold Object in Ho. cbn in Ho. done.
Qed.

(** C14. SubscribeCOV: a request that decodes and names an object that
    reports changes either ends the subscription of its own subscriber,
    process and object, or puts the one it asks for in its place, with an
    initial notification due; every other subscription stays as it is. It is
    refused when the object is unknown or does not report, when the lifetime
    is longer than the server grants, and when the table is full and the
    subscription a new one; then, as for a request that does not decode,
    nothing changes. The table keeps its bound. *)
Theorem subscribe_cov_exact d now payload p e res kicked e' :
  engine_ok (cc_maxCOV ccfg) e -> device_ok d -> peer_ok p -> bytes_ok payload ->
  subscribeCOV cfg ccfg ipv6String d now payload p e = (res, kicked, e') ->
  engine_ok (cc_maxCOV ccfg) e' /\
  match DecodeSubscribeCOV payload (sc_limits cfg) with
  | Err err => res = rejectFor err /\ kicked = None /\ e' = e
  | Ok r =>
      let mine := mkIdentity subObject p (sb_ProcessIdentifier r) (sb_MonitoredObject r) None in
      (forall i, identity_ok i -> ~ sameIdentity i mine -> liveSub e' (keyOf i) = liveSub e (keyOf i)) /\
      match Object d (sb_MonitoredObject r) with
      | None => res = failWith ErrUnknownObject /\ kicked = None /\ e' = e
      | Some o =>
          if negb (isCOVReporter o) then res = failWith errCOVNotSupported /\ kicked = None /\ e' = e
          else if sb_Cancellation r then res = ack /\ kicked = None /\ liveSub e' (keyOf mine) = None
          else
            (res = ack /\ exists ptr s, kicked = Some ptr /\ ce_subs e' !! keyOf mine = Some ptr /\ liveSub e' (keyOf mine) = Some s /\ asked now p r s) \/
            (res = failWith errCOVLifetime /\ kicked = None /\ e' = e /\
               0 < cc_maxLifetime ccfg /\ (sb_Lifetime r = 0 \/ cc_maxLifetime ccfg < sb_Lifetime r * second)) \/
            (res = failWith errCOVNoSpace /\ kicked = None /\ e' = e /\ liveSub e (keyOf mine) = None /\ cc_maxCOV ccfg <= Z.of_nat (size (ce_subs e)))
      end
  end.
Proof.
  intros He Hd Hp Hb H. unfold subscribeCOV in H. pose proof (decode_typed (A := SubscribeCOVRequest) (sc_limits cfg) payload Hb) as Ht.
  cbn [decode SubscribeCOV_Codec typed] in Ht. destruct (DecodeSubscribeCOV payload (sc_limits cfg)) as [r|err]; [|by injection H as <- <- <-].
  cbn [yields] in Ht. destruct Ht as (Hpid & Ho & Hlife). set (mine := mkIdentity subObject p (sb_ProcessIdentifier r) (sb_MonitoredObject r) None).
  assert (identity_ok mine) as Hmine by done.
  assert (forall i, identity_ok i -> ~ sameIdentity i mine -> keyOf i <> keyOf mine) as Hne by (intros i Hi Hn Hk; by apply Hn, keyOf_inj).
  destruct (Object d (sb_MonitoredObject r)) as [o|] eqn:Eo; [|by injection H as <- <- <-].
  destruct (isCOVReporter o) eqn:Er; [|by injection H as <- <- <-]. cbn [negb] in *. destruct (reporter_inv _ _ _ Hd Eo Er) as [Hid _]. rewrite Hid in H.
  change (subKey ipv6String subObject p (sb_ProcessIdentifier r) (sb_MonitoredObject r) None) with (keyOf mine) in H. destruct (sb_Cancellation r).
  - injection H as <- <- <-. split; [by apply cancel_ok|]. split; [intros i Hi Hn; by eapply liveSub_cancel_ne, Hne|]. split_and!; [done|done|apply liveSub_cancel].
  - set (sub := newSub _ _ _ _ _ _ _) in H. assert (freshSub sub) as Hf.
    { apply newSub_fresh; [cbn; lia|]. intros t ref ->%list_elem_of_singleton Hr. cbn in Hr. set_solver. }
    pose proof (upsert_exact (cc_maxCOV ccfg) ccfg now sub e He eq_refl Hf) as Hup. unfold startSubscription in H.
    destruct (upsert ccfg now sub e) as [[ptr e1]|err]; injection H as <- <- <-.
    + destruct Hup as (He1 & Hs & Hl & Hrest). split; [done|]. split; [intros i Hi Hn; by apply Hrest, Hne|]. left. split; [done|].
      eexists ptr, _. split; [done|]. split; [done|]. split; [exact Hl|]. cbn [su_lifetime sub newSub]. destruct (Z.gtb_spec (sb_Lifetime r) 0).
      * unfold asked; cbn. replace (sb_Lifetime r =? 0) with false by lia. done.
      * unfold asked; cbn. unfold is_u in Hlife. replace (sb_Lifetime r =? 0) with true by lia. done.
    + split; [done|]. split; [done|]. right. destruct Hup as [(-> & H1 & H2)|(-> & H1 & H2)]; [by left|by right].
Qed.

(** A subscription request of any of the three kinds is a step of the
    engine in its surroundings: in every reachable world, what its handler
    does leads to a reachable world, in which the initial notification it
    announces is pending. *)
Theorem cov_requests_are_steps tracked now payload p d dcc e changes kicks runners evals lost garbled sent res kicked e' :
  reachable ccfg tracked (mkWorld d dcc e changes kicks runners evals lost garbled sent) ->
  subscribeCOV cfg ccfg ipv6String d now payload p e = (res, kicked, e') \/
  subscribeCOVProperty cfg ccfg ipv6String d now payload p e = (res, kicked, e') \/
  subscribeCOVPropertyMultiple cfg ccfg ipv6String d now payload p e = (res, kicked, e') ->
  reachable ccfg tracked (mkWorld d dcc e' changes (kicks ++ match kicked with Some ptr => [(ptr, true)] | None => [] end) runners evals lost garbled sent) /\
  (is_Some kicked -> res = ack).
Proof.
  intros Hw H. assert (served now e (res, kicked, e')) as Hs.
  { destruct H as [H|[H|H]]; rewrite <- H; [apply subscribeCOV_served|apply subscribeCOVProperty_served|apply subscribeCOVPropertyMultiple_served]. }
  inversion Hs as [r|key|sub ptr e1 Hf Hup]; subst; rewrite ?app_nil_r.
  - split; [done|]. by intros [? ?].
  - split; [|by intros [? ?]]. eapply reach_external; [exact Hw|]. constructor.
  - split; [|done]. eapply reach_external; [exact Hw|]. by eapply x_subscribe.
Qed.

End Requests.

(** ** Changes *)
Section Changes.
Context {O : Type} `{!ObjectOps O} {LT : LocalTime} `{!CovOps O}.
Context (ccfg : covConfig) (tracked : ObjectIdentifier -> PropertyReference -> Prop).
Implicit Types (d : Device O) (s : covSub) (t : covTarget).






(** C13. The engine comes to rest: from every reachable world its own steps
    cannot go on for ever, whatever their order, and they lead to a world in
    which nothing waits. *)
Theorem cov_drains w : reachable ccfg tracked w ->
  Acc (fun w2 w1 => internal w1 w2) w /\ exists w', rtc internal w w' /\ quiescent w'.
Proof.
  intros Hw. assert (forall w0 : world, Acc (fun w2 w1 => internal w1 w2) w0) as Hacc.
  { intros w0. induction (before_wf w0) as [w0 _ IH]. constructor. intros w1 H1. by apply IH, internal_before. }
  split; [done|]. induction (Hacc w) as [w _ IH].
  assert (quiescent w \/ ~ quiescent w) as [Hq|Hq].
  { unfold quiescent. destruct (w_changes w), (w_kicks w); [|by right; intros (? & ? & ?)..].
    destruct (decide (w_runners w = ∅)); [|by right; intros (? & ? & ? & ?)]. destruct (decide (w_evals w = ∅)); [by left|by right; intros (? & ? & ? & ?)]. }
  - exists w. split; [apply rtc_refl|done].
  - destruct (world_progress _ _ _ Hw Hq) as [w1 H1]. destruct (IH w1 H1) as (w2 & H2 & Hq2); [by eapply reach_internal|].
    exists w2. split; [by eapply rtc_l|done].
Qed.

(** *** What a notification says *)

(** The readable properties of an object and their values. *)
Definition currentValues d (o : entry O) (refs : list covRef) : list PropertyValue :=
  omap (fun ref => match entryRead d o (rf_prop ref) with Ok v => Some (mkPropertyValue (rf_prop ref) v None) | Err _ => None end) refs.

Lemma readValue_current d now o refs :
  map (fun '(ref, v) => mkPropertyValue (rf_prop ref) v None) (omap readValue (map (evalRef d now o) refs)) = currentValues d o refs.
Proof.
  assert (forall ref, (fun '(ref, v) => mkPropertyValue (rf_prop ref) v None) <$> readValue (evalRef d now o ref) =
    match entryRead d o (rf_prop ref) with Ok v => Some (mkPropertyValue (rf_prop ref) v None) | Err _ => None end) as Hone.
  { intros ref. unfold readValue, evalRef. destruct (entryRead d o (rf_prop ref)) as [v|]; [|done]. by destruct (covIncrementOf o). }
  induction refs as [|ref refs IH]; [done|]. unfold currentValues in *. cbn [map omap list_omap]. rewrite <- Hone.
  destruct (readValue (evalRef d now o ref)) as [[r v]|]; cbn; [f_equal|]; exact IH.
Qed.

(** C15. A notification of a SubscribeCOV or SubscribeCOVProperty
    subscription, as the subscriber decodes it, names the process, the
    device and the monitored object, the time that is left, and carries
    exactly the readable properties with the values that the device has; its
    service is the confirmed or unconfirmed one that was asked for. *)
Theorem cov_notification_exact d now dcc s initial confirmed svc payload s' dcc' t o lim :
  evaluate d now dcc s initial = (evNotify confirmed svc payload, s', dcc') ->
  su_kind s <> subMultiple -> su_targets s = [t] -> Object d (tg_obj t) = Some o ->
  let note := mkCOVNotification (su_pid s) (Identifier d) (tg_obj t) (remaining (su_expires s) now) (currentValues d o (tg_refs t)) in
  fits lim note ->
  DecodeCOVNotification payload lim = Ok note /\ confirmed = su_confirmed s /\
  svc = (if confirmed then ServiceConfirmedCOVNotification else ServiceUnconfirmedCOV).
Proof.
  intros He Hk Ht Ho note Hfits. destruct (decode_encode (A := COVNotification) lim note Hfits) as (bs & Hbs & _ & Hdec).
  cbn [encode decode COVNotification_Codec] in Hbs, Hdec. unfold evaluate in He. cbv zeta in He. rewrite Ht in He.
  destruct (negb (initial || _)); [done|]. destruct (mayInitiate now dcc) as [may dcc1]. destruct (negb may); [done|]. injection He as Hn _ _.
  unfold notification in Hn. rewrite bool_decide_false in Hn by done. unfold sendOf in Hn. cbn [map omap list_omap] in Hn. unfold sendValues, evalTarget in Hn.
  cbn [ed_readings ed_obj] in Hn. rewrite Ho in Hn. unfold singleNote in Hn. rewrite readValue_current in Hn. fold note in Hn. rewrite Hbs in Hn.
  injection Hn as <- <- <-. split; [done|]. split; [done|]. by destruct (su_confirmed s).
Qed.
End Changes.
