(* ===== verification/CovPoints.v ===== *)
(** * Points report their changes

    What the COV engine relies on, for the point objects of
    [server/object/point.go]: a write that succeeds and reports no change
    changed nothing, so every write of a served point is a reported change in
    the sense of [CovSafety.v]. *)

From Stdlib Require Import ZArith Lia.
From stdpp Require Import base list gmap.
From S2P Require Import Prelude Value Ids Tags Access Object Commandable Events Point PointSafety Device DeviceSafety CovEngine CovSafety.
#[local] Open Scope Z_scope.

Section Honest.
Context {S : Type}.
Implicit Types (b : Base S) (p : Property S).

(** A write that reports nothing changes nothing. *)
Definition honestSet p : Prop := match p_Set p with Some set => forall w s s', set w s = Ok ([], s') -> s' = s | None => True end.
Definition honestSets b : Prop := forall id p, b_props b !! id = Some p -> honestSet p.

Lemma honest_Define id p b : honestSets b -> honestSet p -> honestSets (Define id p b).
Proof. intros Hb Hp id' q Hq. rewrite lookup_Define in Hq. destruct (decide (id = id')); [by injection Hq as <-|by eapply Hb]. Qed.
Lemma honest_NewBase id name s : honestSets (NewBase id name s).
Proof. unfold NewBase. repeat (apply honest_Define; [|done]). intros id' p Hp. cbn in Hp. by rewrite lookup_empty in Hp. Qed.
Lemma honest_putState s b : honestSets b -> honestSets (putState s b).
Proof. done. Qed.

Lemma honest_written b w changed b' : honestSets b -> written b w changed b' -> honestSets b' /\ (changed = [] -> b' = b).
Proof.
  intros Hb [q set ch s Hq _ Hs Hr|q x Hq _ Hs]; (split; [|]); try done.
  - intros ->. pose proof (Hb _ _ Hq) as Hh. unfold honestSet in Hh. rewrite Hs in Hh. rewrite (Hh _ _ _ Hr).
    unfold putState, setState. by destruct b as [[] ? ? ?].
  - intros id p Hp. cbn in Hp. destruct (decide (pr_Identifier (w_Property w) = id)) as [<-|Hne]; [|rewrite lookup_insert_ne in Hp by done; by eapply Hb].
    rewrite lookup_insert_eq in Hp. injection Hp as <-. unfold honestSet. cbn. by rewrite Hs.
Qed.
End Honest.

Lemma honest_scalar check changed put req get : changed <> [] -> honestSet (settable req get (scalarSet check changed put)).
Proof.
  intros Hc w s s'. cbn. unfold scalarSet. destruct (pr_ArrayIndex _); [done|]. intros H. apply bind_Ok_inv in H as (u & _ & H). by injection H.
Qed.
Lemma honest_eventStates id get set : honestSet (eventStates id get set).
Proof.
  intros w s s'. cbn. destruct (pr_ArrayIndex _); [done|]. intros H. apply bind_Ok_inv in H as (vals & _ & H). by apply bind_Ok_inv in H as (next & _ & H).
Qed.
Lemma honest_relinquish : honestSet (S := pointState) relinquishProperty.
Proof.
  intros w s s'. cbn. unfold setRelinquish. destruct (pr_ArrayIndex _); [done|]. intros H. apply bind_Ok_inv in H as (u & _ & H). cbv zeta in H.
  by destruct (negb _).
Qed.
Lemma honest_present : honestSet (S := pointState) presentProperty.
Proof.
  intros w s s'. cbn. unfold setPresent. destruct (pr_ArrayIndex _); [done|]. intros H. apply bind_Ok_inv in H as (u & _ & H). cbv zeta in H.
  apply bind_Ok_inv in H as (pa & _ & H). by destruct (negb _).
Qed.
Lemma honest_value : honestSet (settable true pt_pv writePresentValue).
Proof.
  intros w s s'. cbn. unfold writePresentValue. destruct (pr_ArrayIndex _); [done|]. destruct (_ && _); [done|]. intros H.
  apply bind_Ok_inv in H as (u & _ & H). destruct (sameValue _ _); by injection H.
Qed.
Lemma honest_outOfService : honestSet (settable true (fun p => BoolValue (pt_outOfService p)) writeOutOfService).
Proof.
  intros w s s'. cbn. unfold writeOutOfService. destruct (pr_ArrayIndex _); [done|]. destruct (bool_decide _); [done|]. destruct (bool_decide _); [|done].
  by intros [= <-].
Qed.
Create HintDb honest.
#[local] Hint Resolve honest_eventStates honest_relinquish honest_present honest_value honest_outOfService : honest.
#[local] Hint Extern 1 (honestSet _) => apply honest_scalar; discriminate : honest.
#[local] Hint Extern 2 (honestSet _) => exact I : honest.
Ltac honest_step := apply honest_Define; [|solve [auto with honest]].

Lemma newPoint_honest {LT : LocalTime} t kind input cm cfg b : newPoint t kind input cm cfg = Ok b -> honestSets b.
Proof.
  unfold newPoint. destruct (_ >? _); [done|]. destruct (_ =? 0); [done|]. intros H. apply bind_Ok_inv in H as ([[initial inc] states] & _ & H).
  set (b1 := NewBase _ _ _) in H. set (b2 := definePresentValue cm b1) in H. set (b3 := defineCommon cfg b2) in H.
  set (b4 := defineFamily t kind cfg b3) in H. assert (honestSets b1) as H1 by apply honest_NewBase. clearbody b1.
  assert (honestSets b2) as H2 by (unfold b2, definePresentValue, defineCommandable; destruct cm; repeat honest_step; done). clearbody b2.
  assert (honestSets b3) as H3 by (unfold b3, defineCommon; destruct (pc_Description cfg); repeat honest_step; done). clearbody b3.
  assert (honestSets b4) as H4 by (unfold b4, defineFamily; destruct kind;
    [|destruct (negb _), (pc_ActiveText cfg), (pc_InactiveText cfg)|destruct (pc_StateText cfg)]; repeat honest_step; done).
  clearbody b4. destruct (pc_Events cfg) as [ev|]; [|by injection H as <-]. destruct (checkEvents _ _ _ _); [|done]. injection H as <-.
  unfold defineEvents. destruct (pt_kind _); repeat honest_step; by apply honest_putState.
Qed.

(** The properties of every object but the Device, whose clock and table
    properties change unreported. *)
Definition ofObjects (id : ObjectIdentifier) (ref : PropertyReference) : Prop := oid_Type id <> ObjectTypeDevice.

(** A point whose changes are observed and whose writes are honest. *)
Definition servedPoint (b : Base pointState) : Prop := b_notify b = true /\ honestSets b.

Lemma written_served b w changed b' : servedPoint b -> written b w changed b' -> servedPoint b'.
Proof. intros [Hn Hh] Hw. split; [by destruct Hw|by eapply honest_written]. Qed.

Lemma WriteProperty_written (b : Base pointState) w cs b' : WriteProperty b w = Ok (cs, b') ->
  exists changed, cs = notifyChange b changed /\ written b w changed b'.
Proof.
  cbn [WriteProperty Base_ops]. unfold baseWriteProperty. intros H. apply bind_Ok_inv in H as ([changed b1] & Hb & H). injection H as <- <-.
  exists changed. split; [done|by apply writeLocked_written].
Qed.

Lemma Update_state fn (b : Base pointState) cs b' : Update fn b = (cs, b') -> exists s, b' = putState s b.
Proof. unfold Update. destruct (fn _) as [ch s]. intros [= _ <-]. by exists s. Qed.

Lemma served_step {LT : LocalTime} b b' : servedPoint b -> point_step b b' -> servedPoint b'.
Proof.
  intros Hs [b1 [w cs b2 H|v cs b2 H|r|state stamp ev cs b2 H]|now ack evs cs b1 H].
  - apply WriteProperty_written in H as (changed & _ & Hw). by eapply written_served.
  - unfold SetPresentValue in H. apply bind_Ok_inv in H as (u & _ & H). injection H as H. by destruct (Update_state _ _ _ _ H) as [s ->].
  - destruct (Update_state _ _ _ _ (surjective_pairing (SetReliability r b))) as [s Hr]. by rewrite Hr.
  - unfold AcknowledgeAlarm in H. apply bind_Ok_inv in H as ([[e ch] s] & _ & H). by injection H as _ _ <-.
  - unfold EvaluateEvents in H. destruct (Events.evaluate _ _ _ _) as [[e ch] s]. by injection H as _ _ <-.
Qed.

(** A point of the server: [newPoint] made it, the device observes it, and
    its clients, its application and the event engine did what they can. *)
Definition point_of_server {LT : LocalTime} (b : Base pointState) : Prop :=
  exists t kind input cm cfg b0, newPoint t kind input cm cfg = Ok b0 /\ rtc point_step (SetNotifier true b0) b.

Lemma point_served {LT : LocalTime} b : point_of_server b -> servedPoint b.
Proof.
  intros (t & kind & input & cm & cfg & b0 & Hn & Hrun). assert (servedPoint (SetNotifier true b0)) as Hs.
  { split; [done|]. intros id p Hp. exact (newPoint_honest _ _ _ _ _ _ Hn id p Hp). }
  induction Hrun as [|x y z Hxy _ IH]; [done|]. apply IH. by eapply served_step.
Qed.

(** C16. Every write of a point, as [newPoint] makes it and whatever happened
    to it since, that changes what any property of any object reads - a
    command, a relinquished priority, a change of limits or of the COV
    increment - reports the point to the observers, so that the COV engine is
    told; and the device then holds the point as the write left it. *)
Theorem point_writes_reported {LT : LocalTime} (d d' : Device (Base pointState)) id b w cs : device_ok d ->
  Object d id = Some (anObject b) -> point_of_server b -> entryWrite d (anObject b) w = Ok (cs, d') ->
  reported ofObjects d cs d' /\ exists b', Object d' id = Some (anObject b') /\ point_of_server b'.
Proof.
  intros Hd Ho Hpt Hw. destruct (point_served _ Hpt) as [Hn Hh]. unfold entryWrite in Hw.
  apply bind_Ok_inv in Hw as ([changed b'] & Hb & Hw). injection Hw as <- <-.
  assert (point_of_server b') as Hpt'.
  { destruct Hpt as (t & kind & input & cm & cfg & b0 & Hnew & Hrun). exists t, kind, input, cm, cfg, b0. split; [done|].
    eapply rtc_r; [exact Hrun|]. by eapply step_quiet, step_write. }
  destruct (Object_cases _ _ _ Hd Ho) as [Ht Hid]. cbn [entryIdentifier] in *.
  assert (id <> AnyDevice) as Hany by (intros ->; unfold Object in Ho; cbn in Ho; done). rewrite decide_False in Hid by done. rewrite Hid in *.
  destruct (dk_object _ Hd _ _ Ht) as [_ Hty].
  cbn [WriteProperty Base_ops] in Hb. unfold baseWriteProperty in Hb. apply bind_Ok_inv in Hb as ([ch b1] & Hb & Hc). injection Hc as <- <-.
  pose proof (writeLocked_written _ _ _ _ Hb) as Hwr. destruct (honest_written _ _ _ _ Hh Hwr) as [Hh' Hsame].
  assert (forall i, oid_Type i <> ObjectTypeDevice -> Object (putObject id b1 d) i = if decide (id = i) then Some (anObject b1) else Object d i) as Hput.
  { intros i Hi. unfold Object. replace (oid_Type i =? ObjectTypeDevice) with false by (symmetry; by apply Z.eqb_neq). cbn [andb].
    unfold putObject, updateTables, tablesOf. cbn [putState b_view o_state setState putObjects tb_objects].
    destruct (decide (id = i)) as [<-|Hne]; [by rewrite lookup_insert_eq|by rewrite lookup_insert_ne]. }
  change (putObject (o_id (b_view b)) b1 d) with (putObject (Identifier b) b1 d). rewrite Hid.
  split; [|exists b1; rewrite Hput by done; by rewrite decide_True].
  intros i ref Hi Hcs. unfold readingOf. rewrite Hput by done. destruct (decide (id = i)) as [<-|Hne].
  - rewrite Ho. destruct ch as [|c ch]; [by rewrite (Hsame eq_refl)|]. exfalso. unfold notifyChange in Hcs. rewrite Hn in Hcs.
    replace (len (c :: ch) >? 0) with true in Hcs by (symmetry; apply Z.gtb_lt; len_lia). cbn [andb] in Hcs.
    apply (Hcs (mkChange (o_id (b_view b)) (c :: ch))); [by apply list_elem_of_singleton|]. exact Hid.
  - destruct (Object d i) as [e|] eqn:Ei; [|done]. destruct e as [|o]; [|done]. exfalso. apply Hi.
    destruct (Object_cases _ _ _ Hd Ei) as [He _]. unfold Object in Ei. replace (oid_Type i =? ObjectTypeDevice) with false in Ei by (symmetry; by apply Z.eqb_neq).
    apply (dk_device _ Hd) in Ei as ->. apply Hd.
Qed.
