(* ===== verification/CovWitnesses.v ===== *)
(** * COV at concrete inputs

    A SubscribeCOV of the binary output of [ServerWitnesses.v], its initial
    notification and the engine at rest afterwards. *)

From Stdlib Require Import ZArith Lia.
From stdpp Require Import base list gmap strings relations.
From S2P Require Import Prelude Value Ids Tags Constructed Apdu Codec Access AccessMultiple Address Endpoint Responder ServerKey ServerPacket Object Commandable Events Point PointSafety PointWitnesses Device DeviceSafety DataHandlers ServerWitnesses PropertyValues CovCodecs CovMultiple CovEngine CovSafety CovService CovPoints.
#[local] Open Scope Z_scope.

Definition covLimits : covConfig := mkCovConfig 2 0.
Definition subscribeFan : SubscribeCOVRequest := mkSubscribeCOV 18 fanID false 60 false.
Definition subscribePayload : bytes := Eval vm_compute in okOr [] (EncodeSubscribeCOV subscribeFan).
Definition noEngine : covEngine := newCOVEngine.
Definition subscribed : covReply := subscribeCOV sampleServer covLimits noIPv6 device1 0 subscribePayload samplePeer noEngine.

Lemma subscribePayload_decodes : DecodeSubscribeCOV subscribePayload (sc_limits sampleServer) = Ok subscribeFan.
Proof. by vm_compute. Qed.

Lemma samplePeer_ok : peer_ok samplePeer.
Proof. apply sample_arrives. Qed.

Lemma device1_ok : device_ok device1.
Proof. exact (device_run_ok _ _ (proj1 (NewDevice_ok _ _ _ device_new)) device_run1). Qed.

Definition replyAck (r : covReply) : bool := match r with (ack, _, _) => true | _ => false end.
Definition fanReports : bool := match Object device1 fanID with Some o => isCOVReporter o | None => false end.

Lemma subscribe_cov_exact_witness : exists ptr s, snd (fst subscribed) = Some ptr /\
  liveSub (snd subscribed) (keyOf noIPv6 (mkIdentity subObject samplePeer 18 fanID None)) = Some s /\
  su_pid s = 18 /\ su_expires s = Some (60 * second).
Proof.
  assert (bytes_ok subscribePayload) as Hb by (unfold subscribePayload; solve_bytes).
  pose proof (subscribe_cov_exact sampleServer covLimits noIPv6 device1 0 subscribePayload samplePeer noEngine (fst (fst subscribed)) (snd (fst subscribed))
    (snd subscribed) (newCOVEngine_ok _) device1_ok samplePeer_ok Hb ltac:(unfold subscribed; by rewrite <- !surjective_pairing)) as [_ H].
  rewrite subscribePayload_decodes in H. destruct H as [_ H]. assert (fanReports = true) as Hf by (by vm_compute). unfold fanReports in Hf.
  cbn [sb_MonitoredObject subscribeFan sb_ProcessIdentifier sb_Cancellation] in H. destruct (Object device1 fanID) as [o|]; [|discriminate].
  rewrite Hf in H. cbn [negb] in H. assert (replyAck subscribed = true) as Ha by (by vm_compute). unfold replyAck in Ha.
  destruct H as [(_ & ptr & s & H1 & _ & H3 & H4)|[(H & _)|(H & _)]].
  - exists ptr, s. split; [exact H1|]. split; [exact H3|]. destruct H4 as (_ & _ & _ & Hp & _ & He & _). split; [exact Hp|exact He].
  - exfalso. destruct subscribed as [[[] ?] ?]; discriminate.
  - exfalso. destruct subscribed as [[[] ?] ?]; discriminate.
Defined.

(** ** From the request to rest *)
Definition control0 : dccState := mkDcc EnableDisableEnable None.
Definition world0 : world (O := Base pointState) := mkWorld device1 control0 noEngine [] [] ∅ ∅ ∅ ∅ [].
Definition engine1 : covEngine := Eval vm_compute in snd subscribed.
Definition engine2 : covEngine := Eval vm_compute in fst (kick 0 true engine1).
Definition engine3 : covEngine := Eval vm_compute in fst (runTake 0 engine2).
Definition noSub : covSub := newSub subObject EmptyString samplePeer 0 false 0 [].
Definition sub3 : covSub := Eval vm_compute in default noSub (ce_heap engine3 !! 0).
Definition evaluation := Eval vm_compute in evaluate device1 0 control0 sub3 true.
Definition sub4 : covSub := Eval vm_compute in snd (fst evaluation).
Definition firstPayload : bytes := Eval vm_compute in match fst (fst evaluation) with evNotify _ _ payload => payload | _ => [] end.

Lemma subscribed_engine : subscribed = (ack, Some 0, engine1).
Proof. by vm_compute. Qed.
Lemma fan_evaluated : evaluate device1 0 control0 sub3 true = (evNotify false ServiceUnconfirmedCOV firstPayload, sub4, control0).
Proof. by vm_compute. Qed.

Definition world1 : world (O := Base pointState) := mkWorld device1 control0 engine1 [] [(0, true)] ∅ ∅ ∅ ∅ [].


Lemma cov_requests_are_steps_witness : reachable covLimits ofObjects world1.
Proof.
  apply (cov_requests_are_steps sampleServer covLimits noIPv6 ofObjects 0 subscribePayload samplePeer device1 control0 noEngine [] [] ∅ ∅ ∅ ∅ []
    ack (Some 0) engine1).
  - apply reach_init.
  - left. exact subscribed_engine.
Defined.

Lemma subscription_starts : exists sub, freshSub sub /\ upsert covLimits 0 sub noEngine = Ok (0, engine1).
Proof.
  pose proof (subscribeCOV_served sampleServer covLimits noIPv6 device1 0 subscribePayload samplePeer noEngine) as H.
  change (subscribeCOV _ _ _ _ _ _ _ _) with subscribed in H. rewrite subscribed_engine in H. inversion H as [| |sub ptr e' Hf Hup]. by exists sub.
Qed.

Lemma world1_reachable tracked : reachable covLimits tracked world1.
Proof.
  destruct subscription_starts as (sub & Hf & Hup). eapply reach_external; [apply (reach_init covLimits tracked device1 control0)|].
  exact (x_subscribe covLimits tracked device1 control0 noEngine [] [] ∅ ∅ ∅ ∅ [] 0 sub 0 engine1 Hf Hup).
Qed.





Lemma cov_drains_witness : exists w', rtc internal world1 w' /\ quiescent w'.
Proof. destruct (cov_drains covLimits ofObjects world1 (world1_reachable _)) as [_ H]. exact H. Defined.

Definition fanNote : COVNotification :=
  mkCOVNotification 18 (mkObjectID ObjectTypeDevice 1234) fanID 60
    [mkPropertyValue presentRef (EnumValue 0) None; mkPropertyValue statusFlagsRef (bitStringValue (mkBitString 4 [0])) None].

Definition target3 : covTarget := Eval vm_compute in default (mkCovTarget fanID []) (head (su_targets sub3)).

Lemma noFlags_fits : value_ok (Normalize DefaultDecodeLimits) 0 (bitStringValue (mkBitString 4 [0])).
Proof.
  apply (vf_primitive _ _ (bitStringValue (mkBitString 4 [0]))), ap_bits; [lia|done|solve_bytes|done|by vm_compute].
Qed.

Lemma fanNote_fits : fits DefaultDecodeLimits fanNote.
Proof.
  split; [vm_compute; intuition congruence|]. split; [discriminate|]. exists 0%nat. split; [|vm_compute; intuition congruence].
  constructor; [split; [split; [vm_compute; intuition congruence|done]|split; [apply enum_fits; unfold is_u; lia|done]]|]. apply Forall_singleton.
  split; [split; [vm_compute; intuition congruence|done]|]. split; [apply noFlags_fits|done].
Qed.

Lemma cov_notification_exact_witness : DecodeCOVNotification firstPayload DefaultDecodeLimits = Ok fanNote.
Proof.
  assert (exists o, Object device1 fanID = Some o) as [o Ho].
  { assert (fanReports = true) as Hf by (by vm_compute). unfold fanReports in Hf. destruct (Object device1 fanID) as [o|]; [by exists o|discriminate]. }
  assert (currentValues device1 o (tg_refs target3) = cn_Values fanNote) as Hv.
  { assert (match Object device1 fanID with Some o => currentValues device1 o (tg_refs target3) | None => [] end = cn_Values fanNote) as Hv by (by vm_compute).
    by rewrite Ho in Hv. }
  pose proof (cov_notification_exact device1 0 control0 sub3 true false ServiceUnconfirmedCOV firstPayload sub4 control0 target3 o DefaultDecodeLimits
    fan_evaluated ltac:(discriminate) ltac:(by vm_compute) Ho) as H. cbv zeta in H. rewrite Hv in H.
  match type of H with context [mkCOVNotification _ ?i _ _ _] => replace i with (mkObjectID ObjectTypeDevice 1234) in H by (by vm_compute) end.
  change (tg_obj target3) with fanID in H. replace (remaining (su_expires sub3) 0) with 60 in H by (by vm_compute).
  destruct (H fanNote_fits) as [Hd _]. exact Hd.
Defined.

Definition switchOn : Write := mkWrite presentRef (EnumValue 1) 8.

Lemma fan_served : Object device1 fanID = Some (anObject (SetNotifier true fan0)) /\ point_of_server (SetNotifier true fan0).
Proof.
  destruct (Add_inv _ _ _ _ device_added) as (_ & _ & _ & _ & _ & _ & Hd). split.
  - rewrite Hd. unfold Object. change (oid_Type fanID =? ObjectTypeDevice) with false. cbn [andb tablesOf putState b_view o_state setState revise tb_objects].
    replace (Identifier fan0) with fanID by (by vm_compute). apply lookup_insert_eq.
  - do 6 eexists. split; [exact fan_new|apply rtc_refl].
Qed.

Definition switched : bool := match entryWrite device1 (anObject (SetNotifier true fan0)) switchOn with Ok (cs, _) => negb (len cs =? 0) | Err _ => false end.

Lemma point_writes_reported_witness : exists cs d', reported ofObjects device1 cs d' /\ cs <> [].
Proof.
  destruct fan_served as [Hf Hs]. assert (switched = true) as Hsw by (by vm_compute). unfold switched in Hsw.
  destruct (entryWrite device1 (anObject (SetNotifier true fan0)) switchOn) as [[cs d']|] eqn:E; [|discriminate].
  exists cs, d'. destruct (point_writes_reported device1 d' fanID (SetNotifier true fan0) switchOn cs device1_ok Hf Hs E) as [Hr _].
  split; [exact Hr|]. intros ->. discriminate.
Defined.
