(* ===== verification/ObjectCreation.v ===== *)
(** * The object that CreateObject makes

    The specification of CreateObject - the name a request asks for, the
    object a factory makes, what the initial values do, why a creation is
    refused - and the proof that the loops of [ObjectHandlers.v] and [Create]
    of [Device.v] follow it. *)

From Stdlib Require Import ZArith Lia.
From stdpp Require Import base list gmap relations.
From S2P Require Import Prelude Value Ids Tags Constructed Writer Apdu Codec Access Responder ServerKey ServerPacket Object Events Device DeviceSafety DataHandlers DataService PropertyValues ObjectServices ObjectHandlers.
#[local] Open Scope Z_scope.

Section Creation.
Context {O : Type} `{!ObjectOps O} `{!ObjectLaws O} `{!ListOps O} {LT : LocalTime}.
Context (cfg : serverConfig).
Implicit Types (d : Device O).

(** ** The specification *)

(** What a request asks for: the type of its identifier, and the instance
    unless it is the wildcard; or just a type. *)
Definition asks (req : CreateObjectRequest) (t : Z) (inst : option Z) : Prop :=
  match co_Identifier req with
  | Some id => t = oid_Type id /\ inst = if decide (oid_Instance id = WildcardInstance) then None else Some (oid_Instance id)
  | None => co_Type req = Some t /\ inst = None
  end.

(** The initial values for Object_Name, and those that can be names: a
    non-empty character string, the whole property, that no object has. *)
Definition isName (pv : PropertyValue) : Prop := pr_Identifier (pv_Property pv) = PropertyObjectName.
#[export] Instance isName_dec pv : Decision (isName pv).
Proof. unfold isName. apply _. Defined.
Definition stringValue (pv : PropertyValue) : Prop :=
  av_Kind (pv_Value pv) = ValueCharacterString /\ cs_Value (av_Character (pv_Value pv)) <> [] /\ pr_ArrayIndex (pv_Property pv) = None.
Definition nameValue (pv : PropertyValue) : bytes := cs_Value (av_Character (pv_Value pv)).
Definition goodName d (pv : PropertyValue) : Prop := stringValue pv /\ tb_names (tablesOf d) !! nameValue pv = None.

(** The object [o] as a factory made it under the instance and the name asked
    for - the last one, if there are several -, in a table that held neither,
    observed and deletable. *)
Definition made d (t : Z) (inst : option Z) (vals : list PropertyValue) (id : ObjectIdentifier) (o : O) d1 : Prop :=
  exists f i nm o0, tb_factories (tablesOf d) !! t = Some f /\ f i nm = Ok o0 /\
    o = SetNotifier true (if isBase o0 then SetDeletable true o0 else o0) /\
    id = mkObjectID t i /\ 0 <= i < MaxObjectInstance /\ (forall j, inst = Some j -> i = j) /\
    Name o = nm /\ nm <> [] /\ (forall pv, last (filter isName vals) = Some pv -> nm = nameValue pv) /\
    tb_objects (tablesOf d) !! id = None /\ tb_names (tablesOf d) !! nm = None /\
    tb_objects (tablesOf d1) = <[id := anObject o]> (tb_objects (tablesOf d)) /\ tb_names (tablesOf d1) = <[nm := id]> (tb_names (tablesOf d)).

(** Why no object is made. *)
Inductive refusesCreation d (t : Z) (inst : option Z) : error -> Prop :=
| rc_notCreatable : tb_factories (tablesOf d) !! t = None -> t <> ObjectTypeDevice ->
    (exists id, is_Some (tb_objects (tablesOf d) !! id) /\ oid_Type id = t) -> refusesCreation d t inst ErrNotCreatable
| rc_unsupported : tb_factories (tablesOf d) !! t = None ->
    (t <> ObjectTypeDevice -> ~ exists id, is_Some (tb_objects (tablesOf d) !! id) /\ oid_Type id = t) -> refusesCreation d t inst ErrUnsupportedType
| rc_range f i : tb_factories (tablesOf d) !! t = Some f -> inst = Some i -> MaxObjectInstance <= i -> refusesCreation d t inst ErrValueOutOfRange
| rc_exists f i : tb_factories (tablesOf d) !! t = Some f -> inst = Some i -> i < MaxObjectInstance -> is_Some (Object d (mkObjectID t i)) ->
    refusesCreation d t inst ErrObjectExists
| rc_factory f i nm e : tb_factories (tablesOf d) !! t = Some f -> (forall j, inst = Some j -> i = j) -> f i nm = Err e -> refusesCreation d t inst e
| rc_device f : tb_factories (tablesOf d) !! t = Some f -> t = ObjectTypeDevice -> refusesCreation d t inst ErrOther
| rc_full f : tb_factories (tablesOf d) !! t = Some f -> dc_MaxObjects (tb_cfg (tablesOf d)) <= Z.of_nat (size (tb_objects (tablesOf d))) ->
    refusesCreation d t inst ErrNoSpaceForObject.

(** What an initial value does: the name was set already; an identifier or a
    type must be the one the object has; the others are written. *)
Definition readsAs d (e : entry O) (pv : PropertyValue) : Prop :=
  exists wire, AppendApplicationValue [] (match entryRead d e (pv_Property pv) with Ok v => v | Err _ => NullValue end) = Ok wire /\
    AppendApplicationValue [] (pv_Value pv) = Ok wire.
Definition isIdentity (pv : PropertyValue) : Prop :=
  pr_Identifier (pv_Property pv) = PropertyObjectIdentifier \/ pr_Identifier (pv_Property pv) = PropertyObjectType.
Definition asWrite (pv : PropertyValue) : Write := mkWrite (pv_Property pv) (pv_Value pv) (default 0 (pv_Priority pv)).
Inductive accepts (id : ObjectIdentifier) (pv : PropertyValue) d : list Change -> Device O -> Prop :=
| acc_name : isName pv -> accepts id pv d [] d
| acc_identity e : isIdentity pv -> tb_objects (tablesOf d) !! id = Some e -> readsAs d e pv -> accepts id pv d [] d
| acc_write e cs d' : ~ isName pv -> ~ isIdentity pv -> tb_objects (tablesOf d) !! id = Some e ->
    entryWrite d e (asWrite pv) = Ok (cs, d') -> accepts id pv d cs d'.
Inductive refuses (id : ObjectIdentifier) (pv : PropertyValue) d : error -> Prop :=
| ref_identity e : isIdentity pv -> tb_objects (tablesOf d) !! id = Some e -> ~ readsAs d e pv -> refuses id pv d ErrWriteAccessDenied
| ref_write e err : ~ isName pv -> ~ isIdentity pv -> tb_objects (tablesOf d) !! id = Some e ->
    entryWrite d e (asWrite pv) = Err err -> refuses id pv d err.
(** All of them, in order. *)
Inductive acceptsAll (id : ObjectIdentifier) : list PropertyValue -> Device O -> list Change -> Device O -> Prop :=
| aa_nil d : acceptsAll id [] d [] d
| aa_cons pv vals d cs d1 cs' d2 : accepts id pv d cs d1 -> acceptsAll id vals d1 cs' d2 -> acceptsAll id (pv :: vals) d (cs ++ cs') d2.

(** ** The loops *)

(** The initial values that were accepted, in order. *)
Fixpoint acceptedValues (id : ObjectIdentifier) (vals : list PropertyValue) d : result (list Change * Device O) :=
  match vals with
  | [] => Ok ([], d)
  | pv :: vals =>
      let* (changes, d) := initialValue id pv d in
      let* (more, d) := acceptedValues id vals d in
      Ok (changes ++ more, d)
  end.

(** Only the object [id] differs. *)
Definition sameBut (id : ObjectIdentifier) (o' : entry O) d d' : Prop :=
  tb_objects (tablesOf d') = <[id := o']> (tb_objects (tablesOf d)) /\ tb_names (tablesOf d') = tb_names (tablesOf d).

Lemma initialValue_frame id pv d cs d' o : device_ok d -> tb_objects (tablesOf d) !! id = Some (anObject o) ->
  initialValue id pv d = Ok (cs, d') ->
  rtc device_step d d' /\ exists o', sameBut id (anObject o') d d' /\ Name o' = Name o /\ Deletable o' = Deletable o.
Proof.
  intros Hd Ho. unfold initialValue. cbv zeta. rewrite Ho.
  assert (rtc device_step d d /\ exists o', sameBut id (anObject o') d d /\ Name o' = Name o /\ Deletable o' = Deletable o) as Hsame.
  { split; [done|]. exists o. split; [|done]. split; [by rewrite insert_id|done]. }
  destruct (_ =? PropertyObjectName); [by intros [= _ <-]|]. destruct (_ || _).
  { destruct (sameApp _ _); [by intros [= _ <-]|done]. }
  intros H. destruct (dk_object _ Hd _ _ Ho) as [Hid Hty]. split.
  - apply rtc_once. eapply (dstep_write _ id (anObject o)); [|exact H]. unfold Object. apply Z.eqb_neq in Hty. by rewrite Hty.
  - cbn [entryWrite] in H. apply bind_Ok_inv in H as ([c o'] & Hw & [= _ <-]). exists o'. split; [|split; [by eapply write_Name|by eapply write_Deletable]].
    split; [|done]. by rewrite <- Hid.
Qed.

Lemma initialValues_spec id vals : forall i d o r cs d', device_ok d -> tb_objects (tablesOf d) !! id = Some (anObject o) ->
  initialValues id i vals d = (r, cs, d') -> rtc device_step d d' /\
  match r with
  | None => acceptedValues id vals d = Ok (cs, d') /\ exists o', sameBut id (anObject o') d d' /\ Name o' = Name o /\ Deletable o' = Deletable o
  | Some (e, first) =>
      (exists n pv cs1 dn, first = u32 (i + Z.of_nat n + 1) /\ vals !! n = Some pv /\
         acceptedValues id (take n vals) d = Ok (cs1, dn) /\ initialValue id pv dn = Err e) /\
      tb_objects (tablesOf d') = delete id (tb_objects (tablesOf d)) /\
      tb_names (tablesOf d') = delete (Name o) (tb_names (tablesOf d))
  end.
Proof.
  induction vals as [|pv vals IH]; intros i d o r cs d' Hd Ho; cbn [initialValues].
  - intros [= <- <- <-]. split; [done|]. split; [done|]. exists o. split; [|done]. split; [by rewrite insert_id|done].
  - destruct (initialValue id pv d) as [[c d1]|e] eqn:Ei.
    + destruct (initialValue_frame _ _ _ _ _ _ Hd Ho Ei) as (Hs1 & o1 & [Ho1 Hn1] & Hname & Hdel).
      destruct (initialValues id (i + 1) vals d1) as [[r1 c1] d2] eqn:Ev. intros [= <- <- <-].
      destruct (IH (i + 1) d1 o1 r1 c1 d2) as [Hs2 Hr]; [by eapply device_run_ok|by rewrite Ho1, lookup_insert_eq|done|].
      split; [by etrans|]. destruct r1 as [[e first]|].
      * destruct Hr as ((n & pv' & cs1 & dn & -> & Hn & Ha & He) & Hob & Hna). split.
        { exists (S n), pv', (c ++ cs1), dn. split; [f_equal; lia|]. split; [done|]. split; [|done]. cbn [take acceptedValues]. rewrite Ei. cbn [bind]. by rewrite Ha. }
        rewrite Hob, Hna, Ho1, Hn1, Hname. split; [by rewrite delete_insert_eq|done].
      * destruct Hr as [Ha (o2 & [Ho2 Hn2] & Hname2 & Hdel2)]. split; [cbn [acceptedValues]; rewrite Ei; cbn [bind]; by rewrite Ha|].
        exists o2. split; [|split; congruence]. split; [by rewrite Ho2, Ho1, insert_insert_eq|congruence].
    + assert (id <> Identifier d) as Hne by (intros ->; by rewrite (dk_own _ Hd) in Ho).
      unfold Remove. cbv zeta. rewrite bool_decide_eq_false_2 by done. rewrite Ho. intros [= <- <- <-]. split.
      * apply rtc_once. eapply (dstep_remove _ id). unfold Remove. cbv zeta. rewrite bool_decide_eq_false_2 by done. by rewrite Ho.
      * split; [|done]. exists 0%nat, pv, [], d. split; [f_equal; lia|done].
Qed.

Lemma initialName_failed d vals : forall i name e first, initialName d i vals name = inr (e, first) ->
  exists n pv, first = u32 (i + Z.of_nat n + 1) /\ vals !! n = Some pv /\ pr_Identifier (pv_Property pv) = PropertyObjectName /\
    (e = ErrInvalidDataType \/ e = ErrDuplicateName /\ is_Some (ObjectByName d (cs_Value (av_Character (pv_Value pv))))).
Proof.
  induction vals as [|pv vals IH]; intros i name e first; cbn [initialName]; [done|]. cbv zeta.
  assert (forall name, initialName d (i + 1) vals name = inr (e, first) ->
    exists n pv', first = u32 (i + Z.of_nat n + 1) /\ (pv :: vals) !! n = Some pv' /\ pr_Identifier (pv_Property pv') = PropertyObjectName /\
      (e = ErrInvalidDataType \/ e = ErrDuplicateName /\ is_Some (ObjectByName d (cs_Value (av_Character (pv_Value pv')))))) as Hrest.
  { intros nm H. destruct (IH _ _ _ _ H) as (n & pv' & -> & Hn & Hr). exists (S n), pv'. split; [f_equal; lia|done]. }
  destruct (_ =? PropertyObjectName) eqn:En; cbn [negb]; [|by apply Hrest]. apply Z.eqb_eq in En.
  destruct (_ || _); [intros [= <- <-]; exists 0%nat, pv; split; [f_equal; lia|by auto]|].
  case_bool_decide; [|by apply Hrest]. intros [= <- <-]. exists 0%nat, pv. split; [f_equal; lia|by auto].
Qed.

(** What the application's factories promise. *)
Definition honest d : Prop := forall ty f i n o, tb_factories (tablesOf d) !! ty = Some f -> f i n = Ok o ->
  Identifier o = mkObjectID ty i /\ Name o = n.

Lemma chooseInstance_range ty inst d i : chooseInstance ty inst d = Ok i ->
  match inst with Some j => 0 <= j | None => True end -> dc_MaxObjects (tb_cfg (tablesOf d)) <= MaxObjectInstance ->
  Z.of_nat (size (tb_objects (tablesOf d))) < dc_MaxObjects (tb_cfg (tablesOf d)) ->
  0 <= i < MaxObjectInstance /\ match inst with Some j => i = j | None => True end.
Proof.
  intros H Hj Hmax Hsz. unfold chooseInstance in H. destruct inst as [j|].
  - destruct (j >=? MaxObjectInstance) eqn:E; [done|]. destruct (Object _ _); [done|]. injection H as <-. lia.
  - cbv zeta in H. destruct (firstFree _ _ 0) as [k|] eqn:Ef; [|done]. injection H as <-.
    pose proof (firstFree_spec (fun i => bool_decide (is_Some (tb_objects (tablesOf d) !! mkObjectID ty (u32 i)))) (S (size (tb_objects (tablesOf d)))) 0) as Hs.
    rewrite Ef in Hs. destruct Hs as (Hk & _). unfold MaxObjectInstance in *. unfold uwrap. rewrite Z.mod_small; [split; [lia|done]|].
    change (2 ^ 32) with 4294967296. lia.
Qed.

Lemma Create_made ty inst name d id cs d1 : device_ok d -> Create ty inst name d = Ok (id, cs, d1) ->
  exists o, tb_objects (tablesOf d) !! id = None /\ tb_names (tablesOf d) !! Name o = None /\
    tb_objects (tablesOf d1) = <[id := anObject o]> (tb_objects (tablesOf d)) /\ tb_names (tablesOf d1) = <[Name o := id]> (tb_names (tablesOf d)) /\
    device_ok d1 /\
    (honest d -> match inst with Some j => 0 <= j | None => True end -> dc_MaxObjects (tb_cfg (tablesOf d)) <= MaxObjectInstance ->
       oid_Type id = ty /\ 0 <= oid_Instance id < MaxObjectInstance /\ (forall j, inst = Some j -> oid_Instance id = j) /\ (name <> [] -> Name o = name)).
Proof.
  intros Hd H. assert (device_ok d1) as Hd1 by (eapply device_step_ok; [exact Hd|by eapply dstep_create]).
  apply Create_inv in H as (f & i & nm & o & Hf & Hi & Hnm & Ho & H & ->). cbv zeta in H. set (o1 := if isBase o then _ else o) in *.
  apply Add_inv in H as (Ht & Hne & Hob & Hna & Hmax & _ & ->). exists (SetNotifier true o1).
  rewrite !SetNotifier_Name. split_and!; try done. intros Hh Hj Hmo.
  destruct (Hh _ _ _ _ _ Hf Ho) as [Hid Hname]. assert (Identifier o1 = mkObjectID ty i /\ Name o1 = nm) as [Hid1 Hname1].
  { unfold o1. destruct (isBase o); [|done]. by rewrite SetDeletable_Identifier, SetDeletable_Name. }
  rewrite Hid1. cbn [oid_Type oid_Instance]. destruct (chooseInstance_range _ _ _ _ Hi Hj Hmo Hmax) as [Hr He].
  split_and!; try lia; try done.
  - intros j ->. done.
  - intros Hnn. rewrite Hname1. unfold chooseName in Hnm. replace (len name =? 0) with false in Hnm by (destruct name; [done|len_lia]). cbn in Hnm. by injection Hnm as ->.
Qed.

Lemma requested_typed req : specifier_ok req -> exists t inst, requested req = Some (t, inst) /\ 0 <= t <= 0x3FF /\
  match inst with Some j => 0 <= j | None => True end.
Proof.
  unfold specifier_ok, requested. destruct (co_Type req) as [t|], (co_Identifier req) as [id|]; try done.
  - intros Ht. by exists t, None.
  - intros [Ht Hi]. eexists _, _. split; [done|]. split; [done|]. destruct (_ =? _); [done|]. unfold MaxObjectInstance in Hi. lia.
Qed.

Lemma requested_asks req t inst : requested req = Some (t, inst) -> asks req t inst.
Proof.
  unfold requested, asks. destruct (co_Identifier req) as [id|], (co_Type req) as [ty|]; intros [= <- <-]; try done;
    (split; [done|]); destruct (Z.eqb_spec (oid_Instance id) WildcardInstance) as [E|E]; by rewrite ?decide_True, ?decide_False by done.
Qed.

Lemma sameApp_reads d e pv :
  sameApp (match entryRead d e (pv_Property pv) with Ok v => v | Err _ => NullValue end) (pv_Value pv) = true <-> readsAs d e pv.
Proof.
  unfold sameApp, readsAs. destruct (AppendApplicationValue [] (match entryRead d e (pv_Property pv) with Ok v => v | Err _ => NullValue end)) as [x|]; [|split; [done|by intros (w & ? & _)]].
  destruct (AppendApplicationValue [] (pv_Value pv)) as [y|]; [|split; [done|by intros (w & _ & ?)]].
  rewrite bool_decide_eq_true. split; [intros ->; by exists y|intros (w & [= ->] & [= ->]); done].
Qed.

Lemma initialValue_exact id pv d e : tb_objects (tablesOf d) !! id = Some e ->
  match initialValue id pv d with Ok (cs, d') => accepts id pv d cs d' | Err err => refuses id pv d err end.
Proof.
  intros He. unfold initialValue. cbv zeta. rewrite He.
  destruct (Z.eqb_spec (pr_Identifier (pv_Property pv)) PropertyObjectName) as [Hn|Hn]; [by apply acc_name|].
  destruct (_ || _) eqn:Ei.
  - assert (isIdentity pv) as Hi by (by apply orb_true_iff in Ei as [?%Z.eqb_eq|?%Z.eqb_eq]; [left|right]).
    destruct (sameApp _ _) eqn:Es; [eapply acc_identity; [done|exact He|by apply sameApp_reads]|]. eapply ref_identity; [done..|]. rewrite <- sameApp_reads, Es. done.
  - assert (~ isIdentity pv) as Hi by (by apply orb_false_iff in Ei as [?%Z.eqb_neq ?%Z.eqb_neq]; intros [?|?]).
    change (writeOf _ _ _) with (asWrite pv). destruct (entryWrite d e (asWrite pv)) as [[cs d']|err] eqn:Ew; [by eapply acc_write|by eapply ref_write].
Qed.

Lemma acceptedValues_all id vals d cs d' o : device_ok d -> tb_objects (tablesOf d) !! id = Some (anObject o) ->
  acceptedValues id vals d = Ok (cs, d') -> acceptsAll id vals d cs d' /\ exists o', tb_objects (tablesOf d') !! id = Some (anObject o').
Proof.
  revert d o cs. induction vals as [|pv vals IH]; intros d o cs Hd Ho; cbn [acceptedValues].
  - intros [= <- <-]. split; [constructor|by exists o].
  - intros H. pose proof (initialValue_exact id pv d _ Ho) as Hex. apply bind_Ok_inv in H as ([c d1] & H1 & H). rewrite H1 in Hex.
    destruct (initialValue_frame _ _ _ _ _ _ Hd Ho H1) as (Hrun & o1 & [Ho1 _] & _). apply bind_Ok_inv in H as ([c2 d2] & H2 & [= <- <-]).
    destruct (IH d1 o1 c2) as [Ha Hob]; [by eapply device_run_ok|by rewrite Ho1, lookup_insert_eq|done|]. split; [by econstructor|done].
Qed.

(** The search for the name: the last good one, or the first that is bad. *)
Lemma ObjectByName_names d n : device_ok d -> is_Some (ObjectByName d n) <-> is_Some (tb_names (tablesOf d) !! n).
Proof.
  intros Hd. unfold ObjectByName. destruct (tb_names (tablesOf d) !! n) as [id|] eqn:E; [|done].
  destruct (dk_names _ Hd _ _ E) as (e & -> & _). by split; intros _; eexists.
Qed.

Lemma stringValue_test pv :
  negb (bool_decide (av_Kind (pv_Value pv) = ValueCharacterString)) || (len (cs_Value (av_Character (pv_Value pv))) =? 0)
    || bool_decide (is_Some (pr_ArrayIndex (pv_Property pv))) = false <-> stringValue pv.
Proof.
  unfold stringValue. rewrite !orb_false_iff, negb_false_iff, bool_decide_eq_true, bool_decide_eq_false, eq_None_not_Some, Z.eqb_neq.
  assert (len (cs_Value (av_Character (pv_Value pv))) <> 0 <-> cs_Value (av_Character (pv_Value pv)) <> []) as ->; [|tauto].
  split; [by intros H E; rewrite E in H|]. intros H E. by apply len_zero_nil in E.
Qed.

Lemma last_name {A} (x : A) (l : list A) (f : A -> bytes) name :
  match last (x :: l) with Some y => f y | None => name end = match last l with Some y => f y | None => f x end.
Proof. destruct l as [|y l]; [done|]. change (last (x :: y :: l)) with (last (y :: l)). destruct (last (y :: l)) eqn:E; [done|]. by apply last_None in E. Qed.

Lemma initialName_exact d vals : device_ok d -> forall i name,
  match initialName d i vals name with
  | inl nm => Forall (goodName d) (filter isName vals) /\ nm = match last (filter isName vals) with Some pv => nameValue pv | None => name end
  | inr (e, first) => exists n pv, first = u32 (i + Z.of_nat n + 1) /\ vals !! n = Some pv /\ isName pv /\ Forall (goodName d) (filter isName (take n vals)) /\
      ((~ stringValue pv /\ e = ErrInvalidDataType) \/ (stringValue pv /\ is_Some (tb_names (tablesOf d) !! nameValue pv) /\ e = ErrDuplicateName))
  end.
Proof.
  intros Hd. induction vals as [|pv vals IH]; intros i name; cbn [initialName]; [by split|]. cbv zeta. fold (nameValue pv).
  destruct (Z.eqb_spec (pr_Identifier (pv_Property pv)) PropertyObjectName) as [Hn|Hn]; cbn [negb].
  - destruct (_ || bool_decide (is_Some (pr_ArrayIndex _))) eqn:Es.
    { exists 0%nat, pv. split_and!; [f_equal; lia|done|done|constructor|]. left. split; [|done]. intros H%stringValue_test. unfold nameValue in Es. congruence. }
    apply stringValue_test in Es. case_bool_decide as Hdup; rewrite (ObjectByName_names _ _ Hd) in Hdup.
    { exists 0%nat, pv. split_and!; [f_equal; lia|done|done|constructor|]. by right. }
    assert (goodName d pv) as Hgood by (split; [done|by apply eq_None_not_Some]). specialize (IH (i + 1) (nameValue pv)).
    destruct (initialName d (i + 1) vals (nameValue pv)) as [nm|[e first]].
    + rewrite filter_cons, decide_True by done. destruct IH as [Hall ->]. split; [by constructor|]. by rewrite last_name.
    + destruct IH as (n & pv' & -> & Hl & Hp & Hall & Hr). exists (S n), pv'. split_and!; [f_equal; lia|done|done| |done].
      cbn [take]. rewrite filter_cons, decide_True by done. by constructor.
  - specialize (IH (i + 1) name). destruct (initialName d (i + 1) vals name) as [nm|[e first]].
    + by rewrite filter_cons, decide_False.
    + destruct IH as (n & pv' & -> & Hl & Hp & Hall & Hr). exists (S n), pv'. split_and!; [f_equal; lia|done|done| |done].
      cbn [take]. by rewrite filter_cons, decide_False.
Qed.

(** Creation. *)
Lemma hasType_spec t d : hasType t d = true <-> exists id, is_Some (tb_objects (tablesOf d) !! id) /\ oid_Type id = t.
Proof.
  unfold hasType. rewrite existsb_exists. split.
  - intros ([id e] & Hin & Ht). apply list_elem_of_In, elem_of_map_to_list in Hin. exists id. split; [by eexists|by apply Z.eqb_eq].
  - intros (id & [e He] & Ht). exists (id, e). split; [by apply list_elem_of_In, elem_of_map_to_list|by apply Z.eqb_eq].
Qed.

Lemma Create_refused t inst name d e : device_ok d -> honest d -> dc_MaxObjects (tb_cfg (tablesOf d)) <= MaxObjectInstance ->
  match inst with Some j => 0 <= j | None => True end -> name = [] \/ tb_names (tablesOf d) !! name = None ->
  Create t inst name d = Err e -> refusesCreation d t inst e.
Proof.
  intros Hd Hh Hmo Hj Hname. unfold Create. pose proof (dk_bound _ Hd) as Hbound. pose proof (size_names _ Hd) as Hnames.
  destruct (tb_factories (tablesOf d) !! t) as [f|] eqn:Ef.
  2:{ pose proof (hasType_spec t d) as Ht. destruct (Z.eqb_spec t ObjectTypeDevice) as [->|Hne]; cbn [negb andb].
      - intros [= <-]. apply rc_unsupported; [done|]. by intros [].
      - destruct (hasType t d); intros [= <-]; [apply rc_notCreatable; [done..|by apply Ht]|]. apply rc_unsupported; [done|]. intros _ H%Ht. done. }
  assert (match chooseInstance t inst d with
    | Err e => refusesCreation d t inst e
    | Ok i => (forall j, inst = Some j -> i = j) /\ (t <> ObjectTypeDevice -> tb_objects (tablesOf d) !! mkObjectID t i = None) end) as Hi.
  { destruct inst as [j|].
    - unfold chooseInstance. destruct (j >=? MaxObjectInstance) eqn:Er; [eapply rc_range; [done..|]; apply Z.geb_le in Er; lia|].
      destruct (Object d (mkObjectID t j)) eqn:Eo; [eapply rc_exists; [done..| |by eexists]; bool_to_prop; lia|].
      split; [by intros ? [= <-]|]. intros Ht%Z.eqb_neq. unfold Object in Eo. cbn [oid_Type] in Eo. by rewrite Ht in Eo.
    - destruct (chooseInstance_free t d) as (i & -> & _ & Hf & _); [unfold MaxObjectInstance in *; lia|]. split; [done|]. done. }
  destruct (chooseInstance t inst d) as [i|e']; cbn [bind]; [|by intros [= <-]]. destruct Hi as [Hinst Hfree].
  destruct (chooseName_free t i name d Hd) as (nm & -> & _ & Hne & Hnfree); [unfold MaxObjectInstance in *; lia|done|]. cbn [bind].
  destruct (f i nm) as [o|e'] eqn:Eo; cbn [bind]; [|intros [= <-]; by eapply rc_factory].
  destruct (Hh _ _ _ _ _ Ef Eo) as [Hid Hnm]. set (o1 := if isBase o then _ else o).
  assert (Identifier o1 = mkObjectID t i /\ Name o1 = nm) as [Hid1 Hnm1] by (unfold o1; destruct (isBase o); [by rewrite SetDeletable_Identifier, SetDeletable_Name|done]).
  destruct (Z.eqb_spec t ObjectTypeDevice) as [->|Ht].
  { unfold Add. cbv zeta. rewrite Hid1. cbn [oid_Type]. rewrite Z.eqb_refl. cbn [bind]. intros [= <-]. by eapply rc_device. }
  destruct (Z_lt_le_dec (Z.of_nat (size (tb_objects (tablesOf d)))) (dc_MaxObjects (tb_cfg (tablesOf d)))) as [Hlt|Hge].
  { rewrite Add_free; [done|by rewrite Hid1|by rewrite Hnm1|by rewrite Hid1; apply Hfree|by rewrite Hnm1|done]. }
  unfold Add. cbv zeta. rewrite Hid1, Hnm1. cbn [oid_Type]. apply Z.eqb_neq in Ht. rewrite Ht. apply Z.eqb_neq in Ht.
  replace (len nm =? 0) with false by (destruct nm; [done|len_lia]). rewrite (Hfree Ht), Hnfree. rewrite !bool_decide_eq_false_2 by (by intros [? ?]).
  replace (_ >=? _) with true by (symmetry; apply Z.geb_le; lia). cbn [bind]. intros [= <-]. by eapply rc_full.
Qed.
Lemma Create_makes t inst vals name d id cs d1 : device_ok d -> honest d -> dc_MaxObjects (tb_cfg (tablesOf d)) <= MaxObjectInstance ->
  match inst with Some j => 0 <= j | None => True end -> initialName d 0 vals [] = inl name ->
  Create t inst name d = Ok (id, cs, d1) -> exists o, made d t inst vals id o d1 /\ device_ok d1.
Proof.
  intros Hd Hh Hmo Hj Hname H. destruct (Create_made _ _ _ _ _ _ _ Hd H) as (o & Hfree & Hnfree & Hob & Hna & Hd1 & Hid).
  destruct (Hid Hh Hj Hmo) as (Hty & Hrange & Hinst & Hnm). exists o. split; [|done].
  pose proof H as H0. apply Create_inv in H as (f & i & nm & o0 & Hf & Hi & _ & Ho & H & Hid0). cbv zeta in H, Hid0. set (o1 := if isBase o0 then _ else o0) in *.
  apply Add_inv in H as (_ & Hne & _ & _ & _ & _ & Hd1'). destruct (Hh _ _ _ _ _ Hf Ho) as [Hoid Honm].
  assert (Identifier o1 = mkObjectID t i /\ Name o1 = nm) as [Hid1 Hnm1] by (unfold o1; destruct (isBase o0); [by rewrite SetDeletable_Identifier, SetDeletable_Name|done]).
  assert (o = SetNotifier true o1) as ->.
  { rewrite Hd1' in Hob. cbn in Hob. rewrite Hid0 in Hob. assert (Some (anObject (SetNotifier true o1)) = Some (anObject o)) as [= ->]; [|done].
    transitivity ((<[Identifier o1 := anObject (SetNotifier true o1)]> (tb_objects (tablesOf d))) !! Identifier o1); [by rewrite lookup_insert_eq|].
    etransitivity; [|apply (lookup_insert_eq (tb_objects (tablesOf d)) (Identifier o1))]. f_equal. exact Hob. }
  rewrite SetNotifier_Name in *. rewrite Hnm1 in *. rewrite Hid1 in Hid0. rewrite Hid0 in Hrange, Hinst. cbn [oid_Instance] in Hrange, Hinst.
  exists f, i, nm, o0. split_and!; try done; [lia|lia|by rewrite SetNotifier_Name|].
  intros pv Hl. pose proof (initialName_exact d vals Hd 0 []) as Hex. rewrite Hname, Hl in Hex. destruct Hex as [Hall ->]. apply Hnm.
  rewrite Forall_forall in Hall. apply last_Some in Hl as [l Hl]. assert (pv ∈ filter isName vals) as Hin by (rewrite Hl; apply elem_of_app; right; by left).
  by destruct (Hall _ Hin) as [(_ & Hv & _) _].
Qed.
End Creation.
