(* ===== verification/ObjectService.v ===== *)
(** * What a client sees of the object services

    CreateObject leaves everything as it was unless it succeeds, and says
    which initial value failed; DeleteObject removes exactly the objects that
    may be deleted; AddListElement and RemoveListElement say which element
    failed. All are runs of the steps of the object table. *)

From Stdlib Require Import ZArith Lia.
From stdpp Require Import base list gmap relations.
From S2P Require Import Prelude Value Ids Tags Constructed Writer Apdu Codec Access Responder ServerKey ServerPacket Object Events Device DeviceSafety DataHandlers DataService PropertyValues ObjectServices ObjectHandlers ObjectCreation.
#[local] Open Scope Z_scope.

(** ** The ChangeList-Error and CreateObject-Error *)

(** The client reads class, code and the failed element. *)
Definition failedElement (lim : DecodeLimits) (res : svcResult) : option (Z * Z * Z) :=
  match res with
  | fail e =>
      match errorBody e with
      | Ok body =>
          match DecodeError body lim with
          | Ok d => let '(n, ok) := FirstFailedElementNumber d in if ok then Some (ed_Class d, ed_Code d, n) else None
          | Err _ => None
          end
      | Err _ => None
      end
  | _ => None
  end.

(** An error of the object model: its class and code are of 16 bits. *)
Definition error_ok (e : error) : Prop := is_u 16 (fst (AsError e)) /\ is_u 16 (snd (AsError e)).

Lemma failElement_decodes lim e first : error_ok e -> is_u 32 first -> room lim 1 4 ->
  failedElement lim (failElement e first) = Some (fst (AsError e), snd (AsError e), first).
Proof.
  intros [Hc Hk] Hf (Hm & Hd & He). unfold failElement. destruct (AsError e) as [class code]. cbn [fst snd] in *. cbn [failedElement errorBody].
  pose proof (writes_error lim class code Hc Hk 0) as Hwe.
  destruct (newBuffer_parse lim 1%nat (fun dst =>
    let* dst := appendInline 0x0E 0x0F (fun dst => EncodeBACnetError dst class code) dst in AppendContextUnsigned dst 1 first)
    ([mkElement true 0 false false (constructedValue (errorElements class code))] ++ [contextElement 1 (encodeUnsigned first)])) as (bs & Hb & _ & Hp).
  { repeat writes_step. }
  { lia. }
  { cbn [app concat map]. autorewrite with elc. change (elcounts (errorElements class code)) with 2. lia. }
  unfold newBuffer, appendInline in Hb. rewrite bind_assoc in Hb. cbn [app] in Hb. cbn [bind] in Hb. rewrite Hb.
  unfold parseElements in Hp. unfold DecodeError.
  destruct (ParseSequence bs lim (-1)) as [[els n]|]; [|done]. cbn [bind] in *. destruct (negb (n =? len bs)); [done|]. injection Hp as ->.
  cbn [app]. av_simpl. change (IsContextConstructed _) with true. cbn [Z.eqb andb]. rewrite DecodeBACnetError_elements by done. cbn [bind map].
  unfold FirstFailedElementNumber. cbn [ed_Parameters ed_Class ed_Code]. rewrite cloneElement_id. unfold firstFailedLoop.
  change (el_Context (contextElement 1 (encodeUnsigned first)) && (el_TagNumber (contextElement 1 (encodeUnsigned first)) =? 1) &&
    negb (IsContextConstructed (contextElement 1 (encodeUnsigned first)))) with true. cbv iota.
  autorewrite with codec. done.
Qed.

Section ObjectService.
Context {O : Type} `{!ObjectOps O} `{!ObjectLaws O} `{!ListOps O} {LT : LocalTime}.
Context (cfg : serverConfig).
Implicit Types (d : Device O).

(** ** CreateObject *)

(** C26. CreateObject is atomic: a request that does not decode is rejected;
    otherwise either the client decodes the identifier of an object that a
    factory of the type made, under the instance and the name - the last
    Object_Name of the request, all of which could be names - that it asked
    for, in a table that held neither; every initial value was accepted in
    order: identifier and type were the object's own and the others were
    written; and every other object is as it was. Or it decodes the class and
    code of the failure and the number of the initial value that failed - an
    Object_Name that cannot be a name or is taken, before the creation, or
    after it the first value that is refused -, 0 for the creation itself, and
    no object and no name is added or taken away. *)
Theorem create_object_atomic wall dcfg d0 d payload res cs d' lim (Hnew : NewDevice wall dcfg = Ok d0)
    (Hmax : dc_MaxObjects dcfg <= MaxObjectInstance) (Hrun : rtc device_step d0 d) (Hh : honest d) (Hb : bytes_ok payload)
    (Hroom : room lim 1 4) (H : createObject cfg d payload = (res, cs, d')) :
  let same := tb_objects (tablesOf d') = tb_objects (tablesOf d) /\ tb_names (tablesOf d') = tb_names (tablesOf d) in
  match DecodeCreateObject payload (sc_limits cfg) with
  | Err e => res = rejectFor e /\ same
  | Ok req => exists t inst, asks req t inst /\
      let vals := co_InitialValues req in
      ((exists id answer d1 o o' changes, res = complexACK answer /\ DecodeCreateObjectACK answer lim = Ok id /\
          Forall (goodName d) (filter isName vals) /\ made d t inst vals id o d1 /\ acceptsAll id vals d1 changes d' /\ Name o' = Name o /\
          tb_objects (tablesOf d') = <[id := anObject o']> (tb_objects (tablesOf d)) /\
          tb_names (tablesOf d') = <[Name o := id]> (tb_names (tablesOf d))) \/
       (exists e first, (error_ok e -> failedElement lim res = Some (fst (AsError e), snd (AsError e), first)) /\ same /\
          ((first = 0 /\ Forall (goodName d) (filter isName vals) /\ refusesCreation d t inst e) \/
           exists n pv, first = u32 (Z.of_nat n + 1) /\ vals !! n = Some pv /\
             ((isName pv /\ Forall (goodName d) (filter isName (take n vals)) /\
                ((~ stringValue pv /\ e = ErrInvalidDataType) \/
                 (stringValue pv /\ is_Some (tb_names (tablesOf d) !! nameValue pv) /\ e = ErrDuplicateName))) \/
              (Forall (goodName d) (filter isName vals) /\ exists id d1 o changes dn, made d t inst vals id o d1 /\
                acceptsAll id (take n vals) d1 changes dn /\ refuses id pv dn e)))))
  end.
Proof.
  intros same. destruct (NewDevice_ok _ _ _ Hnew) as [H0 Hcfg]. pose proof (device_run_ok _ _ H0 Hrun) as Hd.
  assert (dc_MaxObjects (tb_cfg (tablesOf d)) <= MaxObjectInstance) as Hmo.
  { rewrite (proj1 (config_run _ _ Hrun H0)), Hcfg. destruct (_ <=? 0); unfold MaxObjectInstance in *; lia. }
  unfold createObject in H. pose proof (decode_typed (A := CreateObjectRequest) (sc_limits cfg) payload Hb) as Ht. cbn [decode CreateObject_Codec typed] in Ht.
  destruct (DecodeCreateObject payload (sc_limits cfg)) as [req|e]; [|injection H as <- <- <-; by split].
  cbn [yields] in Ht. destruct Ht as [Hs _]. destruct (requested_typed _ Hs) as (t & inst & Hreq & Ht & Hj). exists t, inst.
  split; [by apply requested_asks|]. rewrite Hreq in H. intros vals. fold vals in H. pose proof (initialName_exact d vals Hd 0 []) as Hname.
  destruct (initialName d 0 vals []) as [name|[e first]] eqn:En.
  2:{ injection H as <- <- <-. right. exists e, first. destruct Hname as (n & pv & -> & Hn & Hp & Hall & He).
      split; [intros Hok; apply failElement_decodes; [done|by apply uwrap_range|done]|]. split; [done|]. right. exists n, pv. split; [f_equal; lia|].
      split; [done|]. by left. }
  destruct Hname as [Hgood Hname]. destruct (Create t inst name d) as [[[id created] d1]|e] eqn:Ec.
  2:{ injection H as <- <- <-. right. exists e, 0. split; [intros Hok; apply failElement_decodes; [done|unfold is_u; lia|done]|].
      split; [done|]. left. split; [done|]. split; [done|]. eapply Create_refused; [done..| |exact Ec]. rewrite Hname.
      destruct (last (filter isName vals)) as [pv|] eqn:El; [right|by left]. apply last_Some in El as [l El].
      rewrite Forall_forall in Hgood. apply Hgood. rewrite El. apply elem_of_app. right. by left. }
  destruct (Create_makes _ _ _ _ _ _ _ _ Hd Hh Hmo Hj En Ec) as (o & Hmade & Hd1).
  pose proof Hmade as (f & i & nm & o0 & _ & _ & _ & Hid & Hrange & _ & Hnm & _ & _ & Hfree & Hnfree & Hob & Hna).
  destruct (initialValues id 0 vals d1) as [[r changes] d2] eqn:Ev. injection H as <- <- <-.
  destruct (initialValues_spec id vals 0 d1 o r changes d2 Hd1) as [_ Hr]; [by rewrite Hob, lookup_insert_eq|done|].
  assert (tb_objects (tablesOf d1) !! id = Some (anObject o)) as Ho1 by (by rewrite Hob, lookup_insert_eq).
  destruct r as [[e first]|].
  - destruct Hr as ((n & pv & cs1 & dn & -> & Hn & Ha & He) & Hob2 & Hna2). right. exists e, (u32 (0 + Z.of_nat n + 1)).
    split; [intros Hok; apply failElement_decodes; [done|by apply uwrap_range|done]|].
    split; [split; [by rewrite Hob2, Hob, delete_insert_id|by rewrite Hna2, Hna, Hnm, delete_insert_id]|].
    right. exists n, pv. split; [f_equal; lia|]. split; [done|]. right. split; [done|].
    destruct (acceptedValues_all _ _ _ _ _ _ Hd1 Ho1 Ha) as [Hall [o' Ho']]. pose proof (initialValue_exact id pv dn _ Ho') as Hex. rewrite He in Hex.
    by exists id, d1, o, cs1, dn.
  - destruct Hr as [Ha (o2 & [Hob2 Hna2] & Hname2 & _)]. left. destruct (acceptedValues_all _ _ _ _ _ _ Hd1 Ho1 Ha) as [Hall _].
    destruct (CreateObjectACK_roundtrip lim id) as (answer & Ea & _ & Da); [rewrite Hid; split; cbn [oid_Type oid_Instance]; unfold MaxObjectInstance in *; lia| |].
    { destruct Hroom as (H1 & H2 & H3). split_and!; lia. }
    rewrite Ea. exists id, answer, d1, o, o2, changes. split_and!; try done.
    + by rewrite Hob2, Hob, insert_insert_eq.
    + by rewrite Hna2, Hna, Hnm.
Qed.

(** ** DeleteObject *)
Lemma Remove_found d id e : device_ok d -> tb_objects (tablesOf d) !! id = Some e -> id <> Identifier d ->
  Remove id d = Ok (listChanged d, putState (revise (tablesOf d) (delete id (tb_objects (tablesOf d))) (delete (entryName d e) (tb_names (tablesOf d)))) d).
Proof. intros Hd He Hne. unfold Remove. cbv zeta. rewrite bool_decide_eq_false_2 by done. by rewrite He. Qed.

Definition hookOf (hook : option (ObjectIdentifier -> result unit)) (id : ObjectIdentifier) : result unit :=
  match hook with Some h => h id | None => Ok tt end.

(** C27. DeleteObject removes exactly the object it names, and only one that may
    be deleted: the request is acknowledged exactly when the device has the
    object, it is deletable and not the Device, and the application does not
    object; afterwards neither its identifier nor its name is found, its COV
    subscriptions are dropped, and every other object is as it was. Otherwise
    nothing changes and the answer says why. *)
Theorem delete_object_exact wall dcfg d0 d hook id (Hnew : NewDevice wall dcfg = Ok d0) (Hrun : rtc device_step d0 d)
    (Hid : oid_ok id) (Hroom : room (sc_limits cfg) 0 1) :
  exists payload, EncodeDeleteObject (mkDeleteObject id) = Ok payload /\
  let '(res, cs, removed, d') := deleteObject cfg hook d payload in
  match Object d id with
  | None => res = fail (objectError ErrorClassObject ErrorCodeUnknownObject) /\ removed = None /\ d' = d
  | Some e =>
      if entryDeletable d e && negb (bool_decide (entryIdentifier d e = Identifier d)) then
        match hookOf hook id with
        | Err err => res = failWith err /\ removed = None /\ d' = d
        | Ok _ => res = ack /\ removed = Some id /\ Object d' id = None /\ ObjectByName d' (entryName d e) = None /\
            (forall id', id' <> id -> Object d' id' = Object d id') /\
            forall ref, fits (sc_limits cfg) (mkReadProperty id ref) -> exists read, EncodeReadProperty (mkReadProperty id ref) = Ok read /\
              readProperty cfg d' read = fail (objectError ErrorClassObject ErrorCodeUnknownObject)
        end
      else res = fail (objectError ErrorClassObject ErrorCodeObjectDeletionNotPermitted) /\ removed = None /\ d' = d
  end.
Proof.
  pose proof (device_run_ok _ _ (proj1 (NewDevice_ok _ _ _ Hnew)) Hrun) as Hd.
  destruct (sent (sc_limits cfg) (mkDeleteObject id)) as (payload & Ep & _ & Dp); [by split|]. cbn [encode decode DeleteObject_Codec] in Ep, Dp.
  exists payload. split; [done|]. unfold deleteObject. rewrite Dp. cbn [do_Object]. destruct (Object d id) as [e|] eqn:He; [|done].
  destruct (Object_cases d id e Hd He) as [Hown Hent]. cbv zeta. destruct (entryDeletable d e); cbn [negb orb andb]; [|done].
  case_bool_decide as Hdev; cbn [negb]; [done|].
  assert (entryIdentifier d e = id) as Hsame by (destruct (decide (id = AnyDevice)); [by rewrite Hent in Hdev|done]). rewrite Hsame in *.
  fold (hookOf hook id). destruct (hookOf hook id) as [u|err]; [|done].
  rewrite (Remove_found d id e Hd Hown Hdev). set (d' := putState _ d).
  assert (Object d' id = None) as Hgone.
  { unfold Object in He |- *. destruct (_ && _); [injection He as <-; by destruct Hdev|]. apply lookup_delete_eq. }
  split_and!; try done.
  - unfold ObjectByName. cbn. by rewrite lookup_delete_eq.
  - intros id' Hne. unfold Object. destruct (_ && _); [done|]. cbn. by rewrite lookup_delete_ne.
  - intros ref Hf. destruct (read_served cfg d' (mkReadProperty id ref) (sc_limits cfg) Hf) as (read & Er & Hserved). exists read. split; [done|].
    cbn [rp_Object] in Hserved. by rewrite Hgone in Hserved.
Qed.

(** ** AddListElement and RemoveListElement *)
Lemma putObject_frame d id o o' : device_ok d -> tb_objects (tablesOf d) !! id = Some (anObject o) ->
  Object (putObject (Identifier o) o' d) id = Some (anObject o') /\
  forall id', id' <> id -> Object (putObject (Identifier o) o' d) id' = Object d id'.
Proof.
  intros Hd Ho. destruct (dk_object _ Hd _ _ Ho) as [-> Hty]. unfold Object. split.
  - apply Z.eqb_neq in Hty. rewrite Hty. cbn [andb]. apply lookup_insert_eq.
  - intros id' Hne. destruct (_ && _); [done|]. cbn. by rewrite lookup_insert_ne.
Qed.

(** A list request reaches the list of the object it names: it is
    acknowledged exactly when that object has lists, the application does not
    object and the object accepts the elements, and then that object is the
    changed one and no other differs; otherwise nothing changes and the
    client decodes the class and code of the failure and the number of the
    element that failed, 0 when it is not an element. *)
Theorem list_change_served `{!ListLaws O} wall dcfg d0 d hook add (req : ListElementRequest) lim (Hnew : NewDevice wall dcfg = Ok d0)
    (Hrun : rtc device_step d0 d) (Hf : fits (sc_limits cfg) req) (Hroom : room lim 1 4) :
  exists payload, EncodeListElementRequest req = Ok payload /\
  let '(res, cs, d') := changeList cfg hook add d payload in
  rtc device_step d d' /\
  let failed e first := d' = d /\ cs = [] /\ (error_ok e -> is_u 32 first -> failedElement lim res = Some (fst (AsError e), snd (AsError e), first)) in
  match Object d (le_Object req) with
  | None => failed ErrUnknownObject 0
  | Some e =>
      match entryModifier e with
      | None => failed (match entryRead d e (mkPropertyReference (pr_Identifier (le_Property req)) None) with Ok _ => ErrPropertyIsNotAList | Err err => err end) 0
      | Some (o, change) =>
          match (match hook with Some h => h (entryIdentifier d e) (mkWrite (le_Property req) (constructedValue (le_Elements req)) 0) | None => Ok tt end) with
          | Err err => failed err 0
          | Ok _ =>
              match change add (le_Property req) (le_Elements req) with
              | ListFailed err first => failed err (default 0 first)
              | ListDone changes o' => res = ack /\ cs = changes /\ Object d' (le_Object req) = Some (anObject o') /\
                  forall id, id <> le_Object req -> Object d' id = Object d id
              end
          end
      end
  end.
Proof.
  pose proof (device_run_ok _ _ (proj1 (NewDevice_ok _ _ _ Hnew)) Hrun) as Hd.
  destruct (sent (sc_limits cfg) req Hf) as (payload & Ep & _ & Dp). cbn [encode decode ListElement_Codec] in Ep, Dp.
  exists payload. split; [done|]. unfold changeList. rewrite Dp.
  destruct (Object d (le_Object req)) as [e|] eqn:He; [|split_and!; try done; intros; by apply failElement_decodes].
  destruct (entryModifier e) as [[o change]|] eqn:Em.
  2:{ destruct (entryRead d e _); (split_and!; try done; intros; by apply failElement_decodes). }
  destruct (match hook with Some h => _ | None => _ end) as [u|err]; [|split_and!; try done; intros; by apply failElement_decodes].
  destruct (change add _ _) as [changes o'|err first] eqn:Ec; [|split_and!; try done; intros; by apply failElement_decodes].
  destruct e as [|o1]; [done|]. cbn [entryModifier] in Em. destruct (changeElements o1) as [c|] eqn:Eo; [|done]. injection Em as -> ->.
  destruct (change_keeps _ _ _ _ _ _ _ Eo Ec) as [Hi Hn]. destruct (Object_cases d _ _ Hd He) as [Hown Hent]. cbn [entryIdentifier] in Hown, Hent.
  assert (tb_objects (tablesOf d) !! le_Object req = Some (anObject o)) as Ho.
  { unfold Object in He. by destruct (_ && _) in He. }
  destruct (putObject_frame d (le_Object req) o o' Hd Ho) as [H1 H2]. split; [|by split_and!].
  apply rtc_once. apply (dstep_object _ (Identifier o) o o'); [|done..]. exact Hown.
Qed.
End ObjectService.
