(* ===== verification/NotificationClass.v ===== *)
(** * The Notification Class object: [server/object/notification.go]

    Destinations (BACnetDestination) with their wire form, and the object that
    routes event notifications to the destinations of its Recipient_List, with
    the list operations of AddListElement and RemoveListElement. *)

From Stdlib Require Import ZArith Lia.
From stdpp Require Import base list gmap.
From S2P Require Import Prelude Value Ids Tags Constructed Address Access Object Commandable Events.

(** ** Destinations *)
#[export] Instance Time_eq_dec : EqDecision Time.
Proof. solve_decision. Defined.


Record Destination := mkDestination {
  dn_ValidDays : Z;
  dn_From : Time;
  dn_To : Time;
  dn_Device : option ObjectIdentifier;
  dn_Network : Z;
  dn_MAC : bytes;
  dn_ProcessID : Z;
  dn_Confirmed : bool;
  dn_Transitions : Z
}.

#[export] Instance Destination_eq_dec : EqDecision Destination.
Proof. solve_decision. Defined.

(** [Destination.Address] *)
Definition destinationAddress (d : Destination) : result Address :=
  if len (dn_MAC d) =? 0 then
    if dn_Network d =? 0 then Ok LocalBroadcast else Ok (RemoteBroadcast (dn_Network d))
  else
    let* mac := NewMAC (dn_MAC d) in
    if dn_Network d =? 0 then Ok (LocalStation mac) else Ok (RemoteStation (dn_Network d) mac).

(** [timeBefore]; the fields in order, those with a wildcard skipped. *)
Fixpoint fieldsBefore (l : list (Z * Z)) : bool :=
  match l with
  | [] => false
  | (a, b) :: l =>
      if (a =? 0xFF) || (b =? 0xFF) then fieldsBefore l
      else if negb (a =? b) then a <? b
      else fieldsBefore l
  end.
Definition timeBefore (a b : Time) : bool :=
  fieldsBefore [(t_Hour a, t_Hour b); (t_Minute a, t_Minute b); (t_Second a, t_Second b); (t_Hundredths a, t_Hundredths b)].

(** [Destination.Active] *)
Definition Active {LT : LocalTime} (d : Destination) (t : Z) (transition : Z) : bool :=
  let wd := (c_Weekday (civil t) + 6) mod 7 in
  if negb (bit (dn_ValidDays d) (Z.shiftl 1 wd)) || negb (bit (dn_Transitions d) (Z.shiftl 1 transition)) then false
  else
    let now := timeOf t in
    negb (timeBefore now (dn_From d)) && negb (timeBefore (dn_To d) now).

(** [Destination.Elements]; [maskBits] and [bitsOf] are in [Events]. *)
Definition recipientElement (d : Destination) : Element :=
  match dn_Device d with
  | Some id =>
      let raw := match AppendContextObjectID [] 0 id with Ok raw => raw | Err _ => [] end in
      match ParseTag raw DefaultDecodeLimits with Ok (el, _) => el | Err _ => zeroElement end
  | None =>
      mkElement true 1 false false (constructedValue [item (UnsignedValue (dn_Network d)); item (octetsValue ValueOctetString (dn_MAC d))])
  end.
Definition Elements (d : Destination) : list Element :=
  [item (maskBits 7 (dn_ValidDays d)); item (timeValue (dn_From d)); item (timeValue (dn_To d)); recipientElement d;
   item (UnsignedValue (dn_ProcessID d)); item (BoolValue (dn_Confirmed d)); item (maskBits 3 (dn_Transitions d))].

(** The switch on the recipient: device, network and MAC. *)
Definition parseRecipient (r : Element) : option (option ObjectIdentifier * Z * bytes) :=
  if el_Context r && (el_TagNumber r =? 0) && negb (IsContextConstructed r) then
    match ContextObjectID r with
    | Ok id => Some (Some id, 0, [])
    | Err _ => None
    end
  else if el_Context r && (el_TagNumber r =? 1) && IsContextConstructed r then
    match av_Elements (el_Value r) with
    | [n; m] =>
        if el_Context n || bool_decide (av_Kind (el_Value n) <> ValueUnsigned) || (av_Unsigned (el_Value n) >? 0xFFFF)
           || el_Context m || bool_decide (av_Kind (el_Value m) <> ValueOctetString) then None
        else
          let mac := av_OctetString (el_Value m) in
          if (len mac >? 0) && (match NewMAC mac with Ok _ => false | Err _ => true end) then None
          else Some (None, u16 (av_Unsigned (el_Value n)), mac)
    | _ => None
    end
  else None.

Definition isApp (e : Element) (k : ValueKind) : bool := negb (el_Context e) && bool_decide (av_Kind (el_Value e) = k).

(** [parseDestination] of seven elements. *)
Definition parseDestination (e : list Element) : option Destination :=
  match e with
  | [e0; e1; e2; e3; e4; e5; e6] =>
      if negb (isApp e0 ValueBitString) || negb (isApp e1 ValueTime) || negb (isApp e2 ValueTime) || negb (isApp e4 ValueUnsigned)
         || negb (isApp e5 ValueBoolean) || negb (isApp e6 ValueBitString) || (av_Unsigned (el_Value e4) >? 0xFFFFFFFF) then None
      else
        '(device, network, mac) ← parseRecipient e3;
        Some (mkDestination (bitsOf (av_BitString (el_Value e0)) 7) (av_Time (el_Value e1)) (av_Time (el_Value e2)) device network mac
          (u32 (av_Unsigned (el_Value e4))) (av_Boolean (el_Value e5)) (bitsOf (av_BitString (el_Value e6)) 3))
  | _ => None
  end.

(** The loop of [ParseDestinations]; a failure carries the 1-based number of
    the destination. *)
Fixpoint destinationsLoop (k : nat) (i : Z) (els : list Element) : list Destination + Z :=
  match k with
  | O => inl []
  | S k =>
      match parseDestination (take 7 els) with
      | None => inr (u32 (i + 1))
      | Some d =>
          match destinationsLoop k (i + 1) (drop 7 els) with
          | inl ds => inl (d :: ds)
          | inr first => inr first
          end
      end
  end.
Definition ParseDestinations (els : list Element) : list Destination + Z :=
  if negb (len els mod 7 =? 0) then inr (u32 (len els / 7 + 1))
  else destinationsLoop (length els / 7) 0 els.

(** [Destination.equal] *)
Definition equalDestination (d o : Destination) : bool :=
  if negb (match dn_Device d, dn_Device o with
           | Some a, Some b => bool_decide (a = b)
           | None, None => true
           | _, _ => false
           end) then false
  else
    (dn_ValidDays d =? dn_ValidDays o) && bool_decide (dn_From d = dn_From o) && bool_decide (dn_To d = dn_To o)
    && (dn_Network d =? dn_Network o) && bool_decide (dn_MAC d = dn_MAC o) && (dn_ProcessID d =? dn_ProcessID o)
    && bool_decide (dn_Confirmed d = dn_Confirmed o) && (dn_Transitions d =? dn_Transitions o).

Definition sameRecipientProcess (d o : Destination) : bool :=
  if negb (dn_ProcessID d =? dn_ProcessID o) then false
  else
    match dn_Device d, dn_Device o with
    | Some a, Some b => bool_decide (a = b)
    | None, None => (dn_Network d =? dn_Network o) && bool_decide (dn_MAC d = dn_MAC o)
    | _, _ => false
    end.

(** ** The object *)
Record NotificationClassConfig := mkNCConfig {
  ncc_Instance : Z;
  ncc_Name : bytes;
  ncc_Description : bytes;
  ncc_Priority : option (list Z);
  ncc_AckRequired : Z;
  ncc_Recipients : list Destination;
  ncc_MaxRecipients : Z
}.

(** [priority] is an array of three octets. *)
Record classState := mkClass { nc_cfg : NotificationClassConfig; nc_priority : list Z; nc_ackReq : Z; nc_recipients : list Destination }.

Definition setPriority (p : list Z) (s : classState) : classState := mkClass (nc_cfg s) p (nc_ackReq s) (nc_recipients s).
Definition setAckReq (a : Z) (s : classState) : classState := mkClass (nc_cfg s) (nc_priority s) a (nc_recipients s).
Definition setRecipients (ds : list Destination) (s : classState) : classState := mkClass (nc_cfg s) (nc_priority s) (nc_ackReq s) ds.

Definition readPriorities (s : classState) : ApplicationValue :=
  constructedValue (map (fun p => item (UnsignedValue p)) (nc_priority s)).

(** The loop of the Priority closure from slot [i] on; with an array index
    there is one value and [i] is its slot. *)
Fixpoint writePriorities (vals : list ApplicationValue) (i : nat) (next : list Z) : result (list Z) :=
  match vals with
  | [] => Ok next
  | v :: vals =>
      if bool_decide (av_Kind v <> ValueUnsigned) then Err ErrInvalidDataType
      else if av_Unsigned v >? 255 then Err ErrValueOutOfRange
      else writePriorities vals (S i) (<[i := u8 (av_Unsigned v)]> next)
  end.
Definition setPriorities (w : Write) (s : classState) : result (list Z * classState) :=
  let* (vals, slot) :=
    match pr_ArrayIndex (w_Property w) with
    | Some i => if (i =? 0) || (i >? 3) then Err ErrInvalidArrayIndex else Ok ([w_Value w], Z.to_nat (i - 1))
    | None =>
        if bool_decide (av_Kind (w_Value w) = ValueConstructed) && (len (av_Elements (w_Value w)) =? 3) then
          if existsb el_Context (av_Elements (w_Value w)) then Err ErrInvalidDataType
          else Ok (map el_Value (av_Elements (w_Value w)), 0%nat)
        else Err ErrInvalidDataType
    end in
  let* next := writePriorities vals slot (nc_priority s) in
  Ok ([PropertyPriority], setPriority next s).

Definition writeAckRequired (w : Write) (s : classState) : result (list Z * classState) :=
  match pr_ArrayIndex (w_Property w) with
  | Some _ => Err ErrNotAnArray
  | None =>
      if bool_decide (av_Kind (w_Value w) <> ValueBitString) then Err ErrInvalidDataType
      else Ok ([PropertyAckRequired], setAckReq (bitsOf (av_BitString (w_Value w)) 3) s)
  end.

Definition readRecipients (s : classState) : ApplicationValue := constructedValue (flat_map Elements (nc_recipients s)).
Definition writeRecipients (w : Write) (s : classState) : result (list Z * classState) :=
  match pr_ArrayIndex (w_Property w) with
  | Some _ => Err ErrNotAnArray
  | None =>
      if bool_decide (av_Kind (w_Value w) <> ValueConstructed) then Err ErrInvalidDataType
      else
        match ParseDestinations (av_Elements (w_Value w)) with
        | inr _ => Err ErrInvalidDataType
        | inl ds =>
            if len ds >? ncc_MaxRecipients (nc_cfg s) then Err ErrNoSpaceToWriteProperty
            else Ok ([PropertyRecipientList], setRecipients ds s)
        end
  end.

Definition recipientListProperty : Property classState := settable true readRecipients writeRecipients.
Definition priorityProperty : Property classState :=
  mkProperty NullValue (Some (fun v => readPriorities (o_state v))) (Some setPriorities) true [] true true.

(** [cfg] with the default of MaxRecipients. *)
Definition withClassDefaults (cfg : NotificationClassConfig) : NotificationClassConfig :=
  mkNCConfig (ncc_Instance cfg) (ncc_Name cfg) (ncc_Description cfg) (ncc_Priority cfg) (ncc_AckRequired cfg) (ncc_Recipients cfg)
    (if ncc_MaxRecipients cfg <=? 0 then 32 else ncc_MaxRecipients cfg).

Definition NewNotificationClass (cfg : NotificationClassConfig) : result (Base classState) :=
  if len (ncc_Name cfg) =? 0 then Err ErrOther
  else if ncc_Instance cfg >=? MaxObjectInstance then Err ErrOther
  else
    let cfg := withClassDefaults cfg in
    if len (ncc_Recipients cfg) >? ncc_MaxRecipients cfg then Err ErrOther
    else
      let s := mkClass cfg (default [255; 255; 255] (ncc_Priority cfg)) (Z.land (ncc_AckRequired cfg) 7) (ncc_Recipients cfg) in
      let b := NewBase (mkObjectID ObjectTypeNotificationClass (ncc_Instance cfg)) (ncc_Name cfg) s in
      let b := match ncc_Description cfg with [] => b | _ => Define PropertyDescription (storedText (ncc_Description cfg)) b end in
      let b := Define PropertyNotificationClass (stored true (UnsignedValue (ncc_Instance cfg))) b in
      let b := Define PropertyPriority priorityProperty b in
      let b := Define PropertyAckRequired (settable true (fun s => maskBits 3 (nc_ackReq s)) writeAckRequired) b in
      Ok (Define PropertyRecipientList recipientListProperty b).

(** ** Routing *)
Definition classOf (b : Base classState) : Z := ncc_Instance (nc_cfg (o_state (b_view b))).
(** [nc.priority[transition]] of a transition that is out of range panics. *)
Definition Routing {LT : LocalTime} (t transition : Z) (b : Base classState) : result (Z * bool * list Destination) :=
  let s := o_state (b_view b) in
  let* priority := index (nc_priority s) transition in
  Ok (priority, bit (nc_ackReq s) (Z.shiftl 1 transition), List.filter (fun d => Active d t transition) (nc_recipients s)).
Definition AckRequired (b : Base classState) : Z := nc_ackReq (o_state (b_view b)).
Definition Priorities (b : Base classState) : list Z := nc_priority (o_state (b_view b)).
Definition HasRecipient (r : Destination) (b : Base classState) : bool :=
  existsb (fun d => sameRecipientProcess d r) (nc_recipients (o_state (b_view b))).

(** ** List modification *)

Definition listProperty (prop : PropertyReference) (b : Base classState) : result unit :=
  if negb (pr_Identifier prop =? PropertyRecipientList) then
    let* _ := ReadProperty b (mkPropertyReference (pr_Identifier prop) None) in Err ErrPropertyIsNotAList
  else match pr_ArrayIndex prop with Some _ => Err ErrNotAnArray | None => Ok tt end.

(** The loops over the destinations, [i] done so far. *)
Fixpoint addLoop (max : Z) (i : Z) (ds next : list Destination) : list Destination + (error * Z) :=
  match ds with
  | [] => inl next
  | d :: ds =>
      if existsb (fun have => equalDestination have d) next then addLoop max (i + 1) ds next
      else if len next >=? max then inr (ErrNoSpaceForListElement, u32 (i + 1))
      else addLoop max (i + 1) ds (next ++ [d])
  end.
Fixpoint removeLoop (i : Z) (ds next : list Destination) : list Destination + (error * Z) :=
  match ds with
  | [] => inl next
  | d :: ds =>
      match list_find (fun have => equalDestination have d = true) next with
      | None => inr (ErrListElementNotFound, u32 (i + 1))
      | Some (found, _) => removeLoop (i + 1) ds (take found next ++ drop (S found) next)
      end
  end.

(** [AddListElements] ([add]) and [RemoveListElements]. *)
Definition changeRecipients (add : bool) (prop : PropertyReference) (els : list Element) (b : Base classState) : listOutcome (Base classState) :=
  match listProperty prop b with
  | Err e => ListFailed e None
  | Ok _ =>
      match ParseDestinations els with
      | inr first => ListFailed ErrInvalidDataType (Some first)
      | inl ds =>
          let s := o_state (b_view b) in
          match (if add then addLoop (ncc_MaxRecipients (nc_cfg s)) 0 ds (nc_recipients s) else removeLoop 0 ds (nc_recipients s)) with
          | inr (e, first) => ListFailed e (Some first)
          | inl next => ListDone (notifyChange b [PropertyRecipientList]) (putState (setRecipients next s) b)
          end
      end
  end.
Definition AddListElements := changeRecipients true.
Definition RemoveListElements := changeRecipients false.

#[export] Instance NotificationClass_list : ListOps (Base classState) := {|
  changeElements b := Some (fun add prop els => changeRecipients add prop els b)
|}.
#[export] Instance NotificationClass_list_laws : ListLaws (Base classState).
Proof.
  split. intros b change add ref els cs b' [= <-]. unfold changeRecipients. destruct (listProperty _ _); [|done].
  destruct (ParseDestinations _); [|done]. cbv zeta. destruct (if add then _ else _) as [next|[]]; [|done]. by intros [= _ <-].
Qed.
