(* ===== verification/RecipientList.v ===== *)
(** * What the Notification Class guarantees

    The wire form of its Recipient_List, the invariant of its state, the
    effect of the list services as multisets of destinations, and when a
    destination receives a transition. *)

From Stdlib Require Import ZArith Lia.
From stdpp Require Import base list gmap.
From S2P Require Import Prelude Value Ids Tags Constructed Writer Codec Address Access Object PropertyValues Commandable Events NotificationClass.

(** ** Masks *)
Lemma lor_lt n a b : 0 <= n -> 0 <= a < 2 ^ n -> 0 <= b < 2 ^ n -> 0 <= Z.lor a b < 2 ^ n.
Proof.
  intros Hn Ha Hb. split; [apply Z.lor_nonneg; lia|].
  replace (Z.lor a b) with (Z.lor a b mod 2 ^ n); [apply Z.mod_pos_bound; lia|].
  rewrite <- Z.land_ones, Z.land_lor_distr_l, !Z.land_ones by done. by rewrite !Z.mod_small.
Qed.

Lemma fold_left_inv {A B} (P : A -> Prop) (f : A -> B -> A) l a :
  (forall a b, b ∈ l -> P a -> P (f a b)) -> P a -> P (fold_left f l a).
Proof.
  revert a. induction l as [|b l IH]; intros a Hf Ha; [done|]. cbn. apply IH; [|apply Hf; [by left|done]].
  intros a' b' Hb. apply Hf. by right.
Qed.

Lemma bitsOf_range bs n : 0 <= n -> is_u n (bitsOf bs n).
Proof.
  intros Hn. unfold bitsOf. apply fold_left_inv; [|unfold is_u; lia]. intros v i Hi%elem_of_seqZ Hv.
  destruct (valueBit _ _); [|done].
  apply lor_lt; [done..|]. rewrite Z.shiftl_1_l. pose proof (Z.pow_lt_mono_r 2 i n). lia.
Qed.

Lemma maskBits_bitsOf n mask : n = 3 \/ n = 7 -> is_u n mask -> bitsOf (av_BitString (maskBits n mask)) n = mask.
Proof.
  intros [-> | ->] Hm; apply Z.eqb_eq.
  - apply (forall_range (fun m => bitsOf (av_BitString (maskBits 3 m)) 3 =? m) 8); [by vm_compute|exact Hm].
  - apply (forall_range (fun m => bitsOf (av_BitString (maskBits 7 m)) 7 =? m) 128); [by vm_compute|exact Hm].
Qed.

(** The value of a bit string computed from its bits is one that can be
    encoded. *)
Lemma bitString_prim lim n f : 0 <= n < 2 ^ 16 -> (n + 7) / 8 * 8 <= MaxBitStringBits lim -> app_prim lim (bitString n f).
Proof.
  intros Hn Hl. unfold bitString. cbv zeta. destruct (n =? 0) eqn:E0; [bool_to_prop; apply ap_bits; [lia|done|by apply List.Forall_nil|done|rewrite E0 in Hl; exact Hl]|]. bool_to_prop.
  set (k := (n + 7) / 8) in *. assert (1 <= k /\ 0 <= k * 8 - n < 8 /\ k < 2 ^ 14) as (Hk & Hr & Hk2) by (subst k; pose proof (Z.div_mod (n + 7) 8); pose proof (Z.mod_pos_bound (n + 7) 8); lia).
  replace (k =? 0) with false by (symmetry; lia). rewrite uwrap_small by (unfold is_u; lia).
  apply ap_bits; [lia|intros H; apply (f_equal length) in H; rewrite length_map, length_seqZ in H; cbn in H; lia
    | |unfold len, MaxUint32; rewrite length_map, length_seqZ; lia|unfold len; rewrite length_map, length_seqZ; lia].
  apply Forall_map, Forall_forall. intros j _. unfold compose.
  apply fold_left_inv; [|unfold is_u; lia]. intros v i Hi%elem_of_seqZ Hv. destruct (_ && _); [|done]. apply lor_lt; [done..|].
  rewrite Z.shiftr_div_pow2 by lia. split; [apply Z.div_pos; lia|].
  pose proof (Z.pow_pos_nonneg 2 i). apply Z.div_lt_upper_bound; nia.
Qed.

Lemma maskBits_prim lim n mask : n = 3 \/ n = 7 -> 8 <= MaxBitStringBits lim -> app_prim lim (maskBits n mask).
Proof. intros [-> | ->] Hl; (apply bitString_prim; [lia|exact Hl]). Qed.

(** ** Destinations on the wire *)

(** A destination in the ranges of its Go types, with one kind of recipient.
    The times, octets and device of [destination_ok] are arbitrary; those of
    [destination_fits] can be encoded. *)
Record destination_ok (d : Destination) : Prop := {
  dok_days : is_u 7 (dn_ValidDays d);
  dok_process : is_u 32 (dn_ProcessID d);
  dok_transitions : is_u 3 (dn_Transitions d);
  dok_recipient :
    match dn_Device d with
    | Some _ => dn_Network d = 0 /\ dn_MAC d = []
    | None => is_u 16 (dn_Network d) /\ len (dn_MAC d) <= MaxMACLength
    end
}.
Record destination_fits (d : Destination) : Prop := {
  df_ok : destination_ok d;
  df_from : time_typed (dn_From d);
  df_to : time_typed (dn_To d);
  df_mac : bytes_ok (dn_MAC d);
  df_device : optP oid_ok (dn_Device d)
}.

(** The elements a receiver parses. *)
Definition wireRecipient (d : Destination) : Element :=
  match dn_Device d with
  | Some id => contextElement 0 (oidOctets id)
  | None => mkElement true 1 false false (constructedValue [appItem (UnsignedValue (dn_Network d)); appItem (octetsValue ValueOctetString (dn_MAC d))])
  end.
Definition wireElements (d : Destination) : list Element :=
  [appItem (maskBits 7 (dn_ValidDays d)); appItem (timeValue (dn_From d)); appItem (timeValue (dn_To d)); wireRecipient d;
   appItem (UnsignedValue (dn_ProcessID d)); appItem (BoolValue (dn_Confirmed d)); appItem (maskBits 3 (dn_Transitions d))].

Lemma recipientElement_device d id : dn_Device d = Some id -> oid_ok id -> recipientElement d = contextElement 0 (oidOctets id).
Proof.
  intros Hd Hid. unfold recipientElement. rewrite Hd. unfold AppendContextObjectID. rewrite EncodeObjectIdentifier_ok by done. cbn [bind].
  destruct (ParseTag_primitive DefaultDecodeLimits true 0 (oidOctets id)) as (hdr & He & Hh & Hl & Hp); [done|unfold oidOctets, MaxUint32; len_lia|by left|].
  unfold appendContextPrimitive. change (be_put 4 _) with (oidOctets id). rewrite He. cbn [bind].
  specialize (Hp []). rewrite app_nil_r in Hp. change (if 0 =? tagNumberReserved then _ else ?x) with x. cbn [app]. by rewrite Hp.
Qed.

(** Both forms of the elements parse to the destination. *)
Lemma parseRecipient_ok d r : destination_ok d -> optP oid_ok (dn_Device d) ->
  match dn_Device d with
  | Some id => r = contextElement 0 (oidOctets id)
  | None => exists n m, r = mkElement true 1 false false (constructedValue [n; m]) /\ el_Context n = false /\ el_Context m = false /\
      el_Value n = UnsignedValue (dn_Network d) /\ el_Value m = octetsValue ValueOctetString (dn_MAC d)
  end -> parseRecipient r = Some (dn_Device d, dn_Network d, dn_MAC d).
Proof.
  intros [_ _ _ Hr] Hv H. unfold parseRecipient. destruct (dn_Device d) as [id|].
  - destruct Hr as (-> & ->). rewrite optP_Some in Hv. rewrite H.
    change (match ContextObjectID (contextElement 0 (oidOctets id)) with Ok id => Some (Some id, 0, []) | Err _ => None end = Some (Some id, 0, @nil Z)).
    by rewrite ContextObjectID_octets.
  - destruct Hr as [Hn Hm], H as (n & m & -> & Hnc & Hmc & Hnv & Hmv). cbn. rewrite Hnc, Hmc, Hnv, Hmv. cbn.
    rewrite NewMAC_ok by done. rewrite andb_false_r. rewrite uwrap_small by done. unfold is_u in Hn.
    change (bool_decide (ValueConstructed = ValueConstructed)) with true. change (bool_decide (ValueUnsigned <> ValueUnsigned)) with false.
    change (bool_decide (ValueOctetString <> ValueOctetString)) with false. cbn [orb]. by decide_tests.
Qed.

Lemma parseDestination_ok d e0 e1 e2 e3 e4 e5 e6 : destination_ok d ->
  Forall2 (fun e v => el_Context e = false /\ el_Value e = v) [e0; e1; e2; e4; e5; e6]
    [maskBits 7 (dn_ValidDays d); timeValue (dn_From d); timeValue (dn_To d); UnsignedValue (dn_ProcessID d); BoolValue (dn_Confirmed d);
     maskBits 3 (dn_Transitions d)] ->
  parseRecipient e3 = Some (dn_Device d, dn_Network d, dn_MAC d) ->
  parseDestination [e0; e1; e2; e3; e4; e5; e6] = Some d.
Proof.
  intros [Hd Hp Ht _] H H3.
  repeat match goal with H : Forall2 _ (_ :: _) _ |- _ => inversion_clear H end.
  repeat match goal with H : _ /\ _ |- _ => destruct H end.
  unfold parseDestination, isApp. rewrite H3.
  repeat match goal with H : el_Context ?e = false |- _ => rewrite H; clear H | H : el_Value ?e = _ |- _ => rewrite H; clear H end.
  change (av_Kind (maskBits ?n ?m)) with ValueBitString. rewrite !maskBits_bitsOf by auto.
  cbn [av_Kind av_Unsigned av_Time av_Boolean timeValue UnsignedValue BoolValue negb andb orb].
  rewrite !bool_decide_eq_true_2 by done. unfold is_u in Hp. cbn [negb orb]. decide_tests. cbn. rewrite uwrap_small by done. by destruct d.
Qed.

Lemma parse_Elements d : destination_fits d -> parseDestination (Elements d) = Some d.
Proof.
  intros [Hd _ _ _ Hv]. apply parseDestination_ok; [done|by repeat constructor|]. apply parseRecipient_ok; [done..|].
  destruct (dn_Device d) as [id|] eqn:E; [apply recipientElement_device; [done|by rewrite optP_Some in Hv]|].
  unfold recipientElement. rewrite E. by eexists _, _.
Qed.

Lemma parse_wireElements d : destination_fits d -> parseDestination (wireElements d) = Some d.
Proof.
  intros [Hd _ _ _ Hv]. apply parseDestination_ok; [done|by repeat constructor|]. apply parseRecipient_ok; [done..|].
  unfold wireRecipient. destruct (dn_Device d) as [id|]; [done|]. by eexists _, _.
Qed.

Lemma ParseDestinations_flat_map (f : Destination -> list Element) ds :
  (forall d, length (f d) = 7%nat) -> (forall d, d ∈ ds -> parseDestination (f d) = Some d) -> ParseDestinations (flat_map f ds) = inl ds.
Proof.
  intros Hl Hp. assert (length (flat_map f ds) = (7 * length ds)%nat) as Hlen.
  { clear Hp. induction ds as [|d ds IH]; [done|]. cbn [flat_map length]. rewrite length_app, Hl, IH. lia. }
  unfold ParseDestinations, len. rewrite Hlen. replace (Z.of_nat (7 * length ds) mod 7) with 0 by (rewrite Nat2Z.inj_mul, Z.mul_comm, Z.mod_mul; lia).
  cbn [negb Z.eqb]. replace (7 * length ds / 7)%nat with (length ds) by (rewrite Nat.mul_comm, Nat.div_mul; lia). clear Hlen.
  generalize 0. induction ds as [|d ds IH]; intros i; [done|]. cbn [flat_map length destinationsLoop].
  rewrite take_app_length' by done. rewrite drop_app_length' by done. rewrite Hp by (by left). rewrite IH; [done|]. intros d' Hd'. apply Hp. by right.
Qed.

Lemma destinationsLoop_Forall2 k i els ds : destinationsLoop k i els = inl ds -> Forall (fun d => exists e, parseDestination e = Some d) ds.
Proof.
  revert i els ds. induction k as [|k IH]; intros i els ds H; cbn [destinationsLoop] in H; [by injection H as <-|].
  destruct (parseDestination _) as [d|] eqn:E; [|done]. destruct (destinationsLoop _ _ _) as [ds'|] eqn:El; [|done]. injection H as <-.
  constructor; [by eexists|by eapply IH].
Qed.

Lemma parseRecipient_typed r dev net mac : parseRecipient r = Some (dev, net, mac) ->
  match dev with
  | Some _ => net = 0 /\ mac = []
  | None => is_u 16 net /\ len mac <= MaxMACLength
  end.
Proof.
  unfold parseRecipient. destruct (_ && _).
  - destruct (ContextObjectID r) as [id|] eqn:E; [|done]. by intros [= <- <- <-].
  - destruct (_ && _); [|done]. destruct (av_Elements _) as [|n [|m [|]]]; try done. destruct (_ || _); [done|]. cbv zeta.
    destruct (_ && _) eqn:E; [done|]. intros [= <- <- <-]. split; [by apply uwrap_range|].
    destruct (NewMAC _) as [m'|] eqn:Em; [by apply NewMAC_inv in Em as [_ Em]|]. rewrite andb_true_r in E. bool_to_prop. unfold MaxMACLength. len_lia.
Qed.

Lemma parseDestination_typed e d : parseDestination e = Some d -> destination_ok d.
Proof.
  unfold parseDestination. destruct e as [|e0 [|e1 [|e2 [|e3 [|e4 [|e5 [|e6 [|]]]]]]]]; try done. destruct (_ || _); [done|].
  destruct (parseRecipient e3) as [[[dev net] mac]|] eqn:E; [|done]. intros [= <-].
  split; [by apply bitsOf_range|by apply uwrap_range|by apply bitsOf_range|]. by apply parseRecipient_typed in E.
Qed.

Lemma ParseDestinations_typed els ds : ParseDestinations els = inl ds -> Forall destination_ok ds.
Proof.
  unfold ParseDestinations. destruct (negb _); [done|]. intros H%destinationsLoop_Forall2. eapply Forall_impl; [exact H|].
  intros d [e He]. by eapply parseDestination_typed.
Qed.

(** The limits a receiver needs for [n] destinations. *)
Definition destinations_room (lim : DecodeLimits) (n : Z) : Prop :=
  1 <= MaxConstructedDepth (Normalize lim) /\ 9 * n <= MaxElements (Normalize lim) /\
  8 <= MaxOctetStringLength (Normalize lim) /\ 8 <= MaxBitStringBits (Normalize lim).

Lemma writes_recipient lim d : limits_positive lim -> 8 <= MaxOctetStringLength lim -> destination_fits d ->
  writes lim 1 (fun dst => AppendTag dst (recipientElement d)) [wireRecipient d].
Proof.
  intros Hlim Hm Hd. pose proof Hd as [[_ _ _ Hr] _ _ Hb Hv]. unfold wireRecipient. destruct (dn_Device d) as [id|] eqn:E.
  - rewrite optP_Some in Hv. rewrite (recipientElement_device d id) by done.
    eapply (writes_mono _ 0); [lia|]. eapply writes_ext; [|apply (writes_oid lim Hlim 0 0 id); done].
    intros dst. unfold AppendContextObjectID. rewrite EncodeObjectIdentifier_ok by done. done.
  - unfold recipientElement. rewrite E. destruct Hr as [Hn Hl]. unfold MaxMACLength, is_u in *.
    eapply writes_ext; [|apply (writes_constructed lim 0 1 (fun dst => foldAppend AppendTag dst
      [item (UnsignedValue (dn_Network d)); item (octetsValue ValueOctetString (dn_MAC d))])); [done|]].
    + intros dst. done.
    + apply writes_cons; [apply writes_item; [done|apply ap_unsigned; unfold is_u; lia]|].
      apply writes_cons; [apply writes_item; [done|apply ap_octets; [done|unfold MaxUint32; lia|lia]]|]. apply writes_nil.
Qed.

Lemma writes_destination lim d : limits_positive lim -> 8 <= MaxOctetStringLength lim -> 8 <= MaxBitStringBits lim -> destination_fits d ->
  writes lim 1 (fun dst => foldAppend AppendTag dst (Elements d)) (wireElements d).
Proof.
  intros Hlim Hm Hb Hd. pose proof Hd as [[_ Hp _ _] Hf Ht _ _]. unfold Elements, wireElements, is_u in *.
  repeat (apply writes_cons; [first [by apply writes_recipient | apply writes_item; [done|]];
    first [by apply maskBits_prim; auto | by apply byte4_time | apply ap_unsigned; unfold is_u; lia | by apply ap_bool]|]).
  apply writes_nil.
Qed.

Lemma writes_destinations lim ds : limits_positive lim -> 8 <= MaxOctetStringLength lim -> 8 <= MaxBitStringBits lim ->
  (forall d, d ∈ ds -> destination_fits d) ->
  writes lim 1 (fun dst => foldAppend AppendTag dst (flat_map Elements ds)) (flat_map wireElements ds).
Proof.
  intros Hlim Hm Hb Hds. induction ds as [|d ds IH]; [apply writes_nil|]. cbn [flat_map].
  eapply writes_ext; [intros dst; symmetry; apply foldAppend_app|].
  apply (writes_seq lim 1 (fun dst => foldAppend AppendTag dst (Elements d))); [apply writes_destination; [done..|apply Hds; by left]|].
  apply IH. intros d' Hd'. apply Hds. by right.
Qed.

Lemma elcounts_destinations ds : elcounts (flat_map wireElements ds) <= 9 * len ds.
Proof.
  induction ds as [|d ds IH]; [done|]. cbn [flat_map]. rewrite elcounts_app, len_cons.
  assert (elcounts (wireElements d) <= 9) by (unfold elcounts, wireElements, wireRecipient; destruct (dn_Device d); cbn; lia). lia.
Qed.

(** ** The state of the object *)
Record state_ok (s : classState) : Prop := {
  so_max : len (nc_recipients s) <= ncc_MaxRecipients (nc_cfg s);
  so_recipients : Forall destination_ok (nc_recipients s);
  so_priority : length (nc_priority s) = 3%nat /\ Forall (is_u 8) (nc_priority s);
  so_ackReq : is_u 3 (nc_ackReq s)
}.

(** What a property of the object may change. *)
Definition classWrite (id : Z) (w : Write) (s s' : classState) : Prop := state_ok s -> state_ok s' /\ nc_cfg s' = nc_cfg s.

Record class_ok (b : Base classState) : Prop := {
  ck_setters : setters classWrite b;
  ck_recipients : b_props b !! PropertyRecipientList = Some recipientListProperty;
  ck_priority : b_props b !! PropertyPriority = Some priorityProperty;
  ck_state : state_ok (o_state (b_view b))
}.

Lemma writePriorities_ok vals i next p : writePriorities vals i next = Ok p -> Forall (is_u 8) next ->
  length p = length next /\ Forall (is_u 8) p.
Proof.
  revert i next. induction vals as [|v vals IH]; intros i next H Hn; cbn [writePriorities] in H; [by injection H as <-|].
  destruct (bool_decide _); [done|]. destruct (_ >? _); [done|]. apply IH in H as [H1 H2].
  - by rewrite length_insert in H1.
  - apply Forall_insert; [done|by apply uwrap_range].
Qed.

Lemma setPriorities_ok w s ch s' : setPriorities w s = Ok (ch, s') -> classWrite PropertyPriority w s s'.
Proof.
  unfold setPriorities. intros H [H1 H2 [H3 H4] H5]. apply bind_Ok_inv in H as ([vals slot] & _ & H).
  apply bind_Ok_inv in H as (next & Hn & [= _ <-]). apply writePriorities_ok in Hn as [Hl Ho]; [|done]. split; [|done]. split; try done. cbn.
  by rewrite Hl.
Qed.

Lemma writeAckRequired_ok w s ch s' : writeAckRequired w s = Ok (ch, s') -> classWrite PropertyAckRequired w s s'.
Proof.
  unfold writeAckRequired. destruct (pr_ArrayIndex _); [done|]. destruct (bool_decide _); [done|]. intros [= _ <-] [H1 H2 H3 H4].
  split; [|done]. split; try done. by apply bitsOf_range.
Qed.

Lemma writeRecipients_ok w s ch s' : writeRecipients w s = Ok (ch, s') -> classWrite PropertyRecipientList w s s'.
Proof.
  unfold writeRecipients. destruct (pr_ArrayIndex _); [done|]. destruct (bool_decide _); [done|].
  destruct (ParseDestinations _) as [ds|] eqn:E; [|done]. destruct (_ >? _) eqn:El; [done|]. intros [= _ <-] [H1 H2 H3 H4]. bool_to_prop.
  split; [|done]. split; try done. by eapply ParseDestinations_typed.
Qed.

Definition config_fits (cfg : NotificationClassConfig) : Prop :=
  Forall destination_ok (ncc_Recipients cfg) /\ is_u 8 (ncc_AckRequired cfg) /\
  optP (fun p => length p = 3%nat /\ Forall (is_u 8) p) (ncc_Priority cfg).

Lemma NewNotificationClass_state cfg b : NewNotificationClass cfg = Ok b ->
  len (ncc_Recipients cfg) <= ncc_MaxRecipients (withClassDefaults cfg) /\
  o_state (b_view b) = mkClass (withClassDefaults cfg) (default [255; 255; 255] (ncc_Priority cfg)) (Z.land (ncc_AckRequired cfg) 7) (ncc_Recipients cfg).
Proof.
  unfold NewNotificationClass. destruct (_ =? 0); [done|]. destruct (_ >=? _); [done|]. cbv zeta.
  destruct (_ >? _) eqn:El; [done|]. bool_to_prop. intros [= <-]. split; [done|].
  rewrite !Define_state. cbn [ncc_Description withClassDefaults]. destruct (ncc_Description cfg); [|rewrite Define_state]; apply NewBase_state.
Qed.

Lemma NewNotificationClass_ok cfg b : config_fits cfg -> NewNotificationClass cfg = Ok b -> class_ok b.
Proof.
  intros (Hr & Ha & Hp) Hnew. pose proof (NewNotificationClass_state cfg b Hnew) as [Hm Hst].
  unfold NewNotificationClass in Hnew. destruct (_ =? 0); [done|]. destruct (_ >=? _); [done|]. cbv zeta in Hnew.
  destruct (_ >? _); [done|]. injection Hnew as <-. split.
  - apply setters_Define; [|intros ????; apply writeRecipients_ok]. apply setters_Define; [|intros ????; apply writeAckRequired_ok].
    apply setters_Define; [|intros ????; apply setPriorities_ok]. apply setters_Define; [|done].
    destruct (ncc_Description _); [apply setters_NewBase|]. apply setters_Define; [apply setters_NewBase|done].
  - rewrite lookup_Define. by rewrite decide_True.
  - by rewrite !lookup_Define.
  - rewrite Hst. split; [done|done| |].
    + cbn. destruct (ncc_Priority cfg) as [p|]; [by rewrite optP_Some in Hp|]. split; [done|]. change (bytes_ok [255; 255; 255]). solve_bytes.
    + cbn. unfold is_u. rewrite (land_ones_mod _ 3) by done. apply Z.mod_pos_bound. lia.
Qed.

Lemma class_ok_put b s : class_ok b -> state_ok s -> class_ok (putState s b).
Proof. by intros [H1 H2 H3 H4] Hs. Qed.

Lemma written_class_ok b w cs b' : class_ok b -> WriteProperty b w = Ok (cs, b') ->
  class_ok b' /\ nc_cfg (o_state (b_view b')) = nc_cfg (o_state (b_view b)).
Proof.
  intros [H1 H2 H3 H4] H. cbn in H. unfold baseWriteProperty in H. apply bind_Ok_inv in H as ([ch b2] & H & [= _ <-]).
  apply writeLocked_written in H. assert (state_ok (o_state (b_view b2)) /\ nc_cfg (o_state (b_view b2)) = nc_cfg (o_state (b_view b))) as [Hs Hc].
  { destruct (written_state _ _ _ _ _ H1 H) as [->|Hs]; [done|by apply Hs]. }
  split; [|done]. split; [by eapply setters_written| | |done].
  - eapply written_keeps; [exact H|done|by left].
  - eapply written_keeps; [exact H|done|by left].
Qed.

(** ** The list services *)
Lemma equal_spec d o : equalDestination d o = bool_decide (d = o).
Proof.
  destruct (bool_decide_reflect (d = o)) as [->|Hne].
  - unfold equalDestination. rewrite !Z.eqb_refl, !bool_decide_eq_true_2 by done.
    destruct (dn_Device o); [by rewrite bool_decide_eq_true_2|done].
  - apply not_true_iff_false. intros H. apply Hne. clear Hne. unfold equalDestination in H. destruct (negb _) eqn:E; [done|].
    bool_to_prop. repeat match goal with H : bool_decide _ = true |- _ => apply bool_decide_eq_true in H end.
    destruct d as [a1 a2 a3 a4 a5 a6 a7 a8 a9], o as [b1 b2 b3 b4 b5 b6 b7 b8 b9]. cbn in *.
    assert (a4 = b4) as -> by (destruct a4, b4; try done; apply bool_decide_eq_true in E; congruence). congruence.
Qed.

(** The destinations of [ds] that are not in [R], each once, in order. *)
Definition fresh (R ds news : list Destination) : Prop :=
  (news `sublist_of` ds) /\ NoDup news /\ forall d, d ∈ news <-> d ∈ ds /\ d ∉ R.

Lemma fresh_old R ds news d : d ∈ R -> fresh R ds news -> fresh R (d :: ds) news.
Proof. intros Hd (H1 & H2 & H3). split_and!; [by apply sublist_cons|done|]. intros x. rewrite H3, elem_of_cons. set_solver. Qed.

Lemma fresh_new R ds news d : d ∉ R -> fresh (R ++ [d]) ds news -> fresh R (d :: ds) (d :: news).
Proof.
  intros Hd (H1 & H2 & H3). split_and!; [by apply sublist_skip|constructor; [|done]; rewrite H3; set_solver|].
  intros x. rewrite !elem_of_cons, H3. destruct (decide (x = d)); set_solver.
Qed.

Lemma existsb_equal d R : existsb (fun have => equalDestination have d) R = bool_decide (d ∈ R).
Proof.
  induction R as [|x R IH]; [done|]. cbn [existsb]. rewrite IH, equal_spec. symmetry.
  destruct (bool_decide_reflect (x = d)) as [->|Hne]; cbn [orb]; [rewrite bool_decide_eq_true; by left|].
  apply bool_decide_ext. rewrite elem_of_cons. naive_solver.
Qed.

(** [addLoop] appends what is new; when the list is full it names the first
    destination that does not fit. *)
Lemma addLoop_spec max ds : forall i R, 0 <= i -> i + len ds < 2 ^ 32 -> len R <= max ->
  match addLoop max i ds R with
  | inl next => len next <= max /\ exists news, fresh R ds news /\ next = R ++ news
  | inr (e, k) => e = ErrNoSpaceForListElement /\ exists n d news, k = i + Z.of_nat n + 1 /\ ds !! n = Some d /\
      fresh R (take n ds) news /\ (d ∉ R ++ news) /\ len (R ++ news) = max
  end.
Proof.
  induction ds as [|d ds IH]; intros i R Hi Hl HR; cbn [addLoop].
  { split; [done|]. exists []. rewrite app_nil_r. split; [|done]. split_and!; [done|constructor|set_solver]. }
  rewrite len_cons in Hl. pose proof (len_nonneg ds). rewrite existsb_equal. destruct (bool_decide_reflect (d ∈ R)) as [Hd|Hd].
  - specialize (IH (i + 1) R ltac:(lia) ltac:(lia) HR). destruct (addLoop _ _ _ _) as [next|[e k]].
    + destruct IH as (Hm & news & Hn & ->). split; [done|]. exists news. split; [by apply fresh_old|done].
    + destruct IH as (-> & n & d' & news & -> & Hk & Hn & Hd' & Hm). split; [done|]. exists (S n), d', news.
      split_and!; [lia|done|by apply fresh_old|done|done].
  - destruct (len R >=? max) eqn:E; bool_to_prop.
    + split; [done|]. exists 0%nat, d, []. rewrite uwrap_small by (unfold is_u; lia). rewrite app_nil_r.
      split_and!; [lia|done| |done|lia]. split_and!; [done|constructor|set_solver].
    + specialize (IH (i + 1) (R ++ [d]) ltac:(lia) ltac:(lia) ltac:(len_lia)). destruct (addLoop _ _ _ _) as [next|[e k]].
      * destruct IH as (Hm & news & Hn & ->). split; [done|]. exists (d :: news). rewrite <- app_assoc. split; [by apply fresh_new|done].
      * destruct IH as (-> & n & d' & news & -> & Hk & Hn & Hd' & Hm). split; [done|]. exists (S n), d', (d :: news).
        rewrite <- app_assoc in Hd', Hm. split_and!; [lia|done|by apply fresh_new|done|done].
Qed.

(** [removeLoop] takes away each destination once; it names the first that is
    not there. *)
Lemma removeLoop_spec ds : forall i R, 0 <= i -> i + len ds < 2 ^ 32 ->
  match removeLoop i ds R with
  | inl next => R ≡ₚ ds ++ next /\ (next `sublist_of` R)
  | inr (e, k) => e = ErrListElementNotFound /\ exists n d left, k = i + Z.of_nat n + 1 /\ ds !! n = Some d /\
      R ≡ₚ take n ds ++ left /\ d ∉ left
  end.
Proof.
  induction ds as [|d ds IH]; intros i R Hi Hl; cbn [removeLoop]; [done|].
  rewrite len_cons in Hl. pose proof (len_nonneg ds). destruct (list_find _ R) as [[j x]|] eqn:Ef.
  - apply list_find_Some in Ef as (Hj & Hx & _). rewrite equal_spec in Hx. apply bool_decide_eq_true in Hx as ->.
    assert (R ≡ₚ d :: (take j R ++ drop (S j) R)) as HR by (rewrite <- delete_take_drop; by apply delete_Permutation).
    assert (take j R ++ drop (S j) R `sublist_of` R) as Hs by (rewrite <- delete_take_drop; apply sublist_delete).
    specialize (IH (i + 1) (take j R ++ drop (S j) R) ltac:(lia) ltac:(lia)). destruct (removeLoop _ _ _) as [next|[e k]].
    + destruct IH as [Hp Hn]. split; [by rewrite HR, Hp|]. by etrans.
    + destruct IH as (-> & n & d' & left & -> & Hk & Hp & Hd'). split; [done|]. exists (S n), d', left.
      split_and!; [lia|done|by rewrite HR, Hp|done].
  - split; [done|]. exists 0%nat, d, R. rewrite uwrap_small by (unfold is_u; lia). split_and!; [lia|done|done|].
    intros Hd. apply list_find_None in Ef. rewrite Forall_forall in Ef. apply (Ef d Hd). rewrite equal_spec. by apply bool_decide_eq_true.
Qed.

Lemma sublist_filter_list {A} (f : A -> bool) l : List.filter f l `sublist_of` l.
Proof. induction l as [|x l IH]; [done|]. cbn [List.filter]. destruct (f x); [by apply sublist_skip|by apply sublist_cons]. Qed.

(** ** What a list of elements spells

    The BACnetDestination of clause 21 as conditions on the seven elements,
    without the parser: [spelled] says which elements stand for which
    destination, [parseDestination_spelled] that the parser accepts exactly
    these. *)
Definition carries (k : ValueKind) (e : Element) : Prop := el_Context e = false /\ av_Kind (el_Value e) = k.

(** Bit [i] of the mask is bit [i] of the bit string, for the [n] bits of the
    mask. *)
Definition maskOf (n mask : Z) (v : ApplicationValue) : Prop :=
  is_u n mask /\ forall i, 0 <= i < n -> Z.testbit mask i = valueBit v i.

(** The recipient: a device identifier in context 0, or a network number and
    a MAC address in context 1. *)
Inductive recipient (e : Element) (d : Destination) : Prop :=
| recipient_device id : el_Context e = true -> el_TagNumber e = 0 -> IsContextConstructed e = false -> ContextObjectID e = Ok id ->
    dn_Device d = Some id -> dn_Network d = 0 -> dn_MAC d = [] -> recipient e d
| recipient_address n m : el_TagNumber e = 1 -> IsContextConstructed e = true -> av_Elements (el_Value e) = [n; m] ->
    carries ValueUnsigned n -> av_Unsigned (el_Value n) <= 0xFFFF -> carries ValueOctetString m -> len (av_OctetString (el_Value m)) <= MaxMACLength ->
    dn_Device d = None -> dn_Network d = u16 (av_Unsigned (el_Value n)) -> dn_MAC d = av_OctetString (el_Value m) -> recipient e d.

Inductive spelled : list Element -> Destination -> Prop :=
| spelled_seven d days from to r process confirmed transitions :
    carries ValueBitString days -> maskOf 7 (dn_ValidDays d) (el_Value days) ->
    carries ValueTime from -> dn_From d = av_Time (el_Value from) -> carries ValueTime to -> dn_To d = av_Time (el_Value to) ->
    recipient r d ->
    carries ValueUnsigned process -> av_Unsigned (el_Value process) <= 0xFFFFFFFF -> dn_ProcessID d = u32 (av_Unsigned (el_Value process)) ->
    carries ValueBoolean confirmed -> dn_Confirmed d = av_Boolean (el_Value confirmed) ->
    carries ValueBitString transitions -> maskOf 3 (dn_Transitions d) (el_Value transitions) ->
    spelled [days; from; to; r; process; confirmed; transitions] d.

(** The seven elements of the [n]-th destination, from 0. *)
Definition chunk (n : nat) (els : list Element) : list Element := take 7 (drop (7 * n) els).

Lemma isApp_spec e k : isApp e k = true <-> carries k e.
Proof. unfold isApp, carries. rewrite andb_true_iff, negb_true_iff, bool_decide_eq_true. done. Qed.

Lemma bitsOf_fold bs l v i : 0 <= i -> Forall (fun j => 0 <= j) l ->
  Z.testbit (fold_left (fun v j => if valueBit (bitStringValue bs) j then Z.lor v (Z.shiftl 1 j) else v) l v) i =
  Z.testbit v i || (bool_decide (i ∈ l) && valueBit (bitStringValue bs) i).
Proof.
  intros Hi. revert v. induction l as [|j l IH]; intros v Hl; cbn [fold_left].
  { rewrite bool_decide_eq_false_2 by (by apply not_elem_of_nil). by rewrite orb_false_r. }
  apply Forall_cons in Hl as [Hj Hl]. rewrite IH by done.
  assert (bool_decide (i ∈ j :: l) = (j =? i) || bool_decide (i ∈ l)) as ->.
  { destruct (j =? i) eqn:E; bool_to_prop; [subst; by rewrite bool_decide_eq_true_2 by (by left)|].
    apply bool_decide_ext. rewrite elem_of_cons. naive_solver. }
  assert (Z.testbit (Z.shiftl 1 j) i = (j =? i)) as Hs by (rewrite Z.shiftl_1_l; by apply Z.pow2_bits_eqb).
  destruct (valueBit (bitStringValue bs) j) eqn:Ej.
  - rewrite Z.lor_spec, Hs. destruct (j =? i) eqn:E; [|by rewrite orb_false_r]. bool_to_prop. subst. rewrite Ej.
    by destruct (Z.testbit v i), (bool_decide _).
  - destruct (j =? i) eqn:E; [|done]. bool_to_prop. subst. rewrite Ej. by rewrite !andb_false_r.
Qed.

Lemma bitsOf_maskOf n mask v : 0 <= n -> av_Kind v = ValueBitString -> bitsOf (av_BitString v) n = mask <-> maskOf n mask v.
Proof.
  intros Hn Hk. assert (forall i, valueBit (bitStringValue (av_BitString v)) i = valueBit v i) as Hv.
  { intros i. unfold valueBit. by rewrite Hk. }
  assert (forall i, 0 <= i < n -> Z.testbit (bitsOf (av_BitString v) n) i = valueBit v i) as Hb.
  { intros i Hi. unfold bitsOf. rewrite bitsOf_fold; [|lia|apply Forall_forall; intros j Hj%elem_of_seqZ; lia].
    rewrite Z.bits_0, bool_decide_eq_true_2 by (apply elem_of_seqZ; lia). apply Hv. }
  split; [intros <-; split; [by apply bitsOf_range|done]|]. intros [Hm Hi]. apply Z.bits_inj'. intros i Hi0.
  destruct (decide (i < n)); [by rewrite Hb, Hi by lia|]. pose proof (bitsOf_range (av_BitString v) n Hn) as Hr. unfold is_u in *.
  rewrite <- (Z.mod_small (bitsOf (av_BitString v) n) (2 ^ n)), <- (Z.mod_small mask (2 ^ n)) by done.
  by rewrite !Z.mod_pow2_bits_high by lia.
Qed.

Lemma parseRecipient_spec r d : parseRecipient r = Some (dn_Device d, dn_Network d, dn_MAC d) <-> recipient r d.
Proof.
  split.
  - intros H. pose proof (parseRecipient_typed _ _ _ _ H) as Hty. unfold parseRecipient in H. destruct (_ && _) eqn:E in H.
    + bool_to_prop. destruct (ContextObjectID r) as [id|] eqn:Eid; [|done]. injection H as Ed En Em. by apply (recipient_device r d id).
    + clear E. destruct (_ && _) eqn:E in H; [|done]. bool_to_prop. destruct (av_Elements _) as [|n [|m [|]]] eqn:El; try done.
      destruct (_ || _) eqn:Eo in H; [done|]. cbv zeta in H. destruct (_ && _) in H; [done|]. injection H as Ed En Em. rewrite <- Ed in Hty. bool_to_prop.
      repeat match goal with H : bool_decide (_ <> _) = false |- _ => apply bool_decide_eq_false, dec_stable in H end.
      apply (recipient_address r d n m); try done. rewrite Em. apply Hty.
  - intros [id Hc Ht Hn Hid -> -> -> | n m Ht Hc Hel [Hn1 Hn2] Hn [Hm1 Hm2] Hm -> -> ->]; unfold parseRecipient.
    + rewrite Hc, Ht, Hn, Hid. done.
    + assert (el_Context r = true) as -> by (unfold IsContextConstructed in Hc; by destruct (el_Context r)).
      rewrite Ht, Hc, Hel, Hn1, Hn2, Hm1, Hm2. rewrite !bool_decide_eq_false_2 by congruence. cbn [Z.eqb Pos.eqb andb orb negb].
      rewrite NewMAC_ok, andb_false_r by done. by decide_tests.
Qed.

Lemma parseDestination_spelled els d : parseDestination els = Some d <-> spelled els d.
Proof.
  split.
  - unfold parseDestination. destruct els as [|e0 [|e1 [|e2 [|e3 [|e4 [|e5 [|e6 [|]]]]]]]]; try done. destruct (_ || _) eqn:E; [done|].
    repeat match goal with H : _ || _ = false |- _ => apply orb_false_iff in H as [? ?] end.
    repeat match goal with H : negb _ = false |- _ => apply negb_false_iff, isApp_spec in H end. bool_to_prop.
    destruct (parseRecipient e3) as [[[dev net] mac]|] eqn:Er; [|done]. intros [= <-].
    apply spelled_seven; try assumption; try reflexivity; cbn; [|by apply parseRecipient_spec|];
      (apply bitsOf_maskOf; [lia|match goal with H : carries _ ?e |- context [?e] => apply H end|done]).
  - intros [d' e0 e1 e2 r e4 e5 e6 H0 M0 H1 F1 H2 F2 Hr H4 L4 F4 H5 F5 H6 M6]. unfold parseDestination.
    apply isApp_spec in H1 as ->, H2 as ->, H4 as ->, H5 as ->. apply bitsOf_maskOf in M0; [|lia|apply H0]. apply bitsOf_maskOf in M6; [|lia|apply H6].
    apply isApp_spec in H0 as ->, H6 as ->. apply parseRecipient_spec in Hr as ->. cbn [negb orb]. decide_tests. cbn [mbind option_bind].
    rewrite M0, M6, <- F1, <- F2, <- F4, <- F5. by destruct d'.
Qed.

Lemma destinationsLoop_all ds : forall i els, (forall n d, ds !! n = Some d -> parseDestination (chunk n els) = Some d) ->
  destinationsLoop (length ds) i els = inl ds.
Proof.
  induction ds as [|d ds IH]; intros i els H; [done|]. cbn [length destinationsLoop]. change (take 7 els) with (chunk 0 els).
  rewrite (H 0%nat d) by done. rewrite IH; [done|]. intros n d' Hn. unfold chunk. rewrite drop_drop.
  replace (7 + 7 * n)%nat with (7 * S n)%nat by lia. by apply (H (S n)).
Qed.

Lemma destinationsLoop_first k : forall i els n, (n < k)%nat -> parseDestination (chunk n els) = None ->
  (forall m, (m < n)%nat -> is_Some (parseDestination (chunk m els))) -> destinationsLoop k i els = inr (u32 (i + Z.of_nat n + 1)).
Proof.
  induction k as [|k IH]; intros i els n Hn Hb Hg; [lia|]. cbn [destinationsLoop]. change (take 7 els) with (chunk 0 els).
  destruct n as [|n]; [rewrite Hb; do 2 f_equal; lia|]. destruct (Hg 0%nat) as [d ->]; [lia|].
  assert (forall j, chunk j (drop 7 els) = chunk (S j) els) as Hc.
  { intros j. unfold chunk. rewrite drop_drop. do 2 f_equal. lia. }
  rewrite (IH _ _ n); [do 2 f_equal; lia|lia|by rewrite Hc|]. intros m Hm. rewrite Hc. apply Hg. lia.
Qed.

(** ** Runs of the object *)
Inductive class_step (b : Base classState) : Base classState -> Prop :=
| class_write w cs b' : WriteProperty b w = Ok (cs, b') -> class_step b b'
| class_list add prop els cs b' : changeRecipients add prop els b = ListDone cs b' -> class_step b b'.

Lemma removeLoop_incl ds : forall i R next, removeLoop i ds R = inl next -> next `sublist_of` R.
Proof.
  induction ds as [|d ds IH]; intros i R next; cbn [removeLoop]; [by intros [= <-]|].
  destruct (list_find _ R) as [[j x]|]; [|done]. intros H%IH. etrans; [exact H|]. rewrite <- delete_take_drop. apply sublist_delete.
Qed.

Lemma addLoop_incl max ds : forall i R next, addLoop max i ds R = inl next -> len R <= max -> Forall destination_ok ds ->
  Forall destination_ok R -> len next <= max /\ Forall destination_ok next.
Proof.
  induction ds as [|d ds IH]; intros i R next; cbn [addLoop]; [by intros [= <-]|]. intros H Hl Hds HR. apply Forall_cons in Hds as [Hd Hds].
  destruct (existsb _ _); [by eapply IH|]. destruct (_ >=? _) eqn:E; [done|]. bool_to_prop. eapply IH; [exact H|len_lia|done|].
  apply Forall_app. split; [done|]. by apply List.Forall_cons.
Qed.

Lemma changeRecipients_ok add prop els b cs b' : class_ok b -> changeRecipients add prop els b = ListDone cs b' ->
  class_ok b' /\ nc_cfg (o_state (b_view b')) = nc_cfg (o_state (b_view b)).
Proof.
  intros Hb. unfold changeRecipients. destruct (listProperty _ _); [|done]. destruct (ParseDestinations els) as [ds|] eqn:Ed; [|done]. cbv zeta.
  pose proof (ck_state b Hb) as [H1 H2 H3 H4]. apply ParseDestinations_typed in Ed.
  destruct (if add then _ else _) as [next|[]] eqn:En; [|done]. intros [= _ <-]. split; [|done]. apply class_ok_put; [done|].
  assert (len next <= ncc_MaxRecipients (nc_cfg (o_state (b_view b))) /\ Forall destination_ok next) as [Hm Hf].
  { destruct add; [by eapply addLoop_incl|]. apply removeLoop_incl in En. split; [apply sublist_length in En; unfold len in *; lia|].
    apply Forall_forall. intros x Hx. rewrite Forall_forall in H2. apply H2. by eapply elem_of_sublist. }
  by split.
Qed.

Lemma class_step_ok b b' : class_ok b -> class_step b b' -> class_ok b' /\ nc_cfg (o_state (b_view b')) = nc_cfg (o_state (b_view b)).
Proof. intros Hb [w cs b1 H|add prop els cs b1 H]; [by eapply written_class_ok|by eapply changeRecipients_ok]. Qed.

Lemma class_run_ok b b' : class_ok b -> rtc class_step b b' -> class_ok b' /\ nc_cfg (o_state (b_view b')) = nc_cfg (o_state (b_view b)).
Proof.
  intros Hb Hr. induction Hr as [|b b1 b2 Hs Hr IH]; [done|]. destruct (class_step_ok _ _ Hb Hs) as [Hb1 E1].
  destruct (IH Hb1) as [H2 E2]. split; [done|congruence].
Qed.

Lemma ok_address d : destination_ok d -> exists a, destinationAddress d = Ok a.
Proof.
  intros [_ _ _ Hr]. unfold destinationAddress. destruct (len (dn_MAC d) =? 0); [destruct (_ =? 0); by eexists|].
  rewrite NewMAC_ok; [cbn [bind]; destruct (_ =? 0); by eexists|]. destruct (dn_Device d); [|by destruct Hr].
  destruct Hr as [_ ->]. done.
Qed.

(** ** When a destination is active *)
Definition time_exact (t : Time) : Prop :=
  0 <= t_Hour t < 24 /\ 0 <= t_Minute t < 60 /\ 0 <= t_Second t < 60 /\ 0 <= t_Hundredths t < 100.
(** The hundredths of a second since midnight. *)
Definition hundredths (t : Time) : Z := ((t_Hour t * 60 + t_Minute t) * 60 + t_Second t) * 100 + t_Hundredths t.
Definition anyTime : Time := mkTime 0xFF 0xFF 0xFF 0xFF.

Lemma timeBefore_exact a b : time_exact a -> time_exact b -> timeBefore a b = (hundredths a <? hundredths b).
Proof.
  unfold time_exact, timeBefore, hundredths. destruct a as [a1 a2 a3 a4], b as [b1 b2 b3 b4]. cbn. intros Ha Hb.
  replace (a1 =? 0xFF) with false by (symmetry; lia). replace (b1 =? 0xFF) with false by (symmetry; lia).
  replace (a2 =? 0xFF) with false by (symmetry; lia). replace (b2 =? 0xFF) with false by (symmetry; lia).
  replace (a3 =? 0xFF) with false by (symmetry; lia). replace (b3 =? 0xFF) with false by (symmetry; lia).
  replace (a4 =? 0xFF) with false by (symmetry; lia). replace (b4 =? 0xFF) with false by (symmetry; lia). cbn [orb].
  destruct (a1 =? b1) eqn:E1; cbn [negb]; [|lia]. destruct (a2 =? b2) eqn:E2; cbn [negb]; [|lia].
  destruct (a3 =? b3) eqn:E3; cbn [negb]; [|lia]. destruct (a4 =? b4) eqn:E4; cbn [negb]; lia.
Qed.

Lemma timeBefore_any t : timeBefore t anyTime = false /\ timeBefore anyTime t = false.
Proof. unfold timeBefore, anyTime. cbn. by rewrite !orb_true_r. Qed.

Lemma bit_testbit x i : 0 <= i -> bit x (Z.shiftl 1 i) = Z.testbit x i.
Proof.
  intros Hi. unfold bit. rewrite Z.shiftl_1_l. destruct (Z.testbit x i) eqn:E; [apply negb_true_iff, Z.eqb_neq|apply negb_false_iff, Z.eqb_eq].
  - intros H. apply (f_equal (fun z => Z.testbit z i)) in H. by rewrite Z.land_spec, E, Z.pow2_bits_true, Z.bits_0 in H.
  - apply Z.bits_inj'. intros j Hj. rewrite Z.land_spec, Z.bits_0, Z.pow2_bits_eqb by done.
    destruct (i =? j) eqn:Ej; [bool_to_prop; subst; by rewrite E|apply andb_false_r].
Qed.

Lemma Active_spec {LT : LocalTime} d t tr : 0 <= tr ->
  Active d t tr = Z.testbit (dn_ValidDays d) ((c_Weekday (civil t) + 6) mod 7) && Z.testbit (dn_Transitions d) tr &&
    (negb (timeBefore (timeOf t) (dn_From d)) && negb (timeBefore (dn_To d) (timeOf t))).
Proof.
  intros Htr. unfold Active. cbv zeta. rewrite !bit_testbit by (try apply Z.mod_pos_bound; lia).
  by destruct (Z.testbit (dn_ValidDays d) _), (Z.testbit _ tr).
Qed.

(** ** Properties *)
Definition recipientsOf (b : Base classState) : list Destination := nc_recipients (o_state (b_view b)).
Definition maxRecipientsOf (b : Base classState) : Z := ncc_MaxRecipients (nc_cfg (o_state (b_view b))).
Definition recipientListRef : PropertyReference := mkPropertyReference PropertyRecipientList None.

(** A Recipient_List survives the trip through a client: what one
    Notification Class answers to a read of the property encodes to octets,
    these parse to elements, and a write of the parsed elements - to any
    Notification Class with room for them - stores exactly the same
    destinations: days, times with wildcards, devices or addresses, process
    identifiers, confirmation and transitions. *)
Theorem recipient_list_roundtrip lim b b' (Hb : class_ok b) (Hb' : class_ok b')
    (Hds : Forall destination_fits (recipientsOf b)) (Hroom : destinations_room lim (len (recipientsOf b)))
    (Hmax : len (recipientsOf b) <= maxRecipientsOf b') :
  exists v bs els cs b'', ReadProperty b recipientListRef = Ok v /\ foldAppend AppendTag [] (av_Elements v) = Ok bs /\ bytes_ok bs /\
    ParseSequence bs lim (-1) = Ok (els, len bs) /\
    WriteProperty b' (mkWrite recipientListRef (constructedValue els) 0) = Ok (cs, b'') /\ recipientsOf b'' = recipientsOf b.
Proof.
  destruct Hroom as (Hd & Hn & Hm & Hbits). unfold recipientsOf, maxRecipientsOf in *. set (ds := nc_recipients (o_state (b_view b))) in *.
  rewrite Forall_forall in Hds.
  assert (writes (Normalize lim) 1 (fun dst => foldAppend AppendTag dst (flat_map Elements ds)) (flat_map wireElements ds)) as Hw
    by (apply writes_destinations; [by apply Normalize_positive|done..]).
  pose proof (elcounts_destinations ds) as Hc.
  destruct (ParseSequence_writes lim 1 _ _ Hw) as (bs & Hf & Hok & Hp); [lia|lia|].
  eexists _, bs, (flat_map wireElements ds), _, _. split_and!; [| |done|exact Hp| |].
  - cbn. unfold readLocked. cbn [pr_Identifier recipientListRef]. rewrite (ck_recipients b Hb). cbn [pr_ArrayIndex].
    unfold valueOf, recipientListProperty, settable. cbn [p_Get]. by rewrite Clone_id.
  - cbn [av_Elements readRecipients constructedValue]. exact (Hf []).
  - cbn [WriteProperty Base_ops]. unfold baseWriteProperty, writeLocked. cbn [w_Property pr_Identifier recipientListRef].
    rewrite (ck_recipients b' Hb'). cbn [p_Writable p_Set recipientListProperty settable negb]. unfold writeRecipients.
    cbn [w_Property pr_ArrayIndex w_Value recipientListRef av_Kind av_Elements constructedValue]. rewrite bool_decide_eq_false_2 by congruence.
    rewrite ParseDestinations_flat_map by (try done; intros d Hd'; by apply parse_wireElements, Hds). rewrite Z.gtb_ltb.
    rewrite (proj2 (Z.ltb_ge _ _)) by done. reflexivity.
  - done.
Qed.

Lemma len_div7 {A} (els : list A) : Z.of_nat (length els / 7) = len els / 7.
Proof. unfold len. by rewrite Nat2Z.inj_div. Qed.

Lemma ParseDestinations_length els : len els < 2 ^ 32 -> len els mod 7 <> 0 -> ParseDestinations els = inr (len els / 7 + 1).
Proof.
  intros Hl Hm. unfold ParseDestinations. replace (len els mod 7 =? 0) with false by (symmetry; by apply Z.eqb_neq). cbn [negb].
  rewrite uwrap_small; [done|]. unfold is_u. pose proof (len_nonneg els). pose proof (Z.div_pos (len els) 7). pose proof (Z.div_mod (len els) 7). 
  pose proof (Z.mod_pos_bound (len els) 7). lia.
Qed.

Lemma ParseDestinations_sevens els : len els mod 7 = 0 -> ParseDestinations els = destinationsLoop (length els / 7) 0 els.
Proof. intros Hm. unfold ParseDestinations. by rewrite Hm. Qed.

Lemma ParseDestinations_first els n : len els < 2 ^ 32 -> len els mod 7 = 0 -> 7 * Z.of_nat n < len els ->
  (forall d, ~ spelled (chunk n els) d) -> (forall m, (m < n)%nat -> exists d, spelled (chunk m els) d) ->
  ParseDestinations els = inr (Z.of_nat n + 1).
Proof.
  intros Hl Hm Hn Hbad Hgood. rewrite ParseDestinations_sevens by done. rewrite (destinationsLoop_first _ _ _ n).
  - rewrite uwrap_small; [done|unfold is_u; lia].
  - apply Nat2Z.inj_lt. rewrite len_div7. pose proof (Z.div_mod (len els) 7). lia.
  - destruct (parseDestination (chunk n els)) as [d|] eqn:E; [|done]. by apply parseDestination_spelled, Hbad in E.
  - intros m Hmn. destruct (Hgood m Hmn) as [d Hd]. exists d. by apply parseDestination_spelled.
Qed.

Lemma ParseDestinations_all els ds : len els = 7 * len ds -> (forall n d, ds !! n = Some d -> spelled (chunk n els) d) ->
  ParseDestinations els = inl ds.
Proof.
  intros Hl Hds. rewrite ParseDestinations_sevens by (rewrite Hl, Z.mul_comm; by apply Z.mod_mul).
  replace (length els / 7)%nat with (length ds) by (apply Nat2Z.inj; rewrite len_div7, Hl, Z.mul_comm, Z.div_mul; done).
  apply destinationsLoop_all. intros n d Hn. by apply parseDestination_spelled, Hds.
Qed.

Lemma changeRecipients_refused els first b : ParseDestinations els = inr first ->
  AddListElements recipientListRef els b = ListFailed ErrInvalidDataType (Some first) /\
  RemoveListElements recipientListRef els b = ListFailed ErrInvalidDataType (Some first).
Proof.
  intros H. unfold AddListElements, RemoveListElements, changeRecipients. change (listProperty recipientListRef b) with (@Ok unit tt).
  cbn beta iota zeta. by rewrite H.
Qed.

Lemma changeRecipients_spelled b els ds : class_ok b -> len ds < 2 ^ 32 -> ParseDestinations els = inl ds ->
  match AddListElements recipientListRef els b with
  | ListDone _ b' => b' = putState (setRecipients (recipientsOf b') (o_state (b_view b))) b /\ len (recipientsOf b') <= maxRecipientsOf b /\
      exists news, fresh (recipientsOf b) ds news /\ recipientsOf b' = recipientsOf b ++ news
  | ListFailed e first => e = ErrNoSpaceForListElement /\ exists n d news, first = Some (Z.of_nat n + 1) /\ ds !! n = Some d /\
      fresh (recipientsOf b) (take n ds) news /\ (d ∉ recipientsOf b ++ news) /\ len (recipientsOf b ++ news) = maxRecipientsOf b
  end /\
  match RemoveListElements recipientListRef els b with
  | ListDone _ b' => b' = putState (setRecipients (recipientsOf b') (o_state (b_view b))) b /\
      recipientsOf b ≡ₚ ds ++ recipientsOf b' /\ (recipientsOf b' `sublist_of` recipientsOf b)
  | ListFailed e first => e = ErrListElementNotFound /\ exists n d left, first = Some (Z.of_nat n + 1) /\ ds !! n = Some d /\
      recipientsOf b ≡ₚ take n ds ++ left /\ d ∉ left
  end.
Proof.
  intros Hb Hl Hds.
  unfold AddListElements, RemoveListElements, changeRecipients. change (listProperty recipientListRef b) with (@Ok unit tt). cbn beta iota zeta.
  rewrite Hds. pose proof (addLoop_spec (maxRecipientsOf b) ds 0 (recipientsOf b) ltac:(lia) Hl (so_max _ (ck_state b Hb))) as Ha.
  pose proof (removeLoop_spec ds 0 (recipientsOf b) ltac:(lia) Hl) as Hr. unfold recipientsOf, maxRecipientsOf in *. split.
  - destruct (addLoop _ _ _ _) as [next|[e k]]; [by destruct Ha as (Hm & news & Hn & ->); split_and!; [|done|exists news]|].
    destruct Ha as (-> & n & d & news & -> & H). split; [done|]. by exists n, d, news.
  - destruct (removeLoop _ _ _) as [next|[e k]]; [done|]. destruct Hr as (-> & n & d & left & -> & H). split; [done|]. by exists n, d, left.
Qed.

(** C28. AddListElement and RemoveListElement of the Recipient_List are all or
    nothing. A list whose length is not a multiple of seven is refused with
    the number of the destination it breaks off in; a list of sevens whose
    first malformed destination is the [n]-th is refused with that number,
    both before anything is looked at. When the sevens spell the destinations
    [ds], adding appends exactly those that are not yet in the Recipient_List,
    each once, and fails - naming the first that does not fit, by its number
    from 1 - exactly when the list is full at it; removing takes every
    destination away once and fails - naming the first that is not there.
    Nothing else of the object changes. *)
Theorem recipient_list_changes b els (Hb : class_ok b) (Hl : len els < 2 ^ 32) :
  let refused first := AddListElements recipientListRef els b = ListFailed ErrInvalidDataType (Some first) /\
    RemoveListElements recipientListRef els b = ListFailed ErrInvalidDataType (Some first) in
  (len els mod 7 <> 0 -> refused (len els / 7 + 1)) /\
  (forall n, len els mod 7 = 0 -> 7 * Z.of_nat n < len els -> (forall d, ~ spelled (chunk n els) d) ->
    (forall m, (m < n)%nat -> exists d, spelled (chunk m els) d) -> refused (Z.of_nat n + 1)) /\
  forall ds, len els = 7 * len ds -> (forall n d, ds !! n = Some d -> spelled (chunk n els) d) ->
  match AddListElements recipientListRef els b with
  | ListDone _ b' => b' = putState (setRecipients (recipientsOf b') (o_state (b_view b))) b /\ len (recipientsOf b') <= maxRecipientsOf b /\
      exists news, fresh (recipientsOf b) ds news /\ recipientsOf b' = recipientsOf b ++ news
  | ListFailed e first => e = ErrNoSpaceForListElement /\ exists n d news, first = Some (Z.of_nat n + 1) /\ ds !! n = Some d /\
      fresh (recipientsOf b) (take n ds) news /\ (d ∉ recipientsOf b ++ news) /\ len (recipientsOf b ++ news) = maxRecipientsOf b
  end /\
  match RemoveListElements recipientListRef els b with
  | ListDone _ b' => b' = putState (setRecipients (recipientsOf b') (o_state (b_view b))) b /\
      recipientsOf b ≡ₚ ds ++ recipientsOf b' /\ (recipientsOf b' `sublist_of` recipientsOf b)
  | ListFailed e first => e = ErrListElementNotFound /\ exists n d left, first = Some (Z.of_nat n + 1) /\ ds !! n = Some d /\
      recipientsOf b ≡ₚ take n ds ++ left /\ d ∉ left
  end.
Proof.
  cbv zeta. split_and!; [intros Hm|intros n Hm Hn Hbad Hgood|intros ds Hlen Hds].
  - apply changeRecipients_refused, ParseDestinations_length; done.
  - apply changeRecipients_refused, ParseDestinations_first; done.
  - apply changeRecipients_spelled; [done|len_lia|by apply ParseDestinations_all].
Qed.

(** In every run of a Notification Class - writes of its properties and list
    services with any arguments, in any order - its Recipient_List stays
    within the configured bound, every destination in it has a network
    address, the three priorities stay octets and are what the property
    reads, and routing a transition never fails. *)
Theorem notification_class_safe {LT : LocalTime} cfg b0 b (Hcfg : config_fits cfg) (Hnew : NewNotificationClass cfg = Ok b0)
    (Hrun : rtc class_step b0 b) :
  len (recipientsOf b) <= ncc_MaxRecipients (withClassDefaults cfg) /\
  Forall (fun d => exists a, destinationAddress d = Ok a) (recipientsOf b) /\
  forall tr, 0 <= tr < 3 -> exists p, is_u 8 p /\
    ReadProperty b (mkPropertyReference PropertyPriority (Some (tr + 1))) = Ok (UnsignedValue p) /\
    forall t, exists ack to, Routing t tr b = Ok (p, ack, to) /\ (to `sublist_of` recipientsOf b).
Proof.
  pose proof (NewNotificationClass_ok cfg b0 Hcfg Hnew) as Hb0. destruct (class_run_ok b0 b Hb0 Hrun) as [Hb Hc].
  destruct (NewNotificationClass_state cfg b0 Hnew) as [_ Hst]. rewrite Hst in Hc. cbn [nc_cfg] in Hc.
  pose proof (ck_state b Hb) as [H1 H2 [H3 H4] _]. unfold recipientsOf. rewrite <- Hc. split; [done|]. split.
  { eapply Forall_impl; [exact H2|]. exact ok_address. }
  intros tr Htr. destruct (lookup_lt_is_Some_2 (nc_priority (o_state (b_view b))) (Z.to_nat tr)) as [p Hp]; [lia|]. exists p.
  assert (is_u 8 p) as Hu by (rewrite Forall_forall in H4; apply H4; by eapply list_elem_of_lookup_2). split; [done|]. split.
  - cbn [ReadProperty Base_ops]. unfold readLocked. cbn [pr_Identifier pr_ArrayIndex]. rewrite (ck_priority b Hb).
    unfold valueOf, priorityProperty. cbn [p_Get p_Array negb]. unfold arrayItem, readPriorities. cbn [av_Kind av_Elements constructedValue].
    rewrite bool_decide_eq_false_2 by congruence. cbv zeta. unfold len. rewrite length_map, H3. change (u32 (Z.of_nat 3)) with 3.
    decide_tests. unfold index. decide_test. replace (tr + 1 - 1) with tr by lia.
    change (map ?f ?l) with (f <$> l). by rewrite list_lookup_fmap, Hp.
  - intros t. unfold Routing, index. replace (tr <? 0) with false by (symmetry; lia). rewrite Hp. cbn [bind]. do 2 eexists. split; [reflexivity|].
    apply sublist_filter_list.
Qed.

(** The destinations of a transition are those of the list whose days and
    transitions select it and whose window contains the time of day: between
    From and To inclusive when both are exact, always when both are
    unspecified. *)
Theorem routing_exact {LT : LocalTime} b t tr p ack to (Htr : 0 <= tr) (Ht : time_exact (timeOf t)) (H : Routing t tr b = Ok (p, ack, to)) :
  ack = Z.testbit (nc_ackReq (o_state (b_view b))) tr /\
  forall d, d ∈ recipientsOf b ->
    let selected := Z.testbit (dn_ValidDays d) ((c_Weekday (civil t) + 6) mod 7) = true /\ Z.testbit (dn_Transitions d) tr = true in
    (time_exact (dn_From d) -> time_exact (dn_To d) ->
      d ∈ to <-> selected /\ hundredths (dn_From d) <= hundredths (timeOf t) <= hundredths (dn_To d)) /\
    (dn_From d = anyTime -> dn_To d = anyTime -> d ∈ to <-> selected).
Proof.
  unfold Routing in H. apply bind_Ok_inv in H as (p' & _ & [= _ <- <-]). split; [by apply bit_testbit|]. intros d Hd. cbv zeta.
  rewrite list_elem_of_In, filter_In, <- list_elem_of_In, Active_spec by done. rewrite !andb_true_iff.
  split; intros Hf Ht2.
  - rewrite !timeBefore_exact by done. rewrite !negb_true_iff, !Z.ltb_ge. naive_solver.
  - rewrite Hf, Ht2. destruct (timeBefore_any (timeOf t)) as [-> ->]. naive_solver.
Qed.
