(* ===== verification/NotificationWitnesses.v ===== *)
(** * A Notification Class at concrete inputs

    One with a device recipient on working days until six, and room for one
    more: the theorems of [RecipientList.v] applied to it. *)

From Stdlib Require Import ZArith Lia.
From stdpp Require Import base list gmap.
From S2P Require Import Prelude Value Ids Tags Constructed Writer Codec Address Access Object PropertyValues Events PointWitnesses NotificationClass RecipientList.

Definition toDevice : Destination := mkDestination 31 (mkTime 0 0 0 0) (mkTime 18 0 0 0) (Some (mkObjectID 8 5)) 0 [] 1 true 7.
Definition toNetwork : Destination := mkDestination 127 anyTime anyTime None 7 [192; 168; 0; 9; 186; 192] 2 false 1.

Definition alarms : NotificationClassConfig := mkNCConfig 3 [78] [] None 5 [toDevice] 2.
Definition noClass : Base classState := NewBase (mkObjectID 0 0) [] (mkClass alarms [] 0 []).
Definition alarms0 : Base classState := okOr noClass (NewNotificationClass alarms).

Lemma alarms_new : NewNotificationClass alarms = Ok alarms0.
Proof. apply okOr_Ok. by vm_compute. Qed.
Lemma device_fits : destination_fits toDevice.
Proof.
  split; [split; cbn; unfold is_u; try lia; done|..]; cbn; unfold time_typed, byte4, is_u; cbn; try lia; [by apply List.Forall_nil|].
  apply optP_Some. unfold oid_ok, MaxObjectInstance. cbn. lia.
Qed.
Lemma network_fits : destination_fits toNetwork.
Proof.
  split; [split; cbn; unfold is_u, len, MaxMACLength; cbn; try lia|..]; cbn; unfold time_typed, byte4, is_u; cbn; try lia; [|done].
  solve_bytes.
Qed.
Lemma alarms_fits : config_fits alarms.
Proof. split; [apply List.Forall_cons; [apply device_fits|by apply List.Forall_nil]|]. split; [unfold is_u; cbn; lia|done]. Qed.
Lemma alarms_ok : class_ok alarms0.
Proof. by apply (NewNotificationClass_ok alarms); [apply alarms_fits|apply alarms_new]. Qed.
Lemma alarms_recipients : recipientsOf alarms0 = [toDevice].
Proof. by vm_compute. Qed.

Definition bothElements : list Element := flat_map Elements [toDevice; toNetwork].
Lemma both_spelled n d : [toDevice; toNetwork] !! n = Some d -> spelled (chunk n bothElements) d.
Proof.
  intros H. apply parseDestination_spelled. destruct n as [|[|n]]; [injection H as <-; by vm_compute..|by destruct n].
Qed.

(** The same list followed by a malformed destination. *)
Definition broken : list Element := bothElements ++ [appItem (UnsignedValue 0); appItem (UnsignedValue 0); appItem (UnsignedValue 0); appItem (UnsignedValue 0); appItem (UnsignedValue 0);
  appItem (UnsignedValue 0); appItem (UnsignedValue 0)].
Lemma broken_third d : ~ spelled (chunk 2 broken) d.
Proof. intros H%parseDestination_spelled. by vm_compute in H. Qed.
Lemma broken_others m : (m < 2)%nat -> exists d, spelled (chunk m broken) d.
Proof.
  intros Hm. destruct m as [|[|m]]; [exists toDevice|exists toNetwork|lia]; apply parseDestination_spelled; by vm_compute.
Qed.

(** Adding both destinations adds the second; a malformed third one is named;
    a list that breaks off in the second is refused with its number. *)
Lemma recipient_list_changes_witness : (exists cs b', AddListElements recipientListRef bothElements alarms0 = ListDone cs b' /\
  exists news, fresh [toDevice] [toDevice; toNetwork] news /\ recipientsOf b' = [toDevice] ++ news) /\
  AddListElements recipientListRef broken alarms0 = ListFailed ErrInvalidDataType (Some 3) /\
  RemoveListElements recipientListRef (take 9 bothElements) alarms0 = ListFailed ErrInvalidDataType (Some 2).
Proof.
  split_and!.
  - destruct (recipient_list_changes alarms0 bothElements alarms_ok ltac:(by vm_compute)) as (_ & _ & H).
    specialize (H [toDevice; toNetwork] ltac:(by vm_compute) both_spelled). destruct H as [H _].
    destruct (AddListElements recipientListRef bothElements alarms0) as [cs b'|e first] eqn:E.
    + exists cs, b'. split; [reflexivity|]. rewrite alarms_recipients in H. exact (proj2 (proj2 H)).
    + exfalso. assert (match AddListElements recipientListRef bothElements alarms0 with ListDone _ _ => true | _ => false end = true) as Hd by (by vm_compute).
      by rewrite E in Hd.
  - destruct (recipient_list_changes alarms0 broken alarms_ok ltac:(by vm_compute)) as (_ & H & _).
    apply (H 2%nat); [by vm_compute..|apply broken_third|apply broken_others].
  - destruct (recipient_list_changes alarms0 (take 9 bothElements) alarms_ok ltac:(by vm_compute)) as (H & _).
    apply H. by vm_compute.
Defined.

(** Its Recipient_List goes through a client and back into it. *)
Lemma recipient_list_roundtrip_witness : exists v bs els cs b', ReadProperty alarms0 recipientListRef = Ok v /\
  foldAppend AppendTag [] (av_Elements v) = Ok bs /\ bytes_ok bs /\ ParseSequence bs DefaultDecodeLimits (-1) = Ok (els, len bs) /\
  WriteProperty alarms0 (mkWrite recipientListRef (constructedValue els) 0) = Ok (cs, b') /\ recipientsOf b' = [toDevice].
Proof.
  rewrite <- alarms_recipients. apply (recipient_list_roundtrip DefaultDecodeLimits alarms0 alarms0 alarms_ok alarms_ok); rewrite alarms_recipients.
  - apply List.Forall_cons; [apply device_fits|by apply List.Forall_nil].
  - unfold destinations_room. vm_compute. intuition congruence.
  - by vm_compute.
Defined.

(** Acknowledgments are switched off, then the network is added. *)
Definition noAcks : Write := mkWrite (mkPropertyReference PropertyAckRequired None) (maskBits 3 0) 0.
Definition written : list Change * Base classState := okOr ([], alarms0) (WriteProperty alarms0 noAcks).
Definition alarms1 : Base classState := snd written.
Lemma alarms_written : WriteProperty alarms0 noAcks = Ok (fst written, alarms1).
Proof. unfold alarms1. rewrite <- surjective_pairing. apply okOr_Ok. by vm_compute. Qed.
Lemma alarms_run : rtc class_step alarms0 alarms1.
Proof. apply rtc_once. exact (class_write alarms0 noAcks (fst written) alarms1 alarms_written). Qed.
Lemma notification_class_safe_witness : len (recipientsOf alarms1) <= 2 /\ Forall (fun d => exists a, destinationAddress d = Ok a) (recipientsOf alarms1).
Proof. destruct (notification_class_safe alarms alarms0 alarms1 alarms_fits alarms_new alarms_run) as (H1 & H2 & _). split; [exact H1|exact H2]. Defined.

Lemma noon : time_exact (timeOf (12 * 3600 * second)).
Proof. split_and!; by vm_compute. Qed.

(** At noon on a Saturday the working-day recipient is not notified. *)
Lemma routing_exact_witness : exists p ack to, Routing (12 * 3600 * second) 0 alarms0 = Ok (p, ack, to) /\ toDevice ∉ to.
Proof.
  destruct (Routing (12 * 3600 * second) 0 alarms0) as [[[p ack] to]|e] eqn:E; [|exfalso].
  - exists p, ack, to. split; [reflexivity|]. intros Hin.
    destruct (@routing_exact oneDay alarms0 (12 * 3600 * second) 0 p ack to (Z.le_refl 0) noon E) as [_ H].
    assert (toDevice ∈ recipientsOf alarms0) as Hd by (rewrite alarms_recipients; by left).
    destruct (H toDevice Hd) as [H1 _]. apply H1 in Hin as [[Hday _] _]; [by vm_compute in Hday|..]; unfold time_exact; cbn; lia.
  - assert (isOk (Routing (12 * 3600 * second) 0 alarms0) = true) as Hok by (by vm_compute). by rewrite E in Hok.
Defined.
