(* ===== verification/ServerObjects.v ===== *)
(** * The objects a server hosts together

    A device with points and Notification Classes: the objects of two kinds
    side by side behind the interfaces of the Device ([ObjectOps]), with what
    intrinsic reporting asks of an object ([object.EventReporter] and the type
    assertion to [*object.NotificationClass] in [server/events.go]). *)

From Stdlib Require Import ZArith Lia.
From stdpp Require Import base list gmap.
From S2P Require Import Prelude Value Ids Object Access Commandable Events NotificationClass.

(** ** Objects of two kinds *)
Section Sum.
Context {A B : Type} `{!ObjectOps A} `{!ObjectOps B}.

Definition either {T} (f : A -> T) (g : B -> T) (o : A + B) : T := match o with inl a => f a | inr b => g b end.
Definition eitherChanged {C T} (f : A -> result (C * A)) (g : B -> result (C * B)) (k : C -> T) (o : A + B) : result (T * (A + B)) :=
  match o with
  | inl a => let* (c, a) := f a in Ok (k c, inl a)
  | inr b => let* (c, b) := g b in Ok (k c, inr b)
  end.

#[export] Instance sum_ops : ObjectOps (A + B) := {|
  Identifier := either Identifier Identifier;
  Name := either Name Name;
  ReadProperty o ref := either (fun a => ReadProperty a ref) (fun b => ReadProperty b ref) o;
  WriteProperty o w := eitherChanged (fun a => WriteProperty a w) (fun b => WriteProperty b w) (fun c => c) o;
  Properties := either Properties Properties;
  isBase := either isBase isBase;
  setName n := either (fun a => inl (setName n a)) (fun b => inr (setName n b));
  SetDeletable d := either (fun a => inl (SetDeletable d a)) (fun b => inr (SetDeletable d b));
  Deletable := either Deletable Deletable;
  SetNotifier n := either (fun a => inl (SetNotifier n a)) (fun b => inr (SetNotifier n b))
|}.

Lemma eitherChanged_inv {C T} (f : A -> result (C * A)) g (k : C -> T) o t o' : eitherChanged f g k o = Ok (t, o') ->
  (exists a c a', o = inl a /\ o' = inl a' /\ f a = Ok (c, a') /\ t = k c) \/ (exists b c b', o = inr b /\ o' = inr b' /\ g b = Ok (c, b') /\ t = k c).
Proof.
  destruct o as [a|b]; cbn [eitherChanged]; [destruct (f a) as [[c a']|] eqn:E|destruct (g b) as [[c b']|] eqn:E]; try done; cbn [bind]; intros [= <- <-]; eauto 10.
Qed.
End Sum.

#[export] Instance sum_laws {A B} `{!ObjectOps A, !ObjectOps B, !ObjectLaws A, !ObjectLaws B} : ObjectLaws (A + B).
Proof.
  assert (forall (P : A + B -> A + B -> Prop), (forall a w cs a', WriteProperty a w = Ok (cs, a') -> P (inl a) (inl a')) ->
    (forall b w cs b', WriteProperty b w = Ok (cs, b') -> P (inr b) (inr b')) ->
    forall o w cs o', WriteProperty o w = Ok (cs, o') -> P o o') as Hwrite.
  { intros P Ha Hb o w cs o' H. apply eitherChanged_inv in H as [(a & c & a' & -> & -> & Hf & ->)|(b & c & b' & -> & -> & Hf & ->)]; eauto. }
  split.
  - apply (Hwrite (fun o o' => Identifier o' = Identifier o)); intros; cbn; by eapply write_Identifier.
  - apply (Hwrite (fun o o' => Name o' = Name o)); intros; cbn; by eapply write_Name.
  - intros n [a|b]; cbn; apply setName_Identifier.
  - intros n [a|b] H; cbn; by apply setName_Name.
  - intros d [a|b]; cbn; apply SetDeletable_Identifier.
  - intros d [a|b]; cbn; apply SetDeletable_Name.
  - intros d [a|b]; cbn; apply SetNotifier_Identifier.
  - intros d [a|b]; cbn; apply SetNotifier_Name.
  - apply (Hwrite (fun o o' => Deletable o' = Deletable o)); intros; cbn; by eapply write_Deletable.
  - intros d [a|b] H; cbn; by apply SetDeletable_Deletable.
  - intros d [a|b]; cbn; apply SetNotifier_Deletable.
Qed.

(** ** Intrinsic reporting *)

(** [reporter] is the answer of the type assertion to [EventReporter]; the
    operations of an object that is none are not called. *)
Class EventOps (O : Type) := {
  reporter : O -> bool;
  reporterInfo : O -> option EventInfo;
  reporterEvaluate : Z -> (Z -> Z -> bool) -> O -> list EventTransition * list Change * O;
  reporterAcknowledge : Z -> TimeStamp -> O -> result (EventTransition * list Change * O);
  notificationClassOf : O -> option (Base classState)
}.

(** What the engine relies on: event detection and acknowledgement keep the
    identity of an object, and its information names the object. *)
Class EventLaws (O : Type) `{!ObjectOps O} `{!EventOps O} := {
  info_Object o i : reporterInfo o = Some i -> ei_Object i = Identifier o;
  evaluate_keeps now ack o evs cs o' : reporterEvaluate now ack o = (evs, cs, o') ->
    Identifier o' = Identifier o /\ Name o' = Name o /\ Deletable o' = Deletable o /\ isBase o' = isBase o;
  acknowledge_keeps state stamp o ev cs o' : reporterAcknowledge state stamp o = Ok (ev, cs, o') ->
    Identifier o' = Identifier o /\ Name o' = Name o /\ Deletable o' = Deletable o /\ isBase o' = isBase o
}.

(** A point reports; a Notification Class does not. *)
#[export] Instance Point_events {LT : LocalTime} : EventOps (Base pointState) := {|
  reporter _ := true;
  reporterInfo := EventInfoOf;
  reporterEvaluate := EvaluateEvents;
  reporterAcknowledge := AcknowledgeAlarm;
  notificationClassOf _ := None
|}.
#[export] Instance Class_events : EventOps (Base classState) := {|
  reporter _ := false;
  reporterInfo _ := None;
  reporterEvaluate _ _ b := ([], [], b);
  reporterAcknowledge _ _ _ := Err ErrNoAlarmConfigured;
  notificationClassOf b := Some b
|}.
#[export] Instance sum_events {A B} `{!EventOps A, !EventOps B} : EventOps (A + B) := {|
  reporter := either reporter reporter;
  reporterInfo := either reporterInfo reporterInfo;
  reporterEvaluate now ack o :=
    match o with
    | inl a => let '(evs, cs, a) := reporterEvaluate now ack a in (evs, cs, inl a)
    | inr b => let '(evs, cs, b) := reporterEvaluate now ack b in (evs, cs, inr b)
    end;
  reporterAcknowledge state stamp o :=
    match o with
    | inl a => let* (ev, cs, a) := reporterAcknowledge state stamp a in Ok (ev, cs, inl a)
    | inr b => let* (ev, cs, b) := reporterAcknowledge state stamp b in Ok (ev, cs, inr b)
    end;
  notificationClassOf := either notificationClassOf notificationClassOf
|}.

#[export] Instance Point_event_laws {LT : LocalTime} : EventLaws (Base pointState).
Proof.
  split.
  - intros b i H. cbn in H. unfold EventInfoOf in H. by destruct (pt_intrinsic _); simplify_eq.
  - intros now ack b evs cs b' H. cbn in H. unfold EvaluateEvents in H. destruct (Events.evaluate _ _ _ _) as [[e c] s]. by injection H as <- <- <-.
  - intros state stamp b ev cs b' H. cbn in H. unfold AcknowledgeAlarm in H. destruct (acknowledge _ _ _ _) as [[[e c] s]|]; [|done]. by injection H as <- <- <-.
Qed.
#[export] Instance Class_event_laws : EventLaws (Base classState).
Proof. split; [done| |done]. intros now ack b evs cs b' [= <- <- <-]. done. Qed.
#[export] Instance sum_event_laws {A B} `{!ObjectOps A, !ObjectOps B, !EventOps A, !EventOps B, !EventLaws A, !EventLaws B} : EventLaws (A + B).
Proof.
  split.
  - intros [a|b] i H; cbn in *; by apply info_Object.
  - intros now ack [a|b] evs cs o' H; cbn in H.
    + destruct (reporterEvaluate now ack a) as [[e c] a'] eqn:E. injection H as <- <- <-. by eapply evaluate_keeps in E.
    + destruct (reporterEvaluate now ack b) as [[e c] b'] eqn:E. injection H as <- <- <-. by eapply evaluate_keeps in E.
  - intros state stamp [a|b] ev cs o' H; cbn in H.
    + destruct (reporterAcknowledge state stamp a) as [[[e c] a']|] eqn:E; [|done]. injection H as <- <- <-. by eapply acknowledge_keeps in E.
    + destruct (reporterAcknowledge state stamp b) as [[[e c] b']|] eqn:E; [|done]. injection H as <- <- <-. by eapply acknowledge_keeps in E.
Qed.

(** What a server with points and Notification Classes hosts. *)
Definition ServerObject : Type := (Base pointState + Base classState)%type.
