(* ===== verification/EventEngine.v ===== *)
(** * Intrinsic reporting: [server/events.go]

    The event engine marks objects that changed, evaluates them and sends the
    transitions to the destinations of their Notification Class; the alarm and
    event services answer from the event state of the objects. A confirmed
    notification goes to the requester ([Requester.v]); what is sent is a list
    of [sending]s, which [packets] turns into datagrams. *)

From Stdlib Require Import ZArith Lia.
From stdpp Require Import base list gmap.
From S2P Require Import Prelude Value Ids Tags Constructed Codec Apdu Address Npdu Endpoint Bvlc Link Segment SegmentSend Bbmd ServerKey Responder ServerPacket Object Access Discovery Events Device DataHandlers NotificationClass AlarmServices EventInformation EnrollmentSummary NotificationParams EventNotification ServerObjects.

Definition ServiceConfirmedEventNotification : Z := 2.
Definition ServiceUnconfirmedEventNotification : Z := 3.

(** ** The engine *)
Definition maxBindings : Z := 256.
Record binding := mkBinding { bd_to : Endpoint; bd_addr : Address }.

(** The objects to evaluate, whether the channel [kick] (of capacity 1) holds
    a token, and the device addresses learnt from I-Am. *)
Record eventEngine := mkEventEngine { ee_dirty : gset ObjectIdentifier; ee_kick : bool; ee_bindings : gmap Z binding }.
Definition newEventEngine : eventEngine := mkEventEngine ∅ false ∅.

(** The insertion and the send on [kick], which follows the unlock, are one
    step. *)
Definition mark (id : ObjectIdentifier) (e : eventEngine) : eventEngine := mkEventEngine ({[id]} ∪ ee_dirty e) true (ee_bindings e).
Definition eventChanged (c : Change) (e : eventEngine) : eventEngine := mark (ch_Object c) e.

(** The head of the loop of [run]: it waits for a token, then takes the marked
    objects, in any order. *)
Definition takeKick (e : eventEngine) : option eventEngine :=
  if ee_kick e then Some (mkEventEngine (ee_dirty e) false (ee_bindings e)) else None.
Definition takeDirty (e : eventEngine) : list ObjectIdentifier * eventEngine :=
  (elements (ee_dirty e), mkEventEngine ∅ (ee_kick e) (ee_bindings e)).

(** What is sent. *)
Inductive sending :=
| sendConfirmed (to : Endpoint) (dest : Address) (payload : bytes)
| sendUnconfirmed (to : Endpoint) (broadcast : bool) (dest : Address) (payload : bytes)
| sendWhoIs (payload : bytes)
| sendWhoIsRouter (network : Z).

(** [NotificationParameters] of what event detection reports. *)
Definition paramsOf (p : eventParams) : NotificationParameters :=
  match p with
  | outOfRange exceeding flags deadband exceeded => mkNotificationParameters NotificationOutOfRange (Some (OutOfRange exceeding flags deadband exceeded)) []
  | changeOfState choice value flags => mkNotificationParameters NotificationChangeOfState (Some (ChangeOfState (mkPropertyStates choice value) flags)) []
  | changeOfReliability elements => mkNotificationParameters EventTypeChangeOfReliability None elements
  end.

Section Engine.
Context {O : Type} `{!ObjectOps O} `{!EventOps O} {LT : LocalTime}.
Implicit Types (d : Device O) (e : eventEngine).

Definition isReporter (o : entry O) : bool := match o with anObject o => reporter o | theDevice => false end.

(** [tick] *)
Definition tick d e : eventEngine :=
  fold_left (fun e id => match Object d id with Some o => if isReporter o then mark id e else e | None => e end)
    (objectIdentifiers (Identifier d) (tablesOf d)) e.

Definition notificationClass d (n : Z) : option (Base classState) :=
  match Object d (mkObjectID ObjectTypeNotificationClass n) with
  | Some (anObject o) => notificationClassOf o
  | _ => None
  end.
Definition ackRequired d (class transition : Z) : bool :=
  match notificationClass d class with
  | Some nc => bit (AckRequired nc) (Z.shiftl 1 transition)
  | None => false
  end.

(** [evaluate], up to the reports: the transitions found, and the device. *)
Definition evaluateObject d (now : Z) (id : ObjectIdentifier) : list EventTransition * list Change * Device O :=
  match Object d id with
  | Some (anObject o) =>
      if reporter o then let '(evs, cs, o) := reporterEvaluate now (ackRequired d) o in (evs, cs, putObject id o d)
      else ([], [], d)
  | _ => ([], [], d)
  end.

(** ** Reports *)

(** [resolve]: what is sent to find the destination, and where it is:
    address, destination of the NPDU and whether it is a broadcast. *)
Definition resolve (routes : routeTable) e (d : Destination) : result (list sending * option (Endpoint * Address * bool)) :=
  match dn_Device d with
  | Some id =>
      match ee_bindings e !! oid_Instance id with
      | Some b => Ok ([], Some (bd_to b, bd_addr b, false))
      | None =>
          match EncodeWhoIs (mkWhoIs (Some (oid_Instance id)) (Some (oid_Instance id))) with
          | Ok payload => Ok ([sendWhoIs payload], None)
          | Err _ => Ok ([], None)
          end
      end
  | None =>
      match destinationAddress d with
      | Err _ => Ok ([], None)
      | Ok addr =>
          if IsBroadcast addr then Ok ([], Some (zeroEndpoint, addr, true))
          else if bool_decide (a_scope addr = AddressRemoteStation) then
            match lookupRoute (a_network addr) routes with
            | Some router => Ok ([], Some (router, addr, false))
            | None => Ok ([sendWhoIsRouter (a_network addr)], if dn_Confirmed d then None else Some (zeroEndpoint, addr, true))
            end
          else
            let* ep := LinkEndpoint (MACBytes (a_mac addr)) in
            Ok ([], match ep with Some ep => Some (ep, addr, false) | None => None end)
      end
  end.

(** The notification of a transition; the process identifier is the
    destination's. *)
Definition noteOf d (tr : EventTransition) (priority : Z) (ackRequired : bool) (pid : Z) : EventNotification :=
  let full := negb (ev_NotifyType tr =? NotifyAckNotification) in
  mkEventNotification pid (Identifier d) (ev_Object tr) (TimeStampDateTime (dateOf (ev_TimeStamp tr)) (timeOf (ev_TimeStamp tr)))
    (ev_NotificationClass tr) priority (ev_EventType tr) None (ev_NotifyType tr)
    (if full then Some ackRequired else None) (if full then Some (ev_From tr) else None) (ev_To tr) None (paramsOf <$> ev_Params tr).

(** One round of the loop over the destinations; [None] when the notification
    cannot be encoded, which ends the loop. *)
Definition deliver d (routes : routeTable) e (tr : EventTransition) (priority : Z) (ackRequired : bool) (dest : Destination) : result (option (list sending)) :=
  match EncodeEventNotification (noteOf d tr priority ackRequired (dn_ProcessID dest)) with
  | Err Panic => Err Panic
  | Err _ => Ok None
  | Ok payload =>
      let* (sent, found) := resolve routes e dest in
      match found with
      | None => Ok (Some sent)
      | Some (to, addr, broadcast) =>
          if dn_Confirmed dest && broadcast then Ok (Some sent)
          else if dn_Confirmed dest then Ok (Some (sent ++ [sendConfirmed to addr payload]))
          else Ok (Some (sent ++ [sendUnconfirmed to broadcast addr payload]))
      end
  end.
Fixpoint deliverAll d (routes : routeTable) e (tr : EventTransition) (priority : Z) (ackRequired : bool) (dests : list Destination) : result (list sending) :=
  match dests with
  | [] => Ok []
  | dest :: dests =>
      let* sent := deliver d routes e tr priority ackRequired dest in
      match sent with
      | None => Ok []
      | Some sent => let* rest := deliverAll d routes e tr priority ackRequired dests in Ok (sent ++ rest)
      end
  end.

(** [report] *)
Definition report d (now : Z) (routes : routeTable) (dcc : dccState) e (tr : EventTransition) : result (list sending * dccState) :=
  match notificationClass d (ev_NotificationClass tr) with
  | None => Ok ([], dcc)
  | Some nc =>
      let (may, dcc) := mayInitiate now dcc in
      if negb may then Ok ([], dcc)
      else
        let* (priority, ackRequired, dests) := Routing now (ev_Transition tr) nc in
        let* sent := deliverAll d routes e tr priority ackRequired dests in
        Ok (sent, dcc)
  end.

(** ** Bindings: [Server.iAm] *)
Definition iAm d (limits : DecodeLimits) (payload : bytes) (p : peer) e : eventEngine :=
  match DecodeIAm payload limits with
  | Err _ => e
  | Ok r =>
      if negb (oid_Type (ia_Device r) =? ObjectTypeDevice) || bool_decide (ia_Device r = Identifier d) then e
      else
        let inst := oid_Instance (ia_Device r) in
        if negb (bool_decide (is_Some (ee_bindings e !! inst))) && (Z.of_nat (size (ee_bindings e)) >=? maxBindings) then e
        else mkEventEngine (ee_dirty e) (ee_kick e) (<[inst := mkBinding (p_immediate p) (p_source p)]> (ee_bindings e))
  end.

(** ** The services *)
Context (cfg : serverConfig).

(** [acknowledgeAlarm]: the result and the transition its hook reports. *)
Definition acknowledgeAlarm d (payload : bytes) : svcResult * option EventTransition * list Change * Device O :=
  match DecodeAcknowledgeAlarm payload (sc_limits cfg) with
  | Err e => (rejectFor e, None, [], d)
  | Ok r =>
      match Object d (aa_EventObject r) with
      | None => (failWith ErrUnknownObject, None, [], d)
      | Some theDevice => (failWith ErrNoAlarmConfigured, None, [], d)
      | Some (anObject o) =>
          if negb (reporter o) then (failWith ErrNoAlarmConfigured, None, [], d)
          else
            match reporterInfo o with
            | None => (failWith ErrNoAlarmConfigured, None, [], d)
            | Some _ =>
                match reporterAcknowledge (aa_EventStateAcked r) (aa_TimeStamp r) o with
                | Err e => (failWith e, None, [], d)
                | Ok (tr, cs, o) => (ack, Some tr, cs, putObject (aa_EventObject r) o d)
                end
            end
      end
  end.

(** [eventInfos] *)
Definition eventInfos d : list EventInfo :=
  omap (fun id => match Object d id with Some (anObject o) => if reporter o then reporterInfo o else None | _ => None end)
    (objectIdentifiers (Identifier d) (tablesOf d)).

Definition transitionBits (mask : Z) : BitString :=
  mkBitString 5 [fold_left (fun b i => if bit mask (Z.shiftl 1 i) then Z.lor b (Z.shiftr 0x80 i) else b) (seqZ 0 3) 0].

Definition inAlarm (i : EventInfo) : bool := negb (ei_EventState i =? EventStateNormal) && (ei_NotifyType i =? NotifyAlarm).
Definition alarmSummaryOf (i : EventInfo) : AlarmSummaryEntry := mkAlarmSummary (ei_Object i) (ei_EventState i) (transitionBits (ei_Acked i)).
Definition replyWith (payload : result bytes) : svcResult := match payload with Ok payload => complexACK payload | Err e => failWith e end.

Definition getAlarmSummary d (payload : bytes) : svcResult :=
  match DecodeGetAlarmSummary payload (sc_limits cfg) with
  | Err e => rejectFor e
  | Ok _ => replyWith (EncodeGetAlarmSummaryACK (map alarmSummaryOf (List.filter inAlarm (eventInfos d))))
  end.

Definition priorities d (class : Z) : list Z :=
  match notificationClass d class with Some nc => Priorities nc | None => [255; 255; 255] end.

(** [handlers_range.go] *)
Definition responseBudget (req : ConfirmedRequest) : Z :=
  let remoteMax := fst (DecodeMaxAPDUSize (cr_MaxAPDU req)) in
  let limit := Z.min remoteMax (sc_maxAPDU cfg) in
  if negb (cr_SegmentedResponseAccepted req) || negb (sc_segmentation cfg) then limit - 3
  else
    let m := ServerSend.decodeMaxSegments (cr_MaxSegments req) in
    let segs := if (m >? 0) && (m <? sc_maxSegments cfg) then m else sc_maxSegments cfg in
    (limit - 5) * Z.min segs 256.

(** The loop over the three timestamps. *)
Definition stampOf (t : Z) : TimeStamp :=
  if t =? 0 then TimeStampDateTime (mkDate 0xFF 0xFF 0xFF 0xFF) (mkTime 0xFF 0xFF 0xFF 0xFF) else TimeStampDateTime (dateOf t) (timeOf t).
Definition stampOfInfo (t : Z) : result Element :=
  let raw := match EncodeTimeStamp (stampOf t) with Ok raw => raw | Err _ => [] end in
  let els := match ParseSequence raw DefaultDecodeLimits (-1) with Ok (els, _) => els | Err _ => [] end in
  index els 0.
Fixpoint stampElements (stamps : list Z) : result (list Element) :=
  match stamps with
  | [] => Ok []
  | t :: stamps => let* el := stampOfInfo t in let* els := stampElements stamps in Ok (el :: els)
  end.

Definition needsAttention (i : EventInfo) : bool := negb ((ei_EventState i =? EventStateNormal) && (ei_Acked i =? 7)).
Definition eventSummaryOf d (i : EventInfo) : result EventSummary :=
  let* stamps := stampElements (ei_TimeStamps i) in
  Ok (mkEventSummary (ei_Object i) (ei_EventState i) (transitionBits (ei_Acked i)) (constructedValue stamps) (ei_NotifyType i)
    (transitionBits (ei_EventEnable i)) (constructedValue (map (fun p => item (UnsignedValue p)) (priorities d (ei_NotificationClass i))))).

(** The loop over the objects, [skipping] those up to the last one received. *)
Fixpoint summariesAfter d (last : option ObjectIdentifier) (infos : list EventInfo) : result (list EventSummary) :=
  match infos with
  | [] => Ok []
  | i :: infos =>
      match last with
      | Some id => summariesAfter d (if bool_decide (ei_Object i = id) then None else last) infos
      | None =>
          if negb (needsAttention i) then summariesAfter d None infos
          else
            let* s := eventSummaryOf d i in
            let* rest := summariesAfter d None infos in
            Ok (s :: rest)
      end
  end.

(** As many summaries as fit the reply. *)
Fixpoint largestFit (budget : Z) (all : list EventSummary) (n : nat) : result bytes :=
  let* payload := EncodeGetEventInformationACK (mkEventInformationACK (take n all) (Z.of_nat n <? len all)) in
  match n with
  | 0%nat => Ok payload
  | S m => if len payload <=? budget then Ok payload else largestFit budget all m
  end.

Definition getEventInformation d (req : ConfirmedRequest) : result svcResult :=
  match DecodeGetEventInformation (cr_Payload req) (sc_limits cfg) with
  | Err e => Ok (rejectFor e)
  | Ok last =>
      let* all := summariesAfter d last (eventInfos d) in
      match largestFit (responseBudget req) all (length all) with
      | Err Panic => Err Panic
      | payload => Ok (replyWith payload)
      end
  end.

Definition eventStateMatches (filter state : Z) : bool :=
  if filter =? 0 then negb (state =? EventStateNormal) && negb (state =? EventStateFault)
  else if filter =? 1 then state =? EventStateFault
  else if filter =? 2 then state =? EventStateNormal
  else if filter =? 4 then negb (state =? EventStateNormal)
  else true.

(** The recipient process of the enrollment filter, as a destination. *)
Definition enrolledDestination (f : RecipientProcess) : Destination :=
  mkDestination 0 zeroTime zeroTime (ar_Device (rpr_Recipient f))
    (match ar_Address (rpr_Recipient f) with Some a => aud_Network a | None => 0 end)
    (match ar_Address (rpr_Recipient f) with Some a => aud_MAC a | None => [] end) (rpr_ProcessIdentifier f) false 0.

Definition inFilter {A} (f : option A) (test : A -> bool) : bool := match f with Some a => test a | None => true end.
(** The filters of the request, for an object with this priority. *)
Definition enrolled d (r : GetEnrollmentSummaryRequest) (i : EventInfo) : bool :=
  inFilter (gr_EnrollmentFilter r) (fun f =>
    match notificationClass d (ei_NotificationClass i) with Some nc => HasRecipient (enrolledDestination f) nc | None => false end).
Definition acknowledgedAs (filter : Z) (i : EventInfo) : bool :=
  if filter =? 1 then ei_Acked i =? 7 else if filter =? 2 then negb (ei_Acked i =? 7) else true.
Definition selects (r : GetEnrollmentSummaryRequest) (i : EventInfo) (priority : Z) : bool :=
  inFilter (gr_PriorityFilter r) (fun '(lo, hi) => negb ((priority <? lo) || (priority >? hi))) &&
  inFilter (gr_NotificationClassFilter r) (fun c => c =? ei_NotificationClass i).

Definition enrollmentOf (i : EventInfo) (priority : Z) : EnrollmentSummaryEntry :=
  mkEnrollment (ei_Object i) (ei_EventType i) (ei_EventState i) priority (ei_NotificationClass i) false.

Fixpoint enrollmentEntries d (r : GetEnrollmentSummaryRequest) (infos : list EventInfo) : result (list EnrollmentSummaryEntry) :=
  match infos with
  | [] => Ok []
  | i :: infos =>
      if negb (enrolled d r i && acknowledgedAs (gr_AcknowledgmentFilter r) i && inFilter (gr_EventStateFilter r) (fun f => eventStateMatches f (ei_EventState i))
               && inFilter (gr_EventTypeFilter r) (fun f => f =? ei_EventType i))
      then enrollmentEntries d r infos
      else
        let* priority := index (priorities d (ei_NotificationClass i)) (transitionOf (ei_EventState i)) in
        let* rest := enrollmentEntries d r infos in
        Ok (if selects r i priority then enrollmentOf i priority :: rest else rest)
  end.
Definition getEnrollmentSummary d (payload : bytes) : result svcResult :=
  match DecodeGetEnrollmentSummary payload (sc_limits cfg) with
  | Err e => Ok (rejectFor e)
  | Ok r =>
      let* entries := enrollmentEntries d r (eventInfos d) in
      Ok (replyWith (EncodeGetEnrollmentSummaryACK entries))
  end.
End Engine.

(** ** Datagrams *)
Section Packets.
Context {St : Type} `{BBMDOps St}.

(** [Server.whoIsRouter] *)
Definition whoIsRouter (now network : Z) (bbmd : option St) : result (list OutboundPacket * option St) :=
  match Npdu.Append [] (mkNPDU Version1 0 zeroAddress zeroAddress 0 true NetMsgWhoIsRouterToNetwork (be_put 2 network) [] false 0) with
  | Err Panic => Err Panic
  | Err _ => Ok ([], bbmd)
  | Ok raw =>
      match Bvlc.Append [] (mkMessage FunctionOriginalBroadcastNPDU raw zeroIP 0 0 0) with
      | Err Panic => Err Panic
      | Err _ => Ok ([], bbmd)
      | Ok frame =>
          match bbmd with
          | Some b =>
              let* (sent, b) := bbmd_LocalBroadcast now raw b in
              Ok (sent ++ [mkPacket frame zeroEndpoint true], Some b)
          | None => Ok ([mkPacket frame zeroEndpoint true], None)
          end
      end
  end.

(** The datagrams of a sending; a confirmed one is the requester's. An error
    of [sendAPDU] is dropped. *)
Definition packets (now : Z) (s : sending) (bbmd : option St) : result (list OutboundPacket * option St) :=
  let dropped r := match r with Err Panic => Err Panic | Err _ => Ok ([], bbmd) | Ok r => Ok r end in
  match s with
  | sendConfirmed _ _ _ => Ok ([], bbmd)
  | sendUnconfirmed to broadcast dest payload =>
      dropped (sendAPDU now to broadcast dest false
        (AppendUnconfirmedRequest [] (mkUnconfirmedRequest ServiceUnconfirmedEventNotification payload)) bbmd)
  | sendWhoIs payload => dropped (broadcastAPDU now None (AppendUnconfirmedRequest [] (mkUnconfirmedRequest ServiceWhoIs payload)) bbmd)
  | sendWhoIsRouter network => whoIsRouter now network bbmd
  end.
End Packets.
