(* ===== verification/EventLoop.v ===== *)
(** * The loop of the event engine

    Changes, ticks, I-Am requests and the goroutine of the engine interleave
    in any order; a trace says when objects were marked and evaluated. *)

From Stdlib Require Import ZArith Lia.
From stdpp Require Import base list gmap fin_sets.
From S2P Require Import Prelude Value Ids Codec Address Endpoint Responder ServerPacket Object Discovery Events Device NotificationClass ServerObjects EventEngine.

(** Where the goroutine is: waiting for a token, between taking it and taking
    the marked objects, or evaluating what it took. *)
Inductive loopPhase := waiting | kicked | evaluating (ids : list ObjectIdentifier).
Inductive loopEvent := Marked (id : ObjectIdentifier) | Evaluated (id : ObjectIdentifier) (now : Z) (evs : list EventTransition).
#[export] Instance loopPhase_eq_dec : EqDecision loopPhase.
Proof. solve_decision. Defined.

Section Loop.
Context {O : Type} `{!ObjectOps O} `{!EventOps O}.
Record eventWorld := mkEventWorld { ew_device : Device O; ew_engine : eventEngine; ew_phase : loopPhase }.
Implicit Types (d : Device O) (w : eventWorld) (e : eventEngine) (tr : list loopEvent).

Definition changesMarked (cs : list Change) e : eventEngine := fold_left (fun e c => eventChanged c e) cs e.
Definition marksOf (cs : list Change) : list loopEvent := map (fun c => Marked (ch_Object c)) cs.
Definition reporters (d : Device O) : list ObjectIdentifier :=
  List.filter (fun id => match Object d id with Some o => isReporter o | None => false end) (objectIdentifiers (Identifier d) (tablesOf d)).

(** The first four are events of the rest of the server: the device changes
    and tells its observers, a second passes, an I-Am arrives. *)
Inductive loop_step : eventWorld -> list loopEvent -> eventWorld -> Prop :=
| loop_change d d' e ph cs : loop_step (mkEventWorld d e ph) (marksOf cs) (mkEventWorld d' (changesMarked cs e) ph)
| loop_tick d e ph : loop_step (mkEventWorld d e ph) (map Marked (reporters d)) (mkEventWorld d (tick d e) ph)
| loop_iAm d e ph limits payload p : loop_step (mkEventWorld d e ph) [] (mkEventWorld d (iAm d limits payload p e) ph)
| loop_kick d e e' : takeKick e = Some e' -> loop_step (mkEventWorld d e waiting) [] (mkEventWorld d e' kicked)
| loop_take d e : loop_step (mkEventWorld d e kicked) [] (mkEventWorld d (snd (takeDirty e)) (evaluating (fst (takeDirty e))))
| loop_evaluate d e id ids now evs cs d' : evaluateObject d now id = (evs, cs, d') ->
    loop_step (mkEventWorld d e (evaluating (id :: ids))) (Evaluated id now evs :: marksOf cs) (mkEventWorld d' (changesMarked cs e) (evaluating ids))
| loop_again d e : loop_step (mkEventWorld d e (evaluating [])) [] (mkEventWorld d e waiting).

Inductive loop_run d : list loopEvent -> eventWorld -> Prop :=
| run_start : loop_run d [] (mkEventWorld d newEventEngine waiting)
| run_next tr w ls w' : loop_run d tr w -> loop_step w ls w' -> loop_run d (tr ++ ls) w'.

(** ** Marks that no evaluation followed *)
Definition unserved tr id : Prop := exists t1 t2, tr = t1 ++ Marked id :: t2 /\ forall now evs, Evaluated id now evs ∉ t2.

Lemma unserved_snoc tr l id : unserved (tr ++ [l]) id -> l = Marked id \/ unserved tr id /\ forall now evs, l <> Evaluated id now evs.
Proof.
  intros (t1 & t2 & Heq & Hno). destruct t2 as [|x t2 _] using rev_ind.
  - apply app_inj_tail in Heq as [_ ->]. by left.
  - rewrite app_comm_cons, app_assoc in Heq. apply app_inj_tail in Heq as [-> ->]. right. split.
    + exists t1, t2. split; [done|]. intros now evs Hin. eapply Hno. apply elem_of_app. by left.
    + intros now evs ->. eapply Hno. apply elem_of_app. right. by left.
Qed.

Lemma unserved_marks tr ids id : unserved (tr ++ map Marked ids) id -> unserved tr id \/ id ∈ ids.
Proof.
  revert tr. induction ids as [|i ids IH] using rev_ind; intros tr H; [rewrite app_nil_r in H; by left|].
  rewrite map_app, app_assoc in H. apply unserved_snoc in H as [[= ->]|[H _]]; [right; apply elem_of_app; right; by left|].
  apply IH in H as [H|H]; [by left|]. right. apply elem_of_app. by left.
Qed.

(** ** The invariant *)
Record loop_ok tr w : Prop := {
  lo_unserved id : unserved tr id -> id ∈ ee_dirty (ew_engine w) \/ exists ids, ew_phase w = evaluating ids /\ id ∈ ids;
  lo_kick : ee_dirty (ew_engine w) <> ∅ -> ee_kick (ew_engine w) = true \/ ew_phase w = kicked;
  lo_bindings : Z.of_nat (size (ee_bindings (ew_engine w))) <= maxBindings
}.

Definition markAll (ids : list ObjectIdentifier) e : eventEngine := fold_left (fun e id => mark id e) ids e.
Lemma markAll_exact ids e : ee_dirty (markAll ids e) = list_to_set ids ∪ ee_dirty e /\
  (ee_kick (markAll ids e) = bool_decide (ids <> []) || ee_kick e) /\ ee_bindings (markAll ids e) = ee_bindings e.
Proof.
  revert e. induction ids as [|id ids IH]; intros e; [split_and!; [set_solver|done|done]|]. cbn [markAll fold_left].
  destruct (IH (mark id e)) as (H1 & H2 & H3). unfold markAll in *. rewrite H1, H2, H3. cbn [mark ee_dirty ee_kick ee_bindings list_to_set].
  split_and!; [set_solver| |done]. by rewrite orb_true_r.
Qed.

Lemma changesMarked_all cs e : changesMarked cs e = markAll (map ch_Object cs) e.
Proof. unfold changesMarked, markAll. revert e. induction cs as [|c cs IH]; intros e; [done|]. cbn [map fold_left]. apply IH. Qed.
Lemma marksOf_all cs : marksOf cs = map Marked (map ch_Object cs).
Proof. unfold marksOf. by rewrite map_map. Qed.
Lemma tick_all d e : tick d e = markAll (reporters d) e.
Proof.
  unfold tick, reporters, markAll. revert e. induction (objectIdentifiers _ _) as [|id ids IH]; intros e; [done|]. cbn [fold_left List.filter].
  destruct (Object d id) as [o|]; [destruct (isReporter o)|]; apply IH.
Qed.

Lemma loop_ok_marks tr d d' e ph ids : loop_ok tr (mkEventWorld d e ph) -> loop_ok (tr ++ map Marked ids) (mkEventWorld d' (markAll ids e) ph).
Proof.
  intros [H1 H2 H3]. destruct (markAll_exact ids e) as (E1 & E2 & E3). split; cbn [ew_engine ew_phase] in *; rewrite ?E1, ?E2, ?E3; [| |done].
  - intros id [Hu|Hin]%unserved_marks; [|left; set_solver]. apply H1 in Hu as [Hu|Hu]; [left; set_solver|by right].
  - intros Hne. destruct ids as [|i ids]; cbn; [|by left]. apply H2. set_solver.
Qed.

Lemma iAm_bindings d limits payload p e : Z.of_nat (size (ee_bindings e)) <= maxBindings ->
  let e' := iAm d limits payload p e in Z.of_nat (size (ee_bindings e')) <= maxBindings /\ ee_dirty e' = ee_dirty e /\ ee_kick e' = ee_kick e.
Proof.
  intros Hb. cbv zeta. unfold iAm. destruct (DecodeIAm payload limits) as [r|]; [|done]. destruct (_ || _); [done|]. destruct (_ && _) eqn:E; [done|].
  cbn [ee_bindings ee_dirty ee_kick]. split; [|done]. apply andb_false_iff in E as [E|E]; bool_to_prop.
  - apply bool_decide_eq_true in E. rewrite map_size_insert_Some by done. done.
  - rewrite map_size_insert. destruct (_ !! _); cbv [Datatypes.id]; lia.
Qed.

Lemma loop_step_ok tr w ls w' : loop_ok tr w -> loop_step w ls w' -> loop_ok (tr ++ ls) w'.
Proof.
  intros Hok Hs. destruct Hs as [d d' e ph cs|d e ph|d e ph limits payload p|d e e' Hk|d e|d e id ids now evs cs d' He|d e].
  - rewrite marksOf_all, changesMarked_all. by eapply loop_ok_marks.
  - rewrite tick_all. by eapply loop_ok_marks.
  - rewrite app_nil_r. destruct Hok as [H1 H2 H3]. destruct (iAm_bindings d limits payload p e H3) as (Hb & Hd & Hk). split; cbn [ew_engine ew_phase] in *; by rewrite ?Hd, ?Hk.
  - rewrite app_nil_r. destruct Hok as [H1 H2 H3]. unfold takeKick in Hk. destruct (ee_kick e); [|done]. injection Hk as <-. split; cbn in *; [|by right|done].
    intros i [Hi|(ids & ? & _)]%H1; [by left|done].
  - rewrite app_nil_r. destruct Hok as [H1 H2 H3]. split; cbn in *; [|by intros []|done]. intros i [Hi|(ids & ? & _)]%H1; [|done]. right. eexists. split; [done|].
    by apply elem_of_elements.
  - change (Evaluated id now evs :: marksOf cs) with ([Evaluated id now evs] ++ marksOf cs). rewrite app_assoc, marksOf_all, changesMarked_all. apply (loop_ok_marks _ d).
    destruct Hok as [H1 H2 H3]. split; cbn [ew_engine ew_phase] in *; [|by intros [?|?]%H2; [left|]|done].
    intros i [?|[Hi Hne]]%unserved_snoc; [done|]. apply H1 in Hi as [Hi|(ids' & [= <-] & Hi)]; [by left|]. right. exists ids. split; [done|].
    apply elem_of_cons in Hi as [->|Hi]; [by destruct (Hne now evs)|done].
  - rewrite app_nil_r. destruct Hok as [H1 H2 H3]. split; cbn [ew_engine ew_phase] in *; [|by intros [?|?]%H2; [left|]|done].
    intros i [Hi|(ids & [= <-] & Hi)]%H1; [by left|by apply elem_of_nil in Hi].
Qed.

Lemma loop_run_ok d tr w : loop_run d tr w -> loop_ok tr w.
Proof.
  induction 1 as [|tr w ls w' Hr IH Hs]; [|by eapply loop_step_ok]. split; cbn; [|by intros []|done]. intros id (t1 & t2 & Heq & _). by destruct t1.
Qed.

(** C21. The event engine loses no change and stays bounded, whatever is
    marked, evaluated, bound and ticked in whatever interleaving: when the
    goroutine waits and holds no token, every object that was ever marked
    has been evaluated after it was last marked; when it does not, an object
    still to be evaluated is marked or taken and the goroutine will not stop
    before it: it has a token, or is past taking one. At most 256 device
    addresses are remembered. *)
Theorem event_engine_safe d tr w : loop_run d tr w ->
  (ew_phase w = waiting -> ee_kick (ew_engine w) = false -> forall id t1 t2, tr = t1 ++ Marked id :: t2 -> exists now evs, Evaluated id now evs ∈ t2) /\
  (forall id, unserved tr id ->
    (id ∈ ee_dirty (ew_engine w) /\ (ee_kick (ew_engine w) = true \/ ew_phase w = kicked)) \/ exists ids, ew_phase w = evaluating ids /\ id ∈ ids) /\
  Z.of_nat (size (ee_bindings (ew_engine w))) <= maxBindings.
Proof.
  intros Hr. destruct (loop_run_ok _ _ _ Hr) as [H1 H2 H3]. split_and!; [|intros id [Hid|Hid]%H1; [left; split; [done|apply H2; set_solver]|by right]|done].
  intros Hw Hk id t1 t2 Heq. assert (forall id, ~ unserved tr id) as Hno.
  { intros i [Hi|(ids & ? & _)]%H1; [|congruence]. destruct H2 as [?|?]; [set_solver|congruence..]. }
  assert (Decision (Exists (fun l => match l with Evaluated i _ _ => i = id | _ => False end) t2)) as [Hex|Hnex] by (apply Exists_dec; intros [?|???]; solve_decision).
  - apply Exists_exists in Hex as ([?|i now evs] & Hin & ?); [done|]. subst i. by exists now, evs.
  - destruct (Hno id). exists t1, t2. split; [done|]. intros now evs Hin. apply Hnex, Exists_exists. by exists (Evaluated id now evs).
Qed.
End Loop.
