(* ===== verification/EventNotes.v ===== *)
(** * Event notifications on the wire

    What event detection reports about a point, encoded by the server and
    decoded by a recipient: the notification fits every receiver with room for
    a few levels and elements. *)

From Stdlib Require Import ZArith Lia.
From stdpp Require Import base list gmap.
From S2P Require Import Prelude Value Ids Tags Constructed Writer Codec Access Object Commandable Events Point PointSafety EventDetection Device PropertyValues NotificationClass AlarmServices NotificationParams EventNotification ServerObjects EventEngine.

(** package time: [t.Weekday()] is one of the seven days. *)
Definition weekdays {LT : LocalTime} : Prop := forall t, 0 <= c_Weekday (civil t) < 7.

(** The Go ranges of a configuration and of the state of a point. *)
Record config_ranges (c : EventConfig) : Prop := {
  cr_class : is_u 32 (ec_NotificationClass c);
  cr_notify : is_u 32 (ec_NotifyType c);
  cr_high : is_u 32 (ec_HighLimit c);
  cr_low : is_u 32 (ec_LowLimit c);
  cr_deadband : is_u 32 (ec_Deadband c)
}.
Record point_ranges (p : pointState) : Prop := {
  pr_present : forall lim, app_prim lim (pointPresent p);
  pr_reliability : is_u 32 (pt_reliability p);
  pr_config : forall i, pt_intrinsic p = Some i -> config_ranges (in_cfg i)
}.

Section Notes.
Context {LT : LocalTime} (Hdays : weekdays).

Lemma stamp_now_ok t : stamp_ok (TimeStampDateTime (dateOf t) (timeOf t)).
Proof using Hdays.
  pose proof (Hdays t) as Hw. unfold stamp_ok, dateOf, timeOf, date_typed, time_typed, byte4. cbv zeta. cbn [d_Year d_Month d_Day d_Weekday t_Hour t_Minute t_Second t_Hundredths].
  split; split_and!; try (apply uwrap_range; lia). destruct (_ =? 0) eqn:E; bool_to_prop; unfold is_u; lia.
Qed.

(** ** The parameters of a report *)
Lemma statusFlags_ok a b c d : flags_ok (av_BitString (statusFlags a b c d)).
Proof using Type. destruct a, b, c, d; (split; [split_and!; [by vm_compute|by vm_compute|done|by vm_compute; repeat constructor]|by vm_compute]). Qed.

Lemma currentReliability_range p : is_u 32 (pt_reliability p) -> is_u 32 (currentReliability p).
Proof using Type. intros Hr. unfold currentReliability. destruct (pt_intrinsic p); [|done]. by destruct (_ && _). Qed.

Lemma encodedElement_context tn o : tagNumber_ok tn -> bytes_ok o -> len o <= 8 -> encodedElement (appendContextPrimitive [] tn o) = contextElement tn o.
Proof using Type.
  intros Htn Ho Hl. pose proof (parseBack_context tn o Htn Ho Hl) as H. unfold parseBack, newBuffer in H. unfold encodedElement.
  destruct (appendContextPrimitive [] tn o) as [raw|]; [|done]. cbn [bind] in H. destruct (ParseTag raw DefaultDecodeLimits) as [[el n]|]; [|done].
  destruct (negb _); [done|]. by injection H.
Qed.
Lemma encodedElement_unsigned tn v : tagNumber_ok tn -> is_u 64 v -> encodedElement (AppendContextUnsigned [] tn v) = unsignedElement tn v.
Proof using Type. intros Htn Hv. apply encodedElement_context; [done|apply encodeUnsigned_bytes_ok|]. pose proof (encodeUnsigned_len v Hv). lia. Qed.
Lemma encodedElement_bits tn b : tagNumber_ok tn -> flags_ok b -> encodedElement (AppendContextBitString [] tn b) = bitsElement tn b.
Proof using Type.
  intros Htn [(Hu & He & Hb) Hl]. unfold AppendContextBitString. rewrite validateBitString_ok by done. cbn [bind].
  apply encodedElement_context; [done|apply List.Forall_cons; [unfold is_u; lia|done]|cbn [app]; len_lia].
Qed.

(** The elements of a change of reliability. *)
Definition reliabilityElements (p : pointState) : list Element :=
  [unsignedElement 0 (currentReliability p); bitsElement 1 (av_BitString (pointStatusFlags p));
   constructedElement 2 [unsignedElement 0 PropertyPresentValue; constructedElement 2 [appItem (pointPresent p)]]].

Lemma wireElement_item v : av_Elements v = [] -> wireElement (item v) = appItem v.
Proof using Type. destruct v. cbn. by intros ->. Qed.
Lemma app_prim_elements lim v : app_prim lim v -> av_Elements v = [].
Proof using Type. by intros []. Qed.

Lemma wire_present lim d p : point_ranges p -> wire_at lim 12 d (appItem (pointPresent p)).
Proof using Type.
  intros Hp. pose proof (pr_present p Hp lim) as Hv. unfold appItem.
  assert (exists tn v, appElement (AVTagNumber (pointPresent p)) (pointPresent p) = appElement tn v /\ tagNumber_ok tn /\ tn <= 12 /\ app_prim lim v /\
    (tn <= 12 -> AVTagNumber v = tn)) as H.
  { exists (AVTagNumber (pointPresent p)), (pointPresent p). split_and!; [done| | |done|done]; by destruct Hv. }
  destruct d; left; exact H.
Qed.

Lemma wire_reliability lim p : limits_positive lim -> 8 <= MaxOctetStringLength lim -> point_ranges p -> Forall (wire_at lim 12 2) (reliabilityElements p).
Proof using Type.
  intros Hlim Hm Hp. apply List.Forall_cons; [apply wire_unsigned; [done|done|by apply currentReliability_range, pr_reliability]|].
  apply List.Forall_cons; [apply wire_bits; [done|done|apply statusFlags_ok]|].
  apply Forall_singleton. apply wire_constructedElement; [done|]. apply List.Forall_cons; [by apply wire_unsigned|].
  apply Forall_singleton. apply wire_constructedElement; [done|]. apply Forall_singleton. by apply wire_present.
Qed.

Lemma reliability_params p : point_ranges p ->
  exists els, eventParamsOf p = (fun i ty exceeded => if ty =? EventTypeOutOfRange then outOfRange (av_Real (pointPresent p)) (av_BitString (pointStatusFlags p)) (ec_Deadband (in_cfg i)) exceeded
    else if ty =? EventTypeChangeOfState then changeOfState (if bool_decide (pt_kind p = kindMultiState) then 11 else 1) (pointPresent p) (av_BitString (pointStatusFlags p))
    else changeOfReliability els) /\ els <> [] /\ map wireElement els = reliabilityElements p.
Proof using Type.
  intros Hp. pose proof (is_u_mono 32 64 _ ltac:(lia) (currentReliability_range p (pr_reliability p Hp))) as Hr.
  eexists. split; [unfold eventParamsOf; rewrite encodedElement_unsigned by done; rewrite encodedElement_bits by (done || apply statusFlags_ok);
    rewrite encodedElement_unsigned by done; cbv zeta; rewrite Clone_id; reflexivity|].
  split; [done|]. cbn [map]. unfold reliabilityElements. rewrite <- (wireElement_item (pointPresent p)); [done|].
  by eapply app_prim_elements, (pr_present p Hp DefaultDecodeLimits).
Qed.

(** What is reported fits; [exceeded] is a limit. *)
Lemma eventParamsOf_fits lim p i ty exceeded states : limits_positive lim -> 8 <= MaxOctetStringLength lim -> point_ranges p -> config_ranges (in_cfg i) ->
  is_u 32 exceeded -> is_u 32 states -> in_family (pt_kind p) states (pointPresent p) ->
  (ty = EventTypeOutOfRange -> pt_kind p = kindAnalog) -> (ty = EventTypeChangeOfState -> pt_kind p <> kindAnalog) ->
  params_fits lim 0 (Some (paramsOf (eventParamsOf p i ty exceeded))).
Proof using Type.
  intros Hlim Hm Hp Hc He Hst Hf Hor Hcs. destruct (reliability_params p Hp) as (els & -> & Hne & Hels).
  pose proof (pr_present p Hp lim) as Hv. assert (flags_ok (av_BitString (pointStatusFlags p))) as Hflags by apply statusFlags_ok.
  destruct (ty =? EventTypeOutOfRange) eqn:E1; [|destruct (ty =? EventTypeChangeOfState) eqn:E2]; bool_to_prop; cbn [paramsOf params_fits body_fits].
  - rewrite (Hor E1) in Hf. destruct Hf as [Hk _]. split_and!; try done; [|by destruct Hc].
    destruct Hv; try done.
  - split; [|done]. specialize (Hcs E2). split; cbn [ps_Choice ps_Value]; [by destruct (bool_decide _)|].
    right. left. split; [by destruct (bool_decide _)|]. unfold in_family in Hf. destruct (pt_kind p); [done|..]; destruct Hf as [Hk Hr]; destruct Hv; try done.
    + eexists. split; [|by left]. done.
    + eexists. split; [|by right]. cbn in Hr. unfold is_u in *. lia.
  - rewrite Hels. split_and!; [done|done|done|]. by apply wire_reliability.
Qed.

(** ** The report of an evaluation *)
Lemma evaluate_reports id now ack p evs ch p' ev : evaluate id now ack p = (evs, ch, p') -> ev ∈ evs ->
  exists i i', pt_intrinsic p = Some i /\ pt_intrinsic p' = Some i' /\ in_cfg i' = in_cfg i /\ pt_kind p' = pt_kind p /\
    pointPresent p' = pointPresent p /\ pt_reliability p' = pt_reliability p /\ ev_Object ev = id /\
    ev_NotificationClass ev = ec_NotificationClass (in_cfg i) /\ ev_NotifyType ev = ec_NotifyType (in_cfg i) /\ ev_TimeStamp ev = Truncate now (10 ^ 7) /\
    ev_From ev = pt_eventState p /\ ev_To ev = pt_eventState p' /\ ev_Transition ev = transitionOf (ev_To ev) /\
    (exists exceeded, ev_Params ev = Some (eventParamsOf p' i' (ev_EventType ev) exceeded) /\
       (exceeded = 0 \/ exceeded = ec_HighLimit (in_cfg i) \/ exceeded = ec_LowLimit (in_cfg i))) /\
    (ev_EventType ev = EventTypeOutOfRange -> pt_kind p = kindAnalog) /\ (ev_EventType ev = EventTypeChangeOfState -> pt_kind p <> kindAnalog) /\
    (ev_EventType ev = EventTypeOutOfRange \/ ev_EventType ev = EventTypeChangeOfState \/ ev_EventType ev = EventTypeChangeOfReliability).
Proof using Type.
  unfold evaluate. destruct (pt_intrinsic p) as [i|] eqn:Ei; [|by intros [= <- <- <-] Hin%elem_of_nil].
  destruct (negb _); [by intros [= <- <- <-] Hin%elem_of_nil|]. cbv zeta. destruct (nextEventState _ p i) as [[to pending] since].
  destruct (_ && _); [by intros [= <- <- <-] Hin%elem_of_nil|]. intros [= <- <- <-] ->%list_elem_of_singleton.
  eexists _, _. split; [reflexivity|]. split; [reflexivity|].
  cbn [in_cfg ev_Object ev_NotificationClass ev_NotifyType ev_TimeStamp ev_From ev_To ev_Transition ev_Params ev_EventType].
  split_and!; try done.
  - eexists. split; [reflexivity|]. repeat case_match; tauto.
  - destruct (_ && _); [done|]. unfold eventType. cbn. destruct (to =? EventStateFault); [done|]. destruct (bool_decide_reflect (pt_kind p <> kindAnalog)); [done|].
    intros _. by apply dec_stable.
  - destruct (_ && _); [done|]. unfold eventType. cbn. destruct (to =? EventStateFault); [done|]. by destruct (bool_decide_reflect (pt_kind p <> kindAnalog)).
  - destruct (_ && _); [tauto|]. unfold eventType. destruct (to =? EventStateFault); [tauto|]. destruct (bool_decide _); tauto.
Qed.

(** The limit that an event state is about. *)
Definition limitOf (c : EventConfig) (state : Z) : Z :=
  if decide (state = EventStateHighLimit) then ec_HighLimit c else if decide (state = EventStateLowLimit) then ec_LowLimit c else 0.

Lemma limitOf_tests c state : limitOf c state =
  if state =? EventStateHighLimit then ec_HighLimit c else if state =? EventStateLowLimit then ec_LowLimit c else 0.
Proof using Type. unfold limitOf. repeat case_decide; destruct (Z.eqb_spec state EventStateHighLimit), (Z.eqb_spec state EventStateLowLimit); done. Qed.

(** The event values: those of the point, with the limit of the state that is
    entered, or left for NORMAL. *)
Lemma evaluate_values id now ack p evs ch p' ev : evaluate id now ack p = (evs, ch, p') -> ev ∈ evs ->
  exists i', pt_intrinsic p' = Some i' /\
    ev_Params ev = Some (eventParamsOf p' i' (ev_EventType ev) (limitOf (in_cfg i') (if decide (ev_To ev = EventStateNormal) then ev_From ev else ev_To ev))).
Proof using Type.
  unfold evaluate. destruct (pt_intrinsic p) as [i|] eqn:Ei; [|by intros [= <- <- <-] Hin%elem_of_nil].
  destruct (negb _); [by intros [= <- <- <-] Hin%elem_of_nil|]. cbv zeta. destruct (nextEventState _ p i) as [[to pending] since].
  destruct (_ && _); [by intros [= <- <- <-] Hin%elem_of_nil|]. intros [= <- <- <-] ->%list_elem_of_singleton.
  eexists. split; [reflexivity|]. cbn [in_cfg ev_From ev_To ev_Params ev_EventType]. do 2 f_equal.
  destruct (Z.eqb_spec to EventStateNormal) as [He|He]; [rewrite decide_True by done|rewrite decide_False by done]; by rewrite limitOf_tests.
Qed.

Lemma event_state_range kind e : event_state kind e -> is_u 32 e.
Proof using Type. unfold event_state, EventStateNormal, EventStateFault, EventStateHighLimit, EventStateLowLimit, EventStateOffnormal, is_u. destruct kind; lia. Qed.

(** The notification of a report fits any receiver. *)
Lemma noteOf_fits {O} `{!ObjectOps O} (d : Device O) lim cm kind states b now ack evs cs b' ev prio ackRequired pid :
  limits_positive lim -> 8 <= MaxOctetStringLength lim ->
  object_ok cm kind states b -> is_u 32 states -> point_ranges (o_state (b_view b)) -> oid_ok (o_id (b_view b)) ->
  EvaluateEvents now ack b = (evs, cs, b') -> ev ∈ evs -> oid_ok (Identifier d) -> is_u 8 prio -> is_u 32 pid ->
  note_fits lim 0 (noteOf d ev prio ackRequired pid).
Proof using Hdays.
  intros Hlim Hm Hb Hst Hp Hid He Hin Hd Hprio Hpid.
  assert (object_ok cm kind states b') as Hb'.
  { eapply run_object_ok; [exact Hb|]. eapply pr_eval; [apply pr_start|exact He]. }
  pose proof (ob_point _ _ _ _ Hb) as Hpt. pose proof (ob_point _ _ _ _ Hb') as Hpt'. pose proof (ob_kind _ _ _ _ Hb) as Hkind.
  unfold EvaluateEvents in He. destruct (evaluate _ _ _ _) as [[evs' ch] p'] eqn:E. injection He as <- _ <-.
  change (o_state (b_view (putState p' b))) with p' in *.
  destruct (evaluate_reports _ _ _ _ _ _ _ _ E Hin) as (i & i' & Hi & Hi' & Hcfg & Hk & Hpv & Hrel & Ho & Hcl & Hnt & Hts & Hfrom & Hto & Htr & (x & Hpar & Hx) & Hor & Hcs & Hty).
  pose proof (pr_config _ Hp _ Hi) as Hc. pose proof Hc as [Hc1 Hc2 Hc3 Hc4 Hc5].
  assert (point_ranges p') as Hp'.
  { split; [intros l; rewrite Hpv; apply Hp|rewrite Hrel; apply Hp|]. intros j Hj. rewrite Hi' in Hj. injection Hj as <-. by rewrite Hcfg. }
  pose proof (ok_events _ _ Hpt) as He1. pose proof (ok_events _ _ Hpt') as He2. unfold events_ok in He1, He2. rewrite Hi in He1. rewrite Hi' in He2.
  destruct He1 as [He1%event_state_range _], He2 as [He2%event_state_range _].
  assert (is_u 32 (ev_EventType ev)) as Hety by (destruct Hty as [-> | [-> | ->]]; done).
  unfold noteOf. split; cbn [note_ProcessIdentifier note_InitiatingDevice note_EventObject note_TimeStamp note_NotificationClass note_Priority note_EventType
    note_MessageText note_NotifyType note_AckRequired note_FromState note_ToState note_NotificationParams note_Parameters];
    rewrite ?Ho, ?Hcl, ?Hnt, ?Hto; try done.
  - by apply stamp_now_ok.
  - destruct (negb _); [|done]. apply optP_Some. by rewrite Hfrom.
  - rewrite Hpar. change (params_fits lim 0 (Some (paramsOf (eventParamsOf p' i' (ev_EventType ev) x)))).
    apply (eventParamsOf_fits lim p' i' (ev_EventType ev) x states); rewrite ?Hk, ?Hcfg; try done.
    + destruct Hx as [-> | [-> | ->]]; done.
    + pose proof (pointPresent_family cm p' (ok_values _ _ Hpt')) as Hf. rewrite Hk in Hf.
      assert (pt_states p' = states) as <- by exact (ob_states _ _ _ _ Hb'). exact Hf.
Qed.

(** ** The report of an acknowledgment *)
Lemma acknowledge_reports id state stamp p a ch p' : acknowledge id state stamp p = Ok (a, ch, p') ->
  exists i i', pt_intrinsic p = Some i /\ p' = setIntrinsic i' p /\ in_cfg i' = in_cfg i /\ ev_Object a = id /\
    ev_NotificationClass a = ec_NotificationClass (in_cfg i) /\ ev_NotifyType a = NotifyAckNotification /\ ev_To a = state /\
    state <= EventStateLowLimit /\ ev_Transition a = transitionOf state /\ ev_Params a = None /\
    (ev_EventType a = EventTypeOutOfRange \/ ev_EventType a = EventTypeChangeOfState \/ ev_EventType a = EventTypeChangeOfReliability).
Proof using Type.
  unfold acknowledge. destruct (pt_intrinsic p) as [i|]; [|done]. destruct (state >? EventStateLowLimit) eqn:El; [done|]. bool_to_prop. cbv zeta.
  intros H. apply bind_Ok_inv in H as (i' & Hi & H). apply bind_Ok_inv in H as (at_ & Hat & [= <- _ <-]). exists i, i'.
  assert (in_cfg i' = in_cfg i) as Hcfg.
  { destruct (_ =? 0) in Hi; [|by destruct (negb _) in Hi; simplify_eq]. destruct stamp; try done. apply bind_Ok_inv in Hi as (x & _ & Hi).
    destruct (_ >? _) in Hi; [done|]. by injection Hi as <-. }
  cbn [ev_Object ev_NotificationClass ev_NotifyType ev_To ev_Transition ev_Params ev_EventType]. split_and!; try done; [by rewrite Hcfg|].
  unfold eventType. destruct (state =? EventStateFault); [tauto|]. destruct (bool_decide _); tauto.
Qed.

Lemma acknowledge_state id state stamp p a ch p' : acknowledge id state stamp p = Ok (a, ch, p') ->
  exists i acked, pt_intrinsic p = Some i /\
    p' = setIntrinsic (mkIntrinsic (in_cfg i) (in_enabled i) acked (in_stamps i) (in_pending i) (in_since i) (in_lastFault i)) p.
Proof using Type.
  unfold acknowledge. destruct (pt_intrinsic p) as [i|]; [|done]. destruct (state >? EventStateLowLimit); [done|]. cbv zeta.
  intros H. apply bind_Ok_inv in H as (i' & Hi & H). apply bind_Ok_inv in H as (at_ & _ & [= _ _ <-]).
  destruct (_ =? 0) in Hi.
  - destruct stamp; try done. apply bind_Ok_inv in Hi as (x & _ & Hi). destruct (_ >? _) in Hi; [done|]. injection Hi as <-. by exists i, (Z.lor (in_acked i) (Z.shiftl 1 (transitionOf state))).
  - destruct (negb _) in Hi; [done|]. injection Hi as <-. exists i, (in_acked i). split; [done|]. by destruct i.
Qed.

Lemma noteOf_ack_fits {O} `{!ObjectOps O} (d : Device O) lim id state stamp p a ch p' prio ackRequired pid :
  point_ranges p -> oid_ok id -> 0 <= state -> acknowledge id state stamp p = Ok (a, ch, p') -> oid_ok (Identifier d) -> is_u 8 prio -> is_u 32 pid ->
  note_fits lim 0 (noteOf d a prio ackRequired pid).
Proof using Hdays.
  intros Hp Hid Hs Ha Hd Hprio Hpid.
  destruct (acknowledge_reports _ _ _ _ _ _ _ Ha) as (i & i' & Hi & _ & _ & Ho & Hcl & Hnt & Hto & Hle & _ & Hpar & Hty).
  destruct (pr_config _ Hp _ Hi) as [Hc1 _ _ _ _].
  assert (is_u 32 (ev_EventType a)) as Hety by (destruct Hty as [-> | [-> | ->]]; done).
  unfold noteOf. rewrite Ho, Hcl, Hnt, Hto, Hpar. change (negb (NotifyAckNotification =? NotifyAckNotification)) with false.
  split; cbn [note_ProcessIdentifier note_InitiatingDevice note_EventObject note_TimeStamp note_NotificationClass note_Priority note_EventType
    note_MessageText note_NotifyType note_AckRequired note_FromState note_ToState note_NotificationParams note_Parameters]; try done.
  - by apply stamp_now_ok.
  - unfold EventStateLowLimit in Hle. unfold is_u. lia.
Qed.
End Notes.
