(* ===== verification/EventDelivery.v ===== *)
(** * How a transition reaches a recipient

    The specification of what the event engine sends for one destination -
    which destinations a transition goes to, where each is, what is asked to
    find it, what the notification says - and the proof that [deliver] of
    [EventEngine.v] does that. *)

From Stdlib Require Import ZArith Lia.
From stdpp Require Import base list gmap sorting relations.
From S2P Require Import Prelude Value Ids Tags Constructed Writer Codec Apdu Access Address Endpoint Link Bbmd ServerKey Responder ServerPacket Object Discovery Commandable Events Point PointSafety EventDetection Device DeviceSafety DataHandlers PropertyValues CovMultiple ObjectService NotificationClass RecipientList AlarmServices EventInformation EnrollmentSummary NotificationParams EventNotification ServerObjects EventEngine EventNotes.

(** ** Which destinations *)

(** [a] is earlier than [b]: they differ first, among the fields that
    neither leaves unspecified, in one where [a] is smaller. *)
Definition timeFields (t : Time) : list Z := [t_Hour t; t_Minute t; t_Second t; t_Hundredths t].
Definition unspecified (x y : Z) : Prop := x = 0xFF \/ y = 0xFF.
Definition earlier (a b : Time) : Prop :=
  exists i x y, timeFields a !! i = Some x /\ timeFields b !! i = Some y /\ ~ unspecified x y /\ x < y /\
    forall j x' y', (j < i)%nat -> timeFields a !! j = Some x' -> timeFields b !! j = Some y' -> unspecified x' y' \/ x' = y'.

Lemma fieldsBefore_spec la lb : length la = length lb ->
  fieldsBefore (zip la lb) = true <->
  exists i x y, la !! i = Some x /\ lb !! i = Some y /\ ~ unspecified x y /\ x < y /\
    forall j x' y', (j < i)%nat -> la !! j = Some x' -> lb !! j = Some y' -> unspecified x' y' \/ x' = y'.
Proof.
  revert lb. induction la as [|a la IH]; intros [|b lb] Hl; try done; cbn [zip zip_with fieldsBefore].
  - split; [done|]. intros (i & x & y & H & _). by rewrite lookup_nil in H.
  - injection Hl as Hl. destruct ((a =? 0xFF) || (b =? 0xFF)) eqn:Eu; [|destruct (a =? b) eqn:Ee; cbn [negb]].
    + assert (unspecified a b) as Hu by (by apply orb_true_iff in Eu as [?%Z.eqb_eq|?%Z.eqb_eq]; [left|right]). rewrite (IH lb Hl). split.
      * intros (i & x & y & H1 & H2 & H3 & H4 & H5). exists (S i), x, y. split_and!; try done. intros [|j] x' y' Hj; [|apply H5; lia].
        cbn. intros [= <-] [= <-]. by left.
      * intros ([|i] & x & y & H1 & H2 & H3 & H4 & H5); [cbn in H1, H2; simplify_eq; by destruct H3|]. exists i, x, y. split_and!; try done.
        intros j x' y' Hj. apply (H5 (S j)). lia.
    + rewrite (IH lb Hl). bool_to_prop. subst b. split.
      * intros (i & x & y & H1 & H2 & H3 & H4 & H5). exists (S i), x, y. split_and!; try done. intros [|j] x' y' Hj; [|apply H5; lia].
        cbn. intros [= <-] [= <-]. by right.
      * intros ([|i] & x & y & H1 & H2 & H3 & H4 & H5); [cbn in H1, H2; simplify_eq; lia|]. exists i, x, y. split_and!; try done.
        intros j x' y' Hj. apply (H5 (S j)). lia.
    + bool_to_prop. split.
      * intros Hlt%Z.ltb_lt. exists 0%nat, a, b. split_and!; try done; [intros [?|?]; lia|]. intros j x' y' Hj. lia.
      * intros ([|i] & x & y & H1 & H2 & H3 & H4 & H5); [cbn in H1, H2; simplify_eq; by apply Z.ltb_lt|]. exfalso.
        destruct (H5 0%nat a b) as [[?|?]|?]; try done; lia.
Qed.

Lemma timeBefore_earlier a b : timeBefore a b = true <-> earlier a b.
Proof. apply (fieldsBefore_spec (timeFields a) (timeFields b)). done. Qed.

#[export] Instance earlier_dec a b : Decision (earlier a b).
Proof. refine (cast_if (decide (timeBefore a b = true))); by rewrite <- timeBefore_earlier. Defined.

Section Routing.
Context {LT : LocalTime}.

(** A destination takes a transition at a time of a day: its days and
    transitions select it, and the time is neither before From nor after
    To. *)
Definition takes (t transition : Z) (d : Destination) : Prop :=
  Z.testbit (dn_ValidDays d) ((c_Weekday (civil t) + 6) mod 7) = true /\ Z.testbit (dn_Transitions d) transition = true /\
  ~ earlier (timeOf t) (dn_From d) /\ ~ earlier (dn_To d) (timeOf t).
#[export] Instance takes_dec t transition d : Decision (takes t transition d).
Proof. unfold takes. apply _. Defined.

Lemma Active_takes d t tr : 0 <= tr -> Active d t tr = true <-> takes t tr d.
Proof.
  intros Htr. rewrite Active_spec by done. unfold takes. rewrite <- !timeBefore_earlier, !andb_true_iff, !negb_true_iff, <- !not_true_iff_false. tauto.
Qed.

Lemma filter_bool {A} (P : A -> Prop) `{!forall x, Decision (P x)} (f : A -> bool) (l : list A) :
  (forall x, f x = true <-> P x) -> List.filter f l = filter P l.
Proof.
  intros Hf. induction l as [|x l IH]; [done|]. cbn [List.filter]. rewrite filter_cons, IH. destruct (f x) eqn:E.
  - by rewrite decide_True by (by apply Hf).
  - rewrite decide_False; [done|]. rewrite <- Hf, E. done.
Qed.
End Routing.

(** ** Where a destination is *)

(** The B/IP node or broadcast that a notification is sent to, with the
    network destination, and what is asked meanwhile: a device by the address
    learnt for it - an unknown one is looked for by a Who-Is for its instance
    and gets nothing; broadcasts as they are; a station of another network
    through the router known for it - an unknown one is looked for, and the
    notification goes out as a local broadcast unless it is confirmed; a
    local station at the B/IP address that its six octets spell. *)
Inductive located (lim : DecodeLimits) (routes : gmap Z Endpoint) (bindings : gmap Z binding) (dest : Destination) :
    list sending -> option (Endpoint * Address * bool) -> Prop :=
| loc_bound id b : dn_Device dest = Some id -> bindings !! oid_Instance id = Some b ->
    located lim routes bindings dest [] (Some (bd_to b, bd_addr b, false))
| loc_unbound id payload : dn_Device dest = Some id -> bindings !! oid_Instance id = None ->
    (is_u 32 (oid_Instance id) -> DecodeWhoIs payload lim = Ok (mkWhoIs (Some (oid_Instance id)) (Some (oid_Instance id)))) ->
    located lim routes bindings dest [sendWhoIs payload] None
| loc_localBroadcast : dn_Device dest = None -> dn_MAC dest = [] -> dn_Network dest = 0 ->
    located lim routes bindings dest [] (Some (zeroEndpoint, Address.LocalBroadcast, true))
| loc_remoteBroadcast : dn_Device dest = None -> dn_MAC dest = [] -> dn_Network dest <> 0 ->
    located lim routes bindings dest [] (Some (zeroEndpoint, RemoteBroadcast (dn_Network dest), true))
| loc_routed router : dn_Device dest = None -> dn_MAC dest <> [] -> dn_Network dest <> 0 -> routes !! dn_Network dest = Some router ->
    located lim routes bindings dest [] (Some (router, RemoteStation (dn_Network dest) (macOf (dn_MAC dest)), false))
| loc_unrouted : dn_Device dest = None -> dn_MAC dest <> [] -> dn_Network dest <> 0 -> routes !! dn_Network dest = None ->
    located lim routes bindings dest [sendWhoIsRouter (dn_Network dest)]
      (if dn_Confirmed dest then None else Some (zeroEndpoint, RemoteStation (dn_Network dest) (macOf (dn_MAC dest)), true))
| loc_station ip port : dn_Device dest = None -> dn_Network dest = 0 -> dn_MAC dest = ip ++ port -> length ip = 4%nat -> length port = 2%nat ->
    located lim routes bindings dest [] (Some (endpoint4 ip (be_get port), LocalStation (macOf (dn_MAC dest)), false))
| loc_noStation : dn_Device dest = None -> dn_Network dest = 0 -> dn_MAC dest <> [] -> length (dn_MAC dest) <> 6%nat ->
    located lim routes bindings dest [] None.

(** ** What a notification says *)

(** The event values of a transition, as a notification carries them; the
    number of a state comes as an enumerated value. *)
Definition says (values : option eventParams) (n : option NotificationParameters) : Prop :=
  match values, n with
  | None, None => True
  | Some (outOfRange exceeding flags deadband limit), Some np =>
      np_Choice np = 5 /\ np_Body np = Some (OutOfRange exceeding flags deadband limit)
  | Some (changeOfState choice v flags), Some np =>
      np_Choice np = 1 /\
      np_Body np = Some (ChangeOfState (mkPropertyStates choice (if decide (av_Kind v = ValueUnsigned) then EnumValue (av_Unsigned v) else v)) flags)
  | Some (changeOfReliability elements), Some np =>
      np_Choice np = 19 /\ np_Body np = None /\ np_RawElements np = map wireElement elements
  | _, _ => False
  end.

(** Only an acknowledgment leaves out the state before and whether an
    acknowledgment is wanted. *)
Record tells {LT : LocalTime} (device : ObjectIdentifier) (ev : EventTransition) (priority : Z) (ackRequired : bool) (process : Z) (n : EventNotification) : Prop := {
  tl_process : note_ProcessIdentifier n = process;
  tl_device : note_InitiatingDevice n = device;
  tl_object : note_EventObject n = ev_Object ev;
  tl_time : note_TimeStamp n = TimeStampDateTime (dateOf (ev_TimeStamp ev)) (timeOf (ev_TimeStamp ev));
  tl_class : note_NotificationClass n = ev_NotificationClass ev;
  tl_priority : note_Priority n = priority;
  tl_type : note_EventType n = ev_EventType ev;
  tl_text : note_MessageText n = None;
  tl_notify : note_NotifyType n = ev_NotifyType ev;
  tl_ack : note_AckRequired n = if decide (ev_NotifyType ev = NotifyAckNotification) then None else Some ackRequired;
  tl_from : note_FromState n = if decide (ev_NotifyType ev = NotifyAckNotification) then None else Some (ev_From ev);
  tl_to : note_ToState n = ev_To ev;
  tl_values : says (ev_Params ev) (note_Parameters n)
}.

(** ** Delivery *)
Section Delivery.
Context {O : Type} `{!ObjectOps O} `{!EventOps O} {LT : LocalTime} (Hdays : weekdays).
Implicit Types (d : Device O) (e : eventEngine).

(** What is sent for one destination: what finding it asks, and, when it was
    found, the notification under the destination's process identifier. A
    confirmed notification is never broadcast. *)
Definition delivered d (routes : routeTable) e (lim : DecodeLimits) (ev : EventTransition) (prio : Z) (ackRequired : bool)
    (dest : Destination) (out : list sending) : Prop :=
  exists asked found, located lim routes (ee_bindings e) dest asked found /\
    match found with
    | None => out = asked
    | Some (to, addr, broadcast) =>
        if dn_Confirmed dest && broadcast then out = asked
        else exists payload n, bytes_ok payload /\ DecodeEventNotification payload lim = Ok n /\
          tells (Identifier d) ev prio ackRequired (dn_ProcessID dest) n /\
          out = asked ++ [if dn_Confirmed dest then sendConfirmed to addr payload else sendUnconfirmed to broadcast addr payload]
    end.

Lemma noteOf_tells d ev prio ackRequired pid : tells (Identifier d) ev prio ackRequired pid (receivedNote (noteOf d ev prio ackRequired pid)).
Proof using Type.
  split; try done; cbn [receivedNote noteOf note_AckRequired note_FromState note_Parameters].
  - destruct (decide _) as [->|H]; [done|]. apply Z.eqb_neq in H. by rewrite H.
  - destruct (decide _) as [->|H]; [done|]. apply Z.eqb_neq in H. by rewrite H.
  - destruct (ev_Params ev) as [[x fl db l|c v fl|els]|]; try done. cbn. split; [done|]. do 2 f_equal.
    destruct (decide _) as [H|H]; [by rewrite bool_decide_eq_true_2|by rewrite bool_decide_eq_false_2].
Qed.

Lemma EncodeWhoIs_total inst : exists payload, EncodeWhoIs (mkWhoIs (Some inst) (Some inst)) = Ok payload.
Proof using Type.
  assert (forall tn dst, tn <> tagNumberReserved -> exists bs, AppendContextUnsigned dst tn inst = Ok bs) as Happ.
  { intros tn dst Htn. unfold AppendContextUnsigned, appendContextPrimitive. apply Z.eqb_neq in Htn. rewrite Htn.
    assert (len (encodeUnsigned inst) <= 8) as Hl.
    { assert (forall l tmp, len (fold_left (unsignedOctet inst) l tmp) <= len tmp + len l) as Hf.
      { induction l as [|i l IH]; intros tmp; [cbn; len_lia|]. cbn [fold_left]. etransitivity; [apply IH|].
        unfold unsignedOctet. destruct (_ || _); rewrite ?len_app, !len_cons; len_lia. }
      unfold encodeUnsigned. destruct (_ =? 0); [by vm_compute|]. exact (Hf [7; 6; 5; 4; 3; 2; 1; 0] []). }
    unfold encodeTagHeader. replace (len (encodeUnsigned inst) >? MaxUint32) with false by (unfold MaxUint32; lia).
    replace (len (encodeUnsigned inst) <? 0) with false by (symmetry; apply Z.ltb_ge; len_lia).
    cbv zeta. destruct (if len (encodeUnsigned inst) <? 5 then _ else _) as [b0 l]. by eexists. }
  unfold EncodeWhoIs, newBuffer. cbn [wi_LowLimit wi_HighLimit].
  destruct (Happ 0 [] ltac:(done)) as [bs ->]. cbn [bind]. apply Happ. done.
Qed.

Lemma resolve_located lim routes e dest : destination_ok dest -> room lim 0 2 ->
  exists asked found, resolve routes e dest = Ok (asked, found) /\ located lim routes (ee_bindings e) dest asked found.
Proof using Type.
  intros [_ _ _ Hr] Hroom. unfold resolve. destruct (dn_Device dest) as [id|] eqn:Edev.
  - destruct (ee_bindings e !! _) as [b|] eqn:Eb; [do 2 eexists; split; [done|by eapply loc_bound]|].
    destruct (EncodeWhoIs_total (oid_Instance id)) as [payload Hp]. rewrite Hp. do 2 eexists. split; [done|]. eapply loc_unbound; [done|done|].
    intros Hu. destruct (decode_encode lim (mkWhoIs (Some (oid_Instance id)) (Some (oid_Instance id)))) as (bs & He & _ & Hd); [split; [done|cbn; unfold is_u in *; lia]|].
    cbn [encode decode WhoIs_Codec] in He, Hd. rewrite Hp in He. by injection He as <-.
  - destruct Hr as [Hnet Hlen]. unfold destinationAddress. destruct (len (dn_MAC dest) =? 0) eqn:El; bool_to_prop.
    { apply len_zero_nil in El. destruct (dn_Network dest =? 0) eqn:En; bool_to_prop; do 2 eexists; (split; [reflexivity|]); by constructor. }
    assert (dn_MAC dest <> []) as Hne by (intros H; by rewrite H in El).
    rewrite NewMAC_ok by done. cbn [bind]. destruct (dn_Network dest =? 0) eqn:En; bool_to_prop.
    + cbn [IsBroadcast a_scope LocalStation a_mac]. rewrite bool_decide_eq_false_2 by done. rewrite MACBytes_macOf. unfold LinkEndpoint, MACLen.
      destruct (len (dn_MAC dest) =? 6) eqn:E6; cbn [negb bind]; bool_to_prop.
      * assert (exists ip port, dn_MAC dest = ip ++ port /\ length ip = 4%nat /\ length port = 2%nat) as (ip & port & Heq & Hip & Hport).
        { exists (take 4 (dn_MAC dest)), (drop 4 (dn_MAC dest)). rewrite take_drop, length_take, length_drop. unfold len in E6. split_and!; [done|lia|lia]. }
        rewrite Heq, slice_prefix by (unfold len; lia). cbn [bind]. rewrite slice_from_app by (unfold len; lia). cbn [bind].
        do 2 eexists. split; [reflexivity|]. rewrite <- Heq. by eapply loc_station.
      * do 2 eexists. split; [reflexivity|]. apply loc_noStation; try done. unfold len in E6. lia.
    + cbn [IsBroadcast a_scope RemoteStation a_network]. rewrite bool_decide_eq_true_2 by done. unfold lookupRoute.
      destruct (routes !! dn_Network dest) as [router|] eqn:Er; do 2 eexists; (split; [reflexivity|]); by constructor.
Qed.

Definition note_room (lim : DecodeLimits) : Prop := room lim 4 24.

Lemma deliver_exact d routes e lim ev prio ackRequired dest : destination_ok dest ->
  note_fits (Normalize lim) 0 (noteOf d ev prio ackRequired (dn_ProcessID dest)) ->
  room lim 4 (elcounts (noteElements (noteOf d ev prio ackRequired (dn_ProcessID dest)))) -> room lim 0 2 ->
  exists out, deliver d routes e ev prio ackRequired dest = Ok (Some out) /\ delivered d routes e lim ev prio ackRequired dest out.
Proof using Type.
  intros Hdest Hn Hroom Hroom2. destruct (DecodeEventNotification_encode lim _ (ex_intro _ 0%nat (conj Hn Hroom))) as (bs & Henc & Hok & Hdec).
  destruct (resolve_located lim routes e dest Hdest Hroom2) as (asked & found & Hres & Hloc). unfold deliver. rewrite Henc, Hres. cbn [bind].
  destruct found as [[[to addr] broadcast]|]; [|exists asked; split; [done|by exists asked, None]].
  assert (exists out, (if dn_Confirmed dest && broadcast then out = asked
        else exists payload n, bytes_ok payload /\ DecodeEventNotification payload lim = Ok n /\
          tells (Identifier d) ev prio ackRequired (dn_ProcessID dest) n /\
          out = asked ++ [if dn_Confirmed dest then sendConfirmed to addr payload else sendUnconfirmed to broadcast addr payload]) /\
        out = if dn_Confirmed dest && broadcast then asked
          else asked ++ [if dn_Confirmed dest then sendConfirmed to addr bs else sendUnconfirmed to broadcast addr bs]) as (out & Hout & Heq).
  { destruct (dn_Confirmed dest && broadcast); eexists; (split; [|reflexivity]); [done|]. exists bs, (receivedNote (noteOf d ev prio ackRequired (dn_ProcessID dest))).
    split_and!; try done. apply noteOf_tells. }
  exists out. split; [|by exists asked, (Some (to, addr, broadcast))]. rewrite Heq. by destruct (dn_Confirmed dest), broadcast.
Qed.

Lemma deliverAll_exact d routes e lim ev prio ackRequired dests : room lim 0 2 ->
  (forall dest, dest ∈ dests -> destination_ok dest /\ note_fits (Normalize lim) 0 (noteOf d ev prio ackRequired (dn_ProcessID dest)) /\
    room lim 4 (elcounts (noteElements (noteOf d ev prio ackRequired (dn_ProcessID dest))))) ->
  exists outs, deliverAll d routes e ev prio ackRequired dests = Ok (concat outs) /\ Forall2 (delivered d routes e lim ev prio ackRequired) dests outs.
Proof using Type.
  intros Hroom. induction dests as [|dest dests IH]; intros H; [by exists []|].
  destruct (deliver_exact d routes e lim ev prio ackRequired dest) as (out & Hd & Hout); [apply H; by left|apply H; by left|apply H; by left|done|].
  destruct IH as (outs & Ho & Hall); [intros; apply H; by right|]. exists (out :: outs). cbn [deliverAll]. rewrite Hd. cbn [bind]. rewrite Ho.
  split; [done|by constructor].
Qed.

(** The elements of a notification of the engine. *)
Lemma elcounts_paramsOf p i ty exceeded : point_ranges p -> elcounts (eventValueElements (paramsOf <$> Some (eventParamsOf p i ty exceeded))) <= 8.
Proof using Type.
  intros Hp. destruct (reliability_params p Hp) as (els & Heq & _ & Hels). rewrite Heq. cbn [fmap option_fmap option_map].
  destruct (ty =? EventTypeOutOfRange); [by vm_compute|]. destruct (ty =? EventTypeChangeOfState).
  - cbn [paramsOf eventValueElements paramsElements]. unfold choiceElement, constructedElement, bodyElements, stateElement. cbn [ps_Value ps_Choice].
    pose proof (pr_present p Hp DefaultDecodeLimits) as Hv. destruct Hv; by vm_compute.
  - cbn [paramsOf eventValueElements paramsElements]. rewrite Hels. unfold constructedElement, reliabilityElements, appItem, constructedElement, unsignedElement, bitsElement.
    autorewrite with elc. rewrite (elcount_primitive DefaultDecodeLimits) by apply (pr_present p Hp). lia.
Qed.

Lemma elcounts_noteOf d ev prio ackRequired pid : elcounts (eventValueElements (paramsOf <$> ev_Params ev)) <= 8 ->
  elcounts (noteElements (noteOf d ev prio ackRequired pid)) <= 24.
Proof using Type.
  intros Hpar. unfold noteElements, noteOf.
  cbn [note_ProcessIdentifier note_InitiatingDevice note_EventObject note_TimeStamp note_NotificationClass note_Priority note_EventType
    note_MessageText note_NotifyType note_AckRequired note_FromState note_ToState note_Parameters stampElement].
  unfold unsignedElement, constructedElement. rewrite !elcounts_app. autorewrite with elc.
  destruct (negb _); cbn [whenElements]; autorewrite with elc; lia.
Qed.
End Delivery.

