(* ===== verification/Hosted.v ===== *)
(** * The device with its points and Notification Classes

    The invariant of a device that hosts points and Notification Classes,
    whatever is added, removed, written, evaluated and acknowledged. *)

From Stdlib Require Import ZArith Lia.
From stdpp Require Import base list gmap relations.
From S2P Require Import Prelude Value Ids Codec Access ServerPacket Object Commandable Events Point PointSafety EventDetection Device DeviceSafety PropertyValues ObjectService NotificationClass RecipientList ServerObjects EventEngine EventNotes.

(** ** What a server hosts

    Points and Notification Classes in the ranges of their Go types, wherever
    writes, event detection and acknowledgments took them. *)
Definition object_served (o : ServerObject) : Prop :=
  match o with
  | inl b => point_ranges (o_state (b_view b)) /\ exists cm kind states, object_ok cm kind states b /\ is_u 32 states
  | inr b => class_ok b
  end.
Record hosted {LT : LocalTime} (d : Device ServerObject) : Prop := {
  ho_device : device_ok d;
  ho_own : oid_ok (Identifier d);
  ho_object : forall id o, Object d id = Some (anObject o) -> object_served o /\ oid_ok id
}.

Section Hosted.
Context {LT : LocalTime}.
Implicit Types (d : Device ServerObject) (o : ServerObject).

Lemma Object_table d id o : device_ok d -> Object d id = Some (anObject o) -> tb_objects (tablesOf d) !! id = Some (anObject o) /\ Identifier o = id.
Proof.
  intros Hd H. assert (tb_objects (tablesOf d) !! id = Some (anObject o)) as Ht by (unfold Object in H; by destruct (_ && _)). split; [done|].
  by destruct (dk_object _ Hd _ _ Ht).
Qed.

Lemma Object_put d id o o' id' : device_ok d -> Object d id = Some (anObject o) ->
  Object (putObject id o' d) id' = if decide (id' = id) then Some (anObject o') else Object d id'.
Proof.
  intros Hd [Ho Hid]%Object_table; [|done]. rewrite <- Hid in Ho |- *. destruct (putObject_frame d (Identifier o) o o' Hd Ho) as [H1 H2].
  case_decide; [by subst|by apply H2].
Qed.

Lemma hosted_put d id o o' : hosted d -> Object d id = Some (anObject o) -> Identifier o' = Identifier o -> Name o' = Name o ->
  object_served o' -> hosted (putObject id o' d).
Proof.
  intros [Hd Hown Hall] Ho Hi Hn Hs. destruct (Object_table _ _ _ Hd Ho) as [Ht _]. split; [by eapply putObject_ok|done|].
  intros id' x. rewrite (Object_put d id o o' id' Hd Ho). case_decide as Heq; [|apply Hall]. intros [= <-]. subst id'. split; [done|].
  by destruct (Hall _ _ Ho).
Qed.

Lemma hosted_class d n nc : hosted d -> notificationClass d n = Some nc -> class_ok nc.
Proof.
  intros Hh. unfold notificationClass. destruct (Object d _) as [[|[b|b]]|] eqn:E; try done. intros [= <-]. by destruct (ho_object _ Hh _ _ E).
Qed.

(** Evaluating an object. *)
Lemma evaluateObject_inv d now id evs cs d' ev : evaluateObject d now id = (evs, cs, d') -> ev ∈ evs ->
  exists b b', Object d id = Some (anObject (inl b)) /\ EvaluateEvents now (EventEngine.ackRequired d) b = (evs, cs, b') /\ d' = putObject id (inl b') d.
Proof.
  unfold evaluateObject. destruct (Object d id) as [[|[b|b]]|] eqn:E; try (intros [= <- <- <-] Hin; by apply elem_of_nil in Hin).
  cbn. destruct (EvaluateEvents _ _ b) as [[evs' cs'] b'] eqn:Ev. intros [= <- <- <-] Hin. by exists b, b'.
Qed.

Lemma notificationClass_put d id b b' n : device_ok d -> Object d id = Some (anObject (inl b)) ->
  notificationClass (putObject id (inl b' : ServerObject) d) n = notificationClass d n.
Proof.
  intros Hd Ho. unfold notificationClass. rewrite (Object_put _ _ _ _ _ Hd Ho). case_decide as Heq; [|done]. rewrite Heq, Ho. done.
Qed.

(** ** Runs *)
Lemma hosted_new wall cfg d : NewDevice wall cfg = Ok d -> oid_ok (Identifier d) -> hosted d.
Proof.
  intros Hnew Hid. pose proof (proj1 (NewDevice_ok _ _ _ Hnew)) as Hd. split; [done..|]. intros id o Ho. exfalso.
  apply (Object_table _ _ _ Hd) in Ho as [Ho _]. revert Hnew Ho. unfold NewDevice. destruct (_ >=? _); [done|]. destruct (_ =? 0); [done|].
  cbv zeta. set (b := NewBase _ _ _). intros [= <-]. destruct (defineProperties_view (withDeviceDefaults cfg) b) as (_ & _ & ->).
  change (tb_objects (tablesOf b)) with ({[ mkObjectID ObjectTypeDevice (dc_Instance (withDeviceDefaults cfg)) := @theDevice ServerObject ]} : gmap ObjectIdentifier (entry ServerObject)).
  rewrite lookup_singleton_Some. by intros [_ ?].
Qed.

Lemma served_notifier n o : object_served o -> object_served (SetNotifier n o).
Proof.
  destruct o as [b|b]; cbn.
  - intros (Hr & cm & kind & states & [H1 H2 H3 H4 H5 H6 H7] & Hst). split; [done|]. exists cm, kind, states. by split.
  - by intros [H1 H2 H3 H4].
Qed.

Inductive hosted_step d : Device ServerObject -> Prop :=
| hosted_point id b b' : Object d id = Some (anObject (inl b)) -> point_step b b' -> point_ranges (o_state (b_view b')) -> hosted_step d (putObject id (inl b') d)
| hosted_change id b b' : Object d id = Some (anObject (inr b)) -> class_step b b' -> hosted_step d (putObject id (inr b') d)
| hosted_add o cs d' : object_served o -> oid_ok (Identifier o) -> Add o d = Ok (cs, d') -> hosted_step d d'
| hosted_remove id cs d' : Remove id d = Ok (cs, d') -> hosted_step d d'.

Lemma point_step_identity b b' : point_step b b' -> o_id (b_view b') = o_id (b_view b) /\ o_name (b_view b') = o_name (b_view b).
Proof.
  intros [b1 [w cs b2 H|v cs b2 H|r|state stamp ev cs b2 H]|now ack evs cs b1 H].
  - split; [exact (write_Identifier b w cs b2 H)|exact (write_Name b w cs b2 H)].
  - unfold SetPresentValue in H. apply bind_Ok_inv in H as (u & _ & H). injection H as H. unfold Update in H. repeat case_match; by simplify_eq.
  - unfold SetReliability, Update. repeat case_match; by simplify_eq.
  - unfold AcknowledgeAlarm in H. apply bind_Ok_inv in H as ([[e c] p] & _ & [= _ _ <-]). done.
  - unfold EvaluateEvents in H. destruct (Events.evaluate _ _ _ _) as [[e c] p]. by injection H as _ _ <-.
Qed.

Lemma class_step_identity b b' : class_step b b' -> o_id (b_view b') = o_id (b_view b) /\ o_name (b_view b') = o_name (b_view b).
Proof.
  intros [w cs b1 H|add prop els cs b1 H].
  - split; [exact (write_Identifier b w cs b1 H)|exact (write_Name b w cs b1 H)].
  - unfold changeRecipients in H. repeat case_match; simplify_eq; done.
Qed.

Lemma hosted_step_ok d d' : hosted d -> hosted_step d d' -> hosted d'.
Proof.
  intros Hh [id b b' Ho Hs Hr|id b b' Ho Hs|o cs d1 Hs Hid Ha|id cs d1 Hrem]; pose proof (ho_device _ Hh) as Hd.
  - destruct (point_step_identity _ _ Hs) as [Hi Hn]. eapply hosted_put; [done|exact Ho|done|done|]. split; [done|].
    destruct (ho_object _ Hh _ _ Ho) as [(_ & cm & kind & states & Hb & Hst) _]. exists cm, kind, states. split; [|done].
    eapply object_ok_rtc; [exact Hb|by apply rtc_once].
  - destruct (class_step_identity _ _ Hs) as [Hi Hn]. eapply hosted_put; [done|exact Ho|done|done|].
    destruct (ho_object _ Hh _ _ Ho) as [Hc _]. exact (proj1 (class_step_ok _ _ Hc Hs)).
  - pose proof (table_Add_ok _ _ _ _ Hd Ha) as Hd1. apply Add_inv in Ha as (Ht & _ & _ & _ & _ & _ & Hd'). subst d1. split; [done|apply (ho_own _ Hh)|].
    intros id x Hx. apply (Object_table _ _ _ Hd1) in Hx as [Hx _]. change (tb_objects _) with (<[Identifier o := anObject (SetNotifier true o)]> (tb_objects (tablesOf d))) in Hx.
    apply lookup_insert_Some in Hx as [[<- [= <-]]|[_ Hx]]; [split; [by apply served_notifier|done]|]. apply (ho_object _ Hh). unfold Object.
    destruct (_ && _) eqn:E; [|done]. apply andb_true_iff in E as [E _]. apply Z.eqb_eq in E. by destruct (dk_object _ Hd _ _ Hx).
  - pose proof (Remove_ok _ _ _ _ Hd Hrem) as Hd1. revert Hrem. unfold Remove. cbv zeta. destruct (bool_decide _); [done|].
    destruct (tb_objects (tablesOf d) !! id) as [e|]; [|done]. intros [= _ <-]. split; [done|apply (ho_own _ Hh)|].
    intros i x Hx. apply (Object_table _ _ _ Hd1) in Hx as [Hx _]. change (tb_objects _) with (delete id (tb_objects (tablesOf d))) in Hx.
    apply lookup_delete_Some in Hx as [_ Hx]. apply (ho_object _ Hh). unfold Object.
    destruct (_ && _) eqn:E; [|done]. apply andb_true_iff in E as [E _]. apply Z.eqb_eq in E. by destruct (dk_object _ Hd _ _ Hx).
Qed.

(** In every run the device stays one that hosts well-formed objects. *)
Lemma hosted_run wall cfg d0 d : NewDevice wall cfg = Ok d0 -> oid_ok (Identifier d0) -> rtc hosted_step d0 d -> hosted d.
Proof. intros Hnew Hid Hr. pose proof (hosted_new _ _ _ Hnew Hid) as H0. clear Hnew Hid. induction Hr as [|d d1 d2 Hs Hr IH]; [done|]. apply IH. by eapply hosted_step_ok. Qed.
End Hosted.
