(* ===== verification/EventService.v ===== *)
(** * What the event engine promises

    Reports reach the destinations that the Notification Class routes them to,
    and say what happened; an operator who acknowledges one is heard; the
    summaries a client asks for are exact, also over several answers; no
    change is lost between marking and evaluation. *)

From Stdlib Require Import ZArith Lia.
From stdpp Require Import base list gmap sorting relations.
From S2P Require Import Prelude Value Ids Tags Constructed Writer Codec Apdu Access Address Endpoint Link Bbmd ServerKey Responder ServerPacket Object Discovery Commandable Events Point PointSafety EventDetection Device DeviceSafety DataHandlers PropertyValues CovMultiple ObjectService NotificationClass RecipientList AlarmServices EventInformation EnrollmentSummary NotificationParams EventNotification ServerObjects EventEngine EventNotes EventDelivery Hosted.

(** ** Reports *)
Section Reports.
Context {LT : LocalTime}.
Implicit Types (d : Device ServerObject) (o : ServerObject).


(** A transition whose notifications fit the recipients. *)
Definition reportable lim d ev : Prop :=
  0 <= ev_Transition ev < 3 /\
  forall prio ackR pid, is_u 8 prio -> is_u 32 pid ->
    note_fits (Normalize lim) 0 (noteOf d ev prio ackR pid) /\ elcounts (noteElements (noteOf d ev prio ackR pid)) <= 24.

(** The server may not initiate requests: DeviceCommunicationControl said so,
    and its time is not over. *)
Definition silenced (now : Z) (dcc : dccState) : Prop :=
  d_mode dcc <> EnableDisableEnable /\ match d_until dcc with Some until => now < until | None => True end.
#[export] Instance silenced_dec now dcc : Decision (silenced now dcc).
Proof. unfold silenced. destruct (d_until dcc); apply _. Defined.

Lemma mayInitiate_silenced now dcc : fst (mayInitiate now dcc) = negb (bool_decide (silenced now dcc)).
Proof.
  unfold mayInitiate, current, silenced. destruct dcc as [m u]. cbn [d_mode d_until].
  destruct (decide (m = EnableDisableEnable)) as [->|Hm].
  - rewrite bool_decide_eq_true_2 by done. cbn. rewrite bool_decide_eq_false_2; [done|]. by intros [? _].
  - rewrite (bool_decide_eq_false_2 (m = _)) by done. destruct u as [u|]; cbn [negb andb]; [destruct (Z.ltb_spec now u)|]; cbn [negb fst d_mode].
    + rewrite (bool_decide_eq_false_2 (m = _)), (bool_decide_eq_true_2 (_ /\ _)); done.
    + rewrite (bool_decide_eq_true_2 (EnableDisableEnable = _)), (bool_decide_eq_false_2 (_ /\ _)); [done| |done]. intros [_ ?]. lia.
    + rewrite (bool_decide_eq_false_2 (m = _)), (bool_decide_eq_true_2 (_ /\ _)); done.
Qed.

(** The transition is sent to exactly the destinations that its Notification
    Class has for it at that moment, in their order, with the class's priority
    and its wish for an acknowledgment; nothing is sent while initiation is
    disabled or the class does not exist. *)
Definition delivers d now routes dcc e lim ev : Prop :=
  match Object d (mkObjectID ObjectTypeNotificationClass (ev_NotificationClass ev)) with
  | Some (anObject (inr nc)) =>
      if decide (silenced now dcc) then exists dcc', EventEngine.report d now routes dcc e ev = Ok ([], dcc')
      else exists prio outs dcc', nc_priority (o_state (b_view nc)) !! Z.to_nat (ev_Transition ev) = Some prio /\
        EventEngine.report d now routes dcc e ev = Ok (concat outs, dcc') /\
        Forall2 (delivered d routes e lim ev prio (Z.testbit (nc_ackReq (o_state (b_view nc))) (ev_Transition ev)))
          (filter (takes now (ev_Transition ev)) (recipientsOf nc)) outs
  | _ => EventEngine.report d now routes dcc e ev = Ok ([], dcc)
  end.

Lemma reportable_delivers d now routes dcc e lim ev :
  (forall nc, notificationClass d (ev_NotificationClass ev) = Some nc -> class_ok nc) ->
  note_room lim -> reportable lim d ev -> delivers d now routes dcc e lim ev.
Proof.
  intros Hclass Hroom [Htr Hfit]. unfold delivers, EventEngine.report. pose proof (mayInitiate_silenced now dcc) as Hsil.
  destruct (mayInitiate now dcc) as [may dcc']. cbn [fst] in Hsil. unfold notificationClass in *.
  destruct (Object d _) as [[|[b|nc]]|]; try done. pose proof (ck_state _ (Hclass nc eq_refl)) as [_ Hrec [Hlen Hall] _].
  cbn [notificationClassOf sum_events either Class_events]. destruct (decide (silenced now dcc)) as [Hs|Hs].
  { rewrite bool_decide_eq_true_2 in Hsil by done. subst may. by exists dcc'. }
  rewrite bool_decide_eq_false_2 in Hsil by done. subst may. cbn [negb].
  destruct (lookup_lt_is_Some_2 (nc_priority (o_state (b_view nc))) (Z.to_nat (ev_Transition ev))) as [prio Hp]; [lia|].
  assert (is_u 8 prio) as Hprio by (rewrite Forall_forall in Hall; apply Hall; by eapply list_elem_of_lookup_2).
  unfold Routing, index. replace (ev_Transition ev <? 0) with false by (symmetry; lia). rewrite Hp. cbn [bind].
  rewrite bit_testbit by lia. rewrite (filter_bool (takes now (ev_Transition ev))) by (intros x; apply Active_takes; lia).
  destruct (deliverAll_exact d routes e lim ev prio (Z.testbit (nc_ackReq (o_state (b_view nc))) (ev_Transition ev))
    (filter (takes now (ev_Transition ev)) (recipientsOf nc))) as (outs & Ho & Hout).
  - destruct Hroom as (H1 & H2 & H3). split_and!; try done; lia.
  - intros dest Hdest. apply list_elem_of_filter in Hdest as [_ Hdest]. assert (destination_ok dest) as Hok by (rewrite Forall_forall in Hrec; by apply Hrec).
    destruct (Hfit prio (Z.testbit (nc_ackReq (o_state (b_view nc))) (ev_Transition ev)) (dn_ProcessID dest) Hprio (dok_process _ Hok)) as [Hn Hc24].
    split_and!; try done. destruct Hroom as (H1 & H2 & H3). split_and!; try done. lia.
  - exists prio, outs, dcc'. split_and!; [done| |done]. change (nc_recipients (o_state (b_view nc))) with (recipientsOf nc). by rewrite Ho.
Qed.

Lemma EvaluateEvents_id now ack b evs cs b' : EvaluateEvents now ack b = (evs, cs, b') -> o_id (b_view b') = o_id (b_view b).
Proof. unfold EvaluateEvents. destruct (Events.evaluate _ _ _ _) as [[e c] p]. by intros [= _ _ <-]. Qed.

(** The state of a served point after an evaluation. *)
Lemma evaluated_served now ack b evs cs b' : object_served (inl b) -> EvaluateEvents now ack b = (evs, cs, b') -> object_served (inl b').
Proof.
  intros (Hr & cm & kind & states & Hb & Hst) He. split.
  2:{ exists cm, kind, states. split; [|done]. eapply run_object_ok; [exact Hb|]. eapply pr_eval; [apply pr_start|exact He]. }
  unfold EvaluateEvents in He. destruct (Events.evaluate _ _ _ _) as [[evs' ch] p'] eqn:E. injection He as <- _ <-.
  change (o_state (b_view (putState p' b))) with p'. destruct Hr as [Hr1 Hr2 Hr3].
  assert (pointPresent p' = pointPresent (o_state (b_view b)) /\ pt_reliability p' = pt_reliability (o_state (b_view b)) /\
    forall i', pt_intrinsic p' = Some i' -> exists i, pt_intrinsic (o_state (b_view b)) = Some i /\ in_cfg i' = in_cfg i) as (H1 & H2 & H3).
  { unfold Events.evaluate in E. destruct (pt_intrinsic (o_state (b_view b))) as [i|] eqn:Ei; [|injection E as _ _ <-; split_and!; try done; intros j; by rewrite Ei].
    destruct (negb _) in E; [injection E as _ _ <-; split_and!; try done; intros j Hj; rewrite Ei in Hj; injection Hj as <-; by exists i|].
    cbv zeta in E. destruct (nextEventState _ _ i) as [[to pending] since].
    destruct (_ && _) in E; injection E as _ _ <-; (split_and!; [done|done|]); intros j [= <-]; by exists i. }
  split; [intros l; rewrite H1; apply Hr1|by rewrite H2|]. intros i' Hi'. destruct (H3 i' Hi') as (i & Hi & ->). by apply Hr3.
Qed.

Lemma hosted_evaluated d now id evs cs d' : hosted d -> evaluateObject d now id = (evs, cs, d') -> hosted d'.
Proof.
  unfold evaluateObject. intros Hh. destruct (Object d id) as [[|[b|b]]|] eqn:E; try (by intros [= _ _ <-]).
  cbn. destruct (EvaluateEvents _ _ b) as [[evs' cs'] b'] eqn:Ev. intros [= _ _ <-].
  destruct (ho_object _ Hh _ _ E) as [Hs _]. pose proof (evaluated_served _ _ _ _ _ _ Hs Ev). eapply hosted_put; [done|exact E| | |done].
  - exact (EvaluateEvents_id _ _ _ _ _ _ Ev).
  - unfold EvaluateEvents in Ev. destruct (Events.evaluate _ _ _ _) as [[e c] p]. by injection Ev as _ _ <-.
Qed.

Lemma evaluated_reportable (Hdays : weekdays) lim d now id evs cs d' ev : hosted d -> 8 <= MaxOctetStringLength (Normalize lim) ->
  evaluateObject d now id = (evs, cs, d') -> ev ∈ evs -> reportable lim d' ev.
Proof.
  intros Hh Hm He Hin. destruct (evaluateObject_inv _ _ _ _ _ _ _ He Hin) as (b & b' & Ho & Hev & ->).
  destruct (ho_object _ Hh _ _ Ho) as [(Hr & cm & kind & states & Hb & Hst) Hoid]. destruct (Object_table _ _ _ (ho_device _ Hh) Ho) as [_ Hid].
  pose proof (evaluated_served _ _ _ _ _ _ (proj1 (ho_object _ Hh _ _ Ho)) Hev) as [Hr' _].
  pose proof Hev as Hev'. unfold EvaluateEvents in Hev'. destruct (Events.evaluate _ _ _ _) as [[evs' ch] p'] eqn:E. injection Hev' as -> _ <-.
  destruct (evaluate_reports _ _ _ _ _ _ _ _ E Hin) as (i & i' & _ & _ & _ & _ & _ & _ & _ & _ & _ & _ & _ & _ & Htr & (x & Hpar & _) & _).
  split; [rewrite Htr; pose proof (transitionOf_range (ev_To ev)); lia|]. intros prio ackR pid Hprio Hpid. split.
  - eapply (noteOf_fits Hdays); try done; [apply Normalize_positive|change (oid_ok (Identifier (inl b : ServerObject))); by rewrite Hid|apply (ho_own _ Hh)].
  - apply elcounts_noteOf. rewrite Hpar. by apply elcounts_paramsOf.
Qed.



(** The event values of a report are what a client reads from the point then:
    its Present_Value and Status_Flags; with its deadband and the limit of the
    state that is entered, or left for NORMAL, or with its reliability. *)
Definition measured (b : Base pointState) ev : Prop :=
  exists i v f, pt_intrinsic (o_state (b_view b)) = Some i /\
    ReadProperty b (wholeRef PropertyPresentValue) = Ok v /\ ReadProperty b (wholeRef PropertyStatusFlags) = Ok f /\
    match ev_Params ev with
    | Some (outOfRange exceeding flags deadband limit) =>
        ev_EventType ev = EventTypeOutOfRange /\ exceeding = av_Real v /\ flags = av_BitString f /\ deadband = ec_Deadband (in_cfg i) /\
        limit = limitOf (in_cfg i) (if decide (ev_To ev = EventStateNormal) then ev_From ev else ev_To ev)
    | Some (changeOfState _ w flags) => ev_EventType ev = EventTypeChangeOfState /\ w = v /\ flags = av_BitString f
    | Some (changeOfReliability els) =>
        map wireElement els = [unsignedElement 0 (currentReliability (o_state (b_view b))); bitsElement 1 (av_BitString f);
          constructedElement 2 [unsignedElement 0 PropertyPresentValue; constructedElement 2 [appItem v]]]
    | None => False
    end.

Lemma evaluated_measured now ack b evs cs b' ev : object_served (inl b) -> EvaluateEvents now ack b = (evs, cs, b') -> ev ∈ evs -> measured b' ev.
Proof.
  intros Hs Hev Hin. destruct (evaluated_served _ _ _ _ _ _ Hs Hev) as (Hr & cm & kind & states & Hb & _).
  destruct (object_ok_reads _ _ _ _ Hb) as (R1 & _ & R3). unfold EvaluateEvents in Hev.
  destruct (Events.evaluate _ _ _ _) as [[evs' ch] p'] eqn:E. injection Hev as -> _ <-. change (o_state (b_view (putState p' b))) with p' in *.
  destruct (evaluate_values _ _ _ _ _ _ _ _ E Hin) as (i & Hi & Hv). exists i, (pointPresent p'), (pointStatusFlags p').
  change (o_state (b_view (putState p' b))) with p'. split_and!; try done. rewrite Hv.
  destruct (reliability_params p' Hr) as (els & -> & _ & Hels).
  destruct (_ =? EventTypeOutOfRange) eqn:E1; [by bool_to_prop|]. destruct (_ =? EventTypeChangeOfState) eqn:E2; [by bool_to_prop|exact Hels].
Qed.

(** C17. What event detection finds reaches the recipients. Whenever the
    evaluation of an object of the device reports a transition, its event
    values are what the object reads then, and the transition is sent to
    exactly the destinations of its Notification Class that take it at that
    moment, in their order. A device whose address is unknown gets a Who-Is
    instead; a station of a network without a known router is looked for, and
    gets an unconfirmed notification by a local broadcast; a confirmed
    notification is never broadcast; an address that names no station gets
    nothing. All others are sent the notification at their address, and every
    recipient that decodes what it was sent reads the transition under its
    own process identifier: device, object, time, class, priority, states,
    event values and whether an acknowledgment is wanted. Nothing is sent
    while DeviceCommunicationControl disables initiation or when the class
    does not exist. *)
Theorem event_notification_delivered (Hdays : weekdays) lim d now id evs cs d' ev : hosted d ->
  note_room lim -> evaluateObject d now id = (evs, cs, d') -> ev ∈ evs ->
  (exists b', Object d' id = Some (anObject (inl b')) /\ measured b' ev) /\
  forall now' routes dcc e, delivers d' now' routes dcc e lim ev.
Proof.
  intros Hh Hroom He Hin. split.
  { destruct (evaluateObject_inv _ _ _ _ _ _ _ He Hin) as (b & b' & Ho & Hev & ->). exists b'. split.
    - rewrite (Object_put _ _ _ _ _ (ho_device _ Hh) Ho). by rewrite decide_True.
    - eapply evaluated_measured; [exact (proj1 (ho_object _ Hh _ _ Ho))|exact Hev|exact Hin]. }
  intros now' routes dcc e. apply reportable_delivers; [|done|].
  - intros nc Hnc. eapply hosted_class; [|done]. by eapply hosted_evaluated.
  - eapply (evaluated_reportable Hdays); [done|apply Hroom|done|done].
Qed.

End Reports.
