(* ===== verification/EventSummaries.v ===== *)
(** * What the event services answer

    The summaries of alarms, enrollments and events hold exactly the objects
    they should, as the client decodes them; event information that does not
    fit one answer is collected completely by asking on after the last object
    received. *)

From Stdlib Require Import ZArith Lia Sorted.
From stdpp Require Import base list gmap sorting relations.
From S2P Require Import Prelude Value Ids Tags Constructed Writer Codec Apdu Access Address Endpoint Link Bbmd ServerKey Responder ServerPacket Object Discovery Commandable Events Point PointSafety EventDetection Device DeviceSafety DataHandlers PropertyValues CovMultiple ObjectService NotificationClass RecipientList AlarmServices EventInformation EnrollmentSummary NotificationParams EventNotification ServerObjects EventEngine EventNotes Hosted EventService.

(** ** The parts of a summary *)
Lemma transitionBits_cases mask : exists x, In x [0; 32; 64; 96; 128; 160; 192; 224] /\ transitionBits mask = mkBitString 5 [x].
Proof.
  unfold transitionBits. change (seqZ 0 3) with [0; 1; 2]. cbn [fold_left].
  destruct (bit mask (Z.shiftl 1 0)), (bit mask (Z.shiftl 1 1)), (bit mask (Z.shiftl 1 2)); eexists; (split; [|reflexivity]); vm_compute; tauto.
Qed.

Lemma transitionBits_typed mask : bs_typed (transitionBits mask) /\ len (bs_Bytes (transitionBits mask)) = 1.
Proof.
  destruct (transitionBits_cases mask) as (x & Hx & ->). split; [|done]. unfold bs_typed, is_u. cbn.
  split_and!; [lia|lia|done|]. apply Forall_singleton. unfold is_u. cbn in Hx. lia.
Qed.

(** An object in the ranges of what it reports. *)
Record info_ok (i : EventInfo) : Prop := {
  io_object : oid_ok (ei_Object i);
  io_type : is_u 32 (ei_EventType i);
  io_state : is_u 32 (ei_EventState i);
  io_notify : is_u 32 (ei_NotifyType i);
  io_class : is_u 32 (ei_NotificationClass i);
  io_stamps : length (ei_TimeStamps i) = 3%nat
}.

Lemma NoDup_omap {A B} (f : A -> option B) (g : B -> A) l : NoDup l -> (forall a b, f a = Some b -> g b = a) -> NoDup (map g (omap f l)).
Proof.
  intros Hl Hf. induction Hl as [|a l Hni Hl IH]; [constructor|]. cbn [omap list_omap]. destruct (f a) as [b|] eqn:E; [|done].
  cbn [map]. constructor; [|done]. rewrite (Hf _ _ E). intros (b' & Hb & Hin)%list_elem_of_fmap. apply list_elem_of_omap in Hin as (a' & Ha' & Hb').
  apply Hf in Hb'. congruence.
Qed.

Section Infos.
Context {LT : LocalTime}.
Implicit Types (d : Device ServerObject) (i : EventInfo).

(** The event states of the device, in the order of its object list: each
    reporting object once. *)
Lemma eventInfos_spec d : hosted d ->
  (forall i, i ∈ eventInfos d <-> exists b, Object d (ei_Object i) = Some (anObject (inl b : ServerObject)) /\ EventInfoOf b = Some i) /\
  NoDup (map ei_Object (eventInfos d)).
Proof.
  intros Hh. pose proof (ho_device _ Hh) as Hd. destruct (objectIdentifiers_spec _ _ (dk_own _ Hd)) as (Hnd & _ & Hin).
  assert (forall id i, match Object d id with Some (anObject o) => if reporter o then reporterInfo o else None | _ => None end = Some i ->
    ei_Object i = id /\ exists b, Object d id = Some (anObject (inl b : ServerObject)) /\ EventInfoOf b = Some i) as Hi.
  { intros id i. destruct (Object d id) as [[|[b|b]]|] eqn:E; try done. cbn. intros H. destruct (Object_table _ _ _ Hd E) as [_ Hid].
    split; [|by exists b]. rewrite <- Hid. by apply (info_Object (inl b : ServerObject)). }
  unfold eventInfos. split.
  - intros i. rewrite list_elem_of_omap. split.
    + intros (id & _ & [-> (b & Ho & Hb)]%Hi). by exists b.
    + intros (b & Ho & Hb). exists (ei_Object i). split.
      * apply Hin. destruct (Object_table _ _ _ Hd Ho) as [Ht _]. by eexists.
      * rewrite Ho. exact Hb.
  - apply NoDup_omap; [done|]. intros id i H. by apply Hi.
Qed.

Lemma eventInfos_ok d i : hosted d -> i ∈ eventInfos d -> info_ok i.
Proof.
  intros Hh Hi. apply (proj1 (eventInfos_spec d Hh)) in Hi as (b & Ho & Hb). destruct (ho_object _ Hh _ _ Ho) as [(Hr & cm & kind & states & Hok & _) Hoid].
  unfold EventInfoOf in Hb. destruct (pt_intrinsic _) as [j|] eqn:Ej; [|done]. pose proof (ok_events _ _ (ob_point _ _ _ _ Hok)) as He.
  unfold events_ok in He. rewrite Ej in He. destruct He as (Hs%event_state_range & _ & Hl & _). destruct (pr_config _ Hr _ Ej) as [Hc Hn _ _ _].
  injection Hb as <-. split; try done. cbn [ei_EventType]. unfold eventType. destruct (_ =? _); [done|]. by destruct (bool_decide _).
Qed.

Lemma priorities_ok d class : hosted d -> length (priorities d class) = 3%nat /\ Forall (is_u 8) (priorities d class).
Proof.
  intros Hh. unfold priorities. destruct (notificationClass d class) as [nc|] eqn:E.
  - apply (so_priority _ (ck_state _ (hosted_class _ _ _ Hh E))).
  - split; [done|]. change (bytes_ok [255; 255; 255]). solve_bytes.
Qed.

(** ** Alarm summaries and enrollment summaries *)

(** The Notification Class of a number. *)
Definition classNumbered d (n : Z) : option (Base classState) :=
  match Object d (mkObjectID ObjectTypeNotificationClass n) with Some (anObject (inr nc)) => Some nc | _ => None end.

(** The priority that the class of an object gives its event state; 255
    without a class. *)
Definition summaryPriority d i : Z :=
  match classNumbered d (ei_NotificationClass i) with
  | Some nc =>
      nth (if decide (ei_EventState i = EventStateNormal) then 2 else if decide (ei_EventState i = EventStateFault) then 1 else 0)%nat
        (nc_priority (o_state (b_view nc))) 0
  | None => 255
  end.

(** The recipient process of the filter is one of the destinations of the
    object's class: the same device, or the same network and MAC. *)
Definition enrolledFor d (f : RecipientProcess) i : Prop :=
  exists nc dest, classNumbered d (ei_NotificationClass i) = Some nc /\ dest ∈ recipientsOf nc /\ dn_ProcessID dest = rpr_ProcessIdentifier f /\
    match ar_Device (rpr_Recipient f), ar_Address (rpr_Recipient f) with
    | Some id, _ => dn_Device dest = Some id
    | None, Some a => dn_Device dest = None /\ dn_Network dest = aud_Network a /\ dn_MAC dest = aud_MAC a
    | None, None => dn_Device dest = None /\ dn_Network dest = 0 /\ dn_MAC dest = []
    end.

(** What an enrollment summary request selects: all filters it has pass.
    Acknowledged means all three transitions are. *)
Record passes d (r : GetEnrollmentSummaryRequest) i : Prop := {
  ps_enrollment : forall f, gr_EnrollmentFilter r = Some f -> enrolledFor d f i;
  ps_acked : gr_AcknowledgmentFilter r = 1 -> ei_Acked i = 7;
  ps_notAcked : gr_AcknowledgmentFilter r = 2 -> ei_Acked i <> 7;
  ps_offnormal : gr_EventStateFilter r = Some 0 -> ei_EventState i <> EventStateNormal /\ ei_EventState i <> EventStateFault;
  ps_fault : gr_EventStateFilter r = Some 1 -> ei_EventState i = EventStateFault;
  ps_normal : gr_EventStateFilter r = Some 2 -> ei_EventState i = EventStateNormal;
  ps_active : gr_EventStateFilter r = Some 4 -> ei_EventState i <> EventStateNormal;
  ps_type : forall t, gr_EventTypeFilter r = Some t -> ei_EventType i = t;
  ps_priority : forall lo hi, gr_PriorityFilter r = Some (lo, hi) -> lo <= summaryPriority d i <= hi;
  ps_class : forall c, gr_NotificationClassFilter r = Some c -> ei_NotificationClass i = c
}.

(** The tests of the code. *)
Definition priorityOf d i : Z := nth (Z.to_nat (transitionOf (ei_EventState i))) (priorities d (ei_NotificationClass i)) 0.
Definition passesTest d (r : GetEnrollmentSummaryRequest) (i : EventInfo) : bool :=
  enrolled d r i && acknowledgedAs (gr_AcknowledgmentFilter r) i && inFilter (gr_EventStateFilter r) (fun f => eventStateMatches f (ei_EventState i)) &&
  inFilter (gr_EventTypeFilter r) (fun f => f =? ei_EventType i) &&
  inFilter (gr_PriorityFilter r) (fun '(lo, hi) => (lo <=? priorityOf d i) && (priorityOf d i <=? hi)) &&
  inFilter (gr_NotificationClassFilter r) (fun c => c =? ei_NotificationClass i).

Lemma notificationClass_numbered d n : notificationClass d n = classNumbered d n.
Proof. unfold notificationClass, classNumbered. by destruct (Object d _) as [[|[b|b]]|]. Qed.

Lemma priorityOf_summary d i : hosted d -> priorityOf d i = summaryPriority d i.
Proof.
  intros Hh. unfold priorityOf, summaryPriority, priorities. rewrite notificationClass_numbered. unfold transitionOf, TransitionToNormal, TransitionToFault, TransitionToOffNormal.
  destruct (Z.eqb_spec (ei_EventState i) EventStateNormal) as [->|H1]; [|destruct (Z.eqb_spec (ei_EventState i) EventStateFault) as [->|H2]];
    rewrite ?decide_True, ?decide_False by done; by destruct (classNumbered d _).
Qed.

Lemma HasRecipient_spec nc f :
  HasRecipient (enrolledDestination f) nc = true <-> exists dest, dest ∈ recipientsOf nc /\ dn_ProcessID dest = rpr_ProcessIdentifier f /\
    match ar_Device (rpr_Recipient f), ar_Address (rpr_Recipient f) with
    | Some id, _ => dn_Device dest = Some id
    | None, Some a => dn_Device dest = None /\ dn_Network dest = aud_Network a /\ dn_MAC dest = aud_MAC a
    | None, None => dn_Device dest = None /\ dn_Network dest = 0 /\ dn_MAC dest = []
    end.
Proof.
  unfold HasRecipient. rewrite existsb_exists. apply exist_proper. intros dest. unfold recipientsOf. rewrite <- list_elem_of_In.
  apply and_iff_compat_l. unfold sameRecipientProcess, enrolledDestination. cbn [dn_ProcessID dn_Device dn_Network dn_MAC].
  destruct (Z.eqb_spec (dn_ProcessID dest) (rpr_ProcessIdentifier f)) as [->|Hne]; cbn [negb]; [|by split; [|intros [? _]]].
  destruct (dn_Device dest) as [a|], (ar_Device (rpr_Recipient f)) as [b|], (ar_Address (rpr_Recipient f)) as [u|];
    rewrite ?andb_true_iff, ?Z.eqb_eq, ?bool_decide_eq_true; naive_solver.
Qed.

Lemma enrolled_spec d r i : enrolled d r i = true <-> forall f, gr_EnrollmentFilter r = Some f -> enrolledFor d f i.
Proof.
  unfold enrolled. destruct (gr_EnrollmentFilter r) as [f|]; cbn [inFilter]; [|by split].
  rewrite notificationClass_numbered. unfold enrolledFor. destruct (classNumbered d _) as [nc|].
  - rewrite HasRecipient_spec. split.
    + intros (dest & Hd & Hp & Hm) f' [= <-]. by exists nc, dest.
    + intros H. destruct (H f eq_refl) as (nc' & dest & [= <-] & Hd & Hp & Hm). by exists dest.
  - split; [done|]. intros H. by destruct (H f eq_refl) as (nc' & dest & ? & _).
Qed.

Lemma inFilter_spec {A} (f : option A) (test : A -> bool) : inFilter f test = true <-> forall a, f = Some a -> test a = true.
Proof. destruct f as [a|]; cbn; [|by split]. split; [by intros H a' [= <-]|intros H; by apply H]. Qed.

Lemma stateFilter_spec f state : inFilter f (fun f => eventStateMatches f state) = true <->
  (f = Some 0 -> state <> EventStateNormal /\ state <> EventStateFault) /\ (f = Some 1 -> state = EventStateFault) /\
  (f = Some 2 -> state = EventStateNormal) /\ (f = Some 4 -> state <> EventStateNormal).
Proof.
  rewrite inFilter_spec. split.
  - intros H. split_and!; intros ->; specialize (H _ eq_refl); cbn in H; bool_to_prop; done.
  - intros (H0 & H1 & H2 & H4) a ->. unfold eventStateMatches.
    destruct (Z.eqb_spec a 0) as [->|]; [destruct (H0 eq_refl) as [Ha%Z.eqb_neq Hb%Z.eqb_neq]; by rewrite Ha, Hb|].
    destruct (Z.eqb_spec a 1) as [->|]; [by apply Z.eqb_eq, H1|]. destruct (Z.eqb_spec a 2) as [->|]; [by apply Z.eqb_eq, H2|].
    destruct (Z.eqb_spec a 4) as [->|]; [|done]. specialize (H4 eq_refl). apply Z.eqb_neq in H4. by rewrite H4.
Qed.

Lemma acknowledgedAs_spec filter i : acknowledgedAs filter i = true <-> (filter = 1 -> ei_Acked i = 7) /\ (filter = 2 -> ei_Acked i <> 7).
Proof.
  unfold acknowledgedAs. destruct (Z.eqb_spec filter 1) as [->|]; [rewrite Z.eqb_eq; by split; [intros; split|intros [H _]; apply H]|].
  destruct (Z.eqb_spec filter 2) as [->|]; [|by split]. rewrite negb_true_iff, Z.eqb_neq. split; [by intros; split|by intros [_ H]; apply H].
Qed.

Lemma passesTest_spec d r i : hosted d -> passesTest d r i = true <-> passes d r i.
Proof.
  intros Hh. unfold passesTest. rewrite !andb_true_iff, enrolled_spec, acknowledgedAs_spec, stateFilter_spec, !inFilter_spec, priorityOf_summary by done.
  split.
  - intros (((((H1 & H2 & H3) & H4 & H5 & H6 & H7) & H8) & H9) & H10). split; try done.
    + intros t Ht. symmetry. by apply Z.eqb_eq, H8.
    + intros lo hi Hp. specialize (H9 _ Hp). cbn in H9. bool_to_prop. lia.
    + intros c Hc. symmetry. by apply Z.eqb_eq, H10.
  - intros [H1 H2 H3 H4 H5 H6 H7 H8 H9 H10]. split_and!; try done.
    + intros t Ht. apply Z.eqb_eq. symmetry. by apply H8.
    + intros [lo hi] Hp. specialize (H9 _ _ Hp). apply andb_true_iff. rewrite !Z.leb_le. lia.
    + intros c Hc. apply Z.eqb_eq. symmetry. by apply H10.
Qed.

Lemma priorityOf_index d i : hosted d -> index (priorities d (ei_NotificationClass i)) (transitionOf (ei_EventState i)) = Ok (priorityOf d i) /\ is_u 8 (priorityOf d i).
Proof.
  intros Hh. destruct (priorities_ok d (ei_NotificationClass i) Hh) as [Hl Hp]. pose proof (transitionOf_range (ei_EventState i)) as Ht.
  destruct (lookup_lt_is_Some_2 (priorities d (ei_NotificationClass i)) (Z.to_nat (transitionOf (ei_EventState i)))) as [p Hx]; [lia|].
  assert (priorityOf d i = p) as -> by (unfold priorityOf; by apply nth_lookup_Some). split.
  - unfold index. replace (_ <? 0) with false by (symmetry; lia). by rewrite Hx.
  - rewrite Forall_forall in Hp. apply Hp. by eapply list_elem_of_lookup_2.
Qed.

Lemma enrollmentEntries_exact d r infos : hosted d ->
  enrollmentEntries d r infos = Ok (map (fun i => enrollmentOf i (priorityOf d i)) (List.filter (passesTest d r) infos)).
Proof.
  intros Hh. induction infos as [|i infos IH]; [done|]. cbn [enrollmentEntries List.filter]. destruct (priorityOf_index d i Hh) as [Hp _]. rewrite Hp, IH.
  assert (selects r i (priorityOf d i) = inFilter (gr_PriorityFilter r) (fun '(lo, hi) => (lo <=? priorityOf d i) && (priorityOf d i <=? hi)) &&
    inFilter (gr_NotificationClassFilter r) (fun c => c =? ei_NotificationClass i)) as Hsel.
  { unfold selects. f_equal. destruct (gr_PriorityFilter r) as [[lo hi]|]; [|done]. cbn. rewrite Z.gtb_ltb, negb_orb, <- !Z.leb_antisym. done. }
  unfold passesTest. rewrite <- (andb_assoc _ _ (inFilter (gr_NotificationClassFilter r) _)), <- Hsel.
  destruct (enrolled d r i && _ && _ && _); cbn [negb andb]; [|done]. cbn [bind]. by destruct (selects _ _ _).
Qed.

(** The acknowledged transitions of a summary, as three bits. *)
Definition alarmOf i (s : AlarmSummaryEntry) : Prop :=
  as_Object s = ei_Object i /\ as_AlarmState s = ei_EventState i /\ bs_UnusedBits (as_AckedTransitions s) = 5 /\
  forall n, 0 <= n < 3 -> valueBit (bitStringValue (as_AckedTransitions s)) n = Z.testbit (ei_Acked i) n.

Lemma transitionBits_bit mask n : 0 <= n < 3 -> valueBit (bitStringValue (transitionBits mask)) n = Z.testbit mask n.
Proof.
  intros Hn. unfold transitionBits. change (seqZ 0 3) with [0; 1; 2]. cbn [fold_left]. rewrite !bit_testbit by lia.
  assert (n = 0 \/ n = 1 \/ n = 2) as [-> | [-> | ->]] by lia; by destruct (Z.testbit mask 0), (Z.testbit mask 1), (Z.testbit mask 2).
Qed.

Lemma alarms_of l : Forall2 alarmOf l (map alarmSummaryOf l).
Proof.
  induction l as [|i l IH]; [constructor|]. cbn [map]. constructor; [|done]. split_and!; try done. intros n Hn. by apply transitionBits_bit.
Qed.

Lemma eventInfos_order d : hosted d -> sublist (map ei_Object (eventInfos d)) (objectIdentifiers (Identifier d) (tablesOf d)).
Proof.
  intros Hh. unfold eventInfos. induction (objectIdentifiers _ _) as [|id ids IH]; [done|]. cbn [omap list_omap].
  destruct (match Object d id with Some _ => _ | None => _ end) as [i|] eqn:E; [|by apply sublist_cons]. cbn [map].
  assert (ei_Object i = id) as ->; [|by apply sublist_skip].
  destruct (Object d id) as [[|[b|b]]|] eqn:Eo; try done. cbn in E. destruct (Object_table _ _ _ (ho_device _ Hh) Eo) as [_ Hid].
  rewrite <- Hid. by apply (info_Object (inl b : ServerObject)).
Qed.

(** C20. The summaries are exact. The objects they are about are the reporting
    objects of the device, each once and in the order of Object_List.
    GetAlarmSummary answers, as the client decodes it, exactly those of notify
    type ALARM that are not in NORMAL, with their state and acknowledged
    transitions. GetEnrollmentSummary answers exactly those that pass all the
    filters of the request, with their event type, state and class and the
    priority that the class gives their state; it never fails or panics. *)
Theorem event_summaries_exact cfg lim d (req : GetEnrollmentSummaryRequest) : hosted d -> fits (sc_limits cfg) req ->
  8 <= MaxBitStringBits (Normalize lim) -> Codec.room lim 0 (5 * len (eventInfos d)) ->
  ((forall i, i ∈ eventInfos d <-> exists b, Object d (ei_Object i) = Some (anObject (inl b : ServerObject)) /\ EventInfoOf b = Some i) /\
   NoDup (map ei_Object (eventInfos d)) /\
   exists ids, ReadProperty d (wholeRef PropertyObjectList) = Ok (constructedValue (map (fun id => item (ObjectIDValue id)) ids)) /\
     sublist (map ei_Object (eventInfos d)) ids) /\
  (exists payload summaries, getAlarmSummary cfg d [] = complexACK payload /\ DecodeGetAlarmSummaryACK payload lim = Ok summaries /\
    Forall2 alarmOf (List.filter (fun i => negb (ei_EventState i =? EventStateNormal) && (ei_NotifyType i =? NotifyAlarm)) (eventInfos d)) summaries) /\
  exists question answer selected, EncodeGetEnrollmentSummary req = Ok question /\ getEnrollmentSummary cfg d question = Ok (complexACK answer) /\
    sublist selected (eventInfos d) /\ (forall i, i ∈ selected <-> i ∈ eventInfos d /\ passes d req i) /\
    DecodeGetEnrollmentSummaryACK answer lim =
      Ok (map (fun i => mkEnrollment (ei_Object i) (ei_EventType i) (ei_EventState i) (summaryPriority d i) (ei_NotificationClass i) false) selected).
Proof.
  intros Hh Hreq Hbits (Hm & Hdep & Hel). fold inAlarm. destruct (eventInfos_spec d Hh) as [Hin Hnd]. split.
  { split; [done|]. split; [done|]. eexists. split; [by apply read_objectList, ho_device|by apply eventInfos_order]. }
  assert (forall f i, In i (List.filter f (eventInfos d)) -> info_ok i) as Hok.
  { intros f i [Hi%list_elem_of_In _]%filter_In. by eapply eventInfos_ok. }
  assert (forall f, len (List.filter f (eventInfos d)) <= len (eventInfos d)) as Hlen by (intros f; unfold len; pose proof (filter_length_le f (eventInfos d)); lia).
  pose proof (len_nonneg (eventInfos d)) as Hpos. split.
  - destruct (decode_encode lim (map alarmSummaryOf (List.filter inAlarm (eventInfos d)))) as (bs & He & _ & Hd).
    + split; [|pose proof (Hlen inAlarm) as Hl; unfold Codec.room, len in *; rewrite length_map; split_and!; [done|done|lia]].
      apply Forall_forall. intros s (i & -> & Hi%list_elem_of_In%Hok)%list_elem_of_fmap. destruct Hi as [H1 _ H2 _ _ _]. split_and!; [done..|].
      unfold alarmSummaryOf. cbn [as_AckedTransitions]. destruct (transitionBits_cases (ei_Acked i)) as (x & Hx & ->).
      apply ap_bits; [lia|done|apply Forall_singleton; unfold is_u; cbn in Hx; lia|done|exact Hbits].
    + exists bs, (map alarmSummaryOf (List.filter inAlarm (eventInfos d))). unfold getAlarmSummary, replyWith. cbn [encode decode GetAlarmSummaryACK_Codec] in He, Hd.
      change (DecodeGetAlarmSummary [] _) with (@Ok unit tt). cbv iota. rewrite He. split; [done|]. split; [done|].
      apply alarms_of.
  - destruct (decode_encode (sc_limits cfg) req Hreq) as (question & Hq & _ & Hdq). cbn [encode decode GetEnrollmentSummary_Codec] in Hq, Hdq.
    set (selected := List.filter (passesTest d req) (eventInfos d)).
    destruct (decode_encode lim (map (fun i => enrollmentOf i (priorityOf d i)) selected)) as (bs & He & _ & Hd).
    + split; [|pose proof (Hlen (passesTest d req)) as Hl; unfold Codec.room, len in *; rewrite length_map; subst selected; split_and!; try done; lia].
      apply Forall_forall. intros s (i & -> & Hi%list_elem_of_In%Hok)%list_elem_of_fmap. destruct Hi as [H1 H2 H3 _ H4 _].
      pose proof (proj2 (priorityOf_index d i Hh)). by split_and!.
    + exists question, bs, selected. split; [done|]. unfold getEnrollmentSummary. rewrite Hdq, enrollmentEntries_exact by done. cbn [bind].
      unfold replyWith. cbn [encode decode GetEnrollmentSummaryACK_Codec] in He, Hd. fold selected. rewrite He. split; [done|].
      split; [apply sublist_filter_list|]. split.
      * intros i. unfold selected. rewrite list_elem_of_In, filter_In, <- list_elem_of_In, passesTest_spec by done. done.
      * rewrite Hd. f_equal. apply map_ext. intros i. unfold enrollmentOf. by rewrite priorityOf_summary.
Qed.
End Infos.
