(* ===== verification/EventPages.v ===== *)
(** * Event information, page by page

    A client collects the event information of a device by asking on after
    the last object it received until no more events are announced; it gets
    the summary of every object that needs attention, once, in order. *)

From Stdlib Require Import ZArith Lia.
From stdpp Require Import base list gmap.
From S2P Require Import Prelude Value Ids Tags Constructed Writer Codec Apdu Access Responder ServerPacket Object Discovery Commandable Events Point PointSafety EventDetection Device DeviceSafety DataHandlers PropertyValues NotificationClass RecipientList AlarmServices EventInformation NotificationParams EventNotification ServerObjects EventEngine EventNotes Hosted EventService EventSummaries.

Section Pages.
Context {LT : LocalTime} (Hdays : weekdays).
Implicit Types (d : Device ServerObject) (i : EventInfo).

(** ** Summaries *)
Lemma stampOf_ok t : stamp_ok (stampOf t).
Proof using Hdays.
  unfold stampOf. destruct (t =? 0); [|by apply stamp_now_ok]. unfold stamp_ok, date_typed, time_typed, byte4, is_byte. cbn. unfold is_u. lia.
Qed.

Lemma stampOfInfo_ok t : stampOfInfo t = Ok (stampElement (stampOf t)).
Proof using Hdays.
  destruct (ParseSequence_writes DefaultDecodeLimits 1 (fun dst => appendTimeStamp dst (stampOf t)) [stampElement (stampOf t)]) as (bs & Hf & _ & Hp).
  - apply writes_stamp; [apply Normalize_positive|by vm_compute|apply stampOf_ok].
  - by vm_compute.
  - pose proof (elcount_stamp (stampOf t)) as He. rewrite elcounts_cons. change (elcounts []) with 0.
    etrans; [|instantiate (1 := 3); by vm_compute]. lia.
  - unfold stampOfInfo, EncodeTimeStamp, newBuffer. rewrite Hf. cbn [app]. by rewrite Hp.
Qed.

Lemma stampElements_ok stamps : stampElements stamps = Ok (map (fun t => stampElement (stampOf t)) stamps).
Proof using Hdays. induction stamps as [|t stamps IH]; [done|]. cbn [stampElements]. rewrite stampOfInfo_ok, IH. done. Qed.

Lemma wire_stamp lim ts : 8 <= MaxOctetStringLength lim -> stamp_ok ts -> wire_at lim 12 1 (stampElement ts).
Proof using Type.
  intros Hm Hts. destruct ts as [t|n|dt t]; cbn [stampElement].
  - apply wire_context; [done..| |]; destruct Hts as (H1 & H2 & H3 & H4); [repeat (apply List.Forall_cons; [done|]); done|done].
  - by apply wire_unsigned.
  - destruct Hts as [H1 H2]. apply wire_constructedElement; [done|]. apply List.Forall_cons; [|apply Forall_singleton].
    + left. exists 10, (dateValue dt). split_and!; try done; by apply byte4_date.
    + left. exists 11, (timeValue t). split_and!; try done; by apply byte4_time.
Qed.

(** The summary of an object as the client decodes it. *)
Definition summaryOf d i : EventSummary :=
  mkEventSummary (ei_Object i) (ei_EventState i) (transitionBits (ei_Acked i)) (constructedValue (map (fun t => stampElement (stampOf t)) (ei_TimeStamps i)))
    (ei_NotifyType i) (transitionBits (ei_EventEnable i)) (constructedValue (map (fun p => appItem (UnsignedValue p)) (priorities d (ei_NotificationClass i)))).

(** Two summaries that are encoded alike. *)
Definition sameSummary (s s' : EventSummary) : Prop := forall dst, appendEventSummary dst s = appendEventSummary dst s'.
Lemma eventSummaryOf_ok d i : exists s, eventSummaryOf d i = Ok s /\ sameSummary s (summaryOf d i).
Proof using Hdays.
  unfold eventSummaryOf. rewrite stampElements_ok. cbn [bind]. eexists. split; [reflexivity|]. intros dst. unfold appendEventSummary, newBuffer. f_equal.
  unfold encodeEventSummary, summaryOf.
  cbn [es_Object es_EventState es_AcknowledgedTransitions es_EventTimeStamps es_NotifyType es_EventEnable es_EventPriorities av_Kind av_Elements constructedValue].
  assert (forall dst, AppendContextTagged dst 6 (map (fun p => item (UnsignedValue p)) (priorities d (ei_NotificationClass i))) =
    AppendContextTagged dst 6 (map (fun p => appItem (UnsignedValue p)) (priorities d (ei_NotificationClass i)))) as Heq.
  { intros dst'. unfold AppendContextTagged. change (if 6 =? tagNumberReserved then ?x else ?y) with y. f_equal. generalize (appendContextOpenClose dst' 6 true).
    induction (priorities d (ei_NotificationClass i)) as [|p ps IH]; intros b; [done|]. cbn [map foldAppend].
    change (AppendTag b (item (UnsignedValue p))) with (AppendTag b (appItem (UnsignedValue p))). destruct (AppendTag b _); [apply IH|done]. }
  rewrite !kind_same.
  destruct (AppendContextObjectID _ _ _); [|done]. cbn [bind]. destruct (AppendContextUnsigned _ _ _); [|done]. cbn [bind].
  destruct (AppendContextBitString _ _ _); [|done]. cbn [bind]. destruct (AppendContextTagged _ 3 _); [|done]. cbn [bind].
  destruct (AppendContextUnsigned _ _ _); [|done]. cbn [bind]. destruct (AppendContextBitString _ _ _); [|done]. cbn [bind]. apply Heq.
Qed.

Lemma encode_same l l' more : Forall2 sameSummary l l' ->
  EncodeGetEventInformationACK (mkEventInformationACK l more) = EncodeGetEventInformationACK (mkEventInformationACK l' more).
Proof using Type.
  intros H. unfold EncodeGetEventInformationACK, newBuffer, appendInline. cbn [ei_Summaries ei_MoreEvents]. f_equal. f_equal.
  generalize ([] ++ [0x0E] : bytes). induction H as [|s s' l l' Hs H IH]; intros dst; [done|]. cbn [foldAppend]. rewrite Hs.
  destruct (appendEventSummary dst s'); [apply IH|done].
Qed.

(** ** What is left after an object *)
Fixpoint after (last : option ObjectIdentifier) (infos : list EventInfo) : list EventInfo :=
  match last, infos with
  | None, _ => infos
  | Some _, [] => []
  | Some id, i :: infos => if bool_decide (ei_Object i = id) then infos else after last infos
  end.
(** The summaries a client should get that has received everything up to
    [last]. *)
Definition wanted d (last : option ObjectIdentifier) : list EventSummary := map (summaryOf d) (List.filter needsAttention (after last (eventInfos d))).

Lemma summariesAfter_exact d last infos : exists l, summariesAfter d last infos = Ok l /\
  Forall2 sameSummary l (map (summaryOf d) (List.filter needsAttention (after last infos))).
Proof using Hdays.
  assert (forall infos, exists l, summariesAfter d None infos = Ok l /\ Forall2 sameSummary l (map (summaryOf d) (List.filter needsAttention infos))) as Hnone.
  { clear infos. intros infos. induction infos as [|i infos IH]; [by exists []|]. destruct IH as (l & Hl & Hs). cbn [summariesAfter List.filter].
    destruct (needsAttention i); cbn [negb]; [|by exists l]. destruct (eventSummaryOf_ok d i) as (s & -> & Hsame). rewrite Hl.
    exists (s :: l). split; [done|]. by constructor. }
  destruct last as [id|]; [|destruct (Hnone infos) as (l & Hl & Hs); exists l; by destruct infos].
  induction infos as [|i infos IH]; [by exists []|]. cbn [summariesAfter after]. case_bool_decide; [apply Hnone|apply IH].
Qed.

(** Asking on after an object leaves what follows it. *)
Lemma after_suffix last infos : exists pre, infos = pre ++ after last infos.
Proof using Type.
  destruct last as [id|]; [|by exists []; destruct infos]. induction infos as [|i infos [pre IH]]; [by exists []|]. cbn [after]. case_bool_decide; [by exists [i]|].
  exists (i :: pre). cbn [app]. by f_equal.
Qed.
Lemma after_found pre i post : NoDup (map ei_Object (pre ++ i :: post)) -> after (Some (ei_Object i)) (pre ++ i :: post) = post.
Proof using Type.
  induction pre as [|j pre IH]; intros H; cbn [app after]; [by rewrite bool_decide_eq_true_2|]. inversion_clear H as [|? ? Hj H'].
  rewrite bool_decide_eq_false_2; [by apply IH|]. intros Heq. apply Hj. rewrite Heq. apply list_elem_of_fmap. exists i. split; [done|].
  apply elem_of_app. right. by left.
Qed.
Lemma filter_split {A} (f : A -> bool) l l1 a l2 : List.filter f l = l1 ++ a :: l2 ->
  exists s1 s2, l = s1 ++ a :: s2 /\ List.filter f s2 = l2.
Proof using Type.
  revert l1. induction l as [|x l IH]; intros l1 H; [by destruct l1|]. cbn [List.filter] in H. destruct (f x).
  - destruct l1 as [|y l1]; cbn [app] in H; injection H as -> H; [by exists [], l|]. destruct (IH _ H) as (s1 & s2 & -> & Hf). by exists (y :: s1), s2.
  - destruct (IH _ H) as (s1 & s2 & -> & Hf). by exists (x :: s1), s2.
Qed.

Lemma wanted_next d last page s rest : hosted d -> wanted d last = page ++ s :: rest -> wanted d (Some (es_Object s)) = rest.
Proof using Type.
  intros Hh H. unfold wanted in H. change (map ?f ?l) with (f <$> l) in H. apply fmap_app_inv in H as (l1 & l2' & Hpage & H2 & Hl).
  symmetry in H2. apply fmap_cons_inv in H2 as (i & l2 & -> & -> & ->).
  destruct (filter_split _ _ _ _ _ Hl) as (s1 & s2 & Hs & <-). destruct (after_suffix last (eventInfos d)) as [pre Hpre].
  pose proof (proj2 (eventInfos_spec d Hh)) as Hnd. unfold wanted. rewrite Hpre, Hs, app_assoc in Hnd |- *. cbn [es_Object summaryOf].
  by rewrite (after_found _ _ _ Hnd).
Qed.

(** ** One answer *)
Lemma largestFit_exact budget all wire n :
  Forall2 sameSummary all wire -> (n <= length all)%nat ->
  (forall k, (k <= n)%nat -> exists payload, EncodeGetEventInformationACK (mkEventInformationACK (take k wire) (Z.of_nat k <? len wire)) = Ok payload) ->
  exists k payload, (k <= n)%nat /\ largestFit budget all n = Ok payload /\
    EncodeGetEventInformationACK (mkEventInformationACK (take k wire) (Z.of_nat k <? len wire)) = Ok payload /\ (k = 0%nat \/ len payload <= budget) /\
    forall j payload', (k < j <= n)%nat -> EncodeGetEventInformationACK (mkEventInformationACK (take j wire) (Z.of_nat j <? len wire)) = Ok payload' -> budget < len payload'.
Proof using Type.
  intros Hs. assert (len all = len wire) as Hlen by (unfold len; by rewrite (Forall2_length _ _ _ Hs)).
  assert (forall k, EncodeGetEventInformationACK (mkEventInformationACK (take k all) (Z.of_nat k <? len all)) =
    EncodeGetEventInformationACK (mkEventInformationACK (take k wire) (Z.of_nat k <? len wire))) as Heq.
  { intros k. rewrite Hlen. apply encode_same. by apply Forall2_take. }
  induction n as [|n IH]; intros Hn He; cbn [largestFit]; rewrite Heq.
  - destruct (He 0%nat) as [payload Hp]; [done|]. exists 0%nat, payload. rewrite Hp. split_and!; try done; [by left|intros; lia].
  - destruct (He (S n)) as [payload Hp]; [done|]. rewrite Hp. cbn [bind]. destruct (len payload <=? budget) eqn:E; bool_to_prop.
    + exists (S n), payload. split_and!; try done; [by right|intros; lia].
    + destruct IH as (k & p & Hk & Hl & Hpk & Hb & Hmax); [lia|intros; apply He; lia|]. exists k, p. split_and!; [lia|done..|].
      intros j p' Hj Hpj. destruct (decide (j = S n)) as [->|Hne]; [|apply (Hmax j); [lia|done]]. rewrite Hp in Hpj. injection Hpj as <-. lia.
Qed.

Lemma summaryOf_fits lim d i : 8 <= MaxOctetStringLength lim -> hosted d -> i ∈ eventInfos d -> limits_positive lim ->
  summary_fits lim 1 (summaryOf d i) /\ elcounts (summaryElements (summaryOf d i)) <= 19.
Proof using Hdays.
  intros Hm Hh Hi Hlim. destruct (eventInfos_ok d i Hh Hi) as [H1 _ H2 H3 _ H4]. destruct (priorities_ok d (ei_NotificationClass i) Hh) as [Hl Hp]. split.
  - assert (forall mask, bs_fits lim (transitionBits mask)) as Hbits.
    { intros mask. destruct (transitionBits_typed mask) as [Ht Hb]. split; [done|]. rewrite Hb. unfold MaxUint32. lia. }
    split_and!; try done; [apply Hbits..|]. do 2 eexists. split; [reflexivity|]. split; [reflexivity|]. split.
    + apply Forall_forall. intros e (t & -> & _)%list_elem_of_fmap. apply wire_stamp; [done|apply stampOf_ok].
    + apply Forall_forall. intros e (p & -> & Hin)%list_elem_of_fmap. rewrite Forall_forall in Hp. specialize (Hp p Hin). unfold is_u in Hp.
      left. exists 2, (UnsignedValue p). split_and!; try done. apply ap_unsigned. unfold is_u. lia.
  - unfold summaryElements, summaryOf.
    cbn [es_Object es_EventState es_AcknowledgedTransitions es_EventTimeStamps es_NotifyType es_EventEnable es_EventPriorities av_Elements constructedValue].
    destruct (ei_TimeStamps i) as [|t1 [|t2 [|t3 [|]]]]; try done. destruct (priorities d _) as [|p1 [|p2 [|p3 [|]]]]; try done. cbn [map].
    pose proof (elcount_stamp (stampOf t1)). pose proof (elcount_stamp (stampOf t2)). pose proof (elcount_stamp (stampOf t3)).
    assert (forall p, elcount (appItem (UnsignedValue p)) = 1) as Hap by done. autorewrite with elc. rewrite !Hap. lia.
Qed.

Lemma infos_wanted d last s : s ∈ wanted d last -> exists i, i ∈ eventInfos d /\ s = summaryOf d i.
Proof using Type.
  unfold wanted. intros (i & -> & Hi)%list_elem_of_fmap. apply list_elem_of_In, filter_In in Hi as [Hi%list_elem_of_In _]. exists i. split; [|done].
  destruct (after_suffix last (eventInfos d)) as [pre ->]. apply elem_of_app. by right.
Qed.

Lemma wanted_length d last : (length (wanted d last) <= length (eventInfos d))%nat.
Proof using Type.
  unfold wanted. rewrite length_map. pose proof (filter_length_le needsAttention (after last (eventInfos d))). destruct (after_suffix last (eventInfos d)) as [pre Hpre].
  rewrite Hpre at 2. rewrite length_app. lia.
Qed.

(** The limits a client needs for all summaries at once. *)
Definition pages_room (lim : DecodeLimits) d : Prop := Codec.room lim 3 (2 + 19 * len (eventInfos d)).

(** An answer holds the first of the summaries that are wanted, as many as
    fit, and says whether there are more. *)
Lemma page_exact cfg lim d req last : hosted d -> pages_room lim d -> DecodeGetEventInformation (cr_Payload req) (sc_limits cfg) = Ok last ->
  exists payload k, (k <= length (wanted d last))%nat /\ getEventInformation cfg d req = Ok (complexACK payload) /\
    DecodeGetEventInformationACK payload lim = Ok (mkEventInformationACK (take k (wanted d last)) (Z.of_nat k <? len (wanted d last))) /\
    (k = 0%nat \/ len payload <= responseBudget cfg req) /\
    forall j, (k < j <= length (wanted d last))%nat -> exists payload',
      EncodeGetEventInformationACK (mkEventInformationACK (take j (wanted d last)) (Z.of_nat j <? len (wanted d last))) = Ok payload' /\
      responseBudget cfg req < len payload'.
Proof using Hdays.
  intros Hh (Hm & Hdep & Hel) Hdec. destruct (summariesAfter_exact d last (eventInfos d)) as (all & Hall & Hs). fold (wanted d last) in Hs.
  pose proof (wanted_length d last) as Hwl.
  assert (forall k, exists payload, EncodeGetEventInformationACK (mkEventInformationACK (take k (wanted d last)) (Z.of_nat k <? len (wanted d last))) = Ok payload /\
    DecodeGetEventInformationACK payload lim = Ok (mkEventInformationACK (take k (wanted d last)) (Z.of_nat k <? len (wanted d last)))) as Henc.
  { intros k. assert (forall s, s ∈ take k (wanted d last) -> summary_fits (Normalize lim) 1 s /\ elcounts (summaryElements s) <= 19) as Hfit.
    { intros s Hin. destruct (infos_wanted d last s) as (i & Hi & ->); [by eapply elem_of_take in Hin as (? & ? & ?); eapply list_elem_of_lookup_2|].
      apply summaryOf_fits; [done..|apply Normalize_positive]. }
    destruct (decode_encode lim (mkEventInformationACK (take k (wanted d last)) (Z.of_nat k <? len (wanted d last)))) as (bs & He & _ & Hd).
    - exists 1%nat. cbn [ei_Summaries]. split; [apply Forall_forall; intros s Hin; by apply Hfit|].
      assert (elcounts (concat (map summaryElements (take k (wanted d last)))) <= 19 * Z.of_nat (length (take k (wanted d last)))) as Hc.
      { clear -Hfit. induction (take k _) as [|s l IH]; [done|]. cbn [map concat]. rewrite elcounts_app. cbn [length].
        destruct (Hfit s) as [_ Hc]; [by left|]. specialize (IH (fun s' Hs' => Hfit s' (list_elem_of_further _ _ _ Hs'))). lia. }
      rewrite length_take in Hc. unfold len in Hel. split_and!; [done|lia|]. lia.
    - by exists bs. }
  destruct (largestFit_exact (responseBudget cfg req) all (wanted d last) (length all) Hs) as (k & payload & Hk & Hfit & Hp & Hb & Hmax); [done|intros k _; destruct (Henc k) as (p & He & _); by exists p|].
  rewrite (Forall2_length _ _ _ Hs) in Hk, Hmax. exists payload, k. split; [done|].
  split_and!; [|destruct (Henc k) as (p & He & Hd); congruence|done|intros j Hj; destruct (Henc j) as (p & He & _); exists p; split; [done|by apply (Hmax j)]].
  unfold getEventInformation. rewrite Hdec, Hall. cbn [bind]. by rewrite Hfit.
Qed.

(** ** The procedure of clause 13.12 *)

(** What a client collects that asks on after the last object it received
    until no more events are announced; [ask] puts a question in a request. *)
Inductive collects cfg lim d (ask : bytes -> ConfirmedRequest) : option ObjectIdentifier -> list EventSummary -> Prop :=
| collects_last last question payload page :
    EncodeGetEventInformation last = Ok question -> getEventInformation cfg d (ask question) = Ok (complexACK payload) ->
    DecodeGetEventInformationACK payload lim = Ok (mkEventInformationACK page false) -> collects cfg lim d ask last page
| collects_more last question payload page s rest :
    EncodeGetEventInformation last = Ok question -> getEventInformation cfg d (ask question) = Ok (complexACK payload) ->
    DecodeGetEventInformationACK payload lim = Ok (mkEventInformationACK (page ++ [s]) true) ->
    collects cfg lim d ask (Some (es_Object s)) rest -> collects cfg lim d ask last ((page ++ [s]) ++ rest).

Lemma infos_object d last : (match last with None => True | Some id => exists i, i ∈ eventInfos d /\ id = ei_Object i end) -> hosted d -> optP oid_ok last.
Proof using Type.
  destruct last as [id|]; [|done]. intros (i & Hi & ->) Hh. apply optP_Some. by apply (io_object i), (eventInfos_ok d).
Qed.

(** One question and its answer. *)
Lemma page_asked cfg lim d ask last : hosted d -> pages_room lim d -> Codec.room (sc_limits cfg) 0 1 ->
  (forall question, cr_Payload (ask question) = question) -> optP oid_ok last ->
  exists question payload k, EncodeGetEventInformation last = Ok question /\ (k <= length (wanted d last))%nat /\
    getEventInformation cfg d (ask question) = Ok (complexACK payload) /\
    DecodeGetEventInformationACK payload lim = Ok (mkEventInformationACK (take k (wanted d last)) (Z.of_nat k <? len (wanted d last))) /\
    forall j, (k < j <= length (wanted d last))%nat -> exists payload',
      EncodeGetEventInformationACK (mkEventInformationACK (take j (wanted d last)) (Z.of_nat j <? len (wanted d last))) = Ok payload' /\
      responseBudget cfg (ask question) < len payload'.
Proof using Hdays.
  intros Hh Hroom Hroom' Hask Hlast. destruct (decode_encode (sc_limits cfg) last) as (question & He & _ & Hd); [by split|].
  cbn [encode decode GetEventInformation_Codec] in He, Hd. rewrite <- (Hask question) in Hd.
  destruct (page_exact cfg lim d (ask question) last Hh Hroom Hd) as (payload & k & Hk & Hg & Hdec & _ & Hmax). by exists question, payload, k.
Qed.

Lemma take_last {A} k (l : list A) : (0 < k < length l)%nat -> exists page s s' rest, take k l = page ++ [s] /\ l = page ++ s :: s' :: rest.
Proof using Type.
  intros Hk. destruct (lookup_lt_is_Some_2 l (k - 1)) as [s Hs]; [lia|]. destruct (lookup_lt_is_Some_2 l k) as [s' Hs']; [lia|].
  exists (take (k - 1) l), s, s', (drop (S k) l). split.
  - replace k with (S (k - 1)) at 1 by lia. by apply take_S_r.
  - rewrite <- (drop_S l s' k) by done. replace k with (S (k - 1)) at 2 by lia. rewrite <- drop_S by done. by rewrite take_drop.
Qed.

(** C19. Event information is complete over any number of answers: provided
    the summary of a single object fits an answer, a client that asks on
    after the last object it received until no more events are announced
    comes to an end, and has received the summary of every object of the
    device that is not in NORMAL or has an unacknowledged transition, once
    each and in the order of the object list, with the time stamps and the
    priorities of its Notification Class. *)
Theorem event_information_collected cfg lim d ask budget : hosted d -> pages_room lim d -> Codec.room (sc_limits cfg) 0 1 ->
  (forall question, cr_Payload (ask question) = question /\ responseBudget cfg (ask question) = budget) ->
  (forall s more payload, s ∈ wanted d None -> EncodeGetEventInformationACK (mkEventInformationACK [s] more) = Ok payload -> len payload <= budget) ->
  let all := map (summaryOf d) (List.filter (fun i => negb ((ei_EventState i =? EventStateNormal) && (ei_Acked i =? 7))) (eventInfos d)) in
  collects cfg lim d ask None all /\ forall l, collects cfg lim d ask None l -> l = all.
Proof using Hdays.
  fold needsAttention. intros Hh Hroom Hroom' Hask Hfits all. assert (all = wanted d None) as -> by (unfold all, wanted; by destruct (eventInfos d)).
  assert (forall question, cr_Payload (ask question) = question) as Hq by (intros; apply Hask).
  assert (forall last page s rest, wanted d last = page ++ s :: rest -> optP oid_ok (Some (es_Object s)) /\ wanted d (Some (es_Object s)) = rest) as Hnext.
  { intros last page s rest Hw. split; [|by eapply wanted_next]. destruct (infos_wanted d last s) as (i & Hi & ->); [rewrite Hw; apply elem_of_app; right; by left|].
    apply (infos_object d); [|done]. by exists i. }
  split.
  - assert (forall n last, (length (wanted d last) <= n)%nat -> optP oid_ok last -> (forall s, s ∈ wanted d last -> s ∈ wanted d None) ->
      collects cfg lim d ask last (wanted d last)) as Hall; [|apply (Hall (length (wanted d None))); [done|done|tauto]].
    induction n as [|n IH]; intros last Hn Hlast Hsub; destruct (page_asked cfg lim d ask last Hh Hroom Hroom' Hq Hlast) as (question & payload & k & He & Hk & Hg & Hd & Hmax).
    + apply (collects_last _ _ _ _ _ question payload); [done..|]. rewrite Hd. replace (Z.of_nat k <? len (wanted d last)) with false by (symmetry; unfold len; lia).
      by rewrite take_ge by lia.
    + destruct (decide (k = length (wanted d last))) as [->|Hne].
      * apply (collects_last _ _ _ _ _ question payload); [done..|]. rewrite Hd, firstn_all. by replace (_ <? len (wanted d last)) with false by (symmetry; unfold len; lia).
      * destruct (take_last k (wanted d last)) as (page & s & s' & rest & Ht & Hw).
        { split; [|lia]. destruct k as [|k]; [|lia]. exfalso. destruct (wanted d last) as [|s rest] eqn:Ew; [done|].
          destruct (Hmax 1%nat) as (bs & Hbs & Hlong); [cbn [length]; lia|]. cbn [take] in Hbs. rewrite (proj2 (Hask question)) in Hlong.
          pose proof (Hfits s _ _ (Hsub s (list_elem_of_here _ _)) Hbs). lia. }
        destruct (Hnext last page s (s' :: rest) Hw) as [Hok Hrest].
        replace (wanted d last) with ((page ++ [s]) ++ wanted d (Some (es_Object s))) by (rewrite Hw, Hrest, <- app_assoc; done).
        apply (collects_more _ _ _ _ _ question payload); [done..| |].
        -- rewrite Hd, Ht. by replace (_ <? len (wanted d last)) with true by (symmetry; unfold len; lia).
        -- apply IH; [rewrite Hrest; rewrite Hw, length_app in Hn; cbn [length] in *; lia|done|]. intros x Hx. apply Hsub. rewrite Hw. rewrite Hrest in Hx.
           apply elem_of_app. right. right. exact Hx.
  - assert (forall last l, collects cfg lim d ask last l -> optP oid_ok last -> l = wanted d last) as Huniq; [|intros l Hl; by apply (Huniq None)].
    induction 1 as [last question payload page He Hg Hd|last question payload page s rest He Hg Hd Hc IH]; intros Hlast;
      destruct (page_asked cfg lim d ask last Hh Hroom Hroom' Hq Hlast) as (question' & payload' & k & He' & Hk & Hg' & Hd' & _);
      rewrite He in He'; injection He' as <-; rewrite Hg in Hg'; injection Hg' as <-; rewrite Hd in Hd'; injection Hd' as Ht Hmore.
    + rewrite Ht, take_ge; [done|]. unfold len in Hmore. symmetry in Hmore. apply Z.ltb_ge in Hmore. lia.
    + assert (wanted d last = page ++ s :: drop k (wanted d last)) as Hw by (rewrite <- (take_drop k (wanted d last)) at 1; rewrite <- Ht, <- app_assoc; done).
      destruct (Hnext _ _ _ _ Hw) as [Hok Hrest]. rewrite (IH Hok), Hrest, <- app_assoc. by symmetry.
Qed.
End Pages.
