(* ===== verification/ObjectWitnesses.v ===== *)
(** * The object services at concrete inputs

    The devices of [ServerWitnesses.v] and one with the Notification Class of
    [NotificationWitnesses.v]: the theorems of [ObjectService.v] applied to
    them. *)

From Stdlib Require Import ZArith Lia.
From stdpp Require Import base list gmap relations.
From S2P Require Import Prelude Value Ids Tags Constructed Apdu Codec Access Responder ServerKey ServerPacket Object Commandable Events Point PointWitnesses Device DeviceSafety DataHandlers DataService ServerWitnesses PropertyValues ObjectServices ObjectHandlers ObjectCreation ObjectService NotificationClass NotificationWitnesses.
#[local] Open Scope Z_scope.

(** Points have no lists. *)
#[export] Instance Point_list : ListOps (Base pointState) := {| changeElements _ := None |}.

(** A binary value whose second initial value has the wrong type. *)
Definition badCreate : CreateObjectRequest := mkCreateObject (Some ObjectTypeBinaryValue) None
  [mkPropertyValue (wholeRef PropertyObjectName) (charString [88]) None; mkPropertyValue presentRef (UnsignedValue 1) None].
Definition badPayload : bytes := Eval vm_compute in okOr [] (EncodeCreateObject badCreate).
Definition badResult := createObject sampleServer device2 badPayload.

Lemma badPayload_decodes : DecodeCreateObject badPayload (sc_limits sampleServer) = Ok badCreate.
Proof. by vm_compute. Qed.
Lemma honest_factory {O : Type} `{!ObjectOps O} ty f (d : Device O) : tb_factories (tablesOf d) = ∅ ->
  (forall i n o, f i n = Ok o -> Identifier o = mkObjectID ty i /\ Name o = n) -> honest (RegisterFactory ty f d).
Proof.
  intros Hnone Hf ty' f' i n o Hl Ho. change (tb_factories (tablesOf (RegisterFactory ty f d))) with (<[ty := f]> (tb_factories (tablesOf d))) in Hl.
  rewrite Hnone in Hl. destruct (decide (ty' = ty)) as [->|Hne]; [|by rewrite lookup_insert_ne, lookup_empty in Hl].
  rewrite lookup_insert_eq in Hl. injection Hl as <-. by apply Hf.
Qed.
Lemma device2_honest : honest device2.
Proof.
  apply honest_factory; [apply map_size_empty_iff; by vm_compute|]. intros i n o Ho. destruct (makeValue_honest i n o Ho) as (Hi & Hn & _). by split.
Qed.
Definition isComplex (r : svcResult) : bool := match r with complexACK _ => true | _ => false end.

Lemma create_object_atomic_witness : failedElement DefaultDecodeLimits (fst (fst badResult)) = Some (ErrorClassProperty, ErrorCodeInvalidDataType, 2) /\
  tb_objects (tablesOf (snd badResult)) = tb_objects (tablesOf device2) /\ tb_names (tablesOf (snd badResult)) = tb_names (tablesOf device2).
Proof.
  split; [vm_compute; reflexivity|].
  assert (createObject sampleServer device2 badPayload = (fst (fst badResult), snd (fst badResult), snd badResult)) as H
    by (fold badResult; by rewrite <- !surjective_pairing).
  assert (Codec.room DefaultDecodeLimits 1 4) as Hroom by (vm_compute; intuition congruence).
  pose proof (create_object_atomic sampleServer 0 deviceConfig device0 device2 badPayload _ _ _ DefaultDecodeLimits device_new ltac:(by vm_compute)
    device_run2 device2_honest ltac:(unfold badPayload; solve_bytes) Hroom H) as Hc.
  rewrite badPayload_decodes in Hc. cbv zeta in Hc. destruct Hc as (t & inst & _ & [(id & answer & d1 & o & o' & changes & Hres & _)|(e & first & _ & Hsame & _)]).
  - exfalso. assert (isComplex (fst (fst badResult)) = false) as Hf by (by vm_compute). rewrite Hres in Hf. discriminate.
  - exact Hsame.
Defined.

(** A device with a fan that may be deleted. *)
Definition device3 : aDevice := snd (okOr ([], noDevice) (Add (SetDeletable true fan0) device0)).
Lemma device_added3 : Add (SetDeletable true fan0) device0 = Ok (fst (okOr ([], noDevice) (Add (SetDeletable true fan0) device0)), device3).
Proof. unfold device3. rewrite <- surjective_pairing. apply okOr_Ok. by vm_compute. Qed.
Lemma device_run3 : rtc device_step device0 device3.
Proof. eapply rtc_once, dstep_add, device_added3. Qed.
Lemma fan_found3 : exists e, Object device3 fanID = Some e /\
  entryDeletable device3 e && negb (bool_decide (entryIdentifier device3 e = Identifier device3)) = true.
Proof.
  assert (match Object device3 fanID with
    | Some e => entryDeletable device3 e && negb (bool_decide (entryIdentifier device3 e = Identifier device3)) | None => false end = true) as H
    by (by vm_compute).
  destruct (Object device3 fanID) as [e|]; [|discriminate]. by exists e.
Qed.

Lemma delete_object_exact_witness : exists payload, EncodeDeleteObject (mkDeleteObject fanID) = Ok payload /\
  let '(res, cs, removed, d') := deleteObject sampleServer None device3 payload in
  res = ack /\ removed = Some fanID /\ Object d' fanID = None.
Proof.
  destruct fan_found3 as (e & He & Hd).
  destruct (delete_object_exact sampleServer 0 deviceConfig device0 device3 None fanID device_new device_run3) as (payload & Hp & H).
  - vm_compute. intuition congruence.
  - vm_compute. intuition congruence.
  - exists payload. split; [exact Hp|]. destruct (deleteObject _ _ _ payload) as [[[res cs] removed] d']. unfold aDevice in Hd. rewrite He, Hd in H.
    destruct H as (H1 & H2 & H3 & _). split; [exact H1|split; [exact H2|exact H3]].
Defined.

(** A device with a Notification Class. *)
Definition classDevice : Type := Device (Base classState).
Definition noClassDevice : classDevice := NewBase (mkObjectID 0 0) [] (mkTables deviceConfig ∅ ∅ 0 ∅ 0 ∅ 0 None 0).
Definition classDevice0 : classDevice := okOr noClassDevice (NewDevice 0 deviceConfig).
Definition classDevice1 : classDevice := snd (okOr ([], noClassDevice) (Add alarms0 classDevice0)).
Lemma class_device_new : NewDevice 0 deviceConfig = Ok classDevice0.
Proof. apply okOr_Ok. by vm_compute. Qed.
Lemma class_device_run : rtc device_step classDevice0 classDevice1.
Proof.
  assert (Add alarms0 classDevice0 = Ok (fst (okOr ([], noClassDevice) (Add alarms0 classDevice0)), classDevice1)) as H
    by (unfold classDevice1; rewrite <- surjective_pairing; apply okOr_Ok; by vm_compute).
  eapply rtc_once, dstep_add, H.
Qed.

(** A list request for an object the device does not have. *)
Definition listRequest : ListElementRequest := mkListElement (mkObjectID ObjectTypeNotificationClass 9) (wholeRef PropertyRecipientList)
  [appElement 2 (UnsignedValue 1)].
Lemma list_change_served_witness : exists payload, EncodeListElementRequest listRequest = Ok payload /\
  let '(res, cs, d') := changeList sampleServer None true classDevice1 payload in
  d' = classDevice1 /\ failedElement DefaultDecodeLimits res = Some (ErrorClassObject, ErrorCodeUnknownObject, 0).
Proof.
  destruct (list_change_served sampleServer 0 deviceConfig classDevice0 classDevice1 None true listRequest DefaultDecodeLimits class_device_new class_device_run)
    as (payload & Hp & H).
  - split; [vm_compute; intuition congruence|]. split; [split; [vm_compute; intuition congruence|done]|]. split; [done|]. exists 0%nat. split.
    + apply List.Forall_cons; [|apply List.Forall_nil]. left. exists 2, (UnsignedValue 1). split_and!; try done. apply ap_unsigned. unfold is_u. lia.
    + vm_compute. intuition congruence.
  - vm_compute. intuition congruence.
  - exists payload. split; [exact Hp|]. destruct (changeList _ _ _ _ payload) as [[res cs] d'].
    assert (Object classDevice1 (le_Object listRequest) = None) as Hn.
    { assert (found (Object classDevice1 (le_Object listRequest)) = false) as Hf by (by vm_compute). by destruct (Object classDevice1 _). }
    rewrite Hn in H. destruct H as (_ & H1 & _ & H2). split; [exact H1|]. apply H2; [|unfold is_u; lia]. split; vm_compute; intuition congruence.
Defined.
