(* ===== verification/EventWitnesses.v ===== *)
(** * Intrinsic reporting at concrete inputs

    A device with the analog input of [PointWitnesses.v], which is over its
    high limit, and a Notification Class for it: the theorems of
    [EventLoop.v], [EventService.v], [EventSummaries.v] and [EventPages.v]
    applied to it. *)

From Stdlib Require Import ZArith Lia.
From stdpp Require Import base list gmap relations.
From S2P Require Import Prelude Value Ids Tags Constructed Apdu Codec Access Address Endpoint Responder ServerPacket Object Commandable Events Point PointSafety EventDetection PointWitnesses Device DeviceSafety ServerWitnesses PropertyValues NotificationClass RecipientList NotificationWitnesses AlarmServices EventInformation EnrollmentSummary EventNotification ServerObjects EventEngine EventLoop EventNotes EventDelivery Hosted EventService EventSummaries EventPages.
#[local] Open Scope Z_scope.

(** One recipient on the local network, at any time, for every transition. *)
Definition operator : Destination := mkDestination 127 anyTime anyTime None 0 [192; 168; 0; 9; 186; 192] 31 false 7.
Definition roomClass : NotificationClassConfig := mkNCConfig 1 [78] [] None 7 [operator] 4.
Definition roomClass0 : Base classState := okOr noClass (NewNotificationClass roomClass).
Lemma roomClass_new : NewNotificationClass roomClass = Ok roomClass0.
Proof. apply okOr_Ok. by vm_compute. Qed.
Lemma roomClass_fits : config_fits roomClass.
Proof.
  split; [apply Forall_singleton; split; cbn; unfold is_u; try lia; split; [lia|by vm_compute]|]. split; [unfold is_u; cbn; lia|done].
Qed.

Lemma room1_served : object_served (inl room1).
Proof.
  split.
  - split.
    + intros lim. assert (pointPresent (o_state (b_view room1)) = RealValue 0x43160000) as -> by (by vm_compute). apply ap_real. unfold is_u. lia.
    + assert (pt_reliability (o_state (b_view room1)) = 0) as -> by (by vm_compute). done.
    + intros i Hi. assert (in_cfg <$> pt_intrinsic (o_state (b_view room1)) = Some limits) as H by (by vm_compute). rewrite Hi in H. injection H as ->.
      split; unfold is_u; cbn; unfold NotifyAlarm; lia.
  - destruct (run_ok _ _ _ _ _ _ _ _ room_typed room_new (room_run _ room_warms)) as [[states Hb] _]. exists false, kindAnalog, states. split; [exact Hb|].
    rewrite <- (ob_states _ _ _ _ Hb). apply (ok_states _ _ (ob_point _ _ _ _ Hb)).
Qed.

Definition noEventDevice : Device ServerObject := NewBase (mkObjectID 0 0) [] (mkTables deviceConfig ∅ ∅ 0 ∅ 0 ∅ 0 None 0).
Definition eventDevice0 : Device ServerObject := okOr noEventDevice (NewDevice 0 deviceConfig).
Definition added1 := okOr ([], noEventDevice) (Add (inl room1 : ServerObject) eventDevice0).
Definition added2 := okOr ([], noEventDevice) (Add (inr roomClass0 : ServerObject) (snd added1)).
Definition eventDevice : Device ServerObject := snd added2.
Definition roomID : ObjectIdentifier := mkObjectID 0 1.

Lemma eventDevice_new : NewDevice 0 deviceConfig = Ok eventDevice0.
Proof. apply okOr_Ok. by vm_compute. Qed.
Lemma eventDevice_hosted : hosted eventDevice.
Proof.
  apply (hosted_run 0 deviceConfig eventDevice0); [apply eventDevice_new| |].
  - assert (Identifier eventDevice0 = mkObjectID 8 1234) as -> by (by vm_compute). unfold oid_ok, MaxObjectInstance. cbn. lia.
  - eapply rtc_l; [|eapply rtc_l; [|apply rtc_refl]].
    + apply (hosted_add _ (inl room1) (fst added1) (snd added1)); [apply room1_served| |].
      * assert (Identifier (inl room1 : ServerObject) = roomID) as -> by (by vm_compute). unfold oid_ok, MaxObjectInstance. cbn. lia.
      * rewrite <- surjective_pairing. apply okOr_Ok. by vm_compute.
    + apply (hosted_add _ (inr roomClass0) (fst added2) (snd added2)).
      * apply (NewNotificationClass_ok roomClass); [apply roomClass_fits|apply roomClass_new].
      * assert (Identifier (inr roomClass0 : ServerObject) = mkObjectID 15 1) as -> by (by vm_compute). unfold oid_ok, MaxObjectInstance. cbn. lia.
      * rewrite <- surjective_pairing. apply okOr_Ok. by vm_compute.
Qed.

(** Event detection at 100 s and, with the time delay over, at 103 s. *)
Definition found100 := evaluateObject eventDevice (100 * second) roomID.
Definition device100 : Device ServerObject := snd found100.
Definition found103 := evaluateObject device100 (103 * second) roomID.
Definition device103 : Device ServerObject := snd found103.
Lemma found100_eq : evaluateObject eventDevice (100 * second) roomID = (fst (fst found100), snd (fst found100), device100).
Proof. fold found100. unfold device100. by rewrite <- !surjective_pairing. Qed.
Lemma found103_eq : evaluateObject device100 (103 * second) roomID = (fst (fst found103), snd (fst found103), device103).
Proof. fold found103. unfold device103. by rewrite <- !surjective_pairing. Qed.
Lemma device100_hosted : hosted device100.
Proof. exact (hosted_evaluated _ _ _ _ _ _ eventDevice_hosted found100_eq). Qed.
Lemma device103_hosted : hosted device103.
Proof. exact (hosted_evaluated _ _ _ _ _ _ device100_hosted found103_eq). Qed.
Lemma found_report : exists ev, fst (fst found103) = [ev] /\ ev_Object ev = roomID /\ ev_To ev = EventStateHighLimit /\ ev_Transition ev = 0 /\ ev_TimeStamp ev = 103 * second.
Proof. eexists. split; [vm_compute; reflexivity|]. by split_and!. Qed.
Definition roomReport : EventTransition := hd (mkTransition roomID 0 0 0 0 0 0 0 None) (fst (fst found103)).
Lemma found_hd ev : fst (fst found103) = [ev] -> roomReport = ev.
Proof. intros H. unfold roomReport. by rewrite H. Qed.
Lemma oneDay_weekdays : weekdays.
Proof. intros t. cbn. lia. Qed.

Definition allowed : dccState := mkDcc EnableDisableEnable None.
Definition isUnicast (r : result (list sending * dccState)) : bool := match r with Ok ([sendUnconfirmed _ false _ _], _) => true | _ => false end.

(** The high limit is reported to the operator. *)
Lemma event_notification_delivered_witness : exists ev, fst (fst found103) = [ev] /\
  delivers device103 (103 * second) ∅ allowed newEventEngine DefaultDecodeLimits ev /\
  isUnicast (EventEngine.report device103 (103 * second) ∅ allowed newEventEngine ev) = true.
Proof.
  destruct found_report as (ev & Hev & _). exists ev. split; [exact Hev|]. split.
  - apply (event_notification_delivered oneDay_weekdays DefaultDecodeLimits device100 (103 * second) roomID (fst (fst found103)) (snd (fst found103)) device103 ev device100_hosted).
    + unfold note_room, Codec.room. vm_compute. intuition congruence.
    + exact found103_eq.
    + rewrite Hev. by left.
  - rewrite <- (found_hd ev Hev). by vm_compute.
Defined.


(** ** Summaries after the report *)
Definition allEnrollments : GetEnrollmentSummaryRequest := mkEnrollmentRequest 0 None (Some 4) None (Some (0, 255)) (Some 1).
Lemma one_selected {A} (x : A) (l : list A) : sublist l [x] -> x ∈ l -> l = [x].
Proof.
  intros Hs Hx. apply sublist_cons_r in Hs as [Hs|(l' & -> & Hs)]; apply sublist_nil_r in Hs; subst; [by apply elem_of_nil in Hx|done].
Qed.

Definition roomInfo : EventInfo := Eval vm_compute in hd (mkEventInfo roomID 0 0 0 [] 0 0 0) (eventInfos device103).
Lemma roomInfo_only : eventInfos device103 = [roomInfo].
Proof. vm_compute. reflexivity. Qed.
Lemma roomInfo_passes : passesTest device103 allEnrollments roomInfo = true.
Proof. vm_compute. reflexivity. Qed.
Lemma roomInfo_priority : priorityOf device103 roomInfo = 255.
Proof. vm_compute. reflexivity. Qed.

Lemma event_summaries_exact_witness : exists payload summary question answer, getAlarmSummary sampleServer device103 [] = complexACK payload /\
  DecodeGetAlarmSummaryACK payload DefaultDecodeLimits = Ok [summary] /\ as_Object summary = roomID /\ as_AlarmState summary = EventStateHighLimit /\
  getEnrollmentSummary sampleServer device103 question = Ok (complexACK answer) /\
  DecodeGetEnrollmentSummaryACK answer DefaultDecodeLimits = Ok [mkEnrollment roomID EventTypeOutOfRange EventStateHighLimit 255 1 false].
Proof.
  destruct (event_summaries_exact sampleServer DefaultDecodeLimits device103 allEnrollments device103_hosted)
    as (_ & (payload & summaries & H1 & H2 & H3) & question & answer & selected & _ & H4 & H5 & H6 & H7).
  - split; [|vm_compute; intuition congruence]. unfold request_ok. cbn. split_and!; try done; try apply optP_Some; try (unfold is_u; cbn; lia).
    split; unfold is_u; cbn; lia.
  - by vm_compute.
  - rewrite roomInfo_only. unfold Codec.room. vm_compute. intuition congruence.
  - fold inAlarm in H3. rewrite roomInfo_only in H3, H5. change (List.filter inAlarm [roomInfo]) with [roomInfo] in H3.
    apply Forall2_cons_inv_l in H3 as (summary & rest & (S1 & S2 & _) & Hnil & ->). apply Forall2_nil_inv_l in Hnil as ->.
    rewrite (one_selected roomInfo selected) in H7; [|exact H5|].
    + exists payload, summary, question, answer. split; [exact H1|]. split; [exact H2|]. split; [exact S1|]. split; [exact S2|]. split; [exact H4|].
      rewrite H7. cbn [map]. rewrite <- (priorityOf_summary device103 roomInfo device103_hosted), roomInfo_priority. reflexivity.
    + apply H6. split; [rewrite roomInfo_only; by left|]. apply (passesTest_spec device103 allEnrollments roomInfo device103_hosted). exact roomInfo_passes.
Defined.

(** A client collects the event information. *)
Definition asking (question : bytes) : ConfirmedRequest := mkConfirmedRequest false false true 0 5 9 0 0 29 question.
Definition roomSummary : EventSummary := hd (mkEventSummary roomID 0 (mkBitString 0 []) NullValue 0 (mkBitString 0 []) NullValue) (wanted device103 None).
Lemma wanted_room : wanted device103 None = [roomSummary].
Proof. by vm_compute. Qed.
Definition fitsBudget (more : bool) : bool :=
  match EncodeGetEventInformationACK (mkEventInformationACK [roomSummary] more) with Ok payload => len payload <=? 94144 | Err _ => true end.
Lemma event_information_collected_witness :
  collects sampleServer DefaultDecodeLimits device103 asking None (map (summaryOf device103) (List.filter needsAttention (eventInfos device103))).
Proof.
  apply (event_information_collected oneDay_weekdays sampleServer DefaultDecodeLimits device103 asking 94144 device103_hosted).
  - assert (length (eventInfos device103) = 1%nat) as Hl by (by vm_compute). unfold pages_room, len. rewrite Hl. unfold Codec.room. vm_compute. intuition congruence.
  - unfold Codec.room. vm_compute. intuition congruence.
  - intros question. split; [done|]. by vm_compute.
  - intros s more payload Hs He. rewrite wanted_room in Hs. apply list_elem_of_singleton in Hs as ->.
    assert (fitsBudget more = true) as Hf by (destruct more; by vm_compute). unfold fitsBudget in Hf. rewrite He in Hf. by apply Z.leb_le.
Defined.

(** A second passes, the engine evaluates the point and waits again. *)
Definition engine1 : eventEngine := tick eventDevice newEventEngine.
Definition engine2 : eventEngine := default newEventEngine (takeKick engine1).
Definition engine3 : eventEngine := snd (takeDirty engine2).
Definition engineRun : list loopEvent := (((([] ++ map Marked (reporters eventDevice)) ++ []) ++ []) ++ (Evaluated roomID (100 * second) (fst (fst found100)) :: marksOf (snd (fst found100)))) ++ [].
Lemma event_engine_safe_witness : exists now evs, Evaluated roomID now evs ∈ tail engineRun.
Proof.
  assert (loop_run eventDevice engineRun (mkEventWorld device100 (changesMarked (snd (fst found100)) engine3) waiting)) as Hrun.
  { eapply run_next; [|apply loop_again]. eapply run_next; [|apply loop_evaluate; exact found100_eq].
    replace [roomID] with (fst (takeDirty engine2)) by (by vm_compute). eapply run_next; [|apply loop_take].
    eapply run_next; [|apply (loop_kick _ engine1 engine2); by vm_compute]. eapply run_next; [apply run_start|apply loop_tick]. }
  destruct (event_engine_safe eventDevice engineRun _ Hrun) as [H _]. apply (H eq_refl ltac:(by vm_compute) roomID []). by vm_compute.
Defined.
